(* ===== verification/_CoqProject ===== *)
-Q . S2P
Prelude.v
Bytes.v
GoStrings.v
Chars.v
Net.v
Regex.v
Hashing.v
Sorting.v
Json.v
VkErrors.v
Form.v
Obfs.v
Replay.v
DirectConn.v
Dispatcher.v
Slider.v
Creds.v
Captcha.v
CaptchaChain.v
TokenChain.v
Hashes.v
WorkerGroup.v
Protocol.v
Session.v
WgConfig.v
CoreRuntime.v
SessionRun.v
SessionLoop.v
Flags.v
Ip.v
Router.v
Url.v
Links.v
Dns.v
Effects.v
Threads.v
WgParse.v
Tunnel.v
Profiles.v
Subscription.v
Targets.v
Connect.v
Running.v
Commands.v
Share.v
SubCommands.v
Listing.v
Disconnect.v
Listen.v
Supervisor.v
Control.v
BlFiles.v
Paths.v
BlCommand.v
Import.v
GroupRun.v
NftRule.v
RawTun.v
Runner.v
Names.v
Usage.v
Fetch.v
SelfTest.v
TestCmd.v
Cursor.v
Requests.v
CoreStart.v
Process.v
Browsers.v
Monitor.v
Cli.v
Debug.v
SplitCfg.v
ChainRequests.v
Dialing.v
Farewell.v
SubReport.v
