(* ===== verification/Prelude.v ===== *)
(** * Verification of the qWDTT client

    qWDTT is a VPN client that carries WireGuard (or raw IP) packets through TURN relays of a call
    service.  It fetches TURN credentials from the service, solving captchas on the way; opens
    several dozen relay sessions ("workers"), each obfuscated as RTP; spreads the packets of the
    tunnel over the workers; and asks the server for the tunnel's configuration through one of them.
    Around this core is a command line with profiles, subscriptions, bypass lists, and daemons that
    hold the connections.  This library models the Go code of [src/] and proves what makes it correct.

    ** The core (src/internal/core/) and how its parts interact

    [core.go] validates the configuration, plans the workers and starts groups of nine
    ([CoreRuntime.v]; [CoreStart.v] is the start with what it acquires and releases, and the end of a
    run).  A group ([group.go]; [WorkerGroup.v] for its decisions, [GroupRun.v] for the
    groups over time, [Hashes.v]) fetches credentials
    ([creds.go]; [Creds.v] for the cache and the throttle, [TokenChain.v] for the request chains,
    [VkErrors.v] for the errors and the reading of responses), which may need a captcha
    ([CaptchaChain.v] chooses a solver, [Captcha.v] is the automatic one, [Slider.v] its slider
    puzzle, [Cursor.v] the track of the cursor on it, [Form.v] the form encoding; [Requests.v] makes
    the solver's HTTP requests and [ChainRequests.v] those for credentials, [Browsers.v] holds the
    browser identities they show, [profiles.go]; [Names.v] makes up names, [namegen.go]), and runs the sessions of its workers ([session.go]).  A
    session connects ([Session.v], [SessionRun.v] from start to end with what it acquires and
    releases) through a TURN relay either under DTLS or directly ([DirectConn.v]), in both cases
    through the packet obfuscation of [obfs.go] ([Obfs.v]) and its replay window ([Replay.v]); one
    worker asks for the configuration ([protocol.go]; [Protocol.v], [WgConfig.v]); then the
    goroutines of the session run ([SessionLoop.v], [Farewell.v] the one of raw mode) beside the dispatcher ([dispatcher.go];
    [Dispatcher.v]) that spreads packets over the workers.  [Dns.v] holds the DNS settings and DNS
    over HTTPS ([doh.go], [creds.go]), whose TLS is in [Dialing.v], [Router.v] the bypass router of the SOCKS server
    ([socks_router.go]) and [Runner.v] the server itself ([wireproxy_runner.go]).  In raw mode the
    core makes a TUN device of its own ([tun_linux.go]; [RawTun.v], with its nftables rule in
    [NftRule.v]).

    ** The client (src/) and how its parts interact

    - Data: [Url.v] and [Links.v] (server links, [url_parser.go]), [Profiles.v] (profiles and state
      files, [profile.go], [config.go]), [SplitCfg.v] (the state file of a running profile), [Subscription.v] and [Fetch.v] ([subscription.go],
      [translit.go]),
      [BlFiles.v] (bypass lists), [Paths.v] (spellings of a file's path), [Ip.v] (addresses and
      networks, package net).
    - The kernel: [WgParse.v] reads a WireGuard configuration, [Tunnel.v] is the interface with its
      addresses and routes ([wireguard_linux.go]), [Dialing.v] has the probes of a tunnel.
    - Connections: [Connect.v] is one session of a profile ([connect.go], [tryConnectProfile]),
      [Supervisor.v] the connect command and the daemon that runs sessions, [Control.v] the
      daemon's control socket ([captcha_socket.go]), [Running.v] what commands find out about
      daemons ([utils.go]), [Usage.v] the statistics they print and the choice of a profile, [Disconnect.v] how they are stopped,
      [Listen.v] the address of the SOCKS server.  [Process.v] is the daemon as a process: its
      files, the fork with its parent, its signals ([daemon.go], [connect.go]); [Monitor.v] watches
      for suspensions and spaces the notifications ([suspend.go], [notify.go]).
    - Self-test ([test.go]): [SelfTest.v] is the test of one profile or link, [TestCmd.v] the
      command that selects what is tested.
    - The command line ([commands.go]): [Flags.v] parses it, [Targets.v] selects profiles,
      [Commands.v] changes them, [Listing.v] lists them, [Share.v] and [Import.v] write and read
      them, [SubCommands.v] handles subscriptions ([SubReport.v] is what it shows), [BlCommand.v] bypass lists, [Cli.v] dispatches
      ([cli.go]), completes words and shows logs, [Debug.v] reports what runs.

    ** Shared files

    - [Prelude.v] (this file): integers with their wrap-around, errors, tactics ([propify],
      [split_guard], [split_option]), the hint database [qwdtt], lemmas on lists and sets.
    - [Bytes.v]: big-endian fields and slices.  [GoStrings.v], [Chars.v]: the functions of packages
      strings and strconv the client uses, on byte strings, with their round trips.  [Net.v]:
      SplitHostPort and JoinHostPort.  [Regex.v]: leftmost-first matching.  [Hashing.v]:
      hexadecimal, base64, SHA-256.  [Sorting.v]: a stable sort.  [Json.v]: decoded JSON values and
      exact float64 numbers.  [Effects.v]: the state monad and its rules [sat] and [keeps].
      [Threads.v]: programs as trees of atomic calls, their interleavings by a schedule, and what a
      program ensures whatever another one does between its calls ([wp]).

    ** Correspondence

    State is explicit: a Go struct is a Record, a method a function from the record and its arguments
    to the new record and its result; a call that can fail returns [result] or [option].  Goroutines
    that share state are steps of a relation on the shared state, one step per atomic section: the
    dispatcher ([Dispatcher.step]), the election of the configuration request ([WorkerGroup.gstep]),
    the goroutines of a session ([SessionLoop]), the shutdown of the core ([CoreRuntime.rstep]);
    or two programs run by every schedule, as the configuration of the raw device and the end of its
    session are ([RawTun.raw_session]).
    Time, randomness, the network, DTLS and TURN are arguments: a function from the place of a call
    to its outcome, so that equal calls may have different outcomes.

    Code that calls the system runs in a state monad whose state holds the history of the calls made
    so far; what a call returns is a function of that history, given by a type class: [Tunnel.World]
    (netlink, clock, caches), [Connect.Host] (profiles and the core, as a session sees them),
    [Supervisor.Daemon] (signals, wake-ups, time), [SelfTest.Tested] (what a test asks the core and
    the files), [Disconnect.Machine] (processes and pid files).
    Commands on files run over a map from paths to contents, with [Profiles.Disk] saying which
    writes fail.  Other interfaces: [Obfs.Cipher] with [Obfs.CipherLaws] (ChaCha20-Poly1305, from
    golang.org/x/crypto), [Slider.FloatOps] and [Slider.FloatOrder] (float64), [VkErrors.GoLib]
    (verbs %v and %q, URL queries, JSON text), [Captcha.CaptchaLib] (JSON text, image decoding, the random
    cursor track, which is [Cursor.v] with [Cursor.TrackFloat] for its rounding), [GoStrings.Unicode] (lower case
    outside ASCII).  Each law is shown satisfiable by a concrete instance, used by the witnesses.

    ** What is shown

    - Packets: wrapping and unwrapping are inverse, nonces are never reused, only authenticated bytes
      come out, the replay window implements a sliding window over packet counters, and both the
      direct connection and the DTLS relay deliver each packet it lets through exactly once, until a
      datagram that is longer than the direct connection's buffer ends the reading.
    - Dispatcher and sessions: no interleaving faults or loses count; a packet goes to one worker;
      a session releases what it acquired on every path, its goroutines end, the writer keeps the
      order of the packets.
    - Credentials: the cache serves only fresh credentials of its link, fetches are spaced, the
      chains and their captcha loop end within fixed bounds, fatal answers stop at once.
    - Captcha: the slider's concurrent ranking equals a sequential one; the proof of work finds the
      first nonce; solvers are tried in one order, up to the first token, and old answers are never
      used; the cursor's track has its shape for all random numbers; the requests of a solver and of
      a token chain have exactly the headers of their place.  The steps of a chain show one browser;
      the solver takes one of its own for each attempt.
    - Workers: one configuration request at a time, the retry decisions after each kind of error, the
      partition of the workers; groups get credentials one after another; after a stop they take a
      bounded number of steps, and end once the calls they wait for have returned (a request for
      credentials or a captcha is not cancelled by the stop); the core starts with all it needs or
      with nothing left behind; configurations reach the tunnel unchanged or patched.
    - Routes: a failed setup is undone, a reload replaces the bypass routes; a session, the daemon
      and a self-test ask for the deletion of every route they added, so that those left are the ones
      whose deletion the kernel refused ([Tunnel.kernel_routes], [refused]), and disconnect for the
      deletion of every recorded one.  A reload during or after the daemon's last removal leaves
      routes ([Supervisor.late_reload_leaves_routes]).  Whatever fails, and however the configuration
      and the end of a raw session interleave, its interface and routes go; its nftables table goes
      when the configuration was done with before.  The raw device routes each half of IPv4 that had
      no route before, its rule changes only the segment size of new connections, and the SOCKS
      server releases what it holds, but not the device of a start that failed inside wireproxy.
    - Processes: in every order of signals and sessions no channel is closed twice and a session that
      runs is told to switch; the parent's wait ends; a resume is noticed, notices are a minute apart;
      what a daemon writes about itself is what commands read.
    - Daemons: attempts of profiles with one device identifier of their own are spaced (those that
      use the machine's are not), autoswitch tries its profiles in turn, stopped daemons are dead,
      with --all those of all profiles, requests over the control socket arrive, and an edited bypass list is
      reloaded by the daemon that uses it.
    - Commands: flags may stand anywhere; each target of a command is treated as if it were alone;
      removal, renaming and updates touch what they name and nothing else; imports never take the
      name of a loadable profile; a dry run announces what the import does; links are read back; the
      test command tests exactly the selected profiles, and a test passes only for an answer.
    - Faults found on the way are theorems or examples too, such as [Replay.replay_after_wrap],
      [Captcha.dead_session_unreachable], [CoreRuntime.stats_after_close],
      [Hashes.join_link_panics], [Disconnect.no_order] and [BlCommand.init_overwrites].

    ** Bounds and fuel

    [TokenChain.captcha_loop] runs on fuel: four rounds are enough and more change nothing
    ([token_chain_terminates]).  [Captcha.show_loop]: two rounds are enough
    ([captcha_shows_bounded]); [solveOnce] gives it three.  [Captcha.pow_search] recurses on a binary
    number, the 10,000,000 nonces of the code.  [DirectConn.read_all] needs one round per relay
    result, [GoStrings.digits_fuel] one per bit, the trimming functions one per byte.  The searches
    for a free name ([Subscription.free_name], [import_name]) get one round more than there are
    files, which is enough ([name_search_ends]).  The daemon may run for ever, so
    [Supervisor.rounds] and [retry] bound the rounds and the reconnections: the safety theorems hold
    for every bound, and [autoswitch_round_robin] that a daemon whose bound is used up is at the
    profile whose turn it is, reconnecting after as many resumes.  [RawTun.setup_steps]: the setup of
    the raw device makes at most nine calls ([configuring_short]).  The first
    loop of [Cursor.track] draws its bound again and has at most three turns; [Process.waitForSocket]
    needs one look at the clock for every 50 ms and two more ([socket_wait_ends]).

    ** Not modelled

    Log lines, help and printed texts, except where they are data for another part; sockets; the
    printing of statistics ([stats.go]); the calls of the D-Bus and of the library that forks; pion's
    TURN and DTLS; the HTTP clients; QR codes; functions that nothing calls (in [daemon.go]).  A
    reload over the control socket is one step between two others of the daemon. *)

From Stdlib Require Import ZArith Lia.
From stdpp Require Import base gmap sets list strings.

Open Scope Z_scope.

(** ** Go integers: a w-bit unsigned value is a [Z] kept in range by an explicit wrap. *)

Definition u8 (x : Z) : Z := x mod 2 ^ 8.
Definition u16 (x : Z) : Z := x mod 2 ^ 16.
Definition u32 (x : Z) : Z := x mod 2 ^ 32.
Definition u64 (x : Z) : Z := x mod 2 ^ 64.

(** ** Errors: a Go call returns a value or an error value. *)

Inductive result (E A : Type) : Type :=
| Ok (a : A)
| Err (e : E).
Arguments Ok {E A} a.
Arguments Err {E A} e.

#[export] Instance result_ret E : MRet (result E) := fun A a => Ok a.
#[export] Instance result_bind E : MBind (result E) :=
  fun A B f r => match r with Ok a => f a | Err e => Err e end.
#[export] Instance result_fmap E : FMap (result E) :=
  fun A B f r => match r with Ok a => Ok (f a) | Err e => Err e end.

Definition is_ok {E A} (r : result E A) : bool :=
  match r with Ok _ => true | Err _ => false end.

(** A chain of calls succeeds, or fails, through its first call. *)
Lemma bind_ok {E A B} (r : result E A) (f : A -> result E B) y :
  (r ≫= f) = Ok y -> exists x, r = Ok x /\ f x = Ok y.
Proof. destruct r as [x | e]; [by exists x | done]. Qed.

Lemma bind_err {E A B} (r : result E A) (f : A -> result E B) e :
  (r ≫= f) = Err e -> r = Err e \/ exists x, r = Ok x /\ f x = Err e.
Proof. destruct r as [x | e']; [intros Hf; right; by exists x | intros [= ->]; by left]. Qed.

(** [guard_err b e k]: an early return with error [e] when the guard [b] fires. *)
Definition guard_err {E A} (b : bool) (e : E) (k : result E A) : result E A :=
  if b then Err e else k.

Notation "'fail_if' b 'with' e ';;' k" := (guard_err b e k)
  (at level 100, b at next level, e at next level, k at level 200, right associativity).

(** ** Lemmas on [mod] shared by the components. *)

Lemma mod_pow2_bound x w : 0 <= w -> 0 <= x mod 2 ^ w < 2 ^ w.
Proof. intros Hw. apply Z.mod_pos_bound. apply Z.pow_pos_nonneg; lia. Qed.

Lemma u8_bound x : 0 <= u8 x < 256.
Proof. unfold u8. change 256 with (2 ^ 8). apply mod_pow2_bound. lia. Qed.

Lemma u16_bound x : 0 <= u16 x < 65536.
Proof. unfold u16. change 65536 with (2 ^ 16). apply mod_pow2_bound. lia. Qed.

Lemma u32_bound x : 0 <= u32 x < 4294967296.
Proof. unfold u32. change 4294967296 with (2 ^ 32). apply mod_pow2_bound. lia. Qed.

Lemma u64_bound x : 0 <= u64 x < 18446744073709551616.
Proof.
  unfold u64. change 18446744073709551616 with (2 ^ 64). apply mod_pow2_bound. lia.
Qed.

Lemma u64_small x : 0 <= x < 18446744073709551616 -> u64 x = x.
Proof. intros Hx. apply Z.mod_small. exact Hx. Qed.

Lemma u32_small x : 0 <= x < 4294967296 -> u32 x = x.
Proof. intros Hx. apply Z.mod_small. exact Hx. Qed.

Lemma u16_small x : 0 <= x < 65536 -> u16 x = x.
Proof. intros Hx. apply Z.mod_small. exact Hx. Qed.

Lemma u8_small x : 0 <= x < 256 -> u8 x = x.
Proof. intros Hx. apply Z.mod_small. exact Hx. Qed.

(** Two numbers closer than the modulus with the same residue are equal. *)
Lemma mod_eq_close a b m :
  0 < m -> a mod m = b mod m -> - m < a - b < m -> a = b.
Proof.
  intros Hm Heq Hclose.
  pose proof (Z.div_mod a m ltac:(lia)). pose proof (Z.div_mod b m ltac:(lia)).
  assert (a / m - b / m = 0) by nia. nia.
Qed.

(** Clearing the low [w] bits of a number rounds it down to a multiple of [2^w]. *)
Lemma ldiff_ones_low a w : 0 <= w -> Z.ldiff a (Z.ones w) = a - a mod 2 ^ w.
Proof.
  intros Hw. rewrite Z.ldiff_ones_r by lia.
  rewrite Z.shiftl_mul_pow2, Z.shiftr_div_pow2 by lia.
  pose proof (Z.div_mod a (2 ^ w) ltac:(apply Z.pow_nonzero; lia)). lia.
Qed.

(** [lor] of a multiple of [2^w] and a [w]-bit number is their sum. *)
Lemma lor_high_low h l w :
  0 <= w -> h mod 2 ^ w = 0 -> 0 <= l < 2 ^ w -> Z.lor h l = h + l.
Proof.
  intros Hw Hh Hl. symmetry. apply Z.add_nocarry_lor.
  apply Z.bits_inj'. intros n Hn. rewrite Z.land_spec, Z.bits_0.
  destruct (Z.ltb_spec n w) as [Hlt | Hge].
  - rewrite <- (Z.mod_pow2_bits_low h w n) by lia. rewrite Hh, Z.bits_0. done.
  - destruct (decide (l = 0)) as [-> | Hnz]; [by rewrite Z.bits_0, andb_false_r |].
    rewrite (Z.bits_above_log2 l n); [by rewrite andb_false_r | lia |].
    apply Z.lt_le_trans with w; [| lia]. apply Z.log2_lt_pow2; lia.
Qed.

(** ** Automation shared by the components. *)

Create HintDb qwdtt discriminated.
#[export] Hint Resolve u8_bound u16_bound u32_bound u64_bound : qwdtt.

(** Turn the boolean guards of the code into propositions. *)
Ltac propify :=
  repeat match goal with
  | H : _ && _ = true |- _ => apply andb_true_iff in H; destruct H
  | H : _ || _ = false |- _ => apply orb_false_iff in H; destruct H
  | H : negb _ = true |- _ => apply negb_true_iff in H
  | H : negb _ = false |- _ => apply negb_false_iff in H
  | H : (_ <? _) = true |- _ => apply Z.ltb_lt in H
  | H : (_ <? _) = false |- _ => apply Z.ltb_ge in H
  | H : (_ <=? _) = true |- _ => apply Z.leb_le in H
  | H : (_ <=? _) = false |- _ => apply Z.leb_gt in H
  | H : (_ =? _) = true |- _ => apply Z.eqb_eq in H
  | H : (_ =? _) = false |- _ => apply Z.eqb_neq in H
  | H : (_ =? _)%nat = true |- _ => apply Nat.eqb_eq in H
  | H : (_ =? _)%nat = false |- _ => apply Nat.eqb_neq in H
  | H : (_ <? _)%nat = true |- _ => apply Nat.ltb_lt in H
  | H : (_ <? _)%nat = false |- _ => apply Nat.ltb_ge in H
  | H : (_ <=? _)%nat = true |- _ => apply Nat.leb_le in H
  | H : (_ <=? _)%nat = false |- _ => apply Nat.leb_gt in H
  end.

(** Split on the scrutinee of the first [if] or [match] of the goal. *)
Ltac split_guard :=
  match goal with
  | |- context [if ?b then _ else _] => destruct b eqn:?; propify
  end.

(** The same for the scrutinee of a [match] on an option. *)
Ltac split_option :=
  match goal with
  | |- context [match ?x with Some _ => _ | None => _ end] => destruct x eqn:?
  end.

Ltac split_code := repeat (split_guard || split_option).

(** ** Lists and sets. *)

Lemma size_list_to_set_le `{Countable A} (l : list A) :
  (size (list_to_set l : gset A) <= length l)%nat.
Proof.
  induction l as [| x l IH]; [by rewrite list_to_set_nil, size_empty |].
  rewrite list_to_set_cons, size_union_alt, size_singleton.
  pose proof (subseteq_size ((list_to_set l : gset A) ∖ {[x]}) (list_to_set l) (subseteq_difference_l _ _ _ (reflexivity _))).
  simpl. lia.
Qed.

Lemma elem_of_concat {A} (l : list (list A)) x : x ∈ concat l <-> exists k, k ∈ l /\ x ∈ k.
Proof. setoid_rewrite list_elem_of_In. apply in_concat. Qed.

Lemma lookup_take_app {A} (l k : list A) n :
  length l = n -> take n (l ++ k) = l.
Proof. intros <-. by rewrite take_app_length. Qed.

Lemma lookup_drop_app {A} (l k : list A) n :
  length l = n -> drop n (l ++ k) = k.
Proof. intros <-. by rewrite drop_app_length. Qed.
