(* ===== verification/Bytes.v ===== *)
(** * Byte strings: big-endian fields of a packet (encoding/binary). *)

From S2P Require Import Prelude.
From Stdlib Require Import ZArith Lia.
From stdpp Require Import base list.
Open Scope Z_scope.

(** A packet is a list of bytes, each a [Z] in [0, 256). *)
Definition byte_ok (b : Z) : Prop := 0 <= b < 256.
Abbreviation bytes_ok := (Forall byte_ok).

(** [binary.BigEndian.PutUint16/PutUint32]: the [n] low bytes of [v], most significant first. *)
Fixpoint be_put (n : nat) (v : Z) : list Z :=
  match n with
  | O => []
  | S n' => u8 (Z.shiftr v (8 * Z.of_nat n')) :: be_put n' v
  end.

(** [binary.BigEndian.Uint16/Uint32]. *)
Definition be_get (l : list Z) : Z := foldl (fun acc b => acc * 256 + b) 0 l.

(** [wire[i:j]] for constants within the length of the packet. *)
Definition slice (i j : nat) (l : list Z) : list Z := take (j - i) (drop i l).

(** [wire[i]]. *)
Definition byte_at (l : list Z) (i : nat) : Z := nth i l 0.

Lemma length_be_put n v : length (be_put n v) = n.
Proof. induction n; simpl; congruence. Qed.

Lemma be_put_ok n v : bytes_ok (be_put n v).
Proof. induction n; simpl; constructor; [apply u8_bound | done]. Qed.

Lemma be_get_acc l a : foldl (fun acc b => acc * 256 + b) a l = a * 256 ^ Z.of_nat (length l) + be_get l.
Proof.
  unfold be_get. revert a. induction l as [| b l IH]; intros a; simpl foldl; simpl length.
  - simpl. lia.
  - rewrite (IH (a * 256 + b)), (IH (0 * 256 + b)).
    rewrite Nat2Z.inj_succ, Z.pow_succ_r by lia. lia.
Qed.

Lemma be_get_cons b l : be_get (b :: l) = b * 256 ^ Z.of_nat (length l) + be_get l.
Proof. unfold be_get at 1. simpl. rewrite be_get_acc. lia. Qed.

(** Encoding then decoding keeps the [n] low bytes. *)
Lemma be_get_put n v : be_get (be_put n v) = v mod 2 ^ (8 * Z.of_nat n).
Proof.
  induction n as [| n IH]; [by rewrite Z.mod_1_r |].
  simpl be_put. rewrite be_get_cons, length_be_put, IH.
  unfold u8. rewrite Z.shiftr_div_pow2 by lia.
  replace (256 ^ Z.of_nat n) with (2 ^ (8 * Z.of_nat n)) by (by rewrite Z.pow_mul_r by lia).
  replace (8 * Z.of_nat (S n)) with (8 * Z.of_nat n + 8) by lia.
  rewrite Z.pow_add_r by lia. rewrite Z.rem_mul_r.
  - lia.
  - apply Z.pow_nonzero; lia.
  - lia.
Qed.

Lemma be_get_bound l : bytes_ok l -> 0 <= be_get l < 256 ^ Z.of_nat (length l).
Proof.
  induction 1 as [| b l Hb _ IH]; [done |].
  rewrite be_get_cons. simpl length. rewrite Nat2Z.inj_succ, Z.pow_succ_r by lia.
  unfold byte_ok in Hb. nia.
Qed.

Lemma be_put_inj n v w :
  be_put n v = be_put n w -> v mod 2 ^ (8 * Z.of_nat n) = w mod 2 ^ (8 * Z.of_nat n).
Proof. intros H. by rewrite <- !be_get_put, H. Qed.

(** Decoding then encoding is the identity on well-formed fields. *)
Lemma be_put_get l : bytes_ok l -> be_put (length l) (be_get l) = l.
Proof.
  intros Hl.
  assert (forall k, be_put (length l) (k * 256 ^ Z.of_nat (length l) + be_get l) = l) as Hk.
  { induction Hl as [| b l Hb Hl IH]; intros k; [done |].
    simpl length. simpl be_put. rewrite be_get_cons.
    assert (256 ^ Z.of_nat (length l) = 2 ^ (8 * Z.of_nat (length l))) as Hp
      by (by rewrite Z.pow_mul_r by lia).
    f_equal.
    - rewrite Z.shiftr_div_pow2 by lia. rewrite <- Hp.
      rewrite Nat2Z.inj_succ, Z.pow_succ_r by lia.
      replace (k * (256 * 256 ^ Z.of_nat (length l)) + (b * 256 ^ Z.of_nat (length l) + be_get l))
        with (be_get l + (k * 256 + b) * 256 ^ Z.of_nat (length l)) by lia.
      rewrite Z.div_add by (apply Z.pow_nonzero; lia).
      rewrite Z.div_small by (apply be_get_bound; done).
      unfold u8, byte_ok in *. change (2 ^ 8) with 256.
      rewrite Z.add_0_l, Z.add_comm, Z.mod_add by lia. apply Z.mod_small. lia.
    - etransitivity; [| apply (IH (k * 256 + b))]. f_equal.
      rewrite Nat2Z.inj_succ, Z.pow_succ_r by lia. lia. }
  specialize (Hk 0). by rewrite Z.mul_0_l, Z.add_0_l in Hk.
Qed.

Lemma be_get_inj l k :
  bytes_ok l -> bytes_ok k -> length l = length k -> be_get l = be_get k -> l = k.
Proof.
  intros Hl Hk Hlen Heq. rewrite <- (be_put_get l), <- (be_put_get k) by done. congruence.
Qed.

Lemma be_get_app l k : be_get (l ++ k) = be_get l * 256 ^ Z.of_nat (length k) + be_get k.
Proof. unfold be_get at 1. rewrite foldl_app. apply be_get_acc. Qed.

(** The first bytes are the quotient by the weight of the others. *)
Lemma be_get_take n l : bytes_ok l -> be_get (take n l) = be_get l / 256 ^ Z.of_nat (length (drop n l)).
Proof.
  intros Hl. rewrite <- (take_drop n l) at 2. rewrite be_get_app.
  pose proof (be_get_bound (drop n l) ltac:(by apply Forall_drop)).
  rewrite Z.div_add_l, (Z.div_small (be_get (drop n l))) by (try apply Z.pow_nonzero; lia). lia.
Qed.

Create Rewrite HintDb bytes.
#[export] Hint Rewrite length_be_put be_get_put : bytes.
#[export] Hint Resolve be_put_ok : qwdtt.
