(* ===== verification/GoStrings.v ===== *)
(** * Go strings: byte sequences and the operations of packages strings and strconv.

    A Go string is a sequence of bytes; [String.string] is exactly that, and a literal written
    here holds the UTF-8 bytes of its source text.  Only what the client uses is defined. *)

From S2P Require Import Prelude.
From Stdlib Require Import ZArith Lia Ascii String.
From stdpp Require Import base list strings.
Open Scope string_scope.
Open Scope Z_scope.

(** ** Slices, prefixes and suffixes *)

(** [s[:n]] and [s[n:]]. *)
Fixpoint stake (n : nat) (s : string) : string :=
  match n, s with
  | S n', String c s' => String c (stake n' s')
  | _, _ => ""
  end.

Fixpoint sdrop (n : nat) (s : string) : string :=
  match n, s with
  | S n', String _ s' => sdrop n' s'
  | _, _ => s
  end.

(** [strings.HasPrefix(s, p)]. *)
Fixpoint has_prefix (p s : string) : bool :=
  match p, s with
  | "", _ => true
  | String a p', String b s' => Ascii.eqb a b && has_prefix p' s'
  | _, "" => false
  end.

(** [strings.TrimPrefix(s, p)]. *)
Definition trim_prefix (p s : string) : string :=
  if has_prefix p s then sdrop (String.length p) s else s.

(** [strings.HasSuffix(s, p)]. *)
Fixpoint has_suffix (p s : string) : bool :=
  String.eqb p s || match s with "" => false | String _ s' => has_suffix p s' end.

(** [strings.TrimSuffix(s, p)]. *)
Definition trim_suffix (p s : string) : string :=
  if has_suffix p s then stake (String.length s - String.length p) s else s.

(** [strings.Index(s, p)], [-1] being [None], and [strings.Contains]. *)
Fixpoint index (p s : string) : option nat :=
  if has_prefix p s then Some 0%nat
  else match s with "" => None | String _ s' => S <$> index p s' end.

Definition contains (p s : string) : bool :=
  match index p s with Some _ => true | None => false end.

(** [strings.LastIndex(s, string(c))]. *)
Fixpoint last_index (c : ascii) (s : string) : option nat :=
  match s with
  | "" => None
  | String a s' =>
      match last_index c s' with
      | Some i => Some (S i)
      | None => if Ascii.eqb a c then Some 0%nat else None
      end
  end.

(** ** Split and join *)

(** [strings.Split(s, string(c))]: always at least one piece. *)
Fixpoint split_on (c : ascii) (s : string) : list string :=
  match s with
  | "" => [""]
  | String a s' =>
      if Ascii.eqb a c then "" :: split_on c s'
      else match split_on c s' with
           | piece :: rest => String a piece :: rest
           | [] => [String a ""]
           end
  end.

(** [strings.Join(l, sep)]. *)
Fixpoint join (sep : string) (l : list string) : string :=
  match l with
  | [] => ""
  | [x] => x
  | x :: rest => x ++ sep ++ join sep rest
  end.

(** ** White space *)

(** The UTF-8 encodings of the runes of [unicode.IsSpace]. *)
Definition bytes_to_string (l : list Z) : string :=
  foldr (fun b s => String (ascii_of_N (Z.to_N b)) s) "" l.

Definition space_runes : list string :=
  bytes_to_string <$>
  [ [9]; [10]; [11]; [12]; [13]; [32]; [194;133]; [194;160]; [225;154;128];
    [226;128;128]; [226;128;129]; [226;128;130]; [226;128;131]; [226;128;132];
    [226;128;133]; [226;128;134]; [226;128;135]; [226;128;136]; [226;128;137];
    [226;128;138]; [226;128;168]; [226;128;169]; [226;128;175]; [226;129;159];
    [227;128;128] ].

(** The length of the space rune the string starts (ends) with, if any. *)
Definition leading_space (s : string) : option nat :=
  String.length <$> head (filter (fun r => has_prefix r s = true) space_runes).

Definition trailing_space (s : string) : option nat :=
  String.length <$> head (filter (fun r => has_suffix r s = true) space_runes).

Fixpoint trim_left_fuel (n : nat) (s : string) : string :=
  match n with
  | O => s
  | S n' => match leading_space s with
            | Some k => trim_left_fuel n' (sdrop k s)
            | None => s
            end
  end.

Fixpoint trim_right_fuel (n : nat) (s : string) : string :=
  match n with
  | O => s
  | S n' => match trailing_space s with
            | Some k => trim_right_fuel n' (stake (String.length s - k) s)
            | None => s
            end
  end.

(** [strings.TrimSpace]: a space rune has at least one byte, so [length s] rounds are enough. *)
Definition trim_space (s : string) : string :=
  let l := trim_left_fuel (String.length s) s in trim_right_fuel (String.length l) l.

(** ** ASCII case *)

Definition is_upper (c : ascii) : bool :=
  let n := N_of_ascii c in (65 <=? n)%N && (n <=? 90)%N.

Definition lower_ascii (c : ascii) : ascii :=
  if is_upper c then ascii_of_N (N_of_ascii c + 32) else c.

Fixpoint map_string (f : ascii -> ascii) (s : string) : string :=
  match s with "" => "" | String c s' => String (f c) (map_string f s') end.

(** The bytes as characters: U+017F is C5 BF and U+212A is E2 84 AA. *)
Definition byte (n : Z) : ascii := ascii_of_N (Z.to_N n).

(** ASCII case folding; the two other runes that fold to ASCII letters are U+017F (to s) and the
    Kelvin sign U+212A (to k). *)
Fixpoint fold_ascii (s : string) : string :=
  match s with
  | String a (String b rest as s') =>
      if Ascii.eqb a (byte 197) && Ascii.eqb b (byte 191) then String "s" (fold_ascii rest)
      else match rest with
           | String c rest' =>
               if Ascii.eqb a (byte 226) && Ascii.eqb b (byte 132) && Ascii.eqb c (byte 170)
               then String "k" (fold_ascii rest')
               else String (lower_ascii a) (fold_ascii s')
           | "" => String (lower_ascii a) (fold_ascii s')
           end
  | String a "" => String (lower_ascii a) ""
  | "" => ""
  end.

(** [strings.EqualFold(s, t)] for an ASCII [t]. *)
Definition equal_fold (s t : string) : bool := String.eqb (fold_ascii s) (fold_ascii t).

Fixpoint is_ascii (s : string) : bool :=
  match s with "" => true | String c s' => (N_of_ascii c <? 128)%N && is_ascii s' end.

(** The lower-case table of package unicode, for strings that are not ASCII. *)
Class Unicode := lower_unicode : string -> string.

(** [strings.ToLower]. *)
Definition to_lower `{Unicode} (s : string) : string :=
  if is_ascii s then map_string lower_ascii s else lower_unicode s.

(** ** Decimal integers *)

Definition digit (d : Z) : ascii := ascii_of_N (Z.to_N (48 + d)).

Definition digit_val (c : ascii) : option Z :=
  let n := Z.of_N (N_of_ascii c) in
  if (48 <=? n) && (n <=? 57) then Some (n - 48) else None.

Fixpoint digits_fuel (fuel : nat) (n : Z) (acc : string) : string :=
  match fuel with
  | O => acc
  | S f =>
      let acc' := String (digit (n mod 10)) acc in
      if n / 10 =? 0 then acc' else digits_fuel f (n / 10) acc'
  end.

(** Decimal digits of a non-negative number; [log2 n + 1] rounds are enough. *)
Definition utoa (n : Z) : string := digits_fuel (S (Z.to_nat (Z.log2 n))) n "".

(** [strconv.Itoa], [fmt.Sprintf("%d", n)]. *)
Definition itoa (n : Z) : string := if n <? 0 then "-" ++ utoa (- n) else utoa n.

Fixpoint digits_value (s : string) (acc : Z) : option Z :=
  match s with
  | "" => Some acc
  | String c s' =>
      match digit_val c with
      | Some d => digits_value s' (acc * 10 + d)
      | None => None
      end
  end.

Definition min_int : Z := - 2 ^ 63.
Definition max_int : Z := 2 ^ 63 - 1.

Definition check_int (n : Z) : option Z :=
  if (min_int <=? n) && (n <=? max_int) then Some n else None.

(** [strconv.Atoi] on a 64-bit platform: an optional sign, at least one digit, in range. *)
Definition atoi (s : string) : option Z :=
  match s with
  | "" => None
  | String c s' =>
      if Ascii.eqb c "-" then
        (if String.eqb s' "" then None else v ← digits_value s' 0; check_int (- v))
      else if Ascii.eqb c "+" then
        (if String.eqb s' "" then None else v ← digits_value s' 0; check_int v)
      else v ← digits_value s 0; check_int v
  end.

(** ** Lemmas *)

#[local] Arguments String.append : simpl nomatch.

Lemma string_app_nil_r s : s ++ "" = s.
Proof. induction s; simpl; congruence. Qed.

Lemma string_app_assoc s t u : (s ++ t) ++ u = s ++ t ++ u.
Proof. induction s; simpl; congruence. Qed.

Lemma string_length_app s t : String.length (s ++ t) = (String.length s + String.length t)%nat.
Proof. induction s; simpl; congruence. Qed.

Lemma has_prefix_app p s : has_prefix p (p ++ s) = true.
Proof. induction p; simpl; [done |]. by rewrite Ascii.eqb_refl. Qed.

Lemma has_prefix_spec p s : has_prefix p s = true -> exists t, s = p ++ t.
Proof.
  revert s. induction p as [| a p IH]; intros s H; [by exists s |].
  destruct s as [| b s]; [done |]. simpl in H. propify.
  apply Ascii.eqb_eq in H as ->. destruct (IH s) as [t ->]; [done |]. by exists t.
Qed.

Lemma sdrop_app p s : sdrop (String.length p) (p ++ s) = s.
Proof. induction p; simpl; [by destruct s | done]. Qed.

Lemma stake_app p s : stake (String.length p) (p ++ s) = p.
Proof. induction p; simpl; congruence. Qed.

Lemma stake_sdrop n s : stake n s ++ sdrop n s = s.
Proof. revert s. induction n; intros [| c s]; simpl; congruence. Qed.

Lemma trim_prefix_app p s : trim_prefix p (p ++ s) = s.
Proof. unfold trim_prefix. by rewrite has_prefix_app, sdrop_app. Qed.

Lemma app_inj_prefix p a b : p ++ a = p ++ b -> a = b.
Proof. induction p as [| c p IH]; [done |]. intros [= E]. by apply IH. Qed.

Lemma app_inj_suffix a b s : a ++ s = b ++ s -> a = b.
Proof.
  revert b. induction a as [| c a IH]; intros [| d b] E; try done.
  - apply (f_equal String.length) in E. rewrite !string_length_app in E. simpl in E. lia.
  - apply (f_equal String.length) in E. rewrite !string_length_app in E. simpl in E. lia.
  - injection E as -> E. f_equal. by apply IH.
Qed.

Lemma has_suffix_app r u : has_suffix r (u ++ r) = true.
Proof.
  induction u as [| c u IH]; simpl; [| by rewrite IH, orb_true_r].
  destruct r; simpl; by rewrite ?Ascii.eqb_refl, ?String.eqb_refl.
Qed.

(** A string without the character [c]. *)
Fixpoint no_char (c : ascii) (s : string) : bool :=
  match s with "" => true | String a s' => negb (Ascii.eqb a c) && no_char c s' end.

Lemma no_char_app c s t : no_char c (s ++ t) = no_char c s && no_char c t.
Proof. induction s; simpl; [done |]. by rewrite IHs, andb_assoc. Qed.

Lemma split_on_no_char c s : no_char c s = true -> split_on c s = [s].
Proof.
  induction s as [| a s IH]; simpl; [done |]. intros H. propify.
  rewrite H. by rewrite IH.
Qed.

Lemma split_on_app c s t :
  no_char c s = true -> split_on c (s ++ String c t) = s :: split_on c t.
Proof.
  induction s as [| a s IH]; simpl; intros H.
  - by rewrite Ascii.eqb_refl.
  - propify. rewrite H. by rewrite IH.
Qed.

Lemma split_on_pieces c s : Forall (fun p => no_char c p = true) (split_on c s).
Proof.
  induction s as [| a s IH]; simpl; [by repeat constructor |].
  destruct (Ascii.eqb a c) eqn:Ha; [by constructor |].
  destruct (split_on c s) as [| p rest]; simpl.
  - repeat constructor. simpl. by rewrite Ha.
  - inversion IH; subst. constructor; [| done]. simpl. by rewrite Ha.
Qed.

(** Splitting a joined list gives the list back when no piece holds the separator. *)
Lemma split_on_join c l :
  l <> [] -> Forall (fun p => no_char c p = true) l -> split_on c (join (String c "") l) = l.
Proof.
  induction l as [| x [| y l] IH]; intros Hne Hl; [done | | ]; inversion Hl; subst.
  - simpl. by apply split_on_no_char.
  - change (join (String c "") (x :: y :: l)) with (x ++ String c (join (String c "") (y :: l))).
    rewrite split_on_app by done. f_equal. by apply IH.
Qed.

Lemma split_on_nonempty c s : split_on c s <> [].
Proof.
  destruct s as [| a s]; simpl; [done |].
  destruct (Ascii.eqb a c); [done |]. by destruct (split_on c s).
Qed.

Lemma join_split_on c s : join (String c "") (split_on c s) = s.
Proof.
  induction s as [| a s IH]; [done |]. simpl.
  destruct (Ascii.eqb a c) eqn:Ha.
  - apply Ascii.eqb_eq in Ha as ->. rewrite <- IH at 2.
    pose proof (split_on_nonempty c s). by destruct (split_on c s).
  - pose proof (split_on_nonempty c s) as Hne.
    destruct (split_on c s) as [| p [| q rest]]; [done | | ]; simpl in *; by rewrite <- IH.
Qed.

(** *** Decimal round trip *)

Lemma digit_val_digit d : 0 <= d < 10 -> digit_val (digit d) = Some d.
Proof.
  intros Hd. assert (d = 0 \/ d = 1 \/ d = 2 \/ d = 3 \/ d = 4 \/ d = 5 \/ d = 6 \/ d = 7 \/ d = 8 \/ d = 9)
    as H by lia.
  by repeat destruct H as [-> | H]; [.. | subst].
Qed.

(** Parsing what [digits_fuel] prints multiplies the accumulator by the printed length. *)
Lemma digits_value_fuel fuel n acc :
  0 <= n < 2 ^ Z.of_nat fuel ->
  exists k, 0 <= k /\
    forall b, digits_value (digits_fuel fuel n acc) b = digits_value acc (b * 10 ^ k + n).
Proof.
  revert n acc. induction fuel as [| f IH]; intros n acc Hn.
  - exists 0. simpl in Hn. split; [lia |]. intros b. assert (n = 0) as -> by lia. simpl.
    f_equal. lia.
  - simpl digits_fuel. pose proof (Z.div_mod n 10 ltac:(lia)).
    pose proof (Z.mod_pos_bound n 10 ltac:(lia)).
    assert (forall b, digits_value (String (digit (n mod 10)) acc) b
                      = digits_value acc (b * 10 + n mod 10)) as Hd.
    { intros b. cbn [digits_value]. by rewrite digit_val_digit by lia. }
    split_guard.
    + exists 1. split; [lia |]. intros b. rewrite Hd. f_equal. lia.
    + rewrite Nat2Z.inj_succ, Z.pow_succ_r in Hn by lia.
      destruct (IH (n / 10) (String (digit (n mod 10)) acc)) as (k & Hk & E); [split; nia |].
      exists (k + 1). split; [lia |]. intros b.
      rewrite E, Hd, Z.pow_add_r by lia. f_equal. lia.
Qed.

Lemma digits_fuel_nonempty fuel n acc : fuel <> O \/ acc <> "" -> digits_fuel fuel n acc <> "".
Proof.
  revert n acc. induction fuel as [| f IH]; intros n acc H; simpl; [tauto |].
  split_guard; [done |]. apply IH. by right.
Qed.

Lemma utoa_spec n : 0 <= n -> digits_value (utoa n) 0 = Some n /\ utoa n <> "".
Proof.
  intros Hn. unfold utoa. split; [| apply digits_fuel_nonempty; by left].
  destruct (digits_value_fuel (S (Z.to_nat (Z.log2 n))) n "") as (k & _ & E).
  { rewrite Nat2Z.inj_succ, Z2Nat.id by apply Z.log2_nonneg.
    destruct (decide (n = 0)) as [-> | Hnz]; [simpl; lia |].
    pose proof (Z.log2_spec n ltac:(lia)). lia. }
  by rewrite E.
Qed.

Lemma digits_value_head c s a v :
  digits_value (String c s) a = Some v -> c <> "-"%char /\ c <> "+"%char.
Proof. intros H. split; intros ->; discriminate H. Qed.

(** [strconv.Atoi(strconv.Itoa(n)) == n]. *)
Lemma atoi_itoa n : min_int <= n <= max_int -> atoi (itoa n) = Some n.
Proof.
  intros Hn. unfold itoa.
  assert (check_int n = Some n) as Hc.
  { unfold check_int. by rewrite !(proj2 (Z.leb_le _ _)) by lia. }
  split_guard.
  - destruct (utoa_spec (- n)) as [Hv Hne]; [lia |]. simpl.
    rewrite (proj2 (String.eqb_neq _ _) Hne), Hv. simpl. by rewrite Z.opp_involutive.
  - destruct (utoa_spec n) as [Hv Hne]; [lia |].
    destruct (utoa n) as [| c s] eqn:E; [done |].
    destruct (digits_value_head _ _ _ _ Hv) as [H1 H2]. unfold atoi.
    rewrite (proj2 (Ascii.eqb_neq _ _) H1), (proj2 (Ascii.eqb_neq _ _) H2), Hv. done.
Qed.

Lemma contains_no_char c s : no_char c s = true -> contains (String c "") s = false.
Proof.
  intros Hs. unfold contains. assert (index (String c "") s = None) as ->; [| done].
  induction s as [| a s IH]; [done |]. simpl in Hs. propify. cbn [index has_prefix].
  rewrite Ascii.eqb_sym, H. simpl. by rewrite IH.
Qed.

Lemma contains_char c s t : contains (String c "") (s ++ String c t) = true.
Proof.
  unfold contains. assert (exists i, index (String c "") (s ++ String c t) = Some i) as [i ->]; [| done].
  induction s as [| x s [i IH]].
  - exists 0%nat. cbn. by rewrite Ascii.eqb_refl.
  - cbn [String.append index]. destruct (has_prefix (String c "") _); [by exists 0%nat |]. rewrite IH. by exists (S i).
Qed.

Create Rewrite HintDb gostrings.
#[export] Hint Rewrite string_app_nil_r string_app_assoc string_length_app : gostrings.
