(* ===== verification/Chars.v ===== *)
(** * Classes of characters: ASCII sets, [strings.Trim], [strings.IndexAny], visible texts. *)

From S2P Require Import Prelude GoStrings.
From Stdlib Require Import ZArith Lia String Ascii.
From stdpp Require Import base sets list strings.
Open Scope string_scope.

(** [strings.Trim(s, cutset)] for an ASCII cutset. *)
Fixpoint trim_left_set (p : ascii -> bool) (s : string) : string :=
  match s with String c s' => if p c then trim_left_set p s' else s | "" => "" end.

Fixpoint trim_right_set (p : ascii -> bool) (s : string) : string :=
  match s with
  | "" => ""
  | String c s' =>
      let r := trim_right_set p s' in
      if p c && String.eqb r "" then "" else String c r
  end.

Definition trim_set (p : ascii -> bool) (s : string) : string := trim_right_set p (trim_left_set p s).

(** [strings.IndexAny(s, chars)] for ASCII [chars]. *)
Fixpoint index_any (p : ascii -> bool) (s : string) : option nat :=
  match s with
  | "" => None
  | String c s' => if p c then Some 0%nat else S <$> index_any p s'
  end.

(** Characters outside a set. *)
Fixpoint none_of (p : ascii -> bool) (s : string) : bool :=
  match s with "" => true | String c s' => negb (p c) && none_of p s' end.

Lemma index_any_cut p s i : index_any p s = Some i -> none_of p (stake i s) = true.
Proof.
  revert i. induction s as [| c s IH]; simpl; intros i; [done |]. destruct (p c) eqn:Hp; [by intros [= <-] |].
  destruct (index_any p s) as [j |]; [| done]. intros [= <-]. simpl. rewrite Hp. by apply IH.
Qed.

Lemma index_any_none p s : index_any p s = None -> none_of p s = true.
Proof.
  induction s as [| c s IH]; simpl; [done |]. destruct (p c) eqn:Hp; [done |].
  destruct (index_any p s); [done |]. intros _. by apply IH.
Qed.

Lemma none_of_stake p n s : none_of p s = true -> none_of p (stake n s) = true.
Proof.
  revert s. induction n as [| n IH]; intros [| c s]; simpl; try done. intros Hs. propify.
  rewrite H. simpl. by apply IH.
Qed.

Lemma none_of_sdrop p n s : none_of p s = true -> none_of p (sdrop n s) = true.
Proof. revert s. induction n as [| n IH]; intros [| c s]; simpl; try done. intros Hs. propify. by apply IH. Qed.

Lemma none_of_trim_space p s : none_of p s = true -> none_of p (trim_space s) = true.
Proof.
  assert (forall n t, none_of p t = true -> none_of p (trim_left_fuel n t) = true) as Hl.
  { induction n as [| n IH]; simpl; intros t Ht; [done |]. destruct (leading_space t); [| done].
    by apply IH, none_of_sdrop. }
  assert (forall n t, none_of p t = true -> none_of p (trim_right_fuel n t) = true) as Hr.
  { induction n as [| n IH]; simpl; intros t Ht; [done |]. destruct (trailing_space t); [| done].
    by apply IH, none_of_stake. }
  intros Hs. unfold trim_space. by apply Hr, Hl.
Qed.

Lemma none_of_trim_set p q s : none_of p s = true -> none_of p (trim_set q s) = true.
Proof.
  assert (forall t, none_of p t = true -> none_of p (trim_left_set q t) = true) as Hl.
  { induction t as [| c t IH]; simpl; [done |]. intros Ht. destruct (q c); [| done]. propify. by apply IH. }
  assert (forall t, none_of p t = true -> none_of p (trim_right_set q t) = true) as Hr.
  { induction t as [| c t IH]; simpl; [done |]. intros Ht. propify. destruct (_ && _); [done |]. simpl.
    rewrite H. by apply IH. }
  intros Hs. by apply Hr, Hl.
Qed.

Lemma index_any_app p s c t : none_of p s = true -> p c = true -> index_any p (s ++ String c t) = Some (String.length s).
Proof.
  induction s as [| a s IH]; simpl; intros Hs Hc; [by rewrite Hc |]. propify. rewrite H. by rewrite IH.
Qed.

Lemma index_any_all p s : none_of p s = true -> index_any p s = None.
Proof. induction s as [| a s IH]; simpl; [done |]. intros Hs. propify. rewrite H. by rewrite IH. Qed.

Lemma trim_set_none p s : none_of p s = true -> trim_set p s = s.
Proof.
  intros Hs. unfold trim_set.
  assert (trim_left_set p s = s) as ->.
  { destruct s as [| c s]; [done |]. simpl in *. propify. by rewrite H. }
  induction s as [| c s IH]; simpl in *; [done |]. propify. rewrite H. simpl. by rewrite IH.
Qed.

(** ** Visible ASCII *)

(** Every character satisfies [p]. *)
Fixpoint all_of (p : ascii -> bool) (s : string) : bool :=
  match s with "" => true | String c s' => p c && all_of p s' end.

Definition visible (c : ascii) : bool := let n := N_of_ascii c in ((33 <=? n) && (n <=? 126))%N.

Lemma all_of_app p s t : all_of p (s ++ t) = all_of p s && all_of p t.
Proof. induction s; simpl; [done |]. by rewrite IHs, andb_assoc. Qed.

Lemma all_of_impl (p q : ascii -> bool) s : (forall c, p c = true -> q c = true) -> all_of p s = true -> all_of q s = true.
Proof. intros Hpq. induction s; simpl; [done |]. intros Hs. propify. by rewrite Hpq, IHs. Qed.

(** A fact about every character is checked on the 256 of them. *)
Definition all_ascii : list ascii := (fun n => ascii_of_nat n) <$> seq 0 256.

Lemma all_ascii_spec (f : ascii -> bool) : forallb f all_ascii = true -> forall c, f c = true.
Proof.
  intros Hf c. rewrite forallb_forall in Hf. apply Hf. unfold all_ascii. apply in_map_iff.
  exists (nat_of_ascii c). split; [apply ascii_nat_embedding |]. apply in_seq. pose proof (nat_ascii_bounded c). lia.
Qed.

Lemma all_ascii_impl (p q : ascii -> bool) :
  forallb (fun c => implb (p c) (q c)) all_ascii = true -> forall c, p c = true -> q c = true.
Proof. intros Hf c Hc. pose proof (all_ascii_spec _ Hf c) as Hi. cbv beta in Hi. by rewrite Hc in Hi. Qed.

Lemma visible_ascii s : all_of visible s = true -> is_ascii s = true.
Proof.
  induction s as [| c s IH]; simpl; [done |]. intros Hs. propify. rewrite IH by done. rewrite andb_true_r.
  by apply (all_ascii_impl visible (fun c => (N_of_ascii c <? 128)%N)).
Qed.

Lemma none_of_all p s : none_of p s = all_of (fun c => negb (p c)) s.
Proof. induction s; simpl; congruence. Qed.

(** A space rune starts and ends with a byte that is not visible. *)
Lemma space_runes_invisible r : r ∈ space_runes -> exists c d u v, r = String c u /\ r = v ++ String d "" /\
  visible c = false /\ visible d = false.
Proof.
  assert (forall l, Forall (fun r => exists c d u v, r = String c u /\ r = v ++ String d "" /\
    visible c = false /\ visible d = false) l -> r ∈ l -> exists c d u v, r = String c u /\ r = v ++ String d "" /\
    visible c = false /\ visible d = false) as Hall by (intros l; rewrite Forall_forall; eauto).
  apply Hall. unfold space_runes. simpl.
  repeat (apply List.Forall_cons;
    [first [ by eexists _, _, _, ""; repeat split
           | by eexists _, _, _, (String _ ""); repeat split
           | by eexists _, _, _, (String _ (String _ "")); repeat split ] |]).
  constructor.
Qed.

Lemma snoc_inj u v c d : u ++ String c "" = v ++ String d "" -> u = v /\ c = d.
Proof.
  revert v. induction u as [| a u IH]; intros [| b v] E; simpl in E.
  - by injection E.
  - injection E as _ E. by destruct v.
  - injection E as _ E. by destruct u.
  - injection E as -> E. apply IH in E as [-> ->]. done.
Qed.

Lemma has_suffix_spec r s : has_suffix r s = true -> exists u, s = u ++ r.
Proof.
  induction s as [| c s IH]; simpl; intros Hs; apply orb_true_iff in Hs as [He | Hs]; try done.
  - apply String.eqb_eq in He as ->. by exists "".
  - apply String.eqb_eq in He as ->. by exists "".
  - destruct (IH Hs) as [u ->]. by exists (String c u).
Qed.

Lemma filter_none {A} (P : A -> Prop) `{!forall x, Decision (P x)} (l : list A) : (forall x, x ∈ l -> ~ P x) -> filter P l = [].
Proof.
  induction l as [| x l IH]; intros Hl; [done |]. rewrite filter_cons, decide_False by (apply Hl; by left).
  apply IH. intros y Hy. apply Hl. by right.
Qed.

(** A text whose first and last characters are visible has nothing to trim. *)
Lemma trim_space_ends s c u v d :
  s = String c u -> s = v ++ String d "" -> visible c = true -> visible d = true -> trim_space s = s.
Proof.
  intros E1 E2 Hc Hd.
  assert (leading_space s = None) as Hl.
  { unfold leading_space. rewrite filter_none; [done |]. intros r Hr Hp.
    destruct (space_runes_invisible r Hr) as (c' & _ & u' & _ & -> & _ & Hc' & _).
    apply has_prefix_spec in Hp as [t Hp]. rewrite E1 in Hp. injection Hp as -> _. congruence. }
  assert (trailing_space s = None) as Ht.
  { unfold trailing_space. rewrite filter_none; [done |]. intros r Hr Hp.
    destruct (space_runes_invisible r Hr) as (_ & d' & _ & v' & _ & -> & _ & Hd').
    apply has_suffix_spec in Hp as [u' Hp]. rewrite E2, <- string_app_assoc in Hp.
    apply snoc_inj in Hp as [_ ->]. congruence. }
  unfold trim_space.
  assert (forall n, trim_left_fuel n s = s) as -> by (intros [| n]; simpl; [done | by rewrite Hl]).
  destruct (String.length s); simpl; [done | by rewrite Ht].
Qed.

Lemma all_of_last p s : s <> "" -> all_of p s = true -> exists v d, s = v ++ String d "" /\ p d = true.
Proof.
  induction s as [| c s IH]; [done |]. intros _ Hs. simpl in Hs. apply andb_true_iff in Hs as [Hc Hs].
  destruct (decide (s = "")) as [-> | Hne]; [by exists "", c |].
  destruct (IH Hne Hs) as (v & d & -> & Hd). by exists (String c v), d.
Qed.

Lemma trim_space_visible s : all_of visible s = true -> trim_space s = s.
Proof.
  intros Hs. destruct s as [| c s]; [done |].
  destruct (all_of_last visible (String c s)) as (v & d & E & Hd); [done | done |].
  eapply (trim_space_ends _ c s v d); [done | exact E | | done]. simpl in Hs. by propify.
Qed.

(** ** Trimming twice *)

Lemma space_runes_nonempty r : r ∈ space_runes -> (0 < String.length r)%nat.
Proof. intros Hr. destruct (space_runes_invisible r Hr) as (c & _ & u & _ & -> & _). simpl. lia. Qed.

Lemma leading_space_some s k : leading_space s = Some k -> (0 < k)%nat /\ exists r, r ∈ space_runes /\ has_prefix r s = true.
Proof.
  unfold leading_space. destruct (head _) as [r |] eqn:E; [| done]. intros [= <-].
  assert (r ∈ filter (fun r => has_prefix r s = true) space_runes) as Hr by (destruct (filter _ _); [done |]; injection E as ->; by left).
  apply list_elem_of_filter in Hr as [Hp Hr]. split; [by apply space_runes_nonempty | by exists r].
Qed.

Lemma trailing_space_some s k : trailing_space s = Some k -> (0 < k)%nat /\ (k <= String.length s)%nat.
Proof.
  unfold trailing_space. destruct (head _) as [r |] eqn:E; [| done]. intros [= <-].
  assert (r ∈ filter (fun r => has_suffix r s = true) space_runes) as Hr by (destruct (filter _ _); [done |]; injection E as ->; by left).
  apply list_elem_of_filter in Hr as [Hp Hr]. split; [by apply space_runes_nonempty |].
  apply has_suffix_spec in Hp as (u & ->). rewrite string_length_app. lia.
Qed.

Lemma leading_space_none s : leading_space s = None <-> forall r, r ∈ space_runes -> has_prefix r s = false.
Proof.
  unfold leading_space. split.
  - destruct (filter _ _) as [| x l] eqn:E; [| done]. intros _ r Hr. apply not_true_is_false. intros Hp.
    assert (r ∈ filter (fun r => has_prefix r s = true) space_runes) as Hf by (by apply list_elem_of_filter). rewrite E in Hf. by apply elem_of_nil in Hf.
  - intros Hn. rewrite filter_none; [done |]. intros r Hr. by rewrite Hn.
Qed.

Lemma length_sdrop k s : String.length (sdrop k s) = (String.length s - k)%nat.
Proof. revert s. induction k as [| k IH]; intros [| c s]; simpl; auto. Qed.

Lemma length_stake k s : String.length (stake k s) = Nat.min k (String.length s).
Proof. revert s. induction k as [| k IH]; intros [| c s]; simpl; try done. by rewrite IH. Qed.

Lemma trim_left_done n s : (String.length s <= n)%nat -> leading_space (trim_left_fuel n s) = None.
Proof.
  revert s. induction n as [| n IH]; intros s Hn; simpl.
  - destruct s; [| simpl in Hn; lia]. by vm_compute.
  - destruct (leading_space s) as [k |] eqn:E; [| done]. apply leading_space_some in E as [Hk _]. apply IH. rewrite length_sdrop. lia.
Qed.

Lemma trim_right_done n s : (String.length s <= n)%nat -> trailing_space (trim_right_fuel n s) = None.
Proof.
  revert s. induction n as [| n IH]; intros s Hn; simpl.
  - destruct s; [| simpl in Hn; lia]. by vm_compute.
  - destruct (trailing_space s) as [k |] eqn:E; [| done]. apply trailing_space_some in E as [Hk Hl]. apply IH. rewrite length_stake. lia.
Qed.

Lemma has_prefix_stake r k s : has_prefix r (stake k s) = true -> has_prefix r s = true.
Proof.
  intros Hp. apply has_prefix_spec in Hp as (u & E). rewrite <- (stake_sdrop k s), E, string_app_assoc. apply has_prefix_app.
Qed.

Lemma trim_right_leading n s : leading_space s = None -> leading_space (trim_right_fuel n s) = None.
Proof.
  revert s. induction n as [| n IH]; intros s Hs; simpl; [done |]. destruct (trailing_space s) as [k |]; [| done]. apply IH.
  apply leading_space_none. intros r Hr. rewrite leading_space_none in Hs. apply not_true_is_false. intros Hp%has_prefix_stake.
  by rewrite Hs in Hp.
Qed.

Lemma trim_space_idem s : trim_space (trim_space s) = trim_space s.
Proof.
  assert (forall n t, leading_space t = None -> trim_left_fuel n t = t) as Hl by (intros [| n] t E; simpl; by rewrite ?E).
  assert (forall n t, trailing_space t = None -> trim_right_fuel n t = t) as Hr by (intros [| n] t E; simpl; by rewrite ?E).
  assert (leading_space (trim_space s) = None) as E1 by (apply trim_right_leading, trim_left_done; lia).
  assert (trailing_space (trim_space s) = None) as E2 by (apply trim_right_done; lia).
  unfold trim_space at 1. by rewrite Hl, Hr.
Qed.
