(* ===== verification/Net.v ===== *)
(** * Host and port strings (package net): [SplitHostPort] and [JoinHostPort]. *)

From S2P Require Import Prelude GoStrings.
From Stdlib Require Import ZArith Lia String Ascii.
From stdpp Require Import base list strings.
Open Scope string_scope.
Open Scope Z_scope.

Inductive addr_error := MissingPort | TooManyColons | MissingBracket | UnexpectedOpening | UnexpectedClosing.

(** The text of a [net.AddrError] for the address. *)
Definition addr_error_text (address : string) (e : addr_error) : string :=
  "address " ++ address ++ ": " ++
  match e with
  | MissingPort => "missing port in address" | TooManyColons => "too many colons in address" | MissingBracket => "missing ']' in address"
  | UnexpectedOpening => "unexpected '[' in address" | UnexpectedClosing => "unexpected ']' in address"
  end.

(** [bytealg.IndexByteString]. *)
Fixpoint index_char (c : ascii) (s : string) : option nat :=
  match s with
  | "" => None
  | String a s' => if Ascii.eqb a c then Some 0%nat else S <$> index_char c s'
  end.

Definition has_char (c : ascii) (s : string) : bool :=
  match index_char c s with Some _ => true | None => false end.

Definition char_at (s : string) (i : nat) : option ascii :=
  match sdrop i s with String c _ => Some c | "" => None end.

(** [net.SplitHostPort]. *)
Definition SplitHostPort (hostport : string) : result addr_error (string * string) :=
  match last_index ":" hostport with
  | None => Err MissingPort
  | Some i =>
      let finish (host : string) (j k : nat) :=
        if has_char "[" (sdrop j hostport) then Err UnexpectedOpening
        else if has_char "]" (sdrop k hostport) then Err UnexpectedClosing
        else Ok (host, sdrop (S i) hostport) in
      match hostport with
      | String "[" rest =>
          match index_char "]" hostport with
          | None => Err MissingBracket
          | Some end_ =>
              if (S end_ =? String.length hostport)%nat then Err MissingPort
              else if (S end_ =? i)%nat then finish (stake (end_ - 1) rest) 1%nat (S end_)
              else if bool_decide (char_at hostport (S end_) = Some ":"%char) then Err TooManyColons
              else Err MissingPort
          end
      | _ =>
          let host := stake i hostport in
          if has_char ":" host then Err TooManyColons else finish host 0%nat 0%nat
      end
  end.

(** [net.JoinHostPort]. *)
Definition JoinHostPort (host port : string) : string :=
  if has_char ":" host || has_char "%" host then "[" ++ host ++ "]:" ++ port else host ++ ":" ++ port.

(** ** Facts *)

#[local] Arguments String.append : simpl nomatch.

Lemma has_char_no_char c s : has_char c s = negb (no_char c s).
Proof.
  unfold has_char. induction s as [| a s IH]; simpl; [done |].
  destruct (Ascii.eqb a c); simpl; [done |]. rewrite <- IH. by destruct (index_char c s).
Qed.

Lemma index_char_app c s t : no_char c s = true -> index_char c (s ++ String c t) = Some (String.length s).
Proof.
  induction s as [| a s IH]; simpl; intros Hs; [by rewrite Ascii.eqb_refl |]. propify. rewrite H. by rewrite IH.
Qed.

Lemma last_index_none c s : no_char c s = true -> last_index c s = None.
Proof. induction s as [| a s IH]; simpl; intros Hs; [done |]. propify. rewrite IH by done. by rewrite H. Qed.

Lemma last_index_app c s t : no_char c t = true -> last_index c (s ++ String c t) = Some (String.length s).
Proof.
  intros Ht. induction s as [| a s IH]; simpl; [by rewrite last_index_none, Ascii.eqb_refl |]. by rewrite IH.
Qed.

Lemma sdrop_0 s : sdrop 0 s = s.
Proof. by destruct s. Qed.

Lemma sdrop_app_more p s n : sdrop (String.length p + n) (p ++ s) = sdrop n s.
Proof. induction p; simpl; [done |]. by destruct n. Qed.

(** Characters a host or a port may not hold. *)
Definition plain (s : string) : bool := no_char "[" s && no_char "]" s.

(** A host without brackets between brackets, before a port. *)
Lemma split_bracketed host port :
  plain host = true -> plain port = true -> no_char ":" port = true ->
  SplitHostPort ("[" ++ host ++ "]:" ++ port) = Ok (host, port).
Proof.
  unfold plain. intros Hh Hp Hc. propify.
  change ("[" ++ host ++ "]:" ++ port) with (String "[" (host ++ String "]" (String ":" port))).
  set (tail := host ++ String "]" (String ":" port)). set (hp := String "[" tail).
  assert (last_index ":" hp = Some (S (S (String.length host)))) as Hi.
  { assert (hp = String "[" (host ++ "]") ++ String ":" port) as -> by (simpl; by rewrite string_app_assoc).
    rewrite last_index_app by done. simpl. rewrite string_length_app. simpl. do 2 f_equal. lia. }
  assert (index_char "]" hp = Some (S (String.length host))) as He
    by (unfold hp, tail; simpl; rewrite index_char_app by done; done).
  assert (String.length hp = (3 + String.length host + String.length port)%nat) as Hl
    by (unfold hp, tail; simpl; rewrite string_length_app; simpl; lia).
  assert (sdrop (S (S (String.length host))) hp = String ":" port) as Hd1
    by (change (sdrop (S (String.length host)) tail = String ":" port); unfold tail;
        rewrite <- Nat.add_1_r, sdrop_app_more; done).
  assert (sdrop (S (S (S (String.length host)))) hp = port) as Hd2.
  { change (sdrop (S (S (String.length host))) tail = port). unfold tail.
    replace (S (S (String.length host))) with (String.length host + 2)%nat by lia.
    rewrite sdrop_app_more. simpl. by destruct port. }
  assert (sdrop 1 hp = tail) as Hd3 by (unfold hp; simpl; by destruct tail).
  unfold SplitHostPort. rewrite Hi, He. unfold hp at 1. cbv beta iota zeta.
  rewrite (proj2 (Nat.eqb_neq _ _)) by (rewrite Hl; lia).
  rewrite Nat.eqb_refl, Hd1, Hd2, Hd3, !has_char_no_char. unfold tail. rewrite no_char_app. simpl.
  rewrite ?H, ?H0, ?H1, ?H2. simpl. by rewrite Nat.sub_0_r, stake_app.
Qed.

(** A host without brackets and colons, before a port. *)
Lemma split_plain host port :
  plain host = true -> plain port = true -> no_char ":" port = true -> no_char ":" host = true ->
  SplitHostPort (host ++ ":" ++ port) = Ok (host, port).
Proof.
  unfold plain. intros Hh Hp Hc E. propify.
  change (host ++ ":" ++ port) with (host ++ String ":" port).
  assert (sdrop (S (String.length host)) (host ++ String ":" port) = port) as Hd.
  { replace (S (String.length host)) with (String.length host + 1)%nat by lia.
    rewrite sdrop_app_more. simpl. by destruct port. }
  assert (sdrop 0 (host ++ String ":" port) = host ++ String ":" port) as Hd0 by (by destruct host).
  unfold SplitHostPort. rewrite last_index_app by done.
  rewrite has_char_no_char, stake_app, E, Hd, Hd0.
  rewrite !has_char_no_char, !no_char_app. simpl. rewrite H, H0, H1, H2.
  destruct host as [| a host]; [done |].
  destruct (Ascii.eqb a "[") eqn:Ha; [apply Ascii.eqb_eq in Ha; subst; simpl in *; congruence |].
  destruct a as [[] [] [] [] [] [] [] []]; try done.
Qed.

(** [SplitHostPort] inverts [JoinHostPort] for hosts and ports without brackets, IPv6 ones too. *)
Lemma split_join host port :
  plain host = true -> plain port = true -> no_char ":" port = true ->
  SplitHostPort (JoinHostPort host port) = Ok (host, port).
Proof.
  intros Hh Hp Hc. unfold JoinHostPort.
  destruct (has_char ":" host || has_char "%" host) eqn:E; [by apply split_bracketed |].
  apply split_plain; [done .. |]. apply orb_false_iff in E as [E _].
  rewrite has_char_no_char in E. by apply negb_false_iff in E.
Qed.

(** A bracketed IPv6 host joined again is no address. *)
Lemma split_join_bracketed ip port :
  plain ip = true -> has_char ":" ip = true -> plain port = true -> no_char ":" port = true ->
  exists e, SplitHostPort (JoinHostPort ("[" ++ ip ++ "]") port) = Err e.
Proof.
  unfold plain. intros Hip Hcol Hp Hc. propify. unfold JoinHostPort.
  assert (has_char ":" ("[" ++ ip ++ "]") = true) as ->.
  { rewrite has_char_no_char in *. rewrite !no_char_app. simpl. apply negb_true_iff in Hcol. by rewrite Hcol. }
  simpl. rewrite string_app_assoc. change ("]" ++ "]:" ++ port) with (String "]" ("]:" ++ port)).
  set (hp := String "[" (String "[" _)).
  assert (last_index ":" hp = Some (4 + String.length ip)%nat) as Hi.
  { assert (hp = String "[" (String "[" (ip ++ "]]")) ++ String ":" port) as -> by (simpl; by rewrite string_app_assoc).
    rewrite last_index_app by done. simpl. rewrite string_length_app. simpl. f_equal. lia. }
  assert (index_char "]" hp = Some (S (S (String.length ip)))) as He
    by (unfold hp; simpl; by rewrite index_char_app).
  unfold SplitHostPort. rewrite Hi, He. unfold hp at 1. cbv beta iota zeta.
  rewrite (proj2 (Nat.eqb_neq (S (S (S (String.length ip)))) (4 + String.length ip))) by lia.
  repeat split_guard; by eexists.
Qed.
