(* ===== verification/Regex.v ===== *)
(** * Go regular expressions (package regexp) with one capture group.

    Leftmost-first semantics by backtracking over bytes: the patterns of the client match UTF-8
    runes only through classes ("." and negated classes) whose byte-wise reading gives the same
    matches.  A starred expression is always a character class, so the matcher is structural. *)

From S2P Require Import Prelude GoStrings Chars.
From Stdlib Require Import ZArith Lia String Ascii.
From stdpp Require Import base list strings.
Open Scope string_scope.

Inductive re :=
| Eps
| Cls (p : ascii -> bool)
| Seq (a b : re)
| Alt (a b : re)
| Star (greedy : bool) (p : ascii -> bool)
| Cap (a : re).

(** [k] consumes what is left after a match; the second argument is the text of the group. *)
Fixpoint star_greedy {A} (p : ascii -> bool) (k : string -> option A) (s : string) : option A :=
  match s with
  | String c s' => if p c then match star_greedy p k s' with Some x => Some x | None => k s end else k s
  | "" => k ""
  end.

Fixpoint star_lazy {A} (p : ascii -> bool) (k : string -> option A) (s : string) : option A :=
  match k s with
  | Some x => Some x
  | None => match s with String c s' => if p c then star_lazy p k s' else None | "" => None end
  end.

Fixpoint match_re {A} (r : re) (s : string) (group : option string)
    (k : string -> option string -> option A) : option A :=
  match r with
  | Eps => k s group
  | Cls p => match s with String c s' => if p c then k s' group else None | "" => None end
  | Seq a b => match_re a s group (fun s' g => match_re b s' g k)
  | Alt a b => match match_re a s group k with Some x => Some x | None => match_re b s group k end
  | Star true p => star_greedy p (fun s' => k s' group) s
  | Star false p => star_lazy p (fun s' => k s' group) s
  | Cap a => match_re a s group (fun s' _ => k s' (Some (stake (String.length s - String.length s') s)))
  end.

(** [FindStringSubmatch(s)[1]]: [None] when nothing matches, the empty string when the group took no
    part. *)
Fixpoint find_submatch (r : re) (s : string) : option string :=
  match match_re r s None (fun _ g => Some (default "" g)) with
  | Some g => Some g
  | None => match s with String _ s' => find_submatch r s' | "" => None end
  end.

(** ** Building patterns *)

Definition Chr (c : ascii) : re := Cls (Ascii.eqb c).
Fixpoint Lit (s : string) : re :=
  match s with "" => Eps | String c s' => Seq (Chr c) (Lit s') end.
Definition Plus (p : ascii -> bool) : re := Seq (Cls p) (Star true p).
Definition Opt (a : re) : re := Alt a Eps.
Fixpoint Times (n : nat) (a : re) : re := match n with O => Eps | S n' => Seq a (Times n' a) end.
Definition seqs (l : list re) : re := foldr Seq Eps l.

(** [\s], [\d], [^...] and the dot under the flag s. *)
Definition re_space (c : ascii) : bool :=
  Ascii.eqb c (byte 32) || Ascii.eqb c (byte 9) || Ascii.eqb c (byte 10) || Ascii.eqb c (byte 12) || Ascii.eqb c (byte 13).
Definition re_digit (c : ascii) : bool := match digit_val c with Some _ => true | None => false end.
Definition re_not (c : ascii) : ascii -> bool := fun a => negb (Ascii.eqb a c).
Definition re_any (_ : ascii) : bool := true.

Definition spaces : re := Star true re_space.
Definition spaces1 : re := Plus re_space.

(** ** Facts *)

(** A match yields what its continuation yields on some rest of the text. *)
Lemma star_greedy_suffix {A} p (k : string -> option A) s x :
  star_greedy p k s = Some x -> exists u v, s = u ++ v /\ all_of p u = true /\ k v = Some x.
Proof.
  induction s as [| c s IH]; simpl; intros Hk; [by exists "", "" |].
  destruct (p c) eqn:Hp; [| by exists "", (String c s)].
  destruct (star_greedy p k s) as [y |]; [| by exists "", (String c s)].
  destruct IH as (u & v & -> & Hu & Hv); [done |]. exists (String c u), v. simpl. by rewrite Hp.
Qed.

Lemma star_lazy_suffix {A} p (k : string -> option A) s x :
  star_lazy p k s = Some x -> exists u v, s = u ++ v /\ all_of p u = true /\ k v = Some x.
Proof.
  induction s as [| c s IH]; simpl; intros Hk.
  - destruct (k "") as [y |] eqn:E; [| done]. injection Hk as ->. by exists "", "".
  - destruct (k (String c s)) as [y |] eqn:E.
    + injection Hk as ->. by exists "", (String c s).
    + destruct (p c) eqn:Hp; [| done]. destruct IH as (u & v & -> & Hu & Hv); [done |].
      exists (String c u), v. simpl. by rewrite Hp.
Qed.

Lemma match_re_suffix {A} r s group (k : string -> option string -> option A) x :
  match_re r s group k = Some x -> exists u v group', s = u ++ v /\ k v group' = Some x.
Proof.
  revert s group k. induction r as [| p | a IHa b IHb | a IHa b IHb | [] p | a IHa]; intros s group k; simpl.
  - intros Hk. by exists "", s, group.
  - destruct s as [| c s]; [done |]. destruct (p c); [| done]. intros Hk. by exists (String c ""), s, group.
  - intros (u & v & g & -> & Hb)%IHa. apply IHb in Hb as (u' & v' & g' & -> & Hk).
    exists (u ++ u'), v', g'. by rewrite string_app_assoc.
  - destruct (match_re a s group k) eqn:E; [intros [= ->]; by apply IHa in E | apply IHb].
  - intros (u & v & -> & _ & Hk)%star_greedy_suffix. by exists u, v, group.
  - intros (u & v & -> & _ & Hk)%star_lazy_suffix. by exists u, v, group.
  - intros (u & v & g & -> & Hk)%IHa. eauto.
Qed.
