(* ===== verification/Hashing.v ===== *)
(** * Hexadecimal, base64 and SHA-256 (packages encoding/hex, encoding/base64, crypto/sha256). *)

From S2P Require Import Prelude GoStrings.
From Stdlib Require Import ZArith Lia String Ascii.
From stdpp Require Import base list strings.
Open Scope string_scope.
Open Scope Z_scope.

(** ** Bytes of a string *)

Fixpoint bytes_of (s : string) : list Z :=
  match s with "" => [] | String c s' => Z.of_N (N_of_ascii c) :: bytes_of s' end.

(** [hex.EncodeToString]: lower-case digits. *)
Definition hex_lower (n : Z) : ascii := byte (if n <? 10 then 48 + n else 87 + n).

Fixpoint hex_encode (l : list Z) : string :=
  match l with
  | [] => ""
  | b :: rest => String (hex_lower (Z.shiftr b 4)) (String (hex_lower (Z.land b 15)) (hex_encode rest))
  end.

(** ** Base64, the standard alphabet with padding *)

Definition base64_char (n : Z) : ascii :=
  byte (if n <? 26 then 65 + n else if n <? 52 then 71 + n else if n <? 62 then n - 4
        else if n =? 62 then 43 else 47).

Fixpoint base64_encode (l : list Z) : string :=
  match l with
  | a :: b :: c :: rest =>
      String (base64_char (Z.shiftr a 2))
      (String (base64_char (Z.lor (Z.shiftl (Z.land a 3) 4) (Z.shiftr b 4)))
      (String (base64_char (Z.lor (Z.shiftl (Z.land b 15) 2) (Z.shiftr c 6)))
      (String (base64_char (Z.land c 63)) (base64_encode rest))))
  | [a; b] =>
      String (base64_char (Z.shiftr a 2))
      (String (base64_char (Z.lor (Z.shiftl (Z.land a 3) 4) (Z.shiftr b 4)))
      (String (base64_char (Z.shiftl (Z.land b 15) 2)) "="))
  | [a] => String (base64_char (Z.shiftr a 2)) (String (base64_char (Z.shiftl (Z.land a 3) 4)) "==")
  | [] => ""
  end.

(** ** SHA-256 *)

(** The constants are the first 32 bits of the fractional parts of the cube roots of the first 64 primes,
    the initial state of the square roots of the first eight. *)
Fixpoint first_primes (fuel : nat) (n : Z) (found : list Z) : list Z :=
  match fuel with
  | O => rev found
  | S f => first_primes f (n + 1) (if forallb (fun p => negb (n mod p =? 0)) found then n :: found else found)
  end.

(** The largest [r] below [2^bits] whose cube is at most [n], added to [r0]. *)
Fixpoint cube_root (bits : nat) (n r0 : Z) : Z :=
  match bits with
  | O => r0
  | S b => let r := r0 + 2 ^ Z.of_nat b in cube_root b n (if r * r * r <=? n then r else r0)
  end.

Definition sha256_k : list Z :=
  Eval vm_compute in (fun p => u32 (cube_root 36 (p * 2 ^ 96) 0)) <$> take 64 (first_primes 310 2 []).

Definition sha256_init : list Z :=
  Eval vm_compute in (fun p => u32 (Z.sqrt (p * 2 ^ 64))) <$> take 8 (first_primes 310 2 []).

Definition rotr (x n : Z) : Z := u32 (Z.lor (Z.shiftr x n) (Z.shiftl x (32 - n))).
Definition not32 (x : Z) : Z := Z.lxor x 0xffffffff.

(** The message schedule, the last sixteen words first. *)
Fixpoint schedule (n : nat) (w : list Z) : list Z :=
  match n with
  | O => w
  | S n' =>
      let w2 := nth 1 w 0 in let w7 := nth 6 w 0 in let w15 := nth 14 w 0 in let w16 := nth 15 w 0 in
      let s0 := Z.lxor (Z.lxor (rotr w15 7) (rotr w15 18)) (Z.shiftr w15 3) in
      let s1 := Z.lxor (Z.lxor (rotr w2 17) (rotr w2 19)) (Z.shiftr w2 10) in
      schedule n' (u32 (w16 + s0 + w7 + s1) :: w)
  end.

Fixpoint rounds (kw : list (Z * Z)) (a b c d e f g h : Z) : list Z :=
  match kw with
  | [] => [a; b; c; d; e; f; g; h]
  | (k, w) :: rest =>
      let S1 := Z.lxor (Z.lxor (rotr e 6) (rotr e 11)) (rotr e 25) in
      let ch := Z.lxor (Z.land e f) (Z.land (not32 e) g) in
      let t1 := u32 (h + S1 + ch + k + w) in
      let S0 := Z.lxor (Z.lxor (rotr a 2) (rotr a 13)) (rotr a 22) in
      let maj := Z.lxor (Z.lxor (Z.land a b) (Z.land a c)) (Z.land b c) in
      let t2 := u32 (S0 + maj) in
      rounds rest (u32 (t1 + t2)) a b c (u32 (d + t1)) e f g
  end.

Definition compress (st : list Z) (block : list Z) : list Z :=
  let w := rev (schedule 48 (rev block)) in
  match st with
  | [a; b; c; d; e; f; g; h] =>
      zip_with (fun x y => u32 (x + y)) st (rounds (zip sha256_k w) a b c d e f g h)
  | _ => st
  end.

(** Big-endian 32-bit words of a byte list whose length is a multiple of four. *)
Fixpoint words (l : list Z) : list Z :=
  match l with
  | a :: b :: c :: d :: rest => (a * 16777216 + b * 65536 + c * 256 + d) :: words rest
  | _ => []
  end.

Fixpoint blocks (n : nat) (st : list Z) (ws : list Z) : list Z :=
  match n with O => st | S n' => blocks n' (compress st (take 16 ws)) (drop 16 ws) end.

(** Padding: 0x80, zeros up to 56 modulo 64, and the length in bits in eight bytes. *)
Definition sha_pad (l : list Z) : list Z :=
  let n := length l in
  let zeros := ((119 - n mod 64) mod 64)%nat in
  let bits := Z.of_nat n * 8 in
  l ++ 0x80 :: repeat 0 zeros ++ ((fun i => Z.land (Z.shiftr bits (8 * i)) 255) <$> [7; 6; 5; 4; 3; 2; 1; 0]).

Definition be_bytes (w : Z) : list Z :=
  (fun i => Z.land (Z.shiftr w (8 * i)) 255) <$> [3; 2; 1; 0].

(** [sha256.Sum256]. *)
Definition sha256 (l : list Z) : list Z :=
  let p := sha_pad l in
  mjoin (be_bytes <$> blocks (length p / 64)%nat sha256_init (words p)).

Example sha256_abc : hex_encode (sha256 (bytes_of "abc")) =
  "ba7816bf8f01cfea414140de5dae2223b00361a396177a9cb410ff61f20015ad".
Proof. vm_compute. reflexivity. Qed.

Example sha256_empty : hex_encode (sha256 []) =
  "e3b0c44298fc1c149afbf4c8996fb92427ae41e4649b934ca495991b7852b855".
Proof. vm_compute. reflexivity. Qed.
