(* ===== verification/Sorting.v ===== *)
(** * [sort.SliceStable]: stable sorting by a [less] predicate.

    A stable sort has one possible result; insertion from the right computes it.  When [less] is a
    strict total order on the elements the result depends on them only as a multiset. *)

From S2P Require Import Prelude.
From Stdlib Require Import ZArith Lia.
From stdpp Require Import base sets list sorting.
Open Scope Z_scope.

Section Sort.
Context {A : Type} (less : A -> A -> bool).

(** [x] goes before the first element that is not smaller. *)
Fixpoint insert_sorted (x : A) (l : list A) : list A :=
  match l with
  | [] => [x]
  | y :: rest => if less y x then y :: insert_sorted x rest else x :: l
  end.

Definition sort_stable (l : list A) : list A := foldr insert_sorted [] l.

Definition not_less (x y : A) : Prop := less y x = false.

Lemma insert_sorted_perm x l : insert_sorted x l ≡ₚ x :: l.
Proof.
  induction l as [| y l IH]; simpl; [done |]. destruct (less y x); [| done].
  rewrite IH. apply Permutation_swap.
Qed.

Lemma sort_stable_perm l : sort_stable l ≡ₚ l.
Proof. induction l as [| x l IH]; simpl; [done |]. by rewrite insert_sorted_perm, IH. Qed.

(** What [less] must satisfy on the elements sorted: a strict total order. *)
Record strict_total (P : A -> Prop) : Prop := {
  less_irrefl : forall x, P x -> less x x = false;
  less_trans : forall x y z, P x -> P y -> P z -> less x y = true -> less y z = true -> less x z = true;
  less_total : forall x y, P x -> P y -> less x y = false -> less y x = false -> x = y
}.

Context (P : A -> Prop) (Hless : strict_total P).

Lemma not_less_trans x y z : P x -> P y -> P z -> not_less x y -> not_less y z -> not_less x z.
Proof.
  unfold not_less. intros Hx Hy Hz Hxy Hyz. destruct (less z x) eqn:E; [| done].
  destruct (less x y) eqn:E'; [by rewrite (less_trans _ Hless z x y) in Hyz |].
  by rewrite (less_total _ Hless x y Hx Hy E' Hxy), Hyz in E.
Qed.

Lemma insert_sorted_sorted x l :
  P x -> Forall P l -> StronglySorted not_less l -> StronglySorted not_less (insert_sorted x l).
Proof.
  intros Hx Hl Hs. induction Hs as [| y l Hs IH Hy]; simpl; [by repeat constructor |].
  apply Forall_cons in Hl as [HPy Hl]. destruct (less y x) eqn:E.
  - constructor; [by apply IH |]. rewrite insert_sorted_perm. constructor; [| done].
    unfold not_less. destruct (less x y) eqn:E'; [| done].
    rewrite <- (less_irrefl _ Hless x Hx). symmetry. by apply (less_trans _ Hless x y x).
  - constructor; [by constructor |]. constructor; [done |].
    apply Forall_forall. intros z Hz. rewrite Forall_forall in Hy, Hl.
    apply (not_less_trans x y z); auto.
Qed.

Lemma sort_stable_sorted l : Forall P l -> StronglySorted not_less (sort_stable l).
Proof.
  induction 1 as [| x l Hx Hl IH]; simpl; [constructor |].
  apply insert_sorted_sorted; [done | by rewrite sort_stable_perm | done].
Qed.

(** The result does not depend on the order of the input. *)
Lemma sort_stable_ext l k : Forall P l -> l ≡ₚ k -> sort_stable l = sort_stable k.
Proof.
  intros Hl Hp. apply (StronglySorted_unique_strong not_less).
  - intros x y Hx Hy H1 H2. rewrite sort_stable_perm in Hx, Hy. rewrite <- Hp in Hy.
    rewrite Forall_forall in Hl. apply (less_total _ Hless); auto.
  - by apply sort_stable_sorted.
  - apply sort_stable_sorted. by rewrite <- Hp.
  - by rewrite !sort_stable_perm.
Qed.

(** An element below all others comes first. *)
Lemma sort_stable_head x l :
  Forall P l -> x ∈ l -> (forall y, y ∈ l -> y <> x -> less x y = true) ->
  head (sort_stable l) = Some x.
Proof.
  intros Hl Hx Hmin. pose proof (sort_stable_sorted l Hl) as Hs.
  pose proof (sort_stable_perm l) as Hp. destruct (sort_stable l) as [| y k].
  - rewrite <- Hp in Hx. by apply not_elem_of_nil in Hx.
  - simpl. f_equal. apply StronglySorted_inv in Hs as [_ Hs]. rewrite Forall_forall in Hs, Hl.
    assert (x ∈ y :: k) as [-> | Hxk]%elem_of_cons by (by rewrite Hp); [done |].
    assert (y ∈ l) as Hy by (rewrite <- Hp; set_solver).
    specialize (Hs x Hxk). unfold not_less in Hs.
    destruct (less y x) eqn:E; [| apply (less_total _ Hless); auto].
    rewrite Hmin in Hs; [done | done |].
    intros ->. rewrite (less_irrefl _ Hless x) in E; [done | auto].
Qed.
End Sort.
