(* ===== verification/Json.v ===== *)
(** * Decoded JSON ([map[string]any]) and float64 numbers.

    [encoding/json] decodes a document into nil, bool, float64, string, slices and maps; [json] is
    that value.  A finite float64 is an exact binary fraction. *)

From S2P Require Import Prelude GoStrings.
From Stdlib Require Import ZArith Lia String Ascii.
From stdpp Require Import base list strings.
Open Scope string_scope.
Open Scope Z_scope.

(** The number [mant * 2 ^ expo]. *)
Record float64 := { mant : Z; expo : Z }.

Definition f_of_int (n : Z) : float64 := {| mant := n; expo := 0 |}.

Definition f_is_zero (x : float64) : bool := mant x =? 0.

(** Truncation towards zero; [int(v)] of an out-of-range value is the most negative integer, as on
    amd64. *)
Definition f_trunc (x : float64) : Z :=
  if 0 <=? expo x then mant x * 2 ^ expo x else Z.quot (mant x) (2 ^ (- expo x)).

Definition f_int (x : float64) : Z := default min_int (check_int (f_trunc x)).

(** Rounding to the nearest integer, ties to even: [fmt.Sprintf("%.0f", v)]. *)
Definition f_round (x : float64) : Z :=
  if 0 <=? expo x then mant x * 2 ^ expo x
  else
    let d := 2 ^ (- expo x) in
    let q := mant x / d in
    let r := mant x mod d in
    if (2 * r <? d) || ((2 * r =? d) && Z.even q) then q else q + 1.

Definition fmt_f0 (x : float64) : string :=
  let n := f_round x in
  if (n =? 0) && (mant x <? 0) then "-0" else itoa n.

#[local] Set Warnings "-register-all".

Inductive json :=
| JNull
| JBool (b : bool)
| JNum (x : float64)
| JStr (s : string)
| JArr (l : list json)
| JObj (m : list (string * json)).

(** A decoded [map[string]any]. *)
Abbreviation object := (list (string * json)).

(** [m[key]] of a decoded object: nil when the key is absent. *)
Fixpoint obj_get (m : list (string * json)) (key : string) : json :=
  match m with
  | [] => JNull
  | (k, v) :: rest => if String.eqb k key then v else obj_get rest key
  end.

(** The type assertions [v.(T)]; [None] is the failed form. *)
Definition as_obj (v : json) : option (list (string * json)) :=
  match v with JObj m => Some m | _ => None end.
Definition as_arr (v : json) : option (list json) := match v with JArr l => Some l | _ => None end.
Definition as_str (v : json) : option string := match v with JStr s => Some s | _ => None end.
Definition as_num (v : json) : option float64 := match v with JNum x => Some x | _ => None end.

(** [s, _ := v.(string)] and [f, _ := v.(float64)]: the zero value when the assertion fails. *)
Definition str_or_empty (v : json) : string := default "" (as_str v).
Definition num_or_zero (v : json) : float64 := default (f_of_int 0) (as_num v).

Lemma fmt_f0_int n : fmt_f0 (f_of_int n) = itoa n.
Proof.
  unfold fmt_f0, f_round, f_of_int. simpl. rewrite Z.mul_1_r.
  destruct (Z.eqb_spec n 0) as [-> |]; [done |]. done.
Qed.

Lemma f_int_of_int n : min_int <= n <= max_int -> f_int (f_of_int n) = n.
Proof.
  intros Hn. unfold f_int, f_trunc, f_of_int, check_int. simpl. rewrite Z.mul_1_r.
  by rewrite !(proj2 (Z.leb_le _ _)) by lia.
Qed.
