(* ===== verification/VkErrors.v ===== *)
(** * Errors of the VK and OK APIs (internal/core/creds.go, captcha_v2.go).

    The error values that travel through the credential code, their texts (the code searches them
    for substrings) and the functions that read them off a decoded response.  The formatting verbs
    %v of a decoded value and %q, and package net/url's query access, are parameters. *)

From S2P Require Import Prelude GoStrings Json.
From Stdlib Require Import ZArith Lia String Ascii.
From stdpp Require Import base list strings.
Open Scope string_scope.
Open Scope Z_scope.

(** What the client uses of package fmt and net/url and cannot be read off the source: %v of a
    decoded JSON value, %q of a string, [json.Marshal] of a decoded value, and [parsed.Query().Get(key)] of a URL ([None] when
    [url.Parse] fails). *)
Class GoLib := {
  fmt_v : json -> string;
  fmt_q : string -> string;
  url_query_get : string -> string -> option string;
  json_marshal : json -> string
}.

Record VkCaptchaError := {
  ErrorCode : Z;
  ErrorMsg : string;
  CaptchaSid : string;
  CaptchaImg : string;
  RedirectURI : string;
  SessionToken : string;
  CaptchaTs : string;
  CaptchaAttempt : string
}.

Inductive vkCallsFailureKind :=
| vkCallsFailureSkipped | vkCallsFailureSetup | vkCallsFailureNetwork | vkCallsFailureDecode
| vkCallsFailureVKAPI | vkCallsFailureCaptcha | vkCallsFailureCall | vkCallsFailureOKCDN
| vkCallsFailureParse.

Definition kind_string (k : vkCallsFailureKind) : string :=
  match k with
  | vkCallsFailureSkipped => "skipped" | vkCallsFailureSetup => "setup"
  | vkCallsFailureNetwork => "network" | vkCallsFailureDecode => "decode"
  | vkCallsFailureVKAPI => "vk_api" | vkCallsFailureCaptcha => "captcha"
  | vkCallsFailureCall => "call_unavailable" | vkCallsFailureOKCDN => "okcdn_api"
  | vkCallsFailureParse => "parse"
  end.

(** The error values; [WrapError before e after] is [fmt.Errorf(before + "%w" + after, e)] and
    [TextError] any error without a wrapped one. *)
Inductive vk_error :=
| CallUnavailableError (Code : Z) (Message : string)
| CaptchaRequired (c : VkCaptchaError)
| vkCallsVKAPIError (Code : Z) (Message : string)
| vkCallsOKAPIError (Code : Z) (Message : string)
| vkCallsFailure (Step : string) (Kind : vkCallsFailureKind) (Err : vk_error)
| WrapError (before : string) (e : vk_error) (after : string)
| TextError (msg : string)
| errCaptchaV2RateLimit
| errCaptchaV2Bot
| errCaptchaSessionExpired.

Section Errors.
Context `{GoLib}.

(** [VkCaptchaError.Error]. *)
Definition captcha_string (e : VkCaptchaError) : string :=
  if negb (ErrorCode e =? 0) && negb (ErrorCode e =? 14) then
    if negb (String.eqb (ErrorMsg e) "")
    then "VK API error " ++ itoa (ErrorCode e) ++ ": " ++ ErrorMsg e
    else "VK API error " ++ itoa (ErrorCode e)
  else if negb (String.eqb (RedirectURI e) "")
  then "VK captcha required: redirect_uri, sid=" ++ fmt_q (CaptchaSid e)
  else if negb (String.eqb (CaptchaImg e) "")
  then "VK captcha required: captcha_img, sid=" ++ fmt_q (CaptchaSid e)
  else if negb (String.eqb (CaptchaSid e) "")
  then "VK captcha required: sid=" ++ fmt_q (CaptchaSid e)
  else if negb (String.eqb (ErrorMsg e) "")
  then "VK captcha required: " ++ ErrorMsg e
  else "VK captcha required".

(** [error_code=%d] and [error_code=%d %s]. *)
Definition code_string (code : Z) (message : string) : string :=
  if String.eqb message "" then "error_code=" ++ itoa code
  else "error_code=" ++ itoa code ++ " " ++ message.

(** [err.Error()]. *)
Fixpoint error_string (e : vk_error) : string :=
  match e with
  | CallUnavailableError code message =>
      if negb (String.eqb message "")
      then "VK returns error: " ++ message ++ " (error_code=" ++ itoa code ++ ")"
      else "VK call is unavailable (error_code=" ++ itoa code ++ ")"
  | CaptchaRequired c => captcha_string c
  | vkCallsVKAPIError code message => code_string code message
  | vkCallsOKAPIError code message => code_string code message
  | vkCallsFailure step kind e' => "step=" ++ step ++ " kind=" ++ kind_string kind ++ ": " ++ error_string e'
  | WrapError before e' after => before ++ error_string e' ++ after
  | TextError msg => msg
  | errCaptchaV2RateLimit => "captcha session rate limit reached"
  | errCaptchaV2Bot => "captcha bot challenge"
  | errCaptchaSessionExpired => "captcha session expired, need fresh challenge"
  end.

(** [asCallUnavailableError]: [errors.As] along the chain of wrapped errors. *)
Fixpoint asCallUnavailableError (e : vk_error) : option (Z * string) :=
  match e with
  | CallUnavailableError code message => Some (code, message)
  | vkCallsFailure _ _ e' => asCallUnavailableError e'
  | WrapError _ e' _ => asCallUnavailableError e'
  | _ => None
  end.

Fixpoint as_captcha (e : vk_error) : option VkCaptchaError :=
  match e with
  | CaptchaRequired c => Some c
  | vkCallsFailure _ _ e' => as_captcha e'
  | WrapError _ e' _ => as_captcha e'
  | _ => None
  end.

(** [errors.Is] for the sentinel errors. *)
Fixpoint is_rate_limit (e : vk_error) : bool :=
  match e with
  | errCaptchaV2RateLimit => true
  | vkCallsFailure _ _ e' => is_rate_limit e'
  | WrapError _ e' _ => is_rate_limit e'
  | _ => false
  end.

Fixpoint is_session_expired (e : vk_error) : bool :=
  match e with
  | errCaptchaSessionExpired => true
  | vkCallsFailure _ _ e' => is_session_expired e'
  | WrapError _ e' _ => is_session_expired e'
  | _ => false
  end.

(** [describeVKCallsFailure]: the text of the failure inside the chain, or of the whole error. *)
Fixpoint as_failure (e : vk_error) : option vk_error :=
  match e with
  | vkCallsFailure _ _ _ => Some e
  | WrapError _ e' _ => as_failure e'
  | _ => None
  end.
Definition describeVKCallsFailure (e : vk_error) : string :=
  match as_failure e with Some f => error_string f | None => error_string e end.

(** [vkCallsAPIErrorKind]. *)
Definition vkCallsAPIErrorKind (e : vk_error) : vkCallsFailureKind :=
  match asCallUnavailableError e with
  | Some _ => vkCallsFailureCall
  | None => match as_captcha e with Some _ => vkCallsFailureCaptcha | None => vkCallsFailureVKAPI end
  end.

(** ** Reading a response *)

(** [vkErrorCode]: [strconv.Atoi] of a string, 0 when it fails (a decoded value is never an int).
    Out of range, [Atoi] returns the nearest bound with its error, which is dropped. *)
Definition atoi_lenient (s : string) : Z :=
  match atoi s with
  | Some n => n
  | None =>
      let '(neg, digits) := match s with
        | String c rest => if Ascii.eqb c "-" then (true, rest)
                           else if Ascii.eqb c "+" then (false, rest) else (false, s)
        | "" => (false, "") end in
      if String.eqb digits "" then 0
      else match digits_value digits 0 with
           | Some _ => if neg then min_int else max_int
           | None => 0
           end
  end.

Definition vkErrorCode (raw : json) : Z :=
  match raw with
  | JNum v => f_int v
  | JStr v => atoi_lenient v
  | _ => 0
  end.

(** [fatalCallError]. *)
Definition fatalCallError (resp : object) : option vk_error :=
  match as_obj (obj_get resp "error") with
  | None => None
  | Some errObj =>
      let code := vkErrorCode (obj_get errObj "error_code") in
      if (code =? 951) || (code =? 954) || ((9000 <=? code) && (code <=? 9999))
      then Some (CallUnavailableError code (str_or_empty (obj_get errObj "error_msg")))
      else None
  end.

(** A number printed with %.0f, or a string, or nothing. *)
Definition num_or_str (v : json) : string :=
  match v with JNum x => fmt_f0 x | JStr s => s | _ => "" end.

(** [parseVkCaptchaError]. *)
Definition parseVkCaptchaError (errData : object) : VkCaptchaError :=
  let redirectUri := str_or_empty (obj_get errData "redirect_uri") in
  let captchaSid := str_or_empty (obj_get errData "captcha_sid") in
  let captchaSid := if String.eqb captchaSid ""
    then match as_num (obj_get errData "captcha_sid") with Some n => fmt_f0 n | None => "" end
    else captchaSid in
  {| ErrorCode := f_int (num_or_zero (obj_get errData "error_code"));
     ErrorMsg := str_or_empty (obj_get errData "error_msg");
     CaptchaSid := captchaSid;
     CaptchaImg := str_or_empty (obj_get errData "captcha_img");
     RedirectURI := redirectUri;
     SessionToken := if String.eqb redirectUri "" then ""
                     else default "" (url_query_get redirectUri "session_token");
     CaptchaTs := num_or_str (obj_get errData "captcha_ts");
     CaptchaAttempt := num_or_str (obj_get errData "captcha_attempt") |}.

(** [vkCallsAPIError]. *)
Definition vkCallsAPIError (resp : object) : option vk_error :=
  match as_obj (obj_get resp "error") with
  | None => None
  | Some errObj =>
      let code := num_or_zero (obj_get errObj "error_code") in
      let msg := str_or_empty (obj_get errObj "error_msg") in
      if f_is_zero code && String.eqb msg "" then None
      else match fatalCallError resp with
           | Some callErr => Some callErr
           | None =>
               if f_int code =? 14 then Some (CaptchaRequired (parseVkCaptchaError errObj))
               else Some (vkCallsVKAPIError (f_int code) msg)
           end
  end.

(** [vkCallsOKError]. *)
Definition vkCallsOKError (resp : object) : option vk_error :=
  match as_num (obj_get resp "error_code") with
  | None => None
  | Some code =>
      if f_is_zero code then None
      else Some (vkCallsOKAPIError (f_int code) (str_or_empty (obj_get resp "error_msg")))
  end.

(** %T of a decoded value. *)
Definition type_name (v : json) : string :=
  match v with
  | JNull => "<nil>" | JBool _ => "bool" | JNum _ => "float64" | JStr _ => "string"
  | JArr _ => "[]interface {}" | JObj _ => "map[string]interface {}" end.

(** Walking a path of keys: the text of the error when a value on the way is not an object. *)
Fixpoint walk (cur : json) (keys : list string) : result string json :=
  match keys with
  | [] => Ok cur
  | k :: rest =>
      match as_obj cur with
      | None => Err ("expected map at key " ++ fmt_q k ++ ", got " ++ type_name cur)
      | Some m => walk (obj_get m k) rest
      end
  end.

(** [extractVKCallsStr] and [extractVKCallsFloat]. *)
Definition extractVKCallsStr (resp : object) (keys : list string) : result string string :=
  cur ← walk (JObj resp) keys;
  match as_str cur with Some s => Ok s | None => Err ("expected string at end of path, got " ++ type_name cur) end.

Definition extractVKCallsFloat (resp : object) (keys : list string) : result string float64 :=
  cur ← walk (JObj resp) keys;
  match as_num cur with Some x => Ok x | None => Err ("expected float64 at end of path, got " ++ type_name cur) end.

(** ** TURN addresses *)

(** [clean := strings.Split(s, "?")[0]], then the two prefixes, "turn:" first. *)
Definition turn_address (s : string) : string :=
  trim_prefix "turns:" (trim_prefix "turn:" (hd "" (split_on "?" s))).

(** [parseVKCallsTURNAddresses]: anything but a string is skipped. *)
Definition parseVKCallsTURNAddresses (resp : object) : list string :=
  match as_obj (obj_get resp "turn_server") with
  | None => []
  | Some turnServer =>
      match as_arr (obj_get turnServer "urls") with
      | None => []
      | Some urls => turn_address <$> omap as_str urls
      end
  end.

(** [turnURLsToAddresses]: empty entries are dropped. *)
Fixpoint turnURLsToAddresses (urls : list string) : list string :=
  match urls with
  | [] => []
  | urlStr :: rest =>
      let urlStr := trim_space urlStr in
      if String.eqb urlStr "" then turnURLsToAddresses rest
      else let address := turn_address urlStr in
           if String.eqb address "" then turnURLsToAddresses rest
           else address :: turnURLsToAddresses rest
  end.

(** [truncateVKCallsLog]. *)
Definition truncateVKCallsLog (s : string) (n : nat) : string :=
  if (String.length s <=? n)%nat then s else stake n s ++ "...".
End Errors.
