(* ===== verification/Form.v ===== *)
(** * Form encoding (internal/core/captcha_v2.go, [captchaV2EncodeForm], [captchaV2QueryEscape]).

    [captchaV2QueryEscape] also is what net/url's [QueryEscape] computes.  The decoder is the
    server's side: the reference the encoder is checked against. *)

From S2P Require Import Prelude GoStrings.
From Stdlib Require Import ZArith Lia String Ascii.
From stdpp Require Import base list strings.
Open Scope string_scope.
Open Scope Z_scope.

Definition code (c : ascii) : Z := Z.of_N (N_of_ascii c).

(** ['a' <= c && c <= 'z'] and the other unreserved characters. *)
Definition unreserved (c : ascii) : bool :=
  let n := code c in
  ((97 <=? n) && (n <=? 122)) || ((65 <=? n) && (n <=? 90)) || ((48 <=? n) && (n <=? 57)) ||
  Ascii.eqb c "-" || Ascii.eqb c "_" || Ascii.eqb c "." || Ascii.eqb c "~".

(** [upper[n]] of "0123456789ABCDEF". *)
Definition hex_upper (n : Z) : ascii := byte (if n <? 10 then 48 + n else 55 + n).

Definition escape_char (c : ascii) : string :=
  if Ascii.eqb c " " then "+"
  else if unreserved c then String c ""
  else String "%" (String (hex_upper (Z.shiftr (code c) 4)) (String (hex_upper (Z.land (code c) 15)) "")).

Fixpoint captchaV2QueryEscape (s : string) : string :=
  match s with "" => "" | String c s' => escape_char c ++ captchaV2QueryEscape s' end.

Fixpoint captchaV2EncodeForm (values : list (string * string)) : string :=
  match values with
  | [] => ""
  | [(k, v)] => captchaV2QueryEscape k ++ "=" ++ captchaV2QueryEscape v
  | (k, v) :: rest =>
      captchaV2QueryEscape k ++ "=" ++ captchaV2QueryEscape v ++ "&" ++ captchaV2EncodeForm rest
  end.

(** ** The decoder *)

Definition hex_val (c : ascii) : option Z :=
  let n := code c in
  if (48 <=? n) && (n <=? 57) then Some (n - 48)
  else if (65 <=? n) && (n <=? 70) then Some (n - 55)
  else if (97 <=? n) && (n <=? 102) then Some (n - 87)
  else None.

Fixpoint query_unescape (s : string) : option string :=
  match s with
  | "" => Some ""
  | String c s' =>
      if Ascii.eqb c "+" then String " " <$> query_unescape s'
      else if Ascii.eqb c "%" then
        match s' with
        | String h (String l rest) =>
            match hex_val h, hex_val l with
            | Some a, Some b => String (byte (16 * a + b)) <$> query_unescape rest
            | _, _ => None
            end
        | _ => None
        end
      else String c <$> query_unescape s'
  end.

Definition decode_pair (s : string) : option (string * string) :=
  match split_on "=" s with
  | [k; v] => k' ← query_unescape k; v' ← query_unescape v; Some (k', v')
  | _ => None
  end.

Definition decode_form (s : string) : option (list (string * string)) :=
  if String.eqb s "" then Some [] else mapM decode_pair (split_on "&" s).

(** ** Round trip *)

#[local] Arguments String.append : simpl nomatch.

(** A property of every character, by cases over the 256 of them. *)
Lemma ascii_all (P : ascii -> bool) :
  forallb P (byte <$> seqZ 0 256) = true -> forall c, P c = true.
Proof.
  intros Hall c. rewrite forallb_forall in Hall. apply Hall, list_elem_of_In, list_elem_of_fmap.
  exists (code c). unfold byte, code. rewrite N2Z.id, ascii_N_embedding. split; [done |].
  apply elem_of_seqZ. pose proof (N_ascii_bounded c). lia.
Qed.

Definition escape_ok (c : ascii) : bool :=
  String.eqb (captchaV2QueryEscape (String c "")) (escape_char c) &&
  no_char "&" (escape_char c) && no_char "=" (escape_char c) &&
  match escape_char c with
  | String a "" => if Ascii.eqb a "+" then Ascii.eqb c " " else Ascii.eqb a c && negb (Ascii.eqb a "%")
  | String a (String h (String l "")) =>
      Ascii.eqb a "%" &&
      match hex_val h, hex_val l with Some x, Some y => Ascii.eqb (byte (16 * x + y)) c | _, _ => false end
  | _ => false
  end.

Lemma escape_char_ok c : escape_ok c = true.
Proof. apply (ascii_all escape_ok). vm_compute. done. Qed.

Lemma escape_no_sep s : no_char "&" (captchaV2QueryEscape s) = true /\ no_char "=" (captchaV2QueryEscape s) = true.
Proof.
  induction s as [| c s [IH1 IH2]]; simpl; [done |]. rewrite !no_char_app, IH1, IH2.
  pose proof (escape_char_ok c) as H. unfold escape_ok in H. propify. by rewrite H1, H2.
Qed.

Lemma unescape_escape s : query_unescape (captchaV2QueryEscape s) = Some s.
Proof.
  induction s as [| c s IH]; [done |]. cbn [captchaV2QueryEscape].
  pose proof (escape_char_ok c) as H. unfold escape_ok in H. apply andb_true_iff in H as [_ H].
  destruct (escape_char c) as [| a [| h [| l [|]]]]; try done; simpl.
  - destruct (Ascii.eqb a "+") eqn:Ea.
    + apply Ascii.eqb_eq in H as ->. by rewrite IH.
    + apply andb_true_iff in H as [->%Ascii.eqb_eq ->%negb_true_iff]. by rewrite IH.
  - apply andb_true_iff in H as [->%Ascii.eqb_eq H]. simpl.
    destruct (hex_val h); [| done]. destruct (hex_val l); [| done].
    apply Ascii.eqb_eq in H as ->. by rewrite IH.
Qed.

Lemma decode_pair_encode k v :
  decode_pair (captchaV2QueryEscape k ++ "=" ++ captchaV2QueryEscape v) = Some (k, v).
Proof.
  unfold decode_pair. destruct (escape_no_sep k) as [_ Hk]. destruct (escape_no_sep v) as [_ Hv].
  change ("=" ++ captchaV2QueryEscape v) with (String "=" (captchaV2QueryEscape v)).
  rewrite split_on_app by done. rewrite split_on_no_char by done. by rewrite !unescape_escape.
Qed.

(** The server decodes an encoded form to exactly the list of pairs that was encoded, in order,
    whatever bytes keys and values hold. *)
Theorem form_roundtrip values : decode_form (captchaV2EncodeForm values) = Some values.
Proof.
  unfold decode_form. destruct values as [| [k0 v0] values0]; [done |].
  assert (forall k v rest, captchaV2EncodeForm ((k, v) :: rest) <> "") as Hne.
  { intros k v rest. simpl. intros E. destruct rest as [| [k' v'] rest];
      apply (f_equal String.length) in E; rewrite !string_length_app in E; simpl in E; lia. }
  specialize (Hne k0 v0 values0). rewrite (proj2 (String.eqb_neq _ _) Hne). clear Hne.
  revert k0 v0. induction values0 as [| [k1 v1] values IH]; intros k v.
  - cbn [captchaV2EncodeForm]. rewrite split_on_no_char.
    + cbn [mapM]. by rewrite decode_pair_encode.
    + rewrite !no_char_app. simpl. destruct (escape_no_sep k) as [-> _]. by destruct (escape_no_sep v) as [-> _].
  - change (captchaV2EncodeForm ((k, v) :: (k1, v1) :: values)) with
      (captchaV2QueryEscape k ++ "=" ++ captchaV2QueryEscape v ++ String "&" (captchaV2EncodeForm ((k1, v1) :: values))).
    rewrite <- !string_app_assoc. rewrite split_on_app.
    + cbn [mapM]. rewrite string_app_assoc, decode_pair_encode. simpl in *. by rewrite IH.
    + rewrite !no_char_app. simpl. destruct (escape_no_sep k) as [-> _]. by destruct (escape_no_sep v) as [-> _].
Qed.
