(* ===== verification/Obfs.v ===== *)
(** * RTP-shaped packet obfuscation (internal/core/obfs.go).

    The AEAD cipher is ChaCha20-Poly1305 from golang.org/x/crypto: it is an interface here
    ([AEAD], [CipherLaws]); a toy instance at the end shows the laws can be met. *)

From S2P Require Import Prelude Bytes GoStrings.
From Stdlib Require Import ZArith Lia String.
From stdpp Require Import base gmap list.
Open Scope Z_scope.

(** ** The cipher interface *)

(** [cipher.AEAD]: nonce, text and associated data. *)
Record AEAD := mkAEAD {
  Seal : list Z -> list Z -> list Z -> list Z;
  Unseal : list Z -> list Z -> list Z -> option (list Z)
}.

(** [chacha20poly1305.Overhead]. *)
Definition Overhead : nat := 16.

Definition wrapKeyLen : nat := 32.
Definition rtpHeaderLenFull : nat := 24.
Definition rtpHeaderLenLegacy : nat := 12.

Class Cipher := newCipher : list Z -> option AEAD.

(** What the client relies on: [New] accepts 32-byte keys; [Open] inverts [Seal] under the same
    nonce and associated data; both keep the 16-byte tag; only bytes come out. *)
Class CipherLaws (C : Cipher) := {
  cipher_new : forall key, length key = wrapKeyLen -> exists a, newCipher key = Some a;
  cipher_open_seal : forall key a nonce pt ad,
    newCipher key = Some a -> Unseal a nonce (Seal a nonce pt ad) ad = Some pt;
  cipher_seal_length : forall key a nonce pt ad,
    newCipher key = Some a -> length (Seal a nonce pt ad) = (length pt + Overhead)%nat;
  cipher_open_length : forall key a nonce ct ad pt,
    newCipher key = Some a -> Unseal a nonce ct ad = Some pt -> length ct = (length pt + Overhead)%nat
}.

(** ** Data *)

Inductive obfs_error :=
| ErrKeyLength (got : nat)
| ErrEmptyPayload
| ErrRandom
| ErrTooShort
| ErrNotRTPv2
| ErrShortExtension
| ErrPadding (padLen : Z)
| ErrNoPayload
| ErrDstTooSmall
| ErrCipherInit
| ErrAuth.

Record ObfsConfig := { SSRC : Z; PayloadType : Z; PaddingMax : Z }.

Record ObfsState := { initSeq : Z; initTs : Z; count : Z }.

(** ** Configuration and state *)

(** [normalizeObfsMode]. *)
Definition normalizeObfsMode (mode : string) : string :=
  if equal_fold (trim_space mode) "video" then "video"%string else "audio"%string.

(** [NewObfsConfig]; [rnd] is what [rand.Read] fills a 4-byte buffer with. *)
Definition NewObfsConfig (mode : string) (rnd : option (list Z)) : result obfs_error ObfsConfig :=
  match rnd with
  | None => Err ErrRandom
  | Some buf =>
      let video := String.eqb (normalizeObfsMode mode) "video" in
      Ok {| SSRC := be_get (slice 0 4 buf);
            PayloadType := if video then 96 else 111;
            PaddingMax := if video then 60 else 24 |}
  end.

(** [NewObfsState]; [rnd] is what [rand.Read] fills a 6-byte buffer with. *)
Definition NewObfsState (rnd : option (list Z)) : result obfs_error ObfsState :=
  match rnd with
  | None => Err ErrRandom
  | Some buf =>
      Ok {| initSeq := be_get (slice 0 2 buf); initTs := be_get (slice 2 6 buf); count := 0 |}
  end.

(** [obfsBuildNonce]: SSRC, sequence number, two zero bytes, timestamp. *)
Definition obfsBuildNonce (ssrc seq ts : Z) : list Z :=
  be_put 4 ssrc ++ be_put 2 seq ++ [0; 0] ++ be_put 4 ts.

(** The RTP sequence number and timestamp of the packet with counter [c]. *)
Definition packet_seq (st : ObfsState) (c : Z) : Z := u16 (initSeq st + u16 c).

Definition packet_ts (st : ObfsState) (c : Z) : Z :=
  u32 (u32 (initTs st + u32 (u32 c * 960)) + u32 (Z.shiftr c 16)).

(** ** Operations *)

Section Operations.
Context `{C : Cipher}.

(** [aeadCache]: the process-wide map from key bytes to ciphers. *)
Abbreviation aeadCache := (gmap (list Z) AEAD).

(** [getAEAD]. *)
Definition getAEAD (cache : aeadCache) (key : list Z) : aeadCache * result obfs_error AEAD :=
  if negb (length key =? wrapKeyLen)%nat then (cache, Err (ErrKeyLength (length key)))
  else match cache !! key with
       | Some a => (cache, Ok a)
       | None => match newCipher key with
                 | None => (cache, Err ErrCipherInit)
                 | Some a => (<[key := a]> cache, Ok a)
                 end
       end.

(** Bytes 0 to 11 of a written packet: V=2, P=1, X=0, the payload type, seq, ts and SSRC. *)
Definition rtp_header (cfg : ObfsConfig) (seq ts : Z) : list Z :=
  [Z.lor 128 32; Z.land (PayloadType cfg) 127] ++ be_put 2 seq ++ be_put 4 ts ++ be_put 4 (SSRC cfg).

(** [obfsWrapPacket].  [rndByte] is the padding-length byte and [rndFill n] the [n] padding bytes
    that [rand.Read] delivers; [None] is a failing read. *)
Definition obfsWrapPacket (cache : aeadCache) (key payload : list Z) (cfg : ObfsConfig)
    (st : ObfsState) (rndByte : option Z) (rndFill : nat -> option (list Z))
    : aeadCache * ObfsState * result obfs_error (list Z) :=
  if negb (length key =? wrapKeyLen)%nat then (cache, st, Err (ErrKeyLength (length key)))
  else if (length payload =? 0)%nat then (cache, st, Err ErrEmptyPayload)
  else
    let c := count st in
    let st' := {| initSeq := initSeq st; initTs := initTs st; count := u64 (count st + 1) |} in
    let seq := packet_seq st c in
    let ts := packet_ts st c in
    let nonce := obfsBuildNonce (SSRC cfg) seq ts in
    match (if 0 <? PaddingMax cfg
           then match rndByte with Some b => Some (Z.rem b (PaddingMax cfg)) | None => None end
           else Some 0) with
    | None => (cache, st', Err ErrRandom)
    | Some padRand =>
        let padTotal := padRand + 1 in
        let header := rtp_header cfg seq ts in
        match getAEAD cache key with
        | (cache', Err _) => (cache', st', Err ErrCipherInit)
        | (cache', Ok aead) =>
            let sealed := Seal aead nonce payload header in
            match (if 0 <? padRand then rndFill (Z.to_nat padRand) else Some []) with
            | None => (cache', st', Err ErrRandom)
            | Some padding => (cache', st', Ok (header ++ sealed ++ padding ++ [u8 padTotal]))
            end
        end
    end.

(** [obfsUnwrapPacket]: the number of plaintext bytes and the new contents of [dst]. *)
Definition obfsUnwrapPacket (cache : aeadCache) (key wire dst : list Z)
    : aeadCache * result obfs_error (nat * list Z) :=
  if negb (length key =? wrapKeyLen)%nat then (cache, Err (ErrKeyLength (length key)))
  else if (length wire <? rtpHeaderLenLegacy + 1)%nat then (cache, Err ErrTooShort)
  else if negb (Z.shiftr (byte_at wire 0) 6 =? 2) then (cache, Err ErrNotRTPv2)
  else
    let headerLen := if negb (Z.land (byte_at wire 0) 16 =? 0) then rtpHeaderLenFull
                     else rtpHeaderLenLegacy in
    if (length wire <? headerLen + 1)%nat then (cache, Err ErrShortExtension)
    else
      let seq := be_get (slice 2 4 wire) in
      let ts := be_get (slice 4 8 wire) in
      let ssrc := be_get (slice 8 12 wire) in
      let hasPad := negb (Z.land (byte_at wire 0) 32 =? 0) in
      let padLen := byte_at wire (length wire - 1) in
      if hasPad && ((padLen =? 0) || (Z.of_nat (length wire - headerLen) <? padLen))
      then (cache, Err (ErrPadding padLen))
      else
        let payloadEnd := if hasPad then (length wire - Z.to_nat padLen)%nat else length wire in
        let ciphertextLen := (payloadEnd - headerLen)%nat in
        if (ciphertextLen <=? Overhead)%nat then (cache, Err ErrNoPayload)
        else if (length dst <? ciphertextLen - Overhead)%nat then (cache, Err ErrDstTooSmall)
        else
          let nonce := obfsBuildNonce ssrc seq ts in
          match getAEAD cache key with
          | (cache', Err _) => (cache', Err ErrCipherInit)
          | (cache', Ok aead) =>
              match Unseal aead nonce (slice headerLen payloadEnd wire) (slice 0 headerLen wire) with
              | None => (cache', Err ErrAuth)
              | Some plain => (cache', Ok (length plain, plain ++ drop (length plain) dst))
              end
          end.

(** [obfsIsRTPPacket]. *)
Definition obfsIsRTPPacket (wire : list Z) : bool :=
  if (length wire <? rtpHeaderLenLegacy + 1)%nat then false
  else if negb (Z.shiftr (byte_at wire 0) 6 =? 2) then false
  else let pt := Z.land (byte_at wire 1) 127 in (pt =? 111) || (pt =? 96).

End Operations.

(** ** Nonces *)

(** The timestamp of packet [c] before the 32-bit wrap: it grows with every packet. *)
Definition packet_time (st : ObfsState) (c : Z) : Z := initTs st + c * 960 + c / 65536.

Lemma packet_ts_time st c : 0 <= c < 2 ^ 48 -> packet_ts st c = packet_time st c mod 2 ^ 32.
Proof.
  intros Hc. unfold packet_ts, packet_time, u32.
  rewrite Z.shiftr_div_pow2 by lia. change (2 ^ 16) with 65536.
  rewrite Zplus_mod_idemp_l, Zplus_mod_idemp_r.
  replace (initTs st + (c mod 2 ^ 32 * 960) mod 2 ^ 32 + c / 65536)
    with ((c mod 2 ^ 32 * 960) mod 2 ^ 32 + (initTs st + c / 65536)) by lia.
  rewrite Zmult_mod_idemp_l, Zplus_mod_idemp_l. f_equal. lia.
Qed.

Lemma packet_seq_mod st c : packet_seq st c = (initSeq st + c) mod 2 ^ 16.
Proof. unfold packet_seq, u16. by rewrite Zplus_mod_idemp_r. Qed.

(** [2^32] and the timestamp step of 65536 packets are coprime, so the step runs through
    all residues before repeating. *)
Lemma ts_step_coprime k : (k * (960 * 65536 + 1)) mod 2 ^ 32 = 0 -> - 2 ^ 32 < k < 2 ^ 32 -> k = 0.
Proof.
  intros Hk Hb. apply Z.mod_divide in Hk; [| lia].
  rewrite Z.mul_comm in Hk. apply Z.gauss in Hk; [| reflexivity].
  destruct Hk as [q Hq]. nia.
Qed.

Lemma seq_ts_inj st c c' :
  0 <= c < 2 ^ 48 -> 0 <= c' < 2 ^ 48 ->
  packet_seq st c = packet_seq st c' -> packet_ts st c = packet_ts st c' -> c = c'.
Proof.
  intros Hc Hc'. rewrite !packet_seq_mod, !packet_ts_time by done. unfold packet_time. intros Hs Ht.
  assert ((c - c') mod 2 ^ 16 = 0) as Hd.
  { replace (c - c') with ((initSeq st + c) - (initSeq st + c')) by lia.
    rewrite Zminus_mod, Hs, Z.sub_diag. done. }
  apply Z.mod_divide in Hd as [k Hk]; [| lia]. change (2 ^ 16) with 65536 in Hk.
  assert (c / 65536 = c' / 65536 + k) as Hq.
  { replace c with (c' + k * 65536) by lia. rewrite Z.div_add by lia. done. }
  rewrite Hq in Ht.
  assert (k = 0); [| lia].
  apply ts_step_coprime; [| lia].
  replace (k * (960 * 65536 + 1)) with
    ((initTs st + c * 960 + (c' / 65536 + k)) - (initTs st + c' * 960 + c' / 65536)) by lia.
  rewrite Zminus_mod, Ht, Z.sub_diag. done.
Qed.

Lemma nonce_inj ssrc ssrc' seq seq' ts ts' :
  obfsBuildNonce ssrc seq ts = obfsBuildNonce ssrc' seq' ts' ->
  ssrc mod 2 ^ 32 = ssrc' mod 2 ^ 32 /\ seq mod 2 ^ 16 = seq' mod 2 ^ 16 /\
  ts mod 2 ^ 32 = ts' mod 2 ^ 32.
Proof.
  unfold obfsBuildNonce. intros H.
  apply app_inj_1 in H as [H1 H]; [| by rewrite !length_be_put].
  apply app_inj_1 in H as [H2 H]; [| by rewrite !length_be_put].
  apply app_inj_1 in H as [_ H3]; [| done].
  by apply be_put_inj in H1, H2, H3.
Qed.

(** The nonce of the packet with counter [c] under a session's SSRC and counters. *)
Definition packet_nonce (ssrc : Z) (st : ObfsState) (c : Z) : list Z :=
  obfsBuildNonce ssrc (packet_seq st c) (packet_ts st c).

Lemma packet_nonce_inj ssrc st c c' :
  0 <= c < 2 ^ 48 -> 0 <= c' < 2 ^ 48 -> packet_nonce ssrc st c = packet_nonce ssrc st c' -> c = c'.
Proof.
  intros Hc Hc' H. apply nonce_inj in H as (_ & Hs & Ht).
  pose proof (u16_bound (initSeq st + u16 c)). pose proof (u16_bound (initSeq st + u16 c')).
  pose proof (u32_bound (u32 (initTs st + u32 (u32 c * 960)) + u32 (Z.shiftr c 16))).
  pose proof (u32_bound (u32 (initTs st + u32 (u32 c' * 960)) + u32 (Z.shiftr c' 16))).
  apply (seq_ts_inj st); [done | done | |].
  - rewrite !Z.mod_small in Hs by (unfold packet_seq; done). done.
  - rewrite !Z.mod_small in Ht by (unfold packet_ts; done). done.
Qed.

(** ** The cipher cache *)

Section CacheFacts.
Context `{C : Cipher}.

(** Every cached cipher is the one [New] returns for its key. *)
Definition cache_ok (cache : gmap (list Z) AEAD) : Prop :=
  map_Forall (fun key a => newCipher key = Some a) cache.

(** [getAEAD] without the cache. *)
Definition getAEAD_spec (key : list Z) : result obfs_error AEAD :=
  if negb (length key =? wrapKeyLen)%nat then Err (ErrKeyLength (length key))
  else match newCipher key with Some a => Ok a | None => Err ErrCipherInit end.

Lemma getAEAD_correct cache key :
  cache_ok cache ->
  cache_ok (getAEAD cache key).1 /\ (getAEAD cache key).2 = getAEAD_spec key.
Proof.
  intros Hok. unfold getAEAD, getAEAD_spec. split_guard; [done |].
  destruct (cache !! key) as [a |] eqn:Hl.
  - rewrite (Hok key a Hl). done.
  - destruct (newCipher key) eqn:Hn; simpl; [| done].
    split; [| done]. by apply map_Forall_insert_2.
Qed.

Lemma getAEAD_ok `{!CipherLaws C} cache key :
  cache_ok cache -> length key = wrapKeyLen ->
  exists a cache', newCipher key = Some a /\ getAEAD cache key = (cache', Ok a) /\ cache_ok cache'.
Proof.
  intros Hok Hlen. destruct (cipher_new key Hlen) as [a Ha].
  destruct (getAEAD_correct cache key Hok) as [Hok' Hspec].
  destruct (getAEAD cache key) as [cache' r]; simpl in *. subst r.
  exists a, cache'. unfold getAEAD_spec. rewrite Hlen, Ha. done.
Qed.

(** ** Wrapping then unwrapping *)

Definition config_ok (cfg : ObfsConfig) : Prop :=
  0 <= SSRC cfg < 2 ^ 32 /\ 0 <= PayloadType cfg < 256 /\ 0 <= PaddingMax cfg <= 255.

Lemma length_rtp_header cfg seq ts : length (rtp_header cfg seq ts) = 12%nat.
Proof. done. Qed.

Lemma header_fields cfg seq ts rest :
  let wire := rtp_header cfg seq ts ++ rest in
  byte_at wire 0 = 160 /\ byte_at wire 1 = Z.land (PayloadType cfg) 127 /\
  slice 0 12 wire = rtp_header cfg seq ts /\ slice 2 4 wire = be_put 2 seq /\
  slice 4 8 wire = be_put 4 ts /\ slice 8 12 wire = be_put 4 (SSRC cfg).
Proof. repeat split; reflexivity. Qed.

Lemma be_get_put_small n v : 0 <= v < 2 ^ (8 * Z.of_nat n) -> be_get (be_put n v) = v.
Proof. intros Hv. rewrite be_get_put. by apply Z.mod_small. Qed.

(** Unwrapping a packet of a written header, a sealed payload and a padding of [padTotal] bytes. *)
Lemma unwrap_layout `{!CipherLaws C} cache key cfg seq ts sealed padding dst a :
  cache_ok cache -> length key = wrapKeyLen -> newCipher key = Some a ->
  config_ok cfg -> 0 <= seq < 2 ^ 16 -> 0 <= ts < 2 ^ 32 ->
  (Overhead < length sealed)%nat -> (length padding < 255)%nat ->
  (length sealed - Overhead <= length dst)%nat ->
  (obfsUnwrapPacket cache key
     (rtp_header cfg seq ts ++ sealed ++ padding ++ [u8 (Z.of_nat (length padding) + 1)]) dst).2 =
  match Unseal a (obfsBuildNonce (SSRC cfg) seq ts) sealed (rtp_header cfg seq ts) with
  | None => Err ErrAuth
  | Some plain => Ok (length plain, plain ++ drop (length plain) dst)
  end.
Proof.
  intros Hok Hlen Ha (Hssrc & _ & _) Hseq Hts Hsealed Hpad Hdst.
  destruct (getAEAD_ok cache key Hok Hlen) as (a' & cache' & Ha' & Hget & _).
  assert (a' = a) as -> by congruence.
  set (trailer := u8 (Z.of_nat (length padding) + 1)).
  assert (trailer = Z.of_nat (length padding) + 1) as Htr by (apply u8_small; lia).
  set (wire := rtp_header cfg seq ts ++ sealed ++ padding ++ [trailer]).
  assert (length wire = 12 + length sealed + length padding + 1)%nat as Hwl.
  { unfold wire. rewrite !length_app, length_rtp_header. simpl. lia. }
  destruct (header_fields cfg seq ts (sealed ++ padding ++ [trailer]))
    as (H0 & _ & Hhdr & Hs & Ht & Hr). fold wire in H0, Hhdr, Hs, Ht, Hr.
  assert (byte_at wire (length wire - 1) = trailer) as Hlast.
  { unfold byte_at, wire. rewrite !app_assoc, length_app, Nat.add_sub. apply nth_middle. }
  assert (slice 12 (12 + length sealed) wire = sealed) as Hct.
  { unfold slice, wire. rewrite lookup_drop_app by done.
    apply lookup_take_app. lia. }
  unfold obfsUnwrapPacket. rewrite Hlen, H0, Hlast, Hs, Ht, Hr, Hget.
  rewrite !be_get_put_small by (simpl; lia).
  change (negb (wrapKeyLen =? wrapKeyLen)%nat) with false.
  change (negb (Z.shiftr 160 6 =? 2)) with false.
  change (negb (Z.land 160 16 =? 0)) with false.
  change (negb (Z.land 160 32 =? 0)) with true.
  cbv beta iota zeta. rewrite andb_true_l.
  unfold rtpHeaderLenLegacy.
  replace (length wire - Z.to_nat trailer)%nat with (12 + length sealed)%nat by lia.
  rewrite Hct, Hhdr.
  repeat (split_guard; [exfalso; lia |]).
  rewrite (proj2 (orb_false_iff _ _)) by (split; [apply Z.eqb_neq | apply Z.ltb_ge]; lia).
  repeat (split_guard; [exfalso; lia |]).
  by destruct (Unseal _ _ _ _).
Qed.

(** [obfsWrapPacket] on good inputs: it consumes one counter and lays the packet out as written. *)
Lemma wrap_layout `{!CipherLaws C} cache key payload cfg st b rf a :
  cache_ok cache -> length key = wrapKeyLen -> newCipher key = Some a -> payload <> [] ->
  config_ok cfg -> byte_ok b ->
  (forall n, exists l, rf n = Some l /\ length l = n) ->
  exists cache' padding,
    cache_ok cache' /\ (length padding < 255)%nat /\
    obfsWrapPacket cache key payload cfg st (Some b) rf =
    (cache', {| initSeq := initSeq st; initTs := initTs st; count := u64 (count st + 1) |},
     Ok (let hdr := rtp_header cfg (packet_seq st (count st)) (packet_ts st (count st)) in
         hdr ++ Seal a (packet_nonce (SSRC cfg) st (count st)) payload hdr ++
         padding ++ [u8 (Z.of_nat (length padding) + 1)])).
Proof.
  intros Hok Hlen Ha Hne (_ & _ & Hpm) Hb Hrf. unfold byte_ok in Hb.
  destruct (getAEAD_ok cache key Hok Hlen) as (a' & cache' & Ha' & Hget & Hok').
  assert (a' = a) as -> by congruence.
  exists cache'.
  set (padRand := if 0 <? PaddingMax cfg then Z.rem b (PaddingMax cfg) else 0).
  assert (0 <= padRand < 255) as Hpr.
  { unfold padRand. split_guard; [| lia]. pose proof (Z.rem_bound_pos b (PaddingMax cfg)). lia. }
  assert (exists padding, (if 0 <? padRand then rf (Z.to_nat padRand) else Some []) = Some padding
                          /\ Z.of_nat (length padding) = padRand) as (padding & Hpad & Hpl).
  { split_guard; [| by exists []; split; [| simpl; lia]].
    destruct (Hrf (Z.to_nat padRand)) as (l & -> & Hl). exists l. split; [done | lia]. }
  exists padding. split; [done |]. split; [lia |].
  unfold obfsWrapPacket. rewrite Hlen, Hget.
  change (negb (wrapKeyLen =? wrapKeyLen)%nat) with false.
  rewrite (proj2 (Nat.eqb_neq _ _)) by (by destruct payload).
  replace (if 0 <? PaddingMax cfg then Some (Z.rem b (PaddingMax cfg)) else Some 0)
    with (Some padRand) by (unfold padRand; by destruct (0 <? PaddingMax cfg)).
  cbv beta iota zeta. rewrite Hpad, Hpl. done.
Qed.

(** ** Properties *)

(** C2: every packet a session sends before its counter reaches 2^48 carries its own AEAD nonce
    (SSRC, 16-bit sequence number and 32-bit timestamp), and the bound is tight: the nonces of
    a counter and of that counter plus 2^48 are equal. *)
Theorem packet_nonce_unique ssrc st c c' :
  0 <= c < 2 ^ 48 -> 0 <= c' < 2 ^ 48 ->
  (packet_nonce ssrc st c = packet_nonce ssrc st c' <-> c = c') /\
  packet_nonce ssrc st (c + 2 ^ 48) = packet_nonce ssrc st c.
Proof.
  intros Hc Hc'. split; [split; [by apply packet_nonce_inj | congruence] |].
  unfold packet_nonce, packet_seq, packet_ts, u16, u32.
  replace ((c + 2 ^ 48) mod 2 ^ 16) with (c mod 2 ^ 16)
    by (change (2 ^ 48) with (2 ^ 32 * 2 ^ 16); by rewrite Z_mod_plus_full).
  replace ((c + 2 ^ 48) mod 2 ^ 32) with (c mod 2 ^ 32)
    by (change (2 ^ 48) with (2 ^ 16 * 2 ^ 32); by rewrite Z_mod_plus_full).
  rewrite !Z.shiftr_div_pow2 by lia.
  replace ((c + 2 ^ 48) / 2 ^ 16) with (c / 2 ^ 16 + 1 * 2 ^ 32)
    by (change (2 ^ 48) with (2 ^ 32 * 2 ^ 16); rewrite Z.div_add by lia; lia).
  by rewrite Z_mod_plus_full.
Qed.

Lemma NewObfsConfig_ok mode buf cfg :
  bytes_ok buf -> NewObfsConfig mode (Some buf) = Ok cfg ->
  config_ok cfg /\ (PayloadType cfg = 111 \/ PayloadType cfg = 96).
Proof.
  intros Hb H. injection H as <-. unfold config_ok. simpl.
  assert (bytes_ok (slice 0 4 buf)) as Hs by (by apply Forall_take, Forall_drop).
  pose proof (be_get_bound _ Hs) as Hbound.
  assert (length (slice 0 4 buf) <= 4)%nat as Hl by (unfold slice; rewrite length_take; lia).
  assert (256 ^ Z.of_nat (length (slice 0 4 buf)) <= 256 ^ 4) by (apply Z.pow_le_mono_r; lia).
  destruct (String.eqb _ _); simpl; repeat split; lia || auto.
Qed.

(** C1: what [obfsWrapPacket] writes under a configuration of [NewObfsConfig] is recognised by
    [obfsIsRTPPacket], and [obfsUnwrapPacket] under the same password key gives back exactly the
    payload, whatever padding the random source chose and whatever the two cipher caches hold. *)
Theorem wrap_unwrap `{!CipherLaws C} cache cache2 key payload mode buf cfg st b rf dst :
  cache_ok cache -> cache_ok cache2 -> length key = wrapKeyLen -> payload <> [] ->
  bytes_ok buf -> NewObfsConfig mode (Some buf) = Ok cfg -> byte_ok b ->
  (forall n, exists l, rf n = Some l /\ length l = n) ->
  (length payload <= length dst)%nat ->
  exists cache' wire,
    obfsWrapPacket cache key payload cfg st (Some b) rf =
      (cache', {| initSeq := initSeq st; initTs := initTs st; count := u64 (count st + 1) |}, Ok wire)
    /\ obfsIsRTPPacket wire = true
    /\ (obfsUnwrapPacket cache2 key wire dst).2 =
         Ok (length payload, payload ++ drop (length payload) dst).
Proof.
  intros Hok Hok2 Hlen Hne Hbuf Hnew Hb Hrf Hdst.
  destruct (NewObfsConfig_ok _ _ _ Hbuf Hnew) as [Hcfg Hpt].
  destruct (cipher_new key Hlen) as [a Ha].
  destruct (wrap_layout cache key payload cfg st b rf a) as (cache' & padding & _ & Hpad & ->); [done.. |].
  eexists cache', _. split; [done |]. cbv zeta. split.
  - match goal with |- context [?h ++ ?r] => pose proof (header_fields cfg
      (packet_seq st (count st)) (packet_ts st (count st)) r) as (H0 & H1 & _) end.
    unfold obfsIsRTPPacket. rewrite H0, H1, length_app, length_rtp_header, !length_app. simpl length.
    rewrite (proj2 (Nat.ltb_ge _ _)) by (unfold rtpHeaderLenLegacy; lia).
    by destruct Hpt as [-> | ->].
  - rewrite (unwrap_layout _ _ _ _ _ _ _ _ a); [| done.. | | | | done |].
    + unfold packet_nonce. by rewrite (cipher_open_seal key).
    + apply u16_bound.
    + apply u32_bound.
    + rewrite (cipher_seal_length key) by done. destruct payload; [done | simpl; lia].
    + rewrite (cipher_seal_length key) by done. lia.
Qed.

(** C3: [obfsUnwrapPacket] never delivers a byte the cipher did not authenticate: a success means
    that the ciphertext lies inside the datagram behind a 12- or 24-byte header, that it opens under
    the nonce of the header's own SSRC, sequence number and timestamp with the whole header as
    associated data, and that exactly the non-empty plaintext was written to the front of [dst]. *)
Theorem unwrap_authentic `{!CipherLaws C} cache key wire dst n dst' :
  cache_ok cache -> (obfsUnwrapPacket cache key wire dst).2 = Ok (n, dst') ->
  exists a headerLen payloadEnd plain,
    newCipher key = Some a /\ (headerLen = 12 \/ headerLen = 24)%nat /\
    (headerLen < payloadEnd <= length wire)%nat /\
    Unseal a (obfsBuildNonce (be_get (slice 8 12 wire)) (be_get (slice 2 4 wire))
                (be_get (slice 4 8 wire)))
      (slice headerLen payloadEnd wire) (slice 0 headerLen wire) = Some plain /\
    n = length plain /\ (0 < n <= length dst)%nat /\
    dst' = plain ++ drop n dst /\ length dst' = length dst.
Proof.
  intros Hok. unfold obfsUnwrapPacket.
  destruct (getAEAD_correct cache key Hok) as [_ Hspec].
  destruct (getAEAD cache key) as [cache' r]; simpl in Hspec. subst r.
  set (hl := if negb (Z.land (byte_at wire 0) 16 =? 0) then rtpHeaderLenFull else rtpHeaderLenLegacy).
  assert (hl = 12 \/ hl = 24)%nat as Hhl by (unfold hl; split_guard; auto).
  clearbody hl. cbv zeta.
  set (pe := if negb (Z.land (byte_at wire 0) 32 =? 0) then (length wire - _)%nat else length wire).
  assert (pe <= length wire)%nat as Hpe by (unfold pe; split_guard; lia).
  clearbody pe. unfold getAEAD_spec.
  repeat (split_guard; [done |]).
  destruct (newCipher key) as [a |] eqn:Ha; [| done].
  match goal with |- context [Unseal a ?nn ?ct ?ad] => destruct (Unseal a nn ct ad) as [plain |] eqn:Ho end;
    [| done].
  simpl. intros [= <- <-].
  pose proof (cipher_open_length key a _ _ _ _ Ha Ho) as Hcl.
  unfold slice in Hcl at 1. rewrite length_take, length_drop in Hcl.
  exists a, hl, pe, plain. rewrite length_app, length_drop.
  repeat split; done || lia.
Qed.
End CacheFacts.

(** ** A concrete cipher meeting the laws (for the closed instances of the theorems) *)

Module ToyCipher.

Definition checksum (l : list Z) : Z := u8 (foldl Z.add 0 l).

Definition toy (key : list Z) : AEAD := {|
  Seal := fun nonce pt ad => pt ++ replicate Overhead (checksum (key ++ nonce ++ ad ++ pt));
  Unseal := fun nonce ct ad =>
    let pt := take (length ct - Overhead) ct in
    if (Overhead <=? length ct)%nat &&
       bool_decide (drop (length ct - Overhead) ct = replicate Overhead (checksum (key ++ nonce ++ ad ++ pt)))
    then Some pt else None
|}.

#[export] Instance toy_cipher : Cipher :=
  fun key => if (length key =? wrapKeyLen)%nat then Some (toy key) else None.

#[export] Instance toy_laws : CipherLaws toy_cipher.
Proof.
  split; unfold newCipher, toy_cipher.
  - intros key ->. by eexists.
  - intros key a nonce pt ad. split_guard; [| done]. intros [= <-]. cbn [Seal Unseal toy]. cbv zeta.
    rewrite length_app, length_replicate, Nat.add_sub, take_app_length, drop_app_length.
    rewrite bool_decide_true by done.
    by rewrite (proj2 (Nat.leb_le _ _)) by lia.
  - intros key a nonce pt ad. split_guard; [| done]. intros [= <-]. cbn [Seal Unseal toy]. cbv zeta.
    by rewrite length_app, length_replicate.
  - intros key a nonce ct ad pt. split_guard; [| done]. intros [= <-]. cbn [Seal Unseal toy]. cbv zeta.
    split_guard; [| done]. intros [= <-]. propify. rewrite length_take. lia.
Qed.

Definition key0 : list Z := replicate 32 7.

Definition fill (n : nat) : option (list Z) := Some (replicate n 9).

Definition st0 : ObfsState := {| initSeq := 65535; initTs := 4294967000; count := 5 |}.

Lemma fill_length n : exists l, fill n = Some l /\ length l = n.
Proof. eexists. split; [done |]. apply length_replicate. Qed.

Lemma packet_nonce_unique_witness :
  (packet_nonce 1 st0 3 = packet_nonce 1 st0 4 <-> 3 = 4) /\
  packet_nonce 1 st0 (3 + 2 ^ 48) = packet_nonce 1 st0 3.
Proof. apply packet_nonce_unique; lia. Defined.

Lemma wrap_unwrap_witness :
  exists cfg cache' wire,
    NewObfsConfig " Video " (Some [1; 2; 3; 4]) = Ok cfg /\ PaddingMax cfg = 60 /\
    obfsWrapPacket ∅ key0 [10; 20; 30] cfg st0 (Some 200) fill =
      (cache', {| initSeq := 65535; initTs := 4294967000; count := 6 |}, Ok wire) /\
    (obfsUnwrapPacket ∅ key0 wire (replicate 4 0)).2 = Ok (3%nat, [10; 20; 30; 0]).
Proof.
  eexists. destruct (wrap_unwrap ∅ ∅ key0 [10; 20; 30] " Video " [1; 2; 3; 4]
    {| SSRC := 16909060; PayloadType := 96; PaddingMax := 60 |} st0 200 fill (replicate 4 0))
    as (cache' & wire & Hw & _ & Hu).
  - apply map_Forall_empty.
  - apply map_Forall_empty.
  - reflexivity.
  - discriminate.
  - repeat constructor; discriminate.
  - vm_compute. reflexivity.
  - split; [lia | reflexivity].
  - apply fill_length.
  - vm_compute. lia.
  - exists cache', wire. split; [vm_compute; reflexivity |]. split; [reflexivity |].
    split; [exact Hw | exact Hu].
Defined.

Lemma unwrap_authentic_witness :
  exists a headerLen payloadEnd (plain : list Z),
    newCipher key0 = Some a /\ (headerLen = 12 \/ headerLen = 24)%nat /\
    (headerLen < payloadEnd <= 30)%nat /\
    length plain = 1%nat.
Proof.
  set (hdr := rtp_header {| SSRC := 1; PayloadType := 111; PaddingMax := 24 |} 2 3).
  set (wire := hdr ++ Seal (toy key0) (obfsBuildNonce 1 2 3) [5] hdr ++ [1]).
  destruct (unwrap_authentic ∅ key0 wire [0; 0] 1 [5; 0]) as (a & hl & pe & plain & H).
  - apply map_Forall_empty.
  - vm_compute. reflexivity.
  - exists a, hl, pe, plain. destruct H as (H1 & H2 & H3 & _ & H5 & _).
    split; [exact H1 |]. split; [exact H2 |]. split; [| symmetry; exact H5].
    vm_compute in H3. exact H3.
Defined.

End ToyCipher.
