(* ===== verification/Replay.v ===== *)
(** * The anti-replay window (internal/core/obfs.go, [replayWindow]).

    [accept] is the code; [window_accept] is the abstract sliding window over packet counters it
    implements for the packets of one sending session. *)

From S2P Require Import Prelude Bytes Obfs.
From Stdlib Require Import ZArith Lia.
From stdpp Require Import base gmap list.
Open Scope Z_scope.

Definition replayWindowSpan : Z := 4096 * 961.
Definition replayWindowMaxEntries : Z := 8192.

Record replayWindow := {
  seen : gmap (list Z) Z;
  rw_ssrc : Z;
  highestTime : Z;
  initialized : bool
}.

(** The zero value of the Go struct. *)
Definition replay0 : replayWindow :=
  {| seen := ∅; rw_ssrc := 0; highestTime := 0; initialized := false |}.

(** The 32-bit timestamp extended to 64 bits next to the highest time seen so far. *)
Definition extend_time (highest ts : Z) : Z :=
  let base := Z.ldiff highest 4294967295 in
  let extended := Z.lor base ts in
  if u64 (extended + 2 ^ 31) <? highest then u64 (extended + 2 ^ 32)
  else if (u64 (highest + 2 ^ 31) <? extended) && (2 ^ 32 <=? extended) then u64 (extended - 2 ^ 32)
  else extended.

(** The entries that [for value, packetTime := range w.seen] leaves. *)
Definition prune (cutoff : Z) (m : gmap (list Z) Z) : gmap (list Z) Z :=
  filter (fun kv => cutoff <= kv.2) m.

(** [accept]: the window after the call and its answer. *)
Definition accept (w : replayWindow) (wire : list Z) : replayWindow * bool :=
  if (length wire <? rtpHeaderLenLegacy)%nat then (w, false)
  else
    let ssrc := be_get (slice 8 12 wire) in
    let seq := be_get (slice 2 4 wire) in
    let ts := be_get (slice 4 8 wire) in
    let nonce := obfsBuildNonce ssrc seq ts in
    if initialized w && negb (rw_ssrc w =? ssrc) then (w, false)
    else
      let w := if initialized w then w
               else {| seen := ∅; rw_ssrc := ssrc; highestTime := ts; initialized := true |} in
      match seen w !! nonce with
      | Some _ => (w, false)
      | None =>
          let extended := extend_time (highestTime w) ts in
          if u64 (extended + replayWindowSpan) <? highestTime w then (w, false)
          else
            let highest := if highestTime w <? extended then extended else highestTime w in
            if replayWindowMaxEntries <=? Z.of_nat (size (seen w)) then
              let cutoff := highest - Z.min highest replayWindowSpan in
              let kept := prune cutoff (seen w) in
              if replayWindowMaxEntries <=? Z.of_nat (size kept) then
                ({| seen := kept; rw_ssrc := rw_ssrc w; highestTime := highest;
                    initialized := true |}, false)
              else
                ({| seen := <[nonce := extended]> kept; rw_ssrc := rw_ssrc w;
                    highestTime := highest; initialized := true |}, true)
            else
              ({| seen := <[nonce := extended]> (seen w); rw_ssrc := rw_ssrc w;
                  highestTime := highest; initialized := true |}, true)
      end.

(** The window after a sequence of datagrams, and the answers given on the way. *)
Fixpoint accept_all (w : replayWindow) (wires : list (list Z)) : replayWindow * list bool :=
  match wires with
  | [] => (w, [])
  | wire :: rest =>
      let '(w', b) := accept w wire in
      let '(w'', bs) := accept_all w' rest in (w'', b :: bs)
  end.

(** ** The abstract window: counters accepted so far and the highest packet time. *)

Record window := { accepted : gset Z; high : Z }.

(** The counter is new and its packet time is at most [replayWindowSpan] behind the highest. *)
Definition window_fresh (st : ObfsState) (s : window) (c : Z) : bool :=
  bool_decide (c ∉ accepted s) && (high s <=? packet_time st c + replayWindowSpan).

Definition window_accept (st : ObfsState) (s : window) (c : Z) : window * bool :=
  if window_fresh st s c
  then ({| accepted := {[c]} ∪ accepted s; high := Z.max (high s) (packet_time st c) |}, true)
  else (s, false).

Fixpoint window_all (st : ObfsState) (s : window) (cs : list Z) : window * list bool :=
  match cs with
  | [] => (s, [])
  | c :: rest =>
      let '(s', b) := window_accept st s c in
      let '(s'', bs) := window_all st s' rest in (s'', b :: bs)
  end.

(** The window after the first packet of a session. *)
Definition window_first (st : ObfsState) (c : Z) : window :=
  {| accepted := {[c]}; high := packet_time st c |}.

(** ** Extended timestamps *)

Lemma extend_base highest ts :
  0 <= highest -> 0 <= ts < 2 ^ 32 ->
  Z.lor (Z.ldiff highest 4294967295) ts = highest - highest mod 2 ^ 32 + ts.
Proof.
  intros Hh Ht. change 4294967295 with (Z.ones 32). rewrite ldiff_ones_low by lia.
  apply (lor_high_low _ _ 32); [lia | | done].
  rewrite Zminus_mod, Zmod_mod, Z.sub_diag. done.
Qed.

(** Extension recovers any packet time less than half a turn away from the highest time. *)
Lemma extend_time_close highest t :
  0 <= highest < 2 ^ 63 -> 0 <= t -> - 2 ^ 31 < t - highest < 2 ^ 31 ->
  extend_time highest (t mod 2 ^ 32) = t.
Proof.
  intros Hh Ht Hd. unfold extend_time.
  pose proof (mod_pow2_bound t 32 ltac:(lia)) as Htm.
  pose proof (mod_pow2_bound highest 32 ltac:(lia)) as Hhm.
  rewrite extend_base by lia.
  pose proof (Z.div_mod t (2 ^ 32) ltac:(lia)). pose proof (Z.div_mod highest (2 ^ 32) ltac:(lia)).
  set (tm := t mod 2 ^ 32) in *. set (hm := highest mod 2 ^ 32) in *.
  assert (t / 2 ^ 32 = highest / 2 ^ 32 \/ t / 2 ^ 32 = highest / 2 ^ 32 + 1 \/
          t / 2 ^ 32 = highest / 2 ^ 32 - 1) as Hq by nia.
  set (tq := t / 2 ^ 32) in *. set (hq := highest / 2 ^ 32) in *.
  rewrite (u64_small (highest + _)), (u64_small (highest - hm + tm + 2 ^ 31)) by lia.
  destruct (Z.ltb_spec (highest - hm + tm + 2 ^ 31) highest).
  - rewrite u64_small by lia. lia.
  - destruct (Z.ltb_spec (highest + 2 ^ 31) (highest - hm + tm)); simpl; [| lia].
    destruct (Z.leb_spec (2 ^ 32) (highest - hm + tm)); [| lia].
    rewrite u64_small by lia. lia.
Qed.

Lemma extend_time_mod highest ts :
  0 <= highest -> 0 <= ts < 2 ^ 32 ->
  extend_time highest ts mod 2 ^ 32 = ts /\ 0 <= extend_time highest ts.
Proof.
  intros Hh Ht. unfold extend_time. rewrite extend_base by lia.
  assert (forall x, (u64 x) mod 2 ^ 32 = x mod 2 ^ 32) as Hu.
  { intros x. unfold u64. symmetry. change (2 ^ 64) with (2 ^ 32 * 2 ^ 32).
    rewrite Z.rem_mul_r by lia. rewrite (Z.mul_comm (2 ^ 32)), Z_mod_plus_full, Zmod_mod. done. }
  pose proof (Z.div_mod highest (2 ^ 32) ltac:(lia)).
  pose proof (mod_pow2_bound highest 32 ltac:(lia)).
  assert (forall k, (highest - highest mod 2 ^ 32 + ts + k * 2 ^ 32) mod 2 ^ 32 = ts) as Hk.
  { intros k. rewrite Z_mod_plus_full.
    replace (highest - highest mod 2 ^ 32 + ts) with (ts + highest / 2 ^ 32 * 2 ^ 32) by lia.
    rewrite Z_mod_plus_full. by apply Z.mod_small. }
  repeat split_guard; rewrite ?Hu; (split; [| first [apply u64_bound | lia]]).
  - rewrite <- (Hk 1) at 2. f_equal; lia.
  - rewrite <- (Hk (-1)) at 2. f_equal; lia.
  - rewrite <- (Hk 0) at 2. f_equal; lia.
Qed.

(** ** No packet is accepted twice (any datagrams, also forged ones) *)

(** The nonce, SSRC and timestamp [accept] reads off a datagram. *)
Definition wire_ts (wire : list Z) : Z := be_get (slice 4 8 wire).
Definition wire_ssrc (wire : list Z) : Z := be_get (slice 8 12 wire).
Definition wire_nonce (wire : list Z) : list Z :=
  obfsBuildNonce (wire_ssrc wire) (be_get (slice 2 4 wire)) (wire_ts wire).

(** A packet whose extended time was [e] can never enter the window again: its nonce is still
    there, or the window has moved more than the span beyond it. *)
Definition spent (nonce : list Z) (ssrc e : Z) (w : replayWindow) : Prop :=
  initialized w = true /\ rw_ssrc w = ssrc /\ 0 <= e <= highestTime w /\
  (seen w !! nonce = Some e \/ e + replayWindowSpan < highestTime w).

Lemma prune_lookup cutoff m nonce e :
  m !! nonce = Some e -> prune cutoff m !! nonce = Some e \/ e < cutoff.
Proof.
  intros Hl. destruct (decide (cutoff <= e)) as [Hle |]; [left | right; lia].
  by apply map_lookup_filter_Some.
Qed.

(** What an accepted packet leaves behind. *)
Lemma accept_spent w wire w' :
  bytes_ok wire -> 0 <= highestTime w -> accept w wire = (w', true) ->
  exists e, e mod 2 ^ 32 = wire_ts wire /\ spent (wire_nonce wire) (wire_ssrc wire) e w' /\
    (e + replayWindowSpan < 2 ^ 64 -> highestTime w' <= e + replayWindowSpan).
Proof.
  intros Hb Hh. unfold accept. fold (wire_ts wire) (wire_ssrc wire). fold (wire_nonce wire).
  assert (0 <= wire_ts wire < 2 ^ 32) as Hts.
  { unfold wire_ts. assert (bytes_ok (slice 4 8 wire)) as Hs by (by apply Forall_take, Forall_drop).
    pose proof (be_get_bound _ Hs) as Hbd.
    assert (256 ^ Z.of_nat (length (slice 4 8 wire)) <= 256 ^ 4); [| lia].
    apply Z.pow_le_mono_r; [lia |]. unfold slice. rewrite length_take. lia. }
  split_guard; [done |]. destruct (initialized w && _) eqn:Hi; [done |]. cbv zeta.
  set (w1 := if initialized w then w else _).
  assert (rw_ssrc w1 = wire_ssrc wire /\ 0 <= highestTime w1) as [Hs Hh1].
  { unfold w1. destruct (initialized w); simpl; [| by split; lia].
    simpl in Hi. propify. done. }
  clearbody w1. destruct (extend_time_mod (highestTime w1) (wire_ts wire) Hh1 Hts) as [Hm Hp].
  set (e := extend_time (highestTime w1) (wire_ts wire)) in *. clearbody e.
  destruct (seen w1 !! wire_nonce wire); [done |].
  repeat split_guard; intros [= <-]; exists e; (split; [done |]); unfold spent; simpl;
    rewrite lookup_insert_eq; repeat split; try done; try (left; done); try lia;
    intros Hov; rewrite u64_small in * by (unfold replayWindowSpan in *; lia);
    unfold replayWindowSpan in *; lia.
Qed.

Lemma accept_highest_mono w wire :
  0 <= highestTime w -> initialized w = true ->
  initialized (accept w wire).1 = true /\ rw_ssrc (accept w wire).1 = rw_ssrc w /\
  highestTime w <= highestTime (accept w wire).1.
Proof.
  intros Hh Hi. unfold accept. rewrite Hi. cbv zeta.
  split_code; simpl; repeat split; done || lia.
Qed.

Lemma accept_keeps_spent nonce ssrc e w wire :
  spent nonce ssrc e w -> spent nonce ssrc e (accept w wire).1.
Proof.
  intros (Hi & Hs & He & Hor).
  destruct (accept_highest_mono w wire ltac:(lia) Hi) as (Hi' & Hs' & Hh').
  split; [done |]. split; [congruence |]. split; [lia |].
  destruct Hor as [Hl | Hlt]; [| right; lia].
  assert (forall v : Z, nonce <> wire_nonce wire -> <[wire_nonce wire := v]> (seen w) !! nonce = Some e)
    as Hins by (intros v Hne; by rewrite lookup_insert_ne).
  revert Hh'. unfold accept. rewrite Hi. cbv zeta. fold (wire_ts wire) (wire_ssrc wire). fold (wire_nonce wire).
  split_guard; [by left |]. split_guard; [by left |].
  destruct (seen w !! wire_nonce wire) eqn:Hw; [by left |].
  assert (nonce <> wire_nonce wire) as Hne by congruence.
  set (x := extend_time _ _). set (h := if highestTime w <? x then x else highestTime w).
  pose proof (prune_lookup (h - Z.min h replayWindowSpan) _ _ _ Hl) as Hpr.
  repeat split_guard; simpl; intros Hh'; rewrite ?lookup_insert_ne by done;
    (destruct Hpr as [Hpr | Hpr]; [by left | right; lia]) || by left.
Qed.

Lemma accept_all_spent nonce ssrc e wires w :
  spent nonce ssrc e w -> spent nonce ssrc e (accept_all w wires).1.
Proof.
  revert w. induction wires as [| wire wires IH]; intros w H; [done |]. simpl.
  pose proof (accept_keeps_spent _ _ _ _ wire H) as H'.
  destruct (accept w wire) as [w' b]. specialize (IH w' H').
  by destruct (accept_all w' wires).
Qed.

(** A spent packet is refused while the highest time is less than half a turn past it. *)
Lemma spent_refused w wire e :
  spent (wire_nonce wire) (wire_ssrc wire) e w -> e mod 2 ^ 32 = wire_ts wire ->
  highestTime w < e + 2 ^ 31 -> highestTime w < 2 ^ 63 ->
  (accept w wire).2 = false.
Proof.
  intros (Hi & Hs & He & Hor) Hm Hclose Hb. unfold accept. rewrite Hi. cbv zeta.
  fold (wire_ts wire) (wire_ssrc wire). fold (wire_nonce wire).
  split_guard; [done |]. split_guard; [done |].
  destruct (seen w !! wire_nonce wire) eqn:Hw; [done |].
  destruct Hor as [Hl | Hlt]; [done |].
  rewrite <- Hm. rewrite extend_time_close by lia.
  rewrite u64_small by (unfold replayWindowSpan in *; lia).
  by rewrite (proj2 (Z.ltb_lt _ _)) by lia.
Qed.

(** ** Refinement: one session's packets see the abstract window *)

Section Session.
Context (st : ObfsState) (ssrc : Z).
Context (Hts : 0 <= initTs st < 2 ^ 32).

Abbreviation T := (packet_time st).
Abbreviation pn := (packet_nonce ssrc st).

(** A datagram carrying the header of the session's packet [c]. *)
Definition honest_wire (c : Z) (wire : list Z) : Prop :=
  (12 <= length wire)%nat /\ wire_ssrc wire = ssrc /\
  be_get (slice 2 4 wire) = packet_seq st c /\ wire_ts wire = packet_ts st c.

(** The window [w] holds the session's window [s] with times shifted by [K], a whole number of
    32-bit turns. *)
Record refines (K : Z) (w : replayWindow) (s : window) : Prop := {
  ref_init : initialized w = true;
  ref_ssrc : rw_ssrc w = ssrc;
  ref_turns : 0 <= K /\ K mod 2 ^ 32 = 0;
  ref_high : highestTime w = high s - K;
  ref_top : exists c, 0 <= c < 2 ^ 48 /\ T c = high s /\ K <= T c;
  ref_seen : forall nonce e, seen w !! nonce = Some e ->
    exists c, 0 <= c < 2 ^ 48 /\ c ∈ accepted s /\ nonce = pn c /\ e = T c - K;
  ref_acc : forall c, c ∈ accepted s ->
    0 <= c < 2 ^ 48 /\ K <= T c <= high s /\
    (high s <= T c + replayWindowSpan -> seen w !! pn c = Some (T c - K))
}.

(** Packet times grow by at least 960 per packet, and stay far from 2^63. *)
Lemma packet_time_step c c' : c <= c' -> T c + 960 * (c' - c) <= T c'.
Proof. intros Hc. unfold packet_time. pose proof (Z.div_le_mono c c' 65536). lia. Qed.

Lemma packet_time_bound c : 0 <= c < 2 ^ 48 -> 0 <= T c < 2 ^ 60.
Proof.
  intros Hc. unfold packet_time.
  pose proof (Z.div_pos c 65536). pose proof (Z.div_le_upper_bound c 65536 (2 ^ 48)). lia.
Qed.

(** Pruning leaves at most the packets of one span: the table never stays full. *)
Lemma prune_small K w s cm :
  refines K w s -> 0 <= cm < 2 ^ 48 -> high s <= T cm -> K <= T cm ->
  Z.of_nat (size (prune (T cm - K - Z.min (T cm - K) replayWindowSpan) (seen w))) <= 4101.
Proof.
  intros Href Hcm Hhigh HK. set (m := prune _ _).
  assert (size m <= length (pn <$> seqZ (cm - 4100) 4101))%nat as Hs.
  { rewrite <- size_dom. etransitivity; [| apply size_list_to_set_le].
    apply subseteq_size. intros nonce [e Hl]%elem_of_dom.
    apply map_lookup_filter_Some in Hl as [Hl Hcut]. simpl in Hcut.
    destruct (ref_seen _ _ _ Href _ _ Hl) as (c & Hc & Hin & -> & ->).
    destruct (ref_acc _ _ _ Href c Hin) as (_ & [HKc Hle] & _).
    apply elem_of_list_to_set, list_elem_of_fmap. exists c. split; [done |].
    apply elem_of_seqZ. unfold replayWindowSpan in Hcut.
    destruct (Z.le_gt_cases c cm) as [Hcc | Hcc].
    - pose proof (packet_time_step c cm Hcc). lia.
    - pose proof (packet_time_step cm c ltac:(lia)). lia. }
  rewrite length_fmap, length_seqZ in Hs. lia.
Qed.

(** Recording packet [c] in a table [m] between the pruned and the full one. *)
Lemma refines_record K w s c m ch :
  refines K w s -> 0 <= c < 2 ^ 48 -> K <= T c -> high s <= T c + replayWindowSpan ->
  0 <= ch < 2 ^ 48 -> T ch = Z.max (high s) (T c) -> K <= T ch ->
  (forall nonce e, m !! nonce = Some e -> seen w !! nonce = Some e) ->
  (forall nonce e, seen w !! nonce = Some e -> T ch - K <= e + replayWindowSpan -> m !! nonce = Some e) ->
  refines K {| seen := <[pn c := T c - K]> m; rw_ssrc := ssrc; highestTime := T ch - K;
               initialized := true |}
    {| accepted := {[c]} ∪ accepted s; high := T ch |}.
Proof.
  intros Href Hc HK Hw Hch Hmax HKch Hsub Hsup. split; simpl; try done; try apply Href; [eauto | |].
  - intros nonce e. rewrite lookup_insert_Some. intros [[<- <-] | [_ Hl]].
    + exists c. by rewrite elem_of_union, elem_of_singleton; auto.
    + destruct (ref_seen _ _ _ Href _ _ (Hsub _ _ Hl)) as (c' & ? & ? & ? & ?). exists c'.
      by rewrite elem_of_union; auto.
  - intros c' [-> %elem_of_singleton | Hin]%elem_of_union.
    + split; [done |]. split; [lia |]. intros _. by rewrite lookup_insert_eq.
    + destruct (ref_acc _ _ _ Href c' Hin) as (Hc' & Hb & Hl). split; [done |]. split; [lia |].
      intros Hspan. destruct (decide (c' = c)) as [-> | Hne]; [by rewrite lookup_insert_eq |].
      rewrite lookup_insert_ne by (intros E; apply packet_nonce_inj in E; congruence).
      apply Hsup; [apply Hl; lia | lia].
Qed.

Lemma honest_nonce c wire : honest_wire c wire -> wire_nonce wire = pn c.
Proof. intros (_ & E1 & E2 & E3). unfold wire_nonce. by rewrite E1, E2, E3. Qed.

Lemma shifted_ts K c : 0 <= c < 2 ^ 48 -> K mod 2 ^ 32 = 0 -> packet_ts st c = (T c - K) mod 2 ^ 32.
Proof.
  intros Hc HK. rewrite packet_ts_time by done.
  by rewrite (Zminus_mod (T c) K), HK, Z.sub_0_r, Zmod_mod.
Qed.

(** One honest datagram: the code answers as the abstract window does, and keeps representing it. *)
Lemma accept_refines K w s c wire :
  refines K w s -> honest_wire c wire -> 0 <= c < 2 ^ 48 -> K <= T c ->
  - 2 ^ 31 < T c - high s < 2 ^ 31 ->
  (accept w wire).2 = (window_accept st s c).2 /\
  refines K (accept w wire).1 (window_accept st s c).1.
Proof.
  intros Href Hwire Hc HK Hnear. pose proof (honest_nonce _ _ Hwire) as Hn.
  destruct Hwire as (Hlen & Hs & _ & Ht). destruct (ref_top _ _ _ Href) as (ch & Hch & Hth & HKch).
  pose proof (packet_time_bound c Hc). pose proof (packet_time_bound ch Hch).
  destruct (ref_turns _ _ _ Href) as [HK0 HK32].
  assert (extend_time (highestTime w) (packet_ts st c) = T c - K) as Hext.
  { rewrite (shifted_ts K) by done. rewrite (ref_high _ _ _ Href).
    apply extend_time_close; lia. }
  unfold accept. rewrite (ref_init _ _ _ Href). cbv zeta.
  fold (wire_ts wire) (wire_ssrc wire). fold (wire_nonce wire).
  rewrite Hn, Ht, Hs, (ref_ssrc _ _ _ Href), Z.eqb_refl, Hext, (ref_high _ _ _ Href).
  rewrite (proj2 (Nat.ltb_ge _ _)) by done. rewrite andb_false_r.
  unfold window_accept, window_fresh.
  destruct (seen w !! pn c) as [e |] eqn:Hl.
  { destruct (ref_seen _ _ _ Href _ _ Hl) as (c' & Hc' & Hin & E & _).
    apply packet_nonce_inj in E as <-; [| done..].
    rewrite bool_decide_false by (by intros []). done. }
  rewrite u64_small by (unfold replayWindowSpan; lia).
  destruct (Z.ltb_spec (T c - K + replayWindowSpan) (high s - K)) as [Hold | Hrecent].
  { rewrite (proj2 (Z.leb_gt (high s) (T c + replayWindowSpan))) by lia. rewrite andb_false_r. done. }
  rewrite bool_decide_true by
    (intros Hin; destruct (ref_acc _ _ _ Href c Hin) as (_ & _ & Hk); rewrite Hk in Hl by lia; done).
  rewrite (proj2 (Z.leb_le (high s) (T c + replayWindowSpan))) by lia.
  simpl andb. cbv iota.
  replace (if high s - K <? T c - K then T c - K else high s - K) with (Z.max (high s) (T c) - K)
    by (destruct (Z.ltb_spec (high s - K) (T c - K)); lia).
  assert (exists cm, 0 <= cm < 2 ^ 48 /\ T cm = Z.max (high s) (T c) /\ K <= T cm) as (cm & Hcm & Etop & HKcm).
  { destruct (Z.max_spec (high s) (T c)) as [[_ ->] | [_ ->]]; [by exists c | by exists ch]. }
  rewrite <- Etop.
  pose proof (prune_small K w s cm Href Hcm ltac:(lia) HKcm) as Hsmall.
  split_guard; [split_guard; [unfold replayWindowMaxEntries in *; lia |] |]; (split; [done |]); simpl.
  - apply (refines_record K w s c _ cm); try done; [lia | |].
    + intros nonce e0 Hm. by apply map_lookup_filter_Some in Hm as [? _].
    + intros nonce e0 Hm Hspan. destruct (ref_seen _ _ _ Href _ _ Hm) as (c0 & Hc0 & Hin0 & _ & ->).
      destruct (ref_acc _ _ _ Href c0 Hin0) as (_ & ? & _).
      apply map_lookup_filter_Some. simpl. split; [done | lia].
  - apply (refines_record K w s c _ cm); try done. lia.
Qed.

(** Reordering stays within half a turn of the timestamp, and no packet predates the 32-bit turn
    the window opened in. *)
Fixpoint bounded_reorder (K : Z) (s : window) (cs : list Z) : Prop :=
  match cs with
  | [] => True
  | c :: rest =>
      0 <= c < 2 ^ 48 /\ K <= T c /\ - 2 ^ 31 < T c - high s < 2 ^ 31 /\
      bounded_reorder K (window_accept st s c).1 rest
  end.

Lemma accept_all_refines K w s cs wires :
  refines K w s -> Forall2 honest_wire cs wires -> bounded_reorder K s cs ->
  (accept_all w wires).2 = (window_all st s cs).2 /\
  refines K (accept_all w wires).1 (window_all st s cs).1.
Proof.
  intros Href Hall. revert w s Href. induction Hall as [| c wire cs wires Hw _ IH]; intros w s Href Hb;
    [done |].
  destruct Hb as (Hc & HK & Hnear & Hrest). simpl.
  destruct (accept_refines K w s c wire Href Hw Hc HK Hnear) as [Hans Href'].
  destruct (accept w wire) as [w' b], (window_accept st s c) as [s' b']. simpl in *. subst b'.
  destruct (IH w' s' Href' Hrest) as [E Href''].
  destruct (accept_all w' wires), (window_all st s' cs). simpl in *. by subst.
Qed.

(** The 32-bit turn the window opens in. *)
Definition opening_turn (c : Z) : Z := T c - T c mod 2 ^ 32.

Lemma accept_first c wire :
  honest_wire c wire -> 0 <= c < 2 ^ 48 ->
  (accept replay0 wire).2 = true /\
  refines (opening_turn c) (accept replay0 wire).1 (window_first st c).
Proof.
  intros Hwire Hc. pose proof (honest_nonce _ _ Hwire) as Hn. destruct Hwire as (Hlen & Hs & _ & Ht).
  pose proof (packet_time_bound c Hc). pose proof (mod_pow2_bound (T c) 32 ltac:(lia)).
  pose proof (Z.div_mod (T c) (2 ^ 32) ltac:(lia)). pose proof (Z.div_pos (T c) (2 ^ 32)).
  assert (extend_time (packet_ts st c) (packet_ts st c) = T c mod 2 ^ 32) as Hext.
  { rewrite packet_ts_time by done. rewrite <- (Zmod_mod (T c)) at 2. apply extend_time_close; lia. }
  unfold accept. cbn [initialized replay0 andb]. cbv iota zeta.
  fold (wire_ts wire) (wire_ssrc wire). fold (wire_nonce wire).
  rewrite (proj2 (Nat.ltb_ge _ _)) by done. cbn [seen highestTime].
  rewrite Hn, Ht, Hs, Hext, lookup_empty, packet_ts_time by done.
  rewrite u64_small by (unfold replayWindowSpan; lia).
  rewrite (proj2 (Z.ltb_ge _ _)) by (unfold replayWindowSpan; lia).
  rewrite Z.ltb_irrefl. change (size ∅) with 0%nat. cbv iota.
  change (replayWindowMaxEntries <=? Z.of_nat 0) with false. cbv iota.
  split; [done |]. unfold opening_turn. split; simpl; try done.
  - split; [lia |]. rewrite Zminus_mod, Zmod_mod, Z.sub_diag. done.
  - lia.
  - exists c. lia.
  - intros nonce e. rewrite lookup_insert_Some, lookup_empty. intros [[<- <-] | [_ ?]]; [| done].
    exists c. split; [done |]. split; [set_solver |]. split; [done | lia].
  - intros c' ->%elem_of_singleton. split; [done |]. split; [lia |]. intros _.
    rewrite lookup_insert_eq. f_equal. lia.
Qed.

(** Counters in sending order, each less than half a turn after the previous one. *)
Fixpoint in_order (prev : Z) (cs : list Z) : Prop :=
  match cs with
  | [] => True
  | c :: rest => prev < c < 2 ^ 48 /\ T c - T prev < 2 ^ 31 /\ in_order c rest
  end.

Lemma in_order_window K prev cs acc :
  in_order prev cs -> 0 <= prev -> K <= T prev ->
  (forall c, c ∈ acc -> c <= prev) ->
  bounded_reorder K {| accepted := acc; high := T prev |} cs /\
  (window_all st {| accepted := acc; high := T prev |} cs).2 = replicate (length cs) true /\
  high (window_all st {| accepted := acc; high := T prev |} cs).1 = T (foldl (fun _ c => c) prev cs).
Proof.
  revert prev acc. induction cs as [| c cs IH]; intros prev acc Ho Hp HK Hacc; [done |].
  destruct Ho as (Hc & Hgap & Hrest). pose proof (packet_time_step prev c ltac:(lia)).
  assert (window_accept st {| accepted := acc; high := T prev |} c
          = ({| accepted := {[c]} ∪ acc; high := T c |}, true)) as E.
  { unfold window_accept, window_fresh. simpl. unfold replayWindowSpan.
    rewrite bool_decide_true by (intros Hin; specialize (Hacc _ Hin); lia).
    rewrite (proj2 (Z.leb_le _ _)) by lia. simpl. do 2 f_equal. lia. }
  destruct (IH c ({[c]} ∪ acc) Hrest ltac:(lia) ltac:(lia)) as (IH1 & IH2 & IH3).
  { intros c' [->%elem_of_singleton | Hin]%elem_of_union; [lia |]. specialize (Hacc _ Hin). lia. }
  cbn [bounded_reorder window_all]. rewrite E. simpl high.
  destruct (window_all st {| accepted := {[c]} ∪ acc; high := T c |} cs). simpl in *. subst.
  split; [| by split; [| done]]. repeat split; done || lia.
Qed.

End Session.

(** ** Properties *)

(** [accept] answers true at most once for a datagram, whatever other datagrams (replayed,
    reordered or of other sessions) come between, as long as the highest packet time advances by
    less than half a timestamp turn less the window span. *)
Theorem replay_never_twice w wire w' wires :
  bytes_ok wire -> 0 <= highestTime w -> accept w wire = (w', true) ->
  highestTime (accept_all w' wires).1 < Z.min (2 ^ 63) (highestTime w' + 2 ^ 31 - replayWindowSpan) ->
  (accept (accept_all w' wires).1 wire).2 = false.
Proof.
  intros Hb Hh Hacc Hlt. destruct (accept_spent _ _ _ Hb Hh Hacc) as (e & Hm & Hsp & Hspan).
  pose proof (accept_all_spent _ _ _ wires _ Hsp) as Hsp'.
  destruct Hsp as (_ & _ & He & _). destruct (Hsp') as (_ & _ & He' & _).
  apply (spent_refused _ _ e); [done | done | | lia].
  unfold replayWindowSpan in *. lia.
Qed.

(** C4: for the datagrams of one sending session, in any order and with any duplicates, the code
    answers exactly as the abstract sliding window over counters: a packet is accepted when its
    counter is new and at most the span behind the highest time.  The hash table of at most 8192
    nonces, its pruning and the 32-bit timestamp wrap are invisible. *)
Theorem replay_refines_window st ssrc c0 wire0 cs wires :
  0 <= c0 < 2 ^ 48 -> 0 <= initTs st < 2 ^ 32 ->
  honest_wire st ssrc c0 wire0 -> Forall2 (honest_wire st ssrc) cs wires ->
  bounded_reorder st (opening_turn st c0) (window_first st c0) cs ->
  (accept_all replay0 (wire0 :: wires)).2 = true :: (window_all st (window_first st c0) cs).2.
Proof.
  intros Hc Ht H0 Hall Hb. simpl.
  destruct (accept_first st ssrc Ht c0 wire0 H0 Hc) as [E Href].
  destruct (accept replay0 wire0) as [w b]. simpl in *. subst b.
  destruct (accept_all_refines st ssrc Ht _ w _ cs wires Href Hall Hb) as [E' _].
  destruct (accept_all w wires). simpl in *. by subst.
Qed.

(** A session whose packets arrive in order, with losses of less than half a timestamp turn,
    is never refused a packet: the table never fills up. *)
Theorem in_order_accepted st ssrc c0 wire0 cs wires :
  0 <= c0 < 2 ^ 48 -> 0 <= initTs st < 2 ^ 32 ->
  honest_wire st ssrc c0 wire0 -> Forall2 (honest_wire st ssrc) cs wires ->
  in_order st c0 cs ->
  (accept_all replay0 (wire0 :: wires)).2 = replicate (S (length wires)) true.
Proof.
  intros Hc Ht H0 Hall Ho.
  pose proof (packet_time_bound st Ht c0 Hc). pose proof (mod_pow2_bound (packet_time st c0) 32 ltac:(lia)).
  destruct (in_order_window st (opening_turn st c0) c0 cs {[c0]}) as (Hb & E & _);
    [done | lia | unfold opening_turn; lia | intros c ->%elem_of_singleton; lia |].
  simpl. destruct (accept_first st ssrc Ht c0 wire0 H0 Hc) as [E0 Href].
  destruct (accept replay0 wire0) as [w b]. simpl in *. subst b.
  destruct (accept_all_refines st ssrc Ht _ w _ cs wires Href Hall Hb) as [E' _].
  destruct (accept_all w wires). simpl in *. unfold window_first in E'.
  rewrite E', E, (Forall2_length _ _ _ Hall). done.
Qed.

(** ** A recorded packet is accepted again once the timestamp has wrapped *)

(** A written header of packet [c]. *)
Definition session_header (st : ObfsState) (ssrc c : Z) : list Z :=
  rtp_header {| SSRC := ssrc; PayloadType := 111; PaddingMax := 24 |} (packet_seq st c) (packet_ts st c).

Lemma session_header_honest st ssrc c :
  0 <= ssrc < 2 ^ 32 -> honest_wire st ssrc c (session_header st ssrc c).
Proof.
  intros Hs. destruct (header_fields {| SSRC := ssrc; PayloadType := 111; PaddingMax := 24 |}
    (packet_seq st c) (packet_ts st c) []) as (_ & _ & _ & E1 & E2 & E3).
  rewrite app_nil_r in E1, E2, E3. unfold honest_wire, wire_ssrc, wire_ts, session_header.
  rewrite E1, E2, E3. simpl length. split; [lia |].
  split; [by apply be_get_put_small |]. split; apply be_get_put_small; [apply u16_bound | apply u32_bound].
Qed.

Lemma accept_fills w wire :
  initialized w = true -> (accept w wire).2 = true ->
  Z.of_nat (size (seen w)) < replayWindowMaxEntries ->
  size (seen (accept w wire).1) = S (size (seen w)).
Proof.
  intros Hi. unfold accept. rewrite Hi. cbv zeta. split_code; simpl; try done; intros _ Hs; try lia.
  all: by apply map_size_insert_None.
Qed.

Lemma accept_all_fills wires w :
  initialized w = true -> 0 <= highestTime w ->
  (accept_all w wires).2 = replicate (length wires) true ->
  Z.of_nat (size (seen w) + length wires) <= replayWindowMaxEntries ->
  size (seen (accept_all w wires).1) = (size (seen w) + length wires)%nat.
Proof.
  revert w. induction wires as [| wire wires IH]; intros w Hi Hh; simpl; [lia |].
  destruct (accept_highest_mono w wire Hh Hi) as (Hi' & _ & Hh').
  pose proof (accept_fills w wire Hi) as Hf.
  destruct (accept w wire) as [w' b]. simpl in *.
  specialize (IH w' Hi' ltac:(lia)). destruct (accept_all w' wires) as [w'' bs]. simpl in *.
  intros [= -> E] Hs. rewrite IH, Hf by (done || lia || (rewrite Hf by (done || lia); lia)). lia.
Qed.

(** A full table keeps only the packets of the last span. *)
Lemma accept_full w wire :
  initialized w = true -> replayWindowMaxEntries <= Z.of_nat (size (seen w)) ->
  (accept w wire).2 = true ->
  exists x, let h := highestTime (accept w wire).1 in
    seen (accept w wire).1 = <[wire_nonce wire := x]> (prune (h - Z.min h replayWindowSpan) (seen w)).
Proof.
  intros Hi Hfull. unfold accept. rewrite Hi. cbv zeta. fold (wire_ts wire) (wire_ssrc wire).
  fold (wire_nonce wire). split_code; simpl; try done; intros _; try lia; by eexists.
Qed.

(** Every 1092nd packet of a session that starts at counter 0 with zero sequence and timestamp. *)
Definition st_zero : ObfsState := {| initSeq := 0; initTs := 0; count := 0 |}.
Definition sparse (from : Z) (n : nat) : list Z := (fun i => 1092 * i) <$> seqZ from (Z.of_nat n).

Lemma sparse_in_order i n :
  0 <= i -> i + Z.of_nat n < 2 ^ 30 -> in_order st_zero (1092 * i) (sparse (i + 1) n).
Proof.
  unfold sparse. revert i. induction n as [| n IH]; intros i Hi Hn; [done |].
  rewrite Nat2Z.inj_succ, seqZ_cons by lia. rewrite Z.pred_succ, fmap_cons. cbn [in_order].
  split; [lia |]. split; [unfold packet_time, st_zero; simpl; Z.div_mod_to_equations; lia |].
  apply IH; lia.
Qed.

Lemma headers_honest st ssrc cs :
  0 <= ssrc < 2 ^ 32 -> Forall2 (honest_wire st ssrc) cs (session_header st ssrc <$> cs).
Proof. intros Hs. induction cs; constructor; [by apply session_header_honest | done]. Qed.

Lemma accept_all_app w l k :
  accept_all w (l ++ k) =
  ((accept_all (accept_all w l).1 k).1, (accept_all w l).2 ++ (accept_all (accept_all w l).1 k).2).
Proof.
  revert w. induction l as [| x l IH]; intros w; simpl; [by destruct (accept_all w k) |].
  destruct (accept w x) as [w' b]. rewrite IH. by destruct (accept_all w' l).
Qed.

Lemma accept_all_length w l : length (accept_all w l).2 = length l.
Proof.
  revert w. induction l as [| x l IH]; intros w; simpl; [done |].
  destruct (accept w x) as [w' b]. specialize (IH w'). destruct (accept_all w' l). simpl in *. lia.
Qed.

Abbreviation hdr := (session_header st_zero 1).

Lemma hdr_honest c : honest_wire st_zero 1 c (hdr c).
Proof. apply session_header_honest. lia. Qed.

(** A run of the session from packet 0: every packet is accepted and the window is represented. *)
Lemma sparse_run n :
  Z.of_nat n < 2 ^ 29 ->
  (accept_all replay0 (hdr <$> 0 :: sparse 1 n)).2 = replicate (S n) true /\
  exists s, refines st_zero 1 0 (accept_all replay0 (hdr <$> 0 :: sparse 1 n)).1 s /\
    high s = packet_time st_zero (1092 * Z.of_nat n).
Proof.
  intros Hn. assert (Ht : 0 <= initTs st_zero < 2 ^ 32) by done.
  destruct (accept_first st_zero 1 Ht 0 (hdr 0) (hdr_honest 0)) as [E0 Href0]; [lia |].
  change (opening_turn st_zero 0) with 0 in Href0.
  destruct (in_order_window st_zero 0 0 (sparse 1 n) {[0]}) as (Hb & E & Hhigh).
  { apply (sparse_in_order 0 n); lia. }
  { lia. } { done. } { intros c ->%elem_of_singleton. lia. }
  cbn [fmap list_fmap accept_all]. fold (hdr <$> sparse 1 n).
  destruct (accept replay0 (hdr 0)) as [w0 b]. simpl in E0, Href0. subst b.
  destruct (accept_all_refines st_zero 1 Ht 0 w0 _ _ _ Href0 (headers_honest st_zero 1 (sparse 1 n) ltac:(lia)) Hb)
    as [E' Href].
  unfold window_first in *. change (list_fmap Z (list Z) hdr (sparse 1 n)) with (hdr <$> sparse 1 n) in *.
  destruct (accept_all w0 (hdr <$> sparse 1 n)) as [w bs]. simpl in E', Href |- *.
  rewrite E', E. unfold sparse at 1. rewrite length_fmap, length_seqZ, Nat2Z.id.
  split; [done |]. eexists. split; [exact Href |]. rewrite Hhigh. f_equal.
  unfold sparse. destruct n as [| n]; [done |].
  rewrite seqZ_S, fmap_app, foldl_app. cbn [fmap list_fmap foldl]. lia.
Qed.

(** The datagrams 0 .. [n] of the run after which the table holds [n + 1] nonces. *)
Lemma sparse_run_full n :
  Z.of_nat n = 8191 ->
  initialized (accept_all replay0 (hdr <$> 0 :: sparse 1 n)).1 = true /\
  size (seen (accept_all replay0 (hdr <$> 0 :: sparse 1 n)).1) = S n.
Proof.
  intros Hn. destruct (sparse_run n ltac:(lia)) as (Hb & s & Href & _).
  split; [by apply (ref_init _ _ _ _ _ Href) |].
  cbn [fmap list_fmap accept_all] in *. change (list_fmap Z (list Z) hdr (sparse 1 n)) with (hdr <$> sparse 1 n) in *.
  assert (Ht : 0 <= initTs st_zero < 2 ^ 32) by done.
  destruct (accept_first st_zero 1 Ht 0 (hdr 0) (hdr_honest 0)) as [E0 Href0]; [lia |].
  assert (size (seen (accept replay0 (hdr 0)).1) = 1%nat) as Hs by (vm_compute; reflexivity).
  destruct (accept replay0 (hdr 0)) as [w0 b]. simpl in E0, Hs. subst b. simpl in Href0.
  pose proof (accept_all_fills (hdr <$> sparse 1 n) w0 (ref_init _ _ _ _ _ Href0)) as Hf.
  assert (length (hdr <$> sparse 1 n) = n) as Hlen
    by (unfold sparse; rewrite !length_fmap, length_seqZ; lia).
  rewrite Hlen, Hs in Hf.
  destruct (accept_all w0 (hdr <$> sparse 1 n)) as [w bs]. simpl in *.
  injection Hb as Hb. apply Hf; [| done | unfold replayWindowMaxEntries; lia].
  rewrite (ref_high _ _ _ _ _ Href0). done.
Qed.

Lemma sparse_snoc n : sparse 1 (S n) = sparse 1 n ++ [1092 * Z.of_nat (S n)].
Proof. unfold sparse. rewrite seqZ_S, fmap_app. do 2 f_equal. cbn [fmap list_fmap]. do 2 f_equal. lia. Qed.

(** The window forgets packet 0 once its full table is pruned for packet 1092 * 8192, whose packet
    time is just below 2^33: the 32-bit timestamp is about to end its second turn. *)
Lemma sparse_run_forgets n :
  Z.of_nat n = 8191 ->
  let w := (accept_all replay0 (hdr <$> 0 :: sparse 1 (S n))).1 in
  initialized w = true /\ rw_ssrc w = 1 /\ highestTime w = packet_time st_zero (1092 * 8192) /\
  seen w !! packet_nonce 1 st_zero 0 = None /\
  Z.of_nat (size (seen w)) < replayWindowMaxEntries.
Proof.
  intros Hn. set (l := hdr <$> 0 :: sparse 1 n).
  destruct (sparse_run (S n) ltac:(lia)) as (Hb & s & Href & Hs).
  destruct (sparse_run n ltac:(lia)) as (_ & s0 & Href0 & Hs0).
  destruct (sparse_run_full n Hn) as [Hi Hsize]. fold l in Hi, Hsize, Href0.
  assert (hdr <$> 0 :: sparse 1 (S n) = l ++ [hdr (1092 * Z.of_nat (S n))]) as El
    by (unfold l; by rewrite sparse_snoc, app_comm_cons, fmap_app).
  rewrite El in *. rewrite accept_all_app in *. cbn [fst snd] in *.
  replace (1092 * Z.of_nat (S n)) with (1092 * 8192) in * by lia.
  replace (1092 * Z.of_nat n) with (1092 * 8191) in Hs0 by lia.
  set (w := (accept_all replay0 l).1) in *. clearbody w. cbn [accept_all] in *.
  assert (Hans : (accept w (hdr (1092 * 8192))).2 = true).
  { destruct (accept w (hdr (1092 * 8192))) as [w' b]. simpl snd in Hb |- *.
    assert (b ∈ replicate (S (S n)) true) as Hin by (rewrite <- Hb; set_solver).
    by apply elem_of_replicate in Hin as [-> _]. }
  pose proof (accept_full w (hdr (1092 * 8192)) Hi ltac:(unfold replayWindowMaxEntries; lia) Hans) as [x Hx].
  destruct (accept w (hdr (1092 * 8192))) as [w' b]. cbn [fst snd] in *.
  assert (highestTime w' = packet_time st_zero (1092 * 8192)) as Hhi
    by (rewrite (ref_high _ _ _ _ _ Href), Hs; lia).
  rewrite Hhi in Hx. cbv zeta in Hx.
  split; [by apply (ref_init _ _ _ _ _ Href) |].
  split; [by apply (ref_ssrc _ _ _ _ _ Href) |]. split; [done |].
  rewrite Hx, (honest_nonce _ _ _ _ (hdr_honest (1092 * 8192))). split.
  - rewrite lookup_insert_ne by (intros E%packet_nonce_inj; lia).
    apply map_lookup_filter_None. right. intros e He.
    destruct (ref_seen _ _ _ _ _ Href0 _ _ He) as (c & Hc & _ & E & ->).
    apply packet_nonce_inj in E as <-; [| lia..]. cbv. intros H. by apply H.
  - pose proof (prune_small st_zero 1 0 w s0 (1092 * 8192) Href0 ltac:(lia)) as Hsm.
    rewrite Hs0, !Z.sub_0_r in Hsm. specialize (Hsm ltac:(by vm_compute) ltac:(by vm_compute)).
    rewrite map_size_insert. unfold replayWindowMaxEntries. split_option; unfold id; lia.
Qed.

(** The bound of the previous properties is sharp.  A session of 8193 packets that arrive in
    order and are all accepted ends with a window that accepts a second copy of its first packet:
    the table is full, the old nonces are pruned, and the 32-bit timestamp has wrapped so that the
    first packet's timestamp is extended to a time ahead of the window. *)
Theorem replay_after_wrap :
  exists cs, in_order st_zero 0 cs /\ length cs = Z.to_nat 8192 /\
    (accept_all replay0 (hdr <$> 0 :: cs)).2 = replicate (S (length cs)) true /\
    (accept (accept_all replay0 (hdr <$> 0 :: cs)).1 (hdr 0)).2 = true.
Proof.
  destruct (Z_of_nat_complete 8191 ltac:(lia)) as [n Hn]. exists (sparse 1 (S n)).
  assert (length (sparse 1 (S n)) = S n) as Hlen by (unfold sparse; rewrite length_fmap, length_seqZ; lia).
  rewrite Hlen. split; [apply (sparse_in_order 0); lia |]. split; [lia |].
  split; [by apply sparse_run; lia |].
  destruct (sparse_run_forgets n ltac:(lia)) as (Hi & Hs & Hh & Hl & Hsz).
  set (w := (accept_all _ _).1) in *. clearbody w. unfold accept. rewrite Hi. cbv zeta.
  fold (wire_ts (hdr 0)) (wire_ssrc (hdr 0)). fold (wire_nonce (hdr 0)).
  rewrite (honest_nonce _ _ _ _ (hdr_honest 0)), Hl, Hh, Hs.
  change (wire_ssrc (hdr 0)) with 1. change (wire_ts (hdr 0)) with 0.
  rewrite (proj2 (Z.leb_gt _ _) Hsz).
  change (extend_time (packet_time st_zero (1092 * 8192)) 0) with (2 ^ 33). done.
Qed.

(** ** Concrete sessions *)

(** A session whose timestamp is about to wrap. *)
Definition st_wrap : ObfsState := {| initSeq := 65535; initTs := 4294967000; count := 0 |}.
Abbreviation hdw := (session_header st_wrap 7).

Lemma replay_never_twice_witness :
  (accept replay0 (hdw 0)).2 = true /\
  (accept (accept_all (accept replay0 (hdw 0)).1 [hdw 1; hdw 0; hdw 2]).1 (hdw 0)).2 = false.
Proof.
  split; [vm_compute; reflexivity |].
  apply (replay_never_twice replay0 (hdw 0) (accept replay0 (hdw 0)).1 [hdw 1; hdw 0; hdw 2]).
  - apply Forall_forall. intros x Hx. vm_compute in Hx. unfold byte_ok.
    repeat (apply elem_of_cons in Hx as [-> | Hx]; [lia |]). by apply not_elem_of_nil in Hx.
  - simpl. lia.
  - vm_compute. reflexivity.
  - vm_compute. reflexivity.
Defined.

Lemma hdw_honest cs : Forall2 (honest_wire st_wrap 7) cs (hdw <$> cs).
Proof. apply headers_honest. lia. Qed.

(** Packet 1 crosses the wrap, 9 arrives early, 1 comes twice and 4107 moves packets 2 and 3 out. *)
Lemma replay_refines_window_witness :
  (accept_all replay0 (hdw <$> [0; 1; 9; 1; 2; 4107; 3; 8])).2 =
    [true; true; true; false; true; true; false; true].
Proof.
  change (hdw <$> [0; 1; 9; 1; 2; 4107; 3; 8]) with (hdw 0 :: (hdw <$> [1; 9; 1; 2; 4107; 3; 8])).
  rewrite (replay_refines_window st_wrap 7 0 (hdw 0) [1; 9; 1; 2; 4107; 3; 8]);
    [vm_compute; reflexivity | | | | |].
  - lia.
  - simpl. lia.
  - apply session_header_honest. lia.
  - apply hdw_honest.
  - vm_compute. repeat split; try reflexivity; discriminate.
Defined.

Lemma in_order_accepted_witness :
  (accept_all replay0 (hdw <$> [0; 1; 2; 5; 2000000])).2 = [true; true; true; true; true].
Proof.
  change (hdw <$> [0; 1; 2; 5; 2000000]) with (hdw 0 :: (hdw <$> [1; 2; 5; 2000000])).
  rewrite (in_order_accepted st_wrap 7 0 (hdw 0) [1; 2; 5; 2000000]); [reflexivity | | | | |].
  - lia.
  - simpl. lia.
  - apply session_header_honest. lia.
  - apply hdw_honest.
  - vm_compute. repeat split; try reflexivity; discriminate.
Defined.
