(* ===== verification/DirectConn.v ===== *)
(** * The DTLS-free connection (internal/core/session.go, [obfsDirectConn]).

    [Write] wraps one payload into one datagram; [Read] takes datagrams off the relay until one
    passes the RTP test, the cipher and the replay window.  The relay is pion/turn's
    [net.PacketConn]: the datagrams and errors it has for [ReadFrom] are the input list; a datagram
    that is longer than the buffer is lost with [io.ErrShortBuffer].  The last part says what a
    receiver gets for a sequence of datagrams of one sender mixed with anybody else's. *)

From S2P Require Import Prelude Bytes Obfs Replay.
From Stdlib Require Import ZArith Lia.
From stdpp Require Import base gmap list.
Open Scope Z_scope.

Section Conn.
Context `{C : Cipher}.

Abbreviation aeadCache := (gmap (list Z) AEAD).

Record obfsDirectConn := {
  wrapKey : list Z;
  cfg : ObfsConfig;
  writeState : ObfsState;
  replay : replayWindow
}.

Definition set_replay (c : obfsDirectConn) (w : replayWindow) : obfsDirectConn :=
  {| wrapKey := wrapKey c; cfg := cfg c; writeState := writeState c; replay := w |}.

Definition set_writeState (c : obfsDirectConn) (s : ObfsState) : obfsDirectConn :=
  {| wrapKey := wrapKey c; cfg := cfg c; writeState := s; replay := replay c |}.

Inductive conn_error := ErrObfs (e : obfs_error) | ErrRelay | ErrShortBuffer.

(** [obfsDirectConn.Write].  [relay] says whether [WriteTo] succeeds; the third component is the
    datagram handed to it. *)
Definition Write (cache : aeadCache) (c : obfsDirectConn) (b : list Z) (rndByte : option Z)
    (rndFill : nat -> option (list Z)) (relay : list Z -> bool)
    : aeadCache * obfsDirectConn * option (list Z) * result conn_error nat :=
  match obfsWrapPacket cache (wrapKey c) b (cfg c) (writeState c) rndByte rndFill with
  | (cache', st', Err e) => (cache', set_writeState c st', None, Err (ErrObfs e))
  | (cache', st', Ok wrapped) =>
      (cache', set_writeState c st', Some wrapped,
       if relay wrapped then Ok (length b) else Err ErrRelay)
  end.

(** What the relay has next: a datagram, or an error. *)
Abbreviation relay_result := (option (list Z)).

(** [relay.ReadFrom(wire)] with a buffer of [size] bytes: [wire[:n]]. *)
Definition ReadFrom (size : nat) (r : relay_result) : result conn_error (list Z) :=
  match r with
  | None => Err ErrRelay
  | Some datagram => if (size <? length datagram)%nat then Err ErrShortBuffer else Ok datagram
  end.

(** The room for a payload of [n] bytes with its header, tag and padding. *)
Definition wire_size (n : nat) : nat := (n + 80)%nat.

(** [obfsDirectConn.Read]: [None] means that it still waits for the relay. *)
Fixpoint Read (cache : aeadCache) (c : obfsDirectConn) (b : list Z) (relay : list relay_result)
    : option (aeadCache * obfsDirectConn * list Z * list relay_result * result conn_error nat) :=
  match relay with
  | [] => None
  | next :: rest =>
      match ReadFrom (wire_size (length b)) next with
      | Err e => Some (cache, c, b, rest, Err e)
      | Ok wire =>
          if negb (obfsIsRTPPacket wire) then Read cache c b rest
          else
            match obfsUnwrapPacket cache (wrapKey c) wire b with
            | (cache', Err _) => Read cache' c b rest
            | (cache', Ok (m, b')) =>
                let '(w, ok) := accept (replay c) wire in
                if ok then Some (cache', set_replay c w, b', rest, Ok m)
                else Read cache' (set_replay c w) b' rest
            end
      end
  end.

(** A caller that reads into the same buffer until the relay has nothing more: the payloads it
    gets.  Each [Read] that returns consumes a relay result, so [length relay + 1] rounds do. *)
Fixpoint read_all (fuel : nat) (cache : aeadCache) (c : obfsDirectConn) (b : list Z)
    (relay : list relay_result) : list (result conn_error (list Z)) :=
  match fuel with
  | O => []
  | S fuel' =>
      match Read cache c b relay with
      | None => []
      | Some (cache', c', b', rest, Ok m) => Ok (take m b') :: read_all fuel' cache' c' b' rest
      | Some (cache', c', b', rest, Err e) => Err e :: read_all fuel' cache' c' b' rest
      end
  end.

Definition received (cache : aeadCache) (c : obfsDirectConn) (b : list Z) (relay : list relay_result)
    : list (result conn_error (list Z)) :=
  read_all (S (length relay)) cache c b relay.

(** ** Unwrapping keeps the cache sound, whatever the datagram *)

Lemma unwrap_cache_ok cache key wire dst :
  cache_ok cache -> cache_ok (obfsUnwrapPacket cache key wire dst).1.
Proof.
  intros Hok. unfold obfsUnwrapPacket. destruct (getAEAD_correct cache key Hok) as [Hok' _].
  destruct (getAEAD cache key) as [cache' [a | e]]; simpl in Hok'; cbv zeta;
    repeat (split_guard; [done |]); [| done].
  by destruct (Unseal _ _ _ _).
Qed.

Lemma read_rest cache c b relay cache' c' b' rest r :
  Read cache c b relay = Some (cache', c', b', rest, r) -> (length rest < length relay)%nat.
Proof.
  revert cache c b. induction relay as [| next relay IH]; intros cache c b; simpl; [done |].
  destruct (ReadFrom _ next) as [wire | e]; [| intros [= <- <- <- <- <-]; lia].
  split_guard; [intros H%IH; lia |].
  destruct (obfsUnwrapPacket cache (wrapKey c) wire b) as [k [[m b0] | e]]; [| intros H%IH; lia].
  destruct (accept (replay c) wire) as [w [|]]; [| intros H%IH; lia].
  intros [= <- <- <- <- <-]. lia.
Qed.

(** More rounds than relay results change nothing. *)
Lemma read_all_fuel n m cache c b relay :
  (length relay < n)%nat -> (length relay < m)%nat ->
  read_all n cache c b relay = read_all m cache c b relay.
Proof.
  revert m cache c b relay. induction n as [| n IH]; intros [| m] cache c b relay Hn Hm; try lia.
  simpl. destruct (Read cache c b relay) as [[[[[k c'] b'] rest] [x | e]] |] eqn:HR; [| | done];
    apply read_rest in HR; f_equal; apply IH; lia.
Qed.

(** [received], one relay result at a time. *)
Lemma received_cons cache c b wire relay : (length wire <= wire_size (length b))%nat ->
  received cache c b (Some wire :: relay) =
  if negb (obfsIsRTPPacket wire) then received cache c b relay
  else match obfsUnwrapPacket cache (wrapKey c) wire b with
       | (cache', Err _) => received cache' c b relay
       | (cache', Ok (m, b')) =>
           let '(w, ok) := accept (replay c) wire in
           if ok then Ok (take m b') :: received cache' (set_replay c w) b' relay
           else received cache' (set_replay c w) b' relay
       end.
Proof.
  intros Hfit.
  assert (forall k c0 b0, received k c0 b0 relay = read_all (S (S (length relay))) k c0 b0 relay) as Hr
    by (intros k c0 b0; apply read_all_fuel; lia).
  assert (received cache c b (Some wire :: relay) =
          read_all (S (S (length relay))) cache c b (Some wire :: relay)) as -> by done.
  assert (forall k c0 b0, read_all (S (length relay)) k c0 b0 relay = received k c0 b0 relay) as Hr' by done.
  remember (S (length relay)) as n eqn:En. cbn [read_all Read ReadFrom].
  rewrite (proj2 (Nat.ltb_ge _ _) Hfit). split_guard; [by rewrite Hr |].
  destruct (obfsUnwrapPacket cache (wrapKey c) wire b) as [k [[m b0] | e]]; [| by rewrite Hr].
  destruct (accept (replay c) wire) as [w [|]]; [by rewrite <- Hr' | by rewrite Hr].
Qed.

(** A datagram that does not fit ends a read, whoever sent it. *)
Lemma received_long cache c b wire relay : (wire_size (length b) < length wire)%nat ->
  exists rest, received cache c b (Some wire :: relay) = Err ErrShortBuffer :: rest.
Proof.
  intros Hlong. unfold received. cbn [length read_all Read ReadFrom]. rewrite (proj2 (Nat.ltb_lt _ _) Hlong). by eexists.
Qed.

(** ** What the receiver gets *)

(** The datagrams reaching the receiver: packets of the session, written with some padding, and
    anything else. *)
Inductive arrival :=
| Packet (c : Z) (payload padding : list Z)
| Noise (wire : list Z).

Section Delivery.
Context (st : ObfsState).

(** The specification: a window over counters decides which payloads come out; noise is ignored. *)
Fixpoint deliver (s : option window) (xs : list arrival) : list (Z * list Z) :=
  match xs with
  | [] => []
  | Noise _ :: rest => deliver s rest
  | Packet c payload _ :: rest =>
      match s with
      | None => (c, payload) :: deliver (Some (window_first st c)) rest
      | Some s' =>
          let '(s'', ok) := window_accept st s' c in
          if ok then (c, payload) :: deliver (Some s'') rest else deliver (Some s'') rest
      end
  end.

(** Reordering of the session's packets stays within half a turn of the timestamp. *)
Fixpoint ordered_enough (s : option (Z * window)) (xs : list arrival) : Prop :=
  match xs with
  | [] => True
  | Noise _ :: rest => ordered_enough s rest
  | Packet c _ _ :: rest =>
      match s with
      | None => ordered_enough (Some (opening_turn st c, window_first st c)) rest
      | Some (K, s') =>
          K <= packet_time st c /\ - 2 ^ 31 < packet_time st c - high s' < 2 ^ 31 /\
          ordered_enough (Some (K, (window_accept st s' c).1)) rest
      end
  end.

(** No counter comes out twice. *)
Lemma deliver_fresh xs s :
  NoDup (fst <$> deliver (Some s) xs) /\ (forall c, c ∈ accepted s -> c ∉ (fst <$> deliver (Some s) xs)).
Proof.
  revert s. induction xs as [| [i payload padding | wire] xs IH]; intros s; cbn [deliver]; [| | apply IH].
  - split; [apply NoDup_nil_2 | set_solver].
  - unfold window_accept. destruct (window_fresh st s i) eqn:Hf; [| apply IH].
    apply andb_true_iff in Hf as [Hf%bool_decide_eq_true _].
    destruct (IH {| accepted := {[i]} ∪ accepted s; high := Z.max (high s) (packet_time st i) |}) as [H1 H2].
    simpl in H2. clear IH. rewrite fmap_cons. split.
    + apply NoDup_cons. split; [apply H2; set_solver | done].
    + intros c Hc. specialize (H2 c). set_solver.
Qed.

Lemma deliver_nodup xs : NoDup (fst <$> deliver None xs).
Proof.
  induction xs as [| [i payload padding | wire] xs IH]; cbn [deliver]; [apply NoDup_nil_2 | | done].
  destruct (deliver_fresh xs (window_first st i)) as [H1 H2]. rewrite fmap_cons.
  apply NoDup_cons. split; [apply H2; simpl; set_solver | done].
Qed.

End Delivery.

Section Session.
Context `{!CipherLaws C}.
Context (key : list Z) (a : AEAD) (scfg : ObfsConfig) (st : ObfsState) (L : nat).
Context (Hkey : length key = wrapKeyLen) (Ha : newCipher key = Some a).
Context (Hcfg : config_ok scfg) (Hpt : PayloadType scfg = 111 \/ PayloadType scfg = 96).
Context (Hts : 0 <= initTs st < 2 ^ 32).

(** The datagram [obfsWrapPacket] writes for counter [c] (lemma [write_wire] below). *)
Definition packet_wire (c : Z) (payload padding : list Z) : list Z :=
  let header := rtp_header scfg (packet_seq st c) (packet_ts st c) in
  header ++ Seal a (packet_nonce (SSRC scfg) st c) payload header ++
  padding ++ [u8 (Z.of_nat (length padding) + 1)].

Definition arrival_wire (x : arrival) : list Z :=
  match x with Packet c payload padding => packet_wire c payload padding | Noise wire => wire end.

(** Every datagram fits the reader's buffer of [L + 80] bytes: a packet of the session, whose header,
    tag and last byte take 29, does when its padding is at most 51 bytes (an audio sender writes fewer
    than 24) or its payload is shorter than the buffer.  Noise does not look like RTP or does not
    authenticate under the session's key. *)
Definition arrival_ok (x : arrival) : Prop :=
  match x with
  | Packet c payload padding =>
      0 <= c < 2 ^ 48 /\ payload <> [] /\ (length payload <= L)%nat /\ (length padding < 255)%nat /\
      (length payload + length padding <= L + 51)%nat
  | Noise wire => (length wire <= wire_size L)%nat /\
      (obfsIsRTPPacket wire = false \/
      forall cache dst, cache_ok cache -> exists e, (obfsUnwrapPacket cache key wire dst).2 = Err e)
  end.

Definition represents (s : option (Z * window)) (w : replayWindow) : Prop :=
  match s with
  | None => w = replay0
  | Some (K, s') => refines st (SSRC scfg) K w s'
  end.

Lemma packet_wire_honest c payload padding : honest_wire st (SSRC scfg) c (packet_wire c payload padding).
Proof.
  destruct Hcfg as (Hs & _). unfold honest_wire, wire_ssrc, wire_ts, packet_wire. cbv zeta.
  match goal with |- context [?h ++ ?r] => pose proof (header_fields scfg (packet_seq st c)
    (packet_ts st c) r) as (_ & _ & _ & E1 & E2 & E3) end.
  rewrite E1, E2, E3, length_app, length_rtp_header. split; [lia |].
  split; [by apply be_get_put_small |]. split; apply be_get_put_small; [apply u16_bound | apply u32_bound].
Qed.

(** A packet of the session looks like RTP and opens to its payload. *)
Lemma packet_wire_opens cache c payload padding dst :
  cache_ok cache -> payload <> [] -> (length payload <= length dst)%nat -> (length padding < 255)%nat ->
  obfsIsRTPPacket (packet_wire c payload padding) = true /\
  (obfsUnwrapPacket cache key (packet_wire c payload padding) dst).2 =
    Ok (length payload, payload ++ drop (length payload) dst).
Proof.
  intros Hok Hne Hlen Hpad. unfold packet_wire. cbv zeta. split.
  - match goal with |- context [?h ++ ?r] => pose proof (header_fields scfg (packet_seq st c)
      (packet_ts st c) r) as (H0 & H1 & _) end.
    unfold obfsIsRTPPacket. rewrite H0, H1, length_app, length_rtp_header, !length_app. simpl length.
    rewrite (proj2 (Nat.ltb_ge _ _)) by (unfold rtpHeaderLenLegacy; lia).
    by destruct Hpt as [-> | ->].
  - pose proof (cipher_seal_length key a (packet_nonce (SSRC scfg) st c) payload
      (rtp_header scfg (packet_seq st c) (packet_ts st c)) Ha) as Hsl.
    rewrite (unwrap_layout _ _ _ _ _ _ _ _ a); [| done.. | | | | done |].
    + unfold packet_nonce. by rewrite (cipher_open_seal key).
    + apply u16_bound.
    + apply u32_bound.
    + rewrite Hsl. destruct payload; [done | simpl; lia].
    + lia.
Qed.

(** One packet through the window. *)
Lemma packet_step s w c wire :
  represents s w -> honest_wire st (SSRC scfg) c wire -> 0 <= c < 2 ^ 48 ->
  (match s with
   | None => True
   | Some (K, s') => K <= packet_time st c /\ - 2 ^ 31 < packet_time st c - high s' < 2 ^ 31
   end) ->
  match s with
  | None => (accept w wire).2 = true /\
      represents (Some (opening_turn st c, window_first st c)) (accept w wire).1
  | Some (K, s') => (accept w wire).2 = (window_accept st s' c).2 /\
      represents (Some (K, (window_accept st s' c).1)) (accept w wire).1
  end.
Proof.
  destruct s as [[K s'] |]; simpl.
  - intros Href Hw Hc [HK Hn]. by apply accept_refines.
  - intros -> Hw Hc _. by apply accept_first.
Qed.

Lemma packet_wire_fits c payload padding : (length payload + length padding <= L + 51)%nat ->
  (length (packet_wire c payload padding) <= wire_size L)%nat.
Proof.
  intros Hfit. pose proof (cipher_seal_length key a (packet_nonce (SSRC scfg) st c) payload
    (rtp_header scfg (packet_seq st c) (packet_ts st c)) Ha) as Hsl.
  unfold packet_wire, wire_size. cbv zeta.
  rewrite !length_app, length_rtp_header, Hsl. unfold Overhead. cbn [length]. lia.
Qed.

(** Datagrams that fit, and then others: what comes out first is what the window lets through. *)
Lemma deliver_then xs tl s cache c b :
  cache_ok cache -> wrapKey c = key -> length b = L -> represents s (replay c) ->
  Forall arrival_ok xs -> ordered_enough st s xs ->
  exists cache' c' b', length b' = L /\
    received cache c b ((Some <$> (arrival_wire <$> xs)) ++ tl) =
    (Ok <$> (snd <$> deliver st (snd <$> s) xs)) ++ received cache' c' b' tl.
Proof.
  intros Hok Hk Hb Hs Hall. revert s cache c b Hok Hk Hb Hs.
  induction Hall as [| x xs Hx _ IH]; intros s cache c b Hok Hk Hb Hs Hord; [by eexists _, _, _ |].
  rewrite !fmap_cons, <- app_comm_cons.
  assert (length (arrival_wire x) <= wire_size (length b))%nat as Hfits
    by (rewrite Hb; destruct x; [by apply packet_wire_fits, Hx | apply Hx]).
  rewrite received_cons, Hk by done.
  destruct x as [i payload padding | wire]; cbn [arrival_wire arrival_ok] in *.
  - destruct Hx as (Hi & Hne & Hpl & Hpad & _).
    destruct (packet_wire_opens cache i payload padding b Hok Hne ltac:(lia) Hpad) as [-> Hu].
    pose proof (unwrap_cache_ok cache key (packet_wire i payload padding) b Hok) as Hok'.
    destruct (obfsUnwrapPacket cache key (packet_wire i payload padding) b) as [cache' r].
    simpl in Hu, Hok' |- *. subst r. cbv iota.
    assert (length (payload ++ drop (length payload) b) = L) as Hb'
      by (rewrite length_app, length_drop; lia).
    pose proof (packet_step s (replay c) i _ Hs (packet_wire_honest i payload padding) Hi) as Hstep.
    destruct (accept (replay c) (packet_wire i payload padding)) as [w ok].
    destruct s as [[K s'] |]; cbn [ordered_enough deliver fmap option_fmap option_map snd fst] in *.
    + destruct Hord as (HK & Hn & Hrest). destruct Hstep as [E Hrep]; [done |]. subst ok.
      destruct (IH (Some (K, (window_accept st s' i).1)) cache' (set_replay c w) _ Hok' Hk Hb' Hrep Hrest)
        as (k & c' & b' & Hlen & E).
      exists k, c', b'. split; [done |]. destruct (window_accept st s' i) as [s'' [|]]; cbn [snd fst] in *; [| done].
      rewrite take_app_length. cbn [fmap list_fmap app]. by f_equal.
    + destruct Hstep as [E Hrep]; [done |]. subst ok.
      destruct (IH (Some (opening_turn st i, window_first st i)) cache' (set_replay c w) _ Hok' Hk Hb' Hrep Hord)
        as (k & c' & b' & Hlen & E).
      exists k, c', b'. split; [done |]. rewrite take_app_length. cbn [fmap list_fmap app]. by f_equal.
  - destruct Hx as [_ Hx]. cbn [deliver ordered_enough] in *. destruct (obfsIsRTPPacket wire) eqn:Hrtp; [| by apply IH].
    destruct Hx as [? | Hx]; [done |]. simpl. destruct (Hx cache b Hok) as [e He].
    pose proof (unwrap_cache_ok cache key wire b Hok) as Hok'.
    destruct (obfsUnwrapPacket cache key wire b) as [cache' r]. simpl in He, Hok'. subst r. by apply IH.
Qed.

End Session.

(** ** Properties *)

(** C5: a receiver that keeps reading gets, for any mixture of one sender's packets (duplicated,
    reordered, lost) and of datagrams that do not authenticate, all of them no longer than its
    buffer of [L + 80] bytes, exactly the payloads that the sliding window over counters lets
    through, unaltered and each at most once; such forged datagrams neither come out nor disturb the
    window.  A longer datagram, whoever sent it, makes the next read fail with a short-buffer error
    after those payloads, whatever would have come behind it. *)
Theorem direct_exactly_once `{!CipherLaws C} key a scfg st L c cache b xs :
  length key = wrapKeyLen -> newCipher key = Some a -> config_ok scfg ->
  (PayloadType scfg = 111 \/ PayloadType scfg = 96) -> 0 <= initTs st < 2 ^ 32 ->
  cache_ok cache -> wrapKey c = key -> replay c = replay0 -> length b = L ->
  Forall (arrival_ok key L) xs -> ordered_enough st None xs ->
  let wires := Some <$> (arrival_wire a scfg st <$> xs) in
  let payloads := Ok <$> (snd <$> deliver st None xs) in
  received cache c b wires = payloads /\
  NoDup (fst <$> deliver st None xs) /\
  (forall long rest, (L + 80 < length long)%nat ->
    exists more, received cache c b (wires ++ Some long :: rest) = payloads ++ Err ErrShortBuffer :: more).
Proof.
  intros Hkey Ha Hcfg Hpt Hts Hok Hk Hr Hb Hall Hord.
  pose proof (fun tl => deliver_then key a scfg st L Hkey Ha Hcfg Hpt Hts xs tl None cache c b Hok Hk Hb Hr Hall Hord) as H.
  split; [| split; [apply deliver_nodup |]].
  - destruct (H []) as (k & c' & b' & _ & E). rewrite app_nil_r in E. by rewrite E, app_nil_r.
  - intros long rest Hlong. destruct (H (Some long :: rest)) as (k & c' & b' & Hb' & E).
    destruct (received_long k c' b' long rest) as [more Em]; [rewrite Hb'; exact Hlong |].
    exists more. cbv zeta. by rewrite E, Em.
Qed.

(** [Write] of a non-empty payload hands the relay one packet of the session: the one of the
    current counter, which it consumes, so that consecutive writes are packets [c], [c+1], ... *)
Theorem write_packet `{!CipherLaws C} cache c a b rnd rndFill relay :
  cache_ok cache -> length (wrapKey c) = wrapKeyLen -> newCipher (wrapKey c) = Some a ->
  b <> [] -> config_ok (cfg c) -> byte_ok rnd ->
  (forall n, exists l, rndFill n = Some l /\ length l = n) ->
  0 <= count (writeState c) < 2 ^ 48 ->
  exists cache' padding,
    cache_ok cache' /\ (length padding < 255)%nat /\
    let wire := packet_wire a (cfg c) (writeState c) (count (writeState c)) b padding in
    Write cache c b (Some rnd) rndFill relay =
    (cache', set_writeState c {| initSeq := initSeq (writeState c); initTs := initTs (writeState c);
                                 count := count (writeState c) + 1 |},
     Some wire, if relay wire then Ok (length b) else Err ErrRelay).
Proof.
  intros Hok Hlen Ha Hne Hcfg Hrnd Hf Hc.
  destruct (wrap_layout cache (wrapKey c) b (cfg c) (writeState c) rnd rndFill a)
    as (cache' & padding & Hok' & Hpad & E); [done.. |].
  exists cache', padding. split; [done |]. split; [done |]. unfold Write. rewrite E.
  rewrite u64_small by lia. done.
Qed.

End Conn.

(** ** Concrete sessions *)

#[local] Existing Instance ToyCipher.toy_cipher.
#[local] Existing Instance ToyCipher.toy_laws.

Definition conn0 : obfsDirectConn :=
  {| wrapKey := ToyCipher.key0; cfg := {| SSRC := 1; PayloadType := 111; PaddingMax := 24 |};
     writeState := ToyCipher.st0; replay := replay0 |}.

Definition arrivals0 : list arrival :=
  [Packet 0 [10] []; Noise [1; 2; 3]; Packet 2 [30; 31] [0; 0]; Packet 0 [10] []; Packet 1 [20] [5]].

Lemma direct_exactly_once_witness :
  let wires := Some <$> (arrival_wire (ToyCipher.toy ToyCipher.key0) (cfg conn0) ToyCipher.st0 <$> arrivals0) in
  received ∅ conn0 (replicate 10 0) wires = [Ok [10]; Ok [30; 31]; Ok [20]] /\
  exists more, received ∅ conn0 (replicate 10 0) (wires ++ [Some (replicate 91 7); Some [1]]) =
    [Ok [10]; Ok [30; 31]; Ok [20]] ++ Err ErrShortBuffer :: more.
Proof.
  destruct (direct_exactly_once ToyCipher.key0 (ToyCipher.toy ToyCipher.key0) (cfg conn0) ToyCipher.st0 10
    conn0 ∅ (replicate 10 0) arrivals0) as (E & _ & Hlong).
  - reflexivity.
  - reflexivity.
  - unfold config_ok. simpl. lia.
  - by left.
  - simpl. lia.
  - apply map_Forall_empty.
  - reflexivity.
  - reflexivity.
  - reflexivity.
  - repeat constructor; simpl; try lia; discriminate.
  - vm_compute. repeat split; discriminate.
  - split; [etransitivity; [exact E | vm_compute; reflexivity] |].
    destruct (Hlong (replicate 91 7) [Some [1]]) as [more Em]; [rewrite length_replicate; lia |].
    exists more. etransitivity; [exact Em | reflexivity].
Defined.

Lemma write_packet_witness :
  exists cache' wire,
    Write ∅ conn0 [1; 2; 3] (Some 30) ToyCipher.fill (fun _ => true) =
    (cache', set_writeState conn0 {| initSeq := 65535; initTs := 4294967000; count := 6 |},
     Some wire, Ok 3%nat).
Proof.
  destruct (write_packet ∅ conn0 (ToyCipher.toy ToyCipher.key0) [1; 2; 3] 30 ToyCipher.fill (fun _ => true))
    as (cache' & padding & _ & _ & E).
  - apply map_Forall_empty.
  - reflexivity.
  - reflexivity.
  - discriminate.
  - unfold config_ok. simpl. lia.
  - unfold byte_ok. lia.
  - apply ToyCipher.fill_length.
  - simpl. lia.
  - eexists _, _. exact E.
Defined.
