(* ===== verification/Dispatcher.v ===== *)
(** * The packet dispatcher (internal/core/dispatcher.go).

    [readLoop] spreads the packets of the TUN device (or of the local WireGuard socket) over the
    workers in chunks; [writeLoop] carries the workers' packets back.  Worker slots live in a heap
    because the code compares them by pointer; a Go fault (send on a closed channel, index out of
    range) is an [Err].  One pass of the loop body, which holds the mutex, is one operation. *)

From S2P Require Import Prelude Bytes.
From Stdlib Require Import ZArith Lia.
From stdpp Require Import base gmap list.
Open Scope Z_scope.

Definition workerSendBuf : nat := 128.
Definition readBufSize : Z := 1600.
Definition returnChBuf : nat := 512.
Definition prioBuf : nat := 32.
Definition maxDwellMS : Z := 15.
Definition prioThreshold : Z := 128.

Definition chunkSizeFor (pktSize : Z) : Z :=
  if 1100 <? pktSize then 64
  else if 701 <=? pktSize then 24
  else if 301 <=? pktSize then 8
  else if 101 <=? pktSize then 3
  else 1.

(** ** State *)

Definition packet := list Z.
Definition ptr := positive.

Inductive fault := SendOnClosed | CloseOfClosed | IndexRange | NilPointer.

(** The two buffered channels of a worker; only [SendCh] is ever closed. *)
Record WorkerSlot := {
  ID : Z;
  SendCh : list packet;
  SendClosed : bool;
  PrioCh : list packet
}.

Abbreviation heap := (gmap ptr WorkerSlot).

(** The chunk being filled: current worker, packets already in it, times of the last packet and of
    the chunk's start. *)
Record rotation := {
  rrIndex : Z;
  rrCount : Z;
  lastPktTime : Z;
  chunkStartTs : Z
}.

Record counters := {
  tunReadCount : Z;
  tunSentCount : Z;
  tunDroppedCount : Z;
  TotalBytesUp : Z;
  TotalBytesDown : Z
}.

Section Dispatcher.
Context {Addr : Type}.

Record Dispatcher := {
  onTun : bool;              (* tunFile <> nil *)
  clientAddr : option Addr;
  slots : heap;
  workers : list ptr;
  rr : rotation;
  ReturnCh : list packet;
  cnt : counters
}.

(** [NewDispatcher] and [NewDispatcherPendingTUN] followed by [AttachTUN]. *)
Definition NewDispatcher (tun : bool) (m : heap) : Dispatcher :=
  {| onTun := tun; clientAddr := None; slots := m; workers := [];
     rr := {| rrIndex := 0; rrCount := 0; lastPktTime := 0; chunkStartTs := 0 |};
     ReturnCh := [];
     cnt := {| tunReadCount := 0; tunSentCount := 0; tunDroppedCount := 0;
               TotalBytesUp := 0; TotalBytesDown := 0 |} |}.

Definition set_rr (d : Dispatcher) (r : rotation) : Dispatcher :=
  {| onTun := onTun d; clientAddr := clientAddr d; slots := slots d; workers := workers d;
     rr := r; ReturnCh := ReturnCh d; cnt := cnt d |}.

Definition set_slots (d : Dispatcher) (m : heap) : Dispatcher :=
  {| onTun := onTun d; clientAddr := clientAddr d; slots := m; workers := workers d;
     rr := rr d; ReturnCh := ReturnCh d; cnt := cnt d |}.

Definition set_cnt (d : Dispatcher) (c : counters) : Dispatcher :=
  {| onTun := onTun d; clientAddr := clientAddr d; slots := slots d; workers := workers d;
     rr := rr d; ReturnCh := ReturnCh d; cnt := c |}.

Definition count_sent (d : Dispatcher) : Dispatcher :=
  if onTun d then
    set_cnt d {| tunReadCount := tunReadCount (cnt d); tunSentCount := u64 (tunSentCount (cnt d) + 1);
                 tunDroppedCount := tunDroppedCount (cnt d);
                 TotalBytesUp := TotalBytesUp (cnt d); TotalBytesDown := TotalBytesDown (cnt d) |}
  else d.

Definition count_dropped (d : Dispatcher) : Dispatcher :=
  if onTun d then
    set_cnt d {| tunReadCount := tunReadCount (cnt d); tunSentCount := tunSentCount (cnt d);
                 tunDroppedCount := u64 (tunDroppedCount (cnt d) + 1);
                 TotalBytesUp := TotalBytesUp (cnt d); TotalBytesDown := TotalBytesDown (cnt d) |}
  else d.

(** ** Registration *)

Definition Register (d : Dispatcher) (p : ptr) : Dispatcher :=
  {| onTun := onTun d; clientAddr := clientAddr d; slots := slots d; workers := workers d ++ [p];
     rr := rr d; ReturnCh := ReturnCh d; cnt := cnt d |}.

(** The first occurrence of [slot] leaves the list. *)
Fixpoint remove_worker (p : ptr) (ws : list ptr) : list ptr :=
  match ws with
  | [] => []
  | w :: rest => if decide (w = p) then rest else w :: remove_worker p rest
  end.

(** [Unregister]: the part under the mutex, *)
Definition unregister_locked (d : Dispatcher) (p : ptr) : Dispatcher :=
  let ws := remove_worker p (workers d) in
  let remaining := Z.of_nat (length ws) in
  let r := rr d in
  {| onTun := onTun d; clientAddr := clientAddr d; slots := slots d; workers := ws;
     rr := {| rrIndex := if (remaining <=? rrIndex r) && (0 <? remaining)
                         then Z.rem (rrIndex r) remaining else rrIndex r;
              rrCount := 0; lastPktTime := lastPktTime r; chunkStartTs := chunkStartTs r |};
     ReturnCh := ReturnCh d; cnt := cnt d |}.

(** and the part after it: the channel is closed and drained. *)
Definition close_send (d : Dispatcher) (p : ptr) : result fault Dispatcher :=
  match slots d !! p with
  | None => Err NilPointer
  | Some s =>
      if SendClosed s then Err CloseOfClosed
      else Ok (set_slots d (<[p := {| ID := ID s; SendCh := []; SendClosed := true; PrioCh := PrioCh s |}]>
                              (slots d)))
  end.

Definition Unregister (d : Dispatcher) (p : ptr) : result fault Dispatcher :=
  close_send (unregister_locked d p) p.

(** ** [readLoop] *)

(** [select { case p.PrioCh <- pkt: ... default: }]: the heap after a send, [None] for a full
    channel. *)
Definition offer_prio (m : heap) (p : ptr) (pkt : packet) : result fault (option heap) :=
  match m !! p with
  | None => Err NilPointer
  | Some s =>
      if (length (PrioCh s) <? prioBuf)%nat
      then Ok (Some (<[p := {| ID := ID s; SendCh := SendCh s; SendClosed := SendClosed s;
                               PrioCh := PrioCh s ++ [pkt] |}]> m))
      else Ok None
  end.

(** The same for [p.SendCh]; a send on a closed channel panics even with a default case. *)
Definition offer_send (m : heap) (p : ptr) (pkt : packet) : result fault (option heap) :=
  match m !! p with
  | None => Err NilPointer
  | Some s =>
      if SendClosed s then Err SendOnClosed
      else if (length (SendCh s) <? workerSendBuf)%nat
      then Ok (Some (<[p := {| ID := ID s; SendCh := SendCh s ++ [pkt]; SendClosed := SendClosed s;
                               PrioCh := PrioCh s |}]> m))
      else Ok None
  end.

(** Offer the packet to workers [(idx + i) % nw] for the given [js] until one takes it: its index
    and the heap. *)
Fixpoint offer_round (offer : heap -> ptr -> packet -> result fault (option heap))
    (m : heap) (ws : list ptr) (idx : Z) (pkt : packet) (js : list Z)
    : result fault (option (Z * heap)) :=
  match js with
  | [] => Ok None
  | i :: rest =>
      let alt := Z.rem (idx + i) (Z.of_nat (length ws)) in
      match ws !! Z.to_nat alt with
      | None => Err IndexRange
      | Some p =>
          match offer m p pkt with
          | Err e => Err e
          | Ok (Some m') => Ok (Some (alt, m'))
          | Ok None => offer_round offer m ws idx pkt rest
          end
      end
  end.

(** [idx], then the loop [for i := 1; i < nw; i++]. *)
Definition turns (ws : list ptr) : list Z := seqZ 0 (Z.of_nat (length ws)).

(** The byte and packet counters of a packet just read. *)
Definition count_read (d : Dispatcher) (addr : Addr) (pkt : packet) : Dispatcher :=
  let c := cnt d in
  {| onTun := onTun d; clientAddr := if onTun d then clientAddr d else Some addr;
     slots := slots d; workers := workers d; rr := rr d; ReturnCh := ReturnCh d;
     cnt := {| tunReadCount := if onTun d then u64 (tunReadCount c + 1) else tunReadCount c;
               tunSentCount := tunSentCount c; tunDroppedCount := tunDroppedCount c;
               TotalBytesUp := TotalBytesUp c + Z.of_nat (length pkt);
               TotalBytesDown := TotalBytesDown c |} |}.

(** After a pause of more than 10 ms the next worker starts a new chunk. *)
Definition note_time (d : Dispatcher) (now : Z) : Dispatcher :=
  let r := rr d in
  let nw := Z.of_nat (length (workers d)) in
  if (0 <? lastPktTime r) && (10 <? now - lastPktTime r)
  then set_rr d {| rrIndex := Z.rem (rrIndex r + 1) nw; rrCount := 0;
                   lastPktTime := now; chunkStartTs := now |}
  else set_rr d {| rrIndex := rrIndex r; rrCount := rrCount r;
                   lastPktTime := now; chunkStartTs := chunkStartTs r |}.

(** A chunk older than [maxDwellMS] ends. *)
Definition check_dwell (d : Dispatcher) (now : Z) : Dispatcher :=
  let r := rr d in
  let nw := Z.of_nat (length (workers d)) in
  if chunkStartTs r =? 0
  then set_rr d {| rrIndex := rrIndex r; rrCount := rrCount r;
                   lastPktTime := lastPktTime r; chunkStartTs := now |}
  else if maxDwellMS <=? now - chunkStartTs r
  then set_rr d {| rrIndex := Z.rem (rrIndex r + 1) nw; rrCount := 0;
                   lastPktTime := lastPktTime r; chunkStartTs := now |}
  else d.

(** The ordinary queue: the current worker, then any other, then a drop. *)
Definition send_data (d : Dispatcher) (pkt : packet) (now : Z) : result fault Dispatcher :=
  let nw := Z.of_nat (length (workers d)) in
  let chunk := chunkSizeFor (Z.of_nat (length pkt)) in
  let d := check_dwell d now in
  let r := rr d in
  let idx := Z.rem (rrIndex r) nw in
  match workers d !! Z.to_nat idx with
  | None => Err IndexRange
  | Some w =>
      match offer_send (slots d) w pkt with
      | Err e => Err e
      | Ok (Some m) =>
          let r' := if chunk <=? rrCount r + 1
                    then {| rrIndex := Z.rem (idx + 1) nw; rrCount := 0;
                            lastPktTime := lastPktTime r; chunkStartTs := now |}
                    else {| rrIndex := rrIndex r; rrCount := rrCount r + 1;
                            lastPktTime := lastPktTime r; chunkStartTs := chunkStartTs r |} in
          Ok (count_sent (set_rr (set_slots d m) r'))
      | Ok None =>
          match offer_round offer_send (slots d) (workers d) idx pkt (seqZ 1 (nw - 1)) with
          | Err e => Err e
          | Ok (Some (altIdx, m)) =>
              Ok (count_sent (set_rr (set_slots d m)
                {| rrIndex := altIdx; rrCount := 1; lastPktTime := lastPktTime r; chunkStartTs := now |}))
          | Ok None =>
              Ok (count_dropped (set_rr d
                {| rrIndex := Z.rem (idx + 1) nw; rrCount := 0;
                   lastPktTime := lastPktTime r; chunkStartTs := chunkStartTs r |}))
          end
      end
  end.

(** One pass of [readLoop] for a packet read at time [now] (Unix milliseconds). *)
Definition dispatch (d : Dispatcher) (addr : Addr) (pkt : packet) (now : Z) : result fault Dispatcher :=
  let d := count_read d addr pkt in
  if Z.of_nat (length (workers d)) =? 0 then Ok (count_dropped d)
  else
    let d := note_time d now in
    if Z.of_nat (length pkt) <=? prioThreshold then
      let idx := Z.rem (rrIndex (rr d)) (Z.of_nat (length (workers d))) in
      match offer_round offer_prio (slots d) (workers d) idx pkt (turns (workers d)) with
      | Err e => Err e
      | Ok (Some (_, m)) => Ok (count_sent (set_slots d m))
      | Ok None => send_data d pkt now
      end
    else send_data d pkt now.

(** ** [writeLoop] *)

(** What one pass writes: to the TUN device, to the WireGuard client, or nothing. *)
Inductive output := ToTun (pkt : packet) | ToClient (addr : Addr) (pkt : packet).

Definition count_down (d : Dispatcher) (pkt : packet) : Dispatcher :=
  let c := cnt d in
  set_cnt d {| tunReadCount := tunReadCount c; tunSentCount := tunSentCount c;
               tunDroppedCount := tunDroppedCount c; TotalBytesUp := TotalBytesUp c;
               TotalBytesDown := TotalBytesDown c + Z.of_nat (length pkt) |}.

(** One pass of [writeLoop]; [None] waits for a packet.  A failed write is counted all the same
    (the loop only stops once the context is cancelled). *)
Definition write_step (d : Dispatcher) : option (Dispatcher * option output) :=
  match ReturnCh d with
  | [] => None
  | pkt :: rest =>
      let d := {| onTun := onTun d; clientAddr := clientAddr d; slots := slots d;
                  workers := workers d; rr := rr d; ReturnCh := rest; cnt := cnt d |} in
      if onTun d then Some (count_down d pkt, Some (ToTun pkt))
      else match clientAddr d with
           | None => Some (d, None)
           | Some addr => Some (count_down d pkt, Some (ToClient addr pkt))
           end
  end.

(** A worker's reader hands a packet to [ReturnCh], or drops it when the channel is full. *)
Definition return_packet (d : Dispatcher) (pkt : packet) : Dispatcher :=
  if (length (ReturnCh d) <? returnChBuf)%nat
  then {| onTun := onTun d; clientAddr := clientAddr d; slots := slots d; workers := workers d;
          rr := rr d; ReturnCh := ReturnCh d ++ [pkt]; cnt := cnt d |}
  else d.

End Dispatcher.
Arguments Dispatcher Addr : clear implicits.

(** ** Well-formed dispatchers *)

Definition slot_ok (s : WorkerSlot) : Prop :=
  (length (SendCh s) <= workerSendBuf)%nat /\ (length (PrioCh s) <= prioBuf)%nat /\
  (SendClosed s = true -> SendCh s = []).

(** Registered workers exist and are open, no channel overflows, the current worker is one of the
    registered ones. *)
Record wf {Addr} (d : Dispatcher Addr) : Prop := {
  wf_slots : map_Forall (fun _ s => slot_ok s) (slots d);
  wf_open : forall p, p ∈ workers d -> exists s, slots d !! p = Some s /\ SendClosed s = false;
  wf_nodup : NoDup (workers d);
  wf_index : 0 <= rrIndex (rr d) /\
    (rrIndex (rr d) < Z.of_nat (length (workers d)) \/ rrIndex (rr d) = 0);
  wf_return : (length (ReturnCh d) <= returnChBuf)%nat
}.

Definition send_full (m : heap) (p : ptr) : Prop :=
  exists s, m !! p = Some s /\ length (SendCh s) = workerSendBuf.
Definition prio_full (m : heap) (p : ptr) : Prop :=
  exists s, m !! p = Some s /\ length (PrioCh s) = prioBuf.

(** [m'] is [m] with [pkt] appended to one channel of [p]. *)
Definition sent_data (m m' : heap) (p : ptr) (pkt : packet) : Prop :=
  exists s, m !! p = Some s /\ SendClosed s = false /\ (length (SendCh s) < workerSendBuf)%nat /\
    m' = <[p := {| ID := ID s; SendCh := SendCh s ++ [pkt]; SendClosed := SendClosed s;
                   PrioCh := PrioCh s |}]> m.
Definition sent_prio (m m' : heap) (p : ptr) (pkt : packet) : Prop :=
  exists s, m !! p = Some s /\ (length (PrioCh s) < prioBuf)%nat /\
    m' = <[p := {| ID := ID s; SendCh := SendCh s; SendClosed := SendClosed s;
                   PrioCh := PrioCh s ++ [pkt] |}]> m.

(** What an offer does: it needs an existing open slot, and either sends or finds a full channel. *)
Record offers (offer : heap -> ptr -> packet -> result fault (option heap))
    (sent : heap -> heap -> ptr -> packet -> Prop) (full : heap -> ptr -> Prop) : Prop := {
  offer_cases : forall m p s pkt, slot_ok s -> m !! p = Some s -> SendClosed s = false ->
    (exists m', offer m p pkt = Ok (Some m') /\ sent m m' p pkt) \/
    (offer m p pkt = Ok None /\ full m p)
}.

Lemma offer_send_spec : offers offer_send sent_data send_full.
Proof.
  split. intros m p s pkt (Hs & _ & _) Hl Ho. unfold offer_send. rewrite Hl, Ho. split_guard.
  - left. eexists. split; [done |]. exists s. rewrite Ho. done.
  - right. split; [done |]. exists s. split; [done | lia].
Qed.

Lemma offer_prio_spec : offers offer_prio sent_prio prio_full.
Proof.
  split. intros m p s pkt (_ & Hs & _) Hl Ho. unfold offer_prio. rewrite Hl. split_guard.
  - left. eexists. split; [done |]. exists s. done.
  - right. split; [done |]. exists s. split; [done | lia].
Qed.

Lemma rem_bound a n : 0 <= a -> 0 < n -> 0 <= Z.rem a n < n.
Proof. intros. apply Z.rem_bound_pos; lia. Qed.

Lemma worker_lookup (ws : list ptr) a :
  0 <= a -> (0 < length ws)%nat ->
  exists p, ws !! Z.to_nat (Z.rem a (Z.of_nat (length ws))) = Some p /\ p ∈ ws.
Proof.
  intros Ha Hn. pose proof (rem_bound a (Z.of_nat (length ws)) Ha ltac:(lia)).
  destruct (lookup_lt_is_Some_2 ws (Z.to_nat (Z.rem a (Z.of_nat (length ws))))) as [p Hp]; [lia |].
  exists p. split; [done |]. by apply list_elem_of_lookup_2 in Hp.
Qed.

(** A round of offers never faults: it sends to one worker, or every worker asked was full. *)
Lemma offer_round_spec offer sent full m ws idx pkt js :
  offers offer sent full -> map_Forall (fun _ s => slot_ok s) m ->
  (forall p, p ∈ ws -> exists s, m !! p = Some s /\ SendClosed s = false) ->
  (0 < length ws)%nat -> 0 <= idx -> Forall (fun j => 0 <= j) js ->
  (exists alt m' p, offer_round offer m ws idx pkt js = Ok (Some (alt, m')) /\
     0 <= alt < Z.of_nat (length ws) /\ ws !! Z.to_nat alt = Some p /\ sent m m' p pkt) \/
  (offer_round offer m ws idx pkt js = Ok None /\
   forall j p, j ∈ js -> ws !! Z.to_nat (Z.rem (idx + j) (Z.of_nat (length ws))) = Some p -> full m p).
Proof.
  intros Ho Hm Hop Hn Hidx Hj. induction Hj as [| j js Hj _ IH]; simpl.
  { right. split; [done |]. intros j p Hin. by apply not_elem_of_nil in Hin. }
  destruct (worker_lookup ws (idx + j) ltac:(lia) Hn) as (p & Hp & Hin). rewrite Hp.
  destruct (Hop p Hin) as (s & Hs & Hopen).
  destruct (offer_cases _ _ _ Ho m p s pkt (Hm p s Hs) Hs Hopen) as [(m' & -> & Hsent) | [-> Hfull]].
  - left. eexists _, _, _. split; [done |]. by split; [apply rem_bound; lia |].
  - destruct IH as [IH | [-> IH]]; [by left | right]. split; [done |].
    intros j' p' [-> | Hj']%elem_of_cons Hp'; [by simplify_eq | by apply (IH j' p')].
Qed.

(** The indices [idx], [idx + 1], ... modulo the number of workers meet every worker. *)
Lemma turns_cover (ws : list ptr) idx p :
  0 <= idx -> p ∈ ws ->
  exists j, j ∈ turns ws /\ ws !! Z.to_nat (Z.rem (idx + j) (Z.of_nat (length ws))) = Some p.
Proof.
  intros Hidx [k Hk]%list_elem_of_lookup_1. pose proof (lookup_lt_Some _ _ _ Hk).
  set (n := Z.of_nat (length ws)). exists ((Z.of_nat k - idx) mod n).
  pose proof (Z.mod_pos_bound (Z.of_nat k - idx) n ltac:(lia)).
  split; [apply elem_of_seqZ; lia |].
  rewrite Z.rem_mod_nonneg, Zplus_mod_idemp_r by lia.
  replace (idx + (Z.of_nat k - idx)) with (Z.of_nat k) by lia.
  by rewrite Z.mod_small, Nat2Z.id by lia.
Qed.

(** ** What [dispatch] does *)

Section Facts.
Context {Addr : Type}.
Implicit Types d : Dispatcher Addr.

Definition all_workers (d : Dispatcher Addr) (P : heap -> ptr -> Prop) : Prop :=
  forall p, p ∈ workers d -> P (slots d) p.

(** Sending only touches the slots. *)
Lemma wf_send (d d' : Dispatcher Addr) p pkt :
  wf d -> workers d' = workers d -> ReturnCh d' = ReturnCh d ->
  (0 <= rrIndex (rr d') /\ (rrIndex (rr d') < Z.of_nat (length (workers d)) \/ rrIndex (rr d') = 0)) ->
  (slots d' = slots d \/ sent_data (slots d) (slots d') p pkt \/ sent_prio (slots d) (slots d') p pkt) ->
  wf d'.
Proof.
  intros [Hm Hop Hnd Hi Hr] Ew Er Hi' Hs.
  assert (map_Forall (fun _ s => slot_ok s) (slots d') /\
    forall q, q ∈ workers d -> exists s, slots d' !! q = Some s /\ SendClosed s = false) as [Hm' Hop'].
  { destruct Hs as [-> | [(s & Hl & Ho & Hlt & ->) | (s & Hl & Hlt & ->)]]; [done | |].
    all: destruct (Hm p s Hl) as (H1 & H2 & H3); split;
      [apply map_Forall_insert_2; [| done]; unfold slot_ok; simpl; rewrite ?length_app; simpl; repeat split;
         [lia | lia |]; intros; try congruence; auto |].
    all: intros q Hq; destruct (Hop q Hq) as (s' & Hl' & Ho'); destruct (decide (p = q)) as [<- |];
      [rewrite lookup_insert_eq; eexists; split; [done |]; simpl; congruence
      | rewrite lookup_insert_ne by done; eauto]. }
  split; rewrite ?Ew, ?Er; done.
Qed.

Lemma rem_index a n : 0 <= a -> 0 < n -> 0 <= Z.rem a n /\ (Z.rem a n < n \/ Z.rem a n = 0).
Proof. intros. pose proof (rem_bound a n ltac:(lia) ltac:(lia)). lia. Qed.

(** A change of the rotation alone. *)
Lemma wf_set_rr (d : Dispatcher Addr) r :
  wf d ->
  (0 <= rrIndex r /\ (rrIndex r < Z.of_nat (length (workers d)) \/ rrIndex r = 0)) ->
  wf (set_rr d r).
Proof. intros [] ?. by split. Qed.

Lemma wf_count_read d addr pkt : wf d -> wf (count_read d addr pkt).
Proof. by intros []. Qed.

Lemma count_sent_same d :
  workers (count_sent d) = workers d /\ ReturnCh (count_sent d) = ReturnCh d /\
  rr (count_sent d) = rr d /\ slots (count_sent d) = slots d.
Proof. unfold count_sent. by destruct (onTun d). Qed.

Lemma count_dropped_same d :
  workers (count_dropped d) = workers d /\ ReturnCh (count_dropped d) = ReturnCh d /\
  rr (count_dropped d) = rr d /\ slots (count_dropped d) = slots d.
Proof. unfold count_dropped. by destruct (onTun d). Qed.

Lemma wf_count_dropped d : wf d -> wf (count_dropped d).
Proof. unfold count_dropped. destruct (onTun d); [| done]. by intros []. Qed.

Lemma note_time_same d now :
  let d' := note_time d now in
  onTun d' = onTun d /\ workers d' = workers d /\ ReturnCh d' = ReturnCh d /\ slots d' = slots d /\
  cnt d' = cnt d /\ clientAddr d' = clientAddr d.
Proof. unfold note_time. cbv zeta. by split_guard. Qed.

Lemma check_dwell_same d now :
  let d' := check_dwell d now in
  onTun d' = onTun d /\ workers d' = workers d /\ ReturnCh d' = ReturnCh d /\ slots d' = slots d /\
  cnt d' = cnt d /\ clientAddr d' = clientAddr d.
Proof. unfold check_dwell. cbv zeta. by repeat split_guard. Qed.

Lemma wf_note_time d now : wf d -> workers d <> [] -> wf (note_time d now).
Proof.
  intros Hwf Hne. assert (0 < length (workers d))%nat by (destruct (workers d); [done | simpl; lia]).
  pose proof (wf_index _ Hwf). unfold note_time.
  split_guard; apply wf_set_rr; simpl; try done. apply rem_index; lia.
Qed.

Lemma wf_check_dwell d now : wf d -> workers d <> [] -> wf (check_dwell d now).
Proof.
  intros Hwf Hne. assert (0 < length (workers d))%nat by (destruct (workers d); [done | simpl; lia]).
  pose proof (wf_index _ Hwf). unfold check_dwell.
  repeat split_guard; try apply wf_set_rr; simpl; try done. apply rem_index; lia.
Qed.

(** The outcomes of one packet: sent to one channel of one worker, or dropped. *)
Inductive sent_or_dropped (d d' : Dispatcher Addr) (pkt : packet) : Prop :=
| sd_data p : p ∈ workers d -> sent_data (slots d) (slots d') p pkt ->
    cnt d' = cnt (count_sent d) -> sent_or_dropped d d' pkt
| sd_prio p : Z.of_nat (length pkt) <= prioThreshold -> p ∈ workers d ->
    sent_prio (slots d) (slots d') p pkt -> cnt d' = cnt (count_sent d) -> sent_or_dropped d d' pkt
| sd_drop : all_workers d send_full -> slots d' = slots d ->
    cnt d' = cnt (count_dropped d) -> sent_or_dropped d d' pkt.

(** What a send leaves behind: [d1] is [d] with another rotation. *)
Definition outcome (d d' : Dispatcher Addr) (pkt : packet) : Prop :=
  wf d' /\ workers d' = workers d /\ onTun d' = onTun d /\ ReturnCh d' = ReturnCh d /\
  clientAddr d' = clientAddr d /\ sent_or_dropped d d' pkt.

Lemma outcome_sent d d1 m r p pkt :
  wf d -> onTun d1 = onTun d -> workers d1 = workers d -> ReturnCh d1 = ReturnCh d ->
  cnt d1 = cnt d -> clientAddr d1 = clientAddr d ->
  p ∈ workers d ->
  (sent_data (slots d) m p pkt \/ Z.of_nat (length pkt) <= prioThreshold /\ sent_prio (slots d) m p pkt) ->
  0 <= rrIndex r /\ (rrIndex r < Z.of_nat (length (workers d)) \/ rrIndex r = 0) ->
  outcome d (count_sent (set_rr (set_slots d1 m) r)) pkt.
Proof.
  intros Hwf Et Ew Er Ec Ea Hp Hm Hr. set (x := set_rr (set_slots d1 m) r).
  destruct (count_sent_same x) as (E1 & E2 & E3 & E4).
  assert (onTun (count_sent x) = onTun d /\ clientAddr (count_sent x) = clientAddr d /\
          cnt (count_sent x) = cnt (count_sent d)) as (Ht & Hca & Hcn)
    by (unfold count_sent, x; simpl; rewrite Et; destruct (onTun d) eqn:Eo; simpl; rewrite ?Ec; auto).
  split; [apply (wf_send d _ p pkt Hwf); rewrite ?E1, ?E2, ?E3, ?E4; simpl; auto;
    by destruct Hm as [? | [_ ?]]; auto |].
  rewrite E1, E2. do 4 (split; [done |]).
  destruct Hm as [Hm | [Hsz Hm]]; [apply (sd_data _ _ _ p) | apply (sd_prio _ _ _ p)]; rewrite ?E4; done.
Qed.

Lemma outcome_dropped d d1 r pkt :
  wf d -> onTun d1 = onTun d -> workers d1 = workers d -> ReturnCh d1 = ReturnCh d -> slots d1 = slots d ->
  cnt d1 = cnt d -> clientAddr d1 = clientAddr d -> wf d1 -> all_workers d send_full ->
  0 <= rrIndex r /\ (rrIndex r < Z.of_nat (length (workers d)) \/ rrIndex r = 0) ->
  outcome d (count_dropped (set_rr d1 r)) pkt.
Proof.
  intros Hwf Et Ew Er Es Ec Ea Hwf1 Hfull Hr. set (x := set_rr d1 r).
  destruct (count_dropped_same x) as (E1 & E2 & E3 & E4).
  assert (onTun (count_dropped x) = onTun d /\ clientAddr (count_dropped x) = clientAddr d /\
          cnt (count_dropped x) = cnt (count_dropped d)) as (Ht & Hca & Hcn)
    by (unfold count_dropped, x; simpl; rewrite Et; destruct (onTun d) eqn:Eo; simpl; rewrite ?Ec; auto).
  split; [apply wf_count_dropped, wf_set_rr; [done |]; by rewrite Ew |].
  rewrite E1, E2. do 4 (split; [done |]). apply sd_drop; [done | by rewrite E4 | done].
Qed.

Lemma send_data_spec d pkt now :
  wf d -> workers d <> [] -> exists d', send_data d pkt now = Ok d' /\ outcome d d' pkt.
Proof.
  intros Hwf Hne. assert (0 < length (workers d))%nat as Hn by (destruct (workers d); [done | simpl; lia]).
  pose proof (wf_check_dwell d now Hwf Hne) as Hwf1.
  destruct (check_dwell_same d now) as (Et & Ew & Er & Es & Ec & Ea).
  unfold send_data. cbv zeta. set (d1 := check_dwell d now) in *. clearbody d1.
  pose proof (wf_index _ Hwf1) as [Hi0 Hi1]. rewrite Ew in Hi1.
  pose proof (rem_bound (rrIndex (rr d1)) (Z.of_nat (length (workers d))) Hi0 ltac:(lia)) as Hidx.
  destruct (worker_lookup (workers d) (rrIndex (rr d1)) Hi0 Hn) as (w & Hw & Hin).
  rewrite Ew, Hw. set (idx := Z.rem (rrIndex (rr d1)) _) in *.
  destruct (wf_open _ Hwf w Hin) as (s & Hs & Hopen).
  pose proof (wf_slots _ Hwf) as Hm. rewrite Es.
  destruct (offer_cases _ _ _ offer_send_spec (slots d) w s pkt (Hm w s Hs) Hs Hopen)
    as [(m' & -> & Hsent) | [-> Hfull]].
  { eexists. split; [done |]. apply (outcome_sent d d1 m' _ w); auto.
    split_guard; simpl; [apply rem_index; lia | lia]. }
  destruct (offer_round_spec _ _ _ (slots d) (workers d) idx pkt (seqZ 1 (Z.of_nat (length (workers d)) - 1))
    offer_send_spec Hm (wf_open _ Hwf) Hn ltac:(lia)) as [(alt & m' & p & -> & Halt & Hp & Hsent) | [-> Hall]].
  { apply Forall_forall. intros j Hj%elem_of_seqZ. lia. }
  { eexists. split; [done |]. apply (outcome_sent d d1 m' _ p); auto; [| simpl; lia].
    by apply list_elem_of_lookup_2 in Hp. }
  eexists. split; [done |]. apply outcome_dropped; auto; [| simpl; apply rem_index; lia].
  intros p Hp. destruct (turns_cover (workers d) idx p ltac:(lia) Hp) as (j & Hj & Hpj).
  apply elem_of_seqZ in Hj. destruct (decide (j = 0)) as [-> |].
  - rewrite Z.add_0_r, Z.rem_small in Hpj by lia. by simplify_eq.
  - apply (Hall j); [apply elem_of_seqZ; lia | done].
Qed.

(** The whole pass; a small packet only misses every [PrioCh] when all of them are full. *)
Lemma dispatch_spec d addr pkt now :
  wf d -> workers d <> [] ->
  exists d', dispatch d addr pkt now = Ok d' /\ outcome (count_read d addr pkt) d' pkt /\
    (Z.of_nat (length pkt) <= prioThreshold -> ~ all_workers d prio_full ->
     exists p, p ∈ workers d /\ sent_prio (slots d) (slots d') p pkt).
Proof.
  intros Hwf Hne. assert (0 < length (workers d))%nat as Hn by (destruct (workers d); [done | simpl; lia]).
  unfold dispatch. cbv zeta. change (workers (count_read d addr pkt)) with (workers d).
  rewrite (proj2 (Z.eqb_neq _ _)) by lia.
  pose proof (wf_count_read d addr pkt Hwf) as Hwf0. set (d0 := count_read d addr pkt) in *.
  change (slots d) with (slots d0). change (workers d) with (workers d0) in *.
  change (all_workers d prio_full) with (all_workers d0 prio_full). clearbody d0.
  pose proof (wf_note_time d0 now Hwf0 Hne) as Hwf1.
  destruct (note_time_same d0 now) as (Et & Ew & Er & Es & Ec & Ea). set (d1 := note_time d0 now) in *.
  assert (exists d', send_data d1 pkt now = Ok d' /\ outcome d0 d' pkt) as (dd & Hdd & Hdo).
  { destruct (send_data_spec d1 pkt now Hwf1 ltac:(by rewrite Ew)) as (d' & E & Hw & H1 & H2 & H3 & H4 & H5).
    exists d'. split; [done |]. split; [done |]. rewrite H1, H2, H3, H4. do 4 (split; [congruence |]).
    assert (cnt (count_sent d1) = cnt (count_sent d0) /\ cnt (count_dropped d1) = cnt (count_dropped d0)) as [C1 C2]
      by (unfold count_sent, count_dropped; rewrite Et; destruct (onTun d0); simpl; by rewrite ?Ec).
    unfold all_workers in *. inversion H5; rewrite ?Es, ?Ew, ?C1, ?C2 in *; [by eapply sd_data | by eapply sd_prio |].
    apply sd_drop; [| done..]. unfold all_workers in *. by rewrite Es, Ew in *. }
  clearbody d1. split_guard; [| exists dd; split; [done |]; split; [done |]; lia].
  pose proof (wf_index _ Hwf1) as [Hi0 Hi1]. rewrite Ew, Es in *.
  pose proof (rem_bound (rrIndex (rr d1)) (Z.of_nat (length (workers d0))) Hi0 ltac:(lia)) as Hidx.
  set (idx := Z.rem (rrIndex (rr d1)) _) in *.
  destruct (offer_round_spec _ _ _ (slots d0) (workers d0) idx pkt (turns (workers d0))
    offer_prio_spec (wf_slots _ Hwf0) (wf_open _ Hwf0) Hn ltac:(lia)) as [(alt & m' & p & -> & Halt & Hp & Hsent) | [-> Hall]].
  { apply Forall_forall. intros j Hj%elem_of_seqZ. lia. }
  - apply list_elem_of_lookup_2 in Hp. eexists. split; [done |]. split.
    + assert (set_slots d1 m' = set_rr (set_slots d1 m') (rr d1)) as -> by done.
      apply (outcome_sent d0 d1 m' _ p); auto.
    + intros _ _. exists p. by rewrite (proj2 (proj2 (proj2 (count_sent_same _)))).
  - exists dd. split; [done |]. split; [done |]. intros _ []. intros p Hp.
    destruct (turns_cover (workers d0) idx p ltac:(lia) Hp) as (j & Hj & Hpj). by apply (Hall j).
Qed.

End Facts.

(** ** The running system *)

Section System.
Context {Addr : Type}.

(** The dispatcher, and the slots [Unregister] has taken off the list but not closed yet. *)
Record system := { disp : Dispatcher Addr; leaving : gset ptr }.

Definition fresh_slot (id : Z) : WorkerSlot :=
  {| ID := id; SendCh := []; SendClosed := false; PrioCh := [] |}.

Definition set_slot (d : Dispatcher Addr) (p : ptr) (s : WorkerSlot) : Dispatcher Addr :=
  set_slots d (<[p := s]> (slots d)).

(** The steps of the goroutines: sessions come and go, [readLoop] and [writeLoop] turn, the
    sessions' writers take packets, their keepalive tickers and readers add some.  The result of a
    step is the next state or a Go fault. *)
Inductive step (s : system) : result fault system -> Prop :=
| step_register p id :
    slots (disp s) !! p = None ->
    step s (Ok {| disp := Register (set_slot (disp s) p (fresh_slot id)) p; leaving := leaving s |})
| step_unregister p :
    p ∈ workers (disp s) ->
    step s (Ok {| disp := unregister_locked (disp s) p; leaving := {[p]} ∪ leaving s |})
| step_close p :
    p ∈ leaving s ->
    step s ((fun d => {| disp := d; leaving := leaving s ∖ {[p]} |}) <$> close_send (disp s) p)
| step_read addr pkt now :
    step s ((fun d => {| disp := d; leaving := leaving s |}) <$> dispatch (disp s) addr pkt now)
| step_write d' out :
    write_step (disp s) = Some (d', out) -> step s (Ok {| disp := d'; leaving := leaving s |})
| step_return pkt :
    step s (Ok {| disp := return_packet (disp s) pkt; leaving := leaving s |})
| step_keepalive p m pkt :
    offer_prio (slots (disp s)) p pkt = Ok (Some m) ->
    step s (Ok {| disp := set_slots (disp s) m; leaving := leaving s |})
| step_take_prio p sl pkt rest :
    slots (disp s) !! p = Some sl -> PrioCh sl = pkt :: rest ->
    step s (Ok {| disp := set_slot (disp s) p {| ID := ID sl; SendCh := SendCh sl;
                    SendClosed := SendClosed sl; PrioCh := rest |}; leaving := leaving s |})
| step_take_send p sl pkt rest :
    slots (disp s) !! p = Some sl -> SendCh sl = pkt :: rest ->
    step s (Ok {| disp := set_slot (disp s) p {| ID := ID sl; SendCh := rest;
                    SendClosed := SendClosed sl; PrioCh := PrioCh sl |}; leaving := leaving s |}).

Inductive reachable (tun : bool) : system -> Prop :=
| reach_init : reachable tun {| disp := NewDispatcher tun ∅; leaving := ∅ |}
| reach_step s s' : reachable tun s -> step s (Ok s') -> reachable tun s'.

(** Every packet read from the TUN device has been counted as sent or as dropped. *)
Definition accounted (d : Dispatcher Addr) : Prop :=
  onTun d = true -> tunReadCount (cnt d) = u64 (tunSentCount (cnt d) + tunDroppedCount (cnt d)).

Record inv (tun : bool) (s : system) : Prop := {
  inv_wf : wf (disp s);
  inv_tun : onTun (disp s) = tun;
  inv_leaving : forall p, p ∈ leaving s -> (p ∉ workers (disp s)) /\
    exists sl, slots (disp s) !! p = Some sl /\ SendClosed sl = false;
  inv_accounted : accounted (disp s)
}.

Lemma elem_of_remove_worker p q ws :
  NoDup ws -> (q ∈ remove_worker p ws) <-> (q ∈ ws /\ q <> p).
Proof.
  induction 1 as [| w ws Hw _ IH]; simpl; [set_solver |].
  destruct (decide (w = p)) as [-> |]; [| set_solver].
  split; [intros Hq; split; [set_solver | congruence] | set_solver].
Qed.

Lemma nodup_remove_worker p ws : NoDup ws -> NoDup (remove_worker p ws).
Proof.
  intros Hws. assert (forall q, q ∈ remove_worker p ws -> q ∈ ws) as Hsub
    by (intros q; rewrite elem_of_remove_worker by done; tauto). revert Hsub.
  induction Hws as [| w ws Hw Hws IH]; simpl; intros Hsub; [constructor |].
  destruct (decide (w = p)); [done |]. apply NoDup_cons. rewrite elem_of_remove_worker by done.
  split; [tauto |]. apply IH. intros q. rewrite elem_of_remove_worker by done. tauto.
Qed.

Lemma length_remove_worker p ws : (length (remove_worker p ws) <= length ws)%nat.
Proof. induction ws; simpl; [lia |]. destruct (decide _); simpl; lia. Qed.

(** Changing one slot without closing it keeps everything. *)
Lemma inv_set_slot tun s p sl sl' :
  inv tun s -> slots (disp s) !! p = Some sl -> slot_ok sl' -> SendClosed sl' = SendClosed sl ->
  inv tun {| disp := set_slot (disp s) p sl'; leaving := leaving s |}.
Proof.
  intros [[Hm Hop Hnd Hi Hr] Ht Hl Ha] Hp Hok Hcl.
  assert (forall q sq, slots (disp s) !! q = Some sq -> SendClosed sq = false ->
    exists sq', <[p := sl']> (slots (disp s)) !! q = Some sq' /\ SendClosed sq' = false) as Hq.
  { intros q sq Hsq Ho. destruct (decide (p = q)) as [<- |].
    - rewrite lookup_insert_eq. eexists. split; [done |]. congruence.
    - rewrite lookup_insert_ne by done. eauto. }
  split; simpl; [split; simpl | done | |]; try done.
  - by apply map_Forall_insert_2.
  - intros q Hin. destruct (Hop q Hin) as (sq & ? & ?). eauto.
  - intros q Hin. destruct (Hl q Hin) as (? & sq & ? & ?). eauto.
Qed.

Lemma inv_register tun s p id :
  inv tun s -> slots (disp s) !! p = None ->
  inv tun {| disp := Register (set_slot (disp s) p (fresh_slot id)) p; leaving := leaving s |}.
Proof.
  intros [[Hm Hop Hnd Hi Hr] Ht Hl Ha] Hp.
  assert (p ∉ workers (disp s)) as Hnp by (intros Hin; destruct (Hop p Hin) as (? & ? & ?); congruence).
  split; simpl; [split; simpl | done | | done]; try done.
  - apply map_Forall_insert_2; [unfold slot_ok; simpl; lia | done].
  - intros q [Hq | ->%list_elem_of_singleton]%elem_of_app; [| by rewrite lookup_insert_eq; eauto].
    rewrite lookup_insert_ne by congruence. by apply Hop.
  - apply NoDup_app. split; [done |]. split; [set_solver | apply NoDup_singleton].
  - rewrite length_app. simpl. lia.
  - intros q Hin. destruct (Hl q Hin) as (Hq & sq & Hsq & Ho).
    assert (p <> q) by congruence. rewrite elem_of_app, list_elem_of_singleton, lookup_insert_ne by done.
    split; [naive_solver | eauto].
Qed.

Lemma inv_unregister tun s p :
  inv tun s -> p ∈ workers (disp s) ->
  inv tun {| disp := unregister_locked (disp s) p; leaving := {[p]} ∪ leaving s |}.
Proof.
  intros [[Hm Hop Hnd Hi Hr] Ht Hl Ha] Hp.
  split; simpl; [split; simpl | done | | done]; try done.
  - intros q [Hq _]%elem_of_remove_worker; [| done]. by apply Hop.
  - by apply nodup_remove_worker.
  - pose proof (length_remove_worker p (workers (disp s))).
    destruct (_ && _) eqn:Hg; propify; [apply rem_index; lia |].
    apply andb_false_iff in Hg as [Hg | Hg]; propify; [lia |].
    assert (length (workers (disp s)) = S (length (remove_worker p (workers (disp s))))); [| lia].
    clear -Hp. induction (workers (disp s)) as [| w ws IH]; simpl; [by apply not_elem_of_nil in Hp |].
    destruct (decide (w = p)); [done |]. simpl. f_equal. apply IH. set_solver.
  - intros q Hq. rewrite elem_of_remove_worker by done.
    destruct (decide (q = p)) as [-> |]; [split; [tauto | by apply Hop] |].
    destruct (Hl q ltac:(set_solver)) as [? ?]. tauto.
Qed.

Lemma inv_close tun s p :
  inv tun s -> p ∈ leaving s ->
  exists d, close_send (disp s) p = Ok d /\ inv tun {| disp := d; leaving := leaving s ∖ {[p]} |}.
Proof.
  intros [[Hm Hop Hnd Hi Hr] Ht Hl Ha] Hp. destruct (Hl p Hp) as (Hnp & sl & Hsl & Ho).
  unfold close_send. rewrite Hsl, Ho. eexists. split; [done |].
  split; simpl; [split; simpl | done | | done]; try done.
  - apply map_Forall_insert_2; [| done]. destruct (Hm p sl Hsl) as (? & ? & ?).
    split; simpl; [unfold workerSendBuf; lia | done].
  - intros q Hq. rewrite lookup_insert_ne by congruence. by apply Hop.
  - intros q Hq. rewrite lookup_insert_ne by set_solver. apply Hl. set_solver.
Qed.

Lemma accounted_step d d' addr pkt :
  accounted d -> outcome (count_read d addr pkt) d' pkt -> accounted d'.
Proof.
  intros Ha (_ & _ & Et & _ & _ & Hsd) Ht. rewrite Ht in Et. symmetry in Et. simpl in Et.
  specialize (Ha Et).
  assert (forall x y, u64 (u64 x + y) = u64 (x + y)) as Hu by (intros; apply Zplus_mod_idemp_l).
  assert (forall x y, u64 (y + u64 x) = u64 (y + x)) as Hu' by (intros; apply Zplus_mod_idemp_r).
  destruct Hsd as [p _ _ -> | p _ _ _ -> | _ _ ->]; unfold count_sent, count_dropped;
    cbn [onTun count_read]; rewrite Et; simpl; rewrite ?Et, Ha, ?Hu, ?Hu'; apply (f_equal u64); lia.
Qed.

Lemma inv_read tun s addr pkt now :
  inv tun s ->
  exists d, dispatch (disp s) addr pkt now = Ok d /\ inv tun {| disp := d; leaving := leaving s |}.
Proof.
  intros [Hwf Ht Hl Ha]. destruct (decide (workers (disp s) = [])) as [E | Hne].
  - exists (count_dropped (count_read (disp s) addr pkt)). unfold dispatch.
    change (workers (count_read (disp s) addr pkt)) with (workers (disp s)). rewrite E.
    split; [done |]. destruct (count_dropped_same (count_read (disp s) addr pkt)) as (E1 & _ & _ & E4).
    split; simpl; [by apply wf_count_dropped, wf_count_read | | | ].
    + unfold count_dropped. simpl. by destruct (onTun (disp s)) eqn:Eo; simpl; rewrite ?Eo.
    + intros p Hp. rewrite E1, E4. by apply Hl.
    + intros Et. unfold count_dropped in *. simpl in *. destruct (onTun (disp s)) eqn:Eo; simpl in *; [| congruence].
      rewrite (Ha Eo). unfold u64. rewrite Zplus_mod_idemp_l, Zplus_mod_idemp_r.
      apply (f_equal u64). lia.
  - destruct (dispatch_spec (disp s) addr pkt now Hwf Hne) as (d & E & Ho & _). exists d. split; [done |].
    pose proof (accounted_step _ _ _ _ Ha Ho) as Ha'.
    destruct Ho as (Hwf' & Ew & Et & _ & _ & Hsd). split; simpl; [done | by rewrite Et | | done].
    intros p Hp. rewrite Ew. destruct (Hl p Hp) as (Hnp & sl & Hsl & Hopen). split; [done |].
    simpl in Hsd. destruct Hsd as [q Hq (sq & ? & ? & ? & Em) | q _ Hq (sq & ? & ? & Em) | _ Em]; simpl in *;
      rewrite Em; try (rewrite lookup_insert_ne by congruence); eauto.
Qed.

(** Steps that only move packets of [ReturnCh] and count bytes. *)
Lemma inv_return_only tun s d' :
  inv tun s -> onTun d' = onTun (disp s) -> slots d' = slots (disp s) -> workers d' = workers (disp s) ->
  rr d' = rr (disp s) -> (length (ReturnCh d') <= returnChBuf)%nat ->
  tunReadCount (cnt d') = tunReadCount (cnt (disp s)) ->
  tunSentCount (cnt d') = tunSentCount (cnt (disp s)) ->
  tunDroppedCount (cnt d') = tunDroppedCount (cnt (disp s)) ->
  inv tun {| disp := d'; leaving := leaving s |}.
Proof.
  intros [[Hm Hop Hnd Hi Hr] Ht Hl Ha] E1 E2 E3 E4 E5 E6 E7 E8.
  split; simpl; [split; rewrite ?E2, ?E3, ?E4; done | congruence | by rewrite E2, E3 |].
  unfold accounted. by rewrite E1, E6, E7, E8.
Qed.

Lemma inv_write tun s d' out :
  inv tun s -> write_step (disp s) = Some (d', out) -> inv tun {| disp := d'; leaving := leaving s |}.
Proof.
  intros Hinv Hw. pose proof (wf_return _ (inv_wf _ _ Hinv)) as Hr. unfold write_step in Hw.
  destruct (ReturnCh (disp s)) as [| pkt rest]; [done |]. simpl in Hr.
  destruct (onTun (disp s)) eqn:Eo; [| destruct (clientAddr (disp s))];
    injection Hw as <- _; apply inv_return_only; simpl; done || lia.
Qed.

Lemma inv_return tun s pkt :
  inv tun s -> inv tun {| disp := return_packet (disp s) pkt; leaving := leaving s |}.
Proof.
  intros Hinv. pose proof (wf_return _ (inv_wf _ _ Hinv)) as Hr. unfold return_packet.
  split_guard; apply inv_return_only; simpl; try done. rewrite length_app. simpl. lia.
Qed.

Lemma inv_step tun s r : inv tun s -> step s r -> exists s', r = Ok s' /\ inv tun s'.
Proof.
  intros Hinv Hstep. destruct Hstep as [p id Hp | p Hp | p Hp | addr pkt now | d' out Hw | pkt | p m pkt Ho
    | p sl pkt rest Hsl Hq | p sl pkt rest Hsl Hq].
  - eexists. split; [done |]. by apply inv_register.
  - eexists. split; [done |]. by apply inv_unregister.
  - destruct (inv_close tun s p Hinv Hp) as (d & -> & ?). by eexists.
  - destruct (inv_read tun s addr pkt now Hinv) as (d & -> & ?). by eexists.
  - eexists. split; [done |]. by eapply inv_write.
  - eexists. split; [done |]. by apply inv_return.
  - eexists. split; [done |]. unfold offer_prio in Ho. destruct (slots (disp s) !! p) as [sl |] eqn:Hsl; [| done].
    revert Ho. split_guard; [| done]. intros [= <-]. apply (inv_set_slot _ _ _ sl); try done.
    destruct (wf_slots _ (inv_wf _ _ Hinv) p sl Hsl) as (? & ? & ?).
    unfold slot_ok. simpl. rewrite length_app. simpl. repeat split; [lia | lia | done].
  - eexists. split; [done |]. apply (inv_set_slot _ _ _ sl); try done.
    destruct (wf_slots _ (inv_wf _ _ Hinv) p sl Hsl) as (? & H2 & ?). rewrite Hq in H2.
    unfold slot_ok. simpl in *. repeat split; [lia | lia | done].
  - eexists. split; [done |]. apply (inv_set_slot _ _ _ sl); try done.
    destruct (wf_slots _ (inv_wf _ _ Hinv) p sl Hsl) as (H1 & ? & H3). rewrite Hq in H1, H3.
    unfold slot_ok. simpl in *. repeat split; [lia | lia |]. intros Hc. by specialize (H3 Hc).
Qed.

Lemma reachable_inv tun s : reachable tun s -> inv tun s.
Proof.
  induction 1 as [| s s' _ IH Hs].
  - split; simpl; [split; simpl; try done | done | done | done].
    + intros p Hp. by apply not_elem_of_nil in Hp.
    + constructor.
    + lia.
    + unfold returnChBuf. lia.
  - destruct (inv_step _ _ _ IH Hs) as (s'' & E & Hinv). by injection E as <-.
Qed.

End System.
Arguments system Addr : clear implicits.

(** ** Chunk affinity *)

(** A run of [dispatch] over packets with their arrival times. *)
Fixpoint dispatch_all {Addr} (d : Dispatcher Addr) (addr : Addr) (ps : list (packet * Z))
    : result fault (Dispatcher Addr) :=
  match ps with
  | [] => Ok d
  | (pkt, now) :: rest =>
      match dispatch d addr pkt now with
      | Ok d' => dispatch_all d' addr rest
      | Err e => Err e
      end
  end.

(** Packets of one size class that come close together: no gap above 10 ms, and none
    [maxDwellMS] or more after the start of the chunk. *)
Fixpoint burst (start last chunk : Z) (ps : list (packet * Z)) : Prop :=
  match ps with
  | [] => True
  | (pkt, now) :: rest =>
      prioThreshold < Z.of_nat (length pkt) /\ chunkSizeFor (Z.of_nat (length pkt)) = chunk /\
      0 < now /\ now - last <= 10 /\ now - start < maxDwellMS /\ burst start now chunk rest
  end.

Section Affinity.
Context {Addr : Type}.
Implicit Types d : Dispatcher Addr.

(** One packet of a burst: it goes to the current worker and the chunk advances. *)
Lemma dispatch_current d addr pkt now w s :
  wf d -> workers d !! Z.to_nat (rrIndex (rr d)) = Some w -> slots d !! w = Some s ->
  (length (SendCh s) < workerSendBuf)%nat ->
  prioThreshold < Z.of_nat (length pkt) -> chunkStartTs (rr d) <> 0 ->
  now - lastPktTime (rr d) <= 10 -> now - chunkStartTs (rr d) < maxDwellMS ->
  rrCount (rr d) + 1 < chunkSizeFor (Z.of_nat (length pkt)) ->
  exists d', dispatch d addr pkt now = Ok d' /\
    workers d' = workers d /\
    slots d' = <[w := {| ID := ID s; SendCh := SendCh s ++ [pkt]; SendClosed := SendClosed s;
                         PrioCh := PrioCh s |}]> (slots d) /\
    rr d' = {| rrIndex := rrIndex (rr d); rrCount := rrCount (rr d) + 1;
               lastPktTime := now; chunkStartTs := chunkStartTs (rr d) |}.
Proof.
  intros Hwf Hw Hs Hroom Hsz Hst Hgap Hdwell Hcnt. pose proof (lookup_lt_Some _ _ _ Hw) as Hlt.
  pose proof (wf_index _ Hwf) as [Hi _].
  destruct (wf_open _ Hwf w ltac:(by eapply list_elem_of_lookup_2)) as (s' & Hs' & Ho).
  rewrite Hs in Hs'. injection Hs' as <-.
  unfold dispatch. cbv zeta. change (workers (count_read d addr pkt)) with (workers d).
  rewrite (proj2 (Z.eqb_neq _ _)) by lia. rewrite (proj2 (Z.leb_gt _ _) Hsz).
  unfold note_time. cbn [rr count_read]. rewrite (proj2 (Z.ltb_ge 10 _)) by lia. rewrite andb_false_r.
  unfold send_data, check_dwell. cbn [rr set_rr chunkStartTs workers count_read rrIndex rrCount lastPktTime slots].
  rewrite (proj2 (Z.eqb_neq _ _)), (proj2 (Z.leb_gt _ _)) by (unfold maxDwellMS in *; lia).
  cbn [rr set_rr chunkStartTs workers count_read rrIndex rrCount lastPktTime slots].
  rewrite Z.rem_small, Hw by lia. unfold offer_send. rewrite Hs, Ho.
  rewrite (proj2 (Nat.ltb_lt _ _) Hroom), (proj2 (Z.leb_gt _ _)) by lia.
  eexists. split; [done |]. match goal with |- workers (count_sent ?x) = _ /\ _ =>
    destruct (count_sent_same x) as (-> & _ & -> & ->) end. done.
Qed.

End Affinity.

(** ** Properties *)

(** C6: in every reachable state of the running system (sessions registering and unregistering,
    [readLoop], [writeLoop], writers, tickers and readers interleaved in any order) the next step
    does not fault: nothing is sent on a closed channel, no channel is closed twice, no index is
    out of range.  Every reachable state keeps the channels within their capacities, the registered
    workers open and distinct, and the current index in range. *)
Theorem dispatcher_safe {Addr} tun (s : system Addr) r :
  reachable tun s -> step s r -> exists s', r = Ok s' /\ wf (disp s').
Proof.
  intros Hr Hs. destruct (inv_step tun s r (reachable_inv _ _ Hr) Hs) as (s' & -> & [Hwf _ _ _]). by exists s'.
Qed.

(** C7: the counters account for every packet: in every reachable state of a TUN dispatcher
    the number of packets read is the number sent to workers plus the number dropped (all modulo
    2^64, their width). *)
Theorem tun_packets_accounted {Addr} (s : system Addr) :
  reachable true s ->
  tunReadCount (cnt (disp s)) = u64 (tunSentCount (cnt (disp s)) + tunDroppedCount (cnt (disp s))).
Proof. intros Hr. destruct (reachable_inv _ _ Hr) as [_ Ht _ Ha]. by apply Ha. Qed.

(** A packet read from the device is appended to exactly one channel of one registered worker
    and everything else stays as it was, or it is dropped.  It is dropped only when the data channel
    of every worker is full, and a packet of at most 128 bytes enters a priority channel whenever
    some worker's priority channel has room. *)
Theorem dispatch_one_channel {Addr} (d : Dispatcher Addr) addr pkt now :
  wf d -> workers d <> [] ->
  exists d', dispatch d addr pkt now = Ok d' /\ workers d' = workers d /\
    ((exists p, p ∈ workers d /\
       (sent_data (slots d) (slots d') p pkt \/
        (Z.of_nat (length pkt) <= prioThreshold /\ sent_prio (slots d) (slots d') p pkt))) \/
     (slots d' = slots d /\ all_workers d send_full)) /\
    (Z.of_nat (length pkt) <= prioThreshold -> ~ all_workers d prio_full ->
     exists p, p ∈ workers d /\ sent_prio (slots d) (slots d') p pkt).
Proof.
  intros Hwf Hne. destruct (dispatch_spec d addr pkt now Hwf Hne) as (d' & E & Ho & Hp).
  exists d'. split; [done |]. destruct Ho as (_ & Ew & _ & _ & _ & Hsd). split; [done |].
  split; [| done]. destruct Hsd as [p ? ? _ | p ? ? ? _ | ? ? _]; [left | left | right]; eauto.
Qed.

(** Within a chunk the packets keep their order: a burst of packets of one size class, shorter
    than what is left of the chunk and not slowed down beyond 10 ms between packets or [maxDwellMS]
    since the chunk began, goes through one worker's channel, in order. *)
Theorem chunk_affinity {Addr} (d : Dispatcher Addr) addr ps w s chunk :
  wf d -> workers d !! Z.to_nat (rrIndex (rr d)) = Some w -> slots d !! w = Some s ->
  (length (SendCh s) + length ps <= workerSendBuf)%nat -> chunkStartTs (rr d) <> 0 ->
  burst (chunkStartTs (rr d)) (lastPktTime (rr d)) chunk ps ->
  rrCount (rr d) + Z.of_nat (length ps) < chunk ->
  exists d', dispatch_all d addr ps = Ok d' /\
    slots d' = <[w := {| ID := ID s; SendCh := SendCh s ++ (fst <$> ps); SendClosed := SendClosed s;
                         PrioCh := PrioCh s |}]> (slots d) /\
    rrIndex (rr d') = rrIndex (rr d) /\ rrCount (rr d') = rrCount (rr d) + Z.of_nat (length ps).
Proof.
  revert d s. induction ps as [| [pkt now] ps IH]; intros d s Hwf Hw Hs Hroom Hne Hb Hcnt; simpl.
  { exists d. split; [done |]. rewrite app_nil_r, Z.add_0_r. split; [| done].
    symmetry. apply insert_id. rewrite Hs. by destruct s. }
  destruct Hb as (Hsz & Hch & Hnow & Hgap & Hdw & Hb). simpl in Hroom, Hcnt.
  destruct (dispatch_current d addr pkt now w s) as (d1 & E & Ew & Es & Er); try done; try lia.
  assert (wf d1) as Hwf1.
  { destruct (dispatch_spec d addr pkt now Hwf) as (d2 & E2 & (Hwf2 & _) & _); [by intros H0; rewrite H0 in Hw |].
    congruence. }
  rewrite E. destruct (IH d1 {| ID := ID s; SendCh := SendCh s ++ [pkt]; SendClosed := SendClosed s;
    PrioCh := PrioCh s |}) as (d' & E' & Es' & Ei & Ec); rewrite ?Ew, ?Er; try done.
  - rewrite Es. apply lookup_insert_eq.
  - simpl. rewrite length_app. simpl. lia.
  - simpl. lia.
  - exists d'. split; [done |]. rewrite Es', Es, insert_insert_eq. simpl. rewrite <- app_assoc, Ei, Ec, Er. simpl.
    repeat split; lia.
Qed.

(** ** Concrete dispatchers *)

Definition slot0 (id : Z) : WorkerSlot := {| ID := id; SendCh := []; SendClosed := false; PrioCh := [] |}.

Definition disp0 : Dispatcher unit :=
  {| onTun := true; clientAddr := None; slots := {[1%positive := slot0 0; 2%positive := slot0 1]};
     workers := [1%positive; 2%positive];
     rr := {| rrIndex := 1; rrCount := 3; lastPktTime := 1000; chunkStartTs := 995 |};
     ReturnCh := [];
     cnt := {| tunReadCount := 0; tunSentCount := 0; tunDroppedCount := 0;
               TotalBytesUp := 0; TotalBytesDown := 0 |} |}.

Lemma wf_disp0 : wf disp0.
Proof.
  split; simpl.
  - repeat (apply map_Forall_insert_2; [unfold slot_ok; simpl; unfold workerSendBuf, prioBuf; lia |]).
    apply map_Forall_empty.
  - intros p [-> | [-> | []%not_elem_of_nil]%elem_of_cons]%elem_of_cons; eexists; (split; [reflexivity | done]).
  - by repeat constructor; rewrite ?elem_of_cons; intros ?; destruct_or?; try done; apply not_elem_of_nil in H.
  - lia.
  - unfold returnChBuf. lia.
Qed.

Definition sys0 : system unit :=
  {| disp := Register (set_slot (NewDispatcher true ∅) 1%positive (fresh_slot 7)) 1%positive; leaving := ∅ |}.

Lemma sys0_reachable : reachable true sys0.
Proof.
  apply (reach_step true {| disp := NewDispatcher true ∅; leaving := ∅ |} sys0); [constructor |].
  by apply step_register.
Qed.

Lemma dispatcher_safe_witness :
  exists s', (fun d => {| disp := d; leaving := leaving sys0 |}) <$> dispatch (disp sys0) tt [1; 2; 3] 50 = Ok s'
    /\ wf (disp s').
Proof.
  apply (dispatcher_safe true sys0); [apply sys0_reachable | apply step_read].
Defined.

Lemma tun_packets_accounted_witness :
  tunReadCount (cnt (disp sys0)) = u64 (tunSentCount (cnt (disp sys0)) + tunDroppedCount (cnt (disp sys0))).
Proof. apply tun_packets_accounted, sys0_reachable. Defined.

Lemma dispatch_one_channel_witness :
  exists d', dispatch disp0 tt (replicate 40 1) 1003 = Ok d' /\ workers d' = [1%positive; 2%positive].
Proof.
  destruct (dispatch_one_channel disp0 tt (replicate 40 1) 1003 wf_disp0) as (d' & E & Ew & _); [discriminate |].
  exists d'. split; [exact E | exact Ew].
Defined.

Definition burst0 : list (packet * Z) := [(replicate 800 1, 1004); (replicate 750 2, 1008)].

Lemma chunk_affinity_witness :
  exists d', dispatch_all disp0 tt burst0 = Ok d' /\ rrIndex (rr d') = 1 /\ rrCount (rr d') = 5.
Proof.
  destruct (chunk_affinity disp0 tt burst0 2%positive (slot0 1) 24 wf_disp0) as (d' & E & _ & Ei & Ec).
  - reflexivity.
  - reflexivity.
  - vm_compute. lia.
  - discriminate.
  - vm_compute. repeat split; discriminate.
  - reflexivity.
  - exists d'. split; [exact E | split; [exact Ei | exact Ec]].
Defined.
