(* ===== verification/Slider.v ===== *)
(** * The slider captcha solver (internal/core/captcha_v2_slider.go).

    A puzzle is an image cut into a grid of tiles that were swapped; the candidates are prefixes of
    a list of swaps.  Each candidate is scored by the seams between neighbouring tiles and the
    candidates are ranked.  [float64] arithmetic is an interface ([FloatOps]): the text score uses
    [math.Exp], whose rounding Go leaves open; the ranking relies on its order only. *)

From S2P Require Import Prelude Sorting.
From Stdlib Require Import ZArith Lia String.
From stdpp Require Import base gmap list sorting.
Open Scope Z_scope.

(** ** Parsing the payload *)

Inductive slider_error :=
| ErrStepsTooShort
| ErrSliderSize (size : Z)
| ErrSwapPayload
| ErrNoCandidates
| ErrTileCount (n : Z)
| ErrSwapsLength (n : nat)
| ErrStepRange (lft rgt : Z).

(** [splitSliderStepsV2]: the grid size, the swaps and the number of attempts. *)
Definition splitSliderStepsV2 (steps : list Z) : result slider_error (Z * list Z * Z) :=
  match steps with
  | size :: tail =>
      if (length steps <? 3)%nat then Err ErrStepsTooShort
      else if size <=? 0 then Err (ErrSliderSize size)
      else
        let '(tail, attempts) :=
          if Nat.odd (length tail)
          then (take (length tail - 1) tail, nth (length tail - 1) tail 0)
          else (tail, 4) in
        let attempts := if attempts <=? 0 then 4 else attempts in
        if (length tail =? 0)%nat || Nat.odd (length tail) then Err ErrSwapPayload
        else Ok (size, tail, attempts)
  | [] => Err ErrStepsTooShort
  end.

(** [activeSwapsForIndexV2]. *)
Definition activeSwapsForIndexV2 (swaps : list Z) (index : Z) : list Z :=
  if index <=? 0 then []
  else
    let end_ := index * 2 in
    let end_ := if Z.of_nat (length swaps) <? end_ then Z.of_nat (length swaps) else end_ in
    take (Z.to_nat end_) swaps.

(** [mapping[left], mapping[right] = mapping[right], mapping[left]]. *)
Definition swap_at (l r : nat) (mapping : list Z) : list Z :=
  let a := nth l mapping 0 in let b := nth r mapping 0 in
  <[r := a]> (<[l := b]> mapping).

Fixpoint apply_pairs (tileCount : Z) (mapping swaps : list Z) : result slider_error (list Z) :=
  match swaps with
  | lft :: rgt :: rest =>
      if (lft <? 0) || (rgt <? 0) || (tileCount <=? lft) || (tileCount <=? rgt)
      then Err (ErrStepRange lft rgt)
      else apply_pairs tileCount (swap_at (Z.to_nat lft) (Z.to_nat rgt) mapping) rest
  | _ => Ok mapping
  end.

(** An [int] after an operation on others: 64 bits, in two's complement. *)
Definition int64 (z : Z) : Z := (z + 2 ^ 63) mod 2 ^ 64 - 2 ^ 63.

Lemma int64_small z : - 2 ^ 63 <= z < 2 ^ 63 -> int64 z = z.
Proof. intros Hz. unfold int64. rewrite Z.mod_small; lia. Qed.

(** [applySliderSwapsV2]. *)
Definition applySliderSwapsV2 (gridSize : Z) (swaps : list Z) : result slider_error (list Z) :=
  let tileCount := int64 (gridSize * gridSize) in
  if tileCount <=? 0 then Err (ErrTileCount tileCount)
  else if Nat.odd (length swaps) then Err (ErrSwapsLength (length swaps))
  else apply_pairs tileCount (seqZ 0 tileCount) swaps.

(** ** Images *)

(** [image.Rectangle] and [image.Rect], which orders its corners. *)
Record Rectangle := { MinX : Z; MinY : Z; MaxX : Z; MaxY : Z }.
Definition Dx (r : Rectangle) : Z := MaxX r - MinX r.
Definition Dy (r : Rectangle) : Z := MaxY r - MinY r.
Definition Rect (x0 y0 x1 y1 : Z) : Rectangle :=
  {| MinX := Z.min x0 x1; MinY := Z.min y0 y1; MaxX := Z.max x0 x1; MaxY := Z.max y0 y1 |}.

(** [color.Color.RGBA]: 16-bit channels in 32-bit words. *)
Record Color := { cR : Z; cG : Z; cB : Z }.

(** [image.Image]. *)
Record Image := { Bounds : Rectangle; At : Z -> Z -> Color }.

Definition color_ok (c : Color) : Prop :=
  0 <= cR c < 2 ^ 16 /\ 0 <= cG c < 2 ^ 16 /\ 0 <= cB c < 2 ^ 16.
Definition image_ok (img : Image) : Prop := forall x y, color_ok (At img x y).

(** [sliderTileRect]. *)
Definition sliderTileRect (bounds : Rectangle) (gridSize index : Z) : Rectangle :=
  let col := Z.rem index gridSize in
  let row := Z.quot index gridSize in
  Rect (MinX bounds + Z.quot (col * Dx bounds) gridSize)
       (MinY bounds + Z.quot (row * Dy bounds) gridSize)
       (MinX bounds + Z.quot ((col + 1) * Dx bounds) gridSize)
       (MinY bounds + Z.quot ((row + 1) * Dy bounds) gridSize).

(** [absIntV2]. *)
Definition absIntV2 (v : Z) : Z := if v <? 0 then - v else v.

(** The high byte of a channel, [c >> 8]. *)
Definition hi8 (c : Z) : Z := Z.shiftr c 8.

(** [pixelDiff]. *)
Definition pixelDiff (a b : Color) : Z :=
  let dr := hi8 (cR a) - hi8 (cR b) in
  let dg := hi8 (cG a) - hi8 (cG b) in
  let db := hi8 (cB a) - hi8 (cB b) in
  let dr := if dr <? 0 then - dr else dr in
  let dg := if dg <? 0 then - dg else dg in
  let db := if db <? 0 then - db else db in
  dr + dg + db.

(** The point of [srcRect] that [sampleColorMappedV2] reads for a point of [dstRect]. *)
Definition sample_point (dstRect srcRect : Rectangle) (dstX dstY : Z) : Z * Z :=
  let dx := if Dx dstRect <? 1 then 1 else Dx dstRect in
  let dy := if Dy dstRect <? 1 then 1 else Dy dstRect in
  (MinX srcRect + Z.quot ((dstX - MinX dstRect) * Dx srcRect) dx,
   MinY srcRect + Z.quot ((dstY - MinY dstRect) * Dy srcRect) dy).

(** [sampleColorMappedV2]. *)
Definition sampleColorMappedV2 (img : Image) (dstRect srcRect : Rectangle) (dstX dstY : Z) : Color :=
  let '(sx, sy) := sample_point dstRect srcRect dstX dstY in At img sx sy.

(** [sampleLumaMappedV2]. *)
Definition sampleLumaMappedV2 (img : Image) (dstRect srcRect : Rectangle) (dstX dstY : Z) : Z :=
  let c := sampleColorMappedV2 img dstRect srcRect dstX dstY in
  u8 (Z.quot (u32 (299 * hi8 (cR c) + 587 * hi8 (cG c) + 114 * hi8 (cB c))) 1000).

(** ** Seam scores *)

(** [for i := 0; i < n; i++ { s = body(i, s) }]. *)
Definition for_range {S} (n : Z) (body : Z -> S -> S) (s : S) : S :=
  foldl (fun s i => body i s) s (seqZ 0 n).

Definition tile_at (mapping : list Z) (i : Z) : Z := nth (Z.to_nat i) mapping 0.

(** The pixels of the vertical seams: [body] gets the two rectangles on each side and the row. *)
Definition vertical_seams {S} (img : Image) (gridSize : Z) (mapping : list Z)
    (body : Rectangle -> Rectangle -> Rectangle -> Rectangle -> Z -> S -> S) (s : S) : S :=
  let tile := sliderTileRect (Bounds img) gridSize in
  for_range gridSize (fun row =>
    for_range (gridSize - 1) (fun col s =>
      let leftIdx := row * gridSize + col in
      let rightIdx := leftIdx + 1 in
      let leftDst := tile leftIdx in
      let rightDst := tile rightIdx in
      let leftSrc := tile (tile_at mapping leftIdx) in
      let rightSrc := tile (tile_at mapping rightIdx) in
      let h := if Dy rightDst <? Dy leftDst then Dy rightDst else Dy leftDst in
      for_range h (fun y s => body leftDst leftSrc rightDst rightSrc (MinY leftDst + y) s) s)) s.

(** The pixels of the horizontal seams. *)
Definition horizontal_seams {S} (img : Image) (gridSize : Z) (mapping : list Z)
    (body : Rectangle -> Rectangle -> Rectangle -> Rectangle -> Z -> S -> S) (s : S) : S :=
  let tile := sliderTileRect (Bounds img) gridSize in
  for_range (gridSize - 1) (fun row =>
    for_range gridSize (fun col s =>
      let topIdx := row * gridSize + col in
      let bottomIdx := (row + 1) * gridSize + col in
      let topDst := tile topIdx in
      let bottomDst := tile bottomIdx in
      let topSrc := tile (tile_at mapping topIdx) in
      let bottomSrc := tile (tile_at mapping bottomIdx) in
      let w := if Dx bottomDst <? Dx topDst then Dx bottomDst else Dx topDst in
      for_range w (fun x s => body topDst topSrc bottomDst bottomSrc (MinX topDst + x) s) s)) s.

(** [seamScoreLumaV2]. *)
Definition seamScoreLumaV2 (img : Image) (gridSize : Z) (mapping : list Z) : Z :=
  let score := vertical_seams img gridSize mapping (fun leftDst leftSrc rightDst rightSrc yy score =>
    let a := sampleLumaMappedV2 img leftDst leftSrc (MaxX leftDst - 1) yy in
    let b := sampleLumaMappedV2 img rightDst rightSrc (MinX rightDst) yy in
    score + absIntV2 (a - b)) 0 in
  horizontal_seams img gridSize mapping (fun topDst topSrc bottomDst bottomSrc xx score =>
    let a := sampleLumaMappedV2 img topDst topSrc xx (MaxY topDst - 1) in
    let b := sampleLumaMappedV2 img bottomDst bottomSrc xx (MinY bottomDst) in
    score + absIntV2 (a - b)) score.

(** The operations of [float64] the text score uses; [fdec n k] is the literal [n / 10^k]. *)
Class FloatOps (F : Type) := {
  fdec : Z -> Z -> F;
  fofint : Z -> F;
  fadd : F -> F -> F;
  fsub : F -> F -> F;
  fmul : F -> F -> F;
  fdiv : F -> F -> F;
  fneg : F -> F;
  fexp : F -> F;
  fltb : F -> F -> bool;
  feqb : F -> F -> bool
}.

Section Scores.
Context {F : Type} `{FloatOps F}.

(** [absFloatV2]. *)
Definition absFloatV2 (v : F) : F := if fltb v (fofint 0) then fneg v else v.

(** The weight of a row: rows near the three text lines count more. *)
Definition text_weight (bounds : Rectangle) (y : Z) : F :=
  let height := fofint (Dy bounds) in
  let c0 := fadd (fofint (MinY bounds)) (fmul (fdec 2 1) height) in
  let c1 := fadd (fofint (MinY bounds)) (fmul (fdec 5 1) height) in
  let c2 := fadd (fofint (MinY bounds)) (fmul (fdec 8 1) height) in
  let sigma := fmul height (fdec 14 2) in
  let sigma := if fltb sigma (fofint 1) then fofint 1 else sigma in
  let yf := fofint y in
  let best := absFloatV2 (fsub yf c0) in
  let best := let d := absFloatV2 (fsub yf c1) in if fltb d best then d else best in
  let best := let d := absFloatV2 (fsub yf c2) in if fltb d best then d else best in
  fadd (fofint 1) (fmul (fofint 3)
    (fexp (fdiv (fneg (fmul best best)) (fmul (fmul (fofint 2) sigma) sigma)))).

(** [seamScoreRGBTextV2]. *)
Definition seamScoreRGBTextV2 (img : Image) (gridSize : Z) (mapping : list Z) : Z * F :=
  let weight := text_weight (Bounds img) in
  let s := vertical_seams img gridSize mapping (fun leftDst leftSrc rightDst rightSrc yy '(rgb, text) =>
    let l := sampleColorMappedV2 img leftDst leftSrc (MaxX leftDst - 1) yy in
    let r := sampleColorMappedV2 img rightDst rightSrc (MinX rightDst) yy in
    (rgb + pixelDiff l r,
     fadd text (fmul (weight yy) (fofint (absIntV2 (hi8 (cB l) - hi8 (cB r))))))) (0, fofint 0) in
  horizontal_seams img gridSize mapping (fun topDst topSrc bottomDst bottomSrc xx '(rgb, text) =>
    let t := sampleColorMappedV2 img topDst topSrc xx (MaxY topDst - 1) in
    let b := sampleColorMappedV2 img bottomDst bottomSrc xx (MinY bottomDst) in
    (rgb + pixelDiff t b,
     fadd text (fmul (fdec 65 2) (fofint (absIntV2 (hi8 (cB t) - hi8 (cB b))))))) s.

(** ** Ranking *)

Record sliderGuessV2 := {
  Index : Z;
  Swaps : list Z;
  Score : Z;
  ScoreRGB : Z;
  ScoreLuma : Z;
  ScoreText : F;
  ConsensusRank : Z
}.

Definition set_scores (g : sliderGuessV2) (rgb : Z) (text : F) : sliderGuessV2 :=
  {| Index := Index g; Swaps := Swaps g; Score := Score g; ScoreRGB := rgb; ScoreLuma := ScoreLuma g;
     ScoreText := text; ConsensusRank := ConsensusRank g |}.

Definition set_rank (g : sliderGuessV2) (rank : Z) : sliderGuessV2 :=
  {| Index := Index g; Swaps := Swaps g; Score := rank; ScoreRGB := ScoreRGB g; ScoreLuma := ScoreLuma g;
     ScoreText := ScoreText g; ConsensusRank := rank |}.

(** The comparison functions of the four sorts. *)
Definition luma_less (a b : sliderGuessV2) : bool :=
  if ScoreLuma a =? ScoreLuma b then Index a <? Index b else ScoreLuma a <? ScoreLuma b.
Definition rgb_less (a b : sliderGuessV2) : bool :=
  if ScoreRGB a =? ScoreRGB b then Index a <? Index b else ScoreRGB a <? ScoreRGB b.
Definition text_less (a b : sliderGuessV2) : bool :=
  if feqb (ScoreText a) (ScoreText b) then Index a <? Index b else fltb (ScoreText a) (ScoreText b).
Definition consensus_less (a b : sliderGuessV2) : bool :=
  if ConsensusRank a =? ConsensusRank b
  then if ScoreLuma a =? ScoreLuma b then Index a <? Index b else ScoreLuma a <? ScoreLuma b
  else ConsensusRank a <? ConsensusRank b.

(** [lumaRank], [rgbRank], [textRank]: index to position in the sorted slice. *)
Fixpoint ranks_from (rank : Z) (order : list sliderGuessV2) (m : gmap Z Z) : gmap Z Z :=
  match order with
  | [] => m
  | g :: rest => ranks_from (rank + 1) rest (<[Index g := rank]> m)
  end.

Definition ranks (order : list sliderGuessV2) : gmap Z Z := ranks_from 0 order ∅.

Definition rank_in (m : gmap Z Z) (i : Z) : Z := default 0 (m !! i).

(** The first loop: every candidate with its luma score. *)
Fixpoint score_luma (img : Image) (gridSize : Z) (swaps : list Z) (idxs : list Z)
    : result slider_error (list sliderGuessV2) :=
  match idxs with
  | [] => Ok []
  | idx :: rest =>
      let active := activeSwapsForIndexV2 swaps idx in
      match applySliderSwapsV2 gridSize active with
      | Err e => Err e
      | Ok mapping =>
          match score_luma img gridSize swaps rest with
          | Err e => Err e
          | Ok guesses =>
              Ok ({| Index := idx; Swaps := active; Score := 0; ScoreRGB := 0;
                     ScoreLuma := seamScoreLumaV2 img gridSize mapping;
                     ScoreText := fofint 0; ConsensusRank := 0 |} :: guesses)
          end
      end
  end.

(** The results of the worker goroutines, in the order in which they reach [resCh]. *)
Fixpoint collect (img : Image) (gridSize : Z) (guesses0 : list sliderGuessV2) (arrived : list Z)
    (guesses : list sliderGuessV2) : result slider_error (list sliderGuessV2) :=
  match arrived with
  | [] => Ok guesses
  | index :: rest =>
      match guesses0 !! Z.to_nat (index - 1) with
      | None => collect img gridSize guesses0 rest guesses
      | Some g =>
          match applySliderSwapsV2 gridSize (Swaps g) with
          | Err e => Err e
          | Ok mapping =>
              let '(rgb, text) := seamScoreRGBTextV2 img gridSize mapping in
              collect img gridSize guesses0 rest
                (alter (fun g => set_scores g rgb text) (Z.to_nat (index - 1)) guesses)
          end
      end
  end.

(** [rankSliderGuessesV2].  [arrival] is the order the goroutines deliver the jobs in: the map
    iteration, the scheduling and the channel leave it open. *)
Definition rankSliderGuessesV2 (img : Image) (gridSize : Z) (swaps : list Z)
    (arrival : list Z -> list Z) : result slider_error (list sliderGuessV2) :=
  let candidateCount := Z.quot (Z.of_nat (length swaps)) 2 in
  if candidateCount =? 0 then Err ErrNoCandidates
  else
    match score_luma img gridSize swaps (seqZ 1 candidateCount) with
    | Err e => Err e
    | Ok guesses =>
        let lumaOrder := sort_stable luma_less guesses in
        let lumaRank := ranks lumaOrder in
        let stage2Count := if 12 <? candidateCount then 12 else candidateCount in
        let stage2Set : gset Z := list_to_set (Index <$> take (Z.to_nat stage2Count) lumaOrder) in
        match collect img gridSize guesses (arrival (elements stage2Set)) guesses with
        | Err e => Err e
        | Ok guesses =>
            let stage2 := filter (fun g => Index g ∈ stage2Set) guesses in
            let rgbRank := ranks (sort_stable rgb_less stage2) in
            let textRank := ranks (sort_stable text_less stage2) in
            let ranked := (fun g =>
              set_rank g (rank_in lumaRank (Index g) +
                if decide (Index g ∈ stage2Set)
                then rank_in rgbRank (Index g) + rank_in textRank (Index g)
                else candidateCount)) <$> guesses in
            Ok (sort_stable consensus_less ranked)
        end
    end.

End Scores.
Arguments sliderGuessV2 F : clear implicits.

(** ** Trying the guesses *)

(** [solveSliderCaptcha], the loop after the ranking: the answers of the server to the successive
    checks are [checks]. *)
Inductive check_outcome (Err0 : Type) :=
| CheckFailed (e : Err0)              (* performCaptchaCheck returned an error *)
| CheckOk (token : string)            (* status "ok" with its success token *)
| CheckLimit                          (* status "error_limit" *)
| CheckOther.
Arguments CheckFailed {Err0}.
Arguments CheckOk {Err0}.
Arguments CheckLimit {Err0}.
Arguments CheckOther {Err0}.

Definition captchaV2MaxSliderChecks : Z := 2.

Inductive solve_error (Err0 : Type) :=
| SolveNoAttempts | SolveCheck (e : Err0) | SolveNoToken | SolveRateLimit | SolveExhausted.
Arguments SolveNoAttempts {Err0}.
Arguments SolveCheck {Err0}.
Arguments SolveNoToken {Err0}.
Arguments SolveRateLimit {Err0}.
Arguments SolveExhausted {Err0}.

Definition slider_limit (attempts : Z) (guesses : nat) : Z :=
  let limit := attempts in
  let limit := if captchaV2MaxSliderChecks <? limit then captchaV2MaxSliderChecks else limit in
  if Z.of_nat guesses <? limit then Z.of_nat guesses else limit.

(** The number of checks made and the result; [check i] is the answer for the [i]-th guess. *)
Fixpoint try_guesses {Err0} (n : nat) (i : nat) (check : nat -> check_outcome Err0)
    : nat * result (solve_error Err0) string :=
  match n with
  | O => (i, Err SolveExhausted)
  | S n' =>
      match check i with
      | CheckFailed e => (S i, Err (SolveCheck e))
      | CheckOk token => (S i, if String.eqb token "" then Err SolveNoToken else Ok token)
      | CheckLimit => (S i, Err SolveRateLimit)
      | CheckOther => try_guesses n' (S i) check
      end
  end.

Definition solve_slider {Err0} (attempts : Z) (guesses : nat) (check : nat -> check_outcome Err0)
    : nat * result (solve_error Err0) string :=
  let limit := slider_limit attempts guesses in
  if limit <=? 0 then (0%nat, Err SolveNoAttempts)
  else try_guesses (Z.to_nat limit) 0 check.

(** ** Swaps *)

Lemma length_swap_at l r m : length (swap_at l r m) = length m.
Proof. unfold swap_at. by rewrite !length_insert. Qed.

Lemma swap_at_perm l r m : (l < length m)%nat -> (r < length m)%nat -> swap_at l r m ≡ₚ m.
Proof.
  intros Hl Hr. destruct (lookup_lt_is_Some_2 m l Hl) as [a Ha].
  destruct (lookup_lt_is_Some_2 m r Hr) as [b Hb]. unfold swap_at.
  rewrite (nth_lookup_Some _ _ _ _ Ha), (nth_lookup_Some _ _ _ _ Hb).
  destruct (decide (l = r)) as [<- | Hne].
  { rewrite list_insert_insert_eq, list_insert_id; [done | congruence]. }
  apply Permutation_inj. split; [by rewrite !length_insert |].
  exists (fun i => if decide (i = l) then r else if decide (i = r) then l else i). split.
  - intros i j. repeat case_decide; congruence.
  - intros i. repeat case_decide; subst.
    + rewrite list_lookup_insert_ne, list_lookup_insert_eq; congruence.
    + rewrite list_lookup_insert_eq; [congruence | by rewrite length_insert].
    + by rewrite !list_lookup_insert_ne.
Qed.

(** Swapping twice changes nothing. *)
Lemma swap_at_involutive l r m :
  (l < length m)%nat -> (r < length m)%nat -> swap_at l r (swap_at l r m) = m.
Proof.
  intros Hl Hr. destruct (lookup_lt_is_Some_2 m l Hl) as [a Ha].
  destruct (lookup_lt_is_Some_2 m r Hr) as [b Hb]. unfold swap_at at 2.
  rewrite (nth_lookup_Some _ _ _ _ Ha), (nth_lookup_Some _ _ _ _ Hb).
  destruct (decide (l = r)) as [<- | Hne].
  { assert (a = b) as <- by congruence. rewrite list_insert_insert_eq, list_insert_id by done.
    unfold swap_at. rewrite (nth_lookup_Some _ _ _ _ Ha), list_insert_insert_eq, list_insert_id by done. done. }
  unfold swap_at.
  rewrite (nth_lookup_Some (<[r:=a]> (<[l:=b]> m)) l 0 b)
    by (rewrite list_lookup_insert_ne, list_lookup_insert_eq by congruence; done).
  rewrite (nth_lookup_Some (<[r:=a]> (<[l:=b]> m)) r 0 a)
    by (apply list_lookup_insert_eq; by rewrite length_insert).
  apply list_eq. intros i. destruct (decide (i = r)) as [-> |].
  - rewrite list_lookup_insert_eq; [done | by rewrite !length_insert].
  - rewrite list_lookup_insert_ne by done. destruct (decide (i = l)) as [-> |].
    + rewrite list_lookup_insert_eq; [done | by rewrite !length_insert].
    + by rewrite !list_lookup_insert_ne by done.
Qed.

Definition in_tiles (n : Z) (i : Z) : bool := (0 <=? i) && (i <? n).

Lemma range_guard n l r :
  (l <? 0) || (r <? 0) || (n <=? l) || (n <=? r) = negb (in_tiles n l && in_tiles n r).
Proof.
  unfold in_tiles. rewrite (Z.ltb_antisym 0 l), (Z.ltb_antisym 0 r), (Z.leb_antisym l n), (Z.leb_antisym r n).
  by destruct (0 <=? l), (l <? n), (0 <=? r), (r <? n).
Qed.

Lemma swap_at_sym i j m : swap_at i j m = swap_at j i m.
Proof. unfold swap_at. destruct (decide (i = j)) as [-> |]; [done |]. by rewrite list_insert_insert_ne. Qed.

(** Lists of pairs, for induction. *)
Inductive pairs : list Z -> Prop :=
| pairs_nil : pairs []
| pairs_cons x y l : pairs l -> pairs (x :: y :: l).

Lemma even_pairs l : Nat.Even (length l) <-> pairs l.
Proof.
  split.
  - remember (length l) as k eqn:Hk. revert l Hk.
    induction (lt_wf k) as [k _ IH]; intros [| x [| y l]] -> [j Hj]; simpl in Hj; [constructor | lia |].
    constructor. apply (IH (length l)); [simpl; lia | done | exists (j - 1)%nat; lia].
  - induction 1 as [| x y l _ [j Hj]]; [by exists 0%nat | exists (S j); simpl; lia].
Qed.

Lemma apply_pairs_app n a b m m' :
  Nat.Even (length a) -> apply_pairs n m a = Ok m' -> apply_pairs n m (a ++ b) = apply_pairs n m' b.
Proof.
  intros Ha%even_pairs. revert m. induction Ha as [| x y a _ IH]; intros m; simpl.
  - by intros [= ->].
  - destruct (_ || _); [done |]. apply IH.
Qed.

Lemma apply_pairs_spec n m swaps :
  Z.of_nat (length m) = n -> Nat.Even (length swaps) ->
  match apply_pairs n m swaps with
  | Ok m' => forallb (in_tiles n) swaps = true /\ m' ≡ₚ m /\
      apply_pairs n m' (reverse swaps) = Ok m
  | Err _ => forallb (in_tiles n) swaps = false
  end.
Proof.
  intros Hn Hev%even_pairs. revert m Hn. induction Hev as [| l r swaps Hev'%even_pairs IH];
    intros m Hn; simpl; [done |].
  rewrite range_guard. destruct (in_tiles n l && in_tiles n r) eqn:Hin; simpl.
  2: by rewrite andb_assoc, Hin.
  rewrite andb_assoc, Hin.
  assert (0 <= l < n /\ 0 <= r < n) as [Hl Hr] by (unfold in_tiles in Hin; propify; lia).
  specialize (IH (swap_at (Z.to_nat l) (Z.to_nat r) m) ltac:(by rewrite length_swap_at)).
  destruct (apply_pairs n _ swaps) as [m' | e]; [| done].
  destruct IH as (Hall & Hp & Hrev). split; [done |]. split.
  - rewrite Hp. apply swap_at_perm; lia.
  - rewrite !reverse_cons, <- app_assoc. simpl.
    rewrite (apply_pairs_app _ _ _ _ _ ltac:(by rewrite length_reverse) Hrev). simpl.
    rewrite range_guard, andb_comm, Hin. simpl. f_equal.
    rewrite swap_at_sym. apply swap_at_involutive; lia.
Qed.

(** ** Tiles *)

(** The [k]-th of [g] cuts of a side of [n] pixels. *)
Definition cut (n g k : Z) : Z := k * n / g.

Lemma cut_le n g k x : 0 < g -> cut n g k <= x <-> k * n < (x + 1) * g.
Proof.
  intros Hg. unfold cut. split; intros Hx.
  - pose proof (Z.mul_succ_div_gt (k * n) g Hg). nia.
  - apply Z.lt_succ_r. apply Z.div_lt_upper_bound; lia.
Qed.

Lemma cut_mono n g k k' : 0 < g -> 0 <= n -> k <= k' -> cut n g k <= cut n g k'.
Proof. intros Hg Hn Hk. unfold cut. apply Z.div_le_mono; [lia | nia]. Qed.

Lemma cut_bounds n g k : 0 < g -> 0 <= n -> 0 <= k <= g -> 0 <= cut n g k <= n.
Proof.
  intros Hg Hn Hk. unfold cut. split; [apply Z.div_pos; nia | apply Z.div_le_upper_bound; nia].
Qed.

(** Every pixel lies between exactly one pair of cuts. *)
Lemma cut_unique n g x :
  0 < g -> 0 <= x < n -> exists! k, 0 <= k < g /\ cut n g k <= x < cut n g (k + 1).
Proof.
  intros Hg Hx. exists (((x + 1) * g - 1) / n).
  pose proof (Z.mul_div_le ((x + 1) * g - 1) n ltac:(lia)).
  pose proof (Z.mul_succ_div_gt ((x + 1) * g - 1) n ltac:(lia)).
  set (k := ((x + 1) * g - 1) / n) in *. split.
  - split; [split; [apply Z.div_pos; nia | nia] |]. split; [apply cut_le; lia |].
    apply Z.nle_gt. rewrite cut_le by done. lia.
  - intros k' (Hk' & H1 & H2). rewrite cut_le in H1 by done. apply Z.nle_gt in H2.
    rewrite cut_le in H2 by done. nia.
Qed.

Definition in_rect (r : Rectangle) (x y : Z) : Prop :=
  MinX r <= x < MaxX r /\ MinY r <= y < MaxY r.

Definition bounds_ok (b : Rectangle) : Prop := 0 <= Dx b /\ 0 <= Dy b.

Lemma tile_rect b g i :
  bounds_ok b -> 0 < g -> 0 <= i < g * g ->
  sliderTileRect b g i =
  {| MinX := MinX b + cut (Dx b) g (i mod g); MinY := MinY b + cut (Dy b) g (i / g);
     MaxX := MinX b + cut (Dx b) g (i mod g + 1); MaxY := MinY b + cut (Dy b) g (i / g + 1) |}.
Proof.
  intros [Hx Hy] Hg Hi. unfold sliderTileRect.
  pose proof (Z.mod_pos_bound i g Hg). pose proof (Z.div_pos i g ltac:(lia) Hg).
  rewrite Z.rem_mod_nonneg, (Z.quot_div_nonneg i) by lia.
  rewrite !Z.quot_div_nonneg by nia. unfold Rect. fold (cut (Dx b) g (i mod g)).
  fold (cut (Dx b) g (i mod g + 1)). fold (cut (Dy b) g (i / g)). fold (cut (Dy b) g (i / g + 1)).
  pose proof (cut_mono (Dx b) g (i mod g) (i mod g + 1) Hg Hx ltac:(lia)).
  pose proof (cut_mono (Dy b) g (i / g) (i / g + 1) Hg Hy ltac:(lia)).
  f_equal; lia.
Qed.

(** The tiles lie inside the image and have non-negative sides. *)
Lemma tile_inside b g i :
  bounds_ok b -> 0 < g -> 0 <= i < g * g ->
  let r := sliderTileRect b g i in
  MinX b <= MinX r <= MaxX r /\ MaxX r <= MaxX b /\ MinY b <= MinY r <= MaxY r /\ MaxY r <= MaxY b.
Proof.
  intros Hb Hg Hi. rewrite tile_rect by done. destruct Hb as [Hx Hy]. simpl.
  pose proof (Z.mod_pos_bound i g Hg). pose proof (Z.div_pos i g ltac:(lia) Hg).
  pose proof (Z.div_lt_upper_bound i g g Hg ltac:(lia)).
  pose proof (cut_bounds (Dx b) g (i mod g) Hg Hx ltac:(lia)).
  pose proof (cut_bounds (Dx b) g (i mod g + 1) Hg Hx ltac:(lia)).
  pose proof (cut_bounds (Dy b) g (i / g) Hg Hy ltac:(lia)).
  pose proof (cut_bounds (Dy b) g (i / g + 1) Hg Hy ltac:(lia)).
  pose proof (cut_mono (Dx b) g (i mod g) (i mod g + 1) Hg Hx ltac:(lia)).
  pose proof (cut_mono (Dy b) g (i / g) (i / g + 1) Hg Hy ltac:(lia)).
  unfold Dx, Dy in *. lia.
Qed.

(** ** Scores *)

Lemma hi8_bound c : 0 <= c < 2 ^ 16 -> 0 <= hi8 c <= 255.
Proof. intros Hc. unfold hi8. rewrite Z.shiftr_div_pow2 by lia. Z.div_mod_to_equations. lia. Qed.

(** The luma is the weighted mean of the high bytes: neither the 32-bit product nor the conversion
    to a byte wraps. *)
Lemma luma_exact img d s x y :
  image_ok img ->
  let c := sampleColorMappedV2 img d s x y in
  sampleLumaMappedV2 img d s x y = (299 * hi8 (cR c) + 587 * hi8 (cG c) + 114 * hi8 (cB c)) / 1000 /\
  0 <= sampleLumaMappedV2 img d s x y <= 255.
Proof.
  intros Hok. cbv zeta. unfold sampleLumaMappedV2.
  assert (color_ok (sampleColorMappedV2 img d s x y)) as (Hr & Hg & Hb)
    by (unfold sampleColorMappedV2; destruct (sample_point d s x y); apply Hok).
  apply hi8_bound in Hr, Hg, Hb. rewrite u32_small by lia. rewrite Z.quot_div_nonneg by lia.
  rewrite u8_small; Z.div_mod_to_equations; lia.
Qed.

Lemma for_range_bound n (body : Z -> Z -> Z) s c :
  0 <= c -> (forall i s, 0 <= i < n -> s <= body i s <= s + c) ->
  s <= for_range n body s <= s + Z.max 0 n * c.
Proof.
  intros Hc Hb. unfold for_range.
  assert (forall (l : list Z) s, (forall i, i ∈ l -> 0 <= i < n) ->
    s <= foldl (fun s i => body i s) s l <= s + Z.of_nat (length l) * c) as Hl.
  { clear s. intros l. induction l as [| i l IH]; intros s Hin; [simpl; lia |]. cbn [foldl length].
    pose proof (Hb i s ltac:(apply Hin; set_solver)).
    pose proof (IH (body i s) ltac:(intros; apply Hin; set_solver)). lia. }
  pose proof (Hl (seqZ 0 n) s ltac:(intros i Hi%elem_of_seqZ; lia)) as Hs.
  rewrite length_seqZ in Hs. replace (Z.max 0 n) with (Z.of_nat (Z.to_nat n)) by lia. done.
Qed.

(** ** The ranking, sequentially *)

(** float64 values other than NaN are linearly ordered. *)
Class FloatOrder (F : Type) `{FloatOps F} := {
  fkey : F -> Z;
  feqb_key : forall a b, feqb a b = (fkey a =? fkey b);
  fltb_key : forall a b, fltb a b = (fkey a <? fkey b)
}.

Section Rank.
Context {F : Type} `{FO : FloatOrder F}.
Abbreviation guess := (sliderGuessV2 F).

(** The three comparison functions of two keys. *)
Lemma key_order (key : guess -> Z) (G : Z -> guess) :
  strict_total (fun a b => if key a =? key b then Index a <? Index b else key a <? key b)
    (fun g => g = G (Index g)).
Proof.
  split.
  - intros x _. rewrite Z.eqb_refl. apply Z.ltb_irrefl.
  - intros x y z _ _ _. repeat split_guard; intros; propify; (apply Z.ltb_lt || idtac); lia.
  - intros x y Hx Hy. rewrite (Z.eqb_sym (key y)). split_guard; intros; propify; [| lia].
    rewrite Hx, Hy. f_equal. lia.
Qed.

Lemma luma_order G : strict_total luma_less (fun g : guess => g = G (Index g)).
Proof. apply (key_order ScoreLuma). Qed.

Lemma rgb_order G : strict_total rgb_less (fun g : guess => g = G (Index g)).
Proof. apply (key_order ScoreRGB). Qed.

Lemma text_order G : strict_total text_less (fun g : guess => g = G (Index g)).
Proof.
  destruct (key_order (fun g => fkey (ScoreText g)) G) as [H1 H2 H3].
  split; unfold text_less; setoid_rewrite feqb_key; setoid_rewrite fltb_key; done.
Qed.

Lemma consensus_order G : strict_total consensus_less (fun g : guess => g = G (Index g)).
Proof.
  unfold consensus_less. split.
  - intros x _. rewrite !Z.eqb_refl. apply Z.ltb_irrefl.
  - intros x y z _ _ _. repeat split_guard; intros; propify; (apply Z.ltb_lt || idtac); lia.
  - intros x y Hx Hy. rewrite (Z.eqb_sym (ConsensusRank y)), (Z.eqb_sym (ScoreLuma y)).
    repeat split_guard; intros; propify; try lia. rewrite Hx, Hy. f_equal. lia.
Qed.

(** *** Positions in a sorted slice *)

Lemma ranks_from_other (l : list guess) k m i :
  i ∉ (Index <$> l) -> ranks_from k l m !! i = m !! i.
Proof.
  revert k m. induction l as [| y l IH]; intros k m Hi; simpl; [done |].
  rewrite fmap_cons, not_elem_of_cons in Hi. rewrite IH by tauto.
  apply lookup_insert_ne. intros E. destruct Hi as [[] _]. done.
Qed.

Lemma ranks_from_lookup (l : list guess) k m i g :
  NoDup (Index <$> l) -> l !! i = Some g -> ranks_from k l m !! Index g = Some (k + Z.of_nat i).
Proof.
  revert k m i. induction l as [| x l IH]; intros k m i Hnd Hi; simpl; [done |].
  rewrite fmap_cons in Hnd. apply NoDup_cons in Hnd as [Hx Hnd].
  destruct i as [| i]; simpl in Hi; [| rewrite (IH _ _ _ Hnd Hi); f_equal; lia].
  injection Hi as ->. rewrite ranks_from_other, lookup_insert_eq by done. f_equal. lia.
Qed.

Lemma ranks_lookup (order : list guess) i g :
  NoDup (Index <$> order) -> order !! i = Some g -> rank_in (ranks order) (Index g) = Z.of_nat i.
Proof. intros Hnd Hi. unfold rank_in, ranks. by rewrite (ranks_from_lookup _ 0 ∅ i g Hnd Hi). Qed.

(** *** The candidates *)

Context (img : Image) (gridSize : Z) (swaps : list Z).

Definition n_candidates : Z := Z.of_nat (length swaps) / 2.

Definition mapping_of (idx : Z) : list Z :=
  match applySliderSwapsV2 gridSize (activeSwapsForIndexV2 swaps idx) with Ok m => m | Err _ => [] end.

Definition base_guess (idx : Z) : guess :=
  {| Index := idx; Swaps := activeSwapsForIndexV2 swaps idx; Score := 0; ScoreRGB := 0;
     ScoreLuma := seamScoreLumaV2 img gridSize (mapping_of idx); ScoreText := fofint 0;
     ConsensusRank := 0 |}.

(** The at most 12 candidates with the best luma scores get the other two scores. *)
Definition finalists : gset Z :=
  list_to_set (Index <$> take (Z.to_nat (Z.min 12 n_candidates))
    (sort_stable luma_less (base_guess <$> seqZ 1 n_candidates))).

Definition scored (S : gset Z) (idx : Z) : guess :=
  if decide (idx ∈ S)
  then let '(rgb, text) := seamScoreRGBTextV2 img gridSize (mapping_of idx) in
       set_scores (base_guess idx) rgb text
  else base_guess idx.

Definition luma_pos (idx : Z) : Z :=
  rank_in (ranks (sort_stable luma_less (base_guess <$> seqZ 1 n_candidates))) idx.
Definition finalist_guesses : list guess :=
  filter (fun g => Index g ∈ finalists) (scored finalists <$> seqZ 1 n_candidates).
Definition rgb_pos (idx : Z) : Z := rank_in (ranks (sort_stable rgb_less finalist_guesses)) idx.
Definition text_pos (idx : Z) : Z := rank_in (ranks (sort_stable text_less finalist_guesses)) idx.

(** The consensus: the sum of the three positions; the number of candidates stands for the last two
    of a candidate that is not a finalist. *)
Definition consensus (idx : Z) : Z :=
  luma_pos idx + if decide (idx ∈ finalists) then rgb_pos idx + text_pos idx else n_candidates.

Definition final_guess (idx : Z) : guess := set_rank (scored finalists idx) (consensus idx).

Definition ranking : list guess := sort_stable consensus_less (final_guess <$> seqZ 1 n_candidates).

Definition candidate_ok (idx : Z) : bool :=
  is_ok (applySliderSwapsV2 gridSize (activeSwapsForIndexV2 swaps idx)).

Lemma score_luma_spec idxs :
  if forallb candidate_ok idxs then score_luma img gridSize swaps idxs = Ok (base_guess <$> idxs)
  else exists idx e, idx ∈ idxs /\
    applySliderSwapsV2 gridSize (activeSwapsForIndexV2 swaps idx) = Err e /\
    score_luma (F := F) img gridSize swaps idxs = Err e.
Proof.
  induction idxs as [| idx idxs IH]; simpl; [done |]. unfold candidate_ok at 1, base_guess at 1, mapping_of.
  destruct (applySliderSwapsV2 gridSize (activeSwapsForIndexV2 swaps idx)) as [m | e] eqn:Hm; simpl.
  - destruct (forallb candidate_ok idxs).
    + by rewrite IH.
    + destruct IH as (j & e & Hj & He & ->). exists j, e. split; [set_solver | done].
  - exists idx, e. split; [set_solver | done].
Qed.

Lemma Index_scored S idx : Index (scored S idx) = idx.
Proof. unfold scored. case_decide; [| done]. by destruct (seamScoreRGBTextV2 _ _ _). Qed.

(** The results may arrive in any order, even more than once. *)
Lemma collect_spec n arrived S :
  (forall idx, 1 <= idx <= n -> candidate_ok idx = true) ->
  (forall idx, idx ∈ arrived -> 1 <= idx <= n) ->
  collect img gridSize (base_guess <$> seqZ 1 n) arrived (scored S <$> seqZ 1 n) =
  Ok (scored (S ∪ list_to_set arrived) <$> seqZ 1 n).
Proof.
  intros Hok. revert S. induction arrived as [| idx arrived IH]; intros S Hin; simpl.
  { by rewrite union_empty_r_L. }
  assert (1 <= idx <= n) as Hidx by (apply Hin; set_solver).
  assert (seqZ 1 n !! Z.to_nat (idx - 1) = Some idx) as Hl by (apply lookup_seqZ; lia).
  rewrite list_lookup_fmap, Hl. simpl.
  specialize (Hok idx Hidx). unfold candidate_ok in Hok.
  destruct (applySliderSwapsV2 gridSize (activeSwapsForIndexV2 swaps idx)) as [m | e] eqn:Hm; [| done].
  destruct (seamScoreRGBTextV2 img gridSize m) as [rgb text] eqn:Hsc.
  replace (alter _ (Z.to_nat (idx - 1)) (scored S <$> seqZ 1 n)) with (scored (S ∪ {[idx]}) <$> seqZ 1 n).
  { rewrite IH by (intros; apply Hin; set_solver). do 2 f_equal. f_equal. set_solver. }
  apply list_eq. intros i. destruct (decide (i = Z.to_nat (idx - 1))) as [-> | Hne].
  - rewrite list_lookup_alter_eq, !list_lookup_fmap, Hl. simpl. f_equal.
    unfold scored, mapping_of. rewrite Hm, Hsc. rewrite decide_True by set_solver.
    by case_decide.
  - rewrite list_lookup_alter_ne, !list_lookup_fmap by done.
    destruct (seqZ 1 n !! i) as [j |] eqn:Hj; [| done]. simpl. f_equal.
    apply lookup_seqZ in Hj as [-> Hi]. unfold scored.
    assert (1 + Z.of_nat i <> idx) by lia.
    destruct (decide (1 + Z.of_nat i ∈ S)).
    + rewrite decide_True by set_solver. done.
    + rewrite decide_False by set_solver. done.
Qed.

Lemma n_candidates_quot : Z.quot (Z.of_nat (length swaps)) 2 = n_candidates.
Proof. unfold n_candidates. apply Z.quot_div_nonneg; lia. Qed.

Lemma finalists_range idx : idx ∈ finalists -> 1 <= idx <= n_candidates.
Proof.
  unfold finalists. rewrite elem_of_list_to_set, list_elem_of_fmap. intros (g & -> & Hg%elem_of_take).
  destruct Hg as (i & Hg & _). apply list_elem_of_lookup_2 in Hg. rewrite sort_stable_perm in Hg.
  apply list_elem_of_fmap in Hg as (j & -> & Hj%elem_of_seqZ). simpl. lia.
Qed.

Lemma Forall_canonical (f : Z -> guess) l :
  (forall i, Index (f i) = i) -> Forall (fun g => g = f (Index g)) (f <$> l).
Proof. intros Hf. apply Forall_fmap, Forall_forall. intros i _. simpl. by rewrite Hf. Qed.

(** The code computes the sequential ranking, whatever the order of the goroutines' results. *)
Lemma rank_spec arrival :
  n_candidates <> 0 -> (forall idx, 1 <= idx <= n_candidates -> candidate_ok idx = true) ->
  (forall l, arrival l ≡ₚ l) ->
  rankSliderGuessesV2 img gridSize swaps arrival = Ok ranking.
Proof.
  intros Hn Hok Harr. unfold rankSliderGuessesV2. rewrite n_candidates_quot.
  rewrite (proj2 (Z.eqb_neq _ _)) by done.
  pose proof (score_luma_spec (seqZ 1 n_candidates)) as Hs.
  replace (forallb candidate_ok (seqZ 1 n_candidates)) with true in Hs.
  2: { symmetry. apply forallb_forall. intros idx Hidx%list_elem_of_In%elem_of_seqZ. apply Hok. lia. }
  rewrite Hs. cbv zeta.
  replace (if 12 <? n_candidates then 12 else n_candidates) with (Z.min 12 n_candidates)
    by (destruct (Z.ltb_spec 12 n_candidates); lia).
  fold finalists.
  replace (base_guess <$> seqZ 1 n_candidates) with (scored ∅ <$> seqZ 1 n_candidates) at 2.
  2: { apply list_fmap_ext. intros i x _. unfold scored. by rewrite decide_False by set_solver. }
  rewrite (collect_spec n_candidates (arrival (elements finalists)) ∅ Hok).
  2: { intros idx Hidx. rewrite Harr in Hidx. apply elem_of_elements in Hidx. by apply finalists_range. }
  replace (∅ ∪ list_to_set (arrival (elements finalists))) with finalists
    by (apply set_eq; intros x; rewrite elem_of_union, elem_of_list_to_set, Harr, elem_of_elements; set_solver).
  fold finalist_guesses. f_equal. unfold ranking. f_equal. rewrite <- list_fmap_compose.
  apply list_fmap_ext. intros i x _. unfold final_guess, consensus. simpl.
  rewrite Index_scored. by case_decide.
Qed.
Lemma Index_final idx : Index (final_guess idx) = idx.
Proof. apply Index_scored. Qed.

Lemma ranking_perm : ranking ≡ₚ final_guess <$> seqZ 1 n_candidates.
Proof. apply sort_stable_perm. Qed.

Lemma fmap_index (f : Z -> guess) (l : list Z) : (forall i, Index (f i) = i) -> Index <$> (f <$> l) = l.
Proof.
  intros Hf. rewrite <- list_fmap_compose. rewrite <- (list_fmap_id l) at 2.
  apply list_fmap_ext. intros i x _. apply Hf.
Qed.

(** A candidate below all others in one of the orders has position 0 there, and only it has. *)
Lemma head_rank (less : guess -> guess -> bool) (f : Z -> guess) (l : list Z) idx :
  strict_total less (fun g => g = f (Index g)) -> (forall i, Index (f i) = i) -> NoDup l -> idx ∈ l ->
  (forall j, j ∈ l -> j <> idx -> less (f idx) (f j) = true) ->
  let order := sort_stable less (f <$> l) in
  order !! 0%nat = Some (f idx) /\ rank_in (ranks order) idx = 0 /\
  forall j, j ∈ l -> j <> idx -> 1 <= rank_in (ranks order) j.
Proof.
  intros Ho Hf Hnd Hin Hmin order.
  assert (order !! 0%nat = Some (f idx)) as H0.
  { rewrite <- head_lookup. apply (sort_stable_head _ _ Ho).
    - by apply Forall_canonical.
    - by apply list_elem_of_fmap_2.
    - intros y Hy Hne. apply list_elem_of_fmap in Hy as (j & -> & Hj). apply Hmin; [done | congruence]. }
  assert (NoDup (Index <$> order)) as Hndo.
  { unfold order. rewrite sort_stable_perm, fmap_index by done. done. }
  split; [done |]. split.
  - pose proof (ranks_lookup _ 0 _ Hndo H0) as E. by rewrite Hf in E.
  - intros j Hj Hne. assert (f j ∈ order) as [k Hk]%list_elem_of_lookup_1
      by (unfold order; rewrite sort_stable_perm; by apply list_elem_of_fmap_2).
    rewrite <- (Hf j). rewrite (ranks_lookup _ k _ Hndo Hk).
    destruct k; [| lia]. exfalso. apply Hne. rewrite H0 in Hk. injection Hk as Hk.
    by rewrite <- (Hf j), <- (Hf idx), Hk.
Qed.

Lemma ranks_nonneg (order : list guess) idx : NoDup (Index <$> order) -> 0 <= rank_in (ranks order) idx.
Proof.
  intros Hnd. destruct (decide (idx ∈ (Index <$> order))) as [Hin | Hni].
  - apply list_elem_of_fmap in Hin as (g & -> & [k Hk]%list_elem_of_lookup_1).
    rewrite (ranks_lookup _ k _ Hnd Hk). lia.
  - unfold rank_in, ranks. rewrite ranks_from_other by done. by rewrite lookup_empty.
Qed.

Lemma finalist_guesses_eq :
  finalist_guesses = scored finalists <$> filter (fun i => i ∈ finalists) (seqZ 1 n_candidates).
Proof.
  unfold finalist_guesses. generalize finalists as S. intros S.
  induction (seqZ 1 n_candidates) as [| i l IH]; [done |].
  rewrite fmap_cons, !filter_cons, Index_scored. case_decide; [| done]. by rewrite fmap_cons, IH.
Qed.
End Rank.

(** ** Properties *)

(** [applySliderSwapsV2] succeeds exactly for a positive grid, an even number of swap positions
    and positions inside the grid; its result is a permutation of the tiles, and applying the swaps
    backwards to it restores the identity. *)
Theorem swaps_permute g swaps :
  match applySliderSwapsV2 g swaps with
  | Ok mapping =>
      0 < int64 (g * g) /\ Nat.Even (length swaps) /\ forallb (in_tiles (int64 (g * g))) swaps = true /\
      mapping ≡ₚ seqZ 0 (int64 (g * g)) /\ apply_pairs (int64 (g * g)) mapping (reverse swaps) = Ok (seqZ 0 (int64 (g * g)))
  | Err _ => int64 (g * g) <= 0 \/ Nat.Odd (length swaps) \/ forallb (in_tiles (int64 (g * g))) swaps = false
  end.
Proof.
  unfold applySliderSwapsV2. split_guard; [by left |]. destruct (Nat.odd (length swaps)) eqn:Ho.
  { right. left. by apply Nat.odd_spec. }
  assert (Nat.Even (length swaps)) as He by (apply Nat.even_spec; rewrite <- Nat.negb_odd, Ho; done).
  pose proof (apply_pairs_spec (int64 (g * g)) (seqZ 0 (int64 (g * g))) swaps ltac:(rewrite length_seqZ; lia) He) as Hs.
  destruct (apply_pairs _ _ swaps); [| by right; right]. naive_solver.
Qed.

(** The rectangles of [sliderTileRect] partition the image: every pixel lies in exactly one of
    the grid's tiles, also when the sides are not multiples of the grid size. *)
Theorem tiles_partition b g x y :
  bounds_ok b -> 0 < g -> in_rect b x y ->
  exists! i, 0 <= i < g * g /\ in_rect (sliderTileRect b g i) x y.
Proof.
  intros Hb Hg [Hx Hy].
  destruct (cut_unique (Dx b) g (x - MinX b) Hg) as (col & [Hc Hcx] & Hcu); [unfold Dx; lia |].
  destruct (cut_unique (Dy b) g (y - MinY b) Hg) as (row & [Hr Hry] & Hru); [unfold Dy; lia |].
  assert ((row * g + col) mod g = col /\ (row * g + col) / g = row) as [Em Ed].
  { split; [rewrite Z.add_comm, Z_mod_plus_full; apply Z.mod_small; lia |].
    rewrite Z.div_add_l, Z.div_small by lia. lia. }
  exists (row * g + col). split.
  - split; [nia |]. rewrite tile_rect by (done || nia). rewrite Em, Ed. unfold in_rect. simpl. lia.
  - intros i [Hi Hin]. rewrite tile_rect in Hin by done. unfold in_rect in Hin. simpl in Hin.
    pose proof (Z.mod_pos_bound i g Hg). pose proof (Z.div_pos i g ltac:(lia) Hg).
    pose proof (Z.div_lt_upper_bound i g g Hg ltac:(lia)).
    rewrite (Hcu (i mod g)), (Hru (i / g)) by (split; lia).
    pose proof (Z.div_mod i g ltac:(lia)). lia.
Qed.

(** A pixel of one tile is always read from inside the source tile, hence from inside the
    image, when the source tile is not empty. *)
Theorem samples_inside b g i j x y :
  bounds_ok b -> 0 < g -> 0 <= i < g * g -> 0 <= j < g * g ->
  let dst := sliderTileRect b g i in
  let src := sliderTileRect b g j in
  in_rect dst x y -> 0 < Dx src -> 0 < Dy src ->
  let '(sx, sy) := sample_point dst src x y in in_rect src sx sy /\ in_rect b sx sy.
Proof.
  intros Hb Hg Hi Hj dst src [Hx Hy] Hsx Hsy. unfold sample_point.
  pose proof (tile_inside b g j Hb Hg Hj) as Ht. cbv zeta in Ht. fold src in Ht. clearbody dst src.
  unfold Dx, Dy in *. rewrite (proj2 (Z.ltb_ge _ _)), (proj2 (Z.ltb_ge (MaxY dst - MinY dst) 1)) by lia.
  rewrite !Z.quot_div_nonneg by nia.
  assert (forall a n s, 0 <= a < n -> 0 < s -> 0 <= a * s / n < s) as Hq.
  { intros a n s Ha Hs. split; [apply Z.div_pos; nia | apply Z.div_lt_upper_bound; nia]. }
  pose proof (Hq (x - MinX dst) (MaxX dst - MinX dst) (MaxX src - MinX src) ltac:(lia) ltac:(lia)).
  pose proof (Hq (y - MinY dst) (MaxY dst - MinY dst) (MaxY src - MinY src) ltac:(lia) ltac:(lia)).
  unfold in_rect. lia.
Qed.

(** C22: [rankSliderGuessesV2] returns every candidate exactly once, with its own swaps and with the
    consensus of its positions, in the order of consensus, luma score and index; the result is the
    same for every order in which the goroutines deliver.  It fails exactly when some candidate's
    swaps cannot be applied (or there is no candidate), with such a candidate's error. *)
Theorem slider_ranking {F} `{FO : FloatOrder F} img g swaps arrival :
  n_candidates swaps <> 0 -> (forall l, arrival l ≡ₚ l) ->
  match rankSliderGuessesV2 (F := F) img g swaps arrival with
  | Ok guesses =>
      (forall idx, 1 <= idx <= n_candidates swaps -> candidate_ok g swaps idx = true) /\
      guesses = ranking img g swaps /\
      (Index <$> guesses) ≡ₚ seqZ 1 (n_candidates swaps) /\
      StronglySorted (not_less consensus_less) guesses /\
      Forall (fun x => Swaps x = activeSwapsForIndexV2 swaps (Index x) /\
                       ConsensusRank x = consensus img g swaps (Index x)) guesses
  | Err e => exists idx, 1 <= idx <= n_candidates swaps /\
      applySliderSwapsV2 g (activeSwapsForIndexV2 swaps idx) = Err e
  end.
Proof.
  intros Hn Harr. destruct (forallb (candidate_ok g swaps) (seqZ 1 (n_candidates swaps))) eqn:Hall.
  - assert (forall idx, 1 <= idx <= n_candidates swaps -> candidate_ok g swaps idx = true) as Hok.
    { intros idx Hidx. rewrite forallb_forall in Hall. apply Hall, list_elem_of_In, elem_of_seqZ. lia. }
    rewrite (rank_spec img g swaps arrival Hn Hok Harr). split; [done |]. split; [done |].
    split; [by rewrite (ranking_perm img g swaps), fmap_index by apply Index_final |]. split.
    + apply (sort_stable_sorted _ _ (consensus_order (final_guess img g swaps))).
      apply Forall_canonical, Index_final.
    + rewrite (ranking_perm img g swaps). apply Forall_fmap, Forall_forall. intros idx _. simpl.
      rewrite Index_scored. split; [| done]. unfold scored.
      case_decide; [| done]. by destruct (seamScoreRGBTextV2 _ _ _).
  - pose proof (score_luma_spec (F := F) img g swaps (seqZ 1 (n_candidates swaps))) as Hs.
    rewrite Hall in Hs. destruct Hs as (idx & e & Hidx%elem_of_seqZ & He & Hsc).
    unfold rankSliderGuessesV2. rewrite n_candidates_quot, (proj2 (Z.eqb_neq _ _)) by done.
    rewrite Hsc. exists idx. split; [lia | done].
Qed.

(** A candidate with the best luma score of all, and the best colour and text scores of the
    finalists (ties broken by index), is tried first. *)
Theorem best_candidate_first {F} `{FO : FloatOrder F} img g swaps arrival idx :
  (forall l, arrival l ≡ₚ l) ->
  (forall j, 1 <= j <= n_candidates swaps -> candidate_ok g swaps j = true) ->
  1 <= idx <= n_candidates swaps ->
  (forall j, 1 <= j <= n_candidates swaps -> j <> idx ->
     luma_less (base_guess (F := F) img g swaps idx) (base_guess img g swaps j) = true) ->
  (forall j, j ∈ finalists (F := F) img g swaps -> j <> idx ->
     let S := finalists (F := F) img g swaps in
     rgb_less (scored (F := F) img g swaps S idx) (scored img g swaps S j) = true /\
     text_less (scored (F := F) img g swaps S idx) (scored img g swaps S j) = true) ->
  exists best rest, rankSliderGuessesV2 (F := F) img g swaps arrival = Ok (best :: rest) /\ Index best = idx.
Proof.
  intros Harr Hok Hidx Hluma Hrest. rewrite (rank_spec img g swaps arrival ltac:(lia) Hok Harr).
  pose proof (NoDup_seqZ 1 (n_candidates swaps)) as Hnd.
  assert (forall j, j ∈ seqZ 1 (n_candidates swaps) <-> 1 <= j <= n_candidates swaps) as Hseq
    by (intros j; rewrite elem_of_seqZ; lia).
  destruct (head_rank luma_less (base_guess img g swaps) (seqZ 1 (n_candidates swaps)) idx
    (luma_order _) (fun i => eq_refl) Hnd ltac:(by apply Hseq) ltac:(intros j Hj%Hseq; by apply Hluma))
    as (Hl0 & Hl & Hlj).
  assert (idx ∈ finalists (F := F) img g swaps) as Hfin.
  { unfold finalists. rewrite elem_of_list_to_set. apply list_elem_of_fmap.
    exists (base_guess img g swaps idx). split; [done |]. apply elem_of_take. exists 0%nat. split; [done | lia]. }
  set (S := finalists (F := F) img g swaps) in *.
  set (fs := filter (fun i => i ∈ S) (seqZ 1 (n_candidates swaps))).
  assert (NoDup fs) as Hndf by (by apply NoDup_filter).
  assert (forall j, j ∈ fs -> j ∈ S) as Hfs by (intros j [? _]%list_elem_of_filter; done).
  assert (idx ∈ fs) as Hidxf by (apply list_elem_of_filter; split; [done | by apply Hseq]).
  destruct (head_rank rgb_less (scored img g swaps S) fs idx (rgb_order _) (Index_scored _ _ _ _) Hndf Hidxf
    ltac:(intros j Hj Hne; by apply Hrest; [apply Hfs |])) as (_ & Hr & _).
  destruct (head_rank text_less (scored img g swaps S) fs idx (text_order _) (Index_scored _ _ _ _) Hndf Hidxf
    ltac:(intros j Hj Hne; by apply Hrest; [apply Hfs |])) as (_ & Ht & _).
  assert (forall j, 1 <= j <= n_candidates swaps -> j <> idx ->
    consensus (F := F) img g swaps idx < consensus (F := F) img g swaps j) as Hcons.
  { intros j Hj Hne. unfold consensus, luma_pos, rgb_pos, text_pos. fold S.
    rewrite finalist_guesses_eq. fold S fs. rewrite Hl, Hr, Ht, decide_True by done.
    specialize (Hlj j ltac:(by apply Hseq) Hne).
    assert (forall less, 0 <= rank_in (ranks (sort_stable less (scored (F := F) img g swaps S <$> fs))) j) as Hnn.
    { intros less. apply ranks_nonneg. rewrite sort_stable_perm, fmap_index by apply Index_scored. done. }
    pose proof (Hnn rgb_less). pose proof (Hnn text_less). case_decide; lia. }
  destruct (ranking img g swaps) as [| best rest] eqn:Er.
  { pose proof (ranking_perm (F := F) img g swaps) as Hp. rewrite Er in Hp.
    apply Permutation_nil, fmap_nil_inv in Hp. assert (idx ∈ seqZ 1 (n_candidates swaps)) by (by apply Hseq).
    rewrite Hp in *. by destruct (not_elem_of_nil idx). }
  exists best, rest. split; [done |].
  pose proof (sort_stable_head _ _ (consensus_order (final_guess img g swaps)) (final_guess img g swaps idx)
    (final_guess img g swaps <$> seqZ 1 (n_candidates swaps))) as Hh.
  fold (ranking img g swaps) in Hh. rewrite Er in Hh. simpl in Hh.
  rewrite <- (Index_final img g swaps idx). f_equal.
  enough (Some best = Some (final_guess img g swaps idx)) by congruence. apply Hh.
  - apply Forall_canonical, Index_final.
  - apply list_elem_of_fmap_2. by apply Hseq.
  - intros y (j & -> & Hj%Hseq)%list_elem_of_fmap Hne.
    assert (j <> idx) as Hji by (by intros ->). specialize (Hcons j Hj Hji).
    unfold consensus_less. simpl. rewrite (proj2 (Z.eqb_neq _ _)) by lia. by apply Z.ltb_lt.
Qed.

(** At most two guesses are sent to the server, never more than the puzzle allows or than there
    are guesses; a token comes back only if some of them was answered with it, and every guess
    before that one was answered with neither success, limit nor failure. *)
Theorem slider_checks_bounded {E} attempts guesses (check : nat -> check_outcome E) :
  let '(made, r) := solve_slider attempts guesses check in
  (made <= 2)%nat /\ (made <= guesses)%nat /\ (made <= Z.to_nat attempts)%nat /\
  (attempts <= 0 \/ guesses = 0%nat <-> r = Err SolveNoAttempts) /\
  forall token, r = Ok token -> token <> ""%string /\
    exists k, made = S k /\ check k = CheckOk token /\ forall j, (j < k)%nat -> check j = CheckOther.
Proof.
  unfold solve_slider.
  assert (slider_limit attempts guesses = Z.min (Z.min attempts 2) (Z.of_nat guesses)) as ->.
  { unfold slider_limit, captchaV2MaxSliderChecks. destruct (Z.ltb_spec 2 attempts); split_guard; lia. }
  split_guard; [repeat split; try lia; done |].
  assert (forall n i, (forall j, (j < i)%nat -> check j = CheckOther) ->
    let '(made, r) := try_guesses n i check in
    (made <= i + n)%nat /\ r <> Err SolveNoAttempts /\
    forall token, r = Ok token -> token <> ""%string /\
      exists k, made = S k /\ check k = CheckOk token /\ forall j, (j < k)%nat -> check j = CheckOther) as H.
  { clear. induction n as [| n IH]; intros i Hi; simpl; [split; [lia | done] |].
    destruct (check i) as [e | token | |] eqn:Hc; try (split; [lia | done]).
    - destruct (String.eqb_spec token "") as [| Hne]; [split; [lia | done] |]. split; [lia |].
      split; [done |]. intros t [= <-]. split; [done |]. exists i. done.
    - specialize (IH (S i)). destruct (try_guesses n (S i) check) as [made r].
      destruct IH as (? & ? & ?); [| split; [lia | done]].
      intros j Hj. destruct (decide (j = i)) as [-> |]; [done | apply Hi; lia]. }
  specialize (H (Z.to_nat (Z.min (Z.min attempts 2) (Z.of_nat guesses))) 0%nat ltac:(intros; lia)).
  destruct (try_guesses _ 0 check) as [made r]. destruct H as (Hm & Hr & Ht).
  do 3 (split; [lia |]). split; [| done]. split; [intros [|]; lia | done].
Qed.

(** ** A concrete puzzle *)

(** Fixed-point numbers stand for float64: enough to run the ranking. *)
#[local] Instance fixed_ops : FloatOps Z := {
  fdec n k := n * 100 / 10 ^ k; fofint n := n * 100; fadd := Z.add; fsub := Z.sub;
  fmul a b := a * b / 100; fdiv a b := a * 100 / b; fneg := Z.opp; fexp _ := 100;
  fltb := Z.ltb; feqb := Z.eqb
}.
#[local] Instance fixed_order : FloatOrder Z := { fkey := id; feqb_key _ _ := eq_refl; fltb_key _ _ := eq_refl }.

(** A 4x4 picture of two grey columns; the candidates swap tiles 0,1 and then 2,3 of a 2x2 grid. *)
Definition picture : Image := {|
  Bounds := {| MinX := 0; MinY := 0; MaxX := 4; MaxY := 4 |};
  At := fun x y => let v := (x + 4 * y) * 2560 in {| cR := v; cG := v; cB := v |}
|}.
Definition swaps0 : list Z := [0; 1; 2; 3].

Lemma tiles_partition_witness :
  exists! i, 0 <= i < 3 * 3 /\ in_rect (sliderTileRect (Bounds picture) 3 i) 2 1.
Proof.
  apply tiles_partition; [split; vm_compute; discriminate | lia |].
  unfold in_rect. simpl. lia.
Defined.

Lemma samples_inside_witness :
  let '(sx, sy) := sample_point (sliderTileRect (Bounds picture) 3 0) (sliderTileRect (Bounds picture) 3 8) 0 0 in
  in_rect (sliderTileRect (Bounds picture) 3 8) sx sy /\ in_rect (Bounds picture) sx sy.
Proof.
  apply (samples_inside (Bounds picture) 3 0 8 0 0); try lia; try (vm_compute; reflexivity).
  - split; vm_compute; discriminate.
  - vm_compute. repeat split; discriminate.
Defined.

Lemma slider_ranking_witness :
  exists guesses, rankSliderGuessesV2 (F := Z) picture 2 swaps0 reverse = Ok guesses /\
    (Index <$> guesses) ≡ₚ [1; 2].
Proof.
  pose proof (slider_ranking (F := Z) picture 2 swaps0 reverse) as H.
  destruct (rankSliderGuessesV2 picture 2 swaps0 reverse) as [guesses | e] eqn:E; [| vm_compute in E; discriminate E].
  exists guesses. split; [reflexivity |]. apply H; [discriminate | apply reverse_Permutation].
Defined.

Lemma best_candidate_first_witness :
  exists best rest, rankSliderGuessesV2 (F := Z) picture 2 swaps0 reverse = Ok (best :: rest) /\ Index best = 1.
Proof.
  apply (best_candidate_first (F := Z) picture 2 swaps0 reverse 1).
  - apply reverse_Permutation.
  - intros j Hj. change (n_candidates swaps0) with 2 in Hj.
    assert (j = 1 \/ j = 2) as [-> | ->] by lia; vm_compute; reflexivity.
  - change (n_candidates swaps0) with 2. lia.
  - intros j Hj Hne. change (n_candidates swaps0) with 2 in Hj.
    assert (j = 2) as -> by lia. vm_compute. reflexivity.
  - intros j Hj%finalists_range Hne. change (n_candidates swaps0) with 2 in Hj.
    assert (j = 2) as -> by lia. split; vm_compute; reflexivity.
Defined.
