(* ===== verification/Creds.v ===== *)
(** * TURN credentials (internal/core/creds.go): settings, the per-group cache, error counting and
    throttling.

    Times are [Z]: nanoseconds for [time.Time], seconds for Unix times.  Each operation gets the
    clock readings it makes as arguments. *)

From S2P Require Import Prelude GoStrings Json VkErrors.
From Stdlib Require Import ZArith Lia String Ascii.
From stdpp Require Import base gmap list strings.
Open Scope string_scope.
Open Scope Z_scope.

(** ** Authorisation mode and anonymous path *)

Section Settings.
Context `{Unicode}.

(** [SetVkAuthMode] and [getVkAuthMode] on the stored value. *)
Definition SetVkAuthMode (mode : string) : string :=
  let mode := to_lower (trim_space mode) in
  if negb (String.eqb mode "anonymous") then "account" else mode.

Definition getVkAuthMode (stored : string) : string :=
  if String.eqb stored "" then "anonymous" else stored.

(** [SetVkAnonPath] and [getVkAnonPath]. *)
Definition SetVkAnonPath (path : string) : string :=
  let path := to_lower (trim_space path) in
  if String.eqb path "legacy" then "legacy" else "vkcalls".

Definition getVkAnonPath (stored : string) : string :=
  if String.eqb stored "" then "vkcalls" else stored.
End Settings.

(** ** The credential cache *)

Definition second : Z := 1000000000.
Definition credentialLifetime : Z := 600 * second.
Definition cacheSafetyMargin : Z := 60 * second.
Definition maxCacheErrors : Z := 3.
Definition errorWindow : Z := 10.
Definition streamsPerCache : Z := 10.

Record TurnCredentials := {
  Username : string;
  Password : string;
  ServerAddrs : list string;
  ExpiresAt : Z;
  Link : string
}.

(** The zero value. *)
Definition no_creds : TurnCredentials :=
  {| Username := ""; Password := ""; ServerAddrs := []; ExpiresAt := 0; Link := "" |}.

Record StreamCredentialsCache := {
  creds : TurnCredentials;
  errorCount : Z;
  lastErrorTime : Z
}.

Definition new_cache : StreamCredentialsCache :=
  {| creds := no_creds; errorCount := 0; lastErrorTime := 0 |}.

(** [credentialsStore.caches]. *)
Abbreviation store := (gmap Z StreamCredentialsCache).

Definition getCacheID (streamID : Z) : Z := Z.quot streamID streamsPerCache.

(** [getStreamCache]: the store after the call and the cache. *)
Definition getStreamCache (m : store) (streamID : Z) : store * StreamCredentialsCache :=
  let cacheID := getCacheID streamID in
  match m !! cacheID with
  | Some cache => (m, cache)
  | None => (<[cacheID := new_cache]> m, new_cache)
  end.

(** [StreamCredentialsCache.invalidate]. *)
Definition invalidate (c : StreamCredentialsCache) : StreamCredentialsCache :=
  {| creds := no_creds; errorCount := 0; lastErrorTime := 0 |}.

(** [errorCount.Store(0)] after a successful allocation (RunSession). *)
Definition reset_errors (m : store) (streamID : Z) : store :=
  let '(m, c) := getStreamCache m streamID in
  <[getCacheID streamID := {| creds := creds c; errorCount := 0; lastErrorTime := lastErrorTime c |}]> m.

(** [isAuthError] on the error's text. *)
Definition isAuthError (errStr : string) : bool :=
  contains "401" errStr || contains "Unauthorized" errStr || contains "authentication" errStr ||
  contains "invalid credential" errStr || contains "stale nonce" errStr.

(** [handleAuthError] at Unix time [now]: the store after and whether the cache was invalidated. *)
Definition handleAuthError (m : store) (streamID now : Z) : store * bool :=
  let '(m, c) := getStreamCache m streamID in
  let count := if errorWindow <? now - lastErrorTime c then 0 else errorCount c in
  let count := count + 1 in
  let c := {| creds := creds c; errorCount := count; lastErrorTime := now |} in
  if maxCacheErrors <=? count
  then (<[getCacheID streamID := invalidate c]> m, true)
  else (<[getCacheID streamID := c]> m, false).

(** The test both cache checks of [getVkCredsCached] make. *)
Definition usable (c : TurnCredentials) (link : string) (now : Z) : bool :=
  String.eqb (Link c) link && (now <? ExpiresAt c) && negb (length (ServerAddrs c) =? 0)%nat.

Definition turn_creds := (string * string * list string)%type.

(** [getVkCredsCached].  [now1] and [now2] are the clock readings of the two cache checks (under
    the read lock and under the write lock), [now3] the one after the fetch; [during] is what other
    streams did to the store between the two locks; [fetch] is [fetchVkCredsSerialized]. *)
Definition getVkCredsCached (m : store) (link : string) (streamID now1 now2 now3 : Z)
    (during : store -> store) (fetch : unit -> result vk_error turn_creds)
    : store * result vk_error turn_creds :=
  let '(m, c) := getStreamCache m streamID in
  if usable (creds c) link now1
  then (m, Ok (Username (creds c), Password (creds c), ServerAddrs (creds c)))
  else
    let m := during m in
    let c := default c (m !! getCacheID streamID) in
    if usable (creds c) link now2
    then (m, Ok (Username (creds c), Password (creds c), ServerAddrs (creds c)))
    else
      match fetch tt with
      | Err e => (m, Err e)
      | Ok (user, pass, addrs) =>
          (<[getCacheID streamID :=
               {| creds := {| Username := user; Password := pass; ServerAddrs := addrs;
                              ExpiresAt := now3 + (credentialLifetime - cacheSafetyMargin);
                              Link := link |};
                  errorCount := errorCount c; lastErrorTime := lastErrorTime c |}]> m,
           Ok (user, pass, addrs))
      end.

(** ** Throttling *)

(** [fetchVkCredsSerialized]: how long the call waits before it fetches.  [last] is
    [globalLastVkFetchTime] (0 for the zero time), [now] the clock, [rnd] is [rand.Intn(3000)]. *)
Definition throttle_wait (last now rnd : Z) : Z :=
  let minInterval := 3 * second + rnd * 1000000 in
  let elapsed := now - last in
  if negb (last =? 0) && (elapsed <? minInterval) then minInterval - elapsed else 0.

(** A whole call: it waits (the context may be cancelled meanwhile, which leaves the time of the
    last fetch alone), fetches for [duration] and records the end.  The result is the start and the
    end of the fetch; [None] is the cancelled call. *)
Definition fetchVkCredsSerialized (last now rnd duration : Z) (cancelled : bool) : Z * option (Z * Z) :=
  let wait := throttle_wait last now rnd in
  if (0 <? wait) && cancelled then (last, None)
  else let start := now + wait in (start + duration, Some (start, start + duration)).

(** ** Properties of the cache *)

Lemma getStreamCache_get m streamID :
  (getStreamCache m streamID).1 !! getCacheID streamID = Some (getStreamCache m streamID).2 /\
  (getStreamCache m streamID).2 = default new_cache (m !! getCacheID streamID) /\
  forall id, id <> getCacheID streamID -> (getStreamCache m streamID).1 !! id = m !! id.
Proof.
  unfold getStreamCache. destruct (m !! getCacheID streamID) as [c |] eqn:E; simpl; [done |].
  rewrite lookup_insert_eq. split; [done |]. split; [done |]. intros id Hid. by rewrite lookup_insert_ne.
Qed.

(** The error counter over a sequence of authentication errors of one stream. *)
Fixpoint handle_all (m : store) (streamID : Z) (times : list Z) : store * list bool :=
  match times with
  | [] => (m, [])
  | t :: rest =>
      let '(m', b) := handleAuthError m streamID t in
      let '(m'', bs) := handle_all m' streamID rest in (m'', b :: bs)
  end.

Lemma handleAuthError_lookup m streamID now :
  let c := default new_cache (m !! getCacheID streamID) in
  let count := (if errorWindow <? now - lastErrorTime c then 0 else errorCount c) + 1 in
  (handleAuthError m streamID now).1 !! getCacheID streamID =
    Some (if maxCacheErrors <=? count then new_cache
          else {| creds := creds c; errorCount := count; lastErrorTime := now |}) /\
  (handleAuthError m streamID now).2 = (maxCacheErrors <=? count) /\
  forall id, id <> getCacheID streamID -> (handleAuthError m streamID now).1 !! id = m !! id.
Proof.
  unfold handleAuthError. destruct (getStreamCache_get m streamID) as (H1 & H2 & H3).
  destruct (getStreamCache m streamID) as [m1 c]. simpl in *. subst c.
  split_guard; simpl; rewrite lookup_insert_eq; (split; [done |]); (split; [done |]); intros id Hid;
    rewrite lookup_insert_ne by done; by apply H3.
Qed.

(** Times more than the window apart. *)
Fixpoint sparse_times (prev : Z) (times : list Z) : Prop :=
  match times with [] => True | t :: rest => errorWindow < t - prev /\ sparse_times t rest end.

(** ** Settings of several groups *)

(** The stream whose cache a worker group uses (group.go). *)
Definition credStreamID (groupID : Z) : Z := groupID * 100.

(** A credential lookup either answers from the cache, with the credentials stored for this
    very link and not expired, without calling the fetcher, or answers with what the fetcher
    returned and stores that for exactly nine minutes; a failed fetch leaves the store as it was.
    The second check sees what another stream of the group stored meanwhile ([c2]); the other
    groups' entries are never touched. *)
Theorem creds_cached m link streamID now1 now2 now3 during fetch c2 :
  let c1 := default new_cache (m !! getCacheID streamID) in
  let between := during (getStreamCache m streamID).1 in
  between !! getCacheID streamID = Some c2 ->
  let '(m', r) := getVkCredsCached m link streamID now1 now2 now3 during fetch in
  if usable (creds c1) link now1
  then r = Ok (Username (creds c1), Password (creds c1), ServerAddrs (creds c1)) /\
       Link (creds c1) = link /\ m' = (getStreamCache m streamID).1
  else if usable (creds c2) link now2
  then r = Ok (Username (creds c2), Password (creds c2), ServerAddrs (creds c2)) /\
       Link (creds c2) = link /\ m' = between
  else match fetch tt with
       | Err e => r = Err e /\ m' = between
       | Ok (user, pass, addrs) =>
           r = Ok (user, pass, addrs) /\
           (forall i, i <> getCacheID streamID -> m' !! i = between !! i) /\
           exists c', m' !! getCacheID streamID = Some c' /\
             Username (creds c') = user /\ Password (creds c') = pass /\ ServerAddrs (creds c') = addrs /\
             forall link' now, usable (creds c') link' now =
               String.eqb link link' && (now <? now3 + 540 * second) && negb (length addrs =? 0)%nat
       end.
Proof.
  intros c1 between Hb. unfold getVkCredsCached. destruct (getStreamCache_get m streamID) as (_ & H2 & _).
  fold c1 in H2. destruct (getStreamCache m streamID) as [m1 c]. simpl in H2, between. subst c.
  assert (forall c t, usable c link t = true -> Link c = link) as Hlink.
  { intros c t Ht. unfold usable in Ht. propify. by apply String.eqb_eq. }
  destruct (usable (creds c1) link now1) eqn:Hu1; simpl; [by eauto |]. fold between. rewrite Hb. simpl.
  destruct (usable (creds c2) link now2) eqn:Hu2; simpl; [by eauto |].
  destruct (fetch tt) as [[[user pass] addrs] | e]; simpl; [| done]. split; [done |].
  split; [intros i Hi; by rewrite lookup_insert_ne |].
  rewrite lookup_insert_eq. eexists. split; [done |]. by repeat split.
Qed.

(** Three authentication errors at most ten seconds apart each invalidate the cache (the third
    one does), after which counting starts afresh; errors more than ten seconds apart never do. *)
Theorem auth_errors_counted m streamID t1 t2 t3 times :
  let c := default new_cache (m !! getCacheID streamID) in
  0 <= errorCount c ->
  (errorWindow < t1 - lastErrorTime c -> t2 - t1 <= errorWindow -> t3 - t2 <= errorWindow ->
   (handle_all m streamID [t1; t2; t3]).2 = [false; false; true] /\
   (handle_all m streamID [t1; t2; t3]).1 !! getCacheID streamID = Some new_cache) /\
  (sparse_times (lastErrorTime c) times ->
   (handle_all m streamID times).2 = replicate (length times) false /\
   forall c', (handle_all m streamID times).1 !! getCacheID streamID = Some c' -> creds c' = creds c).
Proof.
  intros c Hc. split.
  - intros H1 H2 H3. simpl.
    destruct (handleAuthError_lookup m streamID t1) as (L1 & B1 & _). fold c in L1, B1.
    rewrite (proj2 (Z.ltb_lt _ _) H1) in L1, B1.
    destruct (handleAuthError m streamID t1) as [m1 b1]. simpl in L1, B1. subst b1.
    destruct (handleAuthError_lookup m1 streamID t2) as (L2 & B2 & _). rewrite L1 in L2, B2. simpl in L2, B2.
    rewrite (proj2 (Z.ltb_ge _ _) H2) in L2, B2.
    destruct (handleAuthError m1 streamID t2) as [m2 b2]. simpl in L2, B2. subst b2.
    destruct (handleAuthError_lookup m2 streamID t3) as (L3 & B3 & _). rewrite L2 in L3, B3. simpl in L3, B3.
    rewrite (proj2 (Z.ltb_ge _ _) H3) in L3, B3.
    destruct (handleAuthError m2 streamID t3) as [m3 b3]. simpl in L3, B3. by subst b3.
  - subst c. revert m Hc. induction times as [| t times IH]; intros m Hc Hs; simpl.
    { split; [done |]. intros c' ->. done. }
    destruct Hs as [Ht Hs]. destruct (handleAuthError_lookup m streamID t) as (L & B & _).
    rewrite (proj2 (Z.ltb_lt _ _) Ht) in L, B. simpl in L, B.
    destruct (handleAuthError m streamID t) as [m1 b]. simpl in L, B. subst b.
    specialize (IH m1). rewrite L in IH. simpl in IH. destruct IH as [E Hcr]; [lia | done |].
    destruct (handle_all m1 streamID times) as [m2 bs]. simpl in *. by subst.
Qed.

(** Distinct worker groups use distinct caches, so an authentication failure of one group never
    touches another group's credentials. *)
Theorem groups_isolated m g g' now :
  0 <= g -> 0 <= g' -> g <> g' ->
  (handleAuthError m (credStreamID g) now).1 !! getCacheID (credStreamID g') =
  m !! getCacheID (credStreamID g').
Proof.
  intros Hg Hg' Hne. destruct (handleAuthError_lookup m (credStreamID g) now) as (_ & _ & Ho). apply Ho.
  unfold getCacheID, credStreamID, streamsPerCache. rewrite !Z.quot_div_nonneg by lia.
  replace (g * 100) with (g * 10 * 10) by lia. replace (g' * 100) with (g' * 10 * 10) by lia.
  rewrite !Z.div_mul by lia. lia.
Qed.

(** Consecutive fetches are at least three seconds apart: whatever the random part, a fetch
    starts three seconds or more after the end of the previous one, and waits less than six. *)
Theorem fetches_spaced last now rnd duration cancelled :
  0 < last <= now -> 0 <= rnd < 3000 -> 0 <= duration ->
  match fetchVkCredsSerialized last now rnd duration cancelled with
  | (last', Some (start, end_)) =>
      last + 3 * second <= start /\ start < now + 6 * second /\ start <= end_ /\ last' = end_
  | (last', None) => cancelled = true /\ last' = last
  end.
Proof.
  intros Hlast Hrnd Hd. unfold fetchVkCredsSerialized, throttle_wait, second in *.
  rewrite (proj2 (Z.eqb_neq last 0)) by lia. simpl.
  destruct (Z.ltb_spec (now - last) (3 * 1000000000 + rnd * 1000000)); simpl.
  - rewrite (proj2 (Z.ltb_lt 0 _)) by lia. simpl. destruct cancelled; [done |]. lia.
  - lia.
Qed.

Lemma creds_cached_witness :
  exists m', getVkCredsCached ∅ "link" 100 5 6 7 id (fun _ => Ok ("u", "p", ["1.2.3.4:3478"])) =
    (m', Ok ("u", "p", ["1.2.3.4:3478"])) /\
  exists c', m' !! 10 = Some c' /\ usable (creds c') "link" (7 + 539 * second) = true.
Proof.
  pose proof (creds_cached ∅ "link" 100 5 6 7 id (fun _ => Ok ("u", "p", ["1.2.3.4:3478"])) new_cache eq_refl) as H.
  destruct (getVkCredsCached ∅ "link" 100 5 6 7 id (fun _ => Ok ("u", "p", ["1.2.3.4:3478"]))) as [m' r].
  destruct H as (Hr & _ & c' & Hc & _ & _ & _ & Hu). exists m'. split; [rewrite Hr; reflexivity |].
  exists c'. split; [exact Hc | rewrite Hu; reflexivity].
Defined.

Lemma auth_errors_counted_witness :
  (handle_all ∅ 100 [1000; 1003; 1013]).2 = [false; false; true].
Proof. apply (auth_errors_counted ∅ 100 1000 1003 1013 []); vm_compute; congruence. Defined.

Lemma groups_isolated_witness :
  (handleAuthError {[10 := new_cache]} (credStreamID 2) 50).1 !! getCacheID (credStreamID 1) = Some new_cache.
Proof. etransitivity; [apply (groups_isolated {[10 := new_cache]} 2 1 50); lia | reflexivity]. Defined.

Lemma fetches_spaced_witness :
  match fetchVkCredsSerialized 1000 5000 2500 10 false with
  | (last', Some (start, end_)) =>
      1000 + 3 * second <= start /\ start < 5000 + 6 * second /\ start <= end_ /\ last' = end_
  | (last', None) => false = true /\ last' = 1000
  end.
Proof. apply (fetches_spaced 1000 5000 2500 10 false); lia. Defined.
