(* ===== verification/Captcha.v ===== *)
(** * The automatic captcha solver (internal/core/captcha_v2.go).

    One attempt reads the challenge page, solves the proof of work and answers the checkbox or the
    slider; an attempt may be told to show another type of captcha.  HTTP is a parameter: every
    request has its place in the attempt, so that equal requests may be answered differently.
    Regular expressions, JSON decoding of the page's settings, image decoding and the random cursor
    track come in through [CaptchaLib]. *)

From S2P Require Import Prelude GoStrings Json VkErrors Regex Hashing Sorting Slider.
From Stdlib Require Import ZArith Lia String Ascii.
From stdpp Require Import base sets list strings.
Open Scope string_scope.
Open Scope Z_scope.

(** ** Profiles *)

Record Profile := { UserAgent : string; SecChUa : string; SecChUaMobile : string; SecChUaPlatform : string }.
Record SavedProfile := { sp_profile : Profile; DeviceJSON : string; BrowserFp : string }.

Definition captchaV2AcceptLanguage (profile : Profile) : string :=
  if contains "?1" (SecChUaMobile profile) then "ru-RU,ru;q=0.9,en-US;q=0.8,en;q=0.7" else "en-US,en;q=0.9".

Definition truncateUA (ua : string) : string :=
  if (String.length ua <=? 48)%nat then ua else stake 48 ua ++ "...".

(** The device description sent by default, a JSON text. *)
Definition captchaV2DeviceInfo : string :=
  "{'screenWidth':1920,'screenHeight':1080,'screenAvailWidth':1920,'screenAvailHeight':1080,'innerWidth':1920,'innerHeight':951,'devicePixelRatio':1,'language':'en-US','languages':['en-US','en'],'webdriver':false,'hardwareConcurrency':8,'notificationsPermission':'denied'}".

(** The single quotes above stand for double quotes. *)
Definition unquote (s : string) : string := map_string (fun c => if Ascii.eqb c "'" then byte 34 else c) s.

Definition captchaV2DeviceJSON (savedProfile : option SavedProfile) : string :=
  match savedProfile with
  | Some p => if negb (String.eqb (trim_space (DeviceJSON p)) "") then DeviceJSON p else unquote captchaV2DeviceInfo
  | None => unquote captchaV2DeviceInfo
  end.

(** [captchaV2Session], less its HTTP client. *)
Record captchaV2Session := {
  s_profile : Profile;
  s_savedProfile : option SavedProfile;
  variedDeviceJSON : string;
  domain : string
}.

Definition deviceJSON (s : captchaV2Session) : string :=
  if negb (String.eqb (trim_space (variedDeviceJSON s)) "") then variedDeviceJSON s
  else captchaV2DeviceJSON (s_savedProfile s).

(** ** Varying the device description *)

(** [m[key] = v]: a Go map has one entry per key. *)
Fixpoint obj_set (m : object) (key : string) (v : json) : object :=
  match m with
  | [] => [(key, v)]
  | (k, x) :: rest => if String.eqb k key then (k, v) :: rest else (k, x) :: obj_set rest key v
  end.

(** [jitterInt]: [r] is the result of [mathrand.Intn(delta*2+1)]. *)
Definition jitterInt (key : string) (delta r : Z) (m : object) : object :=
  match as_num (obj_get m key) with
  | None => m
  | Some v =>
      let n := f_int v + r - delta in
      let n := if n <? 320 then 320 else n in
      obj_set m key (JNum (f_of_int n))
  end.

(** [captchaV2VariedDeviceJSON], the decoded description; [r key n] is the result of the draw
    [mathrand.Intn(n)] for [key]. *)
Definition dpr_options : list float64 :=
  [ {| mant := 1; expo := 0 |}; {| mant := 5; expo := -2 |}; {| mant := 3; expo := -1 |};
    {| mant := 2; expo := 0 |}; {| mant := 5; expo := -1 |}; {| mant := 3; expo := 0 |} ].

Definition device_langs : list (list string) :=
  [["ru-RU"; "ru"; "en-US"]; ["ru-RU"; "ru"]; ["en-US"; "en"; "ru-RU"]].

Definition varied_device (r : string -> Z -> Z) (m : object) : object :=
  let m := jitterInt "screenWidth" 18 (r "screenWidth" 37) m in
  let m := jitterInt "screenHeight" 24 (r "screenHeight" 49) m in
  let m := jitterInt "screenAvailWidth" 18 (r "screenAvailWidth" 37) m in
  let m := jitterInt "screenAvailHeight" 24 (r "screenAvailHeight" 49) m in
  let m := jitterInt "innerWidth" 18 (r "innerWidth" 37) m in
  let m := jitterInt "innerHeight" 20 (r "innerHeight" 41) m in
  let m := match as_num (obj_get m "devicePixelRatio") with
           | Some dpr => if r "keep devicePixelRatio" 3 =? 0 then obj_set m "devicePixelRatio" (JNum dpr)
                         else obj_set m "devicePixelRatio" (JNum (nth (Z.to_nat (r "devicePixelRatio" 6)) dpr_options (f_of_int 0)))
           | None => obj_set m "devicePixelRatio" (JNum (nth (Z.to_nat (r "devicePixelRatio" 6)) dpr_options (f_of_int 0)))
           end in
  let m := obj_set m "hardwareConcurrency" (JNum (f_of_int (4 + r "hardwareConcurrency" 5))) in
  let pick := nth (Z.to_nat (r "languages" 3)) device_langs [] in
  let m := obj_set m "language" (JStr (nth 0 pick "")) in
  let m := obj_set m "languages" (JArr (JStr <$> pick)) in
  obj_set m "notificationsPermission"
    (JStr (nth (Z.to_nat (r "notificationsPermission" 3)) ["default"; "denied"; "granted"] "")).

(** ** Library code *)

Class CaptchaLib := {
  format_float : float64 -> string;                            (* strconv.FormatFloat(v, 'f', -1, 64) *)
  marshal : json -> string;                                    (* json.Marshal of a decoded value *)
  unmarshal : string -> result string json;                    (* json.Unmarshal *)
  decode_image : string -> result string Image;                (* base64 and image.Decode *)
  cursor_track : Z -> Z -> string;                             (* buildSliderCursorV2, a random track *)
  arrival : list Z -> list Z                                   (* order of the ranking goroutines *)
}.

(** ** The challenge page *)

Record captchaV2InitSetting := { set_Type : string; set_Settings : string }.
Record captchaV2Page := {
  PowInput : string;
  PowDifficulty : Z;
  ScriptURL : string;
  ShowCaptchaType : string;
  CaptchaSettings : list captchaV2InitSetting
}.

(** The regular expressions; [qt] is the double quote. *)
Definition qt : ascii := byte 34.

Definition reCaptchaV2PowInput : re :=
  seqs [Lit "const"; spaces1; Lit "powInput"; spaces; Lit "="; spaces; Chr qt; Cap (Plus (re_not qt)); Chr qt].
Definition reCaptchaV2Difficulty : re :=
  seqs [Lit "const"; spaces1; Lit "difficulty"; spaces; Lit "="; spaces; Cap (Plus re_digit)].
Definition reCaptchaV2WindowInit : re :=
  seqs [Lit "window.init"; spaces; Lit "="; spaces;
        Cap (seqs [Lit "{"; Star false re_any; Lit "}"]); spaces; Lit ";"].
Definition reCaptchaV2ScriptSrc : re :=
  seqs [Lit "src="; Chr qt;
        Cap (seqs [Lit "https://"; Plus (re_not qt); Lit "not_robot_captcha"; Plus (re_not qt)]); Chr qt].
Definition re_hex (c : ascii) : bool :=
  let n := Z.of_N (N_of_ascii c) in
  ((48 <=? n) && (n <=? 57)) || ((65 <=? n) && (n <=? 70)) || ((97 <=? n) && (n <=? 102)).
Definition reCaptchaV2DebugInfo : re :=
  seqs [Lit "debug_info:"; Opt (Seq (Star true (re_not qt)) (Lit "||")); Chr qt; Cap (Times 64 (Cls re_hex)); Chr qt].

(** Decoding into [captchaV2Init]: absent fields are zero.  Keys are matched without case and a
    field of another type is an error; an object is taken to have each key once. *)
Definition field_str (m : object) (key : string) : option string :=
  match List.find (fun kv => equal_fold (fst kv) key) m with
  | None | Some (_, JNull) => Some ""
  | Some (_, JStr s) => Some s
  | Some _ => None
  end.

Fixpoint decode_settings (l : list json) : option (list captchaV2InitSetting) :=
  match l with
  | [] => Some []
  | JObj m :: rest =>
      match field_str m "type", field_str m "settings", decode_settings rest with
      | Some t, Some s, Some r => Some ({| set_Type := t; set_Settings := s |} :: r)
      | _, _, _ => None
      end
  | JNull :: rest =>
      (fun r => {| set_Type := ""; set_Settings := "" |} :: r) <$> decode_settings rest
  | _ :: _ => None
  end.

Definition decode_init (v : json) : option (string * list captchaV2InitSetting) :=
  match v with
  | JObj top =>
      match List.find (fun kv => equal_fold (fst kv) "data") top with
      | None | Some (_, JNull) => Some ("", [])
      | Some (_, JObj data) =>
          match field_str data "show_captcha_type" with
          | None => None
          | Some show =>
              match List.find (fun kv => equal_fold (fst kv) "captcha_settings") data with
              | None | Some (_, JNull) => Some (show, [])
              | Some (_, JArr l) => pair show <$> decode_settings l
              | Some _ => None
              end
          end
      | Some _ => None
      end
  | JNull => Some ("", [])
  | _ => None
  end.

Section Solver.
Context `{GoLib} `{CaptchaLib} `{Unicode}.

(** [captchaV2StringifyAny]. *)
Definition captchaV2StringifyAny (value : json) : string :=
  match value with
  | JNull => ""
  | JStr v => v
  | JNum v => format_float v
  | JBool v => if v then "true" else "false"
  | _ => marshal value
  end.

(** [parseCaptchaV2Page]. *)
Definition parseCaptchaV2Page (html : string) : result vk_error captchaV2Page :=
  match find_submatch reCaptchaV2WindowInit html with
  | None => Err (TextError "captcha init json not found")
  | Some text =>
      match unmarshal text with
      | Err e => Err (TextError ("captcha init json parse: " ++ e))
      | Ok v =>
          match decode_init v with
          | None => Err (TextError "captcha init json parse: wrong type")
          | Some (show, settings) =>
              match find_submatch reCaptchaV2ScriptSrc html with
              | None => Err (TextError "captcha script url not found")
              | Some url =>
                  let page input difficulty :=
                    {| PowInput := input; PowDifficulty := difficulty; ScriptURL := url;
                       ShowCaptchaType := show; CaptchaSettings := settings |} in
                  match find_submatch reCaptchaV2PowInput html with
                  | None => Ok (page "" 0)
                  | Some input =>
                      match find_submatch reCaptchaV2Difficulty html with
                      | None => Err (TextError "captcha difficulty const not found")
                      | Some d =>
                          match atoi d with
                          | Some difficulty =>
                              if difficulty <=? 0 then Err (TextError ("invalid captcha difficulty " ++ fmt_q d))
                              else Ok (page input difficulty)
                          | None => Err (TextError ("invalid captcha difficulty " ++ fmt_q d))
                          end
                      end
                  end
              end
          end
      end
  end.

(** ** Proof of work *)

Fixpoint repeat_char (n : nat) (c : ascii) : string :=
  match n with O => "" | S n' => String c (repeat_char n' c) end.

Definition pow_hash (input : string) (nonce : Z) : string := hex_encode (sha256 (bytes_of (input ++ itoa nonce))).

(** One round of the loop: [Some] returns. *)
Definition pow_round (input target : string) (cancelled : Z -> bool) (nonce : Z) : option string :=
  if (nonce mod 4096 =? 0) && cancelled nonce then Some ""
  else let hashHex := pow_hash input nonce in
       if has_prefix target hashHex then Some hashHex else None.

(** [p] rounds from [nonce] on: the next nonce, or the value returned. *)
Fixpoint pow_search (p : positive) (round : Z -> option string) (nonce : Z) : Z + string :=
  match p with
  | xH => match round nonce with Some r => inr r | None => inl (nonce + 1) end
  | xO q => match pow_search q round nonce with
            | inl nonce' => pow_search q round nonce'
            | r => r
            end
  | xI q => match round nonce with
            | Some r => inr r
            | None => match pow_search q round (nonce + 1) with
                      | inl nonce' => pow_search q round nonce'
                      | r => r
                      end
            end
  end.

(** [solveCaptchaPoWV2]; [cancelled nonce] is the state of the context at that nonce. *)
Definition solveCaptchaPoWV2 (cancelled : Z -> bool) (input : string) (difficulty : Z) : string :=
  if String.eqb input "" || (difficulty <=? 0) then ""
  else match pow_search 10000000 (pow_round input (repeat_char (Z.to_nat difficulty) "0") cancelled) 1 with
       | inr r => r
       | inl _ => ""
       end.

(** ** Checks *)

Record captchaV2Check := { Status : string; SuccessToken : string; ShowType : string }.

Definition parseCaptchaV2Check (raw : object) : result vk_error captchaV2Check :=
  match as_obj (obj_get raw "response") with
  | None => Err (TextError ("invalid captcha check response: " ++ fmt_v (JObj raw)))
  | Some resp =>
      let out := {| Status := captchaV2StringifyAny (obj_get resp "status");
                    SuccessToken := captchaV2StringifyAny (obj_get resp "success_token");
                    ShowType := captchaV2StringifyAny (obj_get resp "show_captcha_type") |} in
      if String.eqb (Status out) "" then Err (TextError ("captcha check status missing: " ++ fmt_v (JObj raw)))
      else Ok out
  end.

(** The values of a request, as [captchaRequest] sends them. *)
Abbreviation form := (list (string * string)).

(** [api round guess method values]: an answer or the text of the error.  [round] counts the show
    types tried, [guess] the checks within one. *)
Record captcha_http := {
  get_html : string -> result string string;
  get_script : string -> result string string;
  api : nat -> nat -> string -> form -> result string object;
  checkbox_cancelled : nat -> bool;
  pow_cancelled : Z -> bool
}.

Definition wrap_text (before : string) {A} (r : result string A) : result vk_error A :=
  match r with Ok x => Ok x | Err e => Err (WrapError before (TextError e) "") end.

Definition captchaV2BaseValues (sessionToken domain : string) : form :=
  [("session_token", sessionToken); ("domain", domain); ("adFp", ""); ("access_token", "")].

(** [performCaptchaCheck]. *)
Definition performCaptchaCheck (s : captchaV2Session) (http : captcha_http) (round guess : nat)
    (sessionToken browserFP hash answerJSON cursor debugInfo : string) : result vk_error captchaV2Check :=
  let values :=
    [("session_token", sessionToken); ("domain", domain s); ("adFp", ""); ("accelerometer", "[]");
     ("gyroscope", "[]"); ("motion", "[]"); ("cursor", cursor); ("taps", "[]"); ("connectionRtt", "[]");
     ("connectionDownlink", "[]"); ("browser_fp", browserFP); ("hash", hash);
     ("answer", base64_encode (bytes_of answerJSON)); ("debug_info", debugInfo); ("access_token", "")] in
  resp ← wrap_text "captcha check failed: " (api http round guess "captchaNotRobot.check" values);
  parseCaptchaV2Check resp.

(** The errors of one show type: [captchaV2ShowTypeError] or any other. *)
Inductive captcha_error :=
| captchaV2ShowTypeError (show : string)
| OtherError (e : vk_error).

Definition lift {A} (r : result vk_error A) : result captcha_error A :=
  match r with Ok x => Ok x | Err e => Err (OtherError e) end.

(** [solveCheckboxCaptcha]. *)
Definition solveCheckboxCaptcha (s : captchaV2Session) (http : captcha_http) (round : nat)
    (sessionToken browserFP hash debugInfo : string) : result captcha_error string :=
  _ ← lift (wrap_text "captcha componentDone failed: " (api http round 0 "captchaNotRobot.componentDone"
        [("session_token", sessionToken); ("domain", domain s); ("adFp", ""); ("browser_fp", browserFP);
         ("device", deviceJSON s); ("access_token", "")]));
  if checkbox_cancelled http round then Err (OtherError (TextError "context canceled"))
  else
    check ← lift (performCaptchaCheck s http round 0 sessionToken browserFP hash "{}" "[]" debugInfo);
    if negb (String.eqb (ShowType check) "") && negb (equal_fold (ShowType check) "checkbox")
    then Err (captchaV2ShowTypeError (ShowType check))
    else if equal_fold (Status check) "error_limit" then Err (OtherError errCaptchaV2RateLimit)
    else if equal_fold (Status check) "bot"
    then Err (OtherError (WrapError "" errCaptchaV2Bot (": checkbox captcha rejected: status=" ++ Status check)))
    else if negb (equal_fold (Status check) "ok")
    then Err (OtherError (TextError ("checkbox captcha rejected: status=" ++ Status check)))
    else if String.eqb (SuccessToken check) ""
    then Err (OtherError (TextError "captcha success token not found"))
    else Ok (SuccessToken check).

(** The texts of the slider's errors. *)
Definition slider_text (e : slider_error) : string :=
  match e with
  | ErrStepsTooShort => "slider steps payload too short"
  | ErrSliderSize size => "invalid slider size: " ++ itoa size
  | ErrSwapPayload => "invalid slider swap payload"
  | ErrNoCandidates => "slider has no candidates"
  | ErrTileCount n => "invalid slider tile count: " ++ itoa n
  | ErrSwapsLength n => "invalid slider swaps length: " ++ itoa (Z.of_nat n)
  | ErrStepRange l r => "slider step out of range: " ++ itoa l ++ "," ++ itoa r
  end.

Definition slider_err {A} (r : result slider_error A) : result vk_error A :=
  match r with Ok x => Ok x | Err e => Err (TextError (slider_text e)) end.

(** One entry of [steps]. *)
Definition slider_step (item : json) : result vk_error Z :=
  match item with
  | JNum v => Ok (f_int v)
  | JStr v => match atoi (trim_space v) with
              | Some n => Ok n
              | None => Err (TextError ("invalid numeric value: " ++ fmt_v item))
              end
  | _ => Err (TextError ("invalid numeric value: " ++ fmt_v item))
  end.

Fixpoint slider_steps (items : list json) : result vk_error (list Z) :=
  match items with
  | [] => Ok []
  | item :: rest => n ← slider_step item; ns ← slider_steps rest; Ok (n :: ns)
  end.

(** [parseSliderPuzzleV2]: the image, the grid size, the swaps and the attempts. *)
Definition parseSliderPuzzleV2 (raw : object) : result vk_error (Image * Z * list Z * Z) :=
  match as_obj (obj_get raw "response") with
  | None => Err (TextError ("invalid slider content response: " ++ fmt_v (JObj raw)))
  | Some resp =>
      let status := captchaV2StringifyAny (obj_get resp "status") in
      if negb (equal_fold status "ok") then
        if equal_fold status "error" || equal_fold status "error_limit" then Err errCaptchaV2RateLimit
        else Err (TextError ("slider getContent status: " ++ status))
      else
        let rawImage := captchaV2StringifyAny (obj_get resp "image") in
        if String.eqb rawImage "" then Err (TextError "slider image missing")
        else match as_arr (obj_get resp "steps") with
             | None => Err (TextError "slider steps missing")
             | Some rawSteps =>
                 steps ← slider_steps rawSteps;
                 '(size, swaps, attempts) ← slider_err (splitSliderStepsV2 steps);
                 img ← wrap_text "decode slider image: " (decode_image rawImage);
                 Ok (img, size, swaps, attempts)
             end
  end.

(** [json.Marshal(struct{Value []int})]. *)
Definition answer_json (swaps : list Z) : string :=
  unquote "{'value':[" ++ GoStrings.join "," (itoa <$> swaps) ++ "]}".

Context `{FloatOps F}.

(** What [solveSliderCaptcha] makes of one check. *)
Definition slider_check (r : result vk_error captchaV2Check) : check_outcome vk_error :=
  match r with
  | Err e => CheckFailed e
  | Ok check =>
      if equal_fold (Status check) "ok" then CheckOk (SuccessToken check)
      else if equal_fold (Status check) "error_limit" then CheckLimit
      else CheckOther
  end.

Definition solve_error_value (e : solve_error vk_error) : vk_error :=
  match e with
  | SolveNoAttempts => TextError "slider has no attempts available"
  | SolveCheck e => e
  | SolveNoToken => TextError "captcha success token not found"
  | SolveRateLimit => errCaptchaV2RateLimit
  | SolveExhausted => TextError "slider guesses exhausted"
  end.

(** [solveSliderCaptcha].  The limit is checked before the request componentDone and the checks
    come after it. *)
Definition solveSliderCaptcha (s : captchaV2Session) (http : captcha_http) (round : nat)
    (sessionToken browserFP hash settings debugInfo : string) : result vk_error string :=
  resp ← wrap_text "slider getContent failed: " (api http round 0 "captchaNotRobot.getContent"
    [("session_token", sessionToken); ("domain", domain s); ("adFp", ""); ("access_token", "");
     ("captcha_settings", settings)]);
  '(img, size, swaps, attempts) ← parseSliderPuzzleV2 resp;
  guesses ← slider_err (rankSliderGuessesV2 (F := F) img size swaps arrival);
  if slider_limit attempts (length guesses) <=? 0 then Err (TextError "slider has no attempts available")
  else
    _ ← wrap_text "captcha componentDone failed: " (api http round 0 "captchaNotRobot.componentDone"
      [("session_token", sessionToken); ("domain", domain s); ("adFp", ""); ("access_token", "");
       ("browser_fp", browserFP); ("device", captchaV2DeviceJSON (s_savedProfile s))]);
    let guess i := nth i ((fun g => (Index g, Swaps g)) <$> guesses) (0, []) in
    match snd (solve_slider attempts (length guesses) (fun i =>
      slider_check (performCaptchaCheck s http round i sessionToken browserFP hash (answer_json (snd (guess i)))
        (cursor_track (fst (guess i)) (Z.of_nat (length guesses))) debugInfo))) with
    | Ok token => Ok token
    | Err e => Err (solve_error_value e)
    end.

(** ** One attempt *)

(** [errors.Is(err, errCaptchaV2Bot)]. *)
Fixpoint is_bot (e : vk_error) : bool :=
  match e with
  | errCaptchaV2Bot => true
  | vkCallsFailure _ _ e' => is_bot e'
  | WrapError _ e' _ => is_bot e'
  | _ => false
  end.

Definition show_type_value (e : captcha_error) : vk_error :=
  match e with
  | captchaV2ShowTypeError show => TextError ("captcha show type mismatch: " ++ show)
  | OtherError e => e
  end.

Inductive shown := ShownSlider | ShownCheckbox.

(** The loop over show types; the second result is the list of captchas shown. *)
Fixpoint show_loop (fuel : nat) (showType sliderSettings : string) (round : nat)
    (slider checkbox : nat -> result captcha_error string)
    : option (result vk_error string * list shown) :=
  match fuel with
  | O => None
  | S fuel' =>
      let next r what :=
        match r with
        | Ok token => Some (Ok token, [what])
        | Err err =>
            let continue show :=
              match show_loop fuel' show sliderSettings (S round) slider checkbox with
              | Some (r, l) => Some (r, what :: l)
              | None => None
              end in
            if (match err with OtherError e => is_bot e | _ => false end)
               && negb (equal_fold showType "slider") && negb (String.eqb sliderSettings "")
            then continue "slider"
            else match err with
                 | captchaV2ShowTypeError show =>
                     if String.eqb show "" then Some (Err (show_type_value err), [what]) else continue show
                 | OtherError e => Some (Err e, [what])
                 end
        end in
      if String.eqb showType "slider" then next (slider round) ShownSlider
      else if String.eqb showType "checkbox" || String.eqb showType "" then next (checkbox round) ShownCheckbox
      else Some (Err (TextError ("unsupported captcha type: " ++ showType)), [])
  end.

(** The settings of the last "slider" entry. *)
Definition slider_settings (page : captchaV2Page) : string :=
  foldl (fun acc setting => if String.eqb (set_Type setting) "slider" then set_Settings setting else acc) ""
    (CaptchaSettings page).

(** [fetchDebugInfo] with an empty cache entry; a cached value is the same text. *)
Definition fetchDebugInfo (http : captcha_http) (scriptURL : string) : result string string :=
  match get_script http scriptURL with
  | Err e => Err e
  | Ok body => match find_submatch reCaptchaV2DebugInfo body with
               | Some v => Ok v
               | None => Err "debug_info match not found"
               end
  end.

(** [captchaV2BrowserFP]: sixteen random bytes, or the error of the random source. *)
Definition captchaV2BrowserFP (random : result string (list Z)) : result vk_error string :=
  match random with
  | Ok b => Ok (hex_encode b)
  | Err e => Err (WrapError "browser fp generate: " (TextError e) "")
  end.

(** [solveOnce]. *)
Definition solveOnce (s : captchaV2Session) (http : captcha_http) (random : result string (list Z))
    (captchaErr : VkCaptchaError) : result vk_error string :=
  html ← wrap_text "" (get_html http (RedirectURI captchaErr));
  page ← parseCaptchaV2Page html;
  if String.eqb (PowInput page) "" then Err (TextError "failed to find PoW settings")
  else
    let sliderSettings := slider_settings page in
    if String.eqb (ShowCaptchaType page) "slider" && String.eqb sliderSettings ""
    then Err (TextError "failed to find slider captcha settings")
    else
      let hash := solveCaptchaPoWV2 (pow_cancelled http) (PowInput page) (PowDifficulty page) in
      if String.eqb hash "" then Err (TextError "captcha pow failed")
      else
        let base := captchaV2BaseValues (SessionToken captchaErr) (domain s) in
        _ ← wrap_text "captcha settings failed: " (api http 0 0 "captchaNotRobot.settings" base);
        let browserFP := match s_savedProfile s with Some p => trim_space (BrowserFp p) | None => "" end in
        browserFP ← (if String.eqb browserFP "" then captchaV2BrowserFP random else Ok browserFP);
        debugInfo ← match fetchDebugInfo http (ScriptURL page) with
                    | Ok v => Ok v
                    | Err e => Err (WrapError "failed to fetch debug info: " (TextError e) " (script_version=1.1.1324)")
                    end;
        match show_loop 3 (ShowCaptchaType page) sliderSettings 0
          (fun round => lift (solveSliderCaptcha s http round (SessionToken captchaErr) browserFP hash sliderSettings debugInfo))
          (fun round => solveCheckboxCaptcha s http round (SessionToken captchaErr) browserFP hash debugInfo) with
        | Some (r, _) => r
        | None => Err (TextError "")
        end.

(** ** Attempts *)

(** [captchaDomainFromRedirectURI]. *)
Definition captchaDomainFromRedirectURI (redirectURI : string) : string :=
  match url_query_get redirectURI "domain" with
  | None => "vk.com"
  | Some d => let domain := trim_space d in if String.eqb domain "" then "vk.com" else domain
  end.

(** [rotateCaptchaV2Identity] with a fresh profile, the random bytes of its fingerprint and the
    varied description of the device. *)
Definition rotateCaptchaV2Identity (s : captchaV2Session) (base : option SavedProfile) (fresh : Profile)
    (random : result string (list Z)) (vary : string -> string) : captchaV2Session :=
  match captchaV2BrowserFP random with
  | Err _ => {| s_profile := fresh; s_savedProfile := s_savedProfile s; variedDeviceJSON := variedDeviceJSON s; domain := domain s |}
  | Ok fp =>
      {| s_profile := fresh;
         s_savedProfile := Some {| sp_profile := fresh;
                                   DeviceJSON := match s_savedProfile s with Some p => DeviceJSON p | None => "" end;
                                   BrowserFp := fp |};
         variedDeviceJSON := vary (captchaV2DeviceJSON base);
         domain := domain s |}
  end.

(** The world of a call of [solveVkCaptchaV2Attempts], by attempt. *)
Record attempts_world := {
  w_profile : Z -> Profile;
  w_random : Z -> result string (list Z);
  w_vary : Z -> string -> string;
  w_http : Z -> captcha_http;
  w_fp : Z -> result string (list Z);
  w_cancelled : Z -> option string              (* ctx.Err() in the pause after the attempt *)
}.

Fixpoint attempts_from (n : nat) (attempt : Z) (maxAttempts : Z) (s : captchaV2Session) (base : option SavedProfile)
    (w : attempts_world) (captchaErr : VkCaptchaError) : result vk_error string * Z :=
  match n with
  | O => (Err (TextError ("v2 captcha attempts exhausted (" ++ itoa maxAttempts ++ ")")), attempt - 1)
  | S n' =>
      let s := rotateCaptchaV2Identity s base (w_profile w attempt) (w_random w attempt) (w_vary w attempt) in
      match solveOnce s (w_http w attempt) (w_fp w attempt) captchaErr with
      | Ok token => (Ok token, attempt)
      | Err solveErr =>
          if is_rate_limit solveErr then (Err solveErr, attempt)
          else match w_cancelled w attempt with
               | Some e => (Err (TextError e), attempt)
               | None => attempts_from n' (attempt + 1) maxAttempts s base w captchaErr
               end
      end
  end.

(** [solveVkCaptchaV2Attempts]: the result and the attempts made. *)
Definition solveVkCaptchaV2Attempts (captchaErr : VkCaptchaError) (profile : Profile) (savedProfile : option SavedProfile)
    (maxAttempts : Z) (w : attempts_world) : result vk_error string * Z :=
  if String.eqb (SessionToken captchaErr) "" then (Err (TextError "no session_token in redirect_uri"), 0)
  else
    let maxAttempts := if maxAttempts <? 1 then 10 else maxAttempts in
    let s := {| s_profile := profile; s_savedProfile := savedProfile; variedDeviceJSON := "";
                domain := captchaDomainFromRedirectURI (RedirectURI captchaErr) |} in
    attempts_from (Z.to_nat maxAttempts) 1 maxAttempts s savedProfile w captchaErr.

(** ** Reading the errors *)

(** [isCaptchaSessionDead], [isCaptchaSessionExhausted]. *)
Definition isCaptchaSessionDead (e : vk_error) : bool :=
  let msg := to_lower (error_string e) in
  contains "getcontent status:" msg || contains "error_limit" msg.

Definition isCaptchaSessionExhausted (e : vk_error) : bool :=
  if is_rate_limit e then true
  else isCaptchaSessionDead e || contains "rate limit" (to_lower (error_string e)).
End Solver.

(** ** Facts *)

(** *** The search for a nonce *)

(** [round] lets the nonces of [[a, b)] pass. *)
Definition passes (round : Z -> option string) (a b : Z) : Prop := forall k, a <= k < b -> round k = None.

Lemma passes_app round a b c : passes round a b -> passes round b c -> passes round a c.
Proof. intros H1 H2 k Hk. destruct (Z_lt_le_dec k b); [apply H1 | apply H2]; lia. Qed.

Lemma passes_one round a : round a = None -> passes round a (a + 1).
Proof. intros Ha k Hk. by replace k with a by lia. Qed.

(** What [p] rounds from [a] find: the first nonce that does not pass, if there is one. *)
Definition found (p : positive) (round : Z -> option string) (a : Z) (r : Z + string) : Prop :=
  match r with
  | inl b => b = a + Zpos p /\ passes round a b
  | inr x => exists b, a <= b < a + Zpos p /\ passes round a b /\ round b = Some x
  end.

Lemma found_app p q round a r r' :
  found p round a (inl r) -> found q round r r' -> found (p + q) round a r'.
Proof.
  intros [-> Hp]. destruct r' as [b | x]; simpl; rewrite ?Pos2Z.inj_add.
  - intros [-> Hq]. split; [lia | by apply (passes_app _ _ (a + Zpos p))].
  - intros (b & Hb & Hq & Hx). exists b. split; [lia |]. split; [| done]. by apply (passes_app _ _ (a + Zpos p)).
Qed.

Lemma found_more p q round a x : (p <= q)%positive -> found p round a (inr x) -> found q round a (inr x).
Proof. intros Hpq (b & Hb & Hr). exists b. split; [lia | done]. Qed.

Lemma pow_search_found p round a : found p round a (pow_search p round a).
Proof.
  assert (forall a, found 1 round a (match round a with Some r => inr r | None => inl (a + 1) end)) as H1.
  { intros b. destruct (round b) as [r |] eqn:E; simpl.
    - exists b. split; [lia |]. split; [intros k; lia | done].
    - split; [done | by apply passes_one]. }
  revert a. induction p as [q IH | q IH |]; intros a; cbn [pow_search]; [| | apply H1].
  - specialize (H1 a). destruct (round a) as [r |] eqn:E; [apply (found_more 1); [lia | done] |].
    specialize (IH (a + 1)) as H2. destruct (pow_search q round (a + 1)) as [b | x].
    + replace (q~1)%positive with (1 + q + q)%positive by lia.
      apply (found_app _ _ _ _ b); [| apply IH]. by apply (found_app _ _ _ _ (a + 1)).
    + apply (found_more (1 + q)); [lia |]. by apply (found_app _ _ _ _ (a + 1)).
  - specialize (IH a) as H2. destruct (pow_search q round a) as [b | x].
    + replace (q~0)%positive with (q + q)%positive by lia. apply (found_app _ _ _ _ b); [done | apply IH].
    + apply (found_more q); [lia | done].
Qed.

(** *** Errors that may come from the parts of an attempt *)

(** Neither the bot error nor, unless it is that very sentinel, the rate limit. *)
Definition tame_err (e : vk_error) : Prop := is_bot e = false /\ (is_rate_limit e = true -> e = errCaptchaV2RateLimit).
Definition tame {A} (r : result vk_error A) : Prop := match r with Ok _ => True | Err e => tame_err e end.

Section TameErrors.
Context `{GoLib} `{CaptchaLib} `{Unicode}.

Lemma tame_ok {A} (x : A) : tame (Ok x).
Proof. done. Qed.

Lemma tame_text {A} m : tame (Err (TextError m) : result vk_error A).
Proof. done. Qed.

Lemma tame_limit {A} : tame (Err errCaptchaV2RateLimit : result vk_error A).
Proof. done. Qed.

Lemma tame_wrap_text b {A} (r : result string A) : tame (wrap_text b r).
Proof. by destruct r. Qed.

Lemma tame_bind {A B} (r : result vk_error A) (f : A -> result vk_error B) :
  tame r -> (forall x, tame (f x)) -> tame (r ≫= f).
Proof. destruct r as [x | e]; simpl; [intros _ Hf; apply Hf | done]. Qed.

Lemma tame_slider_err {A} (r : result slider_error A) : tame (slider_err r).
Proof. by destruct r. Qed.
End TameErrors.

Create HintDb tame.
#[export] Hint Resolve tame_ok tame_text tame_limit tame_wrap_text tame_slider_err tame_bind : tame.

(** Follow the branches of a definition down to values and errors. *)
Ltac tame_branches :=
  repeat match goal with
  | |- tame (match ?x with _ => _ end) => destruct x
  | |- tame (_ ≫= _) => apply tame_bind; [| intros ?]
  | |- _ => progress cbv zeta
  end; auto with tame; try done.

Section TameParts.
Context `{GoLib} `{CaptchaLib} `{Unicode} `{FloatOps F}.

Lemma tame_page html : tame (parseCaptchaV2Page html).
Proof. unfold parseCaptchaV2Page. tame_branches. Qed.

Lemma tame_check raw : tame (parseCaptchaV2Check raw).
Proof. unfold parseCaptchaV2Check. tame_branches. Qed.

Lemma tame_perform s http round guess t fp h a c d : tame (performCaptchaCheck s http round guess t fp h a c d).
Proof. unfold performCaptchaCheck. apply tame_bind; [auto with tame | apply tame_check]. Qed.

Lemma tame_steps items : tame (slider_steps items).
Proof.
  induction items as [| item items IH]; simpl; [done |].
  apply tame_bind; [| intros n; apply tame_bind; [done | done]]. unfold slider_step. tame_branches.
Qed.

Lemma tame_puzzle raw : tame (parseSliderPuzzleV2 raw).
Proof. unfold parseSliderPuzzleV2. pose proof tame_steps. tame_branches. Qed.

(** The result of the guesses when every check is tame. *)
Lemma tame_guesses n i check :
  (forall j, tame (check j)) ->
  match snd (try_guesses n i (fun j => slider_check (check j))) with
  | Ok token => token <> ""
  | Err e => tame_err (solve_error_value e)
  end.
Proof.
  intros Hc. revert i. induction n as [| n IH]; intros i; simpl; [done |].
  specialize (Hc i) as Hi. unfold slider_check at 1. destruct (check i) as [c | e]; [| exact Hi].
  destruct (equal_fold (Status c) "ok"); simpl; [by destruct (String.eqb_spec (SuccessToken c) "") |].
  destruct (equal_fold (Status c) "error_limit"); simpl; [done | apply IH].
Qed.

Lemma tame_slider s http round t fp h st d : tame (solveSliderCaptcha s http round t fp h st d).
Proof.
  unfold solveSliderCaptcha. apply tame_bind; [auto with tame | intros resp].
  apply tame_bind; [apply tame_puzzle | intros [[[img size] swaps] attempts]].
  apply tame_bind; [auto with tame | intros guesses]. destruct (_ <=? 0) eqn:Hlim; [done |].
  apply tame_bind; [auto with tame | intros _]. unfold solve_slider. rewrite Hlim.
  match goal with |- context [try_guesses ?n 0 (fun i => slider_check (@?c i))] =>
    pose proof (tame_guesses n 0 c (fun j => tame_perform _ _ _ _ _ _ _ _ _ _)) as Hg end.
  by destruct (snd _).
Qed.

(** A token comes out of the slider or the checkbox only as the server's non-empty text. *)
Lemma slider_token s http round t fp h st d token :
  solveSliderCaptcha s http round t fp h st d = Ok token -> token <> "".
Proof.
  unfold solveSliderCaptcha.
  intros (resp & _ & ([[[img size] swaps] attempts] & _ & (guesses & _ & Hr)%bind_ok)%bind_ok)%bind_ok.
  destruct (_ <=? 0) eqn:Hlim; [done |]. apply bind_ok in Hr as (x & _ & Hr). unfold solve_slider in Hr.
  rewrite Hlim in Hr. revert Hr.
  match goal with |- context [try_guesses ?n 0 (fun i => slider_check (@?c i))] =>
    pose proof (tame_guesses n 0 c (fun j => tame_perform _ _ _ _ _ _ _ _ _ _)) as Hg end.
  destruct (snd _) as [y | e]; [| done]. by intros [= ->].
Qed.

Lemma checkbox_token s http round t fp h d token :
  solveCheckboxCaptcha s http round t fp h d = Ok token -> token <> "".
Proof.
  unfold solveCheckboxCaptcha. intros (x & _ & Hr)%bind_ok.
  destruct (checkbox_cancelled http round); [done |]. apply bind_ok in Hr as (c & _ & Hr). revert Hr.
  do 4 (split_guard; [done |]). split_guard; [done |]. intros [= <-]. by apply String.eqb_neq.
Qed.

Lemma lift_err {A} (r : result vk_error A) e : lift r = Err e -> exists e', r = Err e' /\ e = OtherError e'.
Proof. destruct r as [x | e']; [done |]. intros [= <-]. by exists e'. Qed.

(** The checkbox's errors: a mismatch with the type to show, which is not the checkbox, or another
    error that is the rate limit only as the sentinel. *)
Lemma checkbox_error s http round t fp h d e :
  solveCheckboxCaptcha s http round t fp h d = Err e ->
  match e with
  | captchaV2ShowTypeError show => show <> "" /\ show <> "checkbox"
  | OtherError e' => is_rate_limit e' = true -> e' = errCaptchaV2RateLimit
  end.
Proof.
  assert (forall A (r : result vk_error A) e', tame r -> r = Err e' -> is_rate_limit e' = true -> e' = errCaptchaV2RateLimit)
    as Htame by (intros A r e' Ht ->; apply Ht).
  unfold solveCheckboxCaptcha. intros [(e' & He & ->)%lift_err | (x & _ & Hr)]%bind_err.
  { eapply Htame; [| done]. apply tame_wrap_text. }
  destruct (checkbox_cancelled http round); [by injection Hr as <- |].
  apply bind_err in Hr as [(e' & He & ->)%lift_err | (c & _ & Hr)].
  { eapply Htame; [| done]. apply tame_perform. }
  revert Hr. destruct (_ && _) eqn:Hst.
  - intros [= <-]. apply andb_true_iff in Hst as [H1' H2']. apply negb_true_iff, String.eqb_neq in H1'.
    split; [done |]. intros Heq. by rewrite Heq in H2'.
  - do 4 (split_guard; [by intros [= <-] |]). done.
Qed.
End TameParts.

(** *** The loop over show types *)

Section ShowLoop.
Context `{GoLib} `{CaptchaLib} `{Unicode}.
Variables (slider checkbox : nat -> result captcha_error string) (sliderSettings : string).

(** What the two solvers promise. *)
Hypothesis slider_ok : forall n,
  match slider n with Ok token => token <> "" | Err e => exists e', e = OtherError e' /\ is_bot e' = false end.
Hypothesis checkbox_ok : forall n,
  match checkbox n with
  | Ok token => token <> ""
  | Err (captchaV2ShowTypeError show) => show <> "" /\ show <> "checkbox"
  | Err (OtherError _) => True
  end.

Definition loop_result (r : option (result vk_error string * list shown)) (shows : list (list shown)) : Prop :=
  exists r' l, r = Some (r', l) /\ l ∈ shows /\
    match r' with
    | Ok token => token <> ""
    | Err e => (exists n e', checkbox n = Err e' /\ e = show_type_value e') \/
               (exists n e', slider n = Err e' /\ e = show_type_value e') \/
               exists m, e = TextError m
    end.

Lemma show_slider fuel round :
  (1 <= fuel)%nat -> loop_result (show_loop fuel "slider" sliderSettings round slider checkbox) [[ShownSlider]].
Proof.
  destruct fuel as [| fuel]; [lia |]. intros _. cbn [show_loop]. change (String.eqb "slider" "slider") with true. cbv iota.
  specialize (slider_ok round) as Hs. destruct (slider round) as [token | e] eqn:E.
  - exists (Ok token), [ShownSlider]. repeat split; [by left | done].
  - destruct Hs as (e' & -> & Hb). rewrite Hb. cbn [andb]. exists (Err e'), [ShownSlider].
    repeat split; [by left |]. right. left. by exists round, (OtherError e').
Qed.

Lemma show_not_checkbox fuel show round :
  (1 <= fuel)%nat -> show <> "checkbox" -> show <> "" ->
  loop_result (show_loop fuel show sliderSettings round slider checkbox) [[ShownSlider]; []].
Proof.
  intros Hf Hc He. destruct (decide (show = "slider")) as [-> | Hs].
  - destruct (show_slider fuel round Hf) as (r & l & -> & Hl & Hr). exists r, l. repeat split; [| done].
    apply list_elem_of_singleton in Hl as ->. by left.
  - destruct fuel as [| fuel]; [lia |]. cbn [show_loop]. apply String.eqb_neq in Hs, Hc, He. rewrite Hs, Hc, He.
    eexists _, []. repeat split; [by right; left |]. right. right. by eexists.
Qed.

Lemma show_any fuel show round :
  (2 <= fuel)%nat ->
  loop_result (show_loop fuel show sliderSettings round slider checkbox)
    [[]; [ShownSlider]; [ShownCheckbox]; [ShownCheckbox; ShownSlider]].
Proof.
  intros Hf. destruct (decide (show = "checkbox" \/ show = "")) as [Hc | Hn].
  2: { destruct (show_not_checkbox fuel show round) as (r & l & -> & Hl & Hr); [lia | naive_solver .. |].
       exists r, l. repeat split; [| done]. set_solver. }
  destruct fuel as [| fuel]; [lia |]. cbn [show_loop].
  assert (String.eqb show "slider" = false) as -> by (by destruct Hc as [-> | ->]).
  assert (String.eqb show "checkbox" || String.eqb show "" = true) as -> by (by destruct Hc as [-> | ->]).
  specialize (checkbox_ok round) as Hb. destruct (checkbox round) as [token | e] eqn:E.
  { exists (Ok token), [ShownCheckbox]. repeat split; [set_solver | done]. }
  assert (forall show', show' <> "" -> show' <> "checkbox" ->
    loop_result (match show_loop fuel show' sliderSettings (S round) slider checkbox with
                 | Some (r, l) => Some (r, ShownCheckbox :: l) | None => None end)
      [[]; [ShownSlider]; [ShownCheckbox]; [ShownCheckbox; ShownSlider]]) as Hnext.
  { intros show' He Hs. destruct (show_not_checkbox fuel show' (S round)) as (r & l & -> & Hl & Hr); [lia | done.. |].
    exists r, (ShownCheckbox :: l). repeat split; [set_solver | done]. }
  destruct (_ && _); [by apply Hnext |]. destruct e as [show' | e'].
  - destruct Hb as [Hb1 Hb2]. apply String.eqb_neq in Hb1 as Hb1'. rewrite Hb1'. by apply Hnext.
  - exists (Err e'), [ShownCheckbox]. repeat split; [set_solver |]. left. by exists round, (OtherError e').
Qed.
End ShowLoop.

Section Attempts.
Context `{GoLib} `{CaptchaLib} `{Unicode} `{FloatOps F}.

(** The loop of [solveOnce] with the solvers of the session. *)
Lemma attempt_shows s http t fp h st d show fuel :
  (2 <= fuel)%nat ->
  exists r l,
    show_loop fuel show st 0 (fun round => lift (solveSliderCaptcha s http round t fp h st d))
      (fun round => solveCheckboxCaptcha s http round t fp h d) = Some (r, l) /\
    l ∈ [[]; [ShownSlider]; [ShownCheckbox]; [ShownCheckbox; ShownSlider]] /\
    match r with Ok token => token <> "" | Err e => is_rate_limit e = true -> e = errCaptchaV2RateLimit end.
Proof.
  intros Hf.
  destruct (show_any (fun round => lift (solveSliderCaptcha s http round t fp h st d))
      (fun round => solveCheckboxCaptcha s http round t fp h d) st) with (fuel := fuel) (show := show) (round := 0%nat)
    as (r & l & Hr & Hl & Hres); [| | done |].
  - intros n. pose proof (tame_slider s http n t fp h st d) as Ht. pose proof (slider_token s http n t fp h st d) as Hk.
    destruct (solveSliderCaptcha _ _ _ _ _ _ _ _) as [token | e]; [by apply Hk |]. exists e. split; [done | apply Ht].
  - intros n. pose proof (checkbox_error s http n t fp h d) as He. pose proof (checkbox_token s http n t fp h d) as Hk.
    destruct (solveCheckboxCaptcha _ _ _ _ _ _ _) as [token | [show' | e]]; [by apply Hk | exact (He _ eq_refl) | done].
  - exists r, l. split; [done |]. split; [done |]. destruct r as [token | e]; [done |].
    destruct Hres as [(n & e' & He & ->) | [(n & e' & (e'' & He & ->)%lift_err & ->) | [m ->]]]; [| | done].
    + apply checkbox_error in He. by destruct e'.
    + pose proof (tame_slider s http n t fp h st d) as Ht. rewrite He in Ht. apply Ht.
Qed.

Lemma solveOnce_result s http random c :
  match solveOnce s http random c with
  | Ok token => token <> ""
  | Err e => is_rate_limit e = true -> e = errCaptchaV2RateLimit
  end.
Proof.
  assert (forall A (r : result vk_error A) (f : A -> result vk_error string),
    tame r -> (forall x, match f x with Ok token => token <> "" | Err e => is_rate_limit e = true -> e = errCaptchaV2RateLimit end) ->
    match r ≫= f with Ok token => token <> "" | Err e => is_rate_limit e = true -> e = errCaptchaV2RateLimit end) as Hbind.
  { intros A r f Ht Hf. destruct r as [x | e]; [apply Hf | exact (proj2 Ht)]. }
  unfold solveOnce. apply Hbind; [auto with tame | intros html]. apply Hbind; [apply tame_page | intros page].
  cbv zeta. split_guard; [done |]. split_guard; [done |]. split_guard; [done |].
  apply Hbind; [auto with tame | intros _]. apply Hbind; [split_guard; [by destruct random | done] | intros fp].
  apply Hbind; [by destruct (fetchDebugInfo http (ScriptURL page)) | intros d].
  match goal with |- context [show_loop 3 ?show ?st 0 (fun round => lift (solveSliderCaptcha _ _ _ ?t ?f ?h _ _)) _] =>
    destruct (attempt_shows s http t f h st d show 3 ltac:(lia)) as (r & l & -> & _ & Hr) end.
  exact Hr.
Qed.

(** What a run of attempts can end with. *)
Lemma attempts_from_result n attempt maxAttempts s base w c :
  let '(r, made) := attempts_from n attempt maxAttempts s base w c in
  attempt - 1 <= made <= attempt - 1 + Z.of_nat n /\
  match r with
  | Ok token => token <> "" /\ attempt <= made
  | Err e => e = errCaptchaV2RateLimit \/ (exists k m, w_cancelled w k = Some m /\ e = TextError m) \/
             (e = TextError ("v2 captcha attempts exhausted (" ++ itoa maxAttempts ++ ")") /\ made = attempt - 1 + Z.of_nat n)
  end.
Proof.
  revert attempt s. induction n as [| n IH]; intros attempt s; cbn [attempts_from]; cbv zeta.
  { split; [lia |]. right. right. split; [done | lia]. }
  match goal with |- context [solveOnce ?s ?h ?f c] => pose proof (solveOnce_result s h f c) as Ho;
    destruct (solveOnce s h f c) as [token | e] end; [split; [lia | split; [done | lia]] |].
  destruct (is_rate_limit e); [split; [lia |]; left; by apply Ho |].
  destruct (w_cancelled w attempt) as [m |] eqn:Ec; [split; [lia |]; right; left; by exists attempt, m |].
  match goal with |- context [attempts_from n (attempt + 1) maxAttempts ?s base w c] =>
    specialize (IH (attempt + 1) s); destruct (attempts_from n (attempt + 1) maxAttempts s base w c) as [r made] end.
  destruct IH as [Hm Hr]. split; [lia |]. destruct r as [token | e'].
  - destruct Hr. split; [done | lia].
  - destruct Hr as [Hr | [Hr | [Hr ?]]]; [by left | right; by left |]. right. right. split; [done | lia].
Qed.

(** *** Properties *)

(** The proof of work returns the hash of the first nonce from 1 to 10,000,000 whose
    hexadecimal SHA-256 starts with [difficulty] zeros; when it returns nothing although it was
    asked for a hash and not cancelled, no nonce of the range has one. *)
Theorem pow_correct cancelled input difficulty :
  let h := solveCaptchaPoWV2 cancelled input difficulty in
  let zeros := repeat_char (Z.to_nat difficulty) "0" in
  (h <> "" -> exists nonce, 1 <= nonce <= 10000000 /\ h = pow_hash input nonce /\ has_prefix zeros h = true /\
     forall k, 1 <= k < nonce -> has_prefix zeros (pow_hash input k) = false) /\
  (h = "" -> input <> "" -> 0 < difficulty -> (forall k, cancelled k = false) ->
     forall k, 1 <= k <= 10000000 -> has_prefix zeros (pow_hash input k) = false).
Proof.
  intros h zeros. unfold h, solveCaptchaPoWV2. fold zeros.
  destruct (String.eqb_spec input "") as [-> | Hi]; [by split |].
  destruct (Z.leb_spec difficulty 0) as [Hd | Hd]; [split; [done |]; lia |]. cbn [orb].
  set (round := pow_round input zeros cancelled).
  pose proof (pow_search_found 10000000 round 1) as Hf.
  assert (forall k, round k = None -> has_prefix zeros (pow_hash input k) = false) as Hnone.
  { intros k. unfold round, pow_round. destruct (_ && cancelled k); [done |]. by destruct (has_prefix _ _). }
  destruct (pow_search 10000000 round 1) as [b | x]; simpl in Hf.
  - destruct Hf as [-> Hp]. split; [done |]. intros _ _ _ _ k Hk. apply Hnone, Hp. lia.
  - destruct Hf as (b & Hb & Hp & Hx). unfold round, pow_round in Hx. split.
    + intros Hne. exists b. destruct (_ && cancelled b); [congruence |].
      destruct (has_prefix zeros (pow_hash input b)) eqn:Hpre; [| done]. injection Hx as <-.
      repeat split; [lia | lia | done |]. intros k Hk. apply Hnone, Hp. lia.
    + intros -> _ _ Hcanc. rewrite Hcanc, andb_false_r in Hx.
      destruct (has_prefix zeros (pow_hash input b)) eqn:Hpre; [| done]. injection Hx as Hx.
      rewrite Hx in Hpre. unfold zeros in Hpre.
      replace (Z.to_nat difficulty) with (S (Z.to_nat (difficulty - 1))) in Hpre by lia. done.
Qed.

(** Whatever types the page and the server name, an attempt shows at most the checkbox and then
    the slider, each once: the loop over show types returns the same result for any fuel from two
    rounds on, and a token it returns is a non-empty text of the server. *)
Theorem captcha_shows_bounded s http t fp h st d show fuel :
  (2 <= fuel)%nat ->
  let loop n := show_loop n show st 0 (fun round => lift (solveSliderCaptcha s http round t fp h st d))
                  (fun round => solveCheckboxCaptcha s http round t fp h d) in
  exists r l, loop fuel = Some (r, l) /\
    (l = [] \/ l = [ShownSlider] \/ l = [ShownCheckbox] \/ l = [ShownCheckbox; ShownSlider]) /\
    forall token, r = Ok token -> token <> "".
Proof.
  intros Hf loop. destruct (attempt_shows s http t fp h st d show fuel Hf) as (r & l & Hr & Hl & Ht).
  exists r, l. split; [done |]. split; [set_solver |]. intros token ->. done.
Qed.

(** Solving makes at most the attempts asked for, all of them unless it succeeds, the rate limit is
    reached or the context ends; a returned token is not empty.  Its errors never say that the
    captcha session is dead: the branches of the callers that ask VK for a new captcha after
    [isCaptchaSessionDead] are never taken. *)
Theorem dead_session_unreachable c profile savedProfile maxAttempts w :
  1 <= maxAttempts <= 10 ->
  (forall k m, w_cancelled w k = Some m -> m = "context canceled" \/ m = "context deadline exceeded") ->
  let '(r, made) := solveVkCaptchaV2Attempts c profile savedProfile maxAttempts w in
  0 <= made <= maxAttempts /\
  match r with
  | Ok token => token <> "" /\ 1 <= made
  | Err e => isCaptchaSessionDead e = false
  end.
Proof.
  intros Hmax Hctx. unfold solveVkCaptchaV2Attempts.
  destruct (String.eqb (SessionToken c) ""); [split; [lia | by vm_compute] |].
  rewrite (proj2 (Z.ltb_ge maxAttempts 1)) by lia.
  match goal with |- context [attempts_from ?n 1 ?m ?s ?b w c] =>
    pose proof (attempts_from_result n 1 m s b w c) as Ha; destruct (attempts_from n 1 m s b w c) as [r made] end.
  destruct Ha as [Hm Hr]. split; [lia |]. destruct r as [token | e]; [done |].
  destruct Hr as [-> | [(k & m & Hk & ->) | [-> _]]].
  - by vm_compute.
  - destruct (Hctx k m Hk) as [-> | ->]; by vm_compute.
  - assert (maxAttempts = 1 \/ maxAttempts = 2 \/ maxAttempts = 3 \/ maxAttempts = 4 \/ maxAttempts = 5 \/
            maxAttempts = 6 \/ maxAttempts = 7 \/ maxAttempts = 8 \/ maxAttempts = 9 \/ maxAttempts = 10) as Hn by lia.
    repeat destruct Hn as [-> | Hn]; [by vm_compute .. |]. subst. by vm_compute.
Qed.
End Attempts.

(** ** A concrete challenge *)

#[local] Instance lib0 : GoLib :=
  {| fmt_v _ := "map[]"; fmt_q s := s; url_query_get _ _ := Some "session"; json_marshal _ := "{}" |}.
#[local] Instance clib0 : CaptchaLib := {|
  format_float x := itoa (f_int x); marshal _ := "{}";
  unmarshal _ := Ok (JObj [("data", JObj [("show_captcha_type", JStr "checkbox")])]);
  decode_image _ := Err "no image"; cursor_track _ _ := "[]"; arrival := id |}.
#[local] Instance unicode0 : Unicode := id.
#[local] Instance floats0 : FloatOps Z := {
  fdec n k := n * 100 / 10 ^ k; fofint n := n * 100; fadd := Z.add; fsub := Z.sub;
  fmul a b := a * b / 100; fdiv a b := a * 100 / b; fneg := Z.opp; fexp _ := 100;
  fltb := Z.ltb; feqb := Z.eqb
}.

Definition html0 : string := unquote
  ("<script src='https://id.vk.com/vkid/1.1.1324/not_robot_captcha.js'></script>" ++
   "<script>window.init = {'data':{'show_captcha_type':'checkbox'}} ;const powInput = 'seed25';const difficulty = 1</script>").

(** A 64-digit debug_info. *)
Definition script0 : string := unquote ("debug_info:window.x||'" ++ repeat_char 64 "a" ++ "'").

Definition answer0 (status token : string) : object :=
  [("response", JObj [("status", JStr status); ("success_token", JStr token)])].

Definition http0 (status : string) : captcha_http := {|
  get_html _ := Ok html0; get_script _ := Ok script0;
  api _ _ _ _ := Ok (answer0 status "token0"); checkbox_cancelled _ := false; pow_cancelled _ := false |}.

Definition profile0 : Profile := {| UserAgent := "Chrome"; SecChUa := ""; SecChUaMobile := "?0"; SecChUaPlatform := "Linux" |}.

Definition session0 : captchaV2Session :=
  {| s_profile := profile0; s_savedProfile := None; variedDeviceJSON := ""; domain := "vk.com" |}.

Definition challenge0 : VkCaptchaError :=
  {| ErrorCode := 14; ErrorMsg := ""; CaptchaSid := "1"; CaptchaImg := ""; RedirectURI := "https://id.vk.ru/";
     SessionToken := "session"; CaptchaTs := "1"; CaptchaAttempt := "1" |}.

Example page0 : parseCaptchaV2Page html0 = Ok
  {| PowInput := "seed25"; PowDifficulty := 1; ScriptURL := "https://id.vk.com/vkid/1.1.1324/not_robot_captcha.js";
     ShowCaptchaType := "checkbox"; CaptchaSettings := [] |}.
Proof. vm_compute. reflexivity. Qed.

Example solved0 : solveOnce session0 (http0 "OK") (Ok [1; 2]) challenge0 = Ok "token0".
Proof. vm_compute. reflexivity. Qed.

Lemma captcha_shows_bounded_witness :
  exists r l, show_loop 7 "" "" 0
    (fun round => lift (solveSliderCaptcha session0 (http0 "bot") round "session" "fp" "hash" "" "info"))
    (fun round => solveCheckboxCaptcha session0 (http0 "bot") round "session" "fp" "hash" "info") = Some (r, l) /\
    forall token, r = Ok token -> token <> "".
Proof.
  destruct (captcha_shows_bounded session0 (http0 "bot") "session" "fp" "hash" "" "info" "" 7)
    as (r & l & Hr & _ & Ht); [lia |]. exists r, l. split; [exact Hr | exact Ht].
Defined.

Definition world0 (status : string) : attempts_world := {|
  w_profile _ := profile0; w_random _ := Ok [1; 2]; w_vary _ base := base; w_http _ := http0 status;
  w_fp _ := Ok [1; 2]; w_cancelled _ := None |}.

(** Two rejected attempts: the error is the exhaustion, whatever the server said. *)
Lemma dead_session_unreachable_witness :
  let '(r, made) := solveVkCaptchaV2Attempts challenge0 profile0 None 2 (world0 "fail") in
  0 <= made <= 2 /\ match r with Ok token => token <> "" /\ 1 <= made | Err e => isCaptchaSessionDead e = false end.
Proof. apply dead_session_unreachable; [lia |]. intros k m Hk. discriminate Hk. Defined.
