(* ===== verification/CaptchaChain.v ===== *)
(** * Choosing a captcha solver (internal/core/creds.go: [solveCaptchaBySelectedMode],
    [requestWebViewCaptcha]).

    A WebView answer travels through a channel with room for one string: a request drains what an
    earlier one left there, announces itself and waits for its own answer. *)

From S2P Require Import Prelude GoStrings Json VkErrors Hashing Captcha.
From Stdlib Require Import ZArith Lia String Ascii.
From stdpp Require Import base list strings.
Open Scope string_scope.
Open Scope Z_scope.

Definition captchaAutoWebViewTimeout : Z := 10000.
Definition captchaManualWebViewTimeout : Z := 60000.
Definition captchaSelectedWebViewTimeout : Z := 120000.

(** What [emitCaptchaRequest] announces, and how long the answer is waited for (milliseconds). *)
Record webview_request := { wv_mode : string; wv_uri : string; wv_token : string; wv_timeout : Z }.

(** A channel with room for one string; [None] is the nil channel. *)
Abbreviation result_chan := (option (option string)).

Definition drainCaptchaResult (ch : result_chan) : result_chan := (fun _ => None) <$> ch.

Section Chain.
Context `{GoLib} `{Unicode}.

(** [requestWebViewCaptcha].  [answers r] is the value that reaches the channel before the time of
    request [r] runs out; the second and third results are the request announced and the channel. *)
Definition requestWebViewCaptcha (c : VkCaptchaError) (mode : string) (timeout : Z) (ch : result_chan)
    (answers : webview_request -> option string)
    : result vk_error string * option webview_request * result_chan :=
  match ch with
  | None => (Err (TextError "webview captcha data is incomplete"), None, ch)
  | Some _ =>
      if String.eqb (RedirectURI c) "" || String.eqb (SessionToken c) ""
      then (Err (TextError "webview captcha data is incomplete"), None, ch)
      else
        let mode := to_lower (trim_space mode) in
        let mode := if negb (String.eqb mode "manual") && negb (String.eqb mode "selected") then "auto" else mode in
        let timeout := if timeout <=? 0 then captchaAutoWebViewTimeout else timeout in
        let ch := drainCaptchaResult ch in
        let req := {| wv_mode := mode; wv_uri := RedirectURI c; wv_token := SessionToken c; wv_timeout := timeout |} in
        let r :=
          match answers req with
          | Some result =>
              let result := trim_space result in
              if String.eqb result "" then Err (TextError "webview captcha returned empty result")
              else
                let lowerResult := to_lower result in
                if String.eqb lowerResult "error:timeout" then Err (TextError "webview captcha timed out")
                else if has_prefix "error:" lowerResult then Err (TextError ("webview captcha failed: " ++ result))
                else Ok result
          | None => Err (TextError "webview captcha timed out")
          end in
        (r, Some req, ch)
  end.

Definition isWebViewCaptchaTimeout (e : vk_error) : bool := contains "timed out" (to_lower (error_string e)).

(** [rotateCaptchaProfile]: a fresh profile with random bytes for its fingerprint. *)
Definition rotateCaptchaProfile (fresh : Profile) (random : result string (list Z)) (vary : string -> string)
    : result vk_error SavedProfile :=
  fp ← captchaV2BrowserFP random;
  Ok {| sp_profile := fresh; DeviceJSON := vary (unquote captchaV2DeviceInfo); BrowserFp := fp |}.

(** [markCaptchaSessionExpired]. *)
Definition markCaptchaSessionExpired : vk_error := errCaptchaSessionExpired.

(** ** The chain *)

(** What was tried: the Go solver with its attempts, or the WebView. *)
Inductive action := TryV2 (attempts : Z) | TryWebView (req : webview_request).

(** The outcomes the chain meets: the [k]-th run of the Go solver, the answer to the [k]-th WebView
    request, the state of the context after the [k]-th step and in the pauses. *)
Record chain_world := {
  v2 : nat -> option SavedProfile -> Z -> result vk_error string;
  webview : nat -> webview_request -> option string;
  left_over : nat -> result_chan;                 (* the channel before the [k]-th request *)
  ctx_err : nat -> bool;
  pause_err : nat -> bool
}.

Definition ask (w : chain_world) (k : nat) (c : VkCaptchaError) (mode : string) (timeout : Z)
    : result vk_error string * list action :=
  let '(r, req, _) := requestWebViewCaptcha c mode timeout (left_over w k) (webview w k) in
  (r, match req with Some q => [TryWebView q] | None => [] end).

(** The final Go attempt and the manual WebView of the automatic chain. *)
Definition auto_last (w : chain_world) (c : VkCaptchaError) (saved : option SavedProfile)
    : result vk_error string * list action :=
  match v2 w 1 saved 1 with
  | Ok token => (Ok token, [TryV2 1])
  | Err lastErr =>
      if ctx_err w 3 then (Err lastErr, [TryV2 1])
      else match ask w 2 c "manual" captchaManualWebViewTimeout with
           | (Ok token, acts) => (Ok token, TryV2 1 :: acts)
           | (Err solveErr, acts) =>
               (Err (WrapError "automatic captcha chain failed: " lastErr
                      ("; manual fallback failed: " ++ error_string solveErr)), TryV2 1 :: acts)
           end
  end.

(** The automatic WebView rounds: [n] left, the [k]-th next. *)
Fixpoint auto_webview (n k : nat) (w : chain_world) (c : VkCaptchaError) (saved : option SavedProfile)
    : result vk_error string * list action :=
  match n with
  | O => auto_last w c saved
  | S n' =>
      match ask w k c "auto" captchaAutoWebViewTimeout with
      | (Ok token, acts) => (Ok token, acts)
      | (Err solveErr, acts) =>
          if ctx_err w (S k) then (Err solveErr, acts)
          else if pause_err w k then (Err (TextError "context canceled"), acts)
          else let '(r, acts') := auto_webview n' (S k) w c saved in (r, acts ++ acts')%list
      end
  end.

(** [solveCaptchaBySelectedMode]. *)
Definition solveCaptchaBySelectedMode (mode : string) (w : chain_world) (c : VkCaptchaError)
    (savedProfile : option SavedProfile) (fresh : result vk_error SavedProfile)
    : result vk_error string * list action :=
  let saved := match fresh with Ok p => Some p | Err _ => savedProfile end in
  if String.eqb mode "wv" then ask w 0 c "selected" captchaSelectedWebViewTimeout
  else
    match v2 w 0 saved 2 with
    | Ok token => (Ok token, [TryV2 2])
    | Err solveErr =>
        if ctx_err w 0 then (Err solveErr, [TryV2 2])
        else if isCaptchaSessionDead solveErr then (Err markCaptchaSessionExpired, [TryV2 2])
        else
          let '(r, acts) := if String.eqb mode "rjs" then ask w 0 c "auto" captchaAutoWebViewTimeout
                            else auto_webview 2 0 w c saved in
          (r, TryV2 2 :: acts)
    end.

(** ** Facts *)

(** A complete challenge: what the solvers need to be asked at all. *)
Definition complete (c : VkCaptchaError) (w : chain_world) : Prop :=
  RedirectURI c <> "" /\ SessionToken c <> "" /\ forall k, left_over w k <> None.

Definition request_of (c : VkCaptchaError) (mode : string) (timeout : Z) : webview_request :=
  {| wv_mode := mode; wv_uri := RedirectURI c; wv_token := SessionToken c; wv_timeout := timeout |}.

Definition manual_mode (mode : string) : Prop := mode = "manual" \/ mode = "selected" \/ mode = "auto".

Definition token_of (r : result vk_error string) : option string := match r with Ok token => Some token | Err _ => None end.

(** The token in an answer of the WebView: what is neither blank nor an error message, without the spaces around it. *)
Definition webview_token (answer : option string) : option string :=
  s ← answer;
  let token := trim_space s in
  if String.eqb token "" || has_prefix "error:" (to_lower token) then None else Some token.

Lemma ask_complete w k c mode timeout :
  complete c w -> manual_mode mode -> 0 < timeout ->
  let '(r, acts) := ask w k c mode timeout in
  acts = [TryWebView (request_of c mode timeout)] /\
  token_of r = webview_token (webview w k (request_of c mode timeout)).
Proof.
  intros (Hu & Ht & Hl) Hmode Htime. unfold ask, requestWebViewCaptcha.
  destruct (left_over w k) eqn:E; [| by destruct (Hl k)].
  apply String.eqb_neq in Hu, Ht. rewrite Hu, Ht. cbn [orb].
  assert ((let m := to_lower (trim_space mode) in
    if negb (String.eqb m "manual") && negb (String.eqb m "selected") then "auto" else m) = mode) as Hm
    by (destruct Hmode as [-> | [-> | ->]]; reflexivity).
  cbv zeta in Hm |- *. rewrite Hm, (proj2 (Z.leb_gt timeout 0)) by lia. fold (request_of c mode timeout).
  split; [done |]. unfold webview_token. destruct (webview w k (request_of c mode timeout)) as [s |]; [| done].
  cbn [mbind option_bind].
  destruct (String.eqb (trim_space s) "") eqn:Hne; [done |]. cbn [orb].
  destruct (String.eqb_spec (to_lower (trim_space s)) "error:timeout") as [-> |]; [done |].
  by destruct (has_prefix "error:" (to_lower (trim_space s))).
Qed.

(** The whole automatic chain. *)
Definition auto_chain (c : VkCaptchaError) : list action :=
  [TryV2 2; TryWebView (request_of c "auto" 10000); TryWebView (request_of c "auto" 10000);
   TryV2 1; TryWebView (request_of c "manual" 60000)].

(** What the five of them give, by the order of the chain: the outcomes of the world, not of the code. *)
Definition chain_tokens (w : chain_world) (c : VkCaptchaError) (saved : option SavedProfile) : list (option string) :=
  [token_of (v2 w 0 saved 2); webview_token (webview w 0 (request_of c "auto" 10000));
   webview_token (webview w 1 (request_of c "auto" 10000)); token_of (v2 w 1 saved 1);
   webview_token (webview w 2 (request_of c "manual" 60000))].

Definition undisturbed (w : chain_world) : Prop := forall k, ctx_err w k = false /\ pause_err w k = false.

(** The first of a plan's solvers that gives a token ends it, and nobody else is tried; without a token the plan ends
    early only when the context does. *)
Definition first_token (w : chain_world) (plan : list action) (tokens : list (option string))
    (out : result vk_error string * list action) : Prop :=
  exists n, (n < length plan)%nat /\ out.2 = take (S n) plan /\
  match out.1 with
  | Ok token => tokens !! n = Some (Some token) /\ Forall (fun t => t = None) (take n tokens)
  | Err _ => Forall (fun t => t = None) (take (S n) tokens) /\ (undisturbed w -> S n = length plan)
  end.

Lemma first_found w a plan t tokens token : t = Some token -> first_token w (a :: plan) (t :: tokens) (Ok token, [a]).
Proof. intros ->. exists 0%nat. cbn. split; [lia |]. by rewrite take_0. Qed.

Lemma first_stopped w a plan t tokens e : t = None -> ~ undisturbed w -> first_token w (a :: plan) (t :: tokens) (Err e, [a]).
Proof. intros -> Hu. exists 0%nat. cbn. split; [lia |]. rewrite !take_0. split; [done |]. by split; [constructor |]. Qed.

Lemma first_next w a plan t tokens r acts : t = None -> first_token w plan tokens (r, acts) ->
  first_token w (a :: plan) (t :: tokens) (r, a :: acts).
Proof.
  intros -> (n & Hn & Ha & Hr). exists (S n). cbn [fst snd] in *. split; [cbn; lia |]. split; [cbn [take]; by f_equal |].
  destruct r; destruct Hr as [H1 H2].
  - split; [done |]. by constructor.
  - split; [by constructor |]. intros Hu. cbn. f_equal. by apply H2.
Qed.

Lemma ctx_disturbs w k : ctx_err w k = true -> ~ undisturbed w.
Proof. intros E Hu. destruct (Hu k). congruence. Qed.

Lemma pause_disturbs w k : pause_err w k = true -> ~ undisturbed w.
Proof. intros E Hu. destruct (Hu k). congruence. Qed.

Lemma auto_last_first w c saved : complete c w ->
  first_token w (drop 3 (auto_chain c)) (drop 3 (chain_tokens w c saved)) (auto_last w c saved).
Proof.
  intros Hc. unfold auto_last. cbn [drop auto_chain chain_tokens].
  destruct (v2 w 1 saved 1) as [token | e]; [by apply first_found |].
  destruct (ctx_err w 3) eqn:Ectx; [apply first_stopped; [done | by eapply ctx_disturbs] |].
  pose proof (ask_complete w 2 c "manual" captchaManualWebViewTimeout Hc ltac:(by left) ltac:(done)) as Ha.
  destruct (ask w 2 c "manual" captchaManualWebViewTimeout) as [[token | e'] acts]; destruct Ha as [-> Ha].
  - apply first_next; [done |]. apply first_found. exact (eq_sym Ha).
  - apply first_next; [done |]. exists 0%nat. cbn. split; [lia |]. split; [done |].
    split; [by constructor; [exact (eq_sym Ha) |] | done].
Qed.

(** A WebView round, and what follows it. *)
Lemma webview_round n k w c saved plan tokens : complete c w ->
  first_token w plan tokens (auto_webview n (S k) w c saved) ->
  first_token w (TryWebView (request_of c "auto" 10000) :: plan)
    (webview_token (webview w k (request_of c "auto" 10000)) :: tokens) (auto_webview (S n) k w c saved).
Proof.
  intros Hc IH. cbn [auto_webview].
  pose proof (ask_complete w k c "auto" captchaAutoWebViewTimeout Hc ltac:(by right; right) ltac:(done)) as Ha.
  change (request_of c "auto" captchaAutoWebViewTimeout) with (request_of c "auto" 10000) in Ha.
  destruct (ask w k c "auto" captchaAutoWebViewTimeout) as [[token | e] acts]; destruct Ha as [-> Ha]; cbn in Ha.
  { by apply first_found. }
  destruct (ctx_err w (S k)) eqn:E1; [apply first_stopped; [done | by eapply ctx_disturbs] |].
  destruct (pause_err w k) eqn:E2; [apply first_stopped; [done | by eapply pause_disturbs] |].
  destruct (auto_webview n (S k) w c saved) as [r acts']. by apply first_next.
Qed.

(** ** Properties *)

(** C11: in the automatic mode the solvers are tried in one order: two attempts of the Go solver,
    two automatic WebViews of ten seconds, one more Go attempt, a manual WebView of a minute.  The
    first that gives a token gives the result and nobody after it is tried; with an error nobody that
    was tried gave one, and unless the context ended or the captcha session was dead all five were
    tried.  When the Go solver finds the session dead, nobody else is tried and the error asks for a
    new session. *)
Theorem captcha_chain_order mode w c savedProfile fresh :
  mode <> "wv" -> mode <> "rjs" -> complete c w ->
  let saved := match fresh with Ok p => Some p | Err _ => savedProfile end in
  let tokens := chain_tokens w c saved in
  let '(r, acts) := solveCaptchaBySelectedMode mode w c savedProfile fresh in
  (exists n, (n < 5)%nat /\ acts = take (S n) (auto_chain c) /\
    match r with
    | Ok token => tokens !! n = Some (Some token) /\ Forall (fun t => t = None) (take n tokens)
    | Err e => Forall (fun t => t = None) (take (S n) tokens) /\
        (undisturbed w -> (forall e', v2 w 0 saved 2 = Err e' -> isCaptchaSessionDead e' = false) -> n = 4%nat)
    end) /\
  (forall e', v2 w 0 saved 2 = Err e' -> isCaptchaSessionDead e' = true -> ctx_err w 0 = false ->
    r = Err errCaptchaSessionExpired /\ acts = [TryV2 2]).
Proof.
  intros Hwv Hrjs Hc saved tokens. unfold solveCaptchaBySelectedMode. apply String.eqb_neq in Hwv, Hrjs. rewrite Hwv, Hrjs.
  cbv zeta. fold saved. destruct (v2 w 0 saved 2) as [token | e] eqn:E.
  { split; [| done]. exists 0%nat. unfold tokens. cbn. rewrite E. split; [lia |]. split; [done |]. by split. }
  destruct (ctx_err w 0) eqn:Ectx.
  { split; [| done]. exists 0%nat. unfold tokens. cbn. rewrite E. split; [lia |]. split; [done |].
    split; [by constructor |]. intros Hu. by destruct (ctx_disturbs w 0 Ectx). }
  destruct (isCaptchaSessionDead e) eqn:Edead.
  { split; [| done]. exists 0%nat. unfold tokens. cbn. rewrite E. split; [lia |]. split; [done |].
    split; [by constructor |]. intros _ Hd. rewrite (Hd e eq_refl) in Edead. done. }
  pose proof (webview_round 1 0 w c saved _ _ Hc (webview_round 0 1 w c saved _ _ Hc (auto_last_first w c saved Hc))) as Hrest.
  destruct (auto_webview 2 0 w c saved) as [r acts].
  assert (token_of (v2 w 0 saved 2) = None) as Hnone by by rewrite E.
  destruct (first_next w (TryV2 2) _ _ _ r acts Hnone Hrest) as (n & Hn & Ha & Hr). cbn [fst snd] in Ha, Hr.
  split; [| intros e' [= <-]; congruence]. exists n. split; [exact Hn |]. split; [exact Ha |].
  destruct r; [exact Hr |]. destruct Hr as [H1 H2]. split; [exact H1 |]. intros Hu _. specialize (H2 Hu). cbn in H2. lia.
Qed.

(** An answer left in the channel by an earlier WebView is never taken for the answer to a new
    request: the result depends on what arrives after the request was announced only, the channel is
    empty when the waiting ends, and a token is the trimmed answer, neither empty nor an error
    message. *)
Theorem stale_answers_dropped c mode timeout stale answers :
  let '(r, req, ch) := requestWebViewCaptcha c mode timeout (Some stale) answers in
  (r, req) = (requestWebViewCaptcha c mode timeout (Some None) answers).1 /\
  (forall q, req = Some q -> ch = Some None /\ wv_uri q = RedirectURI c /\ wv_token q = SessionToken c /\ 0 < wv_timeout q) /\
  forall token, r = Ok token -> exists q s, req = Some q /\ answers q = Some s /\ token = trim_space s /\
    token <> "" /\ has_prefix "error:" (to_lower token) = false.
Proof.
  unfold requestWebViewCaptcha. destruct (_ || _); [done |]. cbv zeta. split; [done |]. split.
  - intros q [= <-]. repeat split. simpl. unfold captchaAutoWebViewTimeout. destruct (Z.leb_spec timeout 0); lia.
  - intros token. set (q := {| wv_mode := _ |}). destruct (answers q) as [s |] eqn:E; [| done].
    destruct (String.eqb_spec (trim_space s) "") as [| Hne]; [done |]. split_guard; [done |]. split_guard; [done |].
    intros [= <-]. exists q, s. done.
Qed.
End Chain.

(** ** A concrete chain *)

#[local] Instance lib0 : GoLib :=
  {| fmt_v _ := "map[]"; fmt_q s := s; url_query_get _ _ := Some "session"; json_marshal _ := "{}" |}.
#[local] Instance unicode0 : Unicode := id.

Definition challenge0 : VkCaptchaError :=
  {| ErrorCode := 14; ErrorMsg := ""; CaptchaSid := "1"; CaptchaImg := ""; RedirectURI := "https://id.vk.ru/";
     SessionToken := "session"; CaptchaTs := "1"; CaptchaAttempt := "1" |}.

(** Only the manual WebView answers. *)
Definition chain0 : chain_world := {|
  v2 _ _ _ := Err (TextError "v2 captcha attempts exhausted (2)");
  webview _ q := if String.eqb (wv_mode q) "manual" then Some " token0 " else None;
  left_over _ := Some (Some "stale"); ctx_err _ := false; pause_err _ := false |}.

Example solved_by_hand : solveCaptchaBySelectedMode "auto" chain0 challenge0 None (Err (TextError "")) =
  (Ok "token0", auto_chain challenge0).
Proof. vm_compute. reflexivity. Qed.

(** The second WebView answers: the final Go attempt and the manual WebView are not tried. *)
Definition chain1 : chain_world := {|
  v2 _ _ _ := Err (TextError "v2 captcha attempts exhausted (2)");
  webview k _ := if Nat.eqb k 1 then Some "token1" else Some "error:timeout";
  left_over _ := Some None; ctx_err _ := false; pause_err _ := false |}.

Lemma captcha_chain_order_witness :
  solveCaptchaBySelectedMode "auto" chain1 challenge0 None (Err (TextError "")) =
    (Ok "token1", take 3 (auto_chain challenge0)) /\
  exists n, (n < 5)%nat /\ take 3 (auto_chain challenge0) = take (S n) (auto_chain challenge0) /\
    chain_tokens chain1 challenge0 None !! n = Some (Some "token1").
Proof.
  pose proof (captcha_chain_order "auto" chain1 challenge0 None (Err (TextError "")) ltac:(discriminate) ltac:(discriminate)
    ltac:(repeat split; discriminate)) as H.
  destruct (solveCaptchaBySelectedMode "auto" chain1 challenge0 None (Err (TextError ""))) as [r acts] eqn:E.
  vm_compute in E. injection E as <- <-. split; [reflexivity |].
  destruct H as [(n & Hn & Ha & Ht & _) _]. by exists n.
Defined.
