(* ===== verification/TokenChain.v ===== *)
(** * Fetching TURN credentials (internal/core/creds.go): the VK Calls path, the legacy token chain
    with its captcha loop, and the fetcher that combines them.

    The HTTP client is a parameter: a request is its data and URL, the answer a decoded object or an
    error; [n] counts the requests of a chain, so equal requests may be answered differently. *)

From S2P Require Import Prelude GoStrings Json VkErrors Form Creds.
From Stdlib Require Import ZArith Lia String Ascii.
From stdpp Require Import base gmap list strings.
Open Scope string_scope.
Open Scope Z_scope.

(** The double quote. *)
Definition dq : string := String (byte 34) "".

Definition session_data (device : string) : string :=
  "{" ++ dq ++ "version" ++ dq ++ ":2," ++ dq ++ "device_id" ++ dq ++ ":" ++ dq ++ device ++ dq ++ "," ++
  dq ++ "client_version" ++ dq ++ ":" ++ dq ++ "1.0.1" ++ dq ++ "}".

Definition vkConnectClientID : string := "8093730".
Definition vkCallsAPIHost : string := "api.vk.me".
Definition vkCallsAnonAPIVersion : string := "5.276".
Definition vkCredentialAttemptLimit : Z := 4.

Record VKCredentials := { ClientID : string; ClientSecret : string }.

(** [vkCredentialsList]. *)
Definition vkCredentialsList : list VKCredentials :=
  [{| ClientID := "6287487"; ClientSecret := "MuAxFaKDYDOICzGnEOhp" |};
   {| ClientID := "8202606"; ClientSecret := "lMRsTiMCyPnp5vfoldmn" |}].

Section Chain.
Context `{GoLib}.

(** [x, err := ...; if err != nil { return ... }] with the error rewritten. *)
Definition or_fail {E A} (r : result E A) (f : E -> vk_error) : result vk_error A :=
  match r with Ok x => Ok x | Err e => Err (f e) end.

Definition some_or {A} (o : option A) (e : vk_error) : result vk_error A :=
  match o with Some x => Ok x | None => Err e end.

Definition fail_on {A} (o : option vk_error) (f : vk_error -> vk_error) (k : result vk_error A)
    : result vk_error A :=
  match o with Some e => Err (f e) | None => k end.

(** [truncateVKCallsResp]; a decoded answer can always be encoded again. *)
Definition truncateVKCallsResp (resp : object) : string := truncateVKCallsLog (json_marshal (JObj resp)) 300.
Definition resp_note (resp : object) : string := " (resp: " ++ truncateVKCallsResp resp ++ ")".

Definition parse_failure (step what note : string) (e : string) : vk_error :=
  vkCallsFailure step vkCallsFailureParse (WrapError ("parse " ++ what ++ ": ") (TextError e) note).

(** ** [getVKCredsViaVKCallsPath] *)

Record vkcalls_input := {
  skip_vkcalls : bool;                (* VK_SKIP_VKCALLS=1 *)
  setup_error : option string;        (* tlsclient.NewHttpClient *)
  in_link : string;
  in_name : string;                   (* generateName() *)
  vkDeviceID : string;                (* uuid.New() *)
  okDeviceID : string
}.

Definition getVKCredsViaVKCallsPath (i : vkcalls_input)
    (doRequest : string -> string -> result vk_error object) : result vk_error turn_creds :=
  if skip_vkcalls i
  then Err (vkCallsFailure "preflight" vkCallsFailureSkipped (TextError "disabled by VK_SKIP_VKCALLS=1"))
  else
  let linkURL := captchaV2QueryEscape ("https://vk.com/call/join/" ++ in_link i) in
  let nameEnc := captchaV2QueryEscape (in_name i) in
  fail_on (TextError <$> setup_error i) (fun e => vkCallsFailure "setup" vkCallsFailureSetup
    (WrapError "create tls client: " e ""))
  (let step1 := "step1 auth.getAnonymToken" in
   resp1 ← doRequest step1
     ("https://" ++ vkCallsAPIHost ++ "/method/auth.getAnonymToken?v=" ++ vkCallsAnonAPIVersion ++
      "&client_id=" ++ vkConnectClientID ++ "&link=" ++ linkURL ++ "&device_id=" ++ vkDeviceID i ++
      "&anonymName=" ++ nameEnc ++ "&lang=en");
   anonymToken ← or_fail (extractVKCallsStr resp1 ["response"; "token"]) (parse_failure step1 "token" (resp_note resp1));
   let anonymTokenEnc := captchaV2QueryEscape anonymToken in
   let step2 := "step2 messages.getCallPreview" in
   resp2 ← doRequest step2
     ("https://" ++ vkCallsAPIHost ++ "/method/messages.getCallPreview?v=" ++ vkCallsAnonAPIVersion ++
      "&anonymous_token=" ++ anonymTokenEnc ++ "&device_id=" ++ vkDeviceID i ++
      "&extended=1&fields=first_name,last_name,photo_200&lang=en&link=" ++ linkURL);
   fail_on (vkCallsAPIError resp2) (fun e => vkCallsFailure step2 (vkCallsAPIErrorKind e) e)
   (userID ← or_fail (extractVKCallsFloat resp2 ["response"; "user_id"]) (parse_failure step2 "user_id" (resp_note resp2));
    let userIDStr := fmt_f0 userID in
    secret ← or_fail (extractVKCallsStr resp2 ["response"; "secret"]) (parse_failure step2 "secret" "");
    let step3 := "step3 messages.getAnonymCallToken" in
    resp3 ← doRequest step3
      ("https://" ++ vkCallsAPIHost ++ "/method/messages.getAnonymCallToken?v=" ++ vkCallsAnonAPIVersion ++
       "&anonymous_token=" ++ anonymTokenEnc ++ "&device_id=" ++ vkDeviceID i ++ "&link=" ++ linkURL ++
       "&name=" ++ nameEnc ++ "&user_id=" ++ userIDStr ++ "&secret=" ++ captchaV2QueryEscape secret ++ "&lang=en");
    fail_on (vkCallsAPIError resp3) (fun e => vkCallsFailure step3 (vkCallsAPIErrorKind e) e)
    (okAnonymToken ← or_fail (extractVKCallsStr resp3 ["response"; "token"]) (parse_failure step3 "token" (resp_note resp3));
     let step4 := "step4 auth.anonymLogin" in
     resp4 ← doRequest step4
       ("https://calls.okcdn.ru/fb.do?session_data=" ++ captchaV2QueryEscape (session_data (okDeviceID i)) ++
        "&method=auth.anonymLogin&format=JSON&application_key=CGMMEJLGDIHBABABA");
     sessionKey ← or_fail (extractVKCallsStr resp4 ["session_key"]) (parse_failure step4 "session_key" (resp_note resp4));
     let step5 := "step5 vchat.joinConversationByLink" in
     resp5 ← doRequest step5
       ("https://calls.okcdn.ru/fb.do?joinLink=" ++ in_link i ++ "&isVideo=false&protocolVersion=5&anonymToken=" ++
        okAnonymToken ++ "&method=vchat.joinConversationByLink&format=JSON&application_key=CGMMEJLGDIHBABABA&session_key="
        ++ sessionKey);
     fail_on (vkCallsOKError resp5) (fun e => vkCallsFailure step5 vkCallsFailureOKCDN (WrapError "" e (resp_note resp5)))
     (user ← or_fail (extractVKCallsStr resp5 ["turn_server"; "username"]) (parse_failure step5 "username" (resp_note resp5));
      pass ← or_fail (extractVKCallsStr resp5 ["turn_server"; "credential"]) (parse_failure step5 "credential" "");
      let addrs := parseVKCallsTURNAddresses resp5 in
      if (length addrs =? 0)%nat
      then Err (vkCallsFailure step5 vkCallsFailureParse (TextError "turn_server.urls empty"))
      else Ok (user, pass, addrs))))).

(** ** [getTokenChain] *)

(** What the captcha loop does next, after the answer to its request. *)
Inductive loop_step :=
| Done (token : string)
| Fail (e : vk_error)
| Solve (c : VkCaptchaError).

(** One answer of calls.getAnonymousToken. *)
Definition anonymous_token_answer (resp : object) : loop_step :=
  match as_obj (obj_get resp "error") with
  | Some errObj =>
      match fatalCallError resp with
      | Some callErr => Fail callErr
      | None =>
          let captchaErr := parseVkCaptchaError errObj in
          if negb (String.eqb (RedirectURI captchaErr) "") && negb (String.eqb (SessionToken captchaErr) "")
          then Solve captchaErr
          else Fail (TextError ("VK API error: " ++ fmt_v (JObj errObj)))
      end
  | None =>
      match as_obj (obj_get resp "response") with
      | None => Fail (TextError ("unexpected getAnonymousToken response: " ++ fmt_v (JObj resp)))
      | Some respMap =>
          match as_str (obj_get respMap "token") with
          | None => Fail (TextError ("missing token in response: " ++ fmt_v (JObj resp)))
          | Some token => Done token
          end
      end
  end.

Definition join_data (link escapedName token1 : string) : string :=
  "vk_join_link=https://vk.com/call/join/" ++ link ++ "&name=" ++ escapedName ++ "&access_token=" ++ token1.

Definition captcha_data (link escapedName token1 : string) (c : VkCaptchaError) (successToken : string) : string :=
  let captchaAttempt := if String.eqb (CaptchaAttempt c) "0" || String.eqb (CaptchaAttempt c) ""
                        then "1" else CaptchaAttempt c in
  "vk_join_link=https://vk.com/call/join/" ++ link ++ "&name=" ++ escapedName ++ "&captcha_key=&captcha_sid=" ++
  CaptchaSid c ++ "&is_sound_captcha=0&success_token=" ++ captchaV2QueryEscape successToken ++ "&captcha_ts=" ++
  CaptchaTs c ++ "&captcha_attempt=" ++ captchaAttempt ++ "&access_token=" ++ token1.

(** The loop [for attempt := 0; ; attempt++].  [req k data] is the answer to its [k]-th request,
    [solve k c] the outcome of the [k]-th call of [solveCaptchaBySelectedMode].  The results are the
    token or the error, the requests sent and solver calls made, and whether the global lockout was
    set; [None] is running out of fuel. *)
Fixpoint captcha_loop (fuel : nat) (link escapedName token1 : string) (attempt : nat) (data : string)
    (req : nat -> string -> result vk_error object)
    (solve : nat -> VkCaptchaError -> result vk_error string)
    : option (result vk_error string * nat * nat * bool) :=
  match fuel with
  | O => None
  | S fuel' =>
      match req attempt data with
      | Err e => Some (Err e, S attempt, attempt, false)
      | Ok resp =>
          match anonymous_token_answer resp with
          | Done token => Some (Ok token, S attempt, attempt, false)
          | Fail e => Some (Err e, S attempt, attempt, false)
          | Solve c =>
              if (3 <=? attempt)%nat
              then Some (Err (TextError "CAPTCHA_WAIT_REQUIRED"), S attempt, attempt, true)
              else match solve attempt c with
                   | Err e =>
                       if is_session_expired e
                       then captcha_loop fuel' link escapedName token1 (S attempt)
                              (join_data link escapedName token1) req solve
                       else Some (Err (TextError "CAPTCHA_WAIT_REQUIRED"), S attempt, S attempt, true)
                   | Ok successToken =>
                       captcha_loop fuel' link escapedName token1 (S attempt)
                         (captcha_data link escapedName token1 c successToken) req solve
                   end
          end
      end
  end.

Record chain_input := {
  client_error : option string;       (* tlsclient.NewHttpClient *)
  chain_link : string;
  chain_name : string;                (* generateName() *)
  session_uuid : string
}.

(** The requests of the chain: the four single ones and those of the loop. *)
Record chain_http := {
  anonToken : string -> string -> result vk_error object;
  callPreview : string -> string -> result vk_error object;
  anonymousToken : nat -> string -> string -> result vk_error object;
  anonymLogin : string -> string -> result vk_error object;
  joinConversation : string -> string -> result vk_error object
}.

(** Steps 4 and 5: the OK session and the TURN servers. *)
Definition ok_session (i : chain_input) (http : chain_http) (token2 : string) : result vk_error turn_creds :=
  resp ← anonymLogin http
    ("session_data=" ++ captchaV2QueryEscape (session_data (session_uuid i)) ++
     "&method=auth.anonymLogin&format=JSON&application_key=CGMMEJLGDIHBABABA")
    "https://calls.okcdn.ru/fb.do";
  token3 ← some_or (as_str (obj_get resp "session_key"))
    (TextError ("missing session_key in response: " ++ fmt_v (JObj resp)));
  resp ← joinConversation http
    ("joinLink=" ++ chain_link i ++ "&isVideo=false&protocolVersion=5&capabilities=2F7F&anonymToken=" ++ token2 ++
     "&method=vchat.joinConversationByLink&format=JSON&application_key=CGMMEJLGDIHBABABA&session_key=" ++ token3)
    "https://calls.okcdn.ru/fb.do";
  tsRaw ← some_or (as_obj (obj_get resp "turn_server"))
    (TextError ("missing turn_server in response: " ++ fmt_v (JObj resp)));
  user ← some_or (as_str (obj_get tsRaw "username")) (TextError "missing username in turn_server");
  pass ← some_or (as_str (obj_get tsRaw "credential")) (TextError "missing credential in turn_server");
  match as_arr (obj_get tsRaw "urls") with
  | None | Some [] => Err (TextError "missing or empty urls in turn_server")
  | Some urlsRaw =>
      let addresses := concat ((fun u => turnURLsToAddresses [u]) <$> omap as_str urlsRaw) in
      if (length addresses =? 0)%nat then Err (TextError "no valid TURN addresses found")
      else Ok (user, pass, addresses)
  end.

(** [getTokenChain]: the result and whether the lockout was set. *)
Definition getTokenChain (fuel : nat) (i : chain_input) (creds : VKCredentials) (http : chain_http)
    (solve : nat -> VkCaptchaError -> result vk_error string)
    : option (result vk_error turn_creds * bool) :=
  match client_error i with
  | Some msg => Some (Err (WrapError "failed to initialize tls_client: " (TextError msg) ""), false)
  | None =>
      let escapedName := captchaV2QueryEscape (chain_name i) in
      match anonToken http
          ("client_id=" ++ ClientID creds ++ "&token_type=messages&client_secret=" ++ ClientSecret creds ++
           "&version=1&app_id=" ++ ClientID creds) "https://login.vk.ru/?act=get_anonym_token" with
      | Err e => Some (Err e, false)
      | Ok resp =>
          match as_obj (obj_get resp "data") with
          | None => Some (Err (TextError ("unexpected anon token response: " ++ fmt_v (JObj resp))), false)
          | Some dataMap =>
              match as_str (obj_get dataMap "access_token") with
              | None => Some (Err (TextError ("missing access_token in response: " ++ fmt_v (JObj resp))), false)
              | Some token1 =>
                  let preview := callPreview http
                    ("vk_join_link=https://vk.com/call/join/" ++ chain_link i ++ "&fields=photo_200&access_token=" ++ token1)
                    ("https://api.vk.ru/method/calls.getCallPreview?v=5.275&client_id=" ++ ClientID creds) in
                  match (match preview with Ok r => fatalCallError r | Err _ => None end) with
                  | Some callErr => Some (Err callErr, false)
                  | None =>
                      let urlAddr := "https://api.vk.ru/method/calls.getAnonymousToken?v=5.275&client_id=" ++ ClientID creds in
                      match captcha_loop fuel (chain_link i) escapedName token1 0
                              (join_data (chain_link i) escapedName token1)
                              (fun k data => anonymousToken http k data urlAddr) solve with
                      | None => None
                      | Some (Err e, _, _, lock) => Some (Err e, lock)
                      | Some (Ok token2, _, _, lock) => Some (ok_session i http token2, lock)
                      end
                  end
              end
          end
      end
  end.

(** ** [fetchVkCreds] *)

(** The lockout is 60 seconds from the failure; [clock k] is the Unix time at the end of the [k]-th
    chain. *)
Definition locked_until (lockout now : Z) (lock : bool) : Z := if lock then now + 60 else lockout.

(** The attempts after the VK Calls path.  [chain k creds] is the [k]-th chain; [cancelled k] says
    whether the context is cancelled in the pause after the [k]-th.  The third result is the number
    of chains run. *)
Fixpoint chain_attempts (fuel : nat) (attempt : Z) (lastErr : option vk_error) (lockout : Z)
    (chain : Z -> VKCredentials -> result vk_error turn_creds * bool)
    (clock : Z -> Z) (cancelled : Z -> bool) : result vk_error turn_creds * Z * Z :=
  match fuel with
  | O => (Err (WrapError "all VK credentials failed: " (default (TextError "%!w(<nil>)") lastErr) ""),
          lockout, attempt)
  | S fuel' =>
      let nCreds := Z.of_nat (length vkCredentialsList) in
      let creds := nth (Z.to_nat (Z.rem attempt nCreds)) vkCredentialsList
                     {| ClientID := ""; ClientSecret := "" |} in
      let '(r, lock) := chain attempt creds in
      let lockout := locked_until lockout (clock attempt) lock in
      match r with
      | Ok x => (Ok x, lockout, attempt + 1)
      | Err err =>
          match asCallUnavailableError err with
          | Some (code, msg) => (Err (CallUnavailableError code msg), lockout, attempt + 1)
          | None =>
              if contains "CAPTCHA_WAIT_REQUIRED" (error_string err) || contains "FATAL_CAPTCHA" (error_string err)
              then (Err err, lockout, attempt + 1)
              else if (Z.rem attempt nCreds =? nCreds - 1) && (attempt + 1 <? vkCredentialAttemptLimit) && cancelled attempt
              then (Err (TextError "context canceled"), lockout, attempt + 1)
              else chain_attempts fuel' (attempt + 1) (Some err) lockout chain clock cancelled
          end
      end
  end.

(** [fetchVkCreds] at Unix time [now]: the result, the lockout time and the chains run. *)
Definition fetchVkCreds (anonPath : string) (lockout now : Z) (vkcalls : unit -> result vk_error turn_creds)
    (chain : Z -> VKCredentials -> result vk_error turn_creds * bool)
    (clock : Z -> Z) (cancelled : Z -> bool) : result vk_error turn_creds * Z * Z :=
  if now <? lockout
  then (Err (TextError "CAPTCHA_WAIT_REQUIRED: global lockout active"), lockout, 0)
  else
    let legacy := chain_attempts (Z.to_nat vkCredentialAttemptLimit) 0 None lockout chain clock cancelled in
    if String.eqb (getVkAnonPath anonPath) "vkcalls" then
      match vkcalls tt with
      | Ok x => (Ok x, lockout, 0)
      | Err err => match asCallUnavailableError err with
                   | Some (code, msg) => (Err (CallUnavailableError code msg), lockout, 0)
                   | None => legacy
                   end
      end
    else legacy.

(** ** Facts *)

(** The loop sends at most four requests and solves at most three captchas; more fuel than four
    changes nothing, and the lockout is set exactly when the captcha was given up. *)
Lemma captcha_loop_bounded fuel link name token1 attempt data req solve :
  (attempt <= 3)%nat -> (4 - attempt <= fuel)%nat ->
  exists r sent solved lock, captcha_loop fuel link name token1 attempt data req solve = Some (r, sent, solved, lock) /\
    (attempt < sent <= 4)%nat /\ (attempt <= solved <= 3)%nat /\ (solved <= sent)%nat /\
    (lock = true -> r = Err (TextError "CAPTCHA_WAIT_REQUIRED")).
Proof.
  revert attempt data. induction fuel as [| fuel IH]; intros attempt data Ha Hf; [lia |]. cbn [captcha_loop].
  destruct (req attempt data) as [resp | e]; [| eexists _, _, _, _; split; [done |]; repeat split; lia || done].
  destruct (anonymous_token_answer resp) as [token | e | c];
    [eexists _, _, _, _; split; [done |]; repeat split; lia || done .. |].
  destruct (Nat.leb_spec 3 attempt); [eexists _, _, _, _; split; [done |]; repeat split; lia || done |].
  assert (forall data', exists r sent solved lock,
    captcha_loop fuel link name token1 (S attempt) data' req solve = Some (r, sent, solved, lock) /\
    (attempt < sent <= 4)%nat /\ (attempt <= solved <= 3)%nat /\ (solved <= sent)%nat /\
    (lock = true -> r = Err (TextError "CAPTCHA_WAIT_REQUIRED"))) as Hrec.
  { intros data'. destruct (IH (S attempt) data') as (r & sent & solved & lock & -> & Hs); [lia | lia |].
    eexists _, _, _, _. split; [done |]. repeat split; try lia. apply Hs. }
  destruct (solve attempt c) as [token | e]; [apply Hrec |].
  destruct (is_session_expired e); [apply Hrec |].
  eexists _, _, _, _. split; [done |]. repeat split; lia || done.
Qed.

Lemma captcha_loop_fuel fuel fuel' link name token1 attempt data req solve :
  (attempt <= 3)%nat -> (4 - attempt <= fuel)%nat -> (4 - attempt <= fuel')%nat ->
  captcha_loop fuel link name token1 attempt data req solve =
  captcha_loop fuel' link name token1 attempt data req solve.
Proof.
  revert fuel' attempt data. induction fuel as [| fuel IH]; intros [| fuel'] attempt data Ha Hf Hf'; try lia.
  cbn [captcha_loop]. destruct (req attempt data) as [resp | e]; [| done].
  destruct (anonymous_token_answer resp) as [token | e | c]; [done.. |].
  destruct (Nat.leb_spec 3 attempt); [done |].
  destruct (solve attempt c) as [token | e]; [apply IH; lia |]. destruct (is_session_expired e); [apply IH; lia | done].
Qed.

(** The result of a chain of steps is [Ok] only if every step was. *)
Lemma or_fail_ok {E A} (r : result E A) f x : or_fail r f = Ok x -> r = Ok x.
Proof. by destruct r as [|]; [intros [= ->] |]. Qed.

Lemma turn_address_no_query s : no_char "?" (turn_address s) = true.
Proof.
  assert (forall p t, no_char "?" t = true -> no_char "?" (trim_prefix p t) = true) as Htrim.
  { intros p t Ht. unfold trim_prefix. destruct (has_prefix p t) eqn:E; [| done].
    apply has_prefix_spec in E as [u ->]. rewrite sdrop_app. rewrite no_char_app in Ht.
    by apply andb_true_iff in Ht as [_ Ht]. }
  unfold turn_address. do 2 apply Htrim. pose proof (split_on_pieces "?" s) as Hp.
  destruct (split_on "?" s); [done |]. by inversion Hp.
Qed.

Lemma turnURLsToAddresses_ok urls :
  Forall (fun a => a <> "" /\ no_char "?" a = true) (turnURLsToAddresses urls).
Proof.
  induction urls as [| u urls IH]; simpl; [constructor |].
  destruct (String.eqb _ ""); [done |]. destruct (String.eqb_spec (turn_address (trim_space u)) ""); [done |].
  constructor; [| done]. split; [done | apply turn_address_no_query].
Qed.
End Chain.

(** ** Properties *)

Section Theorems.
Context `{GoLib}.

(** C12: the captcha loop of a token chain always ends: with any fuel from four rounds on the chain
    returns the same result, after at most four requests for the anonymous token and at most three
    solved captchas; it sets the lockout only together with the error CAPTCHA_WAIT_REQUIRED. *)
Theorem token_chain_terminates fuel i creds http solve :
  (4 <= fuel)%nat ->
  getTokenChain fuel i creds http solve = getTokenChain 4 i creds http solve /\
  (exists r lock, getTokenChain fuel i creds http solve = Some (r, lock) /\
     (lock = true -> r = Err (TextError "CAPTCHA_WAIT_REQUIRED"))) /\
  forall link name token1 data req,
    exists r sent solved lock,
      captcha_loop fuel link name token1 0 data req solve = Some (r, sent, solved, lock) /\
      (sent <= 4)%nat /\ (solved <= 3)%nat /\ (solved <= sent)%nat.
Proof.
  intros Hf. split; [| split].
  - unfold getTokenChain. destruct (client_error i); [done |].
    destruct (anonToken _ _ _) as [resp | e]; [| done]. destruct (as_obj _); [| done].
    destruct (as_str _); [| done]. destruct (match callPreview _ _ _ with Ok r => _ | Err _ => None end); [done |].
    rewrite (captcha_loop_fuel fuel 4) by lia. done.
  - unfold getTokenChain. destruct (client_error i); [by eexists _, _ |].
    destruct (anonToken _ _ _) as [resp | e]; [| by eexists _, _]. destruct (as_obj _); [| by eexists _, _].
    destruct (as_str _) as [token1 |]; [| by eexists _, _].
    destruct (match callPreview _ _ _ with Ok r => _ | Err _ => None end); [by eexists _, _ |].
    match goal with |- context [captcha_loop fuel ?l ?n ?t 0 ?d ?q solve] =>
      destruct (captcha_loop_bounded fuel l n t 0 d q solve ltac:(lia) ltac:(lia))
        as (r & sent & solved & lock & -> & _ & _ & _ & Hl) end.
    destruct r as [token2 | e]; eexists _, _; (split; [done |]); intros ->; specialize (Hl eq_refl); congruence.
  - intros link name token1 data req.
    destruct (captcha_loop_bounded fuel link name token1 0 data req solve ltac:(lia) ltac:(lia))
      as (r & sent & solved & lock & -> & ? & ? & ? & _). eexists _, _, _, _. split; [done |]. lia.
Qed.

(** The credentials of the [k]-th attempt. *)
Definition attempt_creds (k : Z) : VKCredentials :=
  nth (Z.to_nat (Z.rem k 2)) vkCredentialsList {| ClientID := ""; ClientSecret := "" |}.

(** Errors after which the next credentials are tried. *)
Definition retryable (e : vk_error) : Prop :=
  asCallUnavailableError e = None /\ contains "CAPTCHA_WAIT_REQUIRED" (error_string e) = false /\
  contains "FATAL_CAPTCHA" (error_string e) = false.

Lemma chain_attempts_spec fuel attempt lastErr lockout chain clock cancelled :
  let '(r, lockout', n) := chain_attempts fuel attempt lastErr lockout chain clock cancelled in
  attempt <= n <= attempt + Z.of_nat fuel /\
  (forall k, attempt <= k < n - 1 -> exists e, (chain k (attempt_creds k)).1 = Err e /\ retryable e) /\
  (forall x, r = Ok x -> attempt < n /\ (chain (n - 1) (attempt_creds (n - 1))).1 = Ok x) /\
  (n = attempt -> lockout' = lockout) /\
  (attempt < n -> (chain (n - 1) (attempt_creds (n - 1))).2 = true -> lockout' = clock (n - 1) + 60).
Proof.
  revert attempt lastErr lockout. induction fuel as [| fuel IH]; intros attempt lastErr lockout.
  { cbn [chain_attempts]. repeat split; try lia; done. }
  cbn [chain_attempts]. cbv zeta. change (Z.of_nat (length vkCredentialsList)) with 2.
  fold (attempt_creds attempt). destruct (chain attempt (attempt_creds attempt)) as [r lock] eqn:Hc.
  assert (forall r', r' = r \/ (exists e, r' = Err e) ->
    attempt <= attempt + 1 <= attempt + Z.of_nat (S fuel) /\
    (forall k, attempt <= k < attempt + 1 - 1 -> exists e, (chain k (attempt_creds k)).1 = Err e /\ retryable e) /\
    (forall x, r' = Ok x -> attempt < attempt + 1 /\
      (chain (attempt + 1 - 1) (attempt_creds (attempt + 1 - 1))).1 = Ok x) /\
    (attempt + 1 = attempt -> locked_until lockout (clock attempt) lock = lockout) /\
    (attempt < attempt + 1 -> (chain (attempt + 1 - 1) (attempt_creds (attempt + 1 - 1))).2 = true ->
      locked_until lockout (clock attempt) lock = clock (attempt + 1 - 1) + 60)) as Hstop.
  { intros r' Hr'. replace (attempt + 1 - 1) with attempt by lia. rewrite Hc. simpl.
    repeat split; try lia; intros.
    - destruct Hr' as [-> | [e ->]]; congruence.
    - subst lock. done. }
  destruct r as [x | err]; [by apply Hstop; left |].
  destruct (asCallUnavailableError err) as [[code msg] |] eqn:Hcall; [apply Hstop; right; by eexists |].
  destruct (contains "CAPTCHA_WAIT_REQUIRED" (error_string err)) eqn:Hw; [by apply Hstop; left |].
  destruct (contains "FATAL_CAPTCHA" (error_string err)) eqn:Hfc; [by apply Hstop; left |].
  cbn [orb]. destruct (_ && cancelled attempt); [apply Hstop; right; by eexists |]. clear Hstop.
  specialize (IH (attempt + 1) (Some err) (locked_until lockout (clock attempt) lock)).
  destruct (chain_attempts fuel _ _ _ chain clock cancelled) as [[r' lockout'] n].
  destruct IH as (Hn & Hk & Hok & Heq & Hlock). split; [lia |]. split; [| split; [| split]].
  - intros k Hk'. destruct (decide (k = attempt)) as [-> | Hne]; [| apply Hk; lia].
    exists err. by rewrite Hc.
  - intros x Hx. destruct (Hok x Hx). split; [lia | done].
  - lia.
  - intros _ Hl. destruct (decide (n = attempt + 1)) as [-> |]; [| apply Hlock; [lia | done]].
    rewrite (Heq eq_refl). replace (attempt + 1 - 1) with attempt in * by lia. rewrite Hc in Hl. simpl in Hl. by subst.
Qed.

(** [fetchVkCreds] does nothing while the captcha lockout lasts; otherwise it runs at most four
    token chains, alternating the two application ids, goes on only after retryable errors, and
    succeeds only with the credentials of the VK Calls path or of its last chain.  A chain that gave
    up on the captcha locks the client out until sixty seconds later. *)
Theorem fetch_creds_attempts anonPath lockout now vkcalls chain clock cancelled :
  let '(r, lockout', n) := fetchVkCreds anonPath lockout now vkcalls chain clock cancelled in
  (now < lockout -> r = Err (TextError "CAPTCHA_WAIT_REQUIRED: global lockout active") /\ n = 0 /\ lockout' = lockout) /\
  0 <= n <= 4 /\
  (forall k, 0 <= k < n - 1 -> exists e, (chain k (attempt_creds k)).1 = Err e /\ retryable e) /\
  (forall x, r = Ok x ->
     (n = 0 /\ getVkAnonPath anonPath = "vkcalls" /\ vkcalls tt = Ok x) \/
     (0 < n /\ (chain (n - 1) (attempt_creds (n - 1))).1 = Ok x)) /\
  (0 < n -> (chain (n - 1) (attempt_creds (n - 1))).2 = true -> lockout' = clock (n - 1) + 60).
Proof.
  unfold fetchVkCreds. destruct (Z.ltb_spec now lockout) as [Hl | Hl]; [repeat split; try lia; done |].
  pose proof (chain_attempts_spec 4 0 None lockout chain clock cancelled) as Hs.
  change (Z.to_nat vkCredentialAttemptLimit) with 4%nat.
  set (legacy := chain_attempts 4 0 None lockout chain clock cancelled) in *. clearbody legacy.
  destruct legacy as [[r lockout'] n]. destruct Hs as (Hn & Hk & Hok & _ & Hlock).
  assert ((now < lockout -> r = Err (TextError "CAPTCHA_WAIT_REQUIRED: global lockout active") /\ n = 0 /\ lockout' = lockout) /\
    0 <= n <= 4 /\
    (forall k, 0 <= k < n - 1 -> exists e, (chain k (attempt_creds k)).1 = Err e /\ retryable e) /\
    (forall x, r = Ok x -> (n = 0 /\ getVkAnonPath anonPath = "vkcalls" /\ vkcalls tt = Ok x) \/
       (0 < n /\ (chain (n - 1) (attempt_creds (n - 1))).1 = Ok x)) /\
    (0 < n -> (chain (n - 1) (attempt_creds (n - 1))).2 = true -> lockout' = clock (n - 1) + 60)) as Hlegacy.
  { split; [lia |]. split; [lia |]. split; [done |]. split; [| done]. intros x Hx. right. by apply Hok. }
  destruct (String.eqb_spec (getVkAnonPath anonPath) "vkcalls") as [Hp |]; [| done].
  destruct (vkcalls tt) as [x | err] eqn:Hv.
  - repeat split; try lia. intros y [= ->]. by left.
  - destruct (asCallUnavailableError err) as [[code msg] |]; [repeat split; try lia; done |].
    destruct Hlegacy as (H1 & H2 & H3 & H4 & H5). split; [done |]. split; [done |]. split; [done |]. split; [| done].
    intros x Hx. destruct (H4 x Hx) as [(? & ? & ?) | ?]; [done | by right].
Qed.

(** The TURN servers of a successful token chain are a non-empty list of non-empty addresses
    without a query part, and they come with the user name and password of the same response. *)
Theorem token_chain_addresses fuel i creds http solve user pass addrs lock :
  getTokenChain fuel i creds http solve = Some (Ok (user, pass, addrs), lock) ->
  addrs <> [] /\ Forall (fun a => a <> "" /\ no_char "?" a = true) addrs /\
  exists data resp ts, joinConversation http data "https://calls.okcdn.ru/fb.do" = Ok resp /\
    as_obj (obj_get resp "turn_server") = Some ts /\ obj_get ts "username" = JStr user /\
    obj_get ts "credential" = JStr pass.
Proof.
  unfold getTokenChain. destruct (client_error i); [done |].
  destruct (anonToken _ _ _) as [resp | e]; [| done]. destruct (as_obj _); [| done].
  destruct (as_str _) as [token1 |]; [| done].
  destruct (match callPreview _ _ _ with Ok r => _ | Err _ => None end); [done |].
  destruct (captcha_loop _ _ _ _ _ _ _ _) as [[[[[token2 | e] sent] solved] lk] |]; [| done..].
  intros [= Hok _]. unfold ok_session in Hok.
  apply bind_ok in Hok as (r4 & _ & Hok). apply bind_ok in Hok as (token3 & _ & Hok).
  apply bind_ok in Hok as (r5 & H5 & Hok). apply bind_ok in Hok as (ts & Hts & Hok).
  apply bind_ok in Hok as (u & Hu & Hok). apply bind_ok in Hok as (p & Hp & Hok).
  destruct (as_arr (obj_get ts "urls")) as [[| u0 urls] |]; [done | | done].
  set (as_ := concat _) in Hok. destruct (Nat.eqb_spec (length as_) 0); [done |]. injection Hok as -> -> <-.
  split; [by destruct as_ |]. split.
  - unfold as_. apply Forall_concat, Forall_fmap, Forall_forall. intros x _. apply turnURLsToAddresses_ok.
  - eexists _, r5, ts. split; [exact H5 |].
    assert (forall A (o : option A) e x, some_or o e = Ok x -> o = Some x) as Hso
      by (intros A [y |] e x; [by intros [= ->] | done]).
    apply Hso in Hts, Hu, Hp. split; [done |].
    assert (forall v str, as_str v = Some str -> v = JStr str) as Hstr
      by (intros v str; destruct v; try done; by intros [= ->]).
    by split; apply Hstr.
Qed.

(** A call error the server declares permanent (a numeric code 951, 954 or 9000 to 9999) in the
    answer to the call preview of the VK Calls path ends the whole fetch with that error: it is
    recognised through the failure that wraps it, and no token chain is tried. *)
Theorem fatal_call_stops anonPath lockout now i doRequest chain clock cancelled resp1 token resp2 errObj x code msg :
  getVkAnonPath anonPath = "vkcalls" -> lockout <= now ->
  skip_vkcalls i = false -> setup_error i = None ->
  (forall url, doRequest "step1 auth.getAnonymToken" url = Ok resp1) ->
  extractVKCallsStr resp1 ["response"; "token"] = Ok token ->
  (forall url, doRequest "step2 messages.getCallPreview" url = Ok resp2) ->
  as_obj (obj_get resp2 "error") = Some errObj -> obj_get errObj "error_code" = JNum x ->
  fatalCallError resp2 = Some (CallUnavailableError code msg) ->
  fetchVkCreds anonPath lockout now (fun _ => getVKCredsViaVKCallsPath i doRequest) chain clock cancelled =
  (Err (CallUnavailableError code msg), lockout, 0).
Proof.
  intros Hp Hl Hskip Hsetup H1 Ht H2 Ho Hx Hf.
  assert (f_is_zero x = false) as Hnz.
  { unfold fatalCallError in Hf. rewrite Ho, Hx in Hf. cbn [vkErrorCode] in Hf. unfold f_is_zero.
    destruct (Z.eqb_spec (mant x) 0) as [Hm |]; [| done].
    assert (f_int x = 0) as E; [| by rewrite E in Hf].
    unfold f_int, f_trunc. rewrite Hm. destruct (0 <=? expo x); [done |]. by destruct (2 ^ (- expo x)). }
  assert (vkCallsAPIError resp2 = Some (CallUnavailableError code msg)) as Hapi.
  { unfold vkCallsAPIError. rewrite Ho, Hx. cbn [num_or_zero as_num default]. unfold num_or_zero. simpl.
    rewrite Hnz. simpl. by rewrite Hf. }
  assert (getVKCredsViaVKCallsPath i doRequest =
    Err (vkCallsFailure "step2 messages.getCallPreview" vkCallsFailureCall (CallUnavailableError code msg))) as E.
  { unfold getVKCredsViaVKCallsPath. rewrite Hskip, Hsetup. simpl. rewrite H1. cbn [mbind result_bind].
    rewrite Ht. simpl. rewrite H2. simpl. rewrite Hapi. done. }
  unfold fetchVkCreds. rewrite (proj2 (Z.ltb_ge _ _)), Hp, E by lia. done.
Qed.
End Theorems.

(** ** A concrete exchange *)

#[local] Instance lib0 : GoLib :=
  {| fmt_v _ := "map[]"; fmt_q s := dq ++ s ++ dq; url_query_get _ _ := Some "session"; json_marshal _ := "{}" |}.

Definition input0 : chain_input :=
  {| client_error := None; chain_link := "abc"; chain_name := "Anna K"; session_uuid := "0" |}.

Definition str_obj (k v : string) : object := [(k, JStr v)].

(** VK asks for a captcha once. *)
Definition http0 : chain_http := {|
  anonToken _ _ := Ok [("data", JObj (str_obj "access_token" "t1"))];
  callPreview _ _ := Err (TextError "EOF");
  anonymousToken k _ _ := Ok (if (k =? 0)%nat
    then [("error", JObj [("error_code", JNum (f_of_int 14)); ("redirect_uri", JStr "https://id.vk.ru/?session_token=s")])]
    else [("response", JObj (str_obj "token" "t2"))]);
  anonymLogin _ _ := Ok (str_obj "session_key" "t3");
  joinConversation _ _ := Ok [("turn_server", JObj [("username", JStr "u"); ("credential", JStr "p");
    ("urls", JArr [JStr "turn:10.0.0.1:3478?transport=udp"; JNull; JStr " turns:10.0.0.2:443 "])])]
|}.

Lemma token_chain_terminates_witness :
  exists r lock, getTokenChain 9 input0 (attempt_creds 0) http0 (fun _ _ => Err errCaptchaSessionExpired) = Some (r, lock).
Proof.
  destruct (token_chain_terminates 9 input0 (attempt_creds 0) http0 (fun _ _ => Err errCaptchaSessionExpired))
    as (_ & (r & lock & E & _) & _); [lia |].
  exists r, lock. exact E.
Defined.

Lemma token_chain_addresses_witness :
  ["10.0.0.1:3478"; "10.0.0.2:443"] <> [] /\
  Forall (fun a => a <> "" /\ no_char "?" a = true) ["10.0.0.1:3478"; "10.0.0.2:443"].
Proof.
  destruct (token_chain_addresses 4 input0 (attempt_creds 1) http0 (fun _ _ => Ok "solved") "u" "p"
    ["10.0.0.1:3478"; "10.0.0.2:443"] false) as (H1 & H2 & _); [vm_compute; reflexivity |].
  split; [exact H1 | exact H2].
Defined.

Definition dead_call : object :=
  [("error", JObj [("error_code", JNum (f_of_int 951)); ("error_msg", JStr "Call not found")])].

Lemma fatal_call_stops_witness :
  fetchVkCreds "vkcalls" 0 50
    (fun _ => getVKCredsViaVKCallsPath
       {| skip_vkcalls := false; setup_error := None; in_link := "abc"; in_name := "Anna"; vkDeviceID := "1"; okDeviceID := "2" |}
       (fun step _ => if String.eqb step "step1 auth.getAnonymToken"
                      then Ok [("response", JObj (str_obj "token" "t"))] else Ok dead_call))
    (fun _ _ => (Err (TextError "unused"), false)) id (fun _ => false) =
  (Err (CallUnavailableError 951 "Call not found"), 0, 0).
Proof.
  apply (fatal_call_stops "vkcalls" 0 50 _ _ _ _ _ [("response", JObj (str_obj "token" "t"))] "t" dead_call
    [("error_code", JNum (f_of_int 951)); ("error_msg", JStr "Call not found")] (f_of_int 951));
    try reflexivity; lia.
Defined.
