(* ===== verification/Hashes.v ===== *)
(** * Call hashes and links (internal/core/group.go: [ParseHashes], [normalizeVKJoinHash]). *)

From S2P Require Import Prelude GoStrings Net Chars.
From Stdlib Require Import ZArith Lia String Ascii.
From stdpp Require Import base sets list strings.
Open Scope string_scope.

(** The fields of [strings.FieldsFunc(s, p)] for ASCII separators. *)
Fixpoint fields_func (p : ascii -> bool) (s : string) : list string :=
  match s with
  | "" => []
  | String c s' =>
      if p c then fields_func p s'
      else match s' with
           | "" => [String c ""]
           | String d _ => if p d then String c "" :: fields_func p s'
                           else match fields_func p s' with
                                | f :: rest => String c f :: rest
                                | [] => [String c ""]
                                end
           end
  end.

Definition is_one_of (l : string) (c : ascii) : bool := has_char c l.

Definition quotes : ascii -> bool := fun c => is_one_of "<>'" c || Ascii.eqb c (byte 34).
Definition stops : ascii -> bool := is_one_of "?#/".
Definition separators : ascii -> bool :=
  fun c => is_one_of ",; " c || Ascii.eqb c (byte 10) || Ascii.eqb c (byte 13) || Ascii.eqb c (byte 9).

Section Hashes.
Context `{Unicode}.

(** [normalizeVKJoinHash].  The index found in the lower-cased text slices the original one: [None]
    is the run-time panic when it lies beyond its end. *)
Definition normalizeVKJoinHash (input : string) : option string :=
  let s := trim_set quotes (trim_space input) in
  if String.eqb s "" then Some ""
  else
    let lower := to_lower s in
    let cut s :=
      let s := match index_any stops s with Some idx => stake idx s | None => s end in
      Some (trim_set (is_one_of "/") (trim_space s)) in
    match GoStrings.index "/call/join/" lower with
    | Some idx =>
        let from := (idx + String.length "/call/join/")%nat in
        if (String.length s <? from)%nat then None else cut (sdrop from s)
    | None =>
        if has_prefix "http://" lower || has_prefix "https://" lower then Some "" else cut s
    end.

(** The loop of [ParseHashes]: [seen] are the hashes kept so far, in order. *)
Fixpoint keep_hashes (fields : list string) (seen : list string) : option (list string) :=
  match fields with
  | [] => Some seen
  | h :: rest =>
      h ← normalizeVKJoinHash h;
      if String.eqb h "" then keep_hashes rest seen
      else if decide (h ∈ seen) then keep_hashes rest seen
      else keep_hashes rest (seen ++ [h])%list
  end.

Definition ParseHashes (raw : string) : option (list string) := keep_hashes (fields_func separators raw) [].

(** ** Facts *)

(** A normalised hash holds none of the characters that end one. *)
Lemma normalize_stops input h : normalizeVKJoinHash input = Some h -> none_of stops h = true.
Proof.
  assert (forall s h, (let s := match index_any stops s with Some idx => stake idx s | None => s end in
      Some (trim_set (is_one_of "/") (trim_space s))) = Some h -> none_of stops h = true) as Hcut.
  { intros s h'. cbv zeta. intros [= <-]. apply none_of_trim_set, none_of_trim_space.
    destruct (index_any stops s) eqn:E; [by eapply index_any_cut | by apply index_any_none]. }
  unfold normalizeVKJoinHash. cbv zeta in *. split_guard; [by intros [= <-] |].
  destruct (GoStrings.index "/call/join/" _) as [idx |]; split_guard; try done; [apply Hcut | by intros [= <-] | apply Hcut].
Qed.

Definition hash_ok (h : string) : Prop := h <> "" /\ none_of stops h = true.

Lemma keep_hashes_ok fields seen hashes :
  keep_hashes fields seen = Some hashes -> NoDup seen -> Forall hash_ok seen -> NoDup hashes /\ Forall hash_ok hashes.
Proof.
  revert seen. induction fields as [| f fields IH]; intros seen; simpl; [by intros [= <-] |].
  destruct (normalizeVKJoinHash f) as [h |] eqn:Hn; simpl; [| done].
  destruct (String.eqb_spec h "") as [| Hne]; [apply IH |]. destruct (decide (h ∈ seen)) as [| Hnew]; [apply IH |].
  intros Hk Hd Hok. eapply IH; [done | |].
  - apply NoDup_app. repeat split; [done | set_solver | apply NoDup_singleton].
  - apply Forall_app. split; [done |]. constructor; [| done]. split; [done | by eapply normalize_stops].
Qed.

End Hashes.

(** ASCII letters, digits, '-' and '_'. *)
Definition hash_char (c : ascii) : bool :=
  let n := N_of_ascii c in
  ((48 <=? n) && (n <=? 57) || (65 <=? n) && (n <=? 90) || (97 <=? n) && (n <=? 122) || (n =? 45) || (n =? 95))%N.

(** The characters of the query of a link. *)
Definition link_char (c : ascii) : bool := visible c && negb (quotes c).

Lemma hash_link_char c : hash_char c = true -> link_char c = true.
Proof. by apply all_ascii_impl. Qed.

Lemma hash_stops c : hash_char c = true -> negb (stops c) = true.
Proof. by apply (all_ascii_impl hash_char (fun c => negb (stops c))). Qed.

(** ** Properties *)

Section Properties.
Context `{Unicode}.

(** The hashes of a link list are distinct, non-empty and hold no '?', '#' or '/'. *)
Theorem parse_hashes_ok raw hashes :
  ParseHashes raw = Some hashes -> NoDup hashes /\ Forall hash_ok hashes.
Proof. intros Hp. eapply keep_hashes_ok; [exact Hp | constructor | constructor]. Qed.

Lemma index_no_char c p s : no_char c s = true -> GoStrings.index (String c p) s = None.
Proof.
  induction s as [| a s IH]; simpl; [done |]. intros Hs. propify. rewrite Ascii.eqb_sym, H0. simpl. by rewrite IH.
Qed.

Lemma map_lower_no_char c s :
  all_of hash_char s = true -> hash_char c = false -> no_char c (map_string lower_ascii s) = true.
Proof.
  intros Hs Hc. induction s as [| a s IH]; simpl in *; [done |]. propify. rewrite IH by done.
  pose proof (all_ascii_impl hash_char (fun a => hash_char (lower_ascii a)) eq_refl a ltac:(done)) as Ha. destruct (Ascii.eqb_spec (lower_ascii a) c) as [<- |]; [congruence | done].
Qed.

Lemma has_prefix_no_char c p s : no_char c s = true -> no_char c p = false -> has_prefix p s = false.
Proof.
  intros Hs Hp. destruct (has_prefix p s) eqn:E; [| done]. apply has_prefix_spec in E as [t ->].
  rewrite no_char_app, Hp in Hs. done.
Qed.

Definition join_prefix : string := "https://vk.com/call/join/".

(** A hash of letters, digits, '-' and '_' is read back from itself and from its join link, with or
    without a query, whatever the query holds. *)
Theorem join_link_hash h query :
  h <> "" -> all_of hash_char h = true -> all_of link_char query = true ->
  normalizeVKJoinHash h = Some h /\
  normalizeVKJoinHash (join_prefix ++ h) = Some h /\
  normalizeVKJoinHash (join_prefix ++ h ++ "?" ++ query) = Some h.
Proof.
  intros Hne Hh Hq.
  assert (all_of link_char h = true) as Hl by (eapply all_of_impl; [| exact Hh]; apply hash_link_char).
  assert (forall s, all_of link_char s = true -> trim_set quotes (trim_space s) = s) as Htrim.
  { intros s Hs. rewrite trim_space_visible, trim_set_none; [done | | ].
    - rewrite none_of_all. eapply all_of_impl; [| exact Hs]. unfold link_char. intros c Hc. by propify; rewrite H1.
    - eapply all_of_impl; [| exact Hs]. unfold link_char. intros c Hc. by propify. }
  assert (forall s, all_of link_char s = true -> to_lower s = map_string lower_ascii s) as Hlow.
  { intros s Hs. unfold to_lower. rewrite visible_ascii; [done |]. eapply all_of_impl; [| exact Hs].
    unfold link_char. intros c Hc. by propify. }
  assert (none_of stops h = true) as Hst.
  { rewrite none_of_all. eapply all_of_impl; [| exact Hh]. apply hash_stops. }
  assert (trim_set (is_one_of "/") (trim_space h) = h) as Hfin.
  { rewrite trim_space_visible, trim_set_none; [done | | ].
    - rewrite none_of_all. eapply all_of_impl; [| exact Hh]. intros c Hc. apply hash_stops in Hc.
      by apply (all_ascii_impl (fun c => negb (stops c)) (fun c => negb (is_one_of "/" c))).
    - eapply all_of_impl; [| exact Hl]. unfold link_char. intros c Hc. by propify. }
  assert (forall t, (t = "" \/ t = "?" ++ query) -> normalizeVKJoinHash (join_prefix ++ h ++ t) = Some h) as Hlink.
  { intros t Ht. unfold normalizeVKJoinHash.
    assert (all_of link_char (join_prefix ++ h ++ t) = true) as Hall.
    { rewrite !all_of_app, Hl. by destruct Ht as [-> | ->]. }
    rewrite Htrim, Hlow by done. unfold join_prefix. simpl String.eqb. cbv iota zeta.
    match goal with |- context [GoStrings.index ?p ?s] =>
      change (GoStrings.index p s) with (Some 14%nat) end. cbv beta iota zeta.
    match goal with |- context [(?a <? ?b)%nat] => change (a <? b)%nat with false end. cbv iota.
    match goal with |- context [sdrop ?n ?s] => change (sdrop n s) with (sdrop 0 (h ++ t)) end.
    assert (sdrop 0 (h ++ t) = h ++ t) as -> by (by destruct (h ++ t)).
    destruct Ht as [-> | ->].
    - rewrite string_app_nil_r, index_any_all by done. by rewrite Hfin.
    - change (h ++ "?" ++ query) with (h ++ String "?" query). rewrite index_any_app by done.
      by rewrite stake_app, Hfin. }
  split; [| split; [specialize (Hlink ""); rewrite string_app_nil_r in Hlink; by apply Hlink; left | by apply Hlink; right]].
  unfold normalizeVKJoinHash. rewrite Htrim by done. apply String.eqb_neq in Hne. rewrite Hne. cbv zeta.
  rewrite Hlow by done.
  rewrite (index_no_char "/" "call/join/") by (by apply map_lower_no_char).
  rewrite !(has_prefix_no_char ":") by (done || by apply map_lower_no_char). simpl.
  rewrite index_any_all by done. by rewrite Hfin.
Qed.

(** U+023A in UTF-8; its lower case U+2C65 takes three bytes. *)
Definition upper_a_stroke : string := bytes_to_string [200; 186]%Z.
Definition lower_a_stroke : string := bytes_to_string [226; 177; 165]%Z.

Fixpoint repeat_string (n : nat) (s : string) : string :=
  match n with O => "" | S n' => s ++ repeat_string n' s end.

(** The index of "/call/join/" is searched in the lower-cased text but used on the original one:
    where lower-casing makes the text longer it lies beyond the end, and the slice panics. *)
Theorem join_link_panics :
  lower_unicode (repeat_string 12 upper_a_stroke ++ "/call/join/x") = repeat_string 12 lower_a_stroke ++ "/call/join/x" ->
  ParseHashes (repeat_string 12 upper_a_stroke ++ "/call/join/x") = None.
Proof.
  intros Hlow. unfold ParseHashes.
  change (fields_func separators _) with [repeat_string 12 upper_a_stroke ++ "/call/join/x"].
  cbn [keep_hashes]. unfold normalizeVKJoinHash, to_lower.
  change (trim_set quotes _) with (repeat_string 12 upper_a_stroke ++ "/call/join/x"). cbv zeta.
  change (is_ascii _) with false. cbv iota. rewrite Hlow. vm_compute. reflexivity.
Qed.
End Properties.

#[local] Instance unicode0 : Unicode := fun s =>
  if String.eqb s (repeat_string 12 upper_a_stroke ++ "/call/join/x")
  then repeat_string 12 lower_a_stroke ++ "/call/join/x" else s.

Lemma parse_hashes_ok_witness :
  NoDup ["AbC-1_x"; "second"] /\ Forall hash_ok ["AbC-1_x"; "second"].
Proof.
  apply (parse_hashes_ok "https://vk.com/call/join/AbC-1_x?a=b, second;AbC-1_x vk.com/call/join/second/").
  vm_compute. reflexivity.
Defined.

Lemma join_link_hash_witness : normalizeVKJoinHash (join_prefix ++ "AbC-1_x" ++ "?" ++ "ref=vk.com/") = Some "AbC-1_x".
Proof. apply join_link_hash; [discriminate | reflexivity | reflexivity]. Defined.

Lemma join_link_panics_witness : ParseHashes (repeat_string 12 upper_a_stroke ++ "/call/join/x") = None.
Proof. apply join_link_panics. vm_compute. reflexivity. Defined.
