(* ===== verification/WorkerGroup.v ===== *)
(** * A group of workers (internal/core/group.go: [WorkerGroup]; errhint.go).

    The workers of a group run sessions one after another with shared credentials.  One of them at a
    time may ask the server for the configuration: the election uses two atomic words.  The workers
    are goroutines; each atomic operation and each end of a session is a step. *)

From S2P Require Import Prelude GoStrings.
From Stdlib Require Import ZArith Lia String Ascii.
From stdpp Require Import base gmap sets list sorting strings.
Open Scope string_scope.
Open Scope Z_scope.

Definition workersPerGroup : Z := 9.

(** ** Electing the worker that asks for the configuration *)

(** Where a worker is in its loop. *)
Inductive phase :=
| Idle                       (* at the top of the loop or waiting to retry *)
| Loaded                     (* it has seen configSent = 0 *)
| Session (getConf : bool)   (* inside RunSession *)
| Returned (getConf delivered : bool)
| Stopped.
#[export] Instance phase_eq_dec : EqDecision phase.
Proof. solve_decision. Defined.

Record group := {
  configSent : bool;
  configRequestInFlight : bool;
  workers : gmap nat phase;
  delivered : nat                      (* sessions that delivered the configuration *)
}.

Definition set_phase (w : nat) (p : phase) (g : group) : group :=
  {| configSent := configSent g; configRequestInFlight := configRequestInFlight g;
     workers := <[w := p]> (workers g); delivered := delivered g |}.

Definition set_sent (g : group) : group :=
  {| configSent := true; configRequestInFlight := configRequestInFlight g; workers := workers g; delivered := delivered g |}.

Definition set_in_flight (b : bool) (g : group) : group :=
  {| configSent := configSent g; configRequestInFlight := b; workers := workers g; delivered := delivered g |}.

Definition count_delivery (g : group) : group :=
  {| configSent := configSent g; configRequestInFlight := configRequestInFlight g; workers := workers g;
     delivered := S (delivered g) |}.

(** The start of the loop: [shouldGetConfig && configSent == 0] is read first. *)
Definition load_step (getConfig : bool) (w : nat) (g : group) : option group :=
  match workers g !! w with
  | Some Idle =>
      if getConfig && negb (configSent g) then Some (set_phase w Loaded g)
      else Some (set_phase w (Session false) g)
  | _ => None
  end.

(** [CompareAndSwapInt32(&configRequestInFlight, 0, 1)], then [RunSession]. *)
Definition swap_step (w : nat) (g : group) : option group :=
  match workers g !! w with
  | Some Loaded =>
      if configRequestInFlight g then Some (set_phase w (Session false) g)
      else Some (set_phase w (Session true) (set_in_flight true g))
  | _ => None
  end.

(** [RunSession] returns; a session that was not asked for the configuration never delivers it. *)
Definition return_step (w : nat) (configDelivered : bool) (g : group) : option group :=
  match workers g !! w with
  | Some (Session getConf) =>
      if configDelivered && negb getConf then None
      else Some (set_phase w (Returned getConf configDelivered)
                  (if configDelivered then count_delivery g else g))
  | _ => None
  end.

(** The store after the session, and the worker's decision to go on or to stop. *)
Definition store_step (w : nat) (stop : bool) (g : group) : option group :=
  match workers g !! w with
  | Some (Returned getConf configDelivered) =>
      let g := if getConf then (if configDelivered then set_sent g else set_in_flight false g) else g in
      Some (set_phase w (if stop then Stopped else Idle) g)
  | _ => None
  end.

Inductive gstep (getConfig : bool) : group -> group -> Prop :=
| step_load g g' w : load_step getConfig w g = Some g' -> gstep getConfig g g'
| step_swap g g' w : swap_step w g = Some g' -> gstep getConfig g g'
| step_return g g' w d : return_step w d g = Some g' -> gstep getConfig g g'
| step_store g g' w stop : store_step w stop g = Some g' -> gstep getConfig g g'.

(** The group when its workers start. *)
Definition init_group (getConfig : bool) (ids : list nat) : group :=
  {| configSent := negb getConfig; configRequestInFlight := false;
     workers := list_to_map ((fun w => (w, Idle)) <$> ids); delivered := 0 |}.

Inductive reachable (getConfig : bool) (ids : list nat) : group -> Prop :=
| reach_init : reachable getConfig ids (init_group getConfig ids)
| reach_step g g' : reachable getConfig ids g -> gstep getConfig g g' -> reachable getConfig ids g'.

(** The worker that holds the request: from the swap to the store that gives it back. *)
Definition holds (p : phase) : bool :=
  match p with Session true | Returned true _ => true | _ => false end.

(** The worker that delivered, its store still to come. *)
Definition delivering (p : phase) : bool := match p with Returned true true => true | _ => false end.

(** ** After a session *)

Section Decisions.
Context `{Unicode}.

(** [workerErrorHint]. *)
Definition workerErrorHint (err : string) : string :=
  let text := to_lower err in
  let has p := contains p text in
  if has "wrap_auth_timeout" then "сервер не ответил на WRAP/DTLS — проверьте пароль, Device ID, IP/порт и что wdtt-server запущен"
  else if has "context canceled" then "соединение прервано до handshake — часто сервер недоступен, UDP режет оператор или сменилась сеть"
  else if has "context deadline exceeded" then "таймаут handshake — сервер не отвечает, проверьте VPS, файрвол и пароль WRAP"
  else if has "deadline exceeded" || has "timeout" || has "i/o timeout" then "таймаут — сервер не отвечает, проверьте доступность VPS и пароль"
  else if has "connection refused" then "сервер отклонил подключение — проверьте IP, порт DTLS и что wdtt-server запущен"
  else if has "connection reset" then "сервер сбросил соединение — возможен неверный пароль WRAP или перезапуск сервера"
  else if has "no route" || has "network is unreachable" then "нет маршрута до сервера — проверьте интернет; отключите другие VPN/прокси"
  else if has "lookup" || has "no such host" then "DNS не резолвит адрес — смените DNS в настройках"
  else if has "turn квота" || has "quota" || has "486" then "VK исчерпал TURN-слоты — уменьшите потоки или смените VK-хеш/аккаунт"
  else if has "turn allocate" then "ошибка TURN relay — VK может резать UDP; попробуйте другой хеш или режим капчи"
  else if has "rate limit" || has "flood" || has "error 29" then "VK временно ограничил запросы — подождите или смените IP/хеш"
  else if has "rtp aead" || has "auth failed" || has "tag mismatch" then "ошибка WRAP/RTP — неверный пароль или несовместимая версия сервера"
  else if has "fatal_auth" || has "неверный пароль" then "неверный пароль подключения или истёк срок действия"
  else if has "cannot create socket" then "не удалось открыть UDP-сокет — ограничение прошивки или нет сети"
  else "".

(** The classes of a session error. *)
Definition fastRetry (err : string) : bool :=
  let e := to_lower err in
  contains "broken pipe" e || contains "connection reset by peer" e || contains "unexpected eof" e.

Definition turnAllocAttrMissing (err : string) : bool :=
  let e := to_lower err in contains "turn allocate" e && contains "attribute not found" e.

Definition isTurnQuota (err : string) : bool := contains "quota" (to_lower err) || contains "486" err.

Definition turnCredRefreshNeeded (err : string) : bool :=
  let e := to_lower err in
  negb (isTurnQuota err) &&
  (turnAllocAttrMissing err || contains "turn allocate auth" e || contains "invalid credential" e ||
   contains "stale nonce" e || contains "allocation mismatch" e || contains "error 508" e).

Definition isStunDeath (err : string) : bool :=
  let e := to_lower err in contains "error 29" e || contains "cannot create socket" e.

(** The error text with its hint. *)
Definition with_hint (err : string) : string :=
  let e := to_lower err in
  let hint := workerErrorHint err in
  if negb (String.eqb hint "") then err ++ " | " ++ hint
  else if contains "rate limit" e || contains "flood control" e || contains "ip mismatch" e || contains "error 29" e
  then err ++ " (ошибка со стороны ВК)"
  else err.

(** What the worker does next: the reason of a refresh of the credentials, and the range of the pause
    in seconds before the next session ([None]: it stops). *)
Record decision := { refresh : option string; next : option (Z * Z) }.

(** The part of the loop after [RunSession]; [cancelled] is [ctx.Err() != nil]. *)
Definition after_session (cancelled : bool) (sessErr : option string) : decision :=
  if cancelled then {| refresh := None; next := None |}
  else
    match sessErr with
    | None => {| refresh := None; next := Some (5, 15) |}
    | Some err =>
        let errStr := with_hint err in
        if contains "хеш мёртв" errStr || contains "FATAL_AUTH" errStr then {| refresh := None; next := None |}
        else
          let reason :=
            if isTurnQuota err then None
            else if turnAllocAttrMissing err then Some "TURN Allocate attribute-not-found"
            else if turnCredRefreshNeeded err then Some "TURN allocation error"
            else None in
          if isStunDeath err then {| refresh := reason; next := None |}
          else {| refresh := reason;
                  next := Some (if isTurnQuota err then (30, 60) else if fastRetry err then (1, 3) else (5, 15)) |}
    end.

(** ** Credentials of the group *)

(** The first credentials: what an error of [GetCreds] leads to, a pause in seconds or the end. *)
Definition creds_error (err : string) : option Z :=
  if contains "FATAL_AUTH" err || contains "context canceled" err then None
  else Some (if contains "CAPTCHA_WAIT_REQUIRED" err then 65 else 15).

(** [refreshCreds] at Unix time [now]; [fetch] is the outcome of [GetCreds], [done] the time it ends.
    The results are the value returned, [lastCredRefresh] and whether the credentials were fetched. *)
Definition refreshCreds {A} (last now : Z) (fetch : option A) (done : Z) : bool * Z * bool :=
  if (0 <? last) && (now - last <? 15) then (true, last, false)
  else match fetch with
       | Some _ => (true, done, true)
       | None => (false, last, true)
       end.

(** A series of calls, each with its time, its outcome and the time it ends. *)
Fixpoint refreshes {A} (last : Z) (calls : list (Z * option A * Z)) : list (Z * bool * Z) :=
  match calls with
  | [] => []
  | (now, fetch, done) :: rest =>
      let '(_, last', fetched) := refreshCreds last now fetch done in
      (if fetched then [(now, match fetch with Some _ => true | None => false end, done)] else []) ++ refreshes last' rest
  end%list.

(** [tp.Hashes[hashIndex%len(tp.Hashes)]] and [groupID * 100]. *)
Definition group_hash (hashes : list string) (hashIndex : Z) : option string :=
  if (length hashes =? 0)%nat then None else hashes !! Z.to_nat (Z.rem hashIndex (Z.of_nat (length hashes))).
Definition group_stream (groupID : Z) : Z := groupID * 100.
End Decisions.

(** ** Facts *)

Definition no_holder (g : group) : Prop := forall w p, workers g !! w = Some p -> holds p = false.
Definition only_holder (w : nat) (g : group) : Prop :=
  forall v p, workers g !! v = Some p -> holds p = true -> v = w.

(** The election is free, held by one worker, or over. *)
Inductive status (getConfig : bool) (g : group) : Prop :=
| Free : configRequestInFlight g = false -> configSent g = negb getConfig -> delivered g = 0%nat -> no_holder g ->
    status getConfig g
| Held w p : workers g !! w = Some p -> holds p = true -> only_holder w g -> configRequestInFlight g = true ->
    configSent g = negb getConfig -> delivered g = (if delivering p then 1 else 0)%nat -> status getConfig g
| Over : configRequestInFlight g = true -> configSent g = true -> delivered g = 1%nat -> no_holder g ->
    status getConfig g.

(** Changing a worker that does not hold the request to one that does not. *)
Lemma status_other getConfig g w p q :
  status getConfig g -> workers g !! w = Some p -> holds p = false -> holds q = false -> status getConfig (set_phase w q g).
Proof.
  intros Hs Hw Hp Hq.
  assert (forall v r, workers (set_phase w q g) !! v = Some r -> holds r = true -> v <> w /\ workers g !! v = Some r) as Hin.
  { intros v r Hr Hh. unfold set_phase in Hr. simpl in Hr. destruct (decide (v = w)) as [-> |].
    - rewrite lookup_insert_eq in Hr. congruence.
    - by rewrite lookup_insert_ne in Hr by done. }
  assert (no_holder g -> no_holder (set_phase w q g)) as Hno.
  { intros Hn v r Hr. destruct (holds r) eqn:Hh; [| done]. destruct (Hin v r Hr Hh) as [_ Hv].
    apply Hn in Hv. congruence. }
  destruct Hs as [H1 H2 H3 H4 | u r Hu Hr Ho H1 H2 H3 | H1 H2 H3 H4]; [apply Free | eapply (Held _ _ u r) | apply Over];
    try done; try by apply Hno.
  - unfold set_phase. simpl. rewrite lookup_insert_ne; [done |]. intros <-. congruence.
  - intros v r' Hv Hh. destruct (Hin v r' Hv Hh) as [_ Hv']. by eapply Ho.
Qed.

(** The worker that holds the request is the one of the status. *)
Lemma status_held getConfig g w p :
  status getConfig g -> workers g !! w = Some p -> holds p = true ->
  only_holder w g /\ configRequestInFlight g = true /\ configSent g = negb getConfig /\
  delivered g = (if delivering p then 1 else 0)%nat.
Proof.
  intros Hs Hw Hp. destruct Hs as [H1 H2 H3 H4 | u r Hu Hr Ho H1 H2 H3 | H1 H2 H3 H4].
  - apply H4 in Hw. congruence.
  - assert (w = u) as -> by (by eapply Ho). rewrite Hw in Hu. by injection Hu as ->.
  - apply H4 in Hw. congruence.
Qed.

(** Workers after the only holder changed to [q]. *)
Lemma only_after w q g : only_holder w g -> only_holder w (set_phase w q g).
Proof.
  intros Ho v r Hr Hh. unfold set_phase in Hr. simpl in Hr. destruct (decide (v = w)) as [-> |]; [done |].
  rewrite lookup_insert_ne in Hr by done. by eapply Ho.
Qed.

Lemma none_after w q g : only_holder w g -> holds q = false -> no_holder (set_phase w q g).
Proof.
  intros Ho Hq v r Hr. destruct (holds r) eqn:Hh; [| done].
  assert (v = w) as -> by (by eapply (only_after w q g Ho)). unfold set_phase in Hr. simpl in Hr.
  rewrite lookup_insert_eq in Hr. congruence.
Qed.

Lemma none_only w g : no_holder g -> only_holder w g.
Proof. intros Hn v p Hv Hh. apply Hn in Hv. congruence. Qed.

Lemma status_init getConfig ids : status getConfig (init_group getConfig ids).
Proof.
  apply Free; [done.. |]. intros w p Hw. unfold init_group in Hw. simpl in Hw.
  apply elem_of_list_to_map_2, list_elem_of_fmap in Hw as (v & [= -> ->] & _). done.
Qed.

Lemma status_step getConfig g g' : status getConfig g -> gstep getConfig g g' -> status getConfig g'.
Proof.
  intros Hs Hst. inversion Hst as [? ? w Hstep | ? ? w Hstep | ? ? w d Hstep | ? ? w stop Hstep]; subst; clear Hst.
  - unfold load_step in Hstep. destruct (workers g !! w) as [[] |] eqn:Hw; try done.
    destruct (_ && _); injection Hstep as <-; by eapply status_other.
  - unfold swap_step in Hstep. destruct (workers g !! w) as [[] |] eqn:Hw; try done.
    destruct (configRequestInFlight g) eqn:Hf; injection Hstep as <-; [by eapply status_other |].
    destruct Hs as [_ H2 H3 H4 | ? ? _ _ _ H1 | H1]; [| congruence | congruence].
    apply (Held _ _ w (Session true)); try done.
    + unfold set_phase. simpl. by rewrite lookup_insert_eq.
    + by apply only_after, none_only.
  - unfold return_step in Hstep. destruct (workers g !! w) as [[] |] eqn:Hw; try done.
    destruct (d && negb getConf) eqn:Hd; [done |]. injection Hstep as <-.
    destruct getConf; [| destruct d; [done |]; by eapply status_other].
    destruct (status_held _ _ _ _ Hs Hw eq_refl) as (Ho & H1 & H2 & H3). simpl in H3.
    apply (Held _ _ w (Returned true d)); destruct d; simpl; try done; try (by rewrite lookup_insert_eq);
      try (by apply (only_after w _ (count_delivery g))); try (by apply only_after); lia.
  - unfold store_step in Hstep. destruct (workers g !! w) as [[] |] eqn:Hw; try done. injection Hstep as <-.
    destruct getConf; [| by eapply status_other; [done | done | done | by destruct stop]].
    destruct (status_held _ _ _ _ Hs Hw eq_refl) as (Ho & H1 & H2 & H3).
    destruct delivered0; simpl in H3; [apply Over | apply Free]; try done.
    + apply (none_after w _ (set_sent g)); [done | by destruct stop].
    + apply (none_after w _ (set_in_flight false g)); [done | by destruct stop].
Qed.

Lemma reachable_status getConfig ids g : reachable getConfig ids g -> status getConfig g.
Proof. induction 1; [apply status_init | by eapply status_step]. Qed.

(** ** Properties *)

(** C10: in every reachable state of a group at most one worker holds the configuration request, the
    configuration is delivered at most once, and after the delivery nobody asks again.  The request
    is held for the whole session: until the session of the holder [w] ends, no other worker can ask,
    also when the server has answered it with no configuration; once it is free again and nothing was
    delivered, the next worker at the top of its loop asks. *)
Theorem config_single_flight getConfig ids g :
  reachable getConfig ids g ->
  (forall v w p q, workers g !! v = Some p -> workers g !! w = Some q -> holds p = true -> holds q = true -> v = w) /\
  (delivered g <= 1)%nat /\
  (delivered g = 1%nat -> forall w, workers g !! w <> Some (Session true)) /\
  (forall w v g', workers g !! w = Some (Session true) -> swap_step v g = Some g' -> workers g' !! v = Some (Session false)) /\
  (getConfig = true -> no_holder g -> delivered g = 0%nat -> forall w, workers g !! w = Some Idle ->
     exists g1 g2, load_step getConfig w g = Some g1 /\ swap_step w g1 = Some g2 /\ workers g2 !! w = Some (Session true)).
Proof.
  intros Hr. pose proof (reachable_status _ _ _ Hr) as Hs. repeat split.
  - intros v w p q Hv Hw Hp Hq. destruct (status_held _ _ _ _ Hs Hw Hq) as [Ho _]. by eapply Ho.
  - destruct Hs as [_ _ -> _ | w p _ _ _ _ _ -> | _ _ -> _]; [lia | destruct (delivering p); lia | lia].
  - intros Hd w Hw. destruct (status_held _ _ _ _ Hs Hw eq_refl) as (_ & _ & _ & H0). simpl in H0. congruence.
  - intros w v g' Hw Hstep. destruct (status_held _ _ _ _ Hs Hw eq_refl) as (_ & Hf & _).
    unfold swap_step in Hstep. destruct (workers g !! v) as [[] |]; try done. rewrite Hf in Hstep.
    injection Hstep as <-. unfold set_phase. simpl. by rewrite lookup_insert_eq.
  - intros -> Hn Hd w Hw.
    destruct Hs as [Hf Hc _ _ | u p Hu Hp _ | _ _ Hd' _]; [| apply Hn in Hu; congruence | congruence].
    unfold load_step. rewrite Hw, Hc. simpl. eexists _, _. split; [done |].
    unfold swap_step, set_phase. simpl. rewrite lookup_insert_eq, Hf. simpl. split; [done |]. by simplify_map_eq.
Qed.

(** *** Substrings across a separator *)

Lemma has_prefix_sep c p s t :
  no_char c p = true -> has_prefix p (s ++ String c t) = has_prefix p s.
Proof.
  revert s. induction p as [| a p IH]; intros s Hp; [done |]. simpl in Hp. propify.
  destruct s as [| b s]; simpl; [by rewrite H | by rewrite IH].
Qed.

Lemma contains_cons p a s : contains p (String a s) = has_prefix p (String a s) || contains p s.
Proof. unfold contains. simpl GoStrings.index. destruct (has_prefix p (String a s)); [done |]. by destruct (GoStrings.index p s). Qed.

(** A pattern without the separator is found on one of its sides. *)
Lemma contains_sep c p s t :
  no_char c p = true -> contains p (s ++ String c t) = contains p s || contains p (String c t).
Proof.
  intros Hp. induction s as [| a s IH]; [by destruct p |].
  change (String a s ++ String c t) with (String a (s ++ String c t)). rewrite !(contains_cons _ a), IH.
  change (String a (s ++ String c t)) with (String a s ++ String c t). rewrite has_prefix_sep by done.
  by rewrite orb_assoc.
Qed.

(** The last character of a text. *)
Fixpoint last_char (s : string) : option ascii :=
  match s with "" => None | String c "" => Some c | String _ s' => last_char s' end.

Lemma has_prefix_snoc c p s : last_char p <> Some c -> has_prefix p (s ++ String c "") = has_prefix p s.
Proof.
  revert s. induction p as [| a p IH]; intros s Hp; [done |]. destruct s as [| b s].
  - simpl. destruct (Ascii.eqb_spec a c) as [-> |]; [| done]. by destruct p.
  - simpl. rewrite IH; [done |]. intros Hl. apply Hp. simpl. destruct p; [done |]. exact Hl.
Qed.

(** A pattern that does not end in [c] is not completed by it. *)
Lemma contains_snoc c p s : p <> "" -> last_char p <> Some c -> contains p (s ++ String c "") = contains p s.
Proof.
  intros Hne Hp. induction s as [| a s IH].
  - pose proof (has_prefix_snoc c p "" Hp) as E. change ("" ++ String c "") with (String c "") in *.
    rewrite contains_cons, E. by destruct p.
  - change (String a s ++ String c "") with (String a (s ++ String c "")). rewrite !(contains_cons _ a), IH.
    change (String a (s ++ String c "")) with (String a s ++ String c ""). by rewrite has_prefix_snoc.
Qed.

Section DecisionFacts.
Context `{Unicode}.

(** The patterns of a fatal error. *)
Definition fatal_patterns : list string := ["хеш мёртв"; "FATAL_AUTH"].

(** The hints and the note on VK hold no pattern of a fatal error. *)
Lemma hint_not_fatal p err : p ∈ fatal_patterns -> contains p ("| " ++ workerErrorHint err) = false.
Proof.
  intros Hp. unfold workerErrorHint. cbv zeta.
  repeat match goal with |- context [if ?b then _ else _] => destruct b end;
    repeat (apply elem_of_cons in Hp as [-> | Hp]; [vm_compute; reflexivity |]); by apply elem_of_nil in Hp.
Qed.

Lemma with_hint_fatal p err : p ∈ fatal_patterns -> contains p (with_hint err) = contains p err.
Proof.
  intros Hp. unfold with_hint.
  assert (p <> "" /\ last_char p <> Some " "%char /\ no_char "|" p = true /\ no_char "(" p = true) as (H1 & H2 & H3 & H4).
  { repeat (apply elem_of_cons in Hp as [-> | Hp]; [by vm_compute |]). by apply elem_of_nil in Hp. }
  destruct (negb (String.eqb (workerErrorHint err) "")).
  - change (err ++ " | " ++ workerErrorHint err) with (err ++ String " " (String "|" (" " ++ workerErrorHint err))).
    replace (err ++ String " " (String "|" (" " ++ workerErrorHint err)))
      with ((err ++ " ") ++ String "|" (" " ++ workerErrorHint err)) by (by rewrite string_app_assoc).
    rewrite contains_sep by done. rewrite (contains_snoc " ") by done.
    change (String "|" (" " ++ workerErrorHint err)) with ("| " ++ workerErrorHint err).
    by rewrite hint_not_fatal, orb_false_r.
  - destruct (_ || _); [| done].
    replace (err ++ " (ошибка со стороны ВК)") with ((err ++ " ") ++ String "(" "ошибка со стороны ВК)")
      by (by rewrite string_app_assoc).
    rewrite contains_sep by done. rewrite (contains_snoc " ") by done.
    repeat (apply elem_of_cons in Hp as [-> | Hp]; [by rewrite orb_false_r |]). by apply elem_of_nil in Hp.
Qed.

(** After a session error a worker stops exactly when the error names a dead hash, a failed
    authorisation, "error 29" or a socket that cannot be created; a quota error never makes it fetch
    new credentials and is retried after 30 to 60 seconds; of the others a broken connection is
    retried after 1 to 3 seconds and any other error after 5 to 15. *)
Theorem worker_retries err :
  let d := after_session false (Some err) in
  let fatal := contains "хеш мёртв" err || contains "FATAL_AUTH" err in
  (next d = None <-> fatal || isStunDeath err = true) /\
  (isTurnQuota err = true -> refresh d = None) /\
  (isTurnQuota err = false -> fatal = false -> turnCredRefreshNeeded err = true -> refresh d <> None) /\
  (forall lo hi, next d = Some (lo, hi) ->
     (lo, hi) = if isTurnQuota err then (30, 60) else if fastRetry err then (1, 3) else (5, 15)).
Proof.
  intros d fatal. unfold d, after_session. cbv zeta.
  rewrite !with_hint_fatal by (first [by left | by right; left]). fold fatal.
  destruct fatal; simpl; [repeat split; done |].
  destruct (isTurnQuota err), (isStunDeath err); simpl; repeat split; try done; try (intros lo hi; congruence);
    intros _ _ ->; by destruct (turnAllocAttrMissing err).
Qed.

End DecisionFacts.

Section RefreshFacts.
Context {A : Type}.

(** A call with the time it starts, its outcome and the time it ends; calls do not overlap. *)
Abbreviation call := (Z * option A * Z)%type.
Definition call_ok (c : call) : Prop := 0 < c.1.1 <= c.2.
Definition before (a b : call) : Prop := a.2 <= b.1.1.

Lemma refreshes_cons last (c : call) rest :
  refreshes last (c :: rest) =
    (let '(_, last', fetched) := refreshCreds last c.1.1 c.1.2 c.2 in
     (if fetched then [(c.1.1, match c.1.2 with Some _ => true | None => false end, c.2)] else []) ++ refreshes last' rest)%list.
Proof. by destruct c as [[now f] e]. Qed.

(** After a success at [last] every fetch starts 15 seconds later or more. *)
Lemma refreshes_after last (calls : list call) x :
  0 < last -> Forall call_ok calls -> StronglySorted before calls -> Forall (fun c => last <= c.1.1) calls ->
  x ∈ refreshes last calls -> 15 <= x.1.1 - last.
Proof.
  revert last. induction calls as [| [[t f] e] rest IH]; intros last Hl Hok Hs Hge Hx; [by apply elem_of_nil in Hx |].
  apply Forall_cons in Hok as [Ht Hok]. apply StronglySorted_inv in Hs as [Hs Hb]. apply Forall_cons in Hge as [Hgt Hge].
  rewrite refreshes_cons in Hx. simpl in *. unfold call_ok in Ht. simpl in Ht. unfold refreshCreds in Hx.
  rewrite (proj2 (Z.ltb_lt 0 last)) in Hx by done. simpl in Hx.
  destruct (Z.ltb_spec (t - last) 15) as [Hthr | Hthr]; [by eapply IH |].
  destruct f as [y |]; simpl in Hx; apply elem_of_cons in Hx as [-> | Hx]; simpl; try lia; [| by eapply IH].
  assert (15 <= x.1.1 - e); [| lia]. eapply IH; try done; lia.
Qed.

(** As long as the calls follow one another in time, a fetch that begins after a successful one
    begins at least 15 seconds after its end. *)
Theorem refreshes_spaced (calls : list call) i j now1 end1 x :
  Forall call_ok calls -> StronglySorted before calls ->
  refreshes 0 calls !! i = Some (now1, true, end1) -> refreshes 0 calls !! j = Some x -> (i < j)%nat ->
  15 <= x.1.1 - end1.
Proof.
  assert (0 <= 0) as H0 by lia. revert H0. generalize 0 at 2 3 4 as last. intros last _.
  revert last i j. induction calls as [| [[t f] e] rest IH]; intros last i j Hok Hs Hi Hj Hij; [done |].
  apply Forall_cons in Hok as [Ht Hok]. apply StronglySorted_inv in Hs as [Hs Hb].
  rewrite refreshes_cons in Hi, Hj. unfold call_ok in Ht. simpl in *. unfold refreshCreds in Hi, Hj.
  destruct ((0 <? last) && (t - last <? 15)); [by eapply (IH last i j) |].
  destruct f as [y |]; simpl in Hi, Hj; (destruct j as [| j]; [lia |]); simpl in Hj.
  - destruct i as [| i]; simpl in Hi; [| by eapply (IH e i j); try done; lia].
    injection Hi as <- <-. eapply refreshes_after; try done; [lia |]. by eapply list_elem_of_lookup_2.
  - destruct i as [| i]; simpl in Hi; [done |]. eapply (IH last i j); try done; lia.
Qed.
End RefreshFacts.

(** ** A concrete group *)

(** Two workers: the first asks, gets no configuration, and keeps its session; the second cannot ask. *)
Definition group0 : group := init_group true [1; 2]%nat.

Definition busy : group :=
  {| configSent := false; configRequestInFlight := true;
     workers := <[2%nat := Loaded]> (<[1%nat := Session true]> ∅); delivered := 0 |}.

Lemma busy_reachable : reachable true [1; 2]%nat busy.
Proof.
  eapply reach_step; [eapply reach_step; [eapply reach_step; [apply reach_init |] |] |].
  - apply (step_load _ _ (set_phase 1 Loaded group0) 1). reflexivity.
  - apply (step_swap _ _ (set_phase 1 (Session true) (set_in_flight true (set_phase 1 Loaded group0))) 1). reflexivity.
  - apply (step_load _ _ busy 2). vm_compute. reflexivity.
Qed.

Lemma config_single_flight_witness :
  (delivered busy <= 1)%nat /\
  (forall g', swap_step 2 busy = Some g' -> workers g' !! 2%nat = Some (Session false)) /\
  configSent busy = false.
Proof.
  destruct (config_single_flight true [1; 2]%nat busy busy_reachable) as (_ & H1 & _ & H2 & _).
  split; [exact H1 |]. split; [intros g'; apply (H2 1%nat 2%nat); vm_compute; reflexivity | reflexivity].
Defined.

#[local] Instance unicode0 : Unicode := id.

(** "486" is searched in the whole text, ports included: a reset connection waits like a full relay. *)
Example port_486_is_quota :
  next (after_session false (Some "read udp 10.0.0.2:48612->1.2.3.4:3478: read: connection reset by peer")) = Some (30, 60).
Proof. vm_compute. reflexivity. Qed.

Lemma refreshes_spaced_witness : 15 <= 130 - 102.
Proof.
  apply (refreshes_spaced [(100, Some 1%nat, 102); (110, Some 2%nat, 111); (130, None, 131)] 0 1 100 102 (130, false, 131));
    try reflexivity; try lia.
  - repeat constructor; unfold call_ok; simpl; lia.
  - repeat constructor; unfold before; simpl; lia.
Defined.
