(* ===== verification/Protocol.v ===== *)
(** * Asking the server for a configuration (internal/core/protocol.go, session.go, core.go).

    The request a worker sends on its connection, the answers of the server, what a session makes of
    them and what the core announces.  The connection is a parameter: the error of a write, and the
    bytes or the error of the one read. *)

From S2P Require Import Prelude GoStrings VkErrors Chars WorkerGroup.
From Stdlib Require Import ZArith Lia String Ascii.
From stdpp Require Import base sets list strings.
Open Scope string_scope.
Open Scope Z_scope.

(** ** protocol.go *)

(** The failures of the connection, as the texts of their errors. *)
Record connection := {
  write_error : option string;
  deadline_error : option string;
  read_answer : result string string
}.

(** Reading an answer: at most 4096 bytes of it. *)
Definition exchange (conn : connection) (what : string) (reading : string) : result string string :=
  match write_error conn with
  | Some e => Err ("отправка " ++ what ++ ": " ++ e)
  | None =>
      match deadline_error conn with
      | Some e => Err ("установка дедлайна: " ++ e)
      | None => match read_answer conn with
                | Err e => Err (reading ++ ": " ++ e)
                | Ok b => Ok (stake 4096 b)
                end
      end
  end.

(** The reasons of a refusal. *)
Definition denied (reason : string) : string :=
  if String.eqb reason "wrong_password" then "FATAL_AUTH: неверный пароль подключения"
  else if String.eqb reason "expired" then "FATAL_AUTH: срок действия пароля истёк"
  else if String.eqb reason "device_mismatch" then "FATAL_AUTH: пароль привязан к другому устройству"
  else "FATAL_AUTH: доступ запрещён (" ++ reason ++ ")".

Definition getconf_payload (localPort deviceID password : string) : string :=
  "GETCONF:" ++ localPort ++ "|" ++ deviceID ++ "|" ++ password.

(** [RequestConfig]: the empty text is "no configuration yet". *)
Definition RequestConfig (conn : connection) : result string string :=
  resp ← exchange conn "GETCONF" "чтение ответа конфига";
  if String.eqb resp "NOCONF" then Ok ""
  else if has_prefix "DENIED:" resp then Err (denied (trim_prefix "DENIED:" resp))
  else Ok resp.

Definition auth_payload (deviceID password : string) : string := "AUTH:" ++ deviceID ++ "|" ++ password.

(** [SendAuth]. *)
Definition SendAuth (conn : connection) : option string :=
  (fun e => "отправка AUTH: " ++ e) <$> write_error conn.

Definition getconf_raw_payload (deviceID password : string) : string := "GETCONF_RAW:" ++ deviceID ++ "|" ++ password.

Section Raw.
Context `{GoLib}.

(** [RequestRawConfig]: address, DNS servers and MTU. *)
Definition RequestRawConfig (conn : connection) : result string (string * string * Z) :=
  resp ← exchange conn "GETCONF_RAW" "чтение ответа RAWCONF";
  if String.eqb resp "NOCONF" then Ok ("", "", 0)
  else if has_prefix "DENIED:" resp then Err (denied (trim_prefix "DENIED:" resp))
  else if negb (has_prefix "RAWCONF:" resp) then Err ("неожиданный ответ RAWCONF: " ++ fmt_q resp)
  else
    match split_on "|" (trim_prefix "RAWCONF:" resp) with
    | [ip; dns; mtu] =>
        match atoi (trim_space mtu) with
        | Some n => Ok (trim_space ip, trim_space dns, n)
        | None => Err ("некорректный MTU в RAWCONF: " ++ fmt_q (trim_space mtu))
        end
    | _ => Err ("некорректный формат RAWCONF: " ++ fmt_q resp)
    end.

(** ** The configuration request of a session *)

(** [RunSession]: [configDelivered], the error that ends the session at once, what is sent to
    [configCh].  The channel has room for one value; [full] says whether it is taken. *)
Definition session_config (getConfig hasChan rawMode full : bool) (conn : connection)
    : bool * option string * option string :=
  let fatal e := contains "FATAL_AUTH" e in
  let deliver conf := (true, None, if full then None else Some conf) in
  if getConfig && hasChan && rawMode then
    match RequestRawConfig conn with
    | Err e => if fatal e then (false, Some e, None) else (false, None, None)
    | Ok (ip, dnsCSV, mtu) =>
        if String.eqb ip "" then (false, None, None)
        else deliver ("RAWCONF:" ++ ip ++ "|" ++ dnsCSV ++ "|" ++ itoa mtu)
    end
  else if getConfig && hasChan then
    match RequestConfig conn with
    | Err e => if fatal e then (false, Some e, None) else (false, None, None)
    | Ok conf => if String.eqb conf "" then (false, None, None) else deliver conf
    end
  else (false, None, None).

(** ** The goroutine of the core that waits for the configuration *)

Inductive config_event :=
| raw_conf (data : string)
| raw_ready
| wg_config (conf : string).

(** What it does with the value received: the call of [setupRawTUN], if any, and the events. *)
Definition handle_config (patch : string -> string) (rawConf : string) : option (string * Z) * list config_event :=
  if String.eqb rawConf "" then (None, [])
  else if has_prefix "RAWCONF:" rawConf then
    match split_on "|" (trim_prefix "RAWCONF:" rawConf) with
    | [ip; dns; m] =>
        let mtu := atoi_lenient m in
        (Some (ip, mtu), [raw_conf (ip ++ "|" ++ dns ++ "|" ++ itoa mtu); raw_ready])
    | _ => (None, [])
    end
  else (None, [wg_config (patch rawConf)]).

(** ** Facts *)

(** A field of the answer: visible, without the separator. *)
Definition field_char (c : ascii) : bool := visible c && negb (Ascii.eqb c "|").

Lemma field_no_char c s : (forall a, field_char a = true -> a <> c) -> all_of field_char s = true -> no_char c s = true.
Proof.
  intros Hc. induction s as [| a s IH]; simpl; [done |]. intros Hs. apply andb_true_iff in Hs as [Ha Hs].
  rewrite IH by done. rewrite (proj2 (Ascii.eqb_neq a c)); [done | by apply Hc].
Qed.

Lemma field_no_bar s : all_of field_char s = true -> no_char "|" s = true.
Proof.
  apply field_no_char. intros a Ha. unfold field_char in Ha. apply andb_true_iff in Ha as [_ Ha].
  apply negb_true_iff, Ascii.eqb_neq in Ha. exact Ha.
Qed.

Lemma field_trim s : all_of field_char s = true -> trim_space s = s.
Proof. intros Hs. apply trim_space_visible. eapply all_of_impl; [| exact Hs]. unfold field_char. intros c Hc. by propify. Qed.

(** The digits of a number are fields. *)
Lemma digit_field d : 0 <= d < 10 -> field_char (digit d) = true.
Proof.
  intros Hd. assert (d = 0 \/ d = 1 \/ d = 2 \/ d = 3 \/ d = 4 \/ d = 5 \/ d = 6 \/ d = 7 \/ d = 8 \/ d = 9) as Hc by lia.
  by repeat destruct Hc as [-> | Hc]; [.. | subst].
Qed.

Lemma digits_field fuel n acc : 0 <= n -> all_of field_char acc = true -> all_of field_char (digits_fuel fuel n acc) = true.
Proof.
  revert n acc. induction fuel as [| f IH]; intros n acc Hn Hacc; [done |]. cbn [digits_fuel]. cbv zeta.
  assert (all_of field_char (String (digit (n mod 10)) acc) = true) as Ha.
  { simpl all_of. rewrite digit_field by (apply Z.mod_pos_bound; lia). by rewrite Hacc. }
  split_guard; [done |]. apply IH; [| done]. apply Z.div_pos; lia.
Qed.

Lemma itoa_field n : all_of field_char (itoa n) = true.
Proof.
  unfold itoa, utoa. split_guard.
  - change ("-" ++ digits_fuel (S (Z.to_nat (Z.log2 (- n)))) (- n) "")
      with (String "-" (digits_fuel (S (Z.to_nat (Z.log2 (- n)))) (- n) "")).
    cbn [all_of]. rewrite digits_field; [done | lia | done].
  - apply digits_field; [lia | done].
Qed.

Lemma split_fields ip dns m :
  all_of field_char ip = true -> all_of field_char dns = true -> all_of field_char m = true ->
  split_on "|" (ip ++ "|" ++ dns ++ "|" ++ m) = [ip; dns; m].
Proof.
  intros Hi Hd Hm. change (ip ++ "|" ++ dns ++ "|" ++ m) with (ip ++ String "|" (dns ++ String "|" m)).
  rewrite !split_on_app by (by apply field_no_bar). by rewrite split_on_no_char by (by apply field_no_bar).
Qed.

Lemma stake_all n s : (String.length s <= n)%nat -> stake n s = s.
Proof. revert s. induction n as [| n IH]; intros [| c s]; simpl; intros Hn; try done; [lia |]. by rewrite IH by lia. Qed.

Definition rawconf (ip dns : string) (mtu : Z) : string := "RAWCONF:" ++ ip ++ "|" ++ dns ++ "|" ++ itoa mtu.

(** What the client reads from a raw configuration of the server. *)
Lemma RequestRawConfig_rawconf conn ip dns mtu :
  write_error conn = None -> deadline_error conn = None -> read_answer conn = Ok (rawconf ip dns mtu) ->
  (String.length (rawconf ip dns mtu) <= 4096)%nat ->
  all_of field_char ip = true -> all_of field_char dns = true -> min_int <= mtu <= max_int ->
  RequestRawConfig conn = Ok (ip, dns, mtu).
Proof.
  intros Hw Hd Hr Hlen Hip Hdns Hmtu. unfold RequestRawConfig, exchange. rewrite Hw, Hd, Hr, stake_all by done.
  unfold rawconf. cbn [mbind result_bind].
  change (String.eqb ("RAWCONF:" ++ _) "NOCONF") with false. cbv iota.
  change (has_prefix "DENIED:" ("RAWCONF:" ++ _)) with false. cbv iota.
  rewrite has_prefix_app, trim_prefix_app. cbv iota.
  rewrite split_fields by (done || apply itoa_field). cbn [negb].
  rewrite (field_trim (itoa mtu)) by apply itoa_field. rewrite atoi_itoa by done.
  by rewrite !field_trim.
Qed.

(** ** Properties *)

(** A raw configuration "RAWCONF:ip|dns|mtu" of the server reaches the interface unchanged: the
    worker that asked delivers it, the core sets the TUN up with that address and MTU and announces
    the same three fields. *)
Theorem raw_config_delivered conn ip dns mtu patch :
  write_error conn = None -> deadline_error conn = None -> read_answer conn = Ok (rawconf ip dns mtu) ->
  (String.length (rawconf ip dns mtu) <= 4096)%nat ->
  ip <> "" -> all_of field_char ip = true -> all_of field_char dns = true -> min_int <= mtu <= max_int ->
  exists conf, session_config true true true false conn = (true, None, Some conf) /\
    handle_config patch conf = (Some (ip, mtu), [raw_conf (ip ++ "|" ++ dns ++ "|" ++ itoa mtu); raw_ready]).
Proof.
  intros Hw Hd Hr Hlen Hne Hip Hdns Hmtu. exists (rawconf ip dns mtu). split.
  - unfold session_config. simpl. rewrite (RequestRawConfig_rawconf conn ip dns mtu) by done.
    apply String.eqb_neq in Hne. by rewrite Hne.
  - unfold handle_config, rawconf. change (String.eqb ("RAWCONF:" ++ _) "") with false. cbv iota.
    rewrite has_prefix_app, trim_prefix_app, split_fields by (done || apply itoa_field). cbv zeta.
    unfold atoi_lenient. by rewrite atoi_itoa.
Qed.

(** Whatever reason the server refuses a worker for, in both modes the session ends at once with an
    error that stops the worker: it neither delivers a configuration nor retries. *)
Theorem denied_stops_worker `{Unicode} conn reason rawMode full :
  write_error conn = None -> deadline_error conn = None -> read_answer conn = Ok ("DENIED:" ++ reason) ->
  (String.length ("DENIED:" ++ reason) <= 4096)%nat ->
  exists err, session_config true true rawMode full conn = (false, Some err, None) /\
    next (after_session false (Some err)) = None /\ refresh (after_session false (Some err)) = None.
Proof.
  intros Hw Hd Hr Hlen.
  assert (exchange conn "GETCONF" "чтение ответа конфига" = Ok ("DENIED:" ++ reason)) as H1
    by (unfold exchange; by rewrite Hw, Hd, Hr, stake_all).
  assert (exchange conn "GETCONF_RAW" "чтение ответа RAWCONF" = Ok ("DENIED:" ++ reason)) as H2
    by (unfold exchange; by rewrite Hw, Hd, Hr, stake_all).
  assert (contains "FATAL_AUTH" (denied reason) = true) as Hf.
  { unfold denied. repeat (split_guard; [by vm_compute |]). by vm_compute. }
  exists (denied reason). split.
  - unfold session_config. destruct rawMode; simpl.
    + unfold RequestRawConfig. rewrite H2. cbn [mbind result_bind].
      change (String.eqb ("DENIED:" ++ reason) "NOCONF") with false. cbv iota.
      rewrite has_prefix_app, trim_prefix_app. by rewrite Hf.
    + unfold RequestConfig. rewrite H1. cbn [mbind result_bind].
      change (String.eqb ("DENIED:" ++ reason) "NOCONF") with false. cbv iota.
      rewrite has_prefix_app, trim_prefix_app. by rewrite Hf.
  - unfold after_session. cbv zeta. rewrite !with_hint_fatal by (first [by left | by right; left]).
    by rewrite Hf, orb_true_r.
Qed.
End Raw.

(** ** Concrete answers *)

#[local] Instance lib0 : GoLib :=
  {| fmt_v _ := "map[]"; fmt_q s := s; url_query_get _ _ := None; json_marshal _ := "{}" |}.
#[local] Instance unicode0 : Unicode := id.

Definition answers (s : string) : connection :=
  {| write_error := None; deadline_error := None; read_answer := Ok s |}.

Lemma raw_config_delivered_witness :
  exists conf, session_config true true true false (answers "RAWCONF:10.66.0.5|1.1.1.1,8.8.8.8|1280") = (true, None, Some conf) /\
    handle_config id conf = (Some ("10.66.0.5", 1280), [raw_conf "10.66.0.5|1.1.1.1,8.8.8.8|1280"; raw_ready]).
Proof.
  apply (raw_config_delivered _ "10.66.0.5" "1.1.1.1,8.8.8.8" 1280 id);
    first [reflexivity | discriminate | (apply Nat.leb_le; reflexivity) | (split; discriminate)].
Defined.

Lemma denied_stops_worker_witness :
  exists err, session_config true true false false (answers "DENIED:expired") = (false, Some err, None) /\
    next (after_session false (Some err)) = None /\ refresh (after_session false (Some err)) = None.
Proof.
  apply (denied_stops_worker _ "expired"); first [reflexivity | (apply Nat.leb_le; reflexivity)].
Defined.
