(* ===== verification/Session.v ===== *)
(** * A worker's session (internal/core/session.go, [RunSession]).

    The parts of a session around its connection: the TURN address it dials, the errors of Allocate
    and of the DTLS handshake, the two goroutines that shuttle packets between the TURN relay and the
    pipe under DTLS, the keepalive packets and the loops that read and write the connection.  The
    relay, the pipe and the connection are parameters. *)

From S2P Require Import Prelude Bytes GoStrings Net VkErrors Creds Obfs Replay DirectConn.
From Stdlib Require Import ZArith Lia String Ascii.
From stdpp Require Import base gmap list strings.
Open Scope string_scope.
Open Scope Z_scope.

(** ** Where to connect *)

Record TurnParams := { tp_Host : string; tp_Port : string; tp_Transport : string }.

(** The texts are «нет TURN URL в учетных данных» and «разбор TURN URL %q: %w». *)
Inductive turn_addr_error := NoTurnURL | BadTurnURL (url : string) (cause : addr_error).

(** The TURN address of session [sessionID]; a non-negative one, as the core numbers them. *)
Definition turn_addr (urls : list string) (sessionID : Z) (tp : TurnParams) : result turn_addr_error string :=
  match urls !! Z.to_nat (Z.rem sessionID (Z.of_nat (length urls))) with
  | None => Err NoTurnURL
  | Some selectedURL =>
      match SplitHostPort selectedURL with
      | Err e => Err (BadTurnURL selectedURL e)
      | Ok (urlhost, urlport) =>
          let urlhost := if negb (String.eqb (tp_Host tp) "") then tp_Host tp else urlhost in
          let urlport := if negb (String.eqb (tp_Port tp) "") then tp_Port tp else urlport in
          Ok (JoinHostPort urlhost urlport)
      end
  end.

(** ** Errors *)

(** What a failed Allocate at Unix time [now] does: the caches after, and the error of the session. *)
Definition allocate_failed (m : store) (cacheStreamID now : Z) (err : string) : store * string :=
  let m := if isAuthError err then (handleAuthError m cacheStreamID now).1 else m in
  (m, if contains "Quota" err || contains "486" err then "TURN квота: " ++ err else "TURN Allocate: " ++ err).

(** The error of a failed DTLS handshake. *)
Definition handshake_failed `{Unicode} (useWrap : bool) (err : string) : string :=
  let errStr := to_lower err in
  if useWrap && (contains "deadline" errStr || contains "timeout" errStr)
  then "WRAP_AUTH_TIMEOUT: DTLS timeout, пароль/WRAP не подтверждён"
  else "DTLS хендшейк: " ++ err.

(** ** Keepalive packets *)

Definition keepaliveByte : Z := 255.
Definition keepaliveMinSize : Z := 25.
Definition keepaliveMaxSize : Z := 20.

(** [copy(dst, src)] into the first bytes of [dst]. *)
Definition copy_into (dst src : list Z) : list Z := take (length dst) src ++ drop (length src) dst.

(** The packet for the random number [r = rand.Intn(keepaliveMaxSize)]. *)
Definition keepalive_packet (deviceID : list Z) (r : Z) : list Z :=
  let size := keepaliveMinSize + r in
  let didBytes := copy_into (repeat 0 16) deviceID in
  keepaliveByte :: didBytes ++ repeat keepaliveByte (Z.to_nat (size - 17)).

(** The reader of the connection: what it hands to [ReturnCh] of the [n] bytes it has read. *)
Definition reader_packet (pkt : list Z) : option (list Z) :=
  match pkt with
  | b0 :: _ => if b0 =? keepaliveByte then None else Some pkt
  | [] => Some []
  end.

(** ** The relay under DTLS *)

Section Relay.
Context `{C : Cipher}.

(** The goroutine from the relay to the pipe: the packets it writes to the pipe.  [pipe p] says whether
    the write succeeds; a relay error, a datagram longer than the buffer, or a failed write ends the
    goroutine. *)
Fixpoint relay_to_pipe (useWrap : bool) (wrapKey : list Z) (cache : gmap (list Z) AEAD) (replay : replayWindow)
    (plain : list Z) (pipe : list Z -> bool) (relay : list (option (list Z))) : list (list Z) :=
  match relay with
  | [] => []
  | next :: rest =>
      match ReadFrom (wire_size (length plain)) next with
      | Err _ => []
      | Ok payload =>
      if useWrap then
        if negb (obfsIsRTPPacket payload) then relay_to_pipe useWrap wrapKey cache replay plain pipe rest
        else
          match obfsUnwrapPacket cache wrapKey payload plain with
          | (cache, Err _) => relay_to_pipe useWrap wrapKey cache replay plain pipe rest
          | (cache, Ok (m, plain)) =>
              let '(replay, ok) := accept replay payload in
              if negb ok then relay_to_pipe useWrap wrapKey cache replay plain pipe rest
              else
                let payload := take m plain in
                if pipe payload then payload :: relay_to_pipe useWrap wrapKey cache replay plain pipe rest
                else [payload]
          end
      else if pipe payload then payload :: relay_to_pipe useWrap wrapKey cache replay plain pipe rest
      else [payload]
      end
  end.

(** The goroutine from the pipe to the relay: the datagrams it sends.  [rnd k] are the random byte and
    bytes of the [k]-th packet. *)
Fixpoint pipe_to_relay (useWrap : bool) (wrapKey : list Z) (cfg : ObfsConfig) (cache : gmap (list Z) AEAD)
    (st : ObfsState) (rnd : nat -> option Z * (nat -> option (list Z))) (k : nat) (relay : list Z -> bool)
    (pipe : list (option (list Z))) : list (list Z) :=
  match pipe with
  | [] | None :: _ => []
  | Some out :: rest =>
      if useWrap then
        match obfsWrapPacket cache wrapKey out cfg st (rnd k).1 (rnd k).2 with
        | (_, _, Err _) => []
        | (cache, st, Ok wrapped) =>
            if relay wrapped then wrapped :: pipe_to_relay useWrap wrapKey cfg cache st rnd (S k) relay rest
            else [wrapped]
        end
      else if relay out then out :: pipe_to_relay useWrap wrapKey cfg cache st rnd (S k) relay rest
      else [out]
  end.

(** ** Facts *)

(** What was read before the first failure. *)
Fixpoint until_error {E A} (rs : list (result E A)) : list A :=
  match rs with Ok x :: rest => x :: until_error rest | _ => [] end.

Lemma until_error_Ok {E A} (l : list A) : until_error (Ok (E := E) <$> l) = l.
Proof. induction l as [| x l IH]; [done |]. cbn. by f_equal. Qed.

(** The relay goroutine gives the pipe what a reader of the DTLS-free connection gets up to its first
    error. *)
Lemma relay_to_pipe_received cache c plain relay :
  relay_to_pipe true (wrapKey c) cache (replay c) plain (fun _ => true) relay =
  until_error (received cache c plain relay).
Proof.
  revert cache c plain. induction relay as [| [wire |] relay IH]; intros cache c plain; [done | | done].
  destruct (Nat.lt_ge_cases (wire_size (length plain)) (length wire)) as [Hlong | Hfit].
  - destruct (received_long cache c plain wire relay Hlong) as [more ->].
    cbn [relay_to_pipe ReadFrom]. by rewrite (proj2 (Nat.ltb_lt _ _) Hlong).
  - rewrite received_cons by done. cbn [relay_to_pipe ReadFrom]. rewrite (proj2 (Nat.ltb_ge _ _) Hfit).
    destruct (negb (obfsIsRTPPacket wire)); [apply IH |].
    destruct (obfsUnwrapPacket cache (wrapKey c) wire plain) as [cache' [[m plain'] | e]]; [| apply IH].
    destruct (accept (replay c) wire) as [w [|]]; cbn [negb until_error]; [f_equal |];
      apply (IH cache' (set_replay c w) plain').
Qed.

(** ** Properties *)

(** Under DTLS too, whatever datagrams of one sender arrive (duplicated, reordered, lost, mixed
    with forged ones) that fit the buffer, the pipe gets exactly the payloads the sliding window over counters lets
    through, each at most once and unaltered. *)
Theorem dtls_relay_exactly_once `{!CipherLaws C} key a scfg st L cache plain xs :
  length key = wrapKeyLen -> newCipher key = Some a -> config_ok scfg ->
  (PayloadType scfg = 111 \/ PayloadType scfg = 96) -> 0 <= initTs st < 2 ^ 32 ->
  cache_ok cache -> length plain = L ->
  Forall (arrival_ok key L) xs -> ordered_enough st None xs ->
  relay_to_pipe true key cache replay0 plain (fun _ => true) (Some <$> (arrival_wire a scfg st <$> xs)) =
    (snd <$> deliver st None xs) /\
  NoDup (fst <$> deliver st None xs).
Proof.
  intros Hkey Ha Hcfg Hpt Hts Hok Hb Hall Hord. split; [| apply deliver_nodup].
  set (c := {| wrapKey := key; cfg := scfg; writeState := st; replay := replay0 |}).
  change key with (wrapKey c) at 1. change replay0 with (replay c).
  rewrite relay_to_pipe_received.
  destruct (deliver_then key a scfg st L Hkey Ha Hcfg Hpt Hts xs [] None cache c plain) as (k & c' & b' & _ & E); [done.. |].
  rewrite app_nil_r in E. rewrite E, app_nil_r. apply until_error_Ok.
Qed.
End Relay.

(** The TURN address of a session, made of one of the URLs of the credentials and the configured
    host or port, is a valid address of exactly that host and port; sessions take the URLs in turn. *)
Theorem turn_addr_valid (pairs : list (string * string)) sessionID tp :
  pairs <> [] -> 0 <= sessionID ->
  Forall (fun hp => plain hp.1 = true /\ plain hp.2 = true /\ no_char ":" hp.2 = true) pairs ->
  plain (tp_Host tp) = true -> plain (tp_Port tp) = true -> no_char ":" (tp_Port tp) = true ->
  exists h p addr,
    pairs !! Z.to_nat (sessionID mod Z.of_nat (length pairs)) = Some (h, p) /\
    turn_addr ((fun hp => JoinHostPort hp.1 hp.2) <$> pairs) sessionID tp = Ok addr /\
    SplitHostPort addr = Ok (if String.eqb (tp_Host tp) "" then h else tp_Host tp,
                             if String.eqb (tp_Port tp) "" then p else tp_Port tp).
Proof.
  intros Hne Hs Hall H1 H2 H3.
  assert (0 < Z.of_nat (length pairs)) as Hlen by (destruct pairs; [done | simpl; lia]).
  pose proof (Z.mod_pos_bound sessionID _ Hlen) as Hb.
  destruct (lookup_lt_is_Some_2 pairs (Z.to_nat (sessionID mod Z.of_nat (length pairs)))) as [[h p] Hhp]; [lia |].
  destruct (Forall_lookup_1 _ _ _ _ Hall Hhp) as (Hh & Hp & Hc). simpl in *.
  exists h, p. unfold turn_addr. rewrite length_fmap, Z.rem_mod_nonneg, list_lookup_fmap, Hhp by lia. simpl.
  rewrite split_join by done. eexists. split; [done |]. split; [done |].
  rewrite split_join; [by destruct (String.eqb (tp_Host tp) ""), (String.eqb (tp_Port tp) "") | | |];
    destruct (String.eqb (tp_Host tp) ""), (String.eqb (tp_Port tp) ""); done.
Qed.

(** A keepalive has 25 to 44 bytes and never leaves the other side's reader; a WireGuard message
    (type 1 to 4) and an IP packet (version 4 or 6) always do. *)
Lemma keepalive_filtered deviceID r pkt b0 rest :
  0 <= r < keepaliveMaxSize -> pkt = b0 :: rest -> (1 <= b0 <= 4 \/ Z.shiftr b0 4 = 4 \/ Z.shiftr b0 4 = 6) ->
  25 <= Z.of_nat (length (keepalive_packet deviceID r)) <= 44 /\
  reader_packet (keepalive_packet deviceID r) = None /\ reader_packet pkt = Some pkt.
Proof.
  unfold keepaliveMaxSize. intros Hr -> Hb. split; [| split; [done |]].
  - assert (length (copy_into (repeat 0 16) deviceID) = 16%nat) as Hd.
    { unfold copy_into. change (length (repeat 0 16)) with 16%nat.
      rewrite length_app, length_take, length_drop. change (length (repeat 0 16)) with 16%nat. lia. }
    unfold keepalive_packet, keepaliveMinSize. cbn [length]. rewrite length_app, Hd, repeat_length. lia.
  - unfold reader_packet, keepaliveByte. destruct (Z.eqb_spec b0 255) as [-> |]; [| done].
    destruct Hb as [? | [Hb | Hb]]; [lia | by vm_compute in Hb | by vm_compute in Hb].
Qed.

(** ** Concrete sessions *)

#[local] Existing Instance ToyCipher.toy_cipher.
#[local] Existing Instance ToyCipher.toy_laws.

Lemma dtls_relay_exactly_once_witness :
  relay_to_pipe true ToyCipher.key0 ∅ replay0 (replicate 10 0) (fun _ => true)
    (Some <$> (arrival_wire (ToyCipher.toy ToyCipher.key0) (cfg conn0) ToyCipher.st0 <$> arrivals0)) =
    [[10]; [30; 31]; [20]].
Proof.
  destruct (dtls_relay_exactly_once ToyCipher.key0 (ToyCipher.toy ToyCipher.key0) (cfg conn0) ToyCipher.st0 10
    ∅ (replicate 10 0) arrivals0) as [E _].
  - reflexivity.
  - reflexivity.
  - unfold config_ok. simpl. lia.
  - by left.
  - simpl. lia.
  - apply map_Forall_empty.
  - reflexivity.
  - repeat constructor; simpl; try lia; discriminate.
  - vm_compute. repeat split; discriminate.
  - etransitivity; [exact E | vm_compute; reflexivity].
Defined.

Lemma turn_addr_valid_witness :
  exists h p addr,
    [("10.0.0.1", "3478"); ("2001:db8::1", "443")] !! Z.to_nat (7 mod 2) = Some (h, p) /\
    turn_addr ["10.0.0.1:3478"; "[2001:db8::1]:443"] 7 {| tp_Host := ""; tp_Port := "19302"; tp_Transport := "udp" |} = Ok addr /\
    SplitHostPort addr = Ok (h, "19302").
Proof.
  apply (turn_addr_valid [("10.0.0.1", "3478"); ("2001:db8::1", "443")] 7);
    first [lia | discriminate | reflexivity | repeat constructor].
Defined.
