(* ===== verification/WgConfig.v ===== *)
(** * Patching the WireGuard configuration (internal/core/wgconfig.go).

    The configuration received from the server is rewritten line by line: the MTU of the client, no
    DNS servers, and a default route split in two halves. *)

From S2P Require Import Prelude GoStrings Chars Protocol.
From Stdlib Require Import ZArith Lia String Ascii.
From stdpp Require Import base sets list strings.
Open Scope string_scope.
Open Scope Z_scope.

Definition nl : ascii := byte 10.

(** [strings.SplitN(s, string(c), 2)] when [c] occurs: the text behind its first occurrence. *)
Fixpoint after_char (c : ascii) (s : string) : option string :=
  match s with "" => None | String a s' => if Ascii.eqb a c then Some s' else after_char c s' end.

Definition mtu_line (mtu : Z) : string := "MTU = " ++ itoa mtu.
Definition split_routes : string := "AllowedIPs = 0.0.0.0/1, 128.0.0.0/1".

(** Whether a line "AllowedIPs = ..." names the default route. *)
Definition default_route (trimmed : string) : bool :=
  has_prefix "AllowedIPs" trimmed &&
  match after_char "=" trimmed with
  | Some v => let ips := trim_space v in
              String.eqb ips "0.0.0.0/0" || String.eqb ips "0.0.0.0/0, ::/0" || String.eqb ips "0.0.0.0/0,::/0"
  | None => false
  end.

(** The loop over the lines. *)
Fixpoint patch_lines (mtu : Z) (lines : list string) (inInterface : bool) : list string :=
  match lines with
  | [] => []
  | line :: rest =>
      let trimmed := trim_space line in
      let inInterface := if String.eqb trimmed "[Interface]" then true
                         else if has_prefix "[" trimmed then false else inInterface in
      if inInterface && has_prefix "DNS" trimmed then patch_lines mtu rest inInterface
      else if default_route trimmed then split_routes :: patch_lines mtu rest inInterface
      else if String.eqb trimmed "[Interface]" then line :: mtu_line mtu :: patch_lines mtu rest inInterface
      else if inInterface && has_prefix "MTU" trimmed then patch_lines mtu rest inInterface
      else line :: patch_lines mtu rest inInterface
  end.

(** [patchWGConfig]. *)
Definition patchWGConfig (raw : string) (mtu : Z) : string :=
  let mtu := if mtu <=? 0 then 1380 else mtu in
  GoStrings.join (String nl "") (patch_lines mtu (split_on nl raw) false).

(** ** Facts *)

(** The section a line belongs to, given the one before it. *)
Definition section_after (inInterface : bool) (line : string) : bool :=
  let trimmed := trim_space line in
  if String.eqb trimmed "[Interface]" then true else if has_prefix "[" trimmed then false else inInterface.

(** A patched configuration: every [Interface] line is followed by the line of the MTU, which is the only
    one of its section; the interface names no DNS servers; no line names the default route. *)
Fixpoint patched (mtu : Z) (lines : list string) (inInterface : bool) : Prop :=
  match lines with
  | [] => True
  | line :: rest =>
      let trimmed := trim_space line in
      if String.eqb trimmed "[Interface]"
      then match rest with m :: rest' => m = mtu_line mtu /\ patched mtu rest' true | [] => False end
      else
        let inInterface := section_after inInterface line in
        (inInterface = true -> has_prefix "DNS" trimmed = false /\ has_prefix "MTU" trimmed = false) /\
        default_route trimmed = false /\ patched mtu rest inInterface
  end.

Lemma mtu_line_trim mtu : trim_space (mtu_line mtu) = mtu_line mtu.
Proof.
  destruct (all_of_last field_char (itoa mtu)) as (v & d & E & Hd).
  - unfold itoa, utoa. split_guard; [done |]. apply digits_fuel_nonempty. by left.
  - apply itoa_field.
  - apply (trim_space_ends _ "M" ("TU = " ++ itoa mtu) ("MTU = " ++ v) d); [done | | done |].
    + unfold mtu_line. by rewrite E, string_app_assoc.
    + unfold field_char in Hd. by propify.
Qed.

(** A line that starts with a letter does not change the section. *)
Lemma section_stays a p b line :
  has_prefix (String a p) (trim_space line) = true -> a <> "["%char ->
  section_after b line = b /\ String.eqb (trim_space line) "[Interface]" = false.
Proof.
  intros (t & E)%has_prefix_spec Ha. unfold section_after. rewrite E.
  assert (Ascii.eqb a "[" = false) as H1 by (by apply Ascii.eqb_neq).
  assert (Ascii.eqb "[" a = false) as H2 by (by rewrite Ascii.eqb_sym).
  change (String a p ++ t) with (String a (p ++ t)). cbn [String.eqb has_prefix]. by rewrite H1, H2.
Qed.

Lemma section_split b : section_after b split_routes = b.
Proof. by destruct b. Qed.

Lemma section_mtu b mtu : section_after b (mtu_line mtu) = b.
Proof.
  destruct (section_stays "M" "TU = " b (mtu_line mtu)) as [E _]; [| done | done].
  rewrite mtu_line_trim. apply (has_prefix_app "MTU = ").
Qed.

Lemma default_allowed t : default_route t = true -> has_prefix "AllowedIPs" t = true.
Proof. unfold default_route. by intros [H _]%andb_true_iff. Qed.

Lemma patch_lines_patched mtu lines b : patched mtu (patch_lines mtu lines b) b.
Proof.
  revert b. induction lines as [| line rest IH]; intros b; [done |]. cbn [patch_lines]. cbv zeta.
  fold (section_after b line).
  destruct (section_after b line && has_prefix "DNS" (trim_space line)) eqn:Hdns.
  { apply andb_true_iff in Hdns as [_ Hdns]. destruct (section_stays _ _ b line Hdns) as [-> _]; [done | apply IH]. }
  destruct (default_route (trim_space line)) eqn:Hdef.
  { destruct (section_stays _ _ b line (default_allowed _ Hdef)) as [-> _]; [done |].
    cbn [patched]. cbv zeta. rewrite section_split. split; [by intros _ |]. split; [done | apply IH]. }
  destruct (String.eqb (trim_space line) "[Interface]") eqn:Hint.
  { cbn [patched]. cbv zeta. rewrite Hint. split; [done |]. unfold section_after. rewrite Hint. apply IH. }
  destruct (section_after b line && has_prefix "MTU" (trim_space line)) eqn:Hmtu.
  { apply andb_true_iff in Hmtu as [_ Hmtu]. destruct (section_stays _ _ b line Hmtu) as [-> _]; [done | apply IH]. }
  cbn [patched]. cbv zeta. rewrite Hint. split; [| split; [done | apply IH]].
  intros Hs. rewrite Hs in Hdns, Hmtu. done.
Qed.

(** Patching a patched configuration changes nothing. *)
Lemma patch_lines_stable mtu n lines b :
  (length lines <= n)%nat -> patched mtu lines b -> patch_lines mtu lines b = lines.
Proof.
  revert lines b. induction n as [| n IH]; intros [| line rest] b Hn Hp; simpl in Hn; try done; [lia |].
  cbn [patched] in Hp. cbn [patch_lines]. cbv zeta in *. fold (section_after b line).
  destruct (String.eqb (trim_space line) "[Interface]") eqn:Hint.
  - destruct rest as [| m rest]; [done |]. destruct Hp as [-> Hp]. simpl in Hn.
    assert (section_after b line = true) as -> by (unfold section_after; by rewrite Hint).
    apply String.eqb_eq in Hint. rewrite Hint. cbn [andb].
    change (has_prefix "DNS" "[Interface]") with false. change (default_route "[Interface]") with false.
    cbv iota. cbn [patch_lines]. cbv zeta. fold (section_after true (mtu_line mtu)). rewrite section_mtu, mtu_line_trim.
    change (has_prefix "DNS" (mtu_line mtu)) with false. change (default_route (mtu_line mtu)) with false.
    change (String.eqb (mtu_line mtu) "[Interface]") with false. change (has_prefix "MTU" (mtu_line mtu)) with true.
    cbn [andb]. cbv iota. do 2 f_equal. apply IH; [lia | done].
  - destruct Hp as (Hs & -> & Hp). rewrite (IH rest (section_after b line)) by (lia || done).
    destruct (section_after b line); [destruct Hs as [-> ->]; done | done].
Qed.

Lemma mtu_line_one_line mtu : no_char nl (mtu_line mtu) = true.
Proof.
  unfold mtu_line. rewrite no_char_app. change (no_char nl "MTU = ") with true. simpl.
  apply field_no_char; [| apply itoa_field]. intros a Ha ->. done.
Qed.

Lemma patch_lines_one_line mtu lines b :
  Forall (fun l => no_char nl l = true) lines -> Forall (fun l => no_char nl l = true) (patch_lines mtu lines b).
Proof.
  intros Hl. revert b. induction Hl as [| line rest Hline _ IH]; intros b; [constructor |]. cbn [patch_lines]. cbv zeta.
  repeat split_guard; repeat (constructor; try done); try apply IH; apply mtu_line_one_line.
Qed.

Lemma patch_lines_nonempty mtu lines : lines <> [] -> patch_lines mtu lines false <> [].
Proof.
  destruct lines as [| line rest]; [done |]. intros _. cbn [patch_lines]. cbv zeta. fold (section_after false line).
  destruct (section_after false line) eqn:Hs.
  - unfold section_after in Hs. destruct (String.eqb (trim_space line) "[Interface]") eqn:Hint;
      [| by destruct (has_prefix "[" (trim_space line))].
    apply String.eqb_eq in Hint. by rewrite Hint.
  - simpl. destruct (default_route _); [done |]. by destruct (String.eqb _ _).
Qed.

(** The configuration handed to WireGuard has, in every [Interface] section, the MTU of the client as
    its only MTU line and no DNS line, and nowhere a default route; patching it again changes
    nothing. *)
Theorem patch_config raw mtu :
  let m := if mtu <=? 0 then 1380 else mtu in
  patched m (split_on nl (patchWGConfig raw mtu)) false /\
  patchWGConfig (patchWGConfig raw mtu) mtu = patchWGConfig raw mtu.
Proof.
  intros m. unfold patchWGConfig. fold m.
  assert (split_on nl (GoStrings.join (String nl "") (patch_lines m (split_on nl raw) false)) =
          patch_lines m (split_on nl raw) false) as E.
  { apply split_on_join; [apply patch_lines_nonempty, split_on_nonempty | apply patch_lines_one_line, split_on_pieces]. }
  rewrite E. split; [apply patch_lines_patched |]. f_equal.
  apply (patch_lines_stable _ (length (patch_lines m (split_on nl raw) false))); [done | apply patch_lines_patched].
Qed.

Example patch0 :
  patchWGConfig (GoStrings.join (String nl "") ["[Interface]"; "Address = 10.0.0.2/32"; "DNS = 1.1.1.1"; "MTU = 1500"; "[Peer]";
                                     " AllowedIPs = 0.0.0.0/0, ::/0"]) 1280 =
  GoStrings.join (String nl "") ["[Interface]"; "MTU = 1280"; "Address = 10.0.0.2/32"; "[Peer]"; split_routes].
Proof. vm_compute. reflexivity. Qed.
