(* ===== verification/CoreRuntime.v ===== *)
(** * The core: configuration, start, events and shutdown (internal/core/core.go).

    [New] validates the configuration, [Start] resolves the peer and lays the workers out in groups;
    events go through a channel with room for 256, captcha answers through one with room for one.
    The interleaving of the goroutines that emit events with the one that closes the channel is a
    step relation. *)

From S2P Require Import Prelude GoStrings Net Chars WorkerGroup.
From Stdlib Require Import ZArith Lia String Ascii.
From stdpp Require Import base sets list strings.
Open Scope string_scope.
Open Scope Z_scope.

(** ** Configuration *)

Record Config := {
  PeerAddr : string;
  Password : string;
  Hashes : list string;
  Listen : string;
  TurnHost : string;
  TurnPort : string;
  DeviceID : string;
  Workers : Z;
  CaptchaMode : string;
  MTU : Z;
  DNS : string;
  Mode : string;
  SocksPort : Z;
  SocksUser : string;
  SocksPass : string;
  SocksBindAddr : string;
  WGRawConfig : string;
  RawMode : bool;
  NoDTLS : bool;
  Transport : string;
  RawPort : string
}.

Definition DefaultSocksPort : Z := 9050.

Section Core.
Context `{Unicode}.

(** [normalizeCaptchaMode] and [getCaptchaMode]. *)
Definition normalizeCaptchaMode (mode : string) : string :=
  let m := to_lower (trim_space mode) in
  if String.eqb m "auto" || String.eqb m "rjs" || String.eqb m "wv" then m else "auto".

Definition getCaptchaMode (stored : string) : string := if String.eqb stored "" then "auto" else stored.

Inductive new_error := InvalidMode (mode : string) | InvalidTransport (transport : string).

(** [New]: the configuration with its defaults, and the captcha mode stored. *)
Definition New (cfg : Config) : result new_error (Config * string) :=
  let mode := if String.eqb (Mode cfg) "" then "tun" else Mode cfg in
  if negb (String.eqb mode "tun") && negb (String.eqb mode "socks") && negb (String.eqb mode "raw")
  then Err (InvalidMode mode)
  else
    let t := to_lower (trim_space (Transport cfg)) in
    if negb (String.eqb t "") && negb (String.eqb t "udp") && negb (String.eqb t "tcp")
    then Err (InvalidTransport (Transport cfg))
    else Ok
      ({| PeerAddr := PeerAddr cfg; Password := Password cfg; Hashes := Hashes cfg;
          Listen := if String.eqb (Listen cfg) "" then "127.0.0.1:9000" else Listen cfg;
          TurnHost := TurnHost cfg; TurnPort := TurnPort cfg;
          DeviceID := if String.eqb (DeviceID cfg) "" then "unknown" else DeviceID cfg;
          Workers := if Workers cfg <=? 0 then 9 else Workers cfg;
          CaptchaMode := CaptchaMode cfg; MTU := MTU cfg; DNS := DNS cfg; Mode := mode;
          SocksPort := if SocksPort cfg <=? 0 then DefaultSocksPort else SocksPort cfg;
          SocksUser := SocksUser cfg; SocksPass := SocksPass cfg; SocksBindAddr := SocksBindAddr cfg; WGRawConfig := WGRawConfig cfg;
          RawMode := RawMode cfg; NoDTLS := NoDTLS cfg;
          Transport := if negb (String.eqb t "tcp") then "udp" else Transport cfg;
          RawPort := RawPort cfg |},
       normalizeCaptchaMode (CaptchaMode cfg)).

(** [dialTURNConn] (session.go): the protocol it connects with. *)
Inductive dial := DialUDP | DialTCP.
Definition dialTURNConn (transport : string) : dial := if negb (String.eqb transport "tcp") then DialUDP else DialTCP.

(** ** The peer *)

(** An IP address: whether it has an IPv4 form, and its text. *)
Record ip_addr := { to4 : bool; ip_text : string }.

Inductive start_error :=
| PeerRequired | HashesRequired | PasswordRequired | ResolvePeer (e : string) | ResolveRawPeer (e : string).

(** [net.ResolveUDPAddr("udp", address)]: the address is split first; [resolve host port] is the
    resolution of its parts. *)
Definition ResolveUDPAddr (resolve : string -> string -> result string ip_addr) (address : string)
    : result string (ip_addr * string) :=
  match SplitHostPort address with
  | Err e => Err (addr_error_text address e)
  | Ok (host, port) => match resolve host port with Ok ip => Ok (ip, port) | Err e => Err e end
  end.

(** The address of the raw peer: the bracketed text of an IPv6 address goes through [JoinHostPort]. *)
Definition raw_peer_address (peer : ip_addr) (rawPort : string) : string :=
  let rawPort := if String.eqb rawPort "" then "56003" else rawPort in
  let host := if negb (to4 peer) then "[" ++ ip_text peer ++ "]" else ip_text peer in
  JoinHostPort host rawPort.

(** The checks of [Start], up to the peer the workers talk to. *)
Definition start_peer (cfg : Config) (resolve : string -> string -> result string ip_addr)
    : result start_error (ip_addr * string) :=
  if String.eqb (PeerAddr cfg) "" then Err PeerRequired
  else if (length (Hashes cfg) =? 0)%nat then Err HashesRequired
  else if String.eqb (Password cfg) "" then Err PasswordRequired
  else
    match ResolveUDPAddr resolve (PeerAddr cfg) with
    | Err e => Err (ResolvePeer e)
    | Ok (peer, port) =>
        if RawMode cfg || NoDTLS cfg then
          match ResolveUDPAddr resolve (raw_peer_address peer (RawPort cfg)) with
          | Err e => Err (ResolveRawPeer e)
          | Ok p => Ok p
          end
        else Ok (peer, port)
    end.

(** ** Workers *)

Definition maxWorkers : Z := 108.

(** The number of workers [Start] runs. *)
Definition worker_count (workers : Z) : Z :=
  let n := workers in
  let n := if maxWorkers <? n then maxWorkers else n in
  let n := if n <? workersPerGroup then workersPerGroup else n in
  Z.quot n workersPerGroup * workersPerGroup.

(** One call of [WorkerGroup]: its number, whether it may ask for the configuration, its workers and
    the index of its first hash. *)
Record group_call := { g_id : Z; g_first : bool; g_workers : list Z; g_hash : Z }.

(** The loop [for g := 0; g < numGroups; g++]; [counter] is [workerIDCounter]. *)
Fixpoint start_groups (n : nat) (g counter : Z) : list group_call :=
  match n with
  | O => []
  | S n' =>
      {| g_id := g + 1; g_first := g =? 0; g_workers := (fun i => counter + i) <$> seqZ 0 workersPerGroup; g_hash := g |}
      :: start_groups n' (g + 1) (counter + workersPerGroup)
  end.

Definition plan (workers : Z) : list group_call :=
  start_groups (Z.to_nat (Z.quot (worker_count workers) workersPerGroup)) 0 1.

(** ** TURN addresses to keep out of the tunnel *)

Fixpoint add_turn_ips (urls : list string) (turnIPs : list string) : list string :=
  match urls with
  | [] => turnIPs
  | u :: rest =>
      let host := match SplitHostPort (trim_prefix "turn:" u) with Ok (h, _) => h | Err _ => "" end in
      let host := if String.eqb host "" then u else host in
      add_turn_ips rest (if decide (host ∈ turnIPs) then turnIPs else (turnIPs ++ [host])%list)
  end.

(** ** Channels *)

(** [Event], by what distinguishes its kinds. *)
Inductive Event :=
| EventState (status : string)
| EventLog (message : string)
| EventNamed (name data : string)
| EventStats (rx tx workers : Z).

Definition is_log (ev : Event) : bool := match ev with EventLog _ => true | _ => false end.

Definition events_room : nat := 256.

(** [emit] on the open channel of events. *)
Definition emit (q : list Event) (ev : Event) : list Event :=
  if (length q <? events_room)%nat then (q ++ [ev])%list
  else if is_log ev then q
  else
    let q := tail q in
    if (length q <? events_room)%nat then (q ++ [ev])%list else q.

(** [SolveCaptcha] on the channel with room for one: drain, then send. *)
Definition SolveCaptcha (token : string) (ch : option string) : option string :=
  let ch := match ch with Some _ => None | None => ch end in
  match ch with None => Some token | Some _ => ch end.

(** [emitLog]: the event, and whether the authorisation is marked as passed. *)
Definition emitLog (q : list Event) (passed : bool) (msg : string) : list Event * bool :=
  (emit q (EventLog msg), passed || contains "[VK Auth] Success" msg).

(** ** Shutdown *)

(** The main goroutine of [Start]: waiting for the workers, then its deferred calls. *)
Inductive main_pc := WaitWorkers | Completed | Cancelled | DispatcherDown | EventsClosed.

(** The goroutine with the statistics ticker: in its select, about to emit, or returned. *)
Inductive ticker_pc := Selecting | Emitting | TickerDone.

Record runtime := {
  main : main_pc;
  ticker : ticker_pc;
  ctx_done : bool;
  shutdown_closed : bool;        (* shutdownCh *)
  events_closed : bool;
  queue : list Event;
  panicked : bool                (* a send on the closed channel *)
}.

Definition init_runtime : runtime :=
  {| main := WaitWorkers; ticker := Selecting; ctx_done := false; shutdown_closed := false; events_closed := false;
     queue := [EventState "connecting"]; panicked := false |}.

Definition send (r : runtime) (ev : Event) : runtime :=
  {| main := main r; ticker := ticker r; ctx_done := ctx_done r; shutdown_closed := shutdown_closed r;
     events_closed := events_closed r;
     queue := if events_closed r then queue r else emit (queue r) ev;
     panicked := panicked r || events_closed r |}.

Definition set_main (m : main_pc) (r : runtime) : runtime :=
  {| main := m; ticker := ticker r;
     ctx_done := match m with Cancelled => true | _ => ctx_done r end; shutdown_closed := shutdown_closed r;
     events_closed := match m with EventsClosed => true | _ => events_closed r end;
     queue := queue r; panicked := panicked r |}.

Definition set_ticker (t : ticker_pc) (r : runtime) : runtime :=
  {| main := main r; ticker := t; ctx_done := ctx_done r; shutdown_closed := shutdown_closed r;
     events_closed := events_closed r; queue := queue r; panicked := panicked r |}.

Definition set_shutdown (r : runtime) : runtime :=
  {| main := main r; ticker := ticker r; ctx_done := ctx_done r; shutdown_closed := true;
     events_closed := events_closed r; queue := queue r; panicked := panicked r |}.

Definition set_ctx (r : runtime) : runtime :=
  {| main := main r; ticker := ticker r; ctx_done := true; shutdown_closed := shutdown_closed r;
     events_closed := events_closed r; queue := queue r; panicked := panicked r |}.

(** A step of one goroutine.  When several cases of the ticker's select are ready, any is taken. *)
Inductive rstep : runtime -> runtime -> Prop :=
| r_stop r : rstep r (set_ctx r)
| r_workers_done r : main r = WaitWorkers ->
    rstep r (set_main Completed (send r (EventNamed "workers_completed" "")))
| r_cancel r : main r = Completed -> rstep r (set_main Cancelled r)
| r_dispatcher r : main r = Cancelled -> rstep r (set_main DispatcherDown r)
| r_close r : main r = DispatcherDown -> rstep r (set_main EventsClosed r)
| r_shutdown r : ctx_done r = true -> rstep r (set_shutdown r)
| r_tick r : ticker r = Selecting -> rstep r (set_ticker Emitting r)
| r_emit r rx tx n : ticker r = Emitting -> rstep r (set_ticker Selecting (send r (EventStats rx tx n)))
| r_ticker_end r : ticker r = Selecting -> shutdown_closed r = true -> rstep r (set_ticker TickerDone r).

Inductive rreach : runtime -> Prop :=
| rr_init : rreach init_runtime
| rr_step r r' : rreach r -> rstep r r' -> rreach r'.

(** ** Facts *)

Lemma start_groups_workers n g counter :
  concat (map g_workers (start_groups n g counter)) = seqZ counter (9 * Z.of_nat n).
Proof.
  revert g counter. induction n as [| n IH]; intros g counter; [done |].
  cbn [start_groups map concat]. rewrite IH. unfold workersPerGroup. cbn [g_workers].
  replace ((fun i => counter + i) <$> seqZ 0 9) with (seqZ counter 9) by (rewrite fmap_add_seqZ; f_equal; lia).
  rewrite Nat2Z.inj_succ. replace (9 * Z.succ (Z.of_nat n)) with (9 + 9 * Z.of_nat n) by lia.
  rewrite seqZ_app by lia. done.
Qed.

Lemma length_start_groups n g counter : length (start_groups n g counter) = n.
Proof. revert g counter. induction n as [| n IH]; intros; simpl; [done | by rewrite IH]. Qed.

Lemma start_groups_lookup n g counter i c :
  start_groups n g counter !! i = Some c ->
  g_id c = g + Z.of_nat i + 1 /\ g_hash c = g + Z.of_nat i /\ g_first c = (g + Z.of_nat i =? 0) /\ length (g_workers c) = 9%nat.
Proof.
  revert g counter i. induction n as [| n IH]; intros g counter [| i]; simpl; try done.
  - intros [= <-]. simpl. rewrite !Z.add_0_r. done.
  - intros Hc. destruct (IH _ _ _ Hc) as (-> & -> & -> & Hl). split; [lia |]. split; [lia |]. split; [f_equal; lia | done].
Qed.

Lemma worker_count_spec workers :
  9 <= worker_count workers <= 108 /\ worker_count workers mod 9 = 0 /\
  (9 <= workers -> worker_count workers <= workers) /\ (9 <= workers <= 108 -> workers < worker_count workers + 9).
Proof.
  unfold worker_count, maxWorkers, workersPerGroup. cbv zeta.
  set (n := if _ <? 9 then 9 else _).
  assert (9 <= n <= 108 /\ (9 <= workers -> n <= workers) /\ (9 <= workers <= 108 -> n = workers)) as (Hn & H1 & H2).
  { unfold n. destruct (Z.ltb_spec 108 workers); split_guard; lia. }
  rewrite Z.quot_div_nonneg by lia. pose proof (Z.div_mod n 9 ltac:(lia)). pose proof (Z.mod_pos_bound n 9 ltac:(lia)).
  rewrite Z.mod_mul by lia. repeat split; try lia.
Qed.

Lemma length_emit q ev : (length q <= events_room)%nat -> (length (emit q ev) <= events_room)%nat.
Proof.
  unfold emit. intros Hq. destruct (Nat.ltb_spec (length q) events_room); [rewrite length_app; simpl; lia |].
  destruct (is_log ev); [done |]. cbv zeta. destruct (Nat.ltb_spec (length (tail q)) events_room); [rewrite length_app; simpl; lia |].
  destruct q; simpl in *; lia.
Qed.
End Core.

(** ** Properties *)

Section Theorems.
Context `{Unicode}.

(** Whatever number of workers is configured, [Start] runs between 9 and 108 of them, in groups of
    nine, never more than asked for beyond nine and fewer only by what does not fill a group; the
    groups split the workers 1, 2, ... among themselves without gap or overlap, only the first may
    ask for the configuration, and each starts with its own hash. *)
Theorem workers_partitioned workers :
  let n := worker_count workers in
  9 <= n <= 108 /\ (9 <= workers -> n <= workers) /\ (9 <= workers <= 108 -> workers < n + 9) /\
  concat (map g_workers (plan workers)) = seqZ 1 n /\
  forall i c, plan workers !! i = Some c ->
    length (g_workers c) = 9%nat /\ (g_first c = true <-> i = 0%nat) /\ g_hash c = Z.of_nat i.
Proof.
  intros n. destruct (worker_count_spec workers) as (H1 & H2 & H3 & H4). fold n in H1, H2, H3, H4.
  assert (9 * Z.of_nat (Z.to_nat (Z.quot n workersPerGroup)) = n) as Hg.
  { unfold workersPerGroup. rewrite Z.quot_div_nonneg by lia. rewrite Z2Nat.id by (apply Z.div_pos; lia).
    pose proof (Z.div_mod n 9 ltac:(lia)). lia. }
  do 3 (split; [done |]). split.
  - unfold plan. fold n. by rewrite start_groups_workers, Hg.
  - intros i c Hc. destruct (start_groups_lookup _ _ _ _ _ Hc) as (_ & -> & -> & Hl). split; [done |].
    split; [| lia]. rewrite Z.eqb_eq. lia.
Qed.

(** Emitting never blocks and never grows the channel beyond its room; an event that is not a log
    line is the last of the channel afterwards, and at most the oldest entry was given up for it;
    a log line is dropped when there is no room.  An answered captcha replaces an older answer. *)
Theorem emit_keeps_events q ev :
  (length q <= events_room)%nat ->
  (length (emit q ev) <= events_room)%nat /\
  (is_log ev = false -> exists kept, emit q ev = (kept ++ [ev])%list /\ (kept = q \/ kept = tail q)) /\
  (is_log ev = true -> emit q ev = (q ++ [ev])%list \/ (emit q ev = q /\ length q = events_room)).
Proof.
  intros Hq. split; [by apply length_emit |]. unfold emit.
  destruct (Nat.ltb_spec (length q) events_room) as [Hlt | Hge].
  - split; intros _; [exists q; split; [done | by left] | by left].
  - split; intros ->; [| right; split; [done | lia]]. cbv zeta.
    rewrite (proj2 (Nat.ltb_lt _ _)) by (destruct q; simpl in *; unfold events_room in *; lia).
    exists (tail q). split; [done | by right].
Qed.

(** A transport that is "tcp" up to case and white space passes [New] without being brought to that
    form, and unless it was written so, every TURN connection is made over UDP. *)
Theorem transport_not_normalised cfg :
  (Mode cfg = "" \/ Mode cfg = "tun" \/ Mode cfg = "socks" \/ Mode cfg = "raw") ->
  to_lower (trim_space (Transport cfg)) = "tcp" -> Transport cfg <> "tcp" ->
  exists cfg' mode, New cfg = Ok (cfg', mode) /\ Transport cfg' = Transport cfg /\ dialTURNConn (Transport cfg') = DialUDP.
Proof.
  intros Hm Ht Hne. unfold New. cbv zeta. rewrite Ht.
  assert (negb (String.eqb (if String.eqb (Mode cfg) "" then "tun" else Mode cfg) "tun") &&
    negb (String.eqb (if String.eqb (Mode cfg) "" then "tun" else Mode cfg) "socks") &&
    negb (String.eqb (if String.eqb (Mode cfg) "" then "tun" else Mode cfg) "raw") = false) as ->
    by (destruct Hm as [-> | [-> | [-> | ->]]]; reflexivity).
  simpl. eexists _, _. split; [done |]. simpl. split; [done |]. unfold dialTURNConn. apply String.eqb_neq in Hne. by rewrite Hne.
Qed.

(** In raw mode and without DTLS, a peer with an IPv6 address can never be used: its address is put
    between brackets twice, and however the resolver works, [Start] fails. *)
Theorem raw_ipv6_peer_fails cfg resolve peer port :
  PeerAddr cfg <> "" -> Hashes cfg <> [] -> Password cfg <> "" -> RawMode cfg || NoDTLS cfg = true ->
  ResolveUDPAddr resolve (PeerAddr cfg) = Ok (peer, port) ->
  to4 peer = false -> has_char ":" (ip_text peer) = true -> plain (ip_text peer) = true ->
  plain (RawPort cfg) = true -> no_char ":" (RawPort cfg) = true ->
  exists e, start_peer cfg resolve = Err (ResolveRawPeer e).
Proof.
  intros Hp Hh Hpw Hraw Hres H4 Hcol Hip Hport Hport'. unfold start_peer.
  apply String.eqb_neq in Hp, Hpw. rewrite Hp, Hpw. destruct (Hashes cfg) as [| h hs]; [done |]. simpl.
  rewrite Hres, Hraw. unfold raw_peer_address. rewrite H4. simpl negb. cbv iota zeta.
  set (rp := if String.eqb (RawPort cfg) "" then "56003" else RawPort cfg).
  assert (plain rp = true /\ no_char ":" rp = true) as [H1 H2] by (unfold rp; by destruct (String.eqb (RawPort cfg) "")).
  destruct (split_join_bracketed (ip_text peer) rp) as [e He]; try done.
  eexists. unfold ResolveUDPAddr at 1. by rewrite He.
Qed.

(** The goroutine that sends statistics is not waited for: there is a run of the goroutines of
    [Start] in which the workers end, the channel of events is closed and the ticker then sends on
    it, which is a run-time panic. *)
Theorem stats_after_close : exists r, rreach r /\ events_closed r = true /\ panicked r = true.
Proof.
  eexists. split; [| split; [| shelve]].
  - eapply rr_step; [eapply rr_step; [eapply rr_step; [eapply rr_step; [eapply rr_step; [eapply rr_step; [apply rr_init |] |] |] |] |] |].
    + apply r_workers_done. reflexivity.
    + apply r_cancel. reflexivity.
    + apply r_dispatcher. reflexivity.
    + apply r_tick. reflexivity.
    + apply r_close. reflexivity.
    + apply (r_emit _ 0 0 0). reflexivity.
  - reflexivity.
  Unshelve. reflexivity.
Qed.
End Theorems.

(** ** A concrete configuration *)

#[local] Instance unicode0 : Unicode := id.

Definition config0 : Config := {|
  PeerAddr := "[2001:db8::1]:56000"; Password := "secret"; Hashes := ["hash"]; Listen := ""; TurnHost := ""; TurnPort := "";
  DeviceID := ""; Workers := 20; CaptchaMode := " WV "; MTU := 0; DNS := ""; Mode := "raw"; SocksPort := 0;
  SocksUser := ""; SocksPass := ""; SocksBindAddr := ""; WGRawConfig := "";
  RawMode := true; NoDTLS := false; Transport := "TCP"; RawPort := "" |}.

Definition resolve0 (host _ : string) : result string ip_addr := Ok {| to4 := no_char ":" host; ip_text := host |}.

Lemma emit_keeps_events_witness :
  exists kept, emit (repeat (EventLog "line") 256) (EventNamed "raw_ready" "") = (kept ++ [EventNamed "raw_ready" ""])%list.
Proof.
  destruct (emit_keeps_events (repeat (EventLog "line") 256) (EventNamed "raw_ready" "")) as (_ & H & _);
    [apply Nat.leb_le; reflexivity |].
  destruct (H eq_refl) as (kept & E & _). exists kept. exact E.
Defined.

Lemma transport_not_normalised_witness :
  exists cfg' mode, New config0 = Ok (cfg', mode) /\ Transport cfg' = "TCP" /\ dialTURNConn (Transport cfg') = DialUDP.
Proof. apply (transport_not_normalised config0); [by right; right; right | reflexivity | discriminate]. Defined.

Lemma raw_ipv6_peer_fails_witness : exists e, start_peer config0 resolve0 = Err (ResolveRawPeer e).
Proof.
  apply (raw_ipv6_peer_fails config0 resolve0 {| to4 := false; ip_text := "2001:db8::1" |} "56000");
    first [reflexivity | discriminate].
Defined.
