(* ===== verification/SessionRun.v ===== *)
(** * From start to end of a session (internal/core/session.go, [RunSession] and [RunPing]).

    What a session opens on its way to a working connection, in which order, and what is closed again
    on each of its returns: a Go function with its deferred calls is a computation over a [frame], which
    logs what is opened and closed and keeps the stack of the deferred calls.  The answers of pion's TURN and
    DTLS are a record; the goroutines that run on the connection are in SessionLoop.v. *)

From S2P Require Import Prelude Bytes GoStrings Net VkErrors Creds Chars Obfs Protocol Session.
From S2P Require CoreRuntime.
From Stdlib Require Import ZArith Lia String Ascii.
From stdpp Require Import base gmap list strings.
Open Scope string_scope.
Open Scope Z_scope.

(** ** Functions with deferred calls *)

(** What is opened: the socket to the TURN server, the TURN client, the allocation, the context of the session,
    the two ends of the pipe, the hook that ends the relay's reads, a place among the handshakes, the DTLS
    connection, the connection in use, the count of connections, the slot in the dispatcher, the hook that ends
    the connection's reads. *)
Inductive resource :=
| TurnConn | TurnClient | Allocation | SessCtx | PipeA | PipeB | StopRelay | HandshakePlace | Dtls | ActiveConn
| ConnectionCount | Slot | StopConn.

#[export] Instance resource_eq_dec : EqDecision resource.
Proof. solve_decision. Defined.

Inductive event := Opened (r : resource) | Closed (r : resource) | GateTick | RelayLoops | ConfigSent (conf : string) | Served.

#[export] Instance event_eq_dec : EqDecision event.
Proof. solve_decision. Defined.

Record frame := { log : list event; defers : list resource; caches : store }.

(** A call that can return early with an error. *)
Definition Go (A : Type) : Type := frame -> result string A * frame.
#[export] Instance Go_ret : MRet Go := fun A a f => (Ok a, f).
#[export] Instance Go_bind : MBind Go := fun A B k m f => match m f with (Ok a, f') => k a f' | (Err e, f') => (Err e, f') end.

Definition throw {A} (e : string) : Go A := fun f => (Err e, f).
Definition emit (e : event) : Go unit := fun f => (Ok tt, {| log := log f ++ [e]; defers := defers f; caches := caches f |}).
Definition defer (r : resource) : Go unit := fun f => (Ok tt, {| log := log f; defers := r :: defers f; caches := caches f |}).
Definition open (r : resource) : Go unit := _ ← emit (Opened r); defer r.
Definition update (g : store -> store) : Go unit := fun f => (Ok tt, {| log := log f; defers := defers f; caches := g (caches f) |}).

(** [if err != nil { return fmt.Errorf(prefix+"%w", err) }] *)
Definition fail (prefix : string) (e : option string) : Go unit := match e with Some e => throw (prefix ++ e) | None => mret tt end.

(** The return: the deferred calls run, the last one first. *)
Definition returned (f : frame) : list event := (log f ++ (Closed <$> defers f))%list.

(** ** The session *)

Record params := {
  tp : TurnParams; urls : list string; sessionID : Z; cacheStreamID : Z; WrapKey : list Z; NoDTLS : bool; RawMode : bool;
  getConfig : bool; hasChan : bool
}.

(** What the calls of one session answer; errors are texts.  [gate] is [None] without the ticker of the group,
    else whether a tick came before the end of the context. *)
Record answers := {
  dial_error : option string; client_error : option string; listen_error : option string; gate : option bool;
  ctx_error : string; allocate_error : option string; now : Z; config_error : option string; state_error : option string;
  cert_error : option string; place_taken : bool; dtls_error : option string; handshake_error : option string;
  conn : connection; full : bool; loops_error : option string
}.

Section session.
Context `{Unicode} `{GoLib}.
Context (p : params) (w : answers).

Definition useWrap : bool := (length (WrapKey p) =? wrapKeyLen)%nat.

(** The wait for the tick of the group. *)
Definition allocate_gate : Go unit :=
  match gate w with
  | None => mret tt
  | Some true => emit GateTick
  | Some false => throw (ctx_error w)
  end.

Definition allocate : Go unit :=
  match allocate_error w with
  | Some e => fun f => let '(m, err) := allocate_failed (caches f) (cacheStreamID p) (now w) e in
      (Err err, {| log := log f; defers := defers f; caches := m |})
  | None => _ ← emit (Opened Allocation); update (fun m => reset_errors m (cacheStreamID p))
  end.

Definition obfs : Go unit := _ ← fail "RTP-obfs config: " (config_error w); fail "RTP-obfs state: " (state_error w).

(** The classical mode: DTLS over the relay. *)
Definition dtls_conn : Go unit :=
  _ ← open PipeA;
  _ ← open PipeB;
  _ ← open StopRelay;
  _ ← (if useWrap then obfs else mret tt);
  _ ← emit RelayLoops;
  _ ← fail "генерация сертификата: " (cert_error w);
  _ ← (if place_taken w then emit (Opened HandshakePlace) else throw (ctx_error w));
  _ ← match dtls_error w with Some e => _ ← emit (Closed HandshakePlace); throw ("DTLS клиент: " ++ e) | None => emit (Opened Dtls) end;
  _ ← emit (Closed HandshakePlace);
  match handshake_error w with
  | Some e => _ ← emit (Closed Dtls); throw (handshake_failed useWrap e)
  | None => defer Dtls
  end.

(** The request for the configuration, or the authorisation; its error is only logged. *)
Definition configure : Go bool :=
  match session_config (getConfig p) (hasChan p) (RawMode p) (full w) (conn w) with
  | (_, Some e, _) => throw e
  | (delivered, None, sent) => _ ← match sent with Some conf => emit (ConfigSent conf) | None => mret tt end; mret delivered
  end.

Definition turn_addr_text (e : turn_addr_error) : string :=
  match e with
  | NoTurnURL => "нет TURN URL в учетных данных"
  | BadTurnURL url cause => "разбор TURN URL " ++ fmt_q url ++ ": " ++ addr_error_text url cause
  end.

Definition setup : Go bool :=
  _ ← (fun f => (match turn_addr (urls p) (sessionID p) (tp p) with Ok a => Ok a | Err e => Err (turn_addr_text e) end, f));
  _ ← fail "" (dial_error w);
  _ ← open TurnConn;
  _ ← fail "TURN клиент: " (client_error w);
  _ ← open TurnClient;
  _ ← fail "TURN Listen: " (listen_error w);
  _ ← allocate_gate;
  _ ← allocate;
  _ ← open SessCtx;
  _ ← (if useWrap && (NoDTLS p || RawMode p) then obfs else dtls_conn);
  _ ← open ActiveConn;
  _ ← open ConnectionCount;
  delivered ← configure;
  _ ← open Slot;
  _ ← open StopConn;
  _ ← emit Served;
  mret delivered.

(** [RunSession]: whether the configuration was delivered, the error, the log and the caches. *)
Definition RunSession (m : store) : (bool * option string) * list event * store :=
  let '(r, f) := setup {| log := []; defers := []; caches := m |} in
  (match r with Ok delivered => (delivered, loops_error w) | Err e => (false, Some e) end, returned f, caches f).

(** [RunPing] up to the handshake; it closes its allocation. *)
Definition ping_setup : Go unit :=
  _ ← match urls p with
      | [] => throw "нет TURN URL"
      | u :: _ => match SplitHostPort u with Err e => throw (addr_error_text u e) | Ok _ => mret tt end
      end;
  _ ← fail "" (dial_error w);
  _ ← open TurnConn;
  _ ← fail "" (client_error w);
  _ ← open TurnClient;
  _ ← fail "" (listen_error w);
  _ ← allocate_gate;
  _ ← fail "" (allocate_error w);
  _ ← open Allocation;
  _ ← open PipeA;
  _ ← open PipeB;
  _ ← open SessCtx;
  _ ← (if useWrap then obfs else mret tt);
  _ ← emit RelayLoops;
  _ ← fail "" (cert_error w);
  _ ← fail "" (dtls_error w);
  _ ← open Dtls;
  fail "" (handshake_error w).

Definition RunPing : option string * list event :=
  let '(r, f) := ping_setup {| log := []; defers := []; caches := ∅ |} in
  (match r with Ok _ => None | Err e => Some e end, returned f).
End session.

(** ** What is left open *)

(** Whether [r] is open after the events. *)
Fixpoint held (r : resource) (before : bool) (l : list event) : bool :=
  match l with
  | [] => before
  | Opened q :: rest => held r (if decide (q = r) then true else before) rest
  | Closed q :: rest => held r (if decide (q = r) then false else before) rest
  | _ :: rest => held r before rest
  end.

(** Whether an allocation was made without a tick before it. *)
Fixpoint ungated (l : list event) : bool :=
  match l with
  | [] => false
  | GateTick :: _ => false
  | Opened Allocation :: _ => true
  | _ :: rest => ungated rest
  end.

(** ** The paths of a session *)

(** Runs a computation up to the next answer that decides how it goes on, and splits on it. *)
Ltac run_go := cbv beta iota zeta delta [mbind Go_bind mret Go_ret emit open defer throw fail update log defers caches app].
Ltac scrutinee t :=
  lazymatch t with
  | match ?x with _ => _ end => scrutinee x
  | match ?x with _ => _ end _ => scrutinee x
  | _ => t
  end.
Ltac go_on :=
  match goal with
  | |- _ ?t => let x := scrutinee t in lazymatch x with (_, _) => fail | _ => destruct x eqn:?; run_go end
  end.

Section facts.
Context `{Unicode} `{GoLib}.
Context (p : params) (w : answers).

(** What is known of the log when the session returns. *)
Record tidy {A} (r : result string A * frame) : Prop := {
  tidy_closed : forall q, q <> Allocation -> held q false (returned r.2) = false;
  tidy_allocation : held Allocation false (returned r.2) = bool_decide (Opened Allocation ∈ returned r.2);
  tidy_gated : gate w <> None -> ungated (returned r.2) = false;
  tidy_served : bool_decide (Served ∈ returned r.2) = match r.1 with Ok _ => true | Err _ => false end
}.

Ltac tidy_path :=
  constructor;
  [ intros q Hq; destruct q; try done; by vm_compute
  | by vm_compute
  | intros Hg; first [congruence | by vm_compute]
  | by vm_compute ].

Lemma setup_tidy m : tidy (setup p w {| log := []; defers := []; caches := m |}).
Proof.
  unfold setup, configure, dtls_conn, obfs, allocate, allocate_gate. run_go.
  repeat go_on. all: tidy_path.
Qed.


(** C15: on each of its returns a session has closed everything it opened except its TURN allocation, which it
    never closes: a place among the handshakes is given back, the dispatcher's slot taken out, the count of
    connections lowered.  Allocations wait for the tick of the group, and a session that ends with an error
    before its loops ran has not delivered a configuration. *)
Theorem session_releases m :
  let r := RunSession p w m in
  let l := r.1.2 in
  (forall q, q <> Allocation -> held q false l = false) /\
  (held Allocation false l = true <-> Opened Allocation ∈ l) /\
  (gate w <> None -> ungated l = false) /\
  (Served ∉ l -> r.1.1.1 = false /\ r.1.1.2 <> None) /\ (Served ∈ l -> r.1.1.2 = loops_error w).
Proof.
  cbv zeta. pose proof (setup_tidy m) as [H1 H2 H3 H4]. unfold RunSession. destruct (setup p w _) as [r f]. cbn [fst snd] in *.
  destruct r as [d | e]; (split; [done |]; split; [by rewrite H2, bool_decide_eq_true |]; split; [done |]).
  - apply bool_decide_eq_true in H4. done.
  - apply bool_decide_eq_false in H4. split; [done | by intros ?].
Qed.

Definition leaves_nothing {A} (x : result string A * frame) : Prop := forall r, held r false (returned x.2) = false.

Lemma ping_setup_leaves m : leaves_nothing (ping_setup p w {| log := []; defers := []; caches := m |}).
Proof. unfold ping_setup, obfs, allocate_gate. run_go. repeat go_on.
  all: intros []; by vm_compute.
Qed.

(** A ping closes everything it opened, its allocation too. *)
Lemma ping_releases r : held r false (RunPing p w).2 = false.
Proof. pose proof (ping_setup_leaves ∅ r) as Hr. unfold RunPing. by destruct (ping_setup _ _ _). Qed.
End facts.

(** ** A concrete session *)

Section example.
#[local] Instance example_unicode : Unicode := fun s => s.
#[local] Instance example_lib : GoLib := {| fmt_v := fun _ => ""; fmt_q := fun s => s; url_query_get := fun _ _ => None; json_marshal := fun _ => "{}" |}.

Definition example_params : params := {|
  tp := {| tp_Host := ""; tp_Port := ""; tp_Transport := "udp" |}; urls := ["10.0.0.1:3478"]; sessionID := 4; cacheStreamID := 1;
  WrapKey := []; NoDTLS := false; RawMode := false; getConfig := true; hasChan := true |}.

(** Everything succeeds but what is changed: the handshake, and the answer of the server. *)
Definition example_answers (handshake : option string) (answer : string) : answers := {|
  dial_error := None; client_error := None; listen_error := None; gate := Some true; ctx_error := "context canceled";
  allocate_error := None; now := 0; config_error := None; state_error := None; cert_error := None; place_taken := true; dtls_error := None;
  handshake_error := handshake; conn := {| write_error := None; deadline_error := None; read_answer := Ok answer |}; full := false;
  loops_error := None |}.

Definition example_run handshake answer := (RunSession example_params (example_answers handshake answer) ∅).1.

Example session_log : example_run None "[Interface]" = ((true, None),
  [Opened TurnConn; Opened TurnClient; GateTick; Opened Allocation; Opened SessCtx; Opened PipeA; Opened PipeB; Opened StopRelay; RelayLoops;
   Opened HandshakePlace; Opened Dtls; Closed HandshakePlace; Opened ActiveConn; Opened ConnectionCount; ConfigSent "[Interface]"; Opened Slot;
   Opened StopConn; Served; Closed StopConn; Closed Slot; Closed ConnectionCount; Closed ActiveConn; Closed Dtls; Closed StopRelay;
   Closed PipeB; Closed PipeA; Closed SessCtx; Closed TurnClient; Closed TurnConn]).
Proof. vm_compute. reflexivity. Qed.

(** A session whose handshake failed and one that was refused leave their allocation behind. *)
Example allocation_left :
  held Allocation false (example_run (Some "timeout") "").2 = true /\ held Allocation false (example_run None "DENIED:expired").2 = true /\
  (example_run None "DENIED:expired").1 = (false, Some (denied "expired")).
Proof. vm_compute. done. Qed.

Lemma session_releases_witness :
  held Slot false (RunSession example_params (example_answers (Some "timeout") "") ∅).1.2 = false.
Proof. exact (proj1 (session_releases example_params (example_answers (Some "timeout") "") ∅) Slot ltac:(discriminate)). Defined.
End example.
