(* ===== verification/SessionLoop.v ===== *)
(** * The goroutines of a session (internal/core/session.go, [RunSession] from [Register] on).

    The writer, the reader and the keepalive ticker of a session run on its connection until the context of
    the session ends, each ending it when it ends itself.  One step of the relation is one step of one of
    them, of the hook that ends the connection's reads, or of the surroundings: the dispatcher fills the
    queues, packets and errors come from the connection, time passes, the context is cancelled. *)

From S2P Require Import Prelude Dispatcher Session.
From Stdlib Require Import ZArith Lia.
From stdpp Require Import base list relations.
Open Scope Z_scope.

Abbreviation packet := (list Z).

(** ** State *)

(** The writer looks at the small packets first, then waits for anything; it writes what it took; at its end it
    empties both queues. *)
Inductive writer := WTop | WWaiting | WWriting (pkt : packet) | WDrainPrio | WDrainSend | WDone.
(** The reader sets its deadline, reads, and handles what it has read. *)
Inductive reader := RTop | RReading | RGot (pkt : packet) | RDone.
Inductive transport_error := WriterFailed (e : nat) | ReaderFailed (e : nat).

Record loops := {
  cancelled : bool;
  hooked : bool;
  deadline_past : bool;
  PrioCh : list packet;
  SendCh : list packet;
  wr : writer;
  rd : reader;
  keepalive : bool;
  sessionErrCh : option transport_error
}.

Definition start : loops := {|
  cancelled := false; hooked := false; deadline_past := false; PrioCh := []; SendCh := []; wr := WTop; rd := RTop;
  keepalive := true; sessionErrCh := None |}.

Definition set_queues (prio send : list packet) (w : writer) (s : loops) : loops := {|
  cancelled := cancelled s; hooked := hooked s; deadline_past := deadline_past s; PrioCh := prio; SendCh := send; wr := w; rd := rd s;
  keepalive := keepalive s; sessionErrCh := sessionErrCh s |}.
Definition set_writer (w : writer) (s : loops) : loops := set_queues (PrioCh s) (SendCh s) w s.
Definition set_reader (r : reader) (past : bool) (s : loops) : loops := {|
  cancelled := cancelled s; hooked := hooked s; deadline_past := past; PrioCh := PrioCh s; SendCh := SendCh s; wr := wr s; rd := r;
  keepalive := keepalive s; sessionErrCh := sessionErrCh s |}.
Definition set_keepalive (b : bool) (s : loops) : loops := {|
  cancelled := cancelled s; hooked := hooked s; deadline_past := deadline_past s; PrioCh := PrioCh s; SendCh := SendCh s; wr := wr s; rd := rd s;
  keepalive := b; sessionErrCh := sessionErrCh s |}.

(** [sessCancel] *)
Definition cancel (s : loops) : loops := {|
  cancelled := true; hooked := hooked s; deadline_past := deadline_past s; PrioCh := PrioCh s; SendCh := SendCh s; wr := wr s; rd := rd s;
  keepalive := keepalive s; sessionErrCh := sessionErrCh s |}.

(** The hook of the context: [activeConn.SetDeadline(time.Now())]. *)
Definition end_reads (s : loops) : loops := {|
  cancelled := cancelled s; hooked := true; deadline_past := true; PrioCh := PrioCh s; SendCh := SendCh s; wr := wr s; rd := rd s;
  keepalive := keepalive s; sessionErrCh := sessionErrCh s |}.

(** The error channel has room for one; later errors are dropped. *)
Definition report (e : transport_error) (s : loops) : loops := {|
  cancelled := cancelled s; hooked := hooked s; deadline_past := deadline_past s; PrioCh := PrioCh s; SendCh := SendCh s; wr := wr s; rd := rd s;
  keepalive := keepalive s; sessionErrCh := match sessionErrCh s with Some x => Some x | None => Some e end |}.

(** ** Steps *)

Inductive label :=
| QueuePrio (pkt : packet) | QueueSend (pkt : packet) | Cancel | Hook | TickLost | KeepaliveEnds
| TakePrio (pkt : packet) | NoPrio | TakeSend (pkt : packet) | SeesDone | Wrote (pkt : packet) | WriteFails (e : nat) | Drains
| SetsDeadline | Arrives (pkt : packet) | ReadFails (e : nat) | ReadEnds | TimesOut | Expires | SkipsKeepalive | Returns (pkt : packet) | Drops | ReaderStops.

Section steps.
Context (deviceID : list Z).

Inductive step (s : loops) : label -> loops -> Prop :=
(* the dispatcher *)
| step_queue_prio pkt : (length (PrioCh s) < prioBuf)%nat -> step s (QueuePrio pkt) (set_queues (PrioCh s ++ [pkt]) (SendCh s) (wr s) s)
| step_queue_send pkt : (length (SendCh s) < workerSendBuf)%nat -> step s (QueueSend pkt) (set_queues (PrioCh s) (SendCh s ++ [pkt]) (wr s) s)
(* the context: it is cancelled from outside or by the relay's goroutines *)
| step_cancel : step s Cancel (cancel s)
| step_hook : cancelled s = true -> hooked s = false -> step s Hook (end_reads s)
(* the ticker: its packet is dropped when the queue is full *)
| step_tick r : keepalive s = true -> 0 <= r < keepaliveMaxSize -> (length (PrioCh s) < prioBuf)%nat ->
    step s (QueuePrio (keepalive_packet deviceID r)) (set_queues (PrioCh s ++ [keepalive_packet deviceID r]) (SendCh s) (wr s) s)
| step_tick_lost : keepalive s = true -> (prioBuf <= length (PrioCh s))%nat -> step s TickLost s
| step_keepalive_ends : keepalive s = true -> cancelled s = true -> step s KeepaliveEnds (set_keepalive false s)
(* the writer *)
| step_top_prio pkt rest : wr s = WTop -> PrioCh s = pkt :: rest -> step s (TakePrio pkt) (set_queues rest (SendCh s) (WWriting pkt) s)
| step_no_prio : wr s = WTop -> PrioCh s = [] -> step s NoPrio (set_writer WWaiting s)
| step_wait_prio pkt rest : wr s = WWaiting -> PrioCh s = pkt :: rest -> step s (TakePrio pkt) (set_queues rest (SendCh s) (WWriting pkt) s)
| step_wait_send pkt rest : wr s = WWaiting -> SendCh s = pkt :: rest -> step s (TakeSend pkt) (set_queues (PrioCh s) rest (WWriting pkt) s)
| step_wait_done : wr s = WWaiting -> cancelled s = true -> step s SeesDone (set_writer WDrainPrio s)
| step_write pkt : wr s = WWriting pkt -> step s (Wrote pkt) (set_writer WTop s)
| step_write_fails pkt e : wr s = WWriting pkt -> step s (WriteFails e) (set_writer WDrainPrio (report (WriterFailed e) s))
| step_drain_prio pkt rest : wr s = WDrainPrio -> PrioCh s = pkt :: rest -> step s Drains (set_queues rest (SendCh s) WDrainPrio s)
| step_drained_prio : wr s = WDrainPrio -> PrioCh s = [] -> step s Drains (set_writer WDrainSend s)
| step_drain_send pkt rest : wr s = WDrainSend -> SendCh s = pkt :: rest -> step s Drains (set_queues (PrioCh s) rest WDrainSend s)
| step_drained_send : wr s = WDrainSend -> SendCh s = [] -> step s Drains (cancel (set_writer WDone s))
(* the reader *)
| step_deadline : rd s = RTop -> step s SetsDeadline (set_reader RReading false s)
| step_arrives pkt : rd s = RReading -> step s (Arrives pkt) (set_reader (RGot pkt) (deadline_past s) s)
| step_read_fails e : rd s = RReading -> cancelled s = false ->
    step s (ReadFails e) (cancel (set_reader RDone (deadline_past s) (report (ReaderFailed e) s)))
| step_read_ends : rd s = RReading -> cancelled s = true -> step s ReadEnds (set_reader RDone (deadline_past s) s)
| step_times_out : rd s = RReading -> deadline_past s = true ->
    step s TimesOut (if cancelled s then set_reader RDone true s else set_reader RTop true s)
| step_expires : step s Expires (set_reader (rd s) true s)
| step_skips pkt : rd s = RGot pkt -> reader_packet pkt = None -> step s SkipsKeepalive (set_reader RTop (deadline_past s) s)
| step_returns pkt : rd s = RGot pkt -> reader_packet pkt = Some pkt -> step s (Returns pkt) (set_reader RTop (deadline_past s) s)
| step_drops pkt : rd s = RGot pkt -> reader_packet pkt = Some pkt -> cancelled s = false -> step s Drops (set_reader RTop (deadline_past s) s)
| step_stops pkt : rd s = RGot pkt -> reader_packet pkt = Some pkt -> cancelled s = true -> step s ReaderStops (set_reader RDone (deadline_past s) s).

(** A run with its labels. *)
Inductive run : loops -> list label -> loops -> Prop :=
| run_nil s : run s [] s
| run_cons s l s' ls s'' : step s l s' -> run s' ls s'' -> run s (l :: ls) s''.
End steps.

(** ** What a run does *)

Definition queued_prio (ls : list label) : list packet := omap (fun l => match l with QueuePrio p => Some p | _ => None end) ls.
Definition queued_send (ls : list label) : list packet := omap (fun l => match l with QueueSend p => Some p | _ => None end) ls.
Definition taken_prio (ls : list label) : list packet := omap (fun l => match l with TakePrio p => Some p | _ => None end) ls.
Definition taken_send (ls : list label) : list packet := omap (fun l => match l with TakeSend p => Some p | _ => None end) ls.
Definition taken (ls : list label) : list packet := omap (fun l => match l with TakePrio p | TakeSend p => Some p | _ => None end) ls.
Definition wrote (ls : list label) : list packet := omap (fun l => match l with Wrote p => Some p | _ => None end) ls.
Definition errors (ls : list label) : list transport_error :=
  omap (fun l => match l with WriteFails e => Some (WriterFailed e) | ReadFails e => Some (ReaderFailed e) | _ => None end) ls.

Definition in_hand (w : writer) : list packet := match w with WWriting p => [p] | _ => [] end.
Definition writes (w : writer) : bool := match w with WTop | WWaiting | WWriting _ => true | _ => false end.

(** The steps that the goroutines and the hook make of their own accord. *)
Definition own (l : label) : bool :=
  match l with QueuePrio _ | QueueSend _ | Cancel | TickLost | Arrives _ | ReadFails _ | ReadEnds | Expires => false | _ => true end.

(** Replaces the writer and the queues by what is known of them. *)
Ltac rewrite_state :=
  repeat match goal with
  | E : wr _ = _ |- _ => rewrite E in *; clear E
  | E : PrioCh _ = _ |- _ => rewrite E in *; clear E
  | E : SendCh _ = _ |- _ => rewrite E in *; clear E
  end.

Section facts.
Context (deviceID : list Z).
Abbreviation step := (step deviceID).
Abbreviation run := (run deviceID).

Lemma writing_run s ls s' : run s ls s' -> writes (wr s') = true ->
  writes (wr s) = true /\ (PrioCh s ++ queued_prio ls = taken_prio ls ++ PrioCh s')%list /\
  (SendCh s ++ queued_send ls = taken_send ls ++ SendCh s')%list /\ (in_hand (wr s) ++ taken ls = wrote ls ++ in_hand (wr s'))%list.
Proof.
  induction 1 as [s | s l s1 ls s2 Hs _ IH]; intros Hw; [by rewrite !app_nil_r |]. destruct (IH Hw) as (H1 & H2 & H3 & H4). clear IH.
  inversion Hs; subst; clear Hs; cbn in *; try (destruct (cancelled s); cbn in *); rewrite_state; cbn in *; try done;
    rewrite <- ?app_assoc in *; cbn in *; repeat split; try done; by f_equal.
Qed.

(** C17: while the writer works, it has taken from each queue the packets that were put into it, in their order
    and each once, and those still there are left; it has written what it has taken, in that order, except the
    packet it is writing. *)
Theorem writer_keeps_order ls s : run start ls s -> writes (wr s) = true ->
  queued_prio ls = (taken_prio ls ++ PrioCh s)%list /\ queued_send ls = (taken_send ls ++ SendCh s)%list /\
  taken ls = (wrote ls ++ in_hand (wr s))%list.
Proof. intros Hr Hw. by destruct (writing_run _ _ _ Hr Hw) as (_ & H1 & H2 & H3). Qed.

(** How many data packets the writer may take while small ones wait. *)
Definition overtaking (s : loops) : nat := match wr s with WWaiting => 1 | _ => 0 end.

Lemma waiting_run s ls s' : run s ls s' -> PrioCh s <> [] \/ writes (wr s) = false -> taken_prio ls = [] ->
  (length (taken_send ls) <= overtaking s)%nat.
Proof.
  unfold overtaking. induction 1 as [s | s l s1 ls s2 Hs _ IH]; [cbn; lia |]. intros Hp Ht.
  assert (taken_prio ls = []) as Ht' by (destruct l; try done; discriminate Ht). specialize (fun H => IH H Ht').
  inversion Hs; subst; clear Hs; cbn in *; try (destruct (cancelled s); cbn in *); rewrite_state; cbn in *;
    try discriminate Ht; destruct Hp as [Hp | Hp]; try done;
    pose proof (IH ltac:(first [by left | by right | left; by destruct (PrioCh _)])) as Hn; unfold taken_send in *; lia.
Qed.

(** A small packet that waits is overtaken by at most one data packet, however many of them come. *)
Theorem small_packets_first s ls s' : run s ls s' -> PrioCh s <> [] -> taken_prio ls = [] -> (length (taken_send ls) <= 1)%nat.
Proof.
  intros Hr Hp Ht. pose proof (waiting_run _ _ _ Hr (or_introl Hp) Ht) as Hn. unfold overtaking in Hn. destruct (wr s); lia.
Qed.

Lemma errors_run s ls s' : run s ls s' -> sessionErrCh s' = match sessionErrCh s with Some e => Some e | None => head (errors ls) end.
Proof.
  induction 1 as [s | s l s1 ls s2 Hs _ IH]; [by destruct (sessionErrCh s) |]. rewrite IH. clear IH.
  inversion Hs; subst; clear Hs; cbn; try (destruct (cancelled s)); cbn; try done; by destruct (sessionErrCh s).
Qed.

(** The error of a session is the first error that its writer or reader met; a session that was ended from
    outside ends without one. *)
Theorem first_error_wins ls s : run start ls s -> sessionErrCh s = head (errors ls).
Proof. intros Hr. by rewrite (errors_run _ _ _ Hr). Qed.

(** ** The end of a session *)

(** An upper bound of the steps that are left when nothing comes from outside. *)
Definition writer_left (s : loops) : nat :=
  let n := (length (PrioCh s) + length (SendCh s))%nat in
  match wr s with WDone => 0 | WDrainSend => n + 1 | WDrainPrio => n + 2 | WWaiting => 4 * n + 3 | WTop => 4 * n + 4 | WWriting _ => 4 * n + 6 end.
Definition reader_left (r : reader) : nat := match r with RDone => 0 | RReading => 1 | RTop => 2 | RGot _ => 3 end.
Definition left_to_do (s : loops) : nat :=
  writer_left s + reader_left (rd s) + (if hooked s then 0 else 1) + (if keepalive s then 1 else 0).

(** Whether the session has come to its end. *)
Definition ended (s : loops) : Prop := wr s = WDone /\ rd s = RDone /\ keepalive s = false.

(** The reader waits although the context has ended: its deadline lies in the future again. *)
Definition reader_waits (s : loops) : Prop := wr s = WDone /\ keepalive s = false /\ hooked s = true /\ rd s = RReading /\ deadline_past s = false.

Lemma own_step s l s' : step s l s' -> own l = true -> cancelled s = true -> cancelled s' = true /\ (left_to_do s' < left_to_do s)%nat.
Proof.
  intros Hs Ho Hc. unfold left_to_do, writer_left. inversion Hs; subst; clear Hs; try discriminate Ho; cbn; rewrite ?Hc; cbn;
    repeat match goal with E : _ s = _ |- _ => rewrite E; clear E end; cbn; (split; [done | lia]).
Qed.

(** C16: once the context of a session has ended, its goroutines come to an end in a bounded number of steps, but
    for one case: the reader waits for a packet or for its deadline of half an hour, because it has set this
    deadline after the hook had set one in the past. *)
Theorem session_winds_up s : cancelled s = true ->
  (forall ls s', run s ls s' -> Forall (fun l => own l = true) ls -> (length ls + left_to_do s' <= left_to_do s)%nat) /\
  ((forall l s', step s l s' -> own l = false) -> ended s \/ reader_waits s).
Proof.
  intros Hc. split.
  - intros ls s' Hr Ho. induction Hr as [s | s l s1 ls s2 Hs Hr IH]; [done |]. apply Forall_cons in Ho as [Hl Ho].
    destruct (own_step _ _ _ Hs Hl Hc) as [Hc' Hlt]. specialize (IH Hc' Ho). cbn [length]. lia.
  - intros Hstuck.
    assert (hooked s = true) as Hh.
    { destruct (hooked s) eqn:E; [done |]. by pose proof (Hstuck _ _ (step_hook deviceID s Hc E)). }
    assert (keepalive s = false) as Hk.
    { destruct (keepalive s) eqn:E; [| done]. by pose proof (Hstuck _ _ (step_keepalive_ends deviceID s E Hc)). }
    assert (wr s = WDone) as Hw.
    { destruct (wr s) eqn:E; [| | | | | done].
      - destruct (PrioCh s) eqn:Ep; [by pose proof (Hstuck _ _ (step_no_prio deviceID s E Ep)) | by pose proof (Hstuck _ _ (step_top_prio deviceID s _ _ E Ep))].
      - by pose proof (Hstuck _ _ (step_wait_done deviceID s E Hc)).
      - by pose proof (Hstuck _ _ (step_write deviceID s _ E)).
      - destruct (PrioCh s) eqn:Ep; [by pose proof (Hstuck _ _ (step_drained_prio deviceID s E Ep)) | by pose proof (Hstuck _ _ (step_drain_prio deviceID s _ _ E Ep))].
      - destruct (SendCh s) eqn:Ep; [by pose proof (Hstuck _ _ (step_drained_send deviceID s E Ep)) | by pose proof (Hstuck _ _ (step_drain_send deviceID s _ _ E Ep))]. }
    destruct (rd s) eqn:E.
    + by pose proof (Hstuck _ _ (step_deadline deviceID s E)).
    + destruct (deadline_past s) eqn:Ed; [by pose proof (Hstuck _ _ (step_times_out deviceID s E Ed)) | by right].
    + destruct (reader_packet pkt) as [q |] eqn:Ep; [| by pose proof (Hstuck _ _ (step_skips deviceID s _ E Ep))].
      assert (q = pkt) as -> by (unfold reader_packet in Ep; destruct pkt as [| b pkt]; [congruence |]; destruct (b =? keepaliveByte); congruence).
      by pose proof (Hstuck _ _ (step_stops deviceID s _ E Ep Hc)).
    + by left.
Qed.

(** This case happens: a keepalive that the reader skips while the context ends. *)
Theorem reader_outlives_session : exists ls s, run start ls s /\ cancelled s = true /\ reader_waits s /\ errors ls = [] /\
  forall l s', step s l s' -> own l = false.
Proof.
  eexists [SetsDeadline; Arrives [255]; Cancel; Hook; SkipsKeepalive; SetsDeadline; KeepaliveEnds; NoPrio; SeesDone; Drains; Drains], _.
  split; [| split; [| split; [| split]]].
  - eapply run_cons; [by apply step_deadline |]. eapply run_cons; [by apply step_arrives |]. eapply run_cons; [by apply step_cancel |].
    eapply run_cons; [by apply step_hook |]. eapply run_cons; [by eapply step_skips |]. eapply run_cons; [by apply step_deadline |].
    eapply run_cons; [by apply step_keepalive_ends |]. eapply run_cons; [by apply step_no_prio |]. eapply run_cons; [by apply step_wait_done |].
    eapply run_cons; [by apply step_drained_prio |]. eapply run_cons; [by apply step_drained_send |]. apply run_nil.
  - done.
  - done.
  - done.
  - intros l s' Hs. inversion Hs; subst; cbn in *; done.
Qed.
End facts.

(** ** A concrete session *)

Ltac next_step := eapply run_cons; [solve [econstructor; cbn; first [done | unfold prioBuf, workerSendBuf; lia]] |].

(** The writer waits, two data packets and a small one come: the small one is overtaken once. *)
Definition overtaken : list label :=
  [NoPrio; QueueSend [1]; QueueSend [2]; QueuePrio [3]; TakeSend [1]; Wrote [1]; TakePrio [3]; Wrote [3]; NoPrio; TakeSend [2]].

Definition after_overtaken : loops := set_queues [] [] (WWriting [2]) start.

Lemma overtaken_run : run [] start overtaken after_overtaken.
Proof. unfold overtaken. do 10 next_step. apply run_nil. Qed.

Lemma writer_keeps_order_witness : taken overtaken = [[1]; [3]; [2]] /\ wrote overtaken = [[1]; [3]].
Proof.
  destruct (writer_keeps_order [] overtaken after_overtaken overtaken_run eq_refl) as (_ & _ & E). split; [exact E |].
  apply (app_inv_tail [[2]]). symmetry. exact E.
Defined.

Lemma small_packets_first_witness :
  (length (taken_send [TakeSend [1%Z]; Wrote [1%Z]]) <= 1)%nat.
Proof.
  eapply (small_packets_first [] (set_queues [[3]] [[1]; [2]] WWaiting start)); [| done | done]. do 2 next_step. apply run_nil.
Defined.

(** Both directions fail; the first failure is reported. *)
Lemma first_error_wins_witness : exists s, run [] start [QueueSend [1]; NoPrio; TakeSend [1]; SetsDeadline; WriteFails 7; ReadFails 8] s /\
  sessionErrCh s = Some (WriterFailed 7).
Proof.
  eexists. match goal with |- ?r /\ _ => assert r as Hr by (do 6 next_step; apply run_nil) end.
  split; [exact Hr | exact (first_error_wins _ _ _ Hr)].
Defined.

Lemma session_winds_up_witness : exists s, run [] (cancel start) [Hook; KeepaliveEnds; SetsDeadline; NoPrio; SeesDone; Drains; Drains] s /\
  (7 + left_to_do s <= 8)%nat.
Proof.
  eexists. match goal with |- ?r /\ _ => assert r as Hr by (do 7 next_step; apply run_nil) end.
  split; [exact Hr |]. destruct (session_winds_up [] (cancel start) eq_refl) as [Hb _].
  exact (Hb _ _ Hr ltac:(repeat constructor)).
Defined.
