(* ===== verification/Flags.v ===== *)
(** * Command lines (commands.go, [splitFlagsAndArgs], and the package flag of the standard library).

    The commands allow flags after positional arguments, which the package flag does not: the arguments
    are first sorted into flags and positional ones, then the flags alone are parsed. *)

From S2P Require Import Prelude GoStrings Chars.
From Stdlib Require Import ZArith Lia String Ascii.
From stdpp Require Import base list strings.
Open Scope string_scope.
Open Scope Z_scope.

Definition dash : ascii := "-"%char.

Section flags.
(** The flags of a command: [Some true] for the boolean ones; and the values that a flag accepts. *)
Context (formal : string -> option bool) (accepts : string -> string -> bool).

(** ** Sorting the arguments *)

Definition is_bool (name : string) : bool :=
  match formal name with Some b => b | None => false end || String.eqb name "h" || String.eqb name "help".

(** [splitFlagsAndArgs]: the flag arguments and the positional ones. *)
Fixpoint splitFlagsAndArgs (args : list string) : list string * list string :=
  match args with
  | [] => ([], [])
  | a :: rest =>
      if has_prefix "-" a && negb (String.eqb a "-") then
        if contains "=" a then let '(f, p) := splitFlagsAndArgs rest in (a :: f, p)
        else if is_bool (trim_left_set (Ascii.eqb dash) a) then let '(f, p) := splitFlagsAndArgs rest in (a :: f, p)
        else match rest with
             | v :: rest' => let '(f, p) := splitFlagsAndArgs rest' in (a :: v :: f, p)
             | [] => ([a], [])
             end
      else let '(f, p) := splitFlagsAndArgs rest in (f, a :: p)
  end.

(** ** Parsing *)

(** The first [c] cuts a text in two. *)
Fixpoint cut (c : ascii) (s : string) : option (string * string) :=
  match s with
  | "" => None
  | String a s' => if Ascii.eqb a c then Some ("", s') else match cut c s' with Some (l, r) => Some (String a l, r) | None => None end
  end.

Inductive parse_error := BadSyntax (a : string) | Undefined (name : string) | HelpWanted | NeedsArgument (name : string) | BadValue (name v : string).

(** The name and the value of a flag argument without its dashes. *)
Definition name_value (name : string) : string * option string :=
  match cut "=" name with Some (n, v) => (n, Some v) | None => (name, None) end.

(** What [FlagSet.Parse] sets, in order, and the arguments that are left. *)
Fixpoint Parse (args : list string) : result parse_error (list (string * string) * list string) :=
  match args with
  | [] => Ok ([], [])
  | a :: rest =>
      if (String.length a <? 2)%nat || negb (has_prefix "-" a) then Ok ([], args)
      else if String.eqb a "--" then Ok ([], rest)
      else
        let name := if has_prefix "--" a then sdrop 2 a else sdrop 1 a in
        if String.eqb name "" || has_prefix "-" name || has_prefix "=" name then Err (BadSyntax a)
        else
          let set name v k := if accepts name v then match k with Ok (l, r) => Ok ((name, v) :: l, r) | Err e => Err e end else Err (BadValue name v) in
          let '(name, value) := name_value name in
          match formal name with
          | None => if String.eqb name "help" || String.eqb name "h" then Err HelpWanted else Err (Undefined name)
          | Some true => set name (default "true" value) (Parse rest)
          | Some false =>
              match value, rest with
              | Some v, _ => set name v (Parse rest)
              | None, v :: rest' => set name v (Parse rest')
              | None, [] => Err (NeedsArgument name)
              end
          end
  end.

(** ** Well-formed command lines *)

(** A positional argument, a boolean flag, a flag joined to its value, and a flag with its value after it;
    [two] is the number of dashes. *)
Inductive item := Positional (s : string) | Switch (two : bool) (name : string) | Joined (two : bool) (name v : string) | Separate (two : bool) (name v : string).

Definition dashes (two : bool) : string := if two then "--" else "-".

Definition render (i : item) : list string :=
  match i with
  | Positional s => [s]
  | Switch two name => [dashes two ++ name]
  | Joined two name v => [dashes two ++ name ++ "=" ++ v]
  | Separate two name v => [dashes two ++ name; v]
  end.

Definition positionals (l : list item) : list string := omap (fun i => match i with Positional s => Some s | _ => None end) l.
Definition settings (l : list item) : list (string * string) :=
  omap (fun i => match i with Positional _ => None | Switch _ name => Some (name, "true") | Joined _ name v | Separate _ name v => Some (name, v) end) l.

(** The name of a flag. *)
Definition name_ok (name : string) : bool := negb (String.eqb name "") && no_char "=" name && negb (has_prefix "-" name).

Definition item_ok (i : item) : Prop :=
  match i with
  | Positional s => has_prefix "-" s = false \/ s = "-"
  | Switch _ name => name_ok name = true /\ formal name = Some true /\ accepts name "true" = true
  | Joined _ name v => name_ok name = true /\ is_Some (formal name) /\ accepts name v = true
  | Separate _ name v => name_ok name = true /\ formal name = Some false /\ name <> "h" /\ name <> "help" /\ accepts name v = true
  end.

Lemma cut_missing c s : no_char c s = true -> cut c s = None.
Proof. induction s as [| a s IH]; [done |]. simpl. intros [Ha Hs]%andb_true_iff. apply negb_true_iff in Ha. by rewrite Ha, IH. Qed.

Lemma cut_found c s t : no_char c s = true -> cut c (s ++ String c t) = Some (s, t).
Proof.
  induction s as [| a s IH]; intros Hs.
  { change ("" ++ String c t) with (String c t). simpl. by rewrite Ascii.eqb_refl. }
  change (String a s ++ String c t) with (String a (s ++ String c t)). simpl in Hs |- *. apply andb_true_iff in Hs as [Ha Hs]. apply negb_true_iff in Ha. by rewrite Ha, IH.
Qed.

(** A flag argument without its dashes: what a first letter that is no dash and no equals sign gives. *)
Lemma flag_argument two a s : a <> dash -> a <> "="%char ->
  let arg := dashes two ++ String a s in
  has_prefix "-" arg = true /\ String.eqb arg "-" = false /\ (String.length arg <? 2)%nat = false /\ String.eqb arg "--" = false /\
  trim_left_set (Ascii.eqb dash) arg = String a s /\ (if has_prefix "--" arg then sdrop 2 arg else sdrop 1 arg) = String a s /\
  String.eqb (String a s) "" || has_prefix "-" (String a s) || has_prefix "=" (String a s) = false /\
  contains "=" arg = contains "=" (String a s).
Proof.
  intros Hd He. cbv zeta. assert (Ascii.eqb dash a = false) as E1 by (apply Ascii.eqb_neq; congruence).
  assert (Ascii.eqb "=" a = false) as E2 by (apply Ascii.eqb_neq; congruence).
  unfold dash in E1. destruct two; unfold dashes;
    [change ("--" ++ String a s) with (String "-" (String "-" (String a s))) | change ("-" ++ String a s) with (String "-" (String a s))]; cbn; rewrite ?E1, ?E2; cbn; unfold contains; cbn; rewrite ?E1, ?E2; cbn; repeat split; try done.
  all: destruct (GoStrings.index "=" s) as [i |]; cbn; try done; by destruct a as [[] [] [] [] [] [] [] []].
Qed.

Lemma name_ok_inv name : name_ok name = true -> exists a s, name = String a s /\ a <> dash /\ a <> "="%char /\ no_char "=" (String a s) = true.
Proof.
  unfold name_ok. destruct name as [| a s]; [done |]. intros [[_ Hc]%andb_true_iff Hd]%andb_true_iff. exists a, s. split; [done |].
  split; [| split; [| done]].
  - intros ->. discriminate Hd.
  - intros ->. discriminate Hc.
Qed.

Lemma name_value_none name : no_char "=" name = true -> name_value name = (name, None).
Proof. intros Hn. unfold name_value. by rewrite cut_missing. Qed.

(** Parsing what one item renders to. *)
Lemma parse_item i rest : item_ok i ->
  match i with Positional _ => True | _ => Parse (render i ++ rest) = match Parse rest with Ok (l, r) => Ok ((settings [i] ++ l)%list, r) | Err e => Err e end end.
Proof.
  destruct i as [s | two name | two name v | two name v]; [done | | |].
  all: intros Hok; destruct Hok as [Hn Hok]; apply name_ok_inv in Hn as (a & s & -> & Ha & He & Hc).
  - destruct Hok as [Hf Hv]. destruct (flag_argument two a s Ha He) as (E1 & E2 & E3 & E4 & _ & E6 & E7 & _).
    cbn [render app Parse]. rewrite E1, E3, E4, E6, E7. cbn [negb orb]. rewrite name_value_none, Hf by done. cbn [default from_option]. by rewrite Hv.
  - destruct Hok as [[b Hf] Hv].
    assert (dashes two ++ String a s ++ "=" ++ v = dashes two ++ String a (s ++ String "=" v)) as E0 by done.
    destruct (flag_argument two a (s ++ String "=" v) Ha He) as (E1 & E2 & E3 & E4 & _ & E6 & E7 & _).
    cbn [render app Parse]. rewrite E0, E1, E3, E4, E6, E7. cbn [negb orb]. unfold name_value.
    change (String a (s ++ String "=" v)) with (String a s ++ String "=" v). rewrite cut_found, Hf by done. destruct b; cbn [default from_option id]; by rewrite Hv.
  - destruct Hok as (Hf & _ & _ & Hv). destruct (flag_argument two a s Ha He) as (E1 & E2 & E3 & E4 & _ & E6 & E7 & _).
    cbn [render app Parse]. rewrite E1, E3, E4, E6, E7. cbn [negb orb]. rewrite name_value_none, Hf by done. by rewrite Hv.
Qed.

Lemma split_item i rest : item_ok i ->
  splitFlagsAndArgs (render i ++ rest) =
  let '(f, p) := splitFlagsAndArgs rest in match i with Positional s => (f, s :: p) | _ => ((render i ++ f)%list, p) end.
Proof.
  destruct i as [s | two name | two name v | two name v].
  { intros Hs. cbn [render app splitFlagsAndArgs]. destruct Hs as [-> | ->]; [done |]. by rewrite andb_false_r. }
  all: intros Hok; destruct Hok as [Hn Hok]; apply name_ok_inv in Hn as (a & s & -> & Ha & He & Hc).
  - destruct Hok as [Hf Hv]. destruct (flag_argument two a s Ha He) as (E1 & E2 & _ & _ & E5 & _ & _ & E8).
    cbn [render app splitFlagsAndArgs]. rewrite E1, E2, E8, E5, contains_no_char by done. unfold is_bool. rewrite Hf. done.
  - destruct Hok as [[b Hf] Hv].
    assert (dashes two ++ String a s ++ "=" ++ v = dashes two ++ String a (s ++ String "=" v)) as E0 by done.
    destruct (flag_argument two a (s ++ String "=" v) Ha He) as (E1 & E2 & _ & _ & _ & _ & _ & E8).
    cbn [render app splitFlagsAndArgs]. rewrite E0, E1, E2, E8.
    change (String a (s ++ String "=" v)) with (String a s ++ String "=" v). by rewrite contains_char.
  - destruct Hok as (Hf & Hh & Hhelp & Hv). destruct (flag_argument two a s Ha He) as (E1 & E2 & _ & _ & E5 & _ & _ & E8).
    cbn [render app splitFlagsAndArgs]. rewrite E1, E2, E8, E5, contains_no_char by done. unfold is_bool.
    apply String.eqb_neq in Hh, Hhelp. rewrite Hf, Hh, Hhelp. done.
Qed.

(** On a well-formed command line flags and positional arguments may be mixed at will: the flags are sorted
    out and parse to exactly the settings given, in their order and with nothing left, and the positional
    arguments keep their order. *)
Theorem flags_anywhere items : Forall item_ok items ->
  let '(flagArgs, names) := splitFlagsAndArgs (concat (render <$> items)) in
  names = positionals items /\ Parse flagArgs = Ok (settings items, []).
Proof.
  induction items as [| i items IH]; intros Hall; [done |]. apply Forall_cons in Hall as [Hi Hall]. specialize (IH Hall).
  cbn [fmap list_fmap concat]. rewrite split_item by done. destruct (splitFlagsAndArgs (concat (render <$> items))) as [f p]. destruct IH as [-> Hp].
  pose proof (parse_item i f Hi) as Hi'. destruct i; (split; [done |]); [done | | |]; rewrite Hi', Hp; done.
Qed.

(** The argument after a double dash is neither a flag nor a positional argument: it is lost. *)
Lemma double_dash_swallows v rest : formal "" = None ->
  splitFlagsAndArgs ("--" :: v :: rest) = (let '(f, p) := splitFlagsAndArgs rest in ("--" :: v :: f, p)) /\
  Parse ("--" :: v :: (splitFlagsAndArgs rest).1) = Ok ([], v :: (splitFlagsAndArgs rest).1).
Proof.
  intros Hf. split; [| done]. cbn [splitFlagsAndArgs]. change (has_prefix "-" "--" && negb (String.eqb "--" "-")) with true.
  change (contains "=" "--") with false. change (trim_left_set (Ascii.eqb dash) "--") with "". unfold is_bool. by rewrite Hf.
Qed.
End flags.

(** ** Kinds of flags and their values *)

Inductive kind := BoolFlag | IntFlag | StringFlag.

(** [strconv.ParseBool] *)
Definition parse_bool (s : string) : option bool :=
  if existsb (String.eqb s) ["1"; "t"; "T"; "TRUE"; "true"; "True"] then Some true
  else if existsb (String.eqb s) ["0"; "f"; "F"; "FALSE"; "false"; "False"] then Some false
  else None.

(** The value of a digit in the bases up to 16. *)
Definition hex_val (c : ascii) : option Z :=
  match digit_val c with
  | Some d => Some d
  | None => let n := Z.of_N (N_of_ascii (lower_ascii c)) in if (97 <=? n) && (n <=? 122) then Some (n - 87) else None
  end.

(** The digits of a number, with underscores left out. *)
Fixpoint base_digits (base : Z) (s : string) (acc : Z) : option Z :=
  match s with
  | "" => Some acc
  | String c s' =>
      if Ascii.eqb c "_" then base_digits base s' acc
      else match hex_val c with Some d => if d <? base then base_digits base s' (acc * base + d) else None | None => None end
  end.

(** [underscoreOK] behind the sign and the prefix: an underscore only behind a digit, and not at the end; [saw] is
    the last letter: a digit, an underscore or another one. *)
Inductive seen := SawDigit | SawUnderscore | SawOther.

Fixpoint underscores_ok (hex : bool) (s : string) (saw : seen) : bool :=
  match s with
  | "" => match saw with SawUnderscore => false | _ => true end
  | String c s' =>
      if bool_decide (is_Some (digit_val c)) || hex && match hex_val c with Some d => d <? 16 | None => false end then underscores_ok hex s' SawDigit
      else if Ascii.eqb c "_" then match saw with SawDigit => underscores_ok hex s' SawUnderscore | _ => false end
      else match saw with SawUnderscore => false | _ => underscores_ok hex s' SawOther end
  end.

(** The base that a prefix gives, and the digits behind it. *)
Definition prefix_of (s : string) : Z * string :=
  match s with
  | String "0" (String c (String d t)) =>
      let l := lower_ascii c in
      if Ascii.eqb l "b" then (2, String d t) else if Ascii.eqb l "o" then (8, String d t) else if Ascii.eqb l "x" then (16, String d t)
      else (8, String c (String d t))
  | String "0" t => (8, t)
  | _ => (10, s)
  end.

(** Whether [underscoreOK] sees a prefix, and whether it is that of base 16. *)
Definition underscoreOK (s : string) : bool :=
  match s with
  | String "0" (String c t) =>
      let l := lower_ascii c in
      if Ascii.eqb l "b" || Ascii.eqb l "o" || Ascii.eqb l "x" then underscores_ok (Ascii.eqb l "x") t SawDigit
      else underscores_ok false s SawOther
  | _ => underscores_ok false s SawOther
  end.

(** [strconv.ParseInt(s, 0, 64)] *)
Definition parse_int (s : string) : option Z :=
  let '(neg, u) := match s with String "-" t => (true, t) | String "+" t => (false, t) | _ => (false, s) end in
  if String.eqb u "" then None
  else
    let '(base, ds) := prefix_of u in
    match base_digits base ds 0 with
    | Some n => if contains "_" u && negb (underscoreOK u) then None else check_int (if neg : bool then - n else n)
    | None => None
    end.

Example int_values : parse_int <$> ["-18"; "0x1F"; "0b11"; "017"; "1_000"; "0"] = [Some (-18); Some 31; Some 3; Some 15; Some 1000; Some 0].
Proof. reflexivity. Qed.
Example bad_ints : parse_int <$> [""; "-"; "0x"; "08"; "1__0"; "_1"; "1_"; "9223372036854775808"; "12a"] = replicate 9 None.
Proof. reflexivity. Qed.

Definition kind_of (flags : list (string * kind)) (name : string) : option kind := snd <$> find (fun f => String.eqb (fst f) name) flags.

Definition formal_of (flags : list (string * kind)) (name : string) : option bool :=
  (fun k => match k with BoolFlag => true | _ => false end) <$> kind_of flags name.

Definition accepts_of (flags : list (string * kind)) (name v : string) : bool :=
  match kind_of flags name with
  | Some BoolFlag => bool_decide (is_Some (parse_bool v))
  | Some IntFlag => bool_decide (is_Some (parse_int v))
  | _ => true
  end.

(** A command's flags and its positional arguments. *)
Definition command_line (flags : list (string * kind)) (args : list string) : result parse_error (list (string * string) * list string) :=
  let '(flagArgs, names) := splitFlagsAndArgs (formal_of flags) args in
  match Parse (formal_of flags) (accepts_of flags) flagArgs with Ok (l, _) => Ok (l, names) | Err e => Err e end.

(** The value of a flag that may have several names: the last one set, or the default. *)
Definition last_set (names : list string) (d : string) (l : list (string * string)) : string :=
  fold_left (fun v s => if existsb (String.eqb (fst s)) names then snd s else v) l d.
Definition setting (name : string) (l : list (string * string)) : string := last_set [name] "" l.
Definition switches (names : list string) (l : list (string * string)) : bool := default false (parse_bool (last_set names "false" l)).
Definition switch (name : string) (l : list (string * string)) : bool := switches [name] l.
Definition number (name : string) (d : Z) (l : list (string * string)) : Z := default d (parse_int (last_set [name] "" l)).
Definition given (name : string) (l : list (string * string)) : bool := existsb (fun s => String.eqb (fst s) name) l.

(** ** A concrete command *)

(** The flags of [qwdtt edit] and [qwdtt remove] that the example uses. *)
Definition example_formal (name : string) : option bool :=
  if existsb (String.eqb name) ["peer"; "workers"; "groups"] then Some false else if existsb (String.eqb name) ["y"; "yes"] then Some true else None.

Definition example_items : list item :=
  [Positional "home"; Separate false "workers" "-18"; Switch true "yes"; Positional "-"; Joined false "groups" "a,b=c"; Positional "work"].

Lemma flags_anywhere_witness :
  Parse example_formal (fun _ _ => true) (splitFlagsAndArgs example_formal ["home"; "-workers"; "-18"; "--yes"; "-"; "-groups=a,b=c"; "work"]).1 =
    Ok ([("workers", "-18"); ("yes", "true"); ("groups", "a,b=c")], []).
Proof.
  exact (proj2 (flags_anywhere example_formal (fun _ _ => true) example_items ltac:(repeat constructor; done))).
Defined.
