(* ===== verification/Ip.v ===== *)
(** * IP addresses and networks (package net): [ParseIP], [ParseCIDR], [IPNet.Contains].

    An address is a list of bytes, as in Go: 4 or 16 of them.  An IPv4 address read from text has
    16 bytes, mapped into IPv6. *)

From S2P Require Import Prelude Bytes GoStrings Net Form.
From Stdlib Require Import ZArith Lia String Ascii.
From stdpp Require Import base list strings.
Open Scope string_scope.
Open Scope Z_scope.

Definition v4InV6Prefix : list Z := replicate 10 0 ++ [255; 255].

(** [ip.To4()]; [None] is nil. *)
Definition To4 (ip : list Z) : option (list Z) :=
  if (length ip =? 4)%nat then Some ip
  else if (length ip =? 16)%nat && bool_decide (take 12 ip = v4InV6Prefix) then Some (drop 12 ip)
  else None.

(** ** Parsing (net/netip) *)

(** [parseIPv4Fields]: [digLen] digits of the current field, of value [val], are read. *)
Fixpoint ipv4_fields (s : string) (val : Z) (digLen : nat) (fields : list Z) : option (list Z) :=
  match s with
  | "" => if (length fields <? 3)%nat then None else Some (fields ++ [val])%list
  | String c s' =>
      match digit_val c with
      | Some d =>
          if (digLen =? 1)%nat && (val =? 0) then None
          else if 255 <? val * 10 + d then None
          else ipv4_fields s' (val * 10 + d) (S digLen) fields
      | None =>
          if Ascii.eqb c "." then
            if (digLen =? 0)%nat || String.eqb s' "" then None
            else if (length fields =? 3)%nat then None
            else ipv4_fields s' 0 0 (fields ++ [val])%list
          else None
      end
  end.

Definition parseIPv4 (s : string) : option (list Z) := ipv4_fields s 0 0 [].

(** The hexadecimal digits a field starts with, at most four: their number, value and the rest. *)
Fixpoint hex_field (s : string) (off : nat) (acc : Z) : option (nat * Z * string) :=
  match s with
  | "" => Some (off, acc, "")
  | String c s' =>
      match hex_val c with
      | Some d => if (3 <? off)%nat then None else hex_field s' (S off) (acc * 16 + d)
      | None => Some (off, acc, s)
      end
  end.

(** The fields of an IPv6 address: the bytes read, the place of "::" and the unread text.  A round
    reads two bytes at least, so that [fuel], half of the bytes missing, is used up at sixteen. *)
Fixpoint ipv6_fields (fuel : nat) (s : string) (ip : list Z) (ellipsis : option nat) :
    option (list Z * option nat * string) :=
  match fuel with
  | O => Some (ip, ellipsis, s)
  | S f =>
      match hex_field s 0 0 with
      | None => None
      | Some (off, acc, rest) =>
          if (off =? 0)%nat then None
          else
            let ip' := (ip ++ [Z.shiftr acc 8; u8 acc])%list in
            match rest with
            | "" => Some (ip', ellipsis, "")
            | String c rest' =>
                if Ascii.eqb c "." then
                  if bool_decide (ellipsis = None) && negb (length ip =? 12)%nat then None
                  else if (16 <? length ip + 4)%nat then None
                  else v4 ← parseIPv4 s; Some ((ip ++ v4)%list, ellipsis, "")
                else if negb (Ascii.eqb c ":") then None
                else match rest' with
                     | "" => None
                     | String c' rest'' =>
                         if Ascii.eqb c' ":" then
                           match ellipsis with
                           | Some _ => None
                           | None =>
                               if String.eqb rest'' "" then Some (ip', Some (length ip'), "")
                               else ipv6_fields f rest'' ip' (Some (length ip'))
                           end
                         else ipv6_fields f rest' ip' ellipsis
                     end
            end
      end
  end.

Definition expand_ellipsis (ip : list Z) (ellipsis : option nat) (rest : string) : option (list Z) :=
  if negb (String.eqb rest "") then None
  else if (length ip <? 16)%nat then
    e ← ellipsis; Some (take e ip ++ replicate (16 - length ip) 0 ++ drop e ip)%list
  else match ellipsis with Some _ => None | None => Some ip end.

(** [parseIPv6] without a zone: both callers refuse an address with one. *)
Definition parseIPv6 (s : string) : option (list Z) :=
  if has_char "%" s then None
  else if has_prefix "::" s then
    let s' := sdrop 2 s in
    if String.eqb s' "" then Some (replicate 16 0)
    else '(ip, e, rest) ← ipv6_fields 8 s' [] (Some 0%nat); expand_ellipsis ip e rest
  else '(ip, e, rest) ← ipv6_fields 8 s [] None; expand_ellipsis ip e rest.

(** [netip.ParseAddr]: 4 or 16 bytes. *)
Fixpoint address_kind (s : string) : option ascii :=
  match s with
  | "" => None
  | String c s' =>
      if Ascii.eqb c "." || Ascii.eqb c ":" || Ascii.eqb c "%" then Some c else address_kind s'
  end.

Definition ParseAddr (s : string) : option (list Z) :=
  c ← address_kind s;
  if Ascii.eqb c "." then parseIPv4 s else if Ascii.eqb c ":" then parseIPv6 s else None.

Definition As16 (ip : list Z) : list Z := if (length ip =? 4)%nat then (v4InV6Prefix ++ ip)%list else ip.

(** [net.ParseIP]; [None] is nil. *)
Definition ParseIP (s : string) : option (list Z) := As16 <$> ParseAddr s.

(** ** Masks and networks *)

Fixpoint cidr_mask (l : nat) (n : Z) : list Z :=
  match l with
  | O => []
  | S l' => if 8 <=? n then 255 :: cidr_mask l' (n - 8)
            else u8 (Z.lnot (Z.shiftr 255 n)) :: cidr_mask l' 0
  end.

(** [net.CIDRMask(ones, 8 * l)] for [0 <= ones <= 8 * l]. *)
Definition CIDRMask (ones : Z) (l : nat) : list Z := cidr_mask l ones.

Definition and_bytes (ip mask : list Z) : list Z := zip_with Z.land ip mask.

(** [ip.Mask(mask)]; [[]] is nil. *)
Definition Mask (ip mask : list Z) : list Z :=
  let mask := if (length mask =? 16)%nat && (length ip =? 4)%nat
                 && bool_decide (take 12 mask = replicate 12 255) then drop 12 mask else mask in
  let ip := if (length mask =? 4)%nat && (length ip =? 16)%nat
               && bool_decide (take 12 ip = v4InV6Prefix) then drop 12 ip else ip in
  if (length ip =? length mask)%nat then and_bytes ip mask else [].

Record IPNet := { net_ip : list Z; net_mask : list Z }.

(** [dtoi]: a number of decimal digits only, below 0xFFFFFF. *)
Definition big : Z := 16777215.

Fixpoint dtoi (s : string) (n : Z) : option Z :=
  match s with
  | "" => Some n
  | String c s' =>
      d ← digit_val c;
      if big <=? n * 10 + d then None else dtoi s' (n * 10 + d)
  end.

Definition prefix_length (s : string) : option Z := if String.eqb s "" then None else dtoi s 0.

(** [net.ParseCIDR]: the address as written and its network. *)
Definition ParseCIDR (s : string) : option (list Z * IPNet) :=
  i ← index_char "/" s;
  addr ← ParseAddr (stake i s);
  n ← prefix_length (sdrop (S i) s);
  let bits := 8 * Z.of_nat (length addr) in
  if bits <? n then None
  else
    let m := CIDRMask n (length addr) in
    Some (As16 addr, {| net_ip := Mask (As16 addr) m; net_mask := m |}).

(** [networkNumberAndMask] and [n.Contains(ip)]. *)
Definition network (n : IPNet) : option (list Z * list Z) :=
  let ip := default (net_ip n) (To4 (net_ip n)) in
  if negb ((length ip =? 4)%nat || (length ip =? 16)%nat) then None
  else if (length (net_mask n) =? 4)%nat then
    if (length ip =? 4)%nat then Some (ip, net_mask n) else None
  else if (length (net_mask n) =? 16)%nat then
    Some (ip, if (length ip =? 4)%nat then drop 12 (net_mask n) else net_mask n)
  else None.

Definition Contains (n : IPNet) (ip : list Z) : bool :=
  let ip := default ip (To4 ip) in
  match network n with
  | None => (length ip =? 0)%nat
  | Some (nn, m) => (length ip =? length nn)%nat && bool_decide (and_bytes nn m = and_bytes ip m)
  end.

Example parse_v4 : ParseIP "10.0.200.1" = Some (v4InV6Prefix ++ [10; 0; 200; 1])%list.
Proof. reflexivity. Qed.
Example parse_leading_zero : ParseIP "10.0.02.1" = None.
Proof. reflexivity. Qed.
Example parse_v6 : ParseIP "2001:db8::a:1" = Some [32;1;13;184;0;0;0;0;0;0;0;0;0;10;0;1].
Proof. reflexivity. Qed.
Example parse_v6_mapped : ParseIP "::ffff:1.2.3.4" = ParseIP "1.2.3.4".
Proof. reflexivity. Qed.
Example parse_v6_full : ParseIP "1:2:3:4:5:6:7:8" = Some [0;1;0;2;0;3;0;4;0;5;0;6;0;7;0;8].
Proof. reflexivity. Qed.
Example parse_v6_bad : ParseIP "1:2:3:4:5:6:7::8" = None.
Proof. reflexivity. Qed.
Example parse_v6_bad2 : ParseIP "1:2:3:4:5:6:7:8:9" = None.
Proof. reflexivity. Qed.
Example parse_v6_end : ParseIP "fe80::" = Some (254 :: 128 :: replicate 14 0).
Proof. reflexivity. Qed.
Example contains_24 : (fun p => Contains (snd p) [1;2;3;87]) <$> ParseCIDR "1.2.3.0/24" = Some true.
Proof. reflexivity. Qed.
Example contains_20 : (fun p => Contains (snd p) [1;2;31;87]) <$> ParseCIDR "1.2.16.9/20" = Some true.
Proof. reflexivity. Qed.
Example contains_20' : (fun p => Contains (snd p) [1;2;32;87]) <$> ParseCIDR "1.2.16.9/20" = Some false.
Proof. reflexivity. Qed.

(** ** Facts *)

(** [v] and the address agree on their first [n] bits. *)
Definition same_prefix (n : Z) (a ip : list Z) : Prop :=
  length a = length ip /\
  be_get a / 2 ^ (8 * Z.of_nat (length a) - n) = be_get ip / 2 ^ (8 * Z.of_nat (length a) - n).

(** The four bytes of an IPv4 address, also of a mapped one. *)
Definition canonical (ip : list Z) : list Z := default ip (To4 ip).

Lemma length_cidr_mask l n : length (cidr_mask l n) = l.
Proof. revert n. induction l as [| l IH]; intros n; simpl; [done |]. split_guard; simpl; by rewrite IH. Qed.

Lemma cidr_mask_ok l n : 0 <= n -> bytes_ok (cidr_mask l n).
Proof.
  revert n. induction l as [| l IH]; intros n Hn; simpl; [constructor |].
  split_guard; constructor; try (apply IH; lia); [by compute | apply u8_bound].
Qed.

Lemma length_and_bytes a m : length (and_bytes a m) = (length a `min` length m)%nat.
Proof. apply length_zip_with. Qed.

Lemma and_bytes_cons x a y m : and_bytes (x :: a) (y :: m) = Z.land x y :: and_bytes a m.
Proof. done. Qed.

Lemma and_bytes_idem a m : and_bytes (and_bytes a m) m = and_bytes a m.
Proof.
  revert m. induction a as [| x a IH]; intros [| y m]; [done .. |]. simpl.
  by rewrite IH, <- Z.land_assoc, Z.land_diag.
Qed.

(** A byte under the mask of its first [n] bits. *)
Lemma land_byte_mask x n : 0 <= n < 8 -> 0 <= x < 256 -> Z.land x (u8 (Z.lnot (Z.shiftr 255 n))) = x / 2 ^ (8 - n) * 2 ^ (8 - n).
Proof.
  intros Hn Hx.
  assert (u8 (Z.lnot (Z.shiftr 255 n)) = 255 - (2 ^ (8 - n) - 1)) as ->.
  { assert (n = 0 \/ n = 1 \/ n = 2 \/ n = 3 \/ n = 4 \/ n = 5 \/ n = 6 \/ n = 7) as H by lia.
    by repeat destruct H as [-> | H]; [.. | subst]. }
  assert (255 - (2 ^ (8 - n) - 1) = Z.ldiff 255 (Z.ones (8 - n))) as ->.
  { rewrite ldiff_ones_low by lia. assert (n = 0 \/ n = 1 \/ n = 2 \/ n = 3 \/ n = 4 \/ n = 5 \/ n = 6 \/ n = 7) as H by lia.
    by repeat destruct H as [-> | H]; [.. | subst]. }
  rewrite Z.ldiff_land, Z.land_assoc. change 255 with (Z.ones 8). rewrite Z.land_ones by lia.
  rewrite (Z.mod_small x) by (change (2 ^ 8) with 256; lia).
  rewrite <- Z.ldiff_land, ldiff_ones_low by lia.
  pose proof (Z.div_mod x (2 ^ (8 - n)) ltac:(apply Z.pow_nonzero; lia)). lia.
Qed.

(** Quotients of numbers written as a head and a tail below [m]. *)
Lemma div_head x r m k : 0 < m -> 0 <= r < m -> 0 < k -> (x * m + r) / (k * m) = x / k.
Proof.
  intros Hm Hr Hk. rewrite Z.mul_comm with (n := k), <- Z.div_div by lia.
  by rewrite Z.div_add_l, (Z.div_small r), Z.add_0_r by lia.
Qed.

Lemma eq_div_head x y r s m k :
  0 < k -> 0 < m -> 0 <= r < k * m -> 0 <= s < k * m ->
  (x * (k * m) + r) / k = (y * (k * m) + s) / k <-> x = y /\ r / k = s / k.
Proof.
  intros Hk Hm Hr Hs.
  replace (x * (k * m)) with (x * m * k) by lia. replace (y * (k * m)) with (y * m * k) by lia.
  rewrite !Z.div_add_l by lia.
  assert (forall t, 0 <= t < k * m -> 0 <= t / k < m) as Hb.
  { intros t Ht. split; [apply Z.div_pos; lia | apply Z.div_lt_upper_bound; lia]. }
  pose proof (Hb r Hr). pose proof (Hb s Hs). split; [| intros [-> ->]; lia].
  intros E. assert (x = y) as -> by nia. lia.
Qed.

(** Masked bytes are equal exactly when the numbers agree above the mask. *)
Lemma masked_eq l n a b :
  length a = l -> length b = l -> bytes_ok a -> bytes_ok b -> 0 <= n <= 8 * Z.of_nat l ->
  and_bytes a (cidr_mask l n) = and_bytes b (cidr_mask l n) <->
  be_get a / 2 ^ (8 * Z.of_nat l - n) = be_get b / 2 ^ (8 * Z.of_nat l - n).
Proof.
  revert n a b. induction l as [| l IH]; intros n a b Ha Hb Oa Ob Hn.
  - by apply nil_length_inv in Ha as ->; apply nil_length_inv in Hb as ->.
  - destruct a as [| x a]; [done |]. destruct b as [| y b]; [done |].
    injection Ha as Ha. injection Hb as Hb. inversion Oa as [| ?? Ox Oa']; subst x0 l0. inversion Ob as [| ?? Oy Ob']; subst x0 l0.
    unfold byte_ok in *. simpl cidr_mask. rewrite !be_get_cons, Ha, Hb.
    pose proof (be_get_bound a Oa') as Ba. pose proof (be_get_bound b Ob') as Bb. rewrite Ha in Ba. rewrite Hb in Bb.
    assert (256 ^ Z.of_nat l = 2 ^ (8 * Z.of_nat l)) as Hp by (by rewrite Z.pow_mul_r by lia).
    rewrite Hp in *. assert (0 < 2 ^ (8 * Z.of_nat l)) as Hpos by (apply Z.pow_pos_nonneg; lia).
    rewrite Nat2Z.inj_succ in *. split_guard; rewrite !and_bytes_cons.
    + assert (Z.land x 255 = x) as -> by (change 255 with (Z.ones 8); rewrite Z.land_ones by lia; apply Z.mod_small; lia).
      assert (Z.land y 255 = y) as -> by (change 255 with (Z.ones 8); rewrite Z.land_ones by lia; apply Z.mod_small; lia).
      replace (8 * Z.succ (Z.of_nat l) - n) with (8 * Z.of_nat l - (n - 8)) by lia.
      set (k := 8 * Z.of_nat l - (n - 8)).
      assert (2 ^ (8 * Z.of_nat l) = 2 ^ k * 2 ^ (n - 8)) as Hk by (rewrite <- Z.pow_add_r by lia; f_equal; lia).
      rewrite Hk in *. rewrite eq_div_head by (try apply Z.pow_pos_nonneg; lia).
      unfold k. rewrite <- IH by (done || lia). split; [by intros [= -> ->] | by intros [-> ->]].
    + rewrite !land_byte_mask by lia.
      replace (8 * Z.succ (Z.of_nat l) - n) with ((8 - n) + 8 * Z.of_nat l) by lia.
      rewrite Z.pow_add_r by lia. assert (0 < 2 ^ (8 - n)) by (apply Z.pow_pos_nonneg; lia).
      rewrite !div_head by lia.
      assert (and_bytes a (cidr_mask l 0) = and_bytes b (cidr_mask l 0)) as E0.
      { apply IH; [done .. | lia |]. rewrite Z.sub_0_r, !Z.div_small; lia. }
      rewrite E0. split; [intros [= E]; nia | by intros ->].
Qed.

(** *** Addresses read from text have 4 or 16 bytes *)

Lemma digit_val_bound c d : digit_val c = Some d -> 0 <= d < 10.
Proof. unfold digit_val. cbv zeta. split_guard; [| done]. intros [= <-]. lia. Qed.

Lemma hex_val_bound c d : hex_val c = Some d -> 0 <= d < 16.
Proof. unfold hex_val. cbv zeta. repeat split_guard; intros [= <-]; lia. Qed.

Lemma ipv4_fields_ok s val n fields l :
  ipv4_fields s val n fields = Some l -> 0 <= val < 256 -> bytes_ok fields -> (length fields <= 3)%nat ->
  length l = 4%nat /\ bytes_ok l.
Proof.
  revert val n fields. induction s as [| c s IH]; intros val n fields; cbn [ipv4_fields].
  - split_guard; [done |]. intros [= <-] Hv Hf Hl. rewrite length_app. simpl.
    split; [lia |]. apply Forall_app_2; [done |]. by apply List.Forall_cons.
  - destruct (digit_val c) as [d |] eqn:Ed.
    + apply digit_val_bound in Ed. repeat split_guard; [done .. |]. intros E ? ? ?. eapply IH; [exact E | lia | done | done].
    + repeat split_guard; try done. intros E ? ? ?. eapply IH; [exact E | lia | |].
      * apply Forall_app_2; [done |]. by apply List.Forall_cons.
      * rewrite length_app. simpl. lia.
Qed.

Lemma hex_field_ok s off acc k v rest :
  hex_field s off acc = Some (k, v, rest) -> (off <= 4)%nat -> 0 <= acc < 16 ^ Z.of_nat off -> 0 <= v < 65536.
Proof.
  revert off acc. induction s as [| c s IH]; intros off acc; cbn [hex_field].
  - intros [= <- <- <-] Ho Ha. assert (16 ^ Z.of_nat off <= 16 ^ 4) by (apply Z.pow_le_mono_r; lia). lia.
  - destruct (hex_val c) as [d |] eqn:Ed.
    + split_guard; [done |]. intros E Ho Ha. apply hex_val_bound in Ed.
      eapply IH; [exact E | lia |]. rewrite Nat2Z.inj_succ, Z.pow_succ_r by lia. lia.
    + intros [= <- <- <-] Ho Ha. assert (16 ^ Z.of_nat off <= 16 ^ 4) by (apply Z.pow_le_mono_r; lia). lia.
Qed.

Lemma field_bytes_ok v : 0 <= v < 65536 -> bytes_ok [Z.shiftr v 8; u8 v].
Proof.
  intros Hv. repeat constructor; [| | apply u8_bound ..]; rewrite Z.shiftr_div_pow2 by lia; change (2 ^ 8) with 256.
  - apply Z.div_pos; lia.
  - apply Z.div_lt_upper_bound; lia.
Qed.

Definition ellipsis_ok (ip : list Z) (e : option nat) : Prop := match e with Some k => (k <= length ip)%nat | None => True end.

Lemma ipv6_fields_ok fuel s ip e ip' e' rest :
  ipv6_fields fuel s ip e = Some (ip', e', rest) ->
  (length ip + 2 * fuel = 16)%nat -> bytes_ok ip -> ellipsis_ok ip e ->
  (length ip' <= 16)%nat /\ bytes_ok ip' /\ ellipsis_ok ip' e'.
Proof.
  revert s ip e. induction fuel as [| f IH]; intros s ip e; cbn [ipv6_fields].
  - intros [= <- <- <-] ? ? ?. split; [lia | done].
  - destruct (hex_field s 0 0) as [[[off acc] r] |] eqn:Eh; [| done]. split_guard; [done |].
    pose proof (field_bytes_ok acc (hex_field_ok _ _ _ _ _ _ Eh ltac:(lia) ltac:(lia))) as Hb.
    cbv zeta. intros E Hl Ho He.
    set (ip2 := (ip ++ [Z.shiftr acc 8; u8 acc])%list) in *.
    assert (bytes_ok ip2) as Ho2 by (by apply Forall_app_2).
    assert (length ip2 = (length ip + 2)%nat) as Hl2 by (unfold ip2; by rewrite length_app).
    assert (ellipsis_ok ip2 e) as He2 by (destruct e; simpl in *; [lia | done]).
    destruct r as [| c r]; [injection E as <- <- <-; split; [lia | done] |].
    destruct (Ascii.eqb c ".").
    + do 2 (match type of E with context [if ?b then _ else _] => destruct b eqn:? end; [done |]).
      destruct (parseIPv4 s) as [v4 |] eqn:E4; [| done].
      injection E as <- <- <-. apply ipv4_fields_ok in E4 as [L4 O4]; [| lia | constructor | simpl; lia].
      propify. rewrite length_app, L4. split; [lia |]. split; [by apply Forall_app_2 |].
      destruct e; simpl in *; [rewrite length_app; lia | done].
    + destruct (negb (Ascii.eqb c ":")); [done |]. destruct r as [| c2 r]; [done |].
      destruct (Ascii.eqb c2 ":").
      * destruct e; [done |]. destruct (String.eqb r ""); [injection E as <- <- <-; split; [lia | split; [done | simpl; lia]] |].
        eapply IH; [exact E | lia | done | simpl; lia].
      * eapply IH; [exact E | lia | done | done].
Qed.

Lemma expand_ellipsis_ok ip e rest l :
  expand_ellipsis ip e rest = Some l -> (length ip <= 16)%nat -> bytes_ok ip -> ellipsis_ok ip e ->
  length l = 16%nat /\ bytes_ok l.
Proof.
  unfold expand_ellipsis. destruct (negb _); [done |]. split_guard.
  - destruct e as [k |]; [| done]. intros [= <-] ? ? Hk. simpl in Hk.
    rewrite !length_app, length_replicate, length_take, length_drop. split; [lia |].
    apply Forall_app_2; [by apply Forall_take |]. apply Forall_app_2; [| by apply Forall_drop].
    by apply Forall_replicate.
  - destruct e; [done |]. intros [= <-] ? ? _. split; [lia | done].
Qed.

Lemma parseIPv6_ok s l : parseIPv6 s = Some l -> length l = 16%nat /\ bytes_ok l.
Proof.
  unfold parseIPv6. destruct (has_char _ _); [done |]. destruct (has_prefix _ _); cbv zeta.
  - destruct (String.eqb _ _); [intros [= <-]; split; [done | apply (Forall_replicate byte_ok 16 0); unfold byte_ok; lia] |].
    destruct (ipv6_fields _ _ _ _) as [[[ip e] r] |] eqn:E; [| done]. simpl. intros Hx.
    eapply ipv6_fields_ok in E as (? & ? & ?); [by eapply expand_ellipsis_ok | done | constructor | simpl; lia].
  - destruct (ipv6_fields _ _ _ _) as [[[ip e] r] |] eqn:E; [| done]. simpl. intros Hx.
    eapply ipv6_fields_ok in E as (? & ? & ?); [by eapply expand_ellipsis_ok | done | constructor | done].
Qed.

Lemma ParseAddr_ok s l : ParseAddr s = Some l -> (length l = 4%nat \/ length l = 16%nat) /\ bytes_ok l.
Proof.
  unfold ParseAddr. destruct (address_kind s) as [c |]; [| done]. simpl.
  destruct (Ascii.eqb c "."); [| destruct (Ascii.eqb c ":"); [| done]].
  - intros H. apply ipv4_fields_ok in H as [? ?]; [by split; [left |] | lia | constructor | simpl; lia].
  - intros H. apply parseIPv6_ok in H as [? ?]. by split; [right |].
Qed.

Lemma canonical_v4 a : length a = 4%nat -> canonical (As16 a) = a /\ canonical a = a.
Proof.
  intros Ha. unfold canonical, As16, To4. rewrite Ha, Nat.eqb_refl, length_app, Ha. split; [| done].
  change ((length v4InV6Prefix + 4 =? 4)%nat) with false. change ((length v4InV6Prefix + 4 =? 16)%nat) with true.
  rewrite lookup_take_app, lookup_drop_app by done. by rewrite bool_decide_true.
Qed.

Lemma land_255 x : byte_ok x -> Z.land x 255 = x.
Proof. unfold byte_ok. intros Hx. change 255 with (Z.ones 8). rewrite Z.land_ones by lia. apply Z.mod_small. lia. Qed.

(** A masked byte of all ones was under a full byte of the mask. *)
Lemma and_mask_255 l n a i :
  0 <= n -> bytes_ok a -> and_bytes a (cidr_mask l n) !! i = Some 255 -> 8 * (Z.of_nat i + 1) <= n.
Proof.
  revert n a i. induction l as [| l IH]; intros n a i Hn Oa; [by destruct a |].
  destruct a as [| x a]; [done |]. inversion Oa as [| ?? Ox Oa']; subst x0 l0. simpl cidr_mask.
  split_guard; rewrite and_bytes_cons; destruct i as [| i]; simpl; intros E; try lia.
  - apply IH in E; [lia .. | done].
  - rewrite land_byte_mask in E by (done || lia). injection E as E.
    replace (8 - n) with (1 + (7 - n)) in E by lia. rewrite Z.pow_add_r in E by lia. lia.
  - apply IH in E; [lia .. | done].
Qed.

Lemma and_mask_take k l n a :
  8 * Z.of_nat k <= n -> bytes_ok a -> (k <= l)%nat -> take k (and_bytes a (cidr_mask l n)) = take k a.
Proof.
  revert l n a. induction k as [| k IH]; intros l n a Hn Oa Hk; [done |].
  destruct l as [| l]; [lia |]. simpl cidr_mask. rewrite (proj2 (Z.leb_le 8 n)) by lia.
  destruct a as [| x a]; [done |]. inversion Oa; subst. rewrite and_bytes_cons. simpl.
  rewrite land_255 by done. f_equal. apply IH; [lia | done | lia].
Qed.

Lemma canonical_cases ip : canonical ip = ip \/ canonical ip = drop 12 ip /\ length ip = 16%nat.
Proof.
  unfold canonical, To4. split_guard; [by left |]. destruct (_ && _) eqn:E; [| by left]. propify. by right.
Qed.

Lemma canonical_ok ip :
  bytes_ok ip -> (length ip = 4%nat \/ length ip = 16%nat) ->
  bytes_ok (canonical ip) /\ (length (canonical ip) = 4%nat \/ length (canonical ip) = 16%nat).
Proof.
  intros Ho Hl. destruct (canonical_cases ip) as [-> | [-> H16]]; [done |].
  split; [by apply Forall_drop | left; rewrite length_drop; lia].
Qed.

Lemma drop_cidr_mask j l n : 8 * Z.of_nat j <= n -> drop j (cidr_mask (j + l) n) = cidr_mask l (n - 8 * Z.of_nat j).
Proof.
  revert n. induction j as [| j IH]; intros n Hn; [by rewrite Z.sub_0_r |]. simpl cidr_mask.
  rewrite (proj2 (Z.leb_le 8 n)) by lia. simpl. rewrite IH by lia. f_equal. lia.
Qed.

Definition mapped (a : list Z) : Prop := length a = 16%nat /\ take 12 a = v4InV6Prefix.
#[global] Instance mapped_dec a : Decision (mapped a).
Proof. unfold mapped. apply _. Defined.

Lemma canonical_mapped a : mapped a -> canonical a = drop 12 a.
Proof.
  intros [La Ht]. unfold canonical, To4. rewrite La. change (16 =? 4)%nat with false.
  by rewrite Nat.eqb_refl, andb_true_l, bool_decide_true.
Qed.

Lemma canonical_unmapped a : ~ mapped a -> canonical a = a.
Proof.
  intros Hm. unfold canonical, To4. split_guard; [done |]. destruct (_ && _) eqn:E; [| done]. propify.
  exfalso. apply Hm. by apply bool_decide_eq_true in H0.
Qed.

(** *** Networks *)

(** The address and prefix length a network text stands for: an IPv4 network may be written as a
    mapped one. *)
Definition plain_network (a : list Z) (k : Z) : list Z * Z :=
  if decide (mapped a /\ 96 <= k) then (drop 12 a, k - 96) else (a, k).

(** The network [n] has the first [k] bits of [a]. *)
Definition network_of (net : IPNet) (a : list Z) (k : Z) : Prop :=
  (length a = 4%nat \/ length a = 16%nat) /\ bytes_ok a /\ 0 <= k <= 8 * Z.of_nat (length a) /\
  canonical (net_ip net) = and_bytes a (CIDRMask k (length a)) /\
  (net_mask net = CIDRMask k (length a) \/
   length a = 4%nat /\ length (net_mask net) = 16%nat /\ drop 12 (net_mask net) = CIDRMask k 4).

(** [Mask] with a mask of the address's own size. *)
Lemma Mask_v4 a n : length a = 4%nat -> Mask (As16 a) (CIDRMask n 4) = and_bytes a (CIDRMask n 4).
Proof.
  intros La. unfold CIDRMask. pose proof (length_cidr_mask 4 n) as Lm. set (m := cidr_mask 4 n) in *.
  unfold Mask, As16. rewrite La, Lm, Nat.eqb_refl, length_app, La.
  change (4 =? 16)%nat with false. change (length v4InV6Prefix + 4 =? 16)%nat with true.
  rewrite andb_false_l, lookup_take_app, lookup_drop_app by done. rewrite Lm, Nat.eqb_refl, andb_true_l.
  change (bool_decide (v4InV6Prefix = v4InV6Prefix)) with true. cbv iota. by rewrite La.
Qed.

Lemma Mask_v6 a n : length a = 16%nat -> Mask (As16 a) (CIDRMask n 16) = and_bytes a (CIDRMask n 16).
Proof.
  intros La. unfold CIDRMask. pose proof (length_cidr_mask 16 n) as Lm. set (m := cidr_mask 16 n) in *.
  unfold Mask, As16. rewrite La. change (16 =? 4)%nat with false. cbv iota. rewrite La, Lm.
  change (16 =? 4)%nat with false. rewrite andb_false_r, andb_false_l. cbv iota. rewrite Lm.
  change (16 =? 4)%nat with false. rewrite andb_false_l. cbv iota. by rewrite La.
Qed.

(** The network of an address that is not mapped, or of a short prefix, is not mapped. *)
Lemma masked_unmapped a n :
  length a = 16%nat -> bytes_ok a -> 0 <= n -> ~ (mapped a /\ 96 <= n) -> ~ mapped (and_bytes a (CIDRMask n 16)).
Proof.
  intros La Oa Hn Hm [Lam Ht]. unfold CIDRMask in *. apply Hm.
  assert (96 <= n) as H96.
  { apply (and_mask_255 16 n a 11); [done .. |]. rewrite <- (lookup_take_lt _ 12) by lia. by rewrite Ht. }
  split; [| done]. split; [done |]. rewrite <- Ht. symmetry. apply and_mask_take; [lia | done | lia].
Qed.

Lemma drop_and_bytes j a m : drop j (and_bytes a m) = and_bytes (drop j a) (drop j m).
Proof.
  revert a m. induction j as [| j IH]; intros [| x a] [| y m]; try done; [| by apply IH].
  simpl. by destruct (drop j a).
Qed.

Lemma masked_network a k :
  (length a = 4%nat \/ length a = 16%nat) -> bytes_ok a -> 0 <= k <= 8 * Z.of_nat (length a) ->
  let '(b, j) := plain_network a k in
  network_of {| net_ip := Mask (As16 a) (CIDRMask k (length a)); net_mask := CIDRMask k (length a) |} b j.
Proof.
  intros La Oa Hk. unfold plain_network, network_of. cbn [net_ip net_mask].
  destruct La as [La | La]; rewrite La in *.
  - rewrite decide_False by (intros [[? _] _]; lia). rewrite La, Mask_v4 by done.
    split; [by left |]. split; [done |]. split; [done |]. split; [| by left].
    apply canonical_v4. rewrite length_and_bytes. unfold CIDRMask. rewrite length_cidr_mask. lia.
  - rewrite Mask_v6 by done. destruct (decide _) as [[Hm H96] | Hm].
    + rewrite length_drop, La. simpl (16 - 12)%nat.
      pose proof (drop_cidr_mask 12 4 k ltac:(lia)) as Hd. change (12 + 4)%nat with 16%nat in Hd.
      change (8 * Z.of_nat 12) with 96 in Hd. unfold CIDRMask.
      split; [by left |]. split; [by apply Forall_drop |]. split; [lia |].
      split; [| right; split; [done |]; split; [apply length_cidr_mask | done]].
      rewrite canonical_mapped; [by rewrite drop_and_bytes, Hd |].
      destruct Hm as [_ Ht]. split; [rewrite length_and_bytes, length_cidr_mask; lia |].
      rewrite <- Ht. apply and_mask_take; [lia | done | lia].
    + rewrite La. split; [by right |]. split; [done |]. split; [done |]. split; [| by left].
      apply canonical_unmapped. apply masked_unmapped; [done | done | lia | done].
Qed.

Lemma dtoi_nonneg s k n : 0 <= k -> dtoi s k = Some n -> 0 <= n.
Proof.
  revert k. induction s as [| c s IH]; simpl; intros k Hk; [intros [= <-]; lia |].
  destruct (digit_val c) as [d |] eqn:Ed; [| done]. apply digit_val_bound in Ed. simpl.
  split_guard; [done |]. apply IH. lia.
Qed.

(** A network contains the addresses of its family with its prefix. *)
Lemma network_contains net a k ip :
  network_of net a k -> bytes_ok ip -> (length ip = 4%nat \/ length ip = 16%nat) ->
  Contains net ip = true <-> same_prefix k a (canonical ip).
Proof.
  intros (La & Oa & Hk & Hm & Hmask) Oip Lip.
  pose proof (length_cidr_mask (length a) k) as Lm.
  set (m := cidr_mask (length a) k) in *. change (CIDRMask k (length a)) with m in *.
  assert (length (and_bytes a m) = length a) as Lam by (rewrite length_and_bytes; lia).
  destruct (canonical_ok ip Oip Lip) as [Oc Lc].
  unfold Contains, network. fold (canonical ip) (canonical (net_ip net)). rewrite Hm, Lam.
  assert ((length (canonical ip) =? length a)%nat && bool_decide (and_bytes (and_bytes a m) m = and_bytes (canonical ip) m) = true
          <-> same_prefix k a (canonical ip)) as E.
  { rewrite and_bytes_idem, andb_true_iff, bool_decide_eq_true, Nat.eqb_eq. unfold same_prefix.
    split; intros [Hl Hb]; (split; [done |]); by apply (masked_eq (length a) k). }
  destruct Hmask as [-> | (La4 & L16 & Hd)].
  - rewrite Lm. destruct La as [La | La]; rewrite La in *; simpl; by rewrite Lam, E.
  - subst m. unfold CIDRMask in Hd. rewrite La4, L16, Hd in *.
    cbn -[cidr_mask and_bytes length]. by rewrite Lam, E.
Qed.

(** The address and the prefix length a CIDR text stands for. *)
Definition cidr_text (s : string) : option (list Z * Z) :=
  i ← index_char "/" s;
  a ← ParseAddr (stake i s);
  k ← prefix_length (sdrop (S i) s);
  if 8 * Z.of_nat (length a) <? k then None else Some (plain_network a k).

Lemma ParseCIDR_network s :
  match ParseCIDR s with
  | Some (_, net) => exists a k, cidr_text s = Some (a, k) /\ network_of net a k
  | None => cidr_text s = None
  end.
Proof.
  unfold ParseCIDR, cidr_text. destruct (index_char "/" s) as [i |]; [| done]. cbn [mbind option_bind].
  destruct (ParseAddr (stake i s)) as [a |] eqn:Ha; [| done]. cbn [mbind option_bind].
  destruct (prefix_length _) as [k |] eqn:Hk; [| done]. cbn [mbind option_bind].
  destruct (_ <? k) eqn:Hb; [done |]. propify.
  apply ParseAddr_ok in Ha as [La Oa].
  assert (0 <= k) by (unfold prefix_length in Hk; destruct (String.eqb _ _); [done |]; by eapply dtoi_nonneg in Hk).
  pose proof (masked_network a k La Oa ltac:(lia)) as Hn.
  destruct (plain_network a k) as [b j]. by exists b, j.
Qed.

(** A host network: the whole address. *)
Lemma host_network ip :
  (length ip = 4%nat \/ length ip = 16%nat) -> bytes_ok ip ->
  let a := canonical ip in let k := 8 * Z.of_nat (length a) in
  let mask := match To4 ip with Some _ => CIDRMask 32 4 | None => CIDRMask 128 16 end in
  network_of {| net_ip := Mask (As16 ip) mask; net_mask := mask |} a k.
Proof.
  intros Lip Oip. cbv zeta. destruct (decide (mapped ip)) as [Hm | Hm].
  - rewrite canonical_mapped by done. destruct Hm as [La Ht].
    assert (To4 ip = Some (drop 12 ip)) as ->.
    { unfold To4. rewrite La. change (16 =? 4)%nat with false. by rewrite Nat.eqb_refl, andb_true_l, bool_decide_true. }
    assert (As16 ip = As16 (drop 12 ip)) as ->.
    { unfold As16. rewrite length_drop, La. change (16 =? 4)%nat with false. change (16 - 12 =? 4)%nat with true. cbv iota.
      by rewrite <- Ht, take_drop. }
    pose proof (masked_network (drop 12 ip) 32) as Hn. unfold plain_network in Hn.
    rewrite decide_False in Hn by (intros [[Hl _] _]; rewrite length_drop in Hl; lia).
    rewrite length_drop, La in *. apply Hn; [by left | by apply Forall_drop | simpl; lia].
  - rewrite canonical_unmapped by done. pose proof (masked_network ip (8 * Z.of_nat (length ip)) Lip Oip ltac:(lia)) as Hn.
    unfold plain_network in Hn. rewrite decide_False in Hn by tauto.
    destruct Lip as [La | La]; unfold To4; rewrite La in *.
    + exact Hn.
    + change (16 =? 4)%nat with false. rewrite Nat.eqb_refl, andb_true_l, bool_decide_false; [exact Hn |].
      intros Ht. by apply Hm.
Qed.

Lemma ParseIP_ok s ip : ParseIP s = Some ip -> length ip = 16%nat /\ bytes_ok ip /\ As16 ip = ip.
Proof.
  unfold ParseIP. destruct (ParseAddr s) as [a |] eqn:E; [| done]. intros [= <-].
  apply ParseAddr_ok in E as [La Oa].
  assert (length (As16 a) = 16%nat /\ bytes_ok (As16 a)) as [L O].
  { unfold As16. split_guard; [| split; [lia | done]].
    split; [rewrite length_app, Heqb; done |]. apply Forall_app_2; [| done].
    apply Forall_app_2; [apply Forall_replicate; unfold byte_ok; lia |].
    apply List.Forall_cons; [unfold byte_ok; lia |]. apply List.Forall_cons; [unfold byte_ok; lia | done]. }
  split; [done |]. split; [done |]. unfold As16 at 1. by rewrite L.
Qed.
