(* ===== verification/Router.v ===== *)
(** * The bypass router of the SOCKS5 server (internal/core/socks_router.go, wireproxy_runner.go).

    The router decides for each connection whether it bypasses the tunnel: by the suffix of a host
    name or by the network of an address.  Its lists are swapped under a lock: an [Update] and a
    [Resolve] are each one step on the record below. *)

From S2P Require Import Prelude Bytes GoStrings Chars Net Ip.
From Stdlib Require Import ZArith Lia String Ascii.
From stdpp Require Import base list strings.
Open Scope string_scope.
Open Scope Z_scope.
Abbreviation join := GoStrings.join.

(** ** The router *)

Record Router := { domains : list string; ipMatchers : list IPNet }.

Section router.
Context `{Unicode}.

Definition parseIPNetEntry (s : string) : option IPNet :=
  match ParseCIDR s with
  | Some (_, ipnet) => Some ipnet
  | None =>
      ip ← ParseIP (trim_space s);
      let mask := match To4 ip with Some _ => CIDRMask 32 4 | None => CIDRMask 128 16 end in
      Some {| net_ip := Mask ip mask; net_mask := mask |}
  end.

Definition Update (doms ips : list string) (_ : Router) : Router :=
  {| domains := (fun d => to_lower (trim_space d)) <$> doms; ipMatchers := omap parseIPNetEntry ips |}.

Definition NewRouter (doms ips : list string) : Router :=
  Update doms ips {| domains := []; ipMatchers := [] |}.

Inductive upstream := Tun | Direct.
#[global] Instance upstream_eq_dec : EqDecision upstream.
Proof. solve_decision. Defined.

Definition domain_match (h d : string) : bool := String.eqb h d || has_suffix ("." ++ d) h.

Definition Resolve (r : Router) (host : string) : upstream :=
  if String.eqb host "" then Tun
  else match ParseIP host with
       | Some ip => if existsb (fun n => Contains n ip) (ipMatchers r) then Direct else Tun
       | None =>
           let h := to_lower (trim_suffix "." host) in
           if existsb (domain_match h) (domains r) then Direct else Tun
       end.

Definition SnapshotDomains (r : Router) : list string := domains r.

(** ** The SOCKS5 dial interceptor *)

(** What a request holds of go-socks5's: the name of the destination and its address. *)
Record Request := { RawFQDN : option string; DestIP : option (list Z) }.

(** The 16-bit fields of an IPv6 address in text, with "::" for the leftmost longest run of at
    least two zero fields ([netip.Addr.String], used by [net.IP.String]). *)
Definition field (ip : list Z) (i : nat) : Z := 256 * byte_at ip (2 * i) + byte_at ip (2 * i + 1).

Fixpoint zero_run (ip : list Z) (i fuel : nat) : nat :=
  match fuel with O => O | S f => if field ip i =? 0 then S (zero_run ip (S i) f) else O end.

Fixpoint longest_run (ip : list Z) (i fuel : nat) (best : nat * nat) : nat * nat :=
  match fuel with
  | O => best
  | S f =>
      let l := zero_run ip i (S f) in
      if (2 <=? l)%nat && (snd best <? l)%nat then longest_run ip (S i) f (i, l)
      else longest_run ip (S i) f best
  end.

Definition hex_digit_lower (d : Z) : string := String (byte (if d <? 10 then 48 + d else 87 + d)) "".

Fixpoint hex_text (fuel : nat) (n : Z) : string :=
  match fuel with
  | O => ""
  | S f => (if n / 16 =? 0 then "" else hex_text f (n / 16)) ++ hex_digit_lower (n mod 16)
  end.

Fixpoint bytes_hex (l : list Z) : string :=
  match l with [] => "" | b :: l' => hex_digit_lower (b / 16) ++ hex_digit_lower (b mod 16) ++ bytes_hex l' end.

Definition fields_text (ip : list Z) (from n : nat) : string :=
  join ":" ((fun i => hex_text 4 (field ip i)) <$> seq from n).

Definition ip_string (ip : list Z) : string :=
  match To4 ip with
  | Some v4 => join "." (utoa <$> v4)
  | None =>
      if (length ip =? 16)%nat then
        let '(start, l) := longest_run ip 0 8 (0%nat, 0%nat) in
        if (l =? 0)%nat then fields_text ip 0 8
        else fields_text ip 0 start ++ "::" ++ fields_text ip (start + l) (8 - (start + l))
      else "?" ++ bytes_hex ip
  end.

(** [dialHost] *)
Definition dialHost (req : option Request) : string :=
  match req with
  | None => ""
  | Some r =>
      let by_ip := match DestIP r with
                   | Some ip => if (0 <? length ip)%nat then ip_string ip else ""
                   | None => ""
                   end in
      match RawFQDN r with
      | Some name => if String.eqb name "" then by_ip else name
      | None => by_ip
      end
  end.

(** Which dialer [socks5.WithDialAndRequest] takes. *)
Definition dial_via (r : Router) (req : option Request) : upstream := Resolve r (dialHost req).
End router.

Example ip_string_v6 : ip_string [32;1;13;184;0;0;0;0;0;0;0;0;0;10;0;1] = "2001:db8::a:1".
Proof. reflexivity. Qed.
Example ip_string_loopback : ip_string (replicate 15 0 ++ [1])%list = "::1".
Proof. reflexivity. Qed.
Example ip_string_v4 : ip_string [10; 0; 200; 1] = "10.0.200.1".
Proof. reflexivity. Qed.

(** ** Names *)

#[local] Arguments String.append : simpl nomatch.

Lemma split_on_app_any c s t : split_on c (s ++ String c t) = (split_on c s ++ split_on c t)%list.
Proof.
  induction s as [| a s IH]; simpl; [by rewrite Ascii.eqb_refl |].
  destruct (Ascii.eqb a c); [by rewrite IH |]. rewrite IH.
  pose proof (split_on_nonempty c s). by destruct (split_on c s).
Qed.

Lemma join_app sep k l : k <> [] -> l <> [] -> join sep (k ++ l) = join sep k ++ sep ++ join sep l.
Proof.
  intros Hk Hl. induction k as [| x k IH]; [done |]. destruct k as [| y k].
  - simpl. by destruct l.
  - change (join sep ((x :: y :: k) ++ l)) with (x ++ sep ++ join sep ((y :: k) ++ l)).
    rewrite IH by done. change (join sep (x :: y :: k)) with (x ++ sep ++ join sep (y :: k)).
    by rewrite !string_app_assoc.
Qed.

(** A listed domain matches itself and its subdomains: its labels are the last ones of the name. *)
Lemma domain_match_labels h d : domain_match h d = true <-> split_on "." d `suffix_of` split_on "." h.
Proof.
  unfold domain_match. rewrite orb_true_iff, String.eqb_eq. split.
  - intros [-> | Hs]; [done |]. apply has_suffix_spec in Hs as [u ->].
    change ("." ++ d) with (String "." d). rewrite split_on_app_any. by eexists.
  - intros [k Hk]. destruct (decide (k = [])) as [-> | Hne].
    + left. rewrite <- (join_split_on "." h), Hk. apply join_split_on.
    + right. rewrite <- (join_split_on "." h), Hk.
      rewrite join_app by (done || apply split_on_nonempty). rewrite join_split_on.
      change (join (String "." "") k ++ String "." "" ++ d) with (join (String "." "") k ++ ("." ++ d)).
      apply has_suffix_app.
Qed.

Lemma existsb_In {A} (f : A -> bool) l : existsb f l = true <-> exists x, x ∈ l /\ f x = true.
Proof.
  rewrite existsb_exists. split; intros (x & Hx & Hf); exists x; (split; [| done]); by apply list_elem_of_In.
Qed.

Lemma upstream_if (b : bool) : (if b then Direct else Tun) = Direct <-> b = true.
Proof. by destruct b. Qed.

(** A host name goes direct exactly when the labels of a listed domain, trimmed and in lower
    case, are the last labels of the name: a domain covers itself and its subdomains and no name
    that merely ends with the same letters. *)
Theorem resolve_names `{Unicode} doms ips host :
  host <> "" -> ParseIP host = None ->
  Resolve (NewRouter doms ips) host = Direct <->
  exists d, d ∈ doms /\
    split_on "." (to_lower (trim_space d)) `suffix_of` split_on "." (to_lower (trim_suffix "." host)).
Proof.
  intros Hne Hip. unfold Resolve. rewrite (proj2 (String.eqb_neq _ _) Hne), Hip, upstream_if, existsb_In.
  setoid_rewrite domain_match_labels. simpl. split.
  - intros (d & Hd & Hs). apply list_elem_of_fmap in Hd as (e & -> & He). by exists e.
  - intros (d & Hd & Hs). exists (to_lower (trim_space d)). split; [| done]. apply list_elem_of_fmap. by exists d.
Qed.

Lemma resolve_names_witness :
  let U : Unicode := fun s => s in
  Resolve (NewRouter [" Example.com"] []) "a.example.com." = Direct /\
  Resolve (NewRouter ["example.com"] []) "notexample.com" = Tun.
Proof.
  cbv zeta. split.
  - apply (@resolve_names (fun s => s)); [done | by vm_compute |]. exists " Example.com". split; [by left |]. by exists ["a"].
  - by vm_compute.
Defined.

(** ** Addresses *)

(** The address and prefix length an entry of the list stands for. *)
Definition entry_network (e : string) : option (list Z * Z) :=
  match cidr_text e with
  | Some p => Some p
  | None => ip ← ParseIP (trim_space e); Some (canonical ip, 8 * Z.of_nat (length (canonical ip)))
  end.

Lemma parse_entry e :
  match parseIPNetEntry e with
  | Some net => exists a k, entry_network e = Some (a, k) /\ network_of net a k
  | None => entry_network e = None
  end.
Proof.
  unfold parseIPNetEntry, entry_network. pose proof (ParseCIDR_network e) as Hc.
  destruct (ParseCIDR e) as [[? net] |].
  - destruct Hc as (a & k & -> & Hn). by exists a, k.
  - rewrite Hc. destruct (ParseIP (trim_space e)) as [ip |] eqn:E; [| done]. cbn [mbind option_bind].
    apply ParseIP_ok in E as (Lip & Oip & H16). eexists _, _. split; [done |].
    pose proof (host_network ip (or_intror Lip) Oip) as Hh. cbv zeta in Hh. by rewrite H16 in Hh.
Qed.

(** The text of an IPv4 address is read back. *)
Definition v4_text_ok (b : Z) : bool :=
  String.eqb (utoa b)
    (if b <? 10 then String (digit b) ""
     else if b <? 100 then String (digit (b / 10)) (String (digit (b mod 10)) "")
     else String (digit (b / 100)) (String (digit (b / 10 mod 10)) (String (digit (b mod 10)) ""))).

Lemma v4_text b : byte_ok b -> v4_text_ok b = true.
Proof.
  intros Hb. assert (forallb v4_text_ok (seqZ 0 256) = true) as Ha by (vm_compute; done).
  rewrite forallb_forall in Ha. apply Ha, list_elem_of_In, elem_of_seqZ. unfold byte_ok in Hb. lia.
Qed.

Lemma ipv4_digit d s v n f :
  0 <= d < 10 -> ipv4_fields (String (digit d) s) v n f =
  if (n =? 1)%nat && (v =? 0) then None else if 255 <? v * 10 + d then None else ipv4_fields s (v * 10 + d) (S n) f.
Proof. intros Hd. cbn [ipv4_fields]. by rewrite digit_val_digit. Qed.

Lemma ipv4_byte b rest f :
  byte_ok b -> exists n, n <> O /\ ipv4_fields (utoa b ++ rest) 0 0 f = ipv4_fields rest b n f.
Proof.
  intros Hb. pose proof (v4_text b Hb) as Ht. unfold v4_text_ok, byte_ok in *. apply String.eqb_eq in Ht. rewrite Ht. clear Ht.
  pose proof (Z.div_mod b 10 ltac:(lia)). pose proof (Z.mod_pos_bound b 10 ltac:(lia)).
  repeat split_guard.
  - exists 1%nat. split; [done |]. simpl String.append. rewrite ipv4_digit by lia. simpl andb. cbv iota.
    replace (0 * 10 + b) with b by lia. by rewrite (proj2 (Z.ltb_ge 255 b)) by lia.
  - exists 2%nat. split; [done |]. simpl String.append. assert (0 < b / 10 < 10) by lia.
    rewrite ipv4_digit by lia. simpl andb. cbv iota. rewrite (proj2 (Z.ltb_ge 255 (0 * 10 + b / 10))) by lia.
    rewrite ipv4_digit by lia. simpl Nat.eqb. rewrite (proj2 (Z.eqb_neq _ _)) by lia. simpl andb. cbv iota.
    replace ((0 * 10 + b / 10) * 10 + b mod 10) with b by lia. by rewrite (proj2 (Z.ltb_ge 255 b)) by lia.
  - exists 3%nat. split; [done |]. simpl String.append.
    assert (b / 10 / 10 = b / 100) as Hq by (rewrite Z.div_div by lia; done).
    pose proof (Z.div_mod (b / 10) 10 ltac:(lia)). pose proof (Z.mod_pos_bound (b / 10) 10 ltac:(lia)).
    rewrite Hq in *. assert (0 < b / 100 < 10) by lia.
    rewrite ipv4_digit by lia. simpl andb. cbv iota. rewrite (proj2 (Z.ltb_ge 255 (0 * 10 + b / 100))) by lia.
    rewrite ipv4_digit by lia. simpl Nat.eqb. rewrite (proj2 (Z.eqb_neq _ _)) by lia. simpl andb. cbv iota.
    replace ((0 * 10 + b / 100) * 10 + b / 10 mod 10) with (b / 10) by lia. rewrite (proj2 (Z.ltb_ge 255 (b / 10))) by lia.
    rewrite ipv4_digit by lia. simpl Nat.eqb. simpl andb. cbv iota.
    replace (b / 10 * 10 + b mod 10) with b by lia. by rewrite (proj2 (Z.ltb_ge 255 b)) by lia.
Qed.

Lemma ipv4_dot rest v n f :
  n <> O -> rest <> "" -> length f <> 3%nat -> ipv4_fields (String "." rest) v n f = ipv4_fields rest 0 0 (f ++ [v])%list.
Proof.
  intros Hn Hr Hf. cbn [ipv4_fields]. change (digit_val ".") with (@None Z). rewrite Ascii.eqb_refl.
  by rewrite (proj2 (Nat.eqb_neq _ _) Hn), (proj2 (String.eqb_neq _ _) Hr), (proj2 (Nat.eqb_neq _ _) Hf).
Qed.

Lemma address_kind_digit d s : 0 <= d < 10 -> address_kind (String (digit d) s) = address_kind s.
Proof.
  intros Hd. assert (d = 0 \/ d = 1 \/ d = 2 \/ d = 3 \/ d = 4 \/ d = 5 \/ d = 6 \/ d = 7 \/ d = 8 \/ d = 9)
    as Hc by lia.
  by repeat destruct Hc as [-> | Hc]; [.. | subst].
Qed.

Lemma address_kind_byte b s : byte_ok b -> address_kind (utoa b ++ s) = address_kind s.
Proof.
  intros Hb. pose proof (v4_text b Hb) as Ht. unfold v4_text_ok, byte_ok in *. apply String.eqb_eq in Ht. rewrite Ht.
  pose proof (Z.mod_pos_bound b 10 ltac:(lia)). pose proof (Z.mod_pos_bound (b / 10) 10 ltac:(lia)).
  pose proof (Z.div_mod b 10 ltac:(lia)). pose proof (Z.div_mod b 100 ltac:(lia)). pose proof (Z.mod_pos_bound b 100 ltac:(lia)).
  repeat split_guard; simpl String.append; by rewrite !address_kind_digit by lia.
Qed.

Lemma ip_string_v4_parse v4 : length v4 = 4%nat -> bytes_ok v4 -> ParseIP (ip_string v4) = Some (v4InV6Prefix ++ v4)%list.
Proof.
  intros L O. destruct v4 as [| a [| b [| c [| d [|]]]]]; try discriminate.
  repeat match goal with H : bytes_ok (_ :: _) |- _ => inversion H; clear H; subst end.
  unfold ip_string. change (To4 [a; b; c; d]) with (Some [a; b; c; d]). cbv beta iota.
  change (join "." (utoa <$> [a; b; c; d])) with (utoa a ++ String "." (utoa b ++ String "." (utoa c ++ String "." (utoa d)))).
  unfold ParseIP, ParseAddr. rewrite address_kind_byte by done. simpl address_kind. cbn [mbind option_bind].
  change (Ascii.eqb "." ".") with true. cbv iota. unfold parseIPv4.
  assert (forall x s, byte_ok x -> utoa x ++ s <> "") as Hne.
  { intros x s Hx. unfold byte_ok in Hx. destruct (utoa_spec x) as [_ Hu]; [lia |]. by destruct (utoa x). }
  assert (forall x rest f, byte_ok x -> rest <> "" -> length f <> 3%nat ->
    ipv4_fields (utoa x ++ String "." rest) 0 0 f = ipv4_fields rest 0 0 (f ++ [x])%list) as Hx.
  { intros x rest f Ox Hr Hf. destruct (ipv4_byte x (String "." rest) f Ox) as (n & Hn & ->). by apply ipv4_dot. }
  assert (utoa d <> "") as Hd by (rewrite <- (string_app_nil_r (utoa d)); by apply Hne).
  rewrite !Hx by first [done | by apply Hne].
  destruct (ipv4_byte d "" ([] ++ [a] ++ [b] ++ [c])%list) as (n & Hn & E); [done |]. rewrite string_app_nil_r in E.
  simpl in E |- *. by rewrite E.
Qed.

(** An address goes direct exactly when it has the prefix of a listed network of its family (a
    bare address is a network of its own, mapped addresses count as IPv4); and a SOCKS5 request for
    an IPv4 address without a name is decided by that address. *)
Theorem resolve_addresses `{Unicode} doms ips :
  (forall host ip, ParseIP host = Some ip ->
     Resolve (NewRouter doms ips) host = Direct <->
     exists e a k, e ∈ ips /\ entry_network e = Some (a, k) /\ same_prefix k a (canonical ip)) /\
  (forall v4, length v4 = 4%nat -> bytes_ok v4 ->
     dial_via (NewRouter doms ips) (Some {| RawFQDN := None; DestIP := Some v4 |}) = Direct <->
     exists e a k, e ∈ ips /\ entry_network e = Some (a, k) /\ same_prefix k a v4).
Proof.
  assert (forall host ip, ParseIP host = Some ip ->
     Resolve (NewRouter doms ips) host = Direct <->
     exists e a k, e ∈ ips /\ entry_network e = Some (a, k) /\ same_prefix k a (canonical ip)) as Hr.
  { intros host ip Hip. pose proof (ParseIP_ok _ _ Hip) as (Lip & Oip & _).
    unfold Resolve. rewrite Hip. destruct (String.eqb host "") eqn:E; [by apply String.eqb_eq in E; subst |].
    rewrite upstream_if, existsb_In. simpl. split.
    - intros (net & Hin & Hc). apply list_elem_of_omap in Hin as (e & He & Hp).
      pose proof (parse_entry e) as Hpe. rewrite Hp in Hpe. destruct Hpe as (a & k & Ha & Hn).
      exists e, a, k. split; [done |]. split; [done |]. apply (network_contains net); [done | done | by right | done].
    - intros (e & a & k & He & Ha & Hs). pose proof (parse_entry e) as Hpe.
      destruct (parseIPNetEntry e) as [net |] eqn:Hp; [| congruence].
      destruct Hpe as (a' & k' & Ha' & Hn). rewrite Ha in Ha'. injection Ha' as <- <-.
      exists net. split; [apply list_elem_of_omap; by exists e |].
      apply (network_contains net a k); [done | done | by right | done]. }
  split; [exact Hr |]. intros v4 L O. unfold dial_via. simpl dialHost. rewrite L. simpl.
  rewrite (Hr _ _ (ip_string_v4_parse v4 L O)).
  pose proof (canonical_v4 v4 L) as [Hc _]. unfold As16 in Hc. rewrite L in Hc. simpl Nat.eqb in Hc. cbv iota in Hc.
  by rewrite Hc.
Qed.

(** The reload list of the control socket holds every entry, networks and addresses too. *)
Example snapshot_exposes_networks :
  SnapshotDomains (@NewRouter (fun s => s) ["vk.com"; "10.0.0.0/8"] ["10.0.0.0/8"]) = ["vk.com"; "10.0.0.0/8"].
Proof. reflexivity. Qed.

Example cidr_inside : @Resolve (fun s => s) (@NewRouter (fun s => s) [] ["1.2.3.0/24"]) "1.2.3.87" = Direct.
Proof. reflexivity. Qed.

Lemma resolve_addresses_witness :
  let U : Unicode := fun s => s in let r := NewRouter [] ["2001:db8::/32"; "1.2.3.0/24"] in
  Resolve r "1.2.3.87" = Direct /\
  dial_via r (Some {| RawFQDN := None; DestIP := Some [1; 2; 3; 88] |}) = Direct.
Proof.
  cbv zeta. pose proof (@resolve_addresses (fun s => s) [] ["2001:db8::/32"; "1.2.3.0/24"]) as [H1 H2]. split.
  - apply (H1 "1.2.3.87" (v4InV6Prefix ++ [1; 2; 3; 87])%list); [by vm_compute |].
    exists "1.2.3.0/24", [1; 2; 3; 0], 24. split; [by right; left |]. by split; vm_compute.
  - apply H2; [done | repeat (apply List.Forall_cons; [unfold byte_ok; lia |]); constructor |].
    exists "1.2.3.0/24", [1; 2; 3; 0], 24. split; [by right; left |]. by split; vm_compute.
Defined.
