(* ===== verification/Url.v ===== *)
(** * URLs (package net/url): [Parse], [String], [Hostname], [QueryUnescape], [ParseQuery] and
    [Values.Encode].

    The address of a host in brackets is checked by [netip.ParseAddr] as in current Go. *)

From S2P Require Import Prelude Bytes GoStrings Chars Net Form Ip Sorting.
From Stdlib Require Import ZArith Lia String Ascii.
From stdpp Require Import base list strings.
Open Scope string_scope.
Open Scope Z_scope.

(** ** Escaping *)

Inductive encoding :=
| encodePath | encodeUserPassword | encodeHost | encodeZone | encodeQueryComponent | encodeFragment.

#[global] Instance encoding_eq_dec : EqDecision encoding.
Proof. solve_decision. Defined.

Definition is_alnum (c : ascii) : bool :=
  let n := code c in
  ((97 <=? n) && (n <=? 122)) || ((65 <=? n) && (n <=? 90)) || ((48 <=? n) && (n <=? 57)).

Definition one_of (set : string) (c : ascii) : bool := has_char c set.

(** [shouldEscape] *)
Definition shouldEscape (c : ascii) (mode : encoding) : bool :=
  if is_alnum c then false
  else if (bool_decide (mode = encodeHost) || bool_decide (mode = encodeZone))
          && (one_of "!$&'()*+,;=:[]<>" c || (code c =? 34)) then false
  else if one_of "-_.~" c then false
  else if one_of "$&+,/:;=?@" c then
    match mode with
    | encodePath => Ascii.eqb c "?"
    | encodeUserPassword => one_of "@/?:" c
    | encodeQueryComponent => true
    | encodeFragment => false
    | encodeHost | encodeZone => true
    end
  else if bool_decide (mode = encodeFragment) && one_of "!()*" c then false
  else true.

(** [escape] *)
Definition escape_byte (mode : encoding) (c : ascii) : string :=
  if Ascii.eqb c " " && bool_decide (mode = encodeQueryComponent) then "+"
  else if shouldEscape c mode
  then String "%" (String (hex_upper (Z.shiftr (code c) 4)) (String (hex_upper (Z.land (code c) 15)) ""))
  else String c "".

Fixpoint escape (mode : encoding) (s : string) : string :=
  match s with "" => "" | String c s' => escape_byte mode c ++ escape mode s' end.

(** [unescape]: the checks of its first loop and the decoding of its second, byte by byte. *)
Fixpoint unescape (mode : encoding) (s : string) : option string :=
  match s with
  | "" => Some ""
  | String c s' =>
      if Ascii.eqb c "%" then
        match s' with
        | String h (String l rest) =>
            match hex_val h, hex_val l with
            | Some a, Some b =>
                let v := byte (16 * a + b) in
                if bool_decide (mode = encodeHost) && (a <? 8)
                   && negb (Ascii.eqb h "2" && Ascii.eqb l "5") then None
                else if bool_decide (mode = encodeZone) && negb (Ascii.eqb h "2" && Ascii.eqb l "5")
                        && negb (Ascii.eqb v " ") && shouldEscape v encodeHost then None
                else String v <$> unescape mode rest
            | _, _ => None
            end
        | _ => None
        end
      else if Ascii.eqb c "+" && bool_decide (mode = encodeQueryComponent) then
        String " " <$> unescape mode s'
      else if (bool_decide (mode = encodeHost) || bool_decide (mode = encodeZone))
              && (code c <? 128) && shouldEscape c mode then None
      else String c <$> unescape mode s'
  end.

(** [validEncoded] *)
Fixpoint validEncoded (s : string) (mode : encoding) : bool :=
  match s with
  | "" => true
  | String c s' =>
      (one_of "!$&'()*+,;=:@[]%" c || negb (shouldEscape c mode)) && validEncoded s' mode
  end.

(** ** Parsing *)

Record URL := {
  Scheme : string; Opaque : string; User : option (string * option string); Host : string;
  Path : string; RawPath : string; OmitHost : bool; ForceQuery : bool; RawQuery : string;
  Fragment : string; RawFragment : string
}.

Definition cut (sep : ascii) (s : string) : string * string :=
  match index_char sep s with Some i => (stake i s, sdrop (S i) s) | None => (s, "") end.

Definition is_letter (c : ascii) : bool :=
  let n := code c in ((97 <=? n) && (n <=? 122)) || ((65 <=? n) && (n <=? 90)).

(** [getScheme]; [None] for "missing protocol scheme". *)
Fixpoint scheme_length (s : string) (i : nat) : option (option nat) :=
  match s with
  | "" => Some None
  | String c s' =>
      if is_letter c then scheme_length s' (S i)
      else if is_alnum c || one_of "+-." c then
        if (i =? 0)%nat then Some None else scheme_length s' (S i)
      else if Ascii.eqb c ":" then (if (i =? 0)%nat then None else Some (Some i))
      else Some None
  end.

Definition getScheme (rawURL : string) : option (string * string) :=
  r ← scheme_length rawURL 0;
  match r with
  | Some i => Some (stake i rawURL, sdrop (S i) rawURL)
  | None => Some ("", rawURL)
  end.

(** [validOptionalPort] *)
Definition validOptionalPort (port : string) : bool :=
  match port with
  | "" => true
  | String c rest => Ascii.eqb c ":" && all_of (fun d => match digit_val d with Some _ => true | None => false end) rest
  end.

(** [netip.ParseAddr] gives an IPv6 address, with or without a zone. *)
Definition is_ipv6 (s : string) : bool :=
  let '(addr, zone_ok) := match index_char "%" s with
                          | Some i => (stake i s, negb (String.eqb (sdrop (S i) s) ""))
                          | None => (s, true)
                          end in
  zone_ok && match parseIPv6 addr with Some _ => true | None => false end.

(** [parseHost] *)
Definition parseHost (host : string) : option string :=
  match last_index "[" host with
  | Some (S _) => None
  | Some O =>
      close ← last_index "]" host;
      let colonPort := sdrop (S close) host in
      if negb (validOptionalPort colonPort) then None
      else
        port ← unescape encodeHost colonPort;
        let hostname := stake (close - 1) (sdrop 1 host) in
        name ← match GoStrings.index "%25" hostname with
               | Some z =>
                   h ← unescape encodeHost (stake z hostname);
                   zone ← unescape encodeZone (sdrop z hostname);
                   Some (h ++ zone)
               | None => unescape encodeHost hostname
               end;
        if is_ipv6 name then Some ("[" ++ name ++ "]" ++ port) else None
  | None =>
      match index_char ":" host with
      | Some i => if validOptionalPort (sdrop i host) then unescape encodeHost host else None
      | None => unescape encodeHost host
      end
  end.

(** [validUserinfo] *)
Definition validUserinfo (s : string) : bool := all_of (fun c => is_alnum c || one_of "-._:~!$&'()*+,;=%@" c) s.

(** [parseAuthority] *)
Definition parseAuthority (authority : string) : option (option (string * option string) * string) :=
  match last_index "@" authority with
  | None => host ← parseHost authority; Some (None, host)
  | Some i =>
      host ← parseHost (sdrop (S i) authority);
      let userinfo := stake i authority in
      if negb (validUserinfo userinfo) then None
      else match index_char ":" userinfo with
           | None => u ← unescape encodeUserPassword userinfo; Some (Some (u, None), host)
           | Some j =>
               u ← unescape encodeUserPassword (stake j userinfo);
               p ← unescape encodeUserPassword (sdrop (S j) userinfo);
               Some (Some (u, Some p), host)
           end
  end.

Definition is_ctl (c : ascii) : bool := (code c <? 32) || (code c =? 127).

Fixpoint count_char (c : ascii) (s : string) : nat :=
  match s with "" => 0 | String a s' => (if Ascii.eqb a c then 1 else 0) + count_char c s' end.

(** [url.setPath] and [url.setFragment]: the text, and the raw text where it is not the escaped
    one. *)
Definition set_escaped (mode : encoding) (p : string) : option (string * string) :=
  path ← unescape mode p; Some (path, if String.eqb p (escape mode path) then "" else p).

(** The part of [parse] after the scheme and the query. *)
Definition parse_rest (scheme query : string) (force : bool) (rest : string) : option URL :=
  let mk user host path raw omit opaque :=
    {| Scheme := scheme; Opaque := opaque; User := user; Host := host; Path := path; RawPath := raw;
       OmitHost := omit; ForceQuery := force; RawQuery := query; Fragment := ""; RawFragment := "" |} in
  if negb (has_prefix "/" rest) && negb (String.eqb scheme "") then Some (mk None "" "" "" false rest)
  else if negb (has_prefix "/" rest) && has_char ":" (fst (cut "/" rest)) then None
  else if (negb (String.eqb scheme "") || negb (has_prefix "///" rest)) && has_prefix "//" rest then
    let after := sdrop 2 rest in
    let '(authority, path) := match index_char "/" after with
                              | Some i => (stake i after, sdrop i after)
                              | None => (after, "")
                              end in
    '(user, host) ← parseAuthority authority;
    '(p, raw) ← set_escaped encodePath path;
    Some (mk user host p raw false "")
  else
    '(p, raw) ← set_escaped encodePath rest;
    Some (mk None "" p raw (negb (String.eqb scheme "") && has_prefix "/" rest) "").

Section parse.
Context `{Unicode}.

(** [parse(rawURL, false)] *)
Definition parse (rawURL : string) : option URL :=
  if negb (none_of is_ctl rawURL) then None
  else if String.eqb rawURL "*" then
    Some {| Scheme := ""; Opaque := ""; User := None; Host := ""; Path := "*"; RawPath := "";
            OmitHost := false; ForceQuery := false; RawQuery := ""; Fragment := ""; RawFragment := "" |}
  else
    '(scheme, rest) ← getScheme rawURL;
    let scheme := to_lower scheme in
    if has_suffix "?" rest && (count_char "?" rest =? 1)%nat then
      parse_rest scheme "" true (stake (String.length rest - 1) rest)
    else
      let '(rest, query) := cut "?" rest in parse_rest scheme query false rest.

(** [url.Parse] *)
Definition Parse (rawURL : string) : option URL :=
  let '(u, frag) := cut "#" rawURL in
  url ← parse u;
  if String.eqb frag "" then Some url
  else
    '(f, raw) ← set_escaped encodeFragment frag;
    Some {| Scheme := Scheme url; Opaque := Opaque url; User := User url; Host := Host url;
            Path := Path url; RawPath := RawPath url; OmitHost := OmitHost url;
            ForceQuery := ForceQuery url; RawQuery := RawQuery url; Fragment := f; RawFragment := raw |}.
End parse.

(** ** Printing *)

(** [u.EscapedPath()] and [u.EscapedFragment()]. *)
Definition escaped (mode : encoding) (raw text : string) : string :=
  if negb (String.eqb raw "") && validEncoded raw mode && bool_decide (unescape mode raw = Some text) then raw
  else if String.eqb text "*" && bool_decide (mode = encodePath) then "*"
  else escape mode text.

Definition user_text (u : string * option string) : string :=
  escape encodeUserPassword (fst u) ++
  match snd u with Some p => ":" ++ escape encodeUserPassword p | None => "" end.

(** [u.String()] for a URL that has a scheme. *)
Definition url_string (u : URL) : string :=
  (if String.eqb (Scheme u) "" then "" else Scheme u ++ ":") ++
  (if negb (String.eqb (Opaque u) "") then Opaque u
   else
     (if OmitHost u && String.eqb (Host u) "" && bool_decide (User u = None) then ""
      else
        (if negb (String.eqb (Host u) "") || negb (String.eqb (Path u) "") || negb (bool_decide (User u = None))
         then "//" else "") ++
        match User u with Some i => user_text i ++ "@" | None => "" end ++
        escape encodeHost (Host u)) ++
     (let path := escaped encodePath (RawPath u) (Path u) in
      (if negb (String.eqb path "") && negb (has_prefix "/" path) && negb (String.eqb (Host u) "") then "/" else "")
      ++ path)) ++
  (if ForceQuery u || negb (String.eqb (RawQuery u) "") then "?" ++ RawQuery u else "") ++
  (if String.eqb (Fragment u) "" then "" else "#" ++ escaped encodeFragment (RawFragment u) (Fragment u)).

(** [u.Hostname()] *)
Definition Hostname (u : URL) : string :=
  let h := match last_index ":" (Host u) with
           | Some i => if validOptionalPort (sdrop i (Host u)) then stake i (Host u) else Host u
           | None => Host u
           end in
  if has_prefix "[" h && has_suffix "]" h then stake (String.length h - 2) (sdrop 1 h) else h.

(** ** Query strings *)

(** [url.QueryUnescape] and [url.QueryEscape]. *)
Definition QueryUnescape (s : string) : option string := unescape encodeQueryComponent s.
Definition QueryEscape (s : string) : string := escape encodeQueryComponent s.

(** [url.Values], in the order of [Add]; [Get] gives the first value. *)
Abbreviation Values := (list (string * string)).

Definition parse_setting (piece : string) : Values :=
  if has_char ";" piece || String.eqb piece "" then []
  else
    let '(k, v) := cut "=" piece in
    match QueryUnescape k, QueryUnescape v with
    | Some k, Some v => [(k, v)]
    | _, _ => []
    end.

(** [u.Query()], which drops the settings that are not well formed. *)
Definition parse_query (query : string) : Values :=
  if String.eqb query "" then [] else split_on "&" query ≫= parse_setting.

Definition Get (key : string) (v : Values) : string :=
  match head (filter (fun p => fst p = key) v) with Some p => snd p | None => "" end.

(** [v.Set(key, value)] *)
Definition values_set (key value : string) (v : Values) : Values :=
  (filter (fun p => fst p <> key) v ++ [(key, value)])%list.

(** [v.Encode()]: sorted by key. *)
Fixpoint string_leb (s t : string) : bool :=
  match s, t with
  | "", _ => true
  | _, "" => false
  | String a s', String b t' => (code a <? code b) || (Ascii.eqb a b && string_leb s' t')
  end.

Definition encode_pair (p : string * string) : string := QueryEscape (fst p) ++ "=" ++ QueryEscape (snd p).

Definition Encode (v : Values) : string :=
  GoStrings.join "&" (encode_pair <$> sort_stable (fun p q => negb (string_leb (fst q) (fst p))) v).

Example parse_link :
  let U : Unicode := fun s => s in
  (fun u => (Scheme u, Host u, Path u, parse_query (RawQuery u))) <$>
    Parse "qwdtt://config?name=A%20B&peer=1.2.3.4:56000&&x;y=1&bad=%zz&pass=p+q"
  = Some ("qwdtt", "config", "", [("name", "A B"); ("peer", "1.2.3.4:56000"); ("pass", "p q")]).
Proof. reflexivity. Qed.

Example parse_string :
  let U : Unicode := fun s => s in
  url_string <$> Parse "HTTPS://u:p@[2001:db8::1]:443/dns%20query/%2f?a=b#f g" =
  Some "https://u:p@[2001:db8::1]:443/dns%20query/%2f?a=b#f%20g".
Proof. reflexivity. Qed.

Example parse_ports : let U : Unicode := fun s => s in Parse "https://host:80:90/" = None /\ Parse "https://::1/" = None.
Proof. split; reflexivity. Qed.

Example host_name : let U : Unicode := fun s => s in Hostname <$> Parse "https://[2001:db8::1]:443/" = Some "2001:db8::1".
Proof. reflexivity. Qed.

Example encode_sorted : Encode [("peer", "1.2.3.4:5"); ("name", "a&b")] = "name=a%26b&peer=1.2.3.4%3A5".
Proof. reflexivity. Qed.

(** ** Facts about query strings *)

#[local] Arguments String.append : simpl nomatch.

(** The characters of an escaped text, and of a query. *)
Definition escaped_char (c : ascii) : bool := is_alnum c || one_of "-_.~+%" c.
Definition query_char (c : ascii) : bool := escaped_char c || one_of "&=" c.

Lemma QueryEscape_form s : QueryEscape s = captchaV2QueryEscape s.
Proof.
  unfold QueryEscape. induction s as [| c s IH]; [done |]. simpl. rewrite IH. f_equal.
  apply String.eqb_eq. revert c. apply (ascii_all (fun c => String.eqb (escape_byte encodeQueryComponent c) (escape_char c))).
  vm_compute. done.
Qed.

Lemma QueryEscape_chars s : all_of escaped_char (QueryEscape s) = true.
Proof.
  unfold QueryEscape. induction s as [| c s IH]; [done |]. simpl. rewrite all_of_app, IH, andb_true_r.
  revert c. apply (ascii_all (fun c => all_of escaped_char (escape_byte encodeQueryComponent c))). vm_compute. done.
Qed.

Lemma QueryUnescape_escape s : QueryUnescape (QueryEscape s) = Some s.
Proof.
  rewrite QueryEscape_form. unfold QueryUnescape. induction s as [| c s IH]; [done |]. cbn [captchaV2QueryEscape].
  pose proof (escape_char_ok c) as Hc. unfold escape_ok in Hc. apply andb_true_iff in Hc as [_ Hc].
  destruct (escape_char c) as [| a [| h [| l [|]]]]; try done; simpl.
  - destruct (Ascii.eqb a "+") eqn:Ea.
    + apply Ascii.eqb_eq in Hc as ->. apply Ascii.eqb_eq in Ea as ->. simpl. by rewrite IH.
    + apply andb_true_iff in Hc as [->%Ascii.eqb_eq ->%negb_true_iff]. simpl. by rewrite IH.
  - apply andb_true_iff in Hc as [->%Ascii.eqb_eq Hc]. simpl.
    destruct (hex_val h); [| done]. destruct (hex_val l); [| done].
    apply Ascii.eqb_eq in Hc as ->. cbn. by rewrite IH.
Qed.

Lemma all_of_no_char p c s : all_of p s = true -> p c = false -> no_char c s = true.
Proof.
  intros Hs Hc. induction s as [| a s IH]; [done |]. simpl in *. propify. rewrite IH by done.
  destruct (Ascii.eqb a c) eqn:E; [apply Ascii.eqb_eq in E as ->; congruence | done].
Qed.

Lemma no_char_has c s : no_char c s = true -> has_char c s = false.
Proof. intros Hs. by rewrite has_char_no_char, Hs. Qed.

Lemma cut_app c s t : no_char c s = true -> cut c (s ++ String c t) = (s, t).
Proof.
  intros Hs. unfold cut. rewrite index_char_app by done. rewrite stake_app.
  replace (S (String.length s)) with (String.length s + 1)%nat by lia. rewrite sdrop_app_more. simpl. by destruct t.
Qed.

Lemma index_char_none c s : no_char c s = true -> index_char c s = None.
Proof. induction s as [| a s IH]; simpl; [done |]. intros Hs. propify. rewrite H. by rewrite IH. Qed.

Lemma cut_none c s : no_char c s = true -> cut c s = (s, "").
Proof. intros Hs. unfold cut. by rewrite index_char_none. Qed.

Lemma parse_setting_pair p : parse_setting (encode_pair p) = [p].
Proof.
  destruct p as [k v]. unfold parse_setting, encode_pair. simpl fst. simpl snd.
  pose proof (QueryEscape_chars k) as Hk. pose proof (QueryEscape_chars v) as Hv.
  change ("=" ++ QueryEscape v) with (String "=" (QueryEscape v)).
  rewrite no_char_has.
  2: { rewrite no_char_app. simpl. rewrite (all_of_no_char _ _ _ Hk) by done. by rewrite (all_of_no_char _ _ _ Hv). }
  assert (String.eqb (QueryEscape k ++ String "=" (QueryEscape v)) "" = false) as ->.
  { by destruct (QueryEscape k). }
  simpl. rewrite cut_app by (by apply (all_of_no_char _ _ _ Hk)). by rewrite !QueryUnescape_escape.
Qed.

Lemma encode_pair_chars p : all_of query_char (encode_pair p) = true.
Proof.
  destruct p as [k v]. unfold encode_pair. rewrite !all_of_app. simpl.
  rewrite !(all_of_impl escaped_char query_char); try apply QueryEscape_chars; [done | |];
    intros c Hc; unfold query_char; by rewrite Hc.
Qed.

(** Decoding what [Encode] joins. *)
Lemma parse_query_encoded l :
  parse_query (GoStrings.join "&" (encode_pair <$> l)) = l.
Proof.
  destruct l as [| p l]; [done |]. unfold parse_query.
  assert (GoStrings.join "&" (encode_pair <$> p :: l) <> "") as Hne.
  { destruct p as [k v]. rewrite fmap_cons. change (encode_pair (k, v)) with (QueryEscape k ++ String "=" (QueryEscape v)).
    destruct l as [| q l]; [by destruct (QueryEscape k) |]. rewrite fmap_cons.
    simpl GoStrings.join. by destruct (QueryEscape k). }
  rewrite (proj2 (String.eqb_neq _ _) Hne), split_on_join.
  - clear Hne. generalize (p :: l) as r. induction r as [| q r IH]; [done |].
    rewrite fmap_cons, bind_cons, IH, parse_setting_pair. done.
  - done.
  - apply Forall_forall. intros x Hx. apply list_elem_of_fmap in Hx as (q & -> & _).
    destruct q as [k v]. unfold encode_pair. simpl. rewrite !no_char_app. simpl.
    by rewrite !(all_of_no_char _ _ _ (QueryEscape_chars _)).
Qed.

Lemma join_chars p sep l :
  all_of p sep = true -> Forall (fun s => all_of p s = true) l -> all_of p (GoStrings.join sep l) = true.
Proof.
  intros Hs Hl. induction Hl as [| x l Hx Hl IH]; [done |]. destruct l as [| y l]; [done |].
  change (GoStrings.join sep (x :: y :: l)) with (x ++ sep ++ GoStrings.join sep (y :: l)).
  by rewrite !all_of_app, Hx, Hs, IH.
Qed.

Lemma Encode_chars v : all_of query_char (Encode v) = true.
Proof.
  apply join_chars; [done |]. apply Forall_forall. intros x Hx. apply list_elem_of_fmap in Hx as (q & -> & _).
  apply encode_pair_chars.
Qed.

Lemma query_char_not c q : all_of query_char q = true -> query_char c = false -> no_char c q = true.
Proof. apply all_of_no_char. Qed.

Lemma count_char_app c s t : count_char c (s ++ t) = (count_char c s + count_char c t)%nat.
Proof. induction s as [| a s IH]; simpl; [done |]. rewrite IH. lia. Qed.

Lemma count_char_none c s : no_char c s = true -> count_char c s = 0%nat.
Proof. induction s as [| a s IH]; simpl; [done |]. intros Hs. propify. rewrite H. by rewrite IH. Qed.

Lemma has_suffix_last c s t : t <> "" -> no_char c t = true -> has_suffix (String c "") (s ++ t) = false.
Proof.
  intros Ht Hn. destruct (has_suffix (String c "") (s ++ t)) eqn:E; [| done].
  apply has_suffix_spec in E as [u E]. destruct (all_of_last (fun _ => true) t) as (v & d & -> & _); [done | clear; by induction t as [| a t IH]; [| exact IH] |].
  rewrite <- string_app_assoc in E. apply snoc_inj in E as [_ ->].
  rewrite no_char_app in Hn. simpl in Hn. by rewrite Ascii.eqb_refl, andb_false_r in Hn.
Qed.

(** A link with an escaped query is parsed to that query. *)
Lemma Parse_query `{Unicode} q :
  q <> "" -> all_of query_char q = true ->
  exists u, Parse ("qwdtt://config?" ++ q) = Some u /\ RawQuery u = q.
Proof.
  intros Hq Hc. unfold Parse.
  rewrite cut_none by (rewrite no_char_app; simpl; by apply query_char_not).
  unfold parse.
  assert (none_of is_ctl ("qwdtt://config?" ++ q) = true) as ->.
  { rewrite none_of_all, all_of_app. simpl. eapply all_of_impl; [| exact Hc].
    apply all_ascii_impl. vm_compute. done. }
  simpl negb. cbv iota.
  assert (String.eqb ("qwdtt://config?" ++ q) "*" = false) as -> by done.
  assert (getScheme ("qwdtt://config?" ++ q) = Some ("qwdtt", "//config?" ++ q)) as ->.
  { unfold getScheme. simpl. by destruct q. }
  cbn [mbind option_bind]. change (to_lower "qwdtt") with "qwdtt".
  rewrite has_suffix_last by (done || by apply query_char_not). simpl andb. cbv iota.
  change ("//config?" ++ q) with ("//config" ++ String "?" q). rewrite cut_app by done.
  eexists. split; [reflexivity | done].
Qed.

(** *** Keys survive [Set], [Encode] and [Query] *)

Definition with_key (k : string) (v : Values) : Values := filter (fun p => fst p = k) v.

Lemma with_key_app k (v w : Values) : with_key k (v ++ w)%list = (with_key k v ++ with_key k w)%list.
Proof. apply filter_app. Qed.

Lemma with_key_same k v : with_key k [(k, v)] = [(k, v)].
Proof. unfold with_key. by rewrite filter_cons_True. Qed.

Lemma with_key_other k k' v : k <> k' -> with_key k [(k', v)] = [].
Proof. intros Hk. unfold with_key. rewrite filter_cons_False; [done |]. simpl. congruence. Qed.

Lemma Get_set_same k x v : Get k (values_set k x v) = x.
Proof.
  unfold Get, values_set. fold (with_key k (filter (fun p => fst p <> k) v ++ [(k, x)])%list).
  rewrite with_key_app, with_key_same.
  assert (with_key k (filter (fun p => fst p <> k) v) = []) as ->; [| done].
  unfold with_key. rewrite list_filter_filter. apply filter_none. intros p _. tauto.
Qed.

Lemma Get_set_other k k' x v : k <> k' -> Get k (values_set k' x v) = Get k v.
Proof.
  intros Hk. unfold Get, values_set. fold (with_key k (filter (fun p => fst p <> k') v ++ [(k', x)])%list).
  rewrite with_key_app, with_key_other, app_nil_r by done. unfold with_key.
  rewrite list_filter_filter. erewrite (list_filter_iff _ (fun p => fst p = k)); [done |].
  simpl. intros p. split; [tauto |]. intros <-. done.
Qed.

Lemma string_leb_refl s : string_leb s s = true.
Proof. induction s; simpl; [done |]. by rewrite Ascii.eqb_refl, IHs, orb_true_r. Qed.

(** A stable sort by key keeps the values of a key in order. *)
Lemma with_key_sort k v :
  with_key k (sort_stable (fun p q => negb (string_leb (fst q) (fst p))) v) = with_key k v.
Proof.
  set (less := fun p q : string * string => _).
  assert (forall x l, with_key k (insert_sorted less x l) = (with_key k [x] ++ with_key k l)%list) as Hi.
  { intros x l. induction l as [| y l IH]; [by rewrite app_nil_r |]. simpl insert_sorted.
    destruct (less y x) eqn:E; [| apply (with_key_app k [x] (y :: l))].
    change (y :: insert_sorted less x l) with ([y] ++ insert_sorted less x l)%list.
    change (y :: l) with ([y] ++ l)%list. rewrite !with_key_app, IH.
    destruct x as [kx vx], y as [ky vy]. destruct (decide (k = kx)) as [-> | Hx].
    - destruct (decide (kx = ky)) as [-> | Hy].
      + unfold less in E. simpl in E. by rewrite string_leb_refl in E.
      + by rewrite (with_key_other kx ky).
    - by rewrite (with_key_other k kx). }
  induction v as [| x v IH]; [done |]. simpl sort_stable. fold (sort_stable less v).
  rewrite Hi, IH. symmetry. apply (with_key_app k [x] v).
Qed.

(** What a link encodes is what its reader gets. *)
Lemma Get_encoded k v : Get k (parse_query (Encode v)) = Get k v.
Proof.
  unfold Encode. rewrite parse_query_encoded. unfold Get.
  fold (with_key k (sort_stable (fun p q => negb (string_leb (fst q) (fst p))) v)). by rewrite with_key_sort.
Qed.

(** ** The order of strings: [s < t] *)

Definition string_less (s t : string) : bool := negb (string_leb t s).

Lemma code_inj a b : code a = code b -> a = b.
Proof. unfold code. intros E%N2Z.inj. by rewrite <- (ascii_N_embedding a), E, ascii_N_embedding. Qed.

Lemma string_less_cons a s b t :
  string_less (String a s) (String b t) = (code a <? code b) || (Ascii.eqb a b && string_less s t).
Proof.
  unfold string_less. simpl. destruct (Ascii.eqb_spec a b) as [-> |].
  - by rewrite Ascii.eqb_refl, Z.ltb_irrefl.
  - rewrite (proj2 (Ascii.eqb_neq b a)) by done. simpl. rewrite !orb_false_r.
    assert (code a <> code b) by (intros E%code_inj; done).
    destruct (Z.ltb_spec (code b) (code a)), (Z.ltb_spec (code a) (code b)); by try lia.
Qed.

Lemma string_less_order : strict_total string_less (fun _ => True).
Proof.
  split.
  - intros s _. unfold string_less. by rewrite string_leb_refl.
  - intros s t u _ _ _. revert t u. induction s as [| a s IH]; intros [| b t] [| c u]; try done.
    rewrite !string_less_cons. rewrite !orb_true_iff, !andb_true_iff, !Z.ltb_lt, !Ascii.eqb_eq.
    intros [Hab | [-> Hst]] [Hbc | [-> Htu]]; [left; lia | by left | by left | right; split; [done | by eapply IH]].
  - intros s t _ _. revert t. induction s as [| a s IH]; intros [| b t]; try done.
    rewrite !string_less_cons, !orb_false_iff, !Z.ltb_ge. intros [Hab H1] [Hba H2].
    assert (a = b) as -> by (apply code_inj; lia).
    rewrite Ascii.eqb_refl in *. f_equal. by apply IH.
Qed.
