(* ===== verification/Links.v ===== *)
(** * Server links (url_parser.go): wdtt:// and qwdtt://config links and their printing. *)

From S2P Require Import Prelude GoStrings Chars Net Url.
From Stdlib Require Import ZArith Lia String Ascii.
From stdpp Require Import base list strings.
Open Scope string_scope.
Open Scope Z_scope.
Abbreviation join := GoStrings.join.

Record WdttLink := {
  IP : string; DTLSPort : string; Password : string; Hashes : list string; Name : string;
  Workers : Z; Port : string
}.

Definition defaultWorkers : Z := 9.
Definition defaultListenPort : string := "9000".

Inductive workers_error := NotPositive | NotMultiple.

(** [validateWorkers]; [None] is nil. *)
Definition validateWorkers (n : Z) : option workers_error :=
  if n <=? 0 then Some NotPositive
  else if negb (Z.rem n defaultWorkers =? 0) then Some NotMultiple
  else None.

Inductive link_error :=
| TooFewFields | MissingFields | BadURL | NoPeer | NoPass
| WorkersNotNumber (w : string) | WorkersInvalid (e : workers_error) | NoPeerPort | UnknownScheme.

(** The pieces of a comma-separated list, trimmed, without the empty ones. *)
Definition split_hashes (s : string) : list string :=
  filter (fun h => h <> "") (trim_space <$> split_on "," s).

Definition parseWdttURL (raw : string) : result link_error WdttLink :=
  let stripped := trim_prefix "wdtt://" (trim_space raw) in
  let parts := split_on ":" stripped in
  if (length parts <? 5)%nat then Err TooFewFields
  else
    let ip := nth 0 parts "" in
    let dtlsPort := nth 1 parts "" in
    let tail := join ":" (drop 4 parts) in
    let '(name, passwordAndHashes) :=
      match last_index "#" tail with
      | Some i =>
          let candidate := trim_space (sdrop (S i) tail) in
          (if String.eqb candidate "" then "Server" else candidate, stake i tail)
      | None => ("Server", tail)
      end in
    let '(password, hashes) :=
      match last_index ":" passwordAndHashes with
      | Some i => (stake i passwordAndHashes, split_hashes (sdrop (S i) passwordAndHashes))
      | None => (passwordAndHashes, [])
      end in
    if String.eqb ip "" || String.eqb dtlsPort "" || String.eqb password "" then Err MissingFields
    else Ok {| IP := ip; DTLSPort := dtlsPort; Password := password; Hashes := hashes; Name := name;
               Workers := defaultWorkers; Port := defaultListenPort |}.

Section links.
Context `{Unicode}.

Definition peer_parts (peer : string) : string * string :=
  match last_index ":" peer with
  | Some i => (stake i peer, sdrop (S i) peer)
  | None => (peer, "")
  end.

(** The "workers" setting. *)
Definition parse_workers (w : string) : result link_error Z :=
  if String.eqb w "" then Ok defaultWorkers
  else match atoi w with
       | None => Err (WorkersNotNumber w)
       | Some n => match validateWorkers n with Some e => Err (WorkersInvalid e) | None => Ok n end
       end.

Definition parseQwdttConfigURL (raw : string) : result link_error WdttLink :=
  match Parse (trim_space raw) with
  | None => Err BadURL
  | Some u =>
      let q := parse_query (RawQuery u) in
      let name := if String.eqb (trim_space (Get "name" q)) "" then "Server" else Get "name" q in
      let peer := trim_space (Get "peer" q) in
      fail_if String.eqb peer "" with NoPeer ;;
      let '(ip, dtlsPort) := peer_parts peer in
      let password := Get "pass" q in
      fail_if String.eqb (trim_space password) "" with NoPass ;;
      let hashesStr := Get "hashes" q in
      let hashes := if String.eqb hashesStr "" then [] else split_hashes hashesStr in
      workers ← parse_workers (Get "workers" q);
      let port := trim_space (Get "port" q) in
      let port := if String.eqb port "" then defaultListenPort else port in
      fail_if String.eqb ip "" || String.eqb dtlsPort "" with NoPeerPort ;;
      Ok {| IP := ip; DTLSPort := dtlsPort; Password := password; Hashes := hashes; Name := name;
            Workers := workers; Port := port |}
  end.

Definition parseLink (raw : string) : result link_error WdttLink :=
  let trimmed := trim_space raw in
  if has_prefix "wdtt://" trimmed then parseWdttURL trimmed
  else if has_prefix "qwdtt://" trimmed then parseQwdttConfigURL trimmed
  else Err UnknownScheme.

(** The error of [parseLinkWithHint], and whether the hint about the shell is added. *)
Definition parseLinkWithHint (rawURL : string) : result (link_error * bool) WdttLink :=
  match parseLink rawURL with
  | Ok link => Ok link
  | Err e => Err (e, has_prefix "qwdtt://config" rawURL)
  end.

Definition buildQwdttConfigURL (link : WdttLink) : string :=
  let q := values_set "name" (Name link) [] in
  let q := values_set "peer" (IP link ++ ":" ++ DTLSPort link) q in
  let q := values_set "pass" (Password link) q in
  let q := if (0 <? length (Hashes link))%nat then values_set "hashes" (join "," (Hashes link)) q else q in
  let q := if 0 <? Workers link then values_set "workers" (itoa (Workers link)) q else q in
  let q := if negb (String.eqb (Port link) "") then values_set "port" (Port link) q else q in
  "qwdtt://config?" ++ Encode q.
End links.

Example wdtt_link :
  parseWdttURL " wdtt://1.2.3.4:56000:51820:9000:pa:ss:h1, h2,#My : server "
  = Ok {| IP := "1.2.3.4"; DTLSPort := "56000"; Password := "pa:ss"; Hashes := ["h1"; "h2"];
          Name := "My : server"; Workers := 9; Port := "9000" |}.
Proof. reflexivity. Qed.

Example qwdtt_link :
  let U : Unicode := fun s => s in
  parseLink "qwdtt://config?name=%D0%94%D0%BE%D0%BC&peer=1.2.3.4:56000&hashes=a,b&workers=18&pass=s"
  = Ok {| IP := "1.2.3.4"; DTLSPort := "56000"; Password := "s"; Hashes := ["a"; "b"];
          Name := "Дом"; Workers := 18; Port := "9000" |}.
Proof. reflexivity. Qed.

(** An unquoted "&" in a shell leaves a link without its password. *)
Example cut_link_hint :
  let U : Unicode := fun s => s in
  parseLinkWithHint "qwdtt://config?name=x" = Err (NoPeer, true).
Proof. reflexivity. Qed.

(** ** Hash lists *)

#[local] Arguments String.append : simpl nomatch.

(** A hash as the parsers produce it. *)
Definition hash_ok (h : string) : Prop := h <> "" /\ trim_space h = h /\ no_char "," h = true.

Lemma split_hashes_join l : Forall hash_ok l -> l <> [] -> split_hashes (join "," l) = l.
Proof.
  intros Hl Hne. unfold split_hashes. rewrite split_on_join; [| done |].
  - clear Hne. induction Hl as [| h l (H1 & H2 & _) Hl IH]; [done |].
    rewrite fmap_cons, H2, filter_cons_True by done. by rewrite IH.
  - eapply Forall_impl; [exact Hl |]. intros h (_ & _ & Hh). exact Hh.
Qed.

Lemma join_nonempty l : Forall hash_ok l -> l <> [] -> join "," l <> "".
Proof.
  intros Hl Hne E. rewrite <- (split_hashes_join l) in Hne by done. rewrite E in Hne. by apply Hne.
Qed.

Lemma no_char_none_of c s : no_char c s = none_of (fun a => Ascii.eqb a c) s.
Proof. induction s; simpl; congruence. Qed.

Lemma split_hashes_pieces s : Forall (fun h => h <> "" /\ no_char "," h = true) (split_hashes s).
Proof.
  unfold split_hashes. apply Forall_forall. intros h Hh. apply list_elem_of_filter in Hh as [Hne Hh].
  apply list_elem_of_fmap in Hh as (p & -> & Hp). split; [done |].
  pose proof (split_on_pieces "," s) as Hs. rewrite Forall_forall in Hs. apply Hs in Hp.
  rewrite no_char_none_of in *. by apply none_of_trim_space.
Qed.

(** ** The number of workers *)

Lemma validateWorkers_ok n : validateWorkers n = None <-> 0 < n /\ n mod 9 = 0.
Proof.
  unfold validateWorkers, defaultWorkers. split.
  - destruct (n <=? 0) eqn:E; [done |]. propify. destruct (negb _) eqn:E2; [done |]. intros _. propify.
    split; [lia |]. rewrite Z.rem_mod_nonneg in E2 by lia. done.
  - intros [Hn Hm]. rewrite (proj2 (Z.leb_gt n 0)) by lia. rewrite Z.rem_mod_nonneg by lia. by rewrite Hm.
Qed.

Lemma parse_workers_ok w n : parse_workers w = Ok n -> 0 < n /\ n mod 9 = 0.
Proof.
  unfold parse_workers. split_guard; [intros [= <-]; by unfold defaultWorkers |].
  destruct (atoi w) as [m |]; [| done]. destruct (validateWorkers m) eqn:E; [done |].
  intros [= <-]. by apply validateWorkers_ok.
Qed.

(** ** Printing and parsing a link *)

(** What a link must hold to be sent: the peer and the local port are trimmed, the port of the peer
    has no colon, the name and the password are not blank, the number of workers is valid. *)
Record sendable (l : WdttLink) : Prop := {
  send_name : trim_space (Name l) <> "";
  send_ip : IP l <> "";
  send_port : DTLSPort l <> "" /\ no_char ":" (DTLSPort l) = true;
  send_peer : trim_space (IP l ++ ":" ++ DTLSPort l) = IP l ++ ":" ++ DTLSPort l;
  send_password : trim_space (Password l) <> "";
  send_hashes : Forall hash_ok (Hashes l);
  send_workers : 0 < Workers l -> Workers l mod 9 = 0 /\ Workers l <= max_int;
  send_listen : trim_space (Port l) = Port l
}.

(** The link as read: the missing numbers get their defaults. *)
Definition received (l : WdttLink) : WdttLink :=
  {| IP := IP l; DTLSPort := DTLSPort l; Password := Password l; Hashes := Hashes l; Name := Name l;
     Workers := if 0 <? Workers l then Workers l else defaultWorkers;
     Port := if String.eqb (Port l) "" then defaultListenPort else Port l |}.

Lemma peer_parts_app ip port : no_char ":" port = true -> peer_parts (ip ++ ":" ++ port) = (ip, port).
Proof.
  intros Hp. unfold peer_parts. change (":" ++ port) with (String ":" port).
  rewrite last_index_app by done. rewrite stake_app.
  replace (S (String.length ip)) with (String.length ip + 1)%nat by lia. rewrite sdrop_app_more. simpl. by destruct port.
Qed.

(** The settings of a printed link. *)
Definition link_settings (l : WdttLink) : Values :=
  let q := values_set "pass" (Password l) (values_set "peer" (IP l ++ ":" ++ DTLSPort l) (values_set "name" (Name l) [])) in
  let q := if (0 <? length (Hashes l))%nat then values_set "hashes" (join "," (Hashes l)) q else q in
  let q := if 0 <? Workers l then values_set "workers" (itoa (Workers l)) q else q in
  if negb (String.eqb (Port l) "") then values_set "port" (Port l) q else q.

Ltac get_setting :=
  unfold link_settings; cbv zeta; repeat split_guard;
  repeat (rewrite Get_set_same || rewrite Get_set_other by discriminate); try reflexivity.

Lemma get_settings l :
  Get "name" (link_settings l) = Name l /\ Get "peer" (link_settings l) = IP l ++ ":" ++ DTLSPort l /\
  Get "pass" (link_settings l) = Password l /\
  Get "hashes" (link_settings l) = (if (0 <? length (Hashes l))%nat then join "," (Hashes l) else "") /\
  Get "workers" (link_settings l) = (if 0 <? Workers l then itoa (Workers l) else "") /\
  Get "port" (link_settings l) = Port l.
Proof.
  repeat split; get_setting; symmetry; by apply String.eqb_eq.
Qed.

Lemma read_hashes l :
  Forall hash_ok l ->
  (if String.eqb (if (0 <? length l)%nat then join "," l else "") "" then []
   else split_hashes (if (0 <? length l)%nat then join "," l else "")) = l.
Proof.
  intros Hl. destruct l as [| h t]; [done |]. change (0 <? length (h :: t))%nat with true. cbv iota.
  rewrite (proj2 (String.eqb_neq _ _) (join_nonempty _ Hl ltac:(done))). by apply split_hashes_join.
Qed.

Lemma read_workers n :
  (0 < n -> n mod 9 = 0 /\ n <= max_int) ->
  parse_workers (if 0 <? n then itoa n else "") = Ok (if 0 <? n then n else defaultWorkers).
Proof.
  intros Hn. destruct (0 <? n) eqn:E; [| done]. propify. destruct (Hn E) as [Hm Hx].
  unfold parse_workers. assert (itoa n <> "") as Hne.
  { unfold itoa. rewrite (proj2 (Z.ltb_ge n 0)) by lia. apply utoa_spec. lia. }
  rewrite (proj2 (String.eqb_neq _ _) Hne), atoi_itoa by (unfold min_int; lia).
  by rewrite (proj2 (validateWorkers_ok n)).
Qed.

Lemma link_read_back `{Unicode} l : sendable l -> parseLink (buildQwdttConfigURL l) = Ok (received l).
Proof.
  intros [Hname Hip [Hp1 Hp2] Hpeer Hpass Hhashes Hw Hport].
  change (buildQwdttConfigURL l) with ("qwdtt://config?" ++ Encode (link_settings l)).
  destruct (get_settings l) as (G1 & G2 & G3 & G4 & G5 & G6).
  set (q := Encode (link_settings l)) in *.
  assert (q <> "") as Hq.
  { intros E. rewrite <- (Get_encoded "pass") in G3. fold q in G3. rewrite E in G3.
    change (Get "pass" (parse_query "")) with "" in G3. rewrite <- G3 in Hpass. by apply Hpass. }
  assert (trim_space ("qwdtt://config?" ++ q) = "qwdtt://config?" ++ q) as Ht.
  { apply trim_space_visible. rewrite all_of_app. simpl. eapply all_of_impl; [| apply Encode_chars].
    apply all_ascii_impl. vm_compute. done. }
  unfold parseLink. rewrite Ht. change (has_prefix "wdtt://" ("qwdtt://config?" ++ q)) with false.
  change (has_prefix "qwdtt://" ("qwdtt://config?" ++ q)) with true. cbv iota.
  unfold parseQwdttConfigURL. rewrite Ht.
  destruct (Parse_query q Hq (Encode_chars _)) as (u & -> & ->). unfold q. cbv zeta.
  rewrite !Get_encoded, G1, G2, G3, G4, G5, G6, Hpeer, Hport, peer_parts_app by done.
  rewrite (proj2 (String.eqb_neq _ _) Hname), (proj2 (String.eqb_neq _ _) Hpass), (proj2 (String.eqb_neq _ _) Hip),
    (proj2 (String.eqb_neq _ _) Hp1).
  assert (String.eqb (IP l ++ ":" ++ DTLSPort l) "" = false) as -> by (by destruct (IP l)).
  rewrite read_workers by done.
  rewrite read_hashes by done. reflexivity.
Qed.

(** C33: a link printed for an export is read back with the same fields; a missing number of workers
    or local port becomes the default. *)
Theorem link_roundtrip `{Unicode} l : sendable l -> parseLink (buildQwdttConfigURL l) = Ok (received l).
Proof. apply link_read_back. Qed.

Lemma link_roundtrip_witness :
  let U : Unicode := fun s => s in
  let l := {| IP := "1.2.3.4"; DTLSPort := "56000"; Password := " a&b=c"; Hashes := ["h1"; "h2"]; Name := "Дом";
              Workers := 18; Port := "" |} in
  parseLink (buildQwdttConfigURL l) = Ok (received l).
Proof.
  cbv zeta. apply (@link_roundtrip (fun s => s)). constructor; simpl; try done.
  repeat (apply List.Forall_cons; [by split; [| split] |]). constructor.
Defined.

(** A link that is read has a peer with a port, a password, a name and a local port, hashes that
    are not empty and hold no comma, and a number of workers that is a positive multiple of nine. *)
Theorem parsed_link_complete `{Unicode} raw l :
  parseLink raw = Ok l ->
  IP l <> "" /\ DTLSPort l <> "" /\ Password l <> "" /\ Name l <> "" /\ Port l <> "" /\
  (0 < Workers l /\ Workers l mod 9 = 0) /\ Forall (fun h => h <> "" /\ no_char "," h = true) (Hashes l).
Proof.
  unfold parseLink. repeat split_guard; [| | done].
  - unfold parseWdttURL. split_guard; [done |].
    match goal with |- context [match ?x with pair _ _ => _ end] => destruct x as [name rest] eqn:En end.
    assert (name <> "") as Hname.
    { destruct (last_index "#" _) in En; [| by injection En as <- <-]. injection En as <- _.
      match goal with |- context [String.eqb ?x ""] => destruct (String.eqb_spec x "") end; done. }
    match goal with |- context [match ?x with pair _ _ => _ end] => destruct x as [pass hs] eqn:Ep end.
    assert (Forall (fun h => h <> "" /\ no_char "," h = true) hs) as Hh.
    { destruct (last_index ":" rest); injection Ep as _ <-; [apply split_hashes_pieces | constructor]. }
    destruct (_ || _) eqn:E; [done |]. intros [= <-]. apply orb_false_iff in E as [[E1 E2]%orb_false_iff E3].
    simpl. repeat split; try done; by apply String.eqb_neq.
  - unfold parseQwdttConfigURL. destruct (Parse _) as [u |]; [| done]. cbv zeta.
    set (q := parse_query _). unfold guard_err. split_guard; [done |]. destruct (peer_parts _) as [ip port].
    split_guard; [done |]. intros Hb. apply bind_ok in Hb as (w & Hw & Hb). apply parse_workers_ok in Hw.
    destruct (_ || _) eqn:E; [done |]. injection Hb as <-. apply orb_false_iff in E as [E1%String.eqb_neq E2%String.eqb_neq].
    simpl. split; [done |]. split; [done |]. split; [intros E; by rewrite E in * |].
    split; [split_guard; [done | intros E; by rewrite E in *] |]. split; [split_guard; [done | by apply String.eqb_neq] |].
    split; [done |]. split_guard; [constructor | apply split_hashes_pieces].
Qed.

Lemma no_char_join c l : no_char c "," = true -> Forall (fun s => no_char c s = true) l -> no_char c (join "," l) = true.
Proof.
  intros Hc Hl. induction Hl as [| x l Hx Hl IH]; [done |]. destruct l as [| y l]; [done |].
  change (join "," (x :: y :: l)) with (x ++ "," ++ join "," (y :: l)). by rewrite !no_char_app, Hx, Hc, IH.
Qed.

(** A wdtt link "ip:dtls:x:y:password:hashes#name" gives back its parts, the password with any
    colons and hashes signs it holds; the third and fourth field are not used. *)
Theorem wdtt_link_parts `{Unicode} ip dtls f1 f2 password hashes name :
  let s := "wdtt://" ++ ip ++ ":" ++ dtls ++ ":" ++ f1 ++ ":" ++ f2 ++ ":" ++ password ++ ":" ++ join "," hashes ++ "#" ++ name in
  trim_space s = s ->
  Forall (fun f => no_char ":" f = true) [ip; dtls; f1; f2] -> ip <> "" -> dtls <> "" -> password <> "" ->
  Forall hash_ok hashes -> Forall (fun h => no_char ":" h = true /\ no_char "#" h = true) hashes ->
  no_char "#" name = true -> trim_space name = name ->
  parseLink s = Ok {| IP := ip; DTLSPort := dtls; Password := password; Hashes := hashes;
                      Name := if String.eqb name "" then "Server" else name;
                      Workers := defaultWorkers; Port := defaultListenPort |}.
Proof.
  intros s Hs Hf Hip Hd Hp Hh Hh2 Hn Hnt.
  repeat match goal with H : Forall _ (_ :: _) |- _ => apply Forall_cons in H as [? ?] end.
  unfold parseLink. rewrite Hs. change (has_prefix "wdtt://" s) with true. cbv iota.
  unfold parseWdttURL. rewrite Hs.
  assert (trim_prefix "wdtt://" s = ip ++ ":" ++ dtls ++ ":" ++ f1 ++ ":" ++ f2 ++ ":" ++ password ++ ":" ++ join "," hashes ++ "#" ++ name)
    as -> by apply trim_prefix_app.
  set (hs := join "," hashes) in *.
  assert (no_char ":" hs = true /\ no_char "#" hs = true) as [Hc1 Hc2].
  { split; apply no_char_join; try done; (eapply Forall_impl; [exact Hh2 |]); by intros x [? ?]. }
  assert (split_on ":" (ip ++ ":" ++ dtls ++ ":" ++ f1 ++ ":" ++ f2 ++ ":" ++ password ++ ":" ++ hs ++ "#" ++ name) =
          ip :: dtls :: f1 :: f2 :: split_on ":" (password ++ ":" ++ hs ++ "#" ++ name)) as E.
  { change (":" ++ dtls ++ ":" ++ f1 ++ ":" ++ f2 ++ ":" ++ password ++ ":" ++ hs ++ "#" ++ name)
      with (String ":" (dtls ++ String ":" (f1 ++ String ":" (f2 ++ String ":" (password ++ ":" ++ hs ++ "#" ++ name))))).
    by rewrite !split_on_app. }
  rewrite E. set (tail := password ++ ":" ++ hs ++ "#" ++ name).
  assert (exists p0 ps, split_on ":" tail = p0 :: ps) as (p0 & ps & Ep).
  { pose proof (split_on_nonempty ":" tail). destruct (split_on ":" tail) as [| p0 ps]; [done | by exists p0, ps]. }
  rewrite (proj2 (Nat.ltb_ge _ 5)) by (rewrite Ep; simpl; lia).
  cbv zeta. cbn [nth drop]. rewrite drop_0. change (join ":" (split_on ":" tail)) with (join (String ":" "") (split_on ":" tail)).
  rewrite join_split_on.
  assert (tail = (password ++ String ":" hs) ++ String "#" name) as Et.
  { unfold tail. rewrite string_app_assoc. done. }
  rewrite Et, last_index_app by done. rewrite stake_app.
  replace (S (String.length (password ++ String ":" hs))) with (String.length (password ++ String ":" hs) + 1)%nat by lia.
  rewrite sdrop_app_more. change (sdrop 1 (String "#" name)) with (sdrop 0 name). rewrite sdrop_0, Hnt.
  rewrite last_index_app by done. rewrite stake_app.
  replace (S (String.length password)) with (String.length password + 1)%nat by lia.
  rewrite sdrop_app_more. change (sdrop 1 (String ":" hs)) with (sdrop 0 hs). rewrite sdrop_0.
  rewrite (proj2 (String.eqb_neq _ _) Hip), (proj2 (String.eqb_neq _ _) Hd), (proj2 (String.eqb_neq _ _) Hp). simpl orb. cbv iota.
  assert (split_hashes hs = hashes) as ->; [| done].
  unfold hs. destruct hashes as [| h t]; [done |]. by apply split_hashes_join.
Qed.

Lemma wdtt_link_parts_witness :
  let U : Unicode := fun s => s in
  parseLink "wdtt://1.2.3.4:56000:51820:9000:p:a#ss:h1,h2#My : server" =
  Ok {| IP := "1.2.3.4"; DTLSPort := "56000"; Password := "p:a#ss"; Hashes := ["h1"; "h2"]; Name := "My : server";
        Workers := 9; Port := "9000" |}.
Proof.
  cbv zeta.
  apply (@wdtt_link_parts (fun s => s) "1.2.3.4" "56000" "51820" "9000" "p:a#ss" ["h1"; "h2"] "My : server"); try done.
  - repeat (apply List.Forall_cons; [done |]). constructor.
  - repeat (apply List.Forall_cons; [by split; [| split] |]). constructor.
  - repeat (apply List.Forall_cons; [done |]). constructor.
Defined.

Lemma parsed_link_complete_witness :
  let U : Unicode := fun s => s in
  exists l, parseLink "qwdtt://config?peer=1.2.3.4:5&pass=x&hashes=a,%20,b" = Ok l /\
    Workers l = 9 /\ Hashes l = ["a"; "b"] /\ Name l <> "".
Proof.
  cbv zeta.
  destruct (@parseLink (fun s => s) "qwdtt://config?peer=1.2.3.4:5&pass=x&hashes=a,%20,b") as [l | e] eqn:E; [| vm_compute in E; discriminate].
  exists l. pose proof (@parsed_link_complete (fun s => s) _ _ E) as (_ & _ & _ & Hn & _).
  vm_compute in E. injection E as <-. by repeat split.
Defined.
