(* ===== verification/Dns.v ===== *)
(** * The DNS settings of the client (internal/core/doh.go; creds.go, from [goDNSServersForPreset]
    on): which servers or DoH endpoints a setting means, and the connection that carries DNS over
    HTTPS.

    Dialling and the HTTP exchange are arguments. *)

From S2P Require Import Prelude Bytes GoStrings Chars Net Form Ip Url.
From Stdlib Require Import ZArith Lia String Ascii.
From stdpp Require Import base list strings.
Open Scope string_scope.
Open Scope Z_scope.
Abbreviation join := GoStrings.join.

Section settings.
Context `{Unicode}.

(** ** Plain DNS servers *)

Definition goDNSServersForPreset (preset : string) : list string :=
  let p := to_lower (trim_space preset) in
  if String.eqb p "cloudflare" then ["1.1.1.1:53"; "1.0.0.1:53"]
  else if String.eqb p "google" then ["8.8.8.8:53"; "8.8.4.4:53"]
  else ["77.88.8.8:53"; "77.88.8.1:53"].

Definition is_bracket (c : ascii) : bool := Ascii.eqb c "[" || Ascii.eqb c "]".

Definition isLoopbackDNSAddress (address : string) : bool :=
  let host := match SplitHostPort address with Ok (host, _) => host | Err _ => address end in
  let host := trim_set is_bracket host in
  String.eqb host "127.0.0.1" || String.eqb host "::1" || String.eqb host "localhost" || String.eqb host "0.0.0.0".

(** The entries of a "custom:" setting. *)
Definition custom_server (part : string) : list string :=
  let part := trim_space part in
  if String.eqb part "" then []
  else [if contains ":" part then part else part ++ ":53"].

Definition goDNSServersForArg (arg : string) : list string :=
  let arg := trim_space arg in
  if has_prefix "custom:" arg then
    let out := split_on "," (trim_prefix "custom:" arg) ≫= custom_server in
    if (0 <? length out)%nat then out else goDNSServersForPreset "yandex"
  else goDNSServersForPreset arg.

Definition goDNSLabel (arg : string) : string :=
  let arg := trim_space arg in
  if has_prefix "custom:" arg then "Custom DNS"
  else if has_prefix "doh:" arg then "Custom DoH"
  else
    let l := to_lower arg in
    if String.eqb l "cloudflare" then "Cloudflare"
    else if String.eqb l "google" then "Google DNS"
    else if String.eqb l "doh-cloudflare" then "Cloudflare DoH"
    else if String.eqb l "doh-google" then "Google DoH"
    else if String.eqb l "doh-yandex" then "Yandex DoH"
    else "Yandex DNS".

Definition server_label (s : string) : string :=
  match SplitHostPort s with
  | Err _ => s
  | Ok (host, port) => if String.eqb port "53" then host else s
  end.

Definition formatGoDNSServers (servers : list string) : string := join ", " (server_label <$> servers).

(** ** DoH endpoints *)

Definition goDNSIsDoH (arg : string) : bool :=
  let arg := to_lower (trim_space arg) in has_prefix "doh:" arg || has_prefix "doh-" arg.

Definition goDoHEndpointsForPreset (preset : string) : list string :=
  let p := to_lower (trim_space preset) in
  if String.eqb p "doh-cloudflare" then ["https://1.1.1.1/dns-query"; "https://cloudflare-dns.com/dns-query"]
  else if String.eqb p "doh-google" then ["https://8.8.8.8/dns-query"; "https://dns.google/dns-query"]
  else ["https://77.88.8.8/dns-query"; "https://common.dot.dns.yandex.net/dns-query"].

Definition normalizeDoHEndpoint (raw : string) : option string :=
  let raw := trim_space raw in
  if String.eqb raw "" then None
  else if negb (has_prefix "https://" (to_lower raw)) then None
  else
    u ← Parse raw;
    if negb (String.eqb (Scheme u) "https") || String.eqb (Host u) "" then None
    else
      let path := trim_space (Path u) in
      let path := if String.eqb path "" || String.eqb path "/" then "/dns-query" else path in
      Some (url_string
        {| Scheme := Scheme u; Opaque := Opaque u; User := User u; Host := Host u; Path := path;
           RawPath := RawPath u; OmitHost := OmitHost u; ForceQuery := ForceQuery u; RawQuery := "";
           Fragment := ""; RawFragment := RawFragment u |}).

Definition custom_endpoint (part : string) : list string :=
  let part := trim_space part in
  if String.eqb part "" then []
  else match normalizeDoHEndpoint part with Some ep => [ep] | None => [] end.

Definition goDoHEndpointsForArg (arg : string) : list string :=
  let arg := trim_space arg in
  if has_prefix "doh:" arg then
    let out := split_on "," (trim_prefix "doh:" arg) ≫= custom_endpoint in
    if (0 <? length out)%nat then out else goDoHEndpointsForPreset "doh-yandex"
  else
    let normalized := to_lower arg in
    if String.eqb normalized "doh-yandex" || String.eqb normalized "doh-cloudflare" || String.eqb normalized "doh-google"
    then goDoHEndpointsForPreset arg
    else goDoHEndpointsForPreset "doh-yandex".

Definition dohHostHeader (endpoint : string) : string :=
  match Parse endpoint with
  | None => ""
  | Some u =>
      let host := Hostname u in
      match ParseIP host with
      | None => ""
      | Some _ =>
          if String.eqb host "1.1.1.1" || String.eqb host "1.0.0.1" then "cloudflare-dns.com"
          else if String.eqb host "8.8.8.8" || String.eqb host "8.8.4.4" then "dns.google"
          else if String.eqb host "77.88.8.8" || String.eqb host "77.88.8.1" then "common.dot.dns.yandex.net"
          else ""
      end
  end.

Definition dohEndpointLabel (endpoint : string) : string :=
  let h := dohHostHeader endpoint in
  if negb (String.eqb h "") then h
  else match Parse endpoint with
       | None => endpoint
       | Some u =>
           let path := trim_set (fun c => Ascii.eqb c "/") (Path u) in
           if negb (String.eqb path "") && negb (String.eqb path "dns-query") then Hostname u ++ "/" ++ path
           else Hostname u
       end.

(** The loop of [formatDoHEndpoints]: labels already seen are skipped. *)
Fixpoint endpoint_labels (endpoints seen : list string) : list string :=
  match endpoints with
  | [] => []
  | ep :: rest =>
      let label := dohEndpointLabel ep in
      if String.eqb label "" then endpoint_labels rest seen
      else if bool_decide (label ∈ seen) then endpoint_labels rest seen
      else label :: endpoint_labels rest (label :: seen)
  end.

Definition formatDoHEndpoints (endpoints : list string) : string := join ", " (endpoint_labels endpoints []).

(** ** The global resolver *)

Inductive resolver :=
| Plain (servers : list string)
| DoH (endpoints : list string).

Definition setupGlobalResolver (arg : string) : resolver :=
  let arg := trim_space arg in
  let original := arg in
  let arg := if String.eqb arg "" then "yandex" else arg in
  if goDNSIsDoH arg then DoH (goDoHEndpointsForArg arg)
  else
    let isCustom := has_prefix "custom:" arg in
    let normalized := to_lower arg in
    let known := String.eqb normalized "yandex" || String.eqb normalized "cloudflare" || String.eqb normalized "google" in
    let arg := if negb known && negb isCustom && negb (String.eqb original "") then "yandex" else arg in
    Plain (goDNSServersForArg arg).
End settings.

Definition resolver_servers (r : resolver) : list string := match r with Plain l => l | DoH l => l end.

(** ** Dialling a plain server *)

(** The dials tried in order, as pairs of a network and an address. *)
Section dial.
Context {conn err : Type} (dialer : string -> string -> result err conn).

Fixpoint dial_servers (servers : list string) (lastErr : option err) : conn + option err :=
  match servers with
  | [] => inr lastErr
  | dns :: rest =>
      match dialer "udp" dns with
      | Ok c => inl c
      | Err _ =>
          match dialer "tcp" dns with
          | Ok c => inl c
          | Err e => dial_servers rest (Some e)
          end
      end
  end.

Definition resolver_dial (servers : list string) (network address : string) : conn + option err :=
  match dial_servers servers None with
  | inl c => inl c
  | inr lastErr =>
      if negb (String.eqb address "") && negb (isLoopbackDNSAddress address) then
        match dialer network address with
        | Ok c => inl c
        | Err e => inr (Some e)
        end
      else inr lastErr
  end.
End dial.

(** ** DNS over HTTPS as a connection *)

Definition stripDNSWireFrame (payload : list Z) : list Z :=
  if (length payload <? 4)%nat then payload
  else
    let ln := Z.lor (Z.shiftl (byte_at payload 0) 8) (byte_at payload 1) in
    if (0 <? ln) && (ln + 2 =? Z.of_nat (length payload)) then drop 2 payload else payload.

Definition frameDNSForTCP (payload : list Z) : list Z :=
  let n := Z.of_nat (length payload) in u8 (Z.shiftr n 8) :: u8 n :: payload.

Section doh.
Context `{Unicode} {E : Type}.

Inductive doh_error :=
| ErrClosed | ReadBeforeWrite | EOF | NoEndpoints | BadStatus (code : Z) | ShortResponse | HttpError (e : E).

(** The HTTP client: for the endpoint, the Host header ("" for the endpoint's own) and the query,
    the status and what reading the body gives. *)
Definition http_client := string -> string -> list Z -> result E (Z * result E (list Z)).

Record dohConn := { endpoints : list string; response : list Z; readPos : nat; closed : bool }.

Definition newDohConn (eps : list string) : dohConn :=
  {| endpoints := eps; response := []; readPos := 0; closed := false |}.

Definition Read (c : dohConn) (cap : nat) : dohConn * result doh_error (list Z) :=
  if closed c then (c, Err ErrClosed)
  else if (length (response c) =? 0)%nat then (c, Err ReadBeforeWrite)
  else if (length (response c) <=? readPos c)%nat then (c, Err EOF)
  else
    let bytes := take cap (drop (readPos c) (response c)) in
    ({| endpoints := endpoints c; response := response c; readPos := readPos c + length bytes; closed := closed c |},
     Ok bytes).

Definition exchange (client : http_client) (endpoint : string) (query : list Z) : result doh_error (list Z) :=
  match client endpoint (dohHostHeader endpoint) query with
  | Err e => Err (HttpError e)
  | Ok (status, body) =>
      if (status <? 200) || (300 <=? status) then Err (BadStatus status)
      else match body with
           | Err e => Err (HttpError e)
           | Ok b =>
               let b := take (Z.to_nat 65535) b in
               if (length b <? 12)%nat then Err ShortResponse else Ok b
           end
  end.

(** The loop of [Write]. *)
Fixpoint try_endpoints (client : http_client) (eps : list string) (query : list Z) (lastErr : doh_error) :
    result doh_error (list Z) :=
  match eps with
  | [] => Err lastErr
  | ep :: rest =>
      match exchange client ep query with
      | Ok body => Ok body
      | Err e => try_endpoints client rest query e
      end
  end.

Definition Write (client : http_client) (c : dohConn) (b : list Z) : dohConn * result doh_error nat :=
  if closed c then (c, Err ErrClosed)
  else
    match try_endpoints client (endpoints c) (stripDNSWireFrame b) NoEndpoints with
    | Ok body =>
        ({| endpoints := endpoints c; response := frameDNSForTCP body; readPos := 0; closed := closed c |},
         Ok (length b))
    | Err e => (c, Err e)
    end.

Definition Close (c : dohConn) : dohConn :=
  {| endpoints := endpoints c; response := []; readPos := 0; closed := true |}.

(** The dial function of [setupDoHResolver]. *)
Definition doh_dial (eps : list string) : result unit dohConn :=
  match eps with [] => Err tt | _ => Ok (newDohConn eps) end.

(** Successive reads with buffers of the given sizes: the bytes that arrive. *)
Fixpoint reads (c : dohConn) (caps : list nat) : dohConn * list Z :=
  match caps with
  | [] => (c, [])
  | cap :: rest =>
      let '(c', r) := Read c cap in
      let '(c'', bytes) := reads c' rest in
      (c'', ((match r with Ok b => b | Err _ => [] end) ++ bytes)%list)
  end.

(** ** Framing *)

Lemma frame_length payload :
  Z.of_nat (length payload) < 65536 -> be_get (take 2 (frameDNSForTCP payload)) = Z.of_nat (length payload).
Proof.
  intros Hl. unfold frameDNSForTCP. cbv zeta. simpl take. rewrite !be_get_cons. simpl length. rewrite Z.shiftr_div_pow2 by lia.
  unfold u8. change (2 ^ 8) with 256. change (256 ^ Z.of_nat 1) with 256. change (256 ^ Z.of_nat 0) with 1.
  rewrite take_0. change (be_get []) with 0. rewrite (Z.mod_small (_ / 256)) by (split; [apply Z.div_pos; lia | apply Z.div_lt_upper_bound; lia]).
  pose proof (Z.div_mod (Z.of_nat (length payload)) 256 ltac:(lia)). lia.
Qed.

Lemma strip_frame q : 2 <= Z.of_nat (length q) < 65536 -> stripDNSWireFrame (frameDNSForTCP q) = q.
Proof.
  intros Hq. pose proof (frame_length q ltac:(lia)) as Hf. unfold frameDNSForTCP in *. cbv zeta in *. simpl take in Hf.
  rewrite !be_get_cons in Hf. simpl length in Hf. change (256 ^ Z.of_nat 1) with 256 in Hf.
  rewrite take_0 in Hf. change (256 ^ Z.of_nat 0) with 1 in Hf. change (be_get []) with 0 in Hf.
  set (hi := u8 (Z.shiftr _ 8)) in *. set (lo := u8 (Z.of_nat _)) in *.
  assert (0 <= lo < 256) by apply u8_bound.
  unfold stripDNSWireFrame, byte_at. simpl nth. rewrite (proj2 (Nat.ltb_ge _ _)) by (simpl; lia).
  rewrite Z.shiftl_mul_pow2, (lor_high_low _ _ 8) by first [lia | done | apply Z.mod_mul; lia].
  change (2 ^ 8) with 256. simpl length. rewrite (proj2 (Z.ltb_lt _ _)), (proj2 (Z.eqb_eq _ _)) by lia. done.
Qed.
End doh.

Section doh_facts.
Context `{Unicode} {E : Type}.
Implicit Types (c : dohConn) (client : @http_client E).

(** Reads of an answered connection hand out the response from the place reached. *)
Lemma reads_response (c : dohConn) caps :
  closed c = false -> response c <> [] -> (readPos c <= length (response c))%nat ->
  let '(c', bytes) := reads (E := E) c caps in
  bytes = take (sum_list caps) (drop (readPos c) (response c)) /\
  closed c' = false /\ response c' = response c /\
  readPos c' = ((readPos c + sum_list caps) `min` length (response c))%nat.
Proof.
  revert c. induction caps as [| cap caps IH]; intros c Hc Hr Hp; simpl.
  - rewrite take_0. repeat split; [done | lia].
  - assert (0 < length (response c))%nat as Hl by (destruct (response c); [done | simpl; lia]).
    unfold Read. rewrite Hc, (proj2 (Nat.eqb_neq _ _)) by lia. destruct (length (response c) <=? readPos c)%nat eqn:Ee; propify.
    + specialize (IH c Hc Hr Hp). destruct (reads c caps) as [c' bytes]. destruct IH as (-> & H1 & H2 & H3). simpl.
      rewrite !drop_ge, !take_nil by lia. repeat split; [done .. |]. rewrite H3. lia.
    + set (got := take cap (drop (readPos c) (response c))).
      assert (length got = (cap `min` (length (response c) - readPos c))%nat) as Hg by (unfold got; rewrite length_take, length_drop; lia).
      specialize (IH {| endpoints := endpoints c; response := response c; readPos := readPos c + length got; closed := false |}
                    eq_refl Hr ltac:(simpl; lia)).
      destruct (reads _ caps) as [c' bytes]. simpl in IH. destruct IH as (-> & H1 & H2 & H3).
      repeat split; [| done | done | rewrite H3; lia].
      rewrite <- drop_drop, Hg. unfold got.
      destruct (decide (cap <= length (response c) - readPos c)%nat).
      * rewrite Nat.min_l by lia. symmetry. rewrite <- (take_drop cap (drop (readPos c) (response c))) at 1.
        rewrite take_app_add'; [done |]. rewrite length_take, length_drop. lia.
      * rewrite Nat.min_r by lia. rewrite (drop_ge (drop _ _)) by (rewrite length_drop; lia).
        rewrite take_nil, app_nil_r. rewrite !take_ge by (rewrite length_drop; lia). done.
Qed.

Lemma try_endpoints_first client pre ep post query e body :
  Forall (fun p => is_ok (exchange client p query) = false) pre -> exchange client ep query = Ok body ->
  try_endpoints client (pre ++ ep :: post)%list query e = Ok body.
Proof.
  intros Hp He. revert e. induction Hp as [| p pre Hf Hp IH]; intros e; simpl; [by rewrite He |].
  destruct (exchange client p query); [done | apply IH].
Qed.

Lemma exchange_body client ep query body :
  exchange client ep query = Ok body -> 12 <= Z.of_nat (length body) <= 65535.
Proof.
  unfold exchange. destruct (client _ _ _) as [[status [b | e]] | e]; [| by destruct (_ || _) | done].
  destruct (_ || _); [done |]. destruct (length (take (Z.to_nat 65535) b) <? 12)%nat eqn:El; [done |]. intros [= <-].
  apply Nat.ltb_ge in El. rewrite length_take in *. lia.
Qed.
End doh_facts.

(** A DNS query written in its TCP frame goes, without the frame, to the endpoints in order up to
    the first that answers; the answer is then read back framed, once, in pieces of any size,
    followed by the end of the stream. *)
Theorem doh_answer_delivered `{Unicode} {E} (client : @http_client E) (c : dohConn) pre ep post q body :
  closed c = false -> endpoints c = (pre ++ ep :: post)%list -> 2 <= Z.of_nat (length q) < 65536 ->
  Forall (fun p => is_ok (exchange client p q) = false) pre -> exchange client ep q = Ok body ->
  exists c', Write client c (frameDNSForTCP q) = (c', Ok (2 + length q)%nat) /\
    (forall caps, snd (reads (E := E) c' caps) = take (sum_list caps) (frameDNSForTCP body)) /\
    (forall caps cap, (2 + length body <= sum_list caps)%nat ->
       snd (Read (fst (reads (E := E) c' caps)) cap) = Err (@EOF E)) /\
    be_get (take 2 (frameDNSForTCP body)) = Z.of_nat (length body) /\ drop 2 (frameDNSForTCP body) = body.
Proof.
  intros Hc He Hq Hpre Hok. pose proof (exchange_body _ _ _ _ Hok) as Hb. unfold Write.
  rewrite Hc, He, strip_frame, (try_endpoints_first client pre ep post q NoEndpoints body) by done.
  set (c' := {| endpoints := _; response := _; readPos := _; closed := _ |}). exists c'. split; [done |].
  pose proof (fun caps => reads_response (E := E) c' caps eq_refl ltac:(done) ltac:(simpl; lia)) as Hr.
  split; [| split; [| split; [by apply frame_length; lia | done]]].
  - intros caps. specialize (Hr caps). destruct (reads c' caps). by destruct Hr as (-> & _).
  - intros caps cap Hs. specialize (Hr caps). destruct (reads c' caps) as [c2 bytes]. destruct Hr as (_ & H1 & H2 & H3).
    simpl fst.
    assert (length (response c') = (2 + length body)%nat) as L by done. unfold Read. rewrite H1, H2, H3, L.
    rewrite (proj2 (Nat.eqb_neq _ _)), (proj2 (Nat.leb_le _ _)) by lia. done.
Qed.

Lemma doh_answer_delivered_witness :
  let U : Unicode := fun s => s in
  let client : @http_client unit := fun ep host q =>
    if String.eqb ep "https://b/dns-query" then Ok (200, Ok (replicate 12 7)) else Err tt in
  let c := newDohConn ["https://1.1.1.1/dns-query"; "https://b/dns-query"] in
  exists c', Write client c (frameDNSForTCP (replicate 12 1)) = (c', Ok 14%nat) /\
    snd (reads (E := unit) c' [2%nat; 5%nat; 9%nat]) = 0 :: 12 :: replicate 12 7.
Proof.
  cbv zeta.
  set (client := fun ep host q => if String.eqb ep "https://b/dns-query" then _ else _).
  destruct (@doh_answer_delivered (fun s => s) unit client
    (newDohConn ["https://1.1.1.1/dns-query"; "https://b/dns-query"]) ["https://1.1.1.1/dns-query"]
    "https://b/dns-query" [] (replicate 12 1) (replicate 12 7)) as (c' & Hw & Hr & _).
  - done.
  - done.
  - simpl. lia.
  - by constructor.
  - reflexivity.
  - exists c'. split; [exact Hw |]. apply (Hr [2%nat; 5%nat; 9%nat]).
Defined.

(** An unanswered query leaves the connection as it was and reports the last endpoint's error. *)
Lemma doh_all_fail `{Unicode} {E} (client : @http_client E) (c : dohConn) b :
  closed c = false -> Forall (fun p => is_ok (exchange client p (stripDNSWireFrame b)) = false) (endpoints c) ->
  exists e, Write client c b = (c, Err e) /\ (endpoints c = [] -> e = NoEndpoints) /\
    forall init ep, endpoints c = (init ++ [ep])%list -> exchange client ep (stripDNSWireFrame b) = Err e.
Proof.
  intros Hc Hf. unfold Write. rewrite Hc. set (q := stripDNSWireFrame b) in *.
  assert (exists e, try_endpoints client (endpoints c) q NoEndpoints = Err e /\ (endpoints c = [] -> e = NoEndpoints) /\
    forall init ep, endpoints c = (init ++ [ep])%list -> exchange client ep q = Err e) as (e & -> & H1 & H2); [| by exists e].
  generalize (@NoEndpoints E) as e0. induction Hf as [| p eps Hp Hf IH]; intros e0.
  - exists e0. split; [done |]. split; [done |]. intros init ep Hi. by destruct init.
  - simpl. destruct (exchange client p q) as [? | e1] eqn:Ee; [done |]. destruct (IH e1) as (e & Ht & Hn & Hl).
    exists e. split; [done |]. split; [done |]. intros [| x init] ep Hi; simpl in Hi.
    + injection Hi as -> ->. by rewrite (Hn eq_refl).
    + injection Hi as -> Hi. by apply (Hl init).
Qed.

(** ** Settings *)

#[local] Arguments String.append : simpl nomatch.

Definition yandex_doh : list string := ["https://77.88.8.8/dns-query"; "https://common.dot.dns.yandex.net/dns-query"].

(** The characters of a host name and of a path. *)
Definition name_char (c : ascii) : bool := is_alnum c || one_of "-." c.
Definition path_char (c : ascii) : bool := is_alnum c || one_of "-._~/" c.

Lemma unescape_plain mode p s :
  (forall c, p c = true -> Ascii.eqb c "%" = false /\ Ascii.eqb c "+" = false /\ shouldEscape c mode = false) ->
  all_of p s = true -> unescape mode s = Some s.
Proof.
  intros Hp. induction s as [| c s IH]; [done |]. intros Hs. simpl in Hs. propify. destruct (Hp c H) as (H1 & H2 & H3).
  cbn [unescape]. rewrite H1, H2, H3, !andb_false_r, andb_false_l. by rewrite IH.
Qed.

Lemma escape_plain mode p s :
  (forall c, p c = true -> Ascii.eqb c " " = false /\ shouldEscape c mode = false) ->
  all_of p s = true -> escape mode s = s.
Proof.
  intros Hp. induction s as [| c s IH]; [done |]. intros Hs. simpl in Hs. propify. destruct (Hp c H) as (H1 & H2).
  cbn [escape]. unfold escape_byte. rewrite H1, H2, andb_false_l. simpl. by rewrite IH.
Qed.

Ltac by_cases_on_chars :=
  match goal with
  | |- forall c, ?p c = true -> @?q c = true => apply (all_ascii_impl p q); vm_compute; reflexivity
  end.

Definition plain_char (mode : encoding) (c : ascii) : bool :=
  negb (Ascii.eqb c "%") && negb (Ascii.eqb c "+") && negb (Ascii.eqb c " ") && negb (shouldEscape c mode).

Lemma name_plain : forall c, name_char c = true -> plain_char encodeHost c = true.
Proof. by_cases_on_chars. Qed.

Lemma path_plain : forall c, path_char c = true -> plain_char encodePath c = true.
Proof. by_cases_on_chars. Qed.

Lemma plain_texts mode p s :
  (forall c, p c = true -> plain_char mode c = true) -> all_of p s = true ->
  unescape mode s = Some s /\ escape mode s = s.
Proof.
  intros Hp Hs. split; [eapply unescape_plain; [| exact Hs] | eapply escape_plain; [| exact Hs]];
    intros c Hc; apply Hp in Hc; unfold plain_char in Hc; propify; done.
Qed.

Lemma host_path_split host path :
  all_of name_char host = true -> (path = "" \/ has_prefix "/" path = true) ->
  match index_char "/" (host ++ path) with
  | Some i => (stake i (host ++ path), sdrop i (host ++ path))
  | None => (host ++ path, "")
  end = (host, path).
Proof.
  intros Hh [-> | Hs].
  - rewrite string_app_nil_r, index_char_none; [done |]. by apply (all_of_no_char name_char).
  - apply has_prefix_spec in Hs as [p ->]. change ("/" ++ p) with (String "/" p).
    rewrite index_char_app by (by apply (all_of_no_char name_char)). by rewrite stake_app, sdrop_app.
Qed.

Lemma host_authority host : all_of name_char host = true -> parseAuthority host = Some (None, host).
Proof.
  intros Hh. unfold parseAuthority. rewrite last_index_none by (by apply (all_of_no_char name_char)).
  unfold parseHost. rewrite last_index_none, index_char_none by (by apply (all_of_no_char name_char)).
  by destruct (plain_texts encodeHost name_char host name_plain Hh) as [-> _].
Qed.

(** The URL of a host name and an absolute path. *)
Lemma Parse_https `{Unicode} host path :
  host <> "" -> all_of name_char host = true -> all_of path_char path = true -> (path = "" \/ has_prefix "/" path = true) ->
  Parse ("https://" ++ host ++ path) =
  Some {| Scheme := "https"; Opaque := ""; User := None; Host := host; Path := path; RawPath := ""; OmitHost := false;
          ForceQuery := false; RawQuery := ""; Fragment := ""; RawFragment := "" |}.
Proof.
  intros Hne Hh Hp Hs.
  assert (forall c, name_char c = false -> path_char c = false -> no_char c (host ++ path) = true) as Hno.
  { intros c H1 H2. rewrite no_char_app. by rewrite (all_of_no_char _ _ _ Hh), (all_of_no_char _ _ _ Hp). }
  unfold Parse. rewrite cut_none by (rewrite no_char_app; simpl; by apply Hno).
  unfold parse.
  assert (none_of is_ctl ("https://" ++ host ++ path) = true) as ->.
  { rewrite none_of_all, !all_of_app. simpl.
    rewrite (all_of_impl name_char), (all_of_impl path_char); [done | by_cases_on_chars | done | by_cases_on_chars | done]. }
  simpl negb. cbv iota. change (String.eqb ("https://" ++ host ++ path) "*") with false. cbv iota.
  assert (getScheme ("https://" ++ host ++ path) = Some ("https", "//" ++ host ++ path)) as ->.
  { unfold getScheme. simpl. by destruct (host ++ path). }
  cbn [mbind option_bind]. change (to_lower "https") with "https".
  rewrite count_char_none by (rewrite no_char_app; simpl; by apply Hno). rewrite andb_false_r.
  rewrite cut_none by (rewrite no_char_app; simpl; by apply Hno).
  unfold parse_rest. cbv zeta.
  change (has_prefix "/" ("//" ++ host ++ path)) with true. change (has_prefix "//" ("//" ++ host ++ path)) with true.
  change (sdrop 2 ("//" ++ host ++ path)) with (sdrop 0 (host ++ path)). rewrite sdrop_0.
  simpl negb. simpl andb. cbv iota. rewrite host_path_split by done. rewrite host_authority by done.
  cbn [mbind option_bind]. unfold set_escaped. destruct (plain_texts encodePath path_char path path_plain Hp) as [Hu He].
  rewrite Hu. cbn [mbind option_bind]. change (String.eqb "" "") with true. cbv iota. by rewrite He, String.eqb_refl.
Qed.

Lemma url_string_https host path :
  host <> "" -> all_of name_char host = true -> all_of path_char path = true -> has_prefix "/" path = true ->
  url_string {| Scheme := "https"; Opaque := ""; User := None; Host := host; Path := path; RawPath := ""; OmitHost := false;
                ForceQuery := false; RawQuery := ""; Fragment := ""; RawFragment := "" |} = "https://" ++ host ++ path.
Proof.
  intros Hne Hh Hp Hs. unfold url_string, escaped. cbn -[escape String.append has_prefix].
  destruct (plain_texts encodeHost name_char host name_plain Hh) as [_ ->].
  change (bool_decide (encodePath = encodePath)) with true.
  assert ((if String.eqb path "*" && true then "*" else escape encodePath path) = path) as ->.
  { destruct (plain_texts encodePath path_char path path_plain Hp) as [_ ->].
    destruct (String.eqb_spec path "*"); by subst. }
  rewrite Hs, (proj2 (String.eqb_neq _ _) Hne). simpl. by rewrite andb_false_r, string_app_nil_r.
Qed.

(** A DoH endpoint written in lower case with a plain host and path is taken as it is, with the
    usual path when it has none. *)
Lemma normalize_plain `{Unicode} host path :
  host <> "" -> all_of name_char host = true -> all_of path_char path = true -> (path = "" \/ has_prefix "/" path = true) ->
  normalizeDoHEndpoint ("https://" ++ host ++ path) =
  Some ("https://" ++ host ++ (if String.eqb path "" || String.eqb path "/" then "/dns-query" else path)).
Proof.
  intros Hne Hh Hp Hs. unfold normalizeDoHEndpoint.
  assert (all_of visible ("https://" ++ host ++ path) = true) as Hv.
  { rewrite !all_of_app. simpl.
    rewrite (all_of_impl name_char), (all_of_impl path_char); [done | by_cases_on_chars | done | by_cases_on_chars | done]. }
  rewrite trim_space_visible by done. change (String.eqb ("https://" ++ host ++ path) "") with false. cbv iota.
  unfold to_lower at 1. rewrite visible_ascii by done.
  change (has_prefix "https://" (map_string lower_ascii ("https://" ++ host ++ path))) with true. simpl negb. cbv iota.
  rewrite Parse_https by done. cbn [mbind option_bind Scheme Host Path]. rewrite (proj2 (String.eqb_neq _ _) Hne).
  simpl orb. cbv iota zeta.
  rewrite (trim_space_visible path) by (eapply all_of_impl; [| exact Hp]; by_cases_on_chars).
  f_equal. apply url_string_https; [done | done | |]; destruct (String.eqb_spec path ""), (String.eqb_spec path "/"); try done.
  by destruct Hs.
Qed.

Lemma bind_singletons {A B} (f : A -> list B) g l :
  (forall x, x ∈ l -> f x = [g x]) -> l ≫= f = g <$> l.
Proof.
  induction l as [| x l IH]; intros Hf; [done |]. rewrite bind_cons, fmap_cons, (Hf x) by (by left).
  rewrite IH; [done |]. intros y Hy. apply Hf. by right.
Qed.

Lemma join_visible l : Forall (fun s => all_of visible s = true) l -> all_of visible (join "," l) = true.
Proof. by apply join_chars. Qed.

(** The entries of a list setting after its prefix. *)
Lemma setting_entries `{Unicode} prefix l :
  all_of visible prefix = true -> l <> [] -> Forall (fun s => all_of visible s = true /\ no_char "," s = true) l ->
  trim_space (prefix ++ join "," l) = prefix ++ join "," l /\
  split_on "," (trim_prefix prefix (prefix ++ join "," l)) = l.
Proof.
  intros Hp Hne Hl. split.
  - apply trim_space_visible. rewrite all_of_app, Hp. apply join_visible. eapply Forall_impl; [exact Hl |]. by intros s [? _].
  - rewrite trim_prefix_app. apply split_on_join; [done |]. eapply Forall_impl; [exact Hl |]. by intros s [_ ?].
Qed.

Lemma nonempty_length {A} (l : list A) : l <> [] -> (0 <? length l)%nat = true.
Proof. by destruct l. Qed.

(** A plain entry of a "custom:" or "doh:" setting. *)
Definition server_entry (s : string) : Prop := s <> "" /\ all_of visible s = true /\ no_char "," s = true.

Record endpoint_entry := { ep_host : string; ep_path : string }.
Definition endpoint_ok (e : endpoint_entry) : Prop :=
  ep_host e <> "" /\ all_of name_char (ep_host e) = true /\ all_of path_char (ep_path e) = true /\
  (ep_path e = "" \/ has_prefix "/" (ep_path e) = true).
Definition endpoint_text (e : endpoint_entry) : string := "https://" ++ ep_host e ++ ep_path e.
Definition endpoint_url (e : endpoint_entry) : string :=
  "https://" ++ ep_host e ++ (if String.eqb (ep_path e) "" || String.eqb (ep_path e) "/" then "/dns-query" else ep_path e).

Lemma endpoint_text_chars e : endpoint_ok e -> all_of visible (endpoint_text e) = true /\ no_char "," (endpoint_text e) = true.
Proof.
  intros (_ & Hh & Hp & _). unfold endpoint_text. split.
  - rewrite !all_of_app. simpl.
    rewrite (all_of_impl name_char), (all_of_impl path_char); [done | by_cases_on_chars | done | by_cases_on_chars | done].
  - rewrite !no_char_app. by rewrite (all_of_no_char _ _ _ Hh), (all_of_no_char _ _ _ Hp).
Qed.

Lemma presets_nonempty `{Unicode} p : goDNSServersForPreset p <> [] /\ goDoHEndpointsForPreset p <> [].
Proof. unfold goDNSServersForPreset, goDoHEndpointsForPreset. split; repeat split_guard; done. Qed.

Lemma fallback_nonempty {A} (l d : list A) : d <> [] -> (if (0 <? length l)%nat then l else d) <> [].
Proof. intros Hd. by destruct l. Qed.

Lemma arg_servers_nonempty `{Unicode} arg : goDNSServersForArg arg <> [] /\ goDoHEndpointsForArg arg <> [].
Proof.
  unfold goDNSServersForArg, goDoHEndpointsForArg. cbv zeta. split.
  - destruct (has_prefix _ _); [apply fallback_nonempty |]; apply presets_nonempty.
  - destruct (has_prefix _ _); [apply fallback_nonempty | destruct (_ || _)]; apply presets_nonempty.
Qed.

(** Every DNS setting yields servers to ask.  A "custom:" list is taken entry by entry, port 53
    being added where an entry has no colon, and a "doh:" list of plain https URLs is taken in order,
    "/dns-query" being added where a URL has no path. *)
Theorem resolver_settings `{Unicode} :
  (forall arg, resolver_servers (setupGlobalResolver arg) <> []) /\
  (forall l, l <> [] -> Forall server_entry l ->
     setupGlobalResolver ("custom:" ++ join "," l) = Plain ((fun s => if contains ":" s then s else s ++ ":53") <$> l)) /\
  (forall l, l <> [] -> Forall endpoint_ok l ->
     setupGlobalResolver ("doh:" ++ join "," (endpoint_text <$> l)) = DoH (endpoint_url <$> l)).
Proof.
  split; [| split].
  - intros arg. unfold setupGlobalResolver. cbv zeta. split_guard; apply arg_servers_nonempty.
  - intros l Hne Hl.
    destruct (setting_entries "custom:" l) as [Ht Hs]; [done | done | |].
    { eapply Forall_impl; [exact Hl |]. by intros s (_ & ? & ?). }
    unfold setupGlobalResolver. rewrite Ht. change (String.eqb ("custom:" ++ join "," l) "") with false. cbv zeta iota.
    assert (goDNSIsDoH ("custom:" ++ join "," l) = false) as ->.
    { unfold goDNSIsDoH. rewrite Ht. unfold to_lower. rewrite visible_ascii; [done |].
      rewrite all_of_app. apply join_visible. eapply Forall_impl; [exact Hl |]. by intros s (_ & ? & _). }
    change (has_prefix "custom:" ("custom:" ++ join "," l)) with true. simpl negb. rewrite andb_false_r, andb_false_l. cbv iota.
    unfold goDNSServersForArg. rewrite Ht. change (has_prefix "custom:" ("custom:" ++ join "," l)) with true. cbv iota zeta.
    rewrite Hs, (bind_singletons custom_server (fun s => if contains ":" s then s else s ++ ":53")).
    + rewrite nonempty_length; [done |]. by destruct l.
    + intros s Hin. rewrite Forall_forall in Hl. destruct (Hl s Hin) as (Hn & Hv & _). unfold custom_server.
      by rewrite trim_space_visible, (proj2 (String.eqb_neq _ _) Hn).
  - intros l Hne Hl.
    destruct (setting_entries "doh:" (endpoint_text <$> l)) as [Ht Hs]; [done | by destruct l | |].
    { apply Forall_fmap. eapply Forall_impl; [exact Hl |]. apply endpoint_text_chars. }
    set (text := "doh:" ++ join "," (endpoint_text <$> l)) in *.
    unfold setupGlobalResolver. rewrite Ht. change (String.eqb text "") with false. cbv zeta iota.
    assert (goDNSIsDoH text = true) as ->.
    { unfold goDNSIsDoH. rewrite Ht. unfold to_lower. rewrite visible_ascii; [done |]. unfold text.
      rewrite all_of_app. apply join_visible, Forall_fmap. eapply Forall_impl; [exact Hl |].
      intros e He. by destruct (endpoint_text_chars e He). }
    cbv iota. unfold goDoHEndpointsForArg. rewrite Ht. change (has_prefix "doh:" text) with true. cbv iota zeta.
    rewrite Hs, list_fmap_bind, (bind_singletons _ endpoint_url).
    + rewrite nonempty_length; [done |]. by destruct l.
    + intros e Hin. rewrite Forall_forall in Hl. destruct (endpoint_text_chars e (Hl e Hin)) as [Hv _].
      destruct (Hl e Hin) as (Hn & Hh & Hp & Hs').
      unfold compose, custom_endpoint. rewrite (trim_space_visible _ Hv).
      change (String.eqb (endpoint_text e) "") with false. cbv iota. unfold endpoint_text. by rewrite normalize_plain.
Qed.

Lemma resolver_settings_witness :
  let U : Unicode := fun s => s in
  setupGlobalResolver "custom:9.9.9.9,1.1.1.1:5353" = Plain ["9.9.9.9:53"; "1.1.1.1:5353"] /\
  setupGlobalResolver "doh:https://dns.quad9.net,https://1.1.1.1/q" = DoH ["https://dns.quad9.net/dns-query"; "https://1.1.1.1/q"].
Proof.
  cbv zeta. destruct (@resolver_settings (fun s => s)) as (_ & Hc & Hd). split.
  - apply (Hc ["9.9.9.9"; "1.1.1.1:5353"]); [done |].
    repeat (apply List.Forall_cons; [by split; [| split] |]). constructor.
  - apply (Hd [{| ep_host := "dns.quad9.net"; ep_path := "" |}; {| ep_host := "1.1.1.1"; ep_path := "/q" |}]); [done |].
    apply List.Forall_cons; [split; [done | split; [done | split; [done | by left]]] |].
    apply List.Forall_cons; [split; [done | split; [done | split; [done | by right]]] |]. constructor.
Defined.

(** A DoH list whose prefix "doh:" is not written in lower case is dropped: the setting is taken
    for DoH, but the default endpoints are used whatever the list names. *)
Theorem doh_prefix_case `{Unicode} arg :
  has_prefix "doh:" (to_lower (trim_space arg)) = true -> has_prefix "doh:" (trim_space arg) = false ->
  goDNSIsDoH arg = true /\ goDoHEndpointsForArg arg = yandex_doh.
Proof.
  intros Hl Hp. unfold goDNSIsDoH, goDoHEndpointsForArg. rewrite Hl, Hp. cbv zeta. split; [done |].
  apply has_prefix_spec in Hl as [t Ht]. rewrite Ht. simpl. done.
Qed.

Lemma doh_prefix_case_witness :
  let U : Unicode := fun s => s in goDoHEndpointsForArg "DoH:https://dns.quad9.net/dns-query" = yandex_doh.
Proof. cbv zeta. by apply (@doh_prefix_case (fun s => s) "DoH:https://dns.quad9.net/dns-query"). Defined.

(** An IPv6 server without a port is kept without one, and is then no address. *)
Lemma custom_ipv6_server host c :
  all_of visible (host ++ String ":" c) = true -> no_char "[" host = true -> has_char ":" host = true -> no_char ":" c = true ->
  custom_server (host ++ String ":" c) = [host ++ String ":" c] /\
  SplitHostPort (host ++ String ":" c) = Err TooManyColons.
Proof.
  intros Hv Hb Hc Hn. split.
  - unfold custom_server. rewrite trim_space_visible by done.
    assert (String.eqb (host ++ String ":" c) "" = false) as -> by (by destruct host). by rewrite contains_char.
  - unfold SplitHostPort. rewrite last_index_app, stake_app by done. rewrite Hc.
    destruct host as [| a host]; [done |]. simpl in Hb. propify.
    destruct a as [[] [] [] [] [] [] [] []]; done.
Qed.

Example ipv6_server : custom_server " 2001:4860:4860::8888" = ["2001:4860:4860::8888"].
Proof. reflexivity. Qed.
