(* ===== verification/Effects.v ===== *)
(** * Stateful code: a state monad with rules for pre- and postconditions.

    A Go function that changes package variables or calls the system is a function from the state
    before to its result and the state after.  [sat P m Q]: started in a state with [P], [m] ends
    with a result and a state with [Q].  [keeps P m]: [m] preserves [P]. *)

From S2P Require Import Prelude.
From stdpp Require Import base list.

Definition State (S A : Type) : Type := S -> A * S.

#[export] Instance State_ret S : MRet (State S) := fun A a s => (a, s).
#[export] Instance State_bind S : MBind (State S) := fun A B f m s => let '(a, s') := m s in f a s'.

Definition gets {S A} (f : S -> A) : State S A := fun s => (f s, s).
Definition modify {S} (f : S -> S) : State S unit := fun s => (tt, f s).

(** What a run ends with, from its result. *)
Lemma pair_of {A B} (r : A * B) a : r.1 = a -> r = (a, r.2).
Proof. intros <-. by destruct r. Qed.

Section rules.
Context {S : Type}.

Definition sat {A} (P : S -> Prop) (m : State S A) (Q : A -> S -> Prop) : Prop :=
  forall s, P s -> Q (m s).1 (m s).2.

Definition keeps {A} (P : S -> Prop) (m : State S A) : Prop := sat P m (fun _ => P).

Lemma sat_ret {A} (P : S -> Prop) (a : A) (Q : A -> S -> Prop) : (forall s, P s -> Q a s) -> sat P (mret a) Q.
Proof. intros HQ s Hs. by apply HQ. Qed.

Lemma sat_bind {A B} (P : S -> Prop) (m : State S A) (R : A -> S -> Prop) (f : A -> State S B) Q :
  sat P m R -> (forall a, sat (R a) (f a) Q) -> sat P (m ≫= f) Q.
Proof.
  intros Hm Hf s Hs. unfold mbind, State_bind. specialize (Hm s Hs).
  destruct (m s) as [a s']. by apply Hf.
Qed.

Lemma sat_weaken {A} (P P' : S -> Prop) (m : State S A) (Q Q' : A -> S -> Prop) :
  sat P' m Q' -> (forall s, P s -> P' s) -> (forall a s, Q' a s -> Q a s) -> sat P m Q.
Proof. intros Hm HP HQ s Hs. auto. Qed.

Lemma sat_gets {A} (P : S -> Prop) (f : S -> A) (Q : A -> S -> Prop) : (forall s, P s -> Q (f s) s) -> sat P (gets f) Q.
Proof. intros HQ s Hs. by apply HQ. Qed.

Lemma sat_modify (P : S -> Prop) (f : S -> S) (Q : unit -> S -> Prop) : (forall s, P s -> Q tt (f s)) -> sat P (modify f) Q.
Proof. intros HQ s Hs. by apply HQ. Qed.

(** A pure fact of the precondition can be assumed. *)
Lemma sat_assume {A} (p : Prop) (P : S -> Prop) (m : State S A) Q : (p -> sat P m Q) -> sat (fun s => p /\ P s) m Q.
Proof. intros Hm s [Hp Hs]. by apply Hm. Qed.

Lemma keeps_ret {A} (P : S -> Prop) (a : A) : keeps P (mret a).
Proof. by apply sat_ret. Qed.

Lemma keeps_gets {A} (P : S -> Prop) (f : S -> A) : keeps P (gets f).
Proof. by apply sat_gets. Qed.

Lemma keeps_bind {A B} (P : S -> Prop) (m : State S A) (f : A -> State S B) :
  keeps P m -> (forall a, keeps P (f a)) -> keeps P (m ≫= f).
Proof. apply sat_bind. Qed.

(** A preserved property can be carried along. *)
Lemma sat_frame {A} (P R : S -> Prop) (m : State S A) Q :
  sat P m Q -> keeps R m -> sat (fun s => P s /\ R s) m (fun a s => Q a s /\ R s).
Proof. intros Hm Hr s [HP HR]. split; [by apply Hm | by apply Hr]. Qed.

Lemma run_bind {A B} (m : State S A) (f : A -> State S B) s : (m ≫= f) s = f (m s).1 (m s).2.
Proof. unfold mbind, State_bind. by destruct (m s). Qed.
End rules.

Create HintDb effects.
#[export] Hint Resolve keeps_ret keeps_gets : effects.

(** Goals [keeps P m] with [m] made of binds, branches and calls of known operations. *)
Ltac keep_step :=
  match goal with
  | |- sat ?P ?m (fun _ => ?P) => change (keeps P m)
  | |- keeps _ (mbind _ _) => apply keeps_bind; [| intros ?]
  | |- keeps _ (if ?b then _ else _) => destruct b
  | |- keeps _ (match ?x with _ => _ end) => destruct x
  end.
Ltac keep := repeat first [solve [auto with effects] | keep_step].
