(* ===== verification/Threads.v ===== *)
(** * Goroutines over one state: programs as trees of atomic calls, and their interleavings.

    [thread S A] is a program whose calls of the system (or sections under a lock) are atomic; what lies
    between two of them is where another goroutine may run.  [run] executes it alone, [in_turns] executes two by a
    schedule.  [wp R] is what a program ensures at its end whatever another one, whose steps are in [R], does between
    its calls; [within R] says that the steps of a program are in [R]. *)

From S2P Require Import Prelude Effects.
From Stdlib Require Import Lia.
From stdpp Require Import base list.

Inductive thread (S A : Type) : Type :=
| Done (a : A)
| Call {B : Type} (m : State S B) (k : B -> thread S A).
Arguments Done {S A} a.
Arguments Call {S A B} m k.

Fixpoint thread_bind {S A B} (f : A -> thread S B) (p : thread S A) : thread S B :=
  match p with Done a => f a | Call m k => Call m (fun b => thread_bind f (k b)) end.

#[export] Instance thread_ret S : MRet (thread S) := fun A a => Done a.
#[export] Instance thread_mbind S : MBind (thread S) := @thread_bind S.

Definition call {S A} (m : State S A) : thread S A := Call m Done.

Fixpoint run {S A} (p : thread S A) : State S A := fun s =>
  match p with Done a => (a, s) | Call m k => let '(b, s') := m s in run (k b) s' end.

Coercion run : thread >-> State.

(** One call. *)
Definition advance {S A} (p : thread S A) (s : S) : thread S A * S :=
  match p with Done a => (Done a, s) | Call m k => let '(b, s') := m s in (k b, s') end.

Fixpoint steps {S A} (n : nat) (p : thread S A) (s : S) : thread S A * S :=
  match n with O => (p, s) | Datatypes.S n => let '(p', s') := advance p s in steps n p' s' end.

Inductive turn := First | Second.

Fixpoint in_turns {S A B} (sched : list turn) (p : thread S A) (q : thread S B) (s : S) : thread S A * thread S B * S :=
  match sched with
  | [] => (p, q, s)
  | First :: sched => let '(p', s') := advance p s in in_turns sched p' q s'
  | Second :: sched => let '(q', s') := advance q s in in_turns sched p q' s'
  end.

Definition finished {S A} (p : thread S A) : option A := match p with Done a => Some a | Call _ _ => None end.

Section threads.
Context {S : Type}.

Lemma run_then {A B} (p : thread S A) (f : A -> thread S B) s : run (p ≫= f) s = run (f (run p s).1) (run p s).2.
Proof. revert s. induction p as [a | C m k IH]; intros s; [done |]. cbn. destruct (m s) as [b s']. apply IH. Qed.

Lemma run_advance {A} (p : thread S A) s : run (advance p s).1 (advance p s).2 = run p s.
Proof. destruct p as [a | B m k]; [done |]. cbn. by destruct (m s). Qed.

(** ** Alone *)

Lemma sat_call {A} P (m : State S A) Q : sat P m Q -> sat P (call m) Q.
Proof. intros Hm s Hs. specialize (Hm s Hs). cbn. by destruct (m s). Qed.

Lemma sat_done {A} (P : S -> Prop) (a : A) (Q : A -> S -> Prop) : (forall s, P s -> Q a s) -> sat P (run (mret a)) Q.
Proof. intros HQ s Hs. by apply HQ. Qed.

Lemma sat_then {A B} P (p : thread S A) R (f : A -> thread S B) Q : sat P p R -> (forall a, sat (R a) (f a) Q) -> sat P (run (p ≫= f)) Q.
Proof. intros Hp Hf s Hs. rewrite run_then. by apply Hf, Hp. Qed.

Lemma keeps_done {A} (P : S -> Prop) (a : A) : keeps P (run (mret a)).
Proof. by apply sat_done. Qed.

Lemma keeps_then {A B} (P : S -> Prop) (p : thread S A) (f : A -> thread S B) : keeps P p -> (forall a, keeps P (f a)) -> keeps P (run (p ≫= f)).
Proof. apply sat_then. Qed.

(** ** How long *)

Inductive atmost {A} : nat -> thread S A -> Prop :=
| atmost_done n a : atmost n (Done a)
| atmost_call n B (m : State S B) k : (forall b, atmost n (k b)) -> atmost (Datatypes.S n) (Call m k).

Lemma atmost_weaken {A} n n' (p : thread S A) : atmost n p -> (n <= n')%nat -> atmost n' p.
Proof.
  intros Hp. revert n'. induction Hp as [n a | n B m k Hk IH]; intros n' Hn; [constructor |].
  destruct n' as [| n']; [lia |]. constructor. intros b. apply IH. lia.
Qed.

Lemma atmost_ret {A} n (a : A) : atmost n (mret a).
Proof. constructor. Qed.

Lemma atmost_one {A} (m : State S A) : atmost 1 (call m).
Proof. constructor. intros b. constructor. Qed.

Lemma atmost_bind {A B} n m (p : thread S A) (f : A -> thread S B) : atmost n p -> (forall a, atmost m (f a)) -> atmost (n + m) (p ≫= f).
Proof.
  intros Hp Hf. induction Hp as [n a | n C c k Hk IH]; [apply (atmost_weaken m); [apply Hf | lia] |]. cbn. by constructor.
Qed.

(** A program with at most [n] calls is done after them. *)
Lemma steps_done {A} n (p : thread S A) s : atmost n p -> steps n p s = (Done (run p s).1, (run p s).2).
Proof.
  intros Hp. revert s. induction Hp as [n a | n B m k Hk IH]; intros s; [by induction n as [| n IH] |].
  cbn. destruct (m s) as [b s']. apply IH.
Qed.

Lemma in_turns_app {A B} sched sched' (p : thread S A) (q : thread S B) s :
  in_turns (sched ++ sched') p q s = let '(p', q', s') := in_turns sched p q s in in_turns sched' p' q' s'.
Proof. revert p q s. induction sched as [| [] sched IH]; intros p q s; cbn; [done | |]; destruct (advance _ _); apply IH. Qed.

Lemma in_turns_second {A B} n (p : thread S A) (q : thread S B) s :
  in_turns (replicate n Second) p q s = (p, (steps n q s).1, (steps n q s).2).
Proof. revert q s. induction n as [| n IH]; intros q s; [done |]. cbn. destruct (advance q s). apply IH. Qed.

(** Beside a program that does nothing more, the other one runs as it does alone. *)
Lemma in_turns_alone {A B} sched (p : thread S A) (q : thread S B) s : Forall (eq First) sched \/ is_Some (finished q) ->
  exists p' s', in_turns sched p q s = (p', q, s') /\ run p' s' = run p s.
Proof.
  revert p s. induction sched as [| t sched IH]; intros p s Hq; [by exists p, s |].
  assert (forall p s, exists p' s', in_turns sched p q s = (p', q, s') /\ run p' s' = run p s) as Hrest
    by (intros p1 s1; apply IH; destruct Hq as [Hq | ?]; [left; by inversion Hq | by right]).
  destruct t; cbn.
  - pose proof (run_advance p s) as Ha. destruct (advance p s) as [p1 s1]. rewrite <-Ha. apply Hrest.
  - assert (advance q s = (q, s)) as ->; [| apply Hrest]. destruct Hq as [Hq | [b Hb]]; [by inversion Hq |]. by destruct q.
Qed.

(** ** Beside another one *)

Section rely.
Context (R : S -> S -> Prop) `{!PreOrder R}.

Fixpoint within {A} (p : thread S A) : Prop :=
  match p with Done _ => True | Call m k => (forall s, R s (m s).2) /\ forall b, within (k b) end.

Lemma within_bind {A B} (p : thread S A) (f : A -> thread S B) : within p -> (forall a, within (f a)) -> within (p ≫= f).
Proof. intros Hp Hf. induction p as [a | C m k IH]; [apply Hf |]. destruct Hp as [Hm Hk]. split; [done |]. intros b. by apply IH. Qed.

Lemma within_ret {A} (a : A) : within (mret a).
Proof. done. Qed.

Lemma within_call {A} (m : State S A) : (forall s, R s (m s).2) -> within (call m).
Proof. by split. Qed.

Lemma within_advance {A} (p : thread S A) s : within p -> within (advance p s).1 /\ R s (advance p s).2.
Proof. destruct p as [a | B m k]; [by split; [| reflexivity] |]. intros [Hm Hk]. cbn. specialize (Hm s). destruct (m s). split; [apply Hk | exact Hm]. Qed.

Lemma within_steps {A} n (p : thread S A) s : within p -> R s (steps n p s).2.
Proof.
  revert p s. induction n as [| n IH]; intros p s Hp; [reflexivity |]. cbn. destruct (within_advance p s Hp) as [Hp' Hs].
  destruct (advance p s) as [p' s']. cbn [fst snd] in *. etrans; [exact Hs | by apply IH].
Qed.

Fixpoint wp {A} (p : thread S A) (Q : A -> S -> Prop) (s : S) : Prop :=
  match p with
  | Done a => forall s', R s s' -> Q a s'
  | Call m k => forall s', R s s' -> wp (k (m s').1) Q (m s').2
  end.

Lemma wp_stable {A} (p : thread S A) Q s s' : R s s' -> wp p Q s -> wp p Q s'.
Proof. intros Hs Hp. destruct p; intros s1 H1; apply Hp; by etrans. Qed.

Lemma wp_ret {A} (a : A) (Q : A -> S -> Prop) s : (forall s', R s s' -> Q a s') -> wp (mret a) Q s.
Proof. done. Qed.

Lemma wp_call {A} (m : State S A) (Q : A -> S -> Prop) s :
  (forall s1, R s s1 -> forall s2, R (m s1).2 s2 -> Q (m s1).1 s2) -> wp (call m) Q s.
Proof. done. Qed.

Lemma wp_bind {A B} (p : thread S A) (f : A -> thread S B) Q s : wp p (fun a => wp (f a) Q) s -> wp (p ≫= f) Q s.
Proof.
  revert s. induction p as [a | C m k IH]; intros s Hp.
  - cbn in *. by apply Hp.
  - intros s' Hs. by apply IH, Hp.
Qed.

Lemma wp_weaken {A} (p : thread S A) (Q Q' : A -> S -> Prop) s : (forall a s, Q a s -> Q' a s) -> wp p Q s -> wp p Q' s.
Proof. intros HQ. revert s. induction p as [a | C m k IH]; intros s Hp s' Hs; [by apply HQ, Hp | by apply IH, Hp]. Qed.

Lemma wp_run {A} (p : thread S A) Q s : wp p Q s -> Q (run p s).1 (run p s).2.
Proof.
  revert s. induction p as [a | C m k IH]; intros s Hp; [by apply Hp |]. cbn. specialize (Hp s ltac:(reflexivity)).
  destruct (m s) as [b s']. by apply IH.
Qed.

(** What both keep holds all the time. *)
Lemma wp_keeps {A} (p : thread S A) (P : S -> Prop) s : (forall s s', R s s' -> P s -> P s') -> within p -> P s -> wp p (fun _ => P) s.
Proof.
  intros HP. revert s. induction p as [a | C m k IH]; intros s Hp Hs s' Hr; [by eapply HP |]. destruct Hp as [Hm Hk].
  apply IH; [apply Hk |]. eapply HP; [apply Hm |]. by eapply HP.
Qed.

(** What a program ensures beside another one is ensured by every schedule. *)
Lemma wp_in_turns {A B} sched (p : thread S A) (q : thread S B) Q s : wp p Q s -> within q ->
  let '(p', q', s') := in_turns sched p q s in wp p' Q s' /\ within q'.
Proof.
  revert p q s. induction sched as [| [] sched IH]; intros p q s Hp Hq; cbn [in_turns]; [done | |].
  - destruct (advance p s) as [p1 s1] eqn:E. apply IH; [| done]. destruct p as [a | C m k]; cbn in *; [by simplify_eq |].
    specialize (Hp s ltac:(reflexivity)). destruct (m s). by simplify_eq.
  - destruct (within_advance q s Hq) as [Hq' Hs]. destruct (advance q s) as [q1 s1]. apply IH; [| done]. by eapply wp_stable.
Qed.
End rely.
End threads.
