(* ===== verification/WgParse.v ===== *)
(** * Reading a WireGuard configuration (wireguard_linux.go, [parseWGConfig], [parseIPNet], [cidrNet]).

    Keys are parsed by wgctrl and endpoints resolved by the system: both are arguments.  A line is at
    most 65535 bytes long, the limit of [bufio.Scanner]. *)

From S2P Require Import Prelude Bytes GoStrings Chars Net Protocol WgConfig Ip Url.
From Stdlib Require Import ZArith Lia String Ascii.
From stdpp Require Import base list strings.
Open Scope string_scope.
Open Scope Z_scope.

(** ** Lines *)

Definition max_token : Z := 65536.

(** [bufio.ScanLines] drops a carriage return at the end of a line. *)
Definition drop_cr (line : string) : string := trim_suffix (String (byte 13) "") line.

(** The lines the scanner delivers, and whether it stops at a line that is too long. *)
Fixpoint scan_lines (pieces : list string) : list string * bool :=
  match pieces with
  | [] => ([], false)
  | [last] => if String.eqb last "" then ([], false)
              else if max_token <=? Z.of_nat (String.length last) then ([], true) else ([drop_cr last], false)
  | line :: rest =>
      if max_token <=? Z.of_nat (String.length line) then ([], true)
      else let '(lines, err) := scan_lines rest in (drop_cr line :: lines, err)
  end.

(** ** The configuration *)

(** [time.Duration(secs) * time.Second] in 64 bits. *)
Definition wrap64 (n : Z) : Z := u64 (n + 2 ^ 63) - 2 ^ 63.
Definition seconds (secs : Z) : Z := wrap64 (secs * 1000000000).

Section parse.
Context {key udp : Type} (zero_key : key) (ParseKey : string -> option key) (ResolveUDPAddr : string -> option udp).
Context `{Unicode}.

Record PeerConfig := {
  PublicKey : key; PresharedKey : option key; AllowedIPs : list IPNet; Endpoint : option udp;
  PersistentKeepaliveInterval : option Z; ReplaceAllowedIPs : bool
}.

Definition new_peer : PeerConfig :=
  {| PublicKey := zero_key; PresharedKey := None; AllowedIPs := []; Endpoint := None;
     PersistentKeepaliveInterval := None; ReplaceAllowedIPs := true |}.

(** The variables of the loop; [inPeer] says that [cur] points to the last peer. *)
Record wg_state := {
  addr : string; mtu : string; PrivateKey : option key; ListenPort : option Z; Peers : list PeerConfig; inPeer : bool
}.

Definition init_state : wg_state :=
  {| addr := ""; mtu := ""; PrivateKey := None; ListenPort := None; Peers := []; inPeer := false |}.

Inductive wg_error :=
| InvalidPrivateKey | InvalidPresharedKey | InvalidListenPort (v : string) | InvalidPublicKey
| InvalidAllowedIPs (s : string) | InvalidEndpoint (v : string) | InvalidKeepalive (v : string) | LineTooLong.

Definition set_addr (v : string) (s : wg_state) : wg_state :=
  {| addr := v; mtu := mtu s; PrivateKey := PrivateKey s; ListenPort := ListenPort s; Peers := Peers s; inPeer := inPeer s |}.
Definition set_mtu (v : string) (s : wg_state) : wg_state :=
  {| addr := addr s; mtu := v; PrivateKey := PrivateKey s; ListenPort := ListenPort s; Peers := Peers s; inPeer := inPeer s |}.
Definition set_private (k : key) (s : wg_state) : wg_state :=
  {| addr := addr s; mtu := mtu s; PrivateKey := Some k; ListenPort := ListenPort s; Peers := Peers s; inPeer := inPeer s |}.
Definition set_listen (p : Z) (s : wg_state) : wg_state :=
  {| addr := addr s; mtu := mtu s; PrivateKey := PrivateKey s; ListenPort := Some p; Peers := Peers s; inPeer := inPeer s |}.
Definition set_section (peers : list PeerConfig) (b : bool) (s : wg_state) : wg_state :=
  {| addr := addr s; mtu := mtu s; PrivateKey := PrivateKey s; ListenPort := ListenPort s; Peers := peers; inPeer := b |}.

(** An update of the peer [cur] points to, the last one. *)
Fixpoint alter_last (f : PeerConfig -> PeerConfig) (l : list PeerConfig) : list PeerConfig :=
  match l with [] => [] | [p] => [f p] | p :: rest => p :: alter_last f rest end.

Definition on_cur (f : PeerConfig -> PeerConfig) (s : wg_state) : wg_state :=
  if inPeer s then set_section (alter_last f (Peers s)) true s else s.

Definition with_public (k : key) (p : PeerConfig) : PeerConfig :=
  {| PublicKey := k; PresharedKey := PresharedKey p; AllowedIPs := AllowedIPs p; Endpoint := Endpoint p;
     PersistentKeepaliveInterval := PersistentKeepaliveInterval p; ReplaceAllowedIPs := ReplaceAllowedIPs p |}.
Definition with_preshared (k : key) (p : PeerConfig) : PeerConfig :=
  {| PublicKey := PublicKey p; PresharedKey := Some k; AllowedIPs := AllowedIPs p; Endpoint := Endpoint p;
     PersistentKeepaliveInterval := PersistentKeepaliveInterval p; ReplaceAllowedIPs := ReplaceAllowedIPs p |}.
Definition with_allowed (l : list IPNet) (p : PeerConfig) : PeerConfig :=
  {| PublicKey := PublicKey p; PresharedKey := PresharedKey p; AllowedIPs := (AllowedIPs p ++ l)%list; Endpoint := Endpoint p;
     PersistentKeepaliveInterval := PersistentKeepaliveInterval p; ReplaceAllowedIPs := ReplaceAllowedIPs p |}.
Definition with_endpoint (u : udp) (p : PeerConfig) : PeerConfig :=
  {| PublicKey := PublicKey p; PresharedKey := PresharedKey p; AllowedIPs := AllowedIPs p; Endpoint := Some u;
     PersistentKeepaliveInterval := PersistentKeepaliveInterval p; ReplaceAllowedIPs := ReplaceAllowedIPs p |}.
Definition with_keepalive (d : Z) (p : PeerConfig) : PeerConfig :=
  {| PublicKey := PublicKey p; PresharedKey := PresharedKey p; AllowedIPs := AllowedIPs p; Endpoint := Endpoint p;
     PersistentKeepaliveInterval := Some d; ReplaceAllowedIPs := ReplaceAllowedIPs p |}.

(** The networks of an "AllowedIPs" line. *)
Fixpoint allowed_ips (pieces : list string) : result wg_error (list IPNet) :=
  match pieces with
  | [] => Ok []
  | s :: rest =>
      let s := trim_space s in
      if String.eqb s "" then allowed_ips rest
      else match ParseCIDR s with
           | None => Err (InvalidAllowedIPs s)
           | Some (_, ipnet) => l ← allowed_ips rest; Ok (ipnet :: l)
           end
  end.

(** One setting. *)
Definition setting (k val : string) (s : wg_state) : result wg_error wg_state :=
  if String.eqb k "address" then Ok (set_addr val s)
  else if String.eqb k "mtu" then Ok (set_mtu val s)
  else if String.eqb k "privatekey" then
    match ParseKey val with Some x => Ok (set_private x s) | None => Err InvalidPrivateKey end
  else if String.eqb k "presharedkey" then
    match ParseKey val with Some x => Ok (on_cur (with_preshared x) s) | None => Err InvalidPresharedKey end
  else if String.eqb k "listenport" then
    match atoi val with Some p => Ok (set_listen p s) | None => Err (InvalidListenPort val) end
  else if String.eqb k "publickey" then
    match ParseKey val with Some x => Ok (on_cur (with_public x) s) | None => Err InvalidPublicKey end
  else if String.eqb k "allowedips" then
    (if negb (inPeer s) then Ok s
     else l ← allowed_ips (split_on "," val); Ok (on_cur (with_allowed l) s))
  else if String.eqb k "endpoint" then
    (if negb (inPeer s) then Ok s
     else match ResolveUDPAddr val with Some u => Ok (on_cur (with_endpoint u) s) | None => Err (InvalidEndpoint val) end)
  else if String.eqb k "persistentkeepalive" then
    (if negb (inPeer s) then Ok s
     else match atoi val with
          | Some secs => Ok (on_cur (with_keepalive (seconds secs)) s)
          | None => Err (InvalidKeepalive val)
          end)
  else Ok s.

Definition is_bracket (c : ascii) : bool := Ascii.eqb c "[" || Ascii.eqb c "]".

(** The body of the loop. *)
Definition parse_line (line : string) (s : wg_state) : result wg_error wg_state :=
  let line := trim_space line in
  if String.eqb line "" || has_prefix "#" line || has_prefix ";" line then Ok s
  else if has_prefix "[" line && has_suffix "]" line then
    let section := trim_space (trim_set is_bracket line) in
    if String.eqb section "Peer" then Ok (set_section (Peers s ++ [new_peer])%list true s)
    else Ok (set_section (Peers s) false s)
  else
    match index_char "=" line with
    | None => Ok s
    | Some i => setting (to_lower (trim_space (stake i line))) (trim_space (sdrop (S i) line)) s
    end.

Fixpoint parse_lines (lines : list string) (s : wg_state) : result wg_error wg_state :=
  match lines with
  | [] => Ok s
  | line :: rest => s' ← parse_line line s; parse_lines rest s'
  end.

Definition parseWGConfig (conf : string) : result wg_error wg_state :=
  let '(lines, too_long) := scan_lines (split_on nl conf) in
  s ← parse_lines lines init_state;
  if too_long then Err LineTooLong else Ok s.
End parse.

(** ** Addresses of the interface and destinations of routes *)

(** [parseIPNet]; [None] is an error. *)
Definition parseIPNet (s : string) : option IPNet :=
  match ParseCIDR s with
  | Some (_, ipnet) => Some ipnet
  | None =>
      bare ← ParseIP (trim_space s);
      let mask := match To4 bare with Some _ => CIDRMask 32 4 | None => CIDRMask 128 16 end in
      Some {| net_ip := bare; net_mask := mask |}
  end.

Definition toCIDRRoute (ip : string) : string := if contains "/" ip then ip else ip ++ "/32".

Definition cidrNet (s : string) : IPNet :=
  match ParseCIDR s with
  | Some (_, ipnet) => ipnet
  | None => {| net_ip := default [] (ParseIP s); net_mask := CIDRMask 32 4 |}
  end.

(** ** Facts about networks in text *)

#[local] Arguments String.append : simpl nomatch.

(** The network [parseIPNet] gives for "a/k", [cidrNet] for a route. *)
Lemma parseIPNet_cidr s a k : cidr_text s = Some (a, k) -> exists net, parseIPNet s = Some net /\ cidrNet s = net /\ network_of net a k.
Proof.
  intros Hs. unfold parseIPNet, cidrNet. pose proof (ParseCIDR_network s) as Hp.
  destruct (ParseCIDR s) as [[addr net] |]; [| congruence]. destruct Hp as (a' & k' & Hs' & Hn).
  rewrite Hs in Hs'. injection Hs' as <- <-. by exists net.
Qed.

(** The interface gets the network of its address, not the address: two clients whose addresses
    share the prefix of "address/prefix" are configured with the same one. *)
Theorem interface_address_lost s t a b k :
  cidr_text s = Some (a, k) -> cidr_text t = Some (b, k) -> same_prefix k a b ->
  exists net net', parseIPNet s = Some net /\ parseIPNet t = Some net' /\
    canonical (net_ip net) = canonical (net_ip net') /\
    canonical (net_ip net) = and_bytes a (CIDRMask k (length a)).
Proof.
  intros Hs Ht [Hl Hp]. destruct (parseIPNet_cidr s a k Hs) as (net & H1 & _ & N1).
  destruct (parseIPNet_cidr t b k Ht) as (net' & H2 & _ & N2). exists net, net'.
  destruct N1 as (_ & Oa & Hk & E1 & _), N2 as (_ & Ob & _ & E2 & _).
  split; [done |]. split; [done |]. split; [| done]. rewrite E1, E2, <- Hl.
  by apply masked_eq.
Qed.

Lemma interface_address_lost_witness :
  exists net net', parseIPNet "10.66.66.2/24" = Some net /\ parseIPNet "10.66.66.7/24" = Some net' /\
    canonical (net_ip net) = canonical (net_ip net') /\ canonical (net_ip net) = [10; 66; 66; 0].
Proof.
  destruct (interface_address_lost "10.66.66.2/24" "10.66.66.7/24" [10; 66; 66; 2] [10; 66; 66; 7] 24)
    as (net & net' & H1 & H2 & H3 & H4); [done .. | by split; vm_compute |].
  exists net, net'. split; [done |]. split; [done |]. split; [done |]. rewrite H4. by vm_compute.
Defined.

(** The route around the tunnel for a bare relay address is the host itself for IPv4, but the
    whole /32 it lies in for IPv6. *)
Theorem relay_route s a ip :
  no_char "/" s = true -> ParseAddr s = Some a -> ~ mapped a -> bytes_ok ip -> (length ip = 4%nat \/ length ip = 16%nat) ->
  (length a = 4%nat -> Contains (cidrNet (toCIDRRoute s)) ip = true <-> canonical ip = a) /\
  (length a = 16%nat -> Contains (cidrNet (toCIDRRoute s)) ip = true <-> length (canonical ip) = 16%nat /\ take 4 (canonical ip) = take 4 a).
Proof.
  intros Hn Ha Hm Oip Lip. unfold toCIDRRoute. rewrite contains_no_char by done.
  pose proof (ParseAddr_ok _ _ Ha) as [La Oa]. destruct (canonical_ok ip Oip Lip) as [Oc Lc].
  assert (cidr_text (s ++ "/32") = Some (a, 32)) as Hc.
  { unfold cidr_text. change (s ++ "/32") with (s ++ String "/" "32"). rewrite index_char_app by done. cbn [mbind option_bind].
    rewrite stake_app, Ha. cbn [mbind option_bind].
    replace (S (String.length s)) with (String.length s + 1)%nat by lia. rewrite sdrop_app_more.
    change (GoStrings.sdrop 1 (String "/" "32")) with "32". change (Ip.prefix_length "32") with (Some 32). cbn [mbind option_bind].
    rewrite (proj2 (Z.ltb_ge _ _)) by lia. unfold plain_network. rewrite decide_False; [done | lia]. }
  destruct (parseIPNet_cidr _ _ _ Hc) as (net & _ & -> & Hnet). rewrite (network_contains net a 32 ip) by done.
  unfold same_prefix. split; intros L; rewrite L.
  - simpl (8 * Z.of_nat 4 - 32). rewrite !Z.div_1_r. split; [intros [Hl E] | intros <-; done].
    symmetry. apply be_get_inj; [done | done | lia | done].
  - change (8 * Z.of_nat 16 - 32) with 96.
    assert (forall l, length l = 16%nat -> bytes_ok l -> be_get l / 2 ^ 96 = be_get (take 4 l)) as Hq.
    { intros l Ll Ol. rewrite be_get_take, length_drop, Ll by done. done. }
    rewrite Hq by done. split; intros [Hl E]; (split; [done |]); rewrite Hq in * by done.
    + symmetry. apply be_get_inj; [by apply Forall_take .. | rewrite !length_take; lia | done].
    + by rewrite E.
Qed.

(** ** A server's configuration, patched and read *)

Lemma leading_none c u : visible c = true -> leading_space (String c u) = None.
Proof.
  intros Hc. unfold leading_space. rewrite filter_none; [done |]. intros r Hr Hp.
  destruct (space_runes_invisible r Hr) as (c' & _ & u' & _ & -> & _ & Hc' & _).
  apply has_prefix_spec in Hp as [t Hp]. injection Hp as -> _. congruence.
Qed.

(** A setting "name = value" has nothing to trim, nor has its value behind the space. *)
Lemma setting_trim c name v :
  visible c = true -> v <> "" -> all_of visible v = true -> trim_space (String c name ++ v) = String c name ++ v.
Proof.
  intros Hc Hne Hv. destruct (all_of_last visible v) as (w & d & -> & Hd); [done | done |].
  eapply (trim_space_ends _ c (name ++ w ++ String d "") (String c name ++ w) d); [done | | done | done].
  by rewrite string_app_assoc.
Qed.

Lemma trim_space_lead v : v <> "" -> all_of visible v = true -> trim_space (String " " v) = v.
Proof.
  intros Hne Hv. destruct v as [| c v]; [done |].
  assert (visible c = true) as Hc by (simpl in Hv; by propify).
  pose proof (trim_space_visible _ Hv) as Ht. unfold trim_space in *.
  assert (forall n, trim_left_fuel n (String c v) = String c v) as Hl
    by (intros [| n]; simpl; [done | by rewrite leading_none]).
  rewrite Hl in Ht. change (String.length (String " " (String c v))) with (S (String.length (String c v))).
  assert (trim_left_fuel (S (String.length (String c v))) (String " " (String c v)) = String c v) as ->; [| exact Ht].
  cbn [trim_left_fuel]. assert (leading_space (String " " (String c v)) = Some 1%nat) as -> by done. apply Hl.
Qed.

Lemma drop_cr_setting s v : v <> "" -> all_of visible v = true -> drop_cr (s ++ v) = s ++ v.
Proof.
  intros Hne Hv. unfold drop_cr, trim_suffix. rewrite has_suffix_last; [done | done |].
  by apply (all_of_no_char visible).
Qed.

Lemma setting_no_nl s v : no_char nl s = true -> all_of visible v = true -> no_char nl (s ++ v) = true.
Proof. intros Hs Hv. rewrite no_char_app, Hs. by apply (all_of_no_char visible). Qed.

(** The value of a setting: visible, not empty, of a bounded length. *)
Definition value_ok (v : string) : Prop := v <> "" /\ all_of visible v = true /\ Z.of_nat (String.length v) < 60000.

Lemma scan_plain lines :
  Forall (fun l => drop_cr l = l /\ Z.of_nat (String.length l) < max_token) lines -> last lines <> Some "" ->
  scan_lines lines = (lines, false).
Proof.
  induction lines as [| x [| y rest] IH]; intros Hl Hlast; [done | |]; apply Forall_cons in Hl as [[Hx1 Hx2] Hl].
  - simpl in Hlast. cbn [scan_lines]. destruct (String.eqb_spec x ""); [congruence |].
    by rewrite (proj2 (Z.leb_gt _ _)), Hx1.
  - change (scan_lines (x :: y :: rest)) with
      (if max_token <=? Z.of_nat (String.length x) then ([], true)
       else let '(lines, err) := scan_lines (y :: rest) in (drop_cr x :: lines, err)).
    rewrite IH by done. by rewrite (proj2 (Z.leb_gt _ _)), Hx1.
Qed.

(** A line the patch keeps. *)
Lemma patch_keep m line rest b :
  has_prefix "[" (trim_space line) = false -> has_prefix "DNS" (trim_space line) = false ->
  has_prefix "MTU" (trim_space line) = false -> has_prefix "AllowedIPs" (trim_space line) = false ->
  patch_lines m (line :: rest) b = line :: patch_lines m rest b.
Proof.
  intros H1 H2 H3 H4. cbn [patch_lines]. cbv zeta. unfold default_route.
  assert (String.eqb (trim_space line) "[Interface]" = false) as ->.
  { destruct (String.eqb_spec (trim_space line) "[Interface]") as [E |]; [by rewrite E in H1 | done]. }
  by rewrite H1, H2, H3, H4, !andb_false_r.
Qed.

Lemma patch_interface m rest b :
  patch_lines m ("[Interface]" :: rest) b = "[Interface]" :: mtu_line m :: patch_lines m rest true.
Proof. reflexivity. Qed.

Lemma patch_peer m rest b : patch_lines m ("[Peer]" :: rest) b = "[Peer]" :: patch_lines m rest false.
Proof. cbn [patch_lines]. by change (trim_space "[Peer]") with "[Peer]". Qed.

Lemma patch_default m rest b : patch_lines m ("AllowedIPs = 0.0.0.0/0, ::/0" :: rest) b = split_routes :: patch_lines m rest b.
Proof.
  cbn [patch_lines]. change (trim_space "AllowedIPs = 0.0.0.0/0, ::/0") with "AllowedIPs = 0.0.0.0/0, ::/0".
  change (default_route "AllowedIPs = 0.0.0.0/0, ::/0") with true. by destruct b.
Qed.

(** The server's DNS and MTU lines are dropped. *)
Lemma patch_skip m line rest :
  has_prefix "DNS" (trim_space line) = true \/ has_prefix "MTU" (trim_space line) = true ->
  patch_lines m (line :: rest) true = patch_lines m rest true.
Proof.
  intros Hl. cbn [patch_lines]. cbv zeta.
  assert (has_prefix "[" (trim_space line) = false /\ default_route (trim_space line) = false) as [H1 H2].
  { unfold default_route. by destruct Hl as [Hl | Hl]; apply has_prefix_spec in Hl as [t ->]. }
  assert (String.eqb (trim_space line) "[Interface]" = false) as ->.
  { destruct (String.eqb_spec (trim_space line) "[Interface]") as [E |]; [by rewrite E in H1 | done]. }
  rewrite H1, H2. destruct Hl as [-> | ->]; [done |]. by destruct (has_prefix "DNS" _).
Qed.

Section server.
Context {key udp : Type} (zero_key : key) (ParseKey : string -> option key) (ResolveUDPAddr : string -> option udp).
Context `{Unicode}.

Lemma parse_setting_line c name v (s : wg_state (key := key) (udp := udp)) :
  visible c = true -> negb (Ascii.eqb "#" c) && negb (Ascii.eqb ";" c) && negb (Ascii.eqb "[" c) = true -> no_char "=" (String c name) = true -> v <> "" -> all_of visible v = true ->
  parse_line zero_key ParseKey ResolveUDPAddr (String c name ++ " = " ++ v) s =
  setting ParseKey ResolveUDPAddr (to_lower (trim_space (String c name ++ " "))) v s.
Proof.
  intros Hc Hs Hn Hne Hv. unfold parse_line.
  change (String c name ++ " = " ++ v) with (String c (name ++ " = " ++ v)).
  assert (String c (name ++ " = " ++ v) = String c (name ++ " = ") ++ v) as E by (simpl; by rewrite string_app_assoc).
  rewrite E, setting_trim by done. rewrite <- E.
  apply andb_true_iff in Hs as [[H1%negb_true_iff H2%negb_true_iff]%andb_true_iff H3%negb_true_iff].
  cbn [has_prefix String.eqb]. rewrite H3, H2, H1. simpl orb. simpl andb. cbv iota.
  change (String c (name ++ " = " ++ v)) with (String c name ++ " = " ++ v).
  assert (String c name ++ " = " ++ v = (String c name ++ " ") ++ String "=" (String " " v)) as -> by (rewrite string_app_assoc; done).
  assert (no_char "=" (String c name ++ " ") = true) as Hn' by (by rewrite no_char_app, Hn).
  rewrite index_char_app, stake_app by done.
  replace (S (String.length (String c name ++ " "))) with (String.length (String c name ++ " ") + 1)%nat by lia.
  rewrite sdrop_app_more. change (sdrop 1 (String "=" (String " " v))) with (String " " v). by rewrite trim_space_lead.
Qed.

(** What the server of a subscriber sends. *)
Record server_config := {
  s_private : string; s_address : string; s_dns : string; s_mtu : string; s_public : string; s_endpoint : string;
  s_keepalive : Z
}.

Definition server_lines (c : server_config) : list string :=
  [ "[Interface]"; "PrivateKey = " ++ s_private c; "Address = " ++ s_address c; "DNS = " ++ s_dns c; "MTU = " ++ s_mtu c; "";
    "[Peer]"; "PublicKey = " ++ s_public c; "AllowedIPs = 0.0.0.0/0, ::/0"; "Endpoint = " ++ s_endpoint c;
    "PersistentKeepalive = " ++ itoa (s_keepalive c) ].

Definition patched_lines (m : Z) (c : server_config) : list string :=
  [ "[Interface]"; mtu_line m; "PrivateKey = " ++ s_private c; "Address = " ++ s_address c; "";
    "[Peer]"; "PublicKey = " ++ s_public c; split_routes; "Endpoint = " ++ s_endpoint c;
    "PersistentKeepalive = " ++ itoa (s_keepalive c) ].

Definition text_of (lines : list string) : string := GoStrings.join (String nl "") lines.

Definition server_ok (c : server_config) : Prop :=
  Forall value_ok [s_private c; s_address c; s_dns c; s_mtu c; s_public c; s_endpoint c] /\
  min_int <= s_keepalive c <= max_int.

Lemma digits_length f n acc : (String.length (digits_fuel f n acc) <= f + String.length acc)%nat.
Proof.
  revert n acc. induction f as [| f IH]; intros n acc; simpl; [lia |].
  split_guard; simpl; [lia |]. specialize (IH (n / 10) (String (digit (n mod 10)) acc)). simpl in IH. lia.
Qed.

Lemma utoa_length n : 0 <= n <= 2 ^ 63 -> Z.of_nat (String.length (utoa n)) <= 64.
Proof.
  intros Hn. unfold utoa. pose proof (digits_length (S (Z.to_nat (Z.log2 n))) n "") as Hl. simpl String.length in Hl at 2.
  assert (Z.log2 n <= 63) by (rewrite <- (Z.log2_pow2 63) by lia; apply Z.log2_le_mono; lia).
  pose proof (Z.log2_nonneg n). lia.
Qed.

Lemma itoa_value n : min_int <= n <= max_int -> value_ok (itoa n).
Proof.
  unfold min_int, max_int. intros Hn. split; [| split].
  - unfold itoa. split_guard; [done |]. apply utoa_spec. lia.
  - eapply all_of_impl; [| apply itoa_field]. intros c Hc. unfold field_char in Hc. by propify.
  - unfold itoa. split_guard; [rewrite string_length_app; pose proof (utoa_length (- n)); simpl; lia |].
    pose proof (utoa_length n). lia.
Qed.

(** Lines of a configuration: no line breaks, short, no carriage return at the end. *)
Definition line_ok (l : string) : Prop := no_char nl l = true /\ drop_cr l = l /\ Z.of_nat (String.length l) < max_token.

Lemma setting_line_ok s v :
  no_char nl s = true -> Z.of_nat (String.length s) < 1000 -> value_ok v -> line_ok (s ++ v).
Proof.
  intros Hs Hl (Hne & Hv & Hlen). split; [by apply setting_no_nl |]. split; [by apply drop_cr_setting |].
  rewrite string_length_app. unfold max_token. lia.
Qed.

(** A text is the list of its lines again. *)
Lemma parse_text lines :
  Forall line_ok lines -> lines <> [] -> last lines <> Some "" ->
  split_on nl (text_of lines) = lines /\ scan_lines lines = (lines, false).
Proof.
  intros Hl Hne Hlast. split.
  - apply split_on_join; [done |]. eapply Forall_impl; [exact Hl |]. by intros l [? _].
  - apply scan_plain; [| done]. eapply Forall_impl; [exact Hl |]. by intros l [_ ?].
Qed.

Lemma server_values c : server_ok c -> value_ok (s_private c) /\ value_ok (s_address c) /\ value_ok (s_dns c) /\
  value_ok (s_mtu c) /\ value_ok (s_public c) /\ value_ok (s_endpoint c) /\ value_ok (itoa (s_keepalive c)).
Proof.
  intros [Hv Hk]. rewrite !Forall_cons in Hv. destruct Hv as (? & ? & ? & ? & ? & ? & _).
  pose proof (itoa_value _ Hk). by split_and!.
Qed.

Lemma patch_server m c : 0 < m -> server_ok c -> patchWGConfig (text_of (server_lines c)) m = text_of (patched_lines m c).
Proof.
  intros Hm Hc. apply server_values in Hc as (H1 & H2 & H3 & H4 & H5 & H6 & H7).
  assert (Forall line_ok (server_lines c)) as Hl.
  { repeat (apply List.Forall_cons; [try (by apply setting_line_ok); by repeat split |]). constructor. }
  unfold patchWGConfig. rewrite (proj2 (Z.leb_gt m 0)) by lia. cbv zeta.
  destruct (parse_text (server_lines c) Hl) as [-> _]; [done | |].
  { simpl. by intros [=]. }
  unfold text_of. f_equal. unfold server_lines, patched_lines.
  assert (forall c name v, visible c = true -> value_ok v -> trim_space (String c name ++ v) = String c name ++ v) as Ht
    by (intros ??? Hc (? & ? & _); by apply setting_trim).
  rewrite patch_interface.
  rewrite (patch_keep m ("PrivateKey = " ++ _)), (patch_keep m ("Address = " ++ _)) by (by rewrite Ht).
  rewrite patch_skip by (rewrite Ht by done; by left). rewrite patch_skip by (rewrite Ht by done; by right).
  rewrite patch_keep, patch_peer by done.
  rewrite (patch_keep m ("PublicKey = " ++ _)) by (by rewrite Ht). rewrite patch_default.
  by rewrite (patch_keep m ("Endpoint = " ++ _)), (patch_keep m ("PersistentKeepalive = " ++ _)) by (by rewrite Ht).
Qed.

Definition half (first : Z) : IPNet := {| net_ip := [first; 0; 0; 0]; net_mask := [128; 0; 0; 0] |}.

Lemma patched_lines_ok m c : min_int <= m <= max_int -> server_ok c -> Forall line_ok (patched_lines m c).
Proof.
  intros Hm Hc. apply server_values in Hc as (H1 & H2 & H3 & H4 & H5 & H6 & H7). pose proof (itoa_value m Hm).
  repeat (apply List.Forall_cons; [try (by apply setting_line_ok); by repeat split |]). constructor.
Qed.

(** The settings of a configuration, line by line. *)
Ltac read_setting c name :=
  intros (? & ? & _); etransitivity; [by apply (parse_setting_line c name) | reflexivity].

Lemma read_mtu v s : value_ok v -> parse_line zero_key ParseKey ResolveUDPAddr ("MTU = " ++ v) s = Ok (set_mtu v s).
Proof. read_setting "M"%char "TU". Qed.

Lemma read_address v s : value_ok v -> parse_line zero_key ParseKey ResolveUDPAddr ("Address = " ++ v) s = Ok (set_addr v s).
Proof. read_setting "A"%char "ddress". Qed.

Lemma read_private v s : value_ok v -> parse_line zero_key ParseKey ResolveUDPAddr ("PrivateKey = " ++ v) s =
  match ParseKey v with Some x => Ok (set_private x s) | None => Err InvalidPrivateKey end.
Proof. read_setting "P"%char "rivateKey". Qed.

Lemma read_public v s : value_ok v -> parse_line zero_key ParseKey ResolveUDPAddr ("PublicKey = " ++ v) s =
  match ParseKey v with Some x => Ok (on_cur (with_public x) s) | None => Err InvalidPublicKey end.
Proof. read_setting "P"%char "ublicKey". Qed.

Lemma read_endpoint v s : value_ok v -> parse_line zero_key ParseKey ResolveUDPAddr ("Endpoint = " ++ v) s =
  if negb (inPeer s) then Ok s
  else match ResolveUDPAddr v with Some u => Ok (on_cur (with_endpoint u) s) | None => Err (InvalidEndpoint v) end.
Proof. read_setting "E"%char "ndpoint". Qed.

Lemma read_keepalive v s : value_ok v -> parse_line zero_key ParseKey ResolveUDPAddr ("PersistentKeepalive = " ++ v) s =
  if negb (inPeer s) then Ok s
  else match atoi v with
       | Some secs => Ok (on_cur (with_keepalive (seconds secs)) s)
       | None => Err (InvalidKeepalive v)
       end.
Proof. read_setting "P"%char "ersistentKeepalive". Qed.

Lemma halves : allowed_ips (split_on "," "0.0.0.0/1, 128.0.0.0/1") = Ok [half 0; half 128].
Proof. vm_compute. reflexivity. Qed.

Lemma read_routes s :
  inPeer s = true -> parse_line zero_key ParseKey ResolveUDPAddr split_routes s = Ok (on_cur (with_allowed [half 0; half 128]) s).
Proof.
  intros Hs. unfold parse_line.
  assert (trim_space split_routes = split_routes) as -> by (by vm_compute).
  change (index_char "=" split_routes) with (Some 11%nat).
  change (String.eqb split_routes "" || has_prefix "#" split_routes || has_prefix ";" split_routes) with false.
  change (has_prefix "[" split_routes && has_suffix "]" split_routes) with false. cbv iota zeta.
  assert (to_lower (trim_space (stake 11 split_routes)) = "allowedips") as -> by reflexivity.
  assert (trim_space (sdrop 12 split_routes) = "0.0.0.0/1, 128.0.0.0/1") as -> by (by vm_compute).
  unfold setting. cbn [String.eqb Ascii.eqb Bool.eqb]. rewrite Hs. cbn [negb]. by rewrite halves.
Qed.

Lemma read_interface s : parse_line zero_key ParseKey ResolveUDPAddr "[Interface]" s = Ok (set_section (Peers s) false s).
Proof. reflexivity. Qed.

Lemma read_peer s : parse_line zero_key ParseKey ResolveUDPAddr "[Peer]" s = Ok (set_section (Peers s ++ [new_peer zero_key])%list true s).
Proof. reflexivity. Qed.

Lemma read_blank s : parse_line zero_key ParseKey ResolveUDPAddr "" s = Ok s.
Proof. reflexivity. Qed.

Lemma parse_cons l rest (s s' : wg_state (key := key) (udp := udp)) :
  parse_line zero_key ParseKey ResolveUDPAddr l s = Ok s' ->
  parse_lines zero_key ParseKey ResolveUDPAddr (l :: rest) s = parse_lines zero_key ParseKey ResolveUDPAddr rest s'.
Proof. intros E. cbn [parse_lines]. by rewrite E. Qed.

(** A configuration as the server sends it, patched for an MTU and read, sets up the interface
    with the server's key and address, that MTU, and one peer with the server's key, endpoint and
    keepalive, whose traffic is all of IPv4 in two halves. *)
Theorem server_config_applied m c k1 k2 u :
  0 < m <= max_int -> server_ok c -> ParseKey (s_private c) = Some k1 -> ParseKey (s_public c) = Some k2 ->
  ResolveUDPAddr (s_endpoint c) = Some u ->
  parseWGConfig zero_key ParseKey ResolveUDPAddr (patchWGConfig (text_of (server_lines c)) m) =
  Ok {| addr := s_address c; mtu := itoa m; PrivateKey := Some k1; ListenPort := None;
        Peers := [ {| PublicKey := k2; PresharedKey := None; AllowedIPs := [half 0; half 128]; Endpoint := Some u;
                      PersistentKeepaliveInterval := Some (seconds (s_keepalive c)); ReplaceAllowedIPs := true |} ];
        inPeer := true |} /\
  atoi (itoa m) = Some m.
Proof.
  intros Hm Hc Hk1 Hk2 Hu. assert (min_int <= s_keepalive c <= max_int) as Hka by apply Hc. assert (min_int <= m <= max_int) as Hm' by (unfold min_int; lia).
  split; [| by apply atoi_itoa]. rewrite patch_server by (done || lia).
  pose proof (patched_lines_ok m c Hm' Hc) as Hl. destruct (parse_text (patched_lines m c) Hl) as [E1 E2]; [done | by intros [=] |].
  unfold parseWGConfig. rewrite E1, E2. clear E1 E2 Hl.
  apply server_values in Hc as (H1 & H2 & _ & _ & H5 & H6 & H7). pose proof (itoa_value m Hm') as H0.
  unfold patched_lines.
  erewrite parse_cons; [| apply read_interface]. erewrite parse_cons; [| by apply read_mtu].
  erewrite parse_cons; [| rewrite read_private, Hk1 by done; reflexivity].
  erewrite parse_cons; [| by apply read_address]. erewrite parse_cons; [| apply read_blank]. erewrite parse_cons; [| apply read_peer].
  erewrite parse_cons; [| rewrite read_public, Hk2 by done; reflexivity].
  cbn [on_cur inPeer set_section alter_last Peers with_public app]. erewrite parse_cons; [| by apply read_routes].
  erewrite parse_cons; [| rewrite read_endpoint by done; cbn [negb inPeer set_section on_cur]; rewrite Hu; reflexivity].
  erewrite parse_cons; [| rewrite read_keepalive by done; cbn [negb inPeer set_section on_cur]; rewrite atoi_itoa by apply Hka; reflexivity].
  reflexivity.
Qed.

(** *** Every configuration that is read *)

Definition peer_ok (p : PeerConfig (key := key) (udp := udp)) : Prop :=
  ReplaceAllowedIPs p = true /\ Forall (fun n => exists a k, network_of n a k) (AllowedIPs p).

Definition cfg_ok (s : wg_state (key := key) (udp := udp)) : Prop :=
  Forall peer_ok (Peers s) /\ (inPeer s = true -> Peers s <> []) /\
  match ListenPort s with Some p => min_int <= p <= max_int | None => True end.

Lemma alter_last_ok f l : (forall p, peer_ok p -> peer_ok (f p)) -> Forall peer_ok l -> Forall peer_ok (alter_last f l).
Proof.
  intros Hf Hl. induction Hl as [| p l Hp Hl IH]; [constructor |]. destruct l as [| q l]; simpl.
  - constructor; [by apply Hf | constructor].
  - by constructor.
Qed.

Lemma alter_last_nonempty (f : PeerConfig -> PeerConfig) (l : list (PeerConfig (key := key) (udp := udp))) : l <> [] -> alter_last f l <> [].
Proof. by destruct l as [| p [|]]. Qed.

Lemma on_cur_ok f s : (forall p, peer_ok p -> peer_ok (f p)) -> cfg_ok s -> cfg_ok (on_cur f s).
Proof.
  intros Hf (H1 & H2 & H3). unfold on_cur. destruct (inPeer s) eqn:E; [| by split; [| split; [rewrite E |]]].
  split; [by apply alter_last_ok |]. split; [| done]. intros _. by apply alter_last_nonempty, H2.
Qed.

Lemma allowed_ips_ok pieces l : allowed_ips pieces = Ok l -> Forall (fun n => exists a k, network_of n a k) l.
Proof.
  revert l. induction pieces as [| p pieces IH]; intros l; cbn [allowed_ips]; [intros [= <-]; constructor |].
  cbv zeta. destruct (String.eqb _ _); [apply IH |]. pose proof (ParseCIDR_network (trim_space p)) as Hn.
  destruct (ParseCIDR _) as [[addr net] |]; [| done]. intros (l' & Hl & [= <-])%bind_ok.
  destruct Hn as (a & k & _ & Hn). constructor; [by exists a, k | by apply IH].
Qed.

Lemma atoi_range v n : atoi v = Some n -> min_int <= n <= max_int.
Proof.
  assert (forall n m, check_int n = Some m -> min_int <= m <= max_int) as Hc.
  { intros x y. unfold check_int. destruct (_ && _) eqn:E; [| done]. intros [= <-]. propify. done. }
  unfold atoi. destruct v as [| c v]; [done |].
  repeat (destruct (_ : bool); [|]); try done; destruct (digits_value _ _); simpl; try done; apply Hc.
Qed.

Lemma setting_ok k v s s' : setting ParseKey ResolveUDPAddr k v s = Ok s' -> cfg_ok s -> cfg_ok s'.
Proof.
  intros E Hs. pose proof Hs as (H1 & H2 & H3). unfold setting in E.
  repeat match type of E with (if ?b then _ else _) = _ => destruct b end;
    repeat match type of E with (match ?x with Some _ => _ | None => _ end) = _ => destruct x eqn:?; [| done] end;
    try (apply bind_ok in E as (l & Hl & E)); injection E as <-; try exact Hs;
    try (apply on_cur_ok; [intros p [Hp1 Hp2]; split; [done | try exact Hp2] | exact Hs]).
  - split; [done |]. split; [done |]. simpl. by eapply atoi_range.
  - simpl. apply Forall_app_2; [done |]. by eapply allowed_ips_ok.
Qed.

(** Whatever configuration is read, its peers replace their allowed networks, every network is
    well formed, the port is an int, and the pointer to the current peer is never dangling. *)
Theorem parsed_config_ok conf s :
  parseWGConfig zero_key ParseKey ResolveUDPAddr conf = Ok s -> cfg_ok s.
Proof.
  unfold parseWGConfig. destruct (scan_lines _) as [lines err].
  assert (forall lines s s', parse_lines zero_key ParseKey ResolveUDPAddr lines s = Ok s' -> cfg_ok s -> cfg_ok s') as Hl.
  { clear. induction lines as [| l lines IH]; intros s s'; cbn [parse_lines]; [by intros [= <-] |].
    intros (s1 & E1 & E2)%bind_ok Hs. eapply IH; [exact E2 |]. revert E1. unfold parse_line. cbv zeta.
    destruct (_ || _); [by intros [= <-] |]. destruct (_ && _).
    - destruct Hs as (H1 & H2 & H3). destruct (String.eqb _ _); intros [= <-]; (split; [| split]); try done.
      + apply Forall_app_2; [done |]. by repeat constructor.
      + intros _. simpl. by destruct (Peers s).
    - destruct (index_char _ _); [| by intros [= <-]]. intros E. by eapply setting_ok. }
  intros (s1 & E1 & E2)%bind_ok. destruct err; [done |]. injection E2 as <-. eapply Hl; [exact E1 |]. by repeat constructor.
Qed.
End server.

Lemma server_config_applied_witness :
  let U : Unicode := fun s => s in
  let c := {| s_private := "K1"; s_address := "10.66.66.2/32"; s_dns := "1.1.1.1"; s_mtu := "1420"; s_public := "K2";
              s_endpoint := "127.0.0.1:9000"; s_keepalive := 25 |} in
  parseWGConfig "" Some Some (patchWGConfig (text_of (server_lines c)) 1280) =
  Ok {| addr := "10.66.66.2/32"; mtu := "1280"; PrivateKey := Some "K1"; ListenPort := None;
        Peers := [ {| PublicKey := "K2"; PresharedKey := None; AllowedIPs := [half 0; half 128];
                      Endpoint := Some "127.0.0.1:9000"; PersistentKeepaliveInterval := Some 25000000000;
                      ReplaceAllowedIPs := true |} ];
        inPeer := true |}.
Proof.
  cbv zeta. set (c := {| s_private := "K1" |}).
  destruct (@server_config_applied string string "" Some Some (fun s => s) 1280 c "K1" "K2" "127.0.0.1:9000") as [E _];
    [by unfold max_int | | done .. |].
  - split; [| by vm_compute].
    repeat (apply List.Forall_cons; [by split; [| split] |]). constructor.
  - rewrite E. reflexivity.
Defined.

Lemma parsed_config_ok_witness :
  let U : Unicode := fun s => s in
  exists s, parseWGConfig "" Some (fun _ => None : option string) "[Peer]
ListenPort = 51820
AllowedIPs = 10.0.0.0/8, ::/0" = Ok s /\ cfg_ok s.
Proof.
  cbv zeta. destruct (@parseWGConfig string string "" Some (fun _ => None) (fun s => s) "[Peer]
ListenPort = 51820
AllowedIPs = 10.0.0.0/8, ::/0") as [s | e] eqn:E; [| vm_compute in E; discriminate].
  exists s. split; [done |]. exact (@parsed_config_ok string string "" Some (fun _ => None) (fun s => s) _ s E).
Defined.

Lemma relay_route_witness :
  Contains (cidrNet (toCIDRRoute "2001:db8::1")) [32;1;13;184;1;2;3;4;5;6;7;8;9;10;11;12] = true /\
  Contains (cidrNet (toCIDRRoute "95.163.1.1")) [95; 163; 1; 2] = false.
Proof.
  split.
  - destruct (relay_route "2001:db8::1" [32;1;13;184;0;0;0;0;0;0;0;0;0;0;0;1] [32;1;13;184;1;2;3;4;5;6;7;8;9;10;11;12]) as [_ H].
    + done.
    + by vm_compute.
    + by intros [_ Hm].
    + repeat (apply List.Forall_cons; [unfold byte_ok; lia |]). constructor.
    + by right.
    + apply H; [done |]. by split.
  - by vm_compute.
Defined.
