(* ===== verification/Tunnel.v ===== *)
(** * The WireGuard interface and its routes (wireguard_linux.go).

    Calls of the kernel, the resolver, the clock and the files go to a [World]: their outcome is any
    function of the calls made before, which are kept in the state as a history (latest call first).
    The interface, the routes around the tunnel that were set (bypass routes for domains, routes to
    TURN relays) and the cache of resolved domains are modelled, with the hot reload of the bypass
    lists. *)

From S2P Require Import Prelude Bytes GoStrings Hashing Sorting Net Json WgConfig Ip Router Url WgParse Effects.
From Stdlib Require Import ZArith Lia String Ascii.
From stdpp Require Import base sets list strings.
Open Scope string_scope.
Open Scope Z_scope.
Abbreviation join := GoStrings.join.

#[global] Instance IPNet_eq_dec : EqDecision IPNet.
Proof. solve_decision. Defined.

Definition wgIface : string := "wg-qwdtt".

(** ** Pure helpers *)

(** [Dst] and [Gw] of a netlink route; a nil address is the empty one. *)
Record Route := { Dst : option IPNet; Gw : option (list Z) }.

(** [mask.Size()]: [simpleMaskLength] and the number of bits. *)
Fixpoint leading_ones (fuel : nat) (b : Z) : Z :=
  match fuel with
  | O => 0
  | S f => if Z.testbit b 7 then 1 + leading_ones f (u8 (2 * b)) else 0
  end.

Fixpoint mask_ones (m : list Z) : option Z :=
  match m with
  | [] => Some 0
  | b :: rest =>
      if b =? 255 then Z.add 8 <$> mask_ones rest
      else
        let n := leading_ones 8 b in
        if (u8 (Z.shiftl b n) =? 0) && forallb (Z.eqb 0) rest then Some n else None
  end.

Definition mask_size (m : list Z) : Z * Z :=
  match mask_ones m with Some n => (n, 8 * Z.of_nat (length m)) | None => (0, 0) end.

Definition isDefaultRoute (r : Route) : bool :=
  match Dst r with
  | None => true
  | Some d =>
      if (length (net_ip d) =? 0)%nat then true
      else let '(ones, bits) := mask_size (net_mask d) in (0 <? bits) && (ones =? 0)
  end.

(** [dedupKeepOrder] *)
Fixpoint dedup_loop (src seen : list string) : list string :=
  match src with
  | [] => []
  | s :: rest => if bool_decide (s ∈ seen) then dedup_loop rest seen else s :: dedup_loop rest (s :: seen)
  end.

Definition dedupKeepOrder (src : list string) : list string := dedup_loop src [].

Definition mergeBypassDomains (own : list string) (others : list (list string)) : list string :=
  dedupKeepOrder (own ++ concat others)%list.

Definition cacheKey (domains : list string) : string :=
  hex_encode (sha256 (bytes_of (join "," (sort_stable string_less domains)))).

Definition splitCacheTTL : Z := 3600.

Record splitCacheEntry := { Key : string; Domains : list string; IPv4s : list string; Expires : Z }.
Definition no_entry : splitCacheEntry := {| Key := ""; Domains := []; IPv4s := []; Expires := 0 |}.

Definition isUnderRuntimeDir (rd path : string) : bool :=
  if String.eqb rd "" then false
  else let rd := trim_suffix "/" rd in String.eqb path rd || has_prefix (rd ++ "/") path.

(** The reply of a control socket to GET_BL, line by line: [querySocksBypass] behind the dial. *)
Inductive query_result := Domains_are (l : list string) | NotReady | UnexpectedEOF.

Fixpoint query_lines (lines : list string) (domains : list string) : query_result :=
  match lines with
  | [] => UnexpectedEOF
  | l :: rest =>
      let line := trim_space l in
      if String.eqb line "END_BL" then Domains_are domains
      else if String.eqb line "NOT_READY" then NotReady
      else if String.eqb line "" then query_lines rest domains
      else query_lines rest (domains ++ [line])%list
  end.

Section tunnel.
Context {key udp client : Type}.
Context `{Unicode}.
Abbreviation wg_state := (@wg_state key udp).

(** ** Calls *)

Inductive op :=
| LinkByName (name : string) | LinkAdd | LinkDel | LinkSetUp | LinkSetMTU (m : Z)
| ConfigureDevice (cfg : wg_state) | AddrAdd (n : IPNet)
| RouteList | RouteAdd (dst : IPNet) | RouteReplace (dst : IPNet) (gw : list Z) | RouteDel (dst : IPNet)
| Now | ReadCache | WriteCache (e : splitCacheEntry) | LookupIPAddr (domain : string)
| CurrentProfile | ReadBypassFile (path : string)
| WriteSplitCfg (profile bl blFile : string) (domains routes : list string)
| App (a : client).

Class World := {
  succeeds : list op -> op -> bool;
  route_list : list op -> option (list Route);
  unix_now : list op -> Z;
  cache_file : list op -> option splitCacheEntry;
  lookup_ip : list op -> string -> option (list (list Z));
  current_profile : list op -> string;
  bypass_file : list op -> string -> option json
}.
Context `{World}.

(** The package's variables, and the calls made so far. *)
Record tun := {
  history : list op; routedTurnIPs : list string; splitRoutes : list string;
  splitCacheInMemory : splitCacheEntry; activeRouter : option Router
}.

Abbreviation M := (State tun).

Definition with_history (h : list op) (s : tun) : tun :=
  {| history := h; routedTurnIPs := routedTurnIPs s; splitRoutes := splitRoutes s;
     splitCacheInMemory := splitCacheInMemory s; activeRouter := activeRouter s |}.
Definition set_turn (l : list string) : M unit := modify (fun s =>
  {| history := history s; routedTurnIPs := l; splitRoutes := splitRoutes s;
     splitCacheInMemory := splitCacheInMemory s; activeRouter := activeRouter s |}).
Definition set_split (l : list string) : M unit := modify (fun s =>
  {| history := history s; routedTurnIPs := routedTurnIPs s; splitRoutes := l;
     splitCacheInMemory := splitCacheInMemory s; activeRouter := activeRouter s |}).
Definition set_cache (e : splitCacheEntry) : M unit := modify (fun s =>
  {| history := history s; routedTurnIPs := routedTurnIPs s; splitRoutes := splitRoutes s;
     splitCacheInMemory := e; activeRouter := activeRouter s |}).
Definition set_router (r : option Router) : M unit := modify (fun s =>
  {| history := history s; routedTurnIPs := routedTurnIPs s; splitRoutes := splitRoutes s;
     splitCacheInMemory := splitCacheInMemory s; activeRouter := r |}).

(** A call with its answer. *)
Definition ask {A} (f : list op -> A) (o : op) : M A := fun s => (f (history s), with_history (o :: history s) s).
Definition call (o : op) : M bool := ask (fun h => succeeds h o) o.

(** ** Resolving the domains of the bypass list *)

Definition loadSplitCache (k : string) : M (option splitCacheEntry) :=
  e ← ask cache_file ReadCache;
  match e with
  | None => mret None
  | Some entry =>
      if negb (String.eqb (Key entry) k) then mret None
      else t ← ask unix_now Now; mret (if Expires entry <? t then None else Some entry)
  end.

(** The entries of one domain that are added to [ips]; [seen] holds the same texts as [ips]. *)
Definition add_new (texts ips : list string) : list string :=
  foldl (fun ips s => if bool_decide (s ∈ ips) then ips else ips ++ [s])%list ips texts.

Definition ipv4_texts (addrs : list (list Z)) : list string := ip_string <$> omap To4 addrs.

Definition resolve_one (d : string) : M (list string) :=
  match ParseIP d with
  | Some ip => mret (ipv4_texts [ip])
  | None =>
      match ParseCIDR d with
      | Some _ => mret [d]
      | None =>
          r ← ask (fun h => lookup_ip h d) (LookupIPAddr d);
          mret (match r with Some addrs => ipv4_texts addrs | None => [] end)
      end
  end.

Fixpoint resolve_all (domains ips : list string) : M (list string) :=
  match domains with
  | [] => mret ips
  | d :: rest => texts ← resolve_one d; resolve_all rest (add_new texts ips)
  end.

(** [resolveDomainIPs]; [None] is an error. *)
Definition resolve_fresh (k : string) (domains : list string) : M (option (list string)) :=
  ips ← resolve_all domains [];
  if (length ips =? 0)%nat then mret None
  else
    t ← ask unix_now Now;
    let entry := {| Key := k; Domains := domains; IPv4s := ips; Expires := t + splitCacheTTL |} in
    _ ← set_cache entry; _ ← call (WriteCache entry); mret (Some ips).

Definition resolve_file (k : string) (domains : list string) : M (option (list string)) :=
  e ← loadSplitCache k;
  match e with
  | Some entry => _ ← set_cache entry; mret (Some (IPv4s entry))
  | None => resolve_fresh k domains
  end.

Definition resolveDomainIPs (domains : list string) : M (option (list string)) :=
  if (length domains =? 0)%nat then mret None
  else
    let k := cacheKey domains in
    mem ← gets splitCacheInMemory;
    if String.eqb (Key mem) k then
      t ← ask unix_now Now;
      if (t <? Expires mem) && (0 <? length (IPv4s mem))%nat then mret (Some (IPv4s mem)) else resolve_file k domains
    else resolve_file k domains.

(** ** Routes *)

Definition first_gateway (l : option (list Route)) : option (list Z) :=
  match l with
  | Some routes => head (omap (fun r => if isDefaultRoute r then Gw r else None) routes)
  | None => None
  end.

Definition defaultGateway : M (option (list Z)) := l ← ask route_list RouteList; mret (first_gateway l).

Definition routeViaGateway (cidr : string) (gateway : list Z) : M bool := call (RouteReplace (cidrNet cidr) gateway).

(** [routedTurnIPs = append(routedTurnIPs, cidr)], [splitRoutes = append(splitRoutes, cidr)] *)
Definition track_turn (cidr : string) : M unit := l ← gets routedTurnIPs; set_turn (l ++ [cidr])%list.
Definition track_split (cidr : string) : M unit := l ← gets splitRoutes; set_split (l ++ [cidr])%list.

Fixpoint turn_routes (turnIPs : list string) (gateway : list Z) : M unit :=
  match turnIPs with
  | [] => mret tt
  | ip :: rest =>
      if String.eqb ip "" then turn_routes rest gateway
      else
        let cidr := toCIDRRoute ip in
        b ← routeViaGateway cidr gateway;
        _ ← (if b : bool then track_turn cidr else mret tt);
        turn_routes rest gateway
  end.

Definition applyTurnIPsBypass (turnIPs : list string) (gateway : list Z) : M unit :=
  _ ← set_turn []; turn_routes turnIPs gateway.

(** The loop of [addKernelBypassRoutes]: the routes added. *)
Fixpoint bypass_routes (ips : list string) (gateway : list Z) : M (list string) :=
  match ips with
  | [] => mret []
  | ip :: rest =>
      let cidr := toCIDRRoute ip in
      b ← routeViaGateway cidr gateway;
      if b : bool then
        _ ← track_split cidr;
        routes ← bypass_routes rest gateway; mret (cidr :: routes)
      else bypass_routes rest gateway
  end.

Definition addKernelBypassRoutes (domains : list string) : M (list string) :=
  if (length domains =? 0)%nat then mret []
  else
    r ← resolveDomainIPs domains;
    match r with
    | None => mret []
    | Some ips =>
        if (length ips =? 0)%nat then mret []
        else
          g ← defaultGateway;
          match g with None => mret [] | Some gateway => bypass_routes ips gateway end
    end.

Fixpoint delete_routes (dsts : list IPNet) : M unit :=
  match dsts with [] => mret tt | d :: rest => _ ← call (RouteDel d); delete_routes rest end.

Definition clearSplitRoutes : M unit :=
  l ← gets splitRoutes; _ ← delete_routes (cidrNet <$> l); set_split [].

Definition halves_text : list string := ["0.0.0.0/1"; "128.0.0.0/1"].

Definition teardownTunnelRoutes : M unit :=
  _ ← clearSplitRoutes;
  l ← gets routedTurnIPs;
  _ ← delete_routes ((fun ip => cidrNet (toCIDRRoute ip)) <$> l);
  _ ← set_turn [];
  delete_routes (cidrNet <$> halves_text).

(** [teardownWG]: whether it succeeds. *)
Definition teardownWG : M bool :=
  _ ← teardownTunnelRoutes;
  found ← call (LinkByName wgIface);
  if found : bool then call LinkDel else mret true.

(** ** The interface *)

Inductive apply_error :=
| ParseFailed (e : wg_error) | NoAddress | RemoveFailed | AddFailed | LookupFailed | ConfigureFailed | SetUpFailed
| BadAddress (a : string) | AssignFailed (a : string).

(** The body of the loop over the addresses, until the first error. *)
Fixpoint assign_addresses (pieces : list string) : M (option apply_error) :=
  match pieces with
  | [] => mret None
  | a :: rest =>
      let a := trim_space a in
      if String.eqb a "" then assign_addresses rest
      else match parseIPNet a with
           | None => _ ← teardownWG; mret (Some (BadAddress a))
           | Some ipnet =>
               b ← call (AddrAdd ipnet);
               if b : bool then assign_addresses rest else _ ← teardownWG; mret (Some (AssignFailed a))
           end
  end.

Definition set_mtu_of (mtu : string) : M unit :=
  if String.eqb mtu "" then mret tt
  else match atoi mtu with Some m => _ ← call (LinkSetMTU m); mret tt | None => mret tt end.

(** The routes of [applyWGConfig]: around the tunnel first, then into it. *)
Fixpoint add_routes (dsts : list IPNet) : M unit :=
  match dsts with [] => mret tt | d :: rest => _ ← call (RouteAdd d); add_routes rest end.

Definition bypass_setup (turnIPs domains : list string) (g : option (list Z)) : M unit :=
  match g with
  | Some gateway => _ ← applyTurnIPsBypass turnIPs gateway; _ ← addKernelBypassRoutes domains; mret tt
  | None => mret tt
  end.

Definition install_routes (turnIPs domains : list string) : M unit :=
  g ← defaultGateway;
  _ ← bypass_setup turnIPs domains g;
  add_routes (cidrNet <$> halves_text).

Record splitTunnelConfig := { mode : string; domains : list string; rawBl : string; rawFile : string }.

Definition split_domains (c : option splitTunnelConfig) : list string :=
  match c with Some c => if String.eqb (mode c) "blacklist" then domains c else [] | None => [] end.

(** [applyWGConfig] from the creation of the interface on. *)
Definition setup_interface (wg : wg_state) (turnIPs : list string) (splitCfg : option splitTunnelConfig) :
    M (result apply_error unit) :=
  added ← call LinkAdd;
  if negb added then mret (Err AddFailed)
  else
    found ← call (LinkByName wgIface);
    if negb found then _ ← teardownWG; mret (Err LookupFailed)
    else
      configured ← call (ConfigureDevice wg);
      if negb configured then _ ← teardownWG; mret (Err ConfigureFailed)
      else
        up ← call LinkSetUp;
        if negb up then _ ← teardownWG; mret (Err SetUpFailed)
        else
          e ← assign_addresses (split_on "," (addr wg));
          match e with
          | Some e => mret (Err e)
          | None => _ ← set_mtu_of (mtu wg); _ ← install_routes turnIPs (split_domains splitCfg); mret (Ok tt)
          end.

Section config.
Context (zero_key : key) (ParseKey : string -> option key) (ResolveUDPAddr : string -> option udp).
Definition applyWGConfig (config : string) (turnIPs : list string) (splitCfg : option splitTunnelConfig) :
    M (result apply_error unit) :=
  match parseWGConfig zero_key ParseKey ResolveUDPAddr config with
  | Err e => mret (Err (ParseFailed e))
  | Ok wg =>
      if String.eqb (addr wg) "" then mret (Err NoAddress)
      else
        exists_ ← call (LinkByName wgIface);
        removed ← (if exists_ : bool then teardownWG else mret true);
        if removed : bool then setup_interface wg turnIPs splitCfg else mret (Err RemoveFailed)
  end.
End config.

(** ** Hot reload *)

(** [strings.Fields]: the parts between runs of space runes; [skip] bytes of a space rune are left. *)
Fixpoint fields_loop (s : string) (skip : nat) (cur : string) : list string :=
  let flush := if String.eqb cur "" then [] else [cur] in
  match s with
  | "" => flush
  | String c s' =>
      match skip with
      | S k => fields_loop s' k ""
      | O =>
          match leading_space s with
          | Some n => (flush ++ fields_loop s' (n - 1) "")%list
          | None => fields_loop s' 0 (cur ++ String c "")
          end
      end
  end.
Definition fields (s : string) : list string := fields_loop s 0 "".

(** [splitDomains]; [None] ends the process. *)
Definition splitDomains (raw : string) : option (list string) :=
  if existsb (contains ",") (fields raw) then None else Some (dedupKeepOrder (fields raw)).

Definition nonblank (l : list string) : list string :=
  filter (fun d => d <> "") (trim_space <$> l).

(** [loadBypassRoutesFile] behind the reading of the file: the field "bypassRoutes" is a list of
    strings (null entries are empty strings, and null is an empty list) or one string with a line for
    each entry. *)
Definition str_or_null (v : json) : option string :=
  match v with JStr s => Some s | JNull => Some "" | _ => None end.

Definition bypass_entries (v : json) : option (list string) :=
  match v with
  | JNull => Some []
  | JArr l => mapM str_or_null l
  | JStr s => Some (nonblank (split_on nl s))
  | _ => None
  end.

Definition loadBypassRoutes (v : json) : option (list string) :=
  l ← bypass_entries v; Some (dedupKeepOrder (nonblank l)).

Inductive reload_error :=
| NoAutoswitchProfile | ProcessExit | BadFile | NoRunner (profile : string) | UnsupportedMode (m : string).

(** The kernel routes of a SOCKS profile; [rawIface] is the interface of raw mode. *)
Definition reload_routes (rawIface : string) (domains : list string) : M (list string) :=
  wg ← call (LinkByName wgIface);
  raw ← (if wg : bool then mret true else call (LinkByName rawIface));
  if raw : bool then _ ← clearSplitRoutes; addKernelBypassRoutes domains else mret [].

(** [reloadSplitRoutes] with the domains; the number of domains and of routes of its summary. *)
Definition reload_with (rawIface md blRaw profile newFile : string) (domains : list string) :
    M (result reload_error (nat * nat)) :=
  if String.eqb md "socks" then
    r ← gets activeRouter;
    match r with
    | None => mret (Err (NoRunner profile))
    | Some router =>
        ips ← resolveDomainIPs domains;
        _ ← set_router (Some (Update domains (default [] ips) router));
        routes ← reload_routes rawIface domains;
        _ ← call (WriteSplitCfg profile blRaw newFile domains routes);
        mret (Ok (length domains, length routes))
    end
  else if String.eqb md "tun" || String.eqb md "raw" then
    _ ← clearSplitRoutes;
    routes ← addKernelBypassRoutes domains;
    _ ← call (WriteSplitCfg profile blRaw newFile domains routes);
    mret (Ok (length domains, length routes))
  else mret (Err (UnsupportedMode md)).

Definition file_domains (newFile : string) : M (option (list string)) :=
  if String.eqb newFile "" then mret (Some [])
  else f ← ask (fun h => bypass_file h newFile) (ReadBypassFile newFile); mret (f ≫= loadBypassRoutes).

Definition reloadSplitRoutes (rawIface md blRaw daemonProfile newFile : string) : M (result reload_error (nat * nat)) :=
  profile ← (if String.eqb daemonProfile "autoswitch" then ask current_profile CurrentProfile else mret daemonProfile);
  if String.eqb daemonProfile "autoswitch" && String.eqb profile "" then mret (Err NoAutoswitchProfile)
  else
    match splitDomains blRaw with
    | None => mret (Err ProcessExit)
    | Some blDomains =>
        f ← file_domains newFile;
        match f with
        | None => mret (Err BadFile)
        | Some fileDomains => reload_with rawIface md blRaw profile newFile (dedupKeepOrder (blDomains ++ fileDomains)%list)
        end
    end.

(** ** Kernel routes *)

(** The routes the kernel holds of those the package added: a deletion that fails leaves its route.
    That the kernel also drops the routes through an interface that is deleted is not counted. *)
Fixpoint kernel_routes (h : list op) : list IPNet :=
  match h with
  | [] => []
  | o :: h' =>
      match o with
      | RouteAdd d | RouteReplace d _ => if succeeds h' o then d :: kernel_routes h' else kernel_routes h'
      | RouteDel d => if succeeds h' o then filter (.≠ d) (kernel_routes h') else kernel_routes h'
      | _ => kernel_routes h'
      end
  end.

(** The destinations whose deletion failed when it was last asked for; the code ignores the error and forgets the
    route. *)
Fixpoint refused (h : list op) : list IPNet :=
  match h with
  | [] => []
  | o :: h' =>
      match o with
      | RouteDel d => if succeeds h' o then filter (.≠ d) (refused h') else d :: refused h'
      | _ => refused h'
      end
  end.

(** The destinations of routes that were added and for which no deletion was asked for since, whatever came of it. *)
Fixpoint undeleted (h : list op) : list IPNet :=
  match h with
  | [] => []
  | o :: h' =>
      match o with
      | RouteAdd d | RouteReplace d _ => if succeeds h' o then d :: undeleted h' else undeleted h'
      | RouteDel d => filter (.≠ d) (undeleted h')
      | _ => undeleted h'
      end
  end.

(** A route in the kernel has not been deleted yet, or its deletion failed. *)
Lemma kernel_undeleted h : kernel_routes h ⊆ (undeleted h ++ refused h)%list.
Proof.
  induction h as [| o h IH]; [set_solver |]. destruct o; try exact IH; cbn [kernel_routes undeleted refused];
    destruct (succeeds _ _); try set_solver.
  - intros x [Hx Hin]%list_elem_of_filter. apply IH in Hin. apply elem_of_app in Hin as [Hin | Hin]; apply elem_of_app;
      [left | right]; by apply list_elem_of_filter.
  - intros x Hin. apply IH, elem_of_app in Hin as [Hin | Hin]; apply elem_of_app; destruct (decide (x = dst)) as [-> |];
      first [right; by left | left; by apply list_elem_of_filter | right; by right].
Qed.

Lemma kernel_refused h : undeleted h = [] -> kernel_routes h ⊆ refused h.
Proof. intros E. pose proof (kernel_undeleted h) as Hk. by rewrite E in Hk. Qed.

(** Without failed deletions nothing is refused. *)
Lemma refused_none h : (forall h' d, succeeds h' (RouteDel d) = true) -> refused h = [].
Proof.
  intros Hd. induction h as [| o h IH]; [done |]. destruct o; try exact IH. cbn [refused]. by rewrite Hd, IH.
Qed.

Lemma kernel_emptied h : undeleted h = [] -> (forall h' d, succeeds h' (RouteDel d) = true) -> kernel_routes h = [].
Proof.
  intros E Hd. pose proof (kernel_refused h E) as Hk. rewrite (refused_none h Hd) in Hk.
  destruct (kernel_routes h) as [| d l]; [done |]. specialize (Hk d ltac:(by left)). by apply elem_of_nil in Hk.
Qed.

Definition route_op (o : op) : bool :=
  match o with RouteAdd _ | RouteReplace _ _ | RouteDel _ => true | _ => false end.

(** The routes the package can remove: those it tracks, with or without the routes to relays, and the two
    of the full tunnel. *)
Definition turn_nets (b : bool) (s : tun) : list IPNet :=
  if b then (fun ip => cidrNet (toCIDRRoute ip)) <$> routedTurnIPs s else [].
Definition known (b : bool) (s : tun) : list IPNet :=
  ((cidrNet <$> splitRoutes s) ++ turn_nets b s ++ (cidrNet <$> halves_text))%list.

Definition tracked (b : bool) (extra : list IPNet) (s : tun) : Prop := undeleted (history s) ⊆ (extra ++ known b s)%list.
Definition clean (s : tun) : Prop := undeleted (history s) = [].

Lemma clean_tracked b s : clean s -> tracked b [] s.
Proof. unfold clean, tracked. intros ->. set_solver. Qed.

Lemma tracked_weaken b X s : tracked false X s -> tracked b X s.
Proof. unfold tracked, known, turn_nets. destruct b; set_solver. Qed.

Lemma ask_keeps {A} (f : list op -> A) o (P : tun -> Prop) :
  (forall s, P s -> P (with_history (o :: history s) s)) -> keeps P (ask f o).
Proof. intros HP s Hs. by apply HP. Qed.

Lemma no_route_op o h : route_op o = false -> undeleted (o :: h) = undeleted h.
Proof. by destruct o. Qed.

(** Calls that are not about routes, and the other variables, leave the routes alone. *)
Lemma ask_clean {A} (f : list op -> A) o : route_op o = false -> keeps clean (ask f o).
Proof. intros Ho. apply ask_keeps. unfold clean. intros s Hs. change (undeleted (o :: history s) = []). by rewrite no_route_op. Qed.

Lemma ask_tracked {A} b X (f : list op -> A) o : route_op o = false -> keeps (tracked b X) (ask f o).
Proof. intros Ho. apply ask_keeps. intros s Hs. change (undeleted (o :: history s) ⊆ (X ++ known b s)%list). by rewrite no_route_op. Qed.

Lemma call_clean o : route_op o = false -> keeps clean (call o).
Proof. apply ask_clean. Qed.
Lemma call_tracked b X o : route_op o = false -> keeps (tracked b X) (call o).
Proof. apply ask_tracked. Qed.
Lemma set_cache_clean e : keeps clean (set_cache e).
Proof. by apply sat_modify. Qed.
Lemma set_cache_tracked b X e : keeps (tracked b X) (set_cache e).
Proof. by apply sat_modify. Qed.
Lemma set_router_tracked b X e : keeps (tracked b X) (set_router e).
Proof. by apply sat_modify. Qed.
#[local] Hint Resolve ask_clean ask_tracked call_clean call_tracked set_cache_clean set_cache_tracked set_router_tracked : effects.
#[local] Hint Extern 1 (route_op _ = false) => reflexivity : effects.

Section pure_calls.
Context (P : tun -> Prop)
  (Pask : forall A (f : list op -> A) o, route_op o = false -> keeps P (ask f o))
  (Pcache : forall e, keeps P (set_cache e)).
#[local] Hint Resolve Pask Pcache : effects.

Lemma call_pure o : route_op o = false -> keeps P (call o).
Proof. apply Pask. Qed.
#[local] Hint Resolve call_pure : effects.

Lemma resolve_all_keeps ds ips : keeps P (resolve_all ds ips).
Proof. revert ips. induction ds as [| d ds IH]; intros ips; simpl; [keep |]. unfold resolve_one. keep. Qed.
#[local] Hint Resolve resolve_all_keeps : effects.

Lemma resolve_keeps ds : keeps P (resolveDomainIPs ds).
Proof.
  assert (forall k, keeps P (resolve_file k ds)) by (intros k; unfold resolve_file, resolve_fresh, loadSplitCache; keep).
  unfold resolveDomainIPs. keep.
Qed.

Lemma gateway_keeps : keeps P defaultGateway.
Proof. unfold defaultGateway. keep. Qed.
End pure_calls.

Lemma resolve_tracked b X ds : keeps (tracked b X) (resolveDomainIPs ds).
Proof. apply resolve_keeps; auto with effects. Qed.
Lemma gateway_tracked b X : keeps (tracked b X) defaultGateway.
Proof. apply gateway_keeps; auto with effects. Qed.
Lemma gateway_clean : keeps clean defaultGateway.
Proof. apply gateway_keeps; auto with effects. Qed.
#[local] Hint Resolve resolve_tracked gateway_tracked gateway_clean : effects.

(** *** Adding *)

Lemma toCIDRRoute_idem s : toCIDRRoute (toCIDRRoute s) = toCIDRRoute s.
Proof.
  unfold toCIDRRoute. destruct (contains "/" s) eqn:E; [by rewrite E |].
  assert (contains "/" (s ++ "/32") = true) as ->; [| done].
  unfold contains. clear E. induction s as [| c s IH]; [done |].
  change (GoStrings.index "/" (String c s ++ "/32"))
    with (if has_prefix "/" (String c (s ++ "/32")) then Some 0%nat else S <$> GoStrings.index "/" (s ++ "/32")).
  destruct (has_prefix "/" _); [done |]. by destruct (GoStrings.index "/" (s ++ "/32")).
Qed.

Lemma via_tracked t X c g : sat (tracked t X) (routeViaGateway c g) (fun b => tracked t (if b then cidrNet c :: X else X)).
Proof.
  intros s Hs. unfold routeViaGateway, call, ask, tracked. cbn [fst snd history with_history undeleted].
  change (known t (with_history _ s)) with (known t s). unfold tracked in Hs.
  destruct (succeeds _ _); set_solver.
Qed.

Lemma add_split_tracked b X c : sat (tracked b (cidrNet c :: X)) (track_split c) (fun _ => tracked b X).
Proof. 
  intros s Hs. change (undeleted (history s) ⊆ (X ++ (cidrNet <$> splitRoutes s ++ [c]) ++
    turn_nets b s ++ (cidrNet <$> halves_text)))%list.
  unfold tracked, known in Hs. rewrite fmap_app, list_fmap_singleton. set_solver.
Qed.

Lemma add_turn_tracked X ip :
  sat (tracked true (cidrNet (toCIDRRoute ip) :: X)) (track_turn (toCIDRRoute ip)) (fun _ => tracked true X).
Proof.
  intros s Hs. change (undeleted (history s) ⊆ (X ++ (cidrNet <$> splitRoutes s) ++
    ((fun r => cidrNet (toCIDRRoute r)) <$> routedTurnIPs s ++ [toCIDRRoute ip]) ++ (cidrNet <$> halves_text)))%list.
  unfold tracked, known, turn_nets in Hs. rewrite fmap_app, list_fmap_singleton, toCIDRRoute_idem. set_solver.
Qed.

Lemma turn_routes_tracked X l g : keeps (tracked true X) (turn_routes l g).
Proof.
  induction l as [| ip l IH]; simpl; [keep |]. destruct (String.eqb ip ""); [done |].
  eapply sat_bind; [apply via_tracked |]. intros [].
  - eapply sat_bind; [apply add_turn_tracked |]. by intros [].
  - by apply (sat_bind _ _ (fun _ => tracked true X)); [apply keeps_ret | intros []].
Qed.

(** [applyTurnIPsBypass] forgets the relays routed before: none of their routes may be left undeleted. *)
Lemma apply_turn_tracked l g : sat (tracked false []) (applyTurnIPsBypass l g) (fun _ => tracked true []).
Proof.
  eapply sat_bind with (R := fun _ => tracked true []); [| intros []; apply turn_routes_tracked].
  apply sat_modify. intros s Hs. exact Hs.
Qed.

Lemma bypass_routes_tracked b X l g : keeps (tracked b X) (bypass_routes l g).
Proof.
  induction l as [| ip l IH]; simpl; [keep |].
  eapply sat_bind; [apply via_tracked |]. intros []; [| done].
  eapply sat_bind; [apply add_split_tracked |]. intros []. by apply keeps_bind; [| intros ?; apply keeps_ret].
Qed.

Lemma add_bypass_tracked b X ds : keeps (tracked b X) (addKernelBypassRoutes ds).
Proof. pose proof bypass_routes_tracked. unfold addKernelBypassRoutes. keep. Qed.

Lemma add_halves_tracked b l : incl l (cidrNet <$> halves_text) -> keeps (tracked b []) (add_routes l).
Proof.
  induction l as [| d l IH]; intros Hl; simpl; [keep |].
  apply keeps_bind; [| intros _; apply IH; intros x Hx; apply Hl; by right].
  apply ask_keeps. intros s Hs. assert (d ∈ cidrNet <$> halves_text) as Hd by (apply list_elem_of_In, Hl; by left).
  change (undeleted (RouteAdd d :: history s) ⊆ known b s). change (undeleted (history s) ⊆ known b s) in Hs.
  cbn [undeleted]. unfold known in *. destruct (succeeds _ _); set_solver.
Qed.

(** *** Removing *)

Lemma delete_undeleted l s : forall d, d ∈ undeleted (history (delete_routes l s).2) <-> d ∈ undeleted (history s) /\ d ∉ l.
Proof.
  revert s. induction l as [| x l IH]; intros s d; [set_solver |].
  change (delete_routes (x :: l) s) with (delete_routes l (with_history (RouteDel x :: history s) s)).
  rewrite IH. cbn [history with_history undeleted]. rewrite list_elem_of_filter. set_solver.
Qed.

Lemma delete_fields l s : (forall b, known b (delete_routes l s).2 = known b s) /\ splitRoutes (delete_routes l s).2 = splitRoutes s /\  routedTurnIPs (delete_routes l s).2 = routedTurnIPs s.
Proof.
  revert s. induction l as [| x l IH]; intros s; [done |].
  change (delete_routes (x :: l) s) with (delete_routes l (with_history (RouteDel x :: history s) s)).
  destruct (IH (with_history (RouteDel x :: history s) s)) as (H1 & -> & ->). split; [| done].
  intros b. by rewrite H1.
Qed.

Lemma clear_split_tracked b s :
  tracked b [] s -> tracked b [] (clearSplitRoutes s).2 /\ splitRoutes (clearSplitRoutes s).2 = [] /\ routedTurnIPs (clearSplitRoutes s).2 = routedTurnIPs s.
Proof.
  intros Hs. unfold clearSplitRoutes. rewrite run_bind. cbn [fst snd gets]. rewrite run_bind.
  set (s' := (delete_routes (cidrNet <$> splitRoutes s) s).2).
  destruct (delete_fields (cidrNet <$> splitRoutes s) s) as (_ & _ & Ht). fold s' in Ht.
  split; [| done]. intros d Hd. change (d ∈ undeleted (history s')) in Hd.
  apply delete_undeleted in Hd as [Hd Hn]. apply Hs in Hd. unfold known, turn_nets in *.
  cbn [splitRoutes routedTurnIPs set_split modify snd fst]. rewrite Ht. set_solver.
Qed.

Lemma clear_tracked b : keeps (tracked b []) clearSplitRoutes.
Proof. intros s Hs. by apply clear_split_tracked. Qed.

(** The tear-down removes every route that is tracked, and the two of the full tunnel. *)
Lemma teardown_routes_clean : sat (tracked true []) teardownTunnelRoutes (fun _ => clean).
Proof.
  intros s Hs. unfold teardownTunnelRoutes. rewrite run_bind.
  destruct (clear_split_tracked true s Hs) as (Hs1 & Hsplit & _). set (s1 := (clearSplitRoutes s).2) in *.
  rewrite run_bind. cbn [fst snd gets].
  set (turns := (fun ip => cidrNet (toCIDRRoute ip)) <$> routedTurnIPs s1). rewrite run_bind.
  set (s2 := (delete_routes turns s1).2). rewrite run_bind. cbn [fst snd set_turn modify].
  unfold clean. destruct (undeleted _) as [| d rest] eqn:E; [done | exfalso].
  assert (d ∈ d :: rest) as Hd by (by left). rewrite <- E in Hd. clear E.
  apply delete_undeleted in Hd as [Hd Hh]. change (d ∈ undeleted (history s2)) in Hd.
  apply delete_undeleted in Hd as [Hd Ht]. apply Hs1 in Hd. unfold known, turn_nets in Hd. rewrite Hsplit in Hd. set_solver.
Qed.

Lemma teardown_clean : sat (tracked true []) teardownWG (fun _ => clean).
Proof. eapply sat_bind; [apply teardown_routes_clean |]. intros []. keep. Qed.

Lemma teardown_stays_clean : keeps clean teardownWG.
Proof. apply (sat_weaken _ _ _ _ _ teardown_clean); [apply clean_tracked | done]. Qed.
#[local] Hint Resolve add_bypass_tracked clear_tracked teardown_stays_clean : effects.

(** *** Set-up and reload *)

Lemma install_tracked turnIPs ds : sat (tracked false []) (install_routes turnIPs ds) (fun _ => tracked true []).
Proof.
  unfold install_routes. eapply sat_bind; [apply gateway_tracked |]. intros g.
  apply (sat_bind _ _ (fun _ => tracked true [])); [| intros []; apply add_halves_tracked, incl_refl].
  destruct g as [g |]; simpl; [| apply sat_ret; intros s Hs; by apply tracked_weaken].
  eapply sat_bind; [apply apply_turn_tracked |]. intros []. keep.
Qed.

Lemma teardown_tracked b : sat (tracked b []) teardownWG (fun _ => clean).
Proof. apply (sat_weaken _ _ _ _ _ teardown_clean); [| done]. intros s. destruct b; [done |]. apply tracked_weaken. Qed.

Lemma teardown_stays_tracked : keeps (tracked false []) teardownWG.
Proof. apply (sat_weaken _ _ _ _ _ (teardown_tracked false)); [done |]. intros _. apply clean_tracked. Qed.
#[local] Hint Resolve teardown_stays_tracked : effects.

Lemma assign_clean l : keeps clean (assign_addresses l).
Proof. induction l as [| a l IH]; simpl; keep. Qed.
Lemma assign_tracked l : keeps (tracked false []) (assign_addresses l).
Proof. induction l as [| a l IH]; simpl; keep. Qed.
#[local] Hint Resolve assign_clean assign_tracked : effects.

(** After a failure nothing depends on the relays routed before. *)
Definition set_up (r : result apply_error unit) : tun -> Prop :=
  match r with Ok _ => tracked true [] | Err _ => tracked false [] end.

Lemma setup_tracked wg turnIPs cfg : sat (tracked false []) (setup_interface wg turnIPs cfg) set_up.
Proof.
  unfold setup_interface.
  repeat (eapply sat_bind; [solve [apply call_tracked; reflexivity] | intros []; cbn [negb];
    [| solve [by apply sat_ret | eapply sat_bind; [apply teardown_stays_tracked | intros ?; by apply sat_ret]]]]).
  eapply sat_bind; [apply assign_tracked |]. intros [e |]; [by apply sat_ret |].
  eapply (sat_bind _ _ (fun _ => tracked false [])); [unfold set_mtu_of; keep | intros []].
  eapply sat_bind; [apply install_tracked |]. intros []. by apply sat_ret.
Qed.

Lemma apply_tracked zero_key ParseKey ResolveUDPAddr config turnIPs cfg :
  sat (tracked false []) (applyWGConfig zero_key ParseKey ResolveUDPAddr config turnIPs cfg) set_up.
Proof.
  unfold applyWGConfig. destruct (parseWGConfig _ _ _ _) as [wg | e]; [| by apply sat_ret].
  destruct (String.eqb _ _); [by apply sat_ret |].
  eapply sat_bind; [by apply call_tracked |]. intros found.
  apply (sat_bind _ _ (fun _ => tracked false [])); [keep |]. intros []; [apply setup_tracked | by apply sat_ret].
Qed.

Lemma reload_tracked b rawIface md blRaw profile newFile : keeps (tracked b []) (reloadSplitRoutes rawIface md blRaw profile newFile).
Proof. unfold reloadSplitRoutes, file_domains, reload_with, reload_routes. keep. Qed.

(** ** What a set-up did *)

(** [o] was called with success; [issued o]: it was called. *)
Definition did (o : op) (s : tun) : Prop := exists h1 h2, history s = (h1 ++ o :: h2)%list /\ succeeds h2 o = true.
Definition dones (os : list op) (s : tun) : Prop := Forall (fun o => did o s) os.
Definition issued (os : list op) (s : tun) : Prop := Forall (fun o => o ∈ history s) os.

(** Properties of the history that more calls do not change. *)
Record monotone (P : tun -> Prop) : Prop := {
  mono_call : forall s o, P s -> P (with_history (o :: history s) s);
  mono_vars : forall s s', history s' = history s -> P s -> P s'
}.

Lemma dones_monotone os : monotone (dones os).
Proof.
  split; intros s x; unfold dones, did.
  - intros Hs. eapply Forall_impl; [exact Hs |]. intros o (h1 & h2 & E & Ho). exists (x :: h1), h2. cbn. by rewrite E.
  - intros E Hs. by rewrite E.
Qed.

Lemma issued_monotone os : monotone (issued os).
Proof.
  split; intros s x; unfold issued.
  - intros Hs. eapply Forall_impl; [exact Hs |]. intros o Ho. cbn. by right.
  - intros E Hs. by rewrite E.
Qed.
#[local] Hint Resolve dones_monotone issued_monotone : effects.

Section monotone.
Context (P : tun -> Prop) (Hm : monotone P).

Lemma mono_ask {A} (f : list op -> A) o : keeps P (ask f o).
Proof. apply ask_keeps. intros s. by apply mono_call. Qed.
Lemma mono_modify f : (forall s, history (f s) = history s) -> keeps P (modify f).
Proof. intros Hf. apply sat_modify. intros s Hs. by apply (mono_vars P Hm s); [apply Hf |]. Qed.
Lemma mono_set_turn l : keeps P (set_turn l).
Proof. by apply mono_modify. Qed.
Lemma mono_set_split l : keeps P (set_split l).
Proof. by apply mono_modify. Qed.
Lemma mono_set_cache e : keeps P (set_cache e).
Proof. by apply mono_modify. Qed.
Lemma mono_set_router r : keeps P (set_router r).
Proof. by apply mono_modify. Qed.
#[local] Hint Resolve mono_ask mono_set_turn mono_set_split mono_set_cache mono_set_router : effects.
Lemma mono_do o : keeps P (call o).
Proof. apply mono_ask. Qed.
#[local] Hint Resolve mono_do : effects.

Lemma mono_delete l : keeps P (delete_routes l).
Proof. induction l as [| d l IH]; simpl; keep. Qed.
Lemma mono_add l : keeps P (add_routes l).
Proof. induction l as [| d l IH]; simpl; keep. Qed.
Lemma mono_turn l g : keeps P (turn_routes l g).
Proof. induction l as [| d l IH]; simpl; unfold routeViaGateway, track_turn; keep. Qed.
Lemma mono_bypass l g : keeps P (bypass_routes l g).
Proof. induction l as [| d l IH]; simpl; unfold routeViaGateway, track_split; keep. Qed.
#[local] Hint Resolve mono_delete mono_add mono_turn mono_bypass : effects.

Lemma mono_resolve ds : keeps P (resolveDomainIPs ds).
Proof. apply resolve_keeps; auto with effects. Qed.
Lemma mono_gateway : keeps P defaultGateway.
Proof. apply gateway_keeps; auto with effects. Qed.
#[local] Hint Resolve mono_resolve mono_gateway : effects.

Lemma mono_kernel ds : keeps P (addKernelBypassRoutes ds).
Proof. unfold addKernelBypassRoutes. keep. Qed.
Lemma mono_clear : keeps P clearSplitRoutes.
Proof. unfold clearSplitRoutes. keep. Qed.
#[local] Hint Resolve mono_kernel mono_clear : effects.
Lemma mono_teardown_routes : keeps P teardownTunnelRoutes.
Proof. unfold teardownTunnelRoutes. keep. Qed.
#[local] Hint Resolve mono_teardown_routes : effects.
Lemma mono_teardown : keeps P teardownWG.
Proof. unfold teardownWG. keep. Qed.
Lemma mono_mtu v : keeps P (set_mtu_of v).
Proof. unfold set_mtu_of. keep. Qed.
End monotone.
#[local] Hint Resolve mono_ask mono_do mono_kernel mono_teardown mono_mtu mono_gateway mono_turn mono_set_turn : effects.

Lemma call_done os o : sat (dones os) (call o) (fun b => dones (if b then o :: os else os)).
Proof.
  intros s Hs. pose proof (mono_do _ (dones_monotone os) o s Hs) as Hk. unfold call, ask in *. cbn [fst snd] in *.
  destruct (succeeds (history s) o) eqn:E; [| done]. constructor; [| done]. by exists [], (history s).
Qed.

Lemma call_issued os o : sat (issued os) (call o) (fun _ => issued (o :: os)).
Proof.
  intros s Hs. pose proof (mono_do _ (issued_monotone os) o s Hs) as Hk. constructor; [| done]. by left.
Qed.

(** Every address of the configuration is assigned. *)
Lemma assign_done os l :
  sat (dones os) (assign_addresses l) (fun e s => e = None ->
    exists nets, mapM parseIPNet (nonblank l) = Some nets /\ dones (os ++ (AddrAdd <$> nets)) s).
Proof.
  revert os. induction l as [| a l IH]; intros os; cbn [assign_addresses].
  { apply sat_ret. intros s Hs _. exists []. by rewrite app_nil_r. }
  unfold nonblank. cbn [fmap list_fmap]. destruct (String.eqb_spec (trim_space a) "") as [E | E].
  { rewrite filter_cons_False by (by intros ?). apply IH. }
  rewrite filter_cons_True by done. cbn [mapM]. destruct (parseIPNet (trim_space a)) as [net |].
  - eapply sat_bind; [apply call_done |]. intros [].
    + eapply sat_weaken; [apply (IH (AddrAdd net :: os)) | done |]. intros e s Hs ->.
      destruct (Hs eq_refl) as (nets & Hn & Hd). exists (net :: nets). unfold nonblank in Hn. rewrite Hn. split; [done |].
      unfold dones in *. rewrite fmap_cons. rewrite <- app_comm_cons in Hd. by rewrite <- Permutation_middle.
    + eapply sat_bind; [by apply mono_teardown, dones_monotone |]. intros ?. by apply sat_ret.
  - eapply sat_bind; [by apply mono_teardown, dones_monotone |]. intros ?. by apply sat_ret.
Qed.

(** The routes to the relays, through the default gateway that was read. *)
Definition relay_op (g : list Z) (ip : string) : op := RouteReplace (cidrNet (toCIDRRoute ip)) g.

Definition around (turnIPs : list string) (s : tun) : Prop :=
  exists h h0, history s = (h ++ RouteList :: h0)%list /\
    forall g, first_gateway (route_list h0) = Some g -> issued (relay_op g <$> filter (.≠ "") turnIPs) s.

Lemma around_monotone l : monotone (around l).
Proof.
  split; intros s x.
  - intros (h & h0 & E & Hi). exists (x :: h), h0. split; [cbn; by rewrite E |]. intros g Hg.
    by apply (mono_call _ (issued_monotone _)), Hi.
  - intros E (h & h0 & E' & Hi). exists h, h0. split; [by rewrite E |]. intros g Hg.
    by apply (mono_vars _ (issued_monotone _) s); [| apply Hi].
Qed.

Lemma turn_issued os l g : sat (issued os) (turn_routes l g) (fun _ => issued (os ++ (relay_op g <$> filter (.≠ "") l))).
Proof.
  revert os. induction l as [| ip l IH]; intros os; cbn [turn_routes].
  { apply sat_ret. intros s Hs. by rewrite app_nil_r. }
  destruct (String.eqb_spec ip "") as [-> | E]; [rewrite filter_cons_False by (by intros ?); apply IH |].
  rewrite filter_cons_True by done. eapply sat_bind; [apply call_issued |]. intros b.
  apply (sat_bind _ _ (fun _ => issued (relay_op g ip :: os))).
  - destruct b; [| apply keeps_ret]. unfold track_turn. apply keeps_bind; [apply keeps_gets |]. intros ?.
    by apply mono_set_turn, issued_monotone.
  - intros []. eapply sat_weaken; [apply IH | done |]. intros [] s Hs. unfold issued in *.
    rewrite fmap_cons. rewrite <- app_comm_cons in Hs. by rewrite <- Permutation_middle.
Qed.

Lemma add_routes_history l s : history (add_routes l s).2 = (rev (RouteAdd <$> l) ++ history s)%list.
Proof.
  revert s. induction l as [| d l IH]; intros s; [done |].
  change (add_routes (d :: l) s) with (add_routes l (with_history (RouteAdd d :: history s) s)).
  rewrite IH. cbn [history with_history fmap list_fmap rev]. by rewrite <- app_assoc.
Qed.

Lemma apply_turn_around turnIPs g h0 : first_gateway (route_list h0) = Some g ->
  sat (fun s => exists h, history s = (h ++ RouteList :: h0)%list) (applyTurnIPsBypass turnIPs g) (fun _ => around turnIPs).
Proof.
  intros Eg s Hs. unfold applyTurnIPsBypass. rewrite run_bind.
  set (s1 := (set_turn [] s).2). change (exists h, history s1 = (h ++ RouteList :: h0)%list) in Hs.
  assert (monotone (fun s => exists h, history s = (h ++ RouteList :: h0)%list)) as Hm.
  { split; [intros t o (h & E); exists (o :: h); cbn; by rewrite E | by intros t t' ->]. }
  destruct (mono_turn _ Hm turnIPs g s1 Hs) as (h & E). exists h, h0. split; [done |].
  rewrite Eg. intros ? [= <-]. by apply (turn_issued [] turnIPs g s1), List.Forall_nil.
Qed.

Lemma bypass_setup_around turnIPs ds h0 :
  sat (fun s => exists h, history s = (h ++ RouteList :: h0)%list) (bypass_setup turnIPs ds (first_gateway (route_list h0)))
    (fun _ => around turnIPs).
Proof.
  pose proof (around_monotone turnIPs) as Hm. destruct (first_gateway _) as [g |] eqn:Eg; simpl.
  - eapply sat_bind; [by apply apply_turn_around |]. intros []. keep.
  - apply sat_ret. intros s (h & E). exists h, h0. split; [done |]. by rewrite Eg.
Qed.

Lemma mono_setup P turnIPs ds g : monotone P -> keeps P (bypass_setup turnIPs ds g).
Proof. intros Hm. unfold bypass_setup, applyTurnIPsBypass. destruct g; keep. Qed.

Lemma mono_turn_ips P l g : monotone P -> keeps P (applyTurnIPsBypass l g).
Proof. intros Hm. unfold applyTurnIPsBypass. keep. Qed.

(** The two entry points of the package: a history only grows. *)
Lemma mono_apply P zero_key ParseKey ResolveUDPAddr config turnIPs cfg :
  monotone P -> keeps P (applyWGConfig zero_key ParseKey ResolveUDPAddr config turnIPs cfg).
Proof.
  intros Hm. assert (forall l, keeps P (assign_addresses l)) as Ha by (induction l as [| d l IH]; simpl; keep).
  assert (forall l, keeps P (add_routes l)) as Hr by (intros; by apply mono_add).
  pose proof (mono_setup P) as Hs. unfold applyWGConfig, setup_interface, install_routes. keep.
Qed.

Lemma mono_reload P rawIface md blRaw profile newFile :
  monotone P -> keeps P (reloadSplitRoutes rawIface md blRaw profile newFile).
Proof.
  intros Hm. pose proof (mono_resolve P Hm) as Hr. pose proof (mono_set_router P Hm) as Ht. pose proof (mono_clear P Hm) as Hc.
  unfold reloadSplitRoutes, file_domains, reload_with, reload_routes. keep.
Qed.

(** The routes into the tunnel are the last ones, after those around it. *)
Definition full_tunnel (turnIPs : list string) (os : list op) (s : tun) : Prop :=
  exists t, dones os t /\ around turnIPs t
     /\ history s = (rev (RouteAdd <$> (cidrNet <$> halves_text)) ++ history t)%list.

Lemma install_routed os turnIPs ds : sat (dones os) (install_routes turnIPs ds) (fun _ => full_tunnel turnIPs os).
Proof.
  intros s Hs. unfold install_routes. rewrite run_bind.
  change ((defaultGateway s).1) with (first_gateway (route_list (history s))).
  set (s1 := (defaultGateway s).2). rewrite run_bind.
  exists (bypass_setup turnIPs ds (first_gateway (route_list (history s))) s1).2. split; [| split].
  - by apply (mono_setup _ _ _ _ (dones_monotone os)), mono_gateway; [apply dones_monotone |].
  - apply bypass_setup_around. by exists [].
  - apply add_routes_history.
Qed.

(** The calls that created the interface. *)
Definition interface_ops (wg : wg_state) (nets : list IPNet) : list op :=
  ([LinkSetUp; ConfigureDevice wg; LinkAdd] ++ (AddrAdd <$> nets))%list.

Lemma setup_done wg turnIPs cfg :
  sat (dones []) (setup_interface wg turnIPs cfg) (fun r s => r = Ok tt ->
    exists nets, mapM parseIPNet (nonblank (split_on "," (addr wg))) = Some nets /\ full_tunnel turnIPs (interface_ops wg nets) s).
Proof.
  unfold setup_interface.
  eapply sat_bind; [apply call_done |]. intros []; [| by apply sat_ret].
  eapply sat_bind; [apply mono_do, dones_monotone |]. intros []; [| eapply sat_bind; [apply mono_teardown, dones_monotone |]; intros ?; by apply sat_ret].
  do 2 (eapply sat_bind; [apply call_done |]; intros []; [| eapply sat_bind; [apply mono_teardown, dones_monotone |]; intros ?; by apply sat_ret]).
  eapply sat_bind; [apply assign_done |]. intros [e |]; [by apply sat_ret |].
  intros s Hs. destruct (Hs eq_refl) as (nets & Hn & Hd). rewrite !run_bind. intros _. exists nets. split; [done |].
  by apply install_routed, mono_mtu; [apply dones_monotone |].
Qed.

(** When [applyWGConfig] succeeds the interface was created, given the keys and peers of the
    configuration and brought up, every address of the configuration was assigned, the routes to the
    TURN relays through the default gateway were set, if there is one, and the last two calls set the
    routes into the tunnel. *)
Theorem apply_success zero_key ParseKey ResolveUDPAddr config turnIPs cfg s s' :
  applyWGConfig zero_key ParseKey ResolveUDPAddr config turnIPs cfg s = (Ok tt, s') ->
  exists wg nets, parseWGConfig zero_key ParseKey ResolveUDPAddr config = Ok wg
     /\ mapM parseIPNet (nonblank (split_on "," (addr wg))) = Some nets /\ full_tunnel turnIPs (interface_ops wg nets) s'.
Proof.
  unfold applyWGConfig. destruct (parseWGConfig _ _ _ _) as [wg | e]; [| done].
  destruct (String.eqb _ _); [done |]. rewrite run_bind. set (s1 := (call _ s).2). rewrite run_bind.
  set (m := if (call _ s).1 then _ else _). destruct (m s1) as [[] s2]; [| done]. cbn [fst snd].
  intros E. pose proof (setup_done wg turnIPs cfg s2 (List.Forall_nil _)) as Hs. rewrite E in Hs.
  destruct (Hs eq_refl) as (nets & Hn & Hf). eauto.
Qed.

(** ** A failed set-up *)

(** Whether the interface exists, when it is only created and deleted here. *)
Fixpoint iface (h : list op) : bool :=
  match h with
  | [] => false
  | LinkAdd :: h' => succeeds h' LinkAdd || iface h'
  | LinkDel :: h' => negb (succeeds h' LinkDel) && iface h'
  | _ :: h' => iface h'
  end.

(** What netlink promises: the interface is found exactly when it exists, and can then be deleted. *)
Record kernel : Prop := {
  found_iface : forall h, succeeds h (LinkByName wgIface) = iface h;
  deletes_iface : forall h, iface h = true -> succeeds h LinkDel = true
}.

Lemma delete_iface l s : iface (history (delete_routes l s).2) = iface (history s).
Proof. revert s. induction l as [| d l IH]; intros s; [done |]. exact (IH (with_history (RouteDel d :: history s) s)). Qed.

Lemma teardown_routes_iface s : iface (history (teardownTunnelRoutes s).2) = iface (history s).
Proof.
  unfold teardownTunnelRoutes, clearSplitRoutes. repeat first [rewrite run_bind | progress cbn [fst snd gets]].
  rewrite delete_iface. cbn [history set_turn modify snd fst]. rewrite delete_iface. cbn [history set_split modify snd fst].
  by rewrite delete_iface.
Qed.

Definition gone (s : tun) : Prop := clean s /\ iface (history s) = false.

Lemma teardown_gone (Hk : kernel) s : tracked true [] s -> (teardownWG s).1 = true /\ gone (teardownWG s).2.
Proof.
  intros Hs. pose proof (teardown_routes_clean s Hs) as Hc. pose proof (teardown_routes_iface s) as Hi.
  unfold gone, teardownWG. rewrite run_bind. set (s1 := (teardownTunnelRoutes s).2) in *.
  assert (call (LinkByName wgIface) s1 = (iface (history s1), with_history (LinkByName wgIface :: history s1) s1)) as Hcall.
  { unfold call, ask. by rewrite (found_iface Hk). }
  rewrite run_bind, Hcall. cbn [fst snd]. destruct (iface (history s1)) eqn:E; [| by split].
  assert (call LinkDel (with_history (LinkByName wgIface :: history s1) s1) =
    (true, with_history (LinkDel :: LinkByName wgIface :: history s1) s1)) as ->.
  { unfold call, ask. cbn [history with_history]. by rewrite (deletes_iface Hk). }
  split; [done |]. split; [done |]. cbn [history with_history iface snd]. by rewrite (deletes_iface Hk).
Qed.

(** A step of the set-up that fails removes the interface and the routes. *)
Lemma down_gone (Hk : kernel) {A} (r : A) : sat clean (_ ← teardownWG; mret r) (fun a s => a = r /\ gone s).
Proof.
  apply (sat_bind _ _ (fun _ => gone)); [| intros ?; by apply sat_ret].
  intros s Hs. by apply teardown_gone, clean_tracked.
Qed.

Lemma assign_gone (Hk : kernel) l : sat clean (assign_addresses l) (fun e => match e with Some _ => gone | None => clean end).
Proof.
  assert (forall e, sat clean (_ ← teardownWG; mret (Some e)) (fun e : option apply_error => match e with Some _ => gone | None => clean end)) as Hd.
  { intros e s Hs. by destruct (down_gone Hk (Some e) s Hs) as [-> ?]. }
  induction l as [| a l IH]; cbn [assign_addresses]; [by apply sat_ret |].
  destruct (String.eqb _ _); [done |]. destruct (parseIPNet _) as [n |]; [| apply Hd].
  eapply sat_bind; [by apply call_clean |]. intros []; [done | apply Hd].
Qed.

Lemma add_link_gone : sat gone (call LinkAdd) (fun b => if b then clean else gone).
Proof.
  intros s [Hc Hi]. unfold gone, clean, call, ask. cbn [fst snd history with_history iface].
  destruct (succeeds _ _) eqn:E; [done |]. split; [done |]. cbn [history with_history iface]. by rewrite E.
Qed.

Definition failed_gone (r : result apply_error unit) (s : tun) : Prop := is_ok r = false -> gone s.

Lemma setup_gone (Hk : kernel) wg turnIPs cfg : sat gone (setup_interface wg turnIPs cfg) failed_gone.
Proof.
  assert (forall e, sat clean (_ ← teardownWG; mret (Err e)) failed_gone) as Hd.
  { intros e s Hs _. by destruct (down_gone Hk (@Err apply_error unit e) s Hs). }
  unfold setup_interface. eapply sat_bind; [apply add_link_gone |]. intros []; [| apply sat_ret; by intros s Hs _].
  do 3 (eapply sat_bind; [by apply call_clean |]; intros []; [| apply Hd]).
  eapply sat_bind; [apply assign_gone, Hk |]. intros [e |]; [apply sat_ret; by intros s Hs _ |].
  intros s _. rewrite !run_bind. intros Hf. done.
Qed.


(** ** Resolution *)

Lemma dedup_loop_ext l seen seen' : (forall x, x ∈ seen <-> x ∈ seen') -> dedup_loop l seen = dedup_loop l seen'.
Proof.
  revert seen seen'. induction l as [| x l IH]; intros seen seen' E; simpl; [done |].
  rewrite (bool_decide_ext _ _ (E x)). case_bool_decide; [by apply IH |]. f_equal. apply IH. set_solver.
Qed.

Lemma dedup_loop_in l seen x : x ∈ dedup_loop l seen <-> x ∈ l /\ x ∉ seen.
Proof.
  revert seen. induction l as [| y l IH]; intros seen; simpl; [set_solver |].
  case_bool_decide; rewrite ?elem_of_cons, IH; [set_solver |]. destruct (decide (x = y)); set_solver.
Qed.

Lemma dedup_loop_nodup l seen : NoDup (dedup_loop l seen).
Proof.
  revert seen. induction l as [| y l IH]; intros seen; simpl; [constructor |].
  case_bool_decide; [done |]. constructor; [rewrite dedup_loop_in; set_solver | done].
Qed.

Lemma dedup_loop_app l k seen : dedup_loop (l ++ k) seen = (dedup_loop l seen ++ dedup_loop k (l ++ seen))%list.
Proof.
  revert seen. induction l as [| y l IH]; intros seen; simpl; [done |]. case_bool_decide.
  - rewrite IH. f_equal. apply dedup_loop_ext. set_solver.
  - rewrite IH. simpl. do 2 f_equal. apply dedup_loop_ext. set_solver.
Qed.

Lemma add_new_dedup texts ips : add_new texts ips = (ips ++ dedup_loop texts ips)%list.
Proof.
  revert ips. unfold add_new. induction texts as [| t l IH]; intros ips; simpl; [by rewrite app_nil_r |].
  case_bool_decide; [apply IH |]. rewrite IH, <- app_assoc. simpl. do 2 f_equal. apply dedup_loop_ext. set_solver.
Qed.

Lemma add_new_concat l texts : add_new texts (dedupKeepOrder l) = dedupKeepOrder (l ++ texts)%list.
Proof.
  unfold dedupKeepOrder. rewrite add_new_dedup, dedup_loop_app. f_equal. apply dedup_loop_ext. intros x.
  rewrite dedup_loop_in. set_solver.
Qed.

Section resolver.
Context (dns : string -> option (list (list Z))) (Hdns : forall h, lookup_ip h = dns).

(** What one entry of the list stands for. *)
Definition entry_addresses (d : string) : list string :=
  match ParseIP d with
  | Some ip => ipv4_texts [ip]
  | None => match ParseCIDR d with Some _ => [d] | None => from_option ipv4_texts [] (dns d) end
  end.

Definition addresses (ds : list string) : list string := dedupKeepOrder (concat (entry_addresses <$> ds)).

Lemma resolve_one_value d s : (resolve_one d s).1 = entry_addresses d.
Proof.
  unfold resolve_one, entry_addresses. destruct (ParseIP d); [done |]. destruct (ParseCIDR d); [done |].
  rewrite run_bind. cbn. rewrite Hdns. by destruct (dns d).
Qed.

Lemma resolve_all_value ds l s :
  (resolve_all ds (dedupKeepOrder l) s).1 = dedupKeepOrder (l ++ concat (entry_addresses <$> ds))%list.
Proof.
  revert l s. induction ds as [| d ds IH]; intros l s; cbn [resolve_all]; [by rewrite app_nil_r |].
  rewrite run_bind, resolve_one_value, add_new_concat, IH. cbn [fmap list_fmap concat]. by rewrite <- app_assoc.
Qed.

(** What a resolution leaves in memory. *)
Definition entry_of (k : string) (ds : list string) (t : Z) : splitCacheEntry :=
  {| Key := k; Domains := ds; IPv4s := addresses ds; Expires := t + splitCacheTTL |}.

Lemma resolve_fresh_value k ds s : addresses ds <> [] ->
  exists h, let e := entry_of k ds (unix_now h) in
  (resolve_fresh k ds s).1 = Some (addresses ds) /\ splitCacheInMemory (resolve_fresh k ds s).2 = e /\
  history (resolve_fresh k ds s).2 = WriteCache e :: Now :: h.
Proof.
  intros Hne. unfold resolve_fresh. rewrite run_bind.
  assert ((resolve_all ds [] s).1 = addresses ds) as -> by exact (resolve_all_value ds [] s).
  set (s1 := (resolve_all ds [] s).2). exists (history s1). unfold entry_of. by destruct (addresses ds).
Qed.

Lemma cacheKey_perm ds ds' : ds ≡ₚ ds' -> cacheKey ds = cacheKey ds'.
Proof.
  intros Hp. unfold cacheKey. rewrite (sort_stable_ext _ _ string_less_order ds ds'); [done | | done].
  by apply Forall_true.
Qed.

(** The domains of a bypass list are resolved to their distinct addresses, first seen first:
    IPv4 addresses and networks stand for themselves, names for their IPv4 addresses.  Within the hour
    after it the same domains, in any order, give the same addresses without another lookup. *)
Theorem resolve_domains ds ds' s s2 :
  addresses ds <> [] -> Key (splitCacheInMemory s) <> cacheKey ds ->
  (forall h e, cache_file h = Some e -> Key e <> cacheKey ds) -> ds ≡ₚ ds' ->
  exists h, let s1 := (resolveDomainIPs ds s).2 in
  (resolveDomainIPs ds s).1 = Some (addresses ds) /\ NoDup (addresses ds) /\
  head (tail (history s1)) = Some Now /\ h = tail (tail (history s1)) /\
  (splitCacheInMemory s2 = splitCacheInMemory s1 -> unix_now (history s2) < unix_now h + 3600 ->
   resolveDomainIPs ds' s2 = (Some (addresses ds), with_history (Now :: history s2) s2)).
Proof.
  intros Hne Hmem Hfile Hp.
  assert (ds <> []) as Hds by (intros ->; done).
  assert (exists s0, resolveDomainIPs ds s = resolve_fresh (cacheKey ds) ds s0) as [s0 ->].
  { unfold resolveDomainIPs. destruct ds as [| d l]; [done |]. cbn [length Nat.eqb]. rewrite run_bind. cbn [gets fst snd].
    rewrite (proj2 (String.eqb_neq _ _)) by done. unfold resolve_file, loadSplitCache.
    rewrite !run_bind. unfold ask at 1 2. cbn [fst snd]. destruct (cache_file (history s)) as [e |] eqn:Ec; [| by eexists].
    rewrite (proj2 (String.eqb_neq _ _)) by (by eapply Hfile). by eexists. }
  destruct (resolve_fresh_value (cacheKey ds) ds s0 Hne) as (h & Hr & He & Hh). exists h.
  cbv zeta. rewrite Hr, Hh. repeat split; [apply dedup_loop_nodup |]. rewrite He. intros E Ht.
  unfold resolveDomainIPs. assert (ds' <> []) as Hds' by (intros ->; by apply Permutation_nil_r in Hp).
  rewrite <- (cacheKey_perm ds ds' Hp).
  destruct ds' as [| d l]; [done |]. cbn [length Nat.eqb]. rewrite run_bind. cbn [gets fst snd]. rewrite E.
  cbn [Key entry_of]. rewrite String.eqb_refl, run_bind. unfold ask. cbn [fst snd IPv4s Expires entry_of].
  rewrite (proj2 (Z.ltb_lt _ _)) by (unfold splitCacheTTL; lia).
  by destruct (addresses ds).
Qed.
End resolver.

(** ** Reload *)

Definition same_routes (s t : tun) : Prop :=
  splitRoutes t = splitRoutes s /\ routedTurnIPs t = routedTurnIPs s /\ undeleted (history t) = undeleted (history s).

Lemma same_refl s : same_routes s s.
Proof. by repeat split. Qed.

Lemma ask_same {A} s (f : list op -> A) o : route_op o = false -> keeps (same_routes s) (ask f o).
Proof.
  intros Ho. apply ask_keeps. intros t (H1 & H2 & H3). split; [done |]. split; [done |].
  change (undeleted (o :: history t) = undeleted (history s)). by rewrite no_route_op.
Qed.

Lemma set_cache_same s e : keeps (same_routes s) (set_cache e).
Proof. by apply sat_modify. Qed.

(** The routes that an addition returns are appended to the tracked ones and are set. *)
Definition added (s : tun) (routes : list string) (t : tun) : Prop :=
  splitRoutes t = (splitRoutes s ++ routes)%list /\ routedTurnIPs t = routedTurnIPs s /\
  ((cidrNet <$> routes) ++ undeleted (history s))%list ⊆ undeleted (history t).

Lemma same_added s t : same_routes s t -> added s [] t.
Proof. intros (H1 & H2 & H3). unfold added. rewrite H1, H2, H3, app_nil_r. set_solver. Qed.

Lemma bypass_routes_cons ip l g s :
  let c := toCIDRRoute ip in
  let s1 := with_history (RouteReplace (cidrNet c) g :: history s) s in
  let s2 := (track_split c s1).2 in
  bypass_routes (ip :: l) g s =
  if succeeds (history s) (RouteReplace (cidrNet c) g)
  then (c :: (bypass_routes l g s2).1, (bypass_routes l g s2).2) else bypass_routes l g s1.
Proof.
  cbn zeta. cbn [bypass_routes]. set (c := toCIDRRoute ip). rewrite run_bind.
  change (routeViaGateway c g s).1 with (succeeds (history s) (RouteReplace (cidrNet c) g)).
  destruct (succeeds _ _); [| done]. rewrite !run_bind. done.
Qed.

Lemma bypass_routes_added l g s : added s (bypass_routes l g s).1 (bypass_routes l g s).2.
Proof.
  revert s. induction l as [| ip l IH]; intros s; [exact (same_added s s (same_refl s)) |].
  rewrite bypass_routes_cons. cbn zeta. set (c := toCIDRRoute ip).
  set (s1 := with_history (RouteReplace (cidrNet c) g :: history s) s). set (s2 := (track_split c s1).2).
  destruct (succeeds (history s) (RouteReplace (cidrNet c) g)) eqn:E; cbn [fst snd].
  - destruct (IH s2) as (H1 & H2 & H3). split; [| split; [exact H2 |]].
    + rewrite H1. change (splitRoutes s2) with (splitRoutes s ++ [c])%list. by rewrite <- app_assoc.
    + assert (undeleted (history s2) = cidrNet c :: undeleted (history s)) as H4.
      { change (history s2) with (RouteReplace (cidrNet c) g :: history s). cbn [undeleted]. by rewrite E. }
      rewrite H4 in H3. set_solver.
  - destruct (IH s1) as (H1 & H2 & H3). split; [exact H1 |]. split; [exact H2 |].
    change (history s1) with (RouteReplace (cidrNet c) g :: history s) in H3. cbn [undeleted] in H3. by rewrite E in H3.
Qed.

Lemma add_bypass_added ds s : added s (addKernelBypassRoutes ds s).1 (addKernelBypassRoutes ds s).2.
Proof.
  pose proof (same_refl s) as Hs. unfold addKernelBypassRoutes.
  destruct (length ds =? 0)%nat; [exact (same_added s s Hs) |]. rewrite run_bind.
  assert (same_routes s (resolveDomainIPs ds s).2) as H1
    by (apply resolve_keeps; [intros; by apply ask_same | intros; apply set_cache_same | done]).
  set (s1 := (resolveDomainIPs ds s).2) in *. destruct (resolveDomainIPs ds s).1 as [ips |]; [| exact (same_added s s1 H1)].
  destruct (length ips =? 0)%nat; [exact (same_added s s1 H1) |]. rewrite run_bind.
  assert (same_routes s (defaultGateway s1).2) as H2
    by (apply gateway_keeps; [intros; by apply ask_same | done]).
  set (s2 := (defaultGateway s1).2) in *. destruct (defaultGateway s1).1 as [g |]; [| exact (same_added s s2 H2)].
  destruct H2 as (E1 & E2 & E3). destruct (bypass_routes_added ips g s2) as (H3 & H4 & H5).
  unfold added. rewrite H3, H4, E1, E2. rewrite <- E3. done.
Qed.

(** C32: a reload of a kernel profile replaces the bypass routes: none of the old ones remains, the new
    ones are set, tracked and written to the profile's file, and the routes to the relays stay. *)
Theorem reload_replaces rawIface md blRaw profile newFile n m s s' :
  md = "tun" \/ md = "raw" -> undeleted (history s) ⊆ known true s ->
  reloadSplitRoutes rawIface md blRaw profile newFile s = (Ok (n, m), s') ->
  length (splitRoutes s') = m /\ routedTurnIPs s' = routedTurnIPs s /\
  (cidrNet <$> splitRoutes s') ⊆ undeleted (history s') /\ undeleted (history s') ⊆ known true s' /\
  exists p ds, length ds = n /\ head (history s') = Some (WriteSplitCfg p blRaw newFile ds (splitRoutes s')).
Proof.
  intros Hmd Hs. unfold reloadSplitRoutes. rewrite run_bind. set (s1 := (_ s).2).
  assert (tracked true [] s1 /\ routedTurnIPs s1 = routedTurnIPs s) as [Hs1 Ht1].
  { unfold s1. destruct (String.eqb profile "autoswitch"); [| done]. split; [| done]. exact (ask_tracked true [] current_profile CurrentProfile eq_refl s Hs). }
  destruct (_ && _); [done |]. destruct (splitDomains blRaw) as [bl |]; [| done]. rewrite run_bind.
  assert (tracked true [] (file_domains newFile s1).2 /\ routedTurnIPs (file_domains newFile s1).2 = routedTurnIPs s) as [Hs2 Ht2].
  { unfold file_domains. destruct (String.eqb newFile ""); [done |]. split; [| done]. exact (ask_tracked true [] (fun h => bypass_file h newFile) (ReadBypassFile newFile) eq_refl s1 Hs1). }
  set (s2 := (file_domains newFile s1).2) in *. destruct (file_domains newFile s1).1 as [fd |]; [| done].
  set (ds := dedupKeepOrder _). unfold reload_with.
  assert (String.eqb md "socks" = false /\ (String.eqb md "tun" || String.eqb md "raw") = true) as [-> ->] by (by destruct Hmd as [-> | ->]).
  rewrite run_bind. destruct (clear_split_tracked true s2 Hs2) as (Hs3 & Hsp & Ht3). set (s3 := (clearSplitRoutes s2).2) in *.
  rewrite run_bind. pose proof (add_bypass_added ds s3) as (Ha & Hb & Hc). pose proof (add_bypass_tracked true [] ds s3 Hs3) as Hs4.
  set (routes := (addKernelBypassRoutes ds s3).1) in *. set (s4 := (addKernelBypassRoutes ds s3).2) in *.
  intros [= <- <- <-]. rewrite Hsp in Ha. cbn [app] in Ha.
  cbn [splitRoutes routedTurnIPs history with_history snd fst undeleted head]. rewrite Ha.
  split; [done |]. split; [by rewrite Hb, Ht3 |]. split; [intros x Hx; apply Hc; set_solver |]. split; [exact Hs4 |].
  by eexists _, ds.
Qed.
End tunnel.

(** ** A concrete world *)

Section example.
#[local] Instance example_unicode : Unicode := fun s => s.
Abbreviation ex_op := (@op string string unit).

Fixpoint link_in (h : list ex_op) : bool :=
  match h with [] => false | LinkAdd :: _ => true | LinkDel :: _ => false | _ :: h' => link_in h' end.

Definition example_addresses (d : string) : option (list (list Z)) :=
  if String.eqb d "vk.com" then Some [[87; 240; 132; 72]; [87; 240; 132; 78]] else None.

#[local] Instance example_world : @World string string unit := {|
  succeeds := fun h o => match o with LinkByName _ => link_in h | _ => true end;
  route_list := fun _ => Some [{| Dst := None; Gw := Some [192; 168; 1; 1] |}];
  unix_now := fun h => 1700000000 + Z.of_nat (length h);
  cache_file := fun _ => None;
  lookup_ip := fun _ => example_addresses;
  current_profile := fun _ => "home";
  bypass_file := fun _ _ => Some (JStr (join (String nl "") ["vk.com"; "10.0.0.0/8"; "vk.com"]))
|}.

Definition example_start : @tun string string unit :=
  {| history := []; routedTurnIPs := []; splitRoutes := []; splitCacheInMemory := no_entry; activeRouter := None |}.

Definition example_config (address : string) : string :=
  text_of ["[Interface]"; "PrivateKey = k1"; "Address = " ++ address; "MTU = 1280"; "[Peer]"; "PublicKey = k2";
           "Endpoint = 127.0.0.1:9000"; "AllowedIPs = 0.0.0.0/1, 128.0.0.0/1"].

Definition example_split : option splitTunnelConfig :=
  Some {| mode := "blacklist"; domains := ["vk.com"; "10.0.0.0/8"]; rawBl := ""; rawFile := "" |}.

Definition example_apply (address : string) :=
  applyWGConfig "zero" Some Some (example_config address) ["95.163.1.1"; ""] example_split example_start.

Lemma example_iface h : iface h = link_in h.
Proof. induction h as [| o h IH]; [done |]. by destruct o. Qed.

Lemma example_kernel : kernel.
Proof. split; [by intros h; rewrite example_iface | done]. Qed.

Example applied_routes : splitRoutes (example_apply "10.66.66.2/32").2 = ["87.240.132.72/32"; "87.240.132.78/32"; "10.0.0.0/8"]
  /\ length (undeleted (history (example_apply "10.66.66.2/32").2)) = 6%nat.
Proof. by vm_compute. Qed.

Lemma apply_success_witness : (example_apply "10.66.66.2/32").1 = Ok tt /\
  exists wg nets, full_tunnel ["95.163.1.1"; ""] (interface_ops wg nets) (example_apply "10.66.66.2/32").2.
Proof.
  split; [by vm_compute |].
  destruct (apply_success "zero" Some Some (example_config "10.66.66.2/32") ["95.163.1.1"; ""] example_split example_start
    (example_apply "10.66.66.2/32").2) as (wg & nets & _ & _ & H); [| by exists wg, nets].
  by vm_compute.
Defined.


Lemma resolve_domains_witness :
  (resolveDomainIPs ["vk.com"; "1.2.3.4"; "1.2.3.4"; "none.example"] example_start).1 = Some ["87.240.132.72"; "87.240.132.78"; "1.2.3.4"].
Proof.
  destruct (@resolve_domains string string unit example_world example_addresses (fun _ => eq_refl) ["vk.com"; "1.2.3.4"; "1.2.3.4"; "none.example"]
    ["vk.com"; "1.2.3.4"; "1.2.3.4"; "none.example"] example_start example_start) as (h & Hr & _);
    [by vm_compute | by vm_compute | intros h e E; discriminate E | reflexivity |].
  rewrite Hr. by vm_compute.
Defined.

Lemma example_tracked a : (example_apply a).1 = Ok tt -> tracked true [] (example_apply a).2.
Proof.
  unfold example_apply. intros E.
  pose proof (apply_tracked "zero" Some Some (example_config a) ["95.163.1.1"; ""] example_split example_start (clean_tracked false example_start eq_refl)) as Ht.
  by rewrite E in Ht.
Qed.

Lemma reload_replaces_witness :
  let s := (example_apply "10.66.66.2/32").2 in
  let r := reloadSplitRoutes "raw-qwdtt" "tun" "1.1.1.1 1.0.0.1" "home" "bl.json" s in
  r.1 = Ok (4%nat, 5%nat) /\ length (splitRoutes r.2) = 5%nat /\ undeleted (history r.2) ⊆ known true r.2.
Proof.
  cbv zeta. set (s := (example_apply _).2). set (r := reloadSplitRoutes _ _ _ _ _ s).
  assert (r.1 = Ok (4%nat, 5%nat)) as E by (by vm_compute). split; [done |].
  destruct (reload_replaces "raw-qwdtt" "tun" "1.1.1.1 1.0.0.1" "home" "bl.json" 4%nat 5%nat s r.2) as (Hl & _ & _ & Hk & _);
    [by left | | rewrite <- E; apply surjective_pairing | by split].
  apply example_tracked. by vm_compute.
Defined.
End example.
