(* ===== verification/Profiles.v ===== *)
(** * Profiles and their state files (profile.go, config.go and the listings of commands.go).

    The files of the configuration and runtime directories are a map from paths to decoded contents:
    [Unreadable] is a file that cannot be read or decoded.  Names are single path components.  Whether
    a write or a removal succeeds is a function of the files ([Disk]); a failed write leaves any content
    behind, a failed removal changes nothing. *)

From S2P Require Import Prelude GoStrings Sorting Json Links Url Effects.
From Stdlib Require Import ZArith Lia String Ascii.
From stdpp Require Import base list strings gmap sorting.
Open Scope string_scope.
Open Scope Z_scope.

(** ** Files *)

Record ProfileData := {
  PeerAddr : string; Password : string; Hashes : list string; Listen : string;
  TurnHost : string; TurnPort : string; Workers : Z; DeviceID : string; Priority : Z;
  LinkFile : string; Groups : list string; Subscription : string
}.

Record SubscriptionConfig := {
  URL : string; SubscriptionName : string; Description : string; TrafficUsedMb : float64; TrafficLimitMb : float64;
  UpdatedAt : string; Version : Z; SubProfiles : list string; LastFetch : string
}.

Inductive path :=
| UserProfile (name : string) | RoProfile (name : string) | StatusPath | ActivePath | AutoswitchPath | DevicePath
| SubscriptionPath (name : string) | SplitPath (profile : string) | UserFile (p : string).

Definition path_code (p : path) : nat * string :=
  match p with
  | UserProfile n => (0%nat, n) | RoProfile n => (1%nat, n) | StatusPath => (2%nat, "") | ActivePath => (3%nat, "")
  | AutoswitchPath => (4%nat, "") | DevicePath => (5%nat, "") | SubscriptionPath n => (6%nat, n)
  | SplitPath n => (7%nat, n) | UserFile n => (8%nat, n)
  end.
Definition path_of (c : nat * string) : path :=
  match c with
  | (0%nat, n) => UserProfile n | (1%nat, n) => RoProfile n | (2%nat, _) => StatusPath | (3%nat, _) => ActivePath
  | (4%nat, _) => AutoswitchPath | (5%nat, _) => DevicePath | (6%nat, n) => SubscriptionPath n
  | (7%nat, n) => SplitPath n | (_, n) => UserFile n
  end.

#[global] Instance path_eq_dec : EqDecision path.
Proof. solve_decision. Defined.
#[global] Instance path_countable : Countable path := inj_countable' path_code path_of ltac:(by intros []).

Inductive file :=
| ProfileFile (p : ProfileData) | StatusFile (m : gmap string bool) | SubscriptionFile (s : SubscriptionConfig)
| Text (s : string) | Unreadable.

Abbreviation fs := (gmap path file).
Abbreviation Files := (State fs).

Class Disk := {
  can_write : fs -> path -> file -> bool;
  torn : fs -> path -> file -> option file;
  can_remove : fs -> path -> bool;
  random_id : fs -> string
}.

Create HintDb files.

Section profiles.
Context `{Unicode} `{Disk}.

Definition read (p : path) : Files (option file) := gets (fun m => m !! p).

Definition write (p : path) (f : file) : Files bool := fun m =>
  if can_write m p f then (true, <[p := f]> m)
  else (false, match torn m p f with Some f' => <[p := f']> m | None => delete p m end).

Definition unlink (p : path) : Files bool := fun m =>
  match m !! p with
  | Some _ => if can_remove m p then (true, delete p m) else (false, m)
  | None => (false, m)
  end.

Definition stat (p : path) : Files bool := gets (fun m => bool_decide (is_Some (m !! p))).

Definition read_text (p : path) : Files (option string) :=
  f ← read p; mret (match f with Some (Text s) => Some s | _ => None end).

(** ** Configuration files *)

(** [getOrCreateDeviceID] *)
Definition getOrCreateDeviceID : Files string :=
  t ← read_text DevicePath;
  let id := from_option trim_space "" t in
  if (String.length id =? 16)%nat then mret id
  else id ← gets random_id; _ ← write DevicePath (Text id); mret id.

Definition setActiveProfile (name : string) : Files bool := write ActivePath (Text name).
Definition getActiveProfile : Files string := t ← read_text ActivePath; mret (from_option trim_space "" t).
Definition clearActiveProfile : Files unit := _ ← unlink ActivePath; mret tt.

Definition setAutoswitchCurrentProfile (name : string) : Files bool := write AutoswitchPath (Text name).
Definition getAutoswitchCurrentProfile : Files string := t ← read_text AutoswitchPath; mret (from_option trim_space "" t).
Definition clearAutoswitchCurrentProfile : Files unit := _ ← unlink AutoswitchPath; mret tt.

(** ** Which profiles are enabled *)

Definition loadStatuses : Files (option (gmap string bool)) :=
  f ← read StatusPath;
  mret (match f with None => Some ∅ | Some (StatusFile m) => Some m | Some _ => None end).

Definition saveStatuses (m : gmap string bool) : Files bool := write StatusPath (StatusFile m).

Definition isProfileEnabled (name : string) : Files bool :=
  m ← loadStatuses; mret (match m with Some m => default true (m !! name) | None => true end).

Definition setProfileEnabled (name : string) (enabled : bool) : Files bool :=
  m ← loadStatuses; saveStatuses (<[name := enabled]> (default ∅ m)).

(** ** Profiles *)

Definition read_only (name : string) : bool := has_prefix "ro-" name.

Definition profilePath (name : string) : path := if read_only name then RoProfile name else UserProfile name.

(** [strings.ReplaceAll(s, p, "")] for a non-empty [p]; [skip] bytes of an occurrence are left. *)
Fixpoint remove_all (p s : string) (skip : nat) : string :=
  match s with
  | "" => ""
  | String c s' =>
      match skip with
      | S k => remove_all p s' k
      | O => if has_prefix p s then remove_all p s' (String.length p - 1) else String c (remove_all p s' 0)
      end
  end.

Definition lf : string := String (byte 10) "".
Definition cr : string := String (byte 13) "".

Definition clean_password (s : string) : string :=
  remove_all cr (remove_all lf (remove_all "\n" (trim_space s) 0) 0) 0.

Inductive profile_error :=
| NotFound | BadProfile | LinkUnreadable | BadLink (e : link_error) | ReadOnlyProfile | WriteFailed | AlreadyExists | RemoveFailed.

Definition with_password (pw : string) (p : ProfileData) : ProfileData :=
  {| PeerAddr := PeerAddr p; Password := pw; Hashes := Hashes p; Listen := Listen p; TurnHost := TurnHost p;
     TurnPort := TurnPort p; Workers := Workers p; DeviceID := DeviceID p; Priority := Priority p;
     LinkFile := LinkFile p; Groups := Groups p; Subscription := Subscription p |}.

Definition with_link (l : WdttLink) (p : ProfileData) : ProfileData :=
  {| PeerAddr := IP l ++ ":" ++ DTLSPort l; Password := Links.Password l; Hashes := Links.Hashes l;
     Listen := if String.eqb (Port l) "" then Listen p else "127.0.0.1:" ++ Port l;
     TurnHost := TurnHost p; TurnPort := TurnPort p;
     Workers := if 0 <? Links.Workers l then Links.Workers l else Workers p;
     DeviceID := DeviceID p; Priority := Priority p; LinkFile := LinkFile p; Groups := Groups p;
     Subscription := Subscription p |}.

Definition needs_link (p : ProfileData) : bool :=
  (String.eqb (PeerAddr p) "" || String.eqb (Password p) "") && negb (String.eqb (LinkFile p) "").

Definition loadProfile (name : string) : Files (result profile_error ProfileData) :=
  f ← read (profilePath name);
  match f with
  | None => mret (Err NotFound)
  | Some (ProfileFile p) =>
      let p := with_password (clean_password (Password p)) p in
      if needs_link p then
        t ← read_text (UserFile (LinkFile p));
        mret (match t with
              | None => Err LinkUnreadable
              | Some text => match parseLink (trim_space text) with Ok l => Ok (with_link l p) | Err e => Err (BadLink e) end
              end)
      else mret (Ok p)
  | Some _ => mret (Err BadProfile)
  end.

Definition with_device (id : string) (p : ProfileData) : ProfileData :=
  {| PeerAddr := PeerAddr p; Password := Password p; Hashes := Hashes p; Listen := Listen p; TurnHost := TurnHost p;
     TurnPort := TurnPort p; Workers := Workers p; DeviceID := id; Priority := Priority p;
     LinkFile := LinkFile p; Groups := Groups p; Subscription := Subscription p |}.

Definition with_groups (gs : list string) (p : ProfileData) : ProfileData :=
  {| PeerAddr := PeerAddr p; Password := Password p; Hashes := Hashes p; Listen := Listen p; TurnHost := TurnHost p;
     TurnPort := TurnPort p; Workers := Workers p; DeviceID := DeviceID p; Priority := Priority p;
     LinkFile := LinkFile p; Groups := gs; Subscription := Subscription p |}.

(** A profile of a subscription carries the subscription's group. *)
Definition add_group (p : ProfileData) : ProfileData :=
  if String.eqb (Subscription p) "" || bool_decide (Subscription p ∈ Groups p) then p
  else with_groups (Groups p ++ [Subscription p])%list p.

Definition saveProfile (name : string) (p : ProfileData) : Files (result profile_error unit) :=
  if read_only name then mret (Err ReadOnlyProfile)
  else
    id ← (if String.eqb (DeviceID p) "" then getOrCreateDeviceID else mret (DeviceID p));
    b ← write (profilePath name) (ProfileFile (add_group (with_device id p)));
    mret (if b : bool then Ok tt else Err WriteFailed).

Definition maskPassword (pwd : string) : string :=
  if (String.length pwd <=? 6)%nat then "****" else stake 3 pwd ++ "****" ++ sdrop (String.length pwd - 3) pwd.

(** The status of a renamed profile moves with it. *)
Definition rename_status (oldName newName : string) (m : gmap string bool) : gmap string bool :=
  match m !! oldName with Some e => delete oldName (<[newName := e]> m) | None => m end.

Definition move_status (oldName newName : string) : Files unit :=
  m ← loadStatuses;
  match m with
  | Some m =>
      if bool_decide (is_Some (m !! oldName)) then _ ← saveStatuses (rename_status oldName newName m); mret tt else mret tt
  | None => mret tt
  end.

Definition rename_state (oldName newName : string) : Files unit :=
  _ ← move_status oldName newName;
  a ← getActiveProfile;
  _ ← (if String.eqb a oldName then setActiveProfile newName else mret true);
  c ← getAutoswitchCurrentProfile;
  _ ← (if String.eqb c oldName then setAutoswitchCurrentProfile newName else mret true);
  mret tt.

Definition renameProfile (oldName newName : string) : Files (result profile_error unit) :=
  if read_only oldName || read_only newName then mret (Err ReadOnlyProfile)
  else
    r ← loadProfile oldName;
    match r with
    | Err e => mret (Err e)
    | Ok prof =>
        found ← stat (profilePath newName);
        if found : bool then mret (Err AlreadyExists)
        else
          saved ← saveProfile newName prof;
          match saved with
          | Err e => mret (Err e)
          | Ok _ =>
              removed ← unlink (profilePath oldName);
              if negb removed then _ ← unlink (profilePath newName); mret (Err RemoveFailed)
              else _ ← rename_state oldName newName; mret (Ok tt)
          end
    end.

(** ** Listings *)

(** The names of a directory, in the order of the file names. *)
Definition names_in (sel : path -> option string) (m : fs) : list string :=
  sort_stable (fun a b => string_less (a ++ ".json") (b ++ ".json")) (omap (fun e => sel (fst e)) (map_to_list m)).

Definition user_name (p : path) : option string := match p with UserProfile n => Some n | _ => None end.
Definition ro_name (p : path) : option string := match p with RoProfile n => Some n | _ => None end.

Definition listAllProfileNames : Files (list string) := gets (fun m => names_in user_name m ++ names_in ro_name m)%list.

(** The profiles that can be read, with a predicate. *)
Fixpoint load_each (names : list string) : Files (list (string * ProfileData)) :=
  match names with
  | [] => mret []
  | n :: rest =>
      r ← loadProfile n;
      more ← load_each rest;
      mret (match r with Ok p => (n, p) :: more | Err _ => more end)
  end.

Fixpoint filter_enabled (l : list (string * ProfileData)) : Files (list (string * ProfileData)) :=
  match l with
  | [] => mret []
  | (n, p) :: rest => b ← isProfileEnabled n; more ← filter_enabled rest; mret (if b : bool then (n, p) :: more else more)
  end.

Definition by_priority (a b : string * ProfileData) : bool :=
  if Priority (snd a) =? Priority (snd b) then string_less (fst a) (fst b) else Priority (snd b) <? Priority (snd a).

(** [sort.Slice] by priority, highest first, then by name. *)
Definition listProfileNames : Files (list string) :=
  all ← listAllProfileNames; loaded ← load_each all; enabled ← filter_enabled loaded;
  mret (fst <$> sort_stable by_priority enabled).

Definition profilesInGroup (group : string) : Files (list string) :=
  all ← listAllProfileNames; loaded ← load_each all;
  mret (sort_stable string_less (fst <$> filter (fun e => group ∈ Groups (snd e)) loaded)).

Fixpoint filter_disabled (names : list string) : Files (list string) :=
  match names with
  | [] => mret []
  | n :: rest => b ← isProfileEnabled n; more ← filter_disabled rest; mret (if b : bool then more else n :: more)
  end.

Definition listDisabledProfileNames : Files (list string) := all ← listAllProfileNames; filter_disabled all.

(** ** Reading changes nothing *)

Definition reads {A} (m : Files A) : Prop := forall s, (m s).2 = s.

Lemma reads_bind {A B} (m : Files A) (f : A -> Files B) : reads m -> (forall a, reads (f a)) -> reads (m ≫= f).
Proof. intros Hm Hf s. by rewrite run_bind, Hf, Hm. Qed.

Lemma reads_run {A B} (m : Files A) (f : A -> Files B) s : reads m -> (m ≫= f) s = f (m s).1 s.
Proof. intros Hm. by rewrite run_bind, Hm. Qed.

Ltac read_only_op := repeat first
  [ solve [auto with files] | apply reads_bind; [| intros ?]
  | match goal with |- reads (if ?b then _ else _) => destruct b | |- reads (match ?x with _ => _ end) => destruct x end ].

Lemma read_reads p : reads (read p).
Proof. done. Qed.
Lemma ret_reads {A} (a : A) : reads (mret a).
Proof. done. Qed.
Lemma stat_reads p : reads (stat p).
Proof. done. Qed.
#[local] Hint Resolve read_reads ret_reads stat_reads : files.
Lemma read_text_reads p : reads (read_text p).
Proof. unfold read_text. read_only_op. Qed.
#[local] Hint Resolve read_text_reads : files.
Lemma load_reads n : reads (loadProfile n).
Proof. unfold loadProfile. read_only_op. Qed.
Lemma statuses_reads : reads loadStatuses.
Proof. unfold loadStatuses. read_only_op. Qed.
#[local] Hint Resolve load_reads statuses_reads : files.
Lemma enabled_reads n : reads (isProfileEnabled n).
Proof. unfold isProfileEnabled. read_only_op. Qed.
Lemma active_reads : reads getActiveProfile.
Proof. unfold getActiveProfile. read_only_op. Qed.
Lemma autoswitch_reads : reads getAutoswitchCurrentProfile.
Proof. unfold getAutoswitchCurrentProfile. read_only_op. Qed.
#[local] Hint Resolve enabled_reads active_reads autoswitch_reads : files.
Lemma load_each_reads l : reads (load_each l).
Proof. induction l; simpl; read_only_op. Qed.
Lemma filter_enabled_reads l : reads (filter_enabled l).
Proof. induction l as [| [n p] l IH]; simpl; read_only_op. Qed.
#[local] Hint Resolve load_each_reads filter_enabled_reads : files.

(** A write or a removal only changes its path. *)
Lemma write_other p f q m : p <> q -> (write p f m).2 !! q = m !! q.
Proof.
  intros Hpq. unfold write. destruct (can_write m p f); cbn [snd]; [by rewrite lookup_insert_ne |].
  destruct (torn m p f); [by rewrite lookup_insert_ne | by rewrite lookup_delete_ne].
Qed.

Lemma write_same p f m : (write p f m).1 = true -> (write p f m).2 !! p = Some f.
Proof. unfold write. destruct (can_write m p f); cbn [fst snd]; [intros _; by rewrite lookup_insert_eq | done]. Qed.

Lemma remove_other p q m : p <> q -> (unlink p m).2 !! q = m !! q.
Proof.
  intros Hpq. unfold unlink. destruct (m !! p); [| done]. destruct (can_remove m p); cbn [snd]; [by rewrite lookup_delete_ne | done].
Qed.

Lemma remove_same p m : (unlink p m).1 = true -> (unlink p m).2 !! p = None.
Proof. unfold unlink. destruct (m !! p); [| done]. destruct (can_remove m p); cbn [fst snd]; [by rewrite lookup_delete_eq | done]. Qed.

Lemma remove_failed p m : (unlink p m).1 = false -> (unlink p m).2 = m.
Proof. unfold unlink. destruct (m !! p); [| done]. by destruct (can_remove m p). Qed.

Lemma device_other q m : q <> DevicePath -> (getOrCreateDeviceID m).2 !! q = m !! q.
Proof.
  intros Hq. unfold getOrCreateDeviceID. rewrite reads_run by apply read_text_reads.
  destruct (_ =? 16)%nat; [done |]. rewrite !run_bind. by rewrite <- (write_other DevicePath (Text (random_id m)) q m).
Qed.

Lemma profilePath_inj a b : profilePath a = profilePath b -> a = b.
Proof. unfold profilePath. repeat destruct (read_only _); congruence. Qed.

Lemma profilePath_not_state n : profilePath n <> StatusPath /\ profilePath n <> ActivePath /\ profilePath n <> AutoswitchPath /\ profilePath n <> DevicePath.
Proof. unfold profilePath. by destruct (read_only n). Qed.

(** ** Saving *)

(** What [saveProfile] writes. *)
Definition saved_id (p : ProfileData) (m : fs) : string :=
  if String.eqb (DeviceID p) "" then (getOrCreateDeviceID m).1 else DeviceID p.

Lemma save_result n p m m' : saveProfile n p m = (Ok tt, m') ->
  m' !! profilePath n = Some (ProfileFile (add_group (with_device (saved_id p m) p))).
Proof.
  unfold saveProfile, saved_id. destruct (read_only n); [done |]. rewrite !run_bind.
  destruct (String.eqb (DeviceID p) ""); cbn [fst snd mret State_ret];
    (destruct (write _ _ _) as [[] m1] eqn:E; [| done]; intros [= <-];
     pose proof (write_same _ _ _ (f_equal fst E)) as Hw; by rewrite E in Hw).
Qed.

Lemma save_other n p m q : q <> profilePath n -> q <> DevicePath -> (saveProfile n p m).2 !! q = m !! q.
Proof.
  intros Hq Hd. unfold saveProfile. destruct (read_only n); [done |]. rewrite !run_bind. cbn [snd mret State_ret].
  rewrite write_other by done. destruct (String.eqb _ _); [by apply device_other | done].
Qed.

(** ** Renaming *)

Definition state_files : list path := [StatusPath; ActivePath; AutoswitchPath].

Lemma reads_keeps {A} (P : fs -> Prop) (m : Files A) : reads m -> keeps P m.
Proof. intros Hm s Hs. by rewrite Hm. Qed.

Lemma write_keeps p f q (v : option file) : p <> q -> keeps (fun m => m !! q = v) (write p f).
Proof. intros Hpq m <-. by apply write_other. Qed.
#[local] Hint Resolve reads_keeps write_keeps : effects.
#[local] Hint Resolve read_reads ret_reads stat_reads read_text_reads load_reads statuses_reads enabled_reads active_reads autoswitch_reads : effects.

Lemma rename_state_other o n q m : q ∉ state_files -> (rename_state o n m).2 !! q = m !! q.
Proof.
  intros Hq. assert (StatusPath <> q /\ ActivePath <> q /\ AutoswitchPath <> q) as (H1 & H2 & H3).
  { unfold state_files in Hq. rewrite !elem_of_cons in Hq. naive_solver. }
  cut (keeps (fun m' => m' !! q = m !! q) (rename_state o n)); [intros Hk; by apply Hk |].
  unfold rename_state, move_status, saveStatuses, setActiveProfile, setAutoswitchCurrentProfile. keep.
Qed.

(** The steps of a rename that succeeds. *)
Lemma rename_steps o n m m' : renameProfile o n m = (Ok tt, m') ->
  exists p m1 m2, (loadProfile o m).1 = Ok p /\ m !! profilePath n = None /\ saveProfile n p m = (Ok tt, m1) /\
    unlink (profilePath o) m1 = (true, m2) /\ m' = (rename_state o n m2).2.
Proof.
  unfold renameProfile. destruct (_ || _); [done |]. rewrite reads_run by apply load_reads.
  destruct (loadProfile o m).1 as [p | e]; [| done]. rewrite reads_run by apply stat_reads.
  cbn [stat gets fst]. case_bool_decide as Hn; [done |]. rewrite run_bind.
  destruct (saveProfile n p m) as [[[] | e] m1] eqn:Es; cbn [fst snd]; [| done]. rewrite run_bind.
  destruct (unlink (profilePath o) m1) as [[] m2] eqn:Er; cbn [fst snd negb]; [| by rewrite run_bind]. rewrite run_bind.
  intros [= <-]. exists p, m1, m2. by rewrite eq_None_not_Some.
Qed.

(** A rename that succeeds moves the profile's data, as [loadProfile] reads it, to a name that was
    free, and changes no other file than the two of the profile, the device identifier and the three
    state files. *)
Theorem rename_moves o n m m' :
  renameProfile o n m = (Ok tt, m') ->
  exists p, (loadProfile o m).1 = Ok p /\ m !! profilePath n = None /\ m' !! profilePath o = None /\
    m' !! profilePath n = Some (ProfileFile (add_group (with_device (saved_id p m) p))) /\
    forall q, q ∉ [profilePath o; profilePath n; DevicePath] -> q ∉ state_files -> m' !! q = m !! q.
Proof.
  intros (p & m1 & m2 & Hl & Hn & Hs & Hr & ->)%rename_steps. exists p. split; [done |]. split; [done |].
  assert (forall x, profilePath x ∉ state_files) as Hst by (by intros x; unfold profilePath, state_files; destruct (read_only x); set_solver).
  pose proof (save_result _ _ _ _ Hs) as Hsaved.
  assert (profilePath o <> profilePath n) as Hon.
  { intros E. unfold loadProfile in Hl. rewrite reads_run in Hl by apply read_reads. cbn [read gets fst] in Hl.
    by rewrite E, Hn in Hl. }
  split; [| split].
  - rewrite rename_state_other by done. by rewrite <- (remove_same (profilePath o) m1); rewrite Hr.
  - rewrite rename_state_other by done. rewrite <- Hsaved. rewrite <- (remove_other (profilePath o) (profilePath n) m1 Hon). by rewrite Hr.
  - intros q Hq Hq'. rewrite rename_state_other by done. rewrite !elem_of_cons in Hq.
    assert (q <> profilePath o /\ q <> profilePath n /\ q <> DevicePath) as (H1 & H2 & H3) by naive_solver.
    rewrite <- (save_other n p m q H2 H3), Hs. cbn [snd]. by rewrite <- (remove_other (profilePath o) q m1), Hr.
Qed.

(** What [renameProfile] does to the status of the profile: its own moves along; without one, a status
    left under the new name applies. *)
Definition status_of (m : fs) : option (gmap string bool) := (loadStatuses m).1.

Section reliable.
Context (Hwrite : forall m p f, can_write m p f = true).

Lemma write_run p f m : write p f m = (true, <[p := f]> m).
Proof. unfold write. by rewrite Hwrite. Qed.

Lemma enabled_value n m : (isProfileEnabled n m).1 = from_option (fun st => default true (st !! n)) true (status_of m).
Proof. unfold isProfileEnabled, status_of. rewrite reads_run by apply statuses_reads. by destruct (loadStatuses m).1. Qed.

Lemma status_of_other m m' : m' !! StatusPath = m !! StatusPath -> status_of m' = status_of m.
Proof. unfold status_of, loadStatuses. intros E. rewrite !reads_run by apply read_reads. cbn [read gets fst]. by rewrite E. Qed.

Lemma status_of_write st m : status_of (<[StatusPath := StatusFile st]> m) = Some st.
Proof. unfold status_of, loadStatuses. rewrite reads_run by apply read_reads. cbn [read gets fst]. by rewrite lookup_insert_eq. Qed.

(** Enabling or disabling a profile sets its status and no other, unless the file of statuses cannot
    be decoded: then every other profile is enabled again. *)
Theorem set_enabled n e m :
  let m' := (setProfileEnabled n e m).2 in
  (setProfileEnabled n e m).1 = true /\ (isProfileEnabled n m').1 = e /\
  (forall k, k <> n -> (isProfileEnabled k m').1 = match status_of m with Some _ => (isProfileEnabled k m).1 | None => true end) /\
  (forall q, q <> StatusPath -> m' !! q = m !! q).
Proof.
  cbn zeta. unfold setProfileEnabled. rewrite reads_run by apply statuses_reads. fold (status_of m).
  unfold saveStatuses. rewrite write_run. cbn [fst snd]. rewrite !enabled_value, status_of_write. cbn [from_option].
  rewrite lookup_insert_eq. split; [done |]. split; [done |]. split.
  - intros k Hk. rewrite !enabled_value, status_of_write. cbn [from_option]. rewrite lookup_insert_ne by done.
    by destruct (status_of m).
  - intros q Hq. by rewrite lookup_insert_ne.
Qed.
End reliable.

(** A rename that fails keeps the profile, and every other file except the one under the new name and
    the device identifier. *)
Theorem rename_fails_safe o n m e m' :
  renameProfile o n m = (Err e, m') -> forall q, q <> profilePath n -> q <> DevicePath -> m' !! q = m !! q.
Proof.
  intros E q Hn Hd. revert E. unfold renameProfile. destruct (_ || _); [by intros [= _ <-] |].
  rewrite reads_run by apply load_reads. destruct (loadProfile o m).1 as [p | e']; [| by intros [= _ <-]].
  rewrite reads_run by apply stat_reads. cbn [stat gets fst]. case_bool_decide; [by intros [= _ <-] |]. rewrite run_bind.
  pose proof (save_other n p m q Hn Hd) as Hs.
  destruct (saveProfile n p m) as [[[] | e'] m1]; cbn [fst snd] in *; [| by intros [= _ <-]]. rewrite run_bind.
  pose proof (remove_failed (profilePath o) m1) as Hr.
  destruct (unlink (profilePath o) m1) as [[] m2]; cbn [fst snd negb] in *; rewrite run_bind; [done |].
  intros [= _ <-]. rewrite remove_other by done. by rewrite Hr.
Qed.

(** *** A profile that names a link file *)

Lemma load_value n m p : m !! profilePath n = Some (ProfileFile p) ->
  let p' := with_password (clean_password (Password p)) p in
  needs_link p' = false -> (loadProfile n m).1 = Ok p'.
Proof.
  cbn zeta. intros Hf Hl. unfold loadProfile. rewrite reads_run by apply read_reads. cbn [read gets fst]. by rewrite Hf, Hl.
Qed.

Lemma needs_link_saved p id : needs_link (add_group (with_device id p)) = needs_link p.
Proof. unfold add_group. by destruct (_ || _). Qed.

Lemma clean_saved p id : Password (add_group (with_device id p)) = Password p.
Proof. unfold add_group. by destruct (_ || _). Qed.

(** A profile that takes its server from a link file stops doing so when it is renamed: the server read
    at that moment is stored, and later versions of the link file are ignored. *)
Theorem rename_freezes_link o n m m' l p :
  renameProfile o n m = (Ok tt, m') -> (loadProfile o m).1 = Ok (with_link l p) ->
  IP l <> "" -> clean_password (Links.Password l) <> "" ->
  forall m2, m2 !! profilePath n = m' !! profilePath n ->
  exists p', (loadProfile n m2).1 = Ok p' /\ PeerAddr p' = IP l ++ ":" ++ DTLSPort l /\
    Password p' = clean_password (Links.Password l).
Proof.
  intros Hr Hl Hip Hpw m2 E2.
  destruct (rename_steps o n m m' Hr) as (q & m1 & m3 & Hq & _ & Hs & Hrem & ->). rewrite Hl in Hq. injection Hq as <-.
  assert (m2 !! profilePath n = Some (ProfileFile (add_group (with_device (saved_id (with_link l p) m) (with_link l p))))) as Hf.
  { rewrite E2. destruct (rename_moves o n m _ Hr) as (q & Hq & _ & _ & Hn & _). rewrite Hl in Hq. by injection Hq as <-. }
  set (q := add_group _) in Hf. assert (Password q = Links.Password l) as Hpq by apply clean_saved.
  assert (PeerAddr q = IP l ++ ":" ++ DTLSPort l) as Hpeer.
  { unfold q, add_group. by destruct (_ || _). }
  eexists. split; [apply (load_value n m2 q Hf) |].
  - unfold needs_link. cbn [with_password PeerAddr Password LinkFile]. rewrite Hpeer, Hpq.
    rewrite (proj2 (String.eqb_neq (clean_password _) "")) by done.
    destruct (IP l); [done |]. done.
  - cbn [with_password PeerAddr Password]. by rewrite Hpeer, Hpq.
Qed.

(** ** The listing by priority *)

Definition loaded (m : fs) (e : string * ProfileData) : Prop := (loadProfile (fst e) m).1 = Ok (snd e).

Lemma by_priority_order m : strict_total by_priority (loaded m).
Proof.
  destruct string_less_order as [Hirr Htrans Htot]. split.
  - intros [a p] _. unfold by_priority. cbn [fst snd]. rewrite Z.eqb_refl. by apply Hirr.
  - intros [a p] [b q] [c r] _ _ _. unfold by_priority. cbn [fst snd].
    destruct (Z.eqb_spec (Priority p) (Priority q)), (Z.eqb_spec (Priority q) (Priority r)), (Z.eqb_spec (Priority p) (Priority r));
      rewrite ?Z.ltb_lt; try lia. by apply Htrans.
  - intros [a p] [b q] Ha Hb. unfold loaded, by_priority in *. cbn [fst snd] in *.
    destruct (Z.eqb_spec (Priority p) (Priority q)) as [E | E].
    + rewrite E, Z.eqb_refl. intros H1 H2. assert (a = b) as -> by (by apply Htot). rewrite Ha in Hb. by injection Hb as ->.
    + destruct (Z.eqb_spec (Priority q) (Priority p)); [lia |]. rewrite !Z.ltb_ge. lia.
Qed.

Lemma load_each_value l m : (load_each l m).1 = omap (fun n => match (loadProfile n m).1 with Ok p => Some (n, p) | Err _ => None end) l.
Proof.
  induction l as [| n l IH]; [done |]. cbn [load_each omap list_omap]. rewrite reads_run by apply load_reads.
  rewrite reads_run by apply load_each_reads. rewrite IH. by destruct (loadProfile n m).1.
Qed.

Lemma filter_enabled_value l m : (filter_enabled l m).1 = filter (fun e => (isProfileEnabled (fst e) m).1 = true) l.
Proof.
  induction l as [| [n p] l IH]; [done |]. cbn [filter_enabled]. rewrite reads_run by apply enabled_reads.
  rewrite reads_run by apply filter_enabled_reads. rewrite IH. cbn [fst mret State_ret].
  destruct (isProfileEnabled n m).1 eqn:E; [by rewrite filter_cons_True | by rewrite filter_cons_False by (cbn; by rewrite E)].
Qed.

Lemma listed_all n m : n ∈ (listAllProfileNames m).1 <-> m !! UserProfile n <> None \/ m !! RoProfile n <> None.
Proof.
  unfold listAllProfileNames. cbn [gets fst]. rewrite elem_of_app. unfold names_in. rewrite !sort_stable_perm, !list_elem_of_omap.
  split.
  - intros [(([] & f) & Hf & E) | (([] & f) & Hf & E)]; try discriminate; injection E as ->; apply elem_of_map_to_list in Hf; [left | right]; by rewrite Hf.
  - intros [Hf | Hf]; [left | right]; destruct (m !! _) as [f |] eqn:E; try done.
    + exists (UserProfile n, f). split; [by apply elem_of_map_to_list | done].
    + exists (RoProfile n, f). split; [by apply elem_of_map_to_list | done].
Qed.

(** The profiles offered to a connection are the readable and enabled ones, highest priority first. *)
Theorem profiles_by_priority m :
  let l := (listProfileNames m).1 in
  (forall n, n ∈ l <-> (m !! UserProfile n <> None \/ m !! RoProfile n <> None) /\
     is_ok (loadProfile n m).1 = true /\ (isProfileEnabled n m).1 = true) /\
  StronglySorted (fun a b => forall p q, (loadProfile a m).1 = Ok p -> (loadProfile b m).1 = Ok q ->
     Priority q < Priority p \/ (Priority q = Priority p /\ string_less b a = false)) l.
Proof.
  cbv zeta. unfold listProfileNames. rewrite reads_run by done. set (all := (listAllProfileNames m).1).
  rewrite reads_run by apply load_each_reads. rewrite load_each_value. set (ls := omap _ all).
  rewrite reads_run by apply filter_enabled_reads. rewrite filter_enabled_value. cbn [fst mret State_ret].
  set (en := filter _ ls).
  assert (forall e, e ∈ ls <-> fst e ∈ all /\ loaded m e) as Hls.
  { intros [n p]. unfold ls. rewrite list_elem_of_omap. unfold loaded. cbn [fst snd]. split.
    - intros (x & Hx & E). destruct (loadProfile x m).1 eqn:El; [| done]. by injection E as -> ->.
    - intros [Hx El]. exists n. by rewrite El. }
  assert (Forall (loaded m) en) as Hen.
  { apply Forall_forall. intros e [_ He]%list_elem_of_filter. exact (proj2 (proj1 (Hls e) He)). }
  split.
  - intros n. rewrite list_elem_of_fmap. rewrite <- listed_all. fold all. split.
    + intros ([k p] & -> & He). rewrite sort_stable_perm in He. apply list_elem_of_filter in He as [He1 He2].
      apply Hls in He2 as [Ha Hl]. unfold loaded in Hl. cbn [fst snd] in *. by rewrite Hl.
    + intros (Ha & Hl & He). destruct (loadProfile n m).1 as [p |] eqn:El; [| done]. exists (n, p). split; [done |].
      rewrite sort_stable_perm. apply list_elem_of_filter. split; [done |]. by apply Hls.
  - pose proof (sort_stable_sorted by_priority (loaded m) (by_priority_order m) en Hen) as Hs.
    assert (Forall (loaded m) (sort_stable by_priority en)) as Hl by (rewrite sort_stable_perm; exact Hen).
    induction Hs as [| [a p] rest Hs IH Ha]; [constructor |]. apply Forall_cons in Hl as [Hla Hl]. cbn [fmap list_fmap fst].
    constructor; [by apply IH |]. apply Forall_fmap. rewrite Forall_forall in Ha, Hl |- *. intros [b q] Hb.
    specialize (Ha _ Hb). specialize (Hl _ Hb). unfold loaded, not_less, by_priority in *. cbn [fst snd compose] in *.
    intros p' q' Ep Eq. rewrite Hla in Ep. rewrite Hl in Eq. injection Ep as <-. injection Eq as <-.
    destruct (Z.eqb_spec (Priority q) (Priority p)); [by right |]. apply Z.ltb_ge in Ha. left. lia.
Qed.
End profiles.

(** ** Concrete files *)

Section example.
#[local] Instance example_unicode : Unicode := fun s => s.
#[local] Instance example_disk : Disk := {|
  can_write := fun _ p _ => bool_decide (p <> UserProfile "full"); torn := fun _ _ _ => Some Unreadable;
  can_remove := fun _ _ => true; random_id := fun _ => "0123456789abcdef" |}.

Definition example_profile (prio : Z) : ProfileData :=
  {| PeerAddr := "1.2.3.4:56000"; Password := "secret"; Hashes := ["h"]; Listen := ""; TurnHost := ""; TurnPort := "";
     Workers := 9; DeviceID := ""; Priority := prio; LinkFile := ""; Groups := []; Subscription := "" |}.

Definition example_linked : ProfileData :=
  {| PeerAddr := ""; Password := ""; Hashes := []; Listen := ""; TurnHost := ""; TurnPort := "";
     Workers := 0; DeviceID := "d"; Priority := 0; LinkFile := "/link"; Groups := []; Subscription := "" |}.

Definition example_fs : fs :=
  list_to_map [(UserProfile "home", ProfileFile (example_profile 1)); (UserProfile "work", ProfileFile (example_profile 5));
               (UserProfile "linked", ProfileFile example_linked); (UserFile "/link", Text "wdtt://5.6.7.8:1:2:3:pw:h1#n");
               (StatusPath, StatusFile (list_to_map [("home", false)])); (ActivePath, Text "home")].

Example example_order : (listProfileNames example_fs).1 = ["work"; "linked"].
Proof. by vm_compute. Qed.

Example example_rename_state :
  let m := (renameProfile "home" "h2" example_fs).2 in
  (isProfileEnabled "h2" m).1 = false /\ (isProfileEnabled "home" m).1 = true /\ (getActiveProfile m).1 = "h2".
Proof. by vm_compute. Qed.

Lemma rename_moves_witness : exists p,
  (renameProfile "home" "h2" example_fs).1 = Ok tt /\ (renameProfile "home" "h2" example_fs).2 !! UserProfile "home" = None /\
  (loadProfile "home" example_fs).1 = Ok p.
Proof.
  assert ((renameProfile "home" "h2" example_fs).1 = Ok tt) as E by (by vm_compute).
  destruct (rename_moves "home" "h2" example_fs (renameProfile "home" "h2" example_fs).2) as (p & Hp & _ & Hn & _).
  - rewrite <- E. apply surjective_pairing.
  - exists p. split; [done |]. split; [exact Hn | exact Hp].
Defined.

Lemma rename_fails_safe_witness :
  (renameProfile "home" "full" example_fs).1 = Err WriteFailed /\
  (renameProfile "home" "full" example_fs).2 !! UserProfile "home" = example_fs !! UserProfile "home".
Proof.
  assert ((renameProfile "home" "full" example_fs).1 = Err WriteFailed) as E by (by vm_compute).
  split; [done |]. apply (rename_fails_safe "home" "full" example_fs WriteFailed); [| done | done].
  rewrite <- E. apply surjective_pairing.
Defined.

Lemma rename_freezes_link_witness :
  let m := (renameProfile "linked" "l2" example_fs).2 in
  let m2 := <[UserFile "/link" := Text "wdtt://9.9.9.9:1:2:3:new:h1#n"]> m in
  exists p', (loadProfile "l2" m2).1 = Ok p' /\ PeerAddr p' = "5.6.7.8:1".
Proof.
  cbv zeta. set (m := (renameProfile "linked" "l2" example_fs).2).
  assert ((renameProfile "linked" "l2" example_fs).1 = Ok tt) as E by (by vm_compute).
  set (l := {| IP := "5.6.7.8"; DTLSPort := "1"; Links.Password := "pw"; Links.Hashes := ["h1"]; Name := "n"; Links.Workers := 9; Port := "9000" |}).
  destruct (rename_freezes_link "linked" "l2" example_fs m l example_linked) with (m2 := <[UserFile "/link" := Text "wdtt://9.9.9.9:1:2:3:new:h1#n"]> m)
    as (p' & Hp & Hpeer & _).
  - rewrite <- E. apply surjective_pairing.
  - by vm_compute.
  - done.
  - by vm_compute.
  - by rewrite lookup_insert_ne.
  - exists p'. split; [exact Hp | exact Hpeer].
Defined.
End example.

Lemma set_enabled_witness :
  let D : Disk := {| can_write := fun _ _ _ => true; torn := fun _ _ _ => None; can_remove := fun _ _ => true; random_id := fun _ => "" |} in
  (isProfileEnabled "work" (setProfileEnabled "home" false (<[StatusPath := Unreadable]> example_fs)).2).1 = true.
Proof.
  intros D. destruct (@set_enabled D (fun _ _ _ => eq_refl) "home" false (<[StatusPath := Unreadable]> example_fs)) as (_ & _ & H & _).
  exact (H "work" ltac:(discriminate)).
Defined.
