(* ===== verification/Subscription.v ===== *)
(** * Subscriptions and imports (subscription.go, translit.go, the import of commands.go).

    The HTTP request of a subscription and the decoding of its JSON are the function [fetch] of the
    address.  A loop that looks for a free name is given as many rounds as there are files and one
    more. *)

From S2P Require Import Prelude GoStrings Chars Sorting Json Form Links Url WgParse Effects Profiles.
From Stdlib Require Import ZArith Lia String Ascii.
From stdpp Require Import base list strings gmap.
Open Scope string_scope.
Open Scope Z_scope.
Abbreviation join := GoStrings.join.

(** ** Runes *)

Definition is_cont (lo hi : Z) (c : ascii) : bool := let n := code c in (lo <=? n) && (n <=? hi).

(** [utf8.DecodeRuneInString]: the rune and its width; an invalid byte is U+FFFD of width 1. *)
Definition rune_error : Z := 0xFFFD.

Definition decode_rune (s : string) : Z * nat :=
  let bad := (rune_error, 1%nat) in
  match s with
  | "" => (rune_error, 0%nat)
  | String a s1 =>
      let b0 := code a in
      if b0 <? 128 then (b0, 1%nat)
      else if (194 <=? b0) && (b0 <=? 223) then
        match s1 with
        | String b _ => if is_cont 128 191 b then ((b0 - 192) * 64 + (code b - 128), 2%nat) else bad
        | _ => bad
        end
      else if (224 <=? b0) && (b0 <=? 239) then
        match s1 with
        | String b (String c _) =>
            if is_cont (if b0 =? 224 then 160 else 128) (if b0 =? 237 then 159 else 191) b && is_cont 128 191 c
            then (((b0 - 224) * 64 + (code b - 128)) * 64 + (code c - 128), 3%nat) else bad
        | _ => bad
        end
      else if (240 <=? b0) && (b0 <=? 244) then
        match s1 with
        | String b (String c (String d _)) =>
            if is_cont (if b0 =? 240 then 144 else 128) (if b0 =? 244 then 143 else 191) b && is_cont 128 191 c && is_cont 128 191 d
            then ((((b0 - 240) * 64 + (code b - 128)) * 64 + (code c - 128)) * 64 + (code d - 128), 4%nat) else bad
        | _ => bad
        end
      else bad
  end.

(** [utf8.AppendRune] for the runes of [decode_rune]. *)
Definition encode_rune (r : Z) : string :=
  if r <? 128 then String (byte r) ""
  else if r <? 2048 then String (byte (192 + r / 64)) (String (byte (128 + r mod 64)) "")
  else if r <? 65536 then
    String (byte (224 + r / 4096)) (String (byte (128 + r / 64 mod 64)) (String (byte (128 + r mod 64)) ""))
  else String (byte (240 + r / 262144)) (String (byte (128 + r / 4096 mod 64))
         (String (byte (128 + r / 64 mod 64)) (String (byte (128 + r mod 64)) ""))).

(** [for _, r := range s]; [skip] bytes of a rune are left. *)
Fixpoint runes (s : string) (skip : nat) : list Z :=
  match s with
  | "" => []
  | String _ s' =>
      match skip with
      | S k => runes s' k
      | O => let '(r, w) := decode_rune s in r :: runes s' (w - 1)
      end
  end.

(** ** Transliteration *)

Definition translit_lower : list string :=
  ["a"; "b"; "v"; "g"; "d"; "e"; "zh"; "z"; "i"; "y"; "k"; "l"; "m"; "n"; "o"; "p"; "r"; "s"; "t"; "u"; "f"; "kh"; "ts";
   "ch"; "sh"; "shch"; ""; "y"; ""; "e"; "yu"; "ya"].
Definition translit_upper : list string :=
  ["A"; "B"; "V"; "G"; "D"; "E"; "Zh"; "Z"; "I"; "Y"; "K"; "L"; "M"; "N"; "O"; "P"; "R"; "S"; "T"; "U"; "F"; "Kh"; "Ts";
   "Ch"; "Sh"; "Shch"; ""; "Y"; ""; "E"; "Yu"; "Ya"].

(** [translitTable]: the letters from U+0410 and U+0430 on, and the two letters yo. *)
Definition translitTable (r : Z) : option string :=
  if r =? 0x401 then Some "E" else if r =? 0x451 then Some "e"
  else if (0x410 <=? r) && (r <=? 0x42F) then translit_upper !! Z.to_nat (r - 0x410)
  else if (0x430 <=? r) && (r <=? 0x44F) then translit_lower !! Z.to_nat (r - 0x430)
  else None.

Definition transliterateCyrillic (s : string) : string :=
  join "" ((fun r => default (encode_rune r) (translitTable r)) <$> runes s 0).

(** ** Names of imported profiles *)

(** The runes kept are ASCII, so the loop over the runes is a loop over the bytes. *)
Definition name_char (c : ascii) : option ascii :=
  let n := code c in
  if ((97 <=? n) && (n <=? 122)) || ((48 <=? n) && (n <=? 57)) then Some c
  else if n =? 32 then Some "_"%char
  else if (n =? 45) || (n =? 95) then Some c
  else None.

Fixpoint name_chars (s : string) : string :=
  match s with
  | "" => ""
  | String c s' => match name_char c with Some d => String d (name_chars s') | None => name_chars s' end
  end.

Definition underscore (c : ascii) : bool := Ascii.eqb c "_".

Definition normalizeImportName `{Unicode} (name : string) : string :=
  trim_set underscore (name_chars (to_lower (transliterateCyrillic (trim_space name)))).

(** ** Subscriptions *)

Record SubscriptionEntry := {
  e_Name : string; e_Peer : string; e_Hashes : string; e_VKHashes : string; WorkersPerHash : Z; e_Workers : Z;
  e_Port : Z; e_ListenPort : Z; e_Password : string; e_Pass : string
}.

Record SubscriptionJSON := {
  j_SubscriptionName : string; GroupName : string; j_Description : string; j_TrafficUsedMb : float64;
  j_TrafficLimitMb : float64; j_UpdatedAt : string; j_Version : Z; j_Profiles : list SubscriptionEntry;
  Servers : list SubscriptionEntry
}.

Inductive sub_error := BadURL | FetchFailed | NameRequired | NoProfiles | SaveFailed.

(** [parseSubscriptionJSON] on the decoded document: its name and its entries. *)
Definition parseSubscriptionJSON (sub : SubscriptionJSON) : result sub_error (string * list SubscriptionEntry) :=
  let name := if String.eqb (j_SubscriptionName sub) "" then GroupName sub else j_SubscriptionName sub in
  if String.eqb name "" then Err NameRequired
  else
    let profiles := if (length (j_Profiles sub) =? 0)%nat && (0 <? length (Servers sub))%nat then Servers sub else j_Profiles sub in
    if (length profiles =? 0)%nat then Err NoProfiles else Ok (name, profiles).

Definition valid_url (url : string) : bool := has_prefix "http://" url || has_prefix "https://" url.

Inductive entry_error := PeerRequired | PasswordRequired | HashesRequired.

Definition entry_hashes (e : SubscriptionEntry) : list string :=
  let s := if String.eqb (e_Hashes e) "" then e_VKHashes e else e_Hashes e in
  filter (.≠ "") (trim_space <$> split_on "," s).

(** Products of [int] wrap around at 64 bits. *)
Definition entry_workers (e : SubscriptionEntry) (hashes : list string) : Z :=
  let w := e_Workers e in
  let w := if (w <=? 0) && (0 <? WorkersPerHash e) then wrap64 (WorkersPerHash e * Z.of_nat (length hashes)) else w in
  if w <=? 0 then defaultWorkers else w.

Definition entry_port (e : SubscriptionEntry) : Z :=
  let p := if e_ListenPort e <=? 0 then e_Port e else e_ListenPort e in
  if p <=? 0 then 9000 else p.

Section subscriptions.
Context `{Unicode} `{Disk} (fetch : string -> option SubscriptionJSON) (now_text : fs -> string).

Definition entry_profile (e : SubscriptionEntry) (password : string) (hashes : list string) (id subName : string) : ProfileData :=
  {| PeerAddr := e_Peer e; Password := password; Hashes := hashes; Listen := "127.0.0.1:" ++ itoa (entry_port e);
     TurnHost := ""; TurnPort := ""; Workers := entry_workers e hashes; DeviceID := id; Priority := 0; LinkFile := "";
     Groups := []; Subscription := subName |}.

Definition subscriptionEntryToProfile (e : SubscriptionEntry) (subName : string) : Files (result entry_error ProfileData) :=
  if String.eqb (e_Peer e) "" then mret (Err PeerRequired)
  else
    let password := if String.eqb (e_Password e) "" then e_Pass e else e_Password e in
    if String.eqb password "" then mret (Err PasswordRequired)
    else
      let hashes := entry_hashes e in
      if (length hashes =? 0)%nat then mret (Err HashesRequired)
      else id ← getOrCreateDeviceID; mret (Ok (entry_profile e password hashes id subName)).

Definition loadSubscription (name : string) : Files (option SubscriptionConfig) :=
  f ← read (SubscriptionPath name); mret (match f with Some (SubscriptionFile s) => Some s | _ => None end).

Definition saveSubscription (name : string) (s : SubscriptionConfig) : Files bool := write (SubscriptionPath name) (SubscriptionFile s).

(** The loop over the profiles the subscription had; both branches of its test remove the file. *)
Fixpoint remove_old (names : list string) : Files (list string) :=
  match names with
  | [] => mret []
  | n :: rest => b ← unlink (profilePath n); more ← remove_old rest; mret (if b : bool then n :: more else more)
  end.

(** The search for a name that no profile can be read under, from number [c] on: the name and the next
    number. *)
Definition candidate (base : string) (c : Z) : string := base ++ "_sub" ++ itoa c.

Fixpoint free_name (fuel : nat) (base : string) (c : Z) : Files (option (string * Z)) :=
  match fuel with
  | O => mret None
  | S f =>
      r ← loadProfile (candidate base c);
      match r with Ok _ => free_name f base (c + 1) | Err _ => mret (Some (candidate base c, c + 1)) end
  end.

(** The name an entry is saved under; [counters] is [nameCounter]; [None] if the search did not end. *)
Definition final_name (subName base : string) (counters : gmap string Z) : Files (option (string * gmap string Z)) :=
  r ← loadProfile base;
  match r with
  | Ok existing =>
      if String.eqb (Subscription existing) subName then mret (Some (base, counters))
      else
        n ← gets size;
        c ← free_name (S n) base (default 0 (counters !! base));
        mret (match c with Some (name, k) => Some (name, <[base := k]> counters) | None => None end)
  | Err _ => mret (Some (base, counters))
  end.

Fixpoint create_all (subName : string) (entries : list SubscriptionEntry) (counters : gmap string Z) : Files (list string) :=
  match entries with
  | [] => mret []
  | e :: rest =>
      p ← subscriptionEntryToProfile e subName;
      match p with
      | Err _ => create_all subName rest counters
      | Ok prof =>
          let base := normalizeImportName (e_Name e) in
          let base := if String.eqb base "" then subName else base in
          nc ← final_name subName base counters;
          match nc with
          | None => mret []
          | Some (final, counters) =>
              saved ← saveProfile final prof;
              more ← create_all subName rest counters;
              mret (match saved with Ok _ => final :: more | Err _ => more end)
          end
      end
  end.

Definition new_config (subName url : string) : SubscriptionConfig :=
  {| URL := url; SubscriptionName := subName; Description := ""; TrafficUsedMb := f_of_int 0; TrafficLimitMb := f_of_int 0;
     UpdatedAt := ""; Version := 0; SubProfiles := []; LastFetch := "" |}.

Definition with_url (url : string) (s : SubscriptionConfig) : SubscriptionConfig :=
  {| URL := url; SubscriptionName := SubscriptionName s; Description := Description s; TrafficUsedMb := TrafficUsedMb s;
     TrafficLimitMb := TrafficLimitMb s; UpdatedAt := UpdatedAt s; Version := Version s; SubProfiles := SubProfiles s;
     LastFetch := LastFetch s |}.

Definition updated (s : SubscriptionConfig) (j : SubscriptionJSON) (profiles : list string) (now : string) : SubscriptionConfig :=
  {| URL := URL s; SubscriptionName := SubscriptionName s; Description := j_Description j; TrafficUsedMb := j_TrafficUsedMb j;
     TrafficLimitMb := j_TrafficLimitMb j; UpdatedAt := j_UpdatedAt j; Version := j_Version j; SubProfiles := profiles;
     LastFetch := now |}.

Definition current_config (subName url : string) (old : option SubscriptionConfig) : SubscriptionConfig :=
  match old with
  | None => new_config subName url
  | Some s => if String.eqb url "" then s else with_url url s
  end.

(** [applySubscription]: the profiles created and removed. *)
Definition applySubscription (subName url : string) : Files (result sub_error (list string * list string)) :=
  old ← loadSubscription subName;
  let sub := current_config subName url old in
  if negb (valid_url (URL sub)) then mret (Err BadURL)
  else
    match fetch (URL sub) with
    | None => mret (Err FetchFailed)
    | Some j =>
        match parseSubscriptionJSON j with
        | Err e => mret (Err e)
        | Ok (_, entries) =>
            let subName := SubscriptionName sub in
            removed ← remove_old (SubProfiles sub);
            now ← gets now_text;
            created ← create_all subName entries ∅;
            b ← saveSubscription subName (updated sub j created now);
            mret (if b : bool then Ok (created, removed) else Err SaveFailed)
        end
    end.

(** ** Import *)

Record importProfile := {
  i_Name : string; i_Peer : string; i_VKHashes : string; i_WorkersPerHash : Z; i_ListenPort : Z; i_Password : string;
  i_GroupName : string
}.

Definition import_data (e : importProfile) : ProfileData :=
  {| PeerAddr := i_Peer e; Password := i_Password e; Hashes := [i_VKHashes e];
     Listen := if 0 <? i_ListenPort e then "127.0.0.1:" ++ itoa (i_ListenPort e) else "";
     TurnHost := ""; TurnPort := ""; Workers := 0; DeviceID := ""; Priority := 0; LinkFile := "";
     Groups := if String.eqb (i_GroupName e) "" then [] else [i_GroupName e]; Subscription := "" |}.

Definition import_candidate (name : string) (counter : Z) : string :=
  if counter =? 0 then name else name ++ "(" ++ itoa counter ++ ")".

Fixpoint import_name (fuel : nat) (name : string) (counter : Z) : Files (option string) :=
  match fuel with
  | O => mret None
  | S f =>
      r ← loadProfile (import_candidate name counter);
      match r with Ok _ => import_name f name (counter + 1) | Err _ => mret (Some (import_candidate name counter)) end
  end.

(** The loop of [importCmd] over the entries, when it saves: the names saved and the number skipped. *)
Fixpoint import_all (entries : list importProfile) : Files (list string * nat) :=
  match entries with
  | [] => mret ([], 0%nat)
  | e :: rest =>
      let name := normalizeImportName (i_Name e) in
      if String.eqb name "" then r ← import_all rest; mret (fst r, S (snd r))
      else
        n ← gets size;
        c ← import_name (S n) name 0;
        match c with
        | None => mret ([], 0%nat)
        | Some final =>
            saved ← saveProfile final (import_data e);
            r ← import_all rest;
            mret (match saved with Ok _ => (final :: fst r, snd r) | Err _ => (fst r, S (snd r)) end)
        end
  end.

(** ** The search for a name ends *)

Lemma load_present n m p : (loadProfile n m).1 = Ok p -> profilePath n ∈ dom m.
Proof.
  unfold loadProfile. rewrite reads_run by apply read_reads. cbn [read gets fst].
  destruct (m !! profilePath n) eqn:E; [intros _; by apply elem_of_dom | done].
Qed.

(** Distinct names with readable profiles are at most as many as the files. *)
Lemma loadable_bound (names : list string) m :
  NoDup names -> Forall (fun n => is_ok (loadProfile n m).1 = true) names -> (length names <= size m)%nat.
Proof.
  intros Hnd Hl. rewrite <- (length_fmap profilePath), <- size_dom.
  rewrite <- (size_list_to_set (C := gset path)) by (apply NoDup_fmap_2; [intros a b; apply profilePath_inj | done]).
  apply subseteq_size. intros q Hq%elem_of_list_to_set. apply list_elem_of_fmap in Hq as (n & -> & Hn).
  rewrite Forall_forall in Hl. specialize (Hl n Hn). destruct (loadProfile n m).1 eqn:E; [by eapply load_present | done].
Qed.

Lemma itoa_inj a b : min_int <= a <= max_int -> min_int <= b <= max_int -> itoa a = itoa b -> a = b.
Proof. intros Ha Hb E. apply (f_equal atoi) in E. rewrite !atoi_itoa in E by done. by injection E. Qed.

Section search.
Context (name : Z -> string) (Hname : forall a b, 0 <= a <= max_int -> 0 <= b <= max_int -> name a = name b -> a = b).

(** The first number from [c] on whose name is free. *)
Fixpoint first_free (fuel : nat) (c : Z) (m : fs) : option Z :=
  match fuel with
  | O => None
  | S f => if is_ok (loadProfile (name c) m).1 then first_free f (c + 1) m else Some c
  end.

Lemma first_free_none f c m : first_free f c m = None ->
  Forall (fun n => is_ok (loadProfile n m).1 = true) (name <$> seqZ c (Z.of_nat f)).
Proof.
  revert c. induction f as [| f IH]; intros c; cbn [first_free]; [by rewrite seqZ_nil |].
  destruct (is_ok _) eqn:E; [| done]. intros Hf. rewrite seqZ_cons by lia. cbn [fmap list_fmap]. constructor; [done |].
  replace (Z.pred (Z.of_nat (S f))) with (Z.of_nat f) by lia. by apply IH.
Qed.

Lemma first_free_total c m : 0 <= c -> c + Z.of_nat (size m) <= max_int -> first_free (S (size m)) c m <> None.
Proof.
  intros Hc Hb Hn. apply first_free_none in Hn. apply loadable_bound in Hn.
  - rewrite length_fmap, length_seqZ in Hn. lia.
  - apply NoDup_fmap_2_strong; [| apply NoDup_seqZ]. intros a b Ha%elem_of_seqZ Hb'%elem_of_seqZ. apply Hname; lia.
Qed.

Lemma first_free_spec f c m k : first_free f c m = Some k -> is_ok (loadProfile (name k) m).1 = false.
Proof. revert c. induction f as [| f IH]; intros c; cbn [first_free]; [done |]. destruct (is_ok (loadProfile (name c) m).1) eqn:E; [apply IH | by intros [= <-]]. Qed.
End search.

Lemma free_name_value f base c m : (free_name f base c m).1 = (fun k => (candidate base k, k + 1)) <$> first_free (candidate base) f c m.
Proof.
  revert c. induction f as [| f IH]; intros c; [done |]. cbn [free_name first_free]. rewrite reads_run by apply load_reads.
  destruct (loadProfile _ m).1; [apply IH | done].
Qed.

Lemma import_name_value f name c m : (import_name f name c m).1 = import_candidate name <$> first_free (import_candidate name) f c m.
Proof.
  revert c. induction f as [| f IH]; intros c; [done |]. cbn [import_name first_free]. rewrite reads_run by apply load_reads.
  destruct (loadProfile _ m).1; [apply IH | done].
Qed.

Lemma candidate_inj base a b : 0 <= a <= max_int -> 0 <= b <= max_int -> candidate base a = candidate base b -> a = b.
Proof.
  intros Ha Hb E. unfold candidate in E. apply app_inj_prefix, app_inj_prefix in E. apply itoa_inj in E; [done | |]; unfold min_int; lia.
Qed.

Lemma import_candidate_inj name a b : 0 <= a <= max_int -> 0 <= b <= max_int -> import_candidate name a = import_candidate name b -> a = b.
Proof.
  intros Ha Hb E. unfold import_candidate in E.
  assert (forall s, name ++ "(" ++ s <> name) as Hne.
  { intros s Hs. apply (f_equal String.length) in Hs. rewrite !string_length_app in Hs. cbn in Hs. lia. }
  destruct (Z.eqb_spec a 0), (Z.eqb_spec b 0); [lia | by apply eq_sym, Hne in E | by apply Hne in E |].
  apply app_inj_prefix, app_inj_prefix, app_inj_suffix in E. apply itoa_inj in E; [done | |]; unfold min_int; lia.
Qed.

(** The searches for a free name end, and what they find is a name under which no profile can be
    read, for a subscription as for an import. *)
Theorem name_search_ends base name c m :
  0 <= c -> c + Z.of_nat (size m) <= max_int ->
  (exists k, (free_name (S (size m)) base c m).1 = Some (candidate base k, k + 1) /\
     is_ok (loadProfile (candidate base k) m).1 = false) /\
  (exists k, (import_name (S (size m)) name c m).1 = Some (import_candidate name k) /\
     is_ok (loadProfile (import_candidate name k) m).1 = false).
Proof.
  intros Hc Hb. rewrite free_name_value, import_name_value.
  pose proof (first_free_total (candidate base) (candidate_inj base) c m Hc Hb) as H1.
  pose proof (first_free_total (import_candidate name) (import_candidate_inj name) c m Hc Hb) as H2.
  destruct (first_free (candidate base) _ c m) as [k |] eqn:E1; [| done].
  destruct (first_free (import_candidate name) _ c m) as [k' |] eqn:E2; [| done].
  split; [exists k | exists k']; (split; [done | by eapply first_free_spec]).
Qed.

(** ** What an update may touch *)

(** The file of a profile and the link files are as in [m]. *)
Definition untouched (n : string) (m m' : fs) : Prop :=
  m' !! profilePath n = m !! profilePath n /\ forall u, m' !! UserFile u = m !! UserFile u.

Lemma untouched_load n m m' : untouched n m m' -> (loadProfile n m').1 = (loadProfile n m).1.
Proof.
  intros [E1 E2]. unfold loadProfile. rewrite !reads_run by apply read_reads. cbn [read gets fst]. rewrite E1.
  destruct (m !! profilePath n) as [[p | | | |] |]; try done. destruct (needs_link _); [| done].
  rewrite !reads_run by apply read_text_reads. unfold read_text. rewrite !reads_run by apply read_reads. cbn [read gets fst].
  by rewrite E2.
Qed.

Lemma path_not_user n u : profilePath n <> UserFile u.
Proof. unfold profilePath. by destruct (read_only n). Qed.

(** Operations on other paths. *)
Lemma other_untouched {A} n m (op : Files A) :
  (forall q m', q = profilePath n \/ (exists u, q = UserFile u) -> (op m').2 !! q = m' !! q) -> keeps (untouched n m) op.
Proof.
  intros Hop m' [E1 E2]. split; [rewrite Hop by (by left); done |]. intros u. rewrite Hop by (right; by eexists). done.
Qed.

Lemma device_untouched n m : keeps (untouched n m) getOrCreateDeviceID.
Proof.
  apply other_untouched. intros q m' Hq. apply device_other.
  destruct Hq as [-> | [u ->]]; [| done]. by apply profilePath_not_state.
Qed.

Lemma save_untouched n m k p : k <> n -> keeps (untouched n m) (saveProfile k p).
Proof.
  intros Hk. apply other_untouched. intros q m' Hq. apply save_other.
  - destruct Hq as [-> | [u ->]]; [intros E; by apply profilePath_inj in E | apply not_eq_sym, path_not_user].
  - destruct Hq as [-> | [u ->]]; [by apply profilePath_not_state | done].
Qed.

Lemma remove_untouched n m k : k <> n -> keeps (untouched n m) (unlink (profilePath k)).
Proof.
  intros Hk. apply other_untouched. intros q m' Hq. apply remove_other.
  destruct Hq as [-> | [u ->]]; [intros E; by apply profilePath_inj in E | apply path_not_user].
Qed.

Lemma remove_old_untouched n m names : n ∉ names -> keeps (untouched n m) (remove_old names).
Proof.
  induction names as [| k names IH]; intros Hn; cbn [remove_old]; [apply keeps_ret |].
  apply not_elem_of_cons in Hn as [Hk Hn]. apply keeps_bind; [by apply remove_untouched, not_eq_sym |]. intros b.
  apply keeps_bind; [by apply IH |]. intros ?. apply keeps_ret.
Qed.

Section owned.
Context (subName n : string) (m : fs) (p : ProfileData) (Hload : (loadProfile n m).1 = Ok p) (Hother : Subscription p <> subName).

(** The name chosen is never that of a readable profile outside of the subscription. *)
Lemma final_name_other base counters :
  sat (untouched n m) (final_name subName base counters)
    (fun r m' => untouched n m m' /\ match r with Some (final, _) => final <> n | None => True end).
Proof.
  intros m' Hm. assert ((loadProfile n m').1 = Ok p) as Hl by (by rewrite (untouched_load n m)).
  unfold final_name. rewrite reads_run by apply load_reads.
  destruct (loadProfile base m').1 as [existing | e] eqn:Eb.
  - destruct (String.eqb_spec (Subscription existing) subName) as [E | E].
    + split; [done |]. intros ->. rewrite Hl in Eb. by injection Eb as ->.
    + rewrite reads_run by done. cbn [gets fst]. set (c := default 0 (counters !! base)).
      assert ((free_name (S (size m')) base c m').2 = m') as Hr.
      { generalize (S (size m')) as f, c. induction f as [| f IH]; intros k; [done |]. cbn [free_name].
        rewrite reads_run by apply load_reads. destruct (loadProfile (candidate base k) m').1; [apply IH | done]. }
      rewrite run_bind, Hr, free_name_value.
      destruct (first_free _ _ _ m') as [k |] eqn:Ef; [| done]. cbn [fmap option_fmap option_map fst snd mret State_ret].
      split; [done |]. apply first_free_spec in Ef. intros E'. rewrite E', Hl in Ef. done.
  - split; [done |]. intros ->. by rewrite Hl in Eb.
Qed.

Lemma entry_untouched e : keeps (untouched n m) (subscriptionEntryToProfile e subName).
Proof. unfold subscriptionEntryToProfile. pose proof device_untouched. keep. Qed.

Lemma create_all_untouched entries counters : keeps (untouched n m) (create_all subName entries counters).
Proof.
  revert counters. induction entries as [| e rest IH]; intros counters; cbn [create_all]; [apply keeps_ret |].
  apply keeps_bind; [apply entry_untouched |]. intros [prof | err]; [| apply IH].
  eapply sat_bind; [apply final_name_other |]. intros [[final k] |]; [| apply sat_ret; by intros m' [? _]].
  intros m' [Hm Hf]. revert m' Hm. fold (keeps (untouched n m) (saved ← saveProfile final prof; more ← create_all subName rest k; mret (match saved with Ok _ => final :: more | Err _ => more end))).
  apply keeps_bind; [by apply save_untouched |]. intros ?. apply keeps_bind; [apply IH |]. intros ?. apply keeps_ret.
Qed.
End owned.

(** C34: the update of a subscription leaves a readable profile alone that is neither the subscription's
    nor in its list of profiles. *)
Theorem update_keeps_others subName url m n p :
  let sub := current_config subName url (loadSubscription subName m).1 in
  (loadProfile n m).1 = Ok p -> Subscription p <> SubscriptionName sub -> n ∉ SubProfiles sub ->
  (applySubscription subName url m).2 !! profilePath n = m !! profilePath n.
Proof.
  cbn zeta. intros Hl Hs Hn. unfold applySubscription.
  assert (reads (loadSubscription subName)) as Hr by done. rewrite reads_run by done.
  set (sub := current_config _ _ _) in *. destruct (negb _); [done |]. destruct (fetch _) as [j |]; [| done].
  destruct (parseSubscriptionJSON j) as [[nm entries] | e]; [| done].
  match goal with |- (?op m).2 !! _ = _ => assert (keeps (untouched n m) op) as Hk end.
  { apply keeps_bind; [by apply remove_old_untouched |]. intros removed. apply keeps_bind; [apply keeps_gets |]. intros now.
    apply keeps_bind; [by eapply create_all_untouched |]. intros created. apply keeps_bind; [| intros ?; apply keeps_ret].
    apply other_untouched. intros q m' Hq. apply write_other. destruct Hq as [-> | [u ->]]; [| done].
    unfold profilePath. by destruct (read_only n). }
  by apply (Hk m).
Qed.

(** A profile in the list of the subscription is removed by an update even if it is not, or no longer,
    the subscription's. *)
Theorem update_removes_listed names n m :
  (forall m' q, can_remove m' q = true) -> n ∈ names -> m !! profilePath n <> None ->
  (remove_old names m).2 !! profilePath n = None.
Proof.
  intros Hrem Hn Hm. assert (forall q m', (unlink q m').2 = delete q m') as Hun.
  { intros q m'. unfold unlink. destruct (m' !! q) eqn:E; [by rewrite Hrem | by rewrite delete_id]. }
  assert (forall l m', m' !! profilePath n = None -> (remove_old l m').2 !! profilePath n = None) as Hnone.
  { induction l as [| k l IH]; intros m' E; [done |]. cbn [remove_old]. rewrite !run_bind. cbn [snd mret State_ret].
    apply IH. rewrite Hun. by apply lookup_delete_None; right. }
  clear Hm. revert m. induction names as [| k names IH]; intros m; [by apply not_elem_of_nil in Hn |].
  cbn [remove_old]. rewrite !run_bind. cbn [snd mret State_ret]. apply elem_of_cons in Hn as [-> | Hn].
  - apply Hnone. rewrite Hun. apply lookup_delete_eq.
  - by apply IH.
Qed.
End subscriptions.

(** ** Normalised names *)

Definition name_ok (c : ascii) : bool :=
  let n := code c in ((97 <=? n) && (n <=? 122)) || ((48 <=? n) && (n <=? 57)) || (n =? 45) || (n =? 95).

Lemma name_chars_ok s : all_of name_ok (name_chars s) = true.
Proof.
  induction s as [| c s IH]; simpl; [done |]. destruct (name_char c) as [d |] eqn:E; [| done]. simpl. rewrite IH, andb_true_r.
  revert E. pose proof (all_ascii_spec (fun c => match name_char c with Some d => name_ok d | None => true end) eq_refl c) as Hc.
  cbv beta in Hc. by destruct (name_char c); intros [= <-].
Qed.

Lemma name_chars_id s : all_of name_ok s = true -> name_chars s = s.
Proof.
  induction s as [| c s IH]; simpl; [done |]. rewrite andb_true_iff. intros [Hc Hs]. rewrite IH by done.
  pose proof (all_ascii_impl name_ok (fun c => match name_char c with Some d => Ascii.eqb d c | None => false end) eq_refl c Hc) as Hn.
  cbv beta in Hn. destruct (name_char c) as [d |]; [| done]. by apply Ascii.eqb_eq in Hn as ->.
Qed.

Lemma all_of_neg p s : all_of p s = none_of (fun c => negb (p c)) s.
Proof. induction s; simpl; rewrite ?negb_involutive; congruence. Qed.

Lemma all_of_trim_set p q s : all_of p s = true -> all_of p (trim_set q s) = true.
Proof. rewrite !all_of_neg. apply none_of_trim_set. Qed.

(** Trimmed on the left, then on the right: neither end is in the set. *)
Lemma trim_right_idem p s : trim_right_set p (trim_right_set p s) = trim_right_set p s.
Proof.
  induction s as [| c s IH]; simpl; [done |]. destruct (p c && String.eqb (trim_right_set p s) "") eqn:E; [done |].
  simpl. by rewrite IH, E.
Qed.

Lemma trim_left_right p s : trim_left_set p s = s -> trim_left_set p (trim_right_set p s) = trim_right_set p s.
Proof.
  destruct s as [| c s]; simpl; [done |]. destruct (p c) eqn:Ec; simpl.
  - intros E. exfalso. assert (String.length (trim_left_set p s) <= String.length s)%nat as Hl.
    { clear. induction s as [| c s IH]; simpl; [done |]. destruct (p c); simpl; lia. }
    rewrite E in Hl. simpl in Hl. lia.
  - intros _. by rewrite Ec.
Qed.

Lemma trim_left_idem p s : trim_left_set p (trim_left_set p s) = trim_left_set p s.
Proof. induction s as [| c s IH]; simpl; [done |]. destruct (p c) eqn:E; [done |]. simpl. by rewrite E. Qed.

Lemma trim_set_idem p s : trim_set p (trim_set p s) = trim_set p s.
Proof. unfold trim_set. rewrite trim_left_right by apply trim_left_idem. apply trim_right_idem. Qed.

Lemma runes_ascii s : is_ascii s = true -> join "" ((fun r => default (encode_rune r) (translitTable r)) <$> runes s 0) = s.
Proof.
  assert (forall c, (N_of_ascii c <? 128)%N = true -> (code c <? 128) = true /\ default (encode_rune (code c)) (translitTable (code c)) = String c "") as Hc.
  { intros c Hc. pose proof (all_ascii_impl (fun c => (N_of_ascii c <? 128)%N)
      (fun c => (code c <? 128) && String.eqb (default (encode_rune (code c)) (translitTable (code c))) (String c "")) eq_refl c Hc) as H.
    cbv beta in H. apply andb_true_iff in H as [H1 H2]. by apply String.eqb_eq in H2. }
  assert (forall x l, join "" (String x "" :: l) = String x (join "" l)) as Hj by (by intros x [| y l]).
  induction s as [| c s IH]; [done |]. simpl is_ascii. rewrite andb_true_iff. intros [H1 H2].
  destruct (Hc c H1) as [Hlt Hd]. cbn [runes decode_rune]. rewrite Hlt. cbn [Nat.sub fmap list_fmap]. rewrite Hd, Hj.
  f_equal. by apply IH.
Qed.

Lemma lower_id s : all_of name_ok s = true -> map_string lower_ascii s = s.
Proof.
  induction s as [| c s IH]; simpl; [done |]. rewrite andb_true_iff. intros [Hc Hs]. rewrite IH by done. f_equal.
  apply Ascii.eqb_eq, (all_ascii_impl name_ok (fun c => Ascii.eqb (lower_ascii c) c) eq_refl c Hc).
Qed.

(** C35: a normalised name has lower-case letters, digits, dashes and underscores only, with no underscore
    at its ends, so that it is one component of a path, and is its own normal form. *)
Theorem normalized_name `{Unicode} name :
  let t := normalizeImportName name in
  all_of name_ok t = true /\ trim_set underscore t = t /\ normalizeImportName t = t.
Proof.
  cbv zeta. set (t := normalizeImportName name).
  assert (all_of name_ok t = true) as Hok by apply all_of_trim_set, name_chars_ok.
  assert (trim_set underscore t = t) as Htrim by apply trim_set_idem.
  split; [done |]. split; [done |].
  assert (all_of visible t = true) as Hv by (by apply (all_of_impl name_ok); [apply (all_ascii_impl name_ok visible); vm_compute |]).
  unfold normalizeImportName, transliterateCyrillic. rewrite trim_space_visible by done.
  rewrite runes_ascii by (by apply visible_ascii). unfold to_lower. rewrite visible_ascii by done.
  by rewrite lower_id, name_chars_id.
Qed.

(** ** A concrete subscription *)

Section example.
#[local] Instance example_unicode : Unicode := fun s => s.
#[local] Instance example_disk : Disk := {|
  can_write := fun _ _ _ => true; torn := fun _ _ _ => None; can_remove := fun _ _ => true; random_id := fun _ => "0123456789abcdef" |}.

Definition entry (name peer : string) : SubscriptionEntry :=
  {| e_Name := name; e_Peer := peer; e_Hashes := "h1, h2"; e_VKHashes := ""; WorkersPerHash := 9; e_Workers := 0; e_Port := 0;
     e_ListenPort := 9001; e_Password := "pw"; e_Pass := "" |}.

Definition example_json : SubscriptionJSON :=
  {| j_SubscriptionName := ""; GroupName := "Provider"; j_Description := ""; j_TrafficUsedMb := f_of_int 0;
     j_TrafficLimitMb := f_of_int 0; j_UpdatedAt := ""; j_Version := 1; j_Profiles := [];
     Servers := [entry "Home" "1.1.1.1:1"; entry "NL 1" "2.2.2.2:2"; entry "nl_1" "3.3.3.3:3"; entry "x" ""] |}.

Definition own_profile : ProfileData :=
  {| PeerAddr := "9.9.9.9:9"; Password := "mine"; Hashes := []; Listen := ""; TurnHost := ""; TurnPort := ""; Workers := 0;
     DeviceID := "d"; Priority := 0; LinkFile := ""; Groups := []; Subscription := "" |}.

Definition example_files : fs :=
  list_to_map [(UserProfile "home", ProfileFile own_profile); (UserProfile "old", ProfileFile own_profile);
               (SubscriptionPath "sub", SubscriptionFile (updated (new_config "sub" "https://x/y") example_json ["old"] ""))].

Definition example_fetch (url : string) : option SubscriptionJSON := Some example_json.
Abbreviation ex_run := (applySubscription example_fetch (fun _ => "now") "sub" "").

Example update_result : (ex_run example_files).1 = Ok (["home_sub0"; "nl_1"; "nl_1"], ["old"]).
Proof. by vm_compute. Qed.

(** Two entries whose names are the same once normalised: only the last is kept. *)
Example same_name_lost : PeerAddr <$> (match (loadProfile "nl_1" (ex_run example_files).2).1 with Ok p => Some p | Err _ => None end) = Some "3.3.3.3:3".
Proof. by vm_compute. Qed.

Example imported_hashes : Hashes (import_data {| i_Name := "a"; i_Peer := "p"; i_VKHashes := "h1,h2"; i_WorkersPerHash := 9;
  i_ListenPort := 0; i_Password := "x"; i_GroupName := "" |}) = ["h1,h2"].
Proof. done. Qed.

Lemma name_search_ends_witness : exists k,
  (free_name (S (size example_files)) "home" 0 example_files).1 = Some (candidate "home" k, k + 1).
Proof.
  destruct (name_search_ends "home" "home" 0 example_files) as [(k & H & _) _]; [lia | by vm_compute |]. by exists k.
Defined.

Lemma update_keeps_others_witness : (ex_run example_files).2 !! UserProfile "home" = Some (ProfileFile own_profile).
Proof.
  rewrite (update_keeps_others example_fetch (fun _ => "now") "sub" "" example_files "home" own_profile).
  - reflexivity.
  - by vm_compute.
  - by vm_compute.
  - vm_compute. intros H. inversion H as [| ? ? ? H']. inversion H'.
Defined.

Lemma update_removes_listed_witness :
  (loadProfile "old" example_files).1 = Ok own_profile /\ (remove_old ["old"] example_files).2 !! UserProfile "old" = None.
Proof.
  split; [by vm_compute |]. apply (update_removes_listed ["old"] "old" example_files); [done | by left | by vm_compute].
Defined.
End example.
