(* ===== verification/Targets.v ===== *)
(** * The profiles that a command is for (commands.go, subscription.go).

    The commands on profiles take names, masks in the syntax of [filepath.Match], a group or all
    subscriptions; the names come out distinct and in order. *)

From S2P Require Import Prelude GoStrings Chars Sorting Effects Profiles Subscription.
From S2P Require Tunnel.
From Stdlib Require Import ZArith Lia String Ascii.
From stdpp Require Import base list strings gmap.
Open Scope string_scope.
Open Scope Z_scope.

(** ** Masks: [filepath.Match] *)

(** What a mask without stars is made of: a byte, any rune, a class of runes. *)
Inductive elem := Lit (c : ascii) | AnyRune | Class (negated : bool) (ranges : list (Z * Z)).

(** [getEsc]: one rune of a class, perhaps escaped; something must follow it. *)
Definition getEsc (chunk : string) : option (Z * string) :=
  let rune s :=
    let '(r, n) := decode_rune s in
    if (n =? 0)%nat || ((r =? rune_error) && (n =? 1)%nat) then None
    else let rest := sdrop n s in if String.eqb rest "" then None else Some (r, rest) in
  match chunk with
  | "" => None
  | String c rest => if Ascii.eqb c "-" || Ascii.eqb c "]" then None else if Ascii.eqb c "\" then rune rest else rune chunk
  end.

(** The ranges of a class up to its bracket. *)
Fixpoint class_ranges (fuel : nat) (chunk : string) (acc : list (Z * Z)) : option (list (Z * Z) * string) :=
  match fuel with
  | O => None
  | S fuel =>
      if has_prefix "]" chunk && (0 <? length acc)%nat then Some (acc, sdrop 1 chunk)
      else
        match getEsc chunk with
        | None => None
        | Some (lo, rest) =>
            if has_prefix "-" rest then
              match getEsc (sdrop 1 rest) with Some (hi, rest) => class_ranges fuel rest (acc ++ [(lo, hi)])%list | None => None end
            else class_ranges fuel rest (acc ++ [(lo, lo)])%list
        end
  end.

(** The elements of a chunk; [None] when it is malformed. *)
Fixpoint parse_chunk (fuel : nat) (chunk : string) : option (list elem) :=
  match fuel, chunk with
  | _, "" => Some []
  | O, _ => None
  | S fuel, String c rest =>
      if Ascii.eqb c "[" then
        let negated := has_prefix "^" rest in
        match class_ranges (S (String.length rest)) (if negated then sdrop 1 rest else rest) [] with
        | Some (ranges, rest) => cons (Class negated ranges) <$> parse_chunk fuel rest
        | None => None
        end
      else if Ascii.eqb c "?" then cons AnyRune <$> parse_chunk fuel rest
      else if Ascii.eqb c "\" then match rest with "" => None | String d rest => cons (Lit d) <$> parse_chunk fuel rest end
      else cons (Lit c) <$> parse_chunk fuel rest
  end.

Definition in_ranges (r : Z) (ranges : list (Z * Z)) : bool := existsb (fun x => (fst x <=? r) && (r <=? snd x)) ranges.

(** [matchChunk] at the start of a text: what is left of it. *)
Fixpoint match_elems (es : list elem) (s : string) : option string :=
  match es with
  | [] => Some s
  | e :: es =>
      match s with
      | "" => None
      | String c s' =>
          let '(r, n) := decode_rune s in
          match e with
          | Lit d => if Ascii.eqb d c then match_elems es s' else None
          | AnyRune => if Ascii.eqb c "/" then None else match_elems es (sdrop n s)
          | Class negated ranges => if Bool.eqb (in_ranges r ranges) negated then None else match_elems es (sdrop n s)
          end
      end
  end.

(** The first place behind a star where a chunk matches, at the end of the text if it is the last chunk; a star does not
    pass a slash. *)
Fixpoint find_chunk (es : list elem) (final : bool) (s : string) : option string :=
  match s with
  | "" => None
  | String c s' =>
      if Ascii.eqb c "/" then None
      else match match_elems es s' with
           | Some t => if final && negb (String.eqb t "") then find_chunk es final s' else Some t
           | None => find_chunk es final s'
           end
  end.

(** [scanChunk]: the chunks of a pattern, each with whether a star is before it. *)
Fixpoint chunk_end (s : string) (inrange : bool) (skip : bool) : nat :=
  match s with
  | "" => 0
  | String c s' =>
      if skip then S (chunk_end s' inrange false)
      else if Ascii.eqb c "*" && negb inrange then 0%nat
      else S (chunk_end s' (if Ascii.eqb c "[" then true else if Ascii.eqb c "]" then false else inrange) (Ascii.eqb c "\"))
  end.

Fixpoint scan_chunks (fuel : nat) (pattern : string) : list (bool * string) :=
  match fuel, pattern with
  | _, "" => []
  | O, _ => []
  | S fuel, _ =>
      let rest := trim_left_set (Ascii.eqb "*") pattern in
      let n := chunk_end rest false false in
      (has_prefix "*" pattern, stake n rest) :: scan_chunks fuel (sdrop n rest)
  end.

Fixpoint match_chunks (chunks : list (bool * string)) (name : string) : bool :=
  match chunks with
  | [] => String.eqb name ""
  | (star, chunk) :: rest =>
      if star && String.eqb chunk "" then negb (contains "/" name)
      else
        let final := (length rest =? 0)%nat in
        match parse_chunk (String.length chunk) chunk with
        | None => false
        | Some es =>
            match match_elems es name with
            | Some t =>
                if negb final || String.eqb t "" then match_chunks rest t
                else if star then match find_chunk es final name with Some t => match_chunks rest t | None => false end
                else false
            | None => if star then match find_chunk es final name with Some t => match_chunks rest t | None => false end else false
            end
        end
  end.

(** Whether [filepath.Match] finds a match; a malformed pattern has none. *)
Definition Match (pattern name : string) : bool := match_chunks (scan_chunks (S (String.length pattern)) pattern) name.

Example masks : (fun n => Match "s*-[0-9]?" n) <$> ["srv-1a"; "srv-a1"; "s-77"; "s-7"; "xs-77"] = [true; false; true; false; false].
Proof. by vm_compute. Qed.

(** A question mark is a rune, not a byte; a malformed class matches nothing. *)
Example mask_runes : Match "дом?" "дома" = true /\ Match "дом??" "дома" = false /\ Match "[a-" "a" = false /\ Match "a\*b" "a*b" = true /\ Match "*b*b" "abab" = true.
Proof. by vm_compute. Qed.

(** ** Expansion *)

Section targets.
Context `{Unicode} `{Disk}.

(** [add]: empty names count as seen. *)
Definition distinct (names : list string) : list string := Tunnel.dedup_loop names [""].

Definition is_link (n : string) : bool := has_prefix "wdtt://" n || has_prefix "qwdtt://" n.
Definition is_mask (n : string) : bool := contains "*" n || contains "?" n || contains "[" n.

Definition expand_one (all : list string) (n : string) : list string :=
  if negb (is_link n) && is_mask n then filter (fun p => Match n p = true) all else [n].

Definition expandProfileMasks (names : list string) : Files (list string) :=
  all ← listAllProfileNames; mret (distinct (concat (expand_one all <$> names))).

Definition collectTargets (group : string) (explicit : list string) : Files (list string) :=
  members ← (if String.eqb group "" then mret [] else profilesInGroup group);
  named ← expandProfileMasks explicit;
  mret (distinct (members ++ named)%list).

(** ** Directories *)

Definition listReadOnlyProfileNames : Files (list string) := gets (names_in ro_name).
Definition listNonReadOnlyProfileNames : Files (list string) := gets (fun m => filter (fun n => read_only n = false) (names_in user_name m)).

Definition subscription_name (p : path) : option string := match p with SubscriptionPath n => Some n | _ => None end.
Definition listSubscriptions : Files (list string) := gets (names_in subscription_name).
Definition isSubscriptionName (name : string) : Files bool := stat (SubscriptionPath name).

Definition profilesInSubscription (name : string) : Files (list string) :=
  s ← loadSubscription name; mret (match s with Some s => SubProfiles s | None => [] end).

Fixpoint profiles_of_all (names : list string) : Files (list string) :=
  match names with
  | [] => mret []
  | n :: rest => l ← profilesInSubscription n; more ← profiles_of_all rest; mret (l ++ more)%list
  end.

Definition profilesInAllSubscriptions : Files (list string) := names ← listSubscriptions; profiles_of_all names.

(** ** What is selected *)

Lemma distinct_in l x : x ∈ distinct l <-> x ∈ l /\ x <> "".
Proof. unfold distinct. rewrite Tunnel.dedup_loop_in. set_solver. Qed.

Lemma distinct_nodup l : NoDup (distinct l).
Proof. apply Tunnel.dedup_loop_nodup. Qed.

(** Names that are distinct already stay as they are. *)
Lemma dedup_loop_id l seen : NoDup l -> (forall x, x ∈ l -> x ∉ seen) -> Tunnel.dedup_loop l seen = l.
Proof.
  intros Hnd. revert seen. induction Hnd as [| x l Hx Hnd IH]; intros seen Hs; [done |]. cbn [Tunnel.dedup_loop].
  rewrite bool_decide_eq_false_2 by (apply Hs; by left). f_equal. apply IH. intros y Hy. rewrite not_elem_of_cons. split; [by intros -> | apply Hs; by right].
Qed.

Lemma distinct_id l : NoDup l -> "" ∉ l -> distinct l = l.
Proof. intros Hl He. apply dedup_loop_id; [done |]. intros x Hx. set_solver. Qed.

Lemma group_reads g : reads (profilesInGroup g).
Proof. intros m. unfold profilesInGroup. by rewrite reads_run, reads_run by (done || apply load_each_reads). Qed.

Lemma masks_reads l : reads (expandProfileMasks l).
Proof. done. Qed.

Lemma all_subs_reads : reads profilesInAllSubscriptions.
Proof.
  unfold profilesInAllSubscriptions. apply reads_bind; [done |]. intros names. induction names as [| n names IH]; [done |]. cbn [profiles_of_all].
  apply reads_bind; [| intros ?; by apply reads_bind]. unfold profilesInSubscription. apply reads_bind; [| done]. by unfold loadSubscription; apply reads_bind.
Qed.

Lemma group_members g n m :
  n ∈ (profilesInGroup g m).1 <-> n ∈ (listAllProfileNames m).1 /\ exists p, (loadProfile n m).1 = Ok p /\ g ∈ Groups p.
Proof.
  unfold profilesInGroup. rewrite reads_run, reads_run by (done || apply load_each_reads). cbn [fst mret State_ret].
  rewrite sort_stable_perm, load_each_value, list_elem_of_fmap. split.
  - intros ([k p] & -> & [Hg Hin]%list_elem_of_filter). apply list_elem_of_omap in Hin as (x & Hx & E).
    destruct (loadProfile x m).1 as [q |] eqn:El; [| done]. injection E as -> ->. cbn [fst snd] in *. split; [done |]. by exists p.
  - intros (Hn & p & Hl & Hg). exists (n, p). split; [done |]. apply list_elem_of_filter. split; [done |].
    apply list_elem_of_omap. exists n. by rewrite Hl.
Qed.

Lemma targets_reads g l : reads (collectTargets g l).
Proof.
  unfold collectTargets. apply reads_bind; [destruct (String.eqb g ""); [done | apply group_reads] |]. intros a.
  apply reads_bind; [apply masks_reads | done].
Qed.

Lemma targets_nodup g l m : NoDup (collectTargets g l m).1.
Proof. unfold collectTargets. rewrite run_bind. rewrite run_bind. apply distinct_nodup. Qed.

Lemma distinct_app l k : exists rest, distinct (l ++ k) = (distinct l ++ rest)%list.
Proof. unfold distinct. rewrite Tunnel.dedup_loop_app. by eexists. Qed.

(** The targets of a command are distinct and not empty: the members of the group, and the names given, with a
    mask standing for the profiles that it matches; the members of the group come first. *)
Theorem targets_selected group explicit m :
  let all := (listAllProfileNames m).1 in
  let l := (collectTargets group explicit m).1 in
  (collectTargets group explicit m).2 = m /\ NoDup l /\
  (forall x, x ∈ l <-> x <> "" /\ ((group <> "" /\ x ∈ all /\ exists p, (loadProfile x m).1 = Ok p /\ group ∈ Groups p) \/
     exists n, n ∈ explicit /\ x ∈ expand_one all n)) /\
  exists rest, l = (distinct (if String.eqb group "" then [] else (profilesInGroup group m).1) ++ rest)%list.
Proof.
  cbv zeta. unfold collectTargets. set (members := if String.eqb group "" then mret [] else profilesInGroup group).
  assert (reads members) as Hm by (unfold members; destruct (String.eqb group ""); [done | apply group_reads]).
  assert ((members m).1 = if String.eqb group "" then [] else (profilesInGroup group m).1) as Em by (unfold members; by destruct (String.eqb group "")).
  rewrite reads_run, reads_run by (done || apply masks_reads). cbn [fst snd mret State_ret]. split; [done |]. split; [apply distinct_nodup |]. split.
  - intros x. rewrite distinct_in, elem_of_app, Em. unfold expandProfileMasks. rewrite reads_run by done. cbn [fst mret State_ret].
    rewrite distinct_in, elem_of_concat. setoid_rewrite list_elem_of_fmap.
    destruct (String.eqb_spec group "") as [-> | Hg].
    + split; [intros ([Hx | [(l & (n & -> & Hn) & Hx) _]] & Hne) | intros (Hne & [(Hx & _) | (n & Hn & Hx)])].
      * by apply elem_of_nil in Hx.
      * split; [done |]. right. by exists n.
      * done.
      * split; [| done]. right. split; [| done]. exists (expand_one (listAllProfileNames m).1 n). split; [by exists n | done].
    + rewrite group_members. split; [intros ([[Hx Hp] | [(l & (n & -> & Hn) & Hx) _]] & Hne) | intros (Hne & [(_ & Hx & Hp) | (n & Hn & Hx)])].
      * split; [done |]. by left.
      * split; [done |]. right. by exists n.
      * split; [| done]. by left.
      * split; [| done]. right. split; [| done]. exists (expand_one (listAllProfileNames m).1 n). split; [by exists n | done].
  - rewrite Em. apply distinct_app.
Qed.

(** A name without the characters of a mask stands for itself, whether there is such a profile or not; a link is
    never a mask. *)
Lemma plain_target all n : is_mask n = false \/ is_link n = true -> expand_one all n = [n].
Proof. unfold expand_one. intros [-> | ->]; [by rewrite andb_false_r | done]. Qed.
End targets.

(** ** Concrete files *)

Section example.
#[local] Instance example_unicode : Unicode := fun s => s.
#[local] Instance example_disk : Disk := {|
  can_write := fun _ _ _ => true; torn := fun _ _ _ => None; can_remove := fun _ _ => true; random_id := fun _ => "0123456789abcdef" |}.

Definition grouped (gs : list string) : file := ProfileFile (with_groups gs (example_profile 1)).

Definition target_files : fs :=
  list_to_map [(UserProfile "srv-1", grouped ["eu"]); (UserProfile "srv-2", grouped []); (UserProfile "home", grouped ["eu"; "lan"]);
    (RoProfile "ro-srv", grouped ["eu"]); (SubscriptionPath "best", Unreadable)].

Example selected : (collectTargets "eu" ["srv-?"; "none*"; "x"; "home"] target_files).1 = ["home"; "ro-srv"; "srv-1"; "srv-2"; "x"].
Proof. by vm_compute. Qed.
End example.
