(* ===== verification/Connect.v ===== *)
(** * A connection session (connect.go, [tryConnectProfile]).

    The core, the SOCKS server, the state files and the notifications are called through [App]; what
    they answer is a function of the calls made before.  The select loop receives a list of wake-ups in
    any order; a reload command of the control socket runs between two of them.  The configuration of
    the bypass list is shared with the caller and survives the session. *)

From S2P Require Import Prelude GoStrings Url WgConfig Ip Router Links CoreRuntime Profiles WgParse Effects Tunnel.
From Stdlib Require Import ZArith Lia String Ascii.
From stdpp Require Import base list strings.
Open Scope string_scope.
Open Scope Z_scope.

Definition RawIfaceName : string := "raw-qwdtt".

(** The parameters of [tryConnectProfile]. *)
Record args := {
  profileName : string; a_workers : Z; a_mtu : Z; hashesOverride : string; dnsArg : string; captchaMode : string;
  autoSwitch : bool; a_mode : string; socksPort : Z; a_socksUser : string; a_socksPass : string; pubFlag : bool; socksListenAddr : string; rawPort : Z;
  transport : string; shouldSetActive : bool; skipActiveProfileClear : bool
}.

(** The address the SOCKS server is bound to. *)
Definition socks_bind (a : args) : string :=
  if negb (String.eqb (a_mode a) "socks") then ""
  else if pubFlag a then "0.0.0.0"
  else if String.eqb (socksListenAddr a) "" then "127.0.0.1" else socksListenAddr a.

(** The configuration of the core. *)
Definition core_config (a : args) (prof : ProfileData) (deviceID : string) : CoreRuntime.Config :=
  let socks := String.eqb (a_mode a) "socks" in
  {| CoreRuntime.PeerAddr := Profiles.PeerAddr prof; CoreRuntime.Password := Profiles.Password prof;
     CoreRuntime.Hashes := if String.eqb (hashesOverride a) "" then Profiles.Hashes prof
                           else trim_space <$> split_on "," (hashesOverride a);
     CoreRuntime.Listen := if socks then "127.0.0.1:0"
                           else if String.eqb (Profiles.Listen prof) "" then "127.0.0.1:" ++ defaultListenPort
                           else Profiles.Listen prof;
     CoreRuntime.TurnHost := Profiles.TurnHost prof; CoreRuntime.TurnPort := Profiles.TurnPort prof;
     CoreRuntime.DeviceID := deviceID;
     CoreRuntime.Workers := if (a_workers a =? defaultWorkers) && (0 <? Profiles.Workers prof) then Profiles.Workers prof
                            else a_workers a;
     CoreRuntime.CaptchaMode := captchaMode a; CoreRuntime.MTU := a_mtu a; CoreRuntime.DNS := dnsArg a;
     CoreRuntime.Mode := a_mode a; CoreRuntime.SocksPort := socksPort a;
     CoreRuntime.SocksUser := a_socksUser a; CoreRuntime.SocksPass := a_socksPass a; CoreRuntime.SocksBindAddr := socks_bind a;
     CoreRuntime.WGRawConfig := ""; CoreRuntime.RawMode := String.eqb (a_mode a) "raw";
     CoreRuntime.NoDTLS := false; CoreRuntime.Transport := transport a; CoreRuntime.RawPort := itoa (rawPort a) |}.

(** Calls of a session and of the loop that starts sessions (Supervisor.v). *)
Inductive cop :=
| LoadProfile (name : string) | ReadDeviceID | SetActive (name : string) | ClearActive | SetAutoswitch (name : string)
| RemoveSplitCfg (name : string)
| CoreStart (cfg : CoreRuntime.Config) | CoreStop | CoreSolve (result : string) | GetTurnIPs | IsVKAuthPassed
| FetchSocksDomains (own : string) | PingThrough (iface : string)
| WireproxyStart (port : Z) (user pass bind conf : string) (domains ips : list string) | WireproxyStop | AttachRouter
| NotifyError | NotifyConnected | NotifyDisconnected | NotifyVKAuth | NotifyWorkers (n : Z)
| ListProfiles | DaemonAlive (name : string) | StopClosed | Clock | Pause (ns : Z) | WaitStop (ns : Z)
| ClearAutoswitch | CleanupPid (profile : string) | StartControl | ReleaseDaemon | StopControl.

Inductive event :=
| EvState (status : string)
| EvLog (level message : string)
| EvError (message : string)
| EvEvent (name data : string)
| EvStats (rx tx workers : Z).

Inductive wake :=
| CaptchaResult (result : string) | Timeout | StopSignal | SwitchProfile | EventsClosed | CoreEvent (ev : event) | Resumed
| ReloadCommand (newFile : string).

(** Why the session ended: [wasResume] and [fatal]; [connected] is false on every return. *)
Record outcome := { wasResume : bool; fatal : bool }.

Section connect.
Context {key udp : Type} (zero_key : key) (ParseKey : string -> option key) (ResolveUDPAddr : string -> option udp).
Context `{Unicode}.
Abbreviation op := (@op key udp cop).
Abbreviation tun := (@tun key udp cop).

Class Host := {
  profile_of : list op -> string -> option ProfileData;
  device_id : list op -> string;
  turn_ips : list op -> list string;
  socks_domains : list op -> list string
}.
Context `{W : @World key udp cop} `{Host}.
Context (a : args) (daemonBlRaw daemonProfileName : string).

Record sess := {
  kern : tun; split : option splitTunnelConfig;
  connected : bool; wgConfigured : bool; rawConfigured : bool; wgTested : bool; vkAuthNotified : bool; wr : bool; timer : bool
}.
Abbreviation S := (State sess).

Definition with_kern (t : tun) (s : sess) : sess :=
  {| kern := t; split := split s; connected := connected s; wgConfigured := wgConfigured s; rawConfigured := rawConfigured s;
     wgTested := wgTested s; vkAuthNotified := vkAuthNotified s; wr := wr s; timer := timer s |}.
Definition with_flags (w r t : bool) (s : sess) : sess :=
  {| kern := kern s; split := split s; connected := connected s; wgConfigured := w; rawConfigured := r;
     wgTested := t; vkAuthNotified := vkAuthNotified s; wr := wr s; timer := timer s |}.
Definition with_split (c : option splitTunnelConfig) (s : sess) : sess :=
  {| kern := kern s; split := c; connected := connected s; wgConfigured := wgConfigured s; rawConfigured := rawConfigured s;
     wgTested := wgTested s; vkAuthNotified := vkAuthNotified s; wr := wr s; timer := timer s |}.
Definition with_misc (c v w t : bool) (s : sess) : sess :=
  {| kern := kern s; split := split s; connected := c; wgConfigured := wgConfigured s; rawConfigured := rawConfigured s;
     wgTested := wgTested s; vkAuthNotified := v; wr := w; timer := t |}.

Definition lift {A} (m : State tun A) : S A := fun s => let '(x, t) := m (kern s) in (x, with_kern t s).
Definition acall (c : cop) : S bool := lift (call (App c)).
Definition aask {A} (f : list op -> A) (c : cop) : S A := lift (ask f (App c)).

Definition set_wg_configured : S unit := modify (fun s => with_flags true (rawConfigured s) (wgTested s) s).
Definition set_raw_configured : S unit := modify (fun s => with_flags (wgConfigured s) true (wgTested s) s).
(** The tunnel works: [wgTested], and the timer is stopped. *)
Definition set_tested : S unit := modify (fun s =>
  with_misc (connected s) (vkAuthNotified s) (wr s) false (with_flags (wgConfigured s) (rawConfigured s) true s)).
Definition set_connected : S unit := modify (fun s => with_misc true (vkAuthNotified s) (wr s) (timer s) s).
Definition set_vk : S unit := modify (fun s => with_misc (connected s) true (wr s) (timer s) s).
Definition set_wr : S unit := modify (fun s => with_misc (connected s) (vkAuthNotified s) true (timer s) s).

(** ** Ends of a session *)

Definition clear_active : S unit := if skipActiveProfileClear a then mret tt else _ ← acall ClearActive; mret tt.
Definition notify_and_clear : S unit :=
  if skipActiveProfileClear a then mret tt else _ ← acall NotifyDisconnected; _ ← acall ClearActive; mret tt.

Definition teardownMode : S unit :=
  s ← gets (fun s => s);
  _ ← (if wgConfigured s then _ ← lift teardownWG; mret tt
       else if rawConfigured s then lift teardownTunnelRoutes else mret tt);
  w ← gets wr;
  _ ← (if w : bool then acall WireproxyStop else mret true);
  lift (set_router None).

Definition finish (resume ftl : bool) : S (option outcome) := mret (Some {| wasResume := resume; fatal := ftl |}).
Definition continue : S (option outcome) := mret None.

(** ** The configuration arrives *)

Definition remember_autoswitch : S unit :=
  if autoSwitch a then _ ← acall (SetAutoswitch (profileName a)); mret tt else mret tt.

Definition announce : S (option outcome) :=
  _ ← remember_autoswitch; _ ← acall NotifyConnected; _ ← set_tested; continue.

Definition write_split (domains : list string) (c : splitTunnelConfig) (routes : list string) : S unit :=
  _ ← lift (call (WriteSplitCfg (profileName a) (rawBl c) (rawFile c) domains routes)); mret tt.

Definition no_connectivity (down : S unit) : S (option outcome) :=
  _ ← acall NotifyError; _ ← acall CoreStop; _ ← down; _ ← clear_active; finish false (autoSwitch a).

Definition kernel_teardown : S unit := _ ← lift teardownWG; mret tt.

(** [testWGConnectivity], [testRawConnectivity]: the interface exists and one of three hosts answers. *)
Definition test_connectivity (iface : string) : S bool :=
  found ← lift (call (LinkByName iface));
  if negb found then mret false else acall (PingThrough iface).

Definition on_raw_conf : S (option outcome) :=
  _ ← set_raw_configured;
  g ← lift defaultGateway;
  _ ← match g with
      | Some gateway => ips ← aask turn_ips GetTurnIPs; lift (applyTurnIPsBypass ips gateway)
      | None => mret tt
      end;
  foreign ← aask socks_domains (FetchSocksDomains daemonProfileName);
  cfg ← gets split;
  let own := from_option domains [] cfg in
  _ ← lift (addKernelBypassRoutes (mergeBypassDomains own [foreign]));
  ok ← test_connectivity RawIfaceName;
  if negb ok then no_connectivity (lift teardownTunnelRoutes)
  else
    routes ← gets (fun s => splitRoutes (kern s));
    _ ← match cfg with Some c => write_split (domains c) c routes | None => mret tt end;
    announce.

(** The kernel routes a SOCKS session adds when a kernel interface is up as well. *)
Definition socks_routes (domains : list string) : S (list string) :=
  wg ← lift (call (LinkByName wgIface));
  up ← (if wg : bool then mret true else lift (call (LinkByName RawIfaceName)));
  if up : bool then lift (addKernelBypassRoutes domains) else mret [].

Definition on_socks_config (conf : string) : S (option outcome) :=
  cfg ← gets split;
  let bypassDomains := from_option domains [] cfg in
  ips ← (if (0 <? length bypassDomains)%nat then r ← lift (resolveDomainIPs bypassDomains); mret (default [] r) else mret []);
  started ← acall (WireproxyStart (socksPort a) (a_socksUser a) (a_socksPass a) (socks_bind a) conf bypassDomains ips);
  _ ← set_wr;
  if negb started then
    _ ← acall NotifyError; _ ← acall CoreStop; _ ← clear_active; finish false false
  else
    _ ← lift (set_router (Some (NewRouter bypassDomains ips)));
    _ ← acall AttachRouter;
    _ ← match cfg with
        | Some c => routes ← socks_routes (domains c); write_split (domains c) c routes
        | None => mret tt
        end;
    announce.

Definition merged (c : splitTunnelConfig) (foreign : list string) : splitTunnelConfig :=
  {| mode := mode c; domains := mergeBypassDomains (domains c) [foreign]; rawBl := rawBl c; rawFile := rawFile c |}.

Definition on_tun_config (conf : string) : S (option outcome) :=
  ips ← aask turn_ips GetTurnIPs;
  foreign ← aask socks_domains (FetchSocksDomains (profileName a));
  cfg ← gets split;
  let cfg' := (fun c => merged c foreign) <$> cfg in
  _ ← modify (with_split cfg');
  r ← lift (applyWGConfig zero_key ParseKey ResolveUDPAddr conf ips cfg');
  if negb (is_ok r) then
    _ ← acall NotifyError; _ ← acall CoreStop; _ ← kernel_teardown; _ ← clear_active; finish false true
  else
    _ ← (if bool_decide (cfg = None) && (0 <? length foreign)%nat then lift (addKernelBypassRoutes foreign) else mret []);
    ok ← test_connectivity wgIface;
    if negb ok then no_connectivity kernel_teardown
    else
      routes ← gets (fun s => splitRoutes (kern s));
      _ ← match cfg with Some c => write_split (domains c) c routes | None => mret tt end;
      announce.

(** ** Events *)

Definition on_state (status : string) : S (option outcome) :=
  if String.eqb status "running" then
    _ ← set_connected;
    _ ← remember_autoswitch; continue
  else if String.eqb status "disconnected" then
    _ ← teardownMode; _ ← clear_active; finish false false
  else continue.

Definition on_log (level message : string) : S (option outcome) :=
  if contains "Конфиг получен" message then continue
  else if String.eqb level "ERROR" then continue
  else if contains "FATAL" message then
    _ ← acall NotifyError; _ ← acall CoreStop; _ ← teardownMode; _ ← clear_active; finish false false
  else continue.

Definition on_named (name data : string) : S (option outcome) :=
  s ← gets (fun s => s);
  if String.eqb (a_mode a) "raw" && String.eqb name "raw_conf" && negb (rawConfigured s) then on_raw_conf
  else if String.eqb (a_mode a) "raw" && String.eqb name "raw_ready" then continue
  else if String.eqb name "wg_config" && negb (wgConfigured s) then
    _ ← set_wg_configured;
    if String.eqb (a_mode a) "socks" then on_socks_config data else on_tun_config data
  else if String.eqb name "workers_completed" then _ ← teardownMode; _ ← notify_and_clear; finish false false
  else continue.

Definition on_stats (rx workers : Z) : S (option outcome) :=
  s ← gets (fun s => s);
  if connected s && wgTested s && (0 <? rx) then _ ← acall (NotifyWorkers workers); continue else continue.

Definition on_event (ev : event) : S (option outcome) :=
  match ev with
  | EvState status => on_state status
  | EvLog level message => on_log level message
  | EvError _ => continue
  | EvEvent name data => on_named name data
  | EvStats rx _ workers => on_stats rx workers
  end.

Definition check_vk : S (option outcome) :=
  s ← gets vkAuthNotified;
  if s : bool then continue
  else
    passed ← acall IsVKAuthPassed;
    if passed : bool then _ ← set_vk; _ ← acall NotifyVKAuth; continue else continue.

(** ** The select loop *)

Definition on_wake (w : wake) : S (option outcome) :=
  match w with
  | CaptchaResult r => _ ← acall (CoreSolve r); continue
  | Timeout =>
      armed ← gets timer;
      if armed : bool then _ ← acall NotifyError; _ ← acall CoreStop; _ ← teardownMode; _ ← clear_active; finish false false
      else continue
  | StopSignal => _ ← acall CoreStop; _ ← teardownMode; _ ← notify_and_clear; finish false false
  | SwitchProfile => _ ← acall CoreStop; _ ← teardownMode; finish false false
  | EventsClosed => _ ← teardownMode; _ ← notify_and_clear; finish false false
  | CoreEvent ev => r ← on_event ev; match r with Some o => mret (Some o) | None => check_vk end
  | Resumed => _ ← acall CoreStop; _ ← teardownMode; _ ← notify_and_clear; finish true false
  | ReloadCommand f =>
      _ ← lift (reloadSplitRoutes RawIfaceName (a_mode a) daemonBlRaw daemonProfileName f); continue
  end.

(** The loop until it returns; [None] when the wake-ups are used up before. *)
Fixpoint select_loop (wakes : list wake) : S (option outcome) :=
  match wakes with
  | [] => continue
  | w :: rest => r ← on_wake w; match r with Some o => mret (Some o) | None => select_loop rest end
  end.

(** ** The session *)

Definition fresh (s : sess) : sess :=
  {| kern := kern s; split := split s; connected := false; wgConfigured := false; rawConfigured := false;
     wgTested := false; vkAuthNotified := false; wr := false; timer := autoSwitch a |}.

Definition session (wakes : list wake) : S (option outcome) :=
  prof ← lift (ask (fun h => profile_of h (profileName a)) (App (LoadProfile (profileName a))));
  match prof with
  | None => _ ← acall NotifyError; _ ← clear_active; finish false false
  | Some prof =>
      id ← (if String.eqb (Profiles.DeviceID prof) "" then aask device_id ReadDeviceID else mret (Profiles.DeviceID prof));
      _ ← (if shouldSetActive a then acall (SetActive (profileName a)) else mret true);
      match CoreRuntime.New (core_config a prof id) with
      | Err _ => _ ← acall NotifyError; _ ← clear_active; finish false (autoSwitch a)
      | Ok (cfg, _) =>
          started ← acall (CoreStart cfg);
          if negb started then _ ← acall NotifyError; _ ← clear_active; _ ← kernel_teardown; finish false (autoSwitch a)
          else _ ← modify fresh; select_loop wakes
      end
  end.

(** [tryConnectProfile] with its deferred call. *)
Definition tryConnectProfile (wakes : list wake) : S (option outcome) :=
  r ← session wakes;
  match r with
  | Some o => _ ← acall (RemoveSplitCfg (profileName a)); mret (Some o)
  | None => mret None
  end.

(** ** Routes of a session *)

(** A property of the kernel's state that calls about other things than routes preserve. *)
Record quiet (P : tun -> Prop) : Prop := {
  quiet_ask : forall A (f : list op -> A) o, route_op o = false -> keeps P (ask f o);
  quiet_cache : forall e, keeps P (set_cache e);
  quiet_router : forall r, keeps P (set_router r)
}.

Lemma tracked_quiet b X : quiet (tracked b X).
Proof. split; [intros A f o; apply ask_tracked | intros e; apply set_cache_tracked | intros r; apply set_router_tracked]. Qed.

Lemma clean_quiet : quiet clean.
Proof. split; [intros A f o; apply ask_clean | intros e; apply set_cache_clean | intros r; by apply sat_modify]. Qed.

(** The flags of the session and a property of the kernel's state. *)
Definition at_ (w r : bool) (P : tun -> Prop) (s : sess) : Prop := wgConfigured s = w /\ rawConfigured s = r /\ P (kern s).

Lemma lift_at {A} w r P (m : State tun A) Q : sat P m Q -> sat (at_ w r P) (lift m) (fun x => at_ w r (Q x)).
Proof.
  intros Hm s (Hw & Hr & Hs). specialize (Hm _ Hs). unfold lift. destruct (m (kern s)) as [x t]. by repeat split.
Qed.

Lemma lift_keeps {A} w r P (m : State tun A) : keeps P m -> keeps (at_ w r P) (lift m).
Proof. apply lift_at. Qed.

Lemma modify_at w r P f : (forall s, kern (f s) = kern s /\ wgConfigured (f s) = wgConfigured s /\ rawConfigured (f s) = rawConfigured s) ->
  keeps (at_ w r P) (modify f).
Proof. intros Hf. apply sat_modify. intros s. destruct (Hf s) as (E1 & E2 & E3). unfold at_. by rewrite E1, E2, E3. Qed.

Section quiet.
Context (P : tun -> Prop) (HP : quiet P) (w r : bool).

Lemma aask_keeps {A} (f : list op -> A) c : keeps (at_ w r P) (aask f c).
Proof. by apply lift_keeps, quiet_ask. Qed.
Lemma acall_keeps c : keeps (at_ w r P) (acall c).
Proof. by apply lift_keeps, quiet_ask. Qed.
Lemma call_keeps o : route_op o = false -> keeps (at_ w r P) (lift (call o)).
Proof. intros Ho. by apply lift_keeps, quiet_ask. Qed.
#[local] Hint Resolve aask_keeps acall_keeps : effects.

Lemma clear_active_keeps : keeps (at_ w r P) clear_active.
Proof. unfold clear_active. keep. Qed.
Lemma notify_and_clear_keeps : keeps (at_ w r P) notify_and_clear.
Proof. unfold notify_and_clear. keep. Qed.
Lemma remember_keeps : keeps (at_ w r P) remember_autoswitch.
Proof. unfold remember_autoswitch. keep. Qed.
Lemma write_split_keeps ds c routes : keeps (at_ w r P) (write_split ds c routes).
Proof. unfold write_split. apply keeps_bind; [by apply call_keeps |]. intros ?. keep. Qed.
Lemma set_tested_keeps : keeps (at_ w r P) set_tested.
Proof. by apply modify_at. Qed.
Lemma set_connected_keeps : keeps (at_ w r P) set_connected.
Proof. by apply modify_at. Qed.
Lemma set_vk_keeps : keeps (at_ w r P) set_vk.
Proof. by apply modify_at. Qed.
Lemma set_wr_keeps : keeps (at_ w r P) set_wr.
Proof. by apply modify_at. Qed.
Lemma set_split_keeps c : keeps (at_ w r P) (modify (with_split c)).
Proof. by apply modify_at. Qed.
Lemma router_keeps x : keeps (at_ w r P) (lift (set_router x)).
Proof. by apply lift_keeps, quiet_router. Qed.
Lemma resolve_quiet ds : keeps (at_ w r P) (lift (resolveDomainIPs ds)).
Proof. apply lift_keeps, resolve_keeps; [intros; by apply quiet_ask | intros; by apply quiet_cache]. Qed.
Lemma gateway_quiet : keeps (at_ w r P) (lift defaultGateway).
Proof. apply lift_keeps, gateway_keeps. intros; by apply quiet_ask. Qed.
#[local] Hint Resolve set_tested_keeps remember_keeps : effects.
Lemma announce_keeps : keeps (at_ w r P) announce.
Proof. unfold announce, continue. keep. Qed.
Lemma connectivity_keeps i : keeps (at_ w r P) (test_connectivity i).
Proof. unfold test_connectivity. apply keeps_bind; [by apply call_keeps |]. intros ?. keep. Qed.
End quiet.

Lemma kern_keeps {A} P (m : S A) : (forall w r, keeps (at_ w r P) m) -> keeps (fun s => P (kern s)) m.
Proof. intros Hm s Hs. by destruct (Hm (wgConfigured s) (rawConfigured s) s) as (_ & _ & H'). Qed.

#[local] Hint Resolve aask_keeps acall_keeps clear_active_keeps notify_and_clear_keeps write_split_keeps set_tested_keeps
  set_connected_keeps set_vk_keeps set_wr_keeps set_split_keeps router_keeps resolve_quiet gateway_quiet announce_keeps
  connectivity_keeps remember_keeps tracked_quiet : effects.

Section routes.
Context (U : tun -> Prop) (HU : quiet U) (Uclean : forall t, clean t -> U t) (Utracked : forall t, U t -> tracked false [] t).
#[local] Hint Resolve HU : effects.

(** Before the configuration the kernel's state has [U], afterwards its routes are tracked. *)
Definition inv (s : sess) : Prop :=
  (a_mode a = "raw" -> wgConfigured s = false) /\ (a_mode a <> "raw" -> rawConfigured s = false) /\
  (if wgConfigured s || rawConfigured s then tracked true [] else U) (kern s).

(** When the session ends it has [U] again. *)
Definition ended (r : option outcome) (s : sess) : Prop :=
  match r with None => inv s | Some _ => U (kern s) end.

Lemma finish_ended w r x y : sat (at_ w r U) (finish x y) ended.
Proof. apply sat_ret. by intros s (_ & _ & Hs). Qed.

Lemma after_U {A} w r (m : S A) x y : (forall w r, keeps (at_ w r U) m) -> sat (at_ w r U) (_ ← m; finish x y) ended.
Proof. intros Hm. eapply sat_bind; [apply Hm |]. intros ?. apply finish_ended. Qed.

Lemma teardownMode_U s : inv s -> U (kern (teardownMode s).2).
Proof.
  intros (Hw & Hr & Hs). unfold teardownMode. rewrite run_bind. cbn [gets fst snd]. rewrite run_bind.
  set (s1 := (_ s).2). assert (U (kern s1)) as H1.
  { unfold s1. destruct (wgConfigured s) eqn:Ew; [| destruct (rawConfigured s) eqn:Er]; cbn [orb] in Hs; [| | exact Hs].
    - rewrite run_bind. apply Uclean. apply (lift_at true (rawConfigured s) (tracked true []) teardownWG _ teardown_clean). by repeat split.
    - apply Uclean. apply (lift_at false true (tracked true []) teardownTunnelRoutes _ teardown_routes_clean). by repeat split. }
  revert H1. generalize s1. apply (kern_keeps U). intros w r. keep.
Qed.

Lemma teardown_then {A} (m : S A) x y : (forall w r, keeps (at_ w r U) m) -> sat inv (_ ← teardownMode; _ ← m; finish x y) ended.
Proof.
  intros Hm. apply (sat_bind _ _ (fun _ s => U (kern s))); [intros s; apply teardownMode_U |]. intros [] s Hs.
  apply (after_U (wgConfigured s) (rawConfigured s) m x y Hm). by repeat split.
Qed.

Lemma inv_keeps {A} (m : S A) : (forall P w r, quiet P -> keeps (at_ w r P) m) -> keeps inv m.
Proof.
  intros Hm s (Hw & Hr & Hs). assert (quiet (if wgConfigured s || rawConfigured s then tracked true [] else U)) as Hq.
  { destruct (_ || _); [apply tracked_quiet | done]. }
  destruct (Hm _ (wgConfigured s) (rawConfigured s) Hq s) as (E1 & E2 & E3); [by repeat split |].
  unfold inv. rewrite E1, E2. done.
Qed.

Lemma inv_continue {A} (m : S A) : (forall P w r, quiet P -> keeps (at_ w r P) m) -> sat inv (_ ← m; continue) ended.
Proof. intros Hm. eapply sat_bind; [by apply inv_keeps |]. intros ?. by apply sat_ret. Qed.

Lemma no_connectivity_ended w r (down : S unit) :
  sat (at_ w r (tracked true [])) down (fun _ => at_ w r clean) -> sat (at_ w r (tracked true [])) (no_connectivity down) ended.
Proof.
  intros Hd. unfold no_connectivity.
  eapply sat_bind; [apply acall_keeps, tracked_quiet |]. intros ?. eapply sat_bind; [apply acall_keeps, tracked_quiet |]. intros ?.
  eapply sat_bind; [exact Hd |]. intros ?. eapply sat_weaken; [apply (after_U w r) | | done].
  - intros. auto with effects.
  - intros s (H1 & H2 & H3). repeat split; auto.
Qed.

Lemma announce_ended w r : (a_mode a = "raw" -> w = false) -> (a_mode a <> "raw" -> r = false) -> w || r = true ->
  sat (at_ w r (tracked true [])) announce ended.
Proof.
  intros Hw Hr Hor s Hs. destruct (announce_keeps _ (tracked_quiet true []) w r s Hs) as (E1 & E2 & E3).
  assert ((announce s).1 = None) as -> by (unfold announce; by rewrite !run_bind).
  unfold ended, inv. by rewrite E1, E2, Hor.
Qed.

(** The end of a set-up that works: the configuration is recorded and the session goes on. *)
Lemma record_ended w r (m : S unit) : (a_mode a = "raw" -> w = false) -> (a_mode a <> "raw" -> r = false) -> w || r = true ->
  keeps (at_ w r (tracked true [])) m -> sat (at_ w r (tracked true [])) (_ ← m; announce) ended.
Proof. intros Hw Hr Hor Hm. eapply sat_bind; [exact Hm |]. intros ?. by apply announce_ended. Qed.

Lemma on_raw_conf_ended : a_mode a = "raw" -> sat (at_ false false U) on_raw_conf ended.
Proof.
  intros Hmode. unfold on_raw_conf.
  apply (sat_bind _ _ (fun _ => at_ false true (tracked false []))).
  { apply sat_modify. intros s (Hw & _ & Hs). split; [exact Hw | split; [done | exact (Utracked _ Hs)]]. }
  intros _. eapply sat_bind; [apply gateway_quiet, tracked_quiet |]. intros g.
  apply (sat_bind _ _ (fun _ => at_ false true (tracked true []))).
  { destruct g as [g |].
    - eapply sat_bind; [apply aask_keeps, tracked_quiet |]. intros ips. apply lift_at, apply_turn_tracked.
    - apply sat_ret. intros s (H1 & H2 & H3). repeat split; [done | done |]. by apply tracked_weaken. }
  intros _. eapply sat_bind; [apply aask_keeps, tracked_quiet |]. intros foreign.
  eapply sat_bind; [apply keeps_gets |]. intros cfg.
  eapply sat_bind; [apply lift_keeps, add_bypass_tracked |]. intros ?.
  eapply sat_bind; [apply connectivity_keeps, tracked_quiet |]. intros []; cbn [negb].
  - eapply sat_bind; [apply keeps_gets |]. intros routes. apply record_ended; [done | by intros [] | done |].
    destruct cfg; auto with effects.
  - apply no_connectivity_ended, lift_at, teardown_routes_clean.
Qed.

Lemma kernel_teardown_clean w r : sat (at_ w r (tracked true [])) kernel_teardown (fun _ => at_ w r clean).
Proof. eapply sat_bind; [apply lift_at, teardown_clean |]. intros ?. by apply sat_ret. Qed.

Lemma on_tun_config_ended conf : a_mode a <> "raw" -> sat (at_ true false U) (on_tun_config conf) ended.
Proof.
  intros Hmode. unfold on_tun_config. eapply sat_bind; [by apply aask_keeps |]. intros ips.
  eapply sat_bind; [by apply aask_keeps |]. intros foreign. eapply sat_bind; [apply keeps_gets |]. intros cfg.
  apply (sat_bind _ _ (fun _ => at_ true false U)); [by apply modify_at |]. intros _.
  apply (sat_bind _ _ (fun r => at_ true false (set_up r))).
  { eapply sat_weaken; [apply (lift_at true false (tracked false [])), apply_tracked | | done].
    intros s (H1 & H2 & H3). repeat split; auto. }
  intros [[] | e]; cbn [is_ok negb set_up].
  - apply (sat_bind _ _ (fun _ => at_ true false (tracked true []))).
    { destruct (_ && _); [apply lift_keeps, add_bypass_tracked | apply keeps_ret]. }
    intros ?. eapply sat_bind; [apply connectivity_keeps, tracked_quiet |]. intros []; cbn [negb].
    + eapply sat_bind; [apply keeps_gets |]. intros routes. apply record_ended; [done | done | done |].
      destruct cfg; auto with effects.
    + apply no_connectivity_ended, kernel_teardown_clean.
  - do 2 (eapply sat_bind; [apply acall_keeps, tracked_quiet |]; intros ?).
    eapply sat_bind; [eapply sat_weaken; [apply kernel_teardown_clean | | done] |].
    { intros s (H1 & H2 & H3). repeat split; [done | done | by apply tracked_weaken]. }
    intros ?. eapply sat_weaken; [apply (after_U true false) | | done].
    + intros. auto with effects.
    + intros s (H1 & H2 & H3). repeat split; auto.
Qed.

Lemma socks_routes_keeps ds : keeps (at_ true false (tracked true [])) (socks_routes ds).
Proof.
  unfold socks_routes. apply keeps_bind; [by apply call_keeps; [apply tracked_quiet |] |]. intros wg.
  apply keeps_bind; [destruct wg; [apply keeps_ret | by apply call_keeps; [apply tracked_quiet |]] |]. intros up.
  destruct up; [apply lift_keeps, add_bypass_tracked | apply keeps_ret].
Qed.

Lemma on_socks_config_ended conf : a_mode a <> "raw" -> sat (at_ true false U) (on_socks_config conf) ended.
Proof.
  intros Hmode. unfold on_socks_config. eapply sat_bind; [apply keeps_gets |]. intros cfg. cbv zeta.
  apply (sat_bind _ _ (fun _ => at_ true false U)).
  { destruct (_ <? _)%nat; [| apply keeps_ret]. apply keeps_bind; [by apply resolve_quiet |]. intros ?. apply keeps_ret. }
  intros ips. eapply sat_bind; [by apply acall_keeps |]. intros started.
  apply (sat_bind _ _ (fun _ => at_ true false U)); [by apply modify_at |]. intros _.
  destruct started; cbn [negb].
  - eapply (sat_weaken _ (at_ true false (tracked true []))); [| | done].
    2: { intros s (H1 & H2 & H3). repeat split; [done | done | by apply tracked_weaken, Utracked]. }
    eapply sat_bind; [apply router_keeps, tracked_quiet |]. intros ?. eapply sat_bind; [apply acall_keeps, tracked_quiet |]. intros ?.
    apply record_ended; [done | done | done |]. destruct cfg as [c |]; [| apply keeps_ret].
    apply keeps_bind; [apply socks_routes_keeps |]. intros routes. auto with effects.
  - do 2 (eapply sat_bind; [by apply acall_keeps |]; intros ?). apply after_U. intros. auto with effects.
Qed.

Lemma end_keeps {A} (m : S A) x y : (forall P w r, quiet P -> keeps (at_ w r P) m) ->
  sat inv (_ ← teardownMode; _ ← m; finish x y) ended.
Proof. intros Hm. apply teardown_then. auto. Qed.

Lemma then_ended {A B} (m : S A) (k : A -> S B) Q : (forall P w r, quiet P -> keeps (at_ w r P) m) -> (forall x, sat inv (k x) Q) -> sat inv (m ≫= k) Q.
Proof. intros Hm Hk. eapply sat_bind; [by apply inv_keeps |]. exact Hk. Qed.

Lemma continue_ended : sat inv continue ended.
Proof. by apply sat_ret. Qed.

#[local] Hint Extern 3 (forall P w r, quiet P -> keeps _ _) => (intros; auto with effects) : effects.
Ltac step_ended := apply then_ended; [intros; auto with effects |]; intros ?.

Lemma on_named_ended name data : (a_mode a = "raw" -> name <> "wg_config") -> sat inv (on_named name data) ended.
Proof.
  intros Hraw s Hs. unfold on_named. rewrite run_bind. cbn [gets fst snd]. pose proof Hs as (Hw & Hr & Hk).
  destruct (String.eqb (a_mode a) "raw" && String.eqb name "raw_conf" && negb (rawConfigured s)) eqn:E1.
  { apply andb_true_iff in E1 as [[E1 E2]%andb_true_iff E3]. apply String.eqb_eq in E1. apply negb_true_iff in E3.
    rewrite (Hw E1), E3 in Hk. by apply on_raw_conf_ended; [| split; [apply Hw |]]. }
  destruct (String.eqb (a_mode a) "raw" && String.eqb name "raw_ready"); [by apply continue_ended |].
  destruct (String.eqb_spec name "wg_config") as [-> | Hn]; cbn [andb].
  - destruct (wgConfigured s) eqn:Ew; cbn [negb].
    + change (String.eqb "wg_config" "workers_completed") with false. by apply continue_ended.
    + destruct (decide (a_mode a = "raw")) as [Hm | Hm]; [by destruct (Hraw Hm) |]. rewrite (Hr Hm) in Hk. cbn [orb] in Hk.
      rewrite run_bind. set (s1 := (set_wg_configured s).2). assert (at_ true false U s1) as Hs1 by (split; [done | split; [exact (Hr Hm) | exact Hk]]).
      destruct (String.eqb_spec (a_mode a) "socks"); [by apply on_socks_config_ended | by apply on_tun_config_ended].
  - destruct (String.eqb name "workers_completed"); [| by apply continue_ended]. clear Hw Hr Hk E1. revert s Hs. apply end_keeps. intros. auto with effects.
Qed.

Lemma on_event_ended ev : (a_mode a = "raw" -> forall data, ev <> EvEvent "wg_config" data) -> sat inv (on_event ev) ended.
Proof.
  intros Hraw. destruct ev as [status | level msg | msg | name data | rx tx workers]; cbn [on_event].
  - unfold on_state. destruct (String.eqb _ _); [do 2 step_ended; apply continue_ended |].
    destruct (String.eqb _ _); [apply end_keeps; auto with effects | apply continue_ended].
  - unfold on_log. repeat (match goal with |- sat _ (if ?b then _ else _) _ => destruct b end); try apply continue_ended.
    do 2 step_ended. apply end_keeps. auto with effects.
  - apply continue_ended.
  - apply on_named_ended. intros Hm ->. by destruct (Hraw Hm data).
  - unfold on_stats. eapply sat_bind; [apply keeps_gets |]. intros s0. destruct (_ && _); [step_ended |]; apply continue_ended.
Qed.

Lemma check_vk_ended : sat inv check_vk ended.
Proof.
  unfold check_vk. eapply sat_bind; [apply keeps_gets |]. intros []; [apply continue_ended |].
  step_ended. destruct x; [do 2 step_ended |]; apply continue_ended.
Qed.

(** A wake-up that the theorems cover: no WireGuard configuration in raw mode, and reloads only if they
    preserve [U]. *)
Definition covered (w : wake) : Prop :=
  match w with
  | CoreEvent ev => a_mode a = "raw" -> forall data, ev <> EvEvent "wg_config" data
  | ReloadCommand f => keeps U (reloadSplitRoutes RawIfaceName (a_mode a) daemonBlRaw daemonProfileName f)
  | _ => True
  end.

Lemma on_wake_ended w : covered w -> sat inv (on_wake w) ended.
Proof.
  destruct w as [r | | | | | ev | | f]; cbn [on_wake covered]; intros Hw.
  - step_ended. apply continue_ended.
  - eapply sat_bind; [apply keeps_gets |]. intros []; [| apply continue_ended]. do 2 step_ended. apply end_keeps. auto with effects.
  - step_ended. apply end_keeps. auto with effects.
  - step_ended. apply (sat_bind _ _ (fun _ s => U (kern s))); [intros s; apply teardownMode_U |]. intros []. by apply sat_ret.
  - apply end_keeps. auto with effects.
  - eapply sat_bind; [by apply on_event_ended |]. intros [o |]; [by apply sat_ret | apply check_vk_ended].
  - step_ended. apply end_keeps. auto with effects.
  - eapply sat_bind; [| intros ?; apply continue_ended]. intros s (H1 & H2 & Hs).
    assert (keeps (if wgConfigured s || rawConfigured s then tracked true [] else U)
      (reloadSplitRoutes RawIfaceName (a_mode a) daemonBlRaw daemonProfileName f)) as Hk.
    { destruct (_ || _); [apply reload_tracked | done]. }
    destruct (lift_keeps (wgConfigured s) (rawConfigured s) _ _ Hk s) as (E1 & E2 & E3); [by repeat split |].
    unfold inv. by rewrite E1, E2.
Qed.

Lemma select_loop_ended wakes : Forall covered wakes -> sat inv (select_loop wakes) ended.
Proof.
  induction 1 as [| w rest Hw Hrest IH]; cbn [select_loop]; [apply continue_ended |].
  eapply sat_bind; [by apply on_wake_ended |]. intros [o |]; [by apply sat_ret | exact IH].
Qed.

Lemma session_ended wakes : Forall covered wakes -> sat (fun s => U (kern s)) (tryConnectProfile wakes) (fun r s => r <> None -> U (kern s)).
Proof.
  intros Hw. assert (forall A (m : S A), (forall w r, keeps (at_ w r U) m) -> keeps (fun s => U (kern s)) m) as Hk by (intros; by apply kern_keeps).
  eapply sat_bind with (R := ended).
  - unfold session. eapply sat_bind; [apply Hk; intros; by apply lift_keeps, quiet_ask |].
    assert (forall x y, sat (fun s => U (kern s)) (finish x y) ended) as Hfin by (intros; by apply sat_ret).
    intros [prof |]; [| do 2 (eapply sat_bind; [apply Hk; auto with effects |]; intros ?); apply Hfin].
    apply (sat_bind _ _ (fun _ s => U (kern s))); [destruct (String.eqb _ _); [apply Hk; auto with effects | apply keeps_ret] |]. intros id.
    apply (sat_bind _ _ (fun _ s => U (kern s))); [destruct (shouldSetActive a); [apply Hk; auto with effects | apply keeps_ret] |]. intros _.
    destruct (New _) as [[cfg cm] | e]; [| do 2 (eapply sat_bind; [apply Hk; auto with effects |]; intros ?); apply Hfin].
    eapply sat_bind; [apply Hk; auto with effects |]. intros []; cbn [negb].
    + apply (sat_bind _ _ (fun _ => inv)); [| intros _; by apply select_loop_ended]. apply sat_modify. intros s Hs. by repeat split.
    + do 2 (eapply sat_bind; [apply Hk; auto with effects |]; intros ?).
      apply (sat_bind _ _ (fun _ s => U (kern s))); [| intros _; apply Hfin]. intros s Hs. apply Uclean.
      apply (kernel_teardown_clean (wgConfigured s) (rawConfigured s)). repeat split. by apply tracked_weaken, Utracked.
  - intros [o |]; cbn [ended].
    + eapply sat_bind; [apply Hk; auto with effects |]. intros ?. by apply sat_ret.
    + by apply sat_ret.
Qed.
End routes.

Lemma covered_all U wakes : (a_mode a = "raw" -> forall data, CoreEvent (EvEvent "wg_config" data) ∉ wakes) ->
  (forall f, ReloadCommand f ∈ wakes -> keeps U (reloadSplitRoutes RawIfaceName (a_mode a) daemonBlRaw daemonProfileName f)) ->
  Forall (covered U) wakes.
Proof.
  intros Hraw HU. apply Forall_forall. intros [| | | | | ev | | f] Hin; cbn [covered]; try done; [| by apply HU].
  intros Hm data ->. by apply (Hraw Hm data).
Qed.

(** C25: a session without hot reloads that starts with none of the program's routes to be deleted has asked for
    the deletion of every route it added, however it ends: by a signal, a time-out, a failure, the end of
    the core or a resume.  The routes the kernel still holds are those whose deletion it refused; if it
    refuses none, no route is left. *)
Theorem session_leaves_no_routes wakes s o s' :
  (a_mode a = "raw" -> forall data, CoreEvent (EvEvent "wg_config" data) ∉ wakes) -> (forall f, ReloadCommand f ∉ wakes) ->
  undeleted (history (kern s)) = [] -> tryConnectProfile wakes s = (Some o, s') ->
  undeleted (history (kern s')) = [] /\ kernel_routes (history (kern s')) ⊆ refused (history (kern s')) /\
  ((forall h d, succeeds h (RouteDel d) = true) -> kernel_routes (history (kern s')) = []).
Proof.
  intros Hraw Hno Hs E.
  pose proof (session_ended clean clean_quiet (fun t H => H) (clean_tracked false) wakes
    (covered_all _ _ Hraw (fun f Hf => False_ind _ (Hno f Hf))) s Hs) as H1. rewrite E in H1. specialize (H1 ltac:(done)).
  split; [exact H1 |]. split; [by apply kernel_refused | by apply kernel_emptied].
Qed.

(** With hot reloads between its wake-ups, before the configuration or after it, a session may leave routes, but
    records them: a further removal of the routes asks for the deletion of all of them. *)
Theorem reloaded_session_recorded wakes s o s' :
  (a_mode a = "raw" -> forall data, CoreEvent (EvEvent "wg_config" data) ∉ wakes) ->
  undeleted (history (kern s)) = [] -> tryConnectProfile wakes s = (Some o, s') ->
  undeleted (history (teardownTunnelRoutes (kern s')).2) = [].
Proof.
  intros Hraw Hs E. apply teardown_routes_clean. apply (tracked_weaken true).
  pose proof (session_ended (tracked false []) (tracked_quiet false []) (clean_tracked false) (fun t H => H) wakes
    (covered_all _ _ Hraw (fun f _ => reload_tracked false _ _ _ _ f)) s (clean_tracked false _ Hs)) as H1. rewrite E in H1. by apply H1.
Qed.

(** ** A session only adds to the history *)

Section grows.
Context (P : tun -> Prop) (HP : monotone P).
Abbreviation Q := (fun s : sess => P (kern s)).

Lemma lift_grows {A} (m : State tun A) : keeps P m -> keeps Q (lift m).
Proof. intros Hm s Hs. specialize (Hm _ Hs). unfold lift. by destruct (m (kern s)). Qed.
Lemma ask_grows {A} (f : list op -> A) o : keeps Q (lift (ask f o)).
Proof. by apply lift_grows, mono_ask. Qed.
Lemma call_grows o : keeps Q (lift (call o)).
Proof. apply ask_grows. Qed.
Lemma acall_grows c : keeps Q (acall c).
Proof. apply call_grows. Qed.
Lemma aask_grows {A} (f : list op -> A) c : keeps Q (aask f c).
Proof. apply ask_grows. Qed.
Lemma flags_grow f : (forall s, kern (f s) = kern s) -> keeps Q (modify f).
Proof. intros Hf. apply sat_modify. intros s. by rewrite Hf. Qed.
Lemma finish_grows x y : keeps Q (finish x y).
Proof. apply keeps_ret. Qed.
Lemma set_tested_grows : keeps Q set_tested.
Proof. by apply flags_grow. Qed.
Lemma set_wg_grows : keeps Q set_wg_configured.
Proof. by apply flags_grow. Qed.
Lemma set_raw_grows : keeps Q set_raw_configured.
Proof. by apply flags_grow. Qed.
Lemma set_connected_grows : keeps Q set_connected.
Proof. by apply flags_grow. Qed.
Lemma set_vk_grows : keeps Q set_vk.
Proof. by apply flags_grow. Qed.
Lemma set_wr_grows : keeps Q set_wr.
Proof. by apply flags_grow. Qed.
Lemma set_split_grows c : keeps Q (modify (with_split c)).
Proof. by apply flags_grow. Qed.
#[local] Hint Resolve ask_grows call_grows acall_grows aask_grows finish_grows set_tested_grows set_wg_grows set_raw_grows set_connected_grows
  set_vk_grows set_wr_grows set_split_grows : effects.

Lemma tunnel_grows : keeps Q (lift teardownWG) /\ keeps Q (lift teardownTunnelRoutes) /\ keeps Q (lift defaultGateway) /\
  (forall ds, keeps Q (lift (addKernelBypassRoutes ds))) /\ (forall ds, keeps Q (lift (resolveDomainIPs ds))) /\
  (forall l g, keeps Q (lift (applyTurnIPsBypass l g))) /\ (forall r, keeps Q (lift (set_router r))) /\
  (forall conf ips cfg, keeps Q (lift (applyWGConfig zero_key ParseKey ResolveUDPAddr conf ips cfg))) /\
  (forall i m b p n, keeps Q (lift (reloadSplitRoutes i m b p n))).
Proof.
  repeat split; intros; apply lift_grows; [by apply mono_teardown | by apply mono_teardown_routes | by apply mono_gateway
    | by apply mono_kernel | by apply mono_resolve | by apply mono_turn_ips | by apply mono_set_router | by apply mono_apply
    | by apply mono_reload].
Qed.

Lemma teardownMode_grows : keeps Q teardownMode.
Proof. destruct tunnel_grows as (? & ? & ? & ? & ? & ? & ? & ? & ?). unfold teardownMode. keep. Qed.
Lemma announce_grows : keeps Q announce.
Proof. unfold announce, remember_autoswitch, continue. keep. Qed.
#[local] Hint Resolve teardownMode_grows announce_grows : effects.

Lemma on_named_grows name data : keeps Q (on_named name data).
Proof.
  destruct tunnel_grows as (? & ? & ? & ? & ? & ? & ? & ? & ?).
  unfold on_named, on_raw_conf, on_socks_config, on_tun_config, no_connectivity, kernel_teardown, test_connectivity, socks_routes,
    write_split, clear_active, notify_and_clear, continue. keep.
Qed.

Lemma on_wake_grows w : keeps Q (on_wake w).
Proof.
  destruct tunnel_grows as (? & ? & ? & ? & ? & ? & ? & ? & ?). pose proof on_named_grows.
  destruct w; cbn [on_wake]; unfold on_event, on_state, on_log, on_stats, check_vk, clear_active, notify_and_clear,
    remember_autoswitch, continue; keep.
Qed.

Lemma connect_grows wakes : keeps Q (tryConnectProfile wakes).
Proof.
  destruct tunnel_grows as (? & ? & ? & ? & ? & ? & ? & ? & ?).
  assert (keeps Q (select_loop wakes)) as Hl by (induction wakes as [| w l IH]; cbn [select_loop]; unfold continue; keep; by apply on_wake_grows).
  assert (keeps Q (modify fresh)) by (by apply flags_grow).
  unfold tryConnectProfile, session, clear_active, kernel_teardown. keep.
Qed.
End grows.

(** ** The shared list of domains *)

Lemma lift_split {A} x (m : State tun A) : keeps (fun s => split s = x) (lift m).
Proof. intros s Hs. unfold lift. by destruct (m (kern s)). Qed.

Lemma acall_split x c : keeps (fun s => split s = x) (acall c).
Proof. apply lift_split. Qed.

Lemma aask_answer {A} (P : sess -> Prop) (f : list op -> A) c : keeps P (aask f c) -> sat P (aask f c) (fun y s => (exists h, y = f h) /\ P s).
Proof. intros Hk s Hs. split; [by eexists | by apply Hk]. Qed.

(** The calls made so far stay in the history. *)
Definition has (o : op) (s : sess) : Prop := o ∈ (history (kern s) : list op).

Lemma issued_one (o : op) (t : tun) : issued [o] t <-> o ∈ history t.
Proof. unfold issued. by rewrite Forall_singleton. Qed.

Lemma lift_has {A} o (m : State tun A) : (forall P, monotone P -> keeps P m) -> keeps (has o) (lift m).
Proof.
  intros Hm s Hs. unfold has, lift. pose proof (Hm _ (issued_monotone [o]) (kern s)) as Hi.
  destruct (m (kern s)) as [y t]. apply issued_one, Hi, issued_one, Hs.
Qed.

Lemma acall_has o c : keeps (has o) (acall c).
Proof. apply lift_has. intros P HP. by apply mono_do. Qed.

Lemma call_has o c : sat (fun _ => True) (lift (call c)) (fun _ s => c = o -> has o s).
Proof. intros s _ ->. unfold has, lift. cbn. by left. Qed.

Lemma announce_both x o : keeps (fun s => split s = x /\ has o s) announce.
Proof.
  intros s [Hs Ho]. unfold announce, remember_autoswitch. rewrite !run_bind. unfold continue. cbn [snd mret State_ret].
  destruct (autoSwitch a); rewrite ?run_bind; cbn; (split; [exact Hs |]); unfold has in *; cbn; repeat right; exact Ho.
Qed.

Definition recorded (c : splitTunnelConfig) (s : sess) : Prop :=
  exists routes, has (WriteSplitCfg (profileName a) (rawBl c) (rawFile c) (domains c) routes) s.

(** What a kernel session that is set up records and leaves in the shared configuration. *)
Lemma tun_config_merges conf c :
  sat (fun s => split s = Some c) (on_tun_config conf) (fun r s => r = None ->
    exists h, split s = Some (merged c (socks_domains h)) /\ recorded c s).
Proof.
  unfold on_tun_config. eapply sat_bind; [apply lift_split |]. intros ips.
  eapply sat_bind; [apply aask_answer, lift_split |]. intros foreign. apply sat_assume. intros [h ->].
  eapply (sat_bind _ _ (fun cfg s => cfg = Some c)); [by apply sat_gets |]. intros cfg.
  eapply (sat_bind _ _ (fun _ s => cfg = Some c /\ split s = Some (merged c (socks_domains h)))).
  { apply sat_modify. intros s ->. by split. }
  intros _. apply sat_assume. intros ->. set (c' := merged c _). cbn [fmap option_fmap option_map].
  eapply sat_bind; [apply lift_split |]. intros r. destruct (is_ok r); cbn [negb].
  2: { repeat (apply (sat_bind _ _ (fun _ _ => True)); [by intros s ? | intros ?]). by apply sat_ret. }
  apply (sat_bind _ _ (fun _ s => split s = Some c')); [destruct (_ && _); [apply lift_split | apply keeps_ret] |]. intros _.
  apply (sat_bind _ _ (fun _ s => split s = Some c')).
  { unfold test_connectivity. eapply sat_bind; [apply lift_split |]. intros []; [apply lift_split | apply keeps_ret]. }
  intros []; cbn [negb].
  2: { unfold no_connectivity. repeat (apply (sat_bind _ _ (fun _ _ => True)); [by intros s ? | intros ?]). by apply sat_ret. }
  eapply sat_bind; [apply keeps_gets |]. intros routes.
  set (o := (WriteSplitCfg (profileName a) (rawBl c) (rawFile c) (domains c) routes : op)).
  apply (sat_bind _ _ (fun _ s => split s = Some c' /\ has o s)).
  - intros s Hs. split; [exact Hs |]. unfold has. cbn. by left.
  - intros _. eapply sat_weaken; [apply (announce_both (Some c') o) | by intros s Hs |]. intros r0 s [Hs Ho] _. exists h. split; [done |]. by exists routes.
Qed.

(** The domains of running SOCKS profiles that a kernel session adds to the shared list stay in it: the
    next session of the same command, after a resume or a switch, records them as the profile's own. *)
Theorem foreign_domains_recorded conf conf' c s s1 s2 :
  split s = Some c -> on_tun_config conf s = (None, s1) -> on_tun_config conf' (fresh s1) = (None, s2) ->
  exists h routes, has (WriteSplitCfg (profileName a) (rawBl c) (rawFile c)
    (mergeBypassDomains (domains c) [socks_domains h]) routes) s2.
Proof.
  intros Hs E1 E2. pose proof (tun_config_merges conf c s Hs) as H1. rewrite E1 in H1. destruct (H1 eq_refl) as (h & Hm & _).
  pose proof (tun_config_merges conf' (merged c (socks_domains h)) (fresh s1) Hm) as H2. rewrite E2 in H2.
  destruct (H2 eq_refl) as (_ & _ & routes & Hr). by exists h, routes.
Qed.

(** ** A SOCKS session and the kernel interface of another one *)

Lemma teardown_issues (t : tun) : (forall h, succeeds h (LinkByName wgIface) = true) ->
  issued (LinkDel :: (RouteDel <$> (cidrNet <$> halves_text))) (teardownWG t).2.
Proof.
  intros Hl. assert (forall l t', history (delete_routes l t').2 = (rev (RouteDel <$> l) ++ history t')%list) as Hd.
  { induction l as [| d l IH]; intros t'; [done |].
    change (delete_routes (d :: l) t') with (delete_routes l (with_history (RouteDel d :: history t') t')).
    rewrite IH. cbn [history with_history fmap list_fmap rev]. by rewrite <- app_assoc. }
  assert (issued (RouteDel <$> (cidrNet <$> halves_text)) (teardownTunnelRoutes t).2) as Hr.
  { unfold teardownTunnelRoutes. rewrite run_bind. rewrite run_bind. rewrite run_bind. rewrite run_bind.
    unfold issued. rewrite Hd. apply Forall_forall. intros o Ho. apply elem_of_app. left. by rewrite list_elem_of_In, <- in_rev, <- list_elem_of_In. }
  unfold teardownWG. rewrite run_bind. set (t1 := (teardownTunnelRoutes t).2) in *. rewrite run_bind.
  unfold call at 1 3, ask. cbn [fst snd]. rewrite Hl. constructor; [by left |].
  eapply Forall_impl; [exact Hr |]. intros o Ho. cbn. right. by right.
Qed.

Definition going (w : bool) (r : option outcome) (s : sess) : Prop := r = None /\ wgConfigured s = w.

Lemma flag_keeps {A} w (m : S A) : (forall r, keeps (at_ w r (fun _ => True)) m) -> keeps (fun s => wgConfigured s = w) m.
Proof. intros Hm s Hs. by destruct (Hm (rawConfigured s) s) as (? & _). Qed.

Lemma anything_quiet : quiet (fun _ => True).
Proof. by split. Qed.

Lemma announce_going w : sat (fun s => wgConfigured s = w) announce (going w).
Proof.
  intros s Hs. split; [unfold announce; by rewrite !run_bind |].
  apply (flag_keeps w announce); [intros; apply announce_keeps, anything_quiet | done].
Qed.

Lemma socks_config_going conf :
  (forall h port user pass bind c ds ips, succeeds h (App (WireproxyStart port user pass bind c ds ips)) = true) ->
  sat (fun s => wgConfigured s = true) (on_socks_config conf) (going true).
Proof.
  intros Hstart. pose proof anything_quiet as Hq. set (P := fun s : sess => wgConfigured s = true).
  assert (forall A (m : S A), (forall r, keeps (at_ true r (fun _ => True)) m) -> keeps P m) as Hk by (intros; by apply flag_keeps).
  unfold on_socks_config. eapply sat_bind; [apply keeps_gets |]. intros cfg. cbv zeta.
  apply (sat_bind _ _ (fun _ => P)).
  { destruct (_ <? _)%nat; [| apply keeps_ret]. apply keeps_bind; [| intros ?; apply keeps_ret]. apply Hk. intros. by apply resolve_quiet. }
  intros ips. apply (sat_bind _ _ (fun b s => b = true /\ P s)).
  { intros s Hs. split; [apply Hstart | by apply Hk; [intros; apply acall_keeps |]]. }
  intros started. apply sat_assume. intros ->.
  apply (sat_bind _ _ (fun _ => P)); [by apply Hk; intros; apply set_wr_keeps |]. intros _. cbn [negb].
  eapply sat_bind; [apply Hk; intros; by apply router_keeps |]. intros ?.
  eapply sat_bind; [apply Hk; intros; by apply acall_keeps |]. intros ?.
  apply (sat_bind _ _ (fun _ => P)); [| intros _; apply announce_going].
  destruct cfg as [c |]; [| apply keeps_ret]. apply keeps_bind; [| intros routes; apply Hk; intros; by apply write_split_keeps].
  apply Hk. intros r. unfold socks_routes. apply keeps_bind; [by apply call_keeps |]. intros wg.
  apply keeps_bind; [destruct wg; [apply keeps_ret | by apply call_keeps] |]. intros up.
  destruct up; [by apply lift_keeps | apply keeps_ret].
Qed.

Lemma check_vk_going w : sat (fun s => wgConfigured s = w) check_vk (going w).
Proof.
  set (P := fun s : sess => wgConfigured s = w).
  assert (forall A (m : S A), (forall r, keeps (at_ w r (fun _ => True)) m) -> keeps P m) as Hk by (intros; by apply flag_keeps).
  unfold check_vk. eapply sat_bind; [apply keeps_gets |]. intros []; [by apply sat_ret |].
  eapply sat_bind; [apply Hk; intros; by apply acall_keeps, anything_quiet |]. intros []; [| by apply sat_ret].
  apply (sat_bind _ _ (fun _ => P)); [by apply Hk; intros; apply set_vk_keeps |]. intros _.
  eapply sat_bind; [apply Hk; intros; by apply acall_keeps, anything_quiet |]. intros ?. by apply sat_ret.
Qed.

(** Stopping a session that has its configuration. *)
Lemma stop_issues s : wgConfigured s = true -> (forall h, succeeds h (LinkByName wgIface) = true) ->
  exists o s', on_wake StopSignal s = (Some o, s') /\ issued (LinkDel :: (RouteDel <$> (cidrNet <$> halves_text))) (kern s').
Proof.
  intros Hw Hl. set (Q := fun s : sess => issued (LinkDel :: (RouteDel <$> (cidrNet <$> halves_text))) (kern s)).
  assert (forall A (m : S A), (forall w r, keeps (at_ w r (issued (LinkDel :: (RouteDel <$> (cidrNet <$> halves_text))))) m) -> keeps Q m) as Hk by (intros; by apply kern_keeps).
  assert (quiet (issued (LinkDel :: (RouteDel <$> (cidrNet <$> halves_text))))) as Hq.
  { split; intros; [apply mono_ask, issued_monotone | apply mono_set_cache, issued_monotone | apply mono_set_router, issued_monotone]. }
  assert (sat (fun s => wgConfigured s = true) (on_wake StopSignal) (fun r s => r <> None /\ Q s)) as Hs.
  { cbn [on_wake]. eapply sat_bind; [apply flag_keeps; intros; by apply acall_keeps, anything_quiet |]. intros ?.
    apply (sat_bind _ _ (fun _ => Q)).
    - intros t Ht. unfold teardownMode. rewrite run_bind. cbn [gets fst snd]. rewrite Ht, run_bind.
      set (t1 := (_ t).2). assert (Q t1) as Hq1.
      { unfold t1. rewrite run_bind. unfold Q, lift. pose proof (teardown_issues (kern t) Hl) as Hi. by destruct (teardownWG (kern t)). }
      revert Hq1. generalize t1. apply Hk. intros. keep.
    - intros _. eapply sat_bind; [apply Hk; intros; by apply notify_and_clear_keeps |]. intros ?. by apply sat_ret. }
  destruct (Hs s Hw) as [Hr HQ]. destruct (on_wake StopSignal s) as [[o |] s']; [by exists o, s' | done].
Qed.

(** A SOCKS session that is stopped removes the kernel interface if there is one, with the routes into
    the tunnel, although a SOCKS session never creates them: they belong to a TUN session next to it. *)
Theorem socks_stop_removes_interface conf s :
  a_mode a = "socks" -> wgConfigured s = false ->
  (forall h port user pass bind c ds ips, succeeds h (App (WireproxyStart port user pass bind c ds ips)) = true) ->
  (forall h, succeeds h (LinkByName wgIface) = true) ->
  exists o s', select_loop [CoreEvent (EvEvent "wg_config" conf); StopSignal] s = (Some o, s') /\
    issued (LinkDel :: (RouteDel <$> (cidrNet <$> halves_text))) (kern s').
Proof.
  intros Hm Hw Hstart Hl. cbn [select_loop]. rewrite run_bind.
  assert (going true (on_wake (CoreEvent (EvEvent "wg_config" conf)) s).1 (on_wake (CoreEvent (EvEvent "wg_config" conf)) s).2) as [-> H1].
  { cbn [on_wake on_event]. rewrite run_bind.
    assert (going true (on_named "wg_config" conf s).1 (on_named "wg_config" conf s).2) as [-> H1]; [| by apply check_vk_going].
    assert (on_named "wg_config" conf s = (_ ← set_wg_configured; on_socks_config conf) s) as ->
      by (unfold on_named; rewrite run_bind; cbn [gets fst snd]; by rewrite Hm, Hw).
    rewrite run_bind. by apply socks_config_going. }
  destruct (stop_issues _ H1 Hl) as (o & s' & E & Hi). exists o, s'. cbn [select_loop]. by rewrite run_bind, E.
Qed.
End connect.

(** ** A concrete session *)

Section example.
#[local] Instance example_unicode : Unicode := fun s => s.
Abbreviation ex_op := (@op string string cop).

(** The interface exists from its creation on; a TUN session has created one when [up]. *)
Fixpoint link_up (up : bool) (h : list ex_op) : bool :=
  match h with [] => up | LinkAdd :: _ => true | LinkDel :: _ => false | _ :: h' => link_up up h' end.

Definition example_world (up : op -> list ex_op -> bool) : @World string string cop := {|
  succeeds := fun h o => up o h;
  route_list := fun _ => Some [{| Dst := None; Gw := Some [192; 168; 1; 1] |}];
  unix_now := fun h => 1700000000 + Z.of_nat (length h);
  cache_file := fun _ => None;
  lookup_ip := fun _ d => if String.eqb d "vk.com" then Some [[87; 240; 132; 72]] else None;
  current_profile := fun _ => "home";
  bypass_file := fun _ _ => None
|}.

#[local] Instance tun_world : @World string string cop :=
  example_world (fun o h => match o with LinkByName _ => link_up false h | _ => true end).

Definition example_profile : ProfileData :=
  {| PeerAddr := "203.0.113.7:56000"; Password := "pw"; Hashes := ["h1"]; Listen := ""; TurnHost := ""; TurnPort := "";
     Workers := 4; Profiles.DeviceID := "0123456789abcdef"; Priority := 0; LinkFile := ""; Groups := []; Subscription := "" |}.

#[local] Instance example_host : @Host string string := {|
  profile_of := fun _ n => if String.eqb n "home" then Some example_profile else None;
  device_id := fun _ => "fedcba9876543210";
  turn_ips := fun _ => ["95.163.1.1"];
  socks_domains := fun _ => ["8.8.8.8"]
|}.

Definition example_args (md : string) : args :=
  {| profileName := "home"; a_workers := defaultWorkers; a_mtu := 1280; hashesOverride := ""; dnsArg := "yandex"; captchaMode := "auto";
     autoSwitch := false; a_mode := md; socksPort := 1080; a_socksUser := ""; a_socksPass := ""; pubFlag := false; socksListenAddr := ""; rawPort := 56003;
     transport := "udp"; shouldSetActive := false; skipActiveProfileClear := true |}.

Definition example_bypass : splitTunnelConfig := {| mode := "blacklist"; domains := ["vk.com"]; rawBl := "vk.com"; rawFile := "" |}.

Definition example_sess : @sess string string :=
  {| kern := {| history := []; routedTurnIPs := []; splitRoutes := []; splitCacheInMemory := no_entry; activeRouter := None |};
     split := Some example_bypass; connected := false; wgConfigured := false; rawConfigured := false; wgTested := false;
     vkAuthNotified := false; wr := false; timer := false |}.

Definition conf_text : string :=
  text_of ["[Interface]"; "PrivateKey = k1"; "Address = 10.66.66.2/32"; "MTU = 1280"; "[Peer]"; "PublicKey = k2";
           "Endpoint = 127.0.0.1:9000"; "AllowedIPs = 0.0.0.0/1, 128.0.0.0/1"].

(** The core runs, sends the configuration and some statistics, the machine sleeps and wakes up. *)
Definition example_wakes : list wake :=
  [CoreEvent (EvState "running"); CoreEvent (EvEvent "wg_config" conf_text); CoreEvent (EvStats 100 200 4); Resumed].

Abbreviation ex_session := (tryConnectProfile "zero" Some Some (example_args "tun") "vk.com" "home" example_wakes example_sess).

Example session_ends : ex_session.1 = Some {| wasResume := true; fatal := false |}.
Proof. by vm_compute. Qed.

(** Routes are set while it runs: to the relay, to the bypassed addresses and into the tunnel. *)
Example session_routes :
  length (undeleted (history (kern (select_loop "zero" Some Some (example_args "tun") "vk.com" "home" (take 3 example_wakes) example_sess).2))) = 5%nat.
Proof. by vm_compute. Qed.

Lemma session_leaves_no_routes_witness :
  ex_session.1 = Some {| wasResume := true; fatal := false |} /\ kernel_routes (history (kern ex_session.2)) = [].
Proof.
  assert (ex_session.1 = Some {| wasResume := true; fatal := false |}) as E by (by vm_compute). split; [exact E |].
  eapply (session_leaves_no_routes "zero" Some Some (example_args "tun") "vk.com" "home" example_wakes example_sess
    {| wasResume := true; fatal := false |} ex_session.2).
  - intros H. discriminate H.
  - intros f Hf. repeat (apply elem_of_cons in Hf as [Hf | Hf]; [discriminate Hf |]). by apply elem_of_nil in Hf.
  - reflexivity.
  - exact (pair_of _ _ E).
  - intros h d. reflexivity.
Defined.

(** A route that the kernel does not let go stays, and the session forgets it. *)
Definition refusing_world : @World string string cop :=
  example_world (fun o h => match o with LinkByName _ => link_up false h | RouteDel x => bool_decide (x <> cidrNet "8.8.8.8/32") | _ => true end).

Example refused_route_left :
  let r := @tryConnectProfile string string "zero" Some Some example_unicode refusing_world example_host
    (example_args "tun") "vk.com" "home" example_wakes example_sess in
  @kernel_routes string string cop refusing_world (history (kern r.2)) = [cidrNet "8.8.8.8/32"] /\ splitRoutes (kern r.2) = [].
Proof. split; by vm_compute. Qed.

Abbreviation first_config := (on_tun_config "zero" Some Some (example_args "tun") conf_text example_sess).
Abbreviation second_config := (on_tun_config "zero" Some Some (example_args "tun") conf_text (fresh (example_args "tun") first_config.2)).

Lemma foreign_domains_recorded_witness : exists routes,
  has (WriteSplitCfg "home" "vk.com" "" ["vk.com"; "8.8.8.8"] routes) second_config.2.
Proof.
  destruct (foreign_domains_recorded "zero" Some Some (example_args "tun") conf_text conf_text example_bypass example_sess
    first_config.2 second_config.2) as (h & routes & Hr).
  - reflexivity.
  - apply pair_of. by vm_compute.
  - apply pair_of. by vm_compute.
  - exists routes. exact Hr.
Defined.
End example.

Section other_tunnel.
#[local] Instance other_unicode : Unicode := fun s => s.
#[local] Instance other_world : @World string string cop := example_world (fun _ _ => true).
#[local] Existing Instance example_host.

Lemma socks_stop_removes_interface_witness : exists o s',
  select_loop "zero" Some Some (example_args "socks") "" "home" [CoreEvent (EvEvent "wg_config" conf_text); StopSignal] example_sess = (Some o, s') /\
  issued (LinkDel :: (RouteDel <$> (cidrNet <$> halves_text))) (kern s').
Proof.
  apply (socks_stop_removes_interface "zero" Some Some (example_args "socks") "" "home" conf_text example_sess).
  - reflexivity.
  - reflexivity.
  - reflexivity.
  - reflexivity.
Defined.
End other_tunnel.
