(* ===== verification/Running.v ===== *)
(** * Running daemons (utils.go, commands.go, connect.go).

    What the commands find out about the daemons that run: from the pid files, the command lines of the
    processes and the state files of the bypass lists; and which daemon a command on bypass lists
    addresses.  The files and processes are read at one moment: [system]. *)

From S2P Require Import Prelude GoStrings Chars Router Tunnel.
From Stdlib Require Import ZArith Lia String Ascii.
From stdpp Require Import base list strings gmap.
Open Scope string_scope.
Open Scope Z_scope.

(** What [readSplitCfgFull] reads; everything is empty when there is no file or it cannot be decoded. *)
Record split_state := { s_bl : string; s_blFile : string; s_routes : list string; s_mtime : Z; s_domains : list string }.

Record system := {
  pid_dir : list string;
  pid_text : string -> string;
  alive : Z -> bool;
  cmdline_of : Z -> option string;
  split_of : string -> split_state;
  autoswitch_current : string;
  active_profile : string;
  socket_there : string -> bool
}.

Record ProfileDetails := {
  Mode : string; SocksPort : Z; SocksUser : string; SocksPass : string; SocksPublic : bool; SocksListenAddr : string;
  PID : Z; BlackList : string; BlackListFile : string; BlackListMtime : Z; BlackListDomains : list string; SplitRoutes : list string
}.

(** ** Command lines *)

Definition defaultSocksPort : Z := 9050.

(** The arguments with a space for each NUL. *)
Definition cmdline_text (data : string) : string :=
  map_string (fun c => if Ascii.eqb c zero then " "%char else c) data.

Definition detect_mode (cmdline : string) : string :=
  if contains "-mode socks" cmdline || contains "--mode=socks" cmdline || contains "-mode=socks" cmdline then "socks"
  else if contains "-mode raw" cmdline || contains "--mode=raw" cmdline || contains "-mode=raw" cmdline then "raw"
  else "tun".

(** The value of a field: the next field after one of [names], or what follows one of [prefixes]. *)
Fixpoint prefixed (prefixes : list string) (field : string) : option string :=
  match prefixes with
  | [] => None
  | p :: rest => if has_prefix p field then Some (trim_prefix p field) else prefixed rest field
  end.

Definition field_value (names prefixes : list string) (field : string) (rest : list string) : option string :=
  if existsb (String.eqb field) names && (0 <? length rest)%nat then head rest else prefixed prefixes field.

(** The first field that has a value, and the last one. *)
Fixpoint first_flag (names prefixes : list string) (fields : list string) : option string :=
  match fields with
  | [] => None
  | field :: rest => match field_value names prefixes field rest with Some v => Some v | None => first_flag names prefixes rest end
  end.

Fixpoint last_flag (names prefixes : list string) (fields : list string) (cur : string) : string :=
  match fields with
  | [] => cur
  | field :: rest => last_flag names prefixes rest (default cur (field_value names prefixes field rest))
  end.

Definition socks_port (fields : list string) : Z :=
  match first_flag ["-socks-port"; "--socks-port"] ["-socks-port="; "--socks-port="] fields with
  | Some v => default defaultSocksPort (atoi v)
  | None => defaultSocksPort
  end.

Definition socks_public (fields : list string) : bool :=
  existsb (fun f => existsb (String.eqb f) ["-pub"; "--pub"; "-public"; "--public"]) fields.

Definition socks_listen (fields : list string) : string :=
  default "" (first_flag ["-listen"; "--listen"] ["--listen="; "-listen="] fields).

(** What the command line of a daemon says. *)
Definition cmdline_details (pid : Z) (data : string) : ProfileDetails :=
  let cmdline := cmdline_text data in
  let fs := fields cmdline in
  let md := detect_mode cmdline in
  let socks := String.eqb md "socks" in
  {| Mode := md; SocksPort := if socks then socks_port fs else 0;
     SocksUser := last_flag ["-socks-user"; "--socks-user"] ["-socks-user="; "--socks-user="] fs "";
     SocksPass := last_flag ["-socks-password"; "--socks-password"] ["-socks-password="; "--socks-password="] fs "";
     SocksPublic := socks && socks_public fs; SocksListenAddr := if socks then socks_listen fs else ""; PID := pid;
     BlackList := last_flag ["-bl"; "--bl"; "--black-list"] ["-bl="; "--bl="; "--black-list="] fs "";
     BlackListFile := last_flag ["-bl-file"; "--bl-file"; "--black-list-file"] ["-bl-file="; "--bl-file="; "--black-list-file="] fs "";
     BlackListMtime := 0; BlackListDomains := []; SplitRoutes := [] |}.

(** The state file is preferred over the command line. *)
Definition with_state (s : split_state) (d : ProfileDetails) : ProfileDetails :=
  if negb (String.eqb (s_bl s) "") || negb (String.eqb (s_blFile s) "") || (0 <? length (s_routes s))%nat then
    {| Mode := Mode d; SocksPort := SocksPort d; SocksUser := SocksUser d; SocksPass := SocksPass d; SocksPublic := SocksPublic d;
       SocksListenAddr := SocksListenAddr d; PID := PID d; BlackList := s_bl s; BlackListFile := s_blFile s;
       BlackListMtime := s_mtime s; BlackListDomains := s_domains s; SplitRoutes := s_routes s |}
  else d.

(** ** Pid files *)

(** The profile of a pid file's name. *)
Definition pid_profile (name : string) : option string :=
  if has_suffix ".pid" name && has_prefix "qwdtt-" name then
    let profile := trim_suffix ".pid" (trim_prefix "qwdtt-" name) in
    if String.eqb profile "" then None else Some profile
  else None.

(** The process of a pid file that is alive. *)
Definition live_pid (sys : system) (profile : string) : option Z :=
  match atoi (trim_space (pid_text sys profile)) with
  | Some pid => if alive sys pid then Some pid else None
  | None => None
  end.

Definition isDaemonRunning (sys : system) (profile : string) : bool := bool_decide (is_Some (live_pid sys profile)).

(** [getRunningProfiles] by the pid files. *)
Definition running_profiles (sys : system) : list string :=
  omap (fun name => match pid_profile name with Some p => if isDaemonRunning sys p then Some p else None | None => None end) (pid_dir sys).

Definition profile_details (sys : system) (profile : string) : option ProfileDetails :=
  match live_pid sys profile with
  | Some pid => match cmdline_of sys pid with Some data => Some (with_state (split_of sys profile) (cmdline_details pid data)) | None => None end
  | None => None
  end.

Fixpoint details_loop (sys : system) (names : list string) (m : gmap string ProfileDetails) : gmap string ProfileDetails :=
  match names with
  | [] => m
  | name :: rest =>
      match pid_profile name with
      | Some p => details_loop sys rest (match profile_details sys p with Some d => <[p := d]> m | None => m end)
      | None => details_loop sys rest m
      end
  end.

(** The entry of the profile that the autoswitch daemon runs. *)
Definition autoswitch_details (sys : system) (pid : Z) : ProfileDetails :=
  let d := match cmdline_of sys pid with
           | Some data =>
               let c := cmdline_details pid data in
               {| Mode := Mode c; SocksPort := SocksPort c; SocksUser := ""; SocksPass := ""; SocksPublic := SocksPublic c;
                  SocksListenAddr := SocksListenAddr c; PID := pid; BlackList := ""; BlackListFile := ""; BlackListMtime := 0;
                  BlackListDomains := []; SplitRoutes := [] |}
           | None => {| Mode := "tun"; SocksPort := 0; SocksUser := ""; SocksPass := ""; SocksPublic := false; SocksListenAddr := "";
                        PID := pid; BlackList := ""; BlackListFile := ""; BlackListMtime := 0; BlackListDomains := []; SplitRoutes := [] |}
           end in
  with_state (split_of sys (autoswitch_current sys)) d.

Definition getRunningProfileDetails (sys : system) : gmap string ProfileDetails :=
  let m := details_loop sys (pid_dir sys) ∅ in
  let cur := autoswitch_current sys in
  if String.eqb cur "" then m
  else match live_pid sys "autoswitch" with
       | Some pid => match m !! cur with Some _ => m | None => <[cur := autoswitch_details sys pid]> m end
       | None => m
       end.

Definition getAutoswitchMode (sys : system) : string :=
  if String.eqb (pid_text sys "autoswitch") "" then ""
  else match live_pid sys "autoswitch" with
       | Some pid => match cmdline_of sys pid with Some data => detect_mode (cmdline_text data) | None => "tun" end
       | None => ""
       end.

(** ** Which daemon a command on bypass lists addresses *)

Definition kernel_mode (d : ProfileDetails) : bool := String.eqb (Mode d) "tun" || String.eqb (Mode d) "raw".

Inductive bl_error := NoKernelProfile | UnknownProfile (p : string) | BadMode (m : string) | NoSocket (p : string).

Section bl.
(** The order in which Go visits a map. *)
Context (visit : gmap string ProfileDetails -> list (string * ProfileDetails)).

Definition kernel_entry (m : gmap string ProfileDetails) (p : string) : option ProfileDetails :=
  match m !! p with Some d => if kernel_mode d then Some d else None | None => None end.

Definition getCurrentBlFile (sys : system) : string :=
  let m := getRunningProfileDetails sys in
  let cur := autoswitch_current sys in
  let active := active_profile sys in
  match (if isDaemonRunning sys "autoswitch" && negb (String.eqb cur "") then kernel_entry m cur else None) with
  | Some d => BlackListFile d
  | None =>
      match (if negb (String.eqb active "") && negb (String.eqb active "autoswitch") then kernel_entry m active else None) with
      | Some d => BlackListFile d
      | None => match find (fun e => kernel_mode (snd e)) (visit m) with Some (_, d) => BlackListFile d | None => "" end
      end
  end.

Definition getBlFileForProfile (sys : system) (profile : string) : string :=
  if String.eqb profile "" then getCurrentBlFile sys
  else
    let m := getRunningProfileDetails sys in
    let from_state :=
      let s := split_of sys profile in
      if negb (String.eqb (s_blFile s) "") then s_blFile s
      else if negb (String.eqb (s_bl s) "") then ""
      else match find (fun e => negb (String.eqb (BlackListFile (snd e)) "")) (visit m) with Some (_, d) => BlackListFile d | None => "" end in
    match m !! profile with
    | Some d => if String.eqb (BlackListFile d) "" then from_state else BlackListFile d
    | None => from_state
    end.

(** The profile a command without an explicit one is for, and the daemon that owns its socket. *)
Definition kernel_target (sys : system) (m : gmap string ProfileDetails) : option (string * string) :=
  let cur := autoswitch_current sys in
  let active := active_profile sys in
  if isDaemonRunning sys "autoswitch" && negb (String.eqb cur "") && bool_decide (is_Some (kernel_entry m cur)) then Some ("autoswitch", cur)
  else if negb (String.eqb active "") && negb (String.eqb active "autoswitch") && bool_decide (is_Some (kernel_entry m active)) then Some (active, active)
  else match find (fun e => negb (String.eqb (fst e) "autoswitch") && kernel_mode (snd e)) (visit m) with
       | Some (name, _) => Some (name, name)
       | None => None
       end.

(** The socket's profile, the target and its mode. *)
Definition resolveBlSocket (sys : system) (explicitProfile : string) : result bl_error (string * string * string) :=
  let m := getRunningProfileDetails sys in
  let target :=
    if String.eqb explicitProfile "" then kernel_target sys m
    else Some (if isDaemonRunning sys "autoswitch" && String.eqb (autoswitch_current sys) explicitProfile then "autoswitch" else explicitProfile,
               explicitProfile) in
  match target with
  | None => Err NoKernelProfile
  | Some (sock, target) =>
      match m !! target with
      | None => Err (UnknownProfile target)
      | Some d =>
          if negb (existsb (String.eqb (Mode d)) ["tun"; "raw"; "socks"]) then Err (BadMode (Mode d))
          else if socket_there sys sock then Ok (sock, target, Mode d) else Err (NoSocket sock)
      end
  end.
End bl.

(** ** What is found *)

Lemma pid_profile_name p : p <> "" -> pid_profile ("qwdtt-" ++ p ++ ".pid") = Some p.
Proof.
  intros Hp. unfold pid_profile. rewrite has_prefix_app, trim_prefix_app.
  assert (has_suffix ".pid" ("qwdtt-" ++ p ++ ".pid") = true) as -> by (rewrite <- string_app_assoc; apply has_suffix_app).
  cbn [andb]. unfold trim_suffix. rewrite has_suffix_app, string_length_app, Nat.add_sub, stake_app.
  by destruct (String.eqb_spec p "").
Qed.

Lemma pid_profile_inv name p : pid_profile name = Some p -> name = "qwdtt-" ++ p ++ ".pid" /\ p <> "".
Proof.
  unfold pid_profile. destruct (has_suffix ".pid" name) eqn:Es; [| done]. destruct (has_prefix "qwdtt-" name) eqn:Ep; [| done].
  apply has_suffix_spec in Es as (v & ->). apply has_prefix_spec in Ep as (u & E).
  assert (exists w, v = "qwdtt-" ++ w) as (w & ->).
  { do 6 (destruct v as [| ? v]; [discriminate E |]). injection E as -> -> -> -> -> -> _. by exists v. }
  rewrite string_app_assoc, trim_prefix_app. unfold trim_suffix. rewrite has_suffix_app, string_length_app, Nat.add_sub, stake_app.
  cbn [andb]. destruct (String.eqb_spec w ""); [done |]. by intros [= ->].
Qed.

Lemma details_loop_lookup sys names m p :
  details_loop sys names m !! p =
  match (if decide (p ∈ omap pid_profile names) then profile_details sys p else None) with Some d => Some d | None => m !! p end.
Proof.
  revert m. induction names as [| name rest IH]; intros m; cbn [details_loop omap list_omap].
  { rewrite decide_False; [done | apply not_elem_of_nil]. }
  destruct (pid_profile name) as [q |]; rewrite IH; [| done]. destruct (decide (p = q)) as [-> | Hne].
  - rewrite (decide_True _ _ (P := q ∈ q :: _)) by (by left).
    destruct (decide _), (profile_details sys q) as [d |]; rewrite ?lookup_insert_eq; done.
  - assert (match profile_details sys q with Some d => <[q:=d]> m | None => m end !! p = m !! p) as ->
      by (destruct (profile_details sys q); [by rewrite lookup_insert_ne | done]).
    destruct (decide (p ∈ _)) as [Hp | Hp]; [rewrite decide_True by (by right); done |].
    rewrite decide_False; [done |]. by apply not_elem_of_cons.
Qed.

(** The profiles that are found running are those with a pid file of a live process whose command line can
    be read, with what it and the state file say, and the one autoswitch runs at the moment unless it has a
    daemon of its own. *)
Theorem running_details sys p d :
  let listed q := q <> "" /\ ("qwdtt-" ++ q ++ ".pid") ∈ pid_dir sys in
  getRunningProfileDetails sys !! p = Some d <->
  (listed p /\ profile_details sys p = Some d) \/
  (p <> "" /\ p = autoswitch_current sys /\ ~ (listed p /\ is_Some (profile_details sys p)) /\
   exists pid, live_pid sys "autoswitch" = Some pid /\ d = autoswitch_details sys pid).
Proof.
  cbv zeta. set (m := details_loop sys (pid_dir sys) ∅).
  assert (forall q, q ∈ omap pid_profile (pid_dir sys) <-> q <> "" /\ ("qwdtt-" ++ q ++ ".pid") ∈ pid_dir sys) as Hlisted.
  { intros q. rewrite list_elem_of_omap. split.
    - intros (x & Hx & Ex). apply pid_profile_inv in Ex as [-> Hq]. done.
    - intros [Hq Hx]. exists ("qwdtt-" ++ q ++ ".pid"). split; [done | by apply pid_profile_name]. }
  assert (forall q e, m !! q = Some e <-> (q <> "" /\ ("qwdtt-" ++ q ++ ".pid") ∈ pid_dir sys) /\ profile_details sys q = Some e) as Hm.
  { intros q e. unfold m. rewrite details_loop_lookup, lookup_empty. rewrite <- Hlisted.
    destruct (decide _); [destruct (profile_details sys q) |]; naive_solver. }
  unfold getRunningProfileDetails. fold m. rewrite <- Hm.
  assert (forall q, (q <> "" /\ ("qwdtt-" ++ q ++ ".pid") ∈ pid_dir sys) /\ is_Some (profile_details sys q) <-> is_Some (m !! q)) as Hsome.
  { intros q. split; [intros [Hq [e He]]; exists e; by apply Hm | intros [e He]; apply Hm in He as [Hq He]; by split]. }
  rewrite Hsome. destruct (String.eqb_spec (autoswitch_current sys) "") as [E | E]; [naive_solver |].
  destruct (live_pid sys "autoswitch") as [pid |]; [| naive_solver].
  destruct (m !! autoswitch_current sys) as [e |] eqn:Ec.
  - split; [by left | intros [Hd | (_ & -> & Hn & _)]; [done |]]. rewrite Ec in Hn. exfalso. by apply Hn.
  - destruct (decide (p = autoswitch_current sys)) as [-> | Hne].
    + rewrite lookup_insert_eq, Ec. split; [intros [= <-]; right; split; [done |]; split; [done |]; split; [by intros [? ?] | by exists pid] |].
      intros [? | (_ & _ & _ & pid' & [= <-] & ->)]; done.
    + rewrite lookup_insert_ne by done. naive_solver.
Qed.

Section targets.
Context (visit : gmap string ProfileDetails -> list (string * ProfileDetails)) (Hvisit : forall m, visit m ≡ₚ map_to_list m).

Lemma visit_elem m p d : (p, d) ∈ visit m <-> m !! p = Some d.
Proof. rewrite Hvisit. apply elem_of_map_to_list. Qed.

(** At most one profile has a kernel mode, besides the autoswitch daemon itself, which has a current profile. *)
Definition one_kernel (sys : system) : Prop :=
  let m := getRunningProfileDetails sys in
  (forall p q, is_Some (kernel_entry m p) -> is_Some (kernel_entry m q) -> p <> "autoswitch" -> q <> "autoswitch" -> p = q) /\
  (is_Some (kernel_entry m "autoswitch") -> is_Some (kernel_entry m (autoswitch_current sys)) /\ autoswitch_current sys <> "").

Lemma kernel_entry_running sys : is_Some (kernel_entry (getRunningProfileDetails sys) "autoswitch") -> autoswitch_current sys <> "autoswitch" ->
  isDaemonRunning sys "autoswitch" = true.
Proof.
  intros [d Hd] Hc. unfold kernel_entry in Hd. destruct (_ !! _) as [e |] eqn:E; [| done]. apply running_details in E.
  unfold isDaemonRunning. destruct E as [[_ E] | (_ & E & _)]; [| congruence]. unfold profile_details in E. by destruct (live_pid sys "autoswitch").
Qed.

Lemma target_choice sys s t :
  one_kernel sys -> autoswitch_current sys <> "autoswitch" ->
  kernel_target visit sys (getRunningProfileDetails sys) = Some (s, t) ->
  exists d, kernel_entry (getRunningProfileDetails sys) t = Some d /\ (s = t \/ (s = "autoswitch" /\ t = autoswitch_current sys)) /\
    getCurrentBlFile visit sys = BlackListFile d.
Proof.
  intros [Hone Hauto] Hcur. unfold kernel_target, getCurrentBlFile. set (m := getRunningProfileDetails sys) in *.
  set (first := isDaemonRunning sys "autoswitch" && _). set (second := negb (String.eqb (active_profile sys) "") && _).
  assert (forall (b : bool) x, (if b then kernel_entry m x else None) = if b && bool_decide (is_Some (kernel_entry m x)) then kernel_entry m x else None) as Hg.
  { intros [] x; [| done]. cbn [andb]. case_bool_decide as Hx; [done | by apply eq_None_not_Some]. }
  rewrite (Hg first), (Hg second). destruct (first && _) eqn:E1.
  { intros [= <- <-]. apply andb_true_iff in E1 as [_ [d Hd]%bool_decide_eq_true]. rewrite Hd. exists d. auto. }
  destruct (second && _) eqn:E2.
  { intros [= <- <-]. apply andb_true_iff in E2 as [_ [d Hd]%bool_decide_eq_true]. rewrite Hd. exists d. auto. }
  destruct (find (fun e => _ && _) (visit m)) as [[n d] |] eqn:Ef; [| done]. intros [= <- <-].
  apply find_some in Ef as [Hin Hk]. apply andb_true_iff in Hk as [Hn Hk]. cbn [fst snd] in Hn, Hk.
  apply list_elem_of_In, visit_elem in Hin.
  assert (kernel_entry m n = Some d) as Hd by (unfold kernel_entry; by rewrite Hin, Hk).
  exists d. split; [done |]. split; [by left |].
  destruct (find (fun e => kernel_mode (snd e)) (visit m)) as [[n' d'] |] eqn:Ef'.
  2: { pose proof (find_none _ _ Ef' (n, d)) as Hf. rewrite <- list_elem_of_In, visit_elem in Hf. specialize (Hf Hin). cbn in Hf. congruence. }
  apply find_some in Ef' as [Hin' Hk']. cbn in Hk'. apply list_elem_of_In, visit_elem in Hin'.
  assert (kernel_entry m n' = Some d') as Hd' by (unfold kernel_entry; by rewrite Hin', Hk').
  apply negb_true_iff, String.eqb_neq in Hn.
  destruct (decide (n' = "autoswitch")) as [-> | Hne].
  - exfalso. destruct Hauto as [Hc Hc']; [by exists d' |]. unfold first in E1. rewrite kernel_entry_running in E1 by (first [done | by exists d']).
    rewrite (proj2 (String.eqb_neq _ _)) in E1 by done. cbn [andb negb] in E1. by apply bool_decide_eq_false in E1.
  - assert (n = n') as <- by (apply Hone; eauto). congruence.
Qed.

(** A command on bypass lists without an explicit profile addresses a profile in a kernel mode, through the
    daemon that runs it, and the list it shows is that profile's, when there is no second kernel profile and
    autoswitch has a current profile if it runs in a kernel mode. *)
Theorem bl_target_agrees sys sock target md :
  one_kernel sys -> autoswitch_current sys <> "autoswitch" -> resolveBlSocket visit sys "" = Ok (sock, target, md) ->
  exists d, kernel_entry (getRunningProfileDetails sys) target = Some d /\ md = Mode d /\ socket_there sys sock = true /\
    (sock = target \/ (sock = "autoswitch" /\ target = autoswitch_current sys)) /\ getCurrentBlFile visit sys = BlackListFile d.
Proof.
  intros Hone Hcur. unfold resolveBlSocket. cbn [String.eqb].
  destruct (kernel_target visit sys _) as [[s t] |] eqn:Et; [| done].
  destruct (target_choice sys s t Hone Hcur Et) as (d & Hd & Hs & Hb).
  assert (getRunningProfileDetails sys !! t = Some d) as ->.
  { unfold kernel_entry in Hd. destruct (_ !! t) as [e |]; [| done]. by destruct (kernel_mode e). }
  destruct (negb _); [done |]. destruct (socket_there sys s) eqn:Ess; [| done]. intros [= <- <- <-]. exists d. auto.
Qed.
End targets.

(** ** A concrete system *)

Section example.
Definition argv (l : list string) : string := GoStrings.join "" ((fun a => a ++ String zero "") <$> l).

Definition no_split : split_state := {| s_bl := ""; s_blFile := ""; s_routes := []; s_mtime := 0; s_domains := [] |}.

(** Autoswitch runs the profile nl in raw mode, a SOCKS daemon runs home; the third pid file is stale. *)
Definition example_system (current : string) : system := {|
  pid_dir := ["qwdtt-autoswitch.log"; "qwdtt-autoswitch.pid"; "qwdtt-home.pid"; "qwdtt-old.pid"];
  pid_text := fun p => if String.eqb p "autoswitch" then "101" else if String.eqb p "home" then "102" else if String.eqb p "old" then "99" else "";
  alive := fun pid => 100 <? pid;
  cmdline_of := fun pid => Some (argv (if pid =? 101 then ["qwdtt"; "con"; "--auto-switch"; "-mode=raw"; "-bl-file"; "/etc/bl.json"]
    else ["qwdtt"; "con"; "home"; "-mode"; "socks"; "-socks-port"; "1080"; "--listen=10.0.0.2"; "-bl"; "ya.ru"]));
  split_of := fun p => if String.eqb p "nl" then {| s_bl := ""; s_blFile := "/home/u/nl.json"; s_routes := []; s_mtime := 7; s_domains := ["a"] |} else no_split;
  autoswitch_current := current; active_profile := "autoswitch"; socket_there := fun _ => true
|}.

Example home_details : (fun d => (Mode d, SocksPort d, SocksListenAddr d, BlackList d, PID d)) <$> getRunningProfileDetails (example_system "nl") !! "home"
  = Some ("socks", 1080, "10.0.0.2", "ya.ru", 102).
Proof. by vm_compute. Qed.

(** An argument with several words is cut at the first. *)
Example spaces_lost : BlackList (cmdline_details 1 (argv ["qwdtt"; "con"; "home"; "-bl"; "ya.ru vk.com"])) = "ya.ru".
Proof. by vm_compute. Qed.

(** The flag package accepts a single dash before every option, the search for the long names does not. *)
Example single_dash_missed : BlackList (cmdline_details 1 (argv ["qwdtt"; "con"; "home"; "-black-list"; "ya.ru"])) = "".
Proof. by vm_compute. Qed.

(** Without a current profile the list of the autoswitch daemon is shown, but no daemon is addressed. *)
Example autoswitch_without_current : let sys := example_system "" in
  getCurrentBlFile map_to_list sys = "/etc/bl.json" /\ resolveBlSocket map_to_list sys "" = Err NoKernelProfile.
Proof. by vm_compute. Qed.

Lemma example_one_kernel : one_kernel (example_system "nl").
Proof.
  assert (forall p, is_Some (kernel_entry (getRunningProfileDetails (example_system "nl")) p) -> p = "autoswitch" \/ p = "nl") as Hk.
  { intros p [d Hd]. unfold kernel_entry in Hd. destruct (_ !! p) as [e |] eqn:E; [| done].
    apply running_details in E. destruct E as [[[Hne Hp] E] | (_ & -> & _)]; [| by right].
    repeat (apply elem_of_cons in Hp as [Hp | Hp]); try (by apply elem_of_nil in Hp);
      apply (f_equal pid_profile) in Hp; rewrite pid_profile_name in Hp by exact Hne; vm_compute in Hp; try discriminate Hp;
      injection Hp as ->; vm_compute in E; try discriminate E; injection E as <-; [by left | discriminate Hd]. }
  split.
  - intros p q Hp%Hk Hq%Hk. naive_solver.
  - intros _. split; [vm_compute; by eexists | discriminate].
Qed.

Lemma bl_target_agrees_witness : exists d,
  resolveBlSocket map_to_list (example_system "nl") "" = Ok ("autoswitch", "nl", "raw") /\ getCurrentBlFile map_to_list (example_system "nl") = BlackListFile d.
Proof.
  assert (resolveBlSocket map_to_list (example_system "nl") "" = Ok ("autoswitch", "nl", "raw")) as E by (by vm_compute).
  destruct (bl_target_agrees map_to_list (fun m => reflexivity _) (example_system "nl") "autoswitch" "nl" "raw" example_one_kernel ltac:(done) E)
    as (d & _ & _ & _ & _ & H).
  exists d. split; [exact E | exact H].
Defined.

Lemma running_details_witness : getRunningProfileDetails (example_system "nl") !! "nl" = Some (autoswitch_details (example_system "nl") 101).
Proof.
  apply running_details. right. split; [done |]. split; [done |]. split; [| by exists 101].
  intros [[_ Hp] _]. repeat (apply elem_of_cons in Hp as [Hp | Hp]; [discriminate Hp |]). by apply elem_of_nil in Hp.
Defined.
End example.
