(* ===== verification/Commands.v ===== *)
(** * The commands that change profiles (commands.go): add, edit, remove, move, enable, disable, device-id.

    A command is a function of its arguments and of the files.  Its result is what it reports for each
    profile, or why it does not start; the texts printed are not modelled.  [os.Exit] and [log.Fatalf] are
    results, the exit status is a function of the result. *)

From S2P Require Import Prelude GoStrings Chars Links Effects Profiles Subscription Targets Flags.
From S2P Require Running.
From Stdlib Require Import ZArith Lia String Ascii.
From stdpp Require Import base list strings gmap.
Open Scope string_scope.
Open Scope Z_scope.

(** ** Reports *)

Inductive report :=
| ReadOnly | Unloadable (e : profile_error) | BadWorkers (e : workers_error) | ManagedBy (subscription : string)
| GroupsOfSubscriptions (groups : list string) | NothingChanged | NotSaved (e : profile_error) | NotRemoved | NotSwitched
| Updated | Removed | Switched | AlreadySo.

Definition failed (r : report) : bool :=
  match r with NothingChanged | Updated | Removed | Switched | AlreadySo => false | _ => true end.

(** Why a command ends before it does anything. *)
Inductive refusal :=
| BadFlags (e : parse_error) | Usage | NoParameters | NoTargets | Cancelled | NotReadOnly (name : string) | NotManaged (name : string)
| NoSubscriptionProfiles | SameNames | ReadOnlyName | Managed (subscription : string) | Missing (name : string) | Exists (name : string)
| StillRunning (name : string) | Failed (e : profile_error) | BadLink (e : link_error) (hint : bool) | BadLength (n : nat) | NotHex | NotWritten.

Definition reports := list (string * report).

(** The status that a command exits with. *)
Definition exit_status {A} (bad : A -> bool) (r : result refusal A) : Z :=
  match r with
  | Ok a => if bad a then 1 else 0
  | Err Cancelled => 0
  | Err (BadFlags HelpWanted) => 0
  | Err (BadFlags _) => 2
  | Err _ => 1
  end.
Definition any_failed (l : reports) : bool := existsb (fun x => failed (snd x)) l.

Abbreviation Command A := (Files (result refusal A)).

Section commands.
Context `{Unicode} `{Disk}.

Definition refuse {A} (e : refusal) : Command A := mret (Err e).
Definition andThen {A B} (m : Command A) (f : A -> Command B) : Command B :=
  r ← m; match r with Ok a => f a | Err e => refuse e end.
Definition with_line {A} (flags : list (string * kind)) (args : list string) (f : list (string * string) -> list string -> Command A) : Command A :=
  match command_line flags args with Ok (l, names) => f l names | Err e => refuse (BadFlags e) end.

(** The loop over the profiles of a command. *)
Fixpoint each (op : string -> Files report) (names : list string) : Files reports :=
  match names with
  | [] => mret []
  | n :: rest => r ← op n; more ← each op rest; mret ((n, r) :: more)
  end.

Definition run_each (op : string -> Files report) (names : list string) : Command reports := l ← each op names; mret (Ok l).

(** ** Adding *)

Definition add_flags : list (string * kind) := [("device-id", StringFlag)].

(** The name and the URL of the arguments behind the command; [fs.Parse] stops at the first argument that is no flag. *)
Definition add_arguments (args : list string) : result refusal (string * string * string) :=
  match (match args with
         | _ :: (_ :: _) as rest => Parse (formal_of add_flags) (accepts_of add_flags) rest
         | _ => Ok ([], [])
         end) with
  | Err e => Err (BadFlags e)
  | Ok (l, rest) =>
      let r :=
        match args with
        | a :: others =>
            if is_link a then Ok ("", a)
            else match others with [] => Err Usage | _ => Ok (a, nth 0 rest "") end
        | [] => Err Usage
        end in
      '(name, rawURL) ← r;
      fail_if String.eqb rawURL "" with Usage ;; Ok (name, rawURL, setting "device-id" l)
  end.

(** The profile of a link. *)
Definition link_profile (link : WdttLink) (devID : string) (groups : list string) : ProfileData :=
  {| PeerAddr := IP link ++ ":" ++ DTLSPort link; Profiles.Password := Links.Password link; Profiles.Hashes := Links.Hashes link;
     Listen := "127.0.0.1:" ++ (if String.eqb (Port link) "" then defaultListenPort else Port link);
     TurnHost := ""; TurnPort := ""; Profiles.Workers := if Links.Workers link <=? 0 then defaultWorkers else Links.Workers link;
     DeviceID := devID; Priority := 0; LinkFile := ""; Groups := groups; Subscription := "" |}.

(** The name that a profile is added under: the one given, or that of the link. *)
Definition add_name (name : string) (link : WdttLink) : option string :=
  if String.eqb name "" then
    if String.eqb (Name link) "" || String.eqb (Name link) "Server" then None else Some (transliterateCyrillic (Name link))
  else Some (transliterateCyrillic name).

Definition addCmd (args : list string) : Command (string * bool) :=
  match add_arguments args with
  | Err e => refuse e
  | Ok (name, rawURL, deviceID) =>
      match parseLinkWithHint rawURL with
      | Err (e, hint) => refuse (BadLink e hint)
      | Ok link =>
          match add_name name link with
          | None => refuse Usage
          | Some name =>
              devID ← (if String.eqb deviceID "" then getOrCreateDeviceID else mret deviceID);
              existing ← loadProfile name;
              let groups := match existing with Ok p => Groups p | Err _ => [] end in
              s ← saveProfile name (link_profile link devID groups);
              mret (match s with Ok _ => Ok (name, is_ok existing) | Err e => Err (Failed e) end)
          end
      end
  end.

(** ** Editing *)

Definition edit_flags : list (string * kind) :=
  [("peer", StringFlag); ("password", StringFlag); ("hashes", StringFlag); ("device-id", StringFlag); ("listen", StringFlag);
   ("priority", IntFlag); ("workers", IntFlag); ("groups", StringFlag); ("group", StringFlag)].

Record edit_options := {
  e_peer : string; e_password : string; e_hashes : string; e_deviceID : string; e_listen : string;
  e_priority : Z; e_workers : Z; e_groups : option string
}.

Definition edit_options_of (l : list (string * string)) : edit_options :=
  {| e_peer := setting "peer" l; e_password := setting "password" l; e_hashes := setting "hashes" l; e_deviceID := setting "device-id" l;
     e_listen := setting "listen" l; e_priority := number "priority" (-1) l; e_workers := number "workers" (-1) l;
     e_groups := if given "groups" l then Some (setting "groups" l) else None |}.

Definition or_old (v old : string) : string := if String.eqb v "" then old else v.

(** The fields before the groups, and whether any of them is given. *)
Definition edit_fields (o : edit_options) (p : ProfileData) : ProfileData :=
  {| PeerAddr := or_old (e_peer o) (PeerAddr p); Profiles.Password := or_old (e_password o) (Profiles.Password p);
     Profiles.Hashes := if String.eqb (e_hashes o) "" then Profiles.Hashes p else split_hashes (e_hashes o);
     Listen := or_old (e_listen o) (Listen p); TurnHost := TurnHost p; TurnPort := TurnPort p;
     Profiles.Workers := if e_workers o =? -1 then Profiles.Workers p else e_workers o;
     DeviceID := or_old (e_deviceID o) (DeviceID p); Priority := if e_priority o =? -1 then Priority p else e_priority o;
     LinkFile := LinkFile p; Groups := Groups p; Subscription := Subscription p |}.

Definition fields_given (o : edit_options) : bool :=
  existsb (fun v => negb (String.eqb v "")) [e_peer o; e_password o; e_hashes o; e_deviceID o; e_listen o] ||
  negb (e_priority o =? -1) || negb (e_workers o =? -1).

(** The groups of a list, without empty ones and "none". *)
Definition group_list (val : string) : list string :=
  filter (fun g => g <> "" /\ g <> "none") (trim_space <$> split_on "," val).

(** The groups that the flag asks for; those of subscriptions are refused. *)
Definition new_groups (is_sub : string -> bool) (val : string) : result report (list string) :=
  let val := trim_space val in
  if String.eqb val "" || String.eqb val "none" then Ok []
  else
    match filter (fun g => is_sub g = true) (group_list val) with
    | [] => Ok (group_list val)
    | blocked => Err (GroupsOfSubscriptions blocked)
    end.

(** What is to be saved, or what is reported instead. *)
Definition edit_profile (o : edit_options) (is_sub : string -> bool) (p : ProfileData) : result report ProfileData :=
  match (if e_workers o =? -1 then None else validateWorkers (e_workers o)) with
  | Some e => Err (BadWorkers e)
  | None =>
      let p' := edit_fields o p in
      match e_groups o with
      | Some val =>
          if negb (String.eqb (Subscription p') "") then Err (ManagedBy (Subscription p'))
          else match new_groups is_sub val with Ok gs => Ok (with_groups gs p') | Err e => Err e end
      | None => if fields_given o then Ok p' else Err NothingChanged
      end
  end.

(** What becomes of a profile, from the files at the moment. *)
Definition edit_verdict (o : edit_options) (name : string) : Files (result report ProfileData) :=
  if read_only name then mret (Err ReadOnly)
  else
    r ← loadProfile name;
    match r with
    | Err e => mret (Err (Unloadable e))
    | Ok p => gets (fun m => edit_profile o (fun g => (isSubscriptionName g m).1) p)
    end.

Definition edit_one (o : edit_options) (name : string) : Files report :=
  v ← edit_verdict o name;
  match v with
  | Err r => mret r
  | Ok p => s ← saveProfile name p; mret (match s with Ok _ => Updated | Err e => NotSaved e end)
  end.

Definition editCmd (args : list string) : Command reports :=
  with_line edit_flags args (fun l names =>
    names ← collectTargets (setting "group" l) names;
    match names, l with
    | [], _ => refuse Usage
    | _, [] => refuse NoParameters
    | _, _ => run_each (edit_one (edit_options_of l)) names
    end).

(** ** Removing *)

Definition remove_flags : list (string * kind) := [("group", StringFlag); ("y", BoolFlag); ("yes", BoolFlag)].

(** Why a profile is not removed. *)
Definition not_removable (name : string) : Files (option report) :=
  if read_only name then mret (Some ReadOnly)
  else
    r ← loadProfile name;
    mret (match r with Ok p => if String.eqb (Subscription p) "" then None else Some (ManagedBy (Subscription p)) | Err _ => None end).

(** The profiles to remove, and the reports on the others. *)
Fixpoint removable (names : list string) : Files (list string * reports) :=
  match names with
  | [] => mret ([], [])
  | n :: rest =>
      r ← not_removable n;
      more ← removable rest;
      mret (match r with None => (n :: fst more, snd more) | Some r => (fst more, (n, r) :: snd more) end)
  end.

Definition remove_one (name : string) : Files report :=
  b ← unlink (profilePath name); mret (if b : bool then Removed else NotRemoved).

(** Whether the answer at the prompt agrees. *)
Definition agrees (answer : string) : bool :=
  let a := to_lower (trim_space answer) in String.eqb a "y" || String.eqb a "yes".

(** The reports of the filter do not count for the exit status once a profile is left. *)
Definition removeCmd (args : list string) (answer : string) : Command (reports * reports) :=
  with_line remove_flags args (fun l names =>
    names ← collectTargets (setting "group" l) names;
    f ← removable names;
    match fst f with
    | [] => refuse NoTargets
    | _ =>
        if switches ["y"; "yes"] l || agrees answer then
          rs ← each remove_one (fst f); mret (Ok (snd f, rs))
        else refuse Cancelled
    end).

(** ** Renaming *)

Definition moveCmd (sys : Running.system) (args : list string) : Command unit :=
  match Parse (formal_of []) (accepts_of []) args with
  | Err e => refuse (BadFlags e)
  | Ok (_, [oldName; newName]) =>
      if String.eqb oldName newName then refuse SameNames
      else if read_only oldName || read_only newName then refuse ReadOnlyName
      else
        r ← loadProfile oldName;
        match r with
        | Ok p => if negb (String.eqb (Subscription p) "") then refuse (Managed (Subscription p)) else mret (Ok tt)
        | Err _ => mret (Ok tt)
        end ≫= fun managed =>
        match managed with
        | Err e => refuse e
        | Ok _ =>
            found ← stat (profilePath oldName);
            taken ← stat (profilePath newName);
            if negb found then refuse (Missing oldName)
            else if taken : bool then refuse (Exists newName)
            else if Running.isDaemonRunning sys oldName then refuse (StillRunning oldName)
            else s ← renameProfile oldName newName; mret (match s with Ok _ => Ok tt | Err e => Err (Failed e) end)
        end
  | Ok _ => refuse Usage
  end.

(** ** Enabling and disabling *)

Definition switch_flags : list (string * kind) := [("group", StringFlag); ("ro", BoolFlag); ("sub", BoolFlag)].

(** The first profile that no subscription manages. *)
Fixpoint unmanaged (names : list string) : Files (option string) :=
  match names with
  | [] => mret None
  | n :: rest =>
      r ← loadProfile n;
      match r with
      | Ok p => if String.eqb (Subscription p) "" then mret (Some n) else unmanaged rest
      | Err _ => mret (Some n)
      end
  end.

(** The profiles that [enable] and [disable] are for. *)
Definition switch_targets (l : list (string * string)) (names : list string) : Command (list string) :=
  let ro := switch "ro" l in
  let sub := switch "sub" l in
  let group := setting "group" l in
  names ← (if ro && (length names =? 0)%nat && String.eqb group "" && negb sub then listReadOnlyProfileNames else mret names);
  let of_subs := sub && (length names =? 0)%nat && String.eqb group "" in
  names ← (if of_subs then profilesInAllSubscriptions else mret names);
  if of_subs && (length names =? 0)%nat then refuse NoSubscriptionProfiles
  else
    names ← collectTargets group names;
    match (if ro then find (fun n => negb (read_only n)) names else None) with
    | Some n => refuse (NotReadOnly n)
    | None =>
        bad ← (if sub then unmanaged names else mret None);
        match bad with
        | Some n => refuse (NotManaged n)
        | None => if (length names =? 0)%nat then refuse Usage else mret (Ok names)
        end
    end.

Definition switch_one (on : bool) (name : string) : Files report :=
  r ← loadProfile name;
  match r with
  | Err e => mret (Unloadable e)
  | Ok _ =>
      b ← isProfileEnabled name;
      if Bool.eqb b on then mret AlreadySo
      else s ← setProfileEnabled name on; mret (if s : bool then Switched else NotSwitched)
  end.

Definition switchCmd (on : bool) (args : list string) : Command reports :=
  with_line switch_flags args (fun l names => andThen (switch_targets l names) (run_each (switch_one on))).

Definition enableCmd : list string -> Command reports := switchCmd true.
Definition disableCmd : list string -> Command reports := switchCmd false.

(** ** The device identifier *)

Definition is_hex (c : ascii) : bool := match hex_val c with Some d => d <? 16 | None => false end.

(** The identifier that an argument sets. *)
Definition device_id_of (arg : string) : result refusal string :=
  let newID := trim_space arg in
  if negb (String.length newID =? 16)%nat then Err (BadLength (String.length newID))
  else if negb (all_of is_hex newID) then Err NotHex
  else Ok (to_lower newID).

(** The old identifier and the new one; without an argument the current one is shown. *)
Definition deviceIDCmd (args : list string) : Command (string * string) :=
  match args with
  | [] =>
      t ← read_text DevicePath;
      let id := from_option trim_space "" t in
      if String.eqb id "" then refuse Usage else mret (Ok (id, id))
  | a :: _ =>
      match device_id_of a with
      | Err e => refuse e
      | Ok newID =>
          old ← read_text DevicePath;
          b ← write DevicePath (Text newID);
          if b : bool then mret (Ok (from_option trim_space "" old, newID)) else refuse NotWritten
      end
  end.

Definition regenerateIDCmd : Command (string * string) :=
  old ← read_text DevicePath;
  newID ← gets random_id;
  b ← write DevicePath (Text newID);
  if b : bool then mret (Ok (from_option trim_space "" old, newID)) else refuse NotWritten.
End commands.

(** ** Loops over profiles *)

Section loops.
Context `{Unicode} `{Disk}.

(** What a step reads for a profile is not changed by the steps for others: then each profile is treated
    as the first would be. *)
Section independent.
Context (op : string -> Files report) (same : string -> fs -> fs -> Prop)
  (same_refl : forall n m, same n m m) (same_trans : forall n a b c, same n a b -> same n b c -> same n a c)
  (others : forall k n m, k <> n -> same n m (op k m).2)
  (own : forall n m m', same n m m' -> (op n m').1 = (op n m).1).

Lemma each_step n rest m :
  (each op (n :: rest) m).1 = (n, (op n m).1) :: (each op rest (op n m).2).1 /\ (each op (n :: rest) m).2 = (each op rest (op n m).2).2.
Proof. cbn [each]. by rewrite !run_bind. Qed.

Lemma each_others names n m : n ∉ names -> same n m (each op names m).2.
Proof.
  revert m. induction names as [| k names IH]; intros m Hn; [apply same_refl |].
  apply not_elem_of_cons in Hn as [Hk Hn]. rewrite (proj2 (each_step _ _ _)). eapply same_trans; [by apply others, not_eq_sym | by apply IH].
Qed.

Lemma each_runs names m : NoDup names ->
  (each op names m).1 = (fun n => (n, (op n m).1)) <$> names /\
  forall n, n ∈ names -> exists m1, same n m m1 /\ same n (op n m1).2 (each op names m).2.
Proof.
  intros Hnd. revert m. induction Hnd as [| k names Hk Hnd IH]; intros m; [split; [done | intros n Hn; by apply elem_of_nil in Hn] |].
  destruct (each_step k names m) as [E1 E2]. rewrite E1, E2. destruct (IH (op k m).2) as [IH1 IH2]. split.
  - rewrite IH1. cbn [fmap list_fmap]. f_equal. apply list_fmap_ext. intros i n Hn. f_equal. apply own, others.
    intros ->. by apply Hk, list_elem_of_lookup_2 with i.
  - intros n Hn. apply elem_of_cons in Hn as [-> | Hn].
    + exists m. split; [apply same_refl | by apply each_others].
    + destruct (IH2 n Hn) as (m1 & H1 & H2). exists m1. split; [| done]. eapply same_trans; [| done]. apply others. by intros ->.
Qed.
End independent.

Lemma names_of_reports (f : string -> report) (names : list string) : fst <$> ((fun n => (n, f n)) <$> names) = names.
Proof. induction names as [| n names IH]; [done |]. cbn [fmap list_fmap fst]. f_equal. exact IH. Qed.

(** Steps that leave a path alone. *)
Lemma each_keeps (P : fs -> Prop) op names : (forall n, n ∈ names -> keeps P (op n)) -> keeps P (each op names).
Proof.
  induction names as [| n names IH]; intros Hop; cbn [each]; [apply keeps_ret |].
  apply keeps_bind; [apply Hop; by left |]. intros r. apply keeps_bind; [apply IH; intros k Hk; apply Hop; by right |]. intros ?. apply keeps_ret.
Qed.

(** ** Editing *)

(** What an edit of a profile reads: its file, the link files and the names of the subscriptions. *)
Definition edit_same (n : string) (m m' : fs) : Prop := untouched n m m' /\ forall s, m' !! SubscriptionPath s = m !! SubscriptionPath s.

Lemma edit_same_refl n m : edit_same n m m.
Proof. done. Qed.
Lemma edit_same_trans n a b c : edit_same n a b -> edit_same n b c -> edit_same n a c.
Proof. intros [[A1 A2] A3] [[B1 B2] B3]. split; [split |]; [congruence | intros u; by rewrite B2 | intros s; by rewrite B3]. Qed.

Lemma verdict_reads o n : reads (edit_verdict o n).
Proof. unfold edit_verdict. destruct (read_only n); [done |]. apply reads_bind; [apply load_reads |]. by intros [p | e]. Qed.

Lemma edit_profile_ext o f g p : (forall x, f x = g x) -> edit_profile o f p = edit_profile o g p.
Proof.
  intros Hfg. unfold edit_profile. destruct (if _ =? _ then _ else _); [done |]. destruct (e_groups o) as [val |]; [| done].
  destruct (negb _); [done |]. unfold new_groups. destruct (_ || _); [done |].
  by rewrite (list_filter_iff (fun x => f x = true) (fun x => g x = true)) by (intros x; by rewrite Hfg).
Qed.

Lemma verdict_same o n m m' : edit_same n m m' -> (edit_verdict o n m').1 = (edit_verdict o n m).1.
Proof.
  intros [Hu Hs]. unfold edit_verdict. destruct (read_only n); [done |]. rewrite !reads_run by apply load_reads.
  rewrite (untouched_load _ _ _ Hu). destruct (loadProfile n m).1 as [p | e]; [| done]. cbn [gets fst].
  apply edit_profile_ext. intros x. unfold isSubscriptionName, stat. cbn [gets fst]. by rewrite Hs.
Qed.

(** Only profiles that may be saved are. *)
Lemma verdict_writable o n m p : (edit_verdict o n m).1 = Ok p -> read_only n = false.
Proof. unfold edit_verdict. by destruct (read_only n). Qed.

Lemma edit_one_other o k q m : q <> profilePath k -> q <> DevicePath -> (edit_one o k m).2 !! q = m !! q.
Proof.
  intros Hq Hd. unfold edit_one. rewrite reads_run by apply verdict_reads. destruct (edit_verdict o k m).1 as [p | e]; [| done].
  rewrite run_bind. cbn [snd mret State_ret]. by apply save_other.
Qed.

Lemma path_not_sub n s : profilePath n <> SubscriptionPath s.
Proof. unfold profilePath. by destruct (read_only n). Qed.

Lemma edit_one_same o k n m : k <> n -> edit_same n m (edit_one o k m).2.
Proof.
  intros Hk. split; [split |].
  - apply edit_one_other; [| apply profilePath_not_state]. intros E. by apply profilePath_inj in E.
  - intros u. apply edit_one_other; [| done]. apply not_eq_sym, path_not_user.
  - intros s. apply edit_one_other; [| done]. apply not_eq_sym, path_not_sub.
Qed.
End loops.

Section edit.
Context `{Unicode} `{Disk} (Hwrite : forall m p f, can_write m p f = true).

Lemma save_ok n p m : read_only n = false -> exists id, (DeviceID p <> "" -> id = DeviceID p) /\
  (saveProfile n p m).1 = Ok tt /\ (saveProfile n p m).2 !! profilePath n = Some (ProfileFile (add_group (with_device id p))).
Proof.
  intros Hn. exists (saved_id p m). split; [| split].
  - unfold saved_id. destruct (String.eqb_spec (DeviceID p) ""); done.
  - unfold saveProfile. rewrite Hn, !run_bind, write_run by done. done.
  - destruct (saveProfile n p m) as [r m'] eqn:E. cbn [snd]. apply save_result.
    assert (r = Ok tt) as ->; [| done]. apply (f_equal fst) in E. cbn [fst] in E. rewrite <- E. unfold saveProfile. by rewrite Hn, !run_bind, write_run.
Qed.

Lemma edit_one_report o n m : (edit_one o n m).1 = match (edit_verdict o n m).1 with Err r => r | Ok _ => Updated end.
Proof.
  unfold edit_one. rewrite reads_run by apply verdict_reads. destruct (edit_verdict o n m).1 as [p | e] eqn:E; [| done].
  rewrite run_bind. destruct (save_ok n p m (verdict_writable _ _ _ _ E)) as (id & _ & -> & _). done.
Qed.

Lemma edit_one_own o n m m' : edit_same n m m' -> (edit_one o n m').1 = (edit_one o n m).1.
Proof. intros Hs. by rewrite !edit_one_report, (verdict_same o n m m' Hs). Qed.

(** What an edit leaves of a profile. *)
Definition edited_to (o : edit_options) (n : string) (m m' : fs) : Prop :=
  match (edit_verdict o n m).1 with
  | Ok p => exists id, (DeviceID p <> "" -> id = DeviceID p) /\ m' !! profilePath n = Some (ProfileFile (add_group (with_device id p)))
  | Err _ => m' !! profilePath n = m !! profilePath n
  end.

Lemma edit_one_file o n m : edited_to o n m (edit_one o n m).2.
Proof.
  unfold edited_to, edit_one. rewrite (reads_run (edit_verdict o n)) by apply verdict_reads.
  destruct (edit_verdict o n m).1 as [p | e] eqn:E; [| done]. rewrite run_bind.
  destruct (save_ok n p m (verdict_writable _ _ _ _ E)) as (id & Hid & _ & Hf). by exists id.
Qed.

(** An edit treats every target as if it were alone: each is reported once, in order; a profile whose edit
    is refused keeps its file, the others hold what the flags give over what was there; and nothing else is
    written but the device identifier. *)
Theorem edit_each args m rs m' : editCmd args m = (Ok rs, m') ->
  exists l pos, command_line edit_flags args = Ok (l, pos) /\ l <> [] /\
    let o := edit_options_of l in
    let names := (collectTargets (setting "group" l) pos m).1 in
    rs = (fun n => (n, match (edit_verdict o n m).1 with Err r => r | Ok _ => Updated end)) <$> names /\
    (forall n, n ∈ names -> edited_to o n m m') /\
    (forall q, q <> DevicePath -> (forall n, n ∈ names -> q <> profilePath n) -> m' !! q = m !! q).
Proof.
  unfold editCmd, with_line. destruct (command_line edit_flags args) as [[l pos] | e]; [| done].
  rewrite reads_run by apply targets_reads. pose proof (targets_nodup (setting "group" l) pos m) as Hnd.
  intros Hrun. exists l, pos. split; [done |]. destruct (collectTargets _ _ m).1 as [| n0 names0] eqn:En; [done |]. destruct l as [| s l]; [done |].
  split; [done |]. cbv zeta. remember (n0 :: names0) as names eqn:Enames. remember (edit_options_of (s :: l)) as o eqn:Eo. clear En Enames Eo.
  unfold run_each in Hrun. rewrite run_bind in Hrun. injection Hrun as <- <-.
  destruct (each_runs (edit_one o) edit_same edit_same_refl edit_same_trans (edit_one_same o) (edit_one_own o) names m Hnd) as [Hr Hf].
  split; [| split].
  - rewrite Hr. apply list_fmap_ext. intros i n _. by rewrite edit_one_report.
  - intros n Hn. destruct (Hf n Hn) as (m1 & H1 & [[E _] _]). pose proof (edit_one_file o n m1) as Hfile. unfold edited_to in *.
    rewrite (verdict_same o n m m1 H1) in Hfile. rewrite E. destruct (edit_verdict o n m).1; [done |]. rewrite Hfile. by destruct H1 as [[-> _] _].
  - intros q Hd Hq. cut (keeps (fun m' => m' !! q = m !! q) (each (edit_one o) names)); [intros Hk; by apply Hk |].
    apply each_keeps. intros n Hn m1 <-. apply edit_one_other; auto.
Qed.
End edit.

(** ** Removing *)

Section remove.
Context `{Unicode} `{Disk}.

Lemma not_removable_reads n : reads (not_removable n).
Proof. unfold not_removable. destruct (read_only n); [done |]. apply reads_bind; [apply load_reads |]. done. Qed.

Lemma removable_value names m :
  removable names m = ((filter (fun n => (not_removable n m).1 = None) names,
    omap (fun n => (fun r => (n, r)) <$> (not_removable n m).1) names), m).
Proof.
  induction names as [| n names IH]; [done |]. cbn [removable]. rewrite reads_run by apply not_removable_reads. rewrite run_bind, IH. cbn [fst snd mret State_ret].
  destruct (not_removable n m).1 as [r |] eqn:E; cbn [omap list_omap fmap option_fmap option_map]; rewrite filter_cons, E; cbn; done.
Qed.

Lemma remove_one_result n m : (forall m p, can_remove m p = true) ->
  (remove_one n m).1 = (if decide (is_Some (m !! profilePath n)) then Removed else NotRemoved) /\ (remove_one n m).2 = delete (profilePath n) m.
Proof.
  intros Hrm. unfold remove_one, unlink. rewrite run_bind. destruct (m !! profilePath n) as [f |] eqn:E; cbn [fst snd mret State_ret].
  - rewrite Hrm. cbn [fst snd]. split; [| done]. by rewrite decide_True.
  - split; [by rewrite decide_False by (by intros [? ?]) | by rewrite delete_id].
Qed.

Definition unlinked (names : list string) (m : fs) : fs := foldl (fun m n => delete (profilePath n) m) m names.

Lemma unlinked_lookup names m q : unlinked names m !! q = if decide (q ∈ profilePath <$> names) then None else m !! q.
Proof.
  revert m. induction names as [| n names IH]; intros m; [done |]. cbn [unlinked foldl fmap list_fmap]. fold (unlinked names (delete (profilePath n) m)). rewrite IH.
  destruct (decide (q = profilePath n)) as [-> | Hq].
  - rewrite lookup_delete_eq. destruct (decide _), (decide _); set_solver.
  - rewrite lookup_delete_ne by done. destruct (decide _), (decide _); set_solver.
Qed.

Lemma remove_all_run names m : (forall m p, can_remove m p = true) -> (each remove_one names m).2 = unlinked names m.
Proof.
  intros Hrm. revert m. induction names as [| n names IH]; intros m; [done |]. rewrite (proj2 (each_step _ _ _ _)), IH. by rewrite (proj2 (remove_one_result n m Hrm)).
Qed.

(** A profile of the user's own: no read-only name, and if its file can be read, no subscription in it. *)
Definition own_profile (n : string) (m : fs) : Prop :=
  has_prefix "ro-" n = false /\ forall p, (loadProfile n m).1 = Ok p -> Subscription p = "".

Lemma not_removable_none n m : (not_removable n m).1 = None <-> own_profile n m.
Proof.
  unfold not_removable, own_profile, read_only. destruct (has_prefix "ro-" n); [split; [done | by intros [? _]] |].
  rewrite reads_run by apply load_reads. cbn [fst mret State_ret]. destruct (loadProfile n m).1 as [p | e]; [| by split; [split |]].
  destruct (String.eqb_spec (Subscription p) "") as [E | E]; split; try done.
  - intros _. split; [done |]. by intros p' [= <-].
  - intros [_ Hp]. by specialize (Hp p eq_refl).
Qed.

(** C27: when files can be removed, a confirmed removal deletes exactly the files of the targets that are the user's
    own, neither read-only by their names nor managed by a subscription; one that is not confirmed changes nothing.
    The status of a removed profile stays, so that a profile added later under its name is disabled if it was. *)
Theorem remove_exactly args answer m : (forall m p, can_remove m p = true) ->
  let r := removeCmd args answer m in
  match r.1 with
  | Ok _ => exists l pos, command_line remove_flags args = Ok (l, pos) /\ (switches ["y"; "yes"] l = true \/ agrees answer = true) /\
      let gone n := n ∈ (collectTargets (setting "group" l) pos m).1 /\ own_profile n m in
      (forall n, gone n -> r.2 !! profilePath n = None) /\ (forall q, (forall n, gone n -> q <> profilePath n) -> r.2 !! q = m !! q)
  | Err _ => r.2 = m
  end /\ forall n, (isProfileEnabled n r.2).1 = (isProfileEnabled n m).1.
Proof.
  intros Hrm. cbv zeta. unfold removeCmd, with_line. destruct (command_line remove_flags args) as [[l pos] | e]; [| done].
  rewrite reads_run by apply targets_reads. remember (collectTargets (setting "group" l) pos m).1 as names eqn:En.
  rewrite run_bind, removable_value. cbn [fst snd]. destruct (filter _ names) as [| n0 rest0] eqn:Ef; [done |]. rewrite <- Ef.
  destruct (switches ["y"; "yes"] l || agrees answer) eqn:Ea; [| done].
  rewrite run_bind. cbn [fst snd mret State_ret]. rewrite remove_all_run by done. split.
  - exists l, pos. split; [done |]. split; [by apply orb_true_iff |]. rewrite <- En. split.
    + intros n [Hn Hr]. rewrite unlinked_lookup, decide_True; [done |]. apply list_elem_of_fmap. exists n. split; [done |].
      apply list_elem_of_filter. split; [by apply not_removable_none | done].
    + intros q Hq. rewrite unlinked_lookup, decide_False; [done |]. intros (n & -> & Hn)%list_elem_of_fmap. apply list_elem_of_filter in Hn as [Hr%not_removable_none Hn]. by apply (Hq n).
  - intros n. rewrite !enabled_value. f_equal. apply status_of_other. rewrite unlinked_lookup, decide_False; [done |].
    intros (k & Hk & _)%list_elem_of_fmap. symmetry in Hk. by apply profilePath_not_state in Hk.
Qed.
End remove.

(** ** Enabling and disabling *)

Section switching.
Context `{Unicode} `{Disk}.

Lemma unmanaged_reads names : reads (unmanaged names).
Proof. induction names as [| n names IH]; [done |]. cbn [unmanaged]. apply reads_bind; [apply load_reads |]. intros [p | e]; [| done]. by destruct (String.eqb _ _). Qed.

Lemma unmanaged_none names m : (unmanaged names m).1 = None -> forall n, n ∈ names -> exists p, (loadProfile n m).1 = Ok p /\ Subscription p <> "".
Proof.
  induction names as [| k names IH]; intros Hn n Hin; [by apply elem_of_nil in Hin |].
  cbn [unmanaged] in Hn. rewrite reads_run in Hn by apply load_reads. destruct (loadProfile k m).1 as [p | e] eqn:E; [| done].
  destruct (String.eqb_spec (Subscription p) "") as [| Hs]; [done |]. apply elem_of_cons in Hin as [-> | Hin]; [by exists p | by apply IH].
Qed.

(** The targets of [enable] and [disable]. *)
Lemma switch_targets_ok l pos m names m' : switch_targets l pos m = (Ok names, m') ->
  m' = m /\ NoDup names /\ names <> [] /\ (switch "ro" l = true -> Forall (fun n => read_only n = true) names) /\
  (switch "sub" l = true -> forall n, n ∈ names -> exists p, (loadProfile n m).1 = Ok p /\ Subscription p <> "").
Proof.
  unfold switch_targets. rewrite reads_run by (by destruct (_ && _)). set (names0 := (_ m).1). clearbody names0.
  rewrite reads_run by (destruct (_ && _); [apply all_subs_reads | done]). set (names1 := (_ m).1). clearbody names1.
  destruct (_ && (length names1 =? 0)%nat); [done |]. rewrite reads_run by apply targets_reads.
  pose proof (targets_nodup (setting "group" l) names1 m) as Hnd. set (names2 := (collectTargets _ _ m).1) in *. clearbody names2.
  destruct (if switch "ro" l then _ else _) as [n |] eqn:Ero; [done |].
  rewrite reads_run by (destruct (switch "sub" l); [apply unmanaged_reads | done]).
  destruct ((if switch "sub" l then unmanaged names2 else mret None) m).1 as [n |] eqn:Esub; [done |].
  destruct names2 as [| n names2]; [done |]. intros [= <- <-]. split; [done |]. split; [done |]. split; [done |]. split.
  - intros Hro. rewrite Hro in Ero. apply Forall_forall. intros x Hx. apply (find_none _ _) with (x := x) in Ero; [by apply negb_false_iff | by apply list_elem_of_In].
  - intros Hsub. rewrite Hsub in Esub. by apply unmanaged_none.
Qed.

Lemma switch_one_other on k q m : q <> StatusPath -> (switch_one on k m).2 !! q = m !! q.
Proof.
  intros Hq. unfold switch_one. rewrite reads_run by apply load_reads. destruct (loadProfile k m).1; [| done].
  rewrite reads_run by apply enabled_reads. destruct (Bool.eqb _ _); [done |]. rewrite run_bind. cbn [snd mret State_ret].
  unfold setProfileEnabled. rewrite reads_run by apply statuses_reads. apply write_other. by apply not_eq_sym.
Qed.

Section written.
Context (Hwrite : forall m p f, can_write m p f = true).

(** The status that a step leaves. *)
Definition switched (on : bool) (names : list string) (n : string) (m : fs) : bool :=
  if decide (n ∈ names) then match (loadProfile n m).1 with Ok _ => on | Err _ => (isProfileEnabled n m).1 end else (isProfileEnabled n m).1.

Lemma switch_one_status on k n m : (isProfileEnabled n (switch_one on k m).2).1 = switched on [k] n m.
Proof.
  unfold switch_one, switched. rewrite reads_run by apply load_reads.
  destruct (loadProfile k m).1 as [p | e] eqn:El.
  2: { destruct (decide (n ∈ [k])) as [->%list_elem_of_singleton | _]; [by rewrite El | done]. }
  rewrite reads_run by apply enabled_reads. destruct (Bool.eqb (isProfileEnabled k m).1 on) eqn:Eb.
  { apply Bool.eqb_prop in Eb. destruct (decide (n ∈ [k])) as [->%list_elem_of_singleton | _]; [| done]. by rewrite El. }
  rewrite run_bind. cbn [snd mret State_ret]. pose proof (set_enabled Hwrite k on m) as (_ & Hk & Hn & _).
  destruct (decide (n ∈ [k])) as [->%list_elem_of_singleton | Hne]; [by rewrite El |].
  rewrite Hn by (by intros ->; apply Hne, list_elem_of_singleton). destruct (status_of m) eqn:Es; [done |]. by rewrite enabled_value, Es.
Qed.

Definition switch_same (n : string) (m m' : fs) : Prop := untouched n m m' /\ (isProfileEnabled n m').1 = (isProfileEnabled n m).1.

Lemma switch_same_refl n m : switch_same n m m.
Proof. done. Qed.
Lemma switch_same_trans n a b c : switch_same n a b -> switch_same n b c -> switch_same n a c.
Proof. intros [[A1 A2] A3] [[B1 B2] B3]. split; [split |]; [congruence | intros u; by rewrite B2 | congruence]. Qed.

Lemma status_untouched n m m' : (forall q, q <> StatusPath -> m' !! q = m !! q) -> untouched n m m'.
Proof. intros Hq. split; [apply Hq, profilePath_not_state | intros u; by apply Hq]. Qed.

Lemma switch_one_same on k n m : k <> n -> switch_same n m (switch_one on k m).2.
Proof.
  intros Hk. split; [apply status_untouched; intros q; apply switch_one_other |].
  rewrite switch_one_status. unfold switched. rewrite decide_False; [done |]. rewrite list_elem_of_singleton. congruence.
Qed.

(** What is reported for a profile. *)
Definition switch_report (on : bool) (n : string) (m : fs) : report :=
  match (loadProfile n m).1 with Err e => Unloadable e | Ok _ => if Bool.eqb (isProfileEnabled n m).1 on then AlreadySo else Switched end.

Lemma switch_one_report on n m : (switch_one on n m).1 = switch_report on n m.
Proof.
  unfold switch_one, switch_report. rewrite reads_run by apply load_reads. destruct (loadProfile n m).1; [| done].
  rewrite reads_run by apply enabled_reads. destruct (Bool.eqb _ _); [done |]. rewrite run_bind.
  by rewrite (proj1 (set_enabled Hwrite n on m)).
Qed.

Lemma switch_one_own on n m m' : switch_same n m m' -> (switch_one on n m').1 = (switch_one on n m).1.
Proof. intros [Hu He]. rewrite !switch_one_report. unfold switch_report. by rewrite (untouched_load _ _ _ Hu), He. Qed.

(** Enabling or disabling ends with the wanted status for every target that can be loaded and changes no
    other status and no other file; with -ro every target is read-only, with -sub every target is managed by a
    subscription, or the command refuses. *)
Theorem switch_each on args m rs m' : switchCmd on args m = (Ok rs, m') ->
  exists l pos names, command_line switch_flags args = Ok (l, pos) /\ (switch_targets l pos m).1 = Ok names /\
    (switch "ro" l = true -> Forall (fun n => read_only n = true) names) /\
    (switch "sub" l = true -> forall n, n ∈ names -> exists p, (loadProfile n m).1 = Ok p /\ Subscription p <> "") /\
    rs = (fun n => (n, switch_report on n m)) <$> names /\
    (forall n, (isProfileEnabled n m').1 = switched on names n m) /\
    (forall q, q <> StatusPath -> m' !! q = m !! q).
Proof.
  unfold switchCmd, with_line, andThen. destruct (command_line switch_flags args) as [[l pos] | e]; [| done].
  rewrite run_bind. destruct (switch_targets l pos m) as [[names | e] m0] eqn:Et; cbn [fst snd]; [| done].
  destruct (switch_targets_ok _ _ _ _ _ Et) as (-> & Hnd & _ & Hro & Hsub). unfold run_each. rewrite run_bind. intros [= <- <-].
  exists l, pos, names. split; [done |]. split; [by rewrite Et |]. split; [done |]. split; [done |].
  destruct (each_runs (switch_one on) switch_same switch_same_refl switch_same_trans (switch_one_same on) (switch_one_own on) names m Hnd) as [Hr Hf].
  split; [| split].
  - rewrite Hr. apply list_fmap_ext. intros i n _. by rewrite switch_one_report.
  - intros n. unfold switched. destruct (decide (n ∈ names)) as [Hn | Hn].
    + destruct (Hf n Hn) as (m1 & [Hu1 He1] & [_ He2]). rewrite He2, switch_one_status. unfold switched.
      rewrite decide_True by (by apply list_elem_of_singleton). by rewrite (untouched_load _ _ _ Hu1), He1.
    + exact (proj2 (each_others (switch_one on) switch_same switch_same_refl switch_same_trans (switch_one_same on) names n m Hn)).
  - intros q Hq. cut (keeps (fun m' => m' !! q = m !! q) (each (switch_one on) names)); [intros Hk; by apply Hk |].
    apply each_keeps. intros n Hn m1 <-. by apply switch_one_other.
Qed.
End written.
End switching.

(** ** The device identifier *)

Section device.
Context `{Unicode} `{Disk} (Hwrite : forall m p f, can_write m p f = true).

Lemma lower_hex c : is_hex c = true -> visible (lower_ascii c) && is_hex (lower_ascii c) && negb (is_upper (lower_ascii c)) = true.
Proof. revert c. by apply all_ascii_impl; vm_compute. Qed.

Lemma hex_ascii s : all_of is_hex s = true -> is_ascii s = true.
Proof. intros Hs. apply visible_ascii. eapply all_of_impl; [| exact Hs]. by apply all_ascii_impl; vm_compute. Qed.

Lemma all_of_map (p q : ascii -> bool) f s : (forall c, p c = true -> q (f c) = true) -> all_of p s = true -> all_of q (map_string f s) = true.
Proof. intros Hpq. induction s as [| c s IH]; [done |]. cbn [all_of map_string]. intros [Hc Hs]%andb_true_iff. by rewrite Hpq, IH. Qed.

Lemma length_map f s : String.length (map_string f s) = String.length s.
Proof. induction s as [| c s IH]; [done |]. cbn. by rewrite IH. Qed.

(** An accepted identifier: sixteen lower-case hexadecimal digits. *)
Definition lower_hex_digit (c : ascii) : bool := visible c && is_hex c && negb (is_upper c).

Lemma device_id_accepted arg id : device_id_of arg = Ok id -> String.length id = 16%nat /\ all_of lower_hex_digit id = true.
Proof.
  unfold device_id_of. destruct (String.length (trim_space arg) =? 16)%nat eqn:El; [| done]. cbn [negb]. apply Nat.eqb_eq in El.
  destruct (all_of is_hex (trim_space arg)) eqn:Eh; [| done]. cbn [negb]. intros [= <-]. unfold to_lower. rewrite (hex_ascii _ Eh).
  split; [by rewrite length_map |]. eapply all_of_map; [| exact Eh]. apply lower_hex.
Qed.

(** An identifier that is in the file is the one of the installation. *)
Lemma device_kept id m : String.length id = 16%nat -> all_of visible id = true -> m !! DevicePath = Some (Text id) -> getOrCreateDeviceID m = (id, m).
Proof.
  intros Hl Hv Hm. unfold getOrCreateDeviceID. rewrite reads_run by apply read_text_reads.
  assert ((read_text DevicePath m).1 = Some id) as -> by (unfold read_text; rewrite reads_run by apply read_reads; cbn [read gets fst]; by rewrite Hm).
  cbn [from_option]. rewrite trim_space_visible, Hl by done. done.
Qed.

(** The identifier that device-id accepts is sixteen lower-case hexadecimal digits, and it is the one that every later
    command uses; so is one that regenerate-id draws. *)
Theorem device_id_set arg rest m : (forall m, String.length (random_id m) = 16%nat /\ all_of visible (random_id m) = true) ->
  let r := deviceIDCmd (arg :: rest) m in
  match r.1 with
  | Ok (_, id) => String.length id = 16%nat /\ all_of lower_hex_digit id = true /\ getOrCreateDeviceID r.2 = (id, r.2)
  | Err _ => r.2 = m
  end /\
  let r := regenerateIDCmd m in exists old, r.1 = Ok (old, random_id m) /\ getOrCreateDeviceID r.2 = (random_id m, r.2).
Proof.
  intros Hrand. cbv zeta. split.
  - unfold deviceIDCmd. destruct (device_id_of arg) as [id | e] eqn:Ed; [| done]. destruct (device_id_accepted _ _ Ed) as [Hl Hh].
    rewrite reads_run by apply read_text_reads. rewrite run_bind, write_run by done. cbn [fst snd mret State_ret].
    split; [done |]. split; [done |]. apply device_kept; [done | | by rewrite lookup_insert_eq].
    eapply all_of_impl; [| exact Hh]. intros c [[Hv _]%andb_true_iff _]%andb_true_iff. done.
  - unfold regenerateIDCmd. rewrite reads_run by apply read_text_reads. rewrite reads_run by done. cbn [gets fst].
    rewrite run_bind, write_run by done. cbn [fst snd mret State_ret]. eexists. split; [done |].
    apply device_kept; [apply Hrand | apply Hrand | by rewrite lookup_insert_eq].
Qed.
End device.

(** ** Examples *)

Section example.
#[local] Existing Instance Targets.example_unicode.
#[local] Existing Instance Targets.example_disk.

Definition sub_profile : ProfileData := with_groups ["best"] {|
  PeerAddr := "9.9.9.9:1"; Profiles.Password := "p"; Profiles.Hashes := []; Listen := ""; TurnHost := ""; TurnPort := "";
  Profiles.Workers := 9; DeviceID := "d"; Priority := 0; LinkFile := ""; Groups := []; Subscription := "best" |}.

Definition command_files : fs :=
  <[UserProfile "sub1" := ProfileFile sub_profile]> (<[StatusPath := StatusFile {[ "home" := false ]}]> target_files).

Definition edit_args : list string := ["srv-1"; "-workers"; "18"; "ro-srv"; "sub1"; "none"; "-groups=lan, none ,x"; "-priority"; "0x10"].

Example edit_reports : (editCmd edit_args command_files).1 =
  Ok [("srv-1", Updated); ("ro-srv", ReadOnly); ("sub1", ManagedBy "best"); ("none", Unloadable NotFound)].
Proof. by vm_compute. Qed.

Example edit_bad_workers : (editCmd ["-workers=10"; "home"] command_files).1 = Ok [("home", BadWorkers NotMultiple)].
Proof. by vm_compute. Qed.

(** The default of a number means that it is not given. *)
Example edit_minus_one : (editCmd ["home"; "-priority"; "-1"] command_files).1 = Ok [("home", NothingChanged)].
Proof. by vm_compute. Qed.

Lemma edit_each_witness :
  (editCmd edit_args command_files).2 !! RoProfile "ro-srv" = command_files !! RoProfile "ro-srv" /\
  exists id p, (editCmd edit_args command_files).2 !! UserProfile "srv-1" = Some (ProfileFile (add_group (with_device id p))).
Proof.
  destruct (edit_each ltac:(done) edit_args command_files _ (editCmd edit_args command_files).2 (pair_of _ _ edit_reports)) as (l & pos & Hl & _ & _ & Hf & Hq).
  assert (command_line edit_flags edit_args = Ok ([("workers", "18"); ("groups", "lan, none ,x"); ("priority", "0x10")], ["srv-1"; "ro-srv"; "sub1"; "none"])) as E by (by vm_compute).
  rewrite E in Hl. injection Hl as <- <-. split.
  - exact (Hf "ro-srv" ltac:(vm_compute; by apply list_elem_of_In; right; left)).
  - pose proof (Hf "srv-1" ltac:(vm_compute; by apply list_elem_of_In; left)) as Hs. unfold edited_to in Hs.
    destruct (edit_verdict _ "srv-1" command_files).1 as [p | e] eqn:Ev; [| by vm_compute in Ev]. destruct Hs as (id & _ & Hs). exists id, p. exact Hs.
Defined.

(** A flag behind the URL is not looked at. *)
Example add_ignores_device_id :
  let link := "wdtt://1.2.3.4:1:0:9000:pw:h#n" in
  (add_arguments ["new"; link; "-device-id"; "00112233445566aa"]) = Ok ("new", link, "") /\
  (add_arguments ["new"; "-device-id"; "00112233445566aa"; link]) = Ok ("new", link, "00112233445566aa").
Proof. by vm_compute. Qed.

Lemma remove_exactly_witness :
  let r := removeCmd ["home"; "sub1"; "ro-srv"] " Y " command_files in
  r.1 = Ok ([("sub1", ManagedBy "best"); ("ro-srv", ReadOnly)], [("home", Removed)]) /\ r.2 !! UserProfile "home" = None /\ (isProfileEnabled "home" r.2).1 = false.
Proof.
  cbv zeta. split; [by vm_compute |].
  pose proof (remove_exactly ["home"; "sub1"; "ro-srv"] " Y " command_files ltac:(done)) as [Hr Hs]. split.
  - assert ((removeCmd ["home"; "sub1"; "ro-srv"] " Y " command_files).1 = Ok ([("sub1", ManagedBy "best"); ("ro-srv", ReadOnly)], [("home", Removed)])) as E by (by vm_compute).
    rewrite E in Hr. destruct Hr as (l & pos & El & _ & Hg & _).
    assert (command_line remove_flags ["home"; "sub1"; "ro-srv"] = Ok ([], ["home"; "sub1"; "ro-srv"])) as E2 by (by vm_compute).
    rewrite E2 in El. injection El as <- <-. apply (Hg "home"). split; [vm_compute; by apply list_elem_of_In; left |].
    split; [by vm_compute |]. intros p Hp. vm_compute in Hp. by injection Hp as <-.
  - rewrite (Hs "home"). by vm_compute.
Defined.

Example removed_reports : (removeCmd ["none"; "home"] "" command_files).1 = Err Cancelled /\ (removeCmd ["none"; "-yes"] "" command_files).1 = Ok ([], [("none", NotRemoved)]).
Proof. by vm_compute. Qed.

Lemma switch_each_witness :
  let r := enableCmd ["-group"; "eu"; "gone"] command_files in
  r.1 = Ok [("home", Switched); ("ro-srv", AlreadySo); ("srv-1", AlreadySo); ("gone", Unloadable NotFound)] /\
  (isProfileEnabled "home" r.2).1 = switched true ["home"; "ro-srv"; "srv-1"; "gone"] "home" command_files.
Proof.
  cbv zeta. assert ((enableCmd ["-group"; "eu"; "gone"] command_files).1 = Ok [("home", Switched); ("ro-srv", AlreadySo); ("srv-1", AlreadySo); ("gone", Unloadable NotFound)]) as E by (by vm_compute).
  split; [exact E |].
  destruct (switch_each ltac:(done) true ["-group"; "eu"; "gone"] command_files _ (enableCmd ["-group"; "eu"; "gone"] command_files).2 (pair_of _ _ E)) as (l & pos & names & _ & _ & _ & _ & Hr & Hs & _).
  apply (f_equal (fmap fst)) in Hr. rewrite names_of_reports in Hr. rewrite <- Hr in Hs. exact (Hs "home").
Defined.

Lemma device_id_set_witness :
  (deviceIDCmd [" 00112233445566AA "] command_files).1 = Ok ("", "00112233445566aa") /\
  getOrCreateDeviceID (deviceIDCmd [" 00112233445566AA "] command_files).2 = ("00112233445566aa", (deviceIDCmd [" 00112233445566AA "] command_files).2).
Proof.
  assert ((deviceIDCmd [" 00112233445566AA "] command_files).1 = Ok ("", "00112233445566aa")) as E by (by vm_compute).
  split; [exact E |]. pose proof (device_id_set ltac:(done) " 00112233445566AA " [] command_files ltac:(done)) as [Hr _]. rewrite E in Hr. exact (proj2 (proj2 Hr)).
Defined.
End example.
