(* ===== verification/Share.v ===== *)
(** * Sharing a profile as a link (commands.go, [shareCmd]) and what adding the link gives back. *)

From S2P Require Import Prelude GoStrings Chars Links Effects Profiles Subscription Targets Flags Commands.
From Stdlib Require Import ZArith Lia String Ascii.
From stdpp Require Import base list strings gmap.
Open Scope string_scope.
Open Scope Z_scope.

Definition share_flags : list (string * kind) := [("qwdtt", BoolFlag); ("q", BoolFlag); ("group", StringFlag)].

Section share.
Context `{Unicode} `{Disk}.

Definition displayName (name : string) : string := if read_only name then sdrop 3 name else name.

(** The local port of a listen address. *)
Definition listen_port (listen : string) : string :=
  if String.eqb listen "" then defaultListenPort else match last_index ":" listen with Some i => sdrop (S i) listen | None => listen end.

Definition shared_link (name : string) (p : ProfileData) : WdttLink :=
  let '(ip, dtlsPort) := peer_parts (PeerAddr p) in
  {| IP := ip; DTLSPort := dtlsPort; Links.Password := Profiles.Password p; Links.Hashes := Profiles.Hashes p; Name := displayName name;
     Links.Workers := if Profiles.Workers p <=? 0 then defaultWorkers else Profiles.Workers p; Port := listen_port (Listen p) |}.

Definition wdtt_text (name : string) (p : ProfileData) : string :=
  let '(ip, dtlsPort) := peer_parts (PeerAddr p) in
  "wdtt://" ++ ip ++ ":" ++ dtlsPort ++ ":0:9000:" ++ Profiles.Password p ++ ":" ++ GoStrings.join "," (Profiles.Hashes p) ++ "#" ++ displayName name.

(** The link printed for a profile: the link file of the profile as it is, unless the other form is asked for. *)
Definition share_output (qwdtt : bool) (name : string) (p : ProfileData) : Files string :=
  if qwdtt then mret (buildQwdttConfigURL (shared_link name p))
  else
    t ← (if String.eqb (LinkFile p) "" then mret None else read_text (UserFile (LinkFile p)));
    let link := from_option trim_space "" t in
    mret (if String.eqb link "" then wdtt_text name p else link).

(** The names shown with their links, up to the first profile that cannot be loaded. *)
Fixpoint share_each (qwdtt : bool) (names : list string) : Files (list (string * string) * option profile_error) :=
  match names with
  | [] => mret ([], None)
  | n :: rest =>
      r ← loadProfile n;
      match r with
      | Err e => mret ([], Some e)
      | Ok p => out ← share_output qwdtt n p; more ← share_each qwdtt rest; mret ((displayName n, out) :: fst more, snd more)
      end
  end.

Definition shareCmd (args : list string) : Command (list (string * string) * option profile_error) :=
  match args with
  | [] => refuse Usage
  | _ =>
      with_line share_flags args (fun l names =>
        names ← (if String.eqb (setting "group" l) "" then mret names else collectTargets (setting "group" l) []);
        match names with [] => refuse Usage | _ => r ← share_each (switches ["qwdtt"; "q"] l) names; mret (Ok r) end)
  end.

(** ** Adding a shared profile *)

(** What a profile must hold to be shared. *)
Record shareable (name : string) (p : ProfileData) : Prop := {
  s_peer : exists ip port, PeerAddr p = ip ++ ":" ++ port /\ ip <> "" /\ port <> "" /\ no_char ":" port = true;
  s_peer_trimmed : trim_space (PeerAddr p) = PeerAddr p;
  s_password : trim_space (Profiles.Password p) <> "";
  s_hashes : Forall hash_ok (Profiles.Hashes p);
  s_workers : 0 < Profiles.Workers p -> Profiles.Workers p mod 9 = 0 /\ Profiles.Workers p <= max_int;
  s_name : trim_space (displayName name) <> "";
  s_listen : trim_space (listen_port (Listen p)) = listen_port (Listen p)
}.

(** The plain form has no escapes: its peer is no IPv6 address, and the hashes and the name have no separators. *)
Record plain (name : string) (p : ProfileData) : Prop := {
  p_link : LinkFile p = "";
  p_peer : no_char ":" (fst (peer_parts (PeerAddr p))) = true;
  p_hashes : Forall (fun h => no_char ":" h = true /\ no_char "#" h = true) (Profiles.Hashes p);
  p_name : no_char "#" (displayName name) = true /\ trim_space (displayName name) = displayName name;
  p_text : trim_space (wdtt_text name p) = wdtt_text name p
}.

(** What a shared link is read as. *)
Definition shared_as (qwdtt : bool) (name : string) (p : ProfileData) (link : WdttLink) : Prop :=
  IP link ++ ":" ++ DTLSPort link = PeerAddr p /\ Links.Password link = Profiles.Password p /\ Links.Hashes link = Profiles.Hashes p /\
  Links.Workers link = (if qwdtt && (0 <? Profiles.Workers p) then Profiles.Workers p else defaultWorkers) /\
  Port link = (if qwdtt && negb (String.eqb (listen_port (Listen p)) "") then listen_port (Listen p) else defaultListenPort).

Lemma share_read_back qwdtt name p m : shareable name p -> (qwdtt = false -> plain name p) ->
  exists link, parseLink (share_output qwdtt name p m).1 = Ok link /\ shared_as qwdtt name p link /\ is_link (share_output qwdtt name p m).1 = true.
Proof.
  intros [(ip & port & Hpeer & Hip & Hport & Hc) Htrim Hpw Hh Hw Hn Hl] Hplain.
  assert (peer_parts (PeerAddr p) = (ip, port)) as Epp by (by rewrite Hpeer, peer_parts_app).
  destruct qwdtt.
  - exists (received (shared_link name p)). unfold share_output, shared_link. rewrite Epp. cbn [fst mret State_ret]. split.
    + apply link_read_back. constructor; cbn; try done; [by rewrite <- Hpeer |].
      intros _. destruct (Z.leb_spec (Profiles.Workers p) 0); [done | by apply Hw; lia].
    + split; [| done]. unfold shared_as, received. cbn. split; [by rewrite Hpeer |]. split; [done |]. split; [done |]. split.
      * destruct (Z.leb_spec (Profiles.Workers p) 0) as [Hle | Hlt].
        -- by rewrite (proj2 (Z.ltb_ge 0 (Profiles.Workers p))).
        -- by rewrite (proj2 (Z.ltb_lt 0 (Profiles.Workers p))).
      * by destruct (String.eqb_spec (listen_port (Listen p)) "").
  - destruct (Hplain eq_refl) as [Hlink Hip2 Hh2 [Hn1 Hn2] Ht]. unfold share_output. rewrite Hlink. cbn.
    unfold wdtt_text in *. rewrite Epp in *. cbn [fst] in Hip2.
    eexists. split; [| split; [| done]].
    + apply (wdtt_link_parts ip port "0" "9000" (Profiles.Password p) (Profiles.Hashes p) (displayName name)); try done.
      * repeat (apply List.Forall_cons; [done |]). constructor.
      * intros E. by rewrite E in Hpw.
    + unfold shared_as. cbn. by rewrite Hpeer.
Qed.

Section added.
Context (Hwrite : forall m p f, can_write m p f = true).

Lemma link_no_flag link : is_link link = true -> has_prefix "-" link = false /\ String.eqb link "" = false.
Proof. unfold is_link. destruct link as [| c s]; [done |]. cbn. destruct c as [[] [] [] [] [] [] [] []]; try done. Qed.

(** [add name link] *)
Lemma add_run name link l m : is_link name = false -> name <> "" -> read_only (transliterateCyrillic name) = false ->
  is_link link = true -> parseLink link = Ok l ->
  exists id m', addCmd [name; link] m = (Ok (transliterateCyrillic name, is_ok (loadProfile (transliterateCyrillic name) m').1), (saveProfile (transliterateCyrillic name)
    (link_profile l id (match (loadProfile (transliterateCyrillic name) m').1 with Ok p => Groups p | Err _ => [] end)) m').2) /\ id = (getOrCreateDeviceID m).1 /\ m' = (getOrCreateDeviceID m).2.
Proof.
  intros Hn Hne Hro Hl Hp. destruct (link_no_flag link Hl) as [Hdash Hnil]. unfold addCmd, add_arguments.
  cbn [Parse]. rewrite Hdash. rewrite orb_true_r. cbn [mbind]. rewrite Hn. cbn. rewrite Hnil. unfold parseLinkWithHint. cbn. rewrite Hp. unfold add_name.
  rewrite (proj2 (String.eqb_neq name "") Hne). exists (getOrCreateDeviceID m).1, (getOrCreateDeviceID m).2. split; [| done].
  rewrite run_bind. rewrite reads_run by apply load_reads. rewrite run_bind. destruct (loadProfile _ _).1 as [p | e];
   (match goal with |- context [saveProfile ?n ?p ?m] => destruct (save_ok Hwrite n p m Hro) as (? & _ & -> & _) end; done).
Qed.

(** C26: adding the link that another installation shares for a profile saves a profile with the same peer,
    password and hashes; the number of workers and the local port come along in the qwdtt form only, the plain
    form drops them. Nothing but the new profile and the device identifier is written. *)
Theorem shared_profile_added qwdtt name p m new m0 :
  shareable name p -> (qwdtt = false -> plain name p) ->
  is_link new = false -> new <> "" -> read_only (transliterateCyrillic new) = false ->
  let r := addCmd [new; (share_output qwdtt name p m).1] m0 in
  exists q, is_ok r.1 = true /\ r.2 !! profilePath (transliterateCyrillic new) = Some (ProfileFile q) /\
    PeerAddr q = PeerAddr p /\ Profiles.Password q = Profiles.Password p /\ Profiles.Hashes q = Profiles.Hashes p /\
    Profiles.Workers q = (if qwdtt && (0 <? Profiles.Workers p) then Profiles.Workers p else defaultWorkers) /\
    Listen q = "127.0.0.1:" ++ (if qwdtt && negb (String.eqb (listen_port (Listen p)) "") then listen_port (Listen p) else defaultListenPort) /\
    forall x, x <> DevicePath -> x <> profilePath (transliterateCyrillic new) -> r.2 !! x = m0 !! x.
Proof.
  intros Hs Hp Hn Hne Hro. cbv zeta. destruct (share_read_back qwdtt name p m Hs Hp) as (l & El & (S1 & S2 & S3 & S4 & S5) & Hl).
  destruct (add_run new _ l m0 Hn Hne Hro Hl El) as (id & m' & -> & _ & Em). cbn [fst snd is_ok].
  match goal with |- context [saveProfile ?n ?p ?m] => destruct (save_ok Hwrite n p m Hro) as (id' & _ & _ & ->) end.
  eexists. split; [done |]. split; [done |].
  unfold add_group. cbn. repeat split; try done.
  - rewrite S4. destruct (qwdtt && (0 <? Profiles.Workers p)) eqn:E; [| done]. apply andb_true_iff in E as [_ E]. propify.
    by rewrite (proj2 (Z.leb_gt _ _)).
  - f_equal. rewrite S5. destruct (qwdtt && negb (String.eqb (listen_port (Listen p)) "")) eqn:E; [| done]. apply andb_true_iff in E as [_ E%negb_true_iff]. by rewrite E.
  - intros x Hx Hx'. rewrite save_other by done. subst m'. by apply device_other.
Qed.
End added.
End share.

(** ** Examples *)

Section example.
#[local] Existing Instance Targets.example_unicode.
#[local] Existing Instance Targets.example_disk.

Definition shared_profile : ProfileData :=
  {| PeerAddr := "1.2.3.4:56000"; Profiles.Password := "p:a#s s"; Profiles.Hashes := ["h1"; "h2"]; Listen := "127.0.0.1:9100"; TurnHost := ""; TurnPort := "";
     Profiles.Workers := 27; DeviceID := "d"; Priority := 4; LinkFile := ""; Groups := ["eu"]; Subscription := "" |}.

Definition share_files : fs := {[ UserProfile "srv" := ProfileFile shared_profile ]}.

Example both_forms :
  (shareCmd ["srv"] share_files).1 = Ok ([("srv", "wdtt://1.2.3.4:56000:0:9000:p:a#s s:h1,h2#srv")], None) /\
  (shareCmd ["srv"; "none"; "-q"] share_files).1 = Ok ([("srv", "qwdtt://config?hashes=h1%2Ch2&name=srv&pass=p%3Aa%23s+s&peer=1.2.3.4%3A56000&port=9100&workers=27")], Some NotFound).
Proof. by vm_compute. Qed.

(** Masks are not expanded here, and an IPv6 peer does not survive the plain form. *)
Example share_limits : (shareCmd ["s*"] share_files).1 = Ok ([], Some NotFound) /\
  parseLink (wdtt_text "six" {| PeerAddr := "[::1]:56000"; Profiles.Password := "p"; Profiles.Hashes := []; Listen := ""; TurnHost := ""; TurnPort := "";
     Profiles.Workers := 9; DeviceID := ""; Priority := 0; LinkFile := ""; Groups := []; Subscription := "" |}) = Err MissingFields.
Proof. by vm_compute. Qed.

Lemma shared_profile_added_witness : exists q,
  (addCmd ["new"; (share_output false "srv" shared_profile share_files).1] share_files).2 !! UserProfile "new" = Some (ProfileFile q) /\
  PeerAddr q = "1.2.3.4:56000" /\ Profiles.Password q = "p:a#s s" /\ Profiles.Workers q = 9 /\ Listen q = "127.0.0.1:9000".
Proof.
  assert (shareable "srv" shared_profile) as Hs.
  { constructor; try done; [by exists "1.2.3.4", "56000" |]. repeat (apply List.Forall_cons; [done |]). constructor. }
  assert (plain "srv" shared_profile) as Hp.
  { constructor; try done. repeat (apply List.Forall_cons; [done |]). constructor. }
  destruct (shared_profile_added ltac:(done) false "srv" shared_profile share_files "new" share_files Hs (fun _ => Hp) eq_refl ltac:(discriminate) eq_refl)
    as (q & _ & Hq & H1 & H2 & _ & H4 & H5 & _).
  exists q. split; [exact Hq |]. split; [exact H1 |]. split; [exact H2 |]. split; [exact H4 | exact H5].
Defined.
End example.
