(* ===== verification/SubCommands.v ===== *)
(** * The subscription commands (commands.go): add, remove, show, move, update.

    The request for a subscription ([fetch]) is a parameter, as in Subscription.v; the answers at the
    prompts are arguments. *)

From S2P Require Import Prelude GoStrings Chars Json Links Effects Profiles Subscription Targets Flags Commands.
From Stdlib Require Import ZArith Lia String Ascii.
From stdpp Require Import base list strings gmap.
Open Scope string_scope.
Open Scope Z_scope.

Definition sub_flags : list (string * kind) := [("y", BoolFlag); ("yes", BoolFlag)].

Inductive subcommand := SubAdd | SubRemove | SubShow | SubMove | SubUpdate.

Definition subcommand_of (s : string) : option subcommand :=
  if String.eqb s "add" then Some SubAdd
  else if String.eqb s "remove" || String.eqb s "rm" then Some SubRemove
  else if String.eqb s "show" || String.eqb s "sh" then Some SubShow
  else if String.eqb s "move" || String.eqb s "mv" then Some SubMove
  else if String.eqb s "update" || String.eqb s "upd" then Some SubUpdate
  else None.

(** The subcommand: the first argument that is no flag. *)
Inductive dispatched := NoSubcommand | UnknownSubcommand (s : string) | Sub (c : subcommand).

Definition subscriptionCmd (args : list string) : dispatched :=
  match find (fun a => negb (has_prefix "-" a)) args with
  | None => NoSubcommand
  | Some s => if String.eqb s "" then NoSubcommand else match subcommand_of s with Some c => Sub c | None => UnknownSubcommand s end
  end.

Section subcommands.
Context `{Unicode} `{Disk} (fetch : string -> option SubscriptionJSON) (now_text : fs -> string).

Inductive sub_refusal :=
| SubFlags (e : parse_error) | SubUsage | NotFetched | NotParsed (e : sub_error) | NotApplied (e : sub_error) | Declined | NotFound (name : string)
| ConfigNotRemoved | Same | Taken (name : string) | NotLoaded | NotStored.

Abbreviation SubCommand A := (Files (result sub_refusal A)).

(** [parseSubCmdFlags]: the settings and the arguments behind the subcommand. *)
Definition parseSubCmdFlags (args : list string) : result parse_error (list (string * string) * list string) :=
  match command_line sub_flags args with Ok (l, names) => Ok (l, tail names) | Err e => Err e end.

Definition with_sub {A} (args : list string) (f : bool -> list string -> SubCommand A) : SubCommand A :=
  match parseSubCmdFlags args with Ok (l, names) => f (switches ["y"; "yes"] l) names | Err e => mret (Err (SubFlags e)) end.

Definition apply_as (name url : string) : SubCommand (string * (list string * list string)) :=
  r ← applySubscription fetch now_text name url; mret (match r with Ok x => Ok (name, x) | Err e => Err (NotApplied e) end).

(** The name is asked of the server unless it is given; an update of a subscription asks, and so does a new one under
    the server's name. *)
Definition subscriptionAddCmd (args : list string) (answer : string) : SubCommand (string * (list string * list string)) :=
  with_sub args (fun yes args =>
    match args with
    | [] => mret (Err SubUsage)
    | first :: rest =>
        let '(name, url) := match rest with [] => ("", first) | second :: _ => (first, second) end in
        if String.eqb name "" then
          if negb (valid_url url) then mret (Err NotFetched)
          else
            match fetch url with
            | None => mret (Err NotFetched)
            | Some j =>
                match parseSubscriptionJSON j with
                | Err e => mret (Err (NotParsed e))
                | Ok (name, _) => if yes || agrees answer then apply_as name url else mret (Err Declined)
                end
            end
        else
          existing ← loadSubscription name;
          if bool_decide (is_Some existing) && negb (yes || agrees answer) then mret (Err Declined) else apply_as name url
    end).

(** ** Removing *)

(** The files of the listed profiles, their own or not: how many were removed. *)
Fixpoint remove_listed (names : list string) : Files nat :=
  match names with
  | [] => mret 0%nat
  | n :: rest => b ← unlink (profilePath n); k ← remove_listed rest; mret (if b : bool then S k else k)
  end.

Definition subscriptionRemoveCmd (args : list string) (answer : string) : SubCommand nat :=
  with_sub args (fun yes args =>
    match args with
    | [] => mret (Err SubUsage)
    | name :: _ =>
        s ← loadSubscription name;
        match s with
        | None => mret (Err (NotFound name))
        | Some sub =>
            if yes || agrees answer then
              deleted ← remove_listed (SubProfiles sub);
              b ← unlink (SubscriptionPath name);
              mret (if b : bool then Ok deleted else Err ConfigNotRemoved)
            else mret (Err Declined)
        end
    end).

(** ** Renaming *)

Definition renamed (newName : string) (s : SubscriptionConfig) : SubscriptionConfig :=
  {| URL := URL s; SubscriptionName := newName; Description := Description s; TrafficUsedMb := TrafficUsedMb s; TrafficLimitMb := TrafficLimitMb s;
     UpdatedAt := UpdatedAt s; Version := Version s; SubProfiles := SubProfiles s; LastFetch := LastFetch s |}.

Definition regroup (oldName newName : string) (p : ProfileData) : ProfileData :=
  {| PeerAddr := PeerAddr p; Profiles.Password := Profiles.Password p; Profiles.Hashes := Profiles.Hashes p; Listen := Listen p; TurnHost := TurnHost p;
     TurnPort := TurnPort p; Profiles.Workers := Profiles.Workers p; DeviceID := DeviceID p; Priority := Priority p; LinkFile := LinkFile p;
     Groups := (fun g => if String.eqb g oldName then newName else g) <$> Groups p; Subscription := newName |}.

(** One listed profile, whoever owns it. *)
Definition move_profile (oldName newName name : string) : Files report :=
  r ← loadProfile name;
  match r with
  | Err e => mret (Unloadable e)
  | Ok p => s ← saveProfile name (regroup oldName newName p); mret (match s with Ok _ => Updated | Err e => NotSaved e end)
  end.

Definition subscriptionMoveCmd (args : list string) : SubCommand reports :=
  with_sub args (fun _ args =>
    match args with
    | [oldName; newName] =>
        if String.eqb oldName newName then mret (Err Same)
        else
          found ← isSubscriptionName oldName;
          taken ← isSubscriptionName newName;
          if negb found then mret (Err (NotFound oldName))
          else if taken : bool then mret (Err (Taken newName))
          else
            s ← loadSubscription oldName;
            match s with
            | None => mret (Err NotLoaded)
            | Some sub =>
                saved ← saveSubscription newName (renamed newName sub);
                if negb saved then mret (Err NotStored)
                else
                  gone ← unlink (SubscriptionPath oldName);
                  if negb gone then mret (Err ConfigNotRemoved)
                  else rs ← each (move_profile oldName newName) (SubProfiles sub); mret (Ok rs)
            end
    | _ => mret (Err SubUsage)
    end).

(** ** Showing and updating *)

Inductive sub_view :=
| AllSubscriptions (l : list (string * option SubscriptionConfig))
| OneSubscription (s : SubscriptionConfig) (profiles : list (string * option (bool * string))).

Fixpoint load_subscriptions (names : list string) : Files (list (string * option SubscriptionConfig)) :=
  match names with [] => mret [] | n :: rest => s ← loadSubscription n; more ← load_subscriptions rest; mret ((n, s) :: more) end.

(** The listed profiles with their status and peer. *)
Fixpoint listed_profiles (names : list string) : Files (list (string * option (bool * string))) :=
  match names with
  | [] => mret []
  | n :: rest =>
      r ← loadProfile n; b ← isProfileEnabled n; more ← listed_profiles rest;
      mret ((n, match r with Ok p => Some (b, PeerAddr p) | Err _ => None end) :: more)
  end.

Definition subscriptionShowCmd (args : list string) : SubCommand sub_view :=
  with_sub args (fun _ args =>
    let name := nth 0 args "" in
    if String.eqb name "" then names ← listSubscriptions; l ← load_subscriptions names; mret (Ok (AllSubscriptions l))
    else
      s ← loadSubscription name;
      match s with
      | None => mret (Err (NotFound name))
      | Some sub => l ← listed_profiles (SubProfiles sub); mret (Ok (OneSubscription sub l))
      end).

Inductive update_report := UnknownSubscription | Skipped | UpdateFailed (e : sub_error) | SubUpdated (created removed : list string).

(** The loop of [update]; [answer] gives what is typed for each subscription. *)
Fixpoint update_each (yes : bool) (answer : string -> string) (names : list string) : Files (list (string * update_report)) :=
  match names with
  | [] => mret []
  | n :: rest =>
      s ← loadSubscription n;
      r ← match s with
          | None => mret UnknownSubscription
          | Some sub =>
              if yes || agrees (answer n) then
                x ← applySubscription fetch now_text n (URL sub); mret (match x with Ok (c, d) => SubUpdated c d | Err e => UpdateFailed e end)
              else mret Skipped
          end;
      more ← update_each yes answer rest;
      mret ((n, r) :: more)
  end.

Definition subscriptionUpdateCmd (args : list string) (answer : string -> string) : SubCommand (list (string * update_report)) :=
  with_sub args (fun yes args =>
    names ← (match args with [] => listSubscriptions | _ => mret args end);
    l ← update_each yes answer names; mret (Ok l)).
End subcommands.

(** ** Renaming a subscription *)

Section moved.
Context `{Unicode} `{Disk} (Hwrite : forall m p f, can_write m p f = true).

(** A profile that belongs to a subscription and is in its group, no longer in that of the old name. *)
Definition belongs (oldName newName n : string) (m : fs) : Prop :=
  exists p, m !! profilePath n = Some (ProfileFile p) /\ Subscription p = newName /\ (oldName ∉ Groups p) /\ newName ∈ Groups p.

Lemma load_fields n m p : (loadProfile n m).1 = Ok p ->
  exists raw, m !! profilePath n = Some (ProfileFile raw) /\ Groups p = Groups raw /\ Subscription p = Subscription raw.
Proof.
  unfold loadProfile. rewrite reads_run by apply read_reads. cbn [read gets fst].
  destruct (m !! profilePath n) as [[raw | | | |] |]; try done. intros Hl. exists raw. split; [done |].
  destruct (needs_link _); [| by injection Hl as <-]. rewrite reads_run in Hl by apply read_text_reads. cbn [fst mret State_ret] in Hl.
  destruct (read_text _ m).1 as [t |]; [| done]. destruct (parseLink _); [| done]. by injection Hl as <-.
Qed.

Lemma regrouped_belongs oldName newName id p : oldName <> newName -> newName <> "" ->
  let q := add_group (with_device id (regroup oldName newName p)) in Subscription q = newName /\ (oldName ∉ Groups q) /\ newName ∈ Groups q.
Proof.
  intros Hne Hn. cbv zeta. assert (oldName ∉ Groups (with_device id (regroup oldName newName p))) as Hold.
  { cbn. intros (g & Hg & _)%list_elem_of_fmap. destruct (String.eqb_spec g oldName); congruence. }
  unfold add_group. cbn [Subscription with_device regroup]. destruct (String.eqb_spec newName ""); [done |]. cbn [orb].
  case_bool_decide as Hin; [done |]. split; [done |]. cbn [Groups with_groups]. rewrite elem_of_app, elem_of_app, list_elem_of_singleton.
  split; [intros [Ho | <-]; [by apply Hold | done] | by right; left].
Qed.

Lemma move_profile_other oldName newName n q m : q <> profilePath n -> q <> DevicePath -> (move_profile oldName newName n m).2 !! q = m !! q.
Proof.
  intros Hq Hd. unfold move_profile. rewrite reads_run by apply load_reads. destruct (loadProfile n m).1 as [p | e]; [| done].
  rewrite run_bind. cbn [snd mret State_ret]. by apply save_other.
Qed.

(** A listed profile that can be loaded is moved; one that was moved stays so. *)
Lemma move_profile_belongs oldName newName n k m : oldName <> newName -> newName <> "" -> read_only n = false ->
  belongs oldName newName n m \/ k = n /\ is_ok (loadProfile n m).1 = true -> belongs oldName newName n (move_profile oldName newName k m).2.
Proof.
  intros Hne Hn Hro Hpre. destruct (decide (k = n)) as [-> | Hk].
  - unfold move_profile. rewrite reads_run by apply load_reads. destruct (loadProfile n m).1 as [p | e]; [| by destruct Hpre as [Hb | [_ ?]]].
    rewrite run_bind. cbn [snd mret State_ret]. destruct (save_ok Hwrite n (regroup oldName newName p) m Hro) as (id & _ & _ & Hf).
    exists (add_group (with_device id (regroup oldName newName p))). split; [exact Hf |]. by apply regrouped_belongs.
  - destruct Hpre as [(p & Hp & Hrest) | [? _]]; [| done]. exists p. split; [| exact Hrest]. rewrite <- Hp.
    apply move_profile_other; [intros E; by apply profilePath_inj in E | apply profilePath_not_state].
Qed.

Lemma move_all_belongs oldName newName names n m : oldName <> newName -> newName <> "" -> read_only n = false ->
  belongs oldName newName n m \/ n ∈ names /\ is_ok (loadProfile n m).1 = true -> belongs oldName newName n (each (move_profile oldName newName) names m).2.
Proof.
  intros Hne Hn Hro. revert m. induction names as [| k names IH]; intros m Hpre.
  { destruct Hpre as [Hb | [Hin _]]; [exact Hb | by apply elem_of_nil in Hin]. }
  rewrite (proj2 (each_step _ _ _ _)). apply IH. destruct (decide (k = n)) as [-> | Hk].
  - left. apply move_profile_belongs; [done | done | done |]. destruct Hpre as [Hb | [_ Hl]]; [by left | by right].
  - destruct Hpre as [Hb | [Hin Hl]]; [left; apply move_profile_belongs; auto |]. right. apply elem_of_cons in Hin as [-> | Hin]; [done |]. split; [done |].
    rewrite (untouched_load n m); [done |]. apply other_untouched with (op := move_profile oldName newName k); [| done].
    intros q m' Hq. apply move_profile_other.
    + destruct Hq as [-> | [u ->]]; [intros E; by apply profilePath_inj in E | apply not_eq_sym, path_not_user].
    + destruct Hq as [-> | [u ->]]; [apply profilePath_not_state | done].
Qed.

Lemma move_all_other oldName newName names q m : q <> DevicePath -> (forall n, n ∈ names -> q <> profilePath n) ->
  (each (move_profile oldName newName) names m).2 !! q = m !! q.
Proof.
  intros Hd Hq. cut (keeps (fun m' => m' !! q = m !! q) (each (move_profile oldName newName) names)); [intros Hk; by apply Hk |].
  apply each_keeps. intros n Hn m' <-. apply move_profile_other; auto.
Qed.

(** A renamed subscription keeps its fields under a name that was free; every listed profile that can be
    loaded belongs to the new name and is in its group instead of the old one, whoever owned it before; and
    no other file changes but the device identifier. *)
Theorem subscription_moved args m rs m' : subscriptionMoveCmd args m = (Ok rs, m') ->
  exists l oldName newName s, parseSubCmdFlags args = Ok (l, [oldName; newName]) /\ (loadSubscription oldName m).1 = Some s /\
    m !! SubscriptionPath newName = None /\ m' !! SubscriptionPath oldName = None /\ m' !! SubscriptionPath newName = Some (SubscriptionFile (renamed newName s)) /\
    (newName <> "" -> forall n, n ∈ SubProfiles s -> read_only n = false -> is_ok (loadProfile n m).1 = true -> belongs oldName newName n m') /\
    forall q, q ∉ [SubscriptionPath oldName; SubscriptionPath newName; DevicePath] -> (forall n, n ∈ SubProfiles s -> q <> profilePath n) -> m' !! q = m !! q.
Proof.
  unfold subscriptionMoveCmd, with_sub. destruct (parseSubCmdFlags args) as [[l names] | e]; [| done].
  destruct names as [| oldName [| newName [|]]]; try done. destruct (String.eqb_spec oldName newName) as [| Hne]; [done |].
  rewrite reads_run by done. rewrite reads_run by done. unfold isSubscriptionName, stat. cbn [gets fst].
  case_bool_decide as Hold; [| done]. case_bool_decide as Hnew; [done |]. cbn [negb]. apply eq_None_not_Some in Hnew.
  assert (reads (loadSubscription oldName)) as Hr by (unfold loadSubscription; by apply reads_bind).
  rewrite reads_run by done. destruct (loadSubscription oldName m).1 as [s |] eqn:Es; [| done].
  unfold saveSubscription. rewrite run_bind, write_run by done. cbn [fst snd negb]. set (m1 := <[_ := _]> m).
  rewrite run_bind. destruct (unlink (SubscriptionPath oldName) m1) as [[] m2] eqn:Eu; cbn [fst snd negb]; [| done].
  rewrite run_bind. intros [= <- <-]. exists l, oldName, newName, s. split; [done |]. split; [done |]. split; [done |].
  pose proof (remove_same (SubscriptionPath oldName) m1) as Hgone. rewrite Eu in Hgone. specialize (Hgone eq_refl). cbn [snd] in Hgone.
  assert (forall q, q <> SubscriptionPath oldName -> m2 !! q = m1 !! q) as H2.
  { intros q Hq. pose proof (remove_other (SubscriptionPath oldName) q m1 (not_eq_sym Hq)) as E. by rewrite Eu in E. }
  assert (forall n x, SubscriptionPath x <> profilePath n) as Hps by (intros n x; apply not_eq_sym, path_not_sub).
  split; [by rewrite move_all_other |]. split; [| split].
  - rewrite move_all_other by done. rewrite H2 by congruence. unfold m1. by rewrite lookup_insert_eq.
  - intros Hn n Hin Hro Hok. apply move_all_belongs; [done | done | done |]. right. split; [done |].
    rewrite (untouched_load n m); [done |]. assert (forall q, (forall x, q <> SubscriptionPath x) -> m2 !! q = m !! q) as Hq.
    { intros q Hq. rewrite H2 by done. unfold m1. by rewrite lookup_insert_ne. }
    split; [apply Hq; intros x; apply not_eq_sym, Hps | intros u; by apply Hq].
  - intros q Hq Hp. rewrite !not_elem_of_cons in Hq. destruct Hq as (Q1 & Q2 & Q3 & _). rewrite move_all_other by done. rewrite H2 by done.
    unfold m1. by rewrite lookup_insert_ne.
Qed.
End moved.

(** ** Removing a subscription *)

Section removed.
Context `{Unicode} `{Disk} (Hremove : forall m p, can_remove m p = true).

Lemma unlink_delete p m : (unlink p m).2 = delete p m.
Proof. unfold unlink. destruct (m !! p) eqn:E; cbn [snd]; [by rewrite Hremove | by rewrite delete_id]. Qed.

Lemma remove_listed_run names m : (remove_listed names m).2 = unlinked names m.
Proof.
  revert m. induction names as [| n names IH]; intros m; [done |]. cbn [remove_listed]. rewrite !run_bind. cbn [snd mret State_ret].
  by rewrite IH, unlink_delete.
Qed.

(** Removing a subscription, once confirmed, deletes its file and those of all profiles it lists, also of one
    that was replaced by the user, and nothing else; unconfirmed it changes nothing. *)
Theorem subscription_removed args answer m :
  let r := subscriptionRemoveCmd args answer m in
  match r.1 with
  | Ok _ => exists l name rest s, parseSubCmdFlags args = Ok (l, name :: rest) /\ (loadSubscription name m).1 = Some s /\
      (switches ["y"; "yes"] l = true \/ agrees answer = true) /\
      forall q, r.2 !! q = if decide (q = SubscriptionPath name \/ q ∈ profilePath <$> SubProfiles s) then None else m !! q
  | Err _ => r.2 = m
  end.
Proof.
  cbv zeta. unfold subscriptionRemoveCmd, with_sub. destruct (parseSubCmdFlags args) as [[l names] | e]; [| done].
  destruct names as [| name rest]; [done |]. assert (reads (loadSubscription name)) as Hr by (unfold loadSubscription; by apply reads_bind).
  rewrite reads_run by done. destruct (loadSubscription name m).1 as [s |] eqn:Es; [| done].
  destruct (switches ["y"; "yes"] l || agrees answer) eqn:Ea; [| done]. rewrite run_bind, run_bind. cbn [fst snd mret State_ret].
  assert (m !! SubscriptionPath name <> None) as Hm.
  { unfold loadSubscription in Es. rewrite reads_run in Es by done. cbn [read gets fst mret State_ret] in Es. by destruct (m !! SubscriptionPath name). }
  rewrite unlink_delete, remove_listed_run.
  assert ((unlink (SubscriptionPath name) (unlinked (SubProfiles s) m)).1 = true) as ->.
  { unfold unlink. rewrite unlinked_lookup, decide_False by (intros (n & E & _)%list_elem_of_fmap; symmetry in E; by apply path_not_sub in E).
    destruct (m !! SubscriptionPath name); [by rewrite Hremove | done]. }
  exists l, name, rest, s. split; [done |]. split; [done |]. split; [by apply orb_true_iff |]. intros q.
  destruct (decide (q = SubscriptionPath name)) as [-> | Hq]; [rewrite lookup_delete_eq, decide_True; [done | by left] |].
  rewrite lookup_delete_ne, unlinked_lookup by done. destruct (decide (q ∈ _)) as [Hin | Hin]; [rewrite decide_True; [done | by right] |].
  rewrite decide_False; [done |]. by intros [? | ?].
Qed.
End removed.

(** ** Examples *)

Section example.
#[local] Existing Instance Targets.example_unicode.
#[local] Existing Instance Targets.example_disk.

Definition example_sub : SubscriptionConfig :=
  {| URL := "https://x"; SubscriptionName := "best"; Description := ""; TrafficUsedMb := f_of_int 0; TrafficLimitMb := f_of_int 0; UpdatedAt := ""; Version := 0;
     SubProfiles := ["sub1"; "home"; "gone"; "sub1"]; LastFetch := "" |}.

(** The profile home is listed but belongs to the user. *)
Definition sub_files : fs := <[SubscriptionPath "best" := SubscriptionFile example_sub]> command_files.

Example dispatch : subscriptionCmd <$> [["-y"; "rm"; "x"]; ["upd"]; ["-y"]; ["list"]] =
  [Sub SubRemove; Sub SubUpdate; NoSubcommand; UnknownSubcommand "list"].
Proof. reflexivity. Qed.

Example move_reports : (subscriptionMoveCmd ["mv"; "best"; "top"] sub_files).1 =
  Ok [("sub1", Updated); ("home", Updated); ("gone", Unloadable Profiles.NotFound); ("sub1", Updated)].
Proof. by vm_compute. Qed.

Lemma subscription_moved_witness :
  belongs "best" "top" "home" (subscriptionMoveCmd ["mv"; "best"; "top"] sub_files).2 /\
  (subscriptionMoveCmd ["mv"; "best"; "top"] sub_files).2 !! StatusPath = sub_files !! StatusPath.
Proof.
  destruct (subscription_moved ltac:(done) ["mv"; "best"; "top"] sub_files _ (subscriptionMoveCmd ["mv"; "best"; "top"] sub_files).2 (pair_of _ _ move_reports))
    as (l & o & n & s & Hl & Hs & _ & _ & _ & Hb & Hq).
  assert (parseSubCmdFlags ["mv"; "best"; "top"] = Ok ([], ["best"; "top"])) as E by (by vm_compute). rewrite E in Hl. injection Hl as <- <- <-.
  assert ((loadSubscription "best" sub_files).1 = Some example_sub) as E' by (by vm_compute). rewrite E' in Hs. injection Hs as <-.
  assert (is_ok (loadProfile "home" sub_files).1 = true) as El by (by vm_compute). split.
  - exact (Hb ltac:(done) "home" ltac:(apply list_elem_of_In; right; by left) eq_refl El).
  - apply Hq; [rewrite !not_elem_of_cons; by split_and!; try apply not_elem_of_nil |]. intros k _ E''. symmetry in E''. by apply profilePath_not_state in E''.
Defined.

Lemma subscription_removed_witness :
  (subscriptionRemoveCmd ["rm"; "best"] "yes" sub_files).1 = Ok 2%nat /\ (subscriptionRemoveCmd ["rm"; "best"] "yes" sub_files).2 !! UserProfile "home" = None.
Proof.
  assert ((subscriptionRemoveCmd ["rm"; "best"] "yes" sub_files).1 = Ok 2%nat) as E by (by vm_compute). split; [exact E |].
  pose proof (subscription_removed ltac:(done) ["rm"; "best"] "yes" sub_files) as Hr. cbv zeta in Hr. rewrite E in Hr.
  destruct Hr as (l & name & rest & s & Hl & Hs & _ & Hq).
  assert (parseSubCmdFlags ["rm"; "best"] = Ok ([], ["best"])) as E1 by (by vm_compute). rewrite E1 in Hl. injection Hl as <- <- <-.
  assert ((loadSubscription "best" sub_files).1 = Some example_sub) as E2 by (by vm_compute). rewrite E2 in Hs. injection Hs as <-.
  rewrite Hq. rewrite decide_True; [done |]. right. apply list_elem_of_In. right. by left.
Defined.
End example.
