(* ===== verification/Listing.v ===== *)
(** * Listing and showing profiles (commands.go, [listCmd] and [showCmd]).

    The texts are rows of data: columns, colours and padding are left out. *)

From S2P Require Import Prelude GoStrings Chars Sorting Url Links Effects Profiles Subscription Targets Flags Commands.
From S2P Require Running.
From Stdlib Require Import ZArith Lia String Ascii.
From stdpp Require Import base list strings gmap sorting.
Open Scope string_scope.
Open Scope Z_scope.

Record profileInfo := {
  i_name : string; i_peer : string; i_hashes : nat; i_enabled : bool; i_priority : Z; i_groups : list string;
  i_running : option (string * Z); i_readOnly : bool; i_subscription : string
}.

Definition list_flags : list (string * kind) :=
  [("en", BoolFlag); ("enabled", BoolFlag); ("dis", BoolFlag); ("disabled", BoolFlag); ("ro", BoolFlag); ("active", BoolFlag); ("A", BoolFlag);
   ("sub", BoolFlag); ("no-ip", BoolFlag)].

Record list_options := { o_enabled : bool; o_disabled : bool; o_ro : bool; o_active : bool; o_sub : bool; o_noIP : bool }.

Definition list_options_of (l : list (string * string)) : list_options :=
  {| o_enabled := switch "en" l || switch "enabled" l; o_disabled := switch "dis" l || switch "disabled" l; o_ro := switch "ro" l;
     o_active := switch "active" l || switch "A" l; o_sub := switch "sub" l; o_noIP := switch "no-ip" l |}.

Record sections := { regular : list profileInfo; subscriptions : list profileInfo; readOnly : list profileInfo }.

(** A row as it is printed: the marks of a running profile and of the one that autoswitch uses. *)
Inductive mode_text := NoMode | TunMode | RawMode | SocksMode (port : Z) | AutoswitchMode.
Record row := { r_info : profileInfo; r_active : bool; r_peer : option string; r_mode : mode_text; r_autoswitch : bool }.

Inductive footer := Autoswitch (mode : string) (port : option Z) (current : string) | AutoswitchOnly (current : string)
| Current (name : string) (mode : mode_text) | NoFooter.

Inductive listing := Nothing (groups : list string) | Rows (regular subscriptions readOnly : list row) (f : footer).

Section listing.
Context `{Unicode} `{Disk} (sys : Running.system).

(** [getRunningProfileDetails] *)
Definition details : gmap string Running.ProfileDetails := Running.getRunningProfileDetails sys.

Definition info_of (isReadOnly : bool) (name : string) (p : ProfileData) (enabled : bool) : profileInfo :=
  {| i_name := name; i_peer := PeerAddr p; i_hashes := length (Profiles.Hashes p); i_enabled := enabled; i_priority := Priority p;
     i_groups := Groups p; i_running := (fun d => (Running.Mode d, Running.SocksPort d)) <$> details !! name;
     i_readOnly := isReadOnly; i_subscription := Subscription p |}.

(** The profiles of a directory that can be loaded. *)
Fixpoint read_infos (isReadOnly : bool) (names : list string) : Files (list profileInfo) :=
  match names with
  | [] => mret []
  | n :: rest =>
      r ← loadProfile n;
      b ← isProfileEnabled n;
      more ← read_infos isReadOnly rest;
      mret (match r with Ok p => info_of isReadOnly n p b :: more | Err _ => more end)
  end.

Definition readProfilesFromDir : Files sections :=
  users ← gets (names_in user_name);
  infos ← read_infos false users;
  ros ← gets (names_in ro_name);
  system ← read_infos true ros;
  mret {| regular := filter (fun i => i_subscription i = "") infos; subscriptions := filter (fun i => i_subscription i <> "") infos; readOnly := system |}.

(** ** Filters *)

Definition in_groups (groups : list string) (i : profileInfo) : Prop := groups = [] \/ Exists (fun g => g ∈ groups) (i_groups i).
#[global] Instance in_groups_dec groups i : Decision (in_groups groups i).
Proof. unfold in_groups. apply _. Defined.

Definition with_status (o : list_options) (i : profileInfo) : Prop :=
  (o_enabled o || o_disabled o = false) \/ (o_enabled o && i_enabled i || o_disabled o && negb (i_enabled i) = true).
#[global] Instance with_status_dec o i : Decision (with_status o i).
Proof. unfold with_status. apply _. Defined.

Definition is_active (o : list_options) (i : profileInfo) : Prop := o_active o = false \/ is_Some (i_running i).
#[global] Instance is_active_dec o i : Decision (is_active o i).
Proof. unfold is_active. apply _. Defined.

Definition each_section (f : list profileInfo -> list profileInfo) (s : sections) : sections :=
  {| regular := f (regular s); subscriptions := f (subscriptions s); readOnly := f (readOnly s) |}.

Definition only_ro (o : list_options) (s : sections) : sections :=
  if o_ro o then {| regular := []; subscriptions := []; readOnly := readOnly s |} else s.
Definition only_sub (o : list_options) (s : sections) : sections :=
  if o_sub o then {| regular := []; subscriptions := filter (fun i => i_subscription i <> "") (subscriptions s); readOnly := [] |} else s.

Definition info_less (a b : profileInfo) : bool :=
  if i_priority a =? i_priority b then string_less (i_name a) (i_name b) else i_priority b <? i_priority a.

Definition select (o : list_options) (groups : list string) (s : sections) : sections :=
  let s := each_section (filter (in_groups groups)) s in
  let s := each_section (filter (with_status o)) s in
  let s := only_sub o (only_ro o s) in
  let s := each_section (filter (is_active o)) s in
  each_section (sort_stable info_less) s.

(** ** Output *)

Definition mode_of (mode : string) (port : Z) : mode_text :=
  if String.eqb mode "socks" then SocksMode port else if String.eqb mode "raw" then RawMode else TunMode.

Definition row_of (o : list_options) (current : string) (i : profileInfo) : row :=
  let is_current := String.eqb current (i_name i) in
  {| r_info := i; r_active := bool_decide (is_Some (i_running i)); r_peer := if o_noIP o then None else Some (i_peer i);
     r_mode := match i_running i with Some (m, port) => mode_of m port | None => if is_current then AutoswitchMode else NoMode end;
     r_autoswitch := is_current && bool_decide (is_Some (i_running i)) |}.

Definition footer_of (current active : string) : footer :=
  match details !! "autoswitch" with
  | Some d => Autoswitch (Running.Mode d) (if String.eqb (Running.Mode d) "socks" then Some (Running.SocksPort d) else None) current
  | None =>
      if String.eqb active "autoswitch" then AutoswitchOnly current
      else if String.eqb active "" then NoFooter
      else Current active (match details !! active with Some d => mode_of (Running.Mode d) (Running.SocksPort d) | None => NoMode end)
  end.

Inductive list_error := ListFlags (e : parse_error) | EnabledAndDisabled.

Definition listCmd (args : list string) : Files (result list_error listing) :=
  s ← readProfilesFromDir;
  match command_line list_flags args with
  | Err e => mret (Err (ListFlags e))
  | Ok (l, groups) =>
      let o := list_options_of l in
      if o_enabled o && o_disabled o then mret (Err EnabledAndDisabled)
      else
        let s := select o groups s in
        if (length (regular s) =? 0)%nat && (length (readOnly s) =? 0)%nat && (length (subscriptions s) =? 0)%nat then mret (Ok (Nothing groups))
        else
          current ← getAutoswitchCurrentProfile;
          active ← getActiveProfile;
          let rows := fmap (row_of o current) in
          mret (Ok (Rows (rows (regular s)) (rows (subscriptions s)) (rows (readOnly s)) (footer_of current active)))
  end.

(** ** Showing *)

Definition show_flags : list (string * kind) := [("group", StringFlag); ("sub", BoolFlag)].

Record shown := {
  s_readOnly : bool; s_peer : string; s_password : string; s_listen : string; s_turn : option string; s_device : option string; s_workers : Z;
  s_enabled : bool; s_priority : Z; s_groups : list string; s_subscription : string; s_running : option Running.ProfileDetails; s_hashes : list string
}.

Definition show_one (name : string) : Files (result profile_error shown) :=
  r ← loadProfile name;
  b ← isProfileEnabled name;
  mret (match r with
    | Err e => Err e
    | Ok p => Ok {| s_readOnly := read_only name; s_peer := PeerAddr p; s_password := maskPassword (Profiles.Password p); s_listen := Listen p;
        s_turn := if String.eqb (TurnHost p) "" then None else Some (TurnHost p ++ ":" ++ TurnPort p);
        s_device := if String.eqb (DeviceID p) "" then None else Some (DeviceID p);
        s_workers := if Profiles.Workers p <=? 0 then defaultWorkers else Profiles.Workers p; s_enabled := b; s_priority := Priority p;
        s_groups := Groups p; s_subscription := Subscription p; s_running := details !! name; s_hashes := Profiles.Hashes p |}
    end).

Fixpoint show_each (names : list string) : Files (list (string * result profile_error shown)) :=
  match names with
  | [] => mret []
  | n :: rest => r ← show_one n; more ← show_each rest; mret ((n, r) :: more)
  end.

Definition showCmd (args : list string) : Command (list (string * result profile_error shown)) :=
  with_line show_flags args (fun l names =>
    let of_subs := switch "sub" l && String.eqb (setting "group" l) "" && (length names =? 0)%nat in
    names ← (if of_subs then profilesInAllSubscriptions else mret names);
    if of_subs && (length names =? 0)%nat then refuse NoSubscriptionProfiles
    else
      names ← collectTargets (setting "group" l) names;
      match names with [] => refuse Usage | _ => r ← show_each names; mret (Ok r) end).

(** ** Which profiles are shown *)

Definition dir_path (isReadOnly : bool) (n : string) : path := if isReadOnly then RoProfile n else UserProfile n.

Lemma names_in_dir isReadOnly n m : n ∈ names_in (if isReadOnly : bool then ro_name else user_name) m <-> m !! dir_path isReadOnly n <> None.
Proof.
  unfold names_in. rewrite sort_stable_perm, list_elem_of_omap. split.
  - intros ([q f] & Hf & E). apply elem_of_map_to_list in Hf. cbn [fst] in E. destruct isReadOnly, q; try discriminate E; injection E as ->; cbn; by rewrite Hf.
  - intros Hn. destruct (m !! dir_path isReadOnly n) as [f |] eqn:E; [| done]. exists (dir_path isReadOnly n, f). split; [by apply elem_of_map_to_list | by destruct isReadOnly].
Qed.

Lemma infos_value ro names m :
  read_infos ro names m = (omap (fun n => match (loadProfile n m).1 with Ok p => Some (info_of ro n p (isProfileEnabled n m).1) | Err _ => None end) names, m).
Proof.
  induction names as [| n names IH]; [done |]. cbn [read_infos omap list_omap]. rewrite reads_run by apply load_reads.
  rewrite reads_run by apply enabled_reads. rewrite run_bind, IH. cbn [fst snd mret State_ret]. by destruct (loadProfile n m).1.
Qed.

(** The information on a profile of a directory. *)
Definition listed (m : fs) (isReadOnly : bool) (i : profileInfo) : Prop :=
  exists n p, m !! dir_path isReadOnly n <> None /\ (loadProfile n m).1 = Ok p /\ i = info_of isReadOnly n p (isProfileEnabled n m).1.

Lemma infos_in ro m i : i ∈ (read_infos ro (names_in (if ro : bool then ro_name else user_name) m) m).1 <-> listed m ro i.
Proof.
  rewrite infos_value. cbn [fst]. rewrite list_elem_of_omap. unfold listed. split.
  - intros (n & Hn & E). apply names_in_dir in Hn. destruct (loadProfile n m).1 as [p |] eqn:El; [| done]. injection E as <-. by exists n, p.
  - intros (n & p & Hn & El & ->). exists n. by rewrite names_in_dir, El.
Qed.

Lemma dirs_read m : readProfilesFromDir m = ({|
  regular := filter (fun i => i_subscription i = "") (read_infos false (names_in user_name m) m).1;
  subscriptions := filter (fun i => i_subscription i <> "") (read_infos false (names_in user_name m) m).1;
  readOnly := (read_infos true (names_in ro_name m) m).1 |}, m).
Proof. unfold readProfilesFromDir. rewrite run_bind. cbn [gets fst snd]. rewrite run_bind, infos_value. cbn [fst snd]. rewrite run_bind. cbn [gets fst snd]. by rewrite run_bind, infos_value. Qed.

(** [sort.Slice] orders infos with different names in one way. *)
Lemma info_order m ro : strict_total info_less (listed m ro).
Proof.
  destruct string_less_order as [Hirr Htrans Htot]. split.
  - intros a _. unfold info_less. rewrite Z.eqb_refl. by apply Hirr.
  - intros a b c _ _ _. unfold info_less.
    destruct (Z.eqb_spec (i_priority a) (i_priority b)), (Z.eqb_spec (i_priority b) (i_priority c)), (Z.eqb_spec (i_priority a) (i_priority c));
      rewrite ?Z.ltb_lt; try lia. by apply Htrans.
  - intros a b (n & p & _ & Hp & ->) (k & q & _ & Hq & ->). unfold info_less. cbn [info_of i_priority i_name].
    destruct (Z.eqb_spec (Priority p) (Priority q)) as [E | E].
    + rewrite E, Z.eqb_refl. intros H1 H2. assert (n = k) as -> by (by apply Htot). rewrite Hp in Hq. by injection Hq as ->.
    + destruct (Z.eqb_spec (Priority q) (Priority p)); [lia |]. rewrite !Z.ltb_ge. lia.
Qed.

(** What the flags and groups let through. *)
Definition passes (o : list_options) (groups : list string) (i : profileInfo) : Prop :=
  in_groups groups i /\ with_status o i /\ is_active o i.

Lemma select_regular o groups s i : i ∈ regular (select o groups s) <-> i ∈ regular s /\ passes o groups i /\ o_ro o = false /\ o_sub o = false.
Proof.
  unfold select, each_section, only_sub, only_ro, passes. destruct (o_ro o), (o_sub o); cbn [regular]; rewrite sort_stable_perm, !list_elem_of_filter; rewrite ?elem_of_nil; naive_solver.
Qed.

Lemma select_subscriptions o groups s i : i ∈ subscriptions (select o groups s) <->
  i ∈ subscriptions s /\ passes o groups i /\ o_ro o = false /\ (o_sub o = true -> i_subscription i <> "").
Proof.
  unfold select, each_section, only_sub, only_ro, passes. destruct (o_ro o), (o_sub o); cbn [subscriptions]; rewrite sort_stable_perm, !list_elem_of_filter; rewrite ?elem_of_nil; naive_solver.
Qed.

Lemma select_readOnly o groups s i : i ∈ readOnly (select o groups s) <-> i ∈ readOnly s /\ passes o groups i /\ o_sub o = false.
Proof.
  unfold select, each_section, only_sub, only_ro, passes. destruct (o_ro o), (o_sub o); cbn [readOnly]; rewrite sort_stable_perm, !list_elem_of_filter; rewrite ?elem_of_nil; naive_solver.
Qed.

Lemma select_sorted o groups s P : strict_total info_less P ->
  (Forall P (regular s) -> StronglySorted (not_less info_less) (regular (select o groups s))) /\
  (Forall P (subscriptions s) -> StronglySorted (not_less info_less) (subscriptions (select o groups s))) /\
  (Forall P (readOnly s) -> StronglySorted (not_less info_less) (readOnly (select o groups s))).
Proof.
  intros Hp. unfold select, each_section, only_sub, only_ro. destruct (o_ro o), (o_sub o); cbn [regular subscriptions readOnly];
    repeat split; intros Hall; apply (sort_stable_sorted info_less P Hp); apply Forall_forall; intros i Hi; rewrite Forall_forall in Hall;
    rewrite !list_elem_of_filter in Hi; rewrite ?elem_of_nil in Hi; naive_solver.
Qed.

Lemma infos_of_rows o current (k : list profileInfo) : r_info <$> (row_of o current <$> k) = k.
Proof. induction k as [| i k IH]; [done |]. cbn [fmap list_fmap]. f_equal. exact IH. Qed.

(** The list shows exactly the profiles that can be loaded and that the flags and groups let through, in
    three sections (the user's own, those of subscriptions, those of the system), each by falling priority. *)
Theorem list_shows args m l groups : command_line list_flags args = Ok (l, groups) ->
  let o := list_options_of l in
  o_enabled o && o_disabled o = false ->
  let shown ro (sub : bool) i := listed m ro i /\ passes o groups i /\ (o_ro o = true -> ro = true) /\ (o_sub o = true -> ro = false /\ sub = true) /\
    (ro = false -> (i_subscription i <> "" <-> sub = true)) in
  match (listCmd args m).1 with
  | Ok (Nothing gs) => gs = groups /\ forall ro sub i, ~ shown ro sub i
  | Ok (Rows own subs system _) =>
      (forall i, i ∈ r_info <$> own <-> shown false false i) /\ (forall i, i ∈ r_info <$> subs <-> shown false true i) /\
      (forall i, i ∈ r_info <$> system <-> shown true false i) /\
      Forall (fun rows => StronglySorted (not_less info_less) (r_info <$> rows)) [own; subs; system]
  | Err _ => False
  end.
Proof.
  intros Hline o Hok shown. unfold listCmd. rewrite run_bind, dirs_read. cbn [fst snd]. rewrite Hline. fold o. rewrite Hok.
  match goal with |- context [select o groups ?s] => set (s0 := s) end. set (s := select o groups s0).
  assert (forall i, i ∈ regular s <-> shown false false i) as Hown.
  { intros i. unfold s, shown. rewrite select_regular. unfold s0. cbn [regular]. rewrite list_elem_of_filter, (infos_in false). destruct (o_ro o), (o_sub o), (decide (i_subscription i = "")); intuition congruence. }
  assert (forall i, i ∈ subscriptions s <-> shown false true i) as Hsubs.
  { intros i. unfold s, shown. rewrite select_subscriptions. unfold s0. cbn [subscriptions]. rewrite list_elem_of_filter, (infos_in false). destruct (o_ro o), (o_sub o), (decide (i_subscription i = "")); intuition congruence. }
  assert (forall i, i ∈ readOnly s <-> shown true false i) as Hro.
  { intros i. unfold s, shown. rewrite select_readOnly. unfold s0. cbn [readOnly]. rewrite (infos_in true). destruct (o_ro o), (o_sub o), (decide (i_subscription i = "")); intuition congruence. }
  destruct ((length (regular s) =? 0)%nat && (length (readOnly s) =? 0)%nat && (length (subscriptions s) =? 0)%nat) eqn:E.
  - cbn [fst mret State_ret]. split; [done |]. rewrite !andb_true_iff, !Nat.eqb_eq in E. destruct E as [[E1%nil_length_inv E2%nil_length_inv] E3%nil_length_inv].
    intros ro sub i Hi. assert (shown false false i \/ shown false true i \/ shown true false i) as Hcase.
    { unfold shown in *. destruct ro, sub, (o_sub o); intuition congruence. }
    rewrite <- Hown, <- Hsubs, <- Hro, E1, E2, E3, !elem_of_nil in Hcase. tauto.
  - rewrite !run_bind. cbn [fst mret State_ret]. rewrite !infos_of_rows.
    split; [done |]. split; [done |]. split; [done |].
    destruct (select_sorted o groups s0 _ (info_order m false)) as (S1 & S2 & _). destruct (select_sorted o groups s0 _ (info_order m true)) as (_ & _ & S3).
    repeat (apply Forall_cons; split); [rewrite infos_of_rows; apply S1 | rewrite infos_of_rows; apply S2 | rewrite infos_of_rows; apply S3 | constructor];
      apply Forall_forall; intros i Hi; apply (infos_in _ m); [by apply list_elem_of_filter in Hi as [_ Hi] | by apply list_elem_of_filter in Hi as [_ Hi] | done].
Qed.
End listing.

(** ** Examples *)

Section example.
#[local] Existing Instance Targets.example_unicode.
#[local] Existing Instance Targets.example_disk.

Definition shown_names (l : listing) : list (list string) :=
  match l with Rows a b c _ => (fun k : list row => (fun r => i_name (r_info r)) <$> k) <$> [a; b; c] | Nothing gs => [gs] end.

Definition list_system : Running.system := Running.example_system "".

Definition list_result (args : list string) : result list_error (list (list string)) :=
  match (listCmd list_system args command_files).1 with Ok l => Ok (shown_names l) | Err e => Err e end.

Example lists : list_result <$> [[]; ["-dis"]; ["eu"; "best"; "-en"]; ["-sub"]; ["-ro"]; ["-sub"; "-ro"]; ["-en"; "--disabled"]; ["-x"]] =
  [Ok [["home"; "srv-1"; "srv-2"]; ["sub1"]; ["ro-srv"]]; Ok [["home"]; []; []]; Ok [["srv-1"]; ["sub1"]; ["ro-srv"]]; Ok [[]; ["sub1"]; []]; Ok [[]; []; ["ro-srv"]];
   Ok [[]]; Err EnabledAndDisabled; Err (ListFlags (Undefined "x"))].
Proof. by vm_compute. Qed.

Definition home_info : profileInfo := info_of list_system false "home" (with_groups ["eu"; "lan"] (example_profile 1)) false.

Lemma list_shows_witness :
  (listCmd list_system ["-dis"] command_files).1 = Ok (Rows [row_of (list_options_of [("dis", "true")]) "" home_info] [] [] (Autoswitch "raw" None "")) /\
  listed list_system command_files false home_info /\ forall i, ~ (listed list_system command_files true i /\ passes (list_options_of [("dis", "true")]) [] i).
Proof.
  assert ((listCmd list_system ["-dis"] command_files).1 = Ok (Rows [row_of (list_options_of [("dis", "true")]) "" home_info] [] [] (Autoswitch "raw" None ""))) as E by (by vm_compute).
  split; [exact E |]. pose proof (list_shows list_system ["-dis"] command_files [("dis", "true")] [] ltac:(by vm_compute) ltac:(by vm_compute)) as Hl.
  rewrite E in Hl. destruct Hl as (Hown & _ & Hro & _). split.
  - exact (proj1 (proj1 (Hown home_info) ltac:(by left))).
  - intros i [Hl Hp]. assert (i ∈ r_info <$> ([] : list row)) as Hi; [| by apply elem_of_nil in Hi].
    apply Hro. split; [exact Hl |]. split; [exact Hp |]. split; [done |]. split; [by vm_compute | done].
Defined.
End example.
