(* ===== verification/Disconnect.v ===== *)
(** * Stopping daemons (commands.go: disconnect, switch; daemon.go; bypass_routes_linux.go).

    A command runs beside the daemons: what it finds (pid files, processes, state files) is a function of
    the calls made so far ([view]), in which signals and pauses count as calls.  The calls on the kernel are
    those of Tunnel.v. *)

From S2P Require Import Prelude GoStrings Chars Url Ip Effects Router WgParse Tunnel Flags Running.
From Stdlib Require Import ZArith Lia String Ascii.
From stdpp Require Import base list strings gmap.
Open Scope string_scope.
Open Scope Z_scope.

(** Calls of the commands. *)
Inductive dcall :=
| Interrupt (pid : Z) | Kill9 (pid : Z) | NextProfile (pid : Z) | Pause2s
| KillCommand (signal pid : string)
| RemovePidFile (profile : string) | RemoveSplit (profile : string) | Notify (profile mode : string)
| ClearActiveFile | ClearAutoswitchFile.

(** ** Routes *)

(** [parseRouteDst] *)
Definition parseRouteDst (s : string) : option IPNet :=
  match ParseCIDR s with
  | Some (_, n) => Some n
  | None => (fun ip => {| net_ip := ip; net_mask := CIDRMask 32 4 |}) <$> ParseIP s
  end.

(** The routes that the daemon adds are found again; a bare IPv6 address gets the mask of an IPv4 one. *)
Example route_dsts : parseRouteDst "1.2.3.4/32" = Some (cidrNet "1.2.3.4/32") /\
  (fun n => (length (net_ip n), length (net_mask n))) <$> parseRouteDst "2001:db8::1" = Some (16%nat, 4%nat) /\ parseRouteDst "x" = None.
Proof. by vm_compute. Qed.

Section disconnect.
Context {key udp : Type} `{Unicode} `{W : @World key udp dcall}.
Abbreviation op := (@op key udp dcall).
Abbreviation tun := (@tun key udp dcall).
Abbreviation M := (State tun).

Class Machine := {
  view : list op -> system;
  self : Z;
  pgrep : list op -> option string;
  proc_cmdline : list op -> string -> option string;
  not_exist : list op -> IPNet -> bool
}.
Context `{Machine}.
(** The order in which Go visits a map, [sort.Slice] for more than twelve elements. *)
Context (visit : gmap string ProfileDetails -> list (string * ProfileDetails)) (pdqsort : (string -> string -> bool) -> list string -> list string).

Definition now : M system := gets (fun s => view (history s)).
Definition act (c : dcall) : M bool := call (App c).

(** [ClearBypassRoutes]: whether it returns nil. *)
Fixpoint ClearBypassRoutes (cidrs : list string) : M bool :=
  match cidrs with
  | [] => mret true
  | c :: rest =>
      match parseRouteDst c with
      | None => ClearBypassRoutes rest
      | Some dst =>
          skipped ← gets (fun s => not_exist (history s) dst);
          b ← call (RouteDel dst);
          ok ← ClearBypassRoutes rest;
          mret (ok && (b || skipped))
      end
  end.

(** ** Killing *)

Definition readPidForProfile (sys : system) (profile : string) : option Z := atoi (trim_space (pid_text sys profile)).

Definition killDaemonProcess (pid : Z) (profile : string) : M bool :=
  if pid =? self then mret false
  else
    _ ← act (Interrupt pid);
    _ ← act Pause2s;
    sys ← now;
    _ ← (if alive sys pid then act (Kill9 pid) else mret true);
    _ ← act (RemovePidFile profile);
    mret true.

Definition killByPidFile (profile : string) : M bool :=
  sys ← now;
  match readPidForProfile sys profile with
  | None => mret false
  | Some pid => if pid =? 0 then mret false else killDaemonProcess pid profile
  end.

(** A process that the search is for: another one whose command line holds the name somewhere. *)
Definition matches (target pid : string) : M bool :=
  if String.eqb pid "" || String.eqb pid (itoa self) then mret false
  else c ← gets (fun s => proc_cmdline (history s) pid); mret (match c with Some data => contains target data | None => false end).

Fixpoint interrupt_all (target : string) (pids : list string) : M unit :=
  match pids with
  | [] => mret tt
  | pid :: rest => b ← matches target pid; _ ← (if b : bool then act (KillCommand "-INT" pid) else mret true); interrupt_all target rest
  end.

Fixpoint kill_all (target : string) (pids : list string) : M unit :=
  match pids with
  | [] => mret tt
  | pid :: rest =>
      b ← matches target pid;
      _ ← (if b : bool then there ← act (KillCommand "-0" pid); if there : bool then act (KillCommand "-9" pid) else mret true else mret true);
      kill_all target rest
  end.

Definition killByPgrep (target : string) : M unit :=
  out ← gets (fun s => pgrep (history s));
  match out with
  | None => mret tt
  | Some text =>
      let pids := trim_space <$> split_on (byte 10) (trim_space text) in
      _ ← interrupt_all target pids; _ ← act Pause2s; kill_all target pids
  end.

Definition kill_daemon (profile : string) : M unit :=
  b ← killByPidFile profile; if b : bool then mret tt else killByPgrep profile.

(** ** What runs *)

Definition mode_in (d : gmap string ProfileDetails) (p : string) : string := match d !! p with Some x => Mode x | None => "tun" end.

(** The comparison of the sort: tun before socks, else by name. *)
Definition goes_before (d : gmap string ProfileDetails) (a b : string) : bool :=
  if String.eqb (mode_in d a) "tun" && String.eqb (mode_in d b) "socks" then true
  else if String.eqb (mode_in d a) "socks" && String.eqb (mode_in d b) "tun" then false
  else string_less a b.

(** [sort.Slice] up to twelve elements: insertion from the left, past the greater ones before it. *)
Fixpoint insert_back {A} (less : A -> A -> bool) (x : A) (rev_sorted : list A) : list A :=
  match rev_sorted with
  | [] => [x]
  | y :: rest => if less x y then y :: insert_back less x rest else x :: rev_sorted
  end.
Definition insertion_sort {A} (less : A -> A -> bool) (l : list A) : list A := rev (foldl (fun acc x => insert_back less x acc) [] l).
Definition sort_slice (less : string -> string -> bool) (l : list string) : list string :=
  if (length l <=? 12)%nat then insertion_sort less l else pdqsort less l.

Definition running_names (sys : system) : list string :=
  (filter (fun n => n <> "autoswitch") (fst <$> visit (getRunningProfileDetails sys)) ++
   (if isDaemonRunning sys "autoswitch" then ["autoswitch"] else []))%list.

(** ** disconnect *)

Inductive ending :=
| AllWithNames | NothingRuns | BadChoice | NotConfirmed | Redirected (profile : string) | Disconnected (profile : string) | AllDisconnected
| BadLine (e : parse_error).

(** The profile to stop; [choice] is the number typed at the selection. *)
Definition choose_target (sys : system) (names : list string) (choice : option Z) : result ending string :=
  let details := getRunningProfileDetails sys in
  let running := running_names sys in
  let explicit := match names with n :: _ => Some n | [] => None end in
  let target := match explicit with Some n => n | None => "" end in
  let target := if String.eqb target "" then active_profile sys else target in
  if String.eqb target "" || (1 <? length running)%nat && negb (bool_decide (is_Some explicit)) then
    if (length running =? 0)%nat then Err NothingRuns
    else
      let running := sort_slice (goes_before details) running in
      if (length running =? 1)%nat then Ok (nth 0 running "")
      else
        match choice with
        | Some c => if (1 <=? c) && (c <=? Z.of_nat (length running)) then Ok (nth (Z.to_nat (c - 1)) running "") else Err BadChoice
        | None => Err BadChoice
        end
  else Ok target.

Definition saved_routes (sys : system) (profile : string) : list string := s_routes (split_of sys profile).

(** The other profile whose record is cleaned up with the target's. *)
Definition other_record (sys : system) (target : string) : option string :=
  let cur := autoswitch_current sys in
  if negb (String.eqb cur "") && negb (String.eqb cur target) then Some cur else None.

Definition clear_saved (routes : list string) : M unit := match routes with [] => mret tt | _ => _ ← ClearBypassRoutes routes; mret tt end.

(** The interface goes unless it was that of raw mode, which the daemon closes; the active profile is forgotten. *)
Definition forget_active (raw : bool) : M unit :=
  _ ← (if raw then mret true else teardownWG); _ ← act ClearActiveFile; mret tt.

Definition stop_profile (target mode : string) : M ending :=
  sys ← now;
  let wasActive := String.eqb (active_profile sys) target in
  _ ← kill_daemon target;
  sys ← now;
  let saved := (match other_record sys target with Some cur => saved_routes sys cur | None => [] end ++ saved_routes sys target)%list in
  _ ← act (RemoveSplit target);
  sys ← now;
  _ ← (match other_record sys target with Some cur => act (RemoveSplit cur) | None => mret true end);
  _ ← act (Notify target mode);
  _ ← (if wasActive then forget_active (String.eqb mode "raw") else mret tt);
  _ ← clear_saved saved;
  mret (Disconnected target).

(** The autoswitch daemon that runs the target, if it is to move on to its next profile instead. *)
Definition redirect_to (sys : system) (target : string) : option Z :=
  if isDaemonRunning sys "autoswitch" && negb (String.eqb target "") && negb (String.eqb target "autoswitch") && String.eqb (autoswitch_current sys) target then
    match readPidForProfile sys "autoswitch" with Some pid => if 0 <? pid then Some pid else None | None => None end
  else None.

Definition disconnect_one (sys : system) (target : string) : M ending :=
  let mode := mode_in (getRunningProfileDetails sys) target in
  match redirect_to sys target with
  | Some pid =>
      _ ← act (NextProfile pid); _ ← act ClearAutoswitchFile; _ ← act (Notify target mode); mret (Redirected target)
  | None => stop_profile target mode
  end.

(** *** All profiles *)

(** [disconnectSingleProfile]: the routes recorded for the profile. *)
Definition disconnectSingleProfile (target : string) (details : gmap string ProfileDetails) (skipKill : bool) : M (list string) :=
  _ ← (if skipKill then mret tt else kill_daemon target);
  sys ← now;
  let routes := saved_routes sys target in
  _ ← act (RemoveSplit target);
  _ ← act (Notify target (mode_in details target));
  mret routes.

Definition own_pid_file (sys : system) (profile : string) : bool := bool_decide (("qwdtt-" ++ profile ++ ".pid") ∈ pid_dir sys).

Fixpoint disconnect_each (profiles : list string) (details : gmap string ProfileDetails) (autoswitchCurrent : string) : M (list string) :=
  match profiles with
  | [] => mret []
  | p :: rest =>
      if String.eqb p "autoswitch" then disconnect_each rest details autoswitchCurrent
      else
        sys ← now;
        routes ← disconnectSingleProfile p details (negb (own_pid_file sys p) || String.eqb p autoswitchCurrent);
        more ← disconnect_each rest details autoswitchCurrent;
        mret (routes ++ more)%list
  end.

Definition disconnectAllProfiles (running : list string) (details : gmap string ProfileDetails) (skipConfirm : bool) (answer : string) : M ending :=
  if (length running =? 0)%nat then mret NothingRuns
  else
    let running := sort_slice (goes_before details) running in
    let a := to_lower (trim_space answer) in
    if negb skipConfirm && negb (String.eqb a "y" || String.eqb a "yes") then mret NotConfirmed
    else
      sys ← now;
      let auto := isDaemonRunning sys "autoswitch" in
      let cur := if auto then autoswitch_current sys else "" in
      _ ← (if auto then _ ← kill_daemon "autoswitch"; _ ← act ClearAutoswitchFile; mret tt else mret tt);
      sys ← now;
      let activeProfile := active_profile sys in
      routes ← disconnect_each running details cur;
      _ ← (if existsb (fun p => negb (String.eqb p "autoswitch") && String.eqb p activeProfile) running then
             forget_active (match details !! activeProfile with Some d => String.eqb (Mode d) "raw" | None => false end)
           else mret tt);
      _ ← clear_saved routes;
      mret AllDisconnected.

Definition disconnect_flags : list (string * kind) := [("all", BoolFlag); ("y", BoolFlag); ("yes", BoolFlag)].

Definition disconnectCmd (args : list string) (choice : option Z) (answer : string) : M ending :=
  match command_line disconnect_flags args with
  | Err e => mret (BadLine e)
  | Ok (l, names) =>
      sys ← now;
      if switch "all" l then
        match names with
        | [] => disconnectAllProfiles (running_names sys) (getRunningProfileDetails sys) (switches ["y"; "yes"] l) answer
        | _ => mret AllWithNames
        end
      else match choose_target sys names choice with Err e => mret e | Ok target => disconnect_one sys target end
  end.

(** ** switch *)

Inductive switch_ending := NoAutoswitch | NoPid | SignalFailed | SwitchedFrom (profile : string).

Definition switchCmd : M switch_ending :=
  sys ← now;
  if negb (isDaemonRunning sys "autoswitch") then mret NoAutoswitch
  else
    let current := autoswitch_current sys in
    match readPidForProfile sys "autoswitch" with
    | None => mret NoPid
    | Some pid =>
        if pid <=? 0 then mret NoPid
        else
          b ← act (NextProfile pid);
          if negb b then mret SignalFailed
          else
            _ ← act ClearAutoswitchFile;
            if String.eqb current "" then mret (SwitchedFrom "")
            else sys ← now; _ ← act (Notify current (mode_in (getRunningProfileDetails sys) current)); mret (SwitchedFrom current)
    end.
End disconnect.

(** ** No record is forgotten *)

Section records.
Context {key udp : Type} `{Unicode} `{W : @World key udp dcall}.
Abbreviation op := (@op key udp dcall).
Abbreviation tun := (@tun key udp dcall).
Abbreviation M := (State tun).
Context `{Mc : @Machine key udp}.

(** The routes that a state file records. *)
Definition recorded (h : list op) (profile : string) : list IPNet := omap parseRouteDst (saved_routes (view h) profile).

(** The routes of removed state files that were not deleted after the removal. *)
Fixpoint owed (h : list op) : list IPNet :=
  match h with
  | [] => []
  | App (RemoveSplit p) :: h' => (recorded h' p ++ owed h')%list
  | RouteDel d :: h' => filter (fun x => x <> d) (owed h')
  | _ :: h' => owed h'
  end.

Context (start : list IPNet).

(** Only routes in [X] are owed beyond those at the start. *)
Definition owing (X : list IPNet) (s : tun) : Prop := owed (history s) ⊆ (X ++ start)%list.

Definition removes (o : op) : bool := match o with App (RemoveSplit _) => true | _ => false end.

Lemma owed_call o h : removes o = false -> owed (o :: h) ⊆ owed h.
Proof. destruct o as [| | | | | | | | | |d| | | | | | | |[]]; try done. intros _ x [_ Hx]%list_elem_of_filter. done. Qed.

Lemma ask_owing {A} X (f : list op -> A) o : removes o = false -> keeps (owing X) (ask f o).
Proof. intros Ho. apply ask_keeps. intros s Hs. unfold owing in *. cbn [history with_history]. by pose proof (owed_call o (history s) Ho); set_solver. Qed.

Lemma owing_weaken X Y s : X ⊆ Y -> owing X s -> owing Y s.
Proof. unfold owing. set_solver. Qed.

Lemma vars_owing X s s' : history s' = history s -> owing X s -> owing X s'.
Proof. unfold owing. by intros ->. Qed.

Lemma modify_owing X f : (forall s, history (f s) = history s) -> keeps (owing X) (modify f).
Proof. intros Hf s. apply vars_owing, Hf. Qed.
#[local] Hint Resolve ask_owing : effects.

Lemma act_owing X c : removes (App c) = false -> keeps (owing X) (act c).
Proof. apply ask_owing. Qed.
Lemma call_owing X o : removes o = false -> keeps (owing X) (call o).
Proof. apply ask_owing. Qed.
Lemma now_owing X : keeps (owing X) now.
Proof. apply keeps_gets. Qed.
#[local] Hint Resolve act_owing call_owing now_owing : effects.

Lemma delete_owing X l : keeps (owing X) (delete_routes l).
Proof. induction l as [| d l IH]; simpl; keep. Qed.
Lemma set_split_owing X l : keeps (owing X) (set_split l).
Proof. by apply modify_owing. Qed.
Lemma set_turn_owing X l : keeps (owing X) (set_turn l).
Proof. by apply modify_owing. Qed.
#[local] Hint Resolve delete_owing set_split_owing set_turn_owing : effects.
Lemma teardown_owing X : keeps (owing X) teardownWG.
Proof. unfold teardownWG, teardownTunnelRoutes, clearSplitRoutes. keep. Qed.
#[local] Hint Resolve teardown_owing : effects.

Lemma matches_owing X t pid : keeps (owing X) (matches t pid).
Proof. unfold matches. keep. Qed.
#[local] Hint Resolve matches_owing : effects.
Lemma interrupt_owing X t pids : keeps (owing X) (interrupt_all t pids).
Proof. induction pids as [| pid pids IH]; simpl; keep. Qed.
Lemma kill_owing X t pids : keeps (owing X) (kill_all t pids).
Proof. induction pids as [| pid pids IH]; simpl; keep. Qed.
#[local] Hint Resolve interrupt_owing kill_owing : effects.
Lemma kill_daemon_owing X p : keeps (owing X) (kill_daemon p).
Proof. unfold kill_daemon, killByPidFile, killDaemonProcess, killByPgrep. keep. Qed.
#[local] Hint Resolve kill_daemon_owing : effects.
Lemma forget_owing X raw : keeps (owing X) (forget_active raw).
Proof. unfold forget_active. keep. Qed.
#[local] Hint Resolve forget_owing : effects.

(** Deleting the routes settles what is owed. *)
Lemma clear_owing X cidrs : sat (owing (omap parseRouteDst cidrs ++ X)) (ClearBypassRoutes cidrs) (fun _ => owing X).
Proof.
  induction cidrs as [| c cidrs IH]; cbn [ClearBypassRoutes omap list_omap]; [apply keeps_ret |].
  destruct (parseRouteDst c) as [d |]; [| exact IH].
  apply (sat_bind _ _ (fun _ => owing ((d :: omap parseRouteDst cidrs) ++ X))); [apply keeps_gets | intros skipped].
  apply (sat_bind _ _ (fun _ => owing (omap parseRouteDst cidrs ++ X))); [| intros b].
  - intros s Hs. unfold owing, call, ask in *. cbn [fst snd with_history history owed].
    intros x [Hx Hin]%list_elem_of_filter. apply Hs in Hin. set_solver.
  - eapply sat_bind; [exact IH | intros ok]. apply keeps_ret.
Qed.

Lemma clear_saved_owing X routes : sat (owing (omap parseRouteDst routes ++ X)) (clear_saved routes) (fun _ => owing X).
Proof.
  unfold clear_saved. destruct routes as [| r routes]; [apply keeps_ret |].
  eapply sat_bind; [apply clear_owing | intros b]. apply keeps_ret.
Qed.

(** A record that is removed right after it was read. *)
Lemma remove_owing X s p : owing X s -> owing (recorded (history s) p ++ X) (act (RemoveSplit p) s).2.
Proof. unfold owing, act, call, ask. cbn [fst snd with_history history owed]. set_solver. Qed.

Lemma single_owing X p details skip :
  sat (owing X) (disconnectSingleProfile p details skip) (fun routes => owing (omap parseRouteDst routes ++ X)).
Proof.
  unfold disconnectSingleProfile. apply (sat_bind _ _ (fun _ => owing X)); [keep | intros []].
  intros s Hs. rewrite run_bind. cbn [now gets fst snd]. rewrite run_bind. rewrite run_bind. cbn [fst snd mret State_ret].
  apply act_owing; [done |]. by apply remove_owing.
Qed.

Lemma each_owing X profiles details cur :
  sat (owing X) (disconnect_each profiles details cur) (fun routes => owing (omap parseRouteDst routes ++ X)).
Proof.
  revert X. induction profiles as [| p profiles IH]; intros X; cbn [disconnect_each]; [by apply sat_ret |].
  destruct (String.eqb p "autoswitch"); [apply IH |].
  apply (sat_bind _ _ (fun _ => owing X)); [apply now_owing | intros sys].
  eapply sat_bind; [apply single_owing | intros routes]. eapply sat_bind; [apply IH | intros more].
  apply sat_ret. intros s Hs. rewrite omap_app. eapply owing_weaken; [| exact Hs]. set_solver.
Qed.

(** What removing a state file does not change. *)
Definition removal_local : Prop := forall h p, let h' := App (RemoveSplit p) :: h in
  autoswitch_current (view h') = autoswitch_current (view h) /\ forall q, q <> p -> split_of (view h') q = split_of (view h) q.

Lemma stop_owing X target mode : removal_local -> keeps (owing X) (stop_profile target mode).
Proof.
  intros Hlocal. unfold stop_profile. apply keeps_bind; [apply now_owing | intros sys0]. apply keeps_bind; [apply kill_daemon_owing | intros []].
  intros s Hs. rewrite run_bind. cbn [now gets fst snd]. set (sys := view (history s)). set (saved := (_ ++ saved_routes sys target)%list).
  rewrite run_bind. set (s1 := (act (RemoveSplit target) s).2).
  assert (history s1 = App (RemoveSplit target) :: history s) as Eh by done.
  assert (owing (omap parseRouteDst (saved_routes sys target) ++ X) s1) as Hs1 by (by apply remove_owing).
  rewrite run_bind. cbn [now gets fst snd]. rewrite Eh. destruct (Hlocal (history s) target) as [Hcur Hsplit].
  assert (other_record (view (App (RemoveSplit target) :: history s)) target = other_record sys target) as -> by (unfold other_record; by rewrite Hcur).
  rewrite run_bind. set (s2 := (_ s1).2).
  assert (owing (omap parseRouteDst saved ++ X) s2) as Hs2.
  { unfold s2, saved. destruct (other_record sys target) as [cur |] eqn:E; [| exact Hs1].
    assert (cur <> target) as Hne.
    { unfold other_record in E. destruct (_ && _) eqn:Eb; [| done]. apply andb_true_iff in Eb as [_ Eb%negb_true_iff%String.eqb_neq]. by injection E as <-. }
    pose proof (remove_owing _ s1 cur Hs1) as Hs2. unfold recorded, saved_routes in Hs2. rewrite Eh, Hsplit in Hs2 by done. fold sys in Hs2.
    eapply owing_weaken; [| exact Hs2]. rewrite omap_app. unfold saved_routes. set_solver. }
  clearbody s2. cbv beta.
  match goal with |- owing X (?m s2).2 => assert (sat (owing (omap parseRouteDst saved ++ X)) m (fun _ => owing X)) as Hrest; [| by apply Hrest] end.
  apply (sat_bind _ _ (fun _ => owing (omap parseRouteDst saved ++ X))); [by apply act_owing | intros ?].
  apply (sat_bind _ _ (fun _ => owing (omap parseRouteDst saved ++ X))); [keep | intros []].
  eapply sat_bind; [apply clear_saved_owing | intros []]. apply keeps_ret.
Qed.
End records.

(** ** Commands *)

Section commands.
Context {key udp : Type} `{Unicode} `{W : @World key udp dcall} `{Mc : @Machine key udp}.
Abbreviation op := (@op key udp dcall).
Abbreviation tun := (@tun key udp dcall).
Abbreviation M := (State tun).
Context (visit : gmap string ProfileDetails -> list (string * ProfileDetails)) (pdqsort : (string -> string -> bool) -> list string -> list string).

Lemma command_owing start args choice answer : removal_local -> keeps (owing start []) (disconnectCmd visit pdqsort args choice answer).
Proof.
  intros Hlocal. unfold disconnectCmd. destruct (command_line _ _) as [[l names] | e]; [| apply keeps_ret].
  apply keeps_bind; [apply now_owing | intros sys]. destruct (switch "all" l).
  - destruct names; [| apply keeps_ret]. unfold disconnectAllProfiles. destruct (_ =? 0)%nat; [apply keeps_ret |]. destruct (_ && _); [apply keeps_ret |].
    apply keeps_bind; [apply now_owing | intros sys'].
    apply keeps_bind; [destruct (isDaemonRunning _ _); [| apply keeps_ret]; apply keeps_bind; [apply kill_daemon_owing | intros []]; apply keeps_bind; [by apply act_owing | intros ?; apply keeps_ret] | intros []].
    apply keeps_bind; [apply now_owing | intros sys2]. eapply sat_bind; [apply each_owing | intros routes].
    apply (sat_bind _ _ (fun _ => owing start (omap parseRouteDst routes ++ []))); [destruct (existsb _ _); [apply forget_owing | apply keeps_ret] | intros []].
    eapply sat_bind; [apply clear_saved_owing | intros []]. apply keeps_ret.
  - destruct (choose_target _ _ _ _ _) as [target | e]; [| apply keeps_ret]. unfold disconnect_one. destruct (redirect_to sys target); [| by apply stop_owing].
    repeat (apply keeps_bind; [by apply act_owing | intros ?]). apply keeps_ret.
Qed.

(** A route that is recorded in a removed file is deleted later, or still owed. *)
Lemma owed_later (h2 h1 : list op) p d : d ∈ recorded h1 p -> RouteDel d ∈ h2 \/ d ∈ owed (h2 ++ App (RemoveSplit p) :: h1).
Proof.
  intros Hd. induction h2 as [| o h2 IH]; [right; cbn; by apply elem_of_app; left |].
  destruct IH as [IH | IH]; [left; by right |].
  destruct o as [| | | | | | | | | |d'| | | | | | | |[]]; try (by right); cbn [owed app].
  - destruct (decide (d' = d)) as [-> | Hne]; [left; by left |]. right. apply list_elem_of_filter. by split; [apply not_eq_sym |].
  - right. apply elem_of_app. by right.
Qed.

(** C23: disconnect forgets no route: when it removes the state file of a profile, every route recorded there is
    deleted from the kernel before the command ends, whichever profiles it stops and however it is called. *)
Theorem disconnect_settles args choice answer s h2 h1 p c d : removal_local -> history s = [] ->
  history (disconnectCmd visit pdqsort args choice answer s).2 = (h2 ++ App (RemoveSplit p) :: h1)%list ->
  c ∈ saved_routes (view h1) p -> parseRouteDst c = Some d -> RouteDel d ∈ h2.
Proof.
  intros Hlocal Hs Hh Hc Hd.
  assert (owing [] [] (disconnectCmd visit pdqsort args choice answer s).2) as Ho by (apply command_owing; [done |]; unfold owing; by rewrite Hs).
  unfold owing in Ho. rewrite Hh in Ho.
  destruct (owed_later h2 h1 p d) as [Hin | Hin]; [apply list_elem_of_omap; by exists c | done |]. apply Ho in Hin. by apply elem_of_nil in Hin.
Qed.

(** *** What is stopped *)

(** A killed process is gone, and its identifier is not used again. *)
Definition kills (pid : Z) : Prop :=
  (forall (h : list op), alive (view (App (Kill9 pid) :: h)) pid = false) /\
  (forall (h : list op) o, alive (view h) pid = false -> alive (view (o :: h)) pid = false).

Definition dead (pid : Z) (s : tun) : Prop := alive (view (history s)) pid = false.

Section monotone.
Context (P : tun -> Prop) (Hm : monotone P).
Lemma mono_act c : keeps P (act c).
Proof. by apply mono_do. Qed.
Lemma mono_now : keeps P now.
Proof. apply keeps_gets. Qed.
#[local] Hint Resolve mono_act mono_now : effects.
Lemma mono_call o : keeps P (call o).
Proof. by apply mono_do. Qed.
#[local] Hint Resolve mono_call : effects.
Lemma mono_clear_routes cidrs : keeps P (ClearBypassRoutes cidrs).
Proof. induction cidrs as [| c cidrs IH]; simpl; keep. Qed.
#[local] Hint Resolve mono_clear_routes : effects.
Lemma mono_clear_saved cidrs : keeps P (clear_saved cidrs).
Proof. unfold clear_saved. keep. Qed.
Lemma mono_matches t pid : keeps P (matches t pid).
Proof. unfold matches. keep. Qed.
#[local] Hint Resolve mono_matches : effects.
Lemma mono_interrupt t pids : keeps P (interrupt_all t pids).
Proof. induction pids as [| pid pids IH]; simpl; keep. Qed.
Lemma mono_kill t pids : keeps P (kill_all t pids).
Proof. induction pids as [| pid pids IH]; simpl; keep. Qed.
#[local] Hint Resolve mono_interrupt mono_kill : effects.
Lemma mono_kill_daemon p : keeps P (kill_daemon p).
Proof. unfold kill_daemon, killByPidFile, killDaemonProcess, killByPgrep. keep. Qed.
Lemma mono_forget raw : keeps P (forget_active raw).
Proof. unfold forget_active. apply keeps_bind; [destruct raw; [apply keeps_ret | by apply mono_teardown] | intros ?]. keep. Qed.
End monotone.
#[local] Hint Resolve mono_act mono_now mono_clear_saved mono_kill_daemon mono_forget : effects.

Lemma dead_monotone pid : kills pid -> monotone (dead pid).
Proof. intros [_ Hk]. split; [intros s o; apply Hk | intros s s'; unfold dead; by intros ->]. Qed.

(** The interface was looked up and, if it was there, its deletion issued. *)
Definition interface_deleted (s : tun) : Prop := exists h,
  (LinkDel :: LinkByName wgIface :: h) `suffix_of` history s \/
  ((LinkByName wgIface :: h) `suffix_of` history s /\ succeeds h (LinkByName wgIface) = false).

Lemma suffix_monotone h : monotone (fun s : tun => h `suffix_of` history s).
Proof. split; [intros s o Hs; by apply suffix_cons_r | by intros s s' ->]. Qed.

Lemma interface_monotone : monotone interface_deleted.
Proof.
  split; [intros s o [h Hs] | intros s s' E [h Hs]]; exists h.
  - destruct Hs as [Hs | [Hs Hf]]; [left | right; split; [| done]]; by apply suffix_cons_r.
  - by rewrite E.
Qed.

Lemma teardown_deletes s : interface_deleted (teardownWG s).2.
Proof.
  unfold teardownWG. rewrite run_bind, run_bind. set (t := (teardownTunnelRoutes s).2). unfold call at 2 3, ask. cbn [fst snd].
  exists (history t). change (call (LinkByName wgIface) t).1 with (succeeds (history t) (LinkByName wgIface)). destruct (succeeds (history t) (LinkByName wgIface)) eqn:E; [left; reflexivity |]. right. split; [reflexivity | done].
Qed.

Lemma forget_deletes s : interface_deleted (forget_active false s).2.
Proof.
  unfold forget_active. rewrite run_bind, run_bind. cbn [fst snd mret State_ret].
  apply mono_act; [apply interface_monotone | apply teardown_deletes].
Qed.

Lemma forget_clears raw s : issued [App ClearActiveFile] (forget_active raw s).2.
Proof. unfold forget_active. rewrite run_bind, run_bind. cbn [fst snd mret State_ret]. constructor; [by left | constructor]. Qed.

(** Between two histories the pid file of a profile names its daemon as long as that lives. *)
Definition lasts (h0 h1 : list op) (p : string) (pid : Z) : Prop := forall h, h0 `suffix_of` h -> h `suffix_of` h1 ->
  alive (view h) pid = true -> own_pid_file (view h) p = true /\ readPidForProfile (view h) p = Some pid.

Lemma lasts_within h0 h1 h2 h3 p pid : h0 `suffix_of` h2 -> h3 `suffix_of` h1 -> lasts h0 h1 p pid -> lasts h2 h3 p pid.
Proof. intros H0 H1 Hl h Hh2 Hh3. apply Hl; by etrans. Qed.

(** The daemon of a pid file does not outlive the command. *)
Lemma kill_daemon_dead p pid : kills pid -> pid <> 0 -> pid <> self ->
  sat (fun s => readPidForProfile (view (history s)) p = Some pid) (kill_daemon p) (fun _ s => dead pid s /\ issued [App (RemovePidFile p)] s).
Proof.
  intros Hk H0 Hs s Hp. unfold kill_daemon, killByPidFile. rewrite run_bind. rewrite (run_bind now). cbn [now gets fst snd]. rewrite Hp.
  destruct (Z.eqb_spec pid 0); [done |]. unfold killDaemonProcess. destruct (Z.eqb_spec pid self); [done |].
  rewrite run_bind. rewrite run_bind. rewrite (run_bind now). cbn [now gets fst snd]. set (s2 := (act Pause2s _).2).
  rewrite run_bind. set (s3 := (_ s2).2). rewrite run_bind. cbn [fst snd mret State_ret]. split; [| by constructor; [left | constructor]].
  assert (dead pid s3) as H3; [| by apply (mono_act _ (dead_monotone pid Hk))].
  unfold s3. destruct (alive (view (history s2)) pid) eqn:Ea; [| exact Ea]. destruct Hk as [Hk _]. unfold dead. apply Hk.
Qed.

(** What stopping a profile does beside its routes. *)
Lemma stop_does target mode s : let r := stop_profile target mode s in
  r.1 = Disconnected target /\ issued [App (RemoveSplit target); App (Notify target mode)] r.2 /\
  (active_profile (view (history s)) = target -> issued [App ClearActiveFile] r.2 /\ (mode <> "raw" -> interface_deleted r.2)) /\
  forall pid, kills pid -> pid <> 0 -> pid <> self -> readPidForProfile (view (history s)) target = Some pid -> dead pid r.2 /\ issued [App (RemovePidFile target)] r.2.
Proof.
  cbv zeta. unfold stop_profile. rewrite (run_bind now). cbn [now gets fst snd]. rewrite run_bind. set (s1 := (kill_daemon target s).2).
  rewrite (run_bind now). cbn [now gets fst snd]. rewrite run_bind. set (s2 := (act (RemoveSplit target) s1).2).
  rewrite (run_bind now). cbn [now gets fst snd]. rewrite run_bind. set (s3 := (_ s2).2). rewrite run_bind. set (s4 := (act (Notify target mode) s3).2).
  rewrite run_bind. set (s5 := (_ s4).2). rewrite run_bind. set (s6 := (_ s5).2). cbn [fst snd mret State_ret].
  assert (forall P, monotone P -> P s5 -> P s6) as M5 by (intros P HP HPs; by apply mono_clear_saved).
  assert (forall P, monotone P -> P s4 -> P s6) as M4 by (intros P HP HPs; apply M5; [done |]; unfold s5; destruct (String.eqb _ _); [by apply mono_forget | done]).
  assert (forall P, monotone P -> P s2 -> P s6) as M2.
  { intros P HP HPs. apply M4; [done |]. apply mono_act; [done |]. unfold s3. destruct (other_record _ _); [by apply mono_act | done]. }
  assert (forall (o : op) h, history s2 = o :: h -> issued [o] s6) as I2 by (intros o h E; apply M2; [apply issued_monotone |]; constructor; [rewrite E; by left | constructor]).
  split; [done |]. split; [| split].
  - pose proof (I2 _ _ eq_refl) as I1. apply Forall_cons in I1 as [I1 _].
    assert (issued [App (Notify target mode)] s6) as I3 by (apply M4; [apply issued_monotone |]; constructor; [by left | constructor]).
    by constructor.
  - intros Ha. unfold s5 in M5. rewrite Ha, String.eqb_refl in M5. split; [apply M5; [apply issued_monotone | apply forget_clears] |]. intros Hraw.
    apply M5; [apply interface_monotone |]. rewrite (proj2 (String.eqb_neq mode "raw")) by done. apply forget_deletes.
  - intros pid Hk H0 Hself Hp. destruct (kill_daemon_dead target pid Hk H0 Hself s Hp) as [Hd Hi]. fold s1 in Hd, Hi.
    assert (forall P, monotone P -> P s1 -> P s6) as M1 by (intros P HP HPs; apply M2; [done |]; by apply mono_act).
    split; [by apply M1; [apply dead_monotone |] | by apply M1; [apply issued_monotone |]].
Qed.

Lemma single_does p details skip s : issued [App (RemoveSplit p); App (Notify p (mode_in details p))] (disconnectSingleProfile p details skip s).2.
Proof.
  unfold disconnectSingleProfile. rewrite run_bind. rewrite (run_bind now). cbn [now gets fst snd]. rewrite run_bind. rewrite run_bind. cbn [fst snd mret State_ret].
  constructor; [right; by left |]. constructor; [by left | constructor].
Qed.

Lemma mono_each (P : tun -> Prop) profiles details cur : monotone P -> keeps P (disconnect_each profiles details cur).
Proof.
  intros HP. induction profiles as [| p profiles IH]; simpl; [apply keeps_ret |]. destruct (String.eqb p "autoswitch"); [exact IH |].
  unfold disconnectSingleProfile. keep.
Qed.

Lemma each_does profiles details cur s p : p ∈ profiles -> p <> "autoswitch" ->
  issued [App (RemoveSplit p); App (Notify p (mode_in details p))] (disconnect_each profiles details cur s).2.
Proof.
  revert s. induction profiles as [| q profiles IH]; intros s Hp Ha; [by apply elem_of_nil in Hp |]. cbn [disconnect_each].
  destruct (String.eqb_spec q "autoswitch") as [-> | Hq]; [apply elem_of_cons in Hp as [-> | Hp]; [done | by apply IH] |].
  rewrite (run_bind now). cbn [now gets fst snd]. rewrite run_bind. rewrite run_bind. cbn [fst snd mret State_ret].
  apply elem_of_cons in Hp as [-> | Hp]; [| by apply IH]. apply mono_each; [apply issued_monotone |]. apply single_does.
Qed.

(** A daemon with a pid file of its own does not survive the round. *)
Lemma each_kills profiles details cur p pid s : kills pid -> pid <> 0 -> pid <> self -> p ∈ profiles -> p <> "autoswitch" -> p <> cur ->
  lasts (history s) (history (disconnect_each profiles details cur s).2) p pid -> dead pid (disconnect_each profiles details cur s).2.
Proof.
  intros Hk H0 Hself Hp Ha Hcur. revert s. induction profiles as [| q profiles IH]; intros s; [by apply elem_of_nil in Hp |]. cbn [disconnect_each].
  destruct (String.eqb_spec q "autoswitch") as [-> | Hq]; [apply elem_of_cons in Hp as [-> | Hp]; [done | by apply IH] |].
  rewrite (run_bind now). cbn [now gets fst snd]. rewrite run_bind. rewrite run_bind. cbn [fst snd mret State_ret].
  set (skip := negb (own_pid_file (view (history s)) q) || String.eqb q cur). intros Hlast.
  pose proof (dead_monotone pid Hk) as Hm. set (s1 := (disconnectSingleProfile q details skip s).2) in *.
  assert (history s `suffix_of` history s1) as H1.
  { unfold s1, disconnectSingleProfile. pose proof (suffix_monotone (history s)) as Hs. enough (keeps (fun t => history s `suffix_of` history t)
      (disconnectSingleProfile q details skip)) as Hkeep by by apply Hkeep. unfold disconnectSingleProfile. keep. }
  apply elem_of_cons in Hp as [-> | Hp].
  - apply mono_each; [done |]. unfold s1. destruct (alive (view (history s)) pid) eqn:Ealive.
    + assert (history s `suffix_of` history (disconnect_each profiles details cur s1).2) as Hend.
      { pose proof (mono_each _ profiles details cur (suffix_monotone (history s))) as Hkeep. by apply Hkeep. }
      destruct (Hlast (history s) ltac:(done) Hend Ealive) as [Hown Hpid]. unfold skip. rewrite Hown, (proj2 (String.eqb_neq q cur)) by done. cbn [negb orb].
      unfold disconnectSingleProfile. rewrite run_bind, (run_bind now). cbn [now gets fst snd]. rewrite run_bind, run_bind. cbn [fst snd mret State_ret].
      apply (mono_act _ Hm), (mono_act _ Hm). by apply (kill_daemon_dead q pid Hk H0 Hself s).
    + enough (keeps (dead pid) (disconnectSingleProfile q details skip)) as Hkeep by by apply Hkeep. unfold disconnectSingleProfile. keep.
  - apply IH; [done |]. by eapply lasts_within.
Qed.

Lemma insert_back_perm (less : string -> string -> bool) x l : insert_back less x l ≡ₚ x :: l.
Proof. induction l as [| y l IH]; simpl; [done |]. destruct (less x y); [| done]. rewrite IH. apply Permutation_swap. Qed.

Lemma insertion_sort_perm (less : string -> string -> bool) l : insertion_sort less l ≡ₚ l.
Proof.
  unfold insertion_sort. rewrite <- Permutation_rev. assert (forall acc, foldl (fun acc x => insert_back less x acc) acc l ≡ₚ acc ++ l) as E; [| by rewrite E].
  induction l as [| x l IH]; intros acc; simpl; [by rewrite app_nil_r |]. rewrite IH, insert_back_perm. apply Permutation_middle.
Qed.

Context (Hpdq : forall less l, pdqsort less l ≡ₚ l).

Lemma sort_slice_in less l x : x ∈ sort_slice pdqsort less l <-> x ∈ l.
Proof. unfold sort_slice. destruct (_ <=? 12)%nat; [by rewrite insertion_sort_perm | by rewrite Hpdq]. Qed.

(** What --all leaves, from before to after: the profiles found have lost their state files and were announced; the
    autoswitch daemon is dead, and the daemons of the profiles but its current one, when their pid files stand as long
    as they live; the profile that is active once the autoswitch daemon is stopped is active no more. *)
Definition all_stopped (s t : tun) : Prop :=
  let sys := view (history s) in
  let details := getRunningProfileDetails sys in
  let auto := isDaemonRunning sys "autoswitch" in
  let stopped p := p ∈ running_names visit sys /\ p <> "autoswitch" in
  (forall p, stopped p -> issued [App (RemoveSplit p); App (Notify p (mode_in details p))] t) /\
  (forall pid, kills pid -> pid <> 0 -> pid <> self -> auto = true -> readPidForProfile sys "autoswitch" = Some pid -> dead pid t) /\
  (forall p pid, kills pid -> pid <> 0 -> pid <> self -> stopped p -> p <> (if auto then autoswitch_current sys else "") ->
    lasts (history s) (history t) p pid -> dead pid t) /\
  exists h, history s `suffix_of` h /\ h `suffix_of` history t /\ (if auto then head h = Some (App ClearAutoswitchFile) else h = history s) /\
    forall p, stopped p -> active_profile (view h) = p -> issued [App ClearActiveFile] t /\ (mode_in details p <> "raw" -> interface_deleted t).

Lemma all_stops skipConfirm answer s :
  let sys := view (history s) in
  let r := disconnectAllProfiles pdqsort (running_names visit sys) (getRunningProfileDetails sys) skipConfirm answer s in
  match r.1 with
  | AllDisconnected => all_stopped s r.2
  | NothingRuns | NotConfirmed => history r.2 = history s
  | _ => False
  end.
Proof.
  cbv zeta. unfold disconnectAllProfiles. destruct (_ =? 0)%nat; [done |]. destruct (_ && _); [done |].
  rewrite (run_bind now). cbn [now gets fst snd]. set (sys := view (history s)). rewrite run_bind. set (s1 := (_ s).2).
  rewrite (run_bind now). cbn [now gets fst snd]. rewrite run_bind. set (s2 := (disconnect_each _ _ _ s1).2). rewrite run_bind. set (s3 := (_ s2).2).
  rewrite run_bind. set (s4 := (clear_saved _ s3).2). cbn [fst snd mret State_ret].
  assert (forall P, monotone P -> P s3 -> P s4) as M3 by (intros P HP HPs; by apply mono_clear_saved).
  assert (forall P, monotone P -> P s2 -> P s4) as M2.
  { intros P HP HPs. apply M3; [done |]. unfold s3. destruct (existsb _ _); [by apply mono_forget | done]. }
  assert (forall P, monotone P -> P s1 -> P s4) as M1 by (intros P HP HPs; apply M2; [done |]; by apply mono_each).
  assert (history s `suffix_of` history s1) as Hs1.
  { unfold s1. pose proof (suffix_monotone (history s)) as Hs. destruct (isDaemonRunning sys "autoswitch"); [| done].
    rewrite run_bind. rewrite run_bind. cbn [fst snd mret State_ret]. apply mono_act; [done |]. by apply mono_kill_daemon. }
  unfold all_stopped. cbv zeta. fold sys. split; [| split; [| split]].
  - intros p [Hp Ha]. apply M2; [apply issued_monotone |]. apply each_does; [by apply sort_slice_in | done].
  - intros pid Hk H0 Hself Hrun Hpid. apply M1; [by apply dead_monotone |].
    unfold s1. rewrite Hrun. rewrite run_bind. rewrite run_bind. cbn [fst snd mret State_ret].
    apply mono_act; [by apply dead_monotone |]. by apply (kill_daemon_dead "autoswitch" pid Hk H0 Hself s).
  - intros p pid Hk H0 Hself [Hp Ha] Hcur Hlast. apply M2; [by apply dead_monotone |].
    apply (each_kills _ _ _ p pid s1 Hk H0 Hself); [by apply sort_slice_in | done | done |].
    eapply lasts_within; [exact Hs1 | | exact Hlast]. by apply (M2 _ (suffix_monotone (history s2))).
  - exists (history s1). split; [done |]. split; [by apply (M1 _ (suffix_monotone (history s1))) |]. split.
    { unfold s1. destruct (isDaemonRunning sys "autoswitch"); [| done]. by rewrite run_bind, run_bind. }
    intros p [Hp Ha] Hact. unfold s3 in M3. rewrite Hact in M3.
    assert (existsb (fun q => negb (String.eqb q "autoswitch") && String.eqb q p) (sort_slice pdqsort (goes_before (getRunningProfileDetails sys)) (running_names visit sys)) = true) as Ex.
    { apply existsb_exists. exists p. split; [by apply list_elem_of_In, sort_slice_in |]. rewrite String.eqb_refl, andb_true_r. by apply negb_true_iff, String.eqb_neq. }
    rewrite Ex in M3. split; [apply M3; [apply issued_monotone | apply forget_clears] |]. intros Hraw. apply M3; [apply interface_monotone |].
    unfold mode_in in Hraw. destruct (getRunningProfileDetails sys !! p) as [d |]; [rewrite (proj2 (String.eqb_neq (Mode d) "raw")) by done |]; apply forget_deletes.
Qed.

End commands.

(** ** Examples *)

Section example.
#[local] Instance example_unicode : Unicode := fun s => s.
Abbreviation ex_op := (@op string string dcall).

#[local] Instance example_world : @World string string dcall := {|
  succeeds := fun _ _ => true; route_list := fun _ => None; unix_now := fun _ => 0; cache_file := fun _ => None; lookup_ip := fun _ _ => None;
  current_profile := fun _ => ""; bypass_file := fun _ _ => None |}.

Definition called (c : ex_op -> bool) (h : list ex_op) : bool := existsb c h.
Definition is_kill (pid : Z) (o : ex_op) : bool := match o with App (Kill9 p) => p =? pid | _ => false end.
Definition is_removal (p : string) (o : ex_op) : bool := match o with App (RemoveSplit q) => String.eqb q p | _ => false end.

(** The daemons of [example_system], which do not react to SIGINT, with the routes of one record. *)
Definition example_view (active current : string) (h : list ex_op) : system :=
  let sys := example_system current in
  {| pid_dir := pid_dir sys; pid_text := pid_text sys; alive := fun pid => alive sys pid && negb (called (is_kill pid) h); cmdline_of := cmdline_of sys;
     split_of := fun p => if called (is_removal p) h then no_split else
       if String.eqb p "nl" || String.eqb p "home" then {| s_bl := ""; s_blFile := ""; s_routes := [if String.eqb p "nl" then "7.7.7.0/24" else "1.2.3.4/32"]; s_mtime := 0; s_domains := [] |} else no_split;
     autoswitch_current := current; active_profile := active; socket_there := socket_there sys |}.

Definition example_machine (active current : string) : @Machine string string := {|
  view := example_view active current; self := 500; pgrep := fun _ => Some "101"; proc_cmdline := fun _ _ => Some "qwdtt con homework";
  not_exist := fun _ _ => false |}.

Definition start : @tun string string dcall := {| history := []; routedTurnIPs := []; splitRoutes := []; splitCacheInMemory := no_entry; activeRouter := None |}.

Definition ex_disconnect (active current : string) (args : list string) : ending * list ex_op :=
  let r := @disconnectCmd string string _ _ (example_machine active current) map_to_list (fun _ l => l) args (Some 2) "y" start in (r.1, history r.2).

(** A stubborn daemon is killed, and its routes are cleaned up for it. *)
Example stopped : ex_disconnect "home" "" ["home"] = (Disconnected "home",
  [RouteDel (cidrNet "1.2.3.4/32"); App ClearActiveFile; LinkDel; LinkByName wgIface; RouteDel (cidrNet "128.0.0.0/1"); RouteDel (cidrNet "0.0.0.0/1");
   App (Notify "home" "socks"); App (RemoveSplit "home"); App (RemovePidFile "home"); App (Kill9 102); App Pause2s; App (Interrupt 102)]).
Proof. by vm_compute. Qed.

(** The profile of autoswitch is not stopped but left. *)
Example redirected : ex_disconnect "autoswitch" "nl" ["nl"] = (Redirected "nl", [App (Notify "nl" "raw"); App ClearAutoswitchFile; App (NextProfile 101)]).
Proof. by vm_compute. Qed.

(** With --all the active profile of autoswitch stays the active one. *)
Example all_keeps_active : let r := ex_disconnect "autoswitch" "nl" ["--all"; "-y"] in
  r.1 = AllDisconnected /\ called (fun o => match o with App ClearActiveFile | LinkDel => true | _ => false end) r.2 = false.
Proof. by vm_compute. Qed.

(** The search by name takes processes of other profiles too. *)
Example other_killed : let r := ex_disconnect "" "" ["work"] in
  r.1 = Disconnected "work" /\ called (fun o => match o with App (KillCommand "-INT" "101") => true | _ => false end) r.2 = true.
Proof. by vm_compute. Qed.

(** The comparison of the selection is no order: these three go round. *)
Definition mode_entry (md : string) : ProfileDetails := cmdline_details 1 (argv ["qwdtt"; "con"; "x"; "-mode"; md]).
Example no_order : let d := list_to_map [("c", mode_entry "tun"); ("b", mode_entry "raw"); ("a", mode_entry "socks")] : gmap string ProfileDetails in
  goes_before d "c" "a" = true /\ goes_before d "a" "b" = true /\ goes_before d "b" "c" = true.
Proof. by vm_compute. Qed.

Lemma example_removal_local : @removal_local string string (example_machine "home" "").
Proof.
  intros h p. cbn. split; [done |]. intros q Hq. cbn. destruct (String.eqb_spec p q) as [<- |]; [done |]. done.
Qed.

Lemma disconnect_settles_witness : RouteDel (cidrNet "1.2.3.4/32") ∈ take 7 (ex_disconnect "home" "" ["home"]).2.
Proof.
  refine (@disconnect_settles string string _ _ (example_machine "home" "") map_to_list (fun _ l => l) ["home"] (Some 2) "y" start _
    (drop 8 (ex_disconnect "home" "" ["home"]).2) "home" "1.2.3.4/32" _ example_removal_local eq_refl _ _ _).
  - by vm_compute.
  - vm_compute. by left.
  - by vm_compute.
Defined.

Lemma example_kills : @kills string string (example_machine "home" "") 102.
Proof.
  split.
  - intros h. cbn [view example_machine example_view alive called existsb is_kill]. by rewrite Z.eqb_refl, andb_false_r.
  - intros h o. cbn [view example_machine example_view alive]. intros [Ha | Ha]%andb_false_iff; apply andb_false_iff; [by left | right].
    apply negb_false_iff in Ha. apply negb_false_iff. unfold called in *. cbn [existsb]. by rewrite Ha, orb_true_r.
Qed.

End example.
