(* ===== verification/Listen.v ===== *)
(** * The address of the SOCKS5 server (utils.go, [validateSocksListenAddr] and [isPublicSocksBind]).

    The interfaces of the machine are an argument; [None] is an error of [net.Interfaces]. *)

From S2P Require Import Prelude Bytes GoStrings Ip.
From S2P Require Tunnel.
From Stdlib Require Import ZArith Lia String Ascii.
From stdpp Require Import base list strings.
Open Scope string_scope.
Open Scope Z_scope.

Inductive addr := NetAddr (n : IPNet) | HostAddr (ip : list Z).
Record iface := { if_up : bool; if_addrs : option (list addr) }.

(** [ip.Equal(x)] *)
Definition ip_equal (ip x : list Z) : bool :=
  if (length ip =? length x)%nat then bool_decide (ip = x)
  else if (length ip =? 4)%nat && (length x =? 16)%nat then bool_decide (take 12 x = v4InV6Prefix) && bool_decide (ip = drop 12 x)
  else if (length ip =? 16)%nat && (length x =? 4)%nat then bool_decide (take 12 ip = v4InV6Prefix) && bool_decide (drop 12 ip = x)
  else false.

Definition IPv4zero : list Z := As16 [0; 0; 0; 0].
Definition IPv6unspecified : list Z := replicate 16 0.
Definition IPv6loopback : list Z := (replicate 15 0 ++ [1])%list.

Definition IsUnspecified (ip : list Z) : bool := ip_equal ip IPv4zero || ip_equal ip IPv6unspecified.
Definition IsLoopback (ip : list Z) : bool :=
  match To4 ip with Some (b :: _) => b =? 127 | _ => ip_equal ip IPv6loopback end.

Inductive listen_error := NotAnIP | NetworkAddress | BroadcastAddress | NotAssigned.

(** The broadcast address of a network with the mask, when it is one of IPv4. *)
Definition broadcast (networkAddr mask : list Z) : option (list Z) :=
  (fun v4Net => be_put 4 (Z.lor (be_get v4Net) (u32 (Z.lnot (be_get (take 4 mask)))))) <$> To4 networkAddr.

(** The body of the loop over the addresses behind the search: an address that must not be used. *)
Definition check_network (ip : list Z) (n : IPNet) : option listen_error :=
  let '(ones, bits) := Tunnel.mask_size (net_mask n) in
  if (ones =? bits) || (ones =? bits - 1) then None
  else
    let networkAddr := Mask (net_ip n) (net_mask n) in
    if ip_equal ip networkAddr then Some NetworkAddress
    else
      match To4 ip, broadcast networkAddr (net_mask n) with
      | Some _, Some b => if ip_equal ip b then Some BroadcastAddress else None
      | _, _ => None
      end.

Definition addr_ip (a : addr) : list Z := match a with NetAddr n => net_ip n | HostAddr ip => ip end.

(** The loop over the addresses: whether the address was found. *)
Fixpoint check_addrs (ip : list Z) (addrs : list addr) (found : bool) : result listen_error bool :=
  match addrs with
  | [] => Ok found
  | a :: rest =>
      let found := found || ip_equal ip (addr_ip a) in
      match a with
      | HostAddr _ => check_addrs ip rest found
      | NetAddr n => match check_network ip n with Some e => Err e | None => check_addrs ip rest found end
      end
  end.

Fixpoint check_ifaces (ip : list Z) (ifaces : list iface) (found : bool) : result listen_error bool :=
  match ifaces with
  | [] => Ok found
  | i :: rest =>
      match (if if_up i then if_addrs i else None) with
      | None => check_ifaces ip rest found
      | Some addrs => match check_addrs ip addrs found with Err e => Err e | Ok found => check_ifaces ip rest found end
      end
  end.

(** [None] is nil. *)
Definition validateSocksListenAddr (interfaces : option (list iface)) (s : string) : option listen_error :=
  if String.eqb s "" then None
  else
    match ParseIP s with
    | None => Some NotAnIP
    | Some ip =>
        if IsUnspecified ip || IsLoopback ip then None
        else
          match interfaces with
          | None => None
          | Some ifaces => match check_ifaces ip ifaces false with Err e => Some e | Ok found => if found : bool then None else Some NotAssigned end
          end
    end.

Definition isPublicSocksBind (s : string) : bool :=
  if String.eqb s "" then false else match ParseIP s with Some ip => IsUnspecified ip | None => false end.

(** ** Addresses as numbers *)

Lemma be_get_masked l n a : length a = l -> bytes_ok a -> 0 <= n <= 8 * Z.of_nat l ->
  be_get (and_bytes a (cidr_mask l n)) = be_get a / 2 ^ (8 * Z.of_nat l - n) * 2 ^ (8 * Z.of_nat l - n).
Proof.
  revert n a. induction l as [| l IH]; intros n a Ha Oa Hn.
  { apply nil_length_inv in Ha as ->. cbn [and_bytes zip_with cidr_mask]. change (be_get []) with 0. by rewrite Z.div_0_l by (apply Z.pow_nonzero; lia). }
  destruct a as [| x a]; [done |]. injection Ha as Ha. apply Forall_cons in Oa as [Ox Oa]. unfold byte_ok in Ox.
  simpl cidr_mask. pose proof (be_get_bound a Oa) as Ba. rewrite Ha in Ba.
  assert (256 ^ Z.of_nat l = 2 ^ (8 * Z.of_nat l)) as Hp by (by rewrite Z.pow_mul_r by lia).
  assert (0 < 2 ^ (8 * Z.of_nat l)) as Hpos by (apply Z.pow_pos_nonneg; lia). rewrite Nat2Z.inj_succ in *.
  assert (forall m, length (and_bytes a (cidr_mask l m)) = l) as Hlen by (intros m; rewrite length_and_bytes, length_cidr_mask, Ha; lia).
  split_guard; rewrite and_bytes_cons, !be_get_cons, Hlen, Ha, Hp.
  - rewrite IH by (done || lia). assert (Z.land x 255 = x) as -> by (change 255 with (Z.ones 8); rewrite Z.land_ones by lia; apply Z.mod_small; lia).
    replace (8 * Z.succ (Z.of_nat l) - n) with (8 * Z.of_nat l - (n - 8)) by lia. set (k := 8 * Z.of_nat l - (n - 8)).
    assert (2 ^ (8 * Z.of_nat l) = 2 ^ (n - 8) * 2 ^ k) as Hk by (rewrite <- Z.pow_add_r by lia; f_equal; lia).
    rewrite Hk, Z.mul_assoc, Z.div_add_l by (apply Z.pow_nonzero; lia). lia.
  - rewrite IH, land_byte_mask by (done || lia). rewrite Z.sub_0_r, (Z.div_small (be_get a)) by lia.
    replace (8 * Z.succ (Z.of_nat l) - n) with ((8 - n) + 8 * Z.of_nat l) by lia. rewrite Z.pow_add_r by lia.
    assert (0 < 2 ^ (8 - n)) by (apply Z.pow_pos_nonneg; lia). rewrite div_head by lia. lia.
Qed.

(** The masks of IPv4 as numbers; what [Size] makes of them. *)
Lemma masks_v4 k : 0 <= k <= 32 -> be_get (CIDRMask k 4) = 2 ^ 32 - 2 ^ (32 - k) /\ Tunnel.mask_size (CIDRMask k 4) = (k, 32).
Proof.
  assert (forallb (fun n => (be_get (CIDRMask n 4) =? 2 ^ 32 - 2 ^ (32 - n)) && bool_decide (Tunnel.mask_size (CIDRMask n 4) = (n, 32))) (seqZ 0 33) = true) as Hall by (by vm_compute).
  intros Hk. rewrite forallb_forall in Hall. specialize (Hall k). rewrite andb_true_iff, Z.eqb_eq, bool_decide_eq_true in Hall.
  apply Hall, list_elem_of_In, elem_of_seqZ. lia.
Qed.

Lemma masks_v6 k : 0 <= k <= 128 -> Tunnel.mask_size (CIDRMask k 16) = (k, 128).
Proof.
  assert (forallb (fun n => bool_decide (Tunnel.mask_size (CIDRMask n 16) = (n, 128))) (seqZ 0 129) = true) as Hall by (by vm_compute).
  intros Hk. rewrite forallb_forall in Hall. specialize (Hall k). rewrite bool_decide_eq_true in Hall.
  apply Hall, list_elem_of_In, elem_of_seqZ. lia.
Qed.

Lemma v6_prefix (x : list Z) : length x = 16%nat -> take 12 x = v4InV6Prefix -> x = (v4InV6Prefix ++ drop 12 x)%list.
Proof. intros _ <-. by rewrite take_drop. Qed.

Lemma To4_length x v : To4 x = Some v -> length v = 4%nat.
Proof. unfold To4. split_guard; [intros [= <-]; by propify |]. split_guard; [| done]. intros [= <-]. propify. rewrite length_drop. lia. Qed.

(** Equality is that of the addresses, however they are stored. *)
Lemma ip_equal_canonical a b : (length a = 4%nat \/ length a = 16%nat) -> (length b = 4%nat \/ length b = 16%nat) ->
  ip_equal a b = true <-> canonical a = canonical b.
Proof.
  intros Ha Hb. unfold ip_equal, canonical, To4.
  destruct Ha as [La | La], Hb as [Lb | Lb]; rewrite La, Lb; cbn [Nat.eqb andb default].
  - by rewrite bool_decide_eq_true.
  - case_bool_decide as E; cbn [andb default from_option id]; [by rewrite bool_decide_eq_true |]. split; [done |]. intros ->. by rewrite La in Lb.
  - case_bool_decide as E; cbn [andb default from_option id]; [by rewrite bool_decide_eq_true |]. split; [done |]. intros <-. by rewrite La in Lb.
  - rewrite bool_decide_eq_true. case_bool_decide as E1; case_bool_decide as E2; cbn [default from_option id].
    + split; [by intros -> |]. intros E. by rewrite (v6_prefix a La E1), (v6_prefix b Lb E2), E.
    + split; [intros ->; done |]. intros E. apply (f_equal length) in E. rewrite length_drop in E. lia.
    + split; [intros <-; done |]. intros E. apply (f_equal length) in E. rewrite length_drop in E. lia.
    + done.
Qed.

(** ** Which addresses are accepted *)

(** An address of an interface, as the kernel gives it: of IPv4 (stored in 4 or 16 bytes) or of IPv6, with the
    mask of a prefix. *)
Definition v4_net (n : IPNet) (a : list Z) (k : Z) : Prop :=
  length a = 4%nat /\ bytes_ok a /\ (net_ip n = a \/ net_ip n = As16 a) /\ net_mask n = CIDRMask k 4 /\ 0 <= k <= 32.
Definition v6_net (n : IPNet) (k : Z) : Prop :=
  length (net_ip n) = 16%nat /\ bytes_ok (net_ip n) /\ ~ mapped (net_ip n) /\ net_mask n = CIDRMask k 16 /\ 0 <= k <= 128.
Definition net_ok (n : IPNet) : Prop := (exists a k, v4_net n a k) \/ exists k, v6_net n k.

(** The first address of the network of [a] with [k] fixed bits out of [bits]. *)
Definition first_of (a : list Z) (k bits : Z) : Z := be_get a / 2 ^ (bits - k) * 2 ^ (bits - k).

(** The first and, in IPv4, the last address of a network of more than two. *)
Definition edge (n : IPNet) (ip : list Z) : Prop :=
  (exists a k, v4_net n a k /\ k <= 30 /\ length (canonical ip) = 4%nat /\
     (be_get (canonical ip) = first_of a k 32 \/ be_get (canonical ip) = first_of a k 32 + 2 ^ (32 - k) - 1)) \/
  (exists k, v6_net n k /\ k <= 126 /\ ~ mapped ip /\ be_get ip = first_of (net_ip n) k 128).

Definition parsed (ip : list Z) : Prop := length ip = 16%nat /\ bytes_ok ip.

Lemma canonical_parsed ip : parsed ip -> bytes_ok (canonical ip) /\ ((mapped ip /\ length (canonical ip) = 4%nat) \/ (~ mapped ip /\ canonical ip = ip)).
Proof.
  intros [Hl Hb]. destruct (decide (take 12 ip = v4InV6Prefix)) as [E | E].
  - assert (mapped ip) as Hm by done. rewrite (canonical_mapped ip Hm). split; [by apply Forall_drop |]. left. split; [done |]. rewrite length_drop. lia.
  - assert (~ mapped ip) as Hm by (by intros [_ ?]). rewrite (canonical_unmapped ip Hm). split; [done |]. by right.
Qed.

Lemma first_lor a k : length a = 4%nat -> bytes_ok a -> 0 <= k <= 32 ->
  Z.lor (first_of a k 32) (u32 (Z.lnot (be_get (CIDRMask k 4)))) = first_of a k 32 + 2 ^ (32 - k) - 1.
Proof.
  intros La Ba Hk. rewrite (proj1 (masks_v4 k Hk)). assert (0 < 2 ^ (32 - k) <= 2 ^ 32) as Hp by (split; [apply Z.pow_pos_nonneg; lia | apply Z.pow_le_mono_r; lia]).
  assert (u32 (Z.lnot (2 ^ 32 - 2 ^ (32 - k))) = Z.ones (32 - k)) as ->.
  { unfold u32. rewrite Z.ones_equiv. unfold Z.lnot. rewrite <- (Z.mod_add _ 1) by lia. rewrite Z.mod_small; lia. }
  rewrite Z.ones_equiv. unfold first_of. rewrite (lor_high_low _ _ (32 - k)); [lia | lia | apply Z.mod_mul; lia | lia].
Qed.

Lemma first_bound a k : length a = 4%nat -> bytes_ok a -> 0 <= k <= 32 -> 0 <= first_of a k 32 /\ first_of a k 32 + 2 ^ (32 - k) - 1 < 2 ^ 32.
Proof.
  intros La Oa Hk. pose proof (be_get_bound a Oa) as Ba. rewrite La in Ba. change (256 ^ Z.of_nat 4) with (2 ^ 32) in Ba.
  assert (2 ^ 32 = 2 ^ k * 2 ^ (32 - k)) as Hp by (rewrite <- Z.pow_add_r by lia; f_equal; lia).
  assert (0 < 2 ^ (32 - k)) by (apply Z.pow_pos_nonneg; lia). unfold first_of.
  assert (be_get a / 2 ^ (32 - k) < 2 ^ k) by (apply Z.div_lt_upper_bound; lia). pose proof (Z.div_pos (be_get a) (2 ^ (32 - k)) ltac:(lia) ltac:(lia)). nia.
Qed.

(** The network address that is computed. *)
Lemma network_v4 n a k : v4_net n a k -> Mask (net_ip n) (net_mask n) = and_bytes a (CIDRMask k 4).
Proof.
  intros (La & _ & [-> | ->] & -> & _); [| by apply Mask_v4]. unfold CIDRMask. pose proof (length_cidr_mask 4 k) as Lm. set (m := cidr_mask 4 k) in *.
  unfold Mask. rewrite La, Lm. cbn [andb Nat.eqb]. rewrite ?Lm, ?La. cbn [andb Nat.eqb]. by rewrite ?La, ?Lm.
Qed.

Lemma network_v6 n k : v6_net n k -> Mask (net_ip n) (net_mask n) = and_bytes (net_ip n) (CIDRMask k 16).
Proof.
  intros (La & _ & _ & -> & _). rewrite <- (Mask_v6 (net_ip n) k La) at 1. unfold As16. by rewrite La.
Qed.

Lemma masked_ok a l k : length a = l -> bytes_ok a -> 0 <= k -> length (and_bytes a (CIDRMask k l)) = l /\ bytes_ok (and_bytes a (CIDRMask k l)).
Proof.
  intros La Oa Hk. unfold CIDRMask. split; [rewrite length_and_bytes, length_cidr_mask, La; lia |].
  revert a k La Oa Hk. induction l as [| l IH]; intros a k La Oa Hk; [by apply nil_length_inv in La as -> |].
  destruct a as [| x a]; [done |]. injection La as La. apply Forall_cons in Oa as [Ox Oa]. simpl cidr_mask.
  destruct (8 <=? k) eqn:E; rewrite and_bytes_cons; apply Forall_cons; (split; [| apply IH; done || propify; lia]).
  - by rewrite land_255.
  - unfold byte_ok in *. propify. rewrite land_byte_mask by lia. assert (0 < 2 ^ (8 - k)) by (apply Z.pow_pos_nonneg; lia).
    split; [apply Z.mul_nonneg_nonneg; [apply Z.div_pos |]; lia |]. pose proof (Z.mul_div_le x (2 ^ (8 - k)) ltac:(lia)). lia.
Qed.

Lemma mask_number a k l : length a = l -> bytes_ok a -> 0 <= k <= 8 * Z.of_nat l -> be_get (and_bytes a (CIDRMask k l)) = first_of a k (8 * Z.of_nat l).
Proof. intros La Oa Hk. by apply be_get_masked. Qed.

(** What is compared with an address in four bytes. *)
Lemma ip_equal_v4 ip b : parsed ip -> length b = 4%nat -> bytes_ok b ->
  ip_equal ip b = true <-> length (canonical ip) = 4%nat /\ be_get (canonical ip) = be_get b.
Proof.
  intros Hp Lb Ob. destruct (canonical_parsed ip Hp) as [Oc _]. rewrite ip_equal_canonical by (tauto || (right; apply Hp)).
  rewrite (proj2 (canonical_v4 b Lb)). split; [by intros -> |]. intros [Lc E]. apply be_get_inj; congruence || done.
Qed.

Lemma To4_parsed ip : parsed ip -> (is_Some (To4 ip) <-> length (canonical ip) = 4%nat).
Proof.
  intros [Hl _]. unfold canonical. destruct (To4 ip) as [v |] eqn:E; cbn.
  - split; [intros _; by apply (To4_length ip) | by eauto].
  - split; [by intros [] | lia].
Qed.

Lemma check_v4 n a k ip : v4_net n a k -> parsed ip ->
  check_network ip n <> None <-> k <= 30 /\ length (canonical ip) = 4%nat /\
     (be_get (canonical ip) = first_of a k 32 \/ be_get (canonical ip) = first_of a k 32 + 2 ^ (32 - k) - 1).
Proof.
  intros Hn Hp. unfold check_network. rewrite (network_v4 n a k Hn). destruct Hn as (La & Oa & _ & -> & Hk).
  rewrite (proj2 (masks_v4 k Hk)). destruct (masked_ok a 4 k La Oa ltac:(lia)) as [Lm Om]. pose proof (mask_number a k 4 La Oa ltac:(lia)) as Nm.
  change (8 * Z.of_nat 4) with 32 in Nm. set (na := and_bytes a (CIDRMask k 4)) in *.
  destruct ((k =? 32) || (k =? 32 - 1)) eqn:Ek; [split; [done | propify; lia] |].
  pose proof (ip_equal_v4 ip na Hp Lm Om) as Hna. rewrite Nm in Hna.
  destruct (ip_equal ip na); [split; [propify; intuition lia | done] |].
  assert (broadcast na (CIDRMask k 4) = Some (be_put 4 (first_of a k 32 + 2 ^ (32 - k) - 1))) as ->.
  { assert (length (CIDRMask k 4) = 4%nat) as Lk by apply length_cidr_mask. unfold broadcast, To4. rewrite Lm, Nat.eqb_refl.
    rewrite (take_ge (CIDRMask k 4)) by lia. rewrite <- first_lor, <- Nm by done. done. }
  pose proof (To4_parsed ip Hp) as H4. pose proof (first_bound a k La Oa Hk) as Hb.
  pose proof (ip_equal_v4 ip (be_put 4 (first_of a k 32 + 2 ^ (32 - k) - 1)) Hp (length_be_put _ _) (be_put_ok _ _)) as Hlast.
  rewrite be_get_put in Hlast. change (8 * Z.of_nat 4) with 32 in Hlast. rewrite Z.mod_small in Hlast by lia.
  destruct (To4 ip) as [v |].
  - destruct (ip_equal ip (be_put _ _)); propify; intuition (done || lia || eauto).
  - split; [done |]. intros (_ & L & _). by apply H4 in L as [].
Qed.

Lemma check_v6 n k ip : v6_net n k -> parsed ip ->
  check_network ip n <> None <-> k <= 126 /\ ~ mapped ip /\ be_get ip = first_of (net_ip n) k 128.
Proof.
  intros Hn Hp. unfold check_network. rewrite (network_v6 n k Hn). destruct Hn as (La & Oa & Hu & -> & Hk).
  rewrite (masks_v6 k Hk). destruct (masked_ok (net_ip n) 16 k La Oa ltac:(lia)) as [Lm Om].
  pose proof (mask_number (net_ip n) k 16 La Oa ltac:(lia)) as Nm. change (8 * Z.of_nat 16) with 128 in Nm.
  pose proof (masked_unmapped (net_ip n) k La Oa ltac:(lia) ltac:(tauto)) as Um. set (na := and_bytes (net_ip n) (CIDRMask k 16)) in *.
  destruct ((k =? 128) || (k =? 128 - 1)) eqn:Ek; [split; [done | propify; lia] |].
  assert (ip_equal ip na = true <-> ~ mapped ip /\ be_get ip = be_get na) as Hna.
  { rewrite ip_equal_canonical by (right; done || apply Hp). rewrite (canonical_unmapped na Um).
    destruct (canonical_parsed ip Hp) as [_ [[Hm L4] | [Hm ->]]].
    - split; [intros E; rewrite E in L4; lia | by intros [? _]].
    - destruct Hp as [Li Oi]. split; [by intros -> |]. intros [_ E]. apply be_get_inj; congruence || done. }
  rewrite Nm in Hna. destruct (ip_equal ip na); [split; [propify; intuition lia | done] |].
  assert (broadcast na (CIDRMask k 16) = None) as ->.
  { unfold broadcast, To4. rewrite Lm. cbn [Nat.eqb andb]. case_bool_decide as E; [by destruct Um | done]. }
  destruct (To4 ip); (split; [done |]); intros (_ & H); by apply Hna in H.
Qed.

Lemma v4_net_unique n a k b j : v4_net n a k -> v4_net n b j -> a = b /\ k = j.
Proof.
  intros (La & _ & Ha & Mk & Hk) (Lb & _ & Hb & Mj & Hj). rewrite Mk in Mj. apply (f_equal Tunnel.mask_size) in Mj.
  rewrite (proj2 (masks_v4 k Hk)), (proj2 (masks_v4 j Hj)) in Mj. split; [| congruence].
  rewrite <- (proj2 (canonical_v4 a La)), <- (proj2 (canonical_v4 b Lb)).
  destruct Ha as [<- | Ha], Hb as [<- | Hb]; [done | ..]; rewrite ?Hb, ?Ha;
    rewrite ?(proj1 (canonical_v4 b Lb)), ?(proj1 (canonical_v4 a La)); rewrite ?(proj2 (canonical_v4 b Lb)), ?(proj2 (canonical_v4 a La)); [done.. |].
  apply (f_equal canonical) in Hb. rewrite Ha, (proj1 (canonical_v4 b Lb)), (proj1 (canonical_v4 a La)) in Hb. done.
Qed.

Lemma v4_v6 n a k j : v4_net n a k -> v6_net n j -> False.
Proof.
  intros (_ & _ & _ & Mk & _) (_ & _ & _ & Mj & _). rewrite Mk in Mj. apply (f_equal length) in Mj.
  unfold CIDRMask in Mj. by rewrite !length_cidr_mask in Mj.
Qed.

Lemma v6_net_unique n k j : v6_net n k -> v6_net n j -> k = j.
Proof.
  intros (_ & _ & _ & Mk & Hk) (_ & _ & _ & Mj & Hj). rewrite Mk in Mj. apply (f_equal Tunnel.mask_size) in Mj.
  rewrite (masks_v6 k Hk), (masks_v6 j Hj) in Mj. congruence.
Qed.

(** One address of an interface refuses exactly the edges of its network. *)
Lemma check_network_edge n ip : net_ok n -> parsed ip -> check_network ip n <> None <-> edge n ip.
Proof.
  intros Hn Hp. split.
  - intros Hc. destruct Hn as [(a & k & Hn) | (k & Hn)].
    + left. exists a, k. split; [done |]. by apply (check_v4 n a k ip Hn Hp).
    + right. exists k. split; [done |]. by apply (check_v6 n k ip Hn Hp).
  - intros [(a & k & Hv & He) | (k & Hv & He)]; [by apply (check_v4 n a k ip Hv Hp) | by apply (check_v6 n k ip Hv Hp)].
Qed.

(** What is asked of an address among those of a list. *)
Definition listed (ip : list Z) (addrs : list addr) : Prop := exists a, a ∈ addrs /\ ip_equal ip (addr_ip a) = true.
Definition no_edge (ip : list Z) (addrs : list addr) : Prop := forall n, NetAddr n ∈ addrs -> ~ edge n ip.
Definition addrs_ok (addrs : list addr) : Prop := forall n, NetAddr n ∈ addrs -> net_ok n.

Lemma check_addrs_spec ip addrs found : parsed ip -> addrs_ok addrs ->
  match check_addrs ip addrs found with
  | Ok b => no_edge ip addrs /\ (b = true <-> found = true \/ listed ip addrs)
  | Err _ => ~ no_edge ip addrs
  end.
Proof.
  intros Hp. revert found. induction addrs as [| a addrs IH]; intros found Ha; simpl.
  { split; [intros n Hn; by apply not_elem_of_nil in Hn |]. split; [by left | intros [? | (? & H & _)]; [done | by apply not_elem_of_nil in H]]. }
  assert (addrs_ok addrs) as Hr by (intros n Hn; apply Ha; by right).
  assert (forall f, f || ip_equal ip (addr_ip a) = true \/ listed ip addrs <-> f = true \/ listed ip (a :: addrs)) as Hl.
  { intros f. rewrite orb_true_iff. unfold listed. setoid_rewrite elem_of_cons. naive_solver. }
  pose proof (IH (found || ip_equal ip (addr_ip a)) Hr) as Hrest.
  assert (forall (P : Prop), (P -> no_edge ip addrs <-> no_edge ip (a :: addrs)) -> P ->
    match check_addrs ip addrs (found || ip_equal ip (addr_ip a)) with
    | Ok b => no_edge ip (a :: addrs) /\ (b = true <-> found = true \/ listed ip (a :: addrs))
    | Err _ => ~ no_edge ip (a :: addrs) end) as Hgo.
  { intros P HP H. specialize (HP H). destruct (check_addrs _ _ _); [rewrite <- Hl, <- HP | rewrite <- HP]; done. }
  destruct a as [n | h].
  - pose proof (check_network_edge n ip (Ha n ltac:(by left)) Hp) as He. destruct (check_network ip n) as [e |].
    + intros Hno. apply (Hno n); [by left | by apply He].
    + apply (Hgo (~ edge n ip)); [| by intros H; apply He in H]. intros Hne. unfold no_edge. setoid_rewrite elem_of_cons. naive_solver.
  - apply (Hgo True); [| done]. intros _. unfold no_edge. setoid_rewrite elem_of_cons. naive_solver.
Qed.

(** The addresses that are looked at: those of the interfaces that are up and give them. *)
Definition up_addrs (ifaces : list iface) : list addr :=
  ifaces ≫= fun i => default [] (if if_up i then if_addrs i else None).

Lemma check_ifaces_flat ip ifaces found : check_ifaces ip ifaces found = check_addrs ip (up_addrs ifaces) found.
Proof.
  revert found. induction ifaces as [| i ifaces IH]; intros found; [done |]. unfold up_addrs. simpl. fold (up_addrs ifaces).
  assert (forall l m f, check_addrs ip (l ++ m) f = match check_addrs ip l f with Err e => Err e | Ok f => check_addrs ip m f end) as Happ.
  { clear. induction l as [| a l IHl]; intros m f; [done |]. simpl. destruct a as [n |]; [destruct (check_network ip n) |]; (done || apply IHl). }
  destruct (if if_up i then if_addrs i else None) as [l |]; cbn [default from_option id]; [| apply IH].
  rewrite Happ. destruct (check_addrs ip l found); [apply IH | done].
Qed.

(** The address of the SOCKS5 server is accepted exactly when it is empty, when it is the address of all
    interfaces or of the loopback, or when it is assigned to an interface that is up and is neither the first nor
    (in IPv4) the last address of a network of more than two addresses an interface is in. *)
Theorem listen_checked (ifaces : list iface) (s : string) (Hok : addrs_ok (up_addrs ifaces)) :
  validateSocksListenAddr (Some ifaces) s = None <->
  s = "" \/ exists ip, ParseIP s = Some ip /\
    (IsUnspecified ip = true \/ IsLoopback ip = true \/ (listed ip (up_addrs ifaces) /\ no_edge ip (up_addrs ifaces))).
Proof.
  unfold validateSocksListenAddr. destruct (String.eqb_spec s ""); [by split; [left |] |].
  destruct (ParseIP s) as [ip |] eqn:Ei; [| split; [done | intros [? | (? & [=] & _)]; done]].
  assert (parsed ip) as Hp by (destruct (ParseIP_ok s ip Ei) as (? & ? & _); done).
  destruct (IsUnspecified ip || IsLoopback ip) eqn:El.
  { split; [| done]. intros _. right. exists ip. split; [done |]. apply orb_true_iff in El. tauto. }
  apply orb_false_iff in El as [El1 El2]. rewrite check_ifaces_flat. pose proof (check_addrs_spec ip (up_addrs ifaces) false Hp Hok) as Hc.
  destruct (check_addrs ip (up_addrs ifaces) false) as [b | e].
  - destruct Hc as [Hn Hb]. destruct b.
    + split; [intros _; right; exists ip; split; [done |]; do 2 right; split; [by destruct (proj1 Hb eq_refl) | done] | done].
    + split; [done |]. intros [? | (ip' & [= <-] & [? | [? | [Hl _]]])]; [congruence.. |]. by apply (or_intror (A := false = true)), Hb in Hl.
  - split; [done |]. intros [? | (ip' & [= <-] & [? | [? | [_ Hn]]])]; congruence || done.
Qed.

Definition eth0 : iface :=
  {| if_up := true;
     if_addrs := Some [NetAddr {| net_ip := As16 [192; 168; 1; 5]; net_mask := CIDRMask 24 4 |};
                       NetAddr {| net_ip := [254; 128; 0; 0; 0; 0; 0; 0; 0; 0; 0; 0; 0; 0; 0; 1]; net_mask := CIDRMask 64 16 |}] |}.
Definition tun7 : iface := {| if_up := true; if_addrs := Some [NetAddr {| net_ip := [10; 0; 0; 0]; net_mask := CIDRMask 31 4 |}] |}.

Example hosts_accepted : map (validateSocksListenAddr (Some [eth0; tun7])) [""; "192.168.1.5"; "10.0.0.0"; "fe80::1"; "::ffff:192.168.1.5"; "127.8.9.1"; "::"]
  = [None; None; None; None; None; None; None].
Proof. by vm_compute. Qed.

Example edges_refused : map (validateSocksListenAddr (Some [eth0; tun7])) ["192.168.1.0"; "192.168.1.255"; "192.168.1.6"; "fe80::"; "host"]
  = [Some NetworkAddress; Some BroadcastAddress; Some NotAssigned; Some NetworkAddress; Some NotAnIP].
Proof. by vm_compute. Qed.

(** An address on all interfaces passes the check whatever the machine has. *)
Lemma public_accepted interfaces s : isPublicSocksBind s = true -> validateSocksListenAddr interfaces s = None.
Proof.
  unfold isPublicSocksBind, validateSocksListenAddr. destruct (String.eqb s ""); [done |].
  destruct (ParseIP s) as [ip |]; [| done]. by intros ->.
Qed.

Lemma eth0_ok : addrs_ok (up_addrs [eth0; tun7]).
Proof.
  intros n Hn. change (up_addrs [eth0; tun7]) with
    [NetAddr {| net_ip := As16 [192; 168; 1; 5]; net_mask := CIDRMask 24 4 |};
     NetAddr {| net_ip := [254; 128; 0; 0; 0; 0; 0; 0; 0; 0; 0; 0; 0; 0; 0; 1]; net_mask := CIDRMask 64 16 |};
     NetAddr {| net_ip := [10; 0; 0; 0]; net_mask := CIDRMask 31 4 |}] in Hn.
  rewrite !elem_of_cons, elem_of_nil in Hn. destruct Hn as [[= ->] | [[= ->] | [[= ->] | []]]].
  - left. exists [192; 168; 1; 5], 24. repeat split; try (by vm_compute); [by repeat constructor | by right].
  - right. exists 64. repeat split; try (by vm_compute); [by repeat constructor | by intros [_ [=]]].
  - left. exists [10; 0; 0; 0], 31. repeat split; try (by vm_compute); [by repeat constructor | by left].
Qed.

Lemma listen_checked_witness :
  addrs_ok (up_addrs [eth0; tun7]) /\
  (validateSocksListenAddr (Some [eth0; tun7]) "192.168.1.5" = None <->
   "192.168.1.5" = "" \/ exists ip, ParseIP "192.168.1.5" = Some ip /\
    (IsUnspecified ip = true \/ IsLoopback ip = true \/ (listed ip (up_addrs [eth0; tun7]) /\ no_edge ip (up_addrs [eth0; tun7])))).
Proof. split; [exact eth0_ok | exact (listen_checked [eth0; tun7] "192.168.1.5" eth0_ok)]. Defined.
