(* ===== verification/Supervisor.v ===== *)
(** * The connect command (connect.go, [connectCmd]).

    What the parent process checks before it starts a daemon, and the daemon's loop over the profiles,
    which runs the sessions of Connect.v on one state.  The loop is endless in the program; here its
    rounds and the reconnections to one profile are bounded by fuel, and a loop that is out of fuel is
    still running. *)

From S2P Require Import Prelude GoStrings Url Ip Router Links CoreRuntime Profiles Effects Tunnel Connect.
From Stdlib Require Import ZArith Lia String Ascii.
From stdpp Require Import base list strings gmap sorting.
Open Scope string_scope.
Open Scope Z_scope.
Abbreviation join := GoStrings.join.

(** ** Flags *)

Record flags := {
  f_workers : Z; f_mtu : Z; f_hashes : string; f_autoSwitch : bool; f_dns : string; f_captcha : string;
  f_mode : string; f_socksPort : Z; f_rawPort : Z; f_transport : string; f_toggle : bool; blackList : string;
  blackListFile : string; socksUser : string; socksPass : string; f_pub : bool; f_listen : string
}.

(** The parameters of a session: the active profile is set by [connectCmd] itself. *)
Definition attempt_args (f : flags) (name : string) : args :=
  {| profileName := name; a_workers := f_workers f; a_mtu := f_mtu f; hashesOverride := f_hashes f; dnsArg := f_dns f;
     captchaMode := f_captcha f; autoSwitch := f_autoSwitch f; a_mode := f_mode f; socksPort := f_socksPort f;
     a_socksUser := socksUser f; a_socksPass := socksPass f;
     pubFlag := f_pub f; socksListenAddr := f_listen f; rawPort := f_rawPort f; transport := f_transport f;
     shouldSetActive := false; skipActiveProfileClear := negb (f_autoSwitch f) |}.

Inductive refusal :=
| ListenAndPublic | PublicNeedsSocks | ListenNeedsSocks | BadListenAddr | NoProfileName | BadSplitMode | BadDomains | BadListFile
| ProfileNotFound | AlreadyRunning | AutoswitchRunning (md : string) | InterfaceBusy | RawInterfaceBusy | PortInUse | NoCapability.

(** The checks of the SOCKS flags; [valid_listen] is [validateSocksListenAddr]. *)
Definition check_flags (valid_listen : string -> bool) (f : flags) : option refusal :=
  let listen := negb (String.eqb (f_listen f) "") in
  let socks := String.eqb (f_mode f) "socks" in
  if listen && f_pub f then Some ListenAndPublic
  else if f_pub f && negb socks then Some PublicNeedsSocks
  else if listen && negb socks then Some ListenNeedsSocks
  else if listen && negb (valid_listen (f_listen f)) then Some BadListenAddr
  else None.

(** The profile the pid file is named after before [daemonProfileName]. *)
Definition daemonProfile (f : flags) (profileName : string) : result refusal string :=
  if String.eqb profileName "" then if f_autoSwitch f then Ok "autoswitch" else Err NoProfileName else Ok profileName.

(** [dm.daemonProfileName()] *)
Definition daemonProfileName (f : flags) (profile : string) : string := if f_autoSwitch f then "autoswitch" else profile.

(** ** The bypass list *)

(** The path of the list is made absolute, also in the arguments that the daemon parses again. *)
Fixpoint rewrite_list_file (abs : string) (argv : list string) : list string :=
  match argv with
  | [] => []
  | a :: rest =>
      if (String.eqb a "--bl-file" || String.eqb a "-bl-file") && (0 <? length rest)%nat then
        match rest with _ :: rest' => a :: abs :: rest' | [] => argv end
      else if has_prefix "--bl-file=" a then ("--bl-file=" ++ abs) :: rest
      else if has_prefix "-bl-file=" a then ("-bl-file=" ++ abs) :: rest
      else a :: rewrite_list_file abs rest
  end.

Definition combinedBl (f : flags) (positional : list string) : string :=
  if (0 <? length positional)%nat then
    if String.eqb (blackList f) "" then join " " positional else blackList f ++ " " ++ join " " positional
  else blackList f.

(** [splitCfg] before the daemon is started; [list_file] is [loadBypassRoutesFile] behind the reading of the
    file, [abs] the absolute path. *)
Definition split_config `{Unicode} (abs : string -> string) (list_file : string -> option (list string)) (f : flags)
    (positional : list string) : result refusal (option splitTunnelConfig) :=
  if String.eqb (blackList f) "" && String.eqb (blackListFile f) "" && (length positional =? 0)%nat then Ok None
  else if negb (existsb (String.eqb (f_mode f)) ["tun"; "raw"; "socks"]) then Err BadSplitMode
  else
    let file := if String.eqb (blackListFile f) "" then "" else abs (blackListFile f) in
    let combined := combinedBl f positional in
    match splitDomains combined with
    | None => Err BadDomains
    | Some blDomains =>
        match (if String.eqb file "" then Some [] else list_file file) with
        | None => Err BadListFile
        | Some fileDomains =>
            Ok (Some {| Tunnel.mode := "blacklist"; domains := (blDomains ++ fileDomains)%list; rawBl := combined; rawFile := file |})
        end
    end.

(** ** Conflicts *)

(** What the parent process sees of the system. *)
Record running := {
  daemon_running : string -> bool; wg_up : bool; raw_up : bool; port_in_use : Z -> bool; autoswitch_mode : string
}.

Definition conflicts (f : flags) (profile : string) (r : running) : option refusal :=
  let md := f_mode f in
  if f_autoSwitch f then
    if daemon_running r "autoswitch" then Some AlreadyRunning
    else if String.eqb md "tun" && wg_up r then Some InterfaceBusy
    else if String.eqb md "tun" && raw_up r then Some RawInterfaceBusy
    else None
  else if daemon_running r profile then Some AlreadyRunning
  else if String.eqb md "tun" then
    if daemon_running r "autoswitch" && (String.eqb (autoswitch_mode r) "tun" || String.eqb (autoswitch_mode r) "raw")
    then Some (AutoswitchRunning (autoswitch_mode r))
    else if wg_up r then Some InterfaceBusy
    else if raw_up r then Some RawInterfaceBusy
    else None
  else if String.eqb md "raw" then
    if raw_up r then Some RawInterfaceBusy else if wg_up r then Some InterfaceBusy else None
  else if String.eqb md "socks" then if port_in_use r (f_socksPort f) then Some PortInUse else None
  else None.

(** [checkTunRawCapabilities] after the conflicts. *)
Definition may_start (f : flags) (profile : string) (r : running) (capable : bool) : option refusal :=
  match conflicts f profile r with
  | Some e => Some e
  | None => if String.eqb (f_mode f) "socks" || capable then None else Some NoCapability
  end.

(** ** Toggle *)

Section toggle.
Context `{Unicode} `{Disk}.

(** The state files after the autoswitch daemon was killed. *)
Definition toggle_autoswitch : Files unit :=
  _ ← clearAutoswitchCurrentProfile;
  active ← getActiveProfile;
  _ ← (if String.eqb active "autoswitch" then clearActiveProfile else mret tt);
  cur ← getAutoswitchCurrentProfile;
  if String.eqb cur "" then mret tt else _ ← unlink (SplitPath cur); mret tt.

Definition toggle_profile (profile : string) : Files unit :=
  _ ← unlink (SplitPath profile);
  active ← getActiveProfile;
  if String.eqb active profile then clearActiveProfile else mret tt.
End toggle.

(** ** The order of the profiles *)

(** The named profile is tried first. *)
Fixpoint move_front (name : string) (before l : list string) : option (list string) :=
  match l with
  | [] => None
  | p :: rest => if String.eqb p name then Some (p :: before ++ rest)%list else move_front name (before ++ [p])%list rest
  end.

Definition profile_order (f : flags) (profileName : string) (enabled : list string) (alive : string -> bool) : list string :=
  let profiles := if String.eqb (f_mode f) "socks" then filter (fun p => alive p = false) enabled else enabled in
  if String.eqb profileName "" then profiles else default profiles (move_front profileName [] profiles).

Definition minRetryInterval : Z := 5 * 10 ^ 9.
Definition second : Z := 10 ^ 9.

(** ** The decision of the parent process *)

Inductive start_decision := Refused (e : refusal) | ToggledOff (daemon : string) | Starts (daemon : string) (cfg : option splitTunnelConfig).

Definition connect_start `{Unicode} (valid_listen : string -> bool) (abs : string -> string)
    (list_file : string -> option (list string)) (loadable : string -> bool) (r : running) (capable : bool)
    (f : flags) (profileName : string) (positional : list string) : start_decision :=
  match check_flags valid_listen f with
  | Some e => Refused e
  | None =>
      match daemonProfile f profileName with
      | Err e => Refused e
      | Ok profile =>
          match split_config abs list_file f positional with
          | Err e => Refused e
          | Ok cfg =>
              let daemon := daemonProfileName f profile in
              if negb (f_autoSwitch f) && negb (loadable profile) then Refused ProfileNotFound
              else if f_toggle f && daemon_running r daemon then ToggledOff daemon
              else match may_start f profile r capable with Some e => Refused e | None => Starts daemon cfg end
          end
      end
  end.

(** ** The daemon *)

Inductive daemon_end := Returned | ExitFailed | ExitFatal | NoProfilesLeft | Panicked.
Inductive ctl := Next | End (e : daemon_end).

(** Where the control socket may handle reload commands besides a session's wake-ups: while no session runs, and
    after the last removal of the routes, before the socket is closed. *)
Inductive moment := NoSession | AfterRemoval.

Section daemon.
Context {key udp : Type} (zero_key : key) (ParseKey : string -> option key) (ResolveUDPAddr : string -> option udp).
Context `{Unicode}.
Abbreviation op := (@op key udp cop).
Abbreviation sess := (@sess key udp).

(** What happens to the daemon: its signals, the clock in nanoseconds, the wake-ups of the session that
    starts after the calls made so far, and the reload commands outside sessions. *)
Class Daemon := {
  stop_closed : list op -> bool;
  clock : list op -> Z;
  wait_stopped : list op -> bool;
  wakes_of : list op -> string -> list wake;
  enabled_profiles : list op -> list string;
  daemon_alive : list op -> string -> bool;
  reloads_at : list op -> moment -> list string
}.
Context `{W : @World key udp cop} `{HH : @Host key udp} `{Daemon}.
Context (f : flags) (daemonProf : string).

(** An attempt, recorded for the statements only: when it began, for which device, and whether it is a
    reconnection after a resume; [at_device] is the profile's own identifier, if it has one. *)
Record attempt := { at_profile : string; at_device : option string; at_time : Z; at_resumed : bool }.

Record sup := { base : sess; lastAttemptByDeviceID : gmap string Z; attempts : list attempt; tried : list string }.
Abbreviation S := (State sup).

Definition with_base (b : sess) (s : sup) : sup :=
  {| base := b; lastAttemptByDeviceID := lastAttemptByDeviceID s; attempts := attempts s; tried := tried s |}.

Definition run {A} (m : State sess A) : S A := fun s => let '(x, b) := m (base s) in (x, with_base b s).
Definition sask {A} (g : list op -> A) (c : cop) : S A := run (lift (ask g (App c))).

Definition note_attempt (a : attempt) : S unit := modify (fun s =>
  {| base := base s;
     lastAttemptByDeviceID := match at_device a with
                              | Some d => <[d := at_time a]> (lastAttemptByDeviceID s) | None => lastAttemptByDeviceID s end;
     attempts := a :: attempts s; tried := tried s |}).
Definition note_tried (name : string) : S unit := modify (fun s =>
  {| base := base s; lastAttemptByDeviceID := lastAttemptByDeviceID s; attempts := attempts s; tried := tried s ++ [name]%list |}).

(** The device of a profile, when it can be read and has one. *)
Definition device_of (p : option ProfileData) : option string :=
  match p with Some p => if String.eqb (Profiles.DeviceID p) "" then None else Some (Profiles.DeviceID p) | None => None end.

Definition load_device (name : string) : S (option string) :=
  sask (fun h => device_of (profile_of h name)) (LoadProfile name).

(** The wait before another profile of the same device, with the slice of its identifier in the message. *)
Definition cooldown (idx : nat) (name : string) : S (option daemon_end) :=
  if f_autoSwitch f && (0 <? idx)%nat then
    d ← load_device name;
    match d with
    | None => mret None
    | Some d =>
        last ← gets (fun s => lastAttemptByDeviceID s !! d);
        match last with
        | None => mret None
        | Some t =>
            now ← sask clock Clock;
            if now - t <? minRetryInterval then
              if (String.length d <? 8)%nat then mret (Some Panicked)
              else
                stopped ← sask wait_stopped (WaitStop (minRetryInterval - (now - t)));
                mret (if stopped : bool then Some Returned else None)
            else mret None
        end
    end
  else mret None.

(** A profile without an identifier of its own is attempted as well, with the machine's; the code remembers no
    time for it. *)
Definition remember_attempt (name : string) (resumed : bool) : S unit :=
  if f_autoSwitch f then
    d ← load_device name;
    match d with
    | Some _ => now ← sask clock Clock; note_attempt {| at_profile := name; at_device := d; at_time := now; at_resumed := resumed |}
    | None =>
        now ← gets (fun s => clock (history (kern (base s))));
        note_attempt {| at_profile := name; at_device := None; at_time := now; at_resumed := resumed |}
    end
  else mret tt.

(** Reload commands that the control socket handles now. *)
Fixpoint reload_each (files : list string) : State (@tun key udp cop) unit :=
  match files with
  | [] => mret tt
  | g :: rest =>
      _ ← reloadSplitRoutes RawIfaceName (f_mode f) (blackList f) (daemonProfileName f daemonProf) g; reload_each rest
  end.
Definition handle_reloads (m : moment) : S unit := fun s => run (lift (reload_each (reloads_at (history (kern (base s))) m))) s.

Definition try_profile (name : string) : S (option outcome) := fun s =>
  run (tryConnectProfile zero_key ParseKey ResolveUDPAddr (attempt_args f name) (blackList f) (daemonProfileName f daemonProf)
         (wakes_of (history (kern (base s))) name)) s.

(** After a session: [connected] is false on each of its returns, so that the loop is not left as successful. *)
Definition after_session (o : outcome) : S (option daemon_end) :=
  if fatal o && f_autoSwitch f then
    _ ← sask (fun _ => tt) (CleanupPid daemonProf);
    _ ← sask (fun _ => tt) (RemoveSplitCfg daemonProf);
    _ ← run kernel_teardown; mret (Some ExitFatal)
  else
    stopped ← sask stop_closed StopClosed;
    mret (if stopped : bool then Some Returned else None).

(** The sessions of one profile, again after every resume. *)
Fixpoint retry (fuel : nat) (name : string) (resumed : bool) : S (option ctl) :=
  match fuel with
  | O => mret None
  | Datatypes.S fuel =>
      _ ← remember_attempt name resumed;
      _ ← handle_reloads NoSession;
      o ← try_profile name;
      match o with
      | None => mret None
      | Some o =>
          _ ← handle_reloads NoSession;
          e ← after_session o;
          match e with
          | Some e => mret (Some (End e))
          | None =>
              if wasResume o then _ ← sask (fun _ => tt) (Pause (2 * second)); retry fuel name true
              else _ ← note_tried name; mret (Some Next)
          end
      end
  end.

(** The profiles from number [idx] on. *)
Fixpoint round (fuel idx : nat) (names : list string) : S (option ctl) :=
  match names with
  | [] => mret (Some Next)
  | name :: rest =>
      stopped ← sask stop_closed StopClosed;
      if stopped : bool then mret (Some (End Returned))
      else
        c ← cooldown idx name;
        match c with
        | Some e => mret (Some (End e))
        | None =>
            r ← retry fuel name false;
            match r with
            | Some Next =>
                _ ← (if (0 <? length rest)%nat then sask (fun _ => tt) (Pause (2 * second)) else mret tt);
                round fuel (Datatypes.S idx) rest
            | _ => mret r
            end
        end
  end.

Fixpoint rounds (n fuel : nat) (profiles : list string) : S (option daemon_end) :=
  match n with
  | O => mret None
  | Datatypes.S n =>
      r ← round fuel 0 profiles;
      match r with
      | None => mret None
      | Some (End e) => mret (Some e)
      | Some Next =>
          if negb (f_autoSwitch f) then mret (Some ExitFailed)
          else _ ← sask (fun _ => tt) (Pause (5 * second)); rounds n fuel profiles
      end
  end.

(** The deferred calls of the daemon; they run when [connectCmd] returns or panics, not when it exits. *)
Definition deferred (e : daemon_end) : S unit :=
  match e with
  | Returned | Panicked =>
      _ ← handle_reloads NoSession;
      _ ← (if f_autoSwitch f then sask (fun _ => tt) ClearAutoswitch else mret tt);
      _ ← run (lift teardownTunnelRoutes);
      _ ← handle_reloads AfterRemoval;
      _ ← sask (fun _ => tt) ReleaseDaemon;
      sask (fun _ => tt) StopControl
  | ExitFailed | ExitFatal | NoProfilesLeft => mret tt
  end.

Definition daemon_profiles (profileName : string) : S (list string) :=
  if f_autoSwitch f then
    l ← sask enabled_profiles ListProfiles;
    alive ← sask daemon_alive (DaemonAlive "");
    mret (profile_order f profileName l alive)
  else mret [profileName].

Definition set_daemon_active (profileName : string) : S unit :=
  if f_autoSwitch f then sask (fun _ => tt) (SetActive "autoswitch")
  else if String.eqb (f_mode f) "tun" || String.eqb (f_mode f) "raw" then sask (fun _ => tt) (SetActive profileName)
  else mret tt.

(** The child process; [None] while it is running. *)
Definition daemon (n fuel : nat) (profileName : string) : S (option daemon_end) :=
  _ ← sask (fun _ => tt) StartControl;
  _ ← set_daemon_active profileName;
  profiles ← daemon_profiles profileName;
  e ← (if (length profiles =? 0)%nat then mret (Some NoProfilesLeft) else rounds n fuel profiles);
  match e with
  | Some e => _ ← deferred e; mret (Some e)
  | None => mret None
  end.

(** ** Routes of the daemon *)

Lemma run_keeps {A} P (m : State sess A) : keeps P m -> keeps (fun s => P (base s)) (run m).
Proof. intros Hm s Hs. specialize (Hm _ Hs). unfold run. by destruct (m (base s)). Qed.

Section routes.
Context (U : @tun key udp cop -> Prop) (HU : quiet U) (Uclean : forall t, clean t -> U t) (Utracked : forall t, U t -> tracked false [] t).
Context (Hcov : forall h name, Forall (covered (attempt_args f name) (blackList f) (daemonProfileName f daemonProf) U) (wakes_of h name)).
Context (Hreload : forall h g, g ∈ reloads_at h NoSession ->
  keeps U (reloadSplitRoutes RawIfaceName (f_mode f) (blackList f) (daemonProfileName f daemonProf) g)).
Context (Hlast : forall h, reloads_at h AfterRemoval = []).

Definition routed (s : sup) : Prop := U (kern (base s)).

(** Between sessions the routes have [U]; the exit on a fatal error has just removed them. *)
Definition left_routes (e : option daemon_end) (s : sup) : Prop :=
  match e with None => True | Some ExitFatal => clean (kern (base s)) | Some _ => routed s end.
Definition round_routes (r : option ctl) (s : sup) : Prop :=
  match r with Some Next => routed s | Some (End e) => left_routes (Some e) s | None => True end.

Lemma sask_routed {A} (g : list op -> A) c : keeps routed (sask g c).
Proof.
  apply (run_keeps (fun b => U (kern b))), kern_keeps. intros w r. apply lift_keeps. by apply quiet_ask.
Qed.
Lemma note_attempt_routed x : keeps routed (note_attempt x).
Proof. by apply sat_modify. Qed.
Lemma note_tried_routed x : keeps routed (note_tried x).
Proof. by apply sat_modify. Qed.
#[local] Hint Resolve sask_routed note_attempt_routed note_tried_routed : effects.
Lemma load_routed name : keeps routed (load_device name).
Proof. apply sask_routed. Qed.
Lemma handle_routed : keeps routed (handle_reloads NoSession).
Proof.
  intros s Hs. unfold handle_reloads. apply (run_keeps (fun b => U (kern b))); [| exact Hs]. intros b Hb. unfold lift.
  assert (forall l, (forall g, g ∈ l -> keeps U (reloadSplitRoutes RawIfaceName (f_mode f) (blackList f) (daemonProfileName f daemonProf) g)) ->
    keeps U (reload_each l)) as Hl.
  { induction l as [| g l IH]; intros Hg; cbn [reload_each]; [apply keeps_ret |].
    apply keeps_bind; [apply Hg; by left | intros ?; apply IH; intros x Hx; apply Hg; by right]. }
  pose proof (Hl _ (Hreload (history (kern (base s)))) (kern b) Hb) as Hk. by destruct (reload_each _ (kern b)).
Qed.
#[local] Hint Resolve load_routed handle_routed : effects.
Lemma remember_routed name b : keeps routed (remember_attempt name b).
Proof. unfold remember_attempt. keep. Qed.
Lemma cooldown_routed idx name : keeps routed (cooldown idx name).
Proof. unfold cooldown. keep. Qed.

Lemma try_routed name : sat routed (try_profile name) (fun o s => o <> None -> routed s).
Proof.
  intros s Hs. unfold try_profile, run, routed in *.
  pose proof (session_ended zero_key ParseKey ResolveUDPAddr (attempt_args f name) (blackList f) (daemonProfileName f daemonProf)
    U HU Uclean Utracked _ (Hcov (history (kern (base s))) name) (base s) Hs) as H1.
  by destruct (tryConnectProfile _ _ _ _ _ _ _ _) as [o b].
Qed.

Lemma after_routed o : sat routed (after_session o) (fun e s => match e with Some e => left_routes (Some e) s | None => routed s end).
Proof.
  unfold after_session. destruct (fatal o && f_autoSwitch f).
  - do 2 (eapply sat_bind; [apply sask_routed |]; intros ?).
    eapply (sat_bind _ _ (fun _ s => clean (kern (base s)))); [| intros ?; by apply sat_ret].
    intros s Hs. unfold run.
    pose proof (kernel_teardown_clean (wgConfigured (base s)) (rawConfigured (base s)) (base s)) as H1.
    destruct (kernel_teardown (base s)) as [x b]. cbn in *. apply H1. split; [done |]. split; [done |].
    by apply tracked_weaken, Utracked.
  - eapply sat_bind; [apply sask_routed |]. intros b. apply sat_ret. intros s Hs. by destruct b.
Qed.

Lemma retry_routed fuel name b : sat routed (retry fuel name b) round_routes.
Proof.
  revert b. induction fuel as [| fuel IH]; intros b; cbn [retry]; [by apply sat_ret |].
  eapply sat_bind; [apply remember_routed |]. intros ?. eapply sat_bind; [apply handle_routed |]. intros ?.
  eapply sat_bind; [apply try_routed |]. intros [o |]; [| by apply sat_ret].
  eapply sat_bind; [eapply sat_weaken; [apply handle_routed | intros s Hs; by apply Hs | intros ? s Hs; exact Hs] |]. intros ?.
  eapply sat_bind; [apply (after_routed o) |].
  intros [e |]; [by apply sat_ret |]. destruct (wasResume o).
  - eapply sat_bind; [apply sask_routed |]. intros ?. apply IH.
  - eapply sat_bind; [apply note_tried_routed |]. intros ?. by apply sat_ret.
Qed.

Lemma cooldown_end_routed idx name : sat routed (cooldown idx name) (fun c s => match c with Some e => e <> ExitFatal /\ routed s | None => routed s end).
Proof.
  unfold cooldown. destruct (_ && _); [| by apply sat_ret]. eapply sat_bind; [apply load_routed |]. intros [d |]; [| by apply sat_ret].
  eapply sat_bind; [apply keeps_gets |]. intros [t |]; [| by apply sat_ret]. eapply sat_bind; [apply sask_routed |]. intros now.
  destruct (now - t <? minRetryInterval); [| by apply sat_ret]. destruct (_ <? 8)%nat; [by apply sat_ret |].
  eapply sat_bind; [apply sask_routed |]. intros []; by apply sat_ret.
Qed.

Lemma round_routed fuel idx names : sat routed (round fuel idx names) round_routes.
Proof.
  revert idx. induction names as [| name rest IH]; intros idx; cbn [round]; [by apply sat_ret |].
  eapply sat_bind; [apply sask_routed |]. intros []; [by apply sat_ret |].
  eapply sat_bind; [apply cooldown_end_routed |]. intros [e |].
  { apply sat_ret. intros s [He Hs]. by destruct e. }
  eapply sat_bind; [apply retry_routed |]. intros [[| e] |]; [| by apply sat_ret | by apply sat_ret].
  eapply sat_bind; [| intros ?; apply IH]. change (keeps routed (if (0 <? length rest)%nat then sask (fun _ => tt) (Pause (2 * second)) else mret tt)). keep.
Qed.

Lemma rounds_routed n fuel names : sat routed (rounds n fuel names) left_routes.
Proof.
  induction n as [| n IH]; cbn [rounds]; [by apply sat_ret |].
  eapply sat_bind; [apply round_routed |]. intros [[| e] |]; [| by apply sat_ret | by apply sat_ret].
  destruct (f_autoSwitch f); cbn [negb]; [| by apply sat_ret]. eapply sat_bind; [apply sask_routed |]. intros ?. apply IH.
Qed.

Lemma deferred_clean e : e = Returned \/ e = Panicked -> sat routed (deferred e) (fun _ s => clean (kern (base s))).
Proof.
  intros He. assert (forall c, keeps (fun s => clean (kern (base s))) (sask (fun _ => tt) c)) as Hc.
  { intros c. apply (run_keeps (fun b => clean (kern b))), kern_keeps. intros w r. apply lift_keeps. by apply (quiet_ask _ clean_quiet). }
  assert (deferred e = (_ ← handle_reloads NoSession; _ ← (if f_autoSwitch f then sask (fun _ => tt) ClearAutoswitch else mret tt);
    _ ← run (lift teardownTunnelRoutes); _ ← handle_reloads AfterRemoval; _ ← sask (fun _ => tt) ReleaseDaemon; sask (fun _ => tt) StopControl)) as ->
    by (by destruct He as [-> | ->]).
  eapply sat_bind; [apply handle_routed |]. intros ?.
  apply (sat_bind _ _ (fun _ => routed)); [change (keeps routed (if f_autoSwitch f then sask (fun _ => tt) ClearAutoswitch else mret tt)); keep |].
  intros ?. apply (sat_bind _ _ (fun _ s => clean (kern (base s)))).
  { intros s Hs. unfold run, lift. pose proof (teardown_routes_clean (kern (base s))) as H1.
    destruct (teardownTunnelRoutes (kern (base s))) as [x t]. apply H1. by apply tracked_weaken, Utracked. }
  intros ?. apply (sat_bind _ _ (fun _ s => clean (kern (base s)))).
  { intros s Hs. unfold handle_reloads. rewrite Hlast. unfold run, lift. cbn. by destruct (base s). }
  intros ?. apply keeps_bind; [apply Hc | intros ?; apply Hc].
Qed.

Lemma daemon_routed n fuel name :
  sat routed (daemon n fuel name) (fun e s => match e with Some Returned | Some Panicked => clean (kern (base s)) | _ => left_routes e s end).
Proof.
  unfold daemon. eapply sat_bind; [apply sask_routed |]. intros ?. eapply (sat_bind _ _ (fun _ => routed)).
  { change (keeps routed (set_daemon_active name)). unfold set_daemon_active. keep. }
  intros _. apply (sat_bind _ _ (fun _ => routed)).
  { change (keeps routed (daemon_profiles name)). unfold daemon_profiles. keep. }
  intros profiles. apply (sat_bind _ _ left_routes); [destruct (_ =? _)%nat; [by apply sat_ret | apply rounds_routed] |].
  intros [e |]; [| by apply sat_ret].
  destruct e; cbn [left_routes]; try (eapply sat_bind; [apply deferred_clean; auto |]; intros ?; by apply sat_ret).
  all: intros s Hs; exact Hs.
Qed.
End routes.

(** C28: a daemon that starts with none of the program's routes to be deleted has asked for the deletion of every
    route it added when it returns, panics or exits on a fatal error, whatever happened to its sessions and
    whatever bypass lists were reloaded before its last removal of the routes, each reload taken as one step
    between two others.  When it exits because its one profile failed, the deferred removal is skipped, and
    this holds if nothing was reloaded.  The routes the kernel still holds are those whose deletion it refused;
    if it refuses none, no route is left.  (A reload after the last removal leaves routes: see the example
    [late_reload_leaves_routes].) *)
Theorem daemon_leaves_no_routes n fuel name s e s' :
  (f_mode f = "raw" -> forall h p data, CoreEvent (EvEvent "wg_config" data) ∉ wakes_of h p) ->
  (forall h, reloads_at h AfterRemoval = []) ->
  undeleted (history (kern (base s))) = [] -> daemon n fuel name s = (Some e, s') ->
  e ∈ [Returned; Panicked; ExitFatal] \/ (forall h p g, (ReloadCommand g ∉ wakes_of h p) /\ (g ∉ reloads_at h NoSession)) ->
  let h := history (kern (base s')) in
  undeleted h = [] /\ kernel_routes h ⊆ refused h /\
  ((forall h' d, succeeds h' (RouteDel d) = true) -> kernel_routes h = []).
Proof.
  intros Hraw Hlast Hs E He h.
  assert (undeleted h = []) as Hc; [| split; [exact Hc | split; [by apply kernel_refused | by apply kernel_emptied]]].
  destruct He as [He | Hno].
  - pose proof (daemon_routed (tracked false []) (tracked_quiet false []) (clean_tracked false) (fun t H => H)
      (fun h p => covered_all (attempt_args f p) _ _ _ _ (fun Hm => Hraw Hm h p) (fun g _ => reload_tracked false _ _ _ _ g))
      (fun h g _ => reload_tracked false _ _ _ _ g) Hlast n fuel name s (clean_tracked false _ Hs)) as H1.
    rewrite E in H1. repeat (apply elem_of_cons in He as [-> | He]; [exact H1 |]). by apply elem_of_nil in He.
  - pose proof (daemon_routed clean clean_quiet (fun t H => H) (clean_tracked false)
      (fun h p => covered_all (attempt_args f p) _ _ _ _ (fun Hm => Hraw Hm h p) (fun g Hg => False_ind _ (proj1 (Hno h p g) Hg)))
      (fun h g Hg => False_ind _ (proj2 (Hno h "" g) Hg)) Hlast n fuel name s Hs) as H1.
    rewrite E in H1. by destruct e.
Qed.

(** ** Attempts of one device *)

Abbreviation tun := (@tun key udp cop).

(** What every operation of the daemon does to the history of calls. *)
Section grows.
Context (P : tun -> Prop) (HP : monotone P).
Abbreviation Q := (fun s : sup => P (kern (base s))).

Lemma run_grows {A} (m : State sess A) : keeps (fun b => P (kern b)) m -> keeps Q (run m).
Proof. apply run_keeps. Qed.
Lemma sask_grows {A} (g : list op -> A) c : keeps Q (sask g c).
Proof. by apply run_grows, ask_grows. Qed.
Lemma try_grows name : keeps Q (try_profile name).
Proof. intros s Hs. by apply (run_grows (tryConnectProfile _ _ _ _ _ _ _)); [apply connect_grows |]. Qed.
Lemma after_grows o : keeps Q (after_session o).
Proof.
  unfold after_session. pose proof (@sask_grows). assert (keeps Q (run kernel_teardown)).
  { apply run_grows. unfold kernel_teardown. apply keeps_bind; [by apply lift_grows, mono_teardown |]. intros ?. apply keeps_ret. }
  keep.
Qed.
End grows.

(** The clock goes on with every call and for the length of a wait that is not interrupted. *)
Definition clock_runs : Prop :=
  (forall h o, clock h <= clock (o :: h)) /\ (forall h d, clock h + d <= clock (App (Pause d) :: h)) /\
  (forall h d, wait_stopped h = false -> clock h + d <= clock (App (WaitStop d) :: h)).

Section spacing.
Context (Hclock : clock_runs) (device : string -> option string) (Hdevice : forall h n, device_of (profile_of h n) = device n).

Definition now_of (s : sup) : Z := clock (history (kern (base s))).

Definition apart (a b : attempt) : Prop :=
  at_resumed a = false -> forall d, at_device a = Some d -> at_device b = Some d -> at_time b + minRetryInterval <= at_time a.

(** The attempts so far, latest first: each is remembered, or a later one of its device. *)
Definition remembered (s : sup) : Prop :=
  StronglySorted apart (attempts s) /\
  Forall (fun x => at_time x <= now_of s /\
    forall d, at_device x = Some d -> exists t, lastAttemptByDeviceID s !! d = Some t /\ at_time x <= t) (attempts s).

(** An attempt of the device would be far enough from all earlier ones. *)
Definition ready (name : string) (s : sup) : Prop :=
  Forall (fun x => forall d, at_device x = Some d -> device name = Some d -> at_time x + minRetryInterval <= now_of s) (attempts s).

Lemma clock_monotone z : monotone (fun t : tun => z <= clock (history t)).
Proof.
  destruct Hclock as (Hc & _). split.
  - intros t o Hz. etransitivity; [exact Hz | apply Hc].
  - intros t t' E Hz. by rewrite E.
Qed.

(** Operations on the state of the session. *)
Definition on_base {A} (m : S A) : Prop :=
  (forall P, monotone P -> keeps (fun s => P (kern (base s))) m) /\
  (forall s, attempts (m s).2 = attempts s /\ lastAttemptByDeviceID (m s).2 = lastAttemptByDeviceID s).

Lemma on_base_later {A} (m : S A) s : on_base m -> now_of s <= now_of (m s).2.
Proof. intros [Hm _]. exact (Hm _ (clock_monotone (now_of s)) s (Z.le_refl _)). Qed.

Lemma on_base_remembered {A} (m : S A) : on_base m -> keeps remembered m.
Proof.
  intros Hm s [H1 H2]. pose proof (on_base_later m s Hm) as Hl. destruct (proj2 Hm s) as [E1 E2].
  unfold remembered. rewrite E1, E2. split; [done |]. eapply Forall_impl; [exact H2 |]. intros x (Hx & H'). split; [lia | done].
Qed.

Lemma on_base_ready {A} (m : S A) name : on_base m -> keeps (ready name) m.
Proof.
  intros Hm s H1. pose proof (on_base_later m s Hm) as Hl. unfold ready. rewrite (proj1 (proj2 Hm s)).
  eapply Forall_impl; [exact H1 |]. cbv beta. intros x Hx d E1 E2. specialize (Hx d E1 E2). lia.
Qed.

Lemma run_on_base {A} (m : State sess A) : (forall P, monotone P -> keeps (fun b => P (kern b)) m) -> on_base (run m).
Proof.
  intros Hm. split; [intros P HP; by apply run_grows, Hm |]. intros s. unfold run. by destruct (m (base s)).
Qed.

Lemma sask_on_base {A} (g : list op -> A) c : on_base (sask g c).
Proof. apply run_on_base. intros P HP. by apply ask_grows. Qed.

Lemma handle_on_base m : on_base (handle_reloads m).
Proof.
  split; [| intros s; unfold handle_reloads, run; by destruct (lift _ _)].
  intros P HP s Hs. unfold handle_reloads. apply run_grows; [| exact Hs]. apply lift_grows. generalize (reloads_at (history (kern (base s))) m).
  intros l. induction l as [| g l IH]; cbn [reload_each]; [apply keeps_ret |].
  apply keeps_bind; [by apply mono_reload | intros ?; exact IH].
Qed.

Lemma try_on_base name : on_base (try_profile name).
Proof.
  split; [intros P HP; by apply try_grows |]. intros s. unfold try_profile, run. by destruct (tryConnectProfile _ _ _ _ _ _ _ _).
Qed.

Lemma bind_on_base {A B} (m : S A) (g : A -> S B) : on_base m -> (forall a, on_base (g a)) -> on_base (m ≫= g).
Proof.
  intros [H1 H2] Hg. split.
  - intros P HP. apply keeps_bind; [by apply H1 |]. intros a. by apply Hg.
  - intros s. rewrite run_bind. destruct (proj2 (Hg (m s).1) (m s).2) as [E1 E2]. rewrite E1, E2. apply H2.
Qed.

Lemma ret_on_base {A} (x : A) : on_base (mret x).
Proof. split; [intros; apply keeps_ret | done]. Qed.

Lemma after_on_base o : on_base (after_session o).
Proof.
  unfold after_session. destruct (_ && _).
  - do 2 (apply bind_on_base; [apply sask_on_base |]; intros ?). apply bind_on_base; [| intros; apply ret_on_base].
    apply run_on_base. intros P HP. unfold kernel_teardown. apply keeps_bind; [by apply lift_grows, mono_teardown |]. intros ?. apply keeps_ret.
  - apply bind_on_base; [apply sask_on_base |]. intros ?. apply ret_on_base.
Qed.

Lemma tried_remembered name : keeps remembered (note_tried name).
Proof. by apply sat_modify. Qed.

Definition may_begin (name : string) (resumed : bool) (s : sup) : Prop := remembered s /\ (resumed = false -> ready name s).

Lemma may_begin_keeps {A} (m : S A) name b : on_base m -> keeps (may_begin name b) m.
Proof. intros Hm s [H1 H2]. split; [by apply on_base_remembered | intros E; apply on_base_ready; auto]. Qed.

Lemma load_device_value name s : (load_device name s).1 = device name.
Proof. unfold load_device, sask, run, lift, ask. cbn. apply Hdevice. Qed.

Lemma load_on_base name : on_base (load_device name).
Proof. apply sask_on_base. Qed.

(** The new attempt comes after the earlier ones and, if it is not a reconnection, far enough. *)
Lemma note_remembered name b d s0 s : may_begin name b s0 -> device name = d ->
  attempts s = attempts s0 -> lastAttemptByDeviceID s = lastAttemptByDeviceID s0 -> now_of s0 <= now_of s ->
  remembered (note_attempt {| at_profile := name; at_device := d; at_time := now_of s0; at_resumed := b |} s).2.
Proof.
  intros [[H1 H2] H3] Hd E1 E2 Hl. unfold remembered, note_attempt, modify. cbn [snd attempts lastAttemptByDeviceID at_device].
  rewrite E1, E2. change (now_of {| base := base s; lastAttemptByDeviceID := _; attempts := _; tried := _ |}) with (now_of s).
  split; constructor.
  - done.
  - apply Forall_forall. intros x Hx Hb d' Ed Ex. cbn in *. specialize (H3 Hb). unfold ready in H3. rewrite Forall_forall in H3.
    apply (H3 x Hx d'); [done |]. by rewrite Hd.
  - split; [exact Hl |]. cbn [at_device]. intros d' ->. exists (now_of s0). by rewrite lookup_insert_eq.
  - eapply Forall_impl; [exact H2 |]. cbv beta. intros x (Hx & Ht).
    split; [exact (Z.le_trans _ _ _ Hx Hl) |]. intros d' Ed. destruct (Ht d' Ed) as (t & Et & Hle).
    destruct d as [d |]; cbn [at_time]; [| by exists t]. destruct (decide (d' = d)) as [-> | Hne].
    + exists (now_of s0). by rewrite lookup_insert_eq.
    + exists t. by rewrite lookup_insert_ne.
Qed.

Lemma remember_remembered name b : sat (may_begin name b) (remember_attempt name b) (fun _ => remembered).
Proof.
  unfold remember_attempt. destruct (f_autoSwitch f); [| apply sat_ret; by intros s []].
  intros s Hs. rewrite run_bind, load_device_value.
  pose proof (may_begin_keeps _ name b (load_on_base name) s Hs) as H1. set (s1 := (load_device name s).2) in *.
  destruct (device name) as [d |] eqn:Ed; rewrite run_bind.
  - change (sask clock Clock s1).1 with (now_of s1). destruct (proj2 (sask_on_base clock Clock) s1) as [E1 E2].
    apply note_remembered; [done | done | done | done |]. exact (on_base_later _ s1 (sask_on_base clock Clock)).
  - by apply note_remembered.
Qed.

Lemma retry_remembered fuel name b : sat (may_begin name b) (retry fuel name b) (fun _ => remembered).
Proof.
  revert b. induction fuel as [| fuel IH]; intros b; cbn [retry]; [apply sat_ret; by intros s [] |].
  eapply sat_bind; [apply remember_remembered |]. intros ?.
  apply (sat_bind _ _ (fun _ => remembered)); [apply on_base_remembered, handle_on_base |]. intros ?.
  apply (sat_bind _ _ (fun _ => remembered)); [apply on_base_remembered, try_on_base |]. intros [o |]; [| by apply sat_ret].
  apply (sat_bind _ _ (fun _ => remembered)); [apply on_base_remembered, handle_on_base |]. intros ?.
  apply (sat_bind _ _ (fun _ => remembered)); [apply on_base_remembered, after_on_base |]. intros [e |]; [by apply sat_ret |].
  destruct (wasResume o).
  - apply (sat_bind _ _ (fun _ => remembered)); [apply on_base_remembered, sask_on_base |]. intros ?.
    eapply sat_weaken; [apply (IH true) | by intros s Hs | done].
  - apply (sat_bind _ _ (fun _ => remembered)); [apply tried_remembered |]. intros ?. by apply sat_ret.
Qed.

(** After the cooldown the next profile may be tried. *)
Lemma cooldown_ready idx name :
  sat (fun s => remembered s /\ (idx = 0%nat -> ready name s)) (cooldown idx name)
    (fun c s => remembered s /\ (c = None -> f_autoSwitch f = true -> ready name s)).
Proof.
  unfold cooldown. destruct (f_autoSwitch f) eqn:Ea; [| apply sat_ret; by intros s []].
  destruct (Nat.ltb_spec 0 idx) as [Hi | Hi]; cbn [andb]; [| apply sat_ret; intros s [H1 H2]; split; [done |]; intros; apply H2; lia].
  intros s [Hs _]. rewrite run_bind, load_device_value.
  assert (remembered (load_device name s).2) as H1 by (by apply on_base_remembered; [apply load_on_base |]). set (s1 := (load_device name s).2) in *. clearbody s1. clear s Hs.
  assert (forall s, remembered s -> (forall t d, device name = Some d -> lastAttemptByDeviceID s !! d = Some t -> t + minRetryInterval <= now_of s) -> ready name s) as Hready.
  { intros s [_ H2] Ht. eapply Forall_impl; [exact H2 |]. cbv beta. intros x (_ & Hx) d Ed E.
    destruct (Hx d Ed) as (t & Et & Hle). specialize (Ht t d E Et). lia. }
  destruct (device name) as [d |] eqn:Ed.
  2: { split; [exact H1 |]. intros _ _. apply Hready; [exact H1 |]. intros t d Hd. done. }
  rewrite run_bind. cbn [gets fst snd]. destruct (lastAttemptByDeviceID s1 !! d) as [t |] eqn:El.
  2: { split; [exact H1 |]. intros _ _. apply Hready; [exact H1 |]. intros t d' [= <-]. cbn [snd mret State_ret]. by rewrite El. }
  rewrite run_bind. change (sask clock Clock s1).1 with (now_of s1).
  assert (remembered (sask clock Clock s1).2) as H2 by (by apply on_base_remembered; [apply sask_on_base |]).
  pose proof (on_base_later _ s1 (sask_on_base clock Clock)) as Hl. destruct (proj2 (sask_on_base clock Clock) s1) as [_ El2].
  set (s2 := (sask clock Clock s1).2) in *. clearbody s2. rewrite <- El2 in El.
  destruct (Z.ltb_spec (now_of s1 - t) minRetryInterval) as [Hlt | Hge].
  2: { split; [exact H2 |]. intros _ _. apply Hready; [exact H2 |]. intros t' d' [= <-]. cbn [snd mret State_ret]. rewrite El. intros [= <-]. lia. }
  destruct (_ <? 8)%nat; [by split |]. rewrite run_bind.
  set (w := minRetryInterval - (now_of s1 - t)).
  assert (remembered (sask wait_stopped (WaitStop w) s2).2) as H3 by (by apply on_base_remembered; [apply sask_on_base |]).
  destruct (proj2 (sask_on_base wait_stopped (WaitStop w)) s2) as [_ El3].
  assert (wait_stopped (history (kern (base s2))) = false -> now_of s2 + w <= now_of (sask wait_stopped (WaitStop w) s2).2) as Hw
    by (destruct Hclock as (_ & _ & Hc); apply Hc).
  change (sask wait_stopped (WaitStop w) s2).1 with (wait_stopped (history (kern (base s2)))).
  set (s3 := (sask wait_stopped (WaitStop w) s2).2) in *. clearbody s3. destruct (wait_stopped _); [by split |]. split; [exact H3 |]. intros _ _.
  apply Hready; [exact H3 |]. intros t' d' [= <-]. cbn [snd mret State_ret]. rewrite El3, El. intros [= <-]. unfold w in Hw. specialize (Hw eq_refl). lia.
Qed.

(** Every profile may be tried: the waits between the rounds are long enough. *)
Definition all_ready (s : sup) : Prop := Forall (fun x => at_time x + minRetryInterval <= now_of s) (attempts s).

Lemma all_ready_any s name : all_ready s -> ready name s.
Proof. intros Hs. eapply Forall_impl; [exact Hs |]. cbv beta. intros x Hx d _ _. exact Hx. Qed.

Lemma on_base_all_ready {A} (m : S A) : on_base m -> keeps all_ready m.
Proof.
  intros Hm s H1. pose proof (on_base_later m s Hm) as Hl. unfold all_ready. rewrite (proj1 (proj2 Hm s)).
  eapply Forall_impl; [exact H1 |]. cbv beta. intros x Hx. lia.
Qed.

Lemma round_remembered fuel idx names :
  sat (fun s => remembered s /\ (idx = 0%nat -> all_ready s)) (round fuel idx names) (fun _ => remembered).
Proof.
  revert idx. induction names as [| name rest IH]; intros idx; cbn [round]; [apply sat_ret; by intros s [] |].
  apply (sat_bind _ _ (fun _ s => remembered s /\ (idx = 0%nat -> all_ready s))).
  { intros s [H1 H2]. split; [by apply on_base_remembered; [apply sask_on_base |] | intros E; apply on_base_all_ready; [apply sask_on_base | auto]]. }
  intros []; [apply sat_ret; by intros s [] |].
  eapply sat_bind; [eapply sat_weaken; [apply (cooldown_ready idx name) | | intros ? s Hs; exact Hs] |].
  { intros s [H1 H2]. split; [done |]. intros E. by apply all_ready_any, H2. }
  intros [e |]; [apply sat_ret; by intros s [] |].
  apply (sat_bind _ _ (fun _ => remembered)).
  - destruct (f_autoSwitch f) eqn:Ea.
    + eapply sat_weaken; [apply (retry_remembered fuel name false) | intros s [H1 H2]; split; auto | done].
    + assert (forall b, keeps remembered (retry fuel name b)) as Hk; [| intros s [H1 _]; by apply Hk].
      clear IH. induction fuel as [| fuel IHf]; intros b; cbn [retry]; [apply keeps_ret |]. unfold remember_attempt. rewrite Ea.
      pose proof (fun m => on_base_remembered _ (handle_on_base m)).
      pose proof (on_base_remembered _ (try_on_base name)). pose proof (fun o => on_base_remembered _ (after_on_base o)).
      pose proof (tried_remembered name). assert (forall c, keeps remembered (sask (fun _ => tt) c)) by (intros; apply on_base_remembered, sask_on_base).
      keep.
  - intros [[| e] |]; [| by apply sat_ret | by apply sat_ret].
    apply (sat_bind _ _ (fun _ => remembered)).
    + destruct (_ <? _)%nat; [apply on_base_remembered, sask_on_base | by apply sat_ret].
    + intros _. eapply sat_weaken; [apply (IH (Datatypes.S idx)) | by intros s Hs | done].
Qed.

Lemma pause_all_ready : sat remembered (sask (fun _ => tt) (Pause (5 * second))) (fun _ => all_ready).
Proof.
  intros s [_ H1]. unfold all_ready. rewrite (proj1 (proj2 (sask_on_base (fun _ => tt) (Pause (5 * second))) s)).
  eapply Forall_impl; [exact H1 |]. cbv beta. intros x (Hx & _).
  destruct Hclock as (_ & Hp & _). specialize (Hp (history (kern (base s))) (5 * second)).
  change (at_time x + minRetryInterval <= clock (App (Pause (5 * second)) :: history (kern (base s)))). unfold now_of in Hx.
  unfold minRetryInterval, second in *. lia.
Qed.

Lemma rounds_remembered n fuel names : sat (fun s => remembered s /\ all_ready s) (rounds n fuel names) (fun _ => remembered).
Proof.
  induction n as [| n IH]; cbn [rounds]; [apply sat_ret; by intros s [] |].
  eapply sat_bind; [eapply sat_weaken; [apply (round_remembered fuel 0 names) | intros s []; auto | intros ? s Hs; exact Hs] |].
  intros [[| e] |]; [| by apply sat_ret | by apply sat_ret]. destruct (f_autoSwitch f); cbn [negb]; [| by apply sat_ret].
  eapply sat_bind; [| intros ?; apply IH]. intros s Hs. split; [by apply on_base_remembered; [apply sask_on_base |] | by apply pause_all_ready].
Qed.

(** C29: under autoswitch, attempts of profiles that have the same device identifier of their own begin at least
    five seconds apart, however the sessions end and whichever profiles share the device, except for the
    reconnection after a resume.  (Profiles without an identifier of their own all use the machine's, and
    are not kept apart: see the example [default_device_close].) *)
Theorem same_device_spaced n fuel name s :
  attempts s = [] -> StronglySorted apart (attempts (daemon n fuel name s).2).
Proof.
  intros Hs. assert (sat (fun s => attempts s = []) (daemon n fuel name) (fun _ => remembered)) as Hd; [| by apply (Hd s Hs)].
  assert (forall A (m : S A), on_base m -> keeps (fun s => attempts s = []) m) as Hb.
  { intros A m Hm t Ht. by rewrite (proj1 (proj2 Hm t)). }
  assert (forall A (m : S A), on_base m -> keeps remembered m) as Hr by (intros; by apply on_base_remembered).
  pose proof (@sask_on_base) as Ha. unfold daemon.
  apply (sat_bind _ _ (fun _ s => attempts s = [])); [apply Hb, Ha |]. intros _.
  apply (sat_bind _ _ (fun _ s => attempts s = [])).
  { apply Hb. unfold set_daemon_active. destruct (f_autoSwitch f); [apply Ha |]. destruct (_ || _); [apply Ha | apply ret_on_base]. }
  intros _. apply (sat_bind _ _ (fun _ s => attempts s = [])).
  { apply Hb. unfold daemon_profiles. destruct (f_autoSwitch f); [| apply ret_on_base].
    do 2 (apply bind_on_base; [apply Ha |]; intros ?). apply ret_on_base. }
  intros profiles. assert (forall t, attempts t = [] -> remembered t /\ all_ready t) as Hstart.
  { intros t Ht. unfold remembered, all_ready. rewrite Ht. repeat constructor. }
  apply (sat_bind _ _ (fun _ => remembered)).
  { destruct (_ =? _)%nat; [apply sat_ret; intros t Ht; by apply Hstart |].
    eapply sat_weaken; [apply (rounds_remembered n fuel profiles) | exact Hstart | done]. }
  intros [e |]; [| by apply sat_ret]. apply (sat_bind _ _ (fun _ => remembered)); [| intros _; by apply sat_ret]. apply Hr.
  destruct e; try apply ret_on_base; cbn [deferred]; (apply bind_on_base; [apply handle_on_base |]; intros ?;
    apply bind_on_base; [destruct (f_autoSwitch f); [apply Ha | apply ret_on_base] |]; intros ?;
    apply bind_on_base; [apply run_on_base; intros P HP; by apply lift_grows, mono_teardown_routes |]; intros ?;
    apply bind_on_base; [apply handle_on_base |]; intros ?; apply bind_on_base; [apply Ha |]; intros ?; apply Ha).
Qed.
End spacing.

(** ** Autoswitch goes round *)

Section rotation.
Context (Hauto : f_autoSwitch f = true).

(** The daemon has just seen that it is to stop. *)
Definition seen_stop (s : sup) : Prop := exists h,
  (history (kern (base s)) = App StopClosed :: h /\ stop_closed h = true) \/
  (exists d, history (kern (base s)) = App (WaitStop d) :: h /\ wait_stopped h = true).

(** Why the rounds may end at a profile. *)
Definition ends_for (name : string) (e : daemon_end) (s : sup) : Prop :=
  match e with
  | Returned => seen_stop s
  | ExitFatal => exists s1 s2 o, try_profile name s1 = (Some o, s2) /\ fatal o = true
  | Panicked => exists h d, history (kern (base s)) = App Clock :: App (LoadProfile name) :: h /\
      device_of (profile_of h name) = Some d /\ (String.length d < 8)%nat
  | ExitFailed | NoProfilesLeft => False
  end.

(** The daemon is still at a profile: in a session, or it has reconnected to it [fuel] times in a row. *)
Definition still_at (fuel : nat) (name : string) (s : sup) : Prop :=
  (exists s1, try_profile name s1 = (None, s)) \/
  exists recent rest, attempts s = (recent ++ rest)%list /\ length recent = fuel /\ Forall (fun x => at_profile x = name) recent.

Definition same_marks (s s' : sup) : Prop := tried s' = tried s /\ attempts s' = attempts s.

Lemma run_same {A} (m : State sess A) s : same_marks s (run m s).2.
Proof. unfold run. by destruct (m (base s)). Qed.
Lemma sask_same {A} (g : list op -> A) c s : same_marks s (sask g c s).2.
Proof. unfold sask. apply run_same. Qed.
Lemma load_same name s : same_marks s (load_device name s).2.
Proof. apply sask_same. Qed.
Lemma handle_same m s : same_marks s (handle_reloads m s).2.
Proof. apply run_same. Qed.
Lemma try_same name s : same_marks s (try_profile name s).2.
Proof. unfold try_profile. apply run_same. Qed.
Lemma same_trans s1 s2 s3 : same_marks s1 s2 -> same_marks s2 s3 -> same_marks s1 s3.
Proof. intros [H1 H2] [H3 H4]. split; congruence. Qed.

Lemma after_cases o s :
  match (after_session o s).1 with
  | Some Returned => seen_stop (after_session o s).2
  | Some ExitFatal => fatal o = true
  | Some _ => False
  | None => True
  end /\ same_marks s (after_session o s).2.
Proof.
  unfold after_session. destruct (fatal o && f_autoSwitch f) eqn:E.
  - rewrite !run_bind. split; [by apply andb_true_iff in E as [E _] |].
    do 2 (eapply same_trans; [apply (sask_same (fun _ => tt)) |]). apply run_same.
  - rewrite run_bind. split; [| apply (sask_same stop_closed)]. destruct ((sask stop_closed StopClosed s).1) eqn:Es; [| done].
    exists (history (kern (base s))). left. by split.
Qed.

(** The attempts of [retry], and where it leaves the daemon. *)
Lemma remember_one name b s : exists x, at_profile x = name /\ attempts (remember_attempt name b s).2 = x :: attempts s /\
  tried (remember_attempt name b s).2 = tried s.
Proof.
  unfold remember_attempt. rewrite Hauto, run_bind.
  destruct (load_same name s) as [E1 E2]. destruct (load_device name s).1 as [d |]; rewrite run_bind.
  - destruct (sask_same clock Clock (load_device name s).2) as [E3 E4].
    eexists. unfold note_attempt, modify. cbn [snd attempts tried]. rewrite E4, E3, E2, E1. split; [| split; reflexivity]. reflexivity.
  - eexists. unfold note_attempt, modify. cbn [gets fst snd attempts tried]. rewrite E2, E1. split; [| split; reflexivity]. reflexivity.
Qed.

Lemma retry_cases fuel name b s : let r := retry fuel name b s in
  match r.1 with
  | Some Next => tried r.2 = (tried s ++ [name])%list
  | Some (End e) => tried r.2 = tried s /\ ends_for name e r.2
  | None => tried r.2 = tried s /\ ((exists s1, try_profile name s1 = (None, r.2)) \/
      exists recent, attempts r.2 = (recent ++ attempts s)%list /\ length recent = fuel /\ Forall (fun x => at_profile x = name) recent)
  end.
Proof.
  cbv zeta. revert b s. induction fuel as [| fuel IH]; intros b s; cbn [retry]; [split; [done |]; right; by exists [] |].
  destruct (remember_one name b s) as (x & Hx & Ha & Ht). rewrite run_bind. set (s1 := (remember_attempt name b s).2) in *. rewrite run_bind.
  destruct (handle_same NoSession s1) as [Ht1 Ha1]. set (s2 := (handle_reloads NoSession s1).2) in *. rewrite run_bind.
  destruct (try_same name s2) as [Ht2 Ha2]. destruct (try_profile name s2) as [o s3] eqn:Etry. cbn [fst snd] in *.
  destruct o as [o |]; [| split; [cbn; congruence |]; left; by exists s2]. rewrite run_bind.
  destruct (handle_same NoSession s3) as [Ht3 Ha3]. set (s4 := (handle_reloads NoSession s3).2) in *. rewrite run_bind.
  destruct (after_cases o s4) as [Hc [Ht4 Ha4]]. destruct (after_session o s4) as [e s5]. cbn [fst snd] in *.
  assert (tried s5 = tried s /\ attempts s5 = x :: attempts s) as [Et Ea] by (split; congruence).
  destruct e as [e |].
  { split; [exact Et |]. destruct e; cbn [ends_for]; try done. by exists s2, s3, o. }
  destruct (wasResume o); rewrite run_bind; [| cbn; by rewrite Et].
  destruct (sask_same (fun _ => tt) (Pause (2 * second)) s5) as [Ht6 Ha6].
  specialize (IH true (sask (fun _ => tt) (Pause (2 * second)) s5).2). rewrite Ht6, Ha6, Et, Ea in IH.
  destruct (retry fuel name true _) as [[[| e] |] s7]; cbn [fst snd] in *; [exact IH | exact IH |].
  destruct IH as [H1 [H2 | (recent & H2 & H3 & H4)]]; (split; [done |]); [by left | right].
  exists (recent ++ [x])%list. rewrite <- app_assoc, length_app, H3. cbn. split; [done |]. split; [lia |].
  apply Forall_app. by split; [| constructor].
Qed.

Lemma cooldown_cases idx name s :
  match (cooldown idx name s).1 with Some e => ends_for name e (cooldown idx name s).2 | None => True end /\ same_marks s (cooldown idx name s).2.
Proof.
  unfold cooldown. destruct (_ && _); [| done]. rewrite run_bind.
  pose proof (load_same name s) as H1.
  assert (history (kern (base (load_device name s).2)) = App (LoadProfile name) :: history (kern (base s)) /\
    (load_device name s).1 = device_of (profile_of (history (kern (base s))) name)) as [Eh Ed] by done.
  set (s1 := (load_device name s).2) in *. destruct (load_device name s).1 as [d |]; [| done]. rewrite run_bind. cbn [gets fst snd].
  destruct (lastAttemptByDeviceID s1 !! d) as [t |]; [| done]. rewrite run_bind.
  pose proof (sask_same clock Clock s1) as H2.
  assert (history (kern (base (sask clock Clock s1).2)) = App Clock :: history (kern (base s1))) as Eh2 by done.
  set (now := (sask clock Clock s1).1). set (s2 := (sask clock Clock s1).2) in *.
  destruct (now - t <? minRetryInterval); [| by split; [| eapply same_trans]].
  destruct (String.length d <? 8)%nat eqn:El.
  - split; [| by eapply same_trans]. exists (history (kern (base s))), d. cbn [mret State_ret snd]. rewrite Eh2, Eh.
    split; [done |]. split; [by symmetry | by apply Nat.ltb_lt].
  - rewrite run_bind. pose proof (sask_same wait_stopped (WaitStop (minRetryInterval - (now - t))) s2) as H3.
    split; [| eapply same_trans; [exact H1 | eapply same_trans; [exact H2 | exact H3]]].
    destruct (sask wait_stopped (WaitStop (minRetryInterval - (now - t))) s2).1 eqn:Ew; [| done].
    exists (history (kern (base s2))). right. eexists. split; [reflexivity | exact Ew].
Qed.

(** A round from profile number [idx] on. *)
Lemma round_cases fuel idx names s : let r := round fuel idx names s in
  exists part, part `prefix_of` names /\ tried r.2 = (tried s ++ part)%list /\
  match r.1 with
  | Some Next => part = names
  | Some (End e) => exists name, names !! length part = Some name /\ ends_for name e r.2
  | None => exists name, names !! length part = Some name /\ still_at fuel name r.2
  end.
Proof.
  cbv zeta. revert idx s. induction names as [| name rest IH]; intros idx s; cbn [round]; [exists []; by rewrite app_nil_r |].
  rewrite run_bind. destruct (sask_same stop_closed StopClosed s) as [Ht1 _].
  destruct (sask stop_closed StopClosed s).1 eqn:Es.
  { exists []. split; [apply prefix_nil |]. rewrite app_nil_r. split; [exact Ht1 |]. exists name. split; [done |].
    exists (history (kern (base s))). left. by split. }
  set (s1 := (sask stop_closed StopClosed s).2) in *. rewrite run_bind. destruct (cooldown_cases idx name s1) as [Hc [Ht2 _]].
  destruct (cooldown idx name s1) as [c s2]. cbn [fst snd] in *. destruct c as [e |].
  { exists []. split; [apply prefix_nil |]. rewrite app_nil_r. split; [cbn; congruence |]. by exists name. }
  rewrite run_bind. pose proof (retry_cases fuel name false s2) as Hr. destruct (retry fuel name false s2) as [[[| e] |] s3]; cbn [fst snd] in *.
  - rewrite run_bind. set (m := if (0 <? length rest)%nat then _ else _). assert (tried (m s3).2 = tried s3) as Ht3 by (unfold m; destruct (_ <? _)%nat; [apply (sask_same (fun _ => tt)) | done]).
    destruct (IH (Datatypes.S idx) (m s3).2) as (part & Hp & Ht & Hcase). exists (name :: part). split; [by apply prefix_cons |].
    split; [rewrite Ht, Ht3, Hr, Ht2, Ht1, <- app_assoc; done |]. destruct (round fuel (Datatypes.S idx) rest (m s3).2).1 as [[| e] |]; [by rewrite Hcase | done | done].
  - exists []. destruct Hr as [Ht He]. split; [apply prefix_nil |]. rewrite app_nil_r. split; [cbn; congruence |]. by exists name.
  - exists []. destruct Hr as [Ht He]. split; [apply prefix_nil |]. rewrite app_nil_r. split; [cbn; congruence |]. exists name. split; [done |].
    destruct He as [He | (recent & H1 & H2 & H3)]; [by left | right; by exists recent, (attempts s2)].
Qed.

(** C30: autoswitch goes on for any number of rounds, and in each round it tries the profiles in order, each until its
    session ends otherwise than by a resume.  The rounds end only at a profile, the next in the order: because
    the daemon saw that it is to stop, because a session of the profile ended with a fatal error, or by a
    panic at a device identifier of fewer than eight characters.  A daemon that has not ended and has not
    finished its rounds is still at the next profile. *)
Theorem autoswitch_round_robin n fuel profiles s :
  let r := rounds n fuel profiles s in
  exists k part, (k <= n)%nat /\ part `prefix_of` profiles /\
    tried r.2 = (tried s ++ concat (replicate k profiles) ++ part)%list /\
    match r.1 with
    | Some e => exists name, profiles !! length part = Some name /\ ends_for name e r.2
    | None => (k = n /\ part = []) \/ exists name, profiles !! length part = Some name /\ still_at fuel name r.2
    end.
Proof.
  cbv zeta. revert s. induction n as [| n IH]; intros s; cbn [rounds].
  { exists 0%nat, []. split; [done |]. split; [apply prefix_nil |]. split; [by rewrite app_nil_r | by left]. }
  rewrite run_bind. destruct (round_cases fuel 0 profiles s) as (part & Hp & Ht & Hc).
  destruct (round fuel 0 profiles s) as [[[| e] |] s1]; cbn [fst snd] in *.
  - subst part. rewrite Hauto. cbn [negb]. rewrite run_bind.
    destruct (sask_same (fun _ => tt) (Pause (5 * second)) s1) as [Ht2 _].
    destruct (IH (sask (fun _ => tt) (Pause (5 * second)) s1).2) as (k & part & Hk & Hpart & Htr & Hcase).
    exists (Datatypes.S k), part. split; [lia |]. split; [done |]. split; [rewrite Htr, Ht2, Ht; cbn [replicate concat]; by rewrite <- !app_assoc |].
    destruct (rounds n fuel profiles _).1; [done |]. destruct Hcase as [[-> ->] | Hcase]; [by left | by right].
  - exists 0%nat, part. split; [lia |]. split; [done |]. split; [done |]. exact Hc.
  - exists 0%nat, part. split; [lia |]. split; [done |]. split; [done |]. by right.
Qed.
End rotation.
End daemon.

(** ** The order of the profiles *)

Lemma move_front_spec name before l :
  match move_front name before l with
  | Some l' => exists l1 l2, l = (l1 ++ name :: l2)%list /\ l' = (name :: before ++ l1 ++ l2)%list
  | None => name ∉ l
  end.
Proof.
  revert before. induction l as [| p rest IH]; intros before; cbn [move_front]; [by apply not_elem_of_nil |].
  destruct (String.eqb_spec p name) as [-> | Hp]; [by exists [], rest |].
  specialize (IH (before ++ [p])%list). destruct (move_front _ _ rest) as [l' |].
  - destruct IH as (l1 & l2 & -> & ->). exists (p :: l1), l2. split; [done |]. by rewrite <- !app_assoc.
  - apply not_elem_of_cons. split; [congruence | done].
Qed.

Lemma filter_moved name (l1 l2 : list string) : filter (.≠ name) (name :: l1 ++ l2)%list = filter (.≠ name) (l1 ++ name :: l2)%list.
Proof.
  rewrite filter_cons_False by (intros Hn; by apply Hn). rewrite !filter_app. f_equal. by rewrite filter_cons_False by (intros Hn; by apply Hn).
Qed.

(** Autoswitch tries the enabled profiles, in SOCKS mode those without a daemon of their own, in order of
    priority, except that the profile named on the command line comes first when it is one of them. *)
Theorem profile_order_named f name enabled alive :
  let l := if String.eqb (f_mode f) "socks" then filter (fun p => alive p = false) enabled else enabled in
  let order := profile_order f name enabled alive in
  order ≡ₚ l /\ filter (.≠ name) order = filter (.≠ name) l /\ (name <> "" -> name ∈ l -> head order = Some name).
Proof.
  cbv zeta. unfold profile_order. set (l := if String.eqb (f_mode f) "socks" then _ else enabled).
  destruct (String.eqb_spec name "") as [-> | Hn]; [done |].
  pose proof (move_front_spec name [] l) as Hm. destruct (move_front name [] l) as [l' |]; cbn [default].
  - destruct Hm as (l1 & l2 & -> & ->). cbn [app]. split; [by rewrite Permutation_middle |]. split; [apply filter_moved | done].
  - done.
Qed.

(** ** Starting *)

(** A single profile that is started in a kernel mode, and autoswitch in TUN mode, finds no interface of the
    program in place, no daemon of the same name, and may create interfaces. *)
Theorem kernel_start_alone `{Unicode} valid_listen abs list_file loadable r capable f name positional d cfg :
  connect_start valid_listen abs list_file loadable r capable f name positional = Starts d cfg ->
  f_mode f = "tun" \/ (f_mode f = "raw" /\ f_autoSwitch f = false) ->
  wg_up r = false /\ raw_up r = false /\ capable = true /\ daemon_running r d = false /\
  (f_autoSwitch f = false -> d = name /\ loadable name = true) /\ f_pub f = false /\ f_listen f = "".
Proof.
  unfold connect_start, check_flags, daemonProfile, daemonProfileName, may_start, conflicts. intros E Hm.
  assert (String.eqb (f_mode f) "socks" = false) as Hs by (by destruct Hm as [-> | [-> _]]). rewrite Hs in E. cbn [negb orb] in E.
  rewrite !andb_true_r in E. destruct (String.eqb_spec (f_listen f) "") as [El | El]; cbn [negb andb] in E; [| by destruct (f_pub f)].
  destruct (f_pub f); [done |].
  destruct Hm as [Hm | [Hm Ha]].
  - rewrite Hm in E. cbn in E. destruct (f_autoSwitch f).
    + destruct (String.eqb name ""), (split_config _ _ _ _), (daemon_running r "autoswitch") eqn:Ed, (f_toggle f), (wg_up r), (raw_up r), capable; cbn in E; try done;
        injection E as <- <-; by rewrite Ed.
    + destruct (String.eqb name ""); [done |]. destruct (split_config _ _ _ _); [| done].
      destruct (loadable name); [| done]. cbn [negb andb] in E. destruct (daemon_running r name) eqn:Ed; [by destruct (f_toggle f) |].
      rewrite andb_false_r in E. destruct (_ && _) in E; [done |]. destruct (wg_up r), (raw_up r), capable; try done. injection E as <- <-. by rewrite Ed.
  - rewrite Hm, Ha in E. cbn in E. destruct (String.eqb name ""); [done |]. destruct (split_config _ _ _ _); [| done].
    destruct (loadable name); [| done]. cbn [negb andb] in E. destruct (daemon_running r name) eqn:Ed; [by destruct (f_toggle f) |].
    rewrite andb_false_r in E. destruct (raw_up r), (wg_up r), capable; try done. injection E as <- <-. by rewrite Ed, Ha.
Qed.

(** ** The files after a toggle *)

(** The profile of autoswitch is forgotten before it is read: its bypass list stays. *)
Theorem toggle_keeps_split_file `{Unicode} `{Disk} m p :
  (forall m' q, can_remove m' q = true) -> (toggle_autoswitch m).2 !! SplitPath p = m !! SplitPath p.
Proof.
  intros Hr. assert (forall q m', (unlink q m').2 = delete q m') as Hun.
  { intros q m'. unfold unlink. destruct (m' !! q) eqn:E; [by rewrite Hr | by rewrite delete_id]. }
  assert ((clearAutoswitchCurrentProfile m).2 = delete AutoswitchPath m) as Hc by (unfold clearAutoswitchCurrentProfile; rewrite run_bind; apply Hun).
  assert (forall m', (clearActiveProfile m').2 = delete ActivePath m') as Hd by (intros m'; unfold clearActiveProfile; rewrite run_bind; apply Hun).
  unfold toggle_autoswitch. rewrite run_bind, Hc, (reads_run getActiveProfile) by apply active_reads. rewrite run_bind.
  set (m2 := (_ (delete AutoswitchPath m)).2).
  assert (m2 !! AutoswitchPath = None /\ m2 !! SplitPath p = m !! SplitPath p) as [Ha Hsp].
  { unfold m2. destruct (String.eqb _ _); rewrite ?Hd; cbn [snd mret State_ret]; split; by simplify_map_eq. }
  assert ((getAutoswitchCurrentProfile m2).1 = "") as Hg.
  { unfold getAutoswitchCurrentProfile. rewrite (reads_run (read_text AutoswitchPath)) by apply read_text_reads.
    unfold read_text. rewrite (reads_run (read AutoswitchPath)) by done. cbn [read gets fst]. by rewrite Ha. }
  rewrite (reads_run getAutoswitchCurrentProfile) by apply autoswitch_reads. by rewrite Hg.
Qed.

(** ** A concrete daemon *)

Section example.
#[local] Instance example_unicode : Unicode := fun s => s.
#[local] Existing Instance tun_world.
Abbreviation ex_op := (@op string string cop).

Definition example_flags (md : string) (auto : bool) : flags :=
  {| f_workers := defaultWorkers; f_mtu := 1280; f_hashes := ""; f_autoSwitch := auto; f_dns := "yandex"; f_captcha := "auto"; f_mode := md;
     f_socksPort := 9050; f_rawPort := 56003; f_transport := "udp"; f_toggle := false; blackList := "vk.com"; blackListFile := "";
     socksUser := ""; socksPass := ""; f_pub := false; f_listen := "" |}.

Definition is_core_stop (o : ex_op) : bool := match o with App CoreStop => true | _ => false end.

Fixpoint example_clock (h : list ex_op) : Z :=
  match h with
  | [] => 0
  | App (Pause d) :: h' | App (WaitStop d) :: h' => Z.max 0 d + example_clock h'
  | _ :: h' => 1 + example_clock h'
  end.

Definition reloading_daemon (wakes : list wake) (stops : bool) (reloads : moment -> list string) : @Daemon string string := {|
  stop_closed := fun h => stops && existsb is_core_stop h;
  clock := example_clock; wait_stopped := fun _ => false;
  wakes_of := fun _ _ => wakes;
  enabled_profiles := fun _ => ["home"; "work"];
  daemon_alive := fun _ _ => false;
  reloads_at := fun _ m => reloads m
|}.
Definition example_daemon (wakes : list wake) (stops : bool) : @Daemon string string := reloading_daemon wakes stops (fun _ => []).

#[local] Instance one_device : @Host string string := {|
  profile_of := fun _ _ => Some example_profile; device_id := fun _ => ""; turn_ips := fun _ => ["95.163.1.1"]; socks_domains := fun _ => []
|}.

Definition example_sup : @sup string string :=
  {| base := example_sess; lastAttemptByDeviceID := ∅; attempts := []; tried := [] |}.

(** A TUN daemon that gets its configuration and then a signal, with reloads before and after its session. *)
Definition stopped_wakes : list wake := [CoreEvent (EvState "running"); CoreEvent (EvEvent "wg_config" conf_text); StopSignal].
Abbreviation stopped_daemon := (reloading_daemon stopped_wakes true (fun m => match m with NoSession => [EmptyString] | AfterRemoval => [] end)).
Abbreviation stopped_run := (@daemon string string "zero" Some Some example_unicode tun_world one_device stopped_daemon
  (example_flags "tun" false) "home" 1 1 "home" example_sup).

Lemma daemon_leaves_no_routes_witness : stopped_run.1 = Some Returned /\ kernel_routes (history (kern (base stopped_run.2))) = [].
Proof.
  assert (stopped_run.1 = Some Returned) as E by (by vm_compute). split; [exact E |].
  eapply (@daemon_leaves_no_routes string string "zero" Some Some example_unicode tun_world one_device stopped_daemon
    (example_flags "tun" false) "home" 1 1 "home" example_sup Returned stopped_run.2).
  - intros Hm. discriminate Hm.
  - intros h. reflexivity.
  - reflexivity.
  - exact (pair_of _ _ E).
  - left. by left.
  - intros h d. reflexivity.
Defined.

(** The control socket is closed after the last removal of the routes: a reload between the two leaves its routes. *)
Example late_reload_leaves_routes :
  let r := @daemon string string "zero" Some Some example_unicode tun_world one_device
    (reloading_daemon stopped_wakes true (fun m => match m with AfterRemoval => [EmptyString] | NoSession => [] end))
    (example_flags "tun" false) "home" 1 1 "home" example_sup in
  r.1 = Some Returned /\ undeleted (history (kern (base r.2))) = [WgParse.cidrNet "87.240.132.72/32"].
Proof. split; by vm_compute. Qed.

Lemma example_clock_runs wakes : @clock_runs string string (example_daemon wakes false).
Proof.
  split; [| split].
  - intros h o. simpl. destruct o; try lia. match goal with c : cop |- _ => destruct c; lia end.
  - intros h d. simpl. lia.
  - intros h d _. simpl. lia.
Qed.

(** Autoswitch over two profiles of one device whose sessions time out. *)
Abbreviation rotating := (example_daemon [Timeout] false).
Abbreviation rotating_run n := (@daemon string string "zero" Some Some example_unicode tun_world one_device rotating (example_flags "tun" true)
  "autoswitch" n 1 "work" example_sup).

Lemma same_device_spaced_witness : length (attempts (rotating_run 2%nat).2) = 4%nat /\ StronglySorted apart (attempts (rotating_run 2%nat).2).
Proof.
  split; [by vm_compute |].
  apply (@same_device_spaced string string "zero" Some Some example_unicode tun_world one_device rotating (example_flags "tun" true) "autoswitch"
    (example_clock_runs [Timeout]) (fun _ => Some "0123456789abcdef") (fun _ _ => eq_refl) 2 1 "work" example_sup).
  reflexivity.
Defined.

(** Two profiles without an identifier of their own connect with the machine's, two seconds apart. *)
Example default_device_close :
  let host := {| profile_of := fun _ _ => Some (with_device "" example_profile); device_id := fun _ => "fedcba9876543210";
                 turn_ips := fun _ => []; socks_domains := fun _ => [] |} in
  let r := @daemon string string "zero" Some Some example_unicode tun_world host rotating (example_flags "tun" true) "autoswitch" 1 1 "" example_sup in
  match attempts r.2 with
  | [b; a] => at_device a = None /\ at_device b = None /\ at_time b - at_time a < 2 * second + 100
  | _ => False
  end.
Proof. by vm_compute. Qed.

Abbreviation closing := (example_daemon [EventsClosed] false).
Abbreviation closing_rounds n := (@rounds string string "zero" Some Some example_unicode tun_world one_device closing (example_flags "tun" true)
  "autoswitch" n 1 ["work"; "home"] example_sup).

Lemma autoswitch_round_robin_witness :
  tried (closing_rounds 3%nat).2 = ["work"; "home"; "work"; "home"; "work"; "home"] /\
  exists k part, (k <= 3)%nat /\ part `prefix_of` ["work"; "home"] /\
    tried (closing_rounds 3%nat).2 = (concat (replicate k ["work"; "home"]) ++ part)%list.
Proof.
  split; [by vm_compute |].
  destruct (@autoswitch_round_robin string string "zero" Some Some example_unicode tun_world one_device closing (example_flags "tun" true) "autoswitch"
    eq_refl 3 1 ["work"; "home"] example_sup) as (k & part & Hk & Hp & Ht & _).
  exists k, part. split; [exact Hk |]. split; [exact Hp | exact Ht].
Defined.

Lemma profile_order_named_witness :
  let order := profile_order (example_flags "socks" true) "c" ["a"; "b"; "c"; "d"] (String.eqb "b") in
  order = ["c"; "a"; "d"] /\ head order = Some "c".
Proof.
  split; [by vm_compute |].
  apply (profile_order_named (example_flags "socks" true) "c" ["a"; "b"; "c"; "d"] (String.eqb "b")); [done |].
  apply list_elem_of_In. vm_compute. tauto.
Defined.

Definition idle (md : string) : running :=
  {| daemon_running := fun p => String.eqb p "other"; wg_up := false; raw_up := false; port_in_use := fun _ => false; autoswitch_mode := md |}.

Lemma kernel_start_alone_witness :
  exists cfg, connect_start (fun _ => true) (fun p => p) (fun _ => None) (String.eqb "home") (idle "") true (example_flags "raw" false) "home" ["ya.ru"]
    = Starts "home" cfg /\ wg_up (idle "") = false.
Proof.
  eexists. split; [by vm_compute |].
  eapply (kernel_start_alone (fun _ => true) (fun p => p) (fun _ => None) (String.eqb "home") (idle "") true (example_flags "raw" false) "home" ["ya.ru"] "home").
  - by vm_compute.
  - right. by split.
Defined.

(** Autoswitch in raw mode is started next to a TUN session. *)
Example raw_autoswitch_unchecked : let r := {| daemon_running := fun _ => false; wg_up := true; raw_up := true; port_in_use := fun _ => false; autoswitch_mode := "" |} in
  conflicts (example_flags "raw" true) "autoswitch" r = None.
Proof. done. Qed.

(** The long name of the file option is not made absolute for the daemon. *)
Example long_option_relative : rewrite_list_file "/home/u/bl.json" ["qwdtt"; "con"; "home"; "--black-list-file"; "bl.json"]
  = ["qwdtt"; "con"; "home"; "--black-list-file"; "bl.json"].
Proof. done. Qed.

(** A short device identifier in a profile makes the cooldown panic. *)
Example short_device_panics :
  let host := {| profile_of := fun _ _ => Some (with_device "abc" example_profile); device_id := fun _ => ""; turn_ips := fun _ => []; socks_domains := fun _ => [] |} in
  (@daemon string string "zero" Some Some example_unicode tun_world host rotating (example_flags "tun" true) "autoswitch" 1 1 "" example_sup).1 = Some Panicked.
Proof. by vm_compute. Qed.
End example.
