(* ===== verification/Control.v ===== *)
(** * The control socket of a daemon (captcha_socket.go, wireguard_linux.go).

    A connection is the text that the client writes; the daemon acts on the first command in it and writes
    one reply.  Kernel sessions use the socket to learn the bypass domains of SOCKS daemons. *)

From S2P Require Import Prelude GoStrings Chars Net Url WgConfig Ip Router WgParse Effects Tunnel Running.
From Stdlib Require Import ZArith Lia String Ascii.
From stdpp Require Import base list strings gmap.
Open Scope string_scope.
Open Scope Z_scope.
Abbreviation join := GoStrings.join.

(** ** The daemon's side *)

Inductive command := SolveCaptcha (res : string) | BlReload (newFile : string) | GetBl.

Definition command_of (line : string) : option command :=
  let line := trim_space line in
  if has_prefix "CAPTCHA_RESULT|" line then Some (SolveCaptcha (trim_prefix "CAPTCHA_RESULT|" line))
  else if has_prefix "BL_RELOAD|" line then Some (BlReload (trim_prefix "BL_RELOAD|" line))
  else if String.eqb line "GET_BL" then Some GetBl
  else None.

(** The loop of [handleConn] ends with the first command. *)
Fixpoint first_command (lines : list string) : option command :=
  match lines with
  | [] => None
  | line :: rest => match command_of line with Some c => Some c | None => first_command rest end
  end.

Definition line_out (s : string) : string := s ++ String nl "".

(** The reply to GET_BL. *)
Definition bypass_reply (router : option Router) : string :=
  match router with
  | None => line_out "NOT_READY"
  | Some r => join "" (line_out <$> SnapshotDomains r) ++ line_out "END_BL"
  end.

Section socket.
Context {key udp client : Type}.
Context `{Unicode} `{W : @World key udp client}.
Abbreviation tun := (@tun key udp client).
Context (rawIface daemonMode daemonBlRaw daemonProfileName : string) (error_text : reload_error -> string).

(** The summary of a reload. *)
Definition summary (md : string) (n m : nat) : string :=
  if String.eqb md "socks" then "socks: bypass list updated (" ++ itoa (Z.of_nat n) ++ " domains)"
  else md ++ ": bypass routes updated (" ++ itoa (Z.of_nat n) ++ " domains, " ++ itoa (Z.of_nat m) ++ " routes)".

Definition handleBlReload (newFile : string) : State tun string :=
  r ← reloadSplitRoutes rawIface daemonMode daemonBlRaw daemonProfileName newFile;
  mret (match r with Ok (n, m) => "RELOAD_OK|" ++ summary daemonMode n m | Err e => "RELOAD_ERR|" ++ error_text e end).

(** The buffered channel for captcha results holds one; more are dropped. *)
Definition offer (res : string) (chan : option string) : option string := match chan with Some x => Some x | None => Some res end.

(** [handleConn]: the reply and the channel afterwards. *)
Definition handleConn (router : option Router) (chan : option string) (input : string) : State tun (string * option string) :=
  match first_command (fst (scan_lines (split_on nl input))) with
  | None => mret ("", chan)
  | Some (SolveCaptcha res) => mret ("", offer res chan)
  | Some (BlReload newFile) => reply ← handleBlReload newFile; mret (line_out reply, chan)
  | Some GetBl => mret (bypass_reply router, chan)
  end.

(** ** The client's side *)

Definition captcha_message (res : string) : string := line_out ("CAPTCHA_RESULT|" ++ res).
Definition reload_message (abspath : string) : string := line_out ("BL_RELOAD|" ++ abspath).
Definition get_bl_message : string := line_out "GET_BL".

(** [sendBlReload]: the first line of the reply. *)
Definition first_line (reply : string) : option string := head (fst (scan_lines (split_on nl reply))).

Inductive reload_reply := ReloadOk (text : string) | ReloadErr (text : string) | ReloadOther (text : string) | ReloadFailed.

(** What [sendBlReloadCommand] makes of it. *)
Definition classify (reply : option string) : reload_reply :=
  match reply with
  | None => ReloadFailed
  | Some r => if has_prefix "RELOAD_OK|" r then ReloadOk (trim_prefix "RELOAD_OK|" r)
              else if has_prefix "RELOAD_ERR|" r then ReloadErr (trim_prefix "RELOAD_ERR|" r)
              else ReloadOther r
  end.

(** [querySocksBypass] behind the connection. *)
Definition querySocksBypass (reply : string) : query_result := query_lines (fst (scan_lines (split_on nl reply))) [].

(** ** Domains of the SOCKS daemons *)

(** The queries that are made: running SOCKS profiles, not the own one, with their socket under the runtime
    directory. *)
Definition socks_queries (rd : string) (socketPath : string -> string) (ownProfile : string) (details : list (string * ProfileDetails)) : list string :=
  fst <$> filter (fun e => Mode (snd e) = "socks" /\ fst e <> ownProfile /\ isUnderRuntimeDir rd (socketPath (fst e)) = true) details.

(** The domains of the answers, in the order in which the answers come; queries that fail or do not end within
    the time are left out of [answered]. *)
Definition fetchActiveSocksBypassDomains (answer : string -> query_result) (answered : list string) : list string :=
  concat ((fun p => match answer p with Domains_are l => l | _ => [] end) <$> answered).

End socket.

(** ** Messages arrive *)

(** A text on one line that trimming does not change: empty, or with a visible character at its end. *)
Definition ends_visible (s : string) : Prop := s = "" \/ exists v d, s = v ++ String d "" /\ visible d = true.
Definition text_ok (s : string) : Prop := no_char nl s = true /\ ends_visible s /\ Z.of_nat (String.length s) < max_token - 20.

Lemma scan_message m rest : no_char nl m = true -> drop_cr m = m -> Z.of_nat (String.length m) < max_token ->
  fst (scan_lines (split_on nl (line_out m ++ rest))) = m :: fst (scan_lines (split_on nl rest)).
Proof.
  intros Hn Hc Hl. unfold line_out. rewrite string_app_assoc. change (String nl "" ++ rest) with (String nl rest). rewrite split_on_app by done.
  destruct (split_on nl rest) as [| p l] eqn:E; [by destruct (split_on_nonempty nl rest E) |].
  change (scan_lines (m :: p :: l)) with (if max_token <=? Z.of_nat (String.length m) then ([], true)
    else let '(lines, err) := scan_lines (p :: l) in (drop_cr m :: lines, err)).
  rewrite (proj2 (Z.leb_gt _ _)) by done. rewrite Hc. by destruct (scan_lines (p :: l)).
Qed.

Lemma scan_one m : no_char nl m = true -> drop_cr m = m -> Z.of_nat (String.length m) < max_token ->
  fst (scan_lines (split_on nl (line_out m))) = [m].
Proof.
  intros Hn Hc Hl. pose proof (scan_message m "" Hn Hc Hl) as E. by rewrite string_app_nil_r in E.
Qed.

(** A visible word followed by a text of this kind. *)
Lemma message_ok c w s : visible c = true -> all_of visible w = true -> text_ok s -> Z.of_nat (String.length w) < 19 ->
  let m := String c w ++ s in
  no_char nl m = true /\ drop_cr m = m /\ Z.of_nat (String.length m) < max_token /\ trim_space m = m.
Proof.
  intros Hc Hw (Hn & He & Hl) Hwl. cbv zeta. set (t := String c w).
  assert (all_of visible t = true) as Ht by (simpl; by rewrite Hc).
  assert (exists v d, t ++ s = v ++ String d "" /\ visible d = true) as (v & d & E & Hd).
  { destruct He as [-> | (v & d & -> & Hd)].
    - destruct (all_of_last visible t) as (v & d & E & Hd); [done | done |]. exists v, d. by rewrite string_app_nil_r.
    - exists (t ++ v), d. by rewrite string_app_assoc. }
  split; [| split; [| split]].
  - rewrite no_char_app, Hn, andb_true_r. by apply (all_of_no_char visible).
  - rewrite E. unfold drop_cr, trim_suffix. rewrite has_suffix_last; [done | done |]. simpl. rewrite andb_true_r.
    destruct (Ascii.eqb_spec d (byte 13)) as [-> |]; [discriminate Hd | done].
  - rewrite string_length_app. unfold t. cbn [String.length]. unfold max_token in *. lia.
  - by apply (trim_space_ends _ c (w ++ s) v d).
Qed.

Lemma all_visible_text s : all_of visible s = true -> Z.of_nat (String.length s) < max_token - 20 -> text_ok s.
Proof.
  intros Hv Hl. split; [by apply (all_of_no_char visible) |]. split; [| done].
  destruct s as [| c s]; [by left |]. right. destruct (all_of_last visible (String c s)) as (v & d & E & Hd); [done | done |]. by exists v, d.
Qed.

Section messages.
Context {key udp client : Type}.
Context `{Unicode} `{W : @World key udp client}.
Context (rawIface daemonMode daemonBlRaw daemonProfileName : string) (error_text : reload_error -> string).
Abbreviation conn := (handleConn rawIface daemonMode daemonBlRaw daemonProfileName error_text).

Lemma command_arrives w s c (chan : option string) router t :
  text_ok s -> visible (match w with String a _ => a | "" => " "%char end) = true -> all_of visible w = true -> Z.of_nat (String.length w) < 19 ->
  command_of (w ++ s) = Some c ->
  fst (scan_lines (split_on nl (line_out (w ++ s)))) = [w ++ s] /\
  conn router chan (line_out (w ++ s)) t =
    match c with
    | SolveCaptcha res => (("", offer res chan), t)
    | BlReload newFile => (reply ← handleBlReload rawIface daemonMode daemonBlRaw daemonProfileName error_text newFile; mret (line_out reply, chan)) t
    | GetBl => ((bypass_reply router, chan), t)
    end.
Proof.
  intros Hs Ha Hw Hl Hc. destruct w as [| a w]; [discriminate Ha |]. simpl in Hw. apply andb_true_iff in Hw as [Hva Hw].
  destruct (message_ok a w s Hva Hw Hs) as (H1 & H2 & H3 & H4); [simpl in Hl; lia |].
  assert (fst (scan_lines (split_on nl (line_out (String a w ++ s)))) = [String a w ++ s]) as E by (by apply scan_one). split; [exact E |].
  unfold handleConn. rewrite E. cbn [first_command]. rewrite Hc. by destruct c.
Qed.

(** A captcha result that a client sends waits for the session, unless one is waiting already. *)
Theorem captcha_result_arrives res chan router t :
  text_ok res -> conn router chan (captcha_message res) t = (("", offer res chan), t).
Proof.
  intros Hr. destruct (message_ok "C" "APTCHA_RESULT|" res) as (_ & _ & _ & Ht); [done | done | done | done |].
  destruct (command_arrives "CAPTCHA_RESULT|" res (SolveCaptcha res) chan router t Hr) as [_ E]; [done | done | done | | exact E].
  unfold command_of. change (String "C" "APTCHA_RESULT|") with "CAPTCHA_RESULT|" in Ht. by rewrite Ht, has_prefix_app, trim_prefix_app.
Qed.

(** The reply of a reload is one line. *)
Lemma reply_line (r : string) : no_char nl r = true -> (exists v d, r = v ++ String d "" /\ visible d = true) ->
  Z.of_nat (String.length r) < max_token -> first_line (line_out r) = Some r.
Proof.
  intros Hn (v & d & E & Hd) Hl. unfold first_line. rewrite scan_one; [done | done | | done].
  rewrite E. unfold drop_cr, trim_suffix. rewrite has_suffix_last; [done | done |]. simpl. rewrite andb_true_r.
  destruct (Ascii.eqb_spec d (byte 13)) as [-> |]; [discriminate Hd | done].
Qed.

Lemma number_text n : Z.of_nat n <= max_int -> no_char nl (itoa (Z.of_nat n)) = true /\ Z.of_nat (String.length (itoa (Z.of_nat n))) <= 64.
Proof.
  intros Hn. destruct (itoa_value (Z.of_nat n)) as (_ & Hv & _); [unfold min_int; lia |]. split; [by apply (all_of_no_char visible) |].
  unfold itoa. rewrite (proj2 (Z.ltb_ge _ _)) by lia. apply utoa_length. unfold max_int in Hn. lia.
Qed.

Lemma summary_line md n m : existsb (String.eqb md) ["tun"; "raw"; "socks"] = true -> Z.of_nat n <= max_int -> Z.of_nat m <= max_int ->
  let r := "RELOAD_OK|" ++ summary md n m in
  no_char nl r = true /\ (exists v d, r = v ++ String d "" /\ visible d = true) /\ Z.of_nat (String.length r) < max_token.
Proof.
  intros Hmd Hn Hm. cbv zeta. destruct (number_text n Hn) as [Hn1 Hn2], (number_text m Hm) as [Hm1 Hm2].
  assert (exists u w, "RELOAD_OK|" ++ summary md n m = (u ++ w) ++ ")" /\ no_char nl u = true /\ no_char nl w = true /\
    Z.of_nat (String.length u) < 200 /\ Z.of_nat (String.length w) < 200) as (u & w & -> & Hu & Hw & Hlu & Hlw).
  { unfold summary. cbn [existsb] in Hmd. destruct (String.eqb_spec md "socks") as [-> | Hs].
    - exists "RELOAD_OK|socks: bypass list updated (", (itoa (Z.of_nat n) ++ " domains").
      rewrite !no_char_app, !string_length_app, Hn1. simpl String.length. repeat split; try done; try lia.
      by rewrite !string_app_assoc.
    - exists ("RELOAD_OK|" ++ md ++ ": bypass routes updated ("), (itoa (Z.of_nat n) ++ " domains, " ++ itoa (Z.of_nat m) ++ " routes").
      assert (md = "tun" \/ md = "raw") as Hmd' by (destruct (String.eqb_spec md "tun"), (String.eqb_spec md "raw"); auto; discriminate Hmd).
      rewrite !no_char_app, !string_length_app, Hn1, Hm1. destruct Hmd' as [-> | ->]; simpl String.length; (repeat split; try done; try lia);
        by rewrite !string_app_assoc. }
  split; [by rewrite !no_char_app, Hu, Hw |]. split; [by exists (u ++ w), ")"%char |].
  rewrite !string_length_app. simpl String.length. unfold max_token. lia.
Qed.

(** The path that [qwdtt bl load] sends is the path that the daemon reloads its bypass list from, and the
    command learns whether that succeeded, with the daemon's summary or error. *)
Theorem reload_arrives path chan router t :
  text_ok path -> existsb (String.eqb daemonMode) ["tun"; "raw"; "socks"] = true -> (forall e, text_ok (error_text e)) ->
  let done := reloadSplitRoutes rawIface daemonMode daemonBlRaw daemonProfileName path t in
  exists reply, conn router chan (reload_message path) t = ((reply, chan), done.2) /\
    match done.1 with
    | Ok (n, m) => Z.of_nat n <= max_int -> Z.of_nat m <= max_int -> classify (first_line reply) = ReloadOk (summary daemonMode n m)
    | Err e => classify (first_line reply) = ReloadErr (error_text e)
    end.
Proof.
  intros Hp Hmd He. cbv zeta.
  destruct (message_ok "B" "L_RELOAD|" path) as (_ & _ & _ & Ht); [done | done | done | done |].
  destruct (command_arrives "BL_RELOAD|" path (BlReload path) chan router t Hp) as [_ E]; [done | done | done | |].
  { unfold command_of. change (String "B" "L_RELOAD|") with "BL_RELOAD|" in Ht. by rewrite Ht, has_prefix_app, trim_prefix_app. }
  eexists. split; [etransitivity; [exact E |]; unfold handleBlReload; by rewrite !run_bind |].
  cbn [fst mret State_ret]. destruct (reloadSplitRoutes _ _ _ _ path t).1 as [[n m] | e].
  - intros Hn Hm. destruct (summary_line daemonMode n m Hmd Hn Hm) as (H1 & H2 & H3). rewrite reply_line by done.
    unfold classify. by rewrite has_prefix_app, trim_prefix_app.
  - destruct (message_ok "R" "ELOAD_ERR|" (error_text e)) as (H1 & H2 & H3 & _); [done | done | done | done |].
    change (String "R" "ELOAD_ERR|") with "RELOAD_ERR|" in *. unfold first_line. rewrite scan_one by done. cbn [head classify].
    by rewrite (has_prefix_app "RELOAD_ERR|"), (trim_prefix_app "RELOAD_ERR|").
Qed.
End messages.

(** ** The bypass domains of a SOCKS daemon *)

Definition domain_ok (d : string) : Prop := d <> "" /\ all_of visible d = true /\ Z.of_nat (String.length d) < max_token.

Lemma visible_line d : domain_ok d -> no_char nl d = true /\ drop_cr d = d /\ trim_space d = d.
Proof.
  intros (Hne & Hv & _). split; [by apply (all_of_no_char visible) |]. split; [| by apply trim_space_visible].
  by apply (drop_cr_setting "" d).
Qed.

Lemma scan_reply l rest : Forall domain_ok l -> fst (scan_lines (split_on nl (join "" (line_out <$> l) ++ rest))) = (l ++ fst (scan_lines (split_on nl rest)))%list.
Proof.
  assert (forall x (l : list string), join "" (x :: l) = x ++ join "" l) as Hj by (intros x [| y k]; [by rewrite string_app_nil_r | done]).
  induction l as [| d l IH]; intros Hl; [done |]. apply Forall_cons in Hl as [Hd Hl]. cbn [fmap list_fmap]. rewrite Hj, string_app_assoc.
  destruct (visible_line d Hd) as (H1 & H2 & _). rewrite scan_message by (done || apply Hd). cbn [app]. f_equal. by apply IH.
Qed.

Lemma query_domains l rest acc : Forall (fun d => domain_ok d /\ d <> "END_BL" /\ d <> "NOT_READY") l ->
  query_lines (l ++ rest)%list acc = query_lines rest (acc ++ l)%list.
Proof.
  revert acc. induction l as [| d l IH]; intros acc Hl; cbn [app]; [by rewrite app_nil_r |].
  apply Forall_cons in Hl as [(Hd & He & Hn) Hl]. cbn [query_lines]. destruct (visible_line d Hd) as (_ & _ & ->).
  rewrite !(proj2 (String.eqb_neq _ _)) by (done || apply Hd). rewrite IH by done. by rewrite <- app_assoc.
Qed.

Lemma lower_visible `{Unicode} d : domain_ok d -> let l := to_lower (trim_space d) in domain_ok l /\ l <> "END_BL" /\ l <> "NOT_READY".
Proof.
  intros (Hne & Hv & Hl). cbv zeta. rewrite trim_space_visible by done. unfold to_lower. rewrite visible_ascii by done.
  assert (forall c s, map_string lower_ascii (String c s) = String (lower_ascii c) (map_string lower_ascii s)) as Hm by done.
  assert (forall s, String.length (map_string lower_ascii s) = String.length s) as Hlen by (induction s; simpl; congruence).
  split; [split; [| split] |].
  - by destruct d.
  - clear Hne Hl. induction d as [| c d IH]; [done |]. simpl in Hv |- *. apply andb_true_iff in Hv as [Hc Hv]. rewrite IH by done.
    rewrite andb_true_r. exact (all_ascii_impl visible (fun c => visible (lower_ascii c)) eq_refl c Hc).
  - by rewrite Hlen.
  - assert (forall c, Ascii.eqb (lower_ascii c) "E" = false /\ Ascii.eqb (lower_ascii c) "N" = false) as Hc.
    { intros c. pose proof (all_ascii_spec (fun c => negb (Ascii.eqb (lower_ascii c) "E") && negb (Ascii.eqb (lower_ascii c) "N")) eq_refl c) as Hc.
      cbv beta in Hc. by apply andb_true_iff in Hc as [->%negb_true_iff ->%negb_true_iff]. }
    destruct d as [| c d]; [done |]. rewrite Hm. destruct (Hc c) as [H1 H2]. apply Ascii.eqb_neq in H1, H2. split; congruence.
Qed.

(** The reply of a router is read as its domains. *)
Lemma reply_read `{Unicode} domains ips :
  Forall domain_ok domains -> querySocksBypass (bypass_reply (Some (NewRouter domains ips))) = Domains_are (to_lower <$> domains).
Proof.
  intros Hd. unfold querySocksBypass, bypass_reply, SnapshotDomains, NewRouter, Update. cbn [Router.domains].
  assert (Forall (fun d => domain_ok d /\ d <> "END_BL" /\ d <> "NOT_READY") ((fun d => to_lower (trim_space d)) <$> domains)) as Hl.
  { apply Forall_fmap. eapply Forall_impl; [exact Hd |]. intros d. apply lower_visible. }
  rewrite scan_reply by (eapply Forall_impl; [exact Hl |]; by intros d [? _]). rewrite query_domains by done.
  cbn [app]. rewrite scan_one by done. cbn [query_lines]. f_equal. apply list_fmap_ext. intros i d Hi. f_equal. apply trim_space_visible.
  rewrite Forall_lookup in Hd. by apply (Hd i).
Qed.

(** A kernel session learns from the socket of a SOCKS daemon exactly the domains its router has, and that
    there is no router yet as something else than an empty list. *)
Theorem get_bl_roundtrip `{Unicode} domains ips :
  Forall domain_ok domains ->
  querySocksBypass (bypass_reply (Some (NewRouter domains ips))) = Domains_are (to_lower <$> domains) /\
  querySocksBypass (bypass_reply None) = NotReady.
Proof.
  intros Hd. split; [by apply reply_read | done].
Qed.

(** When every SOCKS daemon answers in time, a kernel session collects exactly the domains that the other
    running SOCKS profiles send around their tunnels, whatever the order of the answers. *)
Theorem socks_domains_collected `{Unicode} rd socketPath own details doms ips answered :
  (forall p, isUnderRuntimeDir rd (socketPath p) = true) -> (forall p, Forall domain_ok (doms p)) ->
  answered ≡ₚ socks_queries rd socketPath own details ->
  let answer p := querySocksBypass (bypass_reply (Some (NewRouter (doms p) (ips p)))) in
  forall x, x ∈ fetchActiveSocksBypassDomains answer answered <->
    exists p d dom, (p, d) ∈ details /\ Mode d = "socks" /\ p <> own /\ dom ∈ doms p /\ x = to_lower dom.
Proof.
  intros Hrd Hd Hp answer x. unfold fetchActiveSocksBypassDomains.
  assert (forall p, answer p = Domains_are (to_lower <$> doms p)) as Ha by (intros p; by apply reply_read).
  rewrite elem_of_concat. split.
  - intros (l & Hl & Hx). apply list_elem_of_fmap in Hl as (p & -> & Hq). rewrite Ha in Hx. apply list_elem_of_fmap in Hx as (dom & -> & Hdom).
    rewrite Hp in Hq. apply list_elem_of_fmap in Hq as ([p' d] & -> & Hq). apply list_elem_of_filter in Hq as [(H1 & H2 & _) Hq].
    by exists p', d, dom.
  - intros (p & d & dom & Hin & H1 & H2 & Hdom & ->). exists (to_lower <$> doms p). split; [| by apply list_elem_of_fmap_2].
    apply list_elem_of_fmap. exists p. split; [by rewrite Ha |]. rewrite Hp. apply list_elem_of_fmap. exists (p, d). split; [done |].
    apply list_elem_of_filter. split; [| done]. split; [done |]. split; [done | apply Hrd].
Qed.

(** ** A concrete socket *)

Section example.
#[local] Instance example_unicode : Unicode := fun s => s.
#[local] Instance quiet_world : @World string string unit := {|
  succeeds := fun _ _ => true; route_list := fun _ => None; unix_now := fun _ => 0; cache_file := fun _ => None;
  lookup_ip := fun _ _ => None; current_profile := fun _ => "home"; bypass_file := fun _ _ => Some (Json.JArr [])
|}.
Abbreviation ex_conn := (handleConn "raw-qwdtt" "tun" "" "home" (fun _ => "bl-file:error")).

Example reload_reply_text :
  (ex_conn None None (reload_message "/home/u/bl.json") example_start).1 = (line_out "RELOAD_OK|tun: bypass routes updated (0 domains, 0 routes)", None).
Proof. by vm_compute. Qed.

(** A path that ends with a space is trimmed on the way. *)
Example path_trimmed : first_command (fst (scan_lines (split_on nl (reload_message "/home/u/bl ")))) = Some (BlReload "/home/u/bl").
Proof. by vm_compute. Qed.

Lemma example_ok s : all_of visible s = true -> Z.of_nat (String.length s) < 100 -> text_ok s.
Proof. intros Hv Hl. apply all_visible_text; [done | unfold max_token; lia]. Qed.

Lemma reload_arrives_witness :
  exists reply t', ex_conn None None (reload_message "/home/u/bl.json") example_start = ((reply, None), t') /\
    classify (first_line reply) = ReloadOk "tun: bypass routes updated (0 domains, 0 routes)".
Proof.
  destruct (reload_arrives "raw-qwdtt" "tun" "" "home" (fun _ => "bl-file:error") "/home/u/bl.json" None None example_start)
    as (reply & E & Hc); [by apply example_ok | reflexivity | intros e; by apply example_ok |].
  exists reply. eexists. split; [exact E |].
  assert ((reloadSplitRoutes "raw-qwdtt" "tun" "" "home" "/home/u/bl.json" example_start).1 = Ok (0%nat, 0%nat)) as Hr by (by vm_compute).
  rewrite Hr in Hc. apply Hc; by vm_compute.
Defined.

Lemma captcha_result_arrives_witness t :
  ex_conn None None (captcha_message "token-1") t = (("", Some "token-1"), t).
Proof. apply (captcha_result_arrives "raw-qwdtt" "tun" "" "home" (fun _ => "bl-file:error") "token-1" None None t). by apply example_ok. Defined.

Lemma example_domain d : all_of visible d = true -> d <> "" -> (String.length d < 100)%nat -> domain_ok d.
Proof. intros Hv Hn Hl. split; [done |]. split; [done | unfold max_token; lia]. Qed.

Lemma get_bl_roundtrip_witness : querySocksBypass (bypass_reply (Some (NewRouter ["VK.com"; "ya.ru"] []))) = Domains_are ["vk.com"; "ya.ru"].
Proof.
  destruct (get_bl_roundtrip ["VK.com"; "ya.ru"] []) as [E _]; [| exact E].
  repeat (apply Forall_cons; split; [apply example_domain; [done | done | cbn; lia] |]). apply Forall_nil_2.
Defined.

Definition socks_details (md : string) : ProfileDetails := cmdline_details 7 (argv ["qwdtt"; "con"; "x"; "-mode"; md]).

Definition example_doms (p : string) : list string := if String.eqb p "ya" then ["ya.ru"] else [].

Lemma socks_domains_collected_witness :
  "ya.ru" ∈ fetchActiveSocksBypassDomains (fun p => querySocksBypass (bypass_reply (Some (NewRouter (example_doms p) [])))) ["ya"].
Proof.
  apply (socks_domains_collected "/run" (fun p => "/run/" ++ p) "home"
    [("home", socks_details "socks"); ("nl", socks_details "tun"); ("ya", socks_details "socks")] example_doms (fun _ => []) ["ya"]).
  - reflexivity.
  - intros p. unfold example_doms. destruct (String.eqb p "ya"); [| apply Forall_nil_2].
    apply Forall_cons. split; [apply example_domain; [done | done | cbn; lia] | apply Forall_nil_2].
  - assert (socks_queries "/run" (fun p => "/run/" ++ p) "home"
      [("home", socks_details "socks"); ("nl", socks_details "tun"); ("ya", socks_details "socks")] = ["ya"]) as -> by (by vm_compute). reflexivity.
  - exists "ya", (socks_details "socks"), "ya.ru". split; [by do 2 right; left |]. repeat split; try done. by left.
Defined.
End example.
