(* ===== verification/BlFiles.v ===== *)
(** * Editing bypass lists (the bl command of commands.go).

    A list is the field "bypassRoutes" of a JSON document, whose other fields are kept.  A document is a map
    from field names to decoded values.  Paths are expanded already; a file is missing, the JSON value null, a
    document, some other text, or a ZIP archive of such files. *)

From S2P Require Import Prelude GoStrings Chars Json Sorting Url Links WgConfig WgParse Tunnel Running Subscription.
From Stdlib Require Import ZArith Lia String Ascii.
From stdpp Require Import base list strings gmap.
Open Scope string_scope.
Open Scope Z_scope.
Abbreviation join := GoStrings.join.

(** ** Documents *)

Abbreviation doc := (gmap string json).
Definition routes_key : string := "bypassRoutes".

(** Errors with the wrapping of [fmt.Errorf] with %w, which [os.IsNotExist] does not look through. *)
Inductive go_error := NotExist | NotJson | NotZip | NoRoutesInZip | ZipTarget | Wrapped (e : go_error).
Definition IsNotExist (e : go_error) : bool := match e with NotExist => true | _ => false end.

Inductive contents := OtherText | Null | Object (m : doc).

(** An entry of an archive: its name, whether it is a directory, and its contents unless they cannot be read. *)
Record entry := { Name : string; IsDir : bool; Data : option contents }.
Inductive bl_file := Missing | There (c : contents) | Archive (entries : list entry).
Abbreviation Document m := (There (Object m)).

(** [filepath.Base] of an entry's name. *)
Definition base_name (p : string) : string :=
  let p' := trim_right_set (fun c => Ascii.eqb c "/") p in
  if String.eqb p "" then "." else if String.eqb p' "" then "/" else default "" (last (split_on "/" p')).

Section edit.
Context `{Unicode} (version : string).

(** The first entry with the field. *)
Fixpoint loadBypassFromZip (entries : list entry) : result go_error contents :=
  match entries with
  | [] => Err NoRoutesInZip
  | e :: rest =>
      if IsDir e || negb (has_suffix ".json" (to_lower (base_name (Name e)))) then loadBypassFromZip rest
      else match Data e with
           | Some (Object m) => if bool_decide (is_Some (m !! routes_key)) then Ok (Object m) else loadBypassFromZip rest
           | _ => loadBypassFromZip rest
           end
  end.

(** An archive is also recognised by its first bytes. *)
Definition readBypassFile (path : string) (f : bl_file) : result go_error contents :=
  if has_suffix ".zip" (to_lower path) then
    match f with Missing => Err (Wrapped NotExist) | There _ => Err (Wrapped NotZip) | Archive entries => loadBypassFromZip entries end
  else match f with Missing => Err (Wrapped NotExist) | There c => Ok c | Archive entries => loadBypassFromZip entries end.

(** [parseBypassRawRoutes]: the domains, and whether the value is an array. *)
Definition parseBypassRawRoutes (v : json) : list string * bool :=
  match v with
  | JNull => ([], true)
  | JArr l => match mapM str_or_null l with Some ds => (ds, true) | None => ([], false) end
  | JStr s => (nonblank (split_on nl s), false)
  | _ => ([], false)
  end.

Definition doc_routes (m : doc) : list string * bool :=
  match m !! routes_key with Some v => parseBypassRawRoutes v | None => ([], false) end.

(** The map, nil after null, with the domains and the form of the list. *)
Definition loadBypassForEdit (path : string) (f : bl_file) : result go_error (option doc * list string * bool) :=
  match readBypassFile path f with
  | Err e => Err e
  | Ok OtherText => Err (Wrapped NotJson)
  | Ok Null => Ok (None, [], false)
  | Ok (Object m) => let '(ds, isArray) := doc_routes m in Ok (Some m, ds, isArray)
  end.

Definition header (version : string) (m : doc) : doc :=
  <["appVersion" := JStr version]> (<["formatVersion" := JNum (f_of_int 1)]> (<["format" := JStr "qwdtt-bypass"]> m)).


(** [saveBypassFile] on the path after expansion: the document written; [None] is the panic of an assignment
    to the nil map. *)
Definition saveBypassFile (path : string) (m : option doc) (ds : list string) (isArray createNew : bool) : option (result go_error doc) :=
  match m with
  | None => None
  | Some m =>
      let m := if createNew && bool_decide (m = ∅) then header version m else m in
      let m := <[routes_key := if isArray then JArr (JStr <$> ds) else JStr (join (String nl "") ds)]> m in
      Some (if has_suffix ".zip" (to_lower path) then Err ZipTarget else Ok m)
  end.

(** ** Adding and removing *)

Inductive bl_result := Written (m : doc) (changed : list string) | Unchanged | Fatal (e : go_error) | BadDomain (d : string) | Panic.

Definition written (saved : option (result go_error doc)) (changed : list string) : bl_result :=
  match saved with Some (Ok m) => Written m changed | Some (Err e) => Fatal e | None => Panic end.

Definition bad_domain (ds : list string) : option string :=
  find (fun d => negb (String.eqb d "") && contains "," d) (trim_space <$> ds).

(** The loop of [blAdd]: the list and the domains added to it; [seen] holds lower-case texts. *)
Fixpoint add_loop (ds : list string) (seen : gset string) : list string :=
  match ds with
  | [] => []
  | d :: rest =>
      let d := trim_space d in
      if String.eqb d "" || bool_decide (to_lower d ∈ seen) then add_loop rest seen
      else d :: add_loop rest ({[to_lower d]} ∪ seen)
  end.

Definition blAdd (ds : list string) (path : string) (f : bl_file) : bl_result :=
  match bad_domain ds with
  | Some d => BadDomain d
  | None =>
      let write m existing isArray createNew :=
        let added := add_loop ds (list_to_set (to_lower <$> existing)) in
        if (length added =? 0)%nat then Unchanged
        else written (saveBypassFile path m (existing ++ added)%list isArray createNew) added in
      match loadBypassForEdit path f with
      | Ok (m, existing, isArray) => write m existing isArray false
      | Err e => if IsNotExist e then write (Some ∅) [] false true else Fatal e
      end
  end.

(** The lower-case texts that [blRemove] removes. *)
Definition remove_set (ds existing : list string) : list string :=
  filter (fun k => k ∈ to_lower <$> existing) (to_lower <$> nonblank ds).

(** [blRemove] after the confirmation. *)
Definition blRemove (ds : list string) (path : string) (f : bl_file) : bl_result :=
  match bad_domain ds with
  | Some d => BadDomain d
  | None =>
      match loadBypassForEdit path f with
      | Err e => Fatal e
      | Ok (m, existing, isArray) =>
          let gone := remove_set ds existing in
          if (length gone =? 0)%nat then Unchanged
          else
            let out := filter (fun d => to_lower d ∉ gone) existing in
            written (saveBypassFile path m out isArray false) gone
      end
  end.

(** [blInitCmd] where no file is. *)
Definition blInit (path : string) : bl_result := written (saveBypassFile path (Some ∅) [] false true) [].

(** ** Searching *)

Context (ToUnicode : string -> option string).

Definition displayDomain (d : string) : string :=
  if negb (contains "xn--" d) then d
  else match ToUnicode d with Some u => if String.eqb u "" then d else u | None => d end.

Definition domainKey (d : string) : string := to_lower (transliterateCyrillic (displayDomain d)).

Inductive hit := Exact | Partial | NoHit.
#[global] Instance hit_eq_dec : EqDecision hit.
Proof. solve_decision. Defined.

Definition find_hit (ql d : string) : hit :=
  let dl := to_lower d in
  let du := to_lower (displayDomain d) in
  let dr := to_lower (transliterateCyrillic du) in
  if String.eqb dl ql || String.eqb du ql || String.eqb dr ql then Exact
  else if contains ql dl || contains ql du || contains ql dr then Partial
  else NoHit.

(** [blFind] for one query: the exact and the partial matches; [None] for a blank query. *)
Definition blFind (q : string) (existing : list string) : option (list string * list string) :=
  let q := trim_space q in
  if String.eqb q "" then None
  else
    let ql := to_lower q in
    Some (filter (fun d => find_hit ql d = Exact) existing,
          filter (fun d => find_hit ql d = Partial) existing).

(** ** Listing *)

Record blDomain := { Prefix : string; Domain : string }.

(** [blList], with the order of equal keys kept ([sort.Slice] may change it): the entries with their marks and those that were removed from the file but not yet from the
    routes; [applied] is the running profile's list. *)
Definition list_order (a b : string) : bool := string_less (to_lower (displayDomain a)) (to_lower (displayDomain b)).

Definition tag (applied : list string) (d : string) : blDomain :=
  {| Prefix := if bool_decide (domainKey d ∈ domainKey <$> applied) then "" else "[!]"; Domain := displayDomain d |}.

Definition tagged (applied ds : list string) : list blDomain := tag applied <$> sort_stable list_order ds.

Definition removed_entries (pureFile : bool) (applied ds : list string) : list string :=
  if pureFile then filter (fun a => domainKey a ∉ domainKey <$> ds) applied else [].
End edit.

(** ** Columns *)

(** [fmt.Sprintf] with a minimal width, in runes. *)
Fixpoint spaces (n : nat) : string := match n with O => "" | S n => String " " (spaces n) end.
Definition pad (width : nat) (s : string) : string := s ++ spaces (width - length (runes s 0)).

Definition trim_right_spaces (s : string) : string := trim_right_set (fun c => Ascii.eqb c " ") s.

(** The cells of row [r] from column [c] on; [k] columns remain. *)
Fixpoint row_cells (n rows r c k : nat) : list nat :=
  match k with
  | O => []
  | S k => let idx := (r + c * rows)%nat in if (n <=? idx)%nat then [] else idx :: row_cells n rows r (S c) k
  end.

Definition n_rows (n cols : nat) : nat := ((n + cols - 1) / cols)%nat.
Definition grid (n cols : nat) : list (list nat) := (fun r => row_cells n (n_rows n cols) r 0 cols) <$> seq 0 (n_rows n cols).

Definition max_len (ds : list string) : nat := foldl (fun m d => if (m <? String.length d)%nat then String.length d else m) 0%nat ds.

(** The cells of a row; a separator follows each but the one in the last column. *)
Fixpoint row_text (width : nat) (sep : string) (k : nat) (cells : list string) : string :=
  match cells, k with
  | d :: rest, S k => pad width d ++ (if (0 <? k)%nat then sep else "") ++ row_text width sep k rest
  | _, _ => ""
  end.

Definition formatDomainsInColumns (domains : list string) (indent sep : string) (cols : Z) : string :=
  if (length domains =? 0)%nat then ""
  else
    let cols := if cols <? 1 then 1%nat else Z.to_nat cols in
    let width := max_len domains in
    join "" ((fun cells => trim_right_spaces (indent ++ row_text width sep cols ((fun i => default "" (domains !! i)) <$> cells)) ++ String nl "")
      <$> grid (length domains) cols).

(** The mark of a row: an addition wins over a removal. *)
Definition row_mark (prefixes : list string) : string :=
  if bool_decide ("[!]" ∈ prefixes) then "[!]" else if bool_decide ("[-]" ∈ prefixes) then "[-]" else "".

Definition formatTaggedDomains (tags : list blDomain) (indent sep : string) (cols : Z) : string :=
  if (length tags =? 0)%nat then ""
  else
    let cols := if cols <? 1 then 1%nat else Z.to_nat cols in
    let width := max_len (Domain <$> tags) in
    let cell i := default {| Prefix := ""; Domain := "" |} (tags !! i) in
    join "" ((fun cells => trim_right_spaces (indent ++ pad 4 (row_mark (Prefix <$> (cell <$> cells))) ++
        row_text width sep cols (Domain <$> (cell <$> cells))) ++ String nl "")
      <$> grid (length tags) cols).

(** ** What is saved is read back *)

Lemma filter_all_in {A} (P : A -> Prop) `{!forall x, Decision (P x)} (l : list A) : (forall x, x ∈ l -> P x) -> filter P l = l.
Proof.
  induction l as [| x l IH]; intros Hl; [done |]. rewrite filter_cons_True by (apply Hl; by left). f_equal. apply IH. intros y Hy. apply Hl. by right.
Qed.

Lemma filter_ext_in {A} (P Q : A -> Prop) `{!forall x, Decision (P x), !forall x, Decision (Q x)} (l : list A) :
  (forall x, x ∈ l -> P x <-> Q x) -> filter P l = filter Q l.
Proof.
  induction l as [| x l IH]; intros Hl; [done |]. assert (filter P l = filter Q l) as E by (apply IH; intros y Hy; apply Hl; by right).
  destruct (decide (P x)) as [Hp | Hp].
  - rewrite !filter_cons_True; [by rewrite E | by apply Hl; [left |] | done].
  - rewrite !filter_cons_False; [done | | done]. intros Hq. apply Hp, Hl; [by left | done].
Qed.

Section saved.
Context `{Unicode} (version : string).

(** Entries that a text of lines keeps as they are. *)
Definition line_entry (d : string) : Prop := d <> "" /\ trim_space d = d /\ no_char nl d = true.

Lemma mapM_strings ds : mapM str_or_null (JStr <$> ds) = Some ds.
Proof. induction ds as [| d ds IH]; [done |]. cbn. by rewrite IH. Qed.

Lemma nonblank_entries ds : Forall line_entry ds -> nonblank ds = ds.
Proof.
  unfold nonblank. induction ds as [| d ds IH]; intros Hd; [done |]. apply Forall_cons in Hd as [(Hn & Ht & _) Hd]. cbn [fmap list_fmap].
  rewrite Ht, filter_cons_True by done. f_equal. by apply IH.
Qed.

Lemma saved_routes path m ds isArray cn m' changed changed' :
  (isArray = false -> Forall line_entry ds) -> written (saveBypassFile version path (Some m) ds isArray cn) changed = Written m' changed' ->
  changed' = changed /\ doc_routes m' = (ds, isArray) /\ (cn = false -> forall k, k <> routes_key -> m' !! k = m !! k).
Proof.
  unfold saveBypassFile. intros Hd. destruct (has_suffix _ _); [done |]. intros [= <- <-]. split; [done |]. split.
  - unfold doc_routes. rewrite lookup_insert_eq. destruct isArray; cbn [parseBypassRawRoutes].
    + by rewrite mapM_strings.
    + specialize (Hd eq_refl). destruct ds as [| d ds]; [done |]. rewrite split_on_join; [by rewrite nonblank_entries | done |].
      eapply Forall_impl; [exact Hd |]. by intros ? (_ & _ & ?).
  - intros -> k Hk. cbn [andb]. by rewrite lookup_insert_ne.
Qed.

Lemma split_entries s : Forall line_entry (nonblank (split_on nl s)).
Proof.
  unfold nonblank. apply Forall_forall. intros d [Hd Hin]%list_elem_of_filter. apply list_elem_of_fmap in Hin as (p & -> & Hp).
  split; [done |]. split; [apply trim_space_idem |].
  pose proof (split_on_pieces nl s) as Hs. rewrite Forall_forall in Hs. specialize (Hs p Hp).
  rewrite no_char_none_of in Hs |- *. by apply none_of_trim_space.
Qed.

(** The loaded entries of a document with a text of lines are lines. *)
Lemma loaded_entries m ds : doc_routes m = (ds, false) -> Forall line_entry ds.
Proof.
  unfold doc_routes. destruct (m !! routes_key) as [v |]; [| intros [= <-]; apply Forall_nil_2].
  destruct v as [| b | x | s | l | o]; cbn [parseBypassRawRoutes]; try done; try (intros [= <-]; apply Forall_nil_2).
  - intros [= <-]. apply split_entries.
  - destruct (mapM str_or_null l); [done |]. intros [= <-]. apply Forall_nil_2.
Qed.

(** ** Adding *)

(** The texts that are in the list, ignoring case. *)
Definition lowered (ds : list string) : list string := to_lower <$> ds.

Lemma add_loop_spec ds seen d : d ∈ add_loop ds seen ->
  d <> "" /\ trim_space d = d /\ (to_lower d ∉ seen) /\ exists x, x ∈ ds /\ d = trim_space x.
Proof.
  revert seen. induction ds as [| x ds IH]; intros seen; cbn [add_loop]; [by intros ?%elem_of_nil |].
  destruct (String.eqb_spec (trim_space x) "") as [E | E]; cbn [orb].
  - intros Hd. destruct (IH seen Hd) as (H1 & H2 & H3 & y & Hy & ->). repeat split; try done. exists y. split; [by right | done].
  - case_bool_decide as Hs.
    + intros Hd. destruct (IH seen Hd) as (H1 & H2 & H3 & y & Hy & ->). repeat split; try done. exists y. split; [by right | done].
    + intros [-> | Hd]%elem_of_cons.
      * split; [done |]. split; [apply trim_space_idem |]. split; [done |]. exists x. split; [by left | done].
      * destruct (IH _ Hd) as (H1 & H2 & H3 & y & Hy & ->). repeat split; [done | done | set_solver |]. exists y. split; [by right | done].
Qed.

Lemma add_loop_distinct ds seen : NoDup (lowered (add_loop ds seen)).
Proof.
  revert seen. induction ds as [| x ds IH]; intros seen; cbn [add_loop]; [constructor |].
  destruct (_ || _); [apply IH |]. cbn [lowered fmap list_fmap]. constructor; [| apply IH].
  intros (d & E & Hd)%list_elem_of_fmap. apply add_loop_spec in Hd as (_ & _ & Hd & _). set_solver.
Qed.

Lemma add_loop_covers ds seen x : x ∈ ds -> trim_space x <> "" ->
  to_lower (trim_space x) ∈ seen \/ to_lower (trim_space x) ∈ lowered (add_loop ds seen).
Proof.
  intros Hx Hne. revert seen. induction ds as [| y ds IH]; intros seen; [by apply elem_of_nil in Hx |]. cbn [add_loop].
  apply elem_of_cons in Hx as [<- | Hx].
  - rewrite (proj2 (String.eqb_neq _ _)) by done. cbn [orb]. case_bool_decide; [by left |]. right. cbn. by left.
  - destruct (_ || _) eqn:E; [by apply IH |]. destruct (IH Hx ({[to_lower (trim_space y)]} ∪ seen)) as [H1 | H1].
    + apply elem_of_union in H1 as [->%elem_of_singleton | H1]; [right; cbn; by left | by left].
    + right. cbn. by right.
Qed.

(** What a successful [bl add] leaves in the file. *)
Lemma added_routes ds path m m' added :
  Forall (fun d => no_char nl d = true) ds -> blAdd version ds path (Document m) = Written m' added ->
  added = add_loop ds (list_to_set (lowered (doc_routes m).1)) /\
  doc_routes m' = ((doc_routes m).1 ++ added, (doc_routes m).2)%list /\
  (forall k, k <> routes_key -> m' !! k = m !! k).
Proof.
  intros Hnl. unfold blAdd. destruct (bad_domain ds); [done |]. unfold loadBypassForEdit, readBypassFile.
  destruct (has_suffix ".zip" (to_lower path)); [done |].
  destruct (doc_routes m) as [existing isArray] eqn:Em. cbn [fst snd]. fold (lowered existing). set (new := add_loop ds _).
  destruct (length _ =? 0)%nat; [done |]. intros Es.
  assert (isArray = false -> Forall line_entry (existing ++ new)%list) as Hl.
  { intros ->. apply Forall_app. split; [by apply (loaded_entries m) |]. apply Forall_forall. intros d Hd.
    apply add_loop_spec in Hd as (H1 & H2 & _ & x & Hx & ->). split; [done |]. split; [done |].
    rewrite Forall_forall in Hnl. specialize (Hnl x Hx). rewrite no_char_none_of in Hnl |- *. by apply none_of_trim_space. }
  destruct (saved_routes _ _ _ _ _ _ _ _ Hl Es) as (-> & E1 & E2). split; [done |]. split; [done | by apply E2].
Qed.

(** What a successful [bl remove] leaves in the file. *)
Lemma removed_routes ds path m m' gone :
  blRemove version ds path (Document m) = Written m' gone ->
  doc_routes m' = (filter (fun d => to_lower d ∉ lowered (nonblank ds)) (doc_routes m).1, (doc_routes m).2) /\
  (forall k, k <> routes_key -> m' !! k = m !! k).
Proof.
  unfold blRemove. destruct (bad_domain ds); [done |]. unfold loadBypassForEdit, readBypassFile.
  destruct (has_suffix ".zip" (to_lower path)); [done |].
  destruct (doc_routes m) as [existing isArray] eqn:Em. destruct (length _ =? 0)%nat; [done |]. intros Es.
  assert (filter (fun d => to_lower d ∉ remove_set ds existing) existing = filter (fun d => to_lower d ∉ lowered (nonblank ds)) existing) as Hf.
  { apply filter_ext_in. intros d Hd. unfold remove_set. rewrite list_elem_of_filter. unfold lowered.
    assert (to_lower d ∈ to_lower <$> existing) by (by apply list_elem_of_fmap_2). tauto. }
  rewrite Hf in Es. destruct (fun Hl => saved_routes _ _ _ _ _ _ _ _ Hl Es) as (_ & E1 & E2); [| split; [done | by apply E2]].
  intros ->. apply Forall_forall. intros d [_ Hd]%list_elem_of_filter.
  pose proof (loaded_entries m existing Em) as Hl. rewrite Forall_forall in Hl. by apply Hl.
Qed.

(** The entries added are not blank, trimmed and new. *)
Lemma add_loop_entries ds (existing : list string) : Forall (fun d => d <> "" /\ trim_space d = d /\ to_lower d ∉ lowered existing)
  (add_loop ds (list_to_set (lowered existing))).
Proof. apply Forall_forall. intros d Hd. apply add_loop_spec in Hd as (H1 & H2 & H3 & _). repeat split; [done | done |]. set_solver. Qed.

(** After [bl add] the file holds the old entries and then the new ones, in the form it had and with its
    other fields; every domain given is in it, ignoring case, and none was added that was there. *)
Theorem bl_add_effect ds path m m' added :
  Forall (fun d => no_char nl d = true) ds -> blAdd version ds path (Document m) = Written m' added ->
  doc_routes m' = ((doc_routes m).1 ++ added, (doc_routes m).2)%list /\
  (forall k, k <> routes_key -> m' !! k = m !! k) /\
  (forall x, x ∈ ds -> trim_space x <> "" -> to_lower (trim_space x) ∈ lowered ((doc_routes m).1 ++ added)%list) /\
  (forall d, d ∈ added -> to_lower d ∉ lowered (doc_routes m).1) /\ NoDup (lowered added).
Proof.
  intros Hnl E. destruct (added_routes _ _ _ _ _ Hnl E) as (-> & E1 & E2). split; [done |]. split; [done |]. split; [| split].
  - intros x Hx Hne. unfold lowered. rewrite fmap_app, elem_of_app. fold (lowered (doc_routes m).1).
    destruct (add_loop_covers ds (list_to_set (lowered (doc_routes m).1)) x Hx Hne) as [H1 | H1]; [left; set_solver | by right].
  - intros d Hd. pose proof (add_loop_entries ds (doc_routes m).1) as Ha. rewrite Forall_forall in Ha. by apply Ha.
  - apply add_loop_distinct.
Qed.

(** [bl remove] keeps exactly the entries that differ from every domain given, ignoring case, in their
    order, and the other fields. *)
Theorem bl_remove_effect ds path m m' gone :
  blRemove version ds path (Document m) = Written m' gone ->
  doc_routes m' = (filter (fun d => to_lower d ∉ lowered (nonblank ds)) (doc_routes m).1, (doc_routes m).2) /\
  (forall k, k <> routes_key -> m' !! k = m !! k).
Proof. exact (removed_routes ds path m m' gone). Qed.

(** Removing what was just added gives the old list back. *)
Theorem bl_add_remove ds path m m1 m2 added gone :
  Forall (fun d => no_char nl d = true) ds ->
  blAdd version ds path (Document m) = Written m1 added -> blRemove version added path (Document m1) = Written m2 gone ->
  doc_routes m2 = doc_routes m.
Proof.
  intros Hnl Ha Hr. destruct (added_routes _ _ _ _ _ Hnl Ha) as (Hadd & E1 & _).
  assert (Forall (fun d => d <> "" /\ trim_space d = d /\ to_lower d ∉ lowered (doc_routes m).1) added) as Hnew by (subst; apply add_loop_entries).
  assert (nonblank added = added) as Hb.
  { clear -Hnew. induction added as [| d l IH]; [done |]. apply Forall_cons in Hnew as [(Hn & Ht & _) Hl]. unfold nonblank in *. cbn [fmap list_fmap].
    rewrite Ht, filter_cons_True by done. f_equal. by apply IH. }
  apply removed_routes in Hr as [-> _]. rewrite E1, Hb. cbn [fst snd]. destruct (doc_routes m) as [ex ia]. cbn [fst snd] in *.
  rewrite Forall_forall in Hnew. rewrite filter_app, (filter_none _ added), app_nil_r.
  - f_equal. apply filter_all_in. intros d Hd Hin. apply list_elem_of_fmap in Hin as (x & E & Hx). apply (Hnew x Hx).
    rewrite <- E. by apply list_elem_of_fmap_2.
  - intros x Hx Hn. by apply Hn, list_elem_of_fmap_2.
Qed.

(** A list cannot be started with [bl add]: the error for a missing file is wrapped, and [os.IsNotExist]
    does not recognise it. *)
Theorem bl_add_missing ds path : bad_domain ds = None -> blAdd version ds path Missing = Fatal (Wrapped NotExist).
Proof. intros Hb. unfold blAdd, loadBypassForEdit, readBypassFile. rewrite Hb. by destruct (has_suffix _ _). Qed.
End saved.

(** ** Every domain is shown once *)

Lemma row_cells_elem n rows r c k i : (0 < rows)%nat ->
  i ∈ row_cells n rows r c k <-> exists c', (c <= c' < c + k)%nat /\ i = (r + c' * rows)%nat /\ (i < n)%nat.
Proof.
  intros Hr. revert c. induction k as [| k IH]; intros c; cbn [row_cells].
  - split; [by intros ?%elem_of_nil | intros (c' & Hc & _); lia].
  - destruct (Nat.leb_spec n (r + c * rows)) as [Hn | Hn].
    + split; [by intros ?%elem_of_nil |]. intros (c' & Hc & -> & Hi). exfalso. assert (c * rows <= c' * rows)%nat by (apply Nat.mul_le_mono_r; lia). lia.
    + rewrite elem_of_cons, IH. split.
      * intros [-> | (c' & Hc & H')]; [exists c; lia | exists c'; split; [lia | done]].
      * intros (c' & Hc & E & Hi). destruct (decide (c' = c)) as [-> | Hne]; [by left | right; exists c'; split; [lia | done]].
Qed.

Lemma row_cells_nodup n rows r c k : (0 < rows)%nat -> NoDup (row_cells n rows r c k).
Proof.
  intros Hr. revert c. induction k as [| k IH]; intros c; cbn [row_cells]; [constructor |].
  destruct (n <=? r + c * rows)%nat; [constructor |]. constructor; [| apply IH].
  intros (c' & Hc & E & _)%row_cells_elem; [| done]. assert (c * rows < c' * rows)%nat by (apply Nat.mul_lt_mono_pos_r; lia). lia.
Qed.

Lemma concat_bind {A B} (f : A -> list B) l : concat (f <$> l) = l ≫= f.
Proof. induction l as [| x l IH]; [done |]. cbn. by rewrite IH. Qed.

(** The listing in columns shows every entry exactly once: the rows share out the numbers of the entries,
    filled column by column. *)
Theorem columns_complete n cols : (0 < n)%nat -> (0 < cols)%nat ->
  concat (grid n cols) ≡ₚ seq 0 n /\
  (forall r i c, grid n cols !! r = Some i -> forall j, i !! c = Some j -> j = (r + c * n_rows n cols)%nat) /\
  Forall (fun cells => (0 < length cells <= cols)%nat) (grid n cols).
Proof.
  intros Hn Hc. set (rows := n_rows n cols).
  assert (0 < rows)%nat as Hr by (unfold rows, n_rows; apply Nat.div_str_pos; lia).
  assert (n <= rows * cols)%nat as Hcover.
  { unfold rows, n_rows. pose proof (Nat.div_mod_eq (n + cols - 1) cols). pose proof (Nat.mod_upper_bound (n + cols - 1) cols). lia. }
  assert (rows <= n)%nat as Hrn.
  { unfold rows, n_rows. apply Nat.lt_succ_r, Nat.Div0.div_lt_upper_bound. nia. }
  split; [| split].
  - apply NoDup_Permutation.
    + unfold grid. fold rows. rewrite concat_bind. apply NoDup_bind; [| intros; by apply row_cells_nodup | apply NoDup_seq].
      intros r1 r2 y H1%elem_of_seq H2%elem_of_seq (c1 & _ & -> & _)%row_cells_elem (c2 & _ & E & _)%row_cells_elem; [| done | done].
      apply (f_equal (fun x => x mod rows)%nat) in E. rewrite !Nat.Div0.mod_add, !Nat.mod_small in E by lia. done.
    + apply NoDup_seq.
    + intros i. rewrite elem_of_seq. unfold grid. fold rows. rewrite concat_bind, list_elem_of_bind. split.
      * intros (r & (c & _ & _ & Hi)%row_cells_elem & _); [lia | done].
      * intros [_ Hi]. exists (i mod rows)%nat. split; [| apply elem_of_seq; pose proof (Nat.mod_upper_bound i rows); lia].
        apply row_cells_elem; [done |]. exists (i / rows)%nat. pose proof (Nat.div_mod_eq i rows).
        split; [split; [lia | apply Nat.Div0.div_lt_upper_bound; nia] | split; [lia | lia]].
  - intros r cells c Hg j Hj. unfold grid in Hg. rewrite list_lookup_fmap in Hg. destruct (seq 0 _ !! r) as [r' |] eqn:Es; [| done].
    apply lookup_seq in Es as [-> _]. injection Hg as <-. cbn [Nat.add] in *. fold rows in Hj |- *. revert Hj.
    assert (forall k c0, row_cells n rows r c0 k !! c = Some j -> j = (r + (c0 + c) * rows)%nat) as Hx; [| apply Hx].
    clear. revert c. intros c k. revert c. induction k as [| k IH]; intros c c0; cbn [row_cells]; [done |].
    destruct (n <=? _)%nat; [done |]. destruct c as [| c]; cbn; [intros [= <-]; f_equal; lia |]. intros H'%IH. rewrite H'. f_equal. f_equal. lia.
  - apply Forall_forall. intros cells (r & -> & Hrs%elem_of_seq)%list_elem_of_fmap. fold rows.
    assert (forall k c0, (length (row_cells n rows r c0 k) <= k)%nat) as Hle.
    { induction k as [| k IH]; intros c0; cbn [row_cells]; [done |]. destruct (_ <=? _)%nat; cbn; [lia |]. specialize (IH (S c0)). lia. }
    split; [| apply Hle]. destruct cols as [| k]; [lia |]. cbn [row_cells]. fold rows in Hrs.
    rewrite (proj2 (Nat.leb_gt _ _)) by lia. cbn. lia.
Qed.

(** ** A concrete list *)

Section example.
#[local] Instance example_unicode : Unicode := fun s => s.

Definition example_doc : doc :=
  list_to_map [("format", JStr "qwdtt-bypass"); (routes_key, JStr (join (String nl "") ["ya.ru"; " vk.com"; ""]))].

Definition ex_add := blAdd "1.0" ["VK.com"; " mail.ru "; "Mail.ru"] "bl.json" (Document example_doc).
Definition ex_doc (r : bl_result) : doc := match r with Written m _ => m | _ => ∅ end.

Example added_list : doc_routes (ex_doc ex_add) = (["ya.ru"; "vk.com"; "mail.ru"], false).
Proof. by vm_compute. Qed.

Example columns_text : formatDomainsInColumns ["a.ru"; "bb.ru"; "c.ru"; "d.ru"] "" "  " 3 =
  join "" ((fun l => l ++ String nl "") <$> ["a.ru   c.ru"; "bb.ru  d.ru"]).
Proof. by vm_compute. Qed.

(** A list in an unknown form is taken for an empty one and overwritten. *)
Example unknown_form_lost : doc_routes (ex_doc (blAdd "1.0" ["ya.ru"] "bl.json" (Document {[routes_key := JArr [JStr "vk.com"; JBool true]]}))) = (["ya.ru"], false).
Proof. by vm_compute. Qed.

(** An archive under another extension is read as one, and replaced by the document when a domain is added. *)
Example archive_replaced : exists m, blAdd "1.0" ["ok.ru"] "backup.bin" (Archive [{| Name := "a/x.JSON"; IsDir := false; Data := Some (Object example_doc) |}]) = Written m ["ok.ru"].
Proof. eexists. vm_compute. reflexivity. Qed.

(** A file that holds null is read as an empty list, and the first addition panics. *)
Example null_panics : blAdd "1.0" ["ya.ru"] "bl.json" (There Null) = Panic.
Proof. by vm_compute. Qed.

Lemma bl_add_effect_witness : (doc_routes (ex_doc ex_add)).1 = ((doc_routes example_doc).1 ++ ["mail.ru"])%list /\ ex_doc ex_add !! "format" = Some (JStr "qwdtt-bypass").
Proof.
  assert (ex_add = Written (ex_doc ex_add) ["mail.ru"]) as E by (by vm_compute).
  destruct (bl_add_effect "1.0" ["VK.com"; " mail.ru "; "Mail.ru"] "bl.json" example_doc (ex_doc ex_add) ["mail.ru"]) as (H1 & H2 & _);
    [repeat constructor | exact E |].
  split; [by rewrite H1 | rewrite H2; [by vm_compute | discriminate]].
Defined.

Definition ex_remove := blRemove "1.0" ["mail.ru"] "bl.json" (Document (ex_doc ex_add)).

Lemma bl_add_remove_witness : doc_routes (ex_doc ex_remove) = doc_routes example_doc.
Proof.
  apply (bl_add_remove "1.0" ["VK.com"; " mail.ru "; "Mail.ru"] "bl.json" example_doc (ex_doc ex_add) (ex_doc ex_remove) ["mail.ru"] ["mail.ru"]).
  - repeat constructor.
  - by vm_compute.
  - by vm_compute.
Defined.

Lemma bl_remove_effect_witness : doc_routes (ex_doc ex_remove) = (["ya.ru"; "vk.com"], false).
Proof.
  destruct (bl_remove_effect "1.0" ["mail.ru"] "bl.json" (ex_doc ex_add) (ex_doc ex_remove) ["mail.ru"]) as [E _]; [by vm_compute |].
  rewrite E. by vm_compute.
Defined.

Lemma bl_add_missing_witness : blAdd "1.0" ["ya.ru"] "bl.json" Missing = Fatal (Wrapped NotExist).
Proof. apply bl_add_missing. by vm_compute. Defined.

Lemma columns_complete_witness : concat (grid 7 3) ≡ₚ seq 0 7.
Proof. apply columns_complete; lia. Defined.
End example.
