(* ===== verification/Paths.v ===== *)
(** * File paths (packages os and path/filepath; commands.go, [expandPath] and [normalizeBlPath]).

    The environment is a function from names to values, the working directory an argument; [None] is an
    error of [os.Getwd]. *)

From S2P Require Import Prelude GoStrings.
From Stdlib Require Import ZArith Lia String Ascii.
From stdpp Require Import base list strings.
Open Scope string_scope.
Abbreviation join := GoStrings.join.

(** ** [os.ExpandEnv] *)

Definition shell_special (c : ascii) : bool := existsb (Ascii.eqb c) (list_ascii_of_string "*#$@!?-0123456789").
Definition alpha_num (c : ascii) : bool :=
  existsb (Ascii.eqb c) (list_ascii_of_string "_0123456789abcdefghijklmnopqrstuvwxyzABCDEFGHIJKLMNOPQRSTUVWXYZ").

Fixpoint name_end (s : string) : nat :=
  match s with String c s' => if alpha_num c then S (name_end s') else O | "" => O end.

Definition special_in_braces (s : string) : bool := match s with String a (String b _) => shell_special a && Ascii.eqb b "}" | _ => false end.

(** [getShellName] on the text behind a dollar, which is not empty: the name and the bytes it takes. *)
Definition getShellName (s : string) : string * nat :=
  match s with
  | "" => ("", 0)
  | String c rest =>
      if Ascii.eqb c "{" then
        if special_in_braces rest then (stake 1 rest, 3)
        else match GoStrings.index "}" rest with Some 0 => ("", 2) | Some i => (stake i rest, S (S i)) | None => ("", 1) end
      else if shell_special c then (String c "", 1)
      else let n := name_end s in (stake n s, n)
  end.

(** [os.Expand]; [skip] bytes of a name are left. *)
Fixpoint expand (getenv : string -> string) (s : string) (skip : nat) : string :=
  match s, skip with
  | "", _ => ""
  | String _ s', S k => expand getenv s' k
  | String c s', O =>
      if Ascii.eqb c "$" && negb (String.eqb s' "") then
        let '(name, w) := getShellName s' in
        (if String.eqb name "" then if (0 <? w)%nat then "" else "$" else getenv name) ++ expand getenv s' w
      else String c (expand getenv s' 0)
  end.
Definition ExpandEnv (getenv : string -> string) (s : string) : string := expand getenv s 0.

(** ** [filepath.Clean], [Join] and [Abs] *)

Definition rooted (p : string) : bool := has_prefix "/" p.

(** A component is appended to those before it, the last of which comes first. *)
Definition push (abs : bool) (out : list string) (c : string) : list string :=
  if String.eqb c "" || String.eqb c "." then out
  else if String.eqb c ".." then
    match out with
    | [] => if abs then [] else [".."]
    | t :: rest => if String.eqb t ".." then ".." :: out else rest
    end
  else c :: out.

Definition Clean (p : string) : string :=
  let out := join "/" (rev (foldl (push (rooted p)) [] (split_on "/" p))) in
  if rooted p then "/" ++ out else if String.eqb out "" then "." else out.

Definition Join (elems : list string) : string :=
  match filter (fun e => e <> "") elems with [] => "" | l => Clean (join "/" l) end.

Definition Abs (cwd : option string) (p : string) : option string :=
  if rooted p then Some (Clean p) else (fun d => Join [d; p]) <$> cwd.

(** ** The paths of the client *)

Section paths.
Context (getenv : string -> string) (cwd : option string).

(** [expandPath]: [None] is the error of [os.UserHomeDir]. *)
Definition expandPath (path : string) : option string :=
  let expanded := ExpandEnv getenv path in
  if has_prefix "~" path then
    let home := getenv "HOME" in
    if String.eqb home "" then None else Some (Join [home; sdrop 1 path])
  else Some expanded.

Definition normalizeBlPath (p : string) : string :=
  if String.eqb p "" then ""
  else
    let expanded := match expandPath p with Some e => if String.eqb e "" then p else e | None => p end in
    let expanded := default expanded (Abs cwd expanded) in
    Clean expanded.

(** ** A normalised path is a place in the tree *)

(** Where a component leads from a directory, given by the names up to the root. *)
Definition step (dir : list string) (c : string) : list string :=
  if String.eqb c "" || String.eqb c "." then dir else if String.eqb c ".." then tail dir else c :: dir.
Definition leads (from : list string) (p : string) : list string := foldl step from (split_on "/" p).

(** What a path stands for before it is made absolute. *)
Definition expansion (p : string) : string :=
  match expandPath p with Some e => if String.eqb e "" then p else e | None => p end.

(** Where a path leads when the working directory is [d]. *)
Definition place (d p : string) : list string :=
  if rooted (expansion p) then leads [] (expansion p) else leads (leads [] d) (expansion p).

Definition path_text (names : list string) : string := "/" ++ join "/" (rev names).

(** A name of a directory entry. *)
Definition entry_name (c : string) : Prop := c <> "" /\ c <> "." /\ c <> ".." /\ no_char "/" c = true.

Lemma push_step dir c : Forall entry_name dir -> push true dir c = step dir c.
Proof.
  intros Hd. unfold push, step. destruct (_ || _); [done |]. destruct (String.eqb c ".."); [| done].
  destruct dir as [| t rest]; [done |]. apply Forall_cons in Hd as [(_ & _ & Ht & _) _]. by rewrite (proj2 (String.eqb_neq t "..")).
Qed.

Lemma step_names dir c : Forall entry_name dir -> no_char "/" c = true -> Forall entry_name (step dir c).
Proof.
  intros Hd Hc. unfold step. destruct (String.eqb_spec c ""), (String.eqb_spec c "."), (String.eqb_spec c ".."); cbn [orb]; try done.
  - destruct dir as [| t rest]; [done |]. by apply Forall_cons in Hd as [_ ?].
  - by constructor.
Qed.

Lemma steps_names l dir : Forall entry_name dir -> Forall (fun c => no_char "/" c = true) l -> Forall entry_name (foldl step dir l).
Proof.
  revert dir. induction l as [| c l IH]; intros dir Hd Hl; [done |]. apply Forall_cons in Hl as [Hc Hl]. cbn [foldl]. apply IH; [by apply step_names | done].
Qed.

Lemma leads_names dir p : Forall entry_name dir -> Forall entry_name (leads dir p).
Proof. intros Hd. apply steps_names; [done | apply split_on_pieces]. Qed.

Lemma pushes_steps l dir : Forall entry_name dir -> Forall (fun c => no_char "/" c = true) l -> foldl (push true) dir l = foldl step dir l.
Proof.
  revert dir. induction l as [| c l IH]; intros dir Hd Hl; [done |]. apply Forall_cons in Hl as [Hc Hl]. cbn [foldl].
  rewrite push_step by done. apply IH; [by apply step_names | done].
Qed.

Lemma Clean_rooted p : rooted p = true -> Clean p = path_text (leads [] p).
Proof. intros Hr. unfold Clean, path_text, leads. rewrite Hr. rewrite pushes_steps; [done | constructor | apply split_on_pieces]. Qed.

Lemma entry_step dir c : entry_name c -> step dir c = c :: dir.
Proof. intros (H1 & H2 & H3 & _). unfold step. by rewrite !(proj2 (String.eqb_neq _ _)) by done. Qed.

Lemma leads_entries l dir : Forall entry_name l -> foldl step dir l = (rev l ++ dir)%list.
Proof.
  revert dir. induction l as [| c l IH]; intros dir Hl; [done |]. apply Forall_cons in Hl as [Hc Hl]. cbn [foldl rev].
  rewrite entry_step, IH by done. by rewrite <- app_assoc.
Qed.

Lemma entries_split l : l <> [] -> Forall entry_name l -> split_on "/" (join "/" l) = l.
Proof. intros Hn Hl. apply split_on_join; [done |]. eapply Forall_impl; [exact Hl |]. by intros c (_ & _ & _ & ?). Qed.

Lemma leads_text names : Forall entry_name names -> leads [] (path_text names) = names.
Proof.
  intros Hn. unfold leads, path_text. change ("/" ++ ?x) with ("" ++ String "/" x). rewrite split_on_app by done. cbn [foldl].
  destruct names as [| c names]; [done |]. assert (Forall entry_name (rev (c :: names))) as Hr by (by apply Forall_rev).
  rewrite entries_split; [| cbn; by destruct (rev names) | done]. rewrite leads_entries by done. by rewrite rev_involutive, app_nil_r.
Qed.

Lemma path_text_inj a b : Forall entry_name a -> Forall entry_name b -> path_text a = path_text b -> a = b.
Proof. intros Ha Hb E. by rewrite <- (leads_text a), <- (leads_text b), E. Qed.

Lemma rooted_text names : rooted (path_text names) = true.
Proof. apply has_prefix_app. Qed.

Lemma rooted_app d p : rooted d = true -> rooted (d ++ p) = true.
Proof. intros (t & ->)%has_prefix_spec. rewrite string_app_assoc. apply has_prefix_app. Qed.

Lemma split_app a b : split_on "/" (a ++ String "/" b) = (split_on "/" a ++ split_on "/" b)%list.
Proof.
  induction a as [| c a IH]; [done |]. change (String c a ++ String "/" b) with (String c (a ++ String "/" b)). cbn [split_on].
  rewrite IH. destruct (Ascii.eqb c "/"); [done |].
  destruct (split_on "/" a) as [| x l] eqn:E; [by apply split_on_nonempty in E | done].
Qed.

Lemma leads_app dir a b : leads dir (a ++ "/" ++ b) = leads (leads dir a) b.
Proof. unfold leads. change ("/" ++ b) with (String "/" b). rewrite split_app. apply foldl_app. Qed.

(** A normalised path is rooted, and made of names of entries only: it is the text of the place. *)
Lemma normalized_text d p : cwd = Some d -> rooted d = true -> p <> "" -> normalizeBlPath p = path_text (place d p).
Proof.
  intros Hc Hd Hp. unfold normalizeBlPath, place. rewrite (proj2 (String.eqb_neq p "")) by done. cbv zeta. fold (expansion p). set (e := expansion p).
  assert (e <> "") as He.
  { unfold e, expansion. destruct (expandPath p) as [x |]; [| done]. by destruct (String.eqb_spec x ""). }
  assert (forall x, rooted x = true -> Clean (Clean x) = path_text (leads [] x)) as Hcc.
  { intros x Hx. rewrite (Clean_rooted x Hx), Clean_rooted by apply rooted_text. f_equal. apply leads_text, leads_names. constructor. }
  unfold Abs. destruct (rooted e) eqn:Er; [by apply Hcc |]. rewrite Hc. cbn [fmap option_fmap option_map default from_option id].
  unfold Join. assert (d <> "") as Hd' by (by intros ->).
  rewrite filter_cons_True, filter_cons_True by done. cbn [filter list_filter]. change (join "/" [d; e]) with (d ++ "/" ++ e).
  rewrite Hcc by (by apply rooted_app). by rewrite leads_app.
Qed.

Lemma place_names d p : Forall entry_name (place d p).
Proof. unfold place. destruct (rooted (expansion p)); repeat apply leads_names; constructor. Qed.

Lemma same_path_iff d p q : cwd = Some d -> rooted d = true -> p <> "" -> q <> "" ->
  normalizeBlPath p = normalizeBlPath q <-> place d p = place d q.
Proof.
  intros Hc Hd Hp Hq. rewrite !(normalized_text d) by done. split; [| by intros ->]. apply path_text_inj; apply place_names.
Qed.

(** Two spellings of the path of a bypass list are taken for the same file exactly when they lead to the same
    place in the tree from the working directory, after the variables and the home directory are put in: whatever
    dots, doubled slashes and detours they have. *)
Theorem same_path d p q : cwd = Some d -> rooted d = true -> p <> "" -> q <> "" ->
  normalizeBlPath p = normalizeBlPath q <-> place d p = place d q.
Proof. apply same_path_iff. Qed.
End paths.

(** ** Examples *)

Definition example_env (name : string) : string :=
  if String.eqb name "HOME" then "/home/u" else if String.eqb name "D" then "lists/" else "".

Example spellings : normalizeBlPath example_env (Some "/home/u/work") <$>
    ["../lists//./bl.json"; "~/lists/bl.json"; "/home/u/x/../lists/bl.json"; "$HOME/${D}bl.json"; "bl.json"; "/../a"] =
  ["/home/u/lists/bl.json"; "/home/u/lists/bl.json"; "/home/u/lists/bl.json"; "/home/u/lists/bl.json"; "/home/u/work/bl.json"; "/a"].
Proof. by vm_compute. Qed.

(** Behind a tilde no variable is expanded, and the home directory of another user is not known. *)
Example tilde_limits : expandPath example_env "~/$D/bl.json" = Some "/home/u/$D/bl.json" /\ expandPath example_env "~bob/bl.json" = Some "/home/u/bob/bl.json".
Proof. by vm_compute. Qed.

Example shell_names : ExpandEnv example_env "a$D-${D}x$$y${}z$ ${D" = "alists/-lists/xyz$ D".
Proof. by vm_compute. Qed.

Lemma same_path_witness :
  normalizeBlPath example_env (Some "/home/u/work") "../lists/bl.json" = normalizeBlPath example_env (Some "/home/u/work") "~/lists/bl.json" <->
  place example_env "/home/u/work" "../lists/bl.json" = place example_env "/home/u/work" "~/lists/bl.json".
Proof. exact (same_path example_env (Some "/home/u/work") "/home/u/work" "../lists/bl.json" "~/lists/bl.json" eq_refl eq_refl ltac:(done) ltac:(done)). Defined.
