(* ===== verification/BlCommand.v ===== *)
(** * The bl command (commands.go: bl add, remove, find, list, init, load, unload).

    The command works on the list of a running daemon (Running.v) or on one that is named: it finds the file
    (Paths.v), edits it (BlFiles.v) and tells the daemon over its control socket (Control.v).  The files, their
    times and the daemons are looked at once; [ask] is the reply of a daemon, [iface_up] whether one of the
    interfaces of the client exists. *)

From S2P Require Import Prelude GoStrings Chars Json Sorting Url WgParse WgConfig Paths Flags Tunnel Running Subscription Control BlFiles.
From S2P Require Commands.
From Stdlib Require Import ZArith Lia String Ascii.
From stdpp Require Import base list strings gmap.
Open Scope string_scope.
Open Scope Z_scope.

Section bl.
Context `{Unicode} (version : string) (ToUnicode : string -> option string).
Context (getenv : string -> string) (cwd : option string).
Context (visit : gmap string ProfileDetails -> list (string * ProfileDetails)).
Context (sys : system) (iface_up : bool) (files : string -> bl_file) (mtime : string -> option Z) (state_mtime : string -> Z).
Context (ask : string -> string -> option string).

Abbreviation details := (getRunningProfileDetails sys).
Abbreviation normalize := (normalizeBlPath getenv cwd).
Abbreviation expand_path := (expandPath getenv).

(** ** Changes that are not applied *)

Definition isBlFilePending (blFile : string) (appliedMtime : Z) : bool :=
  if String.eqb blFile "" || (appliedMtime <=? 0) then false
  else match mtime (normalize blFile) with Some t => appliedMtime <? t | None => false end.

Definition isBlPendingForProfile (profile : string) (d : ProfileDetails) : bool :=
  if String.eqb (BlackListFile d) "" then false
  else isBlFilePending (BlackListFile d) (if 0 <? BlackListMtime d then BlackListMtime d else state_mtime profile).

(** The profile whose daemon uses the file. *)
Definition uses_file (target : string) (e : string * ProfileDetails) : bool :=
  negb (String.eqb (fst e) "autoswitch") && String.eqb (normalize (BlackListFile (snd e))) target.

Definition blProfileForFile (file : string) : option (string * ProfileDetails) :=
  let target := normalize file in
  if String.eqb file "" || String.eqb target "" then None else find (uses_file target) (visit details).

(** ** Telling the daemon *)

Inductive reload_end := NoInterface | NoTarget (e : bl_error) | NoHome | Told (socket target mode message : string) (reply : reload_reply).

Definition sendBlReloadCommand (explicitProfile abspath : string) : reload_end :=
  if String.eqb explicitProfile "" && negb iface_up then NoInterface
  else
    match resolveBlSocket visit sys explicitProfile with
    | Err e => NoTarget e
    | Ok (sock, target, mode) =>
        let message := reload_message abspath in
        Told sock target mode message (classify (match ask sock message with Some r => first_line r | None => None end))
    end.

Definition reloadBlFile (file explicitProfile : string) : reload_end :=
  match expand_path file with
  | None => NoHome
  | Some expanded => sendBlReloadCommand explicitProfile (default expanded (Abs cwd expanded))
  end.

Definition blUnload (explicitProfile : string) : reload_end := sendBlReloadCommand explicitProfile "".

(** [loadBypassRoutesFile], with the field under the name that the client writes. *)
Definition loadBypassRoutesFile (path : string) : option (list string) :=
  match expand_path path with
  | None => None
  | Some p =>
      match readBypassFile p (files p) with
      | Ok (Object m) => match m !! routes_key with Some v => loadBypassRoutes v | None => None end
      | _ => None
      end
  end.

(** ** The subcommands *)

Inductive bl_outcome :=
| BlUsage | BlLine (e : parse_error) | NoListPath | NoListTarget | UnloadArguments | ProfileAndFile | NoListOf (profile : string)
| ListArguments | NoDomains | UnknownBl (sub : string) | HomeUnknown | InitExists
| NotALoadable | Reloaded (e : reload_end)
| BlCancelled | Edited (path : string) (r : bl_result) (told : option reload_end)
| ListUnreadable (e : go_error) | Listed (n : nat) (text : string) (pending : option string) | BadQuery (d : string)
| Found (l : list (string * list string * list string)).

(** The file is looked for under the path as it is typed, and written where the path leads. *)
Definition blInitCmd (args : list string) : bl_outcome :=
  let path := match args with p :: _ => p | [] => "qwdtt_bl.json" end in
  match files path with
  | Missing => match expand_path path with Some p => Edited p (blInit version p) None | None => HomeUnknown end
  | _ => InitExists
  end.

Definition blLoad (path explicitProfile : string) : bl_outcome :=
  match loadBypassRoutesFile path with
  | None => NotALoadable
  | Some _ => Reloaded (reloadBlFile path explicitProfile)
  end.

(** A successful edit is followed by the reload that was asked for. *)
Definition edited (file profile : string) (reload : bool) (edit : string -> bl_file -> bl_result) : bl_outcome :=
  match expand_path file with
  | None => HomeUnknown
  | Some p =>
      let r := edit p (files p) in
      Edited p r (match r with Written _ _ => if reload then Some (reloadBlFile file profile) else None | _ => None end)
  end.

Definition blAddCmd (domains : list string) (file : string) (reload : bool) (profile : string) : bl_outcome :=
  match bad_domain domains with Some d => BadQuery d | None => edited file profile reload (blAdd version domains) end.

Definition blRemoveCmd (domains : list string) (file : string) (assumeYes reload : bool) (profile answer : string) : bl_outcome :=
  match bad_domain domains with
  | Some d => BadQuery d
  | None =>
      if negb (assumeYes || Commands.agrees answer) then BlCancelled else edited file profile reload (blRemove version domains)
  end.

Definition blFindCmd (queries : list string) (file : string) : bl_outcome :=
  match bad_domain queries with
  | Some d => BadQuery d
  | None =>
      match expand_path file with
      | None => HomeUnknown
      | Some p =>
          match loadBypassForEdit p (files p) with
          | Err e => ListUnreadable e
          | Ok (_, existing, _) => Found (omap (fun q => (fun '(exact, partial) => (trim_space q, exact, partial)) <$> blFind ToUnicode q existing) queries)
          end
      end
  end.

(** The listing: the entries in columns, marked when some are not applied yet, and then those removed from the file
    only; the line between them is left out. *)
Definition list_text (found : option (string * ProfileDetails)) (domains : list string) : string :=
  let applied := match found with Some (_, d) => BlackListDomains d | None => [] end in
  let pureFile := match found with Some (_, d) => String.eqb (BlackList d) "" | None => false end in
  let tags := tagged ToUnicode applied domains in
  let removed := removed_entries ToUnicode pureFile applied domains in
  let hasPending := existsb (fun t => String.eqb (Prefix t) "[!]") tags || (0 <? length removed)%nat in
  if hasPending && (0 <? length applied)%nat then
    formatTaggedDomains tags "" "  " 3 ++
    (if (0 <? length removed)%nat then
       formatTaggedDomains ((fun d => {| Prefix := "[-]"; Domain := displayDomain ToUnicode d |}) <$> removed) "    " "  " 3
     else "")
  else formatDomainsInColumns (Domain <$> tags) "" "  " 3.

Definition blList (file : string) : bl_outcome :=
  match expand_path file with
  | None => HomeUnknown
  | Some p =>
      match loadBypassForEdit p (files p) with
      | Err e => ListUnreadable e
      | Ok (_, domains, _) =>
          if (length domains =? 0)%nat then Listed 0 "" None
          else
            let found := blProfileForFile file in
            Listed (length domains) (list_text found domains)
              (match found with Some (prof, d) => if isBlPendingForProfile prof d then Some prof else None | None => None end)
      end
  end.

(** ** Dispatch *)

Definition bl_flags : list (string * kind) :=
  [("file", StringFlag); ("f", StringFlag); ("y", BoolFlag); ("profile", StringFlag); ("p", StringFlag); ("reload", BoolFlag); ("r", BoolFlag)].

(** The file of the subcommands that work on one, from -profile, -file or what runs. *)
Definition bl_file_for (profile file : string) : result bl_outcome string :=
  if negb (String.eqb profile "") then
    if negb (String.eqb file "") then Err ProfileAndFile
    else let f := getBlFileForProfile visit sys profile in if String.eqb f "" then Err (NoListOf profile) else Ok f
  else
    let f := if String.eqb file "" then getCurrentBlFile visit sys else file in
    if String.eqb f "" then Err BlUsage else Ok f.

Definition bl_load (args : list string) (file profile : string) : bl_outcome :=
  let arg := match args with a :: _ => a | [] => "" end in
  if String.eqb arg "" && String.eqb file "" then NoListPath
  else
    let path := if String.eqb arg "" then file else arg in
    if String.eqb profile "" && negb (is_ok (resolveBlSocket visit sys "")) then NoListTarget else blLoad path profile.

Definition bl_unload (args : list string) (profile : string) : bl_outcome :=
  match args with
  | [] => if String.eqb profile "" && String.eqb (getCurrentBlFile visit sys) "" then NoListTarget else Reloaded (blUnload profile)
  | _ => UnloadArguments
  end.

Definition bl_on_file (sub : string) (args : list string) (file profile : string) (yes reload : bool) (answer : string) : bl_outcome :=
  let with_domains (r : bl_outcome) := match args with [] => NoDomains | _ => r end in
  if String.eqb sub "list" || String.eqb sub "ls" then match args with [] => blList file | _ => ListArguments end
  else if String.eqb sub "add" then with_domains (blAddCmd args file reload profile)
  else if String.eqb sub "remove" || String.eqb sub "rm" then with_domains (blRemoveCmd args file yes reload profile answer)
  else if String.eqb sub "find" || String.eqb sub "fd" then with_domains (blFindCmd args file)
  else UnknownBl sub.

Definition blCmd (line : list string) (answer : string) : bl_outcome :=
  match line with
  | [] => BlUsage
  | _ =>
      match command_line bl_flags line with
      | Err e => BlLine e
      | Ok (l, args) =>
          let file := last_set ["file"; "f"] "" l in
          let profile := last_set ["profile"; "p"] "" l in
          let '(sub, args) := match args with s :: rest => (s, rest) | [] => ("", []) end in
          if String.eqb sub "init" then blInitCmd args
          else if String.eqb sub "load" then bl_load args file profile
          else if String.eqb sub "unload" then bl_unload args profile
          else
            match bl_file_for profile file with
            | Err e => e
            | Ok f => bl_on_file sub args f profile (switch "y" l) (switches ["reload"; "r"] l) answer
            end
      end
  end.
End bl.

(** ** The profile of a file *)

Section found.
Context (getenv : string -> string) (dir : string) (Hdir : rooted dir = true).
Context (visit : gmap string ProfileDetails -> list (string * ProfileDetails)) (Hvisit : forall m, visit m ≡ₚ map_to_list m).
Context (sys : system).

Abbreviation details := (getRunningProfileDetails sys).
Abbreviation place := (Paths.place getenv dir).

(** The running profiles with their list at the same place as the file. *)
Definition uses_list (file p : string) (d : ProfileDetails) : Prop :=
  details !! p = Some d /\ p <> "autoswitch" /\ BlackListFile d <> "" /\ place (BlackListFile d) = place file.

Lemma uses_file_place file e : file <> "" -> e ∈ visit details ->
  uses_file getenv (Some dir) (normalizeBlPath getenv (Some dir) file) e = true <-> uses_list file (fst e) (snd e).
Proof.
  intros Hf He. destruct e as [p d]. apply (visit_elem visit Hvisit) in He. unfold uses_file, uses_list. cbn [fst snd].
  rewrite andb_true_iff, negb_true_iff, String.eqb_neq, String.eqb_eq. destruct (decide (BlackListFile d = "")) as [E | E].
  - rewrite E. split; [| by intros (_ & _ & ? & _)]. intros [_ Hn].
    rewrite (normalized_text getenv (Some dir) dir file) in Hn by done. pose proof (rooted_text (place file)) as Hr. by rewrite <- Hn in Hr.
  - rewrite same_path_iff by done. tauto.
Qed.

(** A bypass list is attributed to a running profile exactly when one uses it: the profile that is found, never the
    autoswitch daemon, has its list at the place in the tree where the path leads, and when none is found no
    running profile has. *)
Theorem bl_profile_found file : file <> "" ->
  match blProfileForFile getenv (Some dir) visit sys file with
  | Some (p, d) => uses_list file p d
  | None => forall p d, ~ uses_list file p d
  end.
Proof.
  intros Hf. unfold blProfileForFile. rewrite (proj2 (String.eqb_neq file "")) by done.
  assert (String.eqb (normalizeBlPath getenv (Some dir) file) "" = false) as ->.
  { apply String.eqb_neq. rewrite (normalized_text getenv (Some dir) dir) by done. intros E. pose proof (rooted_text (place file)) as Hr. by rewrite E in Hr. }
  cbn [orb]. destruct (find _ _) as [[p d] |] eqn:E.
  - apply find_some in E as [Hin Hu]. apply list_elem_of_In in Hin. by apply (uses_file_place file (p, d) Hf Hin).
  - intros p d Hu. pose proof (find_none _ _ E (p, d)) as Hn. assert ((p, d) ∈ visit details) as Hin by (apply (visit_elem visit Hvisit), Hu).
    rewrite <- list_elem_of_In in Hn. specialize (Hn Hin). apply (uses_file_place file (p, d) Hf Hin) in Hu. congruence.
Qed.

End found.

(** ** The daemon that is told uses the file that was edited *)

Section told.
Context `{Unicode} (version : string) (ToUnicode : string -> option string).
Context (getenv : string -> string) (dir : string).
Context (visit : gmap string ProfileDetails -> list (string * ProfileDetails)) (Hvisit : forall m, visit m ≡ₚ map_to_list m).
Context (sys : system) (iface_up : bool) (files : string -> bl_file) (mtime : string -> option Z) (state_mtime : string -> Z).
Context (ask : string -> string -> option string).

Abbreviation details := (getRunningProfileDetails sys).

Lemma resolve_target explicit sock target md : explicit <> "" -> resolveBlSocket visit sys explicit = Ok (sock, target, md) -> target = explicit.
Proof.
  intros He. unfold resolveBlSocket. rewrite (proj2 (String.eqb_neq _ _)) by done. cbv zeta.
  destruct (_ !! explicit) as [d |]; [| done]. destruct (negb _); [done |].
  match goal with |- context [socket_there sys ?s] => destruct (socket_there sys s) end; [by intros [= _ <- _] | done].
Qed.

(** What is told after an edit. *)
Definition told_about (f path sock target md message : string) (profile : string) : Prop :=
  expandPath getenv f = Some path /\ resolveBlSocket visit sys profile = Ok (sock, target, md) /\
  message = reload_message (default path (Abs (Some dir) path)).

Lemma edited_told f profile reload edit path r sock target md message reply :
  edited getenv (Some dir) visit sys iface_up files ask f profile reload edit = Edited path r (Some (Told sock target md message reply)) ->
  told_about f path sock target md message profile.
Proof.
  unfold edited, told_about. destruct (expandPath getenv f) as [p |] eqn:Ep; [| done]. cbv zeta.
  destruct (edit p (files p)); try done. destruct reload; [| done]. unfold reloadBlFile. rewrite Ep. unfold sendBlReloadCommand.
  destruct (_ && _); [done |]. destruct (resolveBlSocket visit sys profile) as [[[s t] m'] | e]; [| done]. by intros [= <- _ <- <- <- <- _].
Qed.

Lemma on_file_told sub args f profile yes reload answer path r sock target md message reply :
  bl_on_file version ToUnicode getenv (Some dir) visit sys iface_up files mtime state_mtime ask sub args f profile yes reload answer =
    Edited path r (Some (Told sock target md message reply)) ->
  told_about f path sock target md message profile.
Proof.
  unfold bl_on_file. destruct (_ || _).
  { destruct args; [| done]. unfold blList. destruct (expandPath _ _); [| done]. destruct (loadBypassForEdit _ _) as [[[? ds] ?] |]; [| done]. by destruct (length ds =? 0)%nat. }
  destruct (String.eqb sub "add").
  { destruct args; [done |]. unfold blAddCmd. destruct (bad_domain _); [done | apply edited_told]. }
  destruct (_ || _).
  { destruct args; [done |]. unfold blRemoveCmd. destruct (bad_domain _); [done |]. destruct (negb _); [done | apply edited_told]. }
  destruct (_ || _); [| done]. destruct args; [done |]. unfold blFindCmd. destruct (bad_domain _); [done |].
  destruct (expandPath _ _); [| done]. by destruct (loadBypassForEdit _ _) as [[[] ?] |].
Qed.

Lemma init_tells_none args path r told : blInitCmd version getenv files args <> Edited path r (Some told).
Proof. unfold blInitCmd. destruct (files _); [| done | done]. by destruct (expandPath _ _). Qed.

Lemma load_edits_none args file profile path r told :
  bl_load getenv (Some dir) visit sys iface_up files ask args file profile <> Edited path r told.
Proof.
  unfold bl_load, blLoad. cbv zeta. destruct (_ && _); [done |]. destruct (_ && _); [done |].
  match goal with |- context [loadBypassRoutesFile ?a ?b ?c] => by destruct (loadBypassRoutesFile a b c) end.
Qed.

Lemma unload_edits_none args profile path r told : bl_unload visit sys iface_up ask args profile <> Edited path r told.
Proof. unfold bl_unload. destruct args; [| done]. by destruct (_ && _). Qed.

(** When a command without -file has changed a bypass list and told a daemon about it, the daemon's profile uses
    that very file, and the message names it by its absolute path: with one profile in a kernel mode, and with
    -profile when that profile has a list of its own. *)
Theorem bl_edit_told line answer l args path r sock target md message reply :
  one_kernel sys -> autoswitch_current sys <> "autoswitch" ->
  command_line bl_flags line = Ok (l, args) -> last_set ["file"; "f"] "" l = "" ->
  (last_set ["profile"; "p"] "" l <> "" -> forall d, details !! last_set ["profile"; "p"] "" l = Some d -> BlackListFile d <> "") ->
  blCmd version ToUnicode getenv (Some dir) visit sys iface_up files mtime state_mtime ask line answer =
    Edited path r (Some (Told sock target md message reply)) ->
  exists d, details !! target = Some d /\ expandPath getenv (BlackListFile d) = Some path /\ socket_there sys sock = true /\
    message = reload_message (default path (Abs (Some dir) path)).
Proof.
  intros Hone Hcur El Ef Hown. unfold blCmd. destruct line as [| a line]; [done |]. rewrite El, Ef. set (profile := last_set ["profile"; "p"] "" l) in *. cbv zeta.
  destruct (match args with s :: rest => (s, rest) | [] => ("", []) end) as [sub rest].
  destruct (String.eqb sub "init"); [by intros ?%init_tells_none |].
  destruct (String.eqb sub "load"); [by intros ?%load_edits_none |].
  destruct (String.eqb sub "unload"); [by intros ?%unload_edits_none |].
  unfold bl_file_for. destruct (String.eqb_spec profile "") as [Ep | Ep]; cbn [negb String.eqb].
  - destruct (String.eqb_spec (getCurrentBlFile visit sys) "") as [E | E]; [done |].
    intros (Hp & Hr & Hm)%on_file_told. rewrite Ep in Hr. unfold resolveBlSocket in Hr. cbn [String.eqb] in Hr.
    destruct (kernel_target visit sys _) as [[s t] |] eqn:Et; [| done].
    destruct (target_choice visit Hvisit sys s t Hone Hcur Et) as (d & Hd & _ & Hb).
    assert (details !! t = Some d) as Ht.
    { unfold kernel_entry in Hd. destruct (_ !! t) as [e |]; [| done]. by destruct (kernel_mode e). }
    rewrite Ht in Hr. destruct (negb _); [done |]. destruct (socket_there sys s) eqn:Es; [| done]. injection Hr as <- <- <-. exists d. by rewrite <- Hb.
  - destruct (String.eqb_spec (getBlFileForProfile visit sys profile) "") as [E | E]; [done |].
    intros (Hp & Hr & Hm)%on_file_told. pose proof (resolve_target profile sock target md Ep Hr) as ->.
    unfold resolveBlSocket in Hr. rewrite (proj2 (String.eqb_neq _ _)) in Hr by done. cbv zeta in Hr.
    destruct (details !! profile) as [d |] eqn:Ed; [| done]. destruct (negb _); [done |].
    match type of Hr with context [socket_there sys ?s] => destruct (socket_there sys s) eqn:Es end; [| done]. injection Hr as <- <-.
    exists d. split; [done |]. split; [| done]. specialize (Hown Ep d eq_refl).
    unfold getBlFileForProfile in Hp. rewrite (proj2 (String.eqb_neq profile "")), Ed, (proj2 (String.eqb_neq (BlackListFile d) "")) in Hp by done. done.
Qed.
End told.

(** ** Examples *)

Section example.
#[local] Instance example_unicode : Unicode := fun s => s.

Definition list_doc : doc := <["format" := JStr "qwdtt-bypass"]> {[routes_key := JStr ("ya.ru" ++ String nl "vk.com")]}.

Definition bl_files (p : string) : bl_file :=
  if existsb (String.eqb p) ["/home/u/nl.json"; "/home/u/old.json"; "/etc/bl.json"] then Document list_doc else Missing.

Definition ex_bl (line : list string) : bl_outcome :=
  blCmd "1.0" Some example_env (Some "/home/u") map_to_list (example_system "nl") true bl_files (fun _ => Some 9) (fun _ => 0)
    (fun _ _ => Some (line_out "RELOAD_OK|done")) line "y".

Definition edited_routes (o : bl_outcome) : option (string * list string) :=
  match o with Edited p (Written m _) _ => Some (p, (doc_routes m).1) | _ => None end.

Example added_and_told : edited_routes (ex_bl ["add"; "mail.ru"; "-r"]) = Some ("/home/u/nl.json", ["ya.ru"; "vk.com"; "mail.ru"]) /\
  match ex_bl ["add"; "mail.ru"; "-r"] with Edited _ _ told => told | _ => None end =
    Some (Told "autoswitch" "nl" "raw" (reload_message "/home/u/nl.json") (ReloadOk "done")).
Proof. by vm_compute. Qed.

(** A profile without a list of its own is given that of another. *)
Example other_list_edited : edited_routes (ex_bl ["rm"; "-p"; "home"; "ya.ru"; "-y"]) = Some ("/etc/bl.json", ["vk.com"]).
Proof. by vm_compute. Qed.

(** A list that is already there is overwritten when its path has to be expanded. *)
Example init_overwrites : ex_bl ["init"; "/home/u/old.json"] = InitExists /\ edited_routes (ex_bl ["init"; "$HOME/old.json"]) = Some ("/home/u/old.json", []).
Proof. by vm_compute. Qed.

(** Nothing of the file is applied yet, and the one domain that is was removed from it. *)
Example pending_shown : ex_bl ["ls"] = Listed 2 ("[!] vk.com  ya.ru" ++ String nl "    [-] a" ++ String nl "") (Some "nl").
Proof. by vm_compute. Qed.

Lemma bl_edit_told_witness : exists d, getRunningProfileDetails (example_system "nl") !! "nl" = Some d /\
  expandPath example_env (BlackListFile d) = Some "/home/u/nl.json".
Proof.
  assert (exists m, ex_bl ["add"; "mail.ru"; "-r"] = Edited "/home/u/nl.json" (Written m ["mail.ru"])
    (Some (Told "autoswitch" "nl" "raw" (reload_message "/home/u/nl.json") (ReloadOk "done")))) as [m E] by (eexists; by vm_compute).
  destruct (bl_edit_told "1.0" Some example_env "/home/u" map_to_list (fun m => reflexivity _) (example_system "nl") true bl_files (fun _ => Some 9) (fun _ => 0)
    (fun _ _ => Some (line_out "RELOAD_OK|done")) ["add"; "mail.ru"; "-r"] "y" [("r", "true")] ["add"; "mail.ru"] "/home/u/nl.json" (Written m ["mail.ru"])
    "autoswitch" "nl" "raw" (reload_message "/home/u/nl.json") (ReloadOk "done") example_one_kernel ltac:(done) ltac:(by vm_compute) ltac:(by vm_compute)
    ltac:(intros Hn; exfalso; by apply Hn) E) as (d & Hd & Hp & _).
  exists d. split; [exact Hd | exact Hp].
Defined.

Lemma bl_profile_found_witness :
  match blProfileForFile example_env (Some "/home/u") map_to_list (example_system "nl") "../u/./nl.json" with
  | Some (p, d) => uses_list example_env "/home/u" (example_system "nl") "../u/./nl.json" p d
  | None => False
  end.
Proof.
  pose proof (bl_profile_found example_env "/home/u" eq_refl map_to_list (fun m => reflexivity _) (example_system "nl") "../u/./nl.json" ltac:(done)) as Hf.
  destruct (blProfileForFile _ _ _ _ _) as [[p d] |] eqn:E; [exact Hf | by vm_compute in E].
Defined.
End example.
