(* ===== verification/Import.v ===== *)
(** * The import command (commands.go, [importCmd]): finding the entries in a file, the dry run, the import.

    A file is missing, a document, or a ZIP archive, which starts with its magic bytes; what [json.Unmarshal] makes
    of a document is given with it: [None] is an error.  The loop that saves is [import_all] of Subscription.v. *)

From S2P Require Import Prelude GoStrings Chars Sorting Json Links Effects Paths Flags Profiles Subscription.
From S2P Require BlFiles.
From Stdlib Require Import ZArith Lia String Ascii.
From stdpp Require Import base list strings gmap.
Open Scope string_scope.
Open Scope Z_scope.

(** ** The file *)

Abbreviation import_doc := (option (list importProfile)).

(** An entry of an archive; [z_data] is [None] when it cannot be opened or read. *)
Record zip_entry := { z_name : string; z_dir : bool; z_data : option import_doc }.
Inductive import_file := NoFile | DocFile (d : import_doc) | ZipFile (entries : list zip_entry).

Inductive import_error := NoHomeDir | CannotOpen | NotADocument | NotAnArchive | NoDocuments.

Section load.
Context `{Unicode}.

Definition is_document (e : zip_entry) : bool := negb (z_dir e) && has_suffix ".json" (to_lower (BlFiles.base_name (z_name e))).

(** The entries of all documents of an archive; those that cannot be read or decoded are passed over. *)
Fixpoint zip_profiles (entries : list zip_entry) : list importProfile :=
  match entries with
  | [] => []
  | e :: rest =>
      (if is_document e then match z_data e with Some (Some l) => l | _ => [] end else []) ++ zip_profiles rest
  end%list.

Definition loadImportFromZip (f : import_file) : result import_error (list importProfile) :=
  match f with
  | ZipFile entries => if existsb is_document entries then Ok (zip_profiles entries) else Err NoDocuments
  | NoFile => Err CannotOpen
  | DocFile _ => Err NotAnArchive
  end.

Definition loadImportFromJSONFile (f : import_file) : result import_error (list importProfile) :=
  match f with DocFile (Some l) => Ok l | NoFile => Err CannotOpen | _ => Err NotADocument end.

Definition loadImportEntries (getenv : string -> string) (files : string -> import_file) (path : string) : result import_error (list importProfile) :=
  match expandPath getenv path with
  | None => Err NoHomeDir
  | Some p =>
      let lower := to_lower p in
      if has_suffix ".zip" lower then loadImportFromZip (files p)
      else if has_suffix ".json" lower then loadImportFromJSONFile (files p)
      else match files p with
           | NoFile => Err CannotOpen
           | ZipFile _ => loadImportFromZip (files p)
           | DocFile _ => loadImportFromJSONFile (files p)
           end
  end.
End load.

(** ** The command *)

Section import.
Context `{Unicode} `{Disk} (getenv : string -> string) (files : string -> import_file).

Record dryRunRow := { r_name : string; r_peer : string; r_hashes : string; r_listen : string; r_groups : string }.

(** [%v] of a list of strings. *)
Definition fmt_list (l : list string) : string := "[" ++ GoStrings.join " " l ++ "]".

Definition dry_row (name : string) (p : ProfileData) : dryRunRow :=
  {| r_name := name; r_peer := PeerAddr p; r_hashes := itoa (Z.of_nat (length (Hashes p))); r_listen := Listen p; r_groups := fmt_list (Groups p) |}.

(** The loop of a dry run: the rows and the number of entries skipped. *)
Fixpoint dry_all (entries : list importProfile) : Files (list dryRunRow * nat) :=
  match entries with
  | [] => mret ([], 0%nat)
  | e :: rest =>
      let name := normalizeImportName (i_Name e) in
      if String.eqb name "" then r ← dry_all rest; mret (fst r, S (snd r))
      else
        n ← gets size;
        c ← import_name (S n) name 0;
        match c with
        | None => mret ([], 0%nat)
        | Some final => r ← dry_all rest; mret (dry_row final (import_data e) :: fst r, snd r)
        end
  end.

Definition row_line (rows : list dryRunRow) (r : dryRunRow) : string :=
  let width f := BlFiles.max_len (f <$> rows) in
  "[dry-run] " ++ BlFiles.pad (width r_name) (r_name r) ++ "  peer=" ++ BlFiles.pad (width r_peer) (r_peer r) ++ "  hashes=" ++ r_hashes r ++
  "  listen=" ++ BlFiles.pad (width r_listen) (r_listen r) ++ "  groups=" ++ r_groups r ++ String (byte 10) "".
Definition printDryRun (rows : list dryRunRow) : string := GoStrings.join "" (row_line rows <$> rows).

Inductive import_end :=
| ImportLine (e : parse_error) | ImportUsage | NotLoaded (e : import_error) | NoEntries
| DryRun (text : string) (count : nat) | Imported (names : list string) (skipped : nat).

Definition import_flags : list (string * kind) := [("dry-run", BoolFlag)].

Definition importCmd (args : list string) : Files import_end :=
  match command_line import_flags args with
  | Err e => mret (ImportLine e)
  | Ok (l, names) =>
      let path := nth 0 names "" in
      if String.eqb path "" then mret ImportUsage
      else
        match loadImportEntries getenv files path with
        | Err e => mret (NotLoaded e)
        | Ok [] => mret NoEntries
        | Ok entries =>
            if switch "dry-run" l then r ← dry_all entries; mret (DryRun (printDryRun (fst r)) (length (fst r)))
            else r ← import_all entries; mret (Imported (fst r) (snd r))
        end
  end.
End import.

(** ** What an import does *)

Section imported.
Context `{Unicode} `{Disk} (Hwrite : forall m p f, can_write m p f = true).

Definition candidate_name (e : importProfile) : string := normalizeImportName (i_Name e).

(** The name that an entry gets among the files. *)
Definition name_for (name : string) (m : fs) : option string :=
  import_candidate name <$> first_free (import_candidate name) (S (size m)) 0 m.

Lemma import_name_reads f name c : reads (import_name f name c).
Proof. revert c. induction f as [| f IH]; intros c m; [done |]. cbn [import_name]. rewrite reads_run by apply load_reads. destruct (loadProfile _ m).1; [apply IH | done]. Qed.

Lemma name_for_total name m : Z.of_nat (size m) <= max_int -> exists final, name_for name m = Some final.
Proof.
  intros Hm. unfold name_for. pose proof (first_free_total (import_candidate name) (import_candidate_inj name) 0 m) as Hf.
  destruct (first_free _ _ 0 m) as [k |]; [by eexists |]. exfalso. apply Hf; [lia | lia | done].
Qed.

Lemma name_for_free name m final : name_for name m = Some final -> is_ok (loadProfile final m).1 = false.
Proof.
  unfold name_for. destruct (first_free _ _ 0 m) as [k |] eqn:E; [| done]. intros [= <-]. by apply first_free_spec in E.
Qed.

(** One entry of an import, and of a dry run. *)
Lemma import_cons e rest m final : candidate_name e <> "" -> name_for (candidate_name e) m = Some final ->
  import_all (e :: rest) m =
    (let '(saved, m1) := saveProfile final (import_data e) m in
     let '(r, m2) := import_all rest m1 in
     (match saved with Ok _ => (final :: fst r, snd r) | Err _ => (fst r, S (snd r)) end, m2)).
Proof.
  intros Hn Hf. cbn [import_all]. fold (candidate_name e). rewrite (proj2 (String.eqb_neq _ _)) by done.
  rewrite reads_run by done. cbn [gets fst]. rewrite reads_run by apply import_name_reads. rewrite import_name_value.
  fold (name_for (candidate_name e) m). rewrite Hf. rewrite run_bind. destruct (saveProfile final (import_data e) m) as [saved m1]. cbn [fst snd].
  rewrite run_bind. by destruct (import_all rest m1) as [r m2].
Qed.

Lemma import_skip e rest m : candidate_name e = "" ->
  import_all (e :: rest) m = (let '(r, m2) := import_all rest m in ((fst r, S (snd r)), m2)).
Proof. intros Hn. cbn [import_all]. fold (candidate_name e). rewrite Hn. cbn [String.eqb]. rewrite run_bind. by destruct (import_all rest m). Qed.

Lemma dry_cons e rest m final : candidate_name e <> "" -> name_for (candidate_name e) m = Some final ->
  dry_all (e :: rest) m = (let '(r, m2) := dry_all rest m in ((dry_row final (import_data e) :: fst r, snd r), m2)).
Proof.
  intros Hn Hf. cbn [dry_all]. fold (candidate_name e). rewrite (proj2 (String.eqb_neq _ _)) by done.
  rewrite reads_run by done. cbn [gets fst]. rewrite reads_run by apply import_name_reads. rewrite import_name_value.
  fold (name_for (candidate_name e) m). rewrite Hf. rewrite run_bind. by destruct (dry_all rest m).
Qed.

Lemma dry_skip e rest m : candidate_name e = "" ->
  dry_all (e :: rest) m = (let '(r, m2) := dry_all rest m in ((fst r, S (snd r)), m2)).
Proof. intros Hn. cbn [dry_all]. fold (candidate_name e). rewrite Hn. cbn [String.eqb]. rewrite run_bind. by destruct (dry_all rest m). Qed.

(** *** One save *)

Lemma write_size p f m : (size m <= size (write p f m).2 <= S (size m))%nat.
Proof.
  rewrite write_run by done. cbn [snd]. destruct (m !! p) as [g |] eqn:E.
  - rewrite map_size_insert_Some by (by eexists). lia.
  - rewrite map_size_insert_None by done. lia.
Qed.

Lemma device_size m : (size m <= size (getOrCreateDeviceID m).2 <= S (size m))%nat.
Proof.
  unfold getOrCreateDeviceID. rewrite reads_run by apply read_text_reads. destruct (_ =? 16)%nat; [cbn; lia |].
  rewrite !run_bind. cbn [gets fst snd]. apply write_size.
Qed.

Lemma save_size n p m : (size m <= size (saveProfile n p m).2 <= size m + 2)%nat.
Proof.
  unfold saveProfile. destruct (read_only n); [cbn; lia |]. rewrite !run_bind. cbn [snd mret State_ret].
  assert (size m <= size ((if String.eqb (DeviceID p) "" then getOrCreateDeviceID else mret (DeviceID p)) m).2 <= S (size m))%nat as Hd.
  { destruct (String.eqb _ _); [apply device_size | cbn; lia]. }
  match goal with |- context [write ?a ?b ?c] => pose proof (write_size a b c) end. lia.
Qed.

(** What a save does: a name of read-only profiles is refused, another holds the data and can be loaded. *)
Lemma save_import n e m :
  if read_only n then saveProfile n (import_data e) m = (Err ReadOnlyProfile, m)
  else exists id m1, saveProfile n (import_data e) m = (Ok tt, m1) /\
    m1 !! profilePath n = Some (ProfileFile (with_device id (import_data e))) /\ is_ok (loadProfile n m1).1 = true.
Proof.
  destruct (read_only n) eqn:Hr; [unfold saveProfile; by rewrite Hr |].
  destruct (saveProfile n (import_data e) m) as [r m1] eqn:E.
  assert (r = Ok tt) as ->.
  { apply (f_equal fst) in E. cbn [fst] in E. rewrite <- E. unfold saveProfile. by rewrite Hr, !run_bind, write_run. }
  pose proof (save_result n _ m m1 E) as Hs. exists (saved_id (import_data e) m), m1. split; [done |]. split; [exact Hs |].
  unfold loadProfile. rewrite reads_run by done. cbn [read gets fst]. rewrite Hs. unfold needs_link. cbn. by rewrite andb_false_r.
Qed.

Lemma loadable_other n k p m : is_ok (loadProfile n m).1 = true -> is_ok (loadProfile k m).1 = false ->
  is_ok (loadProfile n (saveProfile k p m).2).1 = true.
Proof.
  intros Hn Hk. assert (k <> n) as Hkn by congruence.
  rewrite (untouched_load n m) by (apply save_untouched; [done | by split]). done.
Qed.

(** *** What an import leaves *)

Definition import_left (entries : list importProfile) (m : fs) (names : list string) (skipped : nat) (m' : fs) : Prop :=
  (length names + skipped = length entries)%nat /\ NoDup names /\
  (forall n, n ∈ names -> is_ok (loadProfile n m).1 = false /\
     exists e id, e ∈ entries /\ m' !! profilePath n = Some (ProfileFile (with_device id (import_data e)))) /\
  (forall q, q <> DevicePath -> (forall n, n ∈ names -> q <> profilePath n) -> m' !! q = m !! q).

Lemma import_left_skip e entries m names skipped m' : import_left entries m names skipped m' -> import_left (e :: entries) m names (S skipped) m'.
Proof.
  intros (Hl & Hd & Hn & Ho). split; [cbn; lia |]. split; [done |]. split; [| done].
  intros n Hin. destruct (Hn n Hin) as (H1 & x & id & Hx & H2). split; [done |]. exists x, id. split; [by right | done].
Qed.

Lemma import_left_saved e entries final m m1 id names skipped m' :
  saveProfile final (import_data e) m = (Ok tt, m1) -> is_ok (loadProfile final m).1 = false ->
  m1 !! profilePath final = Some (ProfileFile (with_device id (import_data e))) -> is_ok (loadProfile final m1).1 = true ->
  import_left entries m1 names skipped m' -> import_left (e :: entries) m (final :: names) skipped m'.
Proof.
  intros Es Hfree Hm1 Hok (Hl & Hd & Hn & Ho).
  assert (final ∉ names) as Hfin by (intros Hin; destruct (Hn final Hin) as [H1 _]; congruence).
  assert (m1 = (saveProfile final (import_data e) m).2) as Em by (by rewrite Es).
  split; [cbn; lia |]. split; [by constructor |]. split.
  - intros n [-> | Hin]%elem_of_cons.
    + split; [done |]. exists e, id. split; [by left |]. rewrite <- Hm1. apply Ho; [apply profilePath_not_state |].
      intros k Hk E. apply profilePath_inj in E as <-. done.
    + destruct (Hn n Hin) as (H1 & x & id' & Hx & H2). split.
      * destruct (is_ok (loadProfile n m).1) eqn:E; [| done]. by rewrite <- H1, Em, loadable_other.
      * exists x, id'. split; [by right | done].
  - intros q Hq Hno. rewrite Ho; [| done | intros n Hin; apply Hno; by right].
    rewrite Em. apply save_other; [apply Hno; by left | done].
Qed.

Lemma import_leaves entries m : Z.of_nat (size m + 2 * length entries) <= max_int ->
  import_left entries m (import_all entries m).1.1 (import_all entries m).1.2 (import_all entries m).2.
Proof.
  revert m. induction entries as [| e entries IH]; intros m Hm.
  { split; [done |]. split; [constructor |]. split; [by intros n ?%elem_of_nil | done]. }
  cbn [length] in Hm. destruct (decide (candidate_name e = "")) as [En | En].
  { rewrite import_skip by done. specialize (IH m ltac:(lia)). destruct (import_all entries m) as [[names k] m2]. by apply import_left_skip. }
  destruct (name_for_total (candidate_name e) m) as [final Hf]; [lia |]. rewrite (import_cons e entries m final) by done.
  pose proof (save_size final (import_data e) m) as Hsize. pose proof (save_import final e m) as Hs. pose proof (name_for_free _ _ _ Hf) as Hfree.
  destruct (read_only final).
  - rewrite Hs. specialize (IH m ltac:(lia)). destruct (import_all entries m) as [[names k] m2]. by apply import_left_skip.
  - destruct Hs as (id & m1 & Es & Hm1 & Hok). rewrite Es in *. cbn [snd] in Hsize. specialize (IH m1 ltac:(lia)).
    destruct (import_all entries m1) as [[names k] m2]. by apply (import_left_saved e entries final m m1 id).
Qed.

(** An import gives every entry a name of its own under which no profile could be loaded, saves its data there and
    counts the others as skipped; every profile that could be loaded, and every other file but the device
    identifier, stays as it is. *)
Theorem import_effect entries m : Z.of_nat (size m + 2 * length entries) <= max_int ->
  let '((names, skipped), m') := import_all entries m in
  (length names + skipped = length entries)%nat /\ NoDup names /\
  (forall n, n ∈ names -> is_ok (loadProfile n m).1 = false /\
     exists e id, e ∈ entries /\ m' !! profilePath n = Some (ProfileFile (with_device id (import_data e)))) /\
  (forall q, q <> DevicePath -> (forall n, n ∈ names -> q <> profilePath n) -> m' !! q = m !! q).
Proof. intros Hm. pose proof (import_leaves entries m Hm) as Hi. by destruct (import_all entries m) as [[names k] m2]. Qed.


(** *** The dry run *)

Definition plain_name (x : string) : Prop := no_char "(" x = true.

Lemma candidate_plain e : plain_name (candidate_name e).
Proof.
  unfold plain_name, candidate_name, normalizeImportName. rewrite no_char_none_of. apply none_of_trim_set. rewrite none_of_all.
  eapply all_of_impl; [| apply name_chars_ok]. by apply (all_ascii_impl name_ok (fun c => negb (Ascii.eqb c "("))); vm_compute.
Qed.

(** The numbered names of different names are different. *)
Lemma candidate_head x j : plain_name x -> head (split_on "(" (import_candidate x j)) = Some x.
Proof.
  intros Hx. unfold import_candidate. destruct (j =? 0); [by rewrite split_on_no_char |].
  change ("(" ++ itoa j ++ ")") with (String "(" (itoa j ++ ")")). by rewrite split_on_app.
Qed.

Lemma candidates_apart x y j k : plain_name x -> plain_name y -> import_candidate x j = import_candidate y k -> x = y.
Proof. intros Hx Hy E. apply (f_equal (fun s => head (split_on "(" s))) in E. rewrite !candidate_head in E by done. by injection E. Qed.

Lemma prefix_before p x t : no_char "(" p = true -> has_prefix p (x ++ String "(" t) = true -> has_prefix p x = true.
Proof.
  revert x. induction p as [| c p IH]; intros x; [by destruct x |]. cbn [no_char]. intros [Hc Hp]%andb_true_iff.
  apply negb_true_iff in Hc. destruct x as [| d x]; [change ("" ++ String "(" t) with (String "(" t) | change (String d x ++ String "(" t) with (String d (x ++ String "(" t))];
    cbn [has_prefix].
  - by rewrite Hc.
  - destruct (Ascii.eqb c d); [by apply IH | done].
Qed.

Lemma candidate_writable x j : read_only x = false -> read_only (import_candidate x j) = false.
Proof.
  intros Hx. unfold import_candidate. destruct (j =? 0); [done |]. destruct (read_only (x ++ "(" ++ itoa j ++ ")")) eqn:E; [| done].
  change ("(" ++ itoa j ++ ")") with (String "(" (itoa j ++ ")")) in E. apply prefix_before in E; [unfold read_only in Hx; congruence | done].
Qed.

Lemma first_free_ext (name : Z -> string) m m' f c :
  (forall j, is_ok (loadProfile (name j) m').1 = is_ok (loadProfile (name j) m).1) -> first_free name f c m' = first_free name f c m.
Proof. intros He. revert c. induction f as [| f IH]; intros c; [done |]. cbn [first_free]. by rewrite He, IH. Qed.

Lemma first_free_more (name : Z -> string) f f' c m k : (f <= f')%nat -> first_free name f c m = Some k -> first_free name f' c m = Some k.
Proof.
  revert f' c. induction f as [| f IH]; intros f' c Hf; [done |]. destruct f' as [| f']; [lia |]. cbn [first_free].
  destruct (is_ok _); [apply IH; lia | done].
Qed.

(** The names that are free for the entries to come are the same after an entry was saved. *)
Lemma name_for_saved x y k p m final : plain_name x -> plain_name y -> x <> y -> name_for x m = Some final ->
  name_for x (saveProfile (import_candidate y k) p m).2 = Some final.
Proof.
  intros Hx Hy Hxy Hf. set (m1 := (saveProfile (import_candidate y k) p m).2). unfold name_for in *.
  destruct (first_free (import_candidate x) (S (size m)) 0 m) as [j |] eqn:E; [| done].
  rewrite (first_free_ext (import_candidate x) m m1).
  - rewrite (first_free_more _ (S (size m)) (S (size m1)) 0 m j); [done | | done]. pose proof (save_size (import_candidate y k) p m). unfold m1. lia.
  - intros i. f_equal. apply untouched_load. unfold m1. apply save_untouched; [| by split].
    intros Ec. by apply Hxy, (candidates_apart x y i k).
Qed.

Definition entry_names (entries : list importProfile) : list string := filter (fun n => n <> "") (candidate_name <$> entries).

(** Both loops, started from states in which the names to come are free alike. *)
Lemma dry_like_import entries m m' :
  NoDup (entry_names entries) -> Forall (fun n => read_only n = false) (entry_names entries) ->
  (forall n, n ∈ entry_names entries -> exists k, name_for n m = Some (import_candidate n k) /\ name_for n m' = Some (import_candidate n k)) ->
  (dry_all entries m).2 = m /\ r_name <$> (dry_all entries m).1.1 = (import_all entries m').1.1 /\ (dry_all entries m).1.2 = (import_all entries m').1.2.
Proof.
  revert m'. induction entries as [| e entries IH]; intros m' Hnd Hro Hfree; [done |]. unfold entry_names in Hnd, Hro, Hfree. cbn [fmap list_fmap] in *.
  destruct (decide (candidate_name e = "")) as [En | En].
  { rewrite filter_cons_False in Hnd, Hro, Hfree by tauto. rewrite dry_skip, import_skip by done.
    destruct (IH m' Hnd Hro Hfree) as (H1 & H2 & H3). destruct (dry_all entries m) as [[rows k] m1], (import_all entries m') as [[names k'] m2].
    cbn [fst snd] in *. by subst. }
  rewrite filter_cons_True in Hnd, Hro, Hfree by done. fold (entry_names entries) in *.
  apply NoDup_cons in Hnd as [Hnew Hnd]. apply Forall_cons in Hro as [Hr Hro].
  destruct (Hfree (candidate_name e) ltac:(by left)) as (k & Hk & Hk').
  rewrite (dry_cons e entries m _ En Hk), (import_cons e entries m' _ En Hk').
  pose proof (save_import (import_candidate (candidate_name e) k) e m') as Hs. rewrite candidate_writable in Hs by done.
  destruct Hs as (id & m1 & Es & _). rewrite Es.
  destruct (IH m1 Hnd Hro) as (H1 & H2 & H3).
  { intros n Hn. destruct (Hfree n ltac:(by right)) as (j & Hj & Hj'). exists j. split; [done |].
    assert (m1 = (saveProfile (import_candidate (candidate_name e) k) (import_data e) m').2) as -> by (by rewrite Es).
    apply list_elem_of_filter in Hn as [Hne Hin]. pose proof Hin as Hin'. apply list_elem_of_fmap in Hin as (x & -> & _).
    apply name_for_saved; [apply candidate_plain.. | | done]. intros Ex. apply Hnew. rewrite <- Ex. apply list_elem_of_filter. by split. }
  destruct (dry_all entries m) as [[rows c] m2], (import_all entries m1) as [[names c'] m3]. cbn [fst snd] in *. subst. done.
Qed.

(** A dry run changes nothing and announces the names under which the import saves the entries, in the same
    order, and skips as many: for entries whose normalised names differ and are not those of read-only profiles. *)
Theorem dry_run_announces entries m : Z.of_nat (size m) <= max_int ->
  NoDup (entry_names entries) -> Forall (fun n => read_only n = false) (entry_names entries) ->
  (dry_all entries m).2 = m /\ r_name <$> (dry_all entries m).1.1 = (import_all entries m).1.1 /\ (dry_all entries m).1.2 = (import_all entries m).1.2.
Proof.
  intros Hm Hnd Hro. apply dry_like_import; [done | done |]. intros n _. unfold name_for.
  destruct (name_for_total n m Hm) as [final Hf]. unfold name_for in Hf. destruct (first_free _ _ 0 m) as [k |]; [| done]. by exists k.
Qed.

End imported.

(** ** Examples *)

Section example.
#[local] Instance example_unicode : Unicode := fun s => s.
#[local] Instance example_disk : Disk := {|
  can_write := fun _ _ _ => true; torn := fun _ _ _ => None; can_remove := fun _ _ => true; random_id := fun _ => "0123456789abcdef" |}.

Definition import_entry (name peer : string) : importProfile :=
  {| i_Name := name; i_Peer := peer; i_VKHashes := "h1"; i_WorkersPerHash := 9; i_ListenPort := 9001; i_Password := "pw"; i_GroupName := "work" |}.

(** A profile that cannot be read, and one that can. *)
Definition import_disk : fs := <[UserProfile "nl" := Unreadable]> (<[UserProfile "home" := ProfileFile (import_data (import_entry "home" "1.1.1.1:1"))]> ∅).

Definition backup : import_file := ZipFile
  [{| z_name := "profiles/"; z_dir := true; z_data := None |};
   {| z_name := "profiles/A.JSON"; z_dir := false; z_data := Some (Some [import_entry "Home" "2.2.2.2:2"; import_entry "???" "x"]) |};
   {| z_name := "profiles/bad.json"; z_dir := false; z_data := Some None |};
   {| z_name := "profiles/b.json"; z_dir := false; z_data := Some (Some [import_entry "NL" "3.3.3.3:3"]) |}].

Definition ex_import (args : list string) : import_end * fs :=
  importCmd example_env (fun p => if String.eqb p "/home/u/backup" then backup else NoFile) args import_disk.

Example imported_names : (ex_import ["$HOME/backup"]).1 = Imported ["home(1)"; "nl"] 1.
Proof. by vm_compute. Qed.

Example dry_run_text : (ex_import ["-dry-run"; "~/backup"]).1 = DryRun
  ("[dry-run] home(1)  peer=2.2.2.2:2  hashes=1  listen=127.0.0.1:9001  groups=[work]" ++ String (byte 10)
   ("[dry-run] nl       peer=3.3.3.3:3  hashes=1  listen=127.0.0.1:9001  groups=[work]" ++ String (byte 10) "")) 2.
Proof. by vm_compute. Qed.

(** The file of a profile that cannot be loaded is overwritten. *)
Example unreadable_overwritten : import_disk !! UserProfile "nl" = Some Unreadable /\
  PeerAddr <$> (match (ex_import ["~/backup"]).2 !! UserProfile "nl" with Some (ProfileFile p) => Some p | _ => None end) = Some "3.3.3.3:3".
Proof. by vm_compute. Qed.

(** Of entries with the same name the dry run announces one name, the import saves two; a name of read-only profiles is
    announced and refused. *)
Example dry_run_differs : let l := [import_entry "A" "p"; import_entry "a" "q"; import_entry "ro-x" "r"] in
  r_name <$> (dry_all l ∅).1.1 = ["a"; "a"; "ro-x"] /\ (import_all l ∅).1 = (["a"; "a(1)"], 1%nat).
Proof. by vm_compute. Qed.

Lemma import_effect_witness : is_ok (loadProfile "home(1)" import_disk).1 = false /\
  (import_all [import_entry "Home" "2.2.2.2:2"] import_disk).2 !! UserProfile "home" = import_disk !! UserProfile "home".
Proof.
  assert ((import_all [import_entry "Home" "2.2.2.2:2"] import_disk).1 = (["home(1)"], 0%nat)) as Er by (by vm_compute).
  pose proof (@import_effect _ example_disk (fun _ _ _ => eq_refl) [import_entry "Home" "2.2.2.2:2"] import_disk ltac:(by vm_compute)) as Hi.
  destruct (import_all [import_entry "Home" "2.2.2.2:2"] import_disk) as [[names k] m'] eqn:E. cbn [fst] in Er. injection Er as -> ->.
  destruct Hi as (_ & _ & Hn & Ho). split; [apply Hn; by left |]. apply Ho; [done |]. by intros n [-> | []%elem_of_nil]%elem_of_cons.
Defined.

Lemma dry_run_announces_witness :
  r_name <$> (dry_all [import_entry "Home" "2.2.2.2:2"; import_entry "NL" "3"] import_disk).1.1 = ["home(1)"; "nl"] /\
  (import_all [import_entry "Home" "2.2.2.2:2"; import_entry "NL" "3"] import_disk).1.1 = ["home(1)"; "nl"].
Proof.
  destruct (@dry_run_announces _ example_disk (fun _ _ _ => eq_refl) [import_entry "Home" "2.2.2.2:2"; import_entry "NL" "3"] import_disk) as (_ & Hn & _);
    [by vm_compute | by (apply (bool_decide_unpack (NoDup _)); vm_compute) | by repeat constructor |].
  rewrite Hn. split; by vm_compute.
Defined.
End example.
