(* ===== verification/GroupRun.v ===== *)
(** * The groups of a core over time (internal/core/group.go, [WorkerGroup]; core.go, the loop that starts them).

    Each group waits for the one before it, for the end of a pause and for its credentials; then its workers run one
    session after another.  The groups, their workers and the goroutines that pass the signal on are steps of one
    relation.  [GetCreds] and [RunSession] are calls: [answered] says by when each has returned, and what it returns is
    open; a stopped core does not make them return, since the credentials are asked for under
    [context.Background] and the wait for a WebView has its own timeout.  Times are milliseconds.  The election of the
    configuration request is in WorkerGroup.v, a session in SessionRun.v. *)

From S2P Require Import Prelude GoStrings WorkerGroup.
From Stdlib Require Import ZArith Lia String Ascii.
From stdpp Require Import base list strings.
Open Scope string_scope.
Open Scope Z_scope.

(** Where a worker is: before its first session, at the top of its loop, in a session, waiting for [refreshMu], in the
    [GetCreds] of [refreshCreds], deciding, pausing. *)
Inductive wphase :=
| WDelay (until : Z) | WTop | WSession | WLock (pause : option (Z * Z)) | WRefresh (pause : option (Z * Z)) | WSettle (pause : option (Z * Z)) | WBack (until : Z) | WEnded.

(** Where a group is: waiting for the signal, in the loop of the pause, at the top of the loop for its credentials, in
    [GetCreds], before the next attempt, running its workers. *)
Inductive gphase := GWait | GPause | GNap (until : Z) | GTop | GFetch | GSleep (until : Z) | GRun | GDone.

(** The goroutine that closes the channel to the next group. *)
Inductive sphase := NoSignal | SPending (at_ : Z) | SClosed | SGone.

#[export] Instance wphase_eq_dec : EqDecision wphase.
Proof. solve_decision. Defined.
#[export] Instance gphase_eq_dec : EqDecision gphase.
Proof. solve_decision. Defined.
#[export] Instance sphase_eq_dec : EqDecision sphase.
Proof. solve_decision. Defined.

(** [got]: when the credentials came; [lastCredRefresh]: in Unix seconds, 0 before the first refresh. *)
Record grp := { at_phase : gphase; ws : list wphase; signal : sphase; got : option Z; lastCredRefresh : Z }.

Record core := { now : Z; paused : bool; cancelled : bool; groups : list grp }.

Definition with_phase (p : gphase) (g : grp) : grp :=
  {| at_phase := p; ws := ws g; signal := signal g; got := got g; lastCredRefresh := lastCredRefresh g |}.
Definition with_ws (l : list wphase) (g : grp) : grp :=
  {| at_phase := at_phase g; ws := l; signal := signal g; got := got g; lastCredRefresh := lastCredRefresh g |}.
Definition with_signal (p : sphase) (g : grp) : grp :=
  {| at_phase := at_phase g; ws := ws g; signal := p; got := got g; lastCredRefresh := lastCredRefresh g |}.
Definition with_refresh (t : Z) (g : grp) : grp :=
  {| at_phase := at_phase g; ws := ws g; signal := signal g; got := got g; lastCredRefresh := t |}.

Section run.
Context `{Unicode}.

(** [answered t i who]: at time [t] the call that group [i] (its own [GetCreds] for [None], its [k]-th worker's
    [RunSession] or [GetCreds] for [Some k]) waits for has returned. *)
Context (answered : Z -> nat -> option nat -> bool).

(** ** A worker *)

Definition after_phase (d : decision) : wphase :=
  match refresh d with None => WSettle (next d) | Some _ => WLock (next d) end.

(** [ret]: its call has returned; [free]: nobody holds [refreshMu]; [recent]: the credentials are less than 15 seconds
    old. *)
Inductive wmove (t : Z) (stop ret free recent : bool) : wphase -> wphase -> Prop :=
| delay_over u : u <= t -> wmove t stop ret free recent (WDelay u) WTop
| delay_stopped u : stop = true -> wmove t stop ret free recent (WDelay u) WEnded
| top_stopped : stop = true -> wmove t stop ret free recent WTop WEnded
| session_starts : stop = false -> wmove t stop ret free recent WTop WSession
| session_ends sessErr : ret = true -> wmove t stop ret free recent WSession (after_phase (after_session stop sessErr))
| refresh_spared pause : free = true -> recent = true -> wmove t stop ret free recent (WLock pause) (WSettle pause)
| refresh_asked pause : free = true -> recent = false -> wmove t stop ret free recent (WLock pause) (WRefresh pause)
| worker_ends : wmove t stop ret free recent (WSettle None) WEnded
| settled_stopped r : stop = true -> wmove t stop ret free recent (WSettle (Some r)) WEnded
| settled lo hi d : stop = false -> lo <= d <= hi -> wmove t stop ret free recent (WSettle (Some (lo, hi))) (WBack (t + 1000 * d))
| back_over u : u <= t -> wmove t stop ret free recent (WBack u) WTop
| back_stopped u : stop = true -> wmove t stop ret free recent (WBack u) WEnded.

(** The workers when they start: the first at once, the others 75 ms apart. *)
Definition start_worker (t : Z) (i : Z) : wphase := if i =? 0 then WTop else WDelay (t + 75 * i).

Definition start_workers (t : Z) : list wphase := start_worker t <$> seqZ 0 workersPerGroup.

(** ** A group *)

Definition refreshing (p : wphase) : bool := match p with WRefresh _ => true | _ => false end.

Definition mutex_free (g : grp) : bool := forallb (fun p => negb (refreshing p)) (ws g).

Definition recently (t : Z) (g : grp) : bool := (0 <? lastCredRefresh g) && (t / 1000 - lastCredRefresh g <? 15).

(** [ready]: its turn has come; [last]: no group follows it, so it has no channel to close; [ret]: which of its calls
    have returned. *)
Inductive gmove (t : Z) (pause stop ready first last : bool) (ret : option nat -> bool) : grp -> grp -> Prop :=
| wait_over g : at_phase g = GWait -> ready = true -> gmove t pause stop ready first last ret g (with_phase GPause g)
| wait_stopped g : at_phase g = GWait -> first = false -> stop = true -> gmove t pause stop ready first last ret g (with_phase GDone g)
| pause_over g : at_phase g = GPause -> pause = false -> gmove t pause stop ready first last ret g (with_phase GTop g)
| pause_stopped g : at_phase g = GPause -> pause = true -> stop = true -> gmove t pause stop ready first last ret g (with_phase GDone g)
| pause_naps g : at_phase g = GPause -> pause = true -> stop = false -> gmove t pause stop ready first last ret g (with_phase (GNap (t + 1000)) g)
| nap_over g u : at_phase g = GNap u -> u <= t -> gmove t pause stop ready first last ret g (with_phase GPause g)
| creds_stopped g : at_phase g = GTop -> stop = true -> gmove t pause stop ready first last ret g (with_phase GDone g)
| creds_asked g : at_phase g = GTop -> stop = false -> gmove t pause stop ready first last ret g (with_phase GFetch g)
| creds_got g d : at_phase g = GFetch -> ret None = true -> 500 <= d < 750 -> gmove t pause stop ready first last ret g
    {| at_phase := GRun; ws := start_workers t; signal := if last then NoSignal else SPending (t + d); got := Some t; lastCredRefresh := 0 |}
| creds_fatal g err : at_phase g = GFetch -> ret None = true -> creds_error err = None -> gmove t pause stop ready first last ret g (with_phase GDone g)
| creds_failed g err w : at_phase g = GFetch -> ret None = true -> creds_error err = Some w -> gmove t pause stop ready first last ret g (with_phase (GSleep (t + 1000 * w)) g)
| sleep_over g u : at_phase g = GSleep u -> u <= t -> gmove t pause stop ready first last ret g (with_phase GTop g)
| sleep_stopped g u : at_phase g = GSleep u -> stop = true -> gmove t pause stop ready first last ret g (with_phase GDone g)
| worker_moves g k p p' : at_phase g = GRun -> ws g !! k = Some p ->
    wmove t stop (ret (Some k)) (mutex_free g) (recently t g) p p' ->
    gmove t pause stop ready first last ret g (with_ws (<[k := p']> (ws g)) g)
| refresh_ends g k p (ok : bool) : at_phase g = GRun -> ws g !! k = Some (WRefresh p) -> ret (Some k) = true ->
    gmove t pause stop ready first last ret g
      (with_ws (<[k := WSettle p]> (ws g)) (with_refresh (if ok then t / 1000 else lastCredRefresh g) g))
| run_over g : at_phase g = GRun -> Forall (fun p => p = WEnded) (ws g) -> gmove t pause stop ready first last ret g (with_phase GDone g)
| signal_closes g u : signal g = SPending u -> u <= t -> stop = false -> gmove t pause stop ready first last ret g (with_signal SClosed g)
| signal_stopped g u : signal g = SPending u -> stop = true -> gmove t pause stop ready first last ret g (with_signal SGone g).

(** ** The core *)

Definition ready_at (s : core) (i : nat) : bool :=
  match i with O => true | S j => match groups s !! j with Some g => bool_decide (signal g = SClosed) | None => false end end.

Definition with_groups (l : list grp) (s : core) : core := {| now := now s; paused := paused s; cancelled := cancelled s; groups := l |}.

(** A step of a group. *)
Inductive move (s : core) : core -> Prop :=
| moves i g g' : groups s !! i = Some g ->
    gmove (now s) (paused s) (cancelled s) (ready_at s i) (Nat.eqb i 0) (Nat.eqb (S i) (length (groups s)))
      (answered (now s) i) g g' ->
    move s (with_groups (<[i := g']> (groups s)) s).

(** Time passes, the user pauses and resumes, the core is stopped. *)
Definition later (d : Z) (s : core) : core := {| now := now s + d; paused := paused s; cancelled := cancelled s; groups := groups s |}.
Definition set_paused (b : bool) (s : core) : core := {| now := now s; paused := b; cancelled := cancelled s; groups := groups s |}.
Definition cancel (s : core) : core := {| now := now s; paused := paused s; cancelled := true; groups := groups s |}.

Definition fresh_group : grp := {| at_phase := GWait; ws := []; signal := NoSignal; got := None; lastCredRefresh := 0 |}.

(** [n] groups. *)
Inductive reachable_core (n : nat) : core -> Prop :=
| core_starts t : reachable_core n {| now := t; paused := false; cancelled := false; groups := replicate n fresh_group |}
| core_moves s s' : reachable_core n s -> move s s' -> reachable_core n s'
| time_passes s d : reachable_core n s -> 0 <= d -> reachable_core n (later d s)
| core_pauses s b : reachable_core n s -> reachable_core n (set_paused b s)
| core_stops s : reachable_core n s -> reachable_core n (cancel s).

(** ** The order of the groups *)

(** What holds of a group, given the time, whether the core is stopped, and the group before it. *)
Definition asking (p : gphase) : bool := match p with GPause | GNap _ | GTop | GFetch | GSleep _ => true | _ => false end.

Definition signal_ok (t : Z) (g : grp) : Prop :=
  match signal g with
  | SPending u => exists t0, got g = Some t0 /\ t0 + 500 <= u
  | SClosed => exists t0, got g = Some t0 /\ t0 + 500 <= t
  | _ => True
  end.

Definition own_ok (t : Z) (g : grp) : Prop :=
  signal_ok t g /\ (got g <> None -> at_phase g = GRun \/ at_phase g = GDone) /\
  (forall u, at_phase g = GNap u -> u <= t + 1000) /\ (length (ws g) <= 9)%nat.

Definition after_ok (stop : bool) (before g : grp) : Prop :=
  (asking (at_phase g) = true -> signal before = SClosed) /\
  (forall t, got g = Some t -> exists t0, got before = Some t0 /\ t0 + 500 <= t) /\
  (stop = false -> at_phase g <> GWait -> got before <> None).

Definition ordered (s : core) : Prop :=
  Forall (own_ok (now s)) (groups s) /\
  forall i b g, groups s !! i = Some b -> groups s !! S i = Some g -> after_ok (cancelled s) b g.

Lemma length_start_workers t : length (start_workers t) = 9%nat.
Proof. by unfold start_workers; rewrite length_fmap, length_seqZ. Qed.

(** A group that has credentials asks for none. *)
Lemma got_kept t pause stop ready first last ret g g' : own_ok t g -> gmove t pause stop ready first last ret g g' -> got g <> None ->
  got g' = got g /\ (signal g = SClosed -> signal g' = SClosed).
Proof.
  intros (Hs & Hg & _) Hm Hn. destruct Hm; try done; cbn.
  all: first [by destruct (Hg Hn); congruence | split; [done | congruence]].
Qed.

Lemma gmove_own t pause stop ready first last ret g g' : own_ok t g -> gmove t pause stop ready first last ret g g' -> own_ok t g'.
Proof.
  intros (Hs & Hg & Hn & Hl) Hm.
  assert (forall p, (asking p = true -> asking (at_phase g) = true \/ at_phase g = GWait) -> (forall u, p = GNap u -> u <= t + 1000) -> p <> GWait ->
    own_ok t (with_phase p g) \/ p = GRun) as Hphase.
  { intros p Hp Hu Hw. destruct (decide (p = GRun)); [by right |]. left. split; [exact Hs |]. split; [| by split]. cbn. intros Hgot.
    destruct (Hg Hgot) as [E | E]; destruct p; try done; try (by right); destruct (Hp eq_refl) as [Ha | Ha]; rewrite E in Ha; done. }
  destruct Hm;
    try (match goal with |- own_ok _ (with_phase ?p g) => destruct (Hphase p) as [Hok | ?]; [| | | exact Hok | done] end;
         [intros _; (by right) || (left; by rewrite H0) | intros u' [= <-]; lia | done]); try done.
  - split; [| split; [by left | split; [done | cbn; by rewrite length_start_workers]]].
    destruct last; [done |]. exists t. split; [done | cbn; lia].
  - split; [exact Hs |]. split; [exact Hg |]. split; [exact Hn |]. cbn. by rewrite length_insert.
  - split; [exact Hs |]. split; [exact Hg |]. split; [exact Hn |]. cbn. by rewrite length_insert.
  - split; [exact Hs |]. split; [by right | by split].
  - split; [| by split]. unfold signal_ok in *. rewrite H0 in Hs. destruct Hs as (t0 & Hgot & Ht). exists t0. split; [done | cbn; lia].
Qed.

Lemma after_self t pause stop ready first last ret before g g' : own_ok t before -> after_ok stop before g ->
  (ready = true -> signal before = SClosed) -> own_ok t g -> gmove t pause stop ready first last ret g g' -> after_ok stop before g'.
Proof.
  intros Hb (Ha & Hg & Hn) Hr (_ & Hown & _) Hm.
  assert (signal before = SClosed -> got before <> None) as Hgot.
  { intros E. destruct Hb as [Hs _]. unfold signal_ok in Hs. rewrite E in Hs. destruct Hs as (t0 & -> & _). done. }
  assert (forall p, (asking p = true \/ p = GDone /\ stop = false -> asking (at_phase g) = true \/ at_phase g = GRun /\ p = GDone \/ signal before = SClosed) -> p <> GRun -> after_ok stop before (with_phase p g)) as Hphase.
  { intros p Hp Hrun. split; [| split; [exact Hg |]].
    - cbn. intros Hasks. destruct (Hp (or_introl Hasks)) as [H1 | [[H1 ->] | H1]]; [by apply Ha | done | done].
    - cbn. intros Hstop Hw. destruct (asking p) eqn:Ep.
      + destruct (Hp (or_introl eq_refl)) as [H1 | [[H1 ->] | H1]]; [by apply Hgot, Ha | done | by apply Hgot].
      + destruct p; try done. destruct (Hp (or_intror (conj eq_refl Hstop))) as [H1 | [[H1 _] | H1]];
          [by apply Hgot, Ha | apply Hn; [done | by rewrite H1] | by apply Hgot]. }
  destruct Hm;
    try (apply Hphase; [| done]; intros [H9 | [H9 H10]]; solve [done | congruence | left; by rewrite H0 | right; left; done | right; right; auto]);
    try (split; [exact Ha | split; [exact Hg | exact Hn]]).
  assert (signal before = SClosed) as E by (apply Ha; by rewrite H0).
  split; [done |]. split; [| intros _ _; by apply Hgot]. destruct Hb as [Hs _]. unfold signal_ok in Hs. rewrite E in Hs.
  destruct Hs as (t0 & Ht0 & Hle). intros t1 [= <-]. by exists t0.
Qed.

Lemma after_before t pause stop ready first last ret before before' g : own_ok t before -> after_ok stop before g ->
  gmove t pause stop ready first last ret before before' -> after_ok stop before' g.
Proof.
  intros Hb (Ha & Hg & Hn) Hm.
  assert (signal before = SClosed -> got before <> None) as Hgot.
  { intros E. destruct Hb as [Hs _]. unfold signal_ok in Hs. rewrite E in Hs. destruct Hs as (t0 & -> & _). done. }
  pose proof (got_kept _ _ _ _ _ _ _ _ _ Hb Hm) as Hkept. split; [| split].
  - intros Hasks. specialize (Ha Hasks). by apply (proj2 (Hkept (Hgot Ha))).
  - intros t1 Ht1. destruct (Hg t1 Ht1) as (t0 & Ht0 & Hle). exists t0. rewrite (proj1 (Hkept ltac:(by rewrite Ht0))). done.
  - intros Hstop Hw. specialize (Hn Hstop Hw). by rewrite (proj1 (Hkept Hn)).
Qed.

Lemma own_later t d g : 0 <= d -> own_ok t g -> own_ok (t + d) g.
Proof.
  intros Hd (Hs & Hg & Hn & Hl). split; [| split; [done | split; [| done]]].
  - unfold signal_ok in *. destruct (signal g); try done. destruct Hs as (t0 & H1 & H2). exists t0. split; [done | lia].
  - intros u Hu. specialize (Hn u Hu). lia.
Qed.

Lemma move_ordered s s' : ordered s -> move s s' -> ordered s'.
Proof.
  intros [Ho Hadj] [i g g' Hi Hm]. assert (own_ok (now s) g) as Hg by (by eapply Forall_lookup_1).
  split; cbn.
  - apply Forall_insert; [done | by eapply gmove_own].
  - intros j b h Hb Hh. destruct (decide (i = S j)) as [-> | Hne].
    + rewrite list_lookup_insert_ne in Hb by lia. rewrite list_lookup_insert_eq in Hh by (by eapply lookup_lt_Some). injection Hh as <-.
      apply (after_self _ _ _ _ _ _ _ b g g') with (5 := Hm); [by eapply Forall_lookup_1 | by eapply Hadj | | done].
      unfold ready_at. rewrite Hb. by intros ?%bool_decide_eq_true.
    + rewrite list_lookup_insert_ne in Hh by done. destruct (decide (i = j)) as [-> | Hne'].
      * rewrite list_lookup_insert_eq in Hb by (by eapply lookup_lt_Some). injection Hb as <-.
        eapply after_before; [exact Hg | by eapply Hadj | exact Hm].
      * rewrite list_lookup_insert_ne in Hb by done. by eapply Hadj.
Qed.

Lemma reachable_ordered n s : reachable_core n s -> ordered s /\ length (groups s) = n.
Proof.
  induction 1 as [t | s s' _ [IH IHl] Hm | s d _ [[Ho Ha] IHl] Hd | s b _ IH | s _ [[Ho Ha] IHl]].
  - split; [| cbn; by rewrite length_replicate]. split; cbn.
    + apply Forall_replicate. by repeat split; cbn; try lia.
    + intros i b g [-> _]%lookup_replicate [-> _]%lookup_replicate. by repeat split.
  - split; [by eapply move_ordered |]. destruct Hm. cbn. by rewrite length_insert.
  - split; [| done]. split; [| exact Ha]. eapply Forall_impl; [exact Ho |]. intros g. by apply own_later.
  - exact IH.
  - split; [| done]. split; [exact Ho |]. intros i b g Hb Hg. destruct (Ha i b g Hb Hg) as (H1 & H2 & H3). by split.
Qed.

(** C8: the groups get their credentials one after another: each only when the one before it has had its own for at
    least half a second; and when a group ends without credentials, the groups after it do not even begin, unless the
    core is stopped. *)
Theorem groups_in_order n s i j : reachable_core n s -> (i < j)%nat ->
  forall gi gj, groups s !! i = Some gi -> groups s !! j = Some gj ->
  (forall tj, got gj = Some tj -> exists ti, got gi = Some ti /\ ti + 500 * Z.of_nat (j - i) <= tj) /\
  (cancelled s = false -> at_phase gi = GDone -> got gi = None -> at_phase gj = GWait).
Proof.
  intros [[Ho Ha] Hl]%reachable_ordered Hij gi gj Hi Hj. revert gj Hj. induction Hij as [| j Hij IH]; intros gj Hj.
  - destruct (Ha i gi gj Hi Hj) as (_ & H2 & H3). replace (S i - i)%nat with 1%nat by lia. split.
    + intros tj Htj. destruct (H2 tj Htj) as (t0 & ? & ?). exists t0. split; [done | lia].
    + intros Hc _ Hn. destruct (decide (at_phase gj = GWait)) as [| Hw]; [done |]. by destruct (H3 Hc Hw).
  - destruct (lookup_lt_is_Some_2 (groups s) j) as [gm Hm]; [apply lookup_lt_Some in Hj; lia |].
    destruct (IH gm Hm) as [IH1 IH2]. destruct (Ha j gm gj Hm Hj) as (_ & H2 & H3). split.
    + intros tj Htj. destruct (H2 tj Htj) as (t0 & H4 & H5). destruct (IH1 t0 H4) as (ti & H6 & H7). exists ti. split; [done |].
      replace (Z.of_nat (S j - i)) with (Z.of_nat (j - i) + 1) by lia. lia.
    + intros Hc Hd Hn. destruct (decide (at_phase gj = GWait)) as [| Hw]; [done |]. specialize (H3 Hc Hw). specialize (IH2 Hc Hd Hn).
      destruct (got gm) as [t |] eqn:E; [| done]. destruct (IH1 t eq_refl) as (ti & H6 & _). congruence.
Qed.

(** ** The end of the groups *)

Definition wweight (p : wphase) : nat :=
  match p with WEnded => 0 | WTop | WSettle _ => 1 | WLock _ => 3 | _ => 2 end.

Definition pweight (p : gphase) : nat :=
  match p with GDone => 0 | GTop => 1 | GPause => 2 | GSleep _ => 2 | GNap _ => 3 | GWait => 3 | GFetch => 20 | GRun => 1 end.

Definition sweight (p : sphase) : nat := match p with SPending _ => 1 | _ => 0 end.

Definition gweight (g : grp) : nat := pweight (at_phase g) + sum_list_with wweight (ws g) + sweight (signal g).

Definition weight (s : core) : nat := sum_list_with gweight (groups s).

Lemma sum_insert {A} (f : A -> nat) l i x y : l !! i = Some x -> (sum_list_with f (<[i := y]> l) + f x = sum_list_with f l + f y)%nat.
Proof.
  intros Hi. rewrite <- (take_drop_middle l i x Hi) at 2. rewrite insert_take_drop by (by eapply lookup_lt_Some).
  rewrite !sum_list_with_app. cbn. lia.
Qed.

Lemma wmove_weight t ret free recent p p' : wmove t true ret free recent p p' -> (wweight p' < wweight p)%nat.
Proof. destruct 1; cbn; try lia; done. Qed.

Lemma gmove_weight t pause ready first last ret g g' : gmove t pause true ready first last ret g g' -> (gweight g' < gweight g)%nat.
Proof.
  destruct 1; try discriminate; unfold gweight; cbn; rewrite ?H0; cbn; try lia.
  - assert (sum_list_with wweight (start_workers t) = 17)%nat as -> by done. destruct last; cbn; lia.
  - pose proof (sum_insert wweight (ws g) k p p' H1). pose proof (wmove_weight _ _ _ _ _ _ H2). lia.
  - pose proof (sum_insert wweight (ws g) k (WRefresh p) (WSettle p) H1) as Hw. cbn in Hw. lia.
Qed.

Lemma move_weight s s' : cancelled s = true -> move s s' -> (weight s' < weight s)%nat.
Proof.
  intros Hc [i g g' Hi Hm]. rewrite Hc in Hm. apply gmove_weight in Hm. unfold weight. cbn.
  pose proof (sum_insert gweight (groups s) i g g' Hi). lia.
Qed.

(** The call a group waits for: its own [GetCreds], or the session or the [GetCreds] of a worker. *)
Definition waits_for (g : grp) (who : option nat) : Prop :=
  match who with
  | None => at_phase g = GFetch
  | Some k => at_phase g = GRun /\ (ws g !! k = Some WSession \/ exists pause, ws g !! k = Some (WRefresh pause))
  end.

(** In a stopped core a worker that has not ended can take a step, or its group waits for a call. *)
Lemma worker_can t pause ready first last ret g k p : at_phase g = GRun -> ws g !! k = Some p -> p <> WEnded ->
  (exists g', gmove t pause true ready first last ret g g') \/ exists who, waits_for g who /\ ret who = false.
Proof.
  intros Hg Hk Hp.
  assert (forall j q, ws g !! j = Some (WRefresh q) ->
    (exists g', gmove t pause true ready first last ret g g') \/ exists who, waits_for g who /\ ret who = false) as Hrefresh.
  { intros j q Hj. destruct (ret (Some j)) eqn:Er.
    - left. eexists. by apply (refresh_ends _ _ _ _ _ _ _ g j q true).
    - right. exists (Some j). split; [split; [done | right; by exists q] | done]. }
  destruct p as [u | | | q | q | [[lo hi] |] | u |]; try done; try (by eapply Hrefresh);
    try (left; eexists; eapply worker_moves; [done | exact Hk |];
         first [by eapply delay_stopped | by eapply top_stopped | by eapply settled_stopped | by eapply worker_ends | by eapply back_stopped]).
  - destruct (ret (Some k)) eqn:Er.
    + left. eexists. eapply worker_moves; [done | exact Hk |]. by apply (session_ends _ _ _ _ _ None).
    + right. exists (Some k). split; [split; [done | by left] | done].
  - destruct (mutex_free g) eqn:Ef.
    + left. destruct (recently t g) eqn:Er; eexists; (eapply worker_moves; [done | exact Hk |]);
        [by apply refresh_spared | by apply refresh_asked].
    + unfold mutex_free in Ef. apply not_true_iff_false in Ef. rewrite forallb_forall in Ef.
      destruct (decide (Exists (fun x => refreshing x = true) (ws g))) as [He | Hno].
      * apply Exists_exists in He as (x & Hin & Hx). apply list_elem_of_lookup in Hin as [j Hj].
        destruct x; try done. by eapply Hrefresh.
      * destruct Ef. intros x Hin%list_elem_of_In. destruct (refreshing x) eqn:Ex; [| done].
        destruct Hno. apply Exists_exists. by exists x.
Qed.

Lemma group_can t pause ready first last ret g : own_ok t g -> (first = true -> ready = true) -> at_phase g <> GDone ->
  (exists d g', 0 <= d <= 1000 /\ forall ret', (d = 0 -> ret' = ret) -> gmove (t + d) pause true ready first last ret' g g') \/
  exists who, waits_for g who /\ ret who = false.
Proof.
  intros (_ & _ & Hnap & _) Hf Hd.
  assert (forall g', gmove t pause true ready first last ret g g' ->
    exists d g', 0 <= d <= 1000 /\ forall ret', (d = 0 -> ret' = ret) -> gmove (t + d) pause true ready first last ret' g g') as Hnow.
  { intros g' Hm. exists 0, g'. split; [lia |]. intros ret' ->; [| done]. by rewrite Z.add_0_r. }
  destruct (at_phase g) as [| | u | | | u | |] eqn:E; [| | | | | | | done].
  - left. destruct first; eapply Hnow; [by eapply wait_over; auto | by eapply wait_stopped].
  - left. destruct pause; eapply Hnow; [by eapply pause_stopped | by eapply pause_over].
  - left. exists 1000. eexists. split; [lia |]. intros ret' _. eapply nap_over; [done |]. by apply Hnap.
  - left. eapply Hnow. by eapply creds_stopped.
  - destruct (ret None) eqn:Er; [left | right; by exists None]. eapply Hnow. by eapply (creds_fatal _ _ _ _ _ _ _ _ "FATAL_AUTH").
  - left. eapply Hnow. by eapply sleep_stopped.
  - destruct (decide (Forall (fun p => p = WEnded) (ws g))) as [Hall | Hno]; [left; eapply Hnow; by eapply run_over |].
    apply not_Forall_Exists in Hno; [| intros p; apply _]. apply Exists_exists in Hno as (p & Hin & Hp). apply list_elem_of_lookup in Hin as [k Hk].
    destruct (worker_can t pause ready first last ret g k p E Hk Hp) as [[g' Hm] | Hw]; [left; by eapply Hnow | by right].
Qed.

(** [k] steps of the groups, while time passes and the user may pause and resume. *)
Inductive runs : nat -> core -> core -> Prop :=
| runs_none s : runs 0 s s
| runs_move k s s' s'' : runs k s s' -> move s' s'' -> runs (S k) s s''
| runs_later k s s' d : runs k s s' -> 0 <= d -> runs k s (later d s')
| runs_paused k s s' b : runs k s s' -> runs k s (set_paused b s').

Lemma runs_weight k s s' : cancelled s = true -> runs k s s' -> cancelled s' = true /\ (k + weight s' <= weight s)%nat.
Proof.
  intros Hc. induction 1 as [s | k s s' s'' _ IH Hm | k s s' d _ IH _ | k s s' b _ IH]; [done | | by apply IH..].
  destruct (IH Hc) as [Hc' Hw]. pose proof (move_weight _ _ Hc' Hm). split; [by destruct Hm | lia].
Qed.

Lemma runs_reachable n k s s' : reachable_core n s -> runs k s s' -> reachable_core n s'.
Proof.
  intros Hs. induction 1 as [s | k s s' s'' _ IH Hm | k s s' d _ IH Hd | k s s' b _ IH]; [done | | |].
  - by eapply core_moves; [apply IH |].
  - by apply time_passes; [apply IH |].
  - by apply core_pauses, IH.
Qed.

Lemma group_weight t g : own_ok t g -> (gweight g <= 48)%nat.
Proof.
  intros (_ & _ & _ & Hl). unfold gweight. assert (sum_list_with wweight (ws g) <= 3 * length (ws g))%nat as Hw.
  { clear. induction (ws g) as [| p l IH]; cbn; [lia |]. assert (wweight p <= 3)%nat by (destruct p; cbn; lia). cbn in IH. lia. }
  assert (pweight (at_phase g) <= 20)%nat by (destruct (at_phase g); cbn; lia). assert (sweight (signal g) <= 1)%nat by (destruct (signal g); cbn; lia). lia.
Qed.

Lemma weight_bound n s : reachable_core n s -> (weight s <= 48 * n)%nat.
Proof.
  intros [[Ho _] <-]%reachable_ordered. unfold weight. induction Ho as [| g l Hg _ IH]; cbn; [lia |].
  apply group_weight in Hg. cbn in IH. lia.
Qed.

(** A step of group [i]. *)
Definition group_moves (i : nat) (s : core) : Prop := exists g g',
  groups s !! i = Some g /\
  gmove (now s) (paused s) (cancelled s) (ready_at s i) (Nat.eqb i 0) (Nat.eqb (S i) (length (groups s))) (answered (now s) i) g g'.

(** In a stopped core a group that has not ended can take a step within a second, or waits for a call. *)
Lemma group_goes_on n s i g : reachable_core n s -> cancelled s = true -> groups s !! i = Some g -> at_phase g <> GDone ->
  (exists d, 0 <= d <= 1000 /\ group_moves i (later d s)) \/ exists who, waits_for g who /\ answered (now s) i who = false.
Proof.
  intros [[Ho _] _]%reachable_ordered Hc Hi Hg.
  destruct (group_can (now s) (paused s) (ready_at s i) (Nat.eqb i 0) (Nat.eqb (S i) (length (groups s))) (answered (now s) i) g)
    as [(d & g' & Hd & Hm) | Hw]; [by eapply Forall_lookup_1 | by destruct i | done | left | by right].
  exists d. split; [done |]. exists g, g'. split; [done |]. cbn. rewrite Hc. apply Hm. intros ->. by rewrite Z.add_0_r.
Qed.

(** C9: when the core is stopped its groups take at most 48 more steps each, in whatever order things happen.  As long as
    a group has not ended, a step of it is possible within a second, unless it waits for a call that has not returned:
    the request for its credentials, a worker's session, or a worker's request for new ones.  Once every call that is
    waited for has returned, at some time [T], a step is possible within a second of it until all the groups have
    ended. *)
Theorem groups_wind_up n s k s' : reachable_core n s -> cancelled s = true -> runs k s s' ->
  (k <= 48 * n)%nat /\
  (forall i g, groups s' !! i = Some g -> at_phase g <> GDone ->
    (exists d, 0 <= d <= 1000 /\ group_moves i (later d s')) \/
    exists who, waits_for g who /\ answered (now s') i who = false) /\
  (forall T, (forall i g who, groups s' !! i = Some g -> waits_for g who -> answered (Z.max T (now s')) i who = true) ->
    Forall (fun g => at_phase g = GDone) (groups s') \/
    exists d s'', 0 <= d <= Z.max 0 (T - now s') + 1000 /\ move (later d s') s'').
Proof.
  intros Hr Hc Hk. destruct (runs_weight _ _ _ Hc Hk) as [Hc' Hw]. pose proof (weight_bound n s Hr). pose proof (runs_reachable _ _ _ _ Hr Hk) as Hr'.
  split; [lia |]. split; [intros i g Hi Hg; by eapply group_goes_on |]. intros T HT.
  destruct (decide (Forall (fun g => at_phase g = GDone) (groups s'))) as [| Hno]; [by left | right].
  apply not_Forall_Exists in Hno; [| intros g; apply _]. apply Exists_exists in Hno as (g & Hin & Hg). apply list_elem_of_lookup in Hin as [i Hi].
  set (e := Z.max 0 (T - now s')).
  destruct (group_goes_on n (later e s') i g) as [(d & Hd & g0 & g' & Hi0 & Hm) | (who & Hwho & Ha)]; [apply time_passes; [done | lia] | done | done | done | |].
  - exists (e + d). eexists. split; [lia |]. eapply (moves (later (e + d) s') i g0 g'); [done |]. cbn in Hm |- *. by rewrite Z.add_assoc.
  - specialize (HT i g who Hi Hwho). cbn in Ha. by replace (now s' + e) with (Z.max T (now s')) in Ha by lia; rewrite HT in Ha.
Qed.
End run.

(** ** Examples *)

Section example.
#[local] Instance example_unicode : Unicode := fun s => s.

#[local] Ltac act_by i tac :=
  match goal with H : reachable_core ?an ?n ?s |- _ =>
    let H' := fresh in
    eassert (reachable_core an n _) as H' by
      (eapply core_moves; [exact H | eapply (moves an s i); [reflexivity | tac tt; first [reflexivity | lia]]]);
    clear H; cbn in H'
  end.
#[local] Ltac act i c := act_by i ltac:(fun _ => eapply c).
#[local] Ltac get_creds i := act_by i ltac:(fun _ => eapply (creds_got _ _ _ _ _ _ _ _ 500)).
#[local] Ltac wait d :=
  match goal with H : reachable_core ?an ?n ?s |- _ =>
    let H' := fresh in pose proof (time_passes an n s d H ltac:(lia)) as H'; clear H; cbn in H'
  end.

(** Every call returns at once. *)
Definition at_once : Z -> nat -> option nat -> bool := fun _ _ _ => true.

(** Two groups: the second gets its credentials half a second after the first. *)
Lemma two_groups : exists s, reachable_core at_once 2 s /\ cancelled s = false /\ got <$> groups s = [Some 0; Some 500].
Proof.
  pose proof (core_starts at_once 2 0) as H0. cbn in H0.
  act 0%nat wait_over. act 0%nat pause_over. act 0%nat creds_asked. get_creds 0%nat.
  wait 500. act 0%nat signal_closes. act 1%nat wait_over. act 1%nat pause_over. act 1%nat creds_asked. get_creds 1%nat.
  eexists. split; [eassumption |]. split; reflexivity.
Qed.

(** The first group ends without credentials: the second waits for ever, and nobody stops the core. *)
Example fatal_first_group : exists s, reachable_core at_once 2 s /\ cancelled s = false /\ at_phase <$> groups s = [GDone; GWait] /\
  forall d s', ~ move at_once (later d s) s'.
Proof.
  pose proof (core_starts at_once 2 0) as H0. cbn in H0.
  act 0%nat wait_over. act 0%nat pause_over. act 0%nat creds_asked. act_by 0%nat ltac:(fun _ => eapply (creds_fatal _ _ _ _ _ _ _ _ "FATAL_AUTH")).
  eexists. split; [eassumption |]. split; [reflexivity |]. split; [reflexivity |].
  intros d s' Hm. inversion Hm as [i g g' Hi Hg]. subst. destruct i as [| [| i]]; cbn in Hi; [| | done]; injection Hi as <-; inversion Hg; done.
Qed.

Lemma groups_in_order_witness : exists s gi, reachable_core at_once 2 s /\ groups s !! 0%nat = Some gi /\ exists ti, got gi = Some ti /\ ti + 500 * 1 <= 500.
Proof.
  destruct two_groups as (s & Hr & _ & Hg). destruct (groups s) as [| gi [| gj [| ? ?]]] eqn:E; try discriminate Hg. injection Hg as Hi Hj.
  exists s, gi. split; [exact Hr |]. split; [by rewrite E |].
  destruct (groups_in_order at_once 2 s 0 1 Hr ltac:(lia) gi gj) as [Ho _]; [by rewrite E | by rewrite E |]. exact (Ho 500 Hj).
Defined.

(** The credentials of the first group never come: stopped in [GetCreds], it takes no step at any time. *)
Definition never : Z -> nat -> option nat -> bool := fun _ _ _ => false.

Example stuck_in_call : exists s, reachable_core never 1 s /\ cancelled s = true /\ at_phase <$> groups s = [GFetch] /\
  forall d s', ~ move never (later d s) s'.
Proof.
  pose proof (core_starts never 1 0) as H0. cbn in H0.
  act 0%nat wait_over. act 0%nat pause_over. act 0%nat creds_asked.
  eexists. split; [eapply core_stops; eassumption |]. split; [reflexivity |]. split; [reflexivity |].
  intros d s' Hm. inversion Hm as [i g g' Hi Hg]. subst. destruct i as [| i]; cbn in Hi; [| done]. injection Hi as <-. inversion Hg; done.
Qed.

Lemma groups_wind_up_witness : exists s, reachable_core at_once 2 s /\ cancelled s = true /\ (0 <= 48 * 2)%nat /\
  (Forall (fun g => at_phase g = GDone) (groups s) \/ exists d s'', 0 <= d <= 1000 /\ move at_once (later d s) s'').
Proof.
  destruct two_groups as (s & Hr & Hc & Hg). exists (cancel s). split; [by apply core_stops |]. split; [reflexivity |].
  destruct (groups_wind_up at_once 2 (cancel s) 0 (cancel s) (core_stops _ _ _ Hr) eq_refl (runs_none _ _)) as (Hk & _ & Ht).
  split; [exact Hk |]. destruct (Ht (now (cancel s)) ltac:(done)) as [Hd | (d & s'' & Hd & Hm)]; [by left | right].
  exists d, s''. split; [lia | exact Hm].
Defined.
End example.
