(* ===== verification/NftRule.v ===== *)
(** * The rule that clamps the TCP segment size (internal/core/tun_linux.go, [setupRawMSSClampingNFT]).

    The rule is the list of expressions that the code builds.  What the kernel does with one is [run_rule], after
    nft(8) and the comment of the function: a comparison that fails ends the rule, and writing the size option of a
    segment never increases it. *)

From S2P Require Import Prelude Bytes GoStrings Hashing.
From Stdlib Require Import ZArith Lia String Ascii.
From stdpp Require Import base list strings gmap.
Open Scope string_scope.
Open Scope Z_scope.

(** ** The rule *)

Inductive expr :=
| MetaOIFNAME (reg : nat)
| MetaL4PROTO (reg : nat)
| CmpEq (reg : nat) (data : list Z)
| PayloadTransport (dst off len : nat)
| Bitwise (src dst len : nat) (mask xor : list Z)
| RtTCPMSS (reg : nat)
| ExthdrTcpopt (src : nat) (type : Z) (off len : nat).

Record chain := { chain_name : string; chain_type : string; hook : string; priority : string; rules : list (list expr) }.

Definition IPPROTO_TCP : Z := 6.

(** The name as the kernel compares it. *)
Definition ifname (n : string) : list Z :=
  let src := (bytes_of n ++ [0])%list in (take 16 src ++ replicate (16 - length src) 0)%list.

Definition mss_rule (iface : string) : list expr :=
  [ MetaOIFNAME 1; CmpEq 1 (ifname iface);
    MetaL4PROTO 1; CmpEq 1 [IPPROTO_TCP];
    PayloadTransport 1 13 1; Bitwise 1 1 1 [6] [0]; CmpEq 1 [2];
    RtTCPMSS 1; ExthdrTcpopt 1 2 2 2 ].

Definition mss_chain (iface : string) : chain :=
  {| chain_name := "output_mss"; chain_type := "filter"; hook := "output"; priority := "mangle"; rules := [mss_rule iface] |}.

(** ** What a rule does to a packet *)

(** The interface a packet leaves by, its protocol, its transport header, the size option of a TCP segment if it has
    one, and the largest size its route allows. *)
Record packet := { oif : string; l4proto : Z; transport : list Z; mss : option Z; route_mss : Z }.

Definition with_mss (m : Z) (p : packet) : packet :=
  {| oif := oif p; l4proto := l4proto p; transport := transport p; mss := Some m; route_mss := route_mss p |}.

(** The registers after an expression, and the packet; [None] ends the rule. *)
Definition step_expr (e : expr) (regs : nat -> list Z) (p : packet) : option ((nat -> list Z) * packet) :=
  let load r v := Some ((fun k => if (k =? r)%nat then v else regs k), p) in
  match e with
  | MetaOIFNAME r => load r (bytes_of (oif p) ++ replicate (16 - String.length (oif p)) 0)%list
  | MetaL4PROTO r => load r [l4proto p]
  | CmpEq r data => if bool_decide (take (length data) (regs r) = data) then Some (regs, p) else None
  | PayloadTransport r off len => if (off + len <=? length (transport p))%nat then load r (slice off (off + len) (transport p)) else None
  | Bitwise s r len m x => load r (zip_with Z.lxor (zip_with Z.land (take len (regs s)) m) x)
  | RtTCPMSS r => load r (be_put 2 (route_mss p))
  | ExthdrTcpopt s type off len =>
      match mss p with
      | Some old => if (type =? 2) && (off =? 2)%nat && (len =? 2)%nat then Some (regs, with_mss (Z.min old (be_get (take len (regs s)))) p) else None
      | None => None
      end
  end.

Fixpoint run_rule (l : list expr) (regs : nat -> list Z) (p : packet) : packet :=
  match l with
  | [] => p
  | e :: rest => match step_expr e regs p with Some (regs', p') => run_rule rest regs' p' | None => p end
  end.

(** ** Facts *)

(** A name of an interface: up to 15 bytes, none of them zero. *)
Definition iface_name (n : string) : Prop := (String.length n <= 15)%nat /\ Forall (fun b => b <> 0) (bytes_of n).

Lemma length_bytes_of s : length (bytes_of s) = String.length s.
Proof. induction s as [| c s IH]; [done |]. cbn. by rewrite IH. Qed.

Lemma bytes_of_inj a b : bytes_of a = bytes_of b -> a = b.
Proof.
  revert b. induction a as [| c a IH]; intros [| d b]; cbn; try done. intros [= E Ht]. rewrite (IH b Ht).
  apply N2Z.inj in E. apply (f_equal ascii_of_N) in E. rewrite !ascii_N_embedding in E. by rewrite E.
Qed.

Lemma padded_inj (a b : list Z) n m : Forall (fun x => x <> 0) a -> Forall (fun x => x <> 0) b ->
  (a ++ replicate n 0 = b ++ replicate m 0)%list -> a = b.
Proof.
  revert b. induction a as [| x a IH]; intros [| y b] Ha Hb E; [done | | |].
  - destruct n; [done |]. injection E as <- _. by inversion Hb.
  - destruct m; [done |]. injection E as -> _. by inversion Ha.
  - injection E as -> E. inversion Ha; inversion Hb; subst. by rewrite (IH b).
Qed.

Lemma ifname_padded n : (String.length n <= 15)%nat -> ifname n = (bytes_of n ++ replicate (16 - String.length n) 0)%list.
Proof.
  intros Hn. unfold ifname. cbv zeta. rewrite length_app, length_bytes_of. cbn [length].
  rewrite take_ge by (rewrite length_app, length_bytes_of; cbn; lia). rewrite <- app_assoc. f_equal.
  by replace (16 - String.length n)%nat with (S (16 - (String.length n + 1))) by lia.
Qed.

(** The mask picks the flags SYN (bit 1) and RST (bit 2). *)
Lemma syn_flags f : Z.land f 6 = 2 <-> Z.testbit f 1 = true /\ Z.testbit f 2 = false.
Proof.
  split.
  - intros E. pose proof (Z.land_spec f 6 1) as H1. pose proof (Z.land_spec f 6 2) as H2. rewrite E in H1, H2.
    change (Z.testbit 2 1) with true in H1. change (Z.testbit 6 1) with true in H1. change (Z.testbit 2 2) with false in H2.
    change (Z.testbit 6 2) with true in H2. rewrite andb_true_r in *. by rewrite <- H1, <- H2.
  - intros [H1 H2]. apply Z.bits_inj'. intros n Hn. rewrite Z.land_spec.
    assert (n = 0 \/ n = 1 \/ n = 2 \/ 3 <= n) as [-> | [-> | [-> | Hbig]]] by lia.
    + change (Z.testbit 6 0) with false. by rewrite andb_false_r.
    + by rewrite H1.
    + by rewrite H2.
    + rewrite (Z.bits_above_log2 6), (Z.bits_above_log2 2) by (try done; cbn; lia). apply andb_false_r.
Qed.

(** A TCP segment that opens a connection. *)
Definition opens (p : packet) : Prop :=
  l4proto p = IPPROTO_TCP /\ exists flags, transport p !! 13%nat = Some flags /\ Z.testbit flags 1 = true /\ Z.testbit flags 2 = false.

Lemma slice_one i (l : list Z) x : l !! i = Some x -> slice i (i + 1) l = [x].
Proof.
  intros Hl. unfold slice. replace (i + 1 - i)%nat with 1%nat by lia. rewrite (drop_S l x i Hl). done.
Qed.

(** The comparisons let through exactly the segments that open a connection through the interface. *)
Lemma rule_reaches_size iface p : iface_name iface -> iface_name (oif p) -> 0 <= route_mss p < 2 ^ 16 ->
  run_rule (mss_rule iface) (fun _ => []) p =
    match (if bool_decide (oif p = iface) && (l4proto p =? IPPROTO_TCP)
           then f ← transport p !! 13%nat; if Z.land f 6 =? 2 then mss p else None else None) with
    | Some old => with_mss (Z.min old (route_mss p)) p
    | None => p
    end.
Proof.
  intros [Hl Hz] [Hl' Hz'] Hm. unfold mss_rule. cbn [run_rule step_expr Nat.eqb]. rewrite ifname_padded by done.
  rewrite take_ge by (rewrite !length_app, !length_replicate, !length_bytes_of; lia).
  destruct (decide (oif p = iface)) as [E | E].
  2: { rewrite !bool_decide_eq_false_2; [done | done |]. intros E'. by apply padded_inj, bytes_of_inj in E'. }
  subst iface. rewrite (bool_decide_eq_true_2 (oif p = oif p)), (bool_decide_eq_true_2 (_ ++ _ = _)%list) by done.
  cbn [andb run_rule step_expr length take Nat.eqb].
  destruct (Z.eqb_spec (l4proto p) IPPROTO_TCP) as [Ep | Ep].
  2: { by rewrite bool_decide_eq_false_2 by congruence. }
  rewrite bool_decide_eq_true_2 by by rewrite Ep. cbn [run_rule step_expr]. change (13 + 1)%nat with 14%nat.
  destruct (transport p !! 13%nat) as [f |] eqn:Ef; cbn [mbind option_bind].
  2: { apply lookup_ge_None in Ef. by rewrite (proj2 (Nat.leb_gt 14 (length (transport p)))) by lia. }
  apply lookup_lt_Some in Ef as Hlt. rewrite (proj2 (Nat.leb_le 14 (length (transport p)))) by lia.
  change 14%nat with (13 + 1)%nat. rewrite (slice_one 13 _ f Ef). cbn [run_rule step_expr Nat.eqb take zip_with length]. rewrite Z.lxor_0_r.
  destruct (Z.eqb_spec (Z.land f 6) 2) as [Eb | Eb]; [| by rewrite bool_decide_eq_false_2 by congruence].
  rewrite bool_decide_eq_true_2 by by rewrite Eb. cbn [run_rule step_expr Nat.eqb]. destruct (mss p) as [old |]; [| done].
  cbn [Z.eqb andb Nat.eqb]. change (Pos.eqb 2 2) with true. cbn [andb].
  assert (take 2 (be_put 2 (route_mss p)) = be_put 2 (route_mss p)) as -> by done.
  rewrite be_get_put. change (8 * Z.of_nat 2) with 16. by rewrite Z.mod_small.
Qed.

(** The rule lowers the announced segment size of a connection opened through the interface to what its route
    allows, never raises one, and changes no other packet. *)
Theorem mss_clamped iface p : iface_name iface -> iface_name (oif p) -> 0 <= route_mss p < 2 ^ 16 ->
  let p' := run_rule (mss_rule iface) (fun _ => []) p in
  (oif p = iface -> opens p -> forall old, mss p = Some old -> p' = with_mss (Z.min old (route_mss p)) p) /\
  (oif p <> iface \/ ~ opens p \/ mss p = None -> p' = p).
Proof.
  intros Hi Ho Hm. cbv zeta. rewrite rule_reaches_size by done. split.
  - intros E [Hp (f & Hf & H1 & H2)] old Hold. rewrite bool_decide_eq_true_2, Hp, Hf, Hold by done. cbn [andb mbind option_bind Z.eqb].
    by rewrite (proj2 (Z.eqb_eq _ _) (proj2 (syn_flags f) (conj H1 H2))).
  - intros Hn. destruct (bool_decide_reflect (oif p = iface)) as [E |]; [| done]. destruct (Z.eqb_spec (l4proto p) IPPROTO_TCP) as [Hp |]; [| done].
    cbn [andb]. destruct (transport p !! 13%nat) as [f |] eqn:Ef; [| done]. cbn [mbind option_bind].
    destruct (Z.eqb_spec (Z.land f 6) 2) as [Hf%syn_flags |]; [| done]. destruct (mss p) as [old |]; [| done].
    destruct Hn as [? | [Hno | ?]]; [done | | done]. destruct Hno. split; [done |]. by exists f.
Qed.

(** ** Examples *)

Definition ex_syn (flags : Z) (size : option Z) : packet :=
  {| oif := "raw-qwdtt"; l4proto := 6; transport := (replicate 13 0 ++ [flags; 0; 0])%list; mss := size; route_mss := 1240 |}.

Example clamped : mss ∘ run_rule (mss_rule "raw-qwdtt") (fun _ => []) <$> [ex_syn 2 (Some 1460); ex_syn 18 (Some 1460); ex_syn 2 (Some 536);
    ex_syn 16 (Some 1460); ex_syn 6 (Some 1460); ex_syn 2 None] = [Some 1240; Some 1240; Some 536; Some 1460; Some 1460; None].
Proof. by vm_compute. Qed.

Lemma mss_clamped_witness : run_rule (mss_rule "raw-qwdtt") (fun _ => []) (ex_syn 2 (Some 1460)) = with_mss 1240 (ex_syn 2 (Some 1460)).
Proof.
  assert (iface_name "raw-qwdtt") as Hn by (split; [apply Nat.leb_le; by vm_compute |]; repeat constructor; by vm_compute).
  destruct (mss_clamped "raw-qwdtt" (ex_syn 2 (Some 1460)) Hn Hn) as [H _]; [cbn; lia |].
  refine (H eq_refl _ 1460 eq_refl). split; [reflexivity |]. exists 2. split; [reflexivity |]. split; reflexivity.
Defined.
