(* ===== verification/RawTun.v ===== *)
(** * The TUN device of the raw mode (internal/core/tun_linux.go): creating it, setting it up and taking it down.

    The kernel's part of the state is the interfaces, the routes and the nftables table; a call that succeeds changes
    it as netlink(7) and nft(8) say, and [outcome] says, from the history of the calls, which calls fail.  The session
    around it is that of core.go: the goroutine of the configuration and the one that ends the session are two programs
    (Threads.v) whose calls may interleave in any way. *)

From S2P Require Import Prelude Bytes GoStrings Effects Threads Ip NftRule Protocol.
From Stdlib Require Import ZArith Lia String Ascii.
From stdpp Require Import base list strings gmap.
Open Scope string_scope.
Open Scope Z_scope.

#[export] Instance IPNet_eq_dec : EqDecision IPNet.
Proof. solve_decision. Defined.

(** [ENOENT] is also an error whose text has "no such file or directory". *)
Inductive errno := ENOENT | EEXIST | OtherError.

Inductive ncall :=
| OpenTun | SetIff (name : string) | SetNonblock | CloseFd
| LinkByName (name : string) | LinkSetMTU (name : string) (m : Z) | AddrAdd (name : string) (net : IPNet) | LinkSetUp (name : string)
| RouteAdd (dst : IPNet) (dev : string) | RouteDel (dst : IPNet) (dev : string) | AddrDel (name : string) (net : IPNet) | LinkDel (name : string)
| DelTable | AddTable (c : chain).

Record link := { mtu : Z; addrs : list IPNet; up : bool }.

(** [rawNetworking]. *)
Record recorded := { iface : string; addr : string; added_routes : list string; mssSet : bool }.

Definition nothing : recorded := {| iface := ""; addr := ""; added_routes := []; mssSet := false |}.

(** The file of the device is not open, open, or open with its interface. *)
Inductive tun_fd := Closed | Unbound | Bound (name : string).

Record kstate := {
  trail : list ncall; links : gmap string link; routing : list (IPNet * string); table : option chain; fd : tun_fd; raw : recorded
}.

Definition noted (c : ncall) (s : kstate) : kstate :=
  {| trail := c :: trail s; links := links s; routing := routing s; table := table s; fd := fd s; raw := raw s |}.
Definition with_links (f : gmap string link -> gmap string link) (s : kstate) : kstate :=
  {| trail := trail s; links := f (links s); routing := routing s; table := table s; fd := fd s; raw := raw s |}.
Definition with_routing (f : list (IPNet * string) -> list (IPNet * string)) (s : kstate) : kstate :=
  {| trail := trail s; links := links s; routing := f (routing s); table := table s; fd := fd s; raw := raw s |}.
Definition with_table (t : option chain) (s : kstate) : kstate :=
  {| trail := trail s; links := links s; routing := routing s; table := t; fd := fd s; raw := raw s |}.
Definition with_fd (d : tun_fd) (s : kstate) : kstate :=
  {| trail := trail s; links := links s; routing := routing s; table := table s; fd := d; raw := raw s |}.
Definition with_raw (r : recorded) (s : kstate) : kstate :=
  {| trail := trail s; links := links s; routing := routing s; table := table s; fd := fd s; raw := r |}.

(** An interface goes with its routes. *)
Definition gone (name : string) (s : kstate) : kstate :=
  with_routing (filter (fun r => snd r <> name)) (with_links (delete name) s).

Section tun.
Context (outcome : list ncall -> ncall -> option errno).

Abbreviation M := (thread kstate).

(** A call with its effect when it succeeds. *)
Definition attempt (c : ncall) (f : kstate -> kstate) : State kstate (option errno) := fun s =>
  let r := outcome (trail s) c in (r, match r with None => f (noted c s) | Some _ => noted c s end).

Definition doing (c : ncall) (f : kstate -> kstate) : M (option errno) := call (attempt c f).

(** A call that must fail in some states. *)
Definition guarded (bad : kstate -> option errno) (c : ncall) (f : kstate -> kstate) : M (option errno) :=
  call (fun s => match bad s with Some e => (Some e, noted c s) | None => attempt c f s end).

(** A call on an interface, which must be there still: the interface was looked up before, but others run meanwhile. *)
Definition missing (name : string) (s : kstate) : option errno := match links s !! name with None => Some OtherError | Some _ => None end.

Definition on_dev (name : string) : ncall -> (kstate -> kstate) -> M (option errno) := guarded (missing name).

(** A step of a function that returns at the first error. *)
Definition first_error {E} (m : M (option errno)) (err : errno -> E) (k : M (option E)) : M (option E) :=
  r ← m; match r with Some e => mret (Some (err e)) | None => k end.

Definition found (name : string) : M bool :=
  r ← on_dev name (LinkByName name) (fun s => s);
  mret (match r with None => true | Some _ => false end).

Definition on_link (name : string) (f : link -> link) : kstate -> kstate := with_links (alter f name).

(** Closing the descriptor takes its interface away, unless a read that is going on keeps the file open. *)
Definition close_file (reading : bool) (s : kstate) : kstate :=
  noted CloseFd (if reading then s else match fd s with Bound name => with_fd Closed (gone name s) | _ => with_fd Closed s end).

Definition close_fd (reading : bool) : M unit := call (modify (close_file reading)).

(** ** Creating the device *)

Inductive create_error := OpenFailed | NewIfreqFailed | SetIffFailed | NonblockFailed.

Definition IFNAMSIZ : nat := 16.

Definition createRawTUN (name : string) : M (option create_error) :=
  first_error (doing OpenTun (with_fd Unbound)) (fun _ => OpenFailed)
    (if (IFNAMSIZ <=? String.length name)%nat then _ ← close_fd false; mret (Some NewIfreqFailed)
     else
       r ← guarded (fun s => match links s !! name with Some _ => Some OtherError | None => None end) (SetIff name)
             (fun s => with_fd (Bound name) (with_links (insert name {| mtu := 1500; addrs := []; up := false |}) s));
       match r with
       | Some _ => _ ← close_fd false; mret (Some SetIffFailed)
       | None =>
           r ← doing SetNonblock (fun s => s);
           match r with
           | Some _ => _ ← close_fd false; mret (Some NonblockFailed)
           | None => _ ← call (modify (with_raw {| iface := name; addr := ""; added_routes := []; mssSet := false |})); mret None
           end
       end).

(** ** Setting it up *)

Definition gone_already (e : errno) : bool := match e with ENOENT => true | _ => false end.

(** A batch that deletes the table. *)
Definition del_table : M (option errno) :=
  guarded (fun s => match table s with None => Some ENOENT | Some _ => None end) DelTable (with_table None).

Definition setupRawMSSClampingNFT (name : string) : M (option errno) :=
  r ← del_table;
  match r with
  | Some e => if gone_already e then doing (AddTable (mss_chain name)) (with_table (Some (mss_chain name))) else mret (Some e)
  | None => doing (AddTable (mss_chain name)) (with_table (Some (mss_chain name)))
  end.

Inductive setup_error := BadRawIP | LookupFailed | MtuFailed | AddrFailed | UpFailed | RouteFailed (cidr : string) | MssFailed.

Definition halves : list string := ["0.0.0.0/1"; "128.0.0.0/1"].

(** A route whose destination has one already is refused, whatever its device. *)
Definition route_refused (dst : IPNet) (dev : string) (s : kstate) : option errno :=
  match missing dev s with
  | Some e => Some e
  | None => if existsb (fun r => bool_decide (fst r = dst)) (routing s) then Some EEXIST else None
  end.

Definition route_add (dst : IPNet) (dev : string) : M (option errno) :=
  guarded (route_refused dst dev) (RouteAdd dst dev) (with_routing (cons (dst, dev))).

Fixpoint add_routes (name : string) (cidrs added : list string) : M (result setup_error (list string)) :=
  match cidrs with
  | [] => mret (Ok added)
  | cidr :: rest =>
      match ParseCIDR cidr with
      | None => add_routes name rest added
      | Some (_, dst) =>
          r ← route_add dst name;
          match r with
          | None | Some EEXIST => add_routes name rest (added ++ [cidr])%list
          | Some _ => mret (Err (RouteFailed cidr))
          end
      end
  end.

Definition host_net (ip : list Z) : IPNet := {| net_ip := ip; net_mask := CIDRMask 32 4 |}.

(** From the address on. *)
Definition setup_routes (name : string) (ip : list Z) : M (result setup_error (list string)) :=
  r ← on_dev name (AddrAdd name (host_net ip)) (on_link name (fun l => {| mtu := mtu l; addrs := host_net ip :: addrs l; up := up l |}));
  match r with
  | Some _ => mret (Err AddrFailed)
  | None =>
      r ← on_dev name (LinkSetUp name) (on_link name (fun l => {| mtu := mtu l; addrs := addrs l; up := true |}));
      match r with
      | Some _ => mret (Err UpFailed)
      | None =>
          r ← add_routes name halves [];
          match r with
          | Err e => mret (Err e)
          | Ok added =>
              r ← setupRawMSSClampingNFT name;
              mret (match r with
                    | Some e => if gone_already e then Ok added else Err MssFailed
                    | None => Ok added
                    end)
          end
      end
  end.

(** Everything but the record of it. *)
Definition setup_calls (name a : string) (m : Z) : M (result setup_error (list string)) :=
  match ParseIP a with
  | None => mret (Err BadRawIP)
  | Some ip =>
      match To4 ip with
      | None => mret (Err BadRawIP)
      | Some _ =>
          ok ← found name;
          if negb ok then mret (Err LookupFailed)
          else
            r ← (if 0 <? m then on_dev name (LinkSetMTU name m) (on_link name (fun l => {| mtu := m; addrs := addrs l; up := up l |})) else mret None);
            match r with
            | Some _ => mret (Err MtuFailed)
            | None => setup_routes name ip
            end
      end
  end.

Definition record_setup (a : string) (added : list string) : M unit :=
  call (modify (fun s => with_raw {| iface := iface (raw s); addr := a; added_routes := added; mssSet := true |} s)).

Definition setupRawTUN (name a : string) (m : Z) : M (option setup_error) :=
  r ← setup_calls name a m;
  match r with
  | Err e => mret (Some e)
  | Ok added => _ ← record_setup a added; mret None
  end.

(** ** Taking it down *)

Fixpoint del_routes (name : string) (cidrs : list string) : M unit :=
  match cidrs with
  | [] => mret tt
  | cidr :: rest =>
      _ ← match ParseCIDR cidr with
          | Some (_, dst) => on_dev name (RouteDel dst name) (with_routing (filter (fun r => r <> (dst, name))))
          | None => mret None
          end;
      del_routes name rest
  end.

Definition remove_addr (name : string) (net : IPNet) (l : link) : link :=
  {| mtu := mtu l; addrs := filter (fun a => a <> net) (addrs l); up := up l |}.

(** The record is taken and emptied under its lock. *)
Definition take_record : M recorded := call (fun s => (raw s, with_raw nothing s)).

Definition unlinked (name : string) (s : kstate) : kstate :=
  gone name (match fd s with Bound n => if String.eqb n name then with_fd Closed s else s | _ => s end).

Definition remove_device (r : recorded) : M unit :=
  _ ← del_routes (iface r) (added_routes r);
  _ ← (if String.eqb (addr r) "" then mret tt
       else match ParseIP (addr r) with
            | Some ip => _ ← on_dev (iface r) (AddrDel (iface r) (host_net ip)) (on_link (iface r) (remove_addr (iface r) (host_net ip))); mret tt
            | None => mret tt
            end);
  _ ← on_dev (iface r) (LinkDel (iface r)) (unlinked (iface r));
  mret tt.

Definition teardownRawTUN : M unit :=
  r ← take_record;
  if String.eqb (iface r) "" then mret tt
  else
    _ ← (if mssSet r then _ ← del_table; mret tt else mret tt);
    ok ← found (iface r);
    if negb ok then mret tt else remove_device r.

(** ** The session (core.go): the device is created; then a goroutine waits for the configuration and sets the device
    up, and another one waits for the workers, closes the device and takes it down.  Nobody waits for the first one,
    so that its calls fall before, between and after those of the second one. *)

Definition on_config (name : string) (patch : string -> string) (conf : string) : M (list config_event) :=
  let '(call, events) := handle_config patch conf in
  _ ← match call with Some (ip, m) => setupRawTUN name ip m | None => mret None end;
  mret events.

Definition configuring (name : string) (patch : string -> string) (conf : option string) : M (list config_event) :=
  match conf with Some c => on_config name patch c | None => mret [] end.

Definition ending (reading : bool) : M unit := _ ← close_fd reading; teardownRawTUN.

(** The two goroutines by a schedule ([First] is the ending); then the rest of the ending and [late] further calls of
    the configuration.  The result is the events, if the configuration was done with. *)
Definition raw_session (name : string) (patch : string -> string) (conf : option string) (reading : bool) (sched : list turn) (late : nat)
    : State kstate (result create_error (option (list config_event))) :=
  e ← run (createRawTUN name);
  match e with
  | Some e => mret (Err e)
  | None => fun s =>
      let '(d, c, s1) := in_turns sched (ending reading) (configuring name patch conf) s in
      let '(c', s2) := steps late c (run d s1).2 in
      (Ok (finished c'), s2)
  end.

(** ** What a session leaves *)

Lemma doing_sat (P : kstate -> Prop) c f (Q : option errno -> kstate -> Prop) :
  (forall s, P s -> outcome (trail s) c = None -> Q None (f (noted c s))) -> (forall s e, P s -> outcome (trail s) c = Some e -> Q (Some e) (noted c s)) ->
  sat P (doing c f) Q.
Proof. intros Hok Herr. apply sat_call. intros s Hs. unfold attempt. cbn [fst snd]. destruct (outcome _ _) eqn:E; auto. Qed.

Lemma guarded_sat (P : kstate -> Prop) bad c f (Q : option errno -> kstate -> Prop) :
  (forall s, P s -> bad s = None -> outcome (trail s) c = None -> Q None (f (noted c s))) ->
  (forall s e, P s -> bad s = Some e \/ outcome (trail s) c = Some e -> Q (Some e) (noted c s)) -> sat P (guarded bad c f) Q.
Proof.
  intros Hok Herr. apply sat_call. intros s Hs. destruct (bad s) eqn:Eb; [by apply Herr; [| left] |]. unfold attempt. cbn [fst snd].
  destruct (outcome _ _) eqn:E; auto.
Qed.

Section session.
Context (name : string) (s0 : kstate).
Hypothesis fresh_name : links s0 !! name = None.
Hypothesis fresh_routes : Forall (fun r => snd r <> name) (routing s0).

(** The state without the interface is that before the session. *)
Definition apart (s : kstate) : Prop :=
  delete name (links s) = links s0 /\ filter (fun r => snd r <> name) (routing s) = routing s0.

Definition clean (s : kstate) : Prop := links s = links s0 /\ routing s = routing s0.

(** Nothing but the interface is new, and nothing without it. *)
Definition own (s : kstate) : Prop := apart s /\ (links s !! name = None -> clean s).

Definition present (s : kstate) : Prop := apart s /\ is_Some (links s !! name) /\ fd s = Bound name.

Definition table_left (s : kstate) : Prop := table s = None \/ table s = table s0.

Lemma clean_apart s : clean s -> apart s.
Proof.
  intros [Hl Hr]. split; rewrite ?Hl, ?Hr; [by apply delete_id |]. clear -fresh_routes.
  revert fresh_routes. induction (routing s0) as [| r l IH]; [done |]. intros [Hr Hl]%Forall_cons.
  rewrite filter_cons_True by done. by rewrite IH.
Qed.

Lemma gone_clean s : apart s -> clean (gone name s).
Proof. by intros [Hl Hr]. Qed.

(** *** What the configuration does while the session ends *)

Definition meanwhile (s s' : kstate) : Prop :=
  (own s -> own s') /\ (links s' !! name = None <-> links s !! name = None) /\ fd s' = fd s /\ iface (raw s') = iface (raw s).

#[export] Instance meanwhile_preorder : PreOrder meanwhile.
Proof.
  split; [by intros s |]. intros s1 s2 s3 (H1 & H2 & H3 & H4) (H5 & H6 & H7 & H8).
  split; [auto |]. split; [by rewrite H6 |]. split; congruence.
Qed.

Lemma guarded_within bad c f : (forall s, bad (noted c s) = bad s) -> (forall s, bad s = None -> meanwhile s (f s)) -> within meanwhile (guarded bad c f).
Proof.
  intros Hb Hf. apply within_call. intros s. destruct (bad s) eqn:E; [by cbn |]. unfold attempt. cbn [snd].
  destruct (outcome _ _); [by cbn |]. apply (Hf (noted c s)). by rewrite Hb.
Qed.

Lemma doing_within c f : (forall s, meanwhile s (f s)) -> within meanwhile (doing c f).
Proof. intros Hf. apply within_call. intros s. unfold attempt. cbn [snd]. destruct (outcome _ _); [by cbn | apply (Hf (noted c s))]. Qed.

(** A call on the interface, which is there. *)
Lemma present_meanwhile f s : (apart s -> apart (f s)) -> is_Some (links (f s) !! name) -> fd (f s) = fd s -> raw (f s) = raw s ->
  is_Some (links s !! name) -> meanwhile s (f s).
Proof.
  intros Ha [l' Hl'] Hf Hr [l Hl]. split; [intros [H1 _]; split; [auto |]; by rewrite Hl' |]. split; [by rewrite Hl, Hl' |].
  by rewrite Hf, Hr.
Qed.

Lemma missing_there s : missing name s = None -> is_Some (links s !! name).
Proof. unfold missing. by destruct (links s !! name). Qed.

Lemma on_dev_within c f : (forall s, is_Some (links s !! name) -> meanwhile s (f s)) -> within meanwhile (on_dev name c f).
Proof. intros Hf. apply guarded_within; [done |]. intros s Hs. by apply Hf, missing_there. Qed.

Lemma on_link_meanwhile g s : is_Some (links s !! name) -> meanwhile s (on_link name g s).
Proof.
  intros Hl. apply present_meanwhile; try done.
  - intros [H1 H2]. split; [| done]. cbn. by rewrite delete_alter_eq.
  - cbn. rewrite lookup_alter_eq. by apply fmap_is_Some.
Qed.

Lemma routing_meanwhile g s : (forall l, filter (fun r => snd r <> name) (g l) = filter (fun r => snd r <> name) l) ->
  is_Some (links s !! name) -> meanwhile s (with_routing g s).
Proof. intros Hg Hl. apply present_meanwhile; try done. intros [H1 H2]. split; [done |]. cbn. by rewrite Hg. Qed.

Lemma del_table_within : within meanwhile del_table.
Proof. by apply guarded_within. Qed.

Lemma mss_within : within meanwhile (setupRawMSSClampingNFT name).
Proof.
  unfold setupRawMSSClampingNFT. apply within_bind; [apply del_table_within |].
  intros [e |]; [destruct (gone_already e); [| apply within_ret] |]; by apply doing_within.
Qed.

Lemma found_within : within meanwhile (found name).
Proof. apply within_bind; [by apply on_dev_within | intros r; apply within_ret]. Qed.

Lemma route_add_within dst : within meanwhile (route_add dst name).
Proof.
  apply guarded_within; [done |]. intros s Hs. apply routing_meanwhile.
  - intros l. by rewrite filter_cons_False by (intros E; by apply E).
  - apply missing_there. unfold route_refused in Hs. by destruct (missing name s).
Qed.

Lemma add_routes_within cidrs added : within meanwhile (add_routes name cidrs added).
Proof.
  revert added. induction cidrs as [| cidr rest IH]; intros added; cbn [add_routes]; [apply within_ret |].
  destruct (ParseCIDR cidr) as [[ip dst] |]; [| apply IH]. apply within_bind; [apply route_add_within |].
  intros [[] |]; first [apply IH | apply within_ret].
Qed.

Lemma setup_within a m : within meanwhile (setup_calls name a m).
Proof.
  unfold setup_calls. destruct (ParseIP a) as [ip |]; [| apply within_ret]. destruct (To4 ip); [| apply within_ret].
  apply within_bind; [apply found_within |]. intros []; cbn [negb]; [| apply within_ret].
  apply within_bind; [destruct (0 <? m); [apply on_dev_within, on_link_meanwhile | apply within_ret] |].
  intros [e |]; [apply within_ret |]. unfold setup_routes. apply within_bind; [apply on_dev_within, on_link_meanwhile |].
  intros [e |]; [apply within_ret |]. apply within_bind; [apply on_dev_within, on_link_meanwhile |].
  intros [e |]; [apply within_ret |]. apply within_bind; [apply add_routes_within |].
  intros [added | e]; [| apply within_ret]. apply within_bind; [apply mss_within |]. intros e. apply within_ret.
Qed.

Lemma configuring_within patch conf : within meanwhile (configuring name patch conf).
Proof.
  destruct conf as [conf |]; [| apply within_ret]. cbn. unfold on_config. destruct (handle_config patch conf) as [[[ip m] |] events]; [| done].
  apply within_bind; [| intros r; apply within_ret]. unfold setupRawTUN. apply within_bind; [apply setup_within |].
  intros [added | e]; [| apply within_ret]. by apply within_bind; [apply within_call | intros []; apply within_ret].
Qed.

(** *** The ending, whatever the configuration does meanwhile *)

Section ending.
Context (reading : bool).
Hypothesis named : name <> "".
Hypothesis removed : reading = true -> forall h, outcome h (LinkByName name) = None /\ outcome h (LinkDel name) = None.

(** The interface there or not, and what the record says of it. *)
Definition at_end (there : bool) (recorded_as : string) (s : kstate) : Prop :=
  own s /\ (links s !! name = None <-> there = false) /\ iface (raw s) = recorded_as /\ (there = true -> fd s = Bound name).

Lemma at_end_stable b n s s' : meanwhile s s' -> at_end b n s -> at_end b n s'.
Proof. intros (H1 & H2 & H3 & H4) (H5 & H6 & H7 & H8). split; [auto |]. rewrite H2, H3, H4. by split. Qed.

Lemma at_end_keeps {A} b n (p : M A) s : within meanwhile p -> at_end b n s -> wp meanwhile p (fun _ => at_end b n) s.
Proof. apply wp_keeps. intros s1 s2. apply at_end_stable. Qed.

Lemma close_ends s : at_end true name s -> wp meanwhile (close_fd reading) (fun _ => at_end reading name) s.
Proof.
  intros Hs. apply wp_call. intros s1 H1 s2 H2. eapply at_end_stable; [exact H2 |]. eapply at_end_stable in Hs as (Ho & Hl & Hi & Hf); [| exact H1].
  unfold close_file. cbn [modify snd]. destruct reading; [by split |]. rewrite (Hf eq_refl). pose proof (gone_clean s1 (proj1 Ho)) as Hc.
  split; [split; [by apply (clean_apart (gone name s1)) | by intros _] |]. split; [| by split]. cbn. by rewrite lookup_delete_eq.
Qed.

Lemma unlinked_end b s : at_end b "" s -> at_end false "" (unlinked name s).
Proof.
  intros (Ho & Hl & Hi & Hf). unfold unlinked. set (t := match fd s with Bound n => if String.eqb n name then with_fd Closed s else s | _ => s end).
  assert (links t = links s /\ routing t = routing s /\ raw t = raw s) as (E1 & E2 & E3) by (unfold t; destruct (fd s); try done; by destruct (String.eqb _ _)).
  assert (apart t) as Ha by (unfold apart; rewrite E1, E2; apply Ho). pose proof (gone_clean t Ha) as Hc.
  split; [split; [by apply (clean_apart (gone name t)) | by intros _] |]. split; [cbn; by rewrite lookup_delete_eq |]. split; [| done].
  cbn. by rewrite E3.
Qed.

Lemma del_routes_within cidrs : within meanwhile (del_routes name cidrs).
Proof.
  induction cidrs as [| cidr rest IH]; cbn [del_routes]; [apply within_ret |]. apply within_bind; [| intros _; apply IH].
  destruct (ParseCIDR cidr) as [[ip dst] |]; [| apply within_ret]. apply on_dev_within. intros s. apply routing_meanwhile.
  intros l. rewrite list_filter_filter_l; [done |]. by intros [d n] Hne [= -> ->].
Qed.

Lemma device_ends b r s : iface r = name -> (b = true -> reading = true) -> at_end b "" s ->
  wp meanwhile (remove_device r) (fun _ => at_end false "") s.
Proof.
  intros Hi Hb Hs. unfold remove_device. rewrite Hi. apply (wp_bind meanwhile); apply (wp_weaken _ _ (fun _ => at_end b "")); [| by apply at_end_keeps; [apply del_routes_within |]].
  clear s Hs. intros _ s Hs. apply (wp_bind meanwhile); apply (wp_weaken _ _ (fun _ => at_end b "")).
  - clear s Hs. intros _ s Hs. apply (wp_bind meanwhile); apply wp_call. intros s1 H1 s2 H2. apply wp_ret. intros s3 H3.
    eapply at_end_stable; [exact H3 |]. eapply at_end_stable; [exact H2 |]. eapply at_end_stable in Hs; [| exact H1].
    destruct (missing name s1) eqn:Em.
    + cbn. destruct Hs as (Ho & Hl & Hr & Hf). split; [done |]. split; [| done]. split; [done |]. intros _. cbn. unfold missing in Em. by destruct (links s1 !! name).
    + unfold attempt. cbn [snd]. destruct (outcome _ _) eqn:Eo; [| by apply (unlinked_end b)].
      assert (b = true) as -> by (apply missing_there in Em as [l El]; destruct Hs as (_ & [_ Hl] & _); destruct b; [done |]; by rewrite Hl in El).
      destruct (removed (Hb eq_refl) (trail s1)). congruence.
  - apply at_end_keeps; [| done]. destruct (String.eqb (addr r) ""); [apply within_ret |]. destruct (ParseIP (addr r)); [| apply within_ret].
    apply within_bind; [apply on_dev_within, on_link_meanwhile | intros _; apply within_ret].
Qed.

Lemma found_ends b s : (b = true -> reading = true) -> at_end b "" s ->
  wp meanwhile (found name) (fun ok s => at_end b "" s /\ (ok = false -> b = false)) s.
Proof.
  intros Hb Hs. apply (wp_bind meanwhile); apply wp_call. intros s1 H1 s2 H2. apply wp_ret. intros s3 H3. eapply at_end_stable in Hs; [| exact H1].
  assert (at_end b "" (noted (LinkByName name) s1)) as Hn by exact Hs. split.
  - eapply at_end_stable; [exact H3 |]. eapply at_end_stable; [exact H2 |]. destruct (missing name s1); [done |]. unfold attempt. cbn. by destruct (outcome _ _).
  - destruct b; [| done]. destruct Hs as (_ & Hl & _). unfold missing. destruct (links s1 !! name) eqn:El; [| by discriminate (proj1 Hl eq_refl)].
    unfold attempt. cbn [fst]. by rewrite (proj1 (removed (Hb eq_refl) (trail s1))).
Qed.

(** The ending leaves interfaces and routes as before, and no interface recorded. *)
Lemma ending_ends s : at_end true name s -> wp meanwhile (ending reading) (fun _ => at_end false "") s.
Proof.
  intros Hs. apply (wp_bind meanwhile); apply (wp_weaken _ _ (fun _ => at_end reading name)); [| by apply close_ends].
  clear s Hs. intros _ s Hs. apply (wp_bind meanwhile); apply wp_call. intros s1 H1 s2 H2. eapply at_end_stable in Hs; [| exact H1].
  assert (iface (raw s1) = name) as Hi by apply Hs. cbn [fst]. rewrite Hi, (proj2 (String.eqb_neq name "")) by done.
  assert (at_end reading "" s2) as Hs2 by (eapply at_end_stable; [exact H2 |]; by destruct Hs as (? & ? & _ & ?)). clear Hs H1 H2.
  apply (wp_bind meanwhile); apply (wp_weaken _ _ (fun _ => at_end reading "")).
  - clear s2 Hs2. intros _ s2 Hs2. apply (wp_bind meanwhile). eapply wp_weaken; [| by apply (found_ends reading)].
    cbn beta. intros [] s3 [H3 Hok]; cbn [negb]; [by apply (device_ends reading) |]. apply wp_ret. intros s4 H4.
    rewrite (Hok eq_refl) in H3. by eapply at_end_stable.
  - apply at_end_keeps; [| done]. destruct (mssSet (raw s1)); [| apply within_ret]. apply within_bind; [apply del_table_within | intros _; apply within_ret].
Qed.
End ending.

(** *** The record and the table, when the configuration is done with before the ending *)

(** The table of a session that does not end its setup is the one before or none; the record is made at the end. *)
Definition unrecorded (s : kstate) : Prop := table_left s /\ raw s = {| iface := name; addr := ""; added_routes := []; mssSet := false |}.

Lemma dev_unrecorded c f : (forall s, table (f s) = table s /\ raw (f s) = raw s) -> keeps unrecorded (on_dev name c f).
Proof.
  intros Hf. apply guarded_sat; [intros s [Ht Hr] _ _ | by intros s e Hs]. destruct (Hf (noted c s)) as [Et Er].
  unfold unrecorded, table_left. by rewrite Et, Er.
Qed.

Definition maybe_tabled {A} (r : result setup_error A) (s : kstate) : Prop :=
  raw s = {| iface := name; addr := ""; added_routes := []; mssSet := false |} /\ match r with Ok _ => True | Err _ => table_left s end.

Lemma mss_tabled : sat unrecorded (setupRawMSSClampingNFT name) (fun r s =>
  raw s = {| iface := name; addr := ""; added_routes := []; mssSet := false |} /\ match r with Some _ => table_left s | None => True end).
Proof.
  assert (sat unrecorded (doing (AddTable (mss_chain name)) (with_table (Some (mss_chain name)))) (fun r s =>
    raw s = {| iface := name; addr := ""; added_routes := []; mssSet := false |} /\ match r with Some _ => table_left s | None => True end)) as Hadd
    by (apply doing_sat; [by intros s [Ht Hr] _ | by intros s e [Ht Hr]]).
  unfold setupRawMSSClampingNFT, del_table. apply (sat_then _ _ (fun _ => unrecorded)).
  - apply guarded_sat; [intros s [Ht Hr] _ _; split; [by left | done] | by intros s e Hs].
  - intros [e |]; [| done]. destruct (gone_already e); [done |]. apply sat_done. by intros s [Ht Hr].
Qed.

Lemma add_routes_unrecorded cidrs added : keeps unrecorded (add_routes name cidrs added).
Proof.
  revert added. induction cidrs as [| cidr rest IH]; intros added; cbn [add_routes]; [apply keeps_done |].
  destruct (ParseCIDR cidr) as [[ip dst] |]; [| apply IH]. apply keeps_then.
  - by apply guarded_sat; [intros s Hs _ _ | intros s e Hs].
  - intros [[] |]; first [apply IH | apply keeps_done].
Qed.

Lemma failed_unrecorded {A} (e : setup_error) : sat unrecorded (mret (Err e)) (@maybe_tabled A).
Proof. apply sat_done. by intros s [Ht Hr]. Qed.

Lemma setup_tabled a m : sat unrecorded (setup_calls name a m) maybe_tabled.
Proof.
  unfold setup_calls. destruct (ParseIP a) as [ip |]; [| apply failed_unrecorded]. destruct (To4 ip); [| apply failed_unrecorded].
  apply (sat_then _ _ (fun _ => unrecorded)).
  { apply keeps_then; [by apply guarded_sat; [intros s Hs _ _ | intros s e Hs] | intros []; apply keeps_done]. }
  intros []; cbn [negb]; [| apply failed_unrecorded]. apply (sat_then _ _ (fun _ => unrecorded)).
  { destruct (0 <? m); [by apply dev_unrecorded | apply keeps_done]. }
  intros [e |]; [apply failed_unrecorded |]. unfold setup_routes. apply (sat_then _ _ (fun _ => unrecorded)); [by apply dev_unrecorded |].
  intros [e |]; [apply failed_unrecorded |]. apply (sat_then _ _ (fun _ => unrecorded)); [by apply dev_unrecorded |].
  intros [e |]; [apply failed_unrecorded |]. apply (sat_then _ _ (fun _ => unrecorded)); [apply add_routes_unrecorded |].
  intros [added | e]; [| apply failed_unrecorded]. eapply sat_then; [apply mss_tabled |]. intros r.
  apply sat_done. intros s [Hr Ht]. split; [done |]. by destruct r as [[] |].
Qed.

(** What teardown needs: the record names the interface, and a table of the session is recorded. *)
Definition recorded_right (s : kstate) : Prop := iface (raw s) = name /\ (mssSet (raw s) = false -> table_left s).

Lemma setup_recorded a m : sat unrecorded (setupRawTUN name a m) (fun _ => recorded_right).
Proof.
  unfold setupRawTUN. eapply sat_then; [apply setup_tabled |]. intros [added | e].
  - apply (sat_then _ _ (fun _ => recorded_right)); [apply sat_call, sat_modify; intros s [Hr _]; split; cbn; by rewrite ?Hr |].
    intros []. by apply sat_done.
  - apply sat_done. intros s [Hr Ht]. split; [by rewrite Hr | done].
Qed.

Definition unused (s : kstate) : Prop := clean s /\ table s = table s0 /\ fd s = Closed /\ raw s = nothing.

Lemma close_unused {E} (e : E) s : clean s /\ table s = table s0 /\ fd s = Unbound /\ raw s = nothing -> unused (run (_ ← close_fd false; mret (Some e)) s).2.
Proof. intros (Hc & Ht & Hf & Hr). rewrite run_then. unfold close_fd. cbn. unfold close_file. by rewrite Hf. Qed.

(** The device while it is created: not bound, or bound with its interface. *)
Lemma create_sat : sat unused (createRawTUN name)
  (fun r s => match r with None => present s /\ unrecorded s | Some _ => unused s end).
Proof.
  unfold createRawTUN, first_error.
  eapply (sat_then _ _ (fun r s => match r with None => clean s /\ table s = table s0 /\ fd s = Unbound /\ raw s = nothing | Some _ => unused s end)).
  { apply doing_sat; [by intros s (Hc & Ht & Hf & Hr) _ | by intros s e Hs]. }
  intros [e |]; [by apply sat_done |]. destruct (_ <=? _)%nat.
  { intros s Hs. by apply close_unused. }
  eapply (sat_then _ _ (fun r s => match r with
    | None => present s /\ table s = table s0 /\ raw s = nothing
    | Some _ => clean s /\ table s = table s0 /\ fd s = Unbound /\ raw s = nothing end)).
  { apply guarded_sat; [| by intros s e Hs]. intros s ((Hl & Hro) & Ht & Hf & Hr) Hn _. split; [| done]. split; [| split; [| done]].
    - pose proof (clean_apart s (conj Hl Hro)) as [Ha Hb]. split; [| done]. cbn. rewrite Hl in *. by rewrite delete_insert_id.
    - cbn. rewrite lookup_insert_eq. by eexists. }
  intros [e |].
  { intros s Hs. by apply close_unused. }
  eapply (sat_then _ _ (fun _ s => present s /\ table s = table s0 /\ raw s = nothing)); [by apply doing_sat; [intros s Hs _ | intros s e Hs] |].
  intros [e |] s (Hp & Ht & Hr).
  - destruct Hp as (Ha & _ & Hf). rewrite run_then. unfold close_fd. cbn. unfold close_file. by rewrite Hf.
  - split; [exact Hp |]. split; [right; exact Ht | done].
Qed.

(** A deletion of the table that was tried and refused. *)
Definition refused_table (s : kstate) : Prop := exists h e, outcome h DelTable = Some e /\ (DelTable :: h) `suffix_of` trail s.

Definition settled (s : kstate) : Prop := (table_left s \/ refused_table s) /\ raw s = nothing.

Lemma settled_mono s s' : table s' = table s -> raw s' = raw s -> trail s `suffix_of` trail s' -> settled s -> settled s'.
Proof.
  intros Et Er Hs [Ht Hr]. split; [| by rewrite Er]. destruct Ht as [Ht | (h & e & Ho & Hh)]; [left; unfold table_left; by rewrite Et |].
  right. exists h, e. split; [done |]. by etrans.
Qed.

Lemma dev_settled c f : (forall s, table (f s) = table s /\ raw (f s) = raw s /\ trail (f s) = trail s) -> keeps settled (on_dev name c f).
Proof.
  intros Hf. assert (forall s, settled s -> settled (noted c s)) as Hn by (intros s; apply settled_mono; [done | done | by apply suffix_cons_r]).
  apply guarded_sat; [| auto]. intros s Hs _ _. destruct (Hf (noted c s)) as (Et & Er & Es).
  apply (settled_mono (noted c s)); [done | done | by rewrite Es | by apply Hn].
Qed.

Lemma del_table_settled : sat (fun s => raw s = nothing) del_table (fun _ => settled).
Proof.
  apply sat_call. intros s Hr. destruct (table s) eqn:Et; [| by split; [left; left |]]. unfold attempt. cbn [fst snd].
  destruct (outcome (trail s) DelTable) as [e |] eqn:E; [| by split; [left; left |]]. split; [right | done]. by exists (trail s), e.
Qed.

Lemma del_routes_settled cidrs : keeps settled (del_routes name cidrs).
Proof.
  induction cidrs as [| cidr rest IH]; cbn [del_routes]; [apply keeps_done |]. apply keeps_then; [| intros _; apply IH].
  destruct (ParseCIDR cidr) as [[ip dst] |]; [by apply dev_settled | apply keeps_done].
Qed.

Lemma unlinked_unseen s : table (unlinked name s) = table s /\ raw (unlinked name s) = raw s /\ trail (unlinked name s) = trail s.
Proof. unfold unlinked. destruct (fd s) as [| | n]; try done. by destruct (String.eqb n name). Qed.

Lemma device_settled r : iface r = name -> keeps settled (remove_device r).
Proof.
  intros Hi. unfold remove_device. rewrite Hi. apply keeps_then; [apply del_routes_settled |]. intros _. apply keeps_then.
  - destruct (String.eqb (addr r) ""); [apply keeps_done |]. destruct (ParseIP (addr r)); [| apply keeps_done].
    apply keeps_then; [by apply dev_settled | intros _; apply keeps_done].
  - intros _. apply keeps_then; [apply dev_settled, unlinked_unseen | intros _; apply keeps_done].
Qed.

Lemma found_settled : keeps settled (found name).
Proof. apply keeps_then; [by apply dev_settled | intros r; apply keeps_done]. Qed.

Lemma teardown_settled : name <> "" -> sat recorded_right teardownRawTUN (fun _ => settled).
Proof.
  intros Hn s [Hi Hm]. unfold teardownRawTUN. rewrite run_then. cbn [take_record call run fst snd].
  rewrite Hi, (proj2 (String.eqb_neq name "")) by done.
  match goal with |- settled (run ?p ?t).2 => enough (sat (fun s' => s' = t) p (fun _ => settled)) as H by (by apply H) end.
  apply (sat_then _ _ (fun _ => settled)).
  - destruct (mssSet (raw s)); [| apply sat_done; intros s' ->; split; [left; by apply Hm | done]].
    eapply sat_then; [| intros r; apply sat_done; intros s' Hs'; exact Hs']. eapply sat_weaken; [apply del_table_settled | by intros s' -> | done].
  - intros _. apply keeps_then; [apply found_settled |]. intros []; [by apply device_settled | apply keeps_done].
Qed.

Lemma close_recorded reading s : recorded_right s -> recorded_right (close_file reading s).
Proof. intros Hs. unfold close_file. destruct reading; [done |]. by destruct (fd s). Qed.

Lemma ending_settled reading : name <> "" -> sat recorded_right (ending reading) (fun _ => settled).
Proof.
  intros Hn. apply (sat_then _ _ (fun _ => recorded_right)); [| intros _; by apply teardown_settled].
  apply sat_call, sat_modify. intros s. apply close_recorded.
Qed.

Lemma configured patch conf : sat unrecorded (configuring name patch conf) (fun _ => recorded_right).
Proof.
  assert (forall A (a : A), sat unrecorded (run (mret a)) (fun _ => recorded_right)) as Hnone
    by (intros A a; apply sat_done; intros s [Ht Hr]; split; [by rewrite Hr | done]).
  destruct conf as [c |]; [| apply Hnone]. cbn [configuring]. unfold on_config. destruct (handle_config patch c) as [[[ip m] |] events]; [| apply Hnone].
  apply (sat_then _ _ (fun _ => recorded_right)); [apply setup_recorded | intros r; by apply sat_done].
Qed.
End session.

(** *** How long the configuration takes *)

Lemma add_routes_short name cidrs added : atmost (length cidrs) (add_routes name cidrs added).
Proof.
  revert added. induction cidrs as [| cidr rest IH]; intros added; cbn [add_routes length]; [apply atmost_ret |].
  destruct (ParseCIDR cidr) as [[ip dst] |]; [| eapply atmost_weaken; [apply IH | lia]].
  apply (atmost_bind 1); [apply atmost_one |]. intros [[] |]; first [apply IH | apply atmost_ret].
Qed.

Lemma mss_short name : atmost 2 (setupRawMSSClampingNFT name).
Proof.
  unfold setupRawMSSClampingNFT. apply (atmost_bind 1 1); [apply atmost_one |].
  intros [e |]; [destruct (gone_already e); [| apply atmost_ret] |]; apply atmost_one.
Qed.

(** From the message with the configuration on: a lookup, the size, the address, the state of the interface, two
    routes, the table's deletion and addition, and the record. *)
Definition setup_steps : nat := 9.

Lemma configuring_short name patch conf : atmost setup_steps (configuring name patch conf).
Proof.
  destruct conf as [c |]; [| apply atmost_ret]. cbn [configuring]. unfold on_config. destruct (handle_config patch c) as [[[a m] |] events]; [| apply atmost_ret].
  apply (atmost_bind 9 0); [| intros r; apply atmost_ret]. unfold setupRawTUN. apply (atmost_bind 8 1).
  - unfold setup_calls. destruct (ParseIP a) as [ip |]; [| apply atmost_ret]. destruct (To4 ip); [| apply atmost_ret].
    apply (atmost_bind 1 7); [apply (atmost_bind 1 0); [apply atmost_one | intros r; apply atmost_ret] |]. intros []; cbn [negb]; [| apply atmost_ret].
    apply (atmost_bind 1 6); [destruct (0 <? m); [apply atmost_one | apply atmost_ret] |]. intros [e |]; [apply atmost_ret |]. unfold setup_routes.
    apply (atmost_bind 1 5); [apply atmost_one |]. intros [e |]; [apply atmost_ret |].
    apply (atmost_bind 1 4); [apply atmost_one |]. intros [e |]; [apply atmost_ret |].
    apply (atmost_bind 2 2); [apply (add_routes_short name halves) |]. intros [added | e]; [| apply atmost_ret].
    apply (atmost_bind 2 0); [apply mss_short | intros r; apply atmost_ret].
  - intros [added | e]; [| apply atmost_ret]. apply (atmost_bind 1 0); [apply atmost_one | intros r; apply atmost_ret].
Qed.

(** The configuration never begins, or it is done with before the session ends. *)
Definition in_order (sched : list turn) (late : nat) : Prop :=
  (Forall (eq First) sched /\ late = 0%nat) \/ replicate setup_steps Second `prefix_of` sched.

Lemma in_turns_order name patch conf reading sched late s0 s : name <> "" -> unrecorded name s0 s -> in_order sched late ->
  let '(d, c, s1) := in_turns sched (ending reading) (configuring name patch conf) s in settled s0 (steps late c (run d s1).2).2.
Proof.
  intros Hn Hu Ho. assert (recorded_right name s0 s) as Hr0 by (destruct Hu as [Ht Hr]; split; [by rewrite Hr | done]).
  destruct Ho as [[Hs ->] | [rest ->]].
  - destruct (in_turns_alone sched (ending reading) (configuring name patch conf) s (or_introl Hs)) as (d & s1 & -> & E). cbn. rewrite E.
    by apply (ending_settled name s0 reading Hn).
  - rewrite in_turns_app, in_turns_second, (steps_done _ _ _ (configuring_short name patch conf)). cbn [fst snd].
    pose proof (configured name s0 patch conf s Hu) as Hc. destruct (run (configuring name patch conf) s) as [a s']. cbn [fst snd] in *.
    destruct (in_turns_alone rest (ending reading) (@Done kstate _ a) s' (or_intror (mk_is_Some _ a eq_refl))) as (d & s1 & -> & E).
    assert (forall n t, steps n (@Done kstate _ a) t = (Done a, t)) as Hd by (induction n; [done | cbn; done]).
    rewrite Hd, E. by apply (ending_settled name s0 reading Hn).
Qed.


(** ** What a successful setup gives *)

Definition half0 : IPNet := {| net_ip := [0; 0; 0; 0]; net_mask := [128; 0; 0; 0] |}.
Definition half1 : IPNet := {| net_ip := [128; 0; 0; 0]; net_mask := [128; 0; 0; 0] |}.

Lemma halves_parsed : ParseCIDR "0.0.0.0/1" = Some (As16 [0; 0; 0; 0], half0) /\ ParseCIDR "128.0.0.0/1" = Some (As16 [128; 0; 0; 0], half1).
Proof. by vm_compute. Qed.

Definition first_bit (b : Z) : bool :=
  (if b <? 128 then bool_decide (Z.land b 128 = 0) else bool_decide (Z.land b 128 = 128)).

Lemma first_bits b : byte_ok b -> Z.land b 128 = if b <? 128 then 0 else 128.
Proof.
  intros Hb. assert (forallb first_bit (seqZ 0 256) = true) as Hall by (by vm_compute). rewrite forallb_forall in Hall.
  specialize (Hall b). unfold first_bit in Hall. destruct (b <? 128); apply (bool_decide_eq_true_1 _), Hall, list_elem_of_In, elem_of_seqZ; unfold byte_ok in Hb; lia.
Qed.

(** Every IPv4 address is in one half. *)
Lemma halves_cover ip : length ip = 4%nat -> bytes_ok ip -> Contains half0 ip = true \/ Contains half1 ip = true.
Proof.
  intros Hl Ho. destruct ip as [| a [| b [| c [| d [| ? ?]]]]]; try done. apply Forall_cons in Ho as [Ha _].
  unfold Contains, network. cbn. rewrite !Z.land_0_r, (first_bits a) by done.
  destruct (a <? 128); [left | right]; by vm_compute.
Qed.

Section ready.
Context (name : string) (ip : list Z) (m : Z) (s0 : kstate).

(** The kernel may answer that the destination has a route, of whatever interface. *)
Definition already (dst : IPNet) : Prop :=
  (exists dev, (dst, dev) ∈ routing s0) \/ exists h, outcome h (RouteAdd dst name) = Some EEXIST.

(** The routes that are new are the interface's. *)
Definition grown (s : kstate) : Prop := forall r, r ∈ routing s -> r ∈ routing s0 \/ snd r = name.

Definition link_with (Q : link -> Prop) (s : kstate) : Prop := grown s /\ exists l, links s !! name = Some l /\ Q l.

Definition through (dst : IPNet) (s : kstate) : Prop := (dst, name) ∈ routing s \/ already dst.

(** A call and the case of its success. *)
Lemma link_call (Q Q' : link -> Prop) c g : (forall l, Q l -> Q' (g l)) ->
  sat (link_with Q) (on_dev name c (on_link name g)) (fun r s => r = None -> link_with Q' s).
Proof.
  intros Hg. apply guarded_sat; [| done]. intros s [Ho (l & Hl & Hq)] _ _ _. split; [exact Ho |]. exists (g l). cbn.
  split; [by rewrite lookup_alter_eq, Hl | by apply Hg].
Qed.

Lemma route_add_sat Q D dst :
  sat (fun s => link_with Q s /\ Forall (fun d => through d s) D) (route_add dst name)
    (fun r s => r = None \/ r = Some EEXIST -> link_with Q s /\ Forall (fun d => through d s) (dst :: D)).
Proof.
  apply guarded_sat.
  - intros s [[Ho Hq] HD] _ _ _. split; [split; [| exact Hq] |].
    + intros r [-> | Hr]%elem_of_cons; [by right | by apply Ho].
    + constructor; [left; by left |]. eapply Forall_impl; [exact HD |]. intros d [? | ?]; [left; by right | by right].
  - intros s e [[Ho Hq] HD] He [? | [= ->]]; [done |]. split; [by split |]. constructor; [| exact HD].
    destruct He as [He | He]; [| by right; right; exists (trail s)]. unfold route_refused in He.
    destruct (missing name s) as [[] |] eqn:Em; try done; [unfold missing in Em; by destruct (links s !! name) |].
    destruct (existsb _ _) eqn:Ex; [| done]. apply existsb_exists in Ex as ((d & dev) & Hin & E). apply bool_decide_eq_true in E. cbn in E. subst d.
    apply list_elem_of_In in Hin. destruct (Ho _ Hin) as [H0 | Hd]; [right; left; by exists dev | left; cbn in Hd; by subst dev].
Qed.

Definition routed (Q : link -> Prop) (s : kstate) : Prop := link_with Q s /\ through half0 s /\ through half1 s.

Lemma add_routes_ready Q : sat (link_with Q) (add_routes name halves []) (fun r s => match r with Ok _ => routed Q s | Err _ => True end).
Proof.
  unfold halves. cbn [add_routes]. destruct halves_parsed as [-> ->].
  eapply sat_then. { eapply sat_weaken; [apply (route_add_sat Q [] half0) | by intros s Hs; split | intros r s Hr; exact Hr]. }
  assert (forall l, sat (fun s => link_with Q s /\ Forall (fun d => through d s) [half0])
    (run (r ← route_add half1 name;
          match r with None | Some EEXIST => mret (Ok l) | Some _ => mret (Err (RouteFailed "128.0.0.0/1") : result setup_error (list string)) end))
    (fun r s => match r with Ok _ => routed Q s | Err _ => True end)) as Hsecond.
  { intros l. eapply sat_then; [apply route_add_sat |].
    intros [[] |]; apply sat_done; try done; intros s Hs; (destruct Hs as [H1 H2]; [auto |]);
      apply Forall_cons in H2 as [H3 [H4 _]%Forall_cons]; by split. }
  intros [[] |]; try (by apply sat_done); (eapply sat_weaken; [apply Hsecond | intros s Hs; apply Hs; auto | done]).
Qed.

Lemma mss_keeps_routed Q : keeps (routed Q) (setupRawMSSClampingNFT name).
Proof.
  unfold setupRawMSSClampingNFT, del_table. apply keeps_then; [by apply guarded_sat; [intros s Hs _ _ | intros s e Hs] |].
  intros [e |]; [destruct (gone_already e); [| apply keeps_done] |]; by apply doing_sat; [intros s Hs _ | intros s e' Hs].
Qed.

Definition set_up (ip : list Z) (m : Z) (l : link) : Prop := up l = true /\ host_net ip ∈ addrs l /\ (0 < m -> mtu l = m).

Lemma setup_routes_ready : sat (link_with (fun l => 0 < m -> mtu l = m)) (setup_routes name ip)
  (fun r s => match r with Ok _ => routed (set_up ip m) s | Err _ => True end).
Proof.
  unfold setup_routes.
  eapply sat_then; [apply (link_call _ (fun l => host_net ip ∈ addrs l /\ (0 < m -> mtu l = m))); intros l Hl; split; [by left | done] |].
  intros [e |]; [by apply sat_done |].
  eapply sat_then; [eapply sat_weaken; [apply (link_call (fun l => host_net ip ∈ addrs l /\ (0 < m -> mtu l = m)) (set_up ip m)); by intros l [H1 H2]
    | intros s Hs; by apply Hs | intros r s Hr; exact Hr] |].
  intros [e |]; [by apply sat_done |].
  eapply sat_then; [eapply sat_weaken; [apply (add_routes_ready (set_up ip m)) | intros s Hs; by apply Hs | intros r s Hr; exact Hr] |].
  intros [added | e]; [| by apply sat_done]. eapply sat_then; [apply mss_keeps_routed |]. intros r. apply sat_done. intros s Hs.
  by destruct r as [[] |].
Qed.

Lemma found_ready : sat grown (found name) (fun ok s => ok = true -> link_with (fun _ => True) s).
Proof.
  apply (sat_then _ _ (fun r s => r = None -> link_with (fun _ => True) s)); [| by intros [e |]; apply sat_done; [| auto]].
  apply guarded_sat; [| done]. intros s Ho Hn _ _. split; [exact Ho |]. apply missing_there in Hn as [l Hl]. by exists l.
Qed.

Lemma size_ready : sat (link_with (fun _ => True))
  (run (if 0 <? m then on_dev name (LinkSetMTU name m) (on_link name (fun l => {| mtu := m; addrs := addrs l; up := up l |})) else mret None))
  (fun r s => r = None -> link_with (fun l => 0 < m -> mtu l = m) s).
Proof.
  destruct (Z.ltb_spec 0 m) as [Hm | Hm]; [by apply link_call |].
  apply sat_done. intros s [Ho (k & Hl & _)] _. split; [done |]. exists k. split; [done | lia].
Qed.
End ready.

Lemma setup_calls_ready name a m s0 : sat (grown name s0) (setup_calls name a m)
  (fun r s => match r with Ok _ => exists ip, ParseIP a = Some ip /\ routed name s0 (set_up ip m) s | Err _ => True end).
Proof.
  unfold setup_calls. destruct (ParseIP a) as [ip |]; [| by apply sat_done]. destruct (To4 ip); [| by apply sat_done].
  eapply sat_then; [apply found_ready |]. intros []; cbn [negb]; [| by apply sat_done].
  eapply sat_then; [eapply sat_weaken; [apply (size_ready name m s0) | intros s Hs; by apply Hs | intros r s Hr; exact Hr] |].
  intros [e |]; [by apply sat_done |].
  eapply sat_weaken; [apply (setup_routes_ready name ip m s0) | intros s Hs; by apply Hs |].
  intros [added | e] s Hs; [by exists ip | done].
Qed.

(** C21: when the setup of the raw device succeeds, its interface is up with the address of the configuration alone as a
    local one and the size of packets that was given.  Each half of the address space is routed through it, unless
    there was a route for that half before, of whatever interface, or the kernel says so, which the code takes for
    success; when neither half had one, every IPv4 address has a route through the interface. *)
Theorem raw_tunnel_ready name a m s :
  let '(r, s') := run (setupRawTUN name a m) s in
  r = None -> exists ip l, ParseIP a = Some ip /\ links s' !! name = Some l /\ up l = true /\ host_net ip ∈ addrs l /\ (0 < m -> mtu l = m) /\
    (forall half, half = half0 \/ half = half1 -> (half, name) ∈ routing s' \/ already name s half) /\
    (~ already name s half0 -> ~ already name s half1 -> forall dst, length dst = 4%nat -> bytes_ok dst ->
      exists net, (net, name) ∈ routing s' /\ Contains net dst = true).
Proof.
  unfold setupRawTUN. rewrite run_then. pose proof (setup_calls_ready name a m s s) as Hs.
  destruct (run (setup_calls name a m) s) as [[added | e] s1]; cbn [fst snd] in *; [| done].
  destruct Hs as (ip & Hip & [[_ (l & Hl & Hup & Ha & Hmtu)] [H0 H1]]); [by left |]. intros _. exists ip, l.
  do 5 (split; [done |]). split; [by intros half [-> | ->] |]. intros Hn0 Hn1.
  destruct H0 as [H0 | ?]; [| done]. destruct H1 as [H1 | ?]; [| done].
  intros dst Hd Hb. destruct (halves_cover dst Hd Hb); [by exists half0 | by exists half1].
Qed.
End tun.

(** ** Examples *)

Definition idle : kstate := {| trail := []; links := ∅; routing := [({| net_ip := [0; 0; 0; 0]; net_mask := [0; 0; 0; 0] |}, "eth0")]; table := None; fd := Closed; raw := nothing |}.

Definition succeeds (h : list ncall) (c : ncall) : option errno := None.

Definition raw_conf_text : string := "RAWCONF:10.9.0.2|1.1.1.1|1280".

Definition created : kstate := (run (createRawTUN succeeds "raw-qwdtt") idle).2.

Example raw_started : let s := run (on_config succeeds "raw-qwdtt" id raw_conf_text) created in
  s.1 = [Protocol.raw_conf "10.9.0.2|1.1.1.1|1280"; raw_ready] /\ map snd (routing s.2) = ["raw-qwdtt"; "raw-qwdtt"; "eth0"] /\
  raw s.2 = {| iface := "raw-qwdtt"; addr := "10.9.0.2"; added_routes := halves; mssSet := true |}.
Proof. by vm_compute. Qed.

(** A setup that fails is announced as ready all the same. *)
Example ready_without_routes : let s := run (on_config (fun _ c => match c with RouteAdd _ _ => Some OtherError | _ => None end) "raw-qwdtt" id raw_conf_text) created in
  s.1 = [Protocol.raw_conf "10.9.0.2|1.1.1.1|1280"; raw_ready] /\ map snd (routing s.2) = ["eth0"].
Proof. by vm_compute. Qed.

(** A route that another interface has for a half counts as added. *)
Example half_elsewhere : let s := run (setupRawTUN succeeds "raw-qwdtt" "10.9.0.2" 1280) (with_routing (cons (half0, "wg-other")) created) in
  s.1 = None /\ routing s.2 !! 1%nat = Some (half0, "wg-other") /\ added_routes (raw s.2) = halves.
Proof. by vm_compute. Qed.

(** The configuration is at its sixth call when the session ends: its later ones fail or come too late, and the table
    stays, also after another teardown, which finds no interface recorded. *)
Example recorded_late : let s := raw_session succeeds "raw-qwdtt" id (Some raw_conf_text) false (replicate 6 Second) 3 idle in
  s.1 = Ok (Some [Protocol.raw_conf "10.9.0.2|1.1.1.1|1280"; raw_ready]) /\ links s.2 = ∅ /\ routing s.2 = routing idle /\
  raw s.2 = {| iface := ""; addr := "10.9.0.2"; added_routes := halves; mssSet := true |} /\
  table (run (teardownRawTUN succeeds) s.2).2 = Some (mss_chain "raw-qwdtt").
Proof. by vm_compute. Qed.

(** A teardown whose deletion of the table is refused forgets it. *)
Example table_refused :
  let s := (raw_session (fun h c => match c with DelTable => Some OtherError | _ => None end) "raw-qwdtt" id (Some raw_conf_text) false
              (replicate 9 Second) 0 idle).2 in
  table s = Some (mss_chain "raw-qwdtt") /\ raw s = nothing.
Proof. by vm_compute. Qed.


Lemma raw_tunnel_ready_witness : exists net, (net, "raw-qwdtt") ∈ routing (run (setupRawTUN succeeds "raw-qwdtt" "10.9.0.2" 1280) created).2 /\
  Contains net [8; 8; 8; 8] = true.
Proof.
  assert ((run (setupRawTUN succeeds "raw-qwdtt" "10.9.0.2" 1280) created).1 = None) as E by (by vm_compute).
  assert (forall half, half <> {| net_ip := [0; 0; 0; 0]; net_mask := [0; 0; 0; 0] |} -> ~ already succeeds "raw-qwdtt" created half) as Hf.
  { intros half Hh [[dev Hd] | [h Ho]]; [| done]. assert (routing created = routing idle) as Er by (by vm_compute). rewrite Er in Hd.
    apply list_elem_of_singleton in Hd. by injection Hd. }
  pose proof (raw_tunnel_ready succeeds "raw-qwdtt" "10.9.0.2" 1280 created) as Hr.
  destruct (run (setupRawTUN succeeds "raw-qwdtt" "10.9.0.2" 1280) created) as [r s']. cbn [fst snd] in *.
  destruct (Hr E) as (ip & l & _ & _ & _ & _ & _ & _ & Hd). apply (Hd (Hf half0 ltac:(done)) (Hf half1 ltac:(done)) [8; 8; 8; 8]); [done |]. repeat constructor; done.
Defined.
