(* ===== verification/Runner.v ===== *)
(** * The SOCKS5 server (internal/core/wireproxy_runner.go): starting and stopping.

    The library wireproxy is the functions [parse], which reads its configuration, and [succeeds], which says
    how the calls end; the dialing is [dial_via] of Router.v.  What a run holds is part of its state.  The device that
    wireproxy has made when its start fails is closed by nobody. *)

From S2P Require Import Prelude GoStrings Effects Router.
From Stdlib Require Import ZArith Lia String Ascii.
From stdpp Require Import base list strings.
Open Scope string_scope.

(** What the configuration asks to run. *)
Inductive routine := Socks5Config (BindAddress Username Password : string) | OtherRoutine.

Inductive auth := NoAuth | UserPass (user password : string).

Inductive rcall :=
| CreateTemp | WriteTemp (text : string) | RemoveTemp | WriteConf (text : string) | RemoveConf | ParseConf
| StartWireguard | CancelContext | ListenTCP (addr : string) | ServeSocks (addr : string) (a : auth) | SpawnRoutine
| CloseListener | CloseDev.

Record runner := {
  socksPort : Z; socksUser : string; socksPass : string; socksBindAddr : string; router : Router
}.

(** The fields that Start sets, and what is held: the files, the context, the running devices and the listeners. *)
Record rstate := {
  trail : list rcall; has_cancel : bool; has_tun : bool; has_listener : bool;
  temp_file : bool; conf_file : bool; context_live : bool; devices : nat; listening : nat
}.

Definition fresh : rstate :=
  {| trail := []; has_cancel := false; has_tun := false; has_listener := false; temp_file := false; conf_file := false;
     context_live := false; devices := 0; listening := 0 |}.

Section runner.
Context `{Unicode} (parse : string -> option (list routine)) (succeeds : list rcall -> rcall -> bool) (temp_name : list rcall -> string).
(** Whether a failed write leaves a part of the file. *)
Context (partial : list rcall -> bool).
(** Whether a StartWireguard that fails does so after it made its device, which then runs on: it returns no device, and
    does not close it. *)
Context (orphaned : list rcall -> bool).

Abbreviation M := (State rstate).

Definition NewWireproxyRunner (port : Z) (user pass bind : string) (bypassDomains bypassIPs : list string) : runner :=
  {| socksPort := port; socksUser := user; socksPass := pass; socksBindAddr := if String.eqb bind "" then "127.0.0.1" else bind;
     router := NewRouter bypassDomains bypassIPs |}.

Definition SetBypass (w : runner) (doms ips : list string) : runner :=
  {| socksPort := socksPort w; socksUser := socksUser w; socksPass := socksPass w; socksBindAddr := socksBindAddr w; router := Update doms ips (router w) |}.

(** The state with one more call. *)
Definition logged (c : rcall) (tr : list rcall) (s : rstate) : rstate :=
  {| trail := c :: tr; has_cancel := has_cancel s; has_tun := has_tun s; has_listener := has_listener s; temp_file := temp_file s;
     conf_file := conf_file s; context_live := context_live s; devices := devices s; listening := listening s |}.

(** A call with the change of what is held that its success makes, and a change that cannot fail. *)
Definition rcall_do (c : rcall) (on_ok : rstate -> rstate) : M bool := fun s =>
  let b := succeeds (trail s) c in (b, logged c (trail s) (if b then on_ok s else s)).
Definition rset (c : rcall) (f : rstate -> rstate) : M unit := fun s => (tt, logged c (trail s) (f s)).

Definition with_files (t c : bool) (s : rstate) : rstate :=
  {| trail := trail s; has_cancel := has_cancel s; has_tun := has_tun s; has_listener := has_listener s; temp_file := t; conf_file := c;
     context_live := context_live s; devices := devices s; listening := listening s |}.
Definition with_context (live : bool) (s : rstate) : rstate :=
  {| trail := trail s; has_cancel := has_cancel s || live; has_tun := has_tun s; has_listener := has_listener s; temp_file := temp_file s; conf_file := conf_file s;
     context_live := live; devices := devices s; listening := listening s |}.
Definition with_devices (n : nat) (field : bool) (s : rstate) : rstate :=
  {| trail := trail s; has_cancel := has_cancel s; has_tun := field; has_listener := has_listener s; temp_file := temp_file s; conf_file := conf_file s;
     context_live := context_live s; devices := n; listening := listening s |}.
Definition with_listeners (n : nat) (field : bool) (s : rstate) : rstate :=
  {| trail := trail s; has_cancel := has_cancel s; has_tun := has_tun s; has_listener := field; temp_file := temp_file s; conf_file := conf_file s;
     context_live := context_live s; devices := devices s; listening := n |}.

Inductive start_error := TempFailed | WriteTempFailed | ConfFailed | ParseFailed | WireguardFailed | ListenFailed (addr : string).

(** The configuration that is written for wireproxy. *)
Definition conf_text (w : runner) (tmp : string) : string :=
  "WGConfig = " ++ tmp ++ String (byte 10) ("[Socks5]" ++ String (byte 10)
    ("BindAddress = " ++ socksBindAddr w ++ ":" ++ itoa (socksPort w) ++ String (byte 10)
     (if String.eqb (socksUser w) "" then ""
      else "Username = " ++ socksUser w ++ String (byte 10) ("Password = " ++ socksPass w ++ String (byte 10) "")))).

(** The loop over the routines. *)
Fixpoint run_routines (l : list routine) : M (option start_error) :=
  match l with
  | [] => mret None
  | Socks5Config addr user pass :: rest =>
      ok ← rcall_do (ListenTCP addr) (fun s => with_listeners (S (listening s)) true s);
      if negb ok then mret (Some (ListenFailed addr))
      else
        _ ← rset (ServeSocks addr (if String.eqb user "" then NoAuth else UserPass user pass)) (fun s => s);
        run_routines rest
  | OtherRoutine :: rest => _ ← rset SpawnRoutine (fun s => s); run_routines rest
  end.

(** From the parsed configuration on. *)
Definition start_parsed (l : list routine) : M (option start_error) :=
  _ ← modify (with_context true);
  left ← gets (fun s => orphaned (trail s));
  ok ← rcall_do StartWireguard (fun s => with_devices (S (devices s)) true s);
  if negb ok then
    _ ← modify (fun s => with_devices (if left : bool then S (devices s) else devices s) (has_tun s) s);
    _ ← rset CancelContext (with_context false);
    mret (Some WireguardFailed)
  else run_routines l.

(** Between the creation of the temporary file and its removal. *)
Definition start_with_temp (w : runner) (wgConfig tmp : string) : M (option start_error) :=
  ok ← rcall_do (WriteTemp wgConfig) (fun s => s);
  if negb ok then mret (Some WriteTempFailed)
  else
    left ← gets (fun s => partial (trail s));
    ok ← rcall_do (WriteConf (conf_text w tmp)) (fun s => with_files (temp_file s) true s);
    if negb ok then _ ← modify (fun s => with_files (temp_file s) left s); mret (Some ConfFailed)
    else
      good ← rcall_do ParseConf (fun s => s);
      e ← match (if good : bool then parse (conf_text w tmp) else None) with
          | None => mret (Some ParseFailed)
          | Some l => start_parsed l
          end;
      _ ← rset RemoveConf (fun s => with_files (temp_file s) false s);
      mret e.

Definition Start (w : runner) (wgConfig : string) : M (option start_error) :=
  tmp ← gets (fun s => temp_name (trail s));
  ok ← rcall_do CreateTemp (fun s => with_files true (conf_file s) s);
  if negb ok then mret (Some TempFailed)
  else
    e ← start_with_temp w wgConfig tmp;
    _ ← rset RemoveTemp (fun s => with_files false (conf_file s) s);
    mret e.

Definition Stop : M unit :=
  s ← gets (fun s => s);
  _ ← (if has_cancel s then rset CancelContext (with_context false) else mret tt);
  _ ← (if has_listener s then rset CloseListener (fun s => with_listeners (pred (listening s)) (has_listener s) s) else mret tt);
  _ ← (if has_tun s then rset CloseDev (fun s => with_devices (pred (devices s)) (has_tun s) s) else mret tt);
  mret tt.

(** ** What a start and a stop leave *)

(** What the fields allow Stop to release. *)
Definition releasable (s : rstate) : Prop :=
  (context_live s = true -> has_cancel s = true) /\ (devices s = if has_tun s then 1 else 0) /\ (listening s = if has_listener s then 1 else 0).

(** The same but for the device of a failed StartWireguard. *)
Definition releasable_after (e : option start_error) (s : rstate) : Prop :=
  releasable s \/ (e = Some WireguardFailed /\ has_tun s = false /\ devices s <= 1 /\ releasable (with_devices 0 false s)).

Definition is_socks (r : routine) : bool := match r with Socks5Config _ _ _ => true | OtherRoutine => false end.

Definition socks_count (l : list routine) : nat := length (filter (fun r => is_socks r = true) l).

#[local] Arguments socks_count : simpl never.
#[local] Ltac held := unfold releasable; cbn; rewrite ?orb_true_r; repeat split; try done.

Lemma call_run {A} c f (k : bool -> M A) s : (rcall_do c f ≫= k) s =
  if succeeds (trail s) c then k true (logged c (trail s) (f s)) else k false (logged c (trail s) s).
Proof. rewrite run_bind. unfold rcall_do. cbn [fst snd]. by destruct (succeeds _ _). Qed.

Lemma set_run {A} c f (k : unit -> M A) s : (rset c f ≫= k) s = k tt (logged c (trail s) (f s)).
Proof. done. Qed.

Lemma routines_releasable l s : socks_count l + listening s <= 1 -> releasable s -> releasable (run_routines l s).2.
Proof.
  revert s. induction l as [| r l IH]; intros s Hc Hr; [done |]. destruct r as [addr user pass |]; cbn [run_routines].
  - unfold socks_count in Hc. rewrite filter_cons_True in Hc by done. cbn [length] in Hc. fold (socks_count l) in Hc.
    rewrite call_run. destruct (succeeds _ _); cbn [negb]; [rewrite set_run | exact Hr]. destruct Hr as (H1 & H2 & H3).
    apply IH; [cbn; lia |]. split; [done |]. split; [done |]. cbn. lia.
  - unfold socks_count in Hc. rewrite filter_cons_False in Hc by done. fold (socks_count l) in Hc. rewrite set_run. by apply IH.
Qed.

Lemma parsed_releasable l s : socks_count l <= 1 -> releasable s -> listening s = 0 -> has_tun s = false ->
  releasable_after (start_parsed l s).1 (start_parsed l s).2.
Proof.
  intros Hc (H1 & H2 & H3) Hl Ht. rewrite Ht in H2. unfold start_parsed. rewrite run_bind. cbn [modify fst snd]. rewrite run_bind. cbn [gets fst snd]. rewrite call_run.
  destruct (succeeds _ _); cbn [negb].
  - left. apply routines_releasable; [cbn; lia |]. held. cbn. by rewrite H2.
  - rewrite run_bind. cbn [modify fst snd]. rewrite set_run. right. split; [done |]. split; [done |]. split; [| by held].
    cbn. rewrite H2. destruct (orphaned _); lia.
Qed.

(** Between the files: what is held can be released, and the configuration stays only where its writing failed. *)
Lemma with_temp_releasable w cfg tmp s : (forall l, parse (conf_text w tmp) = Some l -> socks_count l <= 1) ->
  releasable s -> listening s = 0 -> has_tun s = false -> conf_file s = false ->
  let r := start_with_temp w cfg tmp s in releasable_after r.1 r.2 /\ (conf_file r.2 = true -> r.1 = Some ConfFailed).
Proof.
  intros Hp Hr Hl Ht Hf. cbv zeta. unfold start_with_temp. rewrite call_run.
  destruct (succeeds _ _); cbn [negb]; [| split; [by left | cbn; by rewrite Hf]].
  rewrite run_bind. cbn [gets fst snd]. rewrite call_run. destruct (succeeds _ _); cbn [negb]; [| rewrite run_bind; by split; [left |]].
  rewrite call_run. set (s2 := logged (WriteConf _) _ _).
  assert (forall tr m, (forall l, m = Some l -> socks_count l <= 1) ->
    let r := (e ← match m with None => mret (Some ParseFailed) | Some l => start_parsed l end;
              _ ← rset RemoveConf (fun s => with_files (temp_file s) false s); mret e : M (option start_error)) (logged ParseConf tr s2) in
    releasable_after r.1 r.2 /\ (conf_file r.2 = true -> r.1 = Some ConfFailed)) as Hend.
  { intros tr m Hm. rewrite run_bind, set_run. destruct m as [l |]; [| by split; [left |]].
    split; [| done]. exact (parsed_releasable l (logged ParseConf tr s2) (Hm l eq_refl) Hr Hl Ht). }
  destruct (succeeds _ _); [apply (Hend _ (parse (conf_text w tmp))) | exact (Hend _ None ltac:(done))]. intros l. apply Hp.
Qed.

(** The state after Start, from nothing: the temporary file is gone, the configuration with it unless a failed
    write left a part of it. *)
Lemma start_releasable w cfg : (forall tmp l, parse (conf_text w tmp) = Some l -> socks_count l <= 1) ->
  let '(e, s) := Start w cfg fresh in
  releasable_after e s /\ temp_file s = false /\ (conf_file s = true -> e = Some ConfFailed).
Proof.
  intros Hp. unfold Start. rewrite run_bind. cbn [gets fst snd]. rewrite call_run.
  destruct (succeeds _ _); cbn [negb]; [| by split; [left |]]. rewrite run_bind, set_run.
  match goal with |- context [start_with_temp ?a ?b ?c ?d] => destruct (with_temp_releasable a b c d (Hp c)) as [H1 H2]; [by held | done | done | done |] end.
  split; [exact H1 |]. split; [done | exact H2].
Qed.

(** C36: however a start of the SOCKS5 server ends, if wireproxy reads at most one SOCKS5 server from the configuration
    written for it, a stop after it leaves no listener and no running context, and no
    WireGuard device but that of a StartWireguard which failed after making it; and the start itself leaves no file
    with the keys or the password, except a part of the configuration whose writing failed. *)
Theorem runner_releases w cfg : (forall tmp l, parse (conf_text w tmp) = Some l -> socks_count l <= 1) ->
  let '(e, s) := Start w cfg fresh in
  let s' := (Stop s).2 in
  listening s' = 0 /\ context_live s' = false /\ (devices s' = 0 \/ e = Some WireguardFailed /\ devices s' = 1) /\
  temp_file s' = false /\ (conf_file s' = true -> e = Some ConfFailed).
Proof.
  intros Hp. pose proof (start_releasable w cfg Hp) as Hs. destruct (Start w cfg fresh) as [e s].
  destruct Hs as (Hr & Ht & Hc).
  assert ((context_live s = true -> has_cancel s = true) /\ listening s = (if has_listener s then 1 else 0)) as [H1 H3]
    by (destruct Hr as [(? & ? & ?) | (_ & _ & _ & ? & _ & ?)]; by split).
  assert (devices s = (if has_tun s then 1 else 0) \/ (e = Some WireguardFailed /\ has_tun s = false /\ devices s = 1)) as Hd.
  { destruct Hr as [(_ & ? & _) | (He & Hn & Hd & _)]; [by left |]. destruct (devices s) as [| [| n]] eqn:E; [left; by rewrite Hn | by right | lia]. }
  unfold Stop. rewrite !run_bind. cbn [gets fst snd].
  destruct (has_cancel s) eqn:E1, (has_listener s) eqn:E2, (has_tun s) eqn:E3; cbn; rewrite ?H3; cbn; repeat split; try done;
    first [by (destruct (context_live s); [by specialize (H1 eq_refl) | done]) | destruct Hd as [-> | (? & ? & Hd)]; try done; rewrite ?Hd; auto].
Qed.
End runner.

Section example.
#[local] Instance example_unicode : Unicode := fun s => s.

Definition ex_runner : runner := NewWireproxyRunner 1080 "me" "secret" "" [] [].
Definition ex_parse (text : string) : option (list routine) := Some [OtherRoutine; Socks5Config "127.0.0.1:1080" "me" "secret"].
Definition ex_start (fails : rcall -> bool) : option start_error * rstate :=
  Start ex_parse (fun _ c => negb (fails c)) (fun _ => "/tmp/qwdtt-wg-1.conf") (fun _ => true) (fun _ => true) ex_runner "[Interface]" fresh.

Example started : let r := ex_start (fun _ => false) in r.1 = None /\ rev (trail r.2) =
  [CreateTemp; WriteTemp "[Interface]"; WriteConf (conf_text ex_runner "/tmp/qwdtt-wg-1.conf"); ParseConf; StartWireguard; SpawnRoutine;
   ListenTCP "127.0.0.1:1080"; ServeSocks "127.0.0.1:1080" (UserPass "me" "secret"); RemoveConf; RemoveTemp].
Proof. by vm_compute. Qed.

(** When the port is taken the device runs until the caller stops the runner. *)
Example port_taken : let r := ex_start (fun c => match c with ListenTCP _ => true | _ => false end) in
  r.1 = Some (ListenFailed "127.0.0.1:1080") /\ devices r.2 = 1 /\ devices (Stop r.2).2 = 0.
Proof. by vm_compute. Qed.

(** A device that was made but cannot be configured or brought up runs on after the stop. *)
Example device_orphaned : let r := ex_start (fun c => match c with StartWireguard => true | _ => false end) in
  r.1 = Some WireguardFailed /\ devices (Stop r.2).2 = 1.
Proof. by vm_compute. Qed.

(** What a failed write leaves of the configuration, with the password, stays. *)
Example password_left : let r := ex_start (fun c => match c with WriteConf _ => true | _ => false end) in
  r.1 = Some ConfFailed /\ conf_file (Stop r.2).2 = true.
Proof. by vm_compute. Qed.

(** An IPv6 address is written without brackets. *)
Example ipv6_bind : contains "BindAddress = ::1:1080" (conf_text (NewWireproxyRunner 1080 "" "" "::1" [] []) "x") = true.
Proof. by vm_compute. Qed.

Lemma runner_releases_witness : let s := (Stop (ex_start (fun _ => false)).2).2 in listening s = 0 /\ context_live s = false.
Proof.
  pose proof (runner_releases ex_parse (fun _ c => negb false) (fun _ => "/tmp/qwdtt-wg-1.conf") (fun _ => true) (fun _ => true) ex_runner "[Interface]") as Hr.
  unfold ex_start. destruct (Start _ _ _ _ _ _ _ _) as [e s]. cbn [fst snd]. destruct (Hr ltac:(by intros text l [= <-])) as (H1 & H2 & _). by split.
Defined.
End example.
