(* ===== verification/Names.v ===== *)
(** * Names of callers (internal/core/namegen.go).

    Random choices are arguments, as the numbers that [rand.Intn] and the comparison with 0.3 give. *)

From S2P Require Import Prelude GoStrings.
From Stdlib Require Import ZArith Lia String Ascii.
From stdpp Require Import base list strings.
Open Scope string_scope.

Definition maleFirstNames : list string :=
  ["Александр"; "Алексей"; "Андрей"; "Антон"; "Арсений"; "Артур"; "Артём"; "Богдан"; "Валерий"; "Василий";
   "Виктор"; "Владислав"; "Глеб"; "Григорий"; "Даниил"; "Денис"; "Дмитрий"; "Евгений"; "Егор"; "Иван";
   "Игорь"; "Илья"; "Кирилл"; "Леонид"; "Максим"; "Марк"; "Матвей"; "Михаил"; "Никита"; "Николай"; "Олег";
   "Павел"; "Пётр"; "Роман"; "Руслан"; "Сергей"; "Станислав"; "Тимофей"; "Фёдор"].

Definition femaleFirstNames : list string :=
  ["Алина"; "Алёна"; "Анастасия"; "Ангелина"; "Анна"; "Вера"; "Вероника"; "Виктория"; "Дарья"; "Ева";
   "Екатерина"; "Елена"; "Елизавета"; "Ирина"; "Кира"; "Кристина"; "Ксения"; "Любовь"; "Маргарита";
   "Марина"; "Мария"; "Милана"; "Надежда"; "Наталья"; "Ольга"; "Полина"; "Светлана"; "София"; "Татьяна";
   "Юлия"; "Яна"].

Definition lastNames : list string :=
  ["Алексеев"; "Андреев"; "Антонов"; "Баранов"; "Белов"; "Белый"; "Бельский"; "Беляев"; "Борисов";
   "Васильев"; "Великий"; "Волков"; "Воробьёв"; "Григорьев"; "Давыдов"; "Егоров"; "Жуков"; "Зайцев";
   "Захаров"; "Иванов"; "Калинин"; "Ковалёв"; "Козлов"; "Комаров"; "Крамской"; "Кузнецов"; "Кузьмин";
   "Лебедев"; "Макаров"; "Медведев"; "Михайлов"; "Морозов"; "Никитин"; "Николаев"; "Новиков"; "Орлов";
   "Островский"; "Павлов"; "Петров"; "Покровский"; "Попов"; "Раевский"; "Романов"; "Семёнов"; "Сергеев";
   "Смирнов"; "Соколов"; "Соловьёв"; "Степанов"; "Тарасов"; "Титов"; "Толстой"; "Трубецкой"; "Филиппов";
   "Фролов"; "Фёдоров"; "Чайковский"; "Черный"; "Яковлев"].

(** A letter of Cyrillic takes two bytes. *)
Definition convertToFemaleSurname (surname : string) : string :=
  if has_suffix "ий" surname || has_suffix "ый" surname || has_suffix "ой" surname then stake (String.length surname - 4) surname ++ "ая"
  else if has_suffix "ов" surname || has_suffix "ев" surname || has_suffix "ин" surname || has_suffix "ын" surname || has_suffix "ёв" surname
  then surname ++ "а"
  else surname.

Record choices := { female : bool; first : nat; alone : bool; surname : nat }.

(** [generateName]; [None] would be an index out of range. *)
Definition generateName (r : choices) : option string :=
  fn ← (if female r then femaleFirstNames else maleFirstNames) !! first r;
  if alone r then Some fn
  else ln ← lastNames !! surname r; Some (fn ++ " " ++ (if female r then convertToFemaleSurname ln else ln)).

(** Choices within the tables, as [rand.Intn] makes them. *)
Definition within (r : choices) : Prop :=
  first r < length (if female r then femaleFirstNames else maleFirstNames) /\ surname r < length lastNames.

Definition vowel_end (s : string) : bool := has_suffix "а" s || has_suffix "я" s.

Lemma surnames_female : forallb (fun s => vowel_end (convertToFemaleSurname s) && negb (vowel_end s)) lastNames = true.
Proof. by vm_compute. Qed.

Lemma one_word : forallb (no_char " ") (femaleFirstNames ++ maleFirstNames ++ lastNames ++ (convertToFemaleSurname <$> lastNames))%list = true.
Proof. by vm_compute. Qed.

Lemma forallb_lookup {A} (f : A -> bool) l i x : forallb f l = true -> l !! i = Some x -> f x = true.
Proof. rewrite forallb_forall. intros Hf Hi. apply Hf, list_elem_of_In. by eapply list_elem_of_lookup_2. Qed.

(** A generated name is one or two words of the tables, and the second agrees with the first: behind a woman's name
    it ends like one, behind a man's it does not. *)
Theorem names_agree r : within r ->
  exists fn, (if female r then femaleFirstNames else maleFirstNames) !! first r = Some fn /\
    (if alone r then generateName r = Some fn
     else exists ln, generateName r = Some (fn ++ " " ++ ln) /\ no_char " " ln = true /\ vowel_end ln = female r).
Proof.
  intros [Hf Hs]. destruct (lookup_lt_is_Some_2 _ _ Hf) as [fn Hfn]. destruct (lookup_lt_is_Some_2 _ _ Hs) as [ln Hln].
  exists fn. split; [done |]. unfold generateName. rewrite Hfn. cbn [mbind option_bind]. destruct (alone r); [done |].
  rewrite Hln. cbn [mbind option_bind]. eexists. split; [reflexivity |].
  pose proof (forallb_lookup _ _ _ _ surnames_female Hln) as [H1 H2]%andb_true_iff. apply negb_true_iff in H2.
  pose proof one_word as Hw. rewrite !forallb_app, !andb_true_iff in Hw. destruct Hw as (_ & _ & Hl & Hc).
  destruct (female r); (split; [| done]); [| by apply (forallb_lookup _ _ _ _ Hl Hln)].
  apply (forallb_lookup _ (convertToFemaleSurname <$> lastNames) (surname r) _ Hc). by rewrite list_lookup_fmap, Hln.
Qed.

Example some_names : generateName {| female := true; first := 10; alone := false; surname := 24 |} = Some "Екатерина Крамская" /\
  generateName {| female := false; first := 38; alone := false; surname := 24 |} = Some "Фёдор Крамской".
Proof. by vm_compute. Qed.

Lemma names_agree_witness : exists ln, generateName {| female := true; first := 10; alone := false; surname := 24 |} = Some ("Екатерина" ++ " " ++ ln) /\
  vowel_end ln = true.
Proof.
  destruct (names_agree {| female := true; first := 10; alone := false; surname := 24 |}) as (fn & Hf & ln & Hg & _ & Hv);
    [split; apply Nat.ltb_lt; by vm_compute |].
  vm_compute in Hf. injection Hf as <-. exists ln. split; [exact Hg | exact Hv].
Defined.
