(* ===== verification/Usage.v ===== *)
(** * Statistics and the choice of a profile (utils.go): [formatBytes], [selectProfileInteractive], [getWGStats],
    [getProcessUsage].

    The files below /sys and /proc and the outputs of ps and pgrep are arguments. *)

From S2P Require Import Prelude GoStrings Chars Effects Profiles.
From S2P Require Tunnel WgParse.
From Stdlib Require Import ZArith Lia String Ascii.
From stdpp Require Import base list strings gmap.
Open Scope string_scope.
Open Scope Z_scope.

(** ** Sizes *)

(** The nearest integer to [n / d], ties to even. *)
Definition round_even (n d : Z) : Z :=
  let q := n / d in let r := n mod d in if (2 * r <? d) || ((2 * r =? d) && Z.even q) then q else q + 1.

(** [float64(b)] of a positive integer: 53 binary digits. *)
Definition to_float (b : Z) : Z :=
  let k := Z.log2 b - 52 in if k <=? 0 then b else round_even b (2 ^ k) * 2 ^ k.

(** The loop that finds the unit: the divisor and its index. *)
Fixpoint unit_loop (fuel : nat) (n d : Z) (exp : nat) : Z * nat :=
  match fuel with
  | O => (d, exp)
  | S fuel => if 1024 <=? n then unit_loop fuel (n / 1024) (d * 1024) (S exp) else (d, exp)
  end.

Definition unit_letters : list string := ["K"; "M"; "G"; "T"; "P"; "E"].

(** [%.1f] of a quotient, from its tenths. *)
Definition tenths_text (t : Z) : string := itoa (t / 10) ++ "." ++ itoa (t mod 10).

(** [None] is an index out of range. *)
Definition formatBytes (b : Z) : option string :=
  if b <? 1024 then Some (itoa b ++ " B")
  else
    let '(d, exp) := unit_loop 6 (b / 1024) 1024 0 in
    (fun c => tenths_text (round_even (10 * to_float b) d) ++ " " ++ c ++ "B") <$> unit_letters !! exp.

Lemma round_even_near n d : 0 < d -> 2 * Z.abs (round_even n d * d - n) <= d.
Proof.
  intros Hd. unfold round_even. pose proof (Z.div_mod n d ltac:(lia)) as E. pose proof (Z.mod_pos_bound n d Hd).
  destruct (_ || _) eqn:Eb.
  - assert (2 * (n mod d) <= d) by (apply orb_true_iff in Eb as [?%Z.ltb_lt | [?%Z.eqb_eq _]%andb_true_iff]; lia). lia.
  - apply orb_false_iff in Eb as [H1%Z.ltb_ge _]. lia.
Qed.

(** The divisor is the largest power of 1024 that is not above the size. *)
Lemma unit_loop_spec fuel b exp : 0 <= b -> 1024 ^ (Z.of_nat exp + 1) <= b < 1024 ^ (Z.of_nat exp + 2 + Z.of_nat fuel) ->
  exists e, unit_loop fuel (b / 1024 ^ (Z.of_nat exp + 1)) (1024 ^ (Z.of_nat exp + 1)) exp = (1024 ^ (Z.of_nat e + 1), e) /\
    (exp <= e <= exp + fuel)%nat /\ 1024 ^ (Z.of_nat e + 1) <= b < 1024 ^ (Z.of_nat e + 2).
Proof.
  revert exp. induction fuel as [| fuel IH]; intros exp Hb Hr; cbn [unit_loop].
  { exists exp. rewrite Z.add_0_r in Hr. split; [done |]. split; [lia | done]. }
  assert (0 < 1024 ^ (Z.of_nat exp + 1)) as Hp by (apply Z.pow_pos_nonneg; lia).
  assert (1024 ^ (Z.of_nat exp + 2) = 1024 ^ (Z.of_nat exp + 1) * 1024) as Hpow.
  { replace (Z.of_nat exp + 2) with (Z.succ (Z.of_nat exp + 1)) by lia. rewrite Z.pow_succ_r by lia. lia. }
  destruct (Z.leb_spec 1024 (b / 1024 ^ (Z.of_nat exp + 1))) as [H1 | H1].
  - rewrite Z.div_div, <- Hpow by lia. replace (Z.of_nat exp + 2) with (Z.of_nat (S exp) + 1) in * by lia.
    destruct (IH (S exp) Hb) as (e & He & Hle & Hbe).
    + split; [| replace (Z.of_nat (S exp) + 2 + Z.of_nat fuel) with (Z.of_nat (S exp) + 1 + Z.of_nat (S fuel)) by lia; apply Hr].
      pose proof (Z.mul_div_le b (1024 ^ (Z.of_nat exp + 1)) Hp). nia.
    + exists e. split; [done |]. split; [lia | done].
  - exists exp. split; [done |]. split; [lia |]. split; [lia |]. rewrite Hpow.
    pose proof (Z.mul_succ_div_gt b (1024 ^ (Z.of_nat exp + 1)) Hp). nia.
Qed.

Lemma to_float_exact b : 0 < b < 2 ^ 53 -> to_float b = b.
Proof.
  intros Hb. unfold to_float. assert (Z.log2 b < 53) by (apply Z.log2_lt_pow2; lia). by rewrite (proj2 (Z.leb_le _ _)) by lia.
Qed.

(** Every size has a text.  Below 1024 it is the number; above, the unit is the largest one that is not above the
    size, and the number shown is within a twentieth of the unit of the true one, up to 2^53. *)
Theorem format_bytes b : min_int <= b <= max_int ->
  if b <? 1024 then formatBytes b = Some (itoa b ++ " B")
  else exists e c t, unit_letters !! e = Some c /\ formatBytes b = Some (tenths_text t ++ " " ++ c ++ "B") /\
    1024 ^ (Z.of_nat e + 1) <= b < 1024 ^ (Z.of_nat e + 2) /\
    (b < 2 ^ 53 -> 20 * Z.abs (t * 1024 ^ (Z.of_nat e + 1) - 10 * b) <= 10 * 1024 ^ (Z.of_nat e + 1)).
Proof.
  intros [Hlo Hhi]. unfold formatBytes. destruct (Z.ltb_spec b 1024) as [Hb | Hb]; [done |].
  assert (b < 1024 ^ 7) as Hbig by (unfold max_int in Hhi; change (1024 ^ 7) with (2 ^ 70); change (2 ^ 63) with (9223372036854775808) in Hhi; lia).
  destruct (unit_loop_spec 5 b 0 ltac:(lia)) as (e & He & Hle & Hr); [change (1024 ^ (Z.of_nat 0 + 1)) with 1024; change (Z.of_nat 0 + 2 + Z.of_nat 5) with 7; lia |].
  change (1024 ^ (Z.of_nat 0 + 1)) with 1024 in He. assert (unit_loop 6 (b / 1024) 1024 0 = (1024 ^ (Z.of_nat e + 1), e)) as Hu.
  { destruct (unit_loop_spec 6 b 0 ltac:(lia)) as (e' & He' & _ & Hr').
    - change (1024 ^ (Z.of_nat 0 + 1)) with 1024. change (Z.of_nat 0 + 2 + Z.of_nat 6) with 8. change (1024 ^ 8) with (1024 ^ 7 * 1024). lia.
    - change (1024 ^ (Z.of_nat 0 + 1)) with 1024 in He'. rewrite He'. assert (e' = e) as ->; [| done].
      assert (Z.of_nat e' + 1 < Z.of_nat e + 2) by (apply (Z.pow_lt_mono_r_iff 1024); lia).
      assert (Z.of_nat e + 1 < Z.of_nat e' + 2) by (apply (Z.pow_lt_mono_r_iff 1024); lia). lia. }
  rewrite Hu. destruct (lookup_lt_is_Some_2 unit_letters e) as [c Hc]; [change (length unit_letters) with 6%nat; lia |].
  exists e, c, (round_even (10 * to_float b) (1024 ^ (Z.of_nat e + 1))). rewrite Hc. split; [done |]. split; [done |]. split; [done |].
  intros Hf. rewrite to_float_exact by lia. pose proof (round_even_near (10 * b) (1024 ^ (Z.of_nat e + 1)) ltac:(apply Z.pow_pos_nonneg; lia)). lia.
Qed.

Example sizes : formatBytes <$> [0; 1023; 1536; 1048575; 5000000; max_int; -5] =
  [Some "0 B"; Some "1023 B"; Some "1.5 KB"; Some "1024.0 KB"; Some "4.8 MB"; Some "8.0 EB"; Some "-5 B"].
Proof. by vm_compute. Qed.

Lemma format_bytes_witness : exists t, formatBytes 5000000 = Some (tenths_text t ++ " MB") /\ 20 * Z.abs (t * 1048576 - 50000000) <= 10485760.
Proof.
  destruct (format_bytes 5000000) as (e & c & t & Hc & Hf & Hr & Hn); [unfold min_int, max_int; lia |].
  assert (e = 1%nat) as ->.
  { assert (Z.of_nat e + 1 < 3) by (apply (Z.pow_lt_mono_r_iff 1024); lia). assert (1 < Z.of_nat e + 2 - 0) by lia.
    assert (2 < Z.of_nat e + 2) by (apply (Z.pow_lt_mono_r_iff 1024); lia). lia. }
  injection Hc as <-. exists t. split; [exact Hf | apply Hn; lia].
Defined.

(** ** Interface statistics *)

(** The value of [strconv.ParseInt], also where its error is ignored: zero for no number, the nearest 64-bit one for
    others. *)
Definition ParseInt (s : string) : Z :=
  let signed (neg : bool) (t : string) :=
    if String.eqb t "" then 0
    else match digits_value t 0 with Some v => Z.max min_int (Z.min max_int (if neg then - v else v)) | None => 0 end in
  match s with
  | "" => 0
  | String c t => if Ascii.eqb c "-" then signed true t else if Ascii.eqb c "+" then signed false t else signed false s
  end.

Record WGStats := { RxBytes : Z; TxBytes : Z; RxPackets : Z; TxPackets : Z }.

Definition getWGStats (sys_file : string -> option string) (iface : string) : option WGStats :=
  let value name := (fun data => ParseInt (trim_space data)) <$> sys_file ("/sys/class/net/" ++ iface ++ "/statistics/" ++ name) in
  rx ← value "rx_bytes"; tx ← value "tx_bytes"; rxp ← value "rx_packets"; txp ← value "tx_packets";
  Some {| RxBytes := rx; TxBytes := tx; RxPackets := rxp; TxPackets := txp |}.

(** ** Processes *)

Section usage.
Context {F : Type} (parse_float : string -> option F) (fzero : F) (fadd : F -> F -> F).
Context (ps : Z -> option string) (proc_status : Z -> option string) (pgrep : option string) (self : Z) (active : string) (pid_file : string -> option string).

Record ProcessUsage := { CPU : F; Memory : Z; Threads : Z; Workers : Z }.

Definition wrap64 (x : Z) : Z := (x + 2 ^ 63) mod 2 ^ 64 - 2 ^ 63.

Lemma wrap64_id x : min_int <= x <= max_int -> wrap64 x = x.
Proof. unfold wrap64, min_int, max_int. intros Hx. rewrite Z.mod_small; lia. Qed.

Definition replace_commas (s : string) : string := map_string (fun c => if Ascii.eqb c "," then "."%char else c) s.

(** The number of the first line for it. *)
Definition thread_count (status : string) : Z :=
  match find (has_prefix "Threads:") (split_on (byte 10) status) with
  | Some line => default 0 (atoi (trim_space (trim_prefix "Threads:" line)))
  | None => 0
  end.

Definition workers_of (threads : Z) : Z := if 3 <? threads then threads - 3 else 0.

Definition getProcessUsageByPID (pid : Z) : option ProcessUsage :=
  match ps pid with
  | None => None
  | Some out =>
      match Tunnel.fields out with
      | cpu :: rss :: _ =>
          c ← parse_float (replace_commas cpu); m ← atoi rss;
          let threads := match proc_status pid with Some text => thread_count text | None => 0 end in
          Some {| CPU := c; Memory := wrap64 (m * 1024); Threads := threads; Workers := workers_of threads |}
      | _ => None
      end
  end.

(** The sums over the processes found, if there is one. *)
Fixpoint add_usage (pids : list string) (acc : F * Z * Z * bool) : F * Z * Z * bool :=
  match pids with
  | [] => acc
  | pid :: rest =>
      let '(c, m, t, _) := acc in
      add_usage rest
        (if String.eqb pid "" || (ParseInt pid =? self) then acc
         else match getProcessUsageByPID (ParseInt pid) with
              | Some u => (fadd c (CPU u), wrap64 (m + Memory u), wrap64 (t + Threads u), true)
              | None => acc
              end)
  end.

Definition usage_pids : option (list string) :=
  let of_active := if String.eqb active "" then "" else default "" (trim_space <$> pid_file active) in
  if negb (String.eqb of_active "") then Some [of_active]
  else (fun out => split_on (byte 10) (trim_space out)) <$> pgrep.

Definition getProcessUsage : option ProcessUsage :=
  pids ← usage_pids;
  match add_usage pids (fzero, 0, 0, false) with
  | (c, m, t, true) => Some {| CPU := c; Memory := m; Threads := t; Workers := workers_of t |}
  | _ => None
  end.

Lemma thread_count_int status : min_int <= thread_count status <= max_int.
Proof.
  unfold thread_count. destruct (find _ _) as [line |]; [| by vm_compute]. destruct (atoi _) as [n |] eqn:E; [| by vm_compute].
  exact (WgParse.atoi_range _ _ E).
Qed.

(** The usage of the active profile is that of its process. *)
Lemma usage_of_active pid u : (forall c, fadd fzero c = c) -> active <> "" -> trim_space <$> pid_file active = Some pid -> pid <> "" ->
  ParseInt pid <> self -> getProcessUsageByPID (ParseInt pid) = Some u -> getProcessUsage = Some u.
Proof.
  intros Hz Ha Hp Hne Hself Hu. unfold getProcessUsage, usage_pids. rewrite (proj2 (String.eqb_neq active "")), Hp by done. cbn [default from_option id].
  rewrite (proj2 (String.eqb_neq pid "")) by done. cbn [negb mbind option_bind add_usage].
  rewrite (proj2 (String.eqb_neq pid "")), (proj2 (Z.eqb_neq _ _)) by done. cbn [orb]. rewrite Hu, Hz, !Z.add_0_l.
  assert (wrap64 (Memory u) = Memory u /\ wrap64 (Threads u) = Threads u /\ Workers u = workers_of (Threads u)) as (-> & -> & <-); [| by destruct u].
  unfold getProcessUsageByPID in Hu. destruct (ps _) as [out |]; [| done]. destruct (Tunnel.fields out) as [| cpu [| rss rest]]; [done.. |].
  destruct (parse_float _) as [c |]; [| done]. cbn [mbind option_bind] in Hu. destruct (atoi rss) as [m |]; [| done]. injection Hu as <-. cbn.
  split; [unfold wrap64; by rewrite Z.sub_add, Z.mod_mod by lia |]. split; [| done].
  destruct (proc_status _); [apply wrap64_id, thread_count_int | done].
Qed.
End usage.

(** Of several processes the three threads that are no workers are taken off once only. *)
Example workers_of_two : Workers <$> getProcessUsage (fun _ => Some tt) tt (fun _ _ => tt) (fun _ => Some " 0.5  1000 ") (fun _ => Some ("Name: x" ++ String (byte 10) "Threads:  12"))
  (Some ("7" ++ String (byte 10) ("8" ++ String (byte 10) "9"))) 9 "" (fun _ => None) = Some 21.
Proof. by vm_compute. Qed.

(** ** The choice of a profile *)

Section choice.
Context `{Unicode}.

Inductive chosen := NoneEnabled | InputError | WrongChoice | Chosen (name : string).

(** The profiles of the menu, with their peers. *)
Fixpoint menu (names : list string) : Files (list (string * string)) :=
  match names with
  | [] => mret []
  | n :: rest =>
      r ← loadProfile n; b ← isProfileEnabled n; more ← menu rest;
      mret (match r with Ok p => if b : bool then (n, PeerAddr p) :: more else more | Err _ => more end)
  end.

(** [choice] is the number that is typed, if one is. *)
Definition selectProfileInteractive (choice : option Z) : Files chosen :=
  names ← listAllProfileNames;
  l ← menu names;
  mret (if (length l =? 0)%nat then NoneEnabled
        else match choice with
             | None => InputError
             | Some c => if (c <? 1) || (Z.of_nat (length l) <? c) then WrongChoice else Chosen (fst (nth (Z.to_nat (c - 1)) l ("", "")))
             end).

Lemma menu_reads names : reads (menu names).
Proof.
  induction names as [| n names IH]; intros m; [done |]. cbn [menu]. rewrite reads_run by apply load_reads. rewrite reads_run by apply enabled_reads.
  by rewrite reads_run.
Qed.

Lemma menu_entry names m n peer : (n, peer) ∈ (menu names m).1 ->
  n ∈ names /\ (exists p, (loadProfile n m).1 = Ok p /\ PeerAddr p = peer) /\ (isProfileEnabled n m).1 = true.
Proof.
  induction names as [| k names IH]; [by intros ?%elem_of_nil |]. cbn [menu]. rewrite reads_run by apply load_reads. rewrite reads_run by apply enabled_reads.
  rewrite reads_run by apply menu_reads. cbn [fst mret State_ret]. intros Hin.
  assert ((n, peer) ∈ (menu names m).1 -> n ∈ k :: names /\ (exists p, (loadProfile n m).1 = Ok p /\ PeerAddr p = peer) /\ (isProfileEnabled n m).1 = true) as Hrest.
  { intros H1. destruct (IH H1) as (H2 & H3). split; [by right | done]. }
  destruct (loadProfile k m).1 as [p |] eqn:El; [| by apply Hrest]. destruct (isProfileEnabled k m).1 eqn:Ee; [| by apply Hrest].
  apply elem_of_cons in Hin as [[= -> ->] | Hin]; [| by apply Hrest]. split; [by left |]. split; [by exists p | done].
Qed.

(** The profile that is chosen from the menu is one of those that exist, can be loaded and is enabled; the menu is
    answered without a fault for every number, and nothing is changed. *)
Theorem chosen_profile choice m :
  let r := selectProfileInteractive choice m in
  r.2 = m /\ forall n, r.1 = Chosen n ->
    n ∈ (listAllProfileNames m).1 /\ is_ok (loadProfile n m).1 = true /\ (isProfileEnabled n m).1 = true.
Proof.
  cbv zeta. unfold selectProfileInteractive. rewrite reads_run by done. rewrite reads_run by apply menu_reads. split; [done |]. cbn [fst mret State_ret]. intros n.
  set (l := (menu _ m).1). destruct (length l =? 0)%nat; [done |]. destruct choice as [c |]; [| done].
  destruct (_ || _) eqn:Ec; [done |]. apply orb_false_iff in Ec as [H1%Z.ltb_ge H2%Z.ltb_ge]. intros [= <-].
  destruct (nth (Z.to_nat (c - 1)) l ("", "")) as [n peer] eqn:En. cbn [fst].
  assert ((n, peer) ∈ l) as Hin by (rewrite <- En; apply list_elem_of_In, nth_In; lia).
  apply menu_entry in Hin as (Hn & (p & Hp & _) & He). by rewrite Hp.
Qed.
End choice.
