(* ===== verification/Fetch.v ===== *)
(** * Fetching a subscription (subscription.go, [fetchSubscriptionJSON]).

    The answer of the server is an argument; its text is JSON, or JSON in base64 of either alphabet. *)

From S2P Require Import Prelude Bytes GoStrings Chars Form Hashing Subscription.
From Stdlib Require Import ZArith Lia String Ascii.
From stdpp Require Import base list strings.
Open Scope string_scope.
Open Scope Z_scope.

(** ** Decoding base64 ([DecodeString]) *)

Definition code_in (lo hi off : Z) (c : ascii) : option Z := let n := code c in if (lo <=? n) && (n <=? hi) then Some (n + off) else None.

(** The value of a character; the last two are those of the alphabet. *)
Definition base64_val (c62 c63 c : ascii) : option Z :=
  match code_in 65 90 (-65) c with
  | Some v => Some v
  | None =>
      match code_in 97 122 (-71) c with
      | Some v => Some v
      | None =>
          match code_in 48 57 4 c with
          | Some v => Some v
          | None => if Ascii.eqb c c62 then Some 62 else if Ascii.eqb c c63 then Some 63 else None
          end
      end
  end.

Definition StdEncoding : ascii -> option Z := base64_val "+" "/".
Definition URLEncoding : ascii -> option Z := base64_val "-" "_".

(** Line breaks are passed over. *)
Fixpoint without_breaks (s : string) : string :=
  match s with
  | "" => ""
  | String c s' => if Ascii.eqb c (byte 10) || Ascii.eqb c (byte 13) then without_breaks s' else String c (without_breaks s')
  end.

Fixpoint decode_groups (val : ascii -> option Z) (s : string) : option (list Z) :=
  match s with
  | "" => Some []
  | String a (String b (String c (String d rest))) =>
      va ← val a; vb ← val b;
      let x := va * 4 + vb / 16 in
      if Ascii.eqb c "=" then if Ascii.eqb d "=" && String.eqb rest "" then Some [x] else None
      else
        vc ← val c;
        let y := vb mod 16 * 16 + vc / 4 in
        if Ascii.eqb d "=" then if String.eqb rest "" then Some [x; y] else None
        else vd ← val d; more ← decode_groups val rest; Some (x :: y :: vc mod 4 * 64 + vd :: more)
  | _ => None
  end.

Definition DecodeString (val : ascii -> option Z) (s : string) : option string := bytes_to_string <$> decode_groups val (without_breaks s).

(** ** The request *)

Record response := { StatusCode : Z; Body : option string }.

Inductive fetch_error := BadScheme | NoResponse | HTTPError (status : Z) | BodyFailed | EmptyBody | NeitherForm.

(** [io.LimitReader] *)
Fixpoint limited (n : Z) (s : string) : string :=
  match s with String c s' => if n <=? 0 then "" else String c (limited (n - 1) s') | "" => "" end.

Definition decode_body (trimmed : string) : result fetch_error string :=
  if String.eqb trimmed "" then Err EmptyBody
  else if has_prefix "{" trimmed then Ok trimmed
  else match DecodeString StdEncoding trimmed with
       | Some d => Ok d
       | None => match DecodeString URLEncoding trimmed with Some d => Ok d | None => Err NeitherForm end
       end.

Definition max_body : Z := Z.shiftl 2 20.

Definition fetchSubscriptionJSON (get : string -> option response) (url : string) : result fetch_error string :=
  if negb (valid_url url) then Err BadScheme
  else
    match get url with
    | None => Err NoResponse
    | Some r =>
        if (StatusCode r <? 200) || (300 <=? StatusCode r) then Err (HTTPError (StatusCode r))
        else match Body r with None => Err BodyFailed | Some body => decode_body (trim_space (limited max_body body)) end
    end.

(** What Subscription.v is given, with the decoding of the JSON text. *)
Definition fetch_with (get : string -> option response) (unmarshal : string -> option SubscriptionJSON) (url : string) : option SubscriptionJSON :=
  match fetchSubscriptionJSON get url with Ok text => unmarshal text | Err _ => None end.

(** ** Encoded documents are decoded *)

Definition sextet_ok (n : Z) : bool :=
  bool_decide (StdEncoding (base64_char n) = Some n) && negb (Ascii.eqb (base64_char n) "=") &&
  negb (Ascii.eqb (base64_char n) (byte 10)) && negb (Ascii.eqb (base64_char n) (byte 13)) && negb (Ascii.eqb (base64_char n) "{").

Lemma sextets n : 0 <= n < 64 -> sextet_ok n = true.
Proof.
  intros Hn. assert (forallb sextet_ok (seqZ 0 64) = true) as Hall by (by vm_compute). rewrite forallb_forall in Hall.
  apply Hall, list_elem_of_In, elem_of_seqZ. lia.
Qed.

Lemma sextet_val n : 0 <= n < 64 -> StdEncoding (base64_char n) = Some n /\ Ascii.eqb (base64_char n) "=" = false.
Proof.
  intros Hn%sextets. unfold sextet_ok in Hn. rewrite !andb_true_iff, bool_decide_eq_true, !negb_true_iff in Hn. tauto.
Qed.

(** The sextets of the encoder as arithmetic. *)
Lemma sextet_parts a b c : byte_ok a -> byte_ok b -> byte_ok c ->
  Z.shiftr a 2 = a / 4 /\ Z.shiftl (Z.land a 3) 4 = a mod 4 * 16 /\ Z.lor (Z.shiftl (Z.land a 3) 4) (Z.shiftr b 4) = a mod 4 * 16 + b / 16 /\
  Z.shiftl (Z.land b 15) 2 = b mod 16 * 4 /\ Z.lor (Z.shiftl (Z.land b 15) 2) (Z.shiftr c 6) = b mod 16 * 4 + c / 64 /\ Z.land c 63 = c mod 64.
Proof.
  unfold byte_ok. intros Ha Hb Hc. change 3 with (Z.ones 2). change 15 with (Z.ones 4). change 63 with (Z.ones 6). rewrite !Z.land_ones by lia.
  rewrite !Z.shiftr_div_pow2, !Z.shiftl_mul_pow2 by lia. change (2 ^ 2) with 4. change (2 ^ 4) with 16. change (2 ^ 6) with 64.
  pose proof (Z.mod_pos_bound a 4 ltac:(lia)). pose proof (Z.mod_pos_bound b 16 ltac:(lia)).
  split; [done |]. split; [done |]. split; [| split; [done | split; [| done]]].
  - apply (lor_high_low _ _ 4); [lia | change (2 ^ 4) with 16; by rewrite Z.mod_mul | change (2 ^ 4) with 16; split; [apply Z.div_pos; lia | apply Z.div_lt_upper_bound; lia]].
  - apply (lor_high_low _ _ 2); [lia | change (2 ^ 2) with 4; by rewrite Z.mod_mul | change (2 ^ 2) with 4; split; [apply Z.div_pos; lia | apply Z.div_lt_upper_bound; lia]].
Qed.

Lemma head_sextet b : byte_ok b -> 0 <= b / 4 < 64.
Proof. unfold byte_ok. intros Hb. split; [apply Z.div_pos; lia | apply Z.div_lt_upper_bound; lia]. Qed.
Lemma second_sextet a b : byte_ok b -> 0 <= a mod 4 * 16 + b / 16 < 64.
Proof.
  unfold byte_ok. intros Hb. pose proof (Z.mod_pos_bound a 4 ltac:(lia)).
  assert (0 <= b / 16 < 16) by (split; [apply Z.div_pos; lia | apply Z.div_lt_upper_bound; lia]). lia.
Qed.
Lemma third_sextet b c : byte_ok c -> 0 <= b mod 16 * 4 + c / 64 < 64.
Proof.
  unfold byte_ok. intros Hc. pose proof (Z.mod_pos_bound b 16 ltac:(lia)).
  assert (0 <= c / 64 < 4) by (split; [apply Z.div_pos; lia | apply Z.div_lt_upper_bound; lia]). lia.
Qed.

(** The bytes that the decoder puts together. *)
Lemma first_byte a b : byte_ok b -> a / 4 * 4 + (a mod 4 * 16 + b / 16) / 16 = a.
Proof.
  unfold byte_ok. intros Hb. rewrite Z.div_add_l, (Z.div_small (b / 16)) by (first [lia | split; [apply Z.div_pos; lia | apply Z.div_lt_upper_bound; lia]]).
  pose proof (Z.div_mod a 4). lia.
Qed.
Lemma second_byte a b c : byte_ok b -> byte_ok c -> (a mod 4 * 16 + b / 16) mod 16 * 16 + (b mod 16 * 4 + c / 64) / 4 = b.
Proof.
  unfold byte_ok. intros Hb Hc. rewrite (Z.add_comm (a mod 4 * 16)), Z.mod_add by lia.
  rewrite (Z.mod_small (b / 16)) by (split; [apply Z.div_pos; lia | apply Z.div_lt_upper_bound; lia]).
  rewrite Z.div_add_l, (Z.div_small (c / 64)) by (first [lia | split; [apply Z.div_pos; lia | apply Z.div_lt_upper_bound; lia]]).
  pose proof (Z.div_mod b 16). lia.
Qed.
Lemma third_byte b c : byte_ok c -> (b mod 16 * 4 + c / 64) mod 4 * 64 + c mod 64 = c.
Proof.
  unfold byte_ok. intros Hc. rewrite (Z.add_comm (b mod 16 * 4)), Z.mod_add by lia.
  rewrite (Z.mod_small (c / 64)) by (split; [apply Z.div_pos; lia | apply Z.div_lt_upper_bound; lia]). pose proof (Z.div_mod c 64). lia.
Qed.

Lemma decode_encode l : bytes_ok l -> decode_groups StdEncoding (base64_encode l) = Some l.
Proof.
  assert (byte_ok 0) as H0 by (unfold byte_ok; lia).
  cut (forall n l, (length l < n)%nat -> bytes_ok l -> decode_groups StdEncoding (base64_encode l) = Some l); [intros Hc; apply (Hc (S (length l))); lia |].
  clear l. induction n as [| n IH]; intros l Hn Hl; [lia |]. destruct l as [| a [| b [| c rest]]]; [done | | |].
  - apply Forall_cons in Hl as [Ha _]. destruct (sextet_parts a 0 0 Ha H0 H0) as (E1 & _ & E3 & _). change (Z.shiftr 0 4) with 0 in E3.
    rewrite Z.lor_0_r in E3. cbn [base64_encode decode_groups]. rewrite E1, E3.
    rewrite (proj1 (sextet_val _ (head_sextet a Ha))), (proj1 (sextet_val _ (second_sextet a 0 H0))). cbn [mbind option_bind].
    by rewrite first_byte.
  - apply Forall_cons in Hl as [Ha Hl]. apply Forall_cons in Hl as [Hb _]. destruct (sextet_parts a b 0 Ha Hb H0) as (E1 & _ & E3 & E4 & E5 & _).
    change (Z.shiftr 0 6) with 0 in E5. rewrite Z.lor_0_r in E5. cbn [base64_encode decode_groups]. rewrite E1, E3, E5.
    destruct (sextet_val _ (third_sextet b 0 H0)) as [V3 N3].
    rewrite (proj1 (sextet_val _ (head_sextet a Ha))), (proj1 (sextet_val _ (second_sextet a b Hb))). cbn [mbind option_bind].
    rewrite N3, V3. cbn [mbind option_bind]. by rewrite first_byte, second_byte.
  - apply Forall_cons in Hl as [Ha Hl]. apply Forall_cons in Hl as [Hb Hl]. apply Forall_cons in Hl as [Hc Hl].
    destruct (sextet_parts a b c Ha Hb Hc) as (E1 & _ & E3 & _ & E5 & E6). cbn [base64_encode decode_groups]. rewrite E1, E3, E5, E6.
    destruct (sextet_val _ (third_sextet b c Hc)) as [V3 N3]. destruct (sextet_val (c mod 64) (Z.mod_pos_bound c 64 ltac:(lia))) as [V4 N4].
    rewrite (proj1 (sextet_val _ (head_sextet a Ha))), (proj1 (sextet_val _ (second_sextet a b Hb))). cbn [mbind option_bind].
    rewrite N3, V3. cbn [mbind option_bind]. rewrite N4, V4. cbn [mbind option_bind]. cbn [length] in Hn. rewrite IH by (done || lia).
    cbn [mbind option_bind]. by rewrite first_byte, second_byte, third_byte.
Qed.

Lemma bytes_of_ok s : bytes_ok (bytes_of s).
Proof. induction s as [| c s IH]; constructor; [| done]. unfold byte_ok. pose proof (N_ascii_bounded c). lia. Qed.

Lemma bytes_back s : bytes_to_string (bytes_of s) = s.
Proof. induction s as [| c s IH]; [done |]. cbn. rewrite N2Z.id, ascii_N_embedding. by f_equal. Qed.

(** What is decoded has the characters of the alphabet only. *)
Lemma decoded_no_char val s l b : decode_groups val s = Some l -> val b = None -> b <> "="%char -> no_char b s = true.
Proof.
  intros Hd Hb Hne. revert l Hd. cut (forall n s l, (String.length s < n)%nat -> decode_groups val s = Some l -> no_char b s = true).
  { intros Hc l. apply (Hc (S (String.length s))). lia. }
  assert (forall c v, val c = Some v -> Ascii.eqb c b = false) as Hv by (intros c v Hc; apply Ascii.eqb_neq; congruence).
  assert (Ascii.eqb "=" b = false) as Heq by (by apply Ascii.eqb_neq). clear s.
  induction n as [| n IH]; intros s l Hn; [lia |]. destruct s as [| c1 [| c2 [| c3 [| c4 rest]]]]; try done. cbn [decode_groups no_char String.length] in *.
  destruct (val c1) eqn:E1; [| done]. destruct (val c2) eqn:E2; [| done]. cbn [mbind option_bind]. rewrite (Hv _ _ E1), (Hv _ _ E2).
  destruct (Ascii.eqb_spec c3 "=") as [-> | _].
  { rewrite Heq. destruct (Ascii.eqb_spec c4 "=") as [-> | _]; [| done]. destruct (String.eqb_spec rest "") as [-> |]; [| done]. by rewrite Heq. }
  destruct (val c3) eqn:E3; [| done]. cbn [mbind option_bind]. rewrite (Hv _ _ E3). destruct (Ascii.eqb_spec c4 "=") as [-> | _].
  { rewrite Heq. by destruct (String.eqb_spec rest "") as [-> |]. }
  destruct (val c4) eqn:E4; [| done]. cbn [mbind option_bind]. rewrite (Hv _ _ E4). destruct (decode_groups val rest) as [more |] eqn:Er; [| done].
  intros _. rewrite (IH rest more) by (done || lia). done.
Qed.

(** A text with line breaks put into it. *)
Inductive broken : string -> string -> Prop :=
| broken_end : broken "" ""
| broken_char c s t : broken s t -> broken (String c s) (String c t)
| broken_lf s t : broken s t -> broken s (String (byte 10) t)
| broken_cr s t : broken s t -> broken s (String (byte 13) t).

Lemma breaks_removed s t : broken s t -> no_char (byte 10) s = true -> no_char (byte 13) s = true -> without_breaks t = s.
Proof.
  induction 1 as [| c s t Hs IH | s t Hs IH | s t Hs IH]; intros H1 H2; [done | | by apply IH..].
  cbn [no_char] in H1, H2. apply andb_true_iff in H1 as [H1%negb_true_iff H1'], H2 as [H2%negb_true_iff H2'].
  cbn [without_breaks]. rewrite H1, H2. cbn [orb]. by rewrite IH.
Qed.

Lemma encoded_unbroken l t : bytes_ok l -> broken (base64_encode l) t -> without_breaks t = base64_encode l.
Proof.
  intros Hl%decode_encode Ht. apply breaks_removed; [done | |]; by eapply decoded_no_char.
Qed.

(** The encoded text does not begin like a document. *)
Lemma encoded_head l s : bytes_ok l -> base64_encode l = String "{" s -> False.
Proof.
  intros Hl. destruct l as [| a l]; [done |]. apply Forall_cons in Hl as [Ha _].
  assert (Z.shiftr a 2 = a / 4) as E by (rewrite Z.shiftr_div_pow2 by lia; done).
  pose proof (sextets _ (head_sextet a Ha)) as Hs. unfold sextet_ok in Hs. rewrite !andb_true_iff, !negb_true_iff in Hs.
  destruct Hs as [_ Hs]. intros He. rewrite <- E in Hs.
  destruct l as [| b [| c l]]; cbn [base64_encode] in He; injection He as He _; by rewrite He in Hs.
Qed.

Lemma limited_all n s : Z.of_nat (String.length s) <= n -> limited n s = s.
Proof.
  revert n. induction s as [| c s IH]; intros n Hn; [done |]. cbn [limited String.length] in *. rewrite (proj2 (Z.leb_gt _ _)) by lia.
  f_equal. apply IH. lia.
Qed.

(** A subscription whose server answers with a document, or with the document in base64, whatever white space is
    around it and wherever its lines are broken, is fetched as that document. *)
Theorem document_fetched get url r body doc :
  valid_url url = true -> get url = Some r -> 200 <= StatusCode r < 300 -> Body r = Some body -> Z.of_nat (String.length body) <= max_body ->
  has_prefix "{" doc = true ->
  (trim_space body = doc \/ broken (base64_encode (bytes_of doc)) (trim_space body)) ->
  fetchSubscriptionJSON get url = Ok doc.
Proof.
  intros Hu Hg Hs Hb Hlen Hd Hbody. unfold fetchSubscriptionJSON. rewrite Hu, Hg, (proj2 (Z.ltb_ge _ _)), (proj2 (Z.leb_gt _ _)), Hb by lia. cbn [negb orb].
  rewrite limited_all by done. unfold decode_body. destruct Hbody as [-> | He%encoded_unbroken]; [| | apply bytes_of_ok].
  - destruct (String.eqb_spec doc ""); [by subst |]. by rewrite Hd.
  - assert (trim_space body <> "") as Hne.
    { intros E. rewrite E in He. destruct doc as [| c doc]; [done |]. cbn in He. by destruct (bytes_of doc) as [| b [| d l]]. }
    rewrite (proj2 (String.eqb_neq _ _)) by done. destruct (has_prefix "{" (trim_space body)) eqn:Hp.
    + exfalso. apply has_prefix_spec in Hp as [t Ht]. rewrite Ht in He. change ("{" ++ t) with (String "{" t) in He. cbn [without_breaks] in He.
      apply (encoded_head (bytes_of doc) (without_breaks t) (bytes_of_ok doc)). by rewrite <- He.
    + unfold DecodeString. rewrite He, decode_encode by apply bytes_of_ok. cbn [fmap option_fmap option_map]. by rewrite bytes_back.
Qed.

(** ** Examples *)

Definition answer (body : string) (url : string) : option response := Some {| StatusCode := 200; Body := Some body |}.

Example fetched : (fun body => fetchSubscriptionJSON (answer body) "https://x/y") <$>
    [" {1}"; "ezF9"; "ez" ++ String (byte 10) "F9 "; "ez8-fQ=="; "ez8+fQ=="; "ezF9fQ"; ""; "e!F9"] =
  [Ok "{1}"; Ok "{1}"; Ok "{1}"; Ok "{?>}"; Ok "{?>}"; Err NeitherForm; Err EmptyBody; Err NeitherForm].
Proof. by vm_compute. Qed.

Lemma document_fetched_witness : fetchSubscriptionJSON (answer ("ez" ++ String (byte 10) "F9 ")) "https://x/y" = Ok "{1}".
Proof.
  apply (document_fetched (answer ("ez" ++ String (byte 10) "F9 ")) "https://x/y" {| StatusCode := 200; Body := Some ("ez" ++ String (byte 10) "F9 ") |}
    ("ez" ++ String (byte 10) "F9 ") "{1}"); [reflexivity | reflexivity | cbn; lia | reflexivity | by vm_compute | reflexivity | right].
  change (broken "ezF9" ("ez" ++ String (byte 10) "F9")). repeat constructor.
Defined.
