(* ===== verification/SelfTest.v ===== *)
(** * Testing a profile (test.go, [testProfile], [testProfileFromLink], [testInternetCheck]).

    A test is a short connection: the core is started, its events and two timers are handled in a select loop until
    everything works or the time is over, and what was set up is taken down.  The turns of the loop are a list, in any
    order; what the core and the commands answer depends on the calls made before, as in Connect.v. *)

From S2P Require Import Prelude GoStrings CoreRuntime Profiles Links WgParse Effects Tunnel Connect.
From Stdlib Require Import ZArith Lia String Ascii.
From stdpp Require Import base list strings.
Open Scope string_scope.
Open Scope Z_scope.

(** The parameters of a test. *)
Record targs := {
  t_mode : string; t_socksPort : Z; t_socksUser : string; t_socksPass : string; t_pub : bool; t_listen : string; t_transport : string
}.

Inductive tcall :=
| DaemonRunning (name : string) | LoadTested (name : string) | ReadID | StartSocket (name : string) | StopSocket | HasCapNetAdmin
| StartCore (cfg : CoreRuntime.Config) | StopCore | Drained | SolveTested (result : string) | VKAuthPassed | TurnIPs
| StartRunner (port : Z) (user password bind conf : string) | StopRunner | Ping (iface host : string) | Curl (port : Z) (host : string).

Record TestResult := { Profile : string; VKAuth : string; Connected : string; InternetCheck : string; Error : string }.

(** The variables of a test, and what is held across tests: a core that runs and was not told to stop, the captcha
    socket, the SOCKS server; [unfinished]: the cores told to stop whose end was not seen within 3 seconds. *)
Record marks := {
  vkAuthPassed : bool; connectPassed : bool; wgApplied : bool; rawApplied : bool; wr : bool; result_ : TestResult;
  running : bool; socket : bool; runner_held : bool; unfinished : nat
}.

Definition ok_mark : string := "✓".
Definition bad_mark : string := "✗".

Definition fresh_result (name : string) : TestResult :=
  {| Profile := name; VKAuth := bad_mark; Connected := bad_mark; InternetCheck := "n/a"; Error := "" |}.
(** A test begins; what is held stays. *)
Definition fresh_marks (name : string) (m : marks) : marks :=
  {| vkAuthPassed := false; connectPassed := false; wgApplied := false; rawApplied := false; wr := false; result_ := fresh_result name;
     running := running m; socket := socket m; runner_held := runner_held m; unfinished := unfinished m |}.

Definition with_result (f : TestResult -> TestResult) (m : marks) : marks :=
  {| vkAuthPassed := vkAuthPassed m; connectPassed := connectPassed m; wgApplied := wgApplied m; rawApplied := rawApplied m; wr := wr m;
     result_ := f (result_ m); running := running m; socket := socket m; runner_held := runner_held m; unfinished := unfinished m |}.
Definition with_steps (v c w r : bool) (m : marks) : marks :=
  {| vkAuthPassed := v; connectPassed := c; wgApplied := w; rawApplied := r; wr := wr m; result_ := result_ m;
     running := running m; socket := socket m; runner_held := runner_held m; unfinished := unfinished m |}.
Definition with_held (w co so ru : bool) (m : marks) : marks :=
  {| vkAuthPassed := vkAuthPassed m; connectPassed := connectPassed m; wgApplied := wgApplied m; rawApplied := rawApplied m; wr := w;
     result_ := result_ m; running := co; socket := so; runner_held := ru; unfinished := unfinished m |}.
Definition count_unfinished (m : marks) : marks :=
  {| vkAuthPassed := vkAuthPassed m; connectPassed := connectPassed m; wgApplied := wgApplied m; rawApplied := rawApplied m; wr := wr m;
     result_ := result_ m; running := running m; socket := socket m; runner_held := runner_held m; unfinished := S (unfinished m) |}.

Definition mark_vk (m : marks) : marks :=
  with_result (fun r => {| Profile := Profile r; VKAuth := ok_mark; Connected := Connected r; InternetCheck := InternetCheck r; Error := Error r |})
    (with_steps true (connectPassed m) (wgApplied m) (rawApplied m) m).
Definition mark_connect (m : marks) : marks :=
  with_result (fun r => {| Profile := Profile r; VKAuth := VKAuth r; Connected := ok_mark; InternetCheck := InternetCheck r; Error := Error r |})
    (with_steps (vkAuthPassed m) true (wgApplied m) (rawApplied m) m).
Definition mark_internet (c : string) : marks -> marks :=
  with_result (fun r => {| Profile := Profile r; VKAuth := VKAuth r; Connected := Connected r; InternetCheck := c; Error := Error r |}).
Definition mark_error (e : string) : marks -> marks :=
  with_result (fun r => {| Profile := Profile r; VKAuth := VKAuth r; Connected := Connected r; InternetCheck := InternetCheck r; Error := e |}).
Definition mark_wg (m : marks) : marks := with_steps (vkAuthPassed m) (connectPassed m) true (rawApplied m) m.
Definition mark_raw (m : marks) : marks := with_steps (vkAuthPassed m) (connectPassed m) (wgApplied m) true m.
Definition hold_core (b : bool) (m : marks) : marks := with_held (wr m) b (socket m) (runner_held m) m.
Definition hold_socket (b : bool) (m : marks) : marks := with_held (wr m) (running m) b (runner_held m) m.
(** A SOCKS server that fails to start may leave a device behind that only its Stop closes (Runner.v). *)
Definition make_runner (m : marks) : marks := with_held true (running m) (socket m) true m.
Definition drop_runner (m : marks) : marks := with_held (wr m) (running m) (socket m) false m.

Definition passed (r : TestResult) : bool :=
  String.eqb (VKAuth r) ok_mark && String.eqb (Connected r) ok_mark && String.eqb (InternetCheck r) ok_mark.

(** What wakes the select loop. *)
Inductive turn := TimeOver | Tick | Solved (result : string) | Closed | Arrived (ev : event).

(** ** The configuration of the core *)

Section test.
Context {key udp : Type} (zero_key : key) (ParseKey : string -> option key) (ResolveUDPAddr : string -> option udp).
Context `{Unicode}.
Abbreviation op := (@op key udp tcall).
Abbreviation tun := (@tun key udp tcall).

Class Tested := {
  tested_profile : list op -> string -> option ProfileData;
  own_id : list op -> string;
  relay_ips : list op -> list string
}.
Context `{W : @World key udp tcall} `{Tested}.
Context (a : targs).

Definition test_listen (listen : string) : string :=
  if String.eqb (t_mode a) "socks" then "127.0.0.1:0"
  else if String.eqb listen "" then "127.0.0.1:" ++ defaultListenPort else listen.

Definition test_bind : string := if t_pub a then "0.0.0.0" else if String.eqb (t_listen a) "" then "127.0.0.1" else t_listen a.

Definition test_config (peer password : string) (hashes : list string) (listen turnHost turnPort id : string) (workers : Z) : CoreRuntime.Config :=
  {| CoreRuntime.PeerAddr := peer; CoreRuntime.Password := password; CoreRuntime.Hashes := hashes;
     CoreRuntime.Listen := test_listen listen; CoreRuntime.TurnHost := turnHost; CoreRuntime.TurnPort := turnPort;
     CoreRuntime.DeviceID := id; CoreRuntime.Workers := workers; CoreRuntime.CaptchaMode := "auto"; CoreRuntime.MTU := 1280;
     CoreRuntime.DNS := "yandex"; CoreRuntime.Mode := t_mode a; CoreRuntime.SocksPort := t_socksPort a;
     CoreRuntime.SocksUser := t_socksUser a; CoreRuntime.SocksPass := t_socksPass a;
     CoreRuntime.SocksBindAddr := if String.eqb (t_mode a) "socks" then test_bind else ""; CoreRuntime.WGRawConfig := "";
     CoreRuntime.RawMode := String.eqb (t_mode a) "raw"; CoreRuntime.NoDTLS := false; CoreRuntime.Transport := t_transport a;
     CoreRuntime.RawPort := "56003" |}.

Definition profile_config (p : ProfileData) (id : string) : CoreRuntime.Config :=
  test_config (Profiles.PeerAddr p) (Profiles.Password p) (Profiles.Hashes p) (Profiles.Listen p) (Profiles.TurnHost p) (Profiles.TurnPort p) id
    (if Profiles.Workers p <=? 0 then defaultWorkers else Profiles.Workers p).

Definition link_config (l : WdttLink) (id : string) : CoreRuntime.Config :=
  test_config (Links.IP l ++ ":" ++ Links.DTLSPort l) (Links.Password l) (Links.Hashes l) ("127.0.0.1:" ++ Links.Port l) "" "" id (Links.Workers l).

(** ** Steps of a test *)

Record tstate := { kern : tun; marked : marks }.
Abbreviation T := (State tstate).

Definition lift {A} (m : State tun A) : T A := fun s => let '(x, t) := m (kern s) in (x, {| kern := t; marked := marked s |}).
Definition acall (c : tcall) : T bool := lift (call (App c)).
Definition aask {A} (f : list op -> A) (c : tcall) : T A := lift (ask f (App c)).
Definition mark (f : marks -> marks) : T unit := modify (fun s => {| kern := kern s; marked := f (marked s) |}).

Fixpoint any_host (f : string -> tcall) (hosts : list string) : T bool :=
  match hosts with
  | [] => mret false
  | h :: rest => ok ← acall (f h); if ok : bool then mret true else any_host f rest
  end.

Definition test_hosts : list string := ["8.8.8.8"; "1.1.1.1"; "9.9.9.9"; "208.67.222.222"].

Definition testInternetCheck (mode : string) : T string :=
  ok ← (if String.eqb mode "tun" then any_host (Ping wgIface) test_hosts
        else if String.eqb mode "raw" then
          ok ← any_host (Ping RawIfaceName) test_hosts;
          if ok : bool then mret true else any_host (Ping RawIfaceName) test_hosts
        else any_host (Curl (t_socksPort a)) test_hosts);
  mret (if ok : bool then ok_mark else bad_mark).

Definition check_vk : T unit :=
  m ← gets marked;
  if vkAuthPassed m then mret tt else ok ← acall VKAuthPassed; if ok : bool then mark mark_vk else mret tt.

Definition after_connect (mode : string) : T unit :=
  _ ← mark mark_connect; c ← testInternetCheck mode; mark (mark_internet c).

(** The configuration arrives; false: it could not be applied. *)
Definition connect_wg (conf : string) : T bool :=
  _ ← mark mark_wg;
  ok ← (if String.eqb (t_mode a) "socks" then
          _ ← mark make_runner; acall (StartRunner (t_socksPort a) (t_socksUser a) (t_socksPass a) test_bind conf)
        else
          ips ← aask relay_ips TurnIPs; r ← lift (applyWGConfig zero_key ParseKey ResolveUDPAddr conf ips None); mret (is_ok r));
  if ok : bool then _ ← after_connect (if String.eqb (t_mode a) "tun" then "tun" else "socks"); mret true else mret false.

Definition connect_raw : T unit :=
  _ ← mark mark_raw;
  g ← lift defaultGateway;
  _ ← match g with Some gateway => ips ← aask relay_ips TurnIPs; lift (applyTurnIPsBypass ips gateway) | None => mret tt end;
  after_connect "raw".

(** An event of the core: whether the loop is done; [None] skips the checks behind the switch. *)
Definition named_event (name data : string) : T (option bool) :=
  m ← gets marked;
  ok ← (if String.eqb name "wg_config" && negb (connectPassed m) then connect_wg data else mret true);
  if negb ok then mret None
  else
    m ← gets marked;
    _ ← (if String.eqb (t_mode a) "raw" && String.eqb name "raw_conf" && negb (connectPassed m) then connect_raw else mret tt);
    mret (Some (String.eqb name "workers_completed")).

Definition all_stages : T bool :=
  m ← gets marked; mret (vkAuthPassed m && connectPassed m && String.eqb (InternetCheck (result_ m)) ok_mark).

Definition on_event (ev : event) : T bool :=
  r ← match ev with
      | EvEvent name data => named_event name data
      | EvError _ => mret (Some true)
      | _ => mret (Some false)
      end;
  match r with
  | None => mret true
  | Some d => _ ← check_vk; all ← all_stages; mret (d || all)
  end.

(** [captcha]: only the test of a profile has a socket for captcha results. *)
Definition on_turn (captcha : bool) (t : turn) : T bool :=
  match t with
  | TimeOver => mret true
  | Tick => _ ← check_vk; mret false
  | Solved r => if captcha then _ ← acall (SolveTested r); mret false else mret false
  | Closed => mret true
  | Arrived ev => on_event ev
  end.

(** Whether the loop ended; the turns may not be enough. *)
Fixpoint test_loop (captcha : bool) (turns : list turn) : T bool :=
  match turns with
  | [] => mret false
  | t :: rest => d ← on_turn captcha t; if d : bool then mret true else test_loop captcha rest
  end.

(** [c.Stop()] and the wait for the end of the core's events; after 3 seconds the test goes on without it. *)
Definition stop_core : T unit :=
  _ ← acall StopCore; _ ← mark (hold_core false);
  drained ← acall Drained;
  if drained : bool then mret tt else mark count_unfinished.

Definition take_down : T unit :=
  m ← gets marked;
  _ ← (if wgApplied m then
         if String.eqb (t_mode a) "socks" && wr m then _ ← acall StopRunner; mark drop_runner else _ ← lift teardownWG; mret tt
       else mret tt);
  if rawApplied m then lift teardownTunnelRoutes else mret tt.

Definition fail (e : string) : T (option TestResult) := _ ← mark (mark_error e); m ← gets marked; mret (Some (result_ m)).

(** From the configuration on; [None]: the loop still runs. *)
Definition run_test (captcha : bool) (cfg : CoreRuntime.Config) (turns : list turn) : T (option TestResult) :=
  match CoreRuntime.New cfg with
  | Err _ => fail "core.New"
  | Ok (cfg, _) =>
      started ← acall (StartCore cfg);
      if negb started then fail "core.Start"
      else
        _ ← mark (hold_core true);
        ended ← test_loop captcha turns;
        if negb ended then mret None
        else _ ← stop_core; _ ← take_down; m ← gets marked; mret (Some (result_ m))
  end.

(** The captcha socket is closed when the test returns. *)
Definition with_socket (name : string) (m : T (option TestResult)) : T (option TestResult) :=
  ok ← acall (StartSocket name); _ ← mark (hold_socket ok);
  r ← m;
  match r with None => mret None | Some _ => _ ← acall StopSocket; _ ← mark (hold_socket false); mret r end.

Definition testProfile (name : string) (turns : list turn) : T (option TestResult) :=
  _ ← mark (fresh_marks name);
  alive ← acall (DaemonRunning name);
  if alive : bool then fail "daemon already running"
  else
    prof ← aask (fun h => tested_profile h name) (LoadTested name);
    match prof with
    | None => fail "profile"
    | Some p =>
        id ← (if String.eqb (Profiles.DeviceID p) "" then aask own_id ReadID else mret (Profiles.DeviceID p));
        with_socket name
          (cap ← (if String.eqb (t_mode a) "socks" then mret true else acall HasCapNetAdmin);
           if negb cap then fail "cap_net_admin required" else run_test true (profile_config p id) turns)
    end.

Definition testProfileFromLink (l : WdttLink) (label : string) (turns : list turn) : T (option TestResult) :=
  _ ← mark (fresh_marks label);
  id ← aask own_id ReadID;
  run_test false (link_config l id) turns.

(** What the command tests: a profile, or a link with its text. *)
Definition test_target (target : string + WdttLink * string) (turns : list turn) : T (option TestResult) :=
  match target with inl name => testProfile name turns | inr (l, label) => testProfileFromLink l label turns end.

(** ** What a test leaves *)

Definition st (F : marks -> Prop) (P : tun -> Prop) (s : tstate) : Prop := F (marked s) /\ P (kern s).

Lemma lift_st {A} F P (m : State tun A) Q : sat P m Q -> sat (st F P) (lift m) (fun x => st F (Q x)).
Proof. intros Hm s [Hf Hs]. specialize (Hm _ Hs). unfold lift. destruct (m (kern s)) as [x t]. by split. Qed.

Lemma mark_st (F F' : marks -> Prop) P f : (forall m, F m -> F' (f m)) -> sat (st F P) (mark f) (fun _ => st F' P).
Proof. intros Hf. apply sat_modify. intros s [H1 H2]. split; [by apply Hf | exact H2]. Qed.

(** A property of the kernel's state that calls about other things than it preserve. *)
Definition deaf (P : tun -> Prop) : Prop := forall A (f : list op -> A) c, keeps P (ask f (App c)).

Lemma clean_deaf : deaf clean.
Proof. intros A f c. by apply ask_clean. Qed.
Lemma tracked_deaf b X : deaf (tracked b X).
Proof. intros A f c. by apply ask_tracked. Qed.

Section deaf.
Context (F : marks -> Prop) (P : tun -> Prop) (HP : deaf P).

Lemma acall_st c : keeps (st F P) (acall c).
Proof. apply lift_st, HP. Qed.
Lemma aask_st {A} (f : list op -> A) c : keeps (st F P) (aask f c).
Proof. apply lift_st, HP. Qed.
#[local] Hint Resolve acall_st aask_st : effects.

Lemma any_host_st f l : keeps (st F P) (any_host f l).
Proof. induction l as [| h l IH]; cbn [any_host]; keep. Qed.
#[local] Hint Resolve any_host_st : effects.

Lemma internet_st md : keeps (st F P) (testInternetCheck md).
Proof. unfold testInternetCheck. keep. Qed.

Lemma check_vk_st : (forall m, F m -> F (mark_vk m)) -> keeps (st F P) check_vk.
Proof.
  intros Hf. unfold check_vk. apply keeps_bind; [auto with effects |]. intros m. destruct (vkAuthPassed m); [auto with effects |].
  apply keeps_bind; [auto with effects |]. intros []; [by apply mark_st | auto with effects].
Qed.
End deaf.
#[local] Hint Resolve acall_st aask_st internet_st clean_deaf tracked_deaf : effects.

Section releases.
Context (so : bool).

(** Before the configuration, and after it. *)
Definition idle (m : marks) : Prop :=
  wgApplied m = false /\ rawApplied m = false /\ runner_held m = false /\ socket m = so.

Definition socks : bool := String.eqb (t_mode a) "socks".

Definition set_up_ (m : marks) : Prop :=
  wgApplied m || rawApplied m = true /\ socket m = so /\
  (if socks then wgApplied m = true /\ rawApplied m = false /\ wr m = true else runner_held m = false).

Definition connected_ (m : marks) : Prop := set_up_ m /\ connectPassed m = true.

Definition up_kern : tun -> Prop := if socks then clean else tracked true [].

Lemma up_deaf : deaf up_kern.
Proof. unfold up_kern. destruct socks; auto with effects. Qed.
#[local] Hint Resolve up_deaf : effects.

Definition going (s : tstate) : Prop := st idle clean s \/ st connected_ up_kern s.
Definition over (s : tstate) : Prop := st idle clean s \/ st set_up_ up_kern s.

Lemma going_over s : going s -> over s.
Proof. intros [H1 | [[H1 _] H2]]; [by left | by right]. Qed.

Lemma going_keeps {A} (m : T A) : (forall F P, deaf P -> (forall k, F k -> F (mark_vk k)) -> keeps (st F P) m) -> keeps going m.
Proof.
  intros Hm s [Hs | Hs]; [left | right].
  - by apply (Hm idle clean clean_deaf).
  - by apply (Hm connected_ up_kern up_deaf).
Qed.

Lemma after_connect_up md : sat (st set_up_ up_kern) (after_connect md) (fun _ => st connected_ up_kern).
Proof.
  unfold after_connect. apply (sat_bind _ _ (fun _ => st connected_ up_kern)); [by apply mark_st |]. intros [].
  apply (sat_bind _ _ (fun _ => st connected_ up_kern)); [apply internet_st, up_deaf |]. intros c. by apply mark_st.
Qed.

Lemma connect_wg_up conf : sat (st idle clean) (connect_wg conf) (fun b => if b then st connected_ up_kern else st set_up_ up_kern).
Proof.
  unfold connect_wg.
  apply (sat_bind _ _ (fun _ => st (fun m => wgApplied m = true /\ rawApplied m = false /\ runner_held m = false /\ socket m = so) clean)).
  { apply mark_st. intros m (H1 & H2 & H3 & H4). by repeat split. }
  intros []. apply (sat_bind _ _ (fun _ => st set_up_ up_kern)).
  - unfold set_up_, up_kern, socks. destruct (String.eqb (t_mode a) "socks").
    + eapply sat_bind; [apply (mark_st _ (fun m => wgApplied m || rawApplied m = true /\ socket m = so /\ wgApplied m = true /\ rawApplied m = false /\ wr m = true))
        | intros []; apply acall_st, clean_deaf].
      intros m (H1 & H2 & H3 & H4). cbn. by rewrite H1.
    + eapply sat_bind; [apply aask_st, clean_deaf |]. intros ips.
      eapply sat_bind; [apply lift_st; eapply sat_weaken; [apply apply_tracked | apply clean_tracked | intros r t Ht; exact Ht] |].
      intros r. apply sat_ret. intros s [(H1 & H2 & H3 & H4) Ht]. split; [by rewrite H1 | destruct r; [done | by apply tracked_weaken]].
  - intros []; [| by apply sat_ret]. eapply sat_bind; [apply after_connect_up |]. intros []. by apply sat_ret.
Qed.

Lemma connect_raw_up : t_mode a = "raw" -> sat (st idle clean) connect_raw (fun _ => st connected_ up_kern).
Proof.
  intros Hmode. assert (socks = false) as Hs by (unfold socks; by rewrite Hmode). unfold connect_raw.
  apply (sat_bind _ _ (fun _ => st set_up_ clean)).
  { apply mark_st. intros m (H1 & H2 & H3 & H4). unfold set_up_. cbn. rewrite Hs, H1. by repeat split. }
  intros []. eapply sat_bind; [apply lift_st, gateway_clean |]. intros g.
  apply (sat_bind _ _ (fun _ => st set_up_ up_kern)); [| intros []; apply after_connect_up]. unfold up_kern. rewrite Hs. destruct g as [g |].
  - eapply sat_bind; [apply aask_st, clean_deaf |]. intros ips.
    apply lift_st. eapply sat_weaken; [apply apply_turn_tracked | apply clean_tracked | done].
  - apply sat_ret. intros s [H1 H2]. split; [done | by apply clean_tracked].
Qed.

Lemma named_event_sat name data : sat going (named_event name data) (fun r s => match r with None => over s | Some _ => going s end).
Proof.
  intros s Hs. unfold named_event. rewrite run_bind. cbn [gets fst snd]. destruct Hs as [Hs | Hs].
  - destruct (String.eqb name "wg_config" && negb (connectPassed (marked s))).
    + rewrite run_bind. pose proof (connect_wg_up data s Hs) as Hc. destruct (connect_wg data s) as [[] s1]; cbn [fst snd negb] in *; [| by right].
      rewrite run_bind. cbn [gets fst snd]. destruct Hc as [[Hu Hcp] Hk]. rewrite Hcp, andb_false_r. right. by split.
    + rewrite run_bind. cbn [fst snd negb mret State_ret]. rewrite run_bind. cbn [gets fst snd].
      destruct (String.eqb (t_mode a) "raw" && String.eqb name "raw_conf" && negb (connectPassed (marked s))) eqn:E.
      * rewrite run_bind. right. apply (connect_raw_up ltac:(apply String.eqb_eq; by destruct (String.eqb (t_mode a) "raw")) s Hs).
      * by left.
  - pose proof Hs as [[_ Hcp] _]. rewrite Hcp, andb_false_r, run_bind. cbn [fst snd negb mret State_ret].
    rewrite run_bind. cbn [gets fst snd]. rewrite Hcp, andb_false_r. by right.
Qed.

Lemma check_going : keeps going check_vk.
Proof. apply going_keeps. intros F P HP Hf. by apply check_vk_st. Qed.

Lemma on_turn_sat captcha t : sat going (on_turn captcha t) (fun d s => if d : bool then over s else going s).
Proof.
  destruct t as [| | r | | ev]; cbn [on_turn].
  - apply sat_ret. apply going_over.
  - eapply sat_bind; [apply check_going |]. intros []. by apply sat_ret.
  - destruct captcha; [| by apply sat_ret]. eapply sat_bind; [apply going_keeps; intros; by apply acall_st |]. intros b. by apply sat_ret.
  - apply sat_ret. apply going_over.
  - unfold on_event. apply (sat_bind _ _ (fun r s => match r with None => over s | Some _ => going s end)).
    + destruct ev as [status | level message | message | name data | rx tx n]; try (by apply sat_ret). apply named_event_sat.
    + intros [d |]; [| by apply sat_ret]. eapply sat_bind; [apply check_going |]. intros []. unfold all_stages.
      apply (sat_bind _ _ (fun _ => going)); [apply keeps_bind; [auto with effects | intros m; auto with effects] |].
      intros all. apply sat_ret. intros s Hs. destruct (d || all); [by apply going_over | done].
Qed.

Lemma test_loop_sat captcha turns : sat going (test_loop captcha turns) (fun _ => over).
Proof.
  induction turns as [| t turns IH]; cbn [test_loop]; [apply sat_ret; apply going_over |].
  eapply sat_bind; [apply on_turn_sat |]. intros []; [by apply sat_ret | exact IH].
Qed.

Definition down (m : marks) : Prop := runner_held m = false /\ socket m = so.

Lemma stop_core_st F P : deaf P -> (forall m, F m -> F (hold_core false m)) -> (forall m, F m -> F (count_unfinished m)) ->
  sat (st F P) stop_core (fun _ => st (fun m => F m /\ running m = false) P).
Proof.
  intros HP Hh Hc. unfold stop_core. eapply sat_bind; [by apply acall_st |]. intros b.
  apply (sat_bind _ _ (fun _ => st (fun m => F m /\ running m = false) P)); [apply mark_st; by split; [apply Hh |] |].
  intros []. eapply sat_bind; [by apply acall_st |]. intros []; [by apply sat_ret |].
  apply mark_st. intros m [H1 H2]. by split; [apply Hc |].
Qed.

Lemma stop_core_over : sat over stop_core (fun _ s => over s /\ running (marked s) = false).
Proof.
  intros s [Hs | Hs].
  - destruct (stop_core_st idle clean clean_deaf (fun _ H => H) (fun _ H => H) s Hs) as [[H1 H2] H3]. split; [by left | done].
  - destruct (stop_core_st set_up_ up_kern up_deaf (fun _ H => H) (fun _ H => H) s Hs) as [[H1 H2] H3]. split; [by right | done].
Qed.

Lemma take_down_clean : sat (fun s => over s /\ running (marked s) = false) take_down (fun _ => st (fun m => down m /\ running m = false) clean).
Proof.
  intros s [Ho Hrun]. unfold take_down. rewrite run_bind. cbn [gets fst snd]. destruct Ho as [[(H1 & H2 & H3 & H4) Hk] | [(Hor & Hso & Hu) Hk]].
  - rewrite H1, H2. by repeat split.
  - unfold up_kern, socks in *. destruct (String.eqb (t_mode a) "socks") eqn:Es.
    + destruct Hu as (H1 & H2 & H3). rewrite H1, H2, H3. cbn [andb]. rewrite !run_bind. cbn. repeat split; try done.
    + cbn [andb]. destruct (wgApplied (marked s)) eqn:Ew.
      * rewrite run_bind. assert (sat (st (fun m => down m /\ running m = false) (tracked true [])) (_ ← lift teardownWG; mret tt)
          (fun _ => st (fun m => down m /\ running m = false) clean)) as Ht
          by (eapply sat_bind; [apply lift_st, teardown_clean | intros b; by apply sat_ret]).
        specialize (Ht s (conj (conj (conj Hu Hso) Hrun) Hk)). destruct (rawApplied (marked s)); [| exact Ht].
        apply (lift_st _ clean teardownTunnelRoutes (fun _ => clean)); [| exact Ht].
        eapply sat_weaken; [apply teardown_routes_clean | apply clean_tracked | done].
      * cbn [orb] in Hor. rewrite Hor. rewrite run_bind. cbn [fst snd mret State_ret].
        apply (lift_st (fun m => down m /\ running m = false) _ teardownTunnelRoutes _ teardown_routes_clean). by repeat split.
Qed.

(** A core that is not running, and nothing else held. *)
Definition at_rest (s : tstate) : Prop := st (fun m => down m /\ running m = false) clean s.

Lemma run_test_rest captcha cfg turns : sat (st (fun m => idle m /\ running m = false) clean) (run_test captcha cfg turns)
  (fun r s => r <> None -> at_rest s).
Proof.
  assert (forall e, sat (st (fun m => idle m /\ running m = false) clean) (fail e) (fun _ => at_rest)) as Hfail.
  { intros e. unfold fail. apply (sat_bind _ _ (fun _ => at_rest)).
    - apply mark_st. intros m [(H1 & H2 & H3 & H4) H5]. by repeat split.
    - intros []. apply keeps_bind; [auto with effects | intros m; auto with effects]. }
  unfold run_test. destruct (CoreRuntime.New cfg) as [[cfg' cm] | e]; [| eapply sat_weaken; [apply Hfail | done | done]].
  eapply sat_bind; [apply acall_st, clean_deaf |]. intros []; cbn [negb]; [| eapply sat_weaken; [apply Hfail | done | done]].
  apply (sat_bind _ _ (fun _ => going)); [apply sat_modify; intros s1 [[Hi _] Hk]; left; by split |]. intros [].
  eapply sat_bind; [apply test_loop_sat |]. intros []; cbn [negb]; [| by apply sat_ret].
  eapply sat_bind; [apply stop_core_over |]. intros []. eapply sat_bind; [apply take_down_clean |]. intros [].
  eapply sat_bind; [by apply keeps_gets |]. intros m. by apply sat_ret.
Qed.
End releases.

Lemma fail_fresh e : sat (st (fun m => idle false m /\ running m = false) clean) (fail e) (fun r s => r <> None -> at_rest false s).
Proof.
  unfold fail. apply (sat_bind _ _ (fun _ => at_rest false)).
  - apply mark_st. intros m [(H1 & H2 & H3 & H4) H5]. by repeat split.
  - intros []. eapply sat_bind; [by apply keeps_gets |]. intros m. by apply sat_ret.
Qed.

Lemma with_socket_rest name (m : T (option TestResult)) :
  (forall so, sat (st (fun m => idle so m /\ running m = false) clean) m (fun r s => r <> None -> at_rest so s)) ->
  sat (st (fun m => idle false m /\ running m = false) clean) (with_socket name m) (fun r s => r <> None -> at_rest false s).
Proof.
  intros Hm. unfold with_socket. eapply sat_bind; [apply acall_st, clean_deaf |]. intros ok.
  apply (sat_bind _ _ (fun _ => st (fun m => idle ok m /\ running m = false) clean)).
  { apply mark_st. intros k [(H1 & H2 & H3 & H4) H5]. by repeat split. }
  intros []. eapply sat_bind; [apply Hm |]. intros [r |]; [| by apply sat_ret].
  apply (sat_bind _ _ (fun _ => at_rest ok)); [eapply sat_weaken; [apply acall_st, clean_deaf | intros s Hs; by apply Hs | done] |].
  intros b. apply (sat_bind _ _ (fun _ => at_rest false)); [apply mark_st; intros k [[H1 H2] H3]; by repeat split |].
  intros []. by apply sat_ret.
Qed.

(** Nothing is held: no core that was not told to stop, no captcha socket, no SOCKS server. *)
Definition nothing_held (s : tstate) : Prop :=
  undeleted (history (kern s)) = [] /\ running (marked s) = false /\ socket (marked s) = false /\ runner_held (marked s) = false.

Lemma testProfile_rest name turns : sat nothing_held (testProfile name turns) (fun r s => r <> None -> at_rest false s).
Proof.
  unfold testProfile. apply (sat_bind _ _ (fun _ => st (fun m => idle false m /\ running m = false) clean)).
  { apply sat_modify. intros s (H1 & H2 & H3 & H4). by repeat split. }
  intros []. eapply sat_bind; [apply acall_st, clean_deaf |]. intros []; [apply fail_fresh |].
  eapply sat_bind; [apply aask_st, clean_deaf |]. intros [p |]; [| apply fail_fresh].
  apply (sat_bind _ _ (fun _ => st (fun m => idle false m /\ running m = false) clean)).
  { destruct (String.eqb _ _); [apply aask_st, clean_deaf | by apply sat_ret]. }
  intros id. apply with_socket_rest. intros so.
  apply (sat_bind _ _ (fun _ => st (fun m => idle so m /\ running m = false) clean)).
  { destruct (String.eqb _ _); [by apply sat_ret | apply acall_st, clean_deaf]. }
  intros []; cbn [negb]; [apply run_test_rest |]. unfold fail. apply (sat_bind _ _ (fun _ => at_rest so)).
  - apply mark_st. intros m [(H1 & H2 & H3 & H4) H5]. by repeat split.
  - intros []. eapply sat_bind; [by apply keeps_gets |]. intros m. by apply sat_ret.
Qed.

Lemma testLink_rest l label turns : sat nothing_held (testProfileFromLink l label turns) (fun r s => r <> None -> at_rest false s).
Proof.
  unfold testProfileFromLink. apply (sat_bind _ _ (fun _ => st (fun m => idle false m /\ running m = false) clean)).
  { apply sat_modify. intros s (H1 & H2 & H3 & H4). by repeat split. }
  intros []. eapply sat_bind; [apply aask_st, clean_deaf |]. intros id. apply run_test_rest.
Qed.

(** The loop ends when the time is over. *)
Lemma loop_ends captcha turns s : TimeOver ∈ turns -> (test_loop captcha turns s).1 = true.
Proof.
  revert s. induction turns as [| t turns IH]; intros s Hin; [by apply elem_of_nil in Hin |]. cbn [test_loop]. rewrite run_bind.
  apply elem_of_cons in Hin as [<- | Hin]; [done |]. destruct (on_turn captcha t s).1; [done | by apply IH].
Qed.

Definition ends (m : T (option TestResult)) : Prop := forall s, (m s).1 <> None.

Lemma ends_bind {A} (m : T A) k : (forall x, ends (k x)) -> ends (m ≫= k).
Proof. intros Hk s. rewrite run_bind. apply Hk. Qed.

Lemma fail_ends e : ends (fail e).
Proof. unfold fail. apply ends_bind. intros []. by apply ends_bind. Qed.

Lemma run_test_ends captcha cfg turns : TimeOver ∈ turns -> ends (run_test captcha cfg turns).
Proof.
  intros Hin. unfold run_test. destruct (CoreRuntime.New cfg) as [[cfg' cm] | e]; [| apply fail_ends].
  apply ends_bind. intros []; cbn [negb]; [| apply fail_ends]. apply ends_bind. intros [] s. rewrite run_bind, loop_ends by done.
  cbn [negb]. apply ends_bind. intros []. apply ends_bind. intros []. by apply ends_bind.
Qed.

Lemma socket_ends name m : ends m -> ends (with_socket name m).
Proof.
  intros Hm. unfold with_socket. apply ends_bind. intros ok. apply ends_bind. intros [] s. rewrite run_bind.
  specialize (Hm s). destruct (m s).1 as [r |]; [| done]. apply ends_bind. intros b. by apply ends_bind.
Qed.

Lemma testProfile_ends name turns : TimeOver ∈ turns -> ends (testProfile name turns).
Proof.
  intros Hin. unfold testProfile. apply ends_bind. intros []. apply ends_bind. intros []; [apply fail_ends |].
  apply ends_bind. intros [p |]; [| apply fail_ends]. apply ends_bind. intros id. apply socket_ends, ends_bind.
  intros []; cbn [negb]; [by apply run_test_ends | apply fail_ends].
Qed.

Lemma testLink_ends l label turns : TimeOver ∈ turns -> ends (testProfileFromLink l label turns).
Proof. intros Hin. unfold testProfileFromLink. apply ends_bind. intros []. apply ends_bind. intros id. by apply run_test_ends. Qed.

(** A test of a profile or a link that starts with nothing held ends when its time is over, at the latest, and holds
    nothing then, whatever events came in whatever order and whatever failed. *)
Lemma test_releases (target : string + WdttLink * string) turns s : TimeOver ∈ turns -> nothing_held s ->
  exists r s', test_target target turns s = (Some r, s') /\ nothing_held s'.
Proof.
  intros Hin Hs.
  assert (forall m : T (option TestResult), ends m -> sat nothing_held m (fun r s => r <> None -> at_rest false s) ->
    exists r s', m s = (Some r, s') /\ nothing_held s') as Hm.
  { intros m He Hr. specialize (He s). specialize (Hr s Hs). destruct (m s) as [[r |] s']; [| done]. cbn [fst snd] in *.
    destruct (Hr He) as [[[H1 H2] H3] H4]. by exists r, s'. }
  unfold test_target. destruct target as [name | [l label]]; apply Hm; auto using testProfile_ends, testLink_ends, testProfile_rest, testLink_rest.
Qed.

(** *** Cores whose end is not seen *)

Definition counted (R : nat -> Prop) (s : tstate) : Prop := R (unfinished (marked s)).

Lemma lift_counted R {A} (m : State tun A) : keeps (counted R) (lift m).
Proof. intros s Hs. unfold lift. by destruct (m (kern s)). Qed.
Lemma acall_counted R c : keeps (counted R) (acall c).
Proof. apply lift_counted. Qed.
Lemma aask_counted R {A} (f : list op -> A) c : keeps (counted R) (aask f c).
Proof. apply lift_counted. Qed.
Lemma mark_counted R f : (forall m, unfinished (f m) = unfinished m) -> keeps (counted R) (mark f).
Proof. intros Hf. apply sat_modify. intros s Hs. unfold counted. cbn. by rewrite Hf. Qed.
#[local] Hint Resolve lift_counted acall_counted aask_counted : effects.
#[local] Hint Extern 2 (keeps (counted _) (mark _)) => (by apply mark_counted) : effects.

Lemma any_host_counted R f l : keeps (counted R) (any_host f l).
Proof. induction l as [| h l IH]; cbn [any_host]; keep. Qed.
#[local] Hint Resolve any_host_counted : effects.

Lemma on_turn_counted R captcha t : keeps (counted R) (on_turn captcha t).
Proof.
  assert (keeps (counted R) check_vk) by (unfold check_vk; keep).
  assert (forall md, keeps (counted R) (after_connect md)) by (intros md; unfold after_connect, testInternetCheck; keep).
  assert (forall conf, keeps (counted R) (connect_wg conf)) by (intros conf; unfold connect_wg; keep).
  assert (keeps (counted R) connect_raw) by (unfold connect_raw; keep).
  destruct t as [| | r | | []]; cbn [on_turn]; unfold on_event, named_event, all_stages; keep.
Qed.

Lemma test_loop_counted R captcha turns : keeps (counted R) (test_loop captcha turns).
Proof.
  induction turns as [| t turns IH]; cbn [test_loop]; [auto with effects |]. apply keeps_bind; [apply on_turn_counted |].
  intros []; [auto with effects | exact IH].
Qed.

Lemma take_down_counted R : keeps (counted R) take_down.
Proof. unfold take_down. keep. Qed.

(** The number goes up by one when the 3 seconds were not enough. *)
Definition after_stop (n : nat) (k : nat) : Prop := k = n \/ (k = S n /\ exists h, succeeds h (App Drained) = false).

Lemma stop_core_counted n : sat (counted (.= n)) stop_core (fun _ => counted (after_stop n)).
Proof.
  unfold stop_core. eapply sat_bind; [apply acall_counted |]. intros b.
  apply (sat_bind _ _ (fun _ => counted (.= n))); [by apply mark_counted |]. intros [] s Hs. rewrite run_bind.
  destruct (acall Drained s).1 eqn:E; [by left |]. right. unfold counted in Hs. cbn. split; [| by exists (history (kern s))].
  f_equal. exact Hs.
Qed.

Lemma fail_counted n e : sat (counted (.= n)) (fail e) (fun _ => counted (after_stop n)).
Proof.
  unfold fail. eapply sat_bind; [by apply (mark_counted (.= n)) |]. intros []. eapply sat_bind; [apply keeps_gets |].
  intros m. apply sat_ret. intros s Hs. by left.
Qed.

Lemma run_test_counted n captcha cfg turns : sat (counted (.= n)) (run_test captcha cfg turns) (fun _ => counted (after_stop n)).
Proof.
  unfold run_test. destruct (CoreRuntime.New cfg) as [[cfg' cm] | e]; [| apply fail_counted].
  eapply sat_bind; [apply acall_counted |]. intros []; cbn [negb]; [| apply fail_counted].
  eapply sat_bind; [by apply (mark_counted (.= n)) |]. intros []. eapply sat_bind; [apply test_loop_counted |].
  intros []; cbn [negb]; [| apply sat_ret; intros s Hs; by left].
  eapply sat_bind; [apply stop_core_counted |]. intros []. eapply sat_bind; [apply take_down_counted |]. intros [].
  eapply sat_bind; [apply keeps_gets |]. intros m. by apply sat_ret.
Qed.

Lemma socket_counted n name m : sat (counted (.= n)) m (fun _ => counted (after_stop n)) ->
  sat (counted (.= n)) (with_socket name m) (fun _ => counted (after_stop n)).
Proof.
  intros Hm. unfold with_socket. eapply sat_bind; [apply acall_counted |]. intros ok.
  eapply sat_bind; [by apply (mark_counted (.= n)) |]. intros []. eapply sat_bind; [exact Hm |].
  intros [r |]; [| by apply sat_ret]. eapply sat_bind; [apply acall_counted |]. intros b.
  eapply sat_bind; [by apply (mark_counted (after_stop n)) |]. intros []. by apply sat_ret.
Qed.

Lemma test_counted target turns n : sat (counted (.= n)) (test_target target turns) (fun _ => counted (after_stop n)).
Proof.
  unfold test_target. destruct target as [name | [l label]].
  - unfold testProfile. eapply sat_bind; [by apply (mark_counted (.= n)) |]. intros [].
    eapply sat_bind; [apply acall_counted |]. intros []; [apply fail_counted |].
    eapply sat_bind; [apply aask_counted |]. intros [p |]; [| apply fail_counted].
    apply (sat_bind _ _ (fun _ => counted (.= n))); [destruct (String.eqb _ _); [apply aask_counted | apply keeps_ret] |].
    intros id. apply socket_counted.
    apply (sat_bind _ _ (fun _ => counted (.= n))); [destruct (String.eqb _ _); [apply keeps_ret | apply acall_counted] |].
    intros []; [apply run_test_counted | apply fail_counted].
  - unfold testProfileFromLink. eapply sat_bind; [by apply (mark_counted (.= n)) |]. intros [].
    eapply sat_bind; [apply aask_counted |]. intros id. apply run_test_counted.
Qed.

(** ** A test that passes *)

Definition answered (o : tcall) (t : tun) : Prop := did (App o) t.
Definition probe (c : tcall) : Prop :=
  match c with Ping i h => (i = wgIface \/ i = RawIfaceName) /\ h ∈ test_hosts | Curl p h => p = t_socksPort a /\ h ∈ test_hosts | _ => False end.
Definition probed (t : tun) : Prop := exists c, probe c /\ answered c t.

Lemma answered_monotone o : monotone (answered o).
Proof.
  destruct (@dones_monotone key udp tcall _ [App o]) as [H1 H2]. unfold dones in *. split; intros s x.
  - intros Hs. apply (Forall_cons_1 (fun o => did o _) _ []), H1. by constructor.
  - intros E Hs. apply (Forall_cons_1 (fun o => did o _) _ []), (H2 _ _ E). by constructor.
Qed.

Lemma probed_monotone : monotone probed.
Proof.
  split; intros s x.
  - intros (c & Hc & Hd). exists c. split; [done | by apply answered_monotone].
  - intros E (c & Hc & Hd). exists c. split; [done | by eapply mono_vars; [apply answered_monotone | |]].
Qed.

(** What the marks say has happened. *)
Definition honest (s : tstate) : Prop :=
  (VKAuth (result_ (marked s)) = ok_mark -> answered VKAuthPassed (kern s)) /\
  (InternetCheck (result_ (marked s)) = ok_mark -> probed (kern s)).

Lemma lift_honest {A} (m : State tun A) : (forall P, monotone P -> keeps P m) -> keeps honest (lift m).
Proof.
  intros Hm s [H1 H2]. pose proof (Hm _ (answered_monotone VKAuthPassed) (kern s)) as K1. pose proof (Hm _ probed_monotone (kern s)) as K2.
  unfold lift. destruct (m (kern s)) as [x t]. split; cbn; intros E; [apply K1, H1, E | apply K2, H2, E].
Qed.

Lemma call_did c s : (acall c s).1 = true -> answered c (kern (acall c s).2).
Proof. intros E. exists [], (history (kern s)). by split. Qed.

Lemma acall_honest c : keeps honest (acall c).
Proof. apply lift_honest. intros P HP. by apply mono_do. Qed.
Lemma aask_honest {A} (f : list op -> A) c : keeps honest (aask f c).
Proof. apply lift_honest. intros P HP. by apply mono_ask. Qed.

Lemma mark_honest f : (forall m, VKAuth (result_ (f m)) = VKAuth (result_ m) /\ InternetCheck (result_ (f m)) = InternetCheck (result_ m)) -> keeps honest (mark f).
Proof. intros Hf. apply sat_modify. intros s [H1 H2]. destruct (Hf (marked s)) as [E1 E2]. split; cbn; rewrite ?E1, ?E2; done. Qed.
#[local] Hint Resolve acall_honest aask_honest : effects.

Lemma any_host_probed f l : (forall h, h ∈ l -> probe (f h)) -> sat honest (any_host f l) (fun b s => honest s /\ (b = true -> probed (kern s))).
Proof.
  induction l as [| h l IH]; intros Hf; cbn [any_host]; [by apply sat_ret |].
  apply (sat_bind _ _ (fun b s => honest s /\ (b = true -> probed (kern s)))).
  - intros s Hs. split; [by apply acall_honest |]. intros E. exists (f h). split; [apply Hf; by left | by apply call_did].
  - intros []; [apply sat_ret; intros s [H1 H2]; split; [done | intros _; by apply H2] |].
    eapply sat_weaken; [apply IH; intros k Hk; apply Hf; by right | by intros s [H1 _] | done].
Qed.

Lemma ping_probes i : i = wgIface \/ i = RawIfaceName -> forall h, h ∈ test_hosts -> probe (Ping i h).
Proof. by intros Hi h Hh. Qed.

Lemma internet_honest md : sat honest (testInternetCheck md) (fun c s => honest s /\ (c = ok_mark -> probed (kern s))).
Proof.
  unfold testInternetCheck. apply (sat_bind _ _ (fun b s => honest s /\ (b = true -> probed (kern s)))).
  - destruct (String.eqb md "tun"); [apply any_host_probed, ping_probes; by left |]. destruct (String.eqb md "raw").
    + eapply sat_bind; [apply any_host_probed, ping_probes; by right |]. intros []; [by apply sat_ret |].
      eapply sat_weaken; [apply any_host_probed, ping_probes; by right | by intros s [H1 _] | done].
    + apply any_host_probed. by intros h Hh.
  - intros []; apply sat_ret; intros s [H1 H2]; (split; [done |]); [intros _; by apply H2 | done].
Qed.

Lemma check_honest : keeps honest check_vk.
Proof.
  unfold check_vk. apply keeps_bind; [auto with effects |]. intros m. destruct (vkAuthPassed m); [auto with effects |].
  intros s Hs. rewrite run_bind. pose proof (acall_honest VKAuthPassed s Hs) as [H1 H2]. pose proof (call_did VKAuthPassed s) as Hd.
  destruct (acall VKAuthPassed s) as [[] s1]; cbn [fst snd] in *; [| by split]. split; cbn; [intros _; by apply Hd | exact H2].
Qed.

Lemma after_connect_honest md : keeps honest (after_connect md).
Proof.
  unfold after_connect. apply keeps_bind; [by apply mark_honest |]. intros [].
  eapply sat_bind; [apply internet_honest |]. intros c. apply sat_modify. intros s [[H1 H2] H3]. by split.
Qed.
#[local] Hint Resolve check_honest after_connect_honest : effects.

Lemma connect_wg_honest conf : keeps honest (connect_wg conf).
Proof.
  unfold connect_wg. apply keeps_bind; [by apply mark_honest |]. intros []. apply keeps_bind.
  - destruct (String.eqb _ _); [apply keeps_bind; [by apply mark_honest | intros []; auto with effects] |].
    apply keeps_bind; [auto with effects |]. intros ips. apply keeps_bind; [apply lift_honest; intros P HP; by apply mono_apply |]. intros r. auto with effects.
  - intros []; [| auto with effects]. apply keeps_bind; [auto with effects |]. intros []. auto with effects.
Qed.

Lemma connect_raw_honest : keeps honest connect_raw.
Proof.
  unfold connect_raw. apply keeps_bind; [by apply mark_honest |]. intros [].
  apply keeps_bind; [apply lift_honest; intros P HP; by apply mono_gateway |]. intros g. apply keeps_bind; [| intros []; auto with effects].
  destruct g as [g |]; [| auto with effects]. apply keeps_bind; [auto with effects |]. intros ips. apply lift_honest. intros P HP. by apply mono_turn_ips.
Qed.
#[local] Hint Resolve connect_wg_honest connect_raw_honest : effects.

Lemma on_turn_honest captcha t : keeps honest (on_turn captcha t).
Proof. destruct t as [| | r | | []]; cbn [on_turn]; unfold on_event, named_event, all_stages; keep. Qed.

Lemma loop_honest captcha turns : keeps honest (test_loop captcha turns).
Proof.
  induction turns as [| t turns IH]; cbn [test_loop]; [auto with effects |]. apply keeps_bind; [apply on_turn_honest |].
  intros []; [auto with effects | exact IH].
Qed.

Lemma take_down_honest : keeps honest take_down.
Proof.
  unfold take_down. apply keeps_bind; [auto with effects |]. intros m.
  assert (keeps honest (_ ← acall StopRunner; mark drop_runner)) by (apply keeps_bind; [auto with effects | intros b; by apply mark_honest]).
  assert (keeps honest (_ ← lift teardownWG; mret tt)) by (apply keeps_bind; [apply lift_honest; intros P HP; by apply mono_teardown | intros b; auto with effects]).
  apply keeps_bind; [keep |]. intros []. destruct (rawApplied m); [apply lift_honest; intros P HP; by apply mono_teardown_routes | auto with effects].
Qed.

(** The result is what the marks say. *)
Definition told (r : option TestResult) (s : tstate) : Prop := honest s /\ forall x, r = Some x -> x = result_ (marked s).

Lemma report_told : sat honest (m ← gets marked; mret (Some (result_ m))) told.
Proof. intros s Hs. rewrite run_bind. split; [exact Hs |]. by intros x [= <-]. Qed.

Lemma fail_told e : sat honest (fail e) told.
Proof. unfold fail. eapply sat_bind; [by apply (mark_honest (mark_error e)) |]. intros []. apply report_told. Qed.

Lemma run_test_told captcha cfg turns : sat honest (run_test captcha cfg turns) told.
Proof.
  unfold run_test. destruct (CoreRuntime.New cfg) as [[cfg' cm] | e]; [| apply fail_told].
  eapply sat_bind; [apply acall_honest |]. intros []; cbn [negb]; [| apply fail_told].
  eapply sat_bind; [by apply (mark_honest (hold_core true)) |]. intros []. eapply sat_bind; [apply loop_honest |].
  intros []; cbn [negb]; [| apply sat_ret; by intros s Hs].
  apply (sat_bind _ _ (fun _ => honest)).
  { unfold stop_core. apply keeps_bind; [apply acall_honest |]. intros b. apply keeps_bind; [by apply mark_honest |]. intros [].
    apply keeps_bind; [apply acall_honest |]. intros []; [apply keeps_ret | by apply mark_honest]. }
  intros []. eapply sat_bind; [apply take_down_honest |]. intros []. apply report_told.
Qed.

Lemma socket_told name m : sat honest m told -> sat honest (with_socket name m) told.
Proof.
  intros Hm. unfold with_socket. eapply sat_bind; [apply acall_honest |]. intros ok.
  eapply sat_bind; [by apply (mark_honest (hold_socket ok)) |]. intros []. eapply sat_bind; [exact Hm |].
  intros [r |]; [| apply sat_ret; by intros s [Hs _]]. intros s [Hs Hr]. specialize (Hr r eq_refl). subst r. rewrite !run_bind.
  split; [apply (mark_honest (hold_socket false)); [done | by apply acall_honest] |]. by intros x [= <-].
Qed.

Lemma fresh_honest name s : honest (mark (fresh_marks name) s).2.
Proof. by split. Qed.

(** C37: a test passes only if the core said that it is authorised, and a request to one of the four hosts, through the
    interface of the tunnel or through the SOCKS server, was answered. *)
Theorem passed_for_a_reason (target : string + WdttLink * string) turns s r s' :
  test_target target turns s = (Some r, s') ->
  passed r = true -> answered VKAuthPassed (kern s') /\ probed (kern s').
Proof.
  intros E Hp.
  assert (told (Some r) s') as [[H1 H2] H3].
  { unfold test_target in E. destruct target as [name | [l label]].
    - unfold testProfile in E. rewrite run_bind in E.
      match type of E with ?m ?s1 = _ => assert (sat honest m told) as Hm; [| specialize (Hm s1 (fresh_honest name s)); by rewrite E in Hm] end.
      eapply sat_bind; [apply acall_honest |]. intros []; [apply fail_told |]. eapply sat_bind; [apply aask_honest |]. intros [p |]; [| apply fail_told].
      apply (sat_bind _ _ (fun _ => honest)); [destruct (String.eqb _ _); keep |]. intros id. apply socket_told.
      apply (sat_bind _ _ (fun _ => honest)); [destruct (String.eqb _ _); keep |]. intros []; [apply run_test_told | apply fail_told].
    - unfold testProfileFromLink in E. rewrite run_bind in E.
      match type of E with ?m ?s1 = _ => assert (sat honest m told) as Hm; [| specialize (Hm s1 (fresh_honest label s)); by rewrite E in Hm] end.
      eapply sat_bind; [apply aask_honest |]. intros id. apply run_test_told. }
  specialize (H3 r eq_refl). subst r. unfold passed in Hp. rewrite !andb_true_iff, !String.eqb_eq in Hp. destruct Hp as [[Hv _] Hi]. auto.
Qed.
End test.

(** ** Examples *)

Section example.
#[local] Instance example_unicode : Unicode := fun s => s.
Abbreviation ex_op := (@op string string tcall).

Definition test_world (up : ex_op -> list ex_op -> bool) : @World string string tcall := {|
  succeeds := fun h o => up o h;
  route_list := fun _ => Some [{| Dst := None; Gw := Some [192; 168; 1; 1] |}];
  unix_now := fun h => 1700000000;
  cache_file := fun _ => None;
  lookup_ip := fun _ d => None;
  current_profile := fun _ => "home";
  bypass_file := fun _ _ => None
|}.

#[local] Instance ex_tested : @Tested string string := {|
  tested_profile := fun _ n => if String.eqb n "home" then Some example_profile else None;
  own_id := fun _ => "fedcba9876543210";
  relay_ips := fun _ => ["95.163.1.1"]
|}.

Fixpoint link_there (up : bool) (h : list ex_op) : bool :=
  match h with [] => up | LinkAdd :: _ => true | LinkDel :: _ => false | _ :: h' => link_there up h' end.

(** Whether the interface is there at first, and the calls that fail. *)
Definition ex_world (up : bool) (fails : ex_op -> bool) : @World string string tcall :=
  test_world (fun o h => match o with LinkByName _ => link_there up h | App (DaemonRunning _) => false | _ => negb (fails o) end).

Definition ex_targs (md : string) : targs :=
  {| t_mode := md; t_socksPort := 9050; t_socksUser := ""; t_socksPass := ""; t_pub := false; t_listen := ""; t_transport := "udp" |}.

Definition ex_start : @tstate string string :=
  {| kern := {| history := []; routedTurnIPs := []; splitRoutes := []; splitCacheInMemory := no_entry; activeRouter := None |};
     marked := {| vkAuthPassed := false; connectPassed := false; wgApplied := false; rawApplied := false; wr := false; result_ := fresh_result "";
                  running := false; socket := false; runner_held := false; unfinished := 0 |} |}.

Definition ex_turns : list turn := [Arrived (EvState "connecting"); Tick; Arrived (EvEvent "wg_config" conf_text); TimeOver].

Definition ex_test (md : string) (up : bool) (fails : ex_op -> bool) : option TestResult * @tstate string string :=
  @test_target string string "zero" Some Some example_unicode (ex_world up fails) ex_tested (ex_targs md) (inl "home") ex_turns ex_start.

#[local] Instance default_world : @World string string tcall := ex_world false (fun _ => false).

Definition outcome_of (r : option TestResult * @tstate string string) : option bool * list Ip.IPNet * bool :=
  (option_map passed r.1, undeleted (history (kern r.2)), running (marked r.2)).

Definition no_ping (o : ex_op) : bool := match o with App (Ping _ _) | App (Curl _ _) => true | _ => false end.

Example tests : map outcome_of
    [ex_test "tun" false (fun _ => false); ex_test "socks" false (fun _ => false); ex_test "tun" false no_ping] =
  [(Some true, [], false); (Some true, [], false); (Some false, [], false)].
Proof. by vm_compute. Qed.

Definition is_del (o : ex_op) : bool := match o with LinkDel => true | _ => false end.

(** The interface of another process is deleted by a test of a profile in TUN mode. *)
Example foreign_interface_deleted : link_there true (history (kern (ex_test "tun" true (fun _ => false)).2)) = false /\
  length (filter (fun o => is_del o = true) (history (kern (ex_test "tun" true (fun _ => false)).2))) = 2%nat.
Proof. split; by vm_compute. Qed.

Lemma ex_passes : exists r s', @test_target string string "zero" Some Some example_unicode (ex_world false (fun _ => false)) ex_tested (ex_targs "tun") (inl "home")
    ex_turns ex_start = (Some r, s') /\ passed r = true.
Proof. eexists _, _. split; [vm_compute; reflexivity | reflexivity]. Qed.

Lemma passed_for_a_reason_witness : exists s' : @tstate string string,
  @answered string string (ex_world false (fun _ => false)) VKAuthPassed (kern s').
Proof.
  destruct ex_passes as (r & s' & Et & E). exists s'.
  refine (proj1 (@passed_for_a_reason string string "zero" Some Some example_unicode (ex_world false (fun _ => false)) ex_tested (ex_targs "tun")
    (inl "home") ex_turns ex_start r s' _ E)). exact Et.
Defined.
End example.
