(* ===== verification/TestCmd.v ===== *)
(** * The test command (test.go, [testCmd]): its arguments, what it tests, and the tests one after another.

    The selection reads the files as the other commands do (Targets.v); a test is [test_target] of SelfTest.v. *)

From S2P Require Import Prelude GoStrings Chars Sorting Links Url Effects Flags Profiles Subscription Targets.
From S2P Require Listen SelfTest.
From Stdlib Require Import ZArith Lia String Ascii Sorted.
From stdpp Require Import base list strings gmap.
Open Scope string_scope.
Open Scope Z_scope.

Definition test_flags : list (string * kind) :=
  [("timeout", IntFlag); ("delay", IntFlag); ("ro", BoolFlag); ("en", BoolFlag); ("enabled", BoolFlag); ("dis", BoolFlag); ("disabled", BoolFlag);
   ("mode", StringFlag); ("socks-port", IntFlag); ("socks-user", StringFlag); ("socks-password", StringFlag); ("pub", BoolFlag); ("public", BoolFlag);
   ("listen", StringFlag); ("transport", StringFlag); ("group", StringFlag); ("sub", BoolFlag)].

Definition defaultTestTimeoutSec : Z := 10.
Definition defaultSocksPort : Z := 9050.

Record options := {
  o_timeout : Z; o_delay : Z; o_ro : bool; o_enabled : bool; o_disabled : bool; o_args : SelfTest.targs; o_group : string; o_sub : bool
}.

Definition options_of (l : list (string * string)) : options :=
  {| o_timeout := number "timeout" defaultTestTimeoutSec l; o_delay := number "delay" 5 l; o_ro := switch "ro" l;
     o_enabled := switch "en" l || switch "enabled" l; o_disabled := switch "dis" l || switch "disabled" l;
     o_args := {| SelfTest.t_mode := last_set ["mode"] "tun" l; SelfTest.t_socksPort := number "socks-port" defaultSocksPort l;
                  SelfTest.t_socksUser := setting "socks-user" l; SelfTest.t_socksPass := setting "socks-password" l;
                  SelfTest.t_pub := switches ["pub"; "public"] l; SelfTest.t_listen := setting "listen" l;
                  SelfTest.t_transport := last_set ["transport"] "udp" l |};
     o_group := setting "group" l; o_sub := switch "sub" l |}.

Inductive test_end :=
| TestLine (e : parse_error) | ListenAndPub | PubOutsideSocks | ListenOutsideSocks | BadListen (e : Listen.listen_error)
| EmptyGroup | NoSubscribed | BadMode (mode : string) | EnabledAndDisabled
| BadLink (arg : string) | NotReadOnly (arg : string) | IsDisabled (arg : string) | IsEnabled (arg : string)
| NothingToTest (labels : list string) | Planned (o : options) (links : list (WdttLink * string)) (profiles : list string).

Section test.
Context `{Unicode} (interfaces : option (list Listen.iface)).

(** ** Options *)

Definition bad_options (o : options) : option test_end :=
  let a := o_args o in
  let socks := String.eqb (SelfTest.t_mode a) "socks" in
  let listens := negb (String.eqb (SelfTest.t_listen a) "") in
  if listens && SelfTest.t_pub a then Some ListenAndPub
  else if SelfTest.t_pub a && negb socks then Some PubOutsideSocks
  else if listens && negb socks then Some ListenOutsideSocks
  else if listens then BadListen <$> Listen.validateSocksListenAddr interfaces (SelfTest.t_listen a) else None.

Definition mode_ok (mode : string) : bool := String.eqb mode "tun" || String.eqb mode "raw" || String.eqb mode "socks".

(** ** What is tested *)

Definition is_test_link (arg : string) : bool := has_prefix "wdtt://" arg || has_prefix "qwdtt://" arg.

(** The arguments, until the first that is refused. *)
Fixpoint check_args (o : options) (args : list string) : Files (result test_end (list (WdttLink * string) * list string)) :=
  match args with
  | [] => mret (Ok ([], []))
  | arg :: rest =>
      if is_test_link arg then
        match parseLinkWithHint arg with
        | Err _ => mret (Err (BadLink arg))
        | Ok l => r ← check_args o rest; mret (match r with Ok (ls, ps) => Ok ((l, arg) :: ls, ps) | Err e => Err e end)
        end
      else if o_ro o && negb (has_prefix "ro-" arg) then mret (Err (NotReadOnly arg))
      else
        b ← isProfileEnabled arg;
        if o_enabled o && negb b then mret (Err (IsDisabled arg))
        else if o_disabled o && b then mret (Err (IsEnabled arg))
        else r ← check_args o rest; mret (match r with Ok (ls, ps) => Ok (ls, arg :: ps) | Err e => Err e end)
  end.

(** The names whose profile is enabled, or is not. *)
Fixpoint with_status (want : bool) (names : list string) : Files (list string) :=
  match names with
  | [] => mret []
  | n :: rest => b ← isProfileEnabled n; more ← with_status want rest; mret (if Bool.eqb b want then n :: more else more)
  end.

(** Without arguments. *)
Definition default_targets (o : options) : Files (list string) :=
  all ← (if o_ro o then listReadOnlyProfileNames else if o_sub o then profilesInAllSubscriptions else listAllProfileNames);
  all ← (if o_enabled o then with_status true all else mret all);
  if o_disabled o then with_status false all else mret all.

Fixpoint with_priorities (names : list string) : Files (list (string * Z)) :=
  match names with
  | [] => mret []
  | n :: rest => r ← loadProfile n; more ← with_priorities rest; mret ((n, match r with Ok p => Priority p | Err _ => 0 end) :: more)
  end.

Definition test_order (a b : string * Z) : bool := if snd a =? snd b then string_less (fst a) (fst b) else snd b <? snd a.

Definition sort_targets (names : list string) : Files (list string) :=
  l ← with_priorities names; mret (fst <$> sort_stable test_order l).

Definition labels_of (o : options) : list string :=
  ((if o_ro o then ["read-only"] else []) ++ (if o_sub o then ["subscription"] else []) ++
   (if o_enabled o then ["enabled"] else []) ++ (if o_disabled o then ["disabled"] else []))%list.

(** From the names of the group on: [args] with the group's members in front. *)
Definition select (o : options) (args : list string) : Files test_end :=
  args ← expandProfileMasks args;
  if negb (mode_ok (SelfTest.t_mode (o_args o))) then mret (BadMode (SelfTest.t_mode (o_args o)))
  else if o_enabled o && o_disabled o then mret EnabledAndDisabled
  else
    r ← check_args o args;
    match r with
    | Err e => mret e
    | Ok (links, named) =>
        profiles ← (if (length args =? 0)%nat then default_targets o else mret named);
        if (length links =? 0)%nat && (length profiles =? 0)%nat then mret (NothingToTest (labels_of o))
        else sorted ← sort_targets profiles; mret (Planned o links sorted)
    end.

Definition plan_tests (o : options) (args : list string) : Files test_end :=
  match bad_options o with
  | Some e => mret e
  | None =>
      members ← (if String.eqb (o_group o) "" then mret [] else profilesInGroup (o_group o));
      if negb (String.eqb (o_group o) "") && (length members =? 0)%nat then mret EmptyGroup
      else
        let args := (members ++ args)%list in
        if o_sub o && String.eqb (o_group o) "" && (length args =? 0)%nat then
          subs ← profilesInAllSubscriptions;
          if (length subs =? 0)%nat then mret NoSubscribed else select o subs
        else select o args
  end.

Definition testCmd (args : list string) : Files test_end :=
  match command_line test_flags args with
  | Err e => mret (TestLine e)
  | Ok (l, names) => plan_tests (options_of l) names
  end.

(** ** What is selected *)

Definition enabled_in (m : fs) (n : string) : bool := (isProfileEnabled n m).1.
Definition priority_in (m : fs) (n : string) : Z := match (loadProfile n m).1 with Ok p => Priority p | Err _ => 0 end.

(** What -enabled and -disabled let through. *)
Definition allowed (o : options) (m : fs) (n : string) : bool := implb (o_enabled o) (enabled_in m n) && implb (o_disabled o) (negb (enabled_in m n)).

(** The arguments behind the group and the subscriptions, with the masks expanded. *)
Definition given (o : options) (m : fs) (names : list string) : list string :=
  let args := ((if String.eqb (o_group o) "" then [] else (profilesInGroup (o_group o) m).1) ++ names)%list in
  (expandProfileMasks (if o_sub o && String.eqb (o_group o) "" && (length args =? 0)%nat then (profilesInAllSubscriptions m).1 else args) m).1.

(** All profiles that a command without arguments is about. *)
Definition pool (o : options) (m : fs) : list string :=
  (if o_ro o then (listReadOnlyProfileNames m).1 else if o_sub o then (profilesInAllSubscriptions m).1 else (listAllProfileNames m).1).

Lemma with_status_run want names m : with_status want names m = (filter (fun n => Bool.eqb (enabled_in m n) want = true) names, m).
Proof.
  induction names as [| n rest IH]; [done |]. cbn [with_status]. rewrite reads_run by apply enabled_reads. rewrite run_bind, IH. cbn [fst snd mret State_ret].
  rewrite filter_cons. fold (enabled_in m n). destruct (Bool.eqb (enabled_in m n) want); [by rewrite decide_True | by rewrite decide_False].
Qed.

Lemma filter_all {A} (P : A -> Prop) `{forall x, Decision (P x)} (l : list A) : (forall x, P x) -> filter P l = l.
Proof. intros HP. induction l as [| x l IH]; [done |]. by rewrite filter_cons_True, IH. Qed.

Lemma default_run o m : default_targets o m = (filter (fun n => allowed o m n = true) (pool o m), m).
Proof.
  unfold default_targets, pool. set (src := if o_ro o then listReadOnlyProfileNames else _).
  assert (src m = (if o_ro o then (listReadOnlyProfileNames m).1 else if o_sub o then (profilesInAllSubscriptions m).1 else (listAllProfileNames m).1, m)) as E.
  { unfold src. destruct (o_ro o); [done |]. destruct (o_sub o); [| done]. rewrite (surjective_pairing (profilesInAllSubscriptions m)) at 1. by rewrite all_subs_reads. }
  rewrite run_bind, E. cbn [fst snd]. set (l := if o_ro o then _ else _). clearbody l. unfold allowed. rewrite run_bind.
  destruct (o_enabled o), (o_disabled o); cbn [implb andb]; rewrite ?with_status_run; cbn [fst snd mret State_ret]; rewrite ?with_status_run, ?list_filter_filter.
  all: unfold mret, State_ret; f_equal; first [apply list_filter_iff; intros n; destruct (enabled_in m n); cbn; naive_solver | symmetry; by apply filter_all].
Qed.

Lemma priorities_run names m : with_priorities names m = ((fun n => (n, priority_in m n)) <$> names, m).
Proof.
  induction names as [| n rest IH]; [done |]. cbn [with_priorities]. rewrite reads_run by apply load_reads. by rewrite run_bind, IH.
Qed.

Lemma test_order_total m : strict_total test_order (fun e => snd e = priority_in m (fst e)).
Proof.
  destruct string_less_order as [Hirr Htrans Htot]. unfold test_order. split.
  - intros a _. rewrite Z.eqb_refl. by apply Hirr.
  - intros a b c _ _ _. destruct (Z.eqb_spec (snd a) (snd b)), (Z.eqb_spec (snd b) (snd c)), (Z.eqb_spec (snd a) (snd c)); rewrite ?Z.ltb_lt; try lia. by apply Htrans.
  - intros [a p] [b q]. cbn [fst snd]. intros -> -> H1 H2.
    destruct (Z.eqb_spec (priority_in m a) (priority_in m b)) as [E | E]; [rewrite E, Z.eqb_refl in H2; by rewrite (Htot a b I I H1 H2) |].
    apply Z.ltb_ge in H1. destruct (Z.eqb_spec (priority_in m b) (priority_in m a)); [lia |]. apply Z.ltb_ge in H2. lia.
Qed.

(** In the order of the tests. *)
Definition ordered (m : fs) (a b : string) : Prop :=
  priority_in m b < priority_in m a \/ (priority_in m b = priority_in m a /\ string_less b a = false).

Lemma sort_targets_run names m : exists l, sort_targets names m = (l, m) /\ l ≡ₚ names /\ StronglySorted (ordered m) l.
Proof.
  unfold sort_targets. rewrite run_bind, priorities_run. cbn [fst snd mret State_ret]. set (k := (fun n => (n, priority_in m n)) <$> names).
  eexists. split; [done |]. split.
  - rewrite sort_stable_perm. unfold k. rewrite <- list_fmap_compose. by rewrite list_fmap_id.
  - assert (Forall (fun e => snd e = priority_in m (fst e)) k) as Hk by (apply Forall_fmap, Forall_true; by intros).
    pose proof (sort_stable_sorted test_order _ (test_order_total m) k Hk) as Hs. rewrite <- (sort_stable_perm test_order k) in Hk.
    induction Hs as [| [a p] rest Hs IH Ha]; [constructor |]. apply Forall_cons in Hk as [Hp Hk]. cbn [fmap list_fmap fst].
    constructor; [by apply IH |]. apply Forall_fmap. rewrite Forall_forall in Ha, Hk |- *. intros [b q] Hb. specialize (Ha _ Hb). specialize (Hk _ Hb).
    unfold not_less, test_order, ordered, compose in *. cbn [fst snd] in *. subst p q.
    destruct (Z.eqb_spec (priority_in m b) (priority_in m a)); [by right |]. apply Z.ltb_ge in Ha. left. lia.
Qed.

(** What the arguments must be. *)
Definition accepted (o : options) (m : fs) (n : string) : Prop := (o_ro o = true -> has_prefix "ro-" n = true) /\ allowed o m n = true.

Lemma check_args_run o args m r m' : check_args o args m = (r, m') ->
  m' = m /\ match r with
  | Ok (links, named) => links.*2 = filter (fun a => is_test_link a = true) args /\ Forall (fun l => parseLinkWithHint (snd l) = Ok (fst l)) links /\
      named = filter (fun a => is_test_link a = false) args /\ Forall (accepted o m) named
  | Err e => forall o' ls ps, e <> Planned o' ls ps
  end.
Proof.
  revert r m'. induction args as [| a rest IH]; intros r m' E; cbn [check_args] in E; [by injection E as <- <- |].
  rewrite !filter_cons. destruct (is_test_link a) eqn:El.
  - destruct (parseLinkWithHint a) as [l | e] eqn:Ep; [| by injection E as <- <-]. rewrite run_bind in E.
    destruct (check_args o rest m) as [r1 m1] eqn:E1. destruct (IH _ _ eq_refl) as [-> Hr]. cbn [fst snd] in E.
    destruct r1 as [[ls ps] | e]; [| by injection E as <- <-]. injection E as <- <-. destruct Hr as (H1 & H2 & H3 & H4).
    split; [done |]. cbn [fmap list_fmap snd fst]. rewrite decide_True, decide_False by done. rewrite H1. split_and!; [done | by constructor | done | done].
  - destruct (o_ro o && negb (has_prefix "ro-" a)) eqn:Er; [by injection E as <- <- |]. rewrite reads_run in E by apply enabled_reads.
    fold (enabled_in m a) in E. destruct (o_enabled o && negb (enabled_in m a)) eqn:Een; [by injection E as <- <- |].
    destruct (o_disabled o && enabled_in m a) eqn:Edis; [by injection E as <- <- |]. rewrite run_bind in E.
    destruct (check_args o rest m) as [r1 m1] eqn:E1. destruct (IH _ _ eq_refl) as [-> Hr]. cbn [fst snd] in E.
    destruct r1 as [[ls ps] | e]; [| by injection E as <- <-]. injection E as <- <-. destruct Hr as (H1 & H2 & H3 & H4).
    split; [done |]. rewrite decide_False, decide_True by done. rewrite <- H3. split_and!; try done. constructor; [| done].
    unfold accepted, allowed. destruct (o_ro o), (has_prefix "ro-" a), (o_enabled o), (enabled_in m a), (o_disabled o); by try (split; [by intros |]).
Qed.

Lemma bad_options_stop o o' links profiles : bad_options o <> Some (Planned o' links profiles).
Proof.
  unfold bad_options. destruct (_ && _); [done |]. destruct (_ && _); [done |]. destruct (_ && _); [done |]. destruct (negb _); [| done].
  by destruct (Listen.validateSocksListenAddr _ _).
Qed.

(** The names of a selection, from its arguments. *)
Lemma select_run o args o' links profiles m m' : select o args m = (Planned o' links profiles, m') ->
  let all := (expandProfileMasks args m).1 in
  o' = o /\ m' = m /\ mode_ok (SelfTest.t_mode (o_args o)) = true /\ o_enabled o && o_disabled o = false /\
  StronglySorted (ordered m) profiles /\ Forall (fun x => parseLinkWithHint (snd x) = Ok (fst x)) links /\
  links.*2 = filter (fun a => is_test_link a = true) all /\ (links <> [] \/ profiles <> []) /\
  (all <> [] -> profiles ≡ₚ filter (fun a => is_test_link a = false) all /\ Forall (accepted o m) profiles) /\
  (all = [] -> profiles ≡ₚ filter (fun n => allowed o m n = true) (pool o m)).
Proof.
  intros E. cbv zeta. unfold select in E. rewrite reads_run in E by apply masks_reads. set (all := (expandProfileMasks args m).1) in *. clearbody all.
  destruct (mode_ok _) eqn:Em; [| done]. cbn [negb] in E. destruct (o_enabled o && o_disabled o) eqn:Eb; [done |].
  rewrite run_bind in E. destruct (check_args o all m) as [r m1] eqn:Ec. apply check_args_run in Ec as [-> Hc]. cbn [fst snd] in E.
  destruct r as [[ls named] | e]; [| injection E as ->; by destruct (Hc o' links profiles)]. destruct Hc as (H1 & H2 & H3 & H4).
  set (chosen := if (length all =? 0)%nat then default_targets o else mret named) in E.
  assert (chosen m = (if (length all =? 0)%nat then filter (fun n => allowed o m n = true) (pool o m) else named, m)) as Er.
  { unfold chosen. destruct (length all =? 0)%nat; [apply default_run | done]. }
  rewrite run_bind, Er in E. cbn [fst snd] in E. set (profs := if (length all =? 0)%nat then _ else named) in *. clearbody chosen.
  destruct ((length ls =? 0)%nat && (length profs =? 0)%nat) eqn:En; [done |].
  destruct (sort_targets_run profs m) as (l & El & Hp & Hs). rewrite run_bind, El in E. injection E as <- <- <- <-.
  split_and!; try done.
  - destruct ls; [| by left]. right. intros ->. apply Permutation_nil in Hp. by rewrite Hp in En.
  - intros Ha. unfold profs in Hp. destruct all as [| x all]; [done |]. cbn [length Nat.eqb] in Hp. rewrite Hp, <- H3. by split.
  - intros ->. exact Hp.
Qed.

(** C38: The tests that a command line plans: nothing is written; the mode is one of the three; the arguments with masks
    expanded are split into links, which parse, and profiles, which -ro, -enabled and -disabled let through; without
    arguments the profiles are exactly those of the chosen directory that -enabled and -disabled let through; and they
    are in the order of their priorities, then names. *)
Theorem tests_planned args l names o links profiles m m' :
  command_line test_flags args = Ok (l, names) -> testCmd args m = (Planned o links profiles, m') ->
  o = options_of l /\ m' = m /\ bad_options o = None /\ mode_ok (SelfTest.t_mode (o_args o)) = true /\ o_enabled o && o_disabled o = false /\
  StronglySorted (ordered m) profiles /\ Forall (fun x => parseLinkWithHint (snd x) = Ok (fst x)) links /\
  links.*2 = filter (fun a => is_test_link a = true) (given o m names) /\ (links <> [] \/ profiles <> []) /\
  (given o m names <> [] -> profiles ≡ₚ filter (fun a => is_test_link a = false) (given o m names) /\ Forall (accepted o m) profiles) /\
  (given o m names = [] -> profiles ≡ₚ filter (fun n => allowed o m n = true) (pool o m)).
Proof.
  intros Hl E. unfold testCmd in E. rewrite Hl in E. clear Hl args. generalize dependent (options_of l). intros o0 E. unfold plan_tests in E.
  destruct (bad_options o0) as [e |] eqn:Eb; [injection E as ->; by apply bad_options_stop in Eb |].
  set (args := ((if String.eqb (o_group o0) "" then [] else (profilesInGroup (o_group o0) m).1) ++ names)%list).
  assert (exists a, given o0 m names = (expandProfileMasks a m).1 /\ select o0 a m = (Planned o links profiles, m')) as (a & Hg & Hs).
  { rewrite reads_run in E by (destruct (String.eqb _ _); [done | apply group_reads]).
    replace (((if String.eqb (o_group o0) "" then mret [] else profilesInGroup (o_group o0)) m).1)
      with (if String.eqb (o_group o0) "" then [] else (profilesInGroup (o_group o0) m).1) in E by (by destruct (String.eqb _ _)).
    destruct (negb _ && _); [done |]. fold args in E. eexists. split; [reflexivity |]. fold args.
    destruct (o_sub o0 && _ && _); [| exact E]. rewrite reads_run in E by apply all_subs_reads. by destruct (length _ =? 0)%nat. }
  destruct (select_run _ _ _ _ _ _ _ Hs) as (-> & -> & H3). rewrite Hg. by split_and!; try apply H3.
Qed.

(** ** The tests *)

Section tests.
Context {key udp : Type} (zero_key : key) (ParseKey : string -> option key) (ResolveUDPAddr : string -> option udp).
Context `{W : @Tunnel.World key udp SelfTest.tcall} `{@SelfTest.Tested key udp}.

Abbreviation tstate := (@SelfTest.tstate key udp).

Definition targets_of (links : list (WdttLink * string)) (profiles : list string) : list (string + WdttLink * string) :=
  ((inr <$> links) ++ (inl <$> profiles))%list.

(** The numbers of tests that passed and failed; each has the turns of its loop. *)
Fixpoint run_tests (a : SelfTest.targs) (targets : list (string + WdttLink * string)) (turns : nat -> list SelfTest.turn) (i : nat)
    : State tstate (option (nat * nat)) :=
  match targets with
  | [] => mret (Some (0, 0)%nat)
  | t :: rest =>
      r ← SelfTest.test_target zero_key ParseKey ResolveUDPAddr a t (turns i);
      match r with
      | None => mret None
      | Some r =>
          more ← run_tests a rest turns (S i);
          mret ((fun c => if SelfTest.passed r then (S (fst c), snd c) else (fst c, S (snd c))) <$> more)
      end
  end.

(** C14: the tests, one after another, end when each one's time is over at the latest, and every test is counted once.
    Afterwards every core that was started has been told to stop, every captcha socket closed, every SOCKS server told
    to stop, and every route asked to be deleted: the routes left are those whose deletion the kernel refused.  A core
    that does not end within 3 seconds of being told to is not waited for: at most one for each test, none if they all
    end in time. *)
Theorem tests_release a targets turns i s :
  (forall j, (i <= j < i + length targets)%nat -> SelfTest.TimeOver ∈ turns j) -> SelfTest.nothing_held s ->
  exists p f s', run_tests a targets turns i s = (Some (p, f), s') /\ (p + f)%nat = length targets /\
    SelfTest.nothing_held s' /\
    Tunnel.kernel_routes (Tunnel.history (SelfTest.kern s')) ⊆ Tunnel.refused (Tunnel.history (SelfTest.kern s')) /\
    let n := SelfTest.unfinished (SelfTest.marked s) in let n' := SelfTest.unfinished (SelfTest.marked s') in
    (n <= n' <= n + length targets)%nat /\
    ((forall h, Tunnel.succeeds h (Tunnel.App SelfTest.Drained) = true) -> n' = n).
Proof.
  revert i s. induction targets as [| t rest IH]; intros i s Ht Hs.
  { exists 0%nat, 0%nat, s. do 3 (split; [done |]). split; [apply Tunnel.kernel_refused, Hs |]. cbn. split; [lia | done]. }
  cbn [run_tests length] in *.
  destruct (SelfTest.test_releases zero_key ParseKey ResolveUDPAddr a t (turns i) s) as (r & s1 & E & Hh); [apply Ht; lia | done |].
  pose proof (SelfTest.test_counted zero_key ParseKey ResolveUDPAddr a t (turns i) _ s eq_refl) as Hn. rewrite E in Hn. cbn [snd] in Hn.
  destruct (IH (S i) s1) as (p & f & s2 & E2 & Hc & Hh2 & Hk & Hn2 & Hd2); [intros j Hj; apply Ht; lia | done |].
  rewrite run_bind, E. cbn [fst snd]. rewrite run_bind, E2. cbn [fst snd mret State_ret fmap option_fmap option_map].
  unfold SelfTest.counted, SelfTest.after_stop in Hn.
  set (n := SelfTest.unfinished (SelfTest.marked s)) in *. set (n1 := SelfTest.unfinished (SelfTest.marked s1)) in *. cbv zeta in Hn2, Hd2.
  assert ((forall h, Tunnel.succeeds h (Tunnel.App SelfTest.Drained) = true) -> n1 = n) as Hd1.
  { intros Hd. destruct Hn as [Hn | [_ [h Hf]]]; [done | by rewrite Hd in Hf]. }
  destruct (SelfTest.passed r); do 3 eexists; (split; [reflexivity |]); (split; [lia |]); (split; [done |]); (split; [done |]);
    (split; [lia |]); intros Hd; specialize (Hd1 Hd); specialize (Hd2 Hd); lia.
Qed.
End tests.
End test.

(** ** Concrete command lines *)

Section example.
#[local] Instance example_unicode : Unicode := fun s => s.
#[local] Instance example_disk : Disk := {|
  can_write := fun _ _ _ => true; torn := fun _ _ _ => None; can_remove := fun _ _ => true; random_id := fun _ => "0123456789abcdef" |}.

Definition test_files : fs :=
  list_to_map [(UserProfile "home", ProfileFile (with_groups ["eu"] (example_profile 1))); (UserProfile "work", ProfileFile (example_profile 5));
    (UserProfile "off", ProfileFile (example_profile 7)); (RoProfile "ro-srv", ProfileFile (with_groups ["eu"] (example_profile 1)));
    (StatusPath, StatusFile (list_to_map [("off", false)]))].

Definition planned (args : list string) : option (nat * list string) + test_end :=
  match (testCmd None args test_files).1 with Planned _ links profiles => inl (Some (length links, profiles)) | e => inr e end.

Example plans : planned <$> [["-en"]; ["-ro"]; ["-group"; "eu"; "wo*"]; ["wdtt://5.6.7.8:1:2:3:pw:h1#n"; "nothere"]] =
  [inl (Some (0%nat, ["work"; "home"; "ro-srv"])); inl (Some (0%nat, ["ro-srv"])); inl (Some (0%nat, ["work"; "home"; "ro-srv"])); inl (Some (1%nat, ["nothere"]))].
Proof. by vm_compute. Qed.

(** With names from a group or the subscriptions, a filter ends the command instead. *)
Example refused : planned <$> [["-ro"; "-group"; "eu"]; ["-disabled"; "off"; "home"]; ["-mode"; "vpn"]; ["-pub"]; ["-sub"]] =
  [inr (NotReadOnly "home"); inr (IsEnabled "home"); inr (BadMode "vpn"); inr PubOutsideSocks; inr NoSubscribed].
Proof. by vm_compute. Qed.

Definition disabled_options : options := options_of [("disabled", "true")].

Lemma tests_planned_witness : StronglySorted (ordered test_files) ["off"].
Proof.
  destruct (tests_planned None ["-disabled"] [("disabled", "true")] [] disabled_options [] ["off"] test_files (testCmd None ["-disabled"] test_files).2)
    as (_ & _ & _ & _ & _ & Hs & _); [by vm_compute | | exact Hs].
  rewrite (surjective_pairing (testCmd None ["-disabled"] test_files)) at 1. f_equal.
Defined.

Abbreviation ex_op := (@Tunnel.op string string SelfTest.tcall).

(** A profile whose connection works, then one that is not there. *)
Abbreviation ex_tests := (@run_tests example_unicode string string "zero" Some Some (SelfTest.ex_world false (fun _ => false)) SelfTest.ex_tested
    (SelfTest.ex_targs "tun") [inl "home"; inl "work"] (fun _ => SelfTest.ex_turns) 0 SelfTest.ex_start).

Lemma tests_release_witness : exists s', ex_tests = (Some (1, 1)%nat, s') /\
  @SelfTest.nothing_held string string (SelfTest.ex_world false (fun _ => false)) s' /\
  SelfTest.unfinished (SelfTest.marked s') = 0%nat.
Proof.
  destruct (@tests_release example_unicode string string "zero" Some Some (SelfTest.ex_world false (fun _ => false)) SelfTest.ex_tested
    (SelfTest.ex_targs "tun") [inl "home"; inl "work"] (fun _ => SelfTest.ex_turns) 0 SelfTest.ex_start)
    as (p & f & s' & E & Hc & Hh & _ & _ & Hd); [intros j _; do 3 right; by left | by repeat split |].
  assert (ex_tests.1 = Some (1, 1)%nat) as E1 by (by vm_compute). exists s'.
  split; [rewrite E in E1 |- *; cbn in E1; by rewrite E1 |]. split; [exact Hh |]. exact (Hd (fun h => eq_refl)).
Defined.
End example.
