(* ===== verification/Cursor.v ===== *)
(** * The track of the cursor on the slider (internal/core/captcha_v2_slider.go, [buildSliderCursorV2]).

    Random numbers are an argument, one for each call; [Intn] panics unless its argument is positive.  The curve of the
    transit is in float64, whose operations are those of Slider.v with the two conversions to int. *)

From S2P Require Import Prelude GoStrings Slider.
From Stdlib Require Import ZArith Lia String Ascii.
From stdpp Require Import base list strings.
Open Scope string_scope.
Open Scope Z_scope.

(** ** Drawing numbers *)

Definition Draws (A : Type) : Type := nat -> option (A * nat).
#[local] Instance Draws_ret : MRet Draws := fun A a k => Some (a, k).
#[local] Instance Draws_bind : MBind Draws := fun A B f m k => match m k with Some (a, k') => f a k' | None => None end.

(** [m] ends without a panic, with a value in [P], whatever was drawn before. *)
Definition yields {A} (P : A -> Prop) (m : Draws A) : Prop := forall k, exists a k', m k = Some (a, k') /\ P a.

Lemma yields_ret {A} (P : A -> Prop) a : P a -> yields P (mret a).
Proof. intros Ha k. by exists a, k. Qed.

Lemma yields_bind {A B} (P : A -> Prop) (Q : B -> Prop) (m : Draws A) (f : A -> Draws B) :
  yields P m -> (forall a, P a -> yields Q (f a)) -> yields Q (m ≫= f).
Proof. intros Hm Hf k. destruct (Hm k) as (a & k' & E & Ha). unfold mbind, Draws_bind. rewrite E. by apply Hf. Qed.

Lemma yields_weaken {A} (P Q : A -> Prop) m : yields P m -> (forall a, P a -> Q a) -> yields Q m.
Proof. intros Hm HPQ k. destruct (Hm k) as (a & k' & E & Ha). exists a, k'. auto. Qed.

(** ** The track *)

Class TrackFloat (F : Type) := {
  track_ops :: FloatOps F;
  Round : F -> Z;      (* int(math.Round(x)) *)
  Trunc : F -> Z       (* int(x) *)
}.

Record cursorPoint := { X : Z; Y : Z }.

Section track.
Context {F : Type} `{TrackFloat F} (random : nat -> Z).

Definition Intn (n : Z) : Draws Z := fun k => if 0 <? n then Some (random k mod n, S k) else None.

(** A number around a centre. *)
Definition around (c spread : Z) : Draws Z := r ← Intn (2 * spread + 1); mret (c + r - spread).
Definition point_around (x y spread : Z) : Draws cursorPoint := x' ← around x spread; y' ← around y spread; mret {| X := x'; Y := y' |}.

(** The bound of this loop is drawn again before every turn; it is at most 3. *)
Fixpoint start_points (fuel : nat) (i startX startY : Z) (points : list cursorPoint) : Draws (list cursorPoint) :=
  r ← Intn 3;
  match fuel with
  | O => mret points
  | S fuel => if i <? 1 + r then p ← point_around startX startY 2; start_points fuel (i + 1) startX startY (points ++ [p])%list else mret points
  end.

Definition curve (t : F) (a c b : F) : F :=
  let u := fsub (fofint 1) t in
  fadd (fadd (fmul (fmul u u) a) (fmul (fmul (fmul (fofint 2) t) u) c)) (fmul (fmul t t) b).

Definition control (a b off : Z) : F := fadd (fdiv (fofint (a + b)) (fofint 2)) (fofint off).

Definition step_time (steps i : Z) : F := fdiv (fofint i) (fofint (steps + 1)).
Definition jitter (t : F) : Z := Trunc (fmul (fsub (fofint 1) t) (fofint 8)) + 2.

Definition transit_point (startX startY targetX targetY arcOffX arcOffY steps i : Z) : Draws cursorPoint :=
  let t := step_time steps i in
  let bx := curve t (fofint startX) (control startX targetX arcOffX) (fofint targetX) in
  let by_ := curve t (fofint startY) (control startY targetY arcOffY) (fofint targetY) in
  point_around (Round bx) (Round by_) (jitter t).

(** A loop from number [i] on. *)
Fixpoint each (n : nat) (i : Z) (f : Z -> Draws cursorPoint) : Draws (list cursorPoint) :=
  match n with O => mret [] | S n => p ← f i; rest ← each n (i + 1) f; mret (p :: rest) end.

Definition approach (prev : cursorPoint) (targetX targetY steps i : Z) : Draws cursorPoint :=
  let t := fdiv (fofint i) (fofint steps) in
  point_around (X prev + Round (fmul t (fofint (targetX - X prev)))) (Y prev + Round (fmul t (fofint (targetY - Y prev)))) 2.

Definition baseTargetX (candidateIndex candidateCount : Z) : Z := 734 + Z.quot ((937 - 734) * (candidateIndex - 1)) (Z.max (candidateCount - 1) 1).

Definition clamp_index (candidateIndex candidateCount : Z) : Z :=
  let i := if candidateIndex <? 1 then 1 else candidateIndex in if candidateCount <? i then candidateCount else i.

(** The points, with the place the track ends at and the number of the points there. *)
Definition track (candidateIndex candidateCount : Z) : Draws (list cursorPoint * cursorPoint * nat) :=
  startX ← (r ← Intn 40; mret (570 + r));
  startY ← (r ← Intn 30; mret (875 + r));
  targetX ← (r ← Intn 10; mret (baseTargetX candidateIndex candidateCount + r - 5));
  targetY ← (r ← Intn 14; mret (655 + r));
  starts ← start_points 3 0 startX startY [];
  transitSteps ← (r ← Intn 3; mret (2 + r));
  arcOffX ← (r ← Intn 60; mret (r - 30));
  arcOffY ← (r ← Intn 30; mret (- (r + 10)));
  transit ← each (Z.to_nat transitSteps) 1 (transit_point startX startY targetX targetY arcOffX arcOffY transitSteps);
  approachSteps ← (r ← Intn 4; mret (4 + r));
  let prev := List.last (starts ++ transit) {| X := 0; Y := 0 |} in
  near ← each (Z.to_nat approachSteps) 1 (approach prev targetX targetY approachSteps);
  settleCount ← (r ← Intn 5; mret (3 + r));
  settle ← each (Z.to_nat settleCount) 0 (fun _ => point_around targetX targetY 3);
  mret ((starts ++ transit ++ near ++ settle)%list, {| X := targetX; Y := targetY |}, Z.to_nat settleCount).

Definition key (k : string) : string := let q := String "034" "" in q ++ k ++ q ++ ":".
Definition point_json (p : cursorPoint) : string := "{" ++ key "x" ++ itoa (X p) ++ "," ++ key "y" ++ itoa (Y p) ++ "}".
Definition points_json (l : list cursorPoint) : string := "[" ++ GoStrings.join "," (point_json <$> l) ++ "]".

(** [None] is a panic. *)
Definition buildSliderCursorV2 (candidateIndex candidateCount : Z) : option string :=
  if candidateCount <=? 0 then Some "[]"
  else match track (clamp_index candidateIndex candidateCount) candidateCount 0%nat with
       | Some ((points, _, _), _) => Some (points_json points)
       | None => None
       end.

(** ** What the track is *)

Lemma Intn_yields n : 0 < n -> yields (fun r => 0 <= r < n) (Intn n).
Proof.
  intros Hn k. unfold Intn. rewrite (proj2 (Z.ltb_lt 0 n) Hn). eexists _, _. split; [reflexivity |]. by apply Z.mod_pos_bound.
Qed.

(** The numbers drawn for a place of the track. *)
Lemma draw_yields (P : Z -> Prop) n (f : Z -> Z) : 0 < n -> (forall r, 0 <= r < n -> P (f r)) -> yields P (r ← Intn n; mret (f r)).
Proof. intros Hn HP. eapply yields_bind; [by apply Intn_yields |]. intros r Hr. apply yields_ret. by apply HP. Qed.

Definition within (d : Z) (c p : cursorPoint) : Prop := Z.abs (X p - X c) <= d /\ Z.abs (Y p - Y c) <= d.

Lemma around_yields x y d : 0 <= d -> yields (within d {| X := x; Y := y |}) (point_around x y d).
Proof.
  intros Hd. unfold point_around, around. eapply yields_bind; [apply (draw_yields (fun v => Z.abs (v - x) <= d)); intros; lia |]. intros x' Hx.
  eapply yields_bind; [apply (draw_yields (fun v => Z.abs (v - y) <= d)); intros; lia |]. intros y' Hy. apply yields_ret. by split.
Qed.

Lemma each_yields (P : cursorPoint -> Prop) f n i : (forall j, i <= j < i + Z.of_nat n -> yields P (f j)) ->
  yields (fun l => length l = n /\ Forall P l) (each n i f).
Proof.
  revert i. induction n as [| n IH]; intros i Hf; cbn [each]; [by apply yields_ret |]. eapply yields_bind; [apply Hf; lia |]. intros p Hp.
  eapply yields_bind; [apply IH; intros j Hj; apply Hf; lia |]. intros l [Hl HP]. apply yields_ret. cbn [length]. split; [lia | by constructor].
Qed.

(** The loop over the first points ends at its third point. *)
Lemma starts_yield fuel i x y points : 0 <= i -> i + Z.of_nat fuel = 3 -> Z.of_nat (length points) = i ->
  yields (fun l => (1 <= i \/ 1 <= Z.of_nat (length l)) /\ i <= Z.of_nat (length l) <= 3) (start_points fuel i x y points).
Proof.
  revert i points. induction fuel as [| fuel IH]; intros i points Hi Hf Hl; cbn [start_points].
  - eapply yields_bind; [by apply Intn_yields |]. intros r Hr. apply yields_ret. lia.
  - eapply yields_bind; [by apply Intn_yields |]. cbv beta. intros r Hr. destruct (Z.ltb_spec i (1 + r)) as [Hlt | Hge]; [| apply yields_ret; lia].
    eapply yields_bind; [by apply around_yields |]. intros p _. eapply yields_weaken; [apply IH; [lia | lia |] |].
    + rewrite length_app. cbn [length]. lia.
    + intros l [_ Hb]. lia.
Qed.

(** The rounding towards zero of [(1 - t) * 8] for the times of the transit, which are below one. *)
Definition transit_times_below_one : Prop :=
  forall steps i, 2 <= steps <= 4 -> 1 <= i <= steps -> 0 <= Trunc (fmul (fsub (fofint 1) (step_time steps i)) (fofint 8)).

Definition target_of (candidateIndex candidateCount : Z) (p : cursorPoint) : Prop :=
  let b := baseTargetX candidateIndex candidateCount in b - 5 <= X p <= b + 4 /\ 655 <= Y p <= 668.

Lemma track_yields i n : transit_times_below_one -> yields (fun '(points, target, settled) =>
  (10 <= length points <= 21)%nat /\ (3 <= settled <= 7)%nat /\ target_of i n target /\
  exists before after, points = (before ++ after)%list /\ length after = settled /\ Forall (within 3 target) after) (track i n).
Proof.
  intros Ht. unfold track.
  eapply yields_bind; [by apply (draw_yields (fun _ => True)) |]. intros sx _.
  eapply yields_bind; [by apply (draw_yields (fun _ => True)) |]. intros sy _.
  eapply yields_bind; [apply (draw_yields (fun v => baseTargetX i n - 5 <= v <= baseTargetX i n + 4)); intros; lia |]. intros tx Htx.
  eapply yields_bind; [apply (draw_yields (fun v => 655 <= v <= 668)); intros; lia |]. intros ty Hty.
  eapply yields_bind; [by apply starts_yield |]. intros starts [Hs1 Hs2].
  eapply yields_bind; [apply (draw_yields (fun v => 2 <= v <= 4)); intros; lia |]. intros steps Hsteps.
  eapply yields_bind; [by apply (draw_yields (fun _ => True)) |]. intros ox _.
  eapply yields_bind; [by apply (draw_yields (fun _ => True)) |]. intros oy _.
  eapply yields_bind; [apply (each_yields (fun _ => True)) |].
  { intros j Hj. eapply yields_weaken; [apply around_yields | done]. unfold jitter. specialize (Ht steps j Hsteps). lia. }
  intros transit [Htr _]. eapply yields_bind; [apply (draw_yields (fun v => 4 <= v <= 7)); intros; lia |]. intros asteps Has.
  cbv zeta. eapply yields_bind; [apply (each_yields (fun _ => True)) |].
  { intros j _. eapply yields_weaken; [by apply around_yields | done]. }
  intros near [Hnear _]. eapply yields_bind; [apply (draw_yields (fun v => 3 <= v <= 7)); intros; lia |]. intros count Hc.
  eapply yields_bind; [apply (each_yields (within 3 {| X := tx; Y := ty |})) |]. { intros j _. by apply around_yields. }
  intros settle [Hset HP]. apply yields_ret. cbv beta in *.
  split; [rewrite !length_app; lia |]. split; [lia |]. split; [by split |].
  exists (starts ++ transit ++ near)%list, settle. rewrite <- !app_assoc. by split_and!.
Qed.

Lemma clamp_range i n : 1 <= n -> 1 <= clamp_index i n <= n.
Proof. intros Hn. unfold clamp_index. destruct (Z.ltb_spec i 1); [destruct (Z.ltb_spec n 1) | destruct (Z.ltb_spec n i)]; lia. Qed.

(** The targets of the candidates go from 734 to 937 in their order. *)
Lemma target_range i n : 1 <= i <= n -> 734 <= baseTargetX i n <= 937.
Proof.
  intros Hi. unfold baseTargetX. rewrite Z.quot_div_nonneg by lia. split; [assert (0 <= (937 - 734) * (i - 1) / Z.max (n - 1) 1) by (apply Z.div_pos; lia); lia |].
  assert ((937 - 734) * (i - 1) / Z.max (n - 1) 1 <= 203); [| lia]. apply Z.div_le_upper_bound; nia.
Qed.

(** C19: for any random numbers, the track of a candidate is made without a panic; it has 10 to 21 points, and its last
    three to seven are within three pixels of one place, which is within five of the candidate's slot between 734 and 937. *)
Theorem cursor_track_shape candidateIndex candidateCount : transit_times_below_one -> 0 < candidateCount ->
  exists before after target, buildSliderCursorV2 candidateIndex candidateCount = Some (points_json (before ++ after)) /\
    (10 <= length (before ++ after) <= 21)%nat /\ (3 <= length after <= 7)%nat /\ Forall (within 3 target) after /\
    target_of (clamp_index candidateIndex candidateCount) candidateCount target /\ 729 <= X target <= 941 /\
    734 <= baseTargetX (clamp_index candidateIndex candidateCount) candidateCount <= 937.
Proof.
  intros Ht Hn. unfold buildSliderCursorV2. rewrite (proj2 (Z.leb_gt _ _) Hn).
  destruct (track_yields (clamp_index candidateIndex candidateCount) candidateCount Ht 0%nat) as ([[points target] settled] & k & E & Hl & Hs & Htg & before & after & -> & Ha & HP).
  rewrite E. pose proof (target_range _ _ (clamp_range candidateIndex candidateCount ltac:(lia))) as Hb.
  exists before, after, target. rewrite Ha. split_and!; try done; try apply Hl; try apply Hs; destruct Htg; lia.
Qed.
End track.

(** ** A concrete track *)

(** Hundredths stand for float64. *)
#[local] Instance fixed_track : TrackFloat Z := {|
  track_ops := {|
    fdec n k := n * 100 / 10 ^ k; fofint n := n * 100; fadd := Z.add; fsub := Z.sub; fmul a b := a * b / 100; fdiv a b := a * 100 / b;
    fneg := Z.opp; fexp _ := 100; fltb := Z.ltb; feqb := Z.eqb |};
  Round x := (x + 50) / 100; Trunc x := Z.quot x 100 |}.

Definition draws (k : nat) : Z := 7 * Z.of_nat k + 3.

Lemma fixed_times : transit_times_below_one (F := Z).
Proof.
  intros steps i Hs Hi. unfold step_time. cbn [fmul fsub fdiv fofint track_ops fixed_track Trunc].
  assert (i * 100 * 100 / ((steps + 1) * 100) <= 100) by (apply Z.div_le_upper_bound; lia).
  rewrite Z.quot_div_nonneg; [apply Z.div_pos; [apply Z.div_pos |]; lia | apply Z.div_pos; lia | lia].
Qed.

Example a_track : option_map (fun '(points, target, settled, _) => (length points, target, settled)) (track draws 2 3 0%nat) =
  Some (18%nat, {| X := 837; Y := 665 |}, 7%nat).
Proof. by vm_compute. Qed.

Example no_candidates : buildSliderCursorV2 draws 1 0 = Some "[]".
Proof. reflexivity. Qed.

Lemma cursor_track_shape_witness : exists target, 729 <= X target <= 941 /\ target_of 2 3 target.
Proof.
  destruct (cursor_track_shape draws 2 3 fixed_times eq_refl) as (before & after & target & _ & _ & _ & _ & Ht & Hx & _). exists target. split; [exact Hx | exact Ht].
Defined.
