(* ===== verification/Requests.v ===== *)
(** * The requests of the captcha solver (internal/core/captcha_v2.go, [doRaw] and its callers).

    A request is what is handed to the client's [Do]: method, address, headers, body.  The client is an argument; the
    canonical form of a header's name is that of the standard library.  The profile is the one of an attempt: the solver
    takes another before each. *)

From S2P Require Import Prelude GoStrings Json Form Captcha.
From Stdlib Require Import ZArith Lia String Ascii.
From stdpp Require Import base list strings gmap.
Open Scope string_scope.

Abbreviation form := (list (string * string)).

Record request := {
  rq_method : string; rq_url : string; rq_headers : gmap string string; rq_order : list string; rq_pseudo : list string; rq_body : string
}.

(** [textproto.validHeaderFieldByte]: the bytes of a token. *)
Definition token_byte (c : ascii) : bool :=
  let n := N_of_ascii c in
  ((48 <=? n) && (n <=? 57) || (65 <=? n) && (n <=? 90) || (97 <=? n) && (n <=? 122))%N ||
  existsb (Ascii.eqb c) ["!"; "#"; "$"; "%"; "&"; "'"; "*"; "+"; "-"; "."; "^"; "_"; "`"; "|"; "~"]%char.

Definition upper_byte (c : ascii) : ascii :=
  let n := N_of_ascii c in if ((97 <=? n) && (n <=? 122))%N then ascii_of_N (n - 32) else c.

(** The first letter and every letter behind a hyphen in upper case, the others in lower case. *)
Fixpoint recase (upper : bool) (s : string) : string :=
  match s with
  | "" => ""
  | String c s' => String (if upper then upper_byte c else lower_ascii c) (recase (Ascii.eqb c "-") s')
  end.

Fixpoint all_tokens (s : string) : bool := match s with "" => true | String c s' => token_byte c && all_tokens s' end.

(** [textproto.CanonicalMIMEHeaderKey]: a name that is no token is left as it is. *)
Definition CanonicalMIMEHeaderKey (s : string) : string := if all_tokens s then recase true s else s.

Example canonical_keys : CanonicalMIMEHeaderKey <$> ["sec-ch-ua-mobile"; "DNT"; "accept-Encoding"; "a b-c"] =
  ["Sec-Ch-Ua-Mobile"; "Dnt"; "Accept-Encoding"; "a b-c"].
Proof. by vm_compute. Qed.

Definition captchaV2HeaderOrder : list string :=
  ["host"; "content-length"; "sec-ch-ua-platform"; "accept-language"; "sec-ch-ua"; "content-type"; "sec-ch-ua-mobile"; "user-agent"; "accept";
   "origin"; "sec-fetch-site"; "sec-fetch-mode"; "sec-fetch-dest"; "referer"; "accept-encoding"; "priority"].
Definition captchaV2PHeaderOrder : list string := [":method"; ":path"; ":authority"; ":scheme"].

(** Literal names under their keys, and the header of an unknown key one name after another. *)
Ltac name_keys :=
  repeat match goal with
  | |- context [CanonicalMIMEHeaderKey ?s] => let v := eval vm_compute in (CanonicalMIMEHeaderKey s) in change (CanonicalMIMEHeaderKey s) with v
  end.
Ltac each_name x :=
  repeat match goal with
  | |- context [String.eqb ?c x] => destruct (String.eqb_spec c x); [subst x; first [reflexivity | exfalso; match goal with Hn : _ <> _ |- _ => by apply Hn end] |]
  end.

Section requests.
(** [req.Header.Set(k, v)], one after another. *)
Definition sets (l : list (string * string)) (h : gmap string string) : gmap string string :=
  foldl (fun h kv => <[CanonicalMIMEHeaderKey (fst kv) := snd kv]> h) h l.

Definition applyBrowserProfileFhttp (profile : Profile) : gmap string string -> gmap string string :=
  sets [("User-Agent", UserAgent profile); ("sec-ch-ua", SecChUa profile); ("sec-ch-ua-mobile", SecChUaMobile profile);
        ("sec-ch-ua-platform", SecChUaPlatform profile); ("Accept-Language", captchaV2AcceptLanguage profile); ("DNT", "1")].

Definition default_headers : list (string * string) :=
  [("Accept", "*/*"); ("Sec-Fetch-Site", "same-site"); ("Sec-Fetch-Mode", "cors"); ("Sec-Fetch-Dest", "empty");
   ("Origin", "https://vk.com"); ("Referer", "https://vk.com/")].

(** [form] is nil or not; [extra] is in the order in which the map is visited. *)
Definition raw_request (profile : Profile) (method endpoint : string) (form : option form) (extra : list (string * string)) : request :=
  {| rq_method := method; rq_url := endpoint;
     rq_headers := sets extra (sets (match form with Some _ => [("Content-Type", "application/x-www-form-urlencoded")] | None => [] end)
                     (sets default_headers (applyBrowserProfileFhttp profile ∅)));
     rq_order := captchaV2HeaderOrder; rq_pseudo := captchaV2PHeaderOrder;
     rq_body := match form with Some f => captchaV2EncodeForm f | None => "" end |}.

Definition captchaV2APIVersion : string := "5.131".

Definition html_extra : list (string * string) :=
  [("Accept", "text/html,application/xhtml+xml,application/xml;q=0.9,*/*;q=0.8"); ("Sec-Fetch-Dest", "document");
   ("Sec-Fetch-Mode", "navigate"); ("Sec-Fetch-Site", "cross-site")].
Definition script_extra : list (string * string) := [("Accept", "text/javascript,*/*"); ("Referer", "https://id.vk.com/")].
Definition api_extra : list (string * string) := [("Origin", "https://id.vk.ru"); ("Referer", "https://id.vk.ru/"); ("Priority", "u=1, i")].

(** The places of the requests of a solver: a page, a script, a call of the API. *)
Inductive place := HtmlPlace | ScriptPlace | ApiPlace (round guess : nat).

Section client.
Context `{CaptchaLib} (visit : place -> list (string * string) -> list (string * string)) (Do : place -> request -> result string string).
Context (profile : Profile) (cancelled : nat -> bool) (pow : Z -> bool).

(** The addresses that no request can be made for; [NewRequestWithContext]. *)
Context (bad_url : string -> option string).

Definition doRaw (p : place) (method endpoint : string) (form : option form) (extra : list (string * string)) : result string string :=
  match bad_url endpoint with
  | Some e => Err e
  | None => Do p (raw_request profile method endpoint form (visit p extra))
  end.

Definition fetchCaptchaHTML (redirectURI : string) : result string string := doRaw HtmlPlace "GET" redirectURI None html_extra.
Definition fetchScript (scriptURL : string) : result string string := doRaw ScriptPlace "GET" scriptURL None script_extra.

Definition api_url (method : string) : string := "https://api.vk.ru/method/" ++ method ++ "?v=" ++ captchaV2APIVersion.

(** The answer is decoded into a map; null is the nil map. *)
Definition captchaRequest (round guess : nat) (method : string) (f : form) : result string object :=
  match doRaw (ApiPlace round guess) "POST" (api_url method) (Some f) api_extra with
  | Err e => Err e
  | Ok body =>
      match unmarshal body with
      | Ok (JObj m) => Ok m
      | Ok JNull => Ok []
      | Ok _ => Err "captcha api decode: not an object"
      | Err e => Err ("captcha api decode: " ++ e)
      end
  end.

(** The solver's view of HTTP. *)
Definition captcha_client : captcha_http :=
  {| get_html := fetchCaptchaHTML; get_script := fetchScript; api := captchaRequest; checkbox_cancelled := cancelled; pow_cancelled := pow |}.
End client.

(** ** Headers *)

(** The value of a header by its key: the one set last. *)
Definition last_value (l : list (string * string)) (k : string) (otherwise : option string) : option string :=
  foldl (fun acc kv => if String.eqb (CanonicalMIMEHeaderKey (fst kv)) k then Some (snd kv) else acc) otherwise l.

Lemma sets_lookup l h k : sets l h !! k = last_value l k (h !! k).
Proof.
  revert h. induction l as [| [a v] l IH]; intros h; [done |]. unfold sets, last_value in *. cbn [foldl fst snd]. rewrite IH. f_equal.
  destruct (String.eqb_spec (CanonicalMIMEHeaderKey a) k) as [-> | E]; [by rewrite lookup_insert_eq | by rewrite lookup_insert_ne].
Qed.

(** Names of different headers. *)
Definition distinct_names (l : list (string * string)) : Prop := NoDup (CanonicalMIMEHeaderKey <$> l.*1).

(** The headers do not depend on the order in which the map of the extra headers is visited. *)
Lemma sets_order l l' h : distinct_names l -> l ≡ₚ l' -> sets l h = sets l' h.
Proof.
  intros Hd Hp. unfold sets. revert h. induction Hp as [| [a v] l l' Hp IH | [a v] [b w] l | l1 l2 l3 H1 IH1 H2 IH2]; intros h; cbn [foldl fst snd].
  - done.
  - apply IH. by apply NoDup_cons in Hd as [_ Hd].
  - f_equal. apply insert_insert_ne. intros E. unfold distinct_names in Hd. rewrite !fmap_cons in Hd. cbn [fst] in Hd. apply NoDup_cons in Hd as [Hn _].
    apply Hn. rewrite E. by left.
  - rewrite IH1 by done. apply IH2. unfold distinct_names in *. by rewrite <- H1.
Qed.

Lemma sets_app l l' h : sets (l ++ l') h = sets l' (sets l h).
Proof. unfold sets. by rewrite foldl_app. Qed.

(** Headers are the same when the last value of every name is. *)
Lemma sets_ext l l' : (forall k, last_value l k None = last_value l' k None) -> sets l ∅ = sets l' ∅.
Proof. intros He. apply map_eq. intros i. by rewrite !sets_lookup, lookup_empty, He. Qed.

(** ** What is sent *)

Definition browser_headers (profile : Profile) : list (string * string) :=
  [("User-Agent", UserAgent profile); ("Sec-Ch-Ua", SecChUa profile); ("Sec-Ch-Ua-Mobile", SecChUaMobile profile);
   ("Sec-Ch-Ua-Platform", SecChUaPlatform profile); ("Accept-Language", captchaV2AcceptLanguage profile); ("Dnt", "1")].

Definition fetch_headers (accept site mode dest origin referer : string) : list (string * string) :=
  [("Accept", accept); ("Sec-Fetch-Site", site); ("Sec-Fetch-Mode", mode); ("Sec-Fetch-Dest", dest); ("Origin", origin); ("Referer", referer)].

(** The page is navigated to; the script and the API are requested from a page of the service. *)
Definition place_headers (p : place) : list (string * string) :=
  match p with
  | HtmlPlace => fetch_headers "text/html,application/xhtml+xml,application/xml;q=0.9,*/*;q=0.8" "cross-site" "navigate" "document" "https://vk.com" "https://vk.com/"
  | ScriptPlace => fetch_headers "text/javascript,*/*" "same-site" "cors" "empty" "https://vk.com" "https://id.vk.com/"
  | ApiPlace _ _ => (fetch_headers "*/*" "same-site" "cors" "empty" "https://id.vk.ru" "https://id.vk.ru/" ++
      [("Content-Type", "application/x-www-form-urlencoded"); ("Priority", "u=1, i")])%list
  end.

Definition sent (profile : Profile) (p : place) (method url body : string) : request :=
  {| rq_method := method; rq_url := url; rq_headers := list_to_map (browser_headers profile ++ place_headers p);
     rq_order := captchaV2HeaderOrder; rq_pseudo := captchaV2PHeaderOrder; rq_body := body |}.

(** A list of headers under their keys. *)
Lemma list_to_map_sets (l : list (string * string)) : forallb (fun kv => String.eqb (CanonicalMIMEHeaderKey (fst kv)) (fst kv)) l = true ->
  distinct_names l -> list_to_map l = sets l ∅.
Proof.
  intros Hk Hd. apply map_eq. intros i. rewrite sets_lookup, lookup_empty. revert Hk Hd.
  assert (forall o, forallb (fun kv => String.eqb (CanonicalMIMEHeaderKey (fst kv)) (fst kv)) l = true -> distinct_names l ->
    last_value l i o = match (list_to_map l : gmap string string) !! i with Some v => Some v | None => o end) as H.
  { induction l as [| [a v] l IH]; intros o Hk Hd; [done |]. cbn [forallb fst] in Hk. apply andb_true_iff in Hk as [Hk Hr].
    apply String.eqb_eq in Hk. unfold distinct_names in Hd. rewrite !fmap_cons in Hd. cbn [fst] in Hd. apply NoDup_cons in Hd as [Hn Hd].
    unfold last_value. cbn [foldl fst snd list_to_map]. fold (last_value l i (if String.eqb (CanonicalMIMEHeaderKey a) i then Some v else o)).
    rewrite IH by done. cbn. rewrite Hk in *. destruct (String.eqb_spec a i) as [-> | Hne]; [| by rewrite lookup_insert_ne].
    rewrite lookup_insert_eq. destruct ((list_to_map l : gmap string string) !! i) as [w |] eqn:E; [| done]. exfalso. apply Hn.
    apply elem_of_list_to_map_2 in E. rewrite forallb_forall in Hr. specialize (Hr (i, w) ltac:(by apply list_elem_of_In)). apply String.eqb_eq in Hr. cbn [fst] in Hr.
    rewrite <- Hr. apply list_elem_of_fmap. exists i. split; [done |]. apply list_elem_of_fmap. by exists (i, w). }
  intros Hk Hd. rewrite H by done. by destruct (_ !! i).
Qed.

Lemma place_extra profile (p : place) f extra :
  match p with HtmlPlace => f = None /\ extra = html_extra | ScriptPlace => f = None /\ extra = script_extra
             | ApiPlace _ _ => is_Some f /\ extra = api_extra end ->
  forall l, l ≡ₚ extra -> rq_headers (raw_request profile "" "" f l) = rq_headers (sent profile p "" "" "").
Proof.
  intros Hp l Hl. cbn [rq_headers raw_request sent].
  assert (distinct_names extra) as Hd.
  { unfold distinct_names. destruct p; [destruct Hp as [_ ->] | destruct Hp as [_ ->] | destruct Hp as [_ ->]]; apply (bool_decide_unpack _); by vm_compute. }
  rewrite (sets_order l extra) by (by unfold distinct_names in *; rewrite ?Hl).
  unfold applyBrowserProfileFhttp. rewrite <- !sets_app, list_to_map_sets.
  2: { by destruct p. }
  2: { unfold distinct_names. destruct p; apply (bool_decide_unpack _); by vm_compute. }
  apply sets_ext. intros k. unfold last_value.
  destruct p; [destruct Hp as [-> ->] | destruct Hp as [-> ->] | destruct Hp as [[f' ->] ->]]; cbn [foldl fst snd app html_extra script_extra api_extra
    default_headers browser_headers place_headers fetch_headers]; name_keys; each_name k; done.
Qed.

(** ** The client of the solver *)

Section client.
Context `{CaptchaLib} (visit : place -> form -> form) (Do : place -> request -> result string string) (profile : Profile)
  (cancelled : nat -> bool) (pow : Z -> bool) (bad_url : string -> option string).
Abbreviation http := (captcha_client visit Do profile cancelled pow bad_url).

(** The order in which a map is visited is any. *)
Definition visits : Prop := forall p l, visit p l ≡ₚ l.

(** What the server makes of a request, when it can be sent. *)
Definition answer (p : place) (method url body : string) : result string string :=
  match bad_url url with Some e => Err e | None => Do p (sent profile p method url body) end.

Definition decoded (r : result string string) : result string object :=
  match r with
  | Err e => Err e
  | Ok body => match unmarshal body with Ok (JObj m) => Ok m | Ok JNull => Ok [] | Ok _ => Err "captcha api decode: not an object"
               | Err e => Err ("captcha api decode: " ++ e) end
  end.

(** C18: whatever the order of its maps, the solver asks for pages, scripts and the API with exactly the headers of a browser
    that navigates to the page and loads the others from it, with the profile's names; a form reaches the API as it is. *)
Theorem captcha_requests_sent : visits ->
  (forall u, get_html http u = answer HtmlPlace "GET" u "") /\ (forall u, get_script http u = answer ScriptPlace "GET" u "") /\
  (forall round guess m f, api http round guess m f = decoded (answer (ApiPlace round guess) "POST" (api_url m) (captchaV2EncodeForm f)) /\
     decode_form (captchaV2EncodeForm f) = Some f).
Proof.
  intros Hv.
  assert (forall p f extra method url, match p with HtmlPlace => f = None /\ extra = html_extra | ScriptPlace => f = None /\ extra = script_extra
             | ApiPlace _ _ => is_Some f /\ extra = api_extra end ->
    doRaw visit Do profile bad_url p method url f extra = answer p method url (match f with Some f => captchaV2EncodeForm f | None => "" end)) as Hraw.
  { intros p f extra method url Hp. unfold doRaw, answer. destruct (bad_url url); [done |]. f_equal.
    pose proof (place_extra profile p f extra Hp (visit p extra) (Hv p extra)) as E. cbn [rq_headers raw_request sent] in E.
    unfold raw_request, sent. by rewrite E. }
  split_and!.
  - intros u. by apply (Hraw HtmlPlace None html_extra).
  - intros u. by apply (Hraw ScriptPlace None script_extra).
  - intros round guess m f. split; [| apply form_roundtrip]. cbn [api captcha_client]. unfold captchaRequest, decoded.
    by rewrite (Hraw (ApiPlace round guess) (Some f) api_extra).
Qed.
End client.
End requests.

(** ** A concrete client *)

Definition example_browser : Profile :=
  {| UserAgent := "Mozilla/5.0"; SecChUa := "Chromium"; SecChUaMobile := "?1"; SecChUaPlatform := "Android" |}.

(** A server that answers with the user agent and the origin of the request. *)
Definition echo (p : place) (r : request) : result string string :=
  Ok (default "" (rq_headers r !! "User-Agent") ++ " " ++ default "" (rq_headers r !! "Origin") ++ " " ++ rq_body r).

Definition example_raw (p : place) (f : option form) (extra : form) : result string string :=
  doRaw (fun _ => reverse) echo example_browser (fun u => if String.eqb u "" then Some "no address" else None) p "POST" "https://id.vk.ru/a" f extra.

Example raw_requests : (example_raw (ApiPlace 0 0) (Some [("a", "b c"); ("d", "&")]) api_extra, example_raw HtmlPlace None html_extra) =
  (Ok "Mozilla/5.0 https://id.vk.ru a=b+c&d=%26", Ok "Mozilla/5.0 https://vk.com ").
Proof. by vm_compute. Qed.

Lemma captcha_requests_sent_witness : decode_form (captchaV2EncodeForm [("a", "b c")]) = Some [("a", "b c")].
Proof.
  destruct (@captcha_requests_sent clib0 (fun _ => reverse) echo example_browser
    (fun _ => false) (fun _ => false) (fun _ => None) (fun p l => reverse_Permutation l)) as (_ & _ & Hapi).
  exact (proj2 (Hapi 0%nat 0%nat "captchaNotRobot.check" [("a", "b c")])).
Defined.
