(* ===== verification/CoreStart.v ===== *)
(** * Starting the core and the end of a run (internal/core/core.go, [Start]).

    What [Start] acquires is its state: the context, the local socket or the TUN device, the goroutines, the channel of
    events.  The resolver is the one that [setupGlobalResolver] installs (Dns.v) before the peer is resolved; whether the
    socket or the device can be had and the derivation of the key are arguments. *)

From S2P Require Import Prelude GoStrings CoreRuntime Effects.
From S2P Require Dns.
From Stdlib Require Import ZArith Lia String Ascii.
From stdpp Require Import base sets list strings.
Open Scope string_scope.
Open Scope Z_scope.

(** [TurnParams]. *)
Record TurnParams := {
  tp_Host : string; tp_Port : string; tp_Hashes : list string; tp_WrapKey : list Z; tp_ObfsMode : string; tp_NoDTLS : bool;
  tp_RawMode : bool; tp_Transport : string
}.

Inductive routine :=
| ShutdownWatch | StatsLoop | StatsTicker | ReadLoop (tun : bool) | WriteLoop (tun : bool) | ConfigWaiter
| Main (tp : TurnParams) (peer : ip_addr * string) (localPort : string) (groups : list group_call).

Record acquired := {
  resolver : option Dns.resolver; has_cancel : bool; cancelled : bool; socket : bool; tun : bool; routines : list routine;
  events : list Event; events_closed : bool
}.

Definition idle : acquired :=
  {| resolver := None; has_cancel := false; cancelled := false; socket := false; tun := false; routines := []; events := []; events_closed := false |}.

Inductive run_error := BadStart (e : start_error) | DeriveKey (e : string) | CreateTun (e : string) | ListenError (e : string).

Definition set_resolver (r : Dns.resolver) (s : acquired) : acquired :=
  {| resolver := Some r; has_cancel := has_cancel s; cancelled := cancelled s; socket := socket s; tun := tun s; routines := routines s;
     events := events s; events_closed := events_closed s |}.
(** [cancel()]; [new]: the context is made. *)
Definition set_context (new done : bool) (s : acquired) : acquired :=
  {| resolver := resolver s; has_cancel := has_cancel s || new; cancelled := done; socket := socket s; tun := tun s; routines := routines s;
     events := events s; events_closed := events_closed s |}.
Definition hold (so tu : bool) (s : acquired) : acquired :=
  {| resolver := resolver s; has_cancel := has_cancel s; cancelled := cancelled s; socket := so; tun := tu; routines := routines s;
     events := events s; events_closed := events_closed s |}.
Definition go (rs : list routine) (s : acquired) : acquired :=
  {| resolver := resolver s; has_cancel := has_cancel s; cancelled := cancelled s; socket := socket s; tun := tun s; routines := (routines s ++ rs)%list;
     events := events s; events_closed := events_closed s |}.
Definition ends (keep : routine -> bool) (s : acquired) : acquired :=
  {| resolver := resolver s; has_cancel := has_cancel s; cancelled := cancelled s; socket := socket s; tun := tun s;
     routines := filter (fun r => keep r = true) (routines s); events := events s; events_closed := events_closed s |}.
Definition emitted (ev : Event) (s : acquired) : acquired :=
  {| resolver := resolver s; has_cancel := has_cancel s; cancelled := cancelled s; socket := socket s; tun := tun s; routines := routines s;
     events := emit (events s) ev; events_closed := events_closed s |}.
Definition close_events (s : acquired) : acquired :=
  {| resolver := resolver s; has_cancel := has_cancel s; cancelled := cancelled s; socket := socket s; tun := tun s; routines := routines s;
     events := events s; events_closed := true |}.

Section start.
Context `{Unicode} (cfg : Config).
Context (resolve : Dns.resolver -> string -> string -> result string ip_addr) (deriveWrapKey : string -> result string (list Z)).
Context (create_tun : option string) (listen : string -> result string (option Z)).

Abbreviation M := (State acquired).

Definition fail (e : run_error) : M (option run_error) := _ ← modify (set_context false true); mret (Some e).

(** The port of the local socket in the configuration request: [None] is an address that is not one of UDP. *)
Definition local_port (port : option Z) : string :=
  let p := match port with Some p => itoa p | None => "" end in
  if String.eqb p "" || String.eqb p "0" then "9000" else p.

Definition turn_params (key : list Z) : TurnParams :=
  {| tp_Host := TurnHost cfg; tp_Port := TurnPort cfg; tp_Hashes := Hashes cfg; tp_WrapKey := key; tp_ObfsMode := "audio";
     tp_NoDTLS := NoDTLS cfg || RawMode cfg; tp_RawMode := RawMode cfg; tp_Transport := Transport cfg |}.

(** The device or the socket, and the port. *)
Definition open_local : M (result run_error string) :=
  if RawMode cfg then
    match create_tun with
    | Some e => mret (Err (CreateTun e))
    | None => _ ← modify (hold false true); mret (Ok "")
    end
  else
    match listen (Listen cfg) with
    | Err e => mret (Err (ListenError e))
    | Ok port => _ ← modify (hold true false); mret (Ok (local_port port))
    end.

Definition launch (tp : TurnParams) (peer : ip_addr * string) (localPort : string) : M unit :=
  _ ← modify (go [ShutdownWatch; StatsLoop; StatsTicker]);
  _ ← modify (go [ReadLoop (RawMode cfg); WriteLoop (RawMode cfg)]);
  _ ← modify (go [ConfigWaiter]);
  _ ← modify (emitted (EventState "connecting"));
  modify (go [Main tp peer localPort (plan (Workers cfg))]).

(** [None]: the channel of events is returned. *)
Definition Start : M (option run_error) :=
  let r := Dns.setupGlobalResolver (if String.eqb (DNS cfg) "" then "yandex" else DNS cfg) in
  _ ← modify (set_resolver r);
  _ ← modify (set_context true false);
  match start_peer cfg (resolve r) with
  | Err e => fail (BadStart e)
  | Ok peer =>
      match deriveWrapKey (Password cfg) with
      | Err e => fail (DeriveKey e)
      | Ok key =>
          l ← open_local;
          match l with
          | Err e => fail e
          | Ok localPort => _ ← launch (turn_params key) peer localPort; mret None
          end
      end
  end.

(** ** The end *)

(** [Stop]: the context of a core that was started is cancelled once. *)
Definition Stop : M unit := modify (fun s => if has_cancel s then set_context false true s else s).

Definition is_main (r : routine) : bool := match r with Main _ _ _ _ => true | _ => false end.
Definition is_loop (r : routine) : bool := match r with ReadLoop _ | WriteLoop _ => true | _ => false end.

(** When all groups have ended: the deferred calls in their order.  [cancel] also ends the goroutines that only wait for the
    context, at a time of their own ([context_ends]); [Shutdown] waits for the two loops of the dispatcher. *)
Definition workers_done : M unit :=
  _ ← modify (emitted (EventNamed "workers_completed" ""));
  _ ← modify (fun s => if RawMode cfg then hold (socket s) false s else hold false (tun s) s);
  _ ← modify (set_context false true);
  _ ← modify (ends (fun r => negb (is_loop r)));
  _ ← modify close_events;
  modify (ends (fun r => negb (is_main r))).

(** What a cancelled context ends: the watcher, behind it the loop of the statistics and the ticker, and the waiter. *)
Definition waits (r : routine) : bool := match r with ShutdownWatch | StatsLoop | StatsTicker | ConfigWaiter => true | _ => false end.
Definition context_ends : M unit := modify (fun s => if cancelled s then ends (fun r => negb (waits r)) s else s).

(** ** What is left *)

Definition released (s : acquired) : Prop := socket s = false /\ tun s = false /\ cancelled s = true.

Lemma launch_run tp peer port s : launch tp peer port s = (tt, {|
  resolver := resolver s; has_cancel := has_cancel s; cancelled := cancelled s; socket := socket s; tun := tun s;
  routines := (routines s ++ [ShutdownWatch; StatsLoop; StatsTicker; ReadLoop (RawMode cfg); WriteLoop (RawMode cfg); ConfigWaiter;
    Main tp peer port (plan (Workers cfg))])%list;
  events := emit (events s) (EventState "connecting"); events_closed := events_closed s |}).
Proof. unfold launch. rewrite !run_bind. unfold modify, go, emitted. cbn. by rewrite <- !app_assoc. Qed.

Lemma open_run s : open_local s =
  (match (if RawMode cfg then match create_tun with Some e => Err (CreateTun e) | None => Ok "" end
         else match listen (Listen cfg) with Err e => Err (ListenError e) | Ok port => Ok (local_port port) end) with
   | Err e => (Err e, s)
   | Ok p => (Ok p, hold (negb (RawMode cfg)) (RawMode cfg) s)
   end).
Proof. unfold open_local. destruct (RawMode cfg); [by destruct create_tun | by destruct (listen _)]. Qed.

(** The port in the request of the configuration is one that the server can send to, except in raw mode. *)
Lemma local_port_usable port : local_port port <> "" /\ local_port port <> "0".
Proof. unfold local_port. destruct (String.eqb_spec (match port with Some p => itoa p | None => "" end) ""), (String.eqb_spec (match port with Some p => itoa p | None => "" end) "0"); by split. Qed.

(** C13: [Start] either fails, and then the context is cancelled and neither a socket, a device nor a goroutine is left; or
    it succeeds with exactly one of socket and device, and the workers run with the peer that the new resolver gives,
    in the groups of the plan, with a port that is not zero; all is released when the workers have ended, the last
    event is that they have, and with the context all goroutines end. *)
Theorem core_start_all_or_nothing :
  let '(e, s) := Start idle in
  match e with
  | Some _ => released s /\ routines s = [] /\ events s = []
  | None => exists peer key port, start_peer cfg (resolve (Dns.setupGlobalResolver (if String.eqb (DNS cfg) "" then "yandex" else DNS cfg))) = Ok peer /\
      deriveWrapKey (Password cfg) = Ok key /\ Main (turn_params key) peer port (plan (Workers cfg)) ∈ routines s /\
      (if RawMode cfg then port = "" else port <> "" /\ port <> "0") /\ tun s = RawMode cfg /\ socket s = negb (RawMode cfg) /\ cancelled s = false /\
      let s' := (workers_done ≫= fun _ => context_ends) s in
      released s'.2 /\ routines s'.2 = [] /\ events_closed s'.2 = true /\
      events s'.2 = [EventState "connecting"; EventNamed "workers_completed" ""]
  end.
Proof.
  unfold Start. rewrite !run_bind. cbn [modify fst snd]. set (r := Dns.setupGlobalResolver _).
  destruct (start_peer cfg (resolve r)) as [peer | e] eqn:Ep; [| by repeat split].
  destruct (deriveWrapKey (Password cfg)) as [key | e] eqn:Ek; [| by repeat split].
  rewrite run_bind, open_run. set (o := if RawMode cfg then _ else _).
  destruct o as [port | e] eqn:Eo; [| by repeat split]. cbn [fst snd]. rewrite run_bind, launch_run. cbn [fst snd mret State_ret].
  exists peer, key, port. split_and!; try done.
  { cbn. set_solver. }
  { unfold o in Eo. destruct (RawMode cfg); [destruct create_tun; [done | by injection Eo] |]. destruct (listen _); [| done]. injection Eo as <-. apply local_port_usable. }
  all: unfold workers_done, context_ends, released; rewrite !run_bind; cbn; by destruct (RawMode cfg).
Qed.
End start.

(** ** A concrete start *)

Section example.
#[local] Instance example_unicode : Unicode := fun s => s.

Definition example_config (raw : bool) : Config := {|
  PeerAddr := "vpn.example:56000"; Password := "secret"; Hashes := ["h"]; Listen := "127.0.0.1:9000"; TurnHost := ""; TurnPort := "";
  DeviceID := "0123456789abcdef"; Workers := 20; CaptchaMode := "auto"; MTU := 1280; DNS := ""; Mode := "tun"; SocksPort := 9050; RawMode := raw;
  SocksUser := ""; SocksPass := ""; SocksBindAddr := ""; WGRawConfig := "";
  NoDTLS := false; Transport := "udp"; RawPort := "" |}.

(** A name that only the yandex servers know. *)
Definition example_resolve (r : Dns.resolver) (host port : string) : result string ip_addr :=
  if negb (String.eqb host "vpn.example") then Ok {| to4 := true; ip_text := host |}
  else match r with Dns.Plain ("77.88.8.8:53" :: _) => Ok {| to4 := true; ip_text := "203.0.113.7" |} | _ => Err "no such host" end.

Definition example_key (p : string) : result string (list Z) := if String.eqb p "" then Err "empty password" else Ok (replicate 32 7).

Definition started (raw : bool) (tun : option string) (port : result string (option Z)) : option run_error * acquired :=
  Start (example_config raw) example_resolve example_key tun (fun _ => port) idle.

Definition main_of (s : acquired) : list (string * string * nat) :=
  omap (fun r => match r with Main _ (ip, p) port groups => Some (ip_text ip ++ ":" ++ p, port, length groups) | _ => None end) (routines s).

Example core_starts : (main_of (started false None (Ok (Some 41000))).2, main_of (started false None (Ok (Some 0))).2, main_of (started true None (Err "")).2) =
  ([("203.0.113.7:56000", "41000", 2%nat)], [("203.0.113.7:56000", "9000", 2%nat)], [("203.0.113.7:56003", "", 2%nat)]).
Proof. by vm_compute. Qed.

Example core_fails : ((started true (Some "no permission") (Ok None)).1, (started false None (Err "in use")).1) =
  (Some (CreateTun "no permission"), Some (ListenError "in use")).
Proof. by vm_compute. Qed.
End example.
