(* ===== verification/Process.v ===== *)
(** * The daemon as a process (daemon.go; connect.go around the fork; captcha_socket.go, the parent's side).

    The names of the daemon's files, the manager that forks it, its signals, and what its parent does.  The library that
    forks answers with an argument; a process that waits polls a clock given as a function. *)

From S2P Require Import Prelude GoStrings Paths.
From S2P Require Running.
From Stdlib Require Import ZArith Lia String Ascii.
From stdpp Require Import base list strings gmap sets.
Open Scope string_scope.
Open Scope Z_scope.

(** ** Files *)

Section paths.
Context (getenv : string -> string).

Definition pidFilesDir : string :=
  let base := getenv "XDG_RUNTIME_DIR" in
  let base := if String.eqb base "" then let home := getenv "HOME" in if String.eqb home "" then "/tmp" else Paths.Join [home; ".local"; "run"] else base in
  Paths.Join [base; "qwdtt"].

Definition daemon_file (suffix profile : string) : string := "qwdtt-" ++ profile ++ suffix.
Definition pidFilePath (profile : string) : string := Paths.Join [pidFilesDir; daemon_file ".pid" profile].
Definition socketPath (profile : string) : string := Paths.Join [pidFilesDir; daemon_file ".sock" profile].
Definition logFilePath (profile : string) : string := Paths.Join [pidFilesDir; daemon_file ".log" profile].
Definition splitCfgPath (profile : string) : string := Paths.Join [pidFilesDir; daemon_file ".bl" profile].

(** The name of a profile in the name of a file, if it is a log. *)
Definition log_profile (entry : string * bool) : option string :=
  let '(name, is_dir) := entry in
  if is_dir : bool then None
  else if negb (has_suffix ".log" name) || negb (has_prefix "qwdtt-" name) then None
  else let profile := trim_prefix "qwdtt-" (trim_suffix ".log" name) in if String.eqb profile "" then None else Some profile.

(** [None]: the directory cannot be read. *)
Definition listLogProfileNames (entries : option (list (string * bool))) : list string := omap log_profile (default [] entries).

(** ** The files of a daemon belong to one profile *)

Definition runtime_base : string :=
  let base := getenv "XDG_RUNTIME_DIR" in
  if String.eqb base "" then let home := getenv "HOME" in if String.eqb home "" then "/tmp" else Paths.Join [home; ".local"; "run"] else base.

Lemma daemon_file_entry suffix profile : no_char "/" profile = true -> no_char "/" suffix = true -> entry_name (daemon_file suffix profile).
Proof. intros Hp Hs. unfold daemon_file, entry_name. split_and!; [done.. |]. rewrite !no_char_app, Hp, Hs. done. Qed.

Lemma join_entry d c : rooted d = true -> entry_name c -> Paths.Join [d; c] = path_text (c :: leads [] d).
Proof.
  intros Hd Hc. unfold Paths.Join. rewrite !filter_cons, filter_nil. rewrite decide_True by (by intros ->). rewrite decide_True by apply Hc. cbn [GoStrings.join].
  rewrite Clean_rooted by (by apply rooted_app). rewrite leads_app. unfold leads at 1. rewrite split_on_no_char by apply Hc. cbn [foldl]. by rewrite entry_step.
Qed.

Lemma daemon_path suffix profile : rooted runtime_base = true -> no_char "/" profile = true -> no_char "/" suffix = true ->
  Paths.Join [pidFilesDir; daemon_file suffix profile] = path_text (daemon_file suffix profile :: "qwdtt" :: leads [] runtime_base).
Proof.
  intros Hb Hp Hs. pose proof (daemon_file_entry suffix profile Hp Hs) as He. unfold pidFilesDir. fold runtime_base.
  assert (entry_name "qwdtt") as Hq by (split_and!; done). rewrite (join_entry runtime_base) by done. rewrite join_entry by (done || apply rooted_text).
  do 2 f_equal. apply leads_text. constructor; [done |]. by apply leads_names.
Qed.

Lemma daemon_path_inj s1 s2 p q : rooted runtime_base = true -> no_char "/" p = true -> no_char "/" q = true -> no_char "/" s1 = true -> no_char "/" s2 = true ->
  Paths.Join [pidFilesDir; daemon_file s1 p] = Paths.Join [pidFilesDir; daemon_file s2 q] -> daemon_file s1 p = daemon_file s2 q.
Proof.
  intros Hb Hp Hq H1 H2 E. rewrite !daemon_path in E by done. apply path_text_inj in E; [exact (f_equal (hd "") E) | |];
    (constructor; [by apply daemon_file_entry |]; constructor; [split_and!; done |]; by apply leads_names).
Qed.


Lemma last_byte a s : s <> "" -> List.last (list_ascii_of_string (a ++ s)) zero = List.last (list_ascii_of_string s) zero.
Proof.
  intros Hs. induction a as [| c a IH]; [done |]. change (String c a ++ s) with (String c (a ++ s)). cbn [list_ascii_of_string List.last].
  destruct (list_ascii_of_string (a ++ s)) as [| x l] eqn:E; [| exact IH]. destruct a; [by destruct s | done].
Qed.

Lemma daemon_file_inj suffix p q : daemon_file suffix p = daemon_file suffix q -> p = q.
Proof. unfold daemon_file. intros E. by apply app_inj_prefix, app_inj_suffix in E. Qed.

Lemma log_profile_name p : p <> "" -> log_profile (daemon_file ".log" p, false) = Some p.
Proof.
  intros Hp. unfold log_profile, daemon_file. rewrite has_prefix_app. rewrite <- string_app_assoc at 1. rewrite has_suffix_app. cbn [negb orb].
  rewrite <- string_app_assoc. unfold trim_suffix. rewrite has_suffix_app, string_length_app, Nat.add_sub, stake_app, trim_prefix_app.
  by rewrite (proj2 (String.eqb_neq _ _)).
Qed.

(** In a rooted runtime directory, daemons of different profiles share no file, nor do the files of one daemon coincide;
    the commands that look for daemons and logs by the names of files find every profile back. *)
Theorem daemon_files p q : rooted runtime_base = true -> no_char "/" p = true -> no_char "/" q = true ->
  (pidFilePath p = pidFilePath q \/ socketPath p = socketPath q \/ logFilePath p = logFilePath q \/ splitCfgPath p = splitCfgPath q -> p = q) /\
  NoDup [pidFilePath p; socketPath p; logFilePath p; splitCfgPath p] /\
  pidFilePath p = path_text (daemon_file ".pid" p :: "qwdtt" :: leads [] runtime_base) /\
  (p <> "" -> Running.pid_profile (daemon_file ".pid" p) = Some p /\ log_profile (daemon_file ".log" p, false) = Some p).
Proof.
  intros Hb Hp Hq. unfold pidFilePath, socketPath, logFilePath, splitCfgPath. split_and!.
  - intros [E | [E | [E | E]]]; apply daemon_path_inj in E; try done; by apply daemon_file_inj in E.
  - assert (forall s1 s2, no_char "/" s1 = true -> no_char "/" s2 = true -> s1 <> "" -> s2 <> "" ->
      List.last (list_ascii_of_string s1) zero <> List.last (list_ascii_of_string s2) zero ->
      Paths.Join [pidFilesDir; daemon_file s1 p] <> Paths.Join [pidFilesDir; daemon_file s2 p]) as Hd.
    { intros s1 s2 H1 H2 Hs1 Hs2 Hl E. apply daemon_path_inj in E; try done. apply Hl. unfold daemon_file in E. rewrite <- !string_app_assoc in E.
      apply (f_equal (fun x => List.last (list_ascii_of_string x) zero)) in E. by rewrite !last_byte in E. }
    repeat constructor; rewrite ?not_elem_of_cons; split_and?; try (by apply not_elem_of_nil); by apply Hd.
  - by apply daemon_path.
  - intros Hn. split; [by apply Running.pid_profile_name | by apply log_profile_name].
Qed.

(** ** The manager *)

Record DaemonManager := { dm_profile : string; dm_autoSwitch : bool }.

Definition daemonProfileName (dm : DaemonManager) : string := if dm_autoSwitch dm then "autoswitch" else dm_profile dm.

Record daemon_context := { PidFileName : string; LogFileName : string; WorkDir : string; Args : list string }.

Definition context_of (dm : DaemonManager) (argv0_base : string) (args : list string) : daemon_context :=
  {| PidFileName := pidFilePath (daemonProfileName dm); LogFileName := logFilePath (daemonProfileName dm); WorkDir := "/"; Args := argv0_base :: args |}.

(** What [Reborn] of the library returns: an error, a child, or nil in the child. *)
Inductive reborn := RebornError (e : string) | ChildProcess (pid : Z) | NoProcess.

(** [Start]: the child, and whether this process is the daemon. *)
Definition dm_Start (was_reborn : bool) (r : reborn) : result string (option Z * bool) :=
  if was_reborn then match r with RebornError e => Err ("daemon child init: " ++ e) | _ => Ok (None, true) end
  else match r with
       | RebornError e => Err ("failed to daemonize: " ++ e)
       | ChildProcess pid => Ok (Some pid, false)
       | NoProcess => Ok (None, true)
       end.

(** [Pid]; [None] is an unreadable file. *)
Definition dm_Pid (file : option string) : option Z := match file with Some t => atoi (trim_space t) | None => None end.

Definition isAutoSwitchDaemon (file : option string) : bool := match file with Some t => negb (String.eqb (trim_space t) "") | None => false end.
End paths.

(** ** Capabilities *)

(** [Sscanf(line, "CapEff:\t%x", &caps)] is an argument. *)
Definition hasCapNetAdmin (scan : string -> option Z) (euid : Z) (status : option string) : bool :=
  if euid =? 0 then true
  else match status with
       | None => false
       | Some text =>
           match find (has_prefix "CapEff:") (split_on "010" text) with
           | Some line => match scan line with Some caps => negb (Z.land caps (Z.shiftl 1 12) =? 0) | None => false end
           | None => false
           end
       end.

Definition checkTunRawCapabilities (mode : string) (capable : bool) : bool := String.eqb mode "socks" || capable.

(** ** Signals *)

Inductive signal := SIGINT | SIGTERM | SIGUSR1 | SIGUSR2.

(** [switchProfileSignal]: channels are numbers, in the order in which they are made; [closed] are those that are closed,
    and closing one of them again panics.  The daemon's handler reads a channel of signals with room for one. *)
Record daemon := {
  current : nat; closed : gset nat; pending : option signal; handling : bool; stop_closed : bool; panicked : bool;
  session : option nat        (* the channel that the running session was given *)
}.

Definition new_daemon : daemon :=
  {| current := 0; closed := ∅; pending := None; handling := true; stop_closed := false; panicked := false; session := None |}.

Definition trigger (d : daemon) : daemon :=
  {| current := S (current d); closed := {[current d]} ∪ closed d; pending := pending d; handling := handling d; stop_closed := stop_closed d;
     panicked := panicked d || bool_decide (current d ∈ closed d); session := session d |}.

Definition set_pending (p : option signal) (d : daemon) : daemon :=
  {| current := current d; closed := closed d; pending := p; handling := handling d; stop_closed := stop_closed d; panicked := panicked d; session := session d |}.

(** The handler ends: [close(stopCh)], [close(done)]. *)
Definition terminate (d : daemon) : daemon :=
  {| current := current d; closed := closed d; pending := pending d; handling := false; stop_closed := true;
     panicked := panicked d || stop_closed d; session := session d |}.

Definition set_session (s : option nat) (d : daemon) : daemon :=
  {| current := current d; closed := closed d; pending := pending d; handling := handling d; stop_closed := stop_closed d; panicked := panicked d; session := s |}.

Definition handle (autoSwitch : bool) (s : signal) (d : daemon) : daemon :=
  match s with SIGUSR1 => if autoSwitch then trigger d else d | SIGUSR2 => d | SIGINT | SIGTERM => terminate d end.

(** A signal that finds another one unread is lost. *)
Inductive sstep (autoSwitch : bool) : daemon -> daemon -> Prop :=
| s_deliver d s : sstep autoSwitch d (match pending d with None => set_pending (Some s) d | Some _ => d end)
| s_handle d s : handling d = true -> pending d = Some s -> sstep autoSwitch d (handle autoSwitch s (set_pending None d))
| s_begin d : session d = None -> sstep autoSwitch d (set_session (Some (current d)) d)
| s_end d : sstep autoSwitch d (set_session None d).

Inductive sreach (autoSwitch : bool) : daemon -> Prop :=
| sr_new : sreach autoSwitch new_daemon
| sr_step d d' : sreach autoSwitch d -> sstep autoSwitch d d' -> sreach autoSwitch d'.

(** The session is asked to end. *)
Definition switching (d : daemon) : Prop := exists c, session d = Some c /\ c ∈ closed d.

Definition signals_ok (d : daemon) : Prop :=
  (forall c, c ∈ closed d <-> (c < current d)%nat) /\ stop_closed d = negb (handling d) /\ panicked d = false /\
  (forall c, session d = Some c -> (c <= current d)%nat).

Lemma trigger_ok d : signals_ok d -> signals_ok (trigger d).
Proof.
  intros (Hc & Hs & Hp & Hse). unfold signals_ok, trigger. cbn. split_and!.
  - intros c. rewrite elem_of_union, elem_of_singleton, Hc. lia.
  - done.
  - rewrite Hp, bool_decide_eq_false_2; [done |]. rewrite Hc. lia.
  - intros c E. specialize (Hse c E). lia.
Qed.

Lemma sstep_ok a d d' : signals_ok d -> sstep a d d' -> signals_ok d'.
Proof.
  intros Hok Hs. destruct Hs as [d s | d s Hh Hp | d Hn | d].
  - destruct (pending d); [done |]. exact Hok.
  - assert (signals_ok (set_pending None d)) as Hok' by exact Hok. unfold handle. destruct s; [| | destruct a; [by apply trigger_ok | done] | done];
      destruct Hok as (H1 & H2 & H3 & H4); (split; [exact H1 |]; split; [done |]; split; [| exact H4]); unfold terminate; cbn; by rewrite H3, H2, Hh.
  - destruct Hok as (H1 & H2 & H3 & H4). split; [exact H1 |]. split; [exact H2 |]. split; [exact H3 |]. cbn. intros c [= <-]. done.
  - destruct Hok as (H1 & H2 & H3 & H4). split; [exact H1 |]. split; [exact H2 |]. split; [exact H3 |]. by cbn.
Qed.

Lemma sreach_ok a d : sreach a d -> signals_ok d.
Proof.
  induction 1 as [| d d' Hr IH Hs]; [| by eapply sstep_ok].
  split_and!; cbn; try done. intros c. split; [intros Hc; set_solver | lia].
Qed.

(** C39: in every order of signals and sessions no channel is closed twice; the stop channel is closed exactly when the
    handler has ended; a session that begins is not asked to switch, one that runs while the handler takes SIGUSR1 is, in the
    automatic mode, and stays so; without a signal taken, nothing asks it to. *)
Theorem signals_safe a d : sreach a d ->
  panicked d = false /\ stop_closed d = negb (handling d) /\ (current d ∉ closed d) /\
  (forall d', sstep a d d' -> session d = None -> (session d' <> None) -> ~ switching d') /\
  (forall c, session d = Some c -> handling d = true -> pending d = Some SIGUSR1 -> a = true ->
     switching (handle a SIGUSR1 (set_pending None d))) /\
  (forall d', sstep a d d' -> switching d -> (session d' <> None) -> switching d').
Proof.
  intros Hr. pose proof (sreach_ok a d Hr) as Hok. destruct Hok as (Hc & Hs & Hp & Hse). split_and!; try done.
  - rewrite Hc. lia.
  - intros d' Hst Hn Hd'. destruct Hst as [d s | d s Hh Hpe | d _ | d]; cbn in *.
    + destruct (pending d); cbn in Hd'; congruence.
    + destruct s; cbn in Hd'; try congruence. destruct a; cbn in Hd'; congruence.
    + intros (c & [= <-] & Hin). cbn in Hin. apply Hc in Hin. lia.
    + done.
  - intros c E _ _ ->. exists c. split; [exact E |]. cbn. specialize (Hse c E). rewrite elem_of_union, elem_of_singleton, Hc. lia.
  - intros d' Hst (c & E & Hin) Hd'. destruct Hst as [d s | d s Hh Hpe | d Hno | d]; cbn in *.
    + exists c. by destruct (pending d).
    + exists c. destruct s; cbn; try (by split). destruct a; cbn; [| by split]. split; [done |]. set_solver.
    + congruence.
    + done.
Qed.

(** ** The parent *)

(** [waitForSocket]: the poll number [k] is at the time [now k]; [None] is a loop out of fuel, [Some false] the error. *)
Section wait.
Context (now : nat -> Z) (there : nat -> bool) (timeout : Z).

Fixpoint wait_from (fuel k : nat) (deadline : Z) : option bool :=
  match fuel with
  | O => None
  | S fuel => if now k <? deadline then if there k then Some true else wait_from fuel (S k) deadline else Some false
  end.

Definition waitForSocket (fuel : nat) : option bool := wait_from fuel 0 (now 0%nat + timeout).

Definition poll_ms : Z := 50.

(** A pause takes its time at least. *)
Definition clock_runs : Prop := forall k, now k + poll_ms <= now (S k).

Lemma clock_after k : clock_runs -> now 0%nat + poll_ms * Z.of_nat k <= now k.
Proof. intros Hc. induction k as [| k IH]; [lia |]. specialize (Hc k). lia. Qed.

Lemma clock_grows i j : clock_runs -> (i <= j)%nat -> now i <= now j.
Proof. intros Hc Hi. induction Hi as [| j Hi IH]; [done |]. specialize (Hc j). unfold poll_ms in Hc. lia. Qed.

Lemma wait_spec fuel k deadline r : wait_from fuel k deadline = Some r ->
  if r then exists j, (k <= j)%nat /\ now j < deadline /\ there j = true else forall j, (k <= j)%nat -> (forall i, (k <= i <= j)%nat -> now i < deadline) -> there j = false.
Proof.
  revert k. induction fuel as [| fuel IH]; intros k E; [done |]. cbn [wait_from] in E. destruct (Z.ltb_spec (now k) deadline) as [Hlt | Hge].
  - destruct (there k) eqn:Et; [injection E as <-; by exists k |]. specialize (IH _ E). destruct r.
    + destruct IH as (j & Hj & H1 & H2). exists j. split; [lia | done].
    + intros j Hj Hall. destruct (decide (j = k)) as [-> | Hne]; [done |]. apply IH; [lia |]. intros i Hi. apply Hall. lia.
  - injection E as <-. intros j Hj Hall. specialize (Hall k ltac:(lia)). lia.
Qed.

Lemma wait_ends fuel k deadline : clock_runs -> deadline <= now k + poll_ms * Z.of_nat fuel -> exists r, wait_from (S fuel) k deadline = Some r.
Proof.
  intros Hc. revert k. induction fuel as [| fuel IH]; intros k Hd.
  - cbn [wait_from]. exists false. destruct (Z.ltb_spec (now k) deadline); [lia | done].
  - remember (S fuel) as f. cbn [wait_from]. destruct (now k <? deadline); [| by exists false]. destruct (there k); [by exists true |]. subst f. apply IH. specialize (Hc k). lia.
Qed.

(** The wait for the daemon's socket ends within one poll for every 50 ms of the timeout and one more, and it is
    successful only if the socket's file was there at a poll before the deadline; it fails only if it was at none. *)
Theorem socket_wait_ends : clock_runs -> 0 <= timeout ->
  exists r, waitForSocket (S (Z.to_nat (timeout / poll_ms + 1))) = Some r /\
    if r then exists j, now j < now 0%nat + timeout /\ there j = true else forall j, now j < now 0%nat + timeout -> there j = false.
Proof.
  intros Hc Ht. destruct (wait_ends (Z.to_nat (timeout / poll_ms + 1)) 0 (now 0%nat + timeout) Hc) as [r Er].
  { unfold poll_ms in *. rewrite Z2Nat.id by (pose proof (Z.div_pos timeout 50 Ht ltac:(lia)); lia). pose proof (Z.mod_pos_bound timeout 50 ltac:(lia)). pose proof (Z.div_mod timeout 50 ltac:(lia)). lia. }
  exists r. split; [exact Er |]. pose proof (wait_spec _ _ _ _ Er) as Hs. destruct r.
  - destruct Hs as (j & _ & H1 & H2). by exists j.
  - intros j Hj. apply Hs; [lia |]. intros i Hi. assert (now i <= now j) by (apply clock_grows; [done | lia]). lia.
Qed.
End wait.

(** What becomes of the process that runs the command: an error, the daemon itself, or the parent, which has waited for the
    socket and follows a log if it was told to. *)
Inductive parent_end := Fatal (e : string) | InDaemon | ParentOf (socket : string) (seen : bool) (follow : option string).

Definition sock_timeout (autoSwitch : bool) : Z := if autoSwitch then 15000 else 3000.

Definition connect_parent (getenv : string -> string) (dm : DaemonManager) (was_reborn : bool) (r : reborn) (logFlag : bool)
    (now : nat -> Z) (there : nat -> bool) (fuel : nat) : option parent_end :=
  match dm_Start was_reborn r with
  | Err e => Some (Fatal e)
  | Ok (_, true) => Some InDaemon
  | Ok (_, false) =>
      let name := daemonProfileName dm in
      match waitForSocket now there (sock_timeout (dm_autoSwitch dm)) fuel with
      | Some seen => Some (ParentOf (socketPath getenv name) seen (if logFlag then Some (logFilePath getenv name) else None))
      | None => None
      end
  end.

(** Of the processes that run the command, exactly the one that was forked goes on as the daemon; its parent ends within
    302 looks at the clock, having waited for the socket of the daemon that it forked. *)
Theorem parent_ends getenv dm was_reborn r logFlag now there : clock_runs now ->
  exists e, connect_parent getenv dm was_reborn r logFlag now there 302 = Some e /\
    match e with
    | Fatal _ => exists msg, r = RebornError msg
    | InDaemon => (was_reborn = true /\ forall msg, r <> RebornError msg) \/ (was_reborn = false /\ r = NoProcess)
    | ParentOf socket seen follow => was_reborn = false /\ (exists pid, r = ChildProcess pid) /\ socket = socketPath getenv (daemonProfileName dm) /\
        (follow <> None <-> logFlag = true) /\
        (seen = true <-> exists j, now j < now 0%nat + sock_timeout (dm_autoSwitch dm) /\ there j = true)
    end.
Proof.
  intros Hc. unfold connect_parent, dm_Start. destruct was_reborn.
  - destruct r as [msg | pid |]; eexists; (split; [done |]); [by exists msg | by left | by left].
  - destruct r as [msg | pid |]; [eexists; split; [done | by exists msg] | | eexists; split; [done | by right]].
    destruct (wait_ends now there 301 0 (now 0%nat + sock_timeout (dm_autoSwitch dm)) Hc) as [seen E]; [unfold poll_ms, sock_timeout; destruct (dm_autoSwitch dm); lia |].
    unfold waitForSocket. rewrite E. eexists. split; [done |]. cbn. split_and!; [done | by exists pid | done | by destruct logFlag |].
    pose proof (wait_spec _ _ _ _ _ _ E) as Hs. destruct seen; (split; [intros Ht | intros (j & Hj & Ht)]); try done.
    + destruct Hs as (j & _ & H1 & H2). by exists j.
    + rewrite (Hs j ltac:(lia)) in Ht; [done |]. intros i Hi. assert (now i <= now j) by (apply clock_grows; [done | lia]). lia.
Qed.

(** [forwardStdinToSocket]: the lines of the standard input, each with whether the stop channel is closed then; what is sent.
    A line that does not fit the scanner's buffer ends the scan. *)
Definition max_token : nat := 64 * 1024.
Fixpoint forwardStdin (lines : list (string * bool)) : list string :=
  match lines with
  | [] => []
  | (line, stopped) :: rest =>
      if (max_token <=? String.length line)%nat || stopped then []
      else
        let l := trim_space line in
        if has_prefix "CAPTCHA_RESULT|" l then trim_prefix "CAPTCHA_RESULT|" l :: forwardStdin rest else forwardStdin rest
  end.

(** ** Concrete daemons *)

Section example.
Definition env (k : string) : string := if String.eqb k "XDG_RUNTIME_DIR" then "/run/user/1000" else if String.eqb k "HOME" then "/home/u" else "".

Example paths : (pidFilePath env "home", pidFilesDir (fun k => if String.eqb k "HOME" then "/home/u" else ""), pidFilesDir (fun _ => "")) =
  ("/run/user/1000/qwdtt/qwdtt-home.pid", "/home/u/.local/run/qwdtt", "/tmp/qwdtt").
Proof. by vm_compute. Qed.

(** A profile of this name has the files of the daemon that switches between profiles. *)
Example autoswitch_profile :
  (context_of env {| dm_profile := "home"; dm_autoSwitch := true |} "qwdtt" []) = (context_of env {| dm_profile := "autoswitch"; dm_autoSwitch := false |} "qwdtt" []).
Proof. reflexivity. Qed.

Example logs : listLogProfileNames (Some [("qwdtt-home.log", false); ("qwdtt-.log", false); ("qwdtt-a.pid", false); ("qwdtt-d.log", true); ("x.log", false)]) = ["home"].
Proof. by vm_compute. Qed.

Lemma daemon_files_witness : pidFilePath env "home" = pidFilePath env "work" \/ socketPath env "home" = socketPath env "work" \/
  logFilePath env "home" = logFilePath env "work" \/ splitCfgPath env "home" = splitCfgPath env "work" -> "home" = "work".
Proof. apply (daemon_files env "home" "work"); reflexivity. Defined.

Definition scan16 (line : string) : option Z := if String.eqb (sdrop 8 line) "0000000000001000" then Some 4096 else None.
Example capable : (hasCapNetAdmin scan16 1000 (Some ("Name: x" ++ String "010" ("CapEff:" ++ String "009" "0000000000001000"))), hasCapNetAdmin scan16 0 None,
  hasCapNetAdmin scan16 1000 (Some "CapPrm: 0000000000001000")) = (true, true, false).
Proof. by vm_compute. Qed.

(** A signal between two sessions changes none of them. *)
Definition lost_switch : daemon := set_session (Some 1%nat) (handle true SIGUSR1 (set_pending None (set_pending (Some SIGUSR1) new_daemon))).

Lemma lost_switch_reached : sreach true lost_switch.
Proof.
  apply (sr_step _ (handle true SIGUSR1 (set_pending None (set_pending (Some SIGUSR1) new_daemon)))); [| by apply (s_begin true (handle true SIGUSR1 (set_pending None (set_pending (Some SIGUSR1) new_daemon))))].
  apply (sr_step _ (set_pending (Some SIGUSR1) new_daemon)); [| by apply s_handle].
  apply (sr_step _ new_daemon); [constructor | exact (s_deliver true new_daemon SIGUSR1)].
Qed.

Lemma signals_safe_witness : ~ switching lost_switch /\ panicked lost_switch = false.
Proof.
  destruct (signals_safe true lost_switch lost_switch_reached) as (Hp & _ & Hc & _). split; [| exact Hp].
  intros (c & [= <-] & Hin). by apply Hc.
Defined.

Lemma socket_wait_ends_witness : waitForSocket (fun k => 60 * Z.of_nat k) (fun k => Nat.eqb k 3) 3000 62 = Some true.
Proof.
  destruct (socket_wait_ends (fun k => 60 * Z.of_nat k) (fun k => Nat.eqb k 3) 3000) as (r & E & Hr); [intros k; unfold poll_ms; lia | lia |].
  change (S (Z.to_nat (3000 / poll_ms + 1))) with 62%nat in E. rewrite E. destruct r; [done |]. specialize (Hr 3%nat ltac:(lia)). discriminate Hr.
Defined.

Lemma parent_ends_witness : exists e, connect_parent env {| dm_profile := "home"; dm_autoSwitch := true |} false (ChildProcess 7) true (fun k => 51 * Z.of_nat k) (fun _ => false) 302 = Some e /\
  e = ParentOf "/run/user/1000/qwdtt/qwdtt-autoswitch.sock" false (Some "/run/user/1000/qwdtt/qwdtt-autoswitch.log").
Proof.
  destruct (parent_ends env {| dm_profile := "home"; dm_autoSwitch := true |} false (ChildProcess 7) true (fun k => 51 * Z.of_nat k) (fun _ => false)) as (e & E & _);
    [intros k; unfold poll_ms; lia |]. exists e. split; [exact E |]. vm_compute in E. by injection E as <-.
Defined.

Example forwarded : forwardStdin [(" CAPTCHA_RESULT|tok ", false); ("hello", false); ("CAPTCHA_RESULT|", false); ("CAPTCHA_RESULT|late", true)] = ["tok"; ""].
Proof. by vm_compute. Qed.
End example.
