(* ===== verification/Browsers.v ===== *)
(** * Browser identities (internal/core/profiles.go; creds.go, the choice of one).

    The texts are those of the table with single quotes for double quotes ([unquote] of Captcha.v).  The saved identity is
    read from a file whose decoded JSON is an argument. *)

From S2P Require Import Prelude GoStrings Chars Json Captcha.
From Stdlib Require Import ZArith Lia String Ascii.
From stdpp Require Import base list strings.
Open Scope string_scope.

(** ** The table *)

Definition chrome_agent (system version : string) : string :=
  "Mozilla/5.0 (" ++ system ++ ") AppleWebKit/537.36 (KHTML, like Gecko) Chrome/" ++ version ++ ".0.0.0 Safari/537.36".

Definition windows : string := "Windows NT 10.0; Win64; x64".
Definition macintosh : string := "Macintosh; Intel Mac OS X 10_15_7".

Definition brands (version grease brand : string) : string :=
  unquote ("'Chromium';v='" ++ version ++ "', 'Not-A.Brand';v='" ++ grease ++ "', '" ++ brand ++ "';v='" ++ version ++ "'").

Definition desktop (agent hints platform : string) : Profile :=
  {| UserAgent := agent; SecChUa := hints; SecChUaMobile := "?0"; SecChUaPlatform := unquote ("'" ++ platform ++ "'") |}.

Definition profileList : list Profile :=
  [desktop (chrome_agent windows "146") (brands "146" "24" "Google Chrome") "Windows";
   desktop (chrome_agent windows "145") (brands "145" "99" "Google Chrome") "Windows";
   desktop (chrome_agent windows "144") (brands "144" "8" "Google Chrome") "Windows";
   desktop (chrome_agent windows "146" ++ " Edg/146.0.0.0") (brands "146" "24" "Microsoft Edge") "Windows";
   desktop (chrome_agent windows "145" ++ " Edg/145.0.0.0") (brands "145" "99" "Microsoft Edge") "Windows";
   desktop (chrome_agent macintosh "146") (brands "146" "24" "Google Chrome") "macOS";
   desktop (chrome_agent macintosh "145") (brands "145" "99" "Google Chrome") "macOS";
   desktop (chrome_agent "X11; Linux x86_64" "146") (brands "146" "24" "Google Chrome") "Linux";
   desktop (chrome_agent "X11; Ubuntu; Linux x86_64" "144") (brands "144" "8" "Google Chrome") "Linux"].

Definition vkCallsProfile : Profile := desktop (chrome_agent windows "146") (brands "146" "24" "Google Chrome") "Windows".

(** [r] is what [rand.Intn] gives. *)
Definition getRandomProfile (r : nat) : option Profile := profileList !! r.

(** ** The saved identity *)

Definition set_field (p : SavedProfile) (key value : string) : SavedProfile :=
  let q := sp_profile p in
  let named name := String.eqb (map_string lower_ascii key) name in
  let with_profile q := {| sp_profile := q; DeviceJSON := DeviceJSON p; BrowserFp := BrowserFp p |} in
  if named "user_agent" then with_profile {| UserAgent := value; SecChUa := SecChUa q; SecChUaMobile := SecChUaMobile q; SecChUaPlatform := SecChUaPlatform q |}
  else if named "sec_ch_ua" then with_profile {| UserAgent := UserAgent q; SecChUa := value; SecChUaMobile := SecChUaMobile q; SecChUaPlatform := SecChUaPlatform q |}
  else if named "sec_ch_ua_mobile" then with_profile {| UserAgent := UserAgent q; SecChUa := SecChUa q; SecChUaMobile := value; SecChUaPlatform := SecChUaPlatform q |}
  else if named "sec_ch_ua_platform" then with_profile {| UserAgent := UserAgent q; SecChUa := SecChUa q; SecChUaMobile := SecChUaMobile q; SecChUaPlatform := value |}
  else if named "device_json" then {| sp_profile := q; DeviceJSON := value; BrowserFp := BrowserFp p |}
  else if named "browser_fp" then {| sp_profile := q; DeviceJSON := DeviceJSON p; BrowserFp := value |}
  else p.

Definition known_field (key : string) : bool :=
  existsb (String.eqb (map_string lower_ascii key)) ["user_agent"; "sec_ch_ua"; "sec_ch_ua_mobile"; "sec_ch_ua_platform"; "device_json"; "browser_fp"].

Definition empty_saved : SavedProfile :=
  {| sp_profile := {| UserAgent := ""; SecChUa := ""; SecChUaMobile := ""; SecChUaPlatform := "" |}; DeviceJSON := ""; BrowserFp := "" |}.

(** A field of another type is an error of the whole; null leaves the field. *)
Fixpoint decode_saved (m : list (string * json)) (p : SavedProfile) : option SavedProfile :=
  match m with
  | [] => Some p
  | (k, v) :: rest =>
      if negb (known_field k) then decode_saved rest p
      else match v with JStr s => decode_saved rest (set_field p k s) | JNull => decode_saved rest p | _ => None end
  end.

(** [file] is the decoded contents, when it can be read and is JSON. *)
Definition LoadProfileFromDisk (file : option json) : option SavedProfile :=
  match file with Some (JObj m) => decode_saved m empty_saved | Some JNull => Some empty_saved | _ => None end.

(** The identity of the requests of a chain. *)
Definition chain_profile (r : nat) (file : option json) : option Profile :=
  p ← getRandomProfile r;
  Some match LoadProfileFromDisk file with
       | Some saved => if String.eqb (trim_space (UserAgent (sp_profile saved))) "" then p else sp_profile saved
       | None => p
       end.

(** ** The parts of an identity agree *)

(** The text between two markers. *)
Definition between (before after s : string) : option string :=
  match GoStrings.index before s with
  | Some i => let rest := sdrop (i + String.length before) s in (fun j => stake j rest) <$> GoStrings.index after rest
  | None => None
  end.

Definition system_of (agent : string) : string :=
  if contains "Windows NT" agent then "Windows" else if contains "Macintosh" agent then "macOS" else if contains "Linux" agent then "Linux" else "".

Definition agrees (p : Profile) : bool :=
  let agent := UserAgent p in
  let hints := SecChUa p in
  let brand := if contains "Edg/" agent then "Microsoft Edge" else "Google Chrome" in
  match between "Chrome/" "." agent with
  | Some v =>
      bool_decide (between (unquote "'Chromium';v='") (unquote "'") hints = Some v) &&
      bool_decide (between (unquote ("'" ++ brand ++ "';v='")) (unquote "'") hints = Some v) &&
      (if contains "Edg/" agent then bool_decide (between "Edg/" "." agent = Some v) else true) &&
      String.eqb (SecChUaPlatform p) (unquote ("'" ++ system_of agent ++ "'")) &&
      Bool.eqb (contains "Mobile" agent) (String.eqb (SecChUaMobile p) "?1") &&
      String.eqb (captchaV2AcceptLanguage p) "en-US,en;q=0.9"
  | None => false
  end.

(** Whatever the random number, an identity that is not the saved one is one browser: the versions of the agent and of
    its hints are the same, the platform is the agent's, a desktop is not mobile, and it prefers English; a saved identity
    is used exactly when it has an agent. *)
Theorem browser_identity r file : (r < length profileList)%nat ->
  exists p, chain_profile r file = Some p /\
    ((exists saved, LoadProfileFromDisk file = Some saved /\ trim_space (UserAgent (sp_profile saved)) <> "" /\ p = sp_profile saved) \/
     ((forall saved, LoadProfileFromDisk file = Some saved -> trim_space (UserAgent (sp_profile saved)) = "") /\ profileList !! r = Some p /\ agrees p = true)).
Proof.
  intros Hr. apply lookup_lt_is_Some in Hr as [q Hq]. unfold chain_profile, getRandomProfile. rewrite Hq. cbn [mbind option_bind].
  assert (agrees q = true) as Ha.
  { assert (Forall (fun p => agrees p = true) profileList) as Hall by (apply (bool_decide_unpack _); by vm_compute).
    rewrite Forall_forall in Hall. apply Hall. by eapply list_elem_of_lookup_2. }
  destruct (LoadProfileFromDisk file) as [saved |] eqn:El.
  - destruct (String.eqb_spec (trim_space (UserAgent (sp_profile saved))) "") as [E | E]; eexists; (split; [done |]).
    + right. split; [| done]. by intros s [= <-].
    + left. by exists saved.
  - eexists. split; [done |]. right. by split.
Qed.

Lemma browser_identity_witness : exists p, chain_profile 8 (Some (JObj [("User_Agent", JStr " ")])) = Some p /\ agrees p = true.
Proof.
  destruct (browser_identity 8 (Some (JObj [("User_Agent", JStr " ")]))) as (p & E & H); [cbn; lia |]. exists p. split; [exact E |].
  destruct H as [(saved & [= <-] & Hs & _) | (_ & _ & H)]; [| exact H]. exfalso. by apply Hs.
Defined.

Example saved_identity : option_map UserAgent (chain_profile 0 (Some (JObj [("user_agent", JStr "Firefox"); ("x", JNull)]))) = Some "Firefox" /\
  LoadProfileFromDisk (Some (JObj [("device_json", JBool true)])) = None.
Proof. by split; vm_compute. Qed.

(** Five of the nine identities are of other versions than the one whose TLS the client imitates. *)
Example other_versions : length (filter (fun p => between "Chrome/" "." (UserAgent p) <> Some "146") profileList) = 5%nat.
Proof. by vm_compute. Qed.
