(* ===== verification/Monitor.v ===== *)
(** * Watching the session (suspend.go, notify.go).

    The watcher of suspensions takes its events one by one: those of the bus, and the stop of the session, in any order.
    Notifications are what is sent to the desktop; times are in nanoseconds. *)

From S2P Require Import Prelude GoStrings Effects.
From Stdlib Require Import ZArith Lia String Ascii Sorted.
From stdpp Require Import base list strings.
Open Scope string_scope.
Open Scope Z_scope.

(** ** Suspend and resume *)

Inductive variant := VBool (b : bool) | VOther.

(** A receive from the channel of signals; the library closes it with its connection, and then a receive gives nil. *)
Inductive watch := StopWatch | BusSignal (name : string) (body : list variant) | BusClosed.

Inductive watch_end := Watching | Stopped | Resumed | WatchPanics.

Definition prepare_for_sleep : string := "org.freedesktop.login1.Manager.PrepareForSleep".

Definition sleeping (w : watch) : option bool :=
  match w with
  | BusSignal name (VBool b :: _) => if String.eqb name prepare_for_sleep then Some b else None
  | _ => None
  end.

(** [room]: the channel of the session can take the notice. *)
Fixpoint watch_loop (room : bool) (events : list watch) : watch_end * bool :=
  match events with
  | [] => (Watching, false)
  | e :: rest =>
      match e with
      | StopWatch => (Stopped, false)
      | BusClosed => (WatchPanics, false)
      | BusSignal _ _ => match sleeping e with Some false => (Resumed, room) | _ => watch_loop room rest end
      end
  end.

(** What the bus answers at the start: whether it can be reached, and whether the signals can be asked for. *)
Definition monitorSuspendResume (connected matched room : bool) (events : list watch) : watch_end * bool :=
  if connected && matched then watch_loop room events else (Stopped, false).

Definition quiet (e : watch) : Prop := e <> StopWatch /\ e <> BusClosed /\ sleeping e <> Some false.

Lemma watch_quiet room before rest : Forall quiet before -> watch_loop room (before ++ rest) = watch_loop room rest.
Proof.
  induction 1 as [| e before He Hb IH]; [done |]. cbn [app watch_loop]. destruct e as [| name body |]; [by destruct He | | by destruct He as (_ & He & _)].
  destruct He as (_ & _ & He). destruct (sleeping _) as [[] |]; [exact IH | by destruct He | exact IH].
Qed.

(** The session is told of a resume exactly when the bus announces one before the session stops, and told once: the
    watcher ends then; going to sleep and other signals change nothing. *)
Theorem resume_noticed room events :
  (watch_loop room events = (Resumed, room) <-> exists before e rest, events = (before ++ e :: rest)%list /\ Forall quiet before /\ sleeping e = Some false) /\
  ((watch_loop room events).2 = true -> (watch_loop room events).1 = Resumed) /\
  ((watch_loop room events).1 = Watching <-> Forall quiet events).
Proof.
  induction events as [| e events IH]; cbn [watch_loop].
  - split_and!; [| done | done]. split; [done |]. by intros ([| x before] & e & rest & E & _).
  - destruct IH as (IH1 & IH2 & IH3).
    assert (quiet e \/ ~ quiet e) as [Hq | Hq] by (unfold quiet; destruct e as [| n b |]; [right; naive_solver | destruct (sleeping _) as [[] |]; [left; naive_solver | right; naive_solver | left; naive_solver] | right; naive_solver]).
    + pose proof (watch_quiet room [e] events ltac:(by constructor)) as E. cbn [app watch_loop] in E. rewrite E. split_and!; [| done |].
      * rewrite IH1. split.
        -- intros (before & x & rest & -> & Hb & Hx). exists (e :: before), x, rest. by split_and!; [| constructor |].
        -- intros ([| y before] & x & rest & [= <- ->] & Hb & Hx); [by destruct Hq as (_ & _ & Hq) |]. apply Forall_cons in Hb as [_ Hb]. by exists before, x, rest.
      * rewrite IH3, Forall_cons. naive_solver.
    + assert (~ Forall quiet (e :: events)) as Hn by (by rewrite Forall_cons; intros [? _]).
      assert ((exists before x rest, e :: events = (before ++ x :: rest)%list /\ Forall quiet before /\ sleeping x = Some false) -> sleeping e = Some false) as Hfirst.
      { intros ([| y before] & x & rest & [= <- ->] & Hb & Hx); [done |]. by apply Forall_cons in Hb as [Hb _]. }
      destruct e as [| n b |]; cbn [fst snd].
      * split_and!; [split; [done | intros Hx; specialize (Hfirst Hx); done] | done | split; [done | intros Hf; by destruct Hn]].
      * destruct (sleeping (BusSignal n b)) as [[] |] eqn:Es; [exfalso; apply Hq; split_and!; congruence | | exfalso; apply Hq; split_and!; congruence].
        split_and!; [split; [intros _; by exists [], (BusSignal n b), events | done] | done | split; [done | intros Hf; by destruct Hn]].
      * split_and!; [split; [done | intros Hx; specialize (Hfirst Hx); done] | done | split; [done | intros Hf; by destruct Hn]].
Qed.

(** ** Notifications *)

Record notification := { n_summary : string; n_body : string; n_icon : string }.

Definition appName : string := "qWDTT".

Definition modeLabel (mode : string) : string := if String.eqb mode "socks" then "SOCKS5" else if String.eqb mode "raw" then "RAW" else "TUN".

Definition notifyConnected (profileName mode : string) (workers : Z) : notification :=
  {| n_summary := appName ++ ": Подключено [" ++ modeLabel mode ++ "]";
     n_body := "Подключение активно: " ++ profileName ++ String "010" "Активных воркеров: " ++ itoa workers; n_icon := "network-transmit-receive" |}.
Definition notifyDisconnected (profileName mode : string) : notification :=
  {| n_summary := appName ++ ": Отключено [" ++ modeLabel mode ++ "]"; n_body := "Соединение разорвано: " ++ profileName; n_icon := "network-offline" |}.
Definition notifyError (profileName errMsg : string) : notification :=
  {| n_summary := appName ++ ": Ошибка подключения"; n_body := profileName ++ ": " ++ errMsg; n_icon := "dialog-error" |}.
Definition notifyVKAuth (profileName : string) : notification :=
  {| n_summary := appName ++ ": Аутентификация пройдена"; n_body := "VK auth успешна: " ++ profileName; n_icon := "changes-allow-symbolic" |}.

Definition minute : Z := 60 * 10 ^ 9.

(** The clock is read twice, under the lock: for the age of the last notice and for the new one.  [None] is the zero time,
    whose age is more than any. *)
Definition notifyWorkers (profileName : string) (workers now1 now2 : Z) : State (option Z) (option notification) := fun last =>
  if match last with Some t => now1 - t <? minute | None => false end then (None, last)
  else (Some {| n_summary := "qwdtt: " ++ profileName; n_body := "Активных воркеров: " ++ itoa workers; n_icon := "network-transmit-receive" |}, Some now2).

Record worker_stats := { w_profile : string; w_workers : Z; w_now1 : Z; w_now2 : Z }.

(** The calls, and for each that sent a notice the times it read. *)
Fixpoint notices (calls : list worker_stats) (last : option Z) : list (Z * Z) :=
  match calls with
  | [] => []
  | c :: rest =>
      let '(n, last) := notifyWorkers (w_profile c) (w_workers c) (w_now1 c) (w_now2 c) last in
      (match n with Some _ => [(w_now1 c, w_now2 c)] | None => [] end ++ notices rest last)%list
  end.

(** The calls are one after another. *)
Fixpoint in_order (from : Z) (calls : list worker_stats) : Prop :=
  match calls with [] => True | c :: rest => from <= w_now1 c <= w_now2 c /\ in_order (w_now2 c) rest end.

Definition apart (a b : Z * Z) : Prop := minute <= fst b - snd a.

Lemma in_order_weaken a b calls : a <= b -> in_order b calls -> in_order a calls.
Proof. destruct calls as [| c rest]; [done |]. cbn. intros H1 [H2 H3]. split; [lia | done]. Qed.

Lemma notices_after calls t from : t <= from -> in_order from calls ->
  Forall (fun b => minute <= fst b - t) (notices calls (Some t)) /\ StronglySorted apart (notices calls (Some t)).
Proof.
  revert t from. induction calls as [| c rest IH]; intros t from Ht Ho; [by split; constructor |]. destruct Ho as [Hn Ho]. cbn [notices]. unfold notifyWorkers.
  destruct (Z.ltb_spec (w_now1 c - t) minute) as [Hlt | Hge]; cbn [app].
  - by apply (IH t (w_now2 c)); [lia |].
  - destruct (IH (w_now2 c) (w_now2 c) ltac:(lia) Ho) as [H1 H2]. split.
    + constructor; [done |]. eapply Forall_impl; [exact H1 |]. cbn. intros b Hb. lia.
    + constructor; [done |]. eapply Forall_impl; [exact H1 |]. by unfold apart.
Qed.

(** A call without a notice of its own is less than a minute behind one. *)
Lemma notices_cover calls last c : c ∈ calls -> (w_now1 c, w_now2 c) ∈ notices calls last \/ (exists t, last = Some t /\ w_now1 c - t < minute) \/
  exists b, b ∈ notices calls last /\ w_now1 c - snd b < minute.
Proof.
  revert last. induction calls as [| d rest IH]; intros last Hc; [by apply elem_of_nil in Hc |]. cbn [notices]. unfold notifyWorkers.
  destruct (match last with Some t => w_now1 d - t <? minute | None => false end) eqn:E; cbn [app].
  - apply elem_of_cons in Hc as [-> | Hc]; [| by apply IH]. right. left. destruct last as [t |]; [| done]. exists t. split; [done |]. by apply Z.ltb_lt.
  - apply elem_of_cons in Hc as [-> | Hc]; [left; by left |]. destruct (IH (Some (w_now2 d)) Hc) as [H | [(t & [= <-] & H) | (b & Hb & H)]].
    + left. by right.
    + right. right. exists (w_now1 d, w_now2 d). split; [by left | done].
    + right. right. exists b. split; [by right | done].
Qed.

(** Notices about the workers are at least a minute apart, whatever sessions call for them, the first call sends one, and
    a call that does not is less than a minute behind one that did. *)
Theorem worker_notices_spaced calls from : in_order from calls ->
  StronglySorted apart (notices calls None) /\
  (forall c rest, calls = c :: rest -> head (notices calls None) = Some (w_now1 c, w_now2 c)) /\
  (forall c, c ∈ calls -> (w_now1 c, w_now2 c) ∈ notices calls None \/ exists b, b ∈ notices calls None /\ w_now1 c - snd b < minute).
Proof.
  intros Ho. split_and!.
  - destruct calls as [| c rest]; [constructor |]. destruct Ho as [Hn Ho]. cbn. destruct (notices_after rest (w_now2 c) (w_now2 c) ltac:(lia) Ho) as [H1 H2].
    by constructor.
  - by intros c rest ->.
  - intros c Hc. destruct (notices_cover calls None c Hc) as [H | [(t & ? & _) | H]]; [by left | done | by right].
Qed.

(** ** Concrete events *)

Definition seconds (n : Z) : Z := n * 10 ^ 9.
Definition call_at (n : Z) : worker_stats := {| w_profile := "home"; w_workers := 9; w_now1 := seconds n; w_now2 := seconds n + 1 |}.

Example a_minute : map fst (notices (map call_at [0; 3; 59; 60; 61; 120; 130]) None) = [0; seconds 61; seconds 130].
Proof. by vm_compute. Qed.

Lemma worker_notices_spaced_witness : StronglySorted apart (notices (call_at <$> [0; 3; 61]) None).
Proof. apply (worker_notices_spaced (call_at <$> [0; 3; 61]) 0). unfold call_at, seconds. cbn. lia. Defined.

(** The bus goes away. *)
Example bus_gone : watch_loop true [BusSignal prepare_for_sleep [VBool true]; BusSignal "x" []; BusClosed] = (WatchPanics, false) /\
  watch_loop true [BusSignal prepare_for_sleep [VBool true]; BusSignal prepare_for_sleep [VBool false]; BusClosed] = (Resumed, true).
Proof. done. Qed.
