(* ===== verification/Cli.v ===== *)
(** * The entry point and the commands that only look (cli.go; commands.go: log, and what is running).

    The dispatch of the command line, the words for shell completion and the log of a daemon.  Files are those of Profiles.v; daemons and their files those of Running.v; texts are printed by the callers. *)

From S2P Require Import Prelude GoStrings Chars Sorting Url Effects Flags WgConfig Tunnel Profiles Subscription Targets Running.
From S2P Require Router Process Usage.
From Stdlib Require Import ZArith Lia String Ascii Sorted.
From stdpp Require Import base sets list strings gmap.
Open Scope string_scope.
Open Scope Z_scope.

(** ** Dispatch *)

Inductive completion := CompleteSubscriptions | CompleteEnabled | CompleteDisabled | CompleteAll | CompleteUser | CompleteLogs | CompleteGroups | CompleteRunning.

Inductive command :=
| Connect | Disconnect | Switch | Debug | Add | Edit | Remove | Move | List | Show | Share | Enable | Disable | Import | Bl | DeviceId
| RegenerateId | Log | Test | SubscriptionCommand | Complete (c : completion) | Version | Help.

(** The cases of the switch, in their order. *)
Definition commands : list (list string * command) :=
  [(["connect"; "con"], Connect); (["disconnect"; "discon"], Disconnect); (["switch"; "sw"], Switch); (["debug"; "deb"], Debug); (["add"], Add);
   (["edit"], Edit); (["remove"; "rm"], Remove); (["move"; "mv"], Move); (["list"; "ls"], List); (["show"; "sh"], Show); (["share"], Share);
   (["enable"; "en"], Enable); (["disable"; "dis"], Disable); (["import"], Import); (["bl"], Bl); (["device-id"; "id"], DeviceId);
   (["regenerate-id"], RegenerateId); (["log"; "lg"], Log); (["test"], Test); (["subscription"; "sub"], SubscriptionCommand);
   (["__complete_subscriptions"], Complete CompleteSubscriptions); (["version"; "--version"], Version); (["help"; "-h"; "--help"], Help);
   (["__complete_enabled"], Complete CompleteEnabled); (["__complete_disabled"], Complete CompleteDisabled); (["__complete_all"], Complete CompleteAll);
   (["__complete_user"], Complete CompleteUser); (["__complete_logs"], Complete CompleteLogs); (["__complete_groups"], Complete CompleteGroups);
   (["__complete_running"], Complete CompleteRunning)].

Inductive dispatched := NoCommand | UnknownCommand (cmd : string) | Run (c : command) (args : list string).

(** [args]: the arguments behind the program's name. *)
Definition main (args : list string) : dispatched :=
  match args with
  | [] => NoCommand
  | cmd :: rest => match find (fun e => existsb (String.eqb cmd) (fst e)) commands with Some (_, c) => Run c rest | None => UnknownCommand cmd end
  end.

(** ** What is running *)

(** The arguments of a process that name a profile, when no PID file does: the one after "con". *)
Fixpoint con_arguments (fs : list string) : list string :=
  match fs with
  | [] => []
  | f :: rest =>
      ((if String.eqb f "con" then match rest with p :: _ => if has_prefix "-" p then [] else [p] | [] => [] end else []) ++
       (if contains "con " f then filter (fun p => String.eqb p "con" || has_prefix "-" p || String.eqb p "" = false) (split_on " " f) else []) ++ con_arguments rest)%list
  end.

Definition cmdline_profiles (cmdline : option string) : list string :=
  match cmdline with Some data => con_arguments (fields (cmdline_text data)) | None => [] end.

(** [getRunningProfiles], as a set; [pgrep] is the output of that program, [proc] the command line of a process number in it. *)
Definition getRunningProfiles (sys : system) (readable : bool) (pgrep : option string) (proc : string -> option string) : gset string :=
  let by_file := if readable then running_profiles sys else [] in
  if (0 <? length by_file)%nat then list_to_set by_file
  else match pgrep with
       | None => ∅
       | Some out => list_to_set (concat ((fun pid => if String.eqb (trim_space pid) "" then [] else cmdline_profiles (proc (trim_space pid))) <$> split_on nl (trim_space out)))
       end.

(** ** Words for the shell *)

Section complete.
Context `{Unicode} `{Disk} (sys : system) (readable : bool) (pgrep : option string) (proc : string -> option string) (log_entries : option (list (string * bool))).

(** The groups of the profiles that can be read, each where it is first seen. *)
Fixpoint seen_groups (profiles : list (string * ProfileData)) (seen : list string) : list string :=
  match profiles with
  | [] => []
  | (_, p) :: rest => let new := dedup_loop (Groups p) seen in (new ++ seen_groups rest (seen ++ new))%list
  end.

Definition completions (c : completion) : Files (list string) :=
  match c with
  | CompleteSubscriptions => listSubscriptions
  | CompleteEnabled => listProfileNames
  | CompleteDisabled => listDisabledProfileNames
  | CompleteAll => listAllProfileNames
  | CompleteUser => listNonReadOnlyProfileNames
  | CompleteLogs => mret (Process.listLogProfileNames log_entries)
  | CompleteGroups => all ← listAllProfileNames; l ← load_each all; mret (seen_groups l [])
  | CompleteRunning =>
      cur ← getAutoswitchCurrentProfile;
      let running := getRunningProfiles sys readable pgrep proc in
      let running := if negb (String.eqb cur "") && isDaemonRunning sys "autoswitch" then {[cur]} ∪ running else running in
      mret (sort_stable string_less (elements running))
  end.

(** ** The log *)

Definition log_flags : list (string * kind) := [("n", IntFlag); ("follow", BoolFlag); ("f", BoolFlag)].

Definition last_lines (n : Z) (content : string) : string :=
  if 0 <? n then let lines := split_on nl content in GoStrings.join (String nl "") (drop (length lines - Z.to_nat n) lines) else content.

Inductive log_outcome := LogLine (e : parse_error) | LogUnreadable (name : string) | Logged (name : string) (text : string) (follow : bool).

Definition parse_log (args : list string) : result parse_error (list (string * string)) :=
  match Parse (formal_of log_flags) (accepts_of log_flags) args with Ok (l, _) => Ok l | Err e => Err e end.

(** [logs]: the log file of a name. *)
Definition logCmd (logs : string -> option string) (args : list string) : Files log_outcome :=
  let show name l :=
    match logs name with
    | None => LogUnreadable name
    | Some data =>
        let follow := switches ["follow"; "f"] l in
        let content := last_lines (number "n" 0 l) data in
        Logged name (content ++ if follow && negb (has_suffix (String nl "") content) then String nl "" else "") follow
    end in
  match args with
  | name :: rest =>
      if negb (has_prefix "-" name) then mret (match parse_log rest with Err e => LogLine e | Ok l => show name l end)
      else match parse_log args with
           | Err e => mret (LogLine e)
           | Ok l => active ← getActiveProfile; mret (show (if String.eqb active "" then "autoswitch" else active) l)
           end
  | [] => active ← getActiveProfile; mret (show (if String.eqb active "" then "autoswitch" else active) [])
  end.
End complete.

(** ** Following a log *)

(** [ReadString]: whole lines are returned; what stands before the end of the file without a newline is returned with the error. *)
Fixpoint read_lines (s acc : string) : list string :=
  match s with
  | EmptyString => []
  | String c s => if Ascii.eqb c nl then (acc ++ String c "") :: read_lines s "" else read_lines s (acc ++ String c "")
  end.

(** [tailLogFile] on a file that stays: [chunks] is what was appended before each end of the file that the reader meets. *)
Definition tailLogFile (chunks : list string) : list string := concat ((fun c => read_lines c "") <$> chunks).

(** ** Facts *)

Definition command_names : list string := concat (fst <$> commands).

Lemma names_distinct : NoDup command_names.
Proof. apply (bool_decide_unpack _). by vm_compute. Qed.

(** Among rows whose names are distinct, a name finds its own row. *)
Lemma find_row {A} (rows : list (list string * A)) name : NoDup (concat (fst <$> rows)) ->
  forall names a, (names, a) ∈ rows -> name ∈ names -> find (fun e => existsb (String.eqb name) (fst e)) rows = Some (names, a).
Proof.
  induction rows as [| [ns b] rows IH]; intros Hd names a Hin Hn; [by apply elem_of_nil in Hin |]. cbn [find fst]. cbn in Hd. apply NoDup_app in Hd as (_ & Hx & Hd).
  apply elem_of_cons in Hin as [[= -> ->] | Hin].
  - assert (existsb (String.eqb name) ns = true) as ->; [| done]. apply existsb_exists. exists name. split; [by apply list_elem_of_In | apply String.eqb_refl].
  - destruct (existsb (String.eqb name) ns) eqn:E; [| by apply IH]. apply existsb_exists in E as (y & Hy & ->%String.eqb_eq). apply list_elem_of_In in Hy.
    exfalso. apply (Hx y Hy). apply elem_of_concat. exists names. split; [| done]. apply list_elem_of_fmap. by exists (names, a).
Qed.

(** Every name of a command, and nothing else, starts exactly its own command with the rest of the arguments. *)
Theorem main_dispatches args c rest :
  main args = Run c rest <-> exists cmd names, args = cmd :: rest /\ (names, c) ∈ commands /\ cmd ∈ names.
Proof.
  split.
  - destruct args as [| cmd rest']; [done |]. cbn [main]. destruct (find _ commands) as [[names c'] |] eqn:E; [| done]. intros [= -> ->].
    apply find_some in E as [Hin Hc]. apply existsb_exists in Hc as (x & Hx & ->%String.eqb_eq). exists x, names. rewrite !list_elem_of_In. by split.
  - intros (cmd & names & -> & Hin & Hn). cbn [main]. by rewrite (find_row commands cmd names_distinct names c).
Qed.

Section shown.
Context `{Unicode} `{Disk} (sys : system) (readable : bool) (pgrep : option string) (proc : string -> option string) (log_entries : option (list (string * bool))).

Lemma seen_groups_spec profiles seen : NoDup (seen_groups profiles seen) /\
  forall g, g ∈ seen_groups profiles seen <-> (g ∉ seen) /\ exists n p, (n, p) ∈ profiles /\ g ∈ Groups p.
Proof.
  revert seen. induction profiles as [| [n p] rest IH]; intros seen; cbn [seen_groups].
  - split; [constructor |]. intros g. split; [by intros ?%elem_of_nil | by intros (_ & ? & ? & ?%elem_of_nil & _)].
  - destruct (IH (seen ++ dedup_loop (Groups p) seen)%list) as [Hnd Hin]. split.
    + apply NoDup_app. split; [apply dedup_loop_nodup |]. split; [| exact Hnd]. intros g Hg Hr. apply Hin in Hr as [Hr _]. apply Hr, elem_of_app. by right.
    + intros g. rewrite elem_of_app, Hin, dedup_loop_in, elem_of_app, dedup_loop_in. split.
      * intros [[Hg Hs] | (Hs & k & q & Hq & Hg)]; [split; [done |]; exists n, p; split; [by left | done] |]. split; [naive_solver |]. exists k, q. split; [by right | done].
      * intros (Hs & k & q & Hq & Hg). destruct (decide (g ∈ Groups p)) as [Hp | Hp]; [by left |]. right. split; [naive_solver |]. exists k, q. split; [| done].
        apply elem_of_cons in Hq as [[= -> ->] | Hq]; done.
Qed.

(** The words offered for a running profile are, once each and in order, the profiles that run and the one that the
    automatic daemon is connected to; the groups offered are those of the profiles that can be read, once each; no word
    changes a file. *)
Theorem words_offered m :
  let running := getRunningProfiles sys readable pgrep proc in
  let cur := (getAutoswitchCurrentProfile m).1 in
  let words c := completions sys readable pgrep proc log_entries c m in
  ((words CompleteRunning).2 = m /\ NoDup (words CompleteRunning).1 /\ StronglySorted (not_less string_less) (words CompleteRunning).1 /\
   forall n, n ∈ (words CompleteRunning).1 <-> (n ∈ running) \/ (n = cur /\ cur <> "" /\ isDaemonRunning sys "autoswitch" = true)) /\
  (words CompleteGroups).2 = m /\ NoDup (words CompleteGroups).1 /\
  forall g, g ∈ (words CompleteGroups).1 <-> exists n p, n ∈ (listAllProfileNames m).1 /\ (loadProfile n m).1 = Ok p /\ g ∈ Groups p.
Proof.
  cbv zeta. cbn [completions]. rewrite reads_run by apply autoswitch_reads. rewrite !reads_run by (done || apply load_each_reads). cbn [fst snd mret State_ret].
  set (cur := (getAutoswitchCurrentProfile m).1). set (running := getRunningProfiles _ _ _ _). split.
  - set (all := if negb (String.eqb cur "") && isDaemonRunning sys "autoswitch" then {[cur]} ∪ running else running). split_and!.
    + done.
    + rewrite sort_stable_perm. apply NoDup_elements.
    + apply (sort_stable_sorted string_less (fun _ => True) string_less_order). by apply Forall_forall.
    + intros n. rewrite sort_stable_perm, elem_of_elements. unfold all. destruct (String.eqb_spec cur "") as [E | E]; cbn [negb andb]; [naive_solver |].
      destruct (isDaemonRunning sys "autoswitch"); [set_solver | naive_solver].
  - split; [done |]. set (all := (listAllProfileNames m).1). destruct (seen_groups_spec (load_each all m).1 []) as [Hnd Hin]. split; [exact Hnd |].
    intros g. rewrite Hin, load_each_value. split.
    + intros (_ & n & p & Hp & Hg). apply list_elem_of_omap in Hp as (x & Hx & E). destruct (loadProfile x m).1 as [q |] eqn:El; [| done]. injection E as -> ->. by exists n, p.
    + intros (n & p & Hn & El & Hg). split; [apply not_elem_of_nil |]. exists n, p. split; [| done]. apply list_elem_of_omap. exists n. by rewrite El.
Qed.
End shown.

(** ** The log *)

Lemma split_on_count c s : length (split_on c s) = S (count_char c s).
Proof.
  induction s as [| a s IH]; [done |]. cbn [split_on count_char]. destruct (Ascii.eqb a c); [cbn [length]; lia |].
  destruct (split_on c s) as [| x l]; [done |]. cbn [length] in *. lia.
Qed.

Lemma count_join c l : Forall (fun x => no_char c x = true) l -> count_char c (GoStrings.join (String c "") l) = (length l - 1)%nat.
Proof.
  induction 1 as [| x l Hx Hl IH]; [done |]. destruct l as [| y l]; [cbn; by apply count_char_none |]. change (GoStrings.join (String c "") (x :: y :: l)) with (x ++ String c "" ++ GoStrings.join (String c "") (y :: l)).
  rewrite count_char_app, (count_char_none c x) by done. change (String c "" ++ ?t) with (String c t). cbn [count_char]. rewrite Ascii.eqb_refl, IH. cbn [length]. lia.
Qed.

(** Asked for some number of lines, the log command shows an end of the file that starts a line and has that number of
    lines, the text behind the last newline counted as one, or the whole file when it has fewer. *)
Theorem log_end_shown n content : 0 < n ->
  let shown := last_lines n content in
  (Z.of_nat (count_char nl content) < n -> shown = content) /\
  (n <= Z.of_nat (count_char nl content) -> Z.of_nat (count_char nl shown) = n - 1 /\ exists before, content = before ++ String nl shown).
Proof.
  intros Hn. unfold last_lines. rewrite (proj2 (Z.ltb_lt 0 n) Hn). cbv zeta. set (lines := split_on nl content).
  pose proof (split_on_count nl content) as Hl. fold lines in Hl. split.
  - intros Hc. replace (length lines - Z.to_nat n)%nat with 0%nat by lia. apply join_split_on.
  - intros Hc. set (k := (length lines - Z.to_nat n)%nat). assert (0 < k < length lines)%nat as Hk by lia.
    assert (Forall (fun x => no_char nl x = true) (drop k lines)) as Hf by (apply Forall_drop, split_on_pieces). split.
    + rewrite count_join by done. rewrite length_drop. lia.
    + exists (GoStrings.join (String nl "") (take k lines)). rewrite <- (join_split_on nl content) at 1. fold lines. rewrite <- (take_drop k lines) at 1.
      rewrite Router.join_app; [done | |]; intros E; apply (f_equal length) in E; rewrite ?length_take, ?length_drop in E; cbn in E; lia.
Qed.

Definition text_of (l : list string) : string := foldr String.append "" l.

Lemma read_lines_spec s acc : no_char nl acc = true -> exists rest, no_char nl rest = true /\ acc ++ s = text_of (read_lines s acc) ++ rest.
Proof.
  revert acc. induction s as [| c s IH]; intros acc Ha; [exists acc; by rewrite string_app_nil_r |]. cbn [read_lines].
  destruct (Ascii.eqb_spec c nl) as [-> | Hc].
  - destruct (IH "" eq_refl) as (rest & Hr & E). exists rest. split; [done |]. cbn [text_of foldr]. fold (text_of (read_lines s "")). rewrite !string_app_assoc. change (acc ++ String nl ("" ++ s) = acc ++ String nl ("" ++ text_of (read_lines s "") ++ rest)). by rewrite E.
  - destruct (IH (acc ++ String c "")) as (rest & Hr & E).
    { rewrite no_char_app, Ha. cbn [no_char]. by rewrite (proj2 (Ascii.eqb_neq c nl) Hc). }
    exists rest. split; [done |]. by rewrite <- E, string_app_assoc.
Qed.

Lemma read_lines_lines s acc : no_char nl acc = true -> Forall (fun x => exists l, x = l ++ String nl "" /\ no_char nl l = true) (read_lines s acc).
Proof.
  revert acc. induction s as [| c s IH]; intros acc Ha; [constructor |]. cbn [read_lines]. destruct (Ascii.eqb_spec c nl) as [-> | Hc].
  - constructor; [by exists acc | by apply IH].
  - apply IH. rewrite no_char_app, Ha. cbn [no_char]. by rewrite (proj2 (Ascii.eqb_neq c nl) Hc).
Qed.

Lemma text_of_app k l : text_of (k ++ l) = text_of k ++ text_of l.
Proof. induction k as [| x k IH]; [done |]. cbn. fold (text_of (k ++ l)) (text_of k). by rewrite IH, string_app_assoc. Qed.

(** The reader stands at the begin of a line. *)
Definition whole_lines (chunk : string) : Prop := chunk = "" \/ has_suffix (String nl "") chunk = true.

Lemma lines_end l : Forall (fun x => exists y, x = y ++ String nl "" /\ no_char nl y = true) l -> whole_lines (text_of l).
Proof.
  intros H. destruct l as [| x l _] using rev_ind; [by left |]. right. apply Forall_app in H as [_ H]. apply Forall_cons in H as [(y & -> & _) _].
  rewrite text_of_app. cbn. rewrite string_app_nil_r, <- string_app_assoc. apply has_suffix_app.
Qed.

Lemma suffix_line s rest : no_char nl rest = true -> whole_lines (s ++ rest) -> rest = "".
Proof.
  intros Hr [E | Hs]; [by apply (f_equal String.length) in E; rewrite string_length_app in E; destruct rest; [| cbn in E; lia] |].
  destruct rest as [| c rest]; [done |]. exfalso. destruct (has_suffix_spec (String nl "") _ Hs) as [t E].
  assert (List.last (list_ascii_of_string (String c rest)) zero = nl) as Hl.
  { rewrite <- (Process.last_byte s) by done. rewrite E. by rewrite Process.last_byte. }
  clear E Hs. revert c Hr Hl. induction rest as [| d rest IH]; intros c Hr Hl.
  - cbn in *. subst. by rewrite Ascii.eqb_refl in Hr.
  - cbn in Hr. apply andb_true_iff in Hr as [_ Hr]. by apply (IH d).
Qed.

Lemma chunk_shown c : exists rest, c = text_of (read_lines c "") ++ rest /\ (whole_lines c <-> rest = "").
Proof.
  destruct (read_lines_spec c "" eq_refl) as (rest & Hr & E). change (c = text_of (read_lines c "") ++ rest) in E. exists rest. split; [done |]. split.
  - intros Hw. rewrite E in Hw. by apply (suffix_line (text_of (read_lines c ""))).
  - intros ->. rewrite E, string_app_nil_r. by apply lines_end, read_lines_lines.
Qed.

(** What is printed while a log is followed are whole lines of what was appended, and it is all of it exactly when the
    reader meets the end of the file only behind a newline. *)
Theorem log_followed chunks :
  Forall (fun x => exists l, x = l ++ String nl "" /\ no_char nl l = true) (tailLogFile chunks) /\
  (text_of (tailLogFile chunks) = text_of chunks <-> Forall whole_lines chunks).
Proof.
  assert (forall cs, exists lost, String.length (text_of cs) = (String.length (text_of (tailLogFile cs)) + lost)%nat /\
    (lost = 0%nat <-> Forall whole_lines cs) /\ (Forall whole_lines cs -> text_of (tailLogFile cs) = text_of cs)) as Hlost.
  { induction cs as [| c cs (lost & El & Hl & Ht)]; [by exists 0%nat |]. destruct (chunk_shown c) as (rest & Ec & Hc). exists (String.length rest + lost)%nat.
    unfold tailLogFile in *. cbn [fmap list_fmap concat]. rewrite text_of_app. cbn [text_of foldr]. fold (text_of cs). rewrite !string_length_app, Forall_cons, <- Hl, Hc. split_and!.
    - rewrite Ec at 1. rewrite string_length_app. lia.
    - split; [intros Hz; split; [destruct rest; [done | cbn in Hz; lia] | lia] | intros [-> ->]; done].
    - intros [-> Hz]. rewrite Ht by (by apply Hl). rewrite Ec at 2. by rewrite string_app_nil_r. }
  split.
  - unfold tailLogFile. apply Forall_concat, Forall_fmap, Forall_forall. intros c _. by apply read_lines_lines.
  - destruct (Hlost chunks) as (lost & El & Hl & Ht). split; [| exact Ht]. intros E. rewrite E in El. apply Hl. lia.
Qed.

(** ** Examples *)

Section example.
#[local] Instance example_unicode : Unicode := fun s => s.

Example dispatch_examples : map main [["con"; "nl"]; ["--version"]; ["__complete_groups"]; ["Connect"]; []] =
  [Run Connect ["nl"]; Run Version []; Run (Complete CompleteGroups) []; UnknownCommand "Connect"; NoCommand].
Proof. by vm_compute. Qed.

(** Without PID files a profile is found behind "con" only; spelled "connect" it is not. *)
Example by_process : elements (getRunningProfiles (example_system "") false (Some ("7" ++ String nl "8" ++ String nl "9" ++ String nl ""))
    (fun pid => if String.eqb pid "7" then Some (argv ["qwdtt"; "con"; "home"; "-mode"; "raw"]) else if String.eqb pid "8" then Some (argv ["qwdtt"; "connect"; "nl"]) else None)) = ["home"].
Proof. by vm_compute. Qed.

Definition three_lines : string := "a" ++ String nl "b" ++ String nl "c" ++ String nl "".

(** The text behind the last newline counts as a line. *)
Example two_lines_asked : last_lines 2 three_lines = "c" ++ String nl "" /\ last_lines 1 three_lines = "".
Proof. by vm_compute. Qed.

(** With options first, the name is not looked at. *)
Example name_not_seen : (logCmd (fun n => if String.eqb n "home" then Some "home's" else if String.eqb n "nl" then Some "nl's" else None) ["-n"; "1"; "nl"] example_fs).1
  = Logged "home" "home's" false.
Proof. by vm_compute. Qed.

Example words : (completions (example_system "nl") true None (fun _ => None) None CompleteRunning (<[AutoswitchPath := Text "nl"]> example_fs)).1
  = ["autoswitch"; "home"; "nl"].
Proof. by vm_compute. Qed.

(** A line that is written in two parts loses the first. *)
Example line_torn : tailLogFile ["one" ++ String nl "tw"; "o" ++ String nl ""] = ["one" ++ String nl ""; "o" ++ String nl ""].
Proof. by vm_compute. Qed.

Lemma log_end_shown_witness : Z.of_nat (count_char nl (last_lines 2 three_lines)) = 1.
Proof. destruct (log_end_shown 2 three_lines eq_refl) as [_ Hn]. apply Hn. by vm_compute. Defined.
End example.
