(* ===== verification/Debug.v ===== *)
(** * The debug command (commands.go, [debugCmd] and [printBlackList]).

    What the report is made of; the numbers of processes and interfaces are those of Usage.v, given as functions, and so are
    the reading of a bypass list and whether it has changes that are not applied (BlCommand.v). *)

From S2P Require Import Prelude GoStrings Sorting Url Effects Tunnel Profiles Running BlFiles.
From S2P Require Connect.
From Stdlib Require Import ZArith Lia String Ascii Sorted.
From stdpp Require Import base sets list strings gmap.
Open Scope string_scope.
Open Scope Z_scope.

Abbreviation entry := (string * ProfileDetails)%type.

Record black_report := { bl_unreadable : bool; bl_count : nat; bl_text : option string; bl_pending : option string }.

Inductive debug_entry :=
| AutoswitchEntry (d : ProfileDetails) (current : string) (workers : option Z) (bl : black_report)
| BrokenEntry (e : profile_error)
| ProfileEntry (p : ProfileData) (d : ProfileDetails) (workers : option Z) (bl : option black_report).   (* None: under the automatic daemon *)

Inductive debug_report {S U : Type} :=
| NothingRuns | BadDomains (name : string)       (* the process exits *)
| Report (autoswitch : bool) (entries : list (string * debug_entry)) (iface : string) (stats : option S) (usage : option U).
Arguments debug_report : clear implicits.

(** TUN first, then by name. *)
Definition debug_less (a b : entry) : bool :=
  let ta := String.eqb (Mode (snd a)) "tun" in
  let tb := String.eqb (Mode (snd b)) "tun" in
  if ta && negb tb then true else if tb && negb ta then false else string_less (fst a) (fst b).

Definition hasRawModeProfile (details : gmap string ProfileDetails) : bool :=
  existsb (fun e => String.eqb (Mode (snd e)) "raw") (map_to_list details).

Section debug.
Context `{Unicode} (ToUnicode : string -> option string) (list_file : string -> option (list string)) (pending : string -> ProfileDetails -> bool).
Context {S U : Type} (sys : system) (workers : Z -> option Z) (stats : string -> option S) (usage : option U).
(** The order in which the map is visited. *)
Context (visit : gmap string ProfileDetails -> list entry).

Definition profileBlPending (profile : string) (d : ProfileDetails) : bool * string :=
  let prof := if String.eqb profile "" then "autoswitch" else profile in (pending prof d, prof).

(** [None]: the list of the daemon has a comma, and the process exits. *)
Definition printBlackList (d : ProfileDetails) (profile : string) : option black_report :=
  match (if String.eqb (BlackList d) "" then Some [] else splitDomains (BlackList d)) with
  | None => None
  | Some blDomains =>
      let loaded := if String.eqb (BlackListFile d) "" then Some [] else list_file (BlackListFile d) in
      let domains := (blDomains ++ default [] loaded)%list in
      let '(p, prof) := profileBlPending profile d in
      let text :=
        if p && (0 <? length (BlackListDomains d))%nat then formatTaggedDomains (tag ToUnicode (BlackListDomains d) <$> domains) "    " "  " 3
        else formatDomainsInColumns (displayDomain ToUnicode <$> domains) "    " "  " 3 in
      Some {| bl_unreadable := negb (bool_decide (is_Some loaded)); bl_count := length domains;
              bl_text := if (0 <? length domains)%nat then Some text else None; bl_pending := if p then Some prof else None |}
  end.

Definition autoswitch_on : bool := isDaemonRunning sys "autoswitch".

(** One profile of the report; [None] exits. *)
Definition debug_one (details : gmap string ProfileDetails) (current : string) (e : entry) : Files (option debug_entry) :=
  let '(name, d) := e in
  if String.eqb name "autoswitch" then
    mret (AutoswitchEntry d current (workers (PID d)) <$> printBlackList (default d (details !! current)) current)
  else
    r ← loadProfile name;
    mret match r with
         | Err e => Some (BrokenEntry e)
         | Ok p =>
             if autoswitch_on && String.eqb name current then Some (ProfileEntry p d (workers (PID d)) None)
             else (fun b => ProfileEntry p d (workers (PID d)) (Some b)) <$> printBlackList d name
         end.

Fixpoint debug_each (details : gmap string ProfileDetails) (current : string) (l : list entry) : Files (result string (list (string * debug_entry))) :=
  match l with
  | [] => mret (Ok [])
  | e :: rest =>
      r ← debug_one details current e;
      match r with
      | None => mret (Err (fst e))
      | Some x => more ← debug_each details current rest; mret (match more with Ok xs => Ok ((fst e, x) :: xs) | Err n => Err n end)
      end
  end.

Definition debugCmd : Files (debug_report S U) :=
  let details := getRunningProfileDetails sys in
  let sorted := sort_stable debug_less (visit details) in
  if (0 <? length sorted)%nat then
    current ← getAutoswitchCurrentProfile;
    r ← debug_each details current sorted;
    let iface := if hasRawModeProfile details then Connect.RawIfaceName else wgIface in
    mret (match r with Err n => BadDomains n | Ok entries => Report autoswitch_on entries iface (stats iface) usage end)
  else mret NothingRuns.

(** ** What is reported *)

Lemma debug_order (m : gmap string ProfileDetails) : strict_total debug_less (fun e => m !! fst e = Some (snd e)).
Proof.
  destruct string_less_order as [Hirr Htrans Htot]. unfold debug_less. split.
  - intros [a d] _. cbn [fst snd]. destruct (String.eqb (Mode d) "tun"); cbn [andb negb]; by apply Hirr.
  - intros [a d] [b e] [c f] _ _ _. cbn [fst snd]. destruct (String.eqb (Mode d) "tun"), (String.eqb (Mode e) "tun"), (String.eqb (Mode f) "tun"); cbn [andb negb]; try done; by apply Htrans.
  - intros [a d] [b e] Ha Hb. cbn [fst snd] in *. destruct (String.eqb (Mode d) "tun"), (String.eqb (Mode e) "tun"); cbn [andb negb]; try done;
      intros H1 H2; assert (a = b) as -> by (by apply Htot); rewrite Ha in Hb; by injection Hb as ->.
Qed.

Lemma debug_one_reads details cur e : reads (debug_one details cur e).
Proof. unfold debug_one. destruct e as [name d]. destruct (String.eqb name "autoswitch"); [done |]. apply reads_bind; [apply load_reads | done]. Qed.

Lemma debug_each_run details cur l m : exists r, debug_each details cur l m = (r, m) /\ match r with Ok xs => xs.*1 = l.*1 | Err n => n ∈ l.*1 end.
Proof.
  induction l as [| e l IH]; [by eexists |]. cbn [debug_each]. rewrite reads_run by apply debug_one_reads. destruct (debug_one details cur e m).1 as [x |].
  - destruct IH as (r & E & Hr). rewrite run_bind, E. cbn [fst snd mret State_ret]. eexists. split; [done |]. destruct r as [xs | n]; cbn; [by rewrite Hr | by right].
  - eexists. split; [done |]. by left.
Qed.

Lemma raw_mode_spec details : hasRawModeProfile details = true <-> exists n d, details !! n = Some d /\ Mode d = "raw".
Proof.
  unfold hasRawModeProfile. rewrite existsb_exists. split.
  - intros ([n d] & Hin & E%String.eqb_eq). exists n, d. split; [| done]. by apply elem_of_map_to_list, list_elem_of_In.
  - intros (n & d & Hd & E). exists (n, d). split; [| by apply String.eqb_eq]. by apply list_elem_of_In, elem_of_map_to_list.
Qed.

Hypothesis visit_all : forall d, visit d ≡ₚ map_to_list d.

(** The order of the report is that of the table, however it is visited. *)
Lemma debug_sorted details : sort_stable debug_less (visit details) = sort_stable debug_less (map_to_list details).
Proof.
  apply (sort_stable_ext debug_less _ (debug_order details)); [| apply visit_all]. apply Forall_forall. intros [n d] Hin. rewrite visit_all in Hin. by apply elem_of_map_to_list in Hin.
Qed.

Lemma debug_names details : let l := sort_stable debug_less (map_to_list details) in NoDup l.*1 /\ forall n, n ∈ l.*1 <-> is_Some (details !! n).
Proof.
  cbv zeta. split.
  - rewrite sort_stable_perm. apply NoDup_fst_map_to_list.
  - intros n. rewrite sort_stable_perm, list_elem_of_fmap. split.
    + intros ([k d] & -> & Hin). exists d. by apply elem_of_map_to_list.
    + intros [d Hd]. exists (n, d). split; [done |]. by apply elem_of_map_to_list.
Qed.

(** The debug command writes nothing, and unless a daemon's list is malformed it reports every running profile once,
    those in TUN mode first and then by name, in an order that does not depend on the map, with the numbers of the raw
    interface exactly when a profile runs in raw mode. *)
Theorem debug_reports m :
  let details := getRunningProfileDetails sys in
  let r := debugCmd m in
  r.2 = m /\
  match r.1 with
  | NothingRuns => details = ∅
  | BadDomains name => is_Some (details !! name)
  | Report autoswitch entries iface st us =>
      autoswitch = isDaemonRunning sys "autoswitch" /\ entries.*1 = (sort_stable debug_less (map_to_list details)).*1 /\
      NoDup entries.*1 /\ (forall n, n ∈ entries.*1 <-> is_Some (details !! n)) /\ details <> ∅ /\ st = stats iface /\
      ((iface = "raw-qwdtt" /\ exists n d, details !! n = Some d /\ Mode d = "raw") \/
       (iface = "wg-qwdtt" /\ forall n d, details !! n = Some d -> Mode d <> "raw"))
  end.
Proof.
  cbv zeta. unfold debugCmd. set (details := getRunningProfileDetails sys). rewrite debug_sorted. set (l := sort_stable debug_less (map_to_list details)).
  destruct (debug_names details) as [Hnd Hin]. fold l in Hnd, Hin. destruct (Nat.ltb_spec 0 (length l)) as [Hl | Hl].
  - rewrite reads_run by apply autoswitch_reads. destruct (debug_each_run details (getAutoswitchCurrentProfile m).1 l m) as (r & E & Hr). rewrite run_bind, E. cbn [fst snd mret State_ret].
    split; [done |]. destruct r as [xs | n]; [| by apply Hin]. rewrite Hr. split_and!; [done.. | |done |].
    + intros E0. destruct l as [| e l'] eqn:El; [cbn in Hl; lia |]. destruct (proj1 (Hin e.1)) as [d Hd]; [by left |]. by rewrite E0, lookup_empty in Hd.
    + destruct (hasRawModeProfile details) eqn:Er; [left | right]; (split; [done |]).
      * by apply raw_mode_spec.
      * intros n d Hd Hm. assert (hasRawModeProfile details = true) as Ht by (apply raw_mode_spec; by exists n, d). by rewrite Ht in Er.
  - split; [done |]. cbn. apply map_eq. intros n. rewrite lookup_empty. destruct (details !! n) as [d |] eqn:Ed; [| done].
    exfalso. destruct l; [| cbn in Hl; lia]. by apply (not_elem_of_nil n), Hin.
Qed.
End debug.

(** ** Examples *)

Section example.
#[local] Instance example_unicode : Unicode := fun s => s.

Definition ex_debug (sys : system) : debug_report string unit :=
  (debugCmd Some (fun f => Some ["vk.com"; "b"]) (fun _ _ => true) sys (fun pid => Some (pid - 100)) Some None map_to_list
    (<[AutoswitchPath := Text "nl"]> example_fs)).1.

Definition bl_of (e : debug_entry) : option black_report :=
  match e with AutoswitchEntry _ _ _ b => Some b | BrokenEntry _ => None | ProfileEntry _ _ _ b => b end.

(** The profile of the automatic daemon has no file of its own here. *)
Example nl_report : match ex_debug (example_system "nl") with
  | Report true l "raw-qwdtt" (Some "raw-qwdtt") None => (fun e => (fst e, option_map bl_count (bl_of (snd e)), bl_of (snd e) ≫= bl_pending)) <$> l
  | _ => [] end = [("autoswitch", Some 2%nat, Some "nl"); ("home", Some 1%nat, Some "home"); ("nl", None, None)].
Proof. by vm_compute. Qed.

(** The list applied was the domain a alone: what was added is marked, that a was removed is not. *)
Example removed_not_marked : printBlackList Some (fun f => Some ["vk.com"; "b"]) (fun _ _ => true)
    (default (cmdline_details 0 "") (getRunningProfileDetails (example_system "nl") !! "nl")) "nl"
  = Some {| bl_unreadable := false; bl_count := 2; bl_text := Some ("    [!] vk.com  b" ++ String (byte 10) ""); bl_pending := Some "nl" |}.
Proof. by vm_compute. Qed.

Lemma debug_reports_witness : exists l, ex_debug (example_system "nl") = Report true l "raw-qwdtt" (Some "raw-qwdtt") None /\ NoDup l.*1.
Proof.
  pose proof (debug_reports Some (fun f => Some ["vk.com"; "b"]) (fun _ _ => true) (example_system "nl") (fun pid => Some (pid - 100)) Some (@None unit) map_to_list
    (fun d => reflexivity _) (<[AutoswitchPath := Text "nl"]> example_fs)) as H. cbv zeta in H. destruct H as [_ H]. fold (ex_debug (example_system "nl")) in H.
  destruct (ex_debug (example_system "nl")) as [| b | a l i st us] eqn:E.
  - exfalso. vm_compute in E. discriminate E.
  - exfalso. vm_compute in E. discriminate E.
  - destruct H as (_ & _ & Hnd & _). exists l. split; [| exact Hnd]. vm_compute in E. injection E as <- <- <- <- <-. reflexivity.
Defined.
End example.
