(* ===== verification/SplitCfg.v ===== *)
(** * The state file of a running profile (config.go, [writeSplitCfg], [blFileMtime], [readSplitCfgFull]).

    A daemon writes it; the commands read it from another process.  The document is kept as its fields; a text that is not
    UTF-8 is changed by the library when it is written ([marshal_text]). *)

From S2P Require Import Prelude GoStrings Paths Running.
From S2P Require BlCommand.
From Stdlib Require Import ZArith Lia String Ascii.
From stdpp Require Import base list strings gmap.
Open Scope string_scope.
Open Scope Z_scope.

(** The value of a field, as far as the kinds differ for the reader; an integer is one that fits 64 bits. *)
Inductive value := VNull | VText (s : string) | VInt (n : Z) | VTexts (l : list string) | VOther.

Definition document := list (string * value).

Definition empty_state : split_state := {| s_bl := ""; s_blFile := ""; s_routes := []; s_mtime := 0; s_domains := [] |}.

(** A field into the struct: null leaves it, a value of another type is an error. *)
Definition set_field (k : string) (v : value) (s : split_state) : option split_state :=
  let named name := String.eqb (map_string lower_ascii k) name in
  let text := match v with VText t => Some (Some t) | VNull => Some None | _ => None end in
  let texts := match v with VTexts l => Some (Some l) | VNull => Some None | _ => None end in
  if named "black_list" then (fun t => {| s_bl := default (s_bl s) t; s_blFile := s_blFile s; s_routes := s_routes s; s_mtime := s_mtime s; s_domains := s_domains s |}) <$> text
  else if named "black_list_file" then (fun t => {| s_bl := s_bl s; s_blFile := default (s_blFile s) t; s_routes := s_routes s; s_mtime := s_mtime s; s_domains := s_domains s |}) <$> text
  else if named "black_list_mtime" then
    match v with
    | VInt n => Some {| s_bl := s_bl s; s_blFile := s_blFile s; s_routes := s_routes s; s_mtime := n; s_domains := s_domains s |}
    | VNull => Some s
    | _ => None
    end
  else if named "black_list_domains" then
    (fun l => {| s_bl := s_bl s; s_blFile := s_blFile s; s_routes := s_routes s; s_mtime := s_mtime s; s_domains := match v with VNull => [] | _ => default [] l end |}) <$> texts
  else if named "split_routes" then
    (fun l => {| s_bl := s_bl s; s_blFile := s_blFile s; s_routes := match v with VNull => [] | _ => default [] l end; s_mtime := s_mtime s; s_domains := s_domains s |}) <$> texts
  else Some s.

Fixpoint unmarshal (d : document) (s : split_state) : option split_state :=
  match d with [] => Some s | (k, v) :: rest => s ← set_field k v s; unmarshal rest s end.

(** [file]: the document, when the file can be read and is an object. *)
Definition readSplitCfgFull (file : option document) : split_state :=
  match file with Some d => default empty_state (unmarshal d empty_state) | None => empty_state end.

Definition readSplitCfg (file : option document) : string * string := let s := readSplitCfgFull file in (s_bl s, s_blFile s).

Section write.
Context (getenv : string -> string) (marshal_text : string -> string).

(** [stat]: the time a file was changed, when there is one. *)
Definition blFileMtime (stat : string -> option Z) (path : string) : Z :=
  if String.eqb path "" then 0
  else default 0 (stat (match expandPath getenv path with Some e => if String.eqb e "" then path else e | None => path end)).

(** [splitRoutes]: [None] is the nil slice. *)
Definition marshal (stat : string -> option Z) (bl blFile : string) (appliedDomains : list string) (splitRoutes : option (list string)) : document :=
  ([("black_list", VText (marshal_text bl)); ("black_list_file", VText (marshal_text blFile)); ("black_list_mtime", VInt (blFileMtime stat blFile))] ++
   (if (0 <? length appliedDomains)%nat then [("black_list_domains", VTexts (marshal_text <$> appliedDomains))] else []) ++
   [("split_routes", match splitRoutes with Some l => VTexts (marshal_text <$> l) | None => VNull end)])%list.

(** The state files by profile; [can_write] is the operating system's answer, and what a failed write leaves is [torn]. *)
Definition writeSplitCfg (stat : string -> option Z) (can_write : bool) (torn : option document) (profile bl blFile : string)
    (appliedDomains : list string) (splitRoutes : option (list string)) (files : string -> option document) : bool * (string -> option document) :=
  (can_write, fun q => if String.eqb q profile then if can_write then Some (marshal stat bl blFile appliedDomains splitRoutes) else torn else files q).

(** ** What is written is what is read *)

Definition kept (s : string) : Prop := marshal_text s = s.

Lemma kept_list l : Forall kept l -> marshal_text <$> l = l.
Proof. induction 1 as [| s l Hs Hl IH]; [done |]. cbn. by rewrite Hs, IH. Qed.

Lemma unmarshal_app (d e : document) s : unmarshal (d ++ e)%list s = s' ← unmarshal d s; unmarshal e s'.
Proof. revert s. induction d as [| [k v] d IH]; intros s; [done |]. cbn [app unmarshal]. destruct (set_field k v s) as [s' |]; [apply IH | done]. Qed.

Lemma unmarshal_marshal stat bl blFile ds rs : kept bl -> kept blFile -> Forall kept ds -> Forall kept (default [] rs) ->
  unmarshal (marshal stat bl blFile ds rs) empty_state =
  Some {| s_bl := bl; s_blFile := blFile; s_routes := default [] rs; s_mtime := blFileMtime stat blFile; s_domains := ds |}.
Proof.
  intros Hb Hf Hd Hr. unfold marshal. rewrite Hb, Hf, (kept_list ds Hd). rewrite unmarshal_app. cbn [unmarshal].
  destruct ds as [| d ds]; destruct rs as [l |]; cbn [default] in *; try rewrite (kept_list l Hr); reflexivity.
Qed.

(** The path that is asked for its time is the same in the daemon and in the command. *)
Lemma absolute_same cwd file : rooted file = true -> Clean file = file -> expandPath getenv file = Some file ->
  normalizeBlPath getenv cwd file = file.
Proof.
  intros Hr Hc He. unfold normalizeBlPath. rewrite He. assert (file <> "") as Hn by (by intros ->). rewrite !(proj2 (String.eqb_neq _ _) Hn).
  unfold Abs. by rewrite Hr, Hc.
Qed.

(** C40: what a daemon writes about its profile is what another process reads, whatever the list of routes, and the files of
    other profiles stay; a list with an absolute path counts as changed exactly when its file was there when the state
    was written and is newer now. *)
Theorem split_cfg_roundtrip stat torn profile bl blFile ds rs files :
  kept bl -> kept blFile -> Forall kept ds -> Forall kept (default [] rs) ->
  let '(ok, after) := writeSplitCfg stat true torn profile bl blFile ds rs files in
  ok = true /\
  readSplitCfgFull (after profile) = {| s_bl := bl; s_blFile := blFile; s_routes := default [] rs; s_mtime := blFileMtime stat blFile; s_domains := ds |} /\
  (forall q, q <> profile -> after q = files q) /\
  (forall now cwd, rooted blFile = true -> Clean blFile = blFile -> expandPath getenv blFile = Some blFile ->
     (BlCommand.isBlFilePending getenv cwd now blFile (s_mtime (readSplitCfgFull (after profile))) = true <->
      exists t0 t, stat blFile = Some t0 /\ 0 < t0 /\ now blFile = Some t /\ t0 < t)).
Proof.
  intros Hb Hf Hd Hr. cbn [writeSplitCfg]. assert (readSplitCfgFull (Some (marshal stat bl blFile ds rs)) =
    {| s_bl := bl; s_blFile := blFile; s_routes := default [] rs; s_mtime := blFileMtime stat blFile; s_domains := ds |}) as Hread.
  { unfold readSplitCfgFull. by rewrite unmarshal_marshal. }
  rewrite String.eqb_refl, Hread. split_and!; [done | done | |].
  - intros q Hq. by rewrite (proj2 (String.eqb_neq _ _) Hq).
  - intros now cwd Hroot Hc He. cbn [s_mtime]. unfold BlCommand.isBlFilePending, blFileMtime. assert (blFile <> "") as Hn by (by intros ->).
    rewrite He, !(proj2 (String.eqb_neq _ _) Hn), (absolute_same cwd blFile Hroot Hc He). cbn [orb].
    destruct (stat blFile) as [t0 |]; cbn [from_option id]; [| split; [done | naive_solver]].
    destruct (Z.leb_spec t0 0) as [H0 | H0]; [split; [done | intros (a & b & [= <-] & Ha & _); lia] |].
    destruct (now blFile) as [t |]; [| split; [done | naive_solver]]. rewrite Z.ltb_lt. split; [intros Hlt; by exists t0, t | intros (a & b & [= <-] & _ & [= <-] & Hlt); done].
Qed.
End write.

(** ** Examples *)

Section example.
Definition home (k : string) : string := if String.eqb k "HOME" then "/home/u" else "".

(** A field of the wrong type loses all of them; names are compared without their case. *)
Example wrong_type : (readSplitCfg (Some [("black_list", VText "ya.ru"); ("split_routes", VText "x")]), readSplitCfg (Some [("Black_List", VText "ya.ru")])) =
  (("", ""), ("ya.ru", "")).
Proof. by vm_compute. Qed.

(** The daemon, whose directory is /, and the command see a relative path at different places. *)
Example relative_never_pending : let stat_daemon p := if String.eqb p "l.json" then None else Some 5 in let stat_command p := if String.eqb p "/home/u/l.json" then Some 9 else None in
  BlCommand.isBlFilePending home (Some "/home/u") stat_command "l.json" (blFileMtime home stat_daemon "l.json") = false.
Proof. by vm_compute. Qed.

Lemma split_cfg_roundtrip_witness :
  s_domains (readSplitCfgFull ((writeSplitCfg home (fun s => s) (fun _ => Some 7) true None "nl" "" "/etc/bl.json" ["ya.ru"] None (fun _ => None)).2 "nl")) = ["ya.ru"].
Proof.
  pose proof (split_cfg_roundtrip home (fun s => s) (fun _ => Some 7) None "nl" "" "/etc/bl.json" ["ya.ru"] None (fun _ => None) eq_refl eq_refl
    ltac:(by repeat constructor) ltac:(by constructor)) as H. cbn [writeSplitCfg snd] in *. destruct H as (_ & H & _). by rewrite H.
Defined.
End example.
