(* ===== verification/ChainRequests.v ===== *)
(** * The requests for credentials (internal/core/creds.go, the two [doRequest]).

    They are made with the headers of Requests.v and answer the steps of TokenChain.v.  The client and the decoder of JSON
    are arguments; what the client gives is a failure, a body that breaks off, or a body. *)

From S2P Require Import Prelude GoStrings Json Url VkErrors Captcha Requests TokenChain.
From Stdlib Require Import ZArith Lia String Ascii.
From stdpp Require Import base list strings gmap.
Open Scope string_scope.

Inductive transport := RequestFailed (e : string) | ReadFailed (e : string) | Body (text : string).

(** The request of a chain names its host. *)
Record chain_rq := { cr_host : string; cr_request : request }.

Section chain.
Context (profile : Profile) (unmarshal : string -> result string json) (bad_url : string -> option string).

Definition vk_headers : list (string * string) :=
  [("Content-Type", "application/x-www-form-urlencoded"); ("Accept", "*/*"); ("Origin", "https://vk.ru"); ("Referer", "https://vk.ru/");
   ("Sec-Fetch-Site", "same-site"); ("Sec-Fetch-Mode", "cors"); ("Sec-Fetch-Dest", "empty"); ("Priority", "u=1, i")].

Definition chain_request (host data url : string) : chain_rq :=
  {| cr_host := host;
     cr_request := {| rq_method := "POST"; rq_url := url; rq_headers := sets vk_headers (applyBrowserProfileFhttp profile ∅);
                      rq_order := []; rq_pseudo := []; rq_body := data |} |}.

(** A body into a map: null is the nil map. *)
Definition object_of (body : string) : result string object :=
  match unmarshal body with Ok (JObj m) => Ok m | Ok JNull => Ok [] | Ok _ => Err "not an object" | Err e => Err e end.

(** [doRequest] of [getTokenChain]. *)
Definition doRequest `{Unicode} (Do : chain_rq -> transport) (data url : string) : result vk_error object :=
  match Url.Parse url with
  | None => Err (WrapError "parse request URL: " (TextError url) "")
  | Some u =>
      match bad_url url with
      | Some e => Err (TextError e)
      | None =>
          match Do (chain_request (Hostname u) data url) with
          | RequestFailed e | ReadFailed e => Err (TextError e)
          | Body text => match object_of text with Ok m => Ok m | Err e => Err (TextError e) end
          end
      end
  end.

(** The requests of a chain, in the order of its steps. *)
Inductive step := AnonToken | CallPreview | AnonymousToken (k : nat) | AnonymLogin | JoinConversation.

Definition chain_client `{Unicode} (Do : step -> chain_rq -> transport) : chain_http :=
  {| anonToken := doRequest (Do AnonToken); callPreview := doRequest (Do CallPreview); anonymousToken k := doRequest (Do (AnonymousToken k));
     anonymLogin := doRequest (Do AnonymLogin); joinConversation := doRequest (Do JoinConversation) |}.

(** [doRequest] of [getVKCredsViaVKCallsPath]. *)
Definition calls_request (url : string) : request :=
  {| rq_method := "POST"; rq_url := url;
     rq_headers := sets [("User-Agent", UserAgent profile); ("Accept", "*/*"); ("Accept-Encoding", "gzip, deflate, br, zstd");
                                   ("Accept-Language", "en-GB,en;q=0.9")] ∅;
     rq_order := []; rq_pseudo := []; rq_body := "" |}.

Definition calls_doRequest (Do : request -> transport) (step url : string) : result vk_error object :=
  match bad_url url with
  | Some e => Err (vkCallsFailure step vkCallsFailureSetup (WrapError "create request: " (TextError e) ""))
  | None =>
      match Do (calls_request url) with
      | RequestFailed e => Err (vkCallsFailure step vkCallsFailureNetwork (WrapError "request failed: " (TextError e) ""))
      | ReadFailed e => Err (vkCallsFailure step vkCallsFailureNetwork (WrapError "read response: " (TextError e) ""))
      | Body text =>
          match object_of text with
          | Ok m => Ok m
          | Err e => Err (vkCallsFailure step vkCallsFailureDecode (WrapError "unmarshal JSON: " (TextError e) (", body: " ++ truncateVKCallsLog text 200)))
          end
      end
  end.

(** ** What is sent *)

(** The service's headers, under their keys. *)
Definition service_headers : list (string * string) :=
  [("Content-Type", "application/x-www-form-urlencoded"); ("Accept", "*/*"); ("Origin", "https://vk.ru"); ("Referer", "https://vk.ru/");
   ("Sec-Fetch-Site", "same-site"); ("Sec-Fetch-Mode", "cors"); ("Sec-Fetch-Dest", "empty"); ("Priority", "u=1, i")].

Lemma chain_headers : sets vk_headers (applyBrowserProfileFhttp profile ∅) = list_to_map (browser_headers profile ++ service_headers).
Proof.
  unfold applyBrowserProfileFhttp. rewrite <- sets_app, list_to_map_sets; [| done |].
  - apply sets_ext. intros k. unfold last_value. cbn [foldl fst snd app vk_headers service_headers browser_headers]. name_keys. each_name k. done.
  - unfold distinct_names. apply (bool_decide_unpack _). by vm_compute.
Qed.

Definition run_step (client : chain_http) (s : step) : string -> string -> result vk_error object :=
  match s with
  | AnonToken => anonToken client | CallPreview => callPreview client | AnonymousToken k => anonymousToken client k
  | AnonymLogin => anonymLogin client | JoinConversation => joinConversation client
  end.

Definition answered (t : transport) : result vk_error object :=
  match t with
  | RequestFailed e | ReadFailed e => Err (TextError e)
  | Body text => match object_of text with Ok m => Ok m | Err e => Err (TextError e) end
  end.

(** Every step of the token chain posts its data to its address under that address's host, with exactly the headers of
    the chain's browser and of the service: one browser for all the steps of a chain.  An address that cannot be read, or
    for which there is no request, fails the step without one.  (The captcha solver in between takes a browser of its own
    for each attempt.) *)
Theorem chain_requests_sent `{Unicode} (Do : step -> chain_rq -> transport) s data url :
  run_step (chain_client Do) s data url =
  match Url.Parse url, bad_url url with
  | None, _ => Err (WrapError "parse request URL: " (TextError url) "")
  | Some _, Some e => Err (TextError e)
  | Some u, None => answered (Do s {| cr_host := Hostname u; cr_request :=
      {| rq_method := "POST"; rq_url := url; rq_headers := list_to_map (browser_headers profile ++ service_headers);
         rq_order := []; rq_pseudo := []; rq_body := data |} |})
  end.
Proof.
  assert (forall s, run_step (chain_client Do) s = doRequest (Do s)) as -> by (by intros []). unfold doRequest.
  destruct (Url.Parse url) as [u |]; [| done]. destruct (bad_url url); [done |].
  unfold chain_request. rewrite chain_headers. unfold answered. by destruct (Do s _).
Qed.
End chain.

(** ** Examples *)

Section example.
#[local] Instance example_unicode : Unicode := fun s => s.

Definition decode (s : string) : result string json := if String.eqb s "null" then Ok JNull else if String.eqb s "1" then Ok (JBool true) else Ok (JObj [("text", JStr s)]).

(** A server that answers with the host, the agent and the data of a request. *)
Definition echo_chain (s : step) (r : chain_rq) : transport :=
  match s with
  | AnonymousToken 1 => RequestFailed "reset"
  | AnonymLogin => Body "null"
  | _ => Body (cr_host r ++ " " ++ default "" (rq_headers (cr_request r) !! "User-Agent") ++ " " ++ rq_body (cr_request r))
  end.

Definition example_chain : chain_http := chain_client example_browser decode (fun _ => None) echo_chain.

Example chain_answers :
  (anonToken example_chain "a=1" "https://login.vk.ru/?act=get_anonym_token", anonymousToken example_chain 1 "" "https://api.vk.ru/method/x",
   anonymLogin example_chain "" "https://calls.okcdn.ru/fb.do", joinConversation example_chain "j" "https://calls.okcdn.ru:443/fb.do") =
  (Ok [("text", JStr "login.vk.ru Mozilla/5.0 a=1")], Err (TextError "reset"), Ok [], Ok [("text", JStr "calls.okcdn.ru Mozilla/5.0 j")]).
Proof. by vm_compute. Qed.

(** The other way to the credentials sends neither the hints of its identity nor the language of the table. *)
Example calls_identity : let h := rq_headers (calls_request example_browser "https://api.vk.me/x") in
  (h !! "User-Agent", h !! "Sec-Ch-Ua", h !! "Accept-Language") = (Some "Mozilla/5.0", None, Some "en-GB,en;q=0.9").
Proof. by vm_compute. Qed.

End example.
