(* ===== verification/Dialing.v ===== *)
(** * Connections of the client and probes (internal/core/doh.go, [newDoHHTTPClient]; wireguard_linux.go, the tests of
    connectivity; connect.go, [isSocksPortInUse]).

    Dialling, the handshake, ping and listening are arguments. *)

From S2P Require Import Prelude GoStrings Chars Net Url Tunnel Dns.
From S2P Require Connect.
From Stdlib Require Import ZArith Lia String Ascii.
From stdpp Require Import base sets list strings.
Open Scope string_scope.
Open Scope Z_scope.

(** ** TLS to a DoH server *)

Section tls.
Context `{Unicode} {conn : Type} (dial : string -> string -> result string conn) (handshake : conn -> string -> option string).

(** The name that the certificate is verified for. *)
Definition server_name (host : string) : string :=
  let sni := dohHostHeader ("https://" ++ host ++ "/") in if String.eqb sni "" then host else sni.

(** A connection whose handshake fails is closed. *)
Inductive tls_end := BadAddress (e : addr_error) | NotDialled (e : string) | HandshakeFailed (closed : conn) (e : string) | TlsConn (c : conn) (name : string).

Definition DialTLSContext (network addr : string) : tls_end :=
  match SplitHostPort addr with
  | Err e => BadAddress e
  | Ok (host, _) =>
      let name := server_name host in
      match dial network addr with
      | Err e => NotDialled e
      | Ok c => match handshake c name with Some e => HandshakeFailed c e | None => TlsConn c name end
      end
  end.

Lemma header_host host path : host <> "" -> all_of name_char host = true -> all_of path_char path = true -> (path = "" \/ has_prefix "/" path = true) ->
  dohHostHeader ("https://" ++ host ++ path) = dohHostHeader ("https://" ++ host ++ "/").
Proof. intros Hne Hh Hp Hs. unfold dohHostHeader. rewrite !Parse_https by (done || by right). done. Qed.

(** The certificate of a DoH server with a plain host is verified for the very host that the queries to it name: that
    of the operator for a known address, its own otherwise; without such a certificate there is no connection. *)
Theorem doh_name_verified e port network : endpoint_ok e -> plain port = true -> no_char ":" port = true ->
  let header := dohHostHeader (endpoint_url e) in
  let name := if String.eqb header "" then ep_host e else header in
  match DialTLSContext network (ep_host e ++ ":" ++ port) with
  | BadAddress _ => False
  | NotDialled err => dial network (ep_host e ++ ":" ++ port) = Err err
  | HandshakeFailed c err => dial network (ep_host e ++ ":" ++ port) = Ok c /\ handshake c name = Some err
  | TlsConn c n => dial network (ep_host e ++ ":" ++ port) = Ok c /\ n = name /\ handshake c name = None
  end.
Proof.
  intros (Hne & Hh & Hp & Hs) H1 H2. cbv zeta. unfold DialTLSContext.
  rewrite split_plain by (done || by apply (all_of_no_char name_char) || (unfold plain; by rewrite !(all_of_no_char name_char))).
  assert (server_name (ep_host e) = (if String.eqb (dohHostHeader (endpoint_url e)) "" then ep_host e else dohHostHeader (endpoint_url e))) as ->.
  { unfold server_name, endpoint_url. rewrite (header_host (ep_host e) (if _ || _ then _ else _)); [done | done | done | |].
    - destruct (_ || _); [by vm_compute | done].
    - destruct (String.eqb_spec (ep_path e) ""), (String.eqb_spec (ep_path e) "/"); cbn [orb]; try (by right). destruct Hs; [done | by right]. }
  destruct (dial _ _) as [c | err]; [| done]. by destruct (handshake c _) eqn:E.
Qed.
End tls.

(** ** Probes *)

Definition testHosts : list string := ["1.1.1.1"; "8.8.8.8"; "208.67.222.222"].

(** The pings that are made, and whether one was answered. *)
Fixpoint ping_hosts (ping : string -> bool) (hosts : list string) : list string * bool :=
  match hosts with
  | [] => ([], false)
  | h :: rest => if ping h then ([h], true) else let '(made, ok) := ping_hosts ping rest in (h :: made, ok)
  end.

(** [found]: the link exists. *)
Definition connectivity (found : bool) (ping : string -> bool) : list string * bool :=
  if found then ping_hosts ping testHosts else ([], false).

Definition testRawConnectivity (link : string -> bool) (ping : string -> string -> bool) : list string * bool :=
  connectivity (link Connect.RawIfaceName) (ping Connect.RawIfaceName).
Definition testWGConnectivity (link : string -> bool) (ping : string -> string -> bool) : list string * bool :=
  connectivity (link wgIface) (ping wgIface).

(** [listen]: the port of 127.0.0.1 can be had. *)
Definition isSocksPortInUse (listen : string -> bool) (port : Z) : bool := negb (listen ("127.0.0.1:" ++ itoa port)).

Lemma ping_hosts_spec ping hosts made ok : ping_hosts ping hosts = (made, ok) ->
  exists rest, hosts = (made ++ rest)%list /\
    if ok then exists before h, made = (before ++ [h])%list /\ ping h = true /\ Forall (fun x => ping x = false) before
    else rest = [] /\ Forall (fun x => ping x = false) made.
Proof.
  revert made ok. induction hosts as [| h hosts IH]; intros made ok E; cbn [ping_hosts] in E; [injection E as <- <-; by exists [] |].
  destruct (ping h) eqn:Ep.
  - injection E as <- <-. exists hosts. split; [done |]. by exists [], h.
  - destruct (ping_hosts ping hosts) as [m o] eqn:Em. injection E as <- <-. destruct (IH m o eq_refl) as (rest & -> & Hr). exists rest. split; [done |].
    destruct o.
    + destruct Hr as (before & x & -> & Hx & Hb). exists (h :: before), x. by split_and!; [| | constructor].
    + destruct Hr as [-> Hm]. split; [done |]. by constructor.
Qed.

(** A tunnel is connected exactly when its own interface is there and one of the three hosts answers through it; no host
    is asked behind the first that answers, and all are asked before it is given up. *)
Theorem connectivity_probed link ping t iface :
  (t, iface) ∈ [(testRawConnectivity, "raw-qwdtt"); (testWGConnectivity, "wg-qwdtt")] ->
  let '(made, ok) := t link ping in
  (ok = true <-> link iface = true /\ exists h, h ∈ testHosts /\ ping iface h = true) /\
  (link iface = true -> ok = false -> made = testHosts) /\
  (forall before h after, made = (before ++ h :: after)%list -> ping iface h = true -> after = []).
Proof.
  intros Ht. assert (t link ping = connectivity (link iface) (ping iface)) as ->.
  { repeat (apply elem_of_cons in Ht as [[= -> ->] | Ht]; [done |]). by apply elem_of_nil in Ht. }
  clear Ht. unfold connectivity. destruct (link iface) eqn:El; [| split_and!; [split; [done | naive_solver] | done | by intros []]].
  destruct (ping_hosts (ping iface) testHosts) as [made ok] eqn:E. destruct (ping_hosts_spec _ _ _ _ E) as (rest & Ht & Hs). split_and!.
  - split; [intros -> | intros (_ & h & Hh & Hp)].
    + destruct Hs as (before & h & -> & Hp & _). split; [done |]. exists h. split; [| done]. rewrite Ht. set_solver.
    + destruct ok; [done |]. destruct Hs as [-> Hm]. rewrite app_nil_r in Ht. rewrite Forall_forall in Hm. rewrite Ht in Hh. by rewrite (Hm h Hh) in Hp.
  - intros _ ->. destruct Hs as [-> _]. by rewrite app_nil_r in Ht.
  - intros b h a -> Hp. destruct ok.
    + destruct Hs as (before & x & Em & Hx & Hb). destruct a as [| y a _] using rev_ind; [done |]. exfalso.
      rewrite app_comm_cons, app_assoc in Em. apply app_inj_tail in Em as [Em _]. rewrite Forall_forall in Hb. rewrite (Hb h) in Hp; [done |]. rewrite <- Em. set_solver.
    + destruct Hs as [_ Hm]. rewrite Forall_forall in Hm. rewrite (Hm h) in Hp; [done | set_solver].
Qed.

(** ** Examples *)

Section example.
#[local] Instance example_unicode : Unicode := fun s => s.

Definition certified (host : string) (c : string) (name : string) : option string := if String.eqb name host then None else Some "wrong name".

Example dialled : (DialTLSContext (fun _ a => Ok a) (certified "dns.google") "tcp" "8.8.4.4:443", DialTLSContext (fun _ a => Ok a) (certified "9.9.9.9") "tcp" "9.9.9.9:443",
    DialTLSContext (fun _ a => Ok a) (certified "dns.google") "tcp" "8.8.4.5:443") =
  (TlsConn "8.8.4.4:443" "dns.google", TlsConn "9.9.9.9:443" "9.9.9.9", HandshakeFailed "8.8.4.5:443" "wrong name").
Proof. by vm_compute. Qed.

Example second_answers : testWGConnectivity (String.eqb "wg-qwdtt") (fun _ h => String.eqb h "8.8.8.8") = (["1.1.1.1"; "8.8.8.8"], true).
Proof. by vm_compute. Qed.

Lemma connectivity_probed_witness : (testWGConnectivity (fun _ => true) (fun _ _ => false)).1 = testHosts.
Proof.
  pose proof (connectivity_probed (fun _ => true) (fun _ _ => false) testWGConnectivity "wg-qwdtt" ltac:(by right; left)) as Hp.
  destruct (testWGConnectivity (fun _ => true) (fun _ _ => false)) as [made ok] eqn:E. destruct Hp as (_ & Hm & _). apply Hm; [done |]. vm_compute in E. by injection E as <- <-.
Defined.

Lemma doh_name_verified_witness : exists n, DialTLSContext (fun _ a => Ok a) (certified "cloudflare-dns.com") "tcp" "1.1.1.1:443" = TlsConn "1.1.1.1:443" n /\ n = "cloudflare-dns.com".
Proof.
  pose proof (doh_name_verified (fun _ a => Ok a) (certified "cloudflare-dns.com") {| ep_host := "1.1.1.1"; ep_path := "/dns-query" |} "443" "tcp"
    ltac:(split_and!; try done; by right) eq_refl eq_refl) as Hv. cbv zeta in Hv. cbn [ep_host] in Hv.
  change ("1.1.1.1" ++ ":" ++ "443") with "1.1.1.1:443" in Hv.
  destruct (DialTLSContext (fun _ a => Ok a) (certified "cloudflare-dns.com") "tcp" "1.1.1.1:443") as [e | e | c e | c n] eqn:E; try (exfalso; vm_compute in E; discriminate E).
  destruct Hv as (Hc & Hn & _). injection Hc as <-. exists n. split; [reflexivity |]. rewrite Hn. by vm_compute.
Defined.
End example.
