(* ===== verification/Farewell.v ===== *)
(** * The farewell of a raw session (internal/core/session.go, [RunSession], lines 521 to 540).

    In raw mode the server learns of the end of a session from a packet that a goroutine of its own sends when the context
    of the core ends.  The goroutine, the callback that ends all reads and writes, and the contexts run side by side: every
    step is one of them. *)

From S2P Require Import Prelude GoStrings.
From Stdlib Require Import ZArith Lia String Ascii.
From stdpp Require Import base list strings.
Open Scope string_scope.

(** The write deadline of the connection: none or later, in the past, or the half second of the farewell. *)
Inductive deadline := Far | Past | Grace.

(** The goroutine waits, has set its deadline, or has ended. *)
Inductive stage := Waiting | Writing | Ended.

Record farewell := {
  ctx_done : bool; sess_done : bool; fired : bool;     (* the contexts, and the callback of the session's *)
  write_deadline : deadline; conn_closed : bool; at_stage : stage; sent : list string
}.

Definition begun : farewell :=
  {| ctx_done := false; sess_done := false; fired := false; write_deadline := Far; conn_closed := false; at_stage := Waiting; sent := [] |}.

Definition with_contexts (c s : bool) (f : farewell) : farewell :=
  {| ctx_done := c; sess_done := s; fired := fired f; write_deadline := write_deadline f; conn_closed := conn_closed f; at_stage := at_stage f; sent := sent f |}.
Definition with_deadline (b : bool) (d : deadline) (st : stage) (f : farewell) : farewell :=
  {| ctx_done := ctx_done f; sess_done := sess_done f; fired := b; write_deadline := d; conn_closed := conn_closed f; at_stage := st; sent := sent f |}.
Definition close_conn (f : farewell) : farewell :=
  {| ctx_done := ctx_done f; sess_done := sess_done f; fired := fired f; write_deadline := write_deadline f; conn_closed := true; at_stage := at_stage f; sent := sent f |}.

Section farewell.
Context (deviceID : string).

Definition farewell_text : string := "DISCONNECT_RAW:" ++ deviceID.

(** The write reaches the connection unless that is closed or its deadline is over. *)
Definition write_farewell (f : farewell) : farewell :=
  let ok := negb (conn_closed f) && negb (match write_deadline f with Past => true | _ => false end) in
  {| ctx_done := ctx_done f; sess_done := sess_done f; fired := fired f; write_deadline := write_deadline f; conn_closed := conn_closed f; at_stage := Ended;
     sent := if ok then (sent f ++ [farewell_text])%list else sent f |}.

Inductive fstep : farewell -> farewell -> Prop :=
| f_stop f : fstep f (with_contexts true (sess_done f) f)                      (* the core stops *)
| f_child f : ctx_done f = true -> fstep f (with_contexts true true f)         (* which ends the session's context *)
| f_error f : fstep f (with_contexts (ctx_done f) true f)                      (* the session ends by itself *)
| f_callback f : sess_done f = true -> fired f = false -> fstep f (with_deadline true Past (at_stage f) f)
| f_see_ctx f : at_stage f = Waiting -> ctx_done f = true -> fstep f (with_deadline (fired f) Grace Writing f)
| f_see_sess f : at_stage f = Waiting -> sess_done f = true -> fstep f (with_deadline (fired f) (write_deadline f) Ended f)
| f_write f : at_stage f = Writing -> fstep f (write_farewell f)
| f_close f : sess_done f = true -> fstep f (close_conn f).

Inductive freach : farewell -> Prop :=
| fr_begin : freach begun
| fr_step f f' : freach f -> fstep f f' -> freach f'.

Definition farewell_ok (f : farewell) : Prop :=
  (sent f = [] \/ (sent f = [farewell_text] /\ at_stage f = Ended /\ ctx_done f = true)) /\
  (at_stage f = Writing -> ctx_done f = true) /\ (at_stage f = Ended -> ctx_done f = true \/ sess_done f = true) /\
  (at_stage f = Waiting -> write_deadline f = if fired f then Past else Far).

Lemma fstep_ok f f' : farewell_ok f -> fstep f f' -> farewell_ok f'.
Proof.
  intros (Hs & Hw & He & Hd) Hst. destruct Hst as [f | f Hc | f | f Hc Hf | f Hw' Hc | f Hw' Hc | f Hw' | f Hc]; unfold farewell_ok; cbn; try naive_solver.
  - destruct Hs as [Hs | (_ & Hx & _)]; [| congruence]. split_and!; [by left | done | done | done].
  - destruct Hs as [Hs | (_ & Hx & _)]; [| congruence]. rewrite Hs. specialize (Hw Hw'). split_and!; [| done | by left | done].
    destruct (_ && _); [right; by split_and! | by left].
Qed.

Lemma freach_ok f : freach f -> farewell_ok f.
Proof. induction 1 as [| f f' _ IH Hs]; [| by eapply fstep_ok]. unfold farewell_ok. cbn. split_and!; try done. by left. Qed.

(** A session says farewell at most once, with its device, and only when the core stops, never when it ends by itself;
    when the core stops the goroutine can always go on to its end, and does send unless the session's own context was seen
    first, the callback came between its deadline and its write, or the connection was closed. *)
Theorem farewell_once f : freach f ->
  (sent f = [] \/ sent f = [farewell_text]) /\ (sent f <> [] -> ctx_done f = true) /\
  (at_stage f = Writing -> fstep f (write_farewell f) /\
     (sent (write_farewell f) = [farewell_text] <-> conn_closed f = false /\ write_deadline f <> Past)) /\
  (at_stage f = Waiting -> ctx_done f = true ->
     exists f', fstep f f' /\ at_stage f' = Writing /\ write_deadline f' = Grace /\ conn_closed f' = conn_closed f).
Proof.
  intros Hr. destruct (freach_ok f Hr) as (Hs & Hw & He & Hd). split_and!.
  - destruct Hs as [-> | (-> & _)]; [by left | by right].
  - intros Hn. destruct Hs as [Hs | (_ & _ & Hc)]; [by destruct Hn | done].
  - intros Hst. split; [by apply f_write |]. destruct Hs as [Hs | (_ & Hx & _)]; [| congruence]. cbn. rewrite Hs. destruct (conn_closed f), (write_deadline f); cbn; naive_solver.
  - intros Hst Hc. eexists. split; [by apply f_see_ctx | done].
Qed.
End farewell.

(** ** Stopping the core *)

Definition stopped : farewell := with_contexts true true begun.

Lemma stopped_reached dev : freach dev stopped.
Proof.
  apply (fr_step _ (with_contexts true false begun)); [| exact (f_child dev (with_contexts true false begun) eq_refl)].
  apply (fr_step _ begun); [constructor | exact (f_stop dev begun)].
Qed.

(** The context of the session ends with that of the core, so that the goroutine may take either: the farewell is lost when
    it takes the session's, and when the callback sets the deadline behind it. *)
Lemma farewell_lost dev : exists f g, freach dev f /\ freach dev g /\ at_stage f = Ended /\ at_stage g = Ended /\ sent f = [] /\ sent g = [] /\
  conn_closed f = false /\ conn_closed g = false.
Proof.
  exists (with_deadline false Far Ended stopped), (write_farewell dev (with_deadline true Past Writing (with_deadline false Grace Writing stopped))). split_and!; try done.
  - apply (fr_step _ stopped); [apply stopped_reached | by apply (f_see_sess dev stopped)].
  - apply (fr_step _ (with_deadline true Past Writing (with_deadline false Grace Writing stopped))); [| by apply f_write].
    apply (fr_step _ (with_deadline false Grace Writing stopped)); [| by apply (f_callback dev (with_deadline false Grace Writing stopped))].
    apply (fr_step _ stopped); [apply stopped_reached | by apply (f_see_ctx dev stopped)].
Qed.

Lemma farewell_once_witness : exists f', fstep "dev" stopped f' /\ at_stage f' = Writing /\ write_deadline f' = Grace.
Proof.
  destruct (farewell_once "dev" stopped (stopped_reached "dev")) as (_ & _ & _ & H). destruct (H eq_refl eq_refl) as (f' & Hs & Hst & Hd & _).
  exists f'. split; [exact Hs | split; [exact Hst | exact Hd]].
Defined.
