(* ===== verification/SubReport.v ===== *)
(** * What is shown of an update of a subscription (commands.go, [printSubscriptionOpResult] and its caller).

    The report is data: the profiles that were made and removed, with the widths of its columns in bytes, and what is known
    of the subscription. *)

From S2P Require Import Prelude GoStrings Chars Json Url Links Effects Profiles Subscription Targets Flags SubCommands.
From Stdlib Require Import ZArith Lia String Ascii.
From stdpp Require Import base sets list strings gmap.
Open Scope string_scope.
Open Scope Z_scope.

(** The peer, the masked password and the status of a profile. *)
Abbreviation shown_profile := (string * string * bool)%type.

Record op_report := {
  o_name : string; o_created : list (string * option shown_profile); o_removed : list string; o_unchanged : bool;
  o_description : option string; o_traffic : option (float64 * float64); o_url : string;
  name_width : nat; peer_width : nat
}.

Definition widest (l : list string) : nat := foldl (fun w s => Nat.max w (String.length s)) 0%nat l.

Section report.
Context `{Unicode} `{Disk}.

Definition show_created (name : string) : Files (option shown_profile) :=
  r ← loadProfile name;
  match r with
  | Err _ => mret None
  | Ok p => enabled ← isProfileEnabled name; mret (Some (PeerAddr p, maskPassword (Profiles.Password p), enabled))
  end.

Fixpoint show_each (names : list string) : Files (list (string * option shown_profile)) :=
  match names with
  | [] => mret []
  | n :: rest => x ← show_created n; more ← show_each rest; mret ((n, x) :: more)
  end.

Definition peers (l : list (string * option shown_profile)) : list string := omap (fun e => option_map (fun p => fst (fst p)) (snd e)) l.

(** [sub]: nil where the command does not know the configuration. *)
Definition printSubscriptionOpResult (name url : string) (created removed : list string) (sub : option SubscriptionConfig) : Files op_report :=
  l ← show_each created;
  mret {| o_name := name; o_created := l; o_removed := removed;
          o_unchanged := (length created =? 0)%nat && (length removed =? 0)%nat;
          o_description := s ← sub; if String.eqb (Description s) "" then None else Some (Description s);
          o_traffic := s ← sub; if (0 <? mant (TrafficUsedMb s)) || (0 <? mant (TrafficLimitMb s)) then Some (TrafficUsedMb s, TrafficLimitMb s) else None;
          o_url := url; name_width := widest (created ++ removed); peer_width := widest (peers l) |}.

(** One subscription of [update]: the configuration is the one that was read first. *)
Definition update_and_show (fetch : string -> option SubscriptionJSON) (now_text : fs -> string) (name : string) : Files (option (result sub_error op_report)) :=
  s ← loadSubscription name;
  match s with
  | None => mret None
  | Some sub =>
      x ← applySubscription fetch now_text name (URL sub);
      match x with
      | Err e => mret (Some (Err e))
      | Ok (created, removed) => r ← printSubscriptionOpResult name (URL sub) created removed (Some sub); mret (Some (Ok r))
      end
  end.

(** ** What is shown *)

Lemma show_created_reads n : reads (show_created n).
Proof. unfold show_created. apply reads_bind; [apply load_reads |]. intros [p | e]; [| done]. apply reads_bind; [apply enabled_reads | done]. Qed.

Lemma show_each_run names m : show_each names m = ((fun n => (n, (show_created n m).1)) <$> names, m).
Proof.
  induction names as [| n names IH]; [done |]. cbn [show_each]. rewrite reads_run by apply show_created_reads. by rewrite run_bind, IH.
Qed.

Lemma show_created_value n m : (show_created n m).1 =
  match (loadProfile n m).1 with Err _ => None | Ok p => Some (PeerAddr p, maskPassword (Profiles.Password p), (isProfileEnabled n m).1) end.
Proof. unfold show_created. rewrite reads_run by apply load_reads. destruct (loadProfile n m).1 as [p | e]; [| done]. by rewrite reads_run by apply enabled_reads. Qed.

Lemma widest_from l w s : (w <= foldl (fun w s => Nat.max w (String.length s)) w l)%nat /\ (s ∈ l -> (String.length s <= foldl (fun w s => Nat.max w (String.length s)) w l)%nat).
Proof.
  revert w. induction l as [| x l IH]; intros w; [split; [done | by intros ?%elem_of_nil] |]. cbn [foldl]. destruct (IH (Nat.max w (String.length x))) as [H1 H2].
  split; [lia |]. intros [-> | Hin]%elem_of_cons; [lia | by apply H2].
Qed.

Lemma sdrop_sdrop n k s : sdrop n (sdrop k s) = sdrop (k + n) s.
Proof. revert s. induction k as [| k IH]; intros s; [done |]. destruct s as [| c s]; [by destruct n | apply IH]. Qed.

(** A password is shown by three characters at each end, with at least one hidden, or not at all. *)
Lemma masked pwd : maskPassword pwd = "****" \/ exists a b c, pwd = a ++ b ++ c /\ b <> "" /\ String.length a = 3%nat /\ String.length c = 3%nat /\ maskPassword pwd = a ++ "****" ++ c.
Proof.
  unfold maskPassword. destruct (Nat.leb_spec (String.length pwd) 6) as [Hl | Hl]; [by left |]. right.
  exists (stake 3 pwd), (stake (String.length pwd - 6) (sdrop 3 pwd)), (sdrop (String.length pwd - 3) pwd).
  assert (sdrop (String.length pwd - 3) pwd = sdrop (String.length pwd - 6) (sdrop 3 pwd)) as E.
  { rewrite sdrop_sdrop. f_equal. lia. }
  split_and!.
  - by rewrite E, !stake_sdrop.
  - intros Hz. apply (f_equal String.length) in Hz. rewrite length_stake, length_sdrop in Hz. cbn in Hz. lia.
  - rewrite length_stake. lia.
  - rewrite length_sdrop. lia.
  - done.
Qed.

(** The report of an update changes no file and names every profile that was made, with its peer and status where it can
    be read, in columns that are wide enough; of a password at most three characters at each end are shown. *)
Theorem op_result_shown name url created removed sub m :
  let '(r, m') := printSubscriptionOpResult name url created removed sub m in
  m' = m /\ (o_created r).*1 = created /\ o_removed r = removed /\ (o_unchanged r = true <-> created = [] /\ removed = []) /\
  (forall n, n ∈ (created ++ removed)%list -> (String.length n <= name_width r)%nat) /\
  (forall n peer mask enabled, (n, Some (peer, mask, enabled)) ∈ o_created r ->
     (String.length peer <= peer_width r)%nat /\ enabled = (isProfileEnabled n m).1 /\
     exists p, (loadProfile n m).1 = Ok p /\ peer = PeerAddr p /\
       (mask = "****" \/ exists a b c, Profiles.Password p = a ++ b ++ c /\ b <> "" /\ String.length a = 3%nat /\ String.length c = 3%nat /\ mask = a ++ "****" ++ c)) /\
  (forall n, (n, None) ∈ o_created r -> is_ok (loadProfile n m).1 = false).
Proof.
  unfold printSubscriptionOpResult. rewrite run_bind, show_each_run. cbn [mret State_ret o_created o_removed o_unchanged name_width peer_width]. set (l := _ <$> created).
  split_and!; try done.
  - unfold l. clear. induction created as [| n created IH]; [done |]. cbn. f_equal. exact IH.
  - destruct created, removed; cbn; naive_solver.
  - intros n Hn. by apply widest_from.
  - intros n peer mask enabled Hin. split.
    { apply widest_from. unfold peers. apply list_elem_of_omap. eexists. split; [exact Hin | done]. }
    apply list_elem_of_fmap in Hin as (k & E & _). injection E as <- E. rewrite show_created_value in E. destruct (loadProfile n m).1 as [p | e]; [| done].
    injection E as -> -> ->. split; [done |]. exists p. split_and!; [done | done | apply masked].
  - intros n Hin. apply list_elem_of_fmap in Hin as (k & E & _). injection E as <- E. rewrite show_created_value in E. by destruct (loadProfile n m).1.
Qed.
End report.

(** ** Examples *)

Section example.
#[local] Existing Instance Targets.example_unicode.
#[local] Existing Instance Targets.example_disk.

Definition report_json : SubscriptionJSON :=
  {| j_SubscriptionName := ""; GroupName := "Provider"; j_Description := "new"; j_TrafficUsedMb := f_of_int 7; j_TrafficLimitMb := f_of_int 9;
     j_UpdatedAt := ""; j_Version := 1; j_Profiles := []; Servers := [entry "NL" "2.2.2.2:2"] |}.

Definition report_files : fs := <[SubscriptionPath "best" := SubscriptionFile example_sub]> example_files.

(** The description and the traffic are those of before. *)
Example stale_shown : let '(r, m) := update_and_show (fun _ => Some report_json) (fun _ => "now") "best" report_files in
  (match r with Some (Ok o) => Some (map fst (o_created o), o_description o, o_traffic o) | _ => None end, Description <$> (loadSubscription "best" m).1) =
  (Some (["nl"], None, None), Some "new").
Proof. by vm_compute. Qed.

Example password_masks : maskPassword <$> ["secret"; "secrets"; "correct horse"] = ["****"; "sec****ets"; "cor****rse"].
Proof. reflexivity. Qed.
End example.
